(* ===== verification/_CoqProject ===== *)
-Q . S2P
Prelude.v
Framer.v
Checker.v
GenericChain.v
EvntMgr.v
Common.v
Thread.v
Timer.v
TaskWorker.v
TaskCalls.v
NetServer.v
Proxy.v
RpcMgr.v
RpcMgrSpec.v
Io.v
NetClient.v
NetClientSpec.v
Client.v
ClientSpec.v
CmdProcessor.v
CmdProcessorSpec.v
Text.v
SonOff.v
XmppProxy.v
XmppMgr.v
XmppMgrSpec.v
XmppFiles.v
SysInfo.v
LogHandler.v
Services.v
SysRpc.v
SysmgrRpc.v
SysmgrSpec.v
XmppRpc.v
Cmdline.v
CmdlineClients.v
CmdlineServers.v
CmdlineSpec.v
CmdlineOptions.v
CmdlineRun.v
CmdlineOwn.v
StrMap.v
Settings.v
SettingsSpec.v
ADSettings.v
ADSettingsSpec.v
ADSettingsValues.v
I2CBus.v
Lcd.v
LcdSpec.v
Serial.v
Devices.v
