(* ===== verification/Prelude.v ===== *)
(** * Verification of the JSON-RPC over TCP services

    The repository is a library for services that are called by JSON-RPC over TCP, and two
    services built on it.  This development models the library and both services, and proves
    what makes them correct.  Paths below are relative to src/lib/lib-jsonrpc-tcp/ (src/ and
    include/) or to src/services/ (sysmgr/ and xmproxy/).

    ** The way of a request, and the files

    A client object ([Client], [NetClient]) builds the text of a request and sends it.  The
    server ([NetServer]) accepts the connection, cuts the bytes into messages ([Framer]) and
    queues them; the proxy ([Proxy]) checks the text ([Checker]), parses it and hands it to
    the mapper thread, which has the manager ([RpcMgr]) turn it into a packet, do the work,
    and turn the packet into the result; the response goes back through the server.  Work
    that takes long is done by the task worker ([TaskWorker]); its end, and other events, are
    reported to subscribers by the event manager ([EvntMgr]).  Every queue between threads is
    a chain ([GenericChain]); every thread is an [ADThread] ([Thread]), and the heartbeat of a
    process and its signals come from [ADTimer] ([Timer]).  A service is a set of objects with
    handlers for its own methods: the class [RpcMgr.RpcService].  The system manager
    ([SysRpc], [SysmgrRpc]) and the gateway ([XmppRpc] in front of [XmppMgr]) implement it.

    - [Prelude]: integers of the machine, automation, lemmas on lists, maps and strings.
    - [Framer]: ADJsonStreamFramer.cpp.  [Checker]: ADJsonChecker.cpp.
    - [GenericChain]: ADGenericChain.cpp.  Module [Linked] is the code with its pointers in a
      memory that maps addresses to holders; module [Chain] is what it promises, a list.  All
      other files use the list.
    - [EvntMgr]: ADEvntMgr.cpp, ADEvntNotifier.cpp.
    - [Common]: ADCommon.hpp, JsonCmnDef.h, ADCmnStringProcessor.cpp: codes, parameters,
      responses.  json-c is the class [JsonC] with the laws in [JsonCLaws].
    - [Thread]: ADThread.cpp.  [Timer]: ADTimer.cpp.
    - [TaskWorker]: ADTaskWorker.cpp step by step; [TaskCalls]: its methods as calls, and the
      interface [TaskService] with [TaskServiceLaws] that the manager uses.
    - [NetServer]: ADNetServer.cpp.  [Proxy]: ADJsonRpcProxy.cpp, ADJsonRpcMapper.cpp.
    - [RpcMgr], [RpcMgrSpec]: ADJsonRpcMgr.cpp, the manager and its own commands.
    - [Io]: the monad of the client code and the calls of the operating system.
    - [NetClient], [NetClientSpec]: ADNetClient.cpp.  [Client], [ClientSpec]:
      ADJsonRpcClient.cpp.  [CmdProcessor], [CmdProcessorSpec]: ADCmnCltCmdProcessor.cpp and
      ADThreadedSockClient.cpp.  [SonOff]: ADSonOffHttpClient.cpp.
    - [Text]: words, lines and files, as the services use them.  [Services]: how a service
      makes its packets and reads its parameters, and a call on its way through the manager.
    - [XmppProxy]: xmproxy/srv/src/ADXmppProxy.cpp.  [XmppMgr], [XmppMgrSpec], [XmppFiles]:
      XmppMgr.cpp and EvntHandler.cpp.  [XmppRpc]: XmppRpc.cpp and the objects of main.cpp.
    - [SysInfo]: ADSysInfo.cpp, the machine a service runs on (class [Host]).  [LogHandler]:
      sysmgr/srv/src/LogHandler.cpp.  [SysRpc]: SysRpc.cpp.  [SysmgrRpc]: NetRpc.cpp,
      DispCtrlRpc.cpp, CmnRpc.cpp, EventMonitor.cpp, EventHandler.cpp, DevIdent*.cpp and
      main.cpp; [SysmgrSpec] states and proves what the calls of the service promise.
    - [Cmdline]: ADCmdlineHelper.cpp, the options of all programs.  [CmdlineClients]:
      SysmgrCltCmdline.cpp and XmproxyCltCmdline.cpp.  [CmdlineServers]: MyCmdline.cpp of both
      services.  [CmdlineSpec]: how an argument is taken apart, and the usages of options;
      [CmdlineOptions]: what the options of the clients make, and that the services have it;
      [CmdlineRun]: the workers of a command line; [CmdlineOwn]: the clients' own commands.
    - [StrMap], [Settings]: strmap.cpp and settings.cpp of lib/lib-settings/, the hash table
      and the text of a settings file; [SettingsSpec]: settings as maps, and their text.
      [ADSettings]: ADSettings.cpp, a program's variables in two files with checksums;
      [ADSettingsSpec]: what is on the disk whenever a process is stopped;
      [ADSettingsValues]: the values that come back.
    - [I2CBus]: I2CBusAccess.cpp.  [Lcd]: I2CPcfLcd.cpp and I2CDualPcfLcd.cpp of the system
      manager's displays.  [LcdSpec]: what stands on such a display after each call, the
      driver as the display the system manager writes to, and main.cpp's message at start.
    - [Serial]: ADSerial.cpp and ADSerialProto.cpp, a serial port with its three threads.
      [Devices]: ADFpgaMem.cpp and ADRuntimeMinCounter.cpp.

    ** State and operations

    The fields of a class are a record with the names of the source, a method is a definition
    with its name.  Code that several threads run is a step relation or a step function: a
    step is one critical section, one access to a chain or a semaphore, or one system call,
    and a program counter per thread says where it is.  [EvntMgr], [Thread], [Timer],
    [TaskWorker], [NetServer], [Proxy] and [Serial] are modelled this way, and their invariants hold in
    every interleaving.  The client code is in the monad of [Io], whose state is the object,
    the descriptors that are open, and a trace of the calls; what the kernel answers is a
    parameter (class [Kernel]), so a theorem holds whatever it answers.  Integers have their
    width where they can leave it ([i32], [u8], ...); buffers keep their sizes, and a copy
    truncates as the code does.  What a C++ program reads from memory it has not written is a
    parameter ([junk]).

    ** What the theorems show

    - Streams: framing does not depend on how the bytes arrive, is bounded, and gives back
      what was sent (C1-C3).  The checker never leaves its tables (C4).
    - Queues: the linked chain behaves as a list, without a wrong access or a leak (C5).
    - Events: a subscription is removed exactly by a request or by failures that last, an event
      reaches exactly its subscribers (C6, C7).
    - Tasks: each has one record and its status is true (C8, C9); the worker runs the queue in
      order, in at most five steps for a task, and stops only when it is empty (C10); the
      calls of the RPC thread return (C11).
    - The server: a response reaches the connection that asked or none, the counters are
      exact, descriptors stay in range, a send is whole or an error (C12-C15).
    - The proxy: every request is answered once, in order, and none is left over; which
      requests are accepted; responses are well formed (C16-C19).
    - The manager: what its commands answer and change (C20).
    - The clients: descriptors are balanced (C21); every method of the client returns what a
      response to its own request says, or the values its shape leaves without one (C22);
      what the client writes the server reads and vice versa, commands run once (C23-C25).
    - The gateway: commands are answered in order, only the administrator changes others'
      state (C26, C27); its calls do what an abstract description of the service says (C28).
    - The system manager: its calls do what such a description says, and a task does what the
      request that started it asked for, and is told of while it runs (C29, C30).
    - Threads: a stop returns, as long as the callback does not stop or start its own thread
      meanwhile (C31); nothing runs after it (C32); the heartbeat goes on and never piles up
      (C33).
    - The command line: every server is sent what the options ask for (C34), and what they
      ask for the services have (C35).
    - Settings, as far as a line of the file can hold their texts: what is saved is read
      again, unless it has 256 characters or more (C36).  On a disk that keeps its order, and
      files of which one was right at first: a process may be stopped anywhere while it
      stores, and the next one finds the old or the new settings (C37); what was stored, and
      is not too long, is loaded into the variables of the same settings (C38).
    - Character displays: what stands on the display is what was printed on it (C39).
    - The serial port: what is scheduled is written, whole and in order, and the threads come
      to rest (C40).

    Further theorems of the files (subscriptions are unique, messages are balanced texts, queues keep the newest events,
    which object a method reaches, results of tasks reach their requester, the clients' own commands send what they say, the hash
    table of the settings is a map, no wake-up of a thread is lost, what is copied out of a response fits, no byte of the serial port is
    lost or reordered, bits of registers, the count of minutes, the arguments of an option, task identifiers, the release of packets, the files of the
    gateway and of the events, the dispositions of signals, ...) are beside them.  Several
    theorems state the code's behaviour where it differs from what comments promise; the
    manifest lists these as findings.

    ** Bounds and fuel

    Loops that follow pointers ([GenericChain]) run on fuel, and the refinement theorem shows
    that the size of the memory is enough.  Loops that wait ([Io]) run on fuel as well: a
    computation [ends] when there is an amount of fuel from which on every larger one gives
    the same result, whatever the kernel answers; [KernelLaws.credit] bounds the rounds that
    deadlines and counters leave.  Theorems of the kind C21 and C26 are stated with [ends], so
    they include termination.  Sizes are the ones of the source
    ([AD_NET_SERVER_MAX_JSON_MSG_SIZE], [FD_SETSIZE], the queue bounds 1024, 256 and 128, the
    arrays of the packets).

    ** Parameters

    json-c, gloox, [getopt_long()], [sha1sum], floating-point numbers, the kernel, the network,
    shell commands, graphic displays, the controller of a character display and the wires to
    it, the calls of a bus and the file system belong to others: each is an argument of the definitions, a class whose operations are
    those the code calls, with laws in a class of its own where a theorem needs them; every
    theorem that uses laws has an instance that satisfies them ([Common.Json],
    [XmppMgrSpec.Chat], [SysmgrSpec.Machine], [ADSettingsSpec.Drive],
    [LcdSpec.Hd44780], ...).

    ** What is not modelled, and why

    Drivers of graphic displays and
    sensors, and the libraries that came with them: they only move bytes to hardware.
    Of the serial port, the driver's own queues.  Of the character displays, the delays between commands and the time the controller needs.
    Log output, the attributes of threads, and allocation failures.  In the gateway: gloox's
    own loop and certificates; the subscriptions made at start; a command of the worker runs
    without another thread in between, and a chat session belongs to the client object it was
    opened on.  Of the settings: writes reach the disk in the order they are made, and no two
    processes store at the same time.  In the system manager: the start of the process. *)
From stdpp Require Export base list gmap strings option relations sorting.
From Stdlib Require Export ZArith Ascii Lia.

(** ** Notation *)
Declare Scope rpc_scope.
Delimit Scope rpc_scope with rpc.

(** ** C integers *)

(** Conversion of a value to a [w]-bit unsigned type. *)
Definition wrap_u (w z : Z) : Z := (z mod 2 ^ w)%Z.

(** Conversion of a value to a two's complement [w]-bit signed type. *)
Definition wrap_s (w z : Z) : Z := ((z + 2 ^ (w - 1)) mod 2 ^ w - 2 ^ (w - 1))%Z.

Abbreviation i32 := (wrap_s 32).
Abbreviation i64 := (wrap_s 64).
Abbreviation u8 := (wrap_u 8).
Abbreviation u16 := (wrap_u 16).
Abbreviation u32 := (wrap_u 32).

Definition int_max : Z := 2147483647.
Definition int_min : Z := -2147483648.

Lemma wrap_s_id (w z : Z) :
  (0 < w)%Z -> (- 2 ^ (w - 1) <= z < 2 ^ (w - 1))%Z -> wrap_s w z = z.
Proof.
  intros Hw Hz. unfold wrap_s.
  assert (2 ^ w = 2 * 2 ^ (w - 1))%Z as E.
  { rewrite <- Z.pow_succ_r by lia. f_equal; lia. }
  rewrite Z.mod_small; lia.
Qed.

Lemma i32_id (z : Z) : (int_min <= z <= int_max)%Z -> i32 z = z.
Proof. intros H. apply wrap_s_id; unfold int_min, int_max in H; simpl; lia. Qed.

Lemma i32_range (z : Z) : (int_min <= i32 z <= int_max)%Z.
Proof.
  unfold wrap_s, int_min, int_max.
  change (2 ^ (32 - 1))%Z with 2147483648%Z. change (2 ^ 32)%Z with 4294967296%Z.
  pose proof (Z.mod_pos_bound (z + 2147483648) 4294967296 eq_refl). lia.
Qed.

Lemma wrap_u_range (w z : Z) : (0 <= w)%Z -> (0 <= wrap_u w z < 2 ^ w)%Z.
Proof. intros. apply Z.mod_pos_bound, Z.pow_pos_nonneg; lia. Qed.

Lemma wrap_u_id (w z : Z) : (0 <= z < 2 ^ w)%Z -> wrap_u w z = z.
Proof. intros. apply Z.mod_small; lia. Qed.

(** ** Reachability *)

(** An invariant of every step is an invariant of every reachable state. *)
Lemma rtc_preserves {A} (R : relation A) (P : A -> Prop) (x y : A) :
  (forall a b, P a -> R a b -> P b) -> P x -> rtc R x y -> P y.
Proof. intros Hstep Hx Hr. induction Hr; eauto. Qed.

(** The same, with a second invariant that is already known. *)
Lemma rtc_preserves_with {A} (R : relation A) (I P : A -> Prop) (x y : A) :
  (forall a b, I a -> R a b -> I b) ->
  (forall a b, I a -> P a -> R a b -> P b) ->
  I x -> P x -> rtc R x y -> P y.
Proof.
  intros HI HP Ix Px Hr.
  apply (rtc_preserves R (fun a => I a /\ P a) x y); [|auto|auto].
  intros a b [Ia Pa] Hab. eauto.
Qed.

(** ** Lists *)

(** The last [n] elements of a list. *)
Definition lastn {A} (n : nat) (l : list A) : list A := drop (length l - n) l.

Lemma lastn_length {A} (n : nat) (l : list A) : length (lastn n l) = Nat.min n (length l).
Proof. unfold lastn. rewrite length_drop. lia. Qed.

Lemma lastn_all {A} (n : nat) (l : list A) : length l <= n -> lastn n l = l.
Proof. intros H. unfold lastn. replace (length l - n) with 0 by lia. done. Qed.

(** Dropping the oldest element of a full bounded queue before appending. *)
Lemma lastn_snoc_full {A} (n : nat) (l : list A) (x : A) :
  0 < n -> n <= length l -> lastn n (l ++ [x]) = tail (lastn n l) ++ [x].
Proof.
  intros Hn Hl. unfold lastn. rewrite length_app; simpl.
  replace (length l + 1 - n) with (S (length l - n)) by lia.
  rewrite drop_app_le by lia. f_equal.
  destruct (drop (length l - n) l) as [|y r] eqn:E.
  - apply (f_equal length) in E. rewrite length_drop in E. simpl in E. lia.
  - simpl. replace (S (length l - n)) with (length l - n + 1) by lia.
    rewrite <- drop_drop, E. done.
Qed.

Lemma lastn_snoc_room {A} (n : nat) (l : list A) (x : A) :
  length l < n -> lastn n (l ++ [x]) = lastn n l ++ [x].
Proof.
  intros H. rewrite !lastn_all; [done|lia|rewrite length_app; simpl; lia].
Qed.

Lemma take_min_length {A} (n : nat) (l : list A) : take (Nat.min (length l) n) l = take n l.
Proof.
  destruct (Nat.min_spec (length l) n) as [[? ->] | [? ->]]; [|done]. by rewrite !take_ge by lia.
Qed.

(** First element satisfying a test, as the C++ loops over a list find it. *)
Fixpoint find_first {A} (f : A -> bool) (l : list A) : option A :=
  match l with
  | [] => None
  | x :: r => if f x then Some x else find_first f r
  end.

(** The list without the first element satisfying a test. *)
Fixpoint remove_first {A} (f : A -> bool) (l : list A) : list A :=
  match l with
  | [] => []
  | x :: r => if f x then r else x :: remove_first f r
  end.

Lemma find_first_Some {A} (f : A -> bool) (l : list A) (x : A) :
  find_first f l = Some x -> x ∈ l /\ f x = true.
Proof.
  induction l as [|y r IH]; simpl; [done|].
  destruct (f y) eqn:E; intros H; simplify_eq.
  - split; [set_solver|done].
  - destruct (IH H). split; [set_solver|done].
Qed.

Lemma find_first_None {A} (f : A -> bool) (l : list A) :
  find_first f l = None <-> forall x, x ∈ l -> f x = false.
Proof.
  induction l as [|y r IH]; simpl.
  - split; [set_solver|done].
  - destruct (f y) eqn:E; split.
    + done.
    + intros H. specialize (H y). rewrite H in E; set_solver.
    + intros H x Hx. apply elem_of_cons in Hx as [->|Hx]; [done|]. by apply IH.
    + intros H. apply IH. intros x Hx. apply H. set_solver.
Qed.

Lemma remove_first_sublist {A} (f : A -> bool) (l : list A) : remove_first f l `sublist_of` l.
Proof.
  induction l as [|y r IH]; simpl; [done|].
  destruct (f y); [by apply sublist_cons|by apply sublist_skip].
Qed.

Lemma remove_first_none {A} (f : A -> bool) (l : list A) :
  find_first f l = None -> remove_first f l = l.
Proof. induction l as [|y r IH]; simpl; [done|]. destruct (f y); [done|]. intros. by rewrite IH. Qed.

Lemma remove_first_perm {A} (f : A -> bool) (l : list A) (x : A) :
  find_first f l = Some x -> l ≡ₚ x :: remove_first f l.
Proof.
  induction l as [|y r IH]; simpl; [done|].
  destruct (f y); intros; simplify_eq; [done|].
  rewrite (IH H) at 1. apply Permutation_swap.
Qed.

Lemma map_sublist {A B} (f : A -> B) (l k : list A) :
  l `sublist_of` k -> map f l `sublist_of` map f k.
Proof. apply (fmap_sublist f). Qed.

(** ** Bytes *)

(** The bytes of a string in which the single quote stands for the double quote,
    so that JSON texts can be written as they are sent. *)
Definition bytes (s : string) : list ascii :=
  map (fun c => if (c =? "'")%char then "034"%char else c) (String.list_ascii_of_string s).

(** ** Automation *)

Create HintDb rpc discriminated.
#[export] Hint Resolve lastn_length remove_first_sublist i32_range : rpc.
Create Rewrite HintDb rpc_simpl.
#[export] Hint Rewrite @lastn_length @length_app @length_drop @length_take : rpc_simpl.

(** Splits the matches and conditionals of the goal and of the context. *)
Ltac split_cases := repeat (case_match || case_decide); simplify_eq/=; try done.

(** Turns boolean comparisons on [Z] and [nat] into propositions. *)
Ltac bool_to_prop :=
  repeat match goal with
  | H : (_ && _)%bool = true |- _ => apply andb_true_iff in H as [? ?]
  | H : (_ || _)%bool = false |- _ => apply orb_false_iff in H as [? ?]
  | H : negb _ = true |- _ => apply negb_true_iff in H
  | H : negb _ = false |- _ => apply negb_false_iff in H
  | H : (_ =? _)%Z = true |- _ => apply Z.eqb_eq in H
  | H : (_ =? _)%Z = false |- _ => apply Z.eqb_neq in H
  | H : (_ <? _)%Z = true |- _ => apply Z.ltb_lt in H
  | H : (_ <? _)%Z = false |- _ => apply Z.ltb_ge in H
  | H : (_ <=? _)%Z = true |- _ => apply Z.leb_le in H
  | H : (_ <=? _)%Z = false |- _ => apply Z.leb_gt in H
  | H : (_ =? _)%nat = true |- _ => apply Nat.eqb_eq in H
  | H : (_ =? _)%nat = false |- _ => apply Nat.eqb_neq in H
  | H : bool_decide _ = true |- _ => apply bool_decide_eq_true in H
  | H : bool_decide _ = false |- _ => apply bool_decide_eq_false in H
  end.
