(* ===== verification/Framer.v ===== *)
(** * The stream framer (src/lib/lib-jsonrpc-tcp/src/ADJsonStreamFramer.cpp)

    [ADJsonStreamFramer] cuts the byte stream of one connection into complete
    top-level JSON values.  The first half of the file is the class as it is
    written (buffer, scan position, flags); the second half is a byte-at-a-time
    specification of the same framing and the theorems that relate them. *)
From S2P Require Import Prelude.

(** ** The class *)

(** [ADJSON_STREAM_FRAMER_DEFAULT_MAX_MSG] *)
Definition ADJSON_STREAM_FRAMER_DEFAULT_MAX_MSG : Z := 256 * 1024.

(** The members of the class; [scan] and [start] are positions in [buf]. *)
Record ADJsonStreamFramer := Framer {
  buf : list ascii;
  ready : list (list ascii);
  max_msg : Z;
  scan : nat;
  start : nat;
  depth : Z;
  in_string : bool;
  escape : bool;
  error : bool;
}.

(** The constructor. *)
Definition new_framer (max_msg_size : Z) : ADJsonStreamFramer :=
  {| buf := []; ready := []; max_msg := max_msg_size; scan := 0; start := 0;
     depth := 0; in_string := false; escape := false; error := false |}.

Definition reset (f : ADJsonStreamFramer) : ADJsonStreamFramer :=
  {| buf := []; ready := []; max_msg := max_msg f; scan := 0; start := 0;
     depth := 0; in_string := false; escape := false; error := false |}.

Definition pending_bytes (f : ADJsonStreamFramer) : nat := length (buf f).

Definition available (f : ADJsonStreamFramer) : nat := length (ready f).

Definition has_error (f : ADJsonStreamFramer) : bool := error f.

(** [next()]: the popped message, or [None] for [false]. *)
Definition next (f : ADJsonStreamFramer) : option (list ascii) * ADJsonStreamFramer :=
  match ready f with
  | [] => (None, f)
  | m :: r =>
      (Some m, {| buf := buf f; ready := r; max_msg := max_msg f; scan := scan f;
                  start := start f; depth := depth f; in_string := in_string f;
                  escape := escape f; error := error f |})
  end.

Definition NUL : ascii := "000".
Definition TAB : ascii := "009".
Definition LF : ascii := "010".
Definition CR : ascii := "013".
Definition DQUOTE : ascii := "034".
Definition BACKSLASH : ascii := "092".

(** The bytes skipped between messages. *)
Definition is_separator (c : ascii) : bool :=
  (c =? " ")%char || (c =? TAB)%char || (c =? CR)%char || (c =? LF)%char
  || (c =? NUL)%char || (c =? ",")%char.

Definition is_open (c : ascii) : bool := (c =? "{")%char || (c =? "[")%char.
Definition is_close (c : ascii) : bool := (c =? "}")%char || (c =? "]")%char.

(** [buf.substr(start, n)] *)
Definition substr (l : list ascii) (from n : nat) : list ascii := take n (drop from l).

Definition set_scanner (f : ADJsonStreamFramer) (d : Z) (i e : bool) : ADJsonStreamFramer :=
  {| buf := buf f; ready := ready f; max_msg := max_msg f; scan := scan f; start := start f;
     depth := d; in_string := i; escape := e; error := error f |}.

Definition set_error (f : ADJsonStreamFramer) : ADJsonStreamFramer :=
  {| buf := buf f; ready := ready f; max_msg := max_msg f; scan := scan f; start := start f;
     depth := depth f; in_string := in_string f; escape := escape f; error := true |}.

(** One iteration of the [for] loop of [feed()] at byte [c = buf[scan]], without
    the increment of [scan]; [consumed] is the local of the same name. *)
Definition scan_byte (c : ascii) (f : ADJsonStreamFramer) (consumed : nat)
  : ADJsonStreamFramer * nat :=
  if (depth f =? 0)%Z then
    if is_separator c then (f, S (scan f))
    else if negb (c =? "{")%char && negb (c =? "[")%char then (set_error f, consumed)
    else ({| buf := buf f; ready := ready f; max_msg := max_msg f; scan := scan f;
             start := scan f; depth := 1; in_string := false; escape := false;
             error := error f |}, consumed)
  else if (Z.of_nat (scan f - start f + 1) >? max_msg f)%Z then (set_error f, consumed)
  else if in_string f then
    if escape f then (set_scanner f (depth f) true false, consumed)
    else if (c =? BACKSLASH)%char then (set_scanner f (depth f) true true, consumed)
    else if (c =? DQUOTE)%char then (set_scanner f (depth f) false (escape f), consumed)
    else (f, consumed)
  else if (c =? DQUOTE)%char then (set_scanner f (depth f) true (escape f), consumed)
  else if is_open c then (set_scanner f (depth f + 1) (in_string f) (escape f), consumed)
  else if is_close c then
    let f' := set_scanner f (depth f - 1) (in_string f) (escape f) in
    if (depth f' =? 0)%Z then
      ({| buf := buf f'; ready := ready f' ++ [substr (buf f') (start f') (scan f' - start f' + 1)];
          max_msg := max_msg f'; scan := scan f'; start := start f'; depth := depth f';
          in_string := in_string f'; escape := escape f'; error := error f' |}, S (scan f'))
    else (f', consumed)
  else (f, consumed).

Definition incr_scan (f : ADJsonStreamFramer) : ADJsonStreamFramer :=
  {| buf := buf f; ready := ready f; max_msg := max_msg f; scan := S (scan f); start := start f;
     depth := depth f; in_string := in_string f; escape := escape f; error := error f |}.

(** The [for] loop; [rest] is [buf] from position [scan] on, and an error leaves
    the loop before the increment. *)
Fixpoint scan_loop (rest : list ascii) (f : ADJsonStreamFramer) (consumed : nat)
  : ADJsonStreamFramer * nat :=
  match rest with
  | [] => (f, consumed)
  | c :: r =>
      let '(f', consumed') := scan_byte c f consumed in
      if error f' then (f', consumed') else scan_loop r (incr_scan f') consumed'
  end.

(** [feed()]: the return value (number of complete messages, or -1) and the new
    state.  [data] is the [len] bytes appended; NULL or [len = 0] is the empty list. *)
Definition feed (f : ADJsonStreamFramer) (data : list ascii) : Z * ADJsonStreamFramer :=
  if error f then (-1, f)%Z
  else
    let f0 := {| buf := buf f ++ data; ready := ready f; max_msg := max_msg f; scan := scan f;
                 start := start f; depth := depth f; in_string := in_string f;
                 escape := escape f; error := error f |} in
    let '(f1, consumed) := scan_loop (drop (scan f0) (buf f0)) f0 0 in
    if error f1 then
      ((-1)%Z, {| buf := []; ready := ready f1; max_msg := max_msg f1; scan := 0; start := 0;
                  depth := 0; in_string := in_string f1; escape := escape f1; error := true |})
    else
      let consumed := if ((depth f1 >? 0)%Z && (consumed <? start f1)) then start f1 else consumed in
      let f2 :=
        if 0 <? consumed then
          {| buf := drop consumed (buf f1); ready := ready f1; max_msg := max_msg f1;
             scan := scan f1 - consumed;
             start := if (depth f1 >? 0)%Z then start f1 - consumed else start f1;
             depth := depth f1; in_string := in_string f1; escape := escape f1;
             error := error f1 |}
        else f1 in
      (Z.of_nat (length (ready f2)), f2).

(** ** The specification: one byte at a time

    Between messages, inside a message (its bytes so far, the bracket depth and
    the two string flags), or stopped by a framing error. *)
Inductive fmode :=
| FIdle
| FMsg (p : list ascii) (d : Z) (i e : bool)
| FError.

(** The next mode and the message completed by byte [c], if any. *)
Definition spec_step (max : Z) (m : fmode) (c : ascii) : fmode * list (list ascii) :=
  match m with
  | FError => (FError, [])
  | FIdle =>
      if is_separator c then (FIdle, [])
      else if is_open c then (FMsg [c] 1 false false, []) else (FError, [])
  | FMsg p d i e =>
      if (Z.of_nat (length p) + 1 >? max)%Z then (FError, [])
      else
        let p' := p ++ [c] in
        if i then
          if e then (FMsg p' d true false, [])
          else if (c =? BACKSLASH)%char then (FMsg p' d true true, [])
          else if (c =? DQUOTE)%char then (FMsg p' d false false, [])
          else (FMsg p' d true false, [])
        else if (c =? DQUOTE)%char then (FMsg p' d true false, [])
        else if is_open c then (FMsg p' (d + 1) false false, [])
        else if is_close c then
          if (d - 1 =? 0)%Z then (FIdle, [p']) else (FMsg p' (d - 1) false false, [])
        else (FMsg p' d false false, [])
  end.

Fixpoint spec_run (max : Z) (m : fmode) (data : list ascii) : fmode * list (list ascii) :=
  match data with
  | [] => (m, [])
  | c :: r =>
      let '(m1, o1) := spec_step max m c in
      let '(m2, o2) := spec_run max m1 r in
      (m2, o1 ++ o2)
  end.

(** ** The class refines the specification *)

(** The mode a state of the class stands for. *)
Definition abs_mode (f : ADJsonStreamFramer) : fmode :=
  if error f then FError
  else if (depth f =? 0)%Z then FIdle
  else FMsg (substr (buf f) (start f) (scan f - start f)) (depth f) (in_string f) (escape f).

(** Holds at every iteration of the loop: everything before [start] (in a
    message) or before [scan] (between messages) may be dropped. *)
Record scan_ok (f : ADJsonStreamFramer) (consumed : nat) : Prop := {
  so_depth : (0 <= depth f)%Z;
  so_idle : depth f = 0%Z -> consumed = scan f;
  so_msg : (0 < depth f)%Z -> consumed <= start f /\ start f <= scan f;
  so_bound : scan f <= length (buf f);
  so_escape : in_string f = false -> escape f = false;
}.

(** Holds between calls. *)
Record framer_ok (f : ADJsonStreamFramer) : Prop := {
  fo_scan : scan f = length (buf f);
  fo_idle : depth f = 0%Z -> buf f = [];
  fo_msg : (0 < depth f)%Z -> start f = 0;
  fo_depth : (0 <= depth f)%Z;
  fo_error : error f = true -> buf f = [];
  fo_escape : error f = false -> in_string f = false -> escape f = false;
}.

Lemma substr_snoc (l : list ascii) (i k : nat) (c : ascii) :
  i <= k -> l !! k = Some c -> substr l i (k - i) ++ [c] = substr l i (S k - i).
Proof.
  intros Hik Hc. unfold substr. replace (S k - i) with (S (k - i)) by lia.
  symmetry. apply take_S_r. rewrite lookup_drop. by replace (i + (k - i)) with k by lia.
Qed.

Lemma substr_length (l : list ascii) (i k : nat) :
  i <= k -> k <= length l -> length (substr l i (k - i)) = k - i.
Proof. intros. unfold substr. rewrite length_take, length_drop. lia. Qed.

(** What one iteration establishes, for a step of the specification to mode [m]
    that completes the messages [out]. *)
Definition step_refined (f : ADJsonStreamFramer) (r : ADJsonStreamFramer * nat)
    (s : fmode * list (list ascii)) : Prop :=
  ready r.1 = ready f ++ s.2 /\ max_msg r.1 = max_msg f /\ buf r.1 = buf f /\
  scan r.1 = scan f /\ abs_mode (incr_scan r.1) = s.1 /\
  (error r.1 = false -> scan_ok (incr_scan r.1) r.2).

(** Closes the goals [step_refined] leaves once the byte has been classified. *)
Ltac refined_tac :=
  unfold step_refined, abs_mode; simpl; split_and!; rewrite ?app_nil_r;
  try done; try (intros _; constructor; simpl; lia || done || tauto || (intros; lia)).

Lemma scan_byte_idle (f : ADJsonStreamFramer) (consumed : nat) (c : ascii) :
  scan_ok f consumed -> error f = false -> buf f !! scan f = Some c -> depth f = 0%Z ->
  step_refined f (scan_byte c f consumed) (spec_step (max_msg f) FIdle c).
Proof.
  intros [Hd Hi Hm Hb He] Herr Hc E0. pose proof (lookup_lt_Some _ _ _ Hc) as Hlt.
  specialize (Hi E0). unfold scan_byte, spec_step, is_open. rewrite E0. simpl.
  destruct (is_separator c).
  { refined_tac. by rewrite Herr, E0. }
  destruct (c =? "{")%char, (c =? "[")%char; refined_tac; rewrite ?Herr; simpl.
  all: try (unfold substr; replace (S (scan f) - scan f) with 1 by lia;
            erewrite drop_S by eauto; done).
Qed.

Lemma scan_byte_msg (f : ADJsonStreamFramer) (consumed : nat) (c : ascii) :
  scan_ok f consumed -> error f = false -> buf f !! scan f = Some c -> (0 < depth f)%Z ->
  step_refined f (scan_byte c f consumed)
    (spec_step (max_msg f)
       (FMsg (substr (buf f) (start f) (scan f - start f)) (depth f) (in_string f) (escape f)) c).
Proof.
  intros [Hd Hi Hm Hb He] Herr Hc E0. pose proof (lookup_lt_Some _ _ _ Hc) as Hlt.
  specialize (Hm E0). unfold scan_byte, spec_step.
  rewrite (substr_snoc _ _ _ c), substr_length by (done || lia).
  replace (Z.of_nat (scan f - start f) + 1)%Z with (Z.of_nat (scan f - start f + 1)) by lia.
  replace (depth f =? 0)%Z with false by lia.
  destruct (_ >? _)%Z; [refined_tac|].
  destruct (in_string f) eqn:Ei.
  { destruct (escape f) eqn:Ee; [|destruct (c =? BACKSLASH)%char; [|destruct (c =? DQUOTE)%char]];
      refined_tac; rewrite ?Herr, ?Ei, ?Ee; simpl.
    all: by replace (depth f =? 0)%Z with false by lia. }
  specialize (He eq_refl). rewrite He.
  destruct (c =? DQUOTE)%char; [|destruct (is_open c); [|destruct (is_close c);
    [simpl; destruct (depth f - 1 =? 0)%Z eqn:E1|]]];
    bool_to_prop; refined_tac; rewrite ?Herr, ?Ei, ?He; simpl.
  all: try (replace (_ =? 0)%Z with false by lia; done).
  all: try (replace (_ =? 0)%Z with true by lia; done).
  by replace (S (scan f) - start f) with (scan f - start f + 1) by lia.
Qed.

(** One iteration of the loop is one step of the specification. *)
Lemma scan_byte_refines (f : ADJsonStreamFramer) (consumed : nat) (c : ascii) :
  scan_ok f consumed -> error f = false -> buf f !! scan f = Some c ->
  step_refined f (scan_byte c f consumed) (spec_step (max_msg f) (abs_mode f) c).
Proof.
  intros Hok Herr Hc. unfold abs_mode. rewrite Herr.
  destruct (Z.eqb_spec (depth f) 0) as [E0|E0].
  - by apply scan_byte_idle.
  - apply scan_byte_msg; try done. destruct Hok. lia.
Qed.

Lemma spec_run_error (max : Z) (data : list ascii) : spec_run max FError data = (FError, []).
Proof. induction data as [|c r IH]; simpl; [done|]. by rewrite IH. Qed.

Lemma spec_run_app (max : Z) (m : fmode) (a b : list ascii) :
  spec_run max m (a ++ b) =
    let '(m1, o1) := spec_run max m a in
    let '(m2, o2) := spec_run max m1 b in (m2, o1 ++ o2).
Proof.
  revert m; induction a as [|c r IH]; intros m; simpl.
  - by destruct (spec_run max m b).
  - destruct (spec_step max m c) as [m1 o1]. rewrite IH.
    destruct (spec_run max m1 r) as [m2 o2]. destruct (spec_run max m2 b) as [m3 o3].
    by rewrite app_assoc.
Qed.

(** The loop refines the run of the specification over the rest of the buffer. *)
Lemma scan_loop_refines (rest : list ascii) (f : ADJsonStreamFramer) (consumed : nat) :
  scan_ok f consumed -> error f = false -> drop (scan f) (buf f) = rest ->
  let '(f', consumed') := scan_loop rest f consumed in
  let '(m, out) := spec_run (max_msg f) (abs_mode f) rest in
  ready f' = ready f ++ out /\ max_msg f' = max_msg f /\ buf f' = buf f /\
  (if error f' then m = FError
   else abs_mode f' = m /\ scan_ok f' consumed' /\ scan f' = length (buf f)).
Proof.
  revert f consumed; induction rest as [|c r IH]; intros f consumed Hok Herr Hrest; simpl.
  - rewrite app_nil_r, Herr. split_and!; try done.
    destruct Hok. apply (f_equal length) in Hrest. rewrite length_drop in Hrest. simpl in *. lia.
  - assert (buf f !! scan f = Some c) as Hc.
    { rewrite <- (Nat.add_0_r (scan f)), <- lookup_drop, Hrest. done. }
    pose proof (scan_byte_refines f consumed c Hok Herr Hc) as (Hr & Hx & Hb & Hs & Hm & Hok').
    destruct (scan_byte c f consumed) as [f1 consumed1].
    destruct (spec_step (max_msg f) (abs_mode f) c) as [m1 o1]. simpl in *.
    destruct (error f1) eqn:E1.
    + rewrite E1. assert (m1 = FError) as ->.
      { rewrite <- Hm. unfold abs_mode, incr_scan. simpl. by rewrite E1. }
      rewrite spec_run_error, app_nil_r. done.
    + assert (drop (scan (incr_scan f1)) (buf (incr_scan f1)) = r) as Hd.
      { simpl. rewrite Hs, Hb. erewrite drop_S in Hrest by done. by simplify_eq. }
      specialize (IH (incr_scan f1) consumed1 (Hok' eq_refl) E1 Hd).
      destruct (scan_loop r (incr_scan f1) consumed1) as [f2 consumed2].
      rewrite Hm in IH. simpl in IH. rewrite Hx in IH.
      destruct (spec_run (max_msg f) m1 r) as [m2 o2].
      destruct IH as (IHr & IHx & IHb & IHe). rewrite IHr, Hr, app_assoc. simpl in *.
      rewrite Hb in IHb, IHe. done.
Qed.

Lemma new_framer_ok (max : Z) : framer_ok (new_framer max).
Proof. by constructor. Qed.

Lemma reset_ok (f : ADJsonStreamFramer) : framer_ok (reset f).
Proof. by constructor. Qed.

Lemma next_ok (f : ADJsonStreamFramer) : framer_ok f -> framer_ok (next f).2.
Proof. intros []. unfold next. destruct (ready f); by constructor. Qed.

Lemma abs_mode_rest (f : ADJsonStreamFramer) (data : list ascii) :
  framer_ok f -> error f = false -> (0 < depth f)%Z ->
  substr (buf f ++ data) (start f) (scan f - start f) = buf f.
Proof.
  intros [Hs _ Hm _ _ _] He Hd. rewrite Hs, (Hm Hd), Nat.sub_0_r. unfold substr.
  by rewrite drop_0, take_app_length.
Qed.

(** What a call of [feed] establishes, [r] being its result. *)
Record feed_spec (f : ADJsonStreamFramer) (data : list ascii) (r : Z * ADJsonStreamFramer) : Prop := {
  fs_mode : abs_mode r.2 = (spec_run (max_msg f) (abs_mode f) data).1;
  fs_ready : ready r.2 = ready f ++ (spec_run (max_msg f) (abs_mode f) data).2;
  fs_max : max_msg r.2 = max_msg f;
  fs_ok : framer_ok r.2;
  fs_ret : r.1 = if error r.2 then (-1)%Z else Z.of_nat (available r.2);
}.

(** The compaction at the end of [feed()] keeps the mode. *)
Lemma compact_refines (f : ADJsonStreamFramer) (consumed : nat) :
  scan_ok f consumed -> scan f = length (buf f) -> error f = false ->
  let k := if ((depth f >? 0)%Z && (consumed <? start f)) then start f else consumed in
  let f2 := if 0 <? k then
      {| buf := drop k (buf f); ready := ready f; max_msg := max_msg f; scan := scan f - k;
         start := if (depth f >? 0)%Z then start f - k else start f; depth := depth f;
         in_string := in_string f; escape := escape f; error := error f |} else f in
  framer_ok f2 /\ abs_mode f2 = abs_mode f /\ ready f2 = ready f /\ max_msg f2 = max_msg f /\
  error f2 = false.
Proof.
  intros [Hd Hi Hm Hb He] Hs Herr k f2.
  assert (k = if (depth f >? 0)%Z then start f else scan f) as Hk.
  { unfold k. destruct (Z.gtb_spec (depth f) 0) as [H|H]; simpl.
    - destruct (Nat.ltb_spec consumed (start f)); [done|]. specialize (Hm H). lia.
    - apply Hi. lia. }
  assert (framer_ok f2 /\ abs_mode f2 = abs_mode f) as [? ?];
    [|unfold f2; destruct (0 <? k); done].
  unfold f2, abs_mode. destruct (Nat.ltb_spec 0 k) as [Hk0|Hk0]; simpl; rewrite ?Herr.
  - destruct (Z.gtb_spec (depth f) 0) as [H|H]; rewrite Hk.
    + split.
      * specialize (Hm H). constructor; simpl; try done; try (intros; lia).
        rewrite length_drop. lia.
      * replace (depth f =? 0)%Z with false by lia.
        unfold substr. by rewrite drop_drop, Nat.sub_diag, Nat.add_0_r, Nat.sub_0_r.
    + split; [|by replace (depth f =? 0)%Z with true by lia].
      constructor; simpl; try done; try (intros; lia).
      * rewrite length_drop. lia.
      * intros. rewrite Hs. apply drop_all.
  - split; [|done]. destruct (Z.gtb_spec (depth f) 0) as [H|H].
    + specialize (Hm H). constructor; try done; intros; lia || congruence.
    + constructor; try done; intros; try (lia || congruence).
      apply nil_length_inv. lia.
Qed.

(** [feed()] refines the specification: the messages it queues, the mode it is
    left in and its return value are those of the byte-at-a-time framing. *)
Lemma feed_refines (f : ADJsonStreamFramer) (data : list ascii) :
  framer_ok f -> feed_spec f data (feed f data).
Proof.
  intros Hok. unfold feed. destruct (error f) eqn:Herr.
  { assert (abs_mode f = FError) as Ha by (unfold abs_mode; by rewrite Herr).
    constructor; simpl; rewrite ?Ha, ?spec_run_error, ?app_nil_r, ?Herr; done. }
  set (f0 := {| buf := buf f ++ data |}).
  assert (scan_ok f0 0) as Hsok0.
  { destruct Hok as [H1 H2 H3 H4 H5 H6]. constructor; simpl; try done.
    - intros E. rewrite H1, (H2 E). done.
    - intros E. rewrite (H3 E). lia.
    - rewrite length_app. lia.
    - auto. }
  assert (abs_mode f0 = abs_mode f) as E0.
  { unfold abs_mode, f0. simpl. rewrite Herr. destruct (Z.eqb_spec (depth f) 0); [done|].
    destruct (Hok) as [? ? ? ? ? ?].
    pose proof (abs_mode_rest f [] Hok Herr ltac:(lia)) as E. rewrite app_nil_r in E.
    rewrite E, abs_mode_rest by (done || lia). done. }
  assert (drop (scan f0) (buf f0) = data) as E1.
  { destruct Hok as [H1 _ _ _ _ _]. simpl. rewrite H1. apply drop_app_length. }
  pose proof (scan_loop_refines data f0 0 Hsok0 eq_refl E1) as H.
  rewrite E1. rewrite E0 in H. simpl in H.
  destruct (scan_loop data f0 0) as [f1 consumed].
  destruct (spec_run (max_msg f) (abs_mode f) data) as [m out] eqn:Es.
  destruct H as (Hr & Hx & Hb & He). destruct (error f1) eqn:E2.
  - subst m. constructor; simpl; rewrite ?Es; done.
  - destruct He as (Hm & Hsok & Hs).
    assert (scan f1 = length (buf f1)) as Hs' by (rewrite Hs, Hb; done).
    pose proof (compact_refines f1 consumed Hsok Hs' E2) as Hc. simpl in Hc.
    rewrite E2 in Hc. destruct Hc as (? & Ha & Hy & Hz & Hw).
    constructor; simpl; rewrite ?Es; simpl; try done; try congruence.
    unfold available. by rewrite Hw.
Qed.

(** ** Chunking *)

(** States a client cannot tell apart: same mode, queue and limit ([start] is
    dead between messages, the string flags are dead after an error). *)
Definition framer_eq (f g : ADJsonStreamFramer) : Prop :=
  framer_ok f /\ framer_ok g /\ abs_mode f = abs_mode g /\ ready f = ready g /\
  max_msg f = max_msg g.

#[export] Instance framer_eq_sym : Symmetric framer_eq.
Proof. intros f g (?&?&?&?&?). unfold framer_eq. auto. Qed.

#[export] Instance framer_eq_trans : Transitive framer_eq.
Proof. intros f g h (?&?&?&?&?) (?&?&?&?&?). unfold framer_eq. split_and!; congruence || done. Qed.

Lemma framer_eq_refl (f : ADJsonStreamFramer) : framer_ok f -> framer_eq f f.
Proof. unfold framer_eq. auto. Qed.

#[export] Instance feed_proper : Proper (framer_eq ==> eq ==> prod_relation eq framer_eq) feed.
Proof.
  intros f g (Hf & Hg & Ha & Hr & Hx) d _ <-.
  destruct (feed_refines f d Hf) as [M1 R1 X1 O1 V1].
  destruct (feed_refines g d Hg) as [M2 R2 X2 O2 V2].
  assert (framer_eq (feed f d).2 (feed g d).2) as E.
  { unfold framer_eq. rewrite M1, M2, R1, R2, X1, X2, Ha, Hr, Hx. done. }
  split; [|done]. destruct E as (_ & _ & Ea & Er & _). simpl. rewrite V1, V2.
  unfold abs_mode in Ea. unfold available. rewrite Er.
  repeat case_match; done.
Qed.

#[export] Instance next_proper : Proper (framer_eq ==> prod_relation eq framer_eq) next.
Proof.
  intros f g (Hf & Hg & Ha & Hr & Hx).
  assert (framer_eq (next f).2 (next g).2) as E.
  { unfold framer_eq. split_and!; try by apply next_ok.
    all: unfold next; destruct (ready f) eqn:E; rewrite <- Hr; first [exact Ha|exact Hx|simpl; congruence]. }
  split; [|done]. simpl. unfold next. rewrite <- Hr. by destruct (ready f).
Qed.

(** The calls of [feed()] the receive loop makes for the segments of a stream. *)
Definition feed_all (f : ADJsonStreamFramer) (chunks : list (list ascii)) : ADJsonStreamFramer :=
  fold_left (fun f c => (feed f c).2) chunks f.

Lemma feed_app (f : ADJsonStreamFramer) (a b : list ascii) :
  framer_ok f -> framer_eq (feed (feed f a).2 b).2 (feed f (a ++ b)).2.
Proof.
  intros Hf. destruct (feed_refines f a Hf) as [M1 R1 X1 O1 _].
  destruct (feed_refines _ b O1) as [M2 R2 X2 O2 _].
  destruct (feed_refines f (a ++ b) Hf) as [M3 R3 X3 O3 _].
  unfold framer_eq. rewrite M2, M3, R2, R3, X2, X3, M1, R1, X1, spec_run_app.
  destruct (spec_run (max_msg f) (abs_mode f) a) as [m1 o1]. simpl.
  destruct (spec_run (max_msg f) m1 b) as [m2 o2]. simpl. by rewrite app_assoc.
Qed.

Lemma feed_nil (f : ADJsonStreamFramer) : framer_ok f -> framer_eq (feed f []).2 f.
Proof.
  intros Hf. destruct (feed_refines f [] Hf) as [M R X O _]. unfold framer_eq.
  rewrite M, R, X. simpl. by rewrite app_nil_r.
Qed.

Lemma feed_ok (f : ADJsonStreamFramer) (d : list ascii) : framer_ok f -> framer_ok (feed f d).2.
Proof. intros Hf. by destruct (feed_refines f d Hf). Qed.

Lemma feed_all_concat (f : ADJsonStreamFramer) (chunks : list (list ascii)) :
  framer_ok f -> framer_eq (feed_all f chunks) (feed f (concat chunks)).2.
Proof.
  revert f; induction chunks as [|c r IH]; intros f Hf; simpl.
  - symmetry. by apply feed_nil.
  - etransitivity; [by apply IH, feed_ok|]. by apply feed_app.
Qed.

(** C1: the split points of the stream do not matter.  Whatever the segments in
    which TCP delivers a byte stream, feeding them one after the other leaves the
    framer in a state a client cannot tell from the one after feeding the whole
    stream at once: the same complete messages in the same order, the same error
    status and the same number of pending bytes. *)
Theorem framer_chunking (f : ADJsonStreamFramer) (chunks : list (list ascii)) :
  framer_ok f ->
  let g := feed_all f chunks in let h := (feed f (concat chunks)).2 in
  framer_eq g h /\ ready g = ready h /\ has_error g = has_error h /\
  pending_bytes g = pending_bytes h.
Proof.
  intros Hf g h. pose proof (feed_all_concat f chunks Hf) as E. split; [done|].
  destruct E as ([S1 I1 M1 D1 E1 _] & [S2 I2 M2 D2 E2 _] & Ha & Hr & _).
  fold g h in S1, I1, M1, D1, E1, S2, I2, M2, D2, E2, Ha, Hr. split; [done|].
  unfold has_error, pending_bytes. unfold abs_mode in Ha.
  destruct (error g) eqn:Eg, (error h) eqn:Eh; repeat case_match; simplify_eq; bool_to_prop.
  - by rewrite E1, E2.
  - by rewrite I1, I2.
  - split; [done|]. rewrite S1, S2, M1, M2, !Nat.sub_0_r in * by lia.
    unfold substr in *. rewrite !drop_0, !firstn_all in *. congruence.
Qed.

Lemma framer_chunking_witness :
  let s := bytes "{'a':[1,2]}" in
  framer_ok (new_framer 64) /\
  ready (feed_all (new_framer 64) [take 3 s; drop 3 s]) = [s].
Proof.
  split; [apply new_framer_ok|].
  pose proof (framer_chunking (new_framer 64) [take 3 (bytes "{'a':[1,2]}");
    drop 3 (bytes "{'a':[1,2]}")] (new_framer_ok 64)) as (_ & E & _).
  rewrite E. vm_compute. reflexivity.
Defined.

(** ** Bounded memory *)

(** The partial message of a mode and its depth stay within the limit. *)
Definition mode_bounded (max : Z) (m : fmode) : Prop :=
  match m with
  | FMsg p d _ _ => 1 <= length p /\ (Z.of_nat (length p) <= Z.max 1 max)%Z /\
                    (1 <= d <= Z.of_nat (length p))%Z
  | _ => True
  end.

Lemma spec_step_bounded (max : Z) (m : fmode) (c : ascii) :
  mode_bounded max m ->
  mode_bounded max (spec_step max m c).1 /\
  Forall (fun x => (Z.of_nat (length x) <= max)%Z) (spec_step max m c).2.
Proof.
  intros H. unfold spec_step. destruct m as [|p d i e|]; [| |done].
  - destruct (is_separator c); [done|]. destruct (is_open c); [|done]. simpl.
    split; [lia|constructor].
  - destruct H as (H1 & H2 & H3). destruct (Z.gtb_spec (Z.of_nat (length p) + 1) max); [done|].
    repeat case_match; bool_to_prop; simpl; rewrite ?length_app; simpl;
      (split; [try lia; done|]); repeat constructor; rewrite ?length_app; simpl; lia.
Qed.

Lemma spec_run_bounded (max : Z) (m : fmode) (data : list ascii) :
  mode_bounded max m ->
  mode_bounded max (spec_run max m data).1 /\
  Forall (fun x => (Z.of_nat (length x) <= max)%Z) (spec_run max m data).2.
Proof.
  revert m; induction data as [|c r IH]; intros m H; simpl; [done|].
  destruct (spec_step_bounded max m c H) as [H1 H2].
  destruct (spec_step max m c) as [m1 o1]. destruct (IH m1 H1) as [H3 H4].
  destruct (spec_run max m1 r) as [m2 o2]. simpl in *. split; [done|]. by apply Forall_app.
Qed.

Lemma mode_bounded_pending (f : ADJsonStreamFramer) (max : Z) :
  framer_ok f -> mode_bounded max (abs_mode f) ->
  (Z.of_nat (pending_bytes f) <= Z.max 1 max)%Z /\
  (error f = false -> 0 <= depth f <= Z.max 1 max)%Z.
Proof.
  intros Hok H. pose proof (abs_mode_rest f [] Hok) as E. rewrite app_nil_r in E.
  destruct Hok as [Hs Hi Hm Hd He _]. unfold abs_mode, pending_bytes in *.
  destruct (error f); [rewrite (He eq_refl); simpl; split; [lia|done]|].
  destruct (Z.eqb_spec (depth f) 0) as [E0|E0]; [rewrite (Hi E0); simpl; split; intros; lia|].
  rewrite E in H by (done || lia). simpl in H. split; intros; lia.
Qed.

(** C2: the memory a connection can take is bounded.  After any bytes fed to a
    new framer, the bytes it buffers and its bracket depth are at most the
    configured limit (at least one byte), and no message it completes is longer
    than the limit; the depth counter, an [int], cannot overflow. *)
Theorem framer_bounded (max : Z) (chunks : list (list ascii)) :
  let f := feed_all (new_framer max) chunks in
  (Z.of_nat (pending_bytes f) <= Z.max 1 max)%Z /\
  (error f = false -> 0 <= depth f <= Z.max 1 max)%Z /\
  Forall (fun m => (Z.of_nat (length m) <= max)%Z) (ready f).
Proof.
  intros f. pose proof (feed_all_concat (new_framer max) chunks (new_framer_ok max)) as E.
  fold f in E. destruct (feed_refines (new_framer max) (concat chunks) (new_framer_ok max))
    as [M R _ _ _].
  destruct E as (Hok & _ & Ha & Hr & _). rewrite M in Ha. rewrite R in Hr.
  destruct (spec_run_bounded max (abs_mode (new_framer max)) (concat chunks)) as [H1 H2]; [done|].
  rewrite Hr. simpl in *. rewrite <- Ha in H1.
  destruct (mode_bounded_pending f max Hok H1). done.
Qed.

(** ** The grammar of messages *)

(** The rest of a JSON string literal, up to and including its closing quote. *)
Inductive str_rest : list ascii -> Prop :=
| sr_end : str_rest [DQUOTE]
| sr_esc c r : str_rest r -> str_rest (BACKSLASH :: c :: r)
| sr_chr c r : c <> DQUOTE -> c <> BACKSLASH -> str_rest r -> str_rest (c :: r).

(** What may stand between two brackets: other bytes, strings, nested brackets. *)
Inductive body : list ascii -> Prop :=
| body_nil : body []
| body_chr c r : c <> DQUOTE -> is_open c = false -> is_close c = false -> body r -> body (c :: r)
| body_str s r : str_rest s -> body r -> body (DQUOTE :: s ++ r)
| body_nest o b c r :
    is_open o = true -> body b -> is_close c = true -> body r -> body (o :: b ++ c :: r).

(** A top-level value: an opening bracket, a balanced body, a closing bracket. *)
Definition message (m : list ascii) : Prop :=
  exists o b c, m = o :: b ++ [c] /\ is_open o = true /\ body b /\ is_close c = true.

(** A stream of messages with separators before, between and after them. *)
Inductive stream (max : Z) : list (list ascii) -> list ascii -> Prop :=
| stream_nil : stream max [] []
| stream_sep c ms s : is_separator c = true -> stream max ms s -> stream max ms (c :: s)
| stream_msg m ms s : message m -> (Z.of_nat (length m) <= max)%Z -> stream max ms s ->
    stream max (m :: ms) (m ++ s).

#[export] Hint Constructors str_rest body stream : rpc.

Lemma is_open_not_quote (c : ascii) : is_open c = true -> (c =? DQUOTE)%char = false.
Proof. unfold is_open. by destruct (Ascii.eqb_spec c DQUOTE) as [->|]. Qed.

Lemma is_close_not (c : ascii) :
  is_close c = true -> (c =? DQUOTE)%char = false /\ is_open c = false.
Proof.
  unfold is_close, is_open. intros H.
  apply orb_true_iff in H as [H|H]; apply Ascii.eqb_eq in H as ->; done.
Qed.

Lemma is_open_not_separator (c : ascii) : is_open c = true -> is_separator c = false.
Proof.
  unfold is_open. intros H.
  apply orb_true_iff in H as [H|H]; apply Ascii.eqb_eq in H as ->; done.
Qed.

(** Inside a message, a run that completes nothing and only extends it. *)
Definition extends (max : Z) (d : Z) (x : list ascii) (i e i' e' : bool) : Prop :=
  forall p, (Z.of_nat (length p) + Z.of_nat (length x) <= max)%Z ->
    spec_run max (FMsg p d i e) x = (FMsg (p ++ x) d i' e', []).

Lemma spec_run_cons (max : Z) (m m1 : fmode) (c : ascii) (r : list ascii) :
  spec_step max m c = (m1, []) -> spec_run max m (c :: r) = spec_run max m1 r.
Proof. intros E. simpl. rewrite E. by destruct (spec_run max m1 r). Qed.

(** The message still fits: resolves the length test of [spec_step]. *)
Ltac fits :=
  match goal with
  | |- context [(?a >? ?b)%Z] => destruct (Z.gtb_spec a b); [exfalso; simpl in *; lia|]
  end.

Lemma extends_str (max d : Z) (s : list ascii) :
  str_rest s -> extends max d s true false false false.
Proof.
  intros H p Hp. revert p Hp.
  induction H as [|c r Hr IH|c r Hc1 Hc2 Hr IH]; intros p Hp; simpl in Hp.
  - simpl. fits. done.
  - rewrite (spec_run_cons _ _ (FMsg (p ++ [BACKSLASH]) d true true));
      [|simpl; fits; done].
    rewrite (spec_run_cons _ _ (FMsg ((p ++ [BACKSLASH]) ++ [c]) d true false)).
    2:{ simpl. rewrite length_app; simpl. fits. done. }
    rewrite IH by (rewrite !length_app; simpl; lia). by rewrite <- !app_assoc.
  - rewrite (spec_run_cons _ _ (FMsg (p ++ [c]) d true false)).
    2:{ simpl. fits.
        apply Ascii.eqb_neq in Hc1, Hc2. by rewrite Hc1, Hc2. }
    rewrite IH by (rewrite length_app; simpl; lia). by rewrite <- app_assoc.
Qed.

Lemma extends_body (max d : Z) (b : list ascii) :
  (1 <= d)%Z -> body b -> extends max d b false false false false.
Proof.
  intros Hd H p Hp. revert d Hd p Hp.
  induction H as [|c r Hc Ho Hcl Hr IH|s r Hs Hr IH|o b c r Ho Hb IHb Hc Hr IHr];
    intros d Hd p Hp.
  - simpl. by rewrite app_nil_r.
  - simpl in Hp. rewrite (spec_run_cons _ _ (FMsg (p ++ [c]) d false false)).
    2:{ simpl. fits. apply Ascii.eqb_neq in Hc.
        by rewrite Hc, Ho, Hcl. }
    rewrite IH by (done || rewrite length_app; simpl; lia). by rewrite <- app_assoc.
  - simpl in Hp. rewrite length_app in Hp.
    rewrite (spec_run_cons _ _ (FMsg (p ++ [DQUOTE]) d true false)).
    2:{ simpl. fits. done. }
    rewrite spec_run_app, (extends_str max d s Hs) by (rewrite length_app; simpl; lia).
    rewrite IH by (done || rewrite !length_app; simpl; lia). simpl. by rewrite <- !app_assoc.
  - simpl in Hp. rewrite length_app in Hp. simpl in Hp.
    rewrite (spec_run_cons _ _ (FMsg (p ++ [o]) (d + 1) false false)).
    2:{ simpl. fits.
        by rewrite (is_open_not_quote o Ho), Ho. }
    rewrite spec_run_app, IHb by (lia || rewrite length_app; simpl; lia).
    rewrite (spec_run_cons _ _ (FMsg (((p ++ [o]) ++ b) ++ [c]) d false false)).
    2:{ simpl. rewrite !length_app; simpl. fits.
        destruct (is_close_not c Hc) as [-> ->]. rewrite Hc.
        replace (d + 1 - 1)%Z with d by lia. by replace (d =? 0)%Z with false by lia. }
    rewrite IHr by (done || rewrite !length_app; simpl; lia). simpl.
    f_equal. f_equal. by rewrite <- !app_assoc.
Qed.

Lemma spec_run_message (max : Z) (m : list ascii) :
  message m -> (Z.of_nat (length m) <= max)%Z -> spec_run max FIdle m = (FIdle, [m]).
Proof.
  intros (o & b & c & -> & Ho & Hb & Hc) Hm. simpl in Hm. rewrite length_app in Hm. simpl in Hm.
  rewrite (spec_run_cons _ _ (FMsg [o] 1 false false)).
  2:{ simpl. by rewrite (is_open_not_separator o Ho), Ho. }
  rewrite spec_run_app, (extends_body max 1 b) by (done || simpl; lia).
  simpl. fits.
  destruct (is_close_not c Hc) as [-> ->]. by rewrite Hc.
Qed.

Lemma spec_run_stream (max : Z) (ms : list (list ascii)) (s : list ascii) :
  stream max ms s -> spec_run max FIdle s = (FIdle, ms).
Proof.
  induction 1 as [|c ms s Hc Hs IH|m ms s Hm Hl Hs IH].
  - done.
  - rewrite (spec_run_cons _ _ FIdle); [done|]. simpl. by rewrite Hc.
  - rewrite spec_run_app, spec_run_message, IH by done. done.
Qed.

(** The queue of a framer fed with a whole stream, however it is segmented. *)
Lemma feed_all_stream (max : Z) (ms : list (list ascii)) (chunks : list (list ascii)) :
  stream max ms (concat chunks) ->
  let f := feed_all (new_framer max) chunks in
  ready f = ms /\ abs_mode f = FIdle /\ framer_ok f.
Proof.
  intros Hs f.
  pose proof (feed_all_concat (new_framer max) chunks (new_framer_ok max)) as E. fold f in E.
  destruct (feed_refines (new_framer max) (concat chunks) (new_framer_ok max)) as [M R _ _ _].
  destruct E as (Hok & _ & Ha & Hr & _). rewrite M in Ha. rewrite R in Hr.
  change (abs_mode (new_framer max)) with FIdle in *. simpl in *.
  rewrite (spec_run_stream max ms _ Hs) in Ha, Hr. by rewrite Ha, Hr.
Qed.

(** The messages [next()] returns until it answers [false]. *)
Fixpoint drain (n : nat) (f : ADJsonStreamFramer) : list (list ascii) :=
  match n with
  | 0 => []
  | S n => match next f with
           | (None, _) => []
           | (Some m, f') => m :: drain n f'
           end
  end.

Lemma drain_ready (f : ADJsonStreamFramer) : drain (S (available f)) f = ready f.
Proof.
  unfold available. remember (ready f) as l eqn:E. revert f E.
  induction l as [|m l IH]; intros f E; simpl; unfold next; rewrite <- E; [done|].
  f_equal. specialize (IH {| buf := buf f; ready := l; max_msg := max_msg f; scan := scan f;
    start := start f; depth := depth f; in_string := in_string f; escape := escape f;
    error := error f |} eq_refl). done.
Qed.

(** C3: framing is the inverse of concatenation.  A sender that writes messages of
    at most the limit, each an opening bracket, a body balanced outside its
    strings and a closing bracket, with any separators around them, is read back
    exactly: draining the framer with [next()] yields the same messages in the
    same order, with no error and nothing left in the buffer, for every
    segmentation of the stream. *)
Theorem framer_roundtrip (max : Z) (ms : list (list ascii)) (chunks : list (list ascii)) :
  stream max ms (concat chunks) ->
  let f := feed_all (new_framer max) chunks in
  drain (S (length ms)) f = ms /\ has_error f = false /\ pending_bytes f = 0.
Proof.
  intros Hs f. destruct (feed_all_stream max ms chunks Hs) as (Hr & Ha & Hok). fold f in Hr, Ha, Hok.
  rewrite <- Hr at 1. rewrite <- Hr. split; [apply drain_ready|].
  unfold abs_mode in Ha. unfold has_error, pending_bytes.
  destruct (error f); [done|]. split; [done|].
  destruct (Z.eqb_spec (depth f) 0) as [E0|]; [|done].
  by rewrite (fo_idle f Hok E0).
Qed.

Lemma framer_roundtrip_witness :
  stream 64 [bytes "{'k':'}'}"; bytes "[1]"] (bytes "{'k':'}'}, [1]") /\
  drain 3 (feed_all (new_framer 64) [bytes "{'k':"; bytes "'}'}, ["; bytes "1]"]) =
    [bytes "{'k':'}'}"; bytes "[1]"].
Proof.
  assert (stream 64 [bytes "{'k':'}'}"; bytes "[1]"]
            (concat [bytes "{'k':"; bytes "'}'}, ["; bytes "1]"])) as H.
  { apply (stream_msg 64 (bytes "{'k':'}'}") _ (bytes ", [1]")); [|vm_compute; congruence|].
    - exists "{"%char, (bytes "'k':'}'"), "}"%char. split_and!; try done.
      apply (body_str (bytes "k'") (bytes ":'}'")).
      + apply sr_chr; try done. apply sr_end.
      + apply body_chr; try done. apply (body_str (bytes "}'") []); [|apply body_nil].
        apply sr_chr; try done. apply sr_end.
    - apply stream_sep; [done|]. apply stream_sep; [done|].
      apply (stream_msg 64 (bytes "[1]") _ []); [|vm_compute; congruence|constructor].
      exists "["%char, (bytes "1"), "]"%char. split_and!; try done.
      apply body_chr; try done. apply body_nil. }
  split; [exact H|]. apply (framer_roundtrip 64 _ _ H).
Defined.

(** ** Only grammatical messages are delivered *)

(** A string literal that is still open; the flag tells an unfinished escape. *)
Inductive str_part : bool -> list ascii -> Prop :=
| sp_nil : str_part false []
| sp_esc s : str_part false s -> str_part true (s ++ [BACKSLASH])
| sp_escaped s c : str_part true s -> str_part false (s ++ [c])
| sp_chr s c : str_part false s -> c <> DQUOTE -> c <> BACKSLASH -> str_part false (s ++ [c]).

(** An unfinished value with [d] open brackets, outside any string. *)
Inductive part : Z -> list ascii -> Prop :=
| part_one o b : is_open o = true -> body b -> part 1 (o :: b)
| part_nest d p o b : part d p -> is_open o = true -> body b -> part (d + 1) (p ++ o :: b).

Lemma body_app (a b : list ascii) : body a -> body b -> body (a ++ b).
Proof.
  intros Ha Hb. induction Ha; simpl; try rewrite <- app_assoc; simpl; eauto with rpc.
Qed.

Lemma part_app (d : Z) (p x : list ascii) : part d p -> body x -> part d (p ++ x).
Proof.
  intros Hp Hx. destruct Hp; simpl; rewrite <- ?app_assoc; constructor; auto using body_app.
Qed.

Lemma part_pos (d : Z) (p : list ascii) : part d p -> (1 <= d)%Z.
Proof. induction 1; lia. Qed.

(** Closing an open literal, or finishing its escape, completes it. *)
Lemma str_part_rest (e : bool) (s : list ascii) :
  str_part e s ->
  if e then forall c t, str_rest t -> str_rest (s ++ c :: t)
  else forall t, str_rest t -> str_rest (s ++ t).
Proof.
  induction 1 as [|s H IH|s c H IH|s c H IH Hc1 Hc2]; intros; rewrite <- ?app_assoc; simpl;
    auto using sr_esc, sr_chr.
Qed.

Lemma part_string (d : Z) (p s : list ascii) :
  part d p -> str_part false s -> part d ((p ++ DQUOTE :: s) ++ [DQUOTE]).
Proof.
  intros Hp Hs. rewrite <- app_assoc. apply part_app; [done|]. simpl.
  pose proof (str_part_rest false s Hs [DQUOTE] sr_end) as H.
  pose proof (body_str _ [] H body_nil) as Hb. by rewrite app_nil_r in Hb.
Qed.

Lemma part_close (d : Z) (p : list ascii) (c : ascii) :
  part d p -> is_close c = true ->
  if (d - 1 =? 0)%Z then message (p ++ [c]) else part (d - 1) (p ++ [c]).
Proof.
  intros Hp Hc. destruct Hp as [o b Ho Hb|d p o b Hp Ho Hb].
  - exists o, b, c. done.
  - pose proof (part_pos d p Hp). replace (d + 1 - 1)%Z with d by lia.
    replace (d =? 0)%Z with false by lia.
    rewrite <- app_assoc. simpl. apply part_app; [done|]. by apply body_nest; [..|constructor].
Qed.

(** What is known of the bytes of an unfinished message. *)
Definition mode_wf (m : fmode) : Prop :=
  match m with
  | FMsg p d false e => e = false /\ part d p
  | FMsg p d true e => exists p0 s, p = p0 ++ DQUOTE :: s /\ part d p0 /\ str_part e s
  | _ => True
  end.

Lemma spec_step_string (max : Z) (p : list ascii) (d : Z) (e : bool) (c : ascii) :
  mode_wf (FMsg p d true e) ->
  mode_wf (spec_step max (FMsg p d true e) c).1 /\ (spec_step max (FMsg p d true e) c).2 = [].
Proof.
  intros (p0 & s & -> & Hp & Hs). unfold spec_step. destruct (_ >? _)%Z; [done|].
  destruct e; [|destruct (Ascii.eqb_spec c BACKSLASH) as [->|Hb];
    [|destruct (Ascii.eqb_spec c DQUOTE) as [->|Hq]]]; simpl; (split; [|done]).
  3: { split; [done|]. by apply part_string. }
  all: eexists p0, (s ++ [_]); rewrite <- app_assoc; split_and!; [done|done|].
  - by apply sp_escaped.
  - by apply sp_esc.
  - by apply sp_chr.
Qed.

Lemma spec_step_wf (max : Z) (m : fmode) (c : ascii) :
  mode_wf m -> mode_wf (spec_step max m c).1 /\ Forall message (spec_step max m c).2.
Proof.
  intros H. destruct m as [|p d i e|]; [| |done].
  - simpl. destruct (is_separator c); [done|]. destruct (is_open c) eqn:Ho; [|done]. simpl.
    split; [|done]. split; [done|]. by apply part_one; [|constructor].
  - destruct i; [destruct (spec_step_string max p d e c H) as [? ->]; done|].
    destruct H as [-> Hp]. unfold spec_step. destruct (_ >? _)%Z; [done|].
    destruct (Ascii.eqb_spec c DQUOTE) as [->|Hq].
    { simpl. split; [|done]. exists p, []. by repeat constructor. }
    pose proof (part_close d p c Hp) as Hcl.
    destruct (is_open c) eqn:Ho; [|destruct (is_close c) eqn:Hc; [specialize (Hcl eq_refl)|]].
    + simpl. split; [|done]. split; [done|]. by apply part_nest; [..|constructor].
    + destruct (d - 1 =? 0)%Z; simpl; by repeat constructor.
    + simpl. split; [|done]. split; [done|]. apply part_app; [done|]. by apply body_chr; [..|constructor].
Qed.

Lemma spec_run_wf (max : Z) (m : fmode) (data : list ascii) :
  mode_wf m -> mode_wf (spec_run max m data).1 /\ Forall message (spec_run max m data).2.
Proof.
  revert m; induction data as [|c r IH]; intros m H; simpl; [done|].
  destruct (spec_step_wf max m c H) as [H1 H2].
  destruct (spec_step max m c) as [m1 o1]. destruct (IH m1 H1) as [H3 H4].
  destruct (spec_run max m1 r) as [m2 o2]. simpl in *. split; [done|]. by apply Forall_app.
Qed.

(** Only grammatical messages are delivered.  Whatever bytes a peer sends,
    every message the framer queues starts with an opening bracket, ends with the
    closing bracket that balances it, and its brackets are balanced outside string
    literals, escaped quotes included. *)
Theorem framer_sound (max : Z) (chunks : list (list ascii)) :
  Forall message (ready (feed_all (new_framer max) chunks)).
Proof.
  pose proof (feed_all_concat (new_framer max) chunks (new_framer_ok max)) as (_ & _ & _ & Hr & _).
  rewrite Hr. destruct (feed_refines (new_framer max) (concat chunks) (new_framer_ok max)) as [_ R _ _ _].
  rewrite R. simpl. by apply spec_run_wf.
Qed.

(** ** Framing errors *)

(** A framing error is final and loses nothing that was complete.  When the
    stream of complete messages [ms] is followed by a byte that can neither start
    a message nor separate two, [feed()] answers -1 with exactly [ms] queued, and
    every later [feed()] answers -1 and changes nothing until [reset()], which
    restores the state of a new framer. *)
Theorem framer_error_sticky (max : Z) (ms : list (list ascii)) (s rest d : list ascii) (c : ascii) :
  stream max ms s -> is_separator c = false -> is_open c = false ->
  let r := feed (new_framer max) (s ++ c :: rest) in
  r.1 = (-1)%Z /\ ready r.2 = ms /\ feed r.2 d = ((-1)%Z, r.2) /\ reset r.2 = new_framer max.
Proof.
  intros Hs Hc Ho r.
  destruct (feed_refines (new_framer max) (s ++ c :: rest) (new_framer_ok max)) as [M R X O V].
  fold r in M, R, X, O, V. change (abs_mode (new_framer max)) with FIdle in *. simpl in X.
  change (max_msg (new_framer max)) with max in M, R.
  rewrite spec_run_app, (spec_run_stream _ _ _ Hs) in M, R. simpl in M, R.
  rewrite Hc, Ho, spec_run_error in M, R. simpl in M, R. rewrite app_nil_r in R.
  assert (error r.2 = true) as He.
  { unfold abs_mode in M. destruct (error r.2); [done|]. by destruct (_ =? _)%Z. }
  rewrite He in V. split_and!; [done|done| |].
  - unfold feed. by rewrite He.
  - unfold reset, new_framer. by rewrite X.
Qed.

Lemma framer_error_sticky_witness :
  ready (feed (new_framer 64) (bytes "[1]x[2]")).2 = [bytes "[1]"].
Proof.
  assert (stream 64 [bytes "[1]"] (bytes "[1]")) as H.
  { apply (stream_msg 64 (bytes "[1]") [] []); [|vm_compute; congruence|constructor].
    exists "["%char, (bytes "1"), "]"%char. split_and!; try done.
    apply body_chr; try done. apply body_nil. }
  apply (framer_error_sticky 64 _ _ (bytes "[2]") [] "x" H); reflexivity.
Defined.
