(* ===== verification/Checker.v ===== *)
(** * The JSON syntax checker (src/lib/lib-jsonrpc-tcp/src/ADJsonChecker.cpp)

    A pushdown automaton driven by two tables.  The tables and the automaton are
    the ones of the source; reads and writes of the stack are checked, so that
    memory safety is a theorem and not an assumption. *)
From S2P Require Import Prelude.
Open Scope Z_scope.

(** ** The tables *)
Module Codes.

(** The [__] entry of the tables. *)
Definition __ : Z := -1.

(** [enum classes] *)
Definition C_SPACE : Z := 0.
Definition C_WHITE : Z := 1.
Definition C_LCURB : Z := 2.
Definition C_RCURB : Z := 3.
Definition C_LSQRB : Z := 4.
Definition C_RSQRB : Z := 5.
Definition C_COLON : Z := 6.
Definition C_COMMA : Z := 7.
Definition C_QUOTE : Z := 8.
Definition C_BACKS : Z := 9.
Definition C_SLASH : Z := 10.
Definition C_PLUS : Z := 11.
Definition C_MINUS : Z := 12.
Definition C_POINT : Z := 13.
Definition C_ZERO : Z := 14.
Definition C_DIGIT : Z := 15.
Definition C_LOW_A : Z := 16.
Definition C_LOW_B : Z := 17.
Definition C_LOW_C : Z := 18.
Definition C_LOW_D : Z := 19.
Definition C_LOW_E : Z := 20.
Definition C_LOW_F : Z := 21.
Definition C_LOW_L : Z := 22.
Definition C_LOW_N : Z := 23.
Definition C_LOW_R : Z := 24.
Definition C_LOW_S : Z := 25.
Definition C_LOW_T : Z := 26.
Definition C_LOW_U : Z := 27.
Definition C_ABCDF : Z := 28.
Definition C_E : Z := 29.
Definition C_ETC : Z := 30.
Definition NR_CLASSES : Z := 31.

(** [enum states] *)
Definition GO : Z := 0.
Definition OK : Z := 1.
Definition OB : Z := 2.
Definition KE : Z := 3.
Definition CO : Z := 4.
Definition VA : Z := 5.
Definition AR : Z := 6.
Definition ST : Z := 7.
Definition ES : Z := 8.
Definition U1 : Z := 9.
Definition U2 : Z := 10.
Definition U3 : Z := 11.
Definition U4 : Z := 12.
Definition MI : Z := 13.
Definition ZE : Z := 14.
Definition IN : Z := 15.
Definition FR : Z := 16.
Definition E1 : Z := 17.
Definition E2 : Z := 18.
Definition E3 : Z := 19.
Definition T1 : Z := 20.
Definition T2 : Z := 21.
Definition T3 : Z := 22.
Definition F1 : Z := 23.
Definition F2 : Z := 24.
Definition F3 : Z := 25.
Definition F4 : Z := 26.
Definition N1 : Z := 27.
Definition N2 : Z := 28.
Definition N3 : Z := 29.
Definition NR_STATES : Z := 30.

(** [enum modes] *)
Definition MODE_ARRAY : Z := 0.
Definition MODE_DONE : Z := 1.
Definition MODE_KEY : Z := 2.
Definition MODE_OBJECT : Z := 3.

Definition ascii_class : list Z :=
  [__; __; __; __; __; __; __; __;
   __; C_WHITE; C_WHITE; __; __; C_WHITE; __; __;
   __; __; __; __; __; __; __; __;
   __; __; __; __; __; __; __; __;
   C_SPACE; C_ETC; C_QUOTE; C_ETC; C_ETC; C_ETC; C_ETC; C_ETC;
   C_ETC; C_ETC; C_ETC; C_PLUS; C_COMMA; C_MINUS; C_POINT; C_SLASH;
   C_ZERO; C_DIGIT; C_DIGIT; C_DIGIT; C_DIGIT; C_DIGIT; C_DIGIT; C_DIGIT;
   C_DIGIT; C_DIGIT; C_COLON; C_ETC; C_ETC; C_ETC; C_ETC; C_ETC;
   C_ETC; C_ABCDF; C_ABCDF; C_ABCDF; C_ABCDF; C_E; C_ABCDF; C_ETC;
   C_ETC; C_ETC; C_ETC; C_ETC; C_ETC; C_ETC; C_ETC; C_ETC;
   C_ETC; C_ETC; C_ETC; C_ETC; C_ETC; C_ETC; C_ETC; C_ETC;
   C_ETC; C_ETC; C_ETC; C_LSQRB; C_BACKS; C_RSQRB; C_ETC; C_ETC;
   C_ETC; C_LOW_A; C_LOW_B; C_LOW_C; C_LOW_D; C_LOW_E; C_LOW_F; C_ETC;
   C_ETC; C_ETC; C_ETC; C_ETC; C_LOW_L; C_ETC; C_LOW_N; C_ETC;
   C_ETC; C_ETC; C_LOW_R; C_LOW_S; C_LOW_T; C_LOW_U; C_ETC; C_ETC;
   C_ETC; C_ETC; C_ETC; C_LCURB; C_ETC; C_RCURB; C_ETC; C_ETC].

Definition state_transition_table : list (list Z) :=
  [[GO; GO; -6; __; -5; __; __; __; __; __; __; __; __; __; __; __;
    __; __; __; __; __; __; __; __; __; __; __; __; __; __; __];
   [OK; OK; __; -8; __; -7; __; -3; __; __; __; __; __; __; __; __;
    __; __; __; __; __; __; __; __; __; __; __; __; __; __; __];
   [OB; OB; __; -9; __; __; __; __; ST; __; __; __; __; __; __; __;
    __; __; __; __; __; __; __; __; __; __; __; __; __; __; __];
   [KE; KE; __; __; __; __; __; __; ST; __; __; __; __; __; __; __;
    __; __; __; __; __; __; __; __; __; __; __; __; __; __; __];
   [CO; CO; __; __; __; __; -2; __; __; __; __; __; __; __; __; __;
    __; __; __; __; __; __; __; __; __; __; __; __; __; __; __];
   [VA; VA; -6; __; -5; __; __; __; ST; __; __; __; MI; __; ZE; IN;
    __; __; __; __; __; F1; __; N1; __; __; T1; __; __; __; __];
   [AR; AR; -6; __; -5; -7; __; __; ST; __; __; __; MI; __; ZE; IN;
    __; __; __; __; __; F1; __; N1; __; __; T1; __; __; __; __];
   [ST; __; ST; ST; ST; ST; ST; ST; -4; ES; ST; ST; ST; ST; ST; ST;
    ST; ST; ST; ST; ST; ST; ST; ST; ST; ST; ST; ST; ST; ST; ST];
   [__; __; __; __; __; __; __; __; ST; ST; ST; __; __; __; __; __;
    __; ST; __; __; __; ST; __; ST; ST; __; ST; U1; __; __; __];
   [__; __; __; __; __; __; __; __; __; __; __; __; __; __; U2; U2;
    U2; U2; U2; U2; U2; U2; __; __; __; __; __; __; U2; U2; __];
   [__; __; __; __; __; __; __; __; __; __; __; __; __; __; U3; U3;
    U3; U3; U3; U3; U3; U3; __; __; __; __; __; __; U3; U3; __];
   [__; __; __; __; __; __; __; __; __; __; __; __; __; __; U4; U4;
    U4; U4; U4; U4; U4; U4; __; __; __; __; __; __; U4; U4; __];
   [__; __; __; __; __; __; __; __; __; __; __; __; __; __; ST; ST;
    ST; ST; ST; ST; ST; ST; __; __; __; __; __; __; ST; ST; __];
   [__; __; __; __; __; __; __; __; __; __; __; __; __; __; ZE; IN;
    __; __; __; __; __; __; __; __; __; __; __; __; __; __; __];
   [OK; OK; __; -8; __; -7; __; -3; __; __; __; __; __; FR; __; __;
    __; __; __; __; __; __; __; __; __; __; __; __; __; __; __];
   [OK; OK; __; -8; __; -7; __; -3; __; __; __; __; __; FR; IN; IN;
    __; __; __; __; E1; __; __; __; __; __; __; __; __; E1; __];
   [OK; OK; __; -8; __; -7; __; -3; __; __; __; __; __; __; FR; FR;
    __; __; __; __; E1; __; __; __; __; __; __; __; __; E1; __];
   [__; __; __; __; __; __; __; __; __; __; __; E2; E2; __; E3; E3;
    __; __; __; __; __; __; __; __; __; __; __; __; __; __; __];
   [__; __; __; __; __; __; __; __; __; __; __; __; __; __; E3; E3;
    __; __; __; __; __; __; __; __; __; __; __; __; __; __; __];
   [OK; OK; __; -8; __; -7; __; -3; __; __; __; __; __; __; E3; E3;
    __; __; __; __; __; __; __; __; __; __; __; __; __; __; __];
   [__; __; __; __; __; __; __; __; __; __; __; __; __; __; __; __;
    __; __; __; __; __; __; __; __; T2; __; __; __; __; __; __];
   [__; __; __; __; __; __; __; __; __; __; __; __; __; __; __; __;
    __; __; __; __; __; __; __; __; __; __; __; T3; __; __; __];
   [__; __; __; __; __; __; __; __; __; __; __; __; __; __; __; __;
    __; __; __; __; OK; __; __; __; __; __; __; __; __; __; __];
   [__; __; __; __; __; __; __; __; __; __; __; __; __; __; __; __;
    F2; __; __; __; __; __; __; __; __; __; __; __; __; __; __];
   [__; __; __; __; __; __; __; __; __; __; __; __; __; __; __; __;
    __; __; __; __; __; __; F3; __; __; __; __; __; __; __; __];
   [__; __; __; __; __; __; __; __; __; __; __; __; __; __; __; __;
    __; __; __; __; __; __; __; __; __; F4; __; __; __; __; __];
   [__; __; __; __; __; __; __; __; __; __; __; __; __; __; __; __;
    __; __; __; __; OK; __; __; __; __; __; __; __; __; __; __];
   [__; __; __; __; __; __; __; __; __; __; __; __; __; __; __; __;
    __; __; __; __; __; __; __; __; __; __; __; N2; __; __; __];
   [__; __; __; __; __; __; __; __; __; __; __; __; __; __; __; __;
    __; __; __; __; __; __; N3; __; __; __; __; __; __; __; __];
   [__; __; __; __; __; __; __; __; __; __; __; __; __; __; __; __;
    __; __; __; __; __; __; OK; __; __; __; __; __; __; __; __]].

End Codes.
Import Codes.

(** ** The automaton *)

(** A step goes on, rejects the text (and frees the checker), or reads or writes
    outside an array. *)
Inductive outcome (A : Type) :=
| Go (a : A)
| Reject
| Fault.
Arguments Go {A} a.
Arguments Reject {A}.
Arguments Fault {A}.

(** [struct JSON_checker_struct] *)
Record JSON_checker := {
  state : Z;
  depth : Z;
  top : Z;
  stack : list Z;
}.

(** [jc->stack[i]] *)
Definition stack_at (jc : JSON_checker) (i : Z) : outcome Z :=
  if (i <? 0) then Fault
  else match stack jc !! Z.to_nat i with Some m => Go m | None => Fault end.

Definition set_top (jc : JSON_checker) (t : Z) : JSON_checker :=
  {| state := state jc; depth := depth jc; top := t; stack := stack jc |}.

Definition set_state (jc : JSON_checker) (s : Z) : JSON_checker :=
  {| state := s; depth := depth jc; top := top jc; stack := stack jc |}.

(** [push()]: [Reject] for [false]; the top has moved even then, but the checker
    is released by every caller. *)
Definition push (jc : JSON_checker) (mode : Z) : outcome JSON_checker :=
  let jc := set_top jc (top jc + 1) in
  if top jc >=? depth jc then Reject
  else if (top jc <? 0) || (Z.of_nat (length (stack jc)) <=? top jc) then Fault
  else Go {| state := state jc; depth := depth jc; top := top jc;
             stack := <[Z.to_nat (top jc) := mode]> (stack jc) |}.

(** [pop()] *)
Definition pop (jc : JSON_checker) (mode : Z) : outcome JSON_checker :=
  if top jc <? 0 then Reject
  else match stack_at jc (top jc) with
       | Go m => if m =? mode then Go (set_top jc (top jc - 1)) else Reject
       | Reject => Reject
       | Fault => Fault
       end.

Definition bind {A B} (e : outcome A) (k : A -> outcome B) : outcome B :=
  match e with Go a => k a | Reject => Reject | Fault => Fault end.

Notation "x <-- e ;; k" := (bind e (fun x => k)) (at level 100, e at next level, right associativity).

(** [new_JSON_checker()]; the result of the first [push] is ignored by the code. *)
Definition new_JSON_checker (d : Z) : outcome JSON_checker :=
  let jc := {| state := GO; depth := d; top := -1; stack := replicate (Z.to_nat d) 0 |} in
  match push jc MODE_DONE with
  | Go jc' => Go jc'
  | Reject => Go (set_top jc 0)
  | Fault => Fault
  end.

(** The class of a character code: [C_ETC] from 128 on. *)
Definition next_class_of (next_char : Z) : outcome Z :=
  if next_char >=? 128 then Go C_ETC
  else match ascii_class !! Z.to_nat next_char with
       | Some c => if c <=? __ then Reject else Go c
       | None => Fault
       end.

(** [state_transition_table[s][c]] *)
Definition transition (s c : Z) : outcome Z :=
  if (s <? 0) || (c <? 0) then Fault
  else match state_transition_table !! Z.to_nat s with
       | Some row => match row !! Z.to_nat c with Some t => Go t | None => Fault end
       | None => Fault
       end.

(** The [switch] on a negative table entry. *)
Definition action (jc : JSON_checker) (next_state : Z) : outcome JSON_checker :=
  if next_state =? -9 then jc <-- pop jc MODE_KEY ;; Go (set_state jc OK)
  else if next_state =? -8 then jc <-- pop jc MODE_OBJECT ;; Go (set_state jc OK)
  else if next_state =? -7 then jc <-- pop jc MODE_ARRAY ;; Go (set_state jc OK)
  else if next_state =? -6 then jc <-- push jc MODE_KEY ;; Go (set_state jc OB)
  else if next_state =? -5 then jc <-- push jc MODE_ARRAY ;; Go (set_state jc AR)
  else if next_state =? -4 then
    m <-- stack_at jc (top jc) ;;
    (if m =? MODE_KEY then Go (set_state jc CO)
     else if (m =? MODE_ARRAY) || (m =? MODE_OBJECT) then Go (set_state jc OK)
     else Reject)
  else if next_state =? -3 then
    m <-- stack_at jc (top jc) ;;
    (if m =? MODE_OBJECT then
       jc <-- pop jc MODE_OBJECT ;; jc <-- push jc MODE_KEY ;; Go (set_state jc KE)
     else if m =? MODE_ARRAY then Go (set_state jc VA)
     else Reject)
  else if next_state =? -2 then
    jc <-- pop jc MODE_KEY ;; jc <-- push jc MODE_OBJECT ;; Go (set_state jc VA)
  else Reject.

(** [JSON_checker_char()] *)
Definition JSON_checker_char (jc : JSON_checker) (next_char : Z) : outcome JSON_checker :=
  if next_char <? 0 then Reject
  else
    next_class <-- next_class_of next_char ;;
    next_state <-- transition (state jc) next_class ;;
    (if next_state >=? 0 then Go (set_state jc next_state) else action jc next_state).

(** [JSON_checker_done()] *)
Definition JSON_checker_done (jc : JSON_checker) : outcome bool :=
  if state jc =? OK then
    match pop jc MODE_DONE with
    | Go _ => Go true
    | Reject => Go false
    | Fault => Fault
    end
  else Go false.

(** The code of a byte as [(unsigned char)string[i]]. *)
Definition code (c : ascii) : Z := Z.of_N (N_of_ascii c).

(** The loop of [ADJsonRpcProxy::json_checker_function()]. *)
Fixpoint check_chars (jc : JSON_checker) (s : list ascii) : outcome JSON_checker :=
  match s with
  | [] => Go jc
  | c :: r =>
      let next_char := code c in
      if next_char =? 0 then Go jc
      else jc' <-- JSON_checker_char jc next_char ;; check_chars jc' r
  end.

(** [ADJsonRpcProxy::json_checker_function()]: [Go true] for 0, [Go false] for -1. *)
Definition json_checker_function (s : list ascii) : outcome bool :=
  match new_JSON_checker 20 with
  | Go jc =>
      match check_chars jc s with
      | Go jc' => JSON_checker_done jc'
      | Reject => Go false
      | Fault => Fault
      end
  | Reject => Go false
  | Fault => Fault
  end.

Example checker_ex1 : json_checker_function (bytes "{'a':[1,-2.5e3,'x\'y',true,null]}") = Go true.
Proof. vm_compute. reflexivity. Qed.
Example checker_ex2 : json_checker_function (bytes "{'a':[1,2}") = Go false.
Proof. vm_compute. reflexivity. Qed.

(** ** Memory safety *)

(** The state is a row of the table, the stack has its allocated size, the top is
    inside it, and [MODE_DONE] is at the bottom and nowhere else. *)
Record checker_ok (jc : JSON_checker) : Prop := {
  ck_state : 0 <= state jc < NR_STATES;
  ck_size : Z.of_nat (length (stack jc)) = depth jc;
  ck_top : 0 <= top jc < depth jc;
  ck_bottom : stack jc !! 0%nat = Some MODE_DONE;
  ck_modes : forall i m, (0 < i <= Z.to_nat (top jc))%nat -> stack jc !! i = Some m -> m <> MODE_DONE;
}.

(** A result that is no fault and satisfies [P] if the step goes on. *)
Definition safe {A} (P : A -> Prop) (o : outcome A) : Prop :=
  match o with Go a => P a | Reject => True | Fault => False end.

Lemma safe_bind {A B} (P : A -> Prop) (Q : B -> Prop) (e : outcome A) (k : A -> outcome B) :
  safe P e -> (forall a, P a -> safe Q (k a)) -> safe Q (bind e k).
Proof. destruct e; simpl; auto. Qed.

(** Every class and state code has a table entry in the range the [switch] handles. *)
Definition table_ok : bool :=
  forallb (fun s => forallb (fun c =>
    match transition (Z.of_nat s) (Z.of_nat c) with
    | Go t => (-9 <=? t) && (t <? NR_STATES)
    | _ => false
    end) (seq 0 31)) (seq 0 30).

Lemma transition_safe (s c : Z) :
  0 <= s < NR_STATES -> 0 <= c < NR_CLASSES ->
  safe (fun t => -9 <= t < NR_STATES) (transition s c).
Proof.
  intros Hs Hc. assert (table_ok = true) as H by (vm_compute; reflexivity).
  unfold table_ok in H. rewrite forallb_forall in H.
  specialize (H (Z.to_nat s)). rewrite in_seq in H. unfold NR_STATES, NR_CLASSES in *.
  specialize (H ltac:(lia)). rewrite forallb_forall in H.
  specialize (H (Z.to_nat c)). rewrite in_seq, !Z2Nat.id in H by lia.
  specialize (H ltac:(lia)). destruct (transition s c); simpl; bool_to_prop; done || lia.
Qed.

Lemma next_class_safe (c : Z) :
  0 <= c -> safe (fun k => 0 <= k < NR_CLASSES) (next_class_of c).
Proof.
  intros Hc. unfold next_class_of. destruct (Z.geb_spec c 128); [by vm_compute|].
  assert (forallb (fun n => match ascii_class !! n with
    | Some k => (-1 <=? k) && (k <? NR_CLASSES) | None => false end) (seq 0 128) = true) as H'
    by (vm_compute; reflexivity).
  rewrite forallb_forall in H'. specialize (H' (Z.to_nat c)). rewrite in_seq in H'.
  specialize (H' ltac:(lia)). destruct (ascii_class !! Z.to_nat c) as [k|]; [|done].
  unfold __. destruct (Z.leb_spec k (-1)); [done|]. simpl. bool_to_prop. lia.
Qed.

Lemma stack_at_safe (jc : JSON_checker) (i : Z) :
  checker_ok jc -> 0 <= i <= top jc ->
  exists m, stack_at jc i = Go m /\ stack jc !! Z.to_nat i = Some m.
Proof.
  intros [_ Hl Ht _ _] Hi. unfold stack_at. replace (i <? 0) with false by lia.
  destruct (lookup_lt_is_Some_2 (stack jc) (Z.to_nat i)) as [m Hm]; [lia|].
  exists m. by rewrite Hm.
Qed.

Lemma set_state_ok (jc : JSON_checker) (s : Z) :
  checker_ok jc -> 0 <= s < NR_STATES -> checker_ok (set_state jc s).
Proof. intros [] ?. by constructor. Qed.

Lemma push_safe (jc : JSON_checker) (m : Z) :
  checker_ok jc -> m <> MODE_DONE ->
  safe (fun jc' => checker_ok jc' /\ top jc' = top jc + 1 /\
                   stack jc' !! Z.to_nat (top jc') = Some m) (push jc m).
Proof.
  intros [Hs Hl Ht Hb Hm] Hne. unfold push. simpl.
  destruct (Z.geb_spec (top jc + 1) (depth jc)); [done|].
  replace (_ || _) with false by lia. simpl. split_and!; [|done|].
  - constructor; simpl; try done; rewrite ?length_insert; try lia.
    + rewrite list_lookup_insert_ne by lia. done.
    + intros i k Hi Hk. destruct (decide (i = Z.to_nat (top jc + 1))) as [->|Hn].
      * rewrite list_lookup_insert_eq in Hk by lia. by simplify_eq.
      * rewrite list_lookup_insert_ne in Hk by done. apply (Hm i); [lia|done].
  - apply list_lookup_insert_eq. lia.
Qed.

Lemma pop_safe (jc : JSON_checker) (m : Z) :
  checker_ok jc -> m <> MODE_DONE ->
  safe (fun jc' => checker_ok jc' /\ top jc' = top jc - 1) (pop jc m).
Proof.
  intros Hok Hne. unfold pop. pose proof (ck_top jc Hok).
  replace (top jc <? 0) with false by lia.
  destruct (stack_at_safe jc (top jc) Hok ltac:(lia)) as (k & -> & Hk).
  destruct (Z.eqb_spec k m) as [->|]; [|done]. simpl. destruct Hok as [Hs Hl Ht Hb Hm].
  assert (top jc <> 0).
  { intros E. rewrite E in Hk. change (Z.to_nat 0) with 0%nat in Hk. rewrite Hb in Hk. by simplify_eq. }
  split; [|done]. constructor; simpl; try done; [lia|]. intros i k Hi. apply Hm. lia.
Qed.

(** Discharges the conditions on the constants of the tables. *)
Ltac codes := first [done | by vm_compute | (split; by vm_compute)].

Lemma action_safe (jc : JSON_checker) (t : Z) : checker_ok jc -> safe checker_ok (action jc t).
Proof.
  intros Hok. unfold action.
  destruct (stack_at_safe jc (top jc) Hok) as (k & Hk & _); [pose proof (ck_top jc Hok); lia|].
  repeat match goal with
  | |- safe _ (if ?b then _ else _) => destruct b
  | |- safe _ (bind (push _ _) _) =>
      eapply safe_bind; [apply push_safe; [eassumption|codes]|intros ? (?&?&?)]
  | |- safe _ (bind (pop _ _) _) =>
      eapply safe_bind; [apply pop_safe; [eassumption|codes]|intros ? (?&?)]
  | |- safe _ (bind (stack_at _ _) _) => rewrite Hk; simpl
  | |- safe _ (Go (set_state _ _)) => apply set_state_ok; [eassumption|codes]
  | |- safe _ Reject => exact I
  end.
Qed.

Lemma JSON_checker_char_safe (jc : JSON_checker) (c : Z) :
  checker_ok jc -> safe checker_ok (JSON_checker_char jc c).
Proof.
  intros Hok. unfold JSON_checker_char. destruct (Z.ltb_spec c 0); [done|].
  eapply safe_bind; [by apply next_class_safe|]. intros k Hk.
  eapply safe_bind; [apply transition_safe; [by destruct Hok|done]|]. intros t Ht.
  destruct (Z.geb_spec t 0); [by apply set_state_ok; [|simpl in Ht; lia]|by apply action_safe].
Qed.

Lemma new_JSON_checker_ok (d : Z) : 0 < d -> safe checker_ok (new_JSON_checker d).
Proof.
  intros Hd. unfold new_JSON_checker, push. simpl. change (-1 + 1) with 0.
  destruct (Z.geb_spec 0 d); [lia|]. rewrite length_replicate.
  destruct (Z.leb_spec (Z.of_nat (Z.to_nat d)) 0); [lia|]. simpl.
  constructor; simpl; rewrite ?length_insert, ?length_replicate; try codes; try lia.
  destruct (Z.to_nat d) eqn:E; [lia|done].
Qed.

Lemma check_chars_safe (s : list ascii) (jc : JSON_checker) :
  checker_ok jc -> safe checker_ok (check_chars jc s).
Proof.
  revert jc; induction s as [|c r IH]; intros jc Hok; simpl; [done|].
  destruct (_ =? 0); [done|]. eapply safe_bind; [by apply JSON_checker_char_safe|auto].
Qed.

(** C4: the checker never reads or writes outside its tables or its stack.
    Started with any positive stack depth and fed any bytes, every step either
    goes on in a state where the invariant holds or rejects the text; in
    particular the check of a request (depth 20) always gives a verdict. *)
Theorem checker_memory_safe (d : Z) (s : list ascii) :
  0 < d ->
  safe (fun jc => checker_ok jc /\ safe checker_ok (check_chars jc s)) (new_JSON_checker d) /\
  exists b, json_checker_function s = Go b.
Proof.
  intros Hd. split.
  { pose proof (new_JSON_checker_ok d Hd) as H. destruct (new_JSON_checker d); simpl in *; auto.
    split; [done|]. by apply check_chars_safe. }
  unfold json_checker_function. pose proof (new_JSON_checker_ok 20 ltac:(lia)) as H.
  destruct (new_JSON_checker 20) as [jc| |]; simpl in H; [|eauto|done].
  pose proof (check_chars_safe s jc H) as H'. destruct (check_chars jc s) as [jc'| |]; [|eauto|done].
  simpl in H'. unfold JSON_checker_done. destruct (state jc' =? OK); [|eauto].
  unfold pop. pose proof (ck_top jc' H'). replace (top jc' <? 0) with false by lia.
  destruct (stack_at_safe jc' (top jc') H' ltac:(lia)) as (k & -> & _).
  destruct (k =? MODE_DONE); eauto.
Qed.

Lemma checker_memory_safe_witness :
  0 < 20 /\ exists b, json_checker_function (bytes "[[") = Go b.
Proof. split; [lia|]. apply (checker_memory_safe 20 (bytes "[[") eq_refl). Defined.
