(* ===== verification/GenericChain.v ===== *)
(** * The generic chain (ADGenericChain.cpp and ADGenericChain.hpp of lib-jsonrpc-tcp)

    The queue every component of the library stores its work in: a doubly linked
    list of holders behind a base holder that is part of the chain object.  The
    first half is the code: the holders live in a memory that maps addresses to
    holders, a wrong read, write or [free] is a failure ([None]), and the loops
    that follow pointers run on fuel.  The second half is what the chain promises:
    a list, [spec_chain], with one function per operation; the refinement theorems
    say that no operation fails and that each does to the list what its
    specification says.  The components that own chains are modelled on top of
    [spec_chain].

    Every operation that takes the chain's mutex is one atomic step here. *)
From S2P Require Import Prelude.
Open Scope Z_scope.

(** The [void *] values a chain stores, and the consumer attached by
    [attach_helper]: whether an element is the one asked for ([== 0] in the code). *)
Class ChainConsumer (V : Type) := {
  NULL : V;
  identify_chain_element : V -> Z -> bool;
  double_identify_chain_element : V -> Z -> Z -> bool;
}.

(** What [remove_all()] does to an element: the consumer's
    [free_chain_element_data], then the element deleter. *)
Inductive release (V : Type) := ReleaseContents (v : V) | DeleteElement (v : V).
Arguments ReleaseContents {V} v.
Arguments DeleteElement {V} v.

(** ** The code *)
Module Linked.
Abbreviation address := positive.
Abbreviation pointer := (option address).

Section linked.
Context `{ChainConsumer V}.

(** [struct chain_holder] *)
Record chain_holder := Holder { pData : V; pPrev : pointer; pNext : pointer }.

(** [&base_chain] *)
Definition base : address := 1%positive.

(** [class ADGenericChain]; the memory holds [base_chain] and the holders of the
    chain. [pConsumer] and [element_deleter] say whether the pointer is set. *)
Record ADGenericChain := {
  mem : gmap address chain_holder;
  disable_autoremove : Z;
  element_deleter : bool;
  chain_peak_size : Z;
  chain_size : Z;
  ident_generator : Z;
  init_flag : bool;
  pConsumer : bool;
  id : Z;
}.

Definition set_mem (c : ADGenericChain) (m : gmap address chain_holder) : ADGenericChain :=
  {| mem := m; disable_autoremove := disable_autoremove c; element_deleter := element_deleter c;
     chain_peak_size := chain_peak_size c; chain_size := chain_size c;
     ident_generator := ident_generator c; init_flag := init_flag c; pConsumer := pConsumer c; id := id c |}.

Definition set_size (c : ADGenericChain) (n peak : Z) : ADGenericChain :=
  {| mem := mem c; disable_autoremove := disable_autoremove c; element_deleter := element_deleter c;
     chain_peak_size := peak; chain_size := n;
     ident_generator := ident_generator c; init_flag := init_flag c; pConsumer := pConsumer c; id := id c |}.

Definition set_ident (c : ADGenericChain) (n : Z) : ADGenericChain :=
  {| mem := mem c; disable_autoremove := disable_autoremove c; element_deleter := element_deleter c;
     chain_peak_size := chain_peak_size c; chain_size := chain_size c;
     ident_generator := n; init_flag := init_flag c; pConsumer := pConsumer c; id := id c |}.

(** [ADGenericChain::ADGenericChain()]; [d] and [p] are what the fields of
    [base_chain] the constructor leaves alone happen to hold, [n] the value of
    [ADChainProducer::IDGenerator]. *)
Definition new_ADGenericChain (d : V) (p : pointer) (n : Z) : ADGenericChain :=
  {| mem := {[ base := Holder d p None ]}; disable_autoremove := 0; element_deleter := true;
     chain_peak_size := 0; chain_size := 0; ident_generator := 0; init_flag := true;
     pConsumer := false; id := n |}.

(** [attach_helper()]: the first consumer stays. *)
Definition attach_helper (c : ADGenericChain) : Z * ADGenericChain :=
  if pConsumer c then (-1, c)
  else (id c, {| mem := mem c; disable_autoremove := disable_autoremove c;
                 element_deleter := element_deleter c; chain_peak_size := chain_peak_size c;
                 chain_size := chain_size c; ident_generator := ident_generator c;
                 init_flag := init_flag c; pConsumer := true; id := id c |}).

(** [disable_auto_remove()] and [enable_auto_remove()], [set_element_deleter()] *)
Definition set_auto_remove (c : ADGenericChain) (d : Z) : ADGenericChain :=
  {| mem := mem c; disable_autoremove := d; element_deleter := element_deleter c;
     chain_peak_size := chain_peak_size c; chain_size := chain_size c;
     ident_generator := ident_generator c; init_flag := init_flag c;
     pConsumer := pConsumer c; id := id c |}.
Definition disable_auto_remove (c : ADGenericChain) : Z * ADGenericChain := (0, set_auto_remove c 1).
Definition enable_auto_remove (c : ADGenericChain) : Z * ADGenericChain := (0, set_auto_remove c 0).
Definition set_element_deleter (c : ADGenericChain) (deleter : bool) : Z * ADGenericChain :=
  (0, {| mem := mem c; disable_autoremove := disable_autoremove c; element_deleter := deleter;
         chain_peak_size := chain_peak_size c; chain_size := chain_size c;
         ident_generator := ident_generator c; init_flag := init_flag c;
         pConsumer := pConsumer c; id := id c |}).

(** [*p] *)
Definition deref (c : ADGenericChain) (p : pointer) : option chain_holder :=
  a ← p; mem c !! a.

(** [p->pNext = n] and [p->pPrev = n] *)
Definition set_next (c : ADGenericChain) (p n : pointer) : option ADGenericChain :=
  a ← p; h ← mem c !! a; Some (set_mem c (<[a := Holder (pData h) (pPrev h) n]> (mem c))).
Definition set_prev (c : ADGenericChain) (p n : pointer) : option ADGenericChain :=
  a ← p; h ← mem c !! a; Some (set_mem c (<[a := Holder (pData h) n (pNext h)]> (mem c))).
Definition set_data (c : ADGenericChain) (p : pointer) (v : V) : option ADGenericChain :=
  a ← p; h ← mem c !! a; Some (set_mem c (<[a := Holder v (pPrev h) (pNext h)]> (mem c))).

(** [free(p)] of a holder; [base_chain] is not a heap block. *)
Definition free_holder (c : ADGenericChain) (p : pointer) : option ADGenericChain :=
  a ← p;
  if bool_decide (a = base) then None
  else _ ← mem c !! a; Some (set_mem c (delete a (mem c))).

(** The fuel of the loops: more than there are holders. *)
Definition fuel_of (c : ADGenericChain) : nat := S (size (mem c)).

(** [while (pHolder->pNext != NULL) pHolder = pHolder->pNext;] *)
Fixpoint last_holder (fuel : nat) (c : ADGenericChain) (p : pointer) : option pointer :=
  match fuel with
  | O => None
  | S fuel =>
      h ← deref c p;
      match pNext h with
      | None => Some p
      | Some a => last_holder fuel c (Some a)
      end
  end.

(** [chain_add()]; [block] is what [malloc] returned. *)
Definition chain_add (c : ADGenericChain) (block : pointer) (data : V)
  : option (Z * ADGenericChain) :=
  match block with
  | None => Some (-1, c)
  | Some a =>
      let c := set_mem c (<[a := Holder data None None]> (mem c)) in
      p ← last_holder (fuel_of c) c (Some base);
      c ← set_next c p (Some a);
      c ← set_prev c (Some a) p;
      c ← set_next c (Some a) None;
      let size := chain_size c + 1 in
      Some (0, set_size c size (if size >? chain_peak_size c then size else chain_peak_size c))
  end.

(** [chain_put()] *)
Definition chain_put (c : ADGenericChain) (block : pointer) (data : V)
  : option (Z * ADGenericChain) :=
  if negb (init_flag c) then Some (-1, c) else chain_add c block data.

(** [while (pHolder != NULL) { if (test(pHolder->pData)) break; pHolder = pHolder->pNext; }] *)
Fixpoint search (fuel : nat) (c : ADGenericChain) (test : V -> bool) (p : pointer)
  : option pointer :=
  match fuel with
  | O => None
  | S fuel =>
      match p with
      | None => Some None
      | Some _ =>
          h ← deref c p;
          if test (pData h) then Some p else search fuel c test (pNext h)
      end
  end.

(** The common body of [chain_get_by_ident()] and [chain_get_by_double_ident()]. *)
Definition get_by (c : ADGenericChain) (test : V -> bool) : option V :=
  b ← deref c (Some base);
  match pNext b with
  | None => Some NULL
  | Some _ =>
      if negb (pConsumer c) then Some NULL
      else
        p ← search (fuel_of c) c test (pNext b);
        match p with
        | None => Some NULL
        | Some _ => h ← deref c p; Some (pData h)
        end
  end.

Definition chain_get_by_ident (c : ADGenericChain) (ident : Z) : option V :=
  get_by c (fun v => identify_chain_element v ident).
Definition chain_get_by_double_ident (c : ADGenericChain) (ident1 ident2 : Z) : option V :=
  get_by c (fun v => double_identify_chain_element v ident1 ident2).

(** Takes a holder out of the list and releases it: the end of [chain_remove()],
    [remove()] and the two [chain_remove_by_...] functions. *)
Definition unlink (c : ADGenericChain) (p : pointer) : option ADGenericChain :=
  h ← deref c p;
  c ← match pNext h with
      | Some _ =>
          c ← set_next c (pPrev h) (pNext h);
          h ← deref c p;
          set_prev c (pNext h) (pPrev h)
      | None => set_next c (pPrev h) None
      end;
  c ← free_holder c p;
  Some (set_size c (chain_size c - 1) (chain_peak_size c)).

(** The common body of [chain_remove_by_ident()] and [chain_remove_by_double_ident()]. *)
Definition remove_by (c : ADGenericChain) (test : V -> bool) : option (V * ADGenericChain) :=
  b ← deref c (Some base);
  if negb (init_flag c) then Some (NULL, c)
  else
    match pNext b with
    | None => Some (NULL, c)
    | Some _ =>
        if negb (pConsumer c) then Some (NULL, c)
        else
          p ← search (fuel_of c) c test (pNext b);
          match p with
          | None => Some (NULL, c)
          | Some _ => h ← deref c p; c ← unlink c p; Some (pData h, c)
          end
    end.

Definition chain_remove_by_ident (c : ADGenericChain) (ident : Z) : option (V * ADGenericChain) :=
  remove_by c (fun v => identify_chain_element v ident).
Definition chain_remove_by_double_ident (c : ADGenericChain) (ident1 ident2 : Z)
  : option (V * ADGenericChain) :=
  remove_by c (fun v => double_identify_chain_element v ident1 ident2).

(** [while (i++ < index) pHolder = pHolder->pNext;] *)
Fixpoint advance (n : nat) (c : ADGenericChain) (p : pointer) : option pointer :=
  match n with
  | O => Some p
  | S n => h ← deref c p; advance n c (pNext h)
  end.

(** [chain_get_by_index()] *)
Definition chain_get_by_index (c : ADGenericChain) (index : Z) : option V :=
  b ← deref c (Some base);
  match pNext b with
  | None => Some NULL
  | Some _ =>
      if index >=? chain_size c then Some NULL
      else
        p ← advance (Z.to_nat index) c (pNext b);
        match p with
        | None => Some NULL
        | Some _ => h ← deref c p; Some (pData h)
        end
  end.

(** [chain_remove()] and the private [remove()] *)
Definition chain_remove (c : ADGenericChain) : option (Z * ADGenericChain) :=
  b ← deref c (Some base);
  match pNext b with
  | None => Some (-1, c)
  | Some a => c ← unlink c (Some a); Some (0, c)
  end.

(** [chain_get()] *)
Definition chain_get (c : ADGenericChain) : option (V * ADGenericChain) :=
  if negb (init_flag c) then Some (NULL, c)
  else
    b ← deref c (Some base);
    match pNext b with
    | None => Some (NULL, c)
    | Some a =>
        h ← deref c (Some a);
        rc ← chain_remove c;
        Some (pData h, rc.2)
    end.

(** [get_top()] *)
Definition get_top (c : ADGenericChain) : option V :=
  if negb (init_flag c) then Some NULL
  else
    b ← deref c (Some base);
    match pNext b with
    | None => Some NULL
    | Some a => h ← deref c (Some a); Some (pData h)
    end.

Definition get_chain_size (c : ADGenericChain) : Z := chain_size c.

(** [chain_generate_ident()] *)
Definition chain_generate_ident (c : ADGenericChain) : Z * ADGenericChain :=
  let ident := i32 (ident_generator c + 1) in (ident, set_ident c ident).

(** [remove_all()], with the releases in the order they are made. *)
Fixpoint remove_all (fuel : nat) (c : ADGenericChain) : option (list (release V) * ADGenericChain) :=
  match fuel with
  | O => None
  | S fuel =>
      b ← deref c (Some base);
      match pNext b with
      | None => Some ([], c)
      | Some a =>
          h ← deref c (Some a);
          rc ← (if disable_autoremove c =? 0 then
                  c' ← set_data c (Some a) NULL;
                  Some ((if pConsumer c then [ReleaseContents (pData h)] else []) ++
                        (if element_deleter c then [DeleteElement (pData h)] else []), c')
                else Some ([], c));
          c2 ← chain_remove rc.2;
          rest ← remove_all fuel c2.2;
          Some (rc.1 ++ rest.1, rest.2)
      end
  end.

(** [chain_empty()] *)
Definition chain_empty (c : ADGenericChain) : option (list (release V) * ADGenericChain) :=
  rc ← remove_all (fuel_of c) c; Some (rc.1, set_ident rc.2 0).

(** [~ADGenericChain()] *)
Definition destroy (c : ADGenericChain) : option (list (release V) * ADGenericChain) :=
  rc ← remove_all (fuel_of c) c;
  let c := rc.2 in
  Some (rc.1, {| mem := mem c; disable_autoremove := disable_autoremove c;
                 element_deleter := element_deleter c; chain_peak_size := chain_peak_size c;
                 chain_size := chain_size c; ident_generator := ident_generator c;
                 init_flag := false; pConsumer := pConsumer c; id := id c |}).
End linked.
End Linked.

(** ** What a chain promises *)
Module Chain.
Section spec.
Context {V : Type}.

(** The abstract chain: the elements in order and the counters. *)
Record chain := {
  items : list V;
  ident : Z;
  peak : Z;
  open : bool;      (* [init_flag] *)
  attached : bool;  (* [pConsumer != NULL] *)
  autoremove : bool; (* [disable_autoremove == 0] *)
  deleter : bool;   (* [element_deleter != NULL] *)
}.

Definition set_items (s : chain) (l : list V) : chain :=
  {| items := l; ident := ident s; peak := peak s; open := open s;
     attached := attached s; autoremove := autoremove s; deleter := deleter s |}.

Lemma set_items_id (s : chain) : set_items s (items s) = s.
Proof. by destruct s. Qed.

Definition empty_chain : chain :=
  {| items := []; ident := 0; peak := 0; open := true; attached := true;
     autoremove := true; deleter := true |}.

Definition size (s : chain) : Z := Z.of_nat (length (items s)).

Definition put (s : chain) (v : V) : Z * chain :=
  if open s then
    (0, {| items := items s ++ [v]; ident := ident s; peak := Z.max (peak s) (size s + 1);
           open := open s; attached := attached s; autoremove := autoremove s; deleter := deleter s |})
  else (-1, s).

Definition get (s : chain) : option V * chain :=
  match items s with
  | v :: r => if open s then (Some v, set_items s r) else (None, s)
  | [] => (None, s)
  end.

Definition lookup (test : V -> bool) (s : chain) : option V :=
  if attached s then find_first test (items s) else None.

Definition take (test : V -> bool) (s : chain) : option V * chain :=
  if open s && attached s then
    (find_first test (items s), set_items s (remove_first test (items s)))
  else (None, s).

Definition nth (s : chain) (index : Z) : option V := items s !! Z.to_nat index.

Definition generate_ident (s : chain) : Z * chain :=
  let n := i32 (ident s + 1) in
  (n, {| items := items s; ident := n; peak := peak s; open := open s;
     attached := attached s; autoremove := autoremove s; deleter := deleter s |}).

Definition releases (s : chain) : list (release V) :=
  if autoremove s then
    concat (map (fun v => (if attached s then [ReleaseContents v] else []) ++
                          (if deleter s then [DeleteElement v] else [])) (items s))
  else [].

Definition empty (s : chain) : list (release V) * chain :=
  (releases s,
   {| items := []; ident := 0; peak := peak s; open := open s;
      attached := attached s; autoremove := autoremove s; deleter := deleter s |}).

End spec.
Arguments chain V : clear implicits.
End Chain.

(** ** The chain keeps its promise *)
Section refinement.
Context `{ChainConsumer V}.
Import Linked.

(** The holders [zs], in order, from the pointer [first] to the pointer [e]; [prev]
    is what the first holder points back to. *)
Fixpoint segment (m : gmap address chain_holder) (prev first : pointer)
    (zs : list (address * V)) (e : pointer) : Prop :=
  match zs with
  | [] => first = e
  | (a, v) :: r =>
      first = Some a /\ exists n, m !! a = Some (Holder v prev n) /\ segment m (Some a) n r e
  end.

Definition last_ptr (p : pointer) (zs : list (address * V)) : pointer :=
  match last zs with Some (a, _) => Some a | None => p end.

Lemma last_ptr_cons (p : pointer) (a : address) (v : V) (zs : list (address * V)) :
  last_ptr p ((a, v) :: zs) = last_ptr (Some a) zs.
Proof. unfold last_ptr. rewrite last_cons. by destruct (last zs). Qed.

Lemma last_ptr_snoc (p : pointer) (zs : list (address * V)) (a : address) (v : V) :
  last_ptr p (zs ++ [(a, v)]) = Some a.
Proof. unfold last_ptr. by rewrite last_snoc. Qed.

Lemma segment_app (m : gmap address chain_holder) (z1 z2 : list (address * V)) p f e :
  segment m p f (z1 ++ z2) e <->
  exists q, segment m p f z1 q /\ segment m (last_ptr p z1) q z2 e.
Proof.
  revert p f; induction z1 as [|[a v] z1 IH]; intros p f; simpl.
  - split; [intros; eexists; split; [done|done]|]. by intros (q & -> & ?).
  - rewrite last_ptr_cons. split.
    + intros (-> & n & Hn & (q & ? & ?)%IH). exists q. eauto 6.
    + intros (q & (-> & n & Hn & Hs) & Hq). split; [done|]. exists n.
      split; [done|]. apply IH. eauto.
Qed.

Lemma segment_frame (m m' : gmap address chain_holder) (zs : list (address * V)) p f e :
  (forall a, a ∈ zs.*1 -> m' !! a = m !! a) -> segment m p f zs e -> segment m' p f zs e.
Proof.
  revert p f; induction zs as [|[a v] zs IH]; intros p f Hm; simpl; [done|].
  intros (-> & n & Hn & Hs). split; [done|]. exists n. split.
  - rewrite Hm; [done|set_solver].
  - apply IH; [|done]. intros b Hb. apply Hm. set_solver.
Qed.

Lemma segment_insert (m : gmap address chain_holder) (zs : list (address * V)) p f e a h :
  a ∉ zs.*1 -> segment m p f zs e -> segment (<[a:=h]> m) p f zs e.
Proof.
  intros Ha. apply segment_frame. intros b Hb. rewrite lookup_insert_ne; [done|]. by intros ->.
Qed.

Lemma segment_delete (m : gmap address chain_holder) (zs : list (address * V)) p f e a :
  a ∉ zs.*1 -> segment m p f zs e -> segment (delete a m) p f zs e.
Proof.
  intros Ha. apply segment_frame. intros b Hb. rewrite lookup_delete_ne; [done|]. by intros ->.
Qed.

(** The chain object [c] holds the elements of [s]: [base_chain] and the holders
    form one list, back pointers included, and no other block is left. *)
Record represents (c : ADGenericChain) (s : Chain.chain V) (zs : list (address * V)) : Prop := {
  rp_list : exists d j, segment (mem c) j (Some base) ((base, d) :: zs) None;
  rp_nodup : NoDup (base :: zs.*1);
  rp_dom : dom (mem c) = list_to_set (base :: zs.*1);
  rp_items : Chain.items s = zs.*2;
  rp_size : chain_size c = Chain.size s;
  rp_peak : chain_peak_size c = Chain.peak s;
  rp_ident : ident_generator c = Chain.ident s;
  rp_open : init_flag c = Chain.open s;
  rp_att : pConsumer c = Chain.attached s;
  rp_auto : (disable_autoremove c =? 0) = Chain.autoremove s;
  rp_del : element_deleter c = Chain.deleter s;
}.

Definition refines (c : ADGenericChain) (s : Chain.chain V) : Prop := exists zs, represents c s zs.

Lemma refines_fuel (c : ADGenericChain) (s : Chain.chain V) zs :
  represents c s zs -> fuel_of c = S (S (length zs)).
Proof.
  intros R. unfold fuel_of. f_equal. rewrite <- size_dom, (rp_dom c s zs R).
  rewrite size_list_to_set by apply (rp_nodup c s zs R). simpl. by rewrite length_fmap.
Qed.

Lemma refines_base (c : ADGenericChain) (s : Chain.chain V) zs :
  represents c s zs ->
  exists b, deref c (Some base) = Some b /\ segment (mem c) (Some base) (pNext b) zs None.
Proof.
  intros R. destruct (rp_list c s zs R) as (d & j & _ & n & Hn & Hs).
  exists (Holder d j n). unfold deref. simpl. by rewrite Hn.
Qed.

Lemma segment_snoc (m : gmap address chain_holder) (zs : list (address * V)) p f a v e :
  segment m p f (zs ++ [(a, v)]) e <->
  segment m p f zs (Some a) /\ m !! a = Some (Holder v (last_ptr p zs) e).
Proof.
  rewrite segment_app. simpl. split.
  - intros (q & ? & -> & n & ? & ->). done.
  - intros [??]. eauto 6.
Qed.

Lemma last_holder_spec (c : ADGenericChain) (zs : list (address * V)) p a d fuel :
  segment (mem c) p (Some a) ((a, d) :: zs) None -> (length zs < fuel)%nat ->
  last_holder fuel c (Some a) = Some (last_ptr (Some a) zs).
Proof.
  revert p a d fuel; induction zs as [|[b v] zs IH]; intros p a d [|fuel] Hs Hf; simpl in Hf; try lia;
    simpl; destruct Hs as (_ & n & Hn & Hs); rewrite Hn; simpl.
  - simpl in Hs. by rewrite Hs.
  - destruct Hs as (-> & Hs). rewrite last_ptr_cons. apply (IH (Some a) b v); [|lia]. done.
Qed.

Lemma search_spec (c : ADGenericChain) (test : V -> bool) (zs : list (address * V)) p f fuel :
  segment (mem c) p f zs None -> (length zs < fuel)%nat ->
  search fuel c test f = Some (fst <$> find_first (fun z => test z.2) zs).
Proof.
  revert p f fuel; induction zs as [|[a v] zs IH]; intros p f [|fuel] Hs Hf; simpl in Hf; try lia;
    simpl.
  - simpl in Hs. by subst.
  - destruct Hs as (-> & n & Hn & Hs). simpl. rewrite Hn. simpl.
    destruct (test v); [done|]. apply (IH (Some a)); [done|lia].
Qed.

#[local] Arguments search : simpl never.
#[local] Arguments last_holder : simpl never.

Lemma advance_spec (c : ADGenericChain) (zs : list (address * V)) p f n :
  segment (mem c) p f zs None -> (n < length zs)%nat ->
  exists a v, zs !! n = Some (a, v) /\ advance n c f = Some (Some a) /\
              pData <$> deref c (Some a) = Some v.
Proof.
  revert p f n; induction zs as [|[a v] zs IH]; intros p f n Hs Hn; simpl in Hn; [lia|].
  destruct Hs as (-> & q & Hq & Hs). destruct n as [|n]; simpl.
  - exists a, v. unfold deref; simpl. by rewrite Hq.
  - rewrite Hq. simpl. apply (IH (Some a)); [done|lia].
Qed.

Lemma segment_data (c : ADGenericChain) (zs : list (address * V)) p f a v :
  segment (mem c) p f zs None -> (a, v) ∈ zs -> pData <$> deref c (Some a) = Some v.
Proof.
  intros Hs (n & Hn)%list_elem_of_lookup.
  destruct (advance_spec c zs p f n Hs) as (b & w & Hb & _ & ?).
  { by eapply lookup_lt_Some. }
  by simplify_eq.
Qed.

(** Taking a holder out of the middle of the list: its neighbours are joined. *)
Lemma unlink_spec (c : ADGenericChain) z0 q w a v z2 p f :
  segment (mem c) p f (z0 ++ (q, w) :: (a, v) :: z2) None ->
  NoDup (z0 ++ (q, w) :: (a, v) :: z2).*1 -> a <> base ->
  exists m, unlink c (Some a) = Some (set_size (set_mem c m) (chain_size c - 1) (chain_peak_size c)) /\
    segment m p f (z0 ++ (q, w) :: z2) None /\ dom m = dom (mem c) ∖ {[a]}.
Proof.
  intros Hs Hnd Ha.
  replace (z0 ++ (q, w) :: (a, v) :: z2) with ((z0 ++ [(q, w)]) ++ (a, v) :: z2) in *
    by by rewrite <- app_assoc.
  apply segment_app in Hs as (x & Hq & -> & n & Hn & Hs).
  rewrite last_ptr_snoc in Hn. apply segment_snoc in Hq as [Hz0 Hq].
  rewrite !fmap_app, fmap_cons in Hnd. simpl in Hnd.
  apply NoDup_app in Hnd as (Hnd1 & Hd & Hnd2).
  apply NoDup_app in Hnd1 as (Hnd0 & Hd0 & _). apply NoDup_cons in Hnd2 as [Ha2 Hnd2].
  assert (q <> a) by (intros ->; apply (Hd a); set_solver).
  assert (q ∉ z0.*1) by (intros ?; apply (Hd0 q); set_solver).
  assert (q ∉ z2.*1) by (intros ?; apply (Hd q); set_solver).
  assert (a ∉ z0.*1) by (intros ?; apply (Hd a); set_solver).
  unfold unlink, set_next, set_prev, free_holder, deref. simpl. rewrite Hn. simpl.
  destruct z2 as [|[b u] z2]; simpl in Hs.
  - subst n. simpl. rewrite Hq. simpl. rewrite bool_decide_eq_false_2 by done.
    rewrite lookup_insert_ne, Hn by done. simpl. eexists. split; [done|]. split.
    + apply segment_snoc. split.
      * apply segment_delete; [done|]. by apply segment_insert.
      * rewrite lookup_delete_ne, lookup_insert_eq by done. done.
    + rewrite dom_delete_L, dom_insert_lookup_L; eauto.
  - destruct Hs as (-> & k & Hb & Hs). simpl in *.
    apply NoDup_cons in Hnd2 as [Hb2 _].
    assert (b <> a) by set_solver. assert (b <> q) by set_solver.
    assert (b ∉ z0.*1) by (intros ?; apply (Hd b); set_solver).
    rewrite Hq. simpl. rewrite lookup_insert_ne, Hn by done. simpl.
    rewrite lookup_insert_ne, Hb by done. simpl. rewrite bool_decide_eq_false_2 by done.
    rewrite !lookup_insert_ne, Hn by done. simpl. eexists. split; [done|]. split.
    + replace (z0 ++ (q, w) :: (b, u) :: z2) with ((z0 ++ [(q, w)]) ++ (b, u) :: z2)
        by by rewrite <- app_assoc.
      apply segment_app. exists (Some b). rewrite last_ptr_snoc. split.
      * apply segment_snoc. split.
        -- apply segment_delete; [done|]. by do 2 (apply segment_insert; [done|]).
        -- rewrite lookup_delete_ne, lookup_insert_ne, lookup_insert_eq by done. done.
      * split; [done|]. exists k. split.
        -- rewrite lookup_delete_ne, lookup_insert_eq by done. done.
        -- apply segment_delete; [set_solver|]. do 2 (apply segment_insert; [set_solver|]). done.
    + rewrite dom_delete_L, dom_insert_lookup_L; [rewrite dom_insert_lookup_L; eauto|].
      rewrite lookup_insert_ne by done. eauto.
Qed.

(** The same for a represented chain. *)
Lemma unlink_represents (c : ADGenericChain) (s : Chain.chain V) z1 a v z2 :
  represents c s (z1 ++ (a, v) :: z2) ->
  exists c', unlink c (Some a) = Some c' /\
    represents c' (Chain.set_items s (z1.*2 ++ z2.*2)) (z1 ++ z2).
Proof.
  intros R. destruct (rp_list _ _ _ R) as (d & j & Hs). pose proof (rp_nodup _ _ _ R) as Hnd.
  destruct (exists_last (l := (base, d) :: z1)) as (z0 & [q w] & E); [done|].
  assert (a <> base).
  { intros ->. apply NoDup_cons in Hnd as [Hb _]. apply Hb. rewrite fmap_app. set_solver. }
  replace ((base, d) :: z1 ++ (a, v) :: z2) with (z0 ++ (q, w) :: (a, v) :: z2) in Hs
    by (rewrite app_comm_cons, E, <- app_assoc; done).
  destruct (unlink_spec c z0 q w a v z2 j (Some base) Hs) as (m & -> & Hm & Hdom); [|done|].
  { replace ((z0 ++ (q, w) :: (a, v) :: z2).*1) with (base :: (z1 ++ (a, v) :: z2).*1); [done|].
    change (((base, d) :: z1 ++ (a, v) :: z2).*1 = (z0 ++ (q, w) :: (a, v) :: z2).*1).
    rewrite app_comm_cons, E, <- app_assoc. done. }
  eexists. split; [done|].
  rewrite fmap_app, fmap_cons in Hnd. simpl in Hnd.
  constructor; simpl; try apply R.
  - exists d, j. replace (z0 ++ (q, w) :: z2) with ((base, d) :: z1 ++ z2) in Hm
      by (rewrite app_comm_cons, E, <- app_assoc; done). done.
  - rewrite fmap_app. apply NoDup_cons in Hnd as [Hb Hnd]. apply NoDup_cons. split; [set_solver|].
    apply (NoDup_app z1.*1) in Hnd as (? & Hd & [??]%NoDup_cons). apply NoDup_app.
    split_and!; [done|set_solver|done].
  - rewrite Hdom, (rp_dom _ _ _ R), !fmap_app, fmap_cons. simpl.
    assert (a ∉ z1.*1 /\ a ∉ z2.*1) as [??].
    { apply NoDup_cons in Hnd as [_ Hnd].
      apply (NoDup_app z1.*1) in Hnd as (? & Hd & [??]%NoDup_cons). set_solver. }
    set_solver.
  - by rewrite fmap_app.
  - rewrite (rp_size _ _ _ R). unfold Chain.size. simpl. rewrite (rp_items _ _ _ R), fmap_app, fmap_cons.
    rewrite !length_app. simpl. lia.
Qed.

(** Taking the first element that satisfies a test out of a list of pairs. *)
Lemma find_first_split (test : V -> bool) (zs : list (address * V)) a v :
  find_first (fun z => test z.2) zs = Some (a, v) ->
  exists z1 z2, zs = z1 ++ (a, v) :: z2 /\ find_first test zs.*2 = Some v /\
                remove_first test zs.*2 = z1.*2 ++ z2.*2.
Proof.
  induction zs as [|[b w] zs IH]; csimpl; [done|]. destruct (test w) eqn:E.
  - intros [= -> ->]. by exists [], zs.
  - intros (z1 & z2 & -> & ? & Hr)%IH. exists ((b, w) :: z1), z2. by rewrite Hr.
Qed.

Lemma find_first_pairs_None (test : V -> bool) (zs : list (address * V)) :
  find_first (fun z => test z.2) zs = None -> find_first test zs.*2 = None.
Proof. induction zs as [|[b w] zs IH]; csimpl; [done|]. by destruct (test w). Qed.

(** The value a lookup returns: [NULL] when there is none. *)
Abbreviation or_NULL o := (default NULL o).

Lemma get_by_refines (c : ADGenericChain) (s : Chain.chain V) (test : V -> bool) :
  refines c s -> get_by c test = Some (or_NULL (Chain.lookup test s)).
Proof.
  intros [zs R]. unfold get_by, Chain.lookup. rewrite <- (rp_att _ _ _ R), (rp_items _ _ _ R).
  destruct (refines_base c s zs R) as (b & Hb & Hs). rewrite Hb. simpl.
  destruct (pNext b) as [x|] eqn:E.
  2: { destruct zs as [|[? ?] ?]; [by destruct (pConsumer c)|by destruct Hs]. }
  destruct (pConsumer c); simpl; [|done].
  rewrite (search_spec c test zs (Some base)); [|done|rewrite (refines_fuel c s zs R); lia].
  simpl. destruct (find_first _ zs) as [[a v]|] eqn:F; simpl.
  - destruct (find_first_split _ _ _ _ F) as (z1 & z2 & Hz & -> & _).
    assert (pData <$> deref c (Some a) = Some v) as Hd
      by (apply (segment_data c zs (Some base) (Some x)); [done|subst zs; set_solver]).
    unfold deref in *. simpl in *. destruct (mem c !! a); simpl in *; congruence.
  - by rewrite (find_first_pairs_None _ _ F).
Qed.

Lemma take_refines (c : ADGenericChain) (s : Chain.chain V) (test : V -> bool) :
  refines c s ->
  exists c', remove_by c test = Some (or_NULL (Chain.take test s).1, c') /\
             refines c' (Chain.take test s).2.
Proof.
  intros [zs R]. unfold remove_by, Chain.take.
  rewrite <- (rp_att _ _ _ R), <- (rp_open _ _ _ R), (rp_items _ _ _ R).
  destruct (refines_base c s zs R) as (b & Hb & Hs). rewrite Hb. simpl.
  destruct (init_flag c); simpl; [|exists c; split; [done|by exists zs]].
  destruct (pNext b) as [x|] eqn:E.
  2: { exists c. destruct zs as [|[? ?] ?]; [|by destruct Hs]. simpl.
       change (@nil V) with ((@nil (address * V)).*2). rewrite <- (rp_items _ _ _ R).
       rewrite Chain.set_items_id. by destruct (pConsumer c); (split; [|exists []]). }
  destruct (pConsumer c); simpl; [|exists c; split; [done|by exists zs]].
  rewrite (search_spec c test zs (Some base)); [|done|rewrite (refines_fuel c s zs R); lia].
  simpl. destruct (find_first _ zs) as [[a v]|] eqn:F; simpl.
  - destruct (find_first_split _ _ _ _ F) as (z1 & z2 & Hz & -> & ->).
    assert (pData <$> deref c (Some a) = Some v) as Hd
      by (apply (segment_data c zs (Some base) (Some x)); [done|subst zs; set_solver]).
    subst zs. destruct (unlink_represents c s z1 a v z2 R) as (c' & Hu & R').
    unfold deref in *. simpl in *. destruct (mem c !! a) as [h|]; simpl in *; [|done].
    simplify_eq. rewrite Hu. simpl. exists c'. split; [done|by exists (z1 ++ z2)].
  - rewrite (find_first_pairs_None _ _ F), remove_first_none by by apply find_first_pairs_None.
    rewrite <- (rp_items _ _ _ R), Chain.set_items_id. exists c. split; [done|]. by exists zs.
Qed.

Lemma get_by_index_refines (c : ADGenericChain) (s : Chain.chain V) (index : Z) :
  refines c s -> chain_get_by_index c index = Some (or_NULL (Chain.nth s index)).
Proof.
  intros [zs R]. unfold chain_get_by_index, Chain.nth. rewrite (rp_items _ _ _ R).
  destruct (refines_base c s zs R) as (b & Hb & Hs). rewrite Hb. simpl.
  destruct (pNext b) as [x|] eqn:E.
  2: { destruct zs as [|[? ?] ?]; [done|by destruct Hs]. }
  rewrite (rp_size _ _ _ R). unfold Chain.size. rewrite (rp_items _ _ _ R), length_fmap.
  assert (0 < length zs)%nat by (destruct zs; [by simpl in Hs|simpl; lia]).
  destruct (Z.geb_spec index (Z.of_nat (length zs))) as [Hge|Hlt].
  { rewrite lookup_ge_None_2; [done|rewrite length_fmap; lia]. }
  destruct (advance_spec c zs (Some base) (Some x) (Z.to_nat index) Hs) as (a & v & Hz & -> & Hd);
    [lia|]. simpl. rewrite list_lookup_fmap, Hz. simpl.
  unfold deref in *. simpl in *. destruct (mem c !! a); simpl in *; congruence.
Qed.

Lemma remove_represents (c : ADGenericChain) (s : Chain.chain V) a v zs :
  represents c s ((a, v) :: zs) ->
  exists c', chain_remove c = Some (0, c') /\ represents c' (Chain.set_items s zs.*2) zs.
Proof.
  intros R. unfold chain_remove. destruct (refines_base c s _ R) as (b & Hb & Hs).
  rewrite Hb. simpl. destruct Hs as (-> & _).
  destruct (unlink_represents c s [] a v zs R) as (c' & -> & R'). simpl. eauto.
Qed.

Lemma chain_get_refines (c : ADGenericChain) (s : Chain.chain V) :
  refines c s ->
  exists c', chain_get c = Some (or_NULL (Chain.get s).1, c') /\ refines c' (Chain.get s).2.
Proof.
  intros [zs R]. unfold chain_get, Chain.get.
  rewrite <- (rp_open _ _ _ R), (rp_items _ _ _ R).
  destruct (init_flag c); cbn [negb].
  2: { exists c. destruct zs; simpl; (split; [done|eexists; done]). }
  destruct (refines_base c s zs R) as (b & Hb & Hs). rewrite Hb. simpl.
  destruct zs as [|[a v] zs]; simpl in Hs.
  { rewrite Hs. exists c. split; [done|by exists []]. }
  destruct Hs as (-> & n & Hn & Hs). simpl. rewrite Hn. simpl.
  destruct (remove_represents c s a v zs R) as (c' & -> & R'). simpl. exists c'.
  split; [done|by exists zs].
Qed.

Lemma get_top_refines (c : ADGenericChain) (s : Chain.chain V) :
  refines c s -> get_top c = Some (or_NULL (Chain.get s).1).
Proof.
  intros [zs R]. unfold get_top, Chain.get. rewrite <- (rp_open _ _ _ R), (rp_items _ _ _ R).
  destruct (init_flag c); cbn [negb]; [|by destruct zs].
  destruct (refines_base c s zs R) as (b & Hb & Hs). rewrite Hb. simpl.
  destruct zs as [|[a v] zs]; simpl in Hs; [by rewrite Hs|].
  destruct Hs as (-> & n & Hn & Hs). simpl. by rewrite Hn.
Qed.

Lemma chain_put_refines (c : ADGenericChain) (s : Chain.chain V) (a : address) (v : V) :
  refines c s -> mem c !! a = None ->
  exists c', chain_put c (Some a) v = Some ((Chain.put s v).1, c') /\ refines c' (Chain.put s v).2.
Proof.
  intros [zs R] Ha. unfold chain_put, Chain.put. rewrite <- (rp_open _ _ _ R).
  destruct (init_flag c) eqn:Hi; simpl; [|exists c; split; [done|by exists zs]].
  destruct (rp_list _ _ _ R) as (d & j & Hs).
  assert (a ∉ base :: zs.*1) as Hfr.
  { rewrite <- (elem_of_list_to_set (C := gset address)), <- (rp_dom _ _ _ R).
    by apply not_elem_of_dom. }
  set (c1 := set_mem c (<[a:=Holder v None None]> (mem c))).
  assert (segment (mem c1) j (Some base) ((base, d) :: zs) None) as Hs1 by by apply segment_insert.
  rewrite (last_holder_spec c1 zs j base d); [|done|].
  2: { unfold fuel_of, c1. simpl. rewrite map_size_insert_None by done.
       pose proof (refines_fuel c s zs R) as F. unfold fuel_of in F. lia. }
  cbn [mbind option_bind].
  destruct (exists_last (l := (base, d) :: zs)) as (z0 & [q w] & E); [done|].
  assert (last_ptr (Some base) zs = Some q) as ->.
  { rewrite <- (last_ptr_cons j base d), E. apply last_ptr_snoc. }
  rewrite E in Hs1. apply segment_snoc in Hs1 as [Hz0 Hq].
  pose proof (rp_nodup _ _ _ R) as Hnd.
  change (base :: zs.*1) with (((base, d) :: zs).*1) in Hnd, Hfr.
  rewrite E, fmap_app in Hnd, Hfr. simpl in Hnd, Hfr.
  apply NoDup_app in Hnd as (_ & Hd & _).
  assert (q <> a) by set_solver. assert (q ∉ z0.*1) by (intros ?; apply (Hd q); set_solver).
  unfold c1 in Hq. simpl in Hq.
  unfold set_next, set_prev. simpl. rewrite Hq. simpl. rewrite lookup_insert_ne by done.
  rewrite lookup_insert_eq. simpl. rewrite lookup_insert_eq. simpl.
  eexists. split; [done|]. exists (zs ++ [(a, v)]). constructor; simpl; try apply R.
  - exists d, j.
    change (segment (<[a:=Holder v (Some q) None]> (<[a:=Holder v (Some q) None]>
      (<[q:=Holder w (last_ptr j z0) (Some a)]> (<[a:=Holder v None None]> (mem c))))) j (Some base)
      (((base, d) :: zs) ++ [(a, v)]) None).
    rewrite E. apply segment_snoc. rewrite last_ptr_snoc, lookup_insert_eq. split; [|done].
    apply segment_insert; [rewrite fmap_app; set_solver|].
    apply segment_insert; [rewrite fmap_app; set_solver|].
    apply segment_snoc. split; [by apply segment_insert|]. by rewrite lookup_insert_eq.
  - change (NoDup (((base, d) :: zs ++ [(a, v)]).*1)).
    rewrite app_comm_cons, E, fmap_app. apply NoDup_app. split_and!.
    + rewrite <- E. apply R.
    + rewrite fmap_app. set_solver.
    + apply NoDup_singleton.
  - rewrite !dom_insert_L, (rp_dom _ _ _ R).
    assert (q ∈ base :: zs.*1) as Hqz
      by (change (q ∈ ((base, d) :: zs).*1); rewrite E, fmap_app; set_solver).
    rewrite fmap_app. set_solver.
  - by rewrite (rp_items _ _ _ R), fmap_app.
  - rewrite (rp_size _ _ _ R). unfold Chain.size. simpl. rewrite length_app. simpl. lia.
  - rewrite (rp_size _ _ _ R), (rp_peak _ _ _ R).
    destruct (Z.gtb_spec (Chain.size s + 1) (Chain.peak s)); lia.
  - done.
Qed.

Lemma set_data_represents (c : ADGenericChain) (s : Chain.chain V) a v w zs :
  represents c s ((a, v) :: zs) ->
  exists c', set_data c (Some a) w = Some c' /\
             represents c' (Chain.set_items s (w :: zs.*2)) ((a, w) :: zs).
Proof.
  intros R. destruct (rp_list _ _ _ R) as (d & j & _ & k & Hb & _ & n & Hn & Hs).
  pose proof (rp_nodup _ _ _ R) as [Hba [Ha Hnd]%NoDup_cons]%NoDup_cons.
  unfold set_data. simpl. rewrite Hn. simpl. eexists. split; [done|].
  constructor; simpl; try apply R.
  - exists d, j. split; [done|]. exists (Some a). split.
    + rewrite lookup_insert_ne by set_solver. pose proof (rp_list _ _ _ R) as Hl. simpl in Hl.
      destruct Hl as (d' & j' & _ & k' & Hb' & -> & _). by simplify_eq.
    + split; [done|]. exists n. rewrite lookup_insert_eq. split; [done|].
      by apply segment_insert.
  - rewrite dom_insert_lookup_L by eauto. apply R.
  - done.
  - rewrite (rp_size _ _ _ R). unfold Chain.size. rewrite (rp_items _ _ _ R). done.
Qed.

Lemma remove_all_represents (c : ADGenericChain) (s : Chain.chain V) zs fuel :
  represents c s zs -> (length zs < fuel)%nat ->
  exists c', remove_all fuel c = Some (Chain.releases s, c') /\
             represents c' (Chain.set_items s []) [].
Proof.
  revert c s fuel; induction zs as [|[a v] zs IH]; intros c s [|fuel] R Hf; simpl in Hf; try lia.
  - destruct (refines_base c s [] R) as (b & Hb & Hs). simpl in Hs.
    cbn [remove_all]. rewrite Hb. simpl. rewrite Hs. exists c. unfold Chain.releases.
    rewrite (rp_items _ _ _ R). split; [by destruct (Chain.autoremove s)|].
    change (@nil V) with ((@nil (address * V)).*2). by rewrite <- (rp_items _ _ _ R), Chain.set_items_id.
  - destruct (refines_base c s _ R) as (b & Hb & Hs). cbn [remove_all]. rewrite Hb. simpl.
    destruct Hs as (-> & n & Hn & _). simpl. rewrite Hn. simpl.
    unfold Chain.releases. rewrite <- (rp_auto _ _ _ R), <- (rp_att _ _ _ R), <- (rp_del _ _ _ R).
    rewrite (rp_items _ _ _ R). destruct (disable_autoremove c =? 0) eqn:Ed.
    + destruct (set_data_represents c s a v NULL zs R) as (c1 & E1 & R1).
      simpl in E1. rewrite Hn in E1. simpl in E1. injection E1 as <-. simpl.
      destruct (remove_represents _ _ a NULL zs R1) as (c2 & -> & R2). simpl.
      destruct (IH c2 _ fuel R2) as (c3 & -> & R3); [lia|]. simpl. exists c3.
      split; [|done]. unfold Chain.releases. simpl.
      by rewrite <- (rp_auto _ _ _ R), <- (rp_att _ _ _ R), <- (rp_del _ _ _ R), Ed.
    + simpl. destruct (remove_represents _ _ a v zs R) as (c2 & -> & R2). simpl.
      destruct (IH c2 _ fuel R2) as (c3 & -> & R3); [lia|]. simpl. exists c3.
      split; [|done]. unfold Chain.releases. simpl. by rewrite <- (rp_auto _ _ _ R), Ed.
Qed.

(** ** Runs *)

(** One call on a chain; [Put] carries what [malloc] returns for it. *)
Inductive op :=
| Put (block : pointer) (v : V)
| Get
| GetTop
| GetByIdent (n : Z)
| GetByDoubleIdent (n1 n2 : Z)
| GetByIndex (n : Z)
| RemoveByIdent (n : Z)
| RemoveByDoubleIdent (n1 n2 : Z)
| GenerateIdent
| Size
| Empty.

(** What a call answers. *)
Inductive answer := Num (n : Z) | Element (v : V) | Released (r : list (release V)).

Definition exec (c : ADGenericChain) (o : op) : option (answer * ADGenericChain) :=
  match o with
  | Put block v => rc ← chain_put c block v; Some (Num rc.1, rc.2)
  | Get => rc ← chain_get c; Some (Element rc.1, rc.2)
  | GetTop => v ← get_top c; Some (Element v, c)
  | GetByIdent n => v ← chain_get_by_ident c n; Some (Element v, c)
  | GetByDoubleIdent n1 n2 => v ← chain_get_by_double_ident c n1 n2; Some (Element v, c)
  | GetByIndex n => v ← chain_get_by_index c n; Some (Element v, c)
  | RemoveByIdent n => rc ← chain_remove_by_ident c n; Some (Element rc.1, rc.2)
  | RemoveByDoubleIdent n1 n2 => rc ← chain_remove_by_double_ident c n1 n2; Some (Element rc.1, rc.2)
  | GenerateIdent => let rc := chain_generate_ident c in Some (Num rc.1, rc.2)
  | Size => Some (Num (get_chain_size c), c)
  | Empty => rc ← chain_empty c; Some (Released rc.1, rc.2)
  end.

(** The specification of a call. *)
Definition spec_exec (s : Chain.chain V) (o : op) : answer * Chain.chain V :=
  match o with
  | Put (Some _) v => let rs := Chain.put s v in (Num rs.1, rs.2)
  | Put None _ => (Num (-1), s)
  | Get => let rs := Chain.get s in (Element (or_NULL rs.1), rs.2)
  | GetTop => (Element (or_NULL (Chain.get s).1), s)
  | GetByIdent n => (Element (or_NULL (Chain.lookup (fun v => identify_chain_element v n) s)), s)
  | GetByDoubleIdent n1 n2 =>
      (Element (or_NULL (Chain.lookup (fun v => double_identify_chain_element v n1 n2) s)), s)
  | GetByIndex n => (Element (or_NULL (Chain.nth s n)), s)
  | RemoveByIdent n =>
      let rs := Chain.take (fun v => identify_chain_element v n) s in (Element (or_NULL rs.1), rs.2)
  | RemoveByDoubleIdent n1 n2 =>
      let rs := Chain.take (fun v => double_identify_chain_element v n1 n2) s in
      (Element (or_NULL rs.1), rs.2)
  | GenerateIdent => let rs := Chain.generate_ident s in (Num rs.1, rs.2)
  | Size => (Num (Chain.size s), s)
  | Empty => let rs := Chain.empty s in (Released rs.1, rs.2)
  end.

(** [malloc] does not return a block that is in use. *)
Definition block_fresh (c : @ADGenericChain V) (o : op) : Prop :=
  match o with Put (Some a) _ => mem c !! a = None | _ => True end.

Lemma exec_refines (c : ADGenericChain) (s : Chain.chain V) (o : op) :
  refines c s -> block_fresh c o ->
  exists c', exec c o = Some ((spec_exec s o).1, c') /\ refines c' (spec_exec s o).2.
Proof.
  intros R Hb. destruct o as [[a|] v| | |n|n1 n2|n|n|n1 n2| | |]; simpl in *.
  - destruct (chain_put_refines c s a v R Hb) as (c' & -> & R'). simpl. eauto.
  - exists c. unfold chain_put, chain_add. by destruct (init_flag c).
  - destruct (chain_get_refines c s R) as (c' & -> & R'). simpl. eauto.
  - rewrite (get_top_refines c s R). simpl. eauto.
  - unfold chain_get_by_ident. rewrite (get_by_refines c s _ R). simpl. eauto.
  - unfold chain_get_by_double_ident. rewrite (get_by_refines c s _ R). simpl. eauto.
  - rewrite (get_by_index_refines c s n R). simpl. eauto.
  - unfold chain_remove_by_ident. edestruct (take_refines c s) as (c' & -> & R'); [done|]. simpl. eauto.
  - unfold chain_remove_by_double_ident. edestruct (take_refines c s) as (c' & -> & R'); [done|]. simpl. eauto.
  - destruct R as [zs R]. rewrite (rp_ident _ _ _ R). eexists. split; [done|]. exists zs.
    destruct R; by constructor.
  - destruct R as [zs R]. exists c. unfold get_chain_size. rewrite (rp_size _ _ _ R).
    split; [done|by exists zs].
  - destruct R as [zs R]. unfold chain_empty.
    destruct (remove_all_represents c s zs (fuel_of c) R) as (c' & -> & R').
    { rewrite (refines_fuel _ _ _ R). lia. }
    simpl. eexists. split; [done|]. exists []. destruct R'; by constructor.
Qed.

(** A run of calls, each answer recorded; [None] if one of them fails. *)
Fixpoint run (c : ADGenericChain) (os : list op) : option (list answer * ADGenericChain) :=
  match os with
  | [] => Some ([], c)
  | o :: r => ac ← exec c o; rest ← run ac.2 r; Some (ac.1 :: rest.1, rest.2)
  end.

Fixpoint spec_run (s : Chain.chain V) (os : list op) : list answer * Chain.chain V :=
  match os with
  | [] => ([], s)
  | o :: r => let rs := spec_exec s o in let rest := spec_run rs.2 r in (rs.1 :: rest.1, rest.2)
  end.

(** Each block is free when its call is made. *)
Fixpoint blocks_fresh (c : ADGenericChain) (os : list op) : Prop :=
  match os with
  | [] => True
  | o :: r => block_fresh c o /\ match exec c o with Some (_, c') => blocks_fresh c' r | None => True end
  end.

Lemma new_chain_refines (d : V) (p : pointer) (n : Z) :
  refines (attach_helper (new_ADGenericChain d p n)).2 Chain.empty_chain.
Proof.
  exists []. constructor; try done.
  - exists d, p. split; [done|]. exists None. split; [apply lookup_singleton_eq|done].
  - apply NoDup_singleton.
Qed.

Lemma run_refines (c : ADGenericChain) (s : Chain.chain V) (os : list op) :
  refines c s -> blocks_fresh c os ->
  exists c', run c os = Some ((spec_run s os).1, c') /\ refines c' (spec_run s os).2.
Proof.
  revert c s; induction os as [|o os IH]; intros c s R Hf; simpl; [eauto|].
  destruct Hf as [Ho Hf]. destruct (exec_refines c s o R Ho) as (c1 & E & R1).
  rewrite E in *. simpl. destruct (IH c1 _ R1 Hf) as (c2 & -> & R2). simpl. eauto.
Qed.

(** C5: the doubly linked list is a list.  A chain that has a consumer and is then
    put through any sequence of calls ([chain_put], [chain_get], the lookups, the
    removals by identifier, [chain_empty], ...) never follows a dangling or null
    pointer and never runs out of the loops' bounds, answers every call as the
    list specification does, and ends as the holder list of the specification's
    elements, with no holder leaked. *)
Theorem chain_refines_list (d : V) (p : pointer) (n : Z) (os : list op) :
  let c0 := (attach_helper (new_ADGenericChain d p n)).2 in
  blocks_fresh c0 os ->
  exists c, run c0 os = Some ((spec_run Chain.empty_chain os).1, c) /\
            refines c (spec_run Chain.empty_chain os).2.
Proof. intros c0 Hf. apply run_refines; [apply new_chain_refines|done]. Qed.

(** destroying a chain or emptying it releases each element it holds exactly
    once, in order, first its contents and then the element, and gives every
    holder back; with automatic removal disabled nothing is released but the
    holders. *)
Theorem destroy_releases (c : ADGenericChain) (s : Chain.chain V) :
  refines c s ->
  exists c', destroy c = Some (Chain.releases s, c') /\ dom (mem c') = {[ base ]} /\
             init_flag c' = false /\
             exists c2, chain_empty c = Some (Chain.releases s, c2) /\ dom (mem c2) = {[ base ]}.
Proof.
  intros [zs R]. unfold destroy, chain_empty.
  destruct (remove_all_represents c s zs (fuel_of c) R) as (c' & -> & R').
  { rewrite (refines_fuel _ _ _ R). lia. }
  assert (dom (mem c') = {[ base ]}) as Hd.
  { rewrite (rp_dom _ _ _ R'). simpl. by rewrite union_empty_r_L. }
  simpl. eexists. split_and!; eauto.
Qed.
End refinement.

(** ** Witnesses *)
Module Witness.

(** Chains of numbered elements, 0 standing for the null pointer. *)
#[export] Instance number_consumer : ChainConsumer Z := {
  NULL := 0;
  identify_chain_element v n := v =? n;
  double_identify_chain_element v n m := (v =? n) || (v =? m);
}.

Definition calls : list op :=
  [Put (Some 2%positive) 10; Put (Some 3%positive) 20; Put None 25; Put (Some 4%positive) 30;
   RemoveByIdent 20; GetByIndex 1; Get; Empty; Get].
End Witness.
Import Witness.

Lemma chain_refines_list_witness :
  exists c, Linked.mem c !! 1%positive <> None /\
  run (Linked.attach_helper (Linked.new_ADGenericChain 0 None 7)).2 Witness.calls =
  Some ([Num 0; Num 0; Num (-1); Num 0; Element 20; Element 30; Element 10;
         Released [ReleaseContents 30; DeleteElement 30]; Element 0], c).
Proof.
  destruct (chain_refines_list 0 None 7 Witness.calls) as (c & E & [zs R]).
  { vm_compute. repeat split. }
  exists c. split; [|exact E].
  intros N. apply not_elem_of_dom in N. rewrite (rp_dom _ _ _ R) in N.
  apply N, elem_of_list_to_set, list_elem_of_here.
Defined.

Lemma destroy_releases_witness :
  exists c', Linked.destroy (Linked.attach_helper (Linked.new_ADGenericChain 0 None 7)).2 = Some ([], c') /\
             Linked.init_flag c' = false.
Proof.
  destruct (destroy_releases _ _ (new_chain_refines 0 None 7)) as (c' & E & _ & F & _). eauto.
Defined.
