(* ===== verification/EvntMgr.v ===== *)
(** * Events (ADEvntMgr.cpp, ADEvntMgr.hpp and ADEvntNotifier.cpp of lib-jsonrpc-tcp)

    The event manager keeps the subscriptions and two queues.  Its methods run on
    the RPC thread; each queue is drained by a thread of its own, which works
    without the lock most of the time.  A step of the model is one critical section
    of [lock], or one delivery; [step] says which steps the code can make next and
    what they do, and a run is a sequence of steps of the three threads in any
    order. *)
From S2P Require Import Prelude.
Open Scope Z_scope.

(** ** Data *)

(** [EventEntry_t] *)
Record EventEntry := {
  cltToken : Z;
  portNum : Z;
  eventNum : Z;
  srvToken : Z;
  sock_descr : Z;
  sock_id : Z;
  ip : list ascii;
  deleteFlag : bool;
  failCount : Z;
  firstFailMs : Z;
}.

(** [struct EventProcEntry] *)
Record EventProcEntry := {
  pe_eventNum : Z;
  pe_eventArg : Z;
  pe_cltToken : Z;
  pe_eventArg2 : Z;
}.

Definition ADEVNT_MGR_MAX_FAILURES : Z := 5.
Definition ADEVNT_MGR_FAIL_WINDOW_MS : Z := 60000.
Definition ADEVNT_MGR_MAX_QUEUED : nat := 1024.

(** Where the notify thread is in [monoshot_callback_function]: at the top of its
    loop with the events it took, or sending one event to the targets left. *)
Inductive notify_thread :=
| NotifyLoop (pending : list EventProcEntry)
| NotifySending (entry : EventProcEntry) (pending : list EventProcEntry)
    (targets : list EventEntry) (failed delivered : list Z).

(** [class ADEvntMgr] with its threads.  [stop_flag] is the notify thread's
    [stop_requested()].  [sent] and [received] record what left the manager:
    deliveries to subscribers with their outcome, and events handed to the
    consumers attached by [AttachReceiver]. *)
Record ADEvntMgr := {
  AckToken : Z;
  eventList : list EventEntry;
  notifyEvent : list EventProcEntry;
  processEvent : list EventProcEntry;
  stop_flag : bool;
  notify_pc : notify_thread;
  process_pc : list EventProcEntry;
  sent : list (EventEntry * EventProcEntry * bool);
  received : list EventProcEntry;
}.

Definition new_ADEvntMgr : ADEvntMgr :=
  {| AckToken := 0; eventList := []; notifyEvent := []; processEvent := []; stop_flag := false;
     notify_pc := NotifyLoop []; process_pc := []; sent := []; received := [] |}.

Definition set_list (m : ADEvntMgr) (t : Z) (l : list EventEntry) : ADEvntMgr :=
  {| AckToken := t; eventList := l; notifyEvent := notifyEvent m; processEvent := processEvent m;
     stop_flag := stop_flag m; notify_pc := notify_pc m; process_pc := process_pc m;
     sent := sent m; received := received m |}.

Definition set_queues (m : ADEvntMgr) (n p : list EventProcEntry) : ADEvntMgr :=
  {| AckToken := AckToken m; eventList := eventList m; notifyEvent := n; processEvent := p;
     stop_flag := stop_flag m; notify_pc := notify_pc m; process_pc := process_pc m;
     sent := sent m; received := received m |}.

Definition set_notify (m : ADEvntMgr) (pc : notify_thread)
    (s : list (EventEntry * EventProcEntry * bool)) : ADEvntMgr :=
  {| AckToken := AckToken m; eventList := eventList m; notifyEvent := notifyEvent m;
     processEvent := processEvent m; stop_flag := stop_flag m; notify_pc := pc;
     process_pc := process_pc m; sent := s; received := received m |}.

Definition set_process (m : ADEvntMgr) (pc r : list EventProcEntry) : ADEvntMgr :=
  {| AckToken := AckToken m; eventList := eventList m; notifyEvent := notifyEvent m;
     processEvent := processEvent m; stop_flag := stop_flag m; notify_pc := notify_pc m;
     process_pc := pc; sent := sent m; received := r |}.

(** [ADEvntMgr::stop()] *)
Definition stop (m : ADEvntMgr) : ADEvntMgr :=
  {| AckToken := AckToken m; eventList := eventList m; notifyEvent := notifyEvent m;
     processEvent := processEvent m; stop_flag := true; notify_pc := notify_pc m;
     process_pc := process_pc m; sent := sent m; received := received m |}.

(** ** The methods *)

(** [FindDuplicateEntry], [FindEventEntry] and [RemoveEventEntry],
    [RemoveNonListenerEntry] *)
Definition FindDuplicateEntry (my p : EventEntry) : bool :=
  (cltToken my =? cltToken p) && (portNum my =? portNum p) && (eventNum my =? eventNum p).
Definition FindEventEntry (token : Z) (p : EventEntry) : bool := token =? srvToken p.
Definition RemoveNonListenerEntry (p : EventEntry) : bool := deleteFlag p.

(** The entry that [register_event_subscription()] stores. *)
Definition fresh_entry (e : EventEntry) (token : Z) : EventEntry :=
  {| cltToken := cltToken e; portNum := portNum e; eventNum := eventNum e; srvToken := token;
     sock_descr := sock_descr e; sock_id := sock_id e; ip := ip e;
     deleteFlag := false; failCount := 0; firstFailMs := 0 |}.

(** [register_event_subscription()]: the result, and the token it acknowledges. *)
Definition register_event_subscription (m : ADEvntMgr) (e : EventEntry)
  : (Z * option Z) * ADEvntMgr :=
  match find_first (FindDuplicateEntry e) (eventList m) with
  | None =>
      let token := i32 (AckToken m + 1) in
      ((0, Some token), set_list m token (eventList m ++ [fresh_entry e token]))
  | Some _ => ((-1, None), m)
  end.

(** [unregister_event_subscription()] *)
Definition unregister_event_subscription (m : ADEvntMgr) (srv_token : Z) : Z * ADEvntMgr :=
  match find_first (FindEventEntry srv_token) (eventList m) with
  | None => (-1, m)
  | Some _ =>
      (0, set_list m (AckToken m)
            (List.filter (fun p => negb (FindEventEntry srv_token p)) (eventList m)))
  end.

(** Appending to a queue that holds at most [ADEVNT_MGR_MAX_QUEUED] events: the
    oldest one makes room. *)
Definition push_bounded (q : list EventProcEntry) (e : EventProcEntry) : list EventProcEntry :=
  (if (ADEVNT_MGR_MAX_QUEUED <=? length q)%nat then tail q else q) ++ [e].

(** [notify_event()] and [process_event()] *)
Definition notify_event (m : ADEvntMgr) (num arg arg2 : Z) : Z * ADEvntMgr :=
  (0, set_queues m
        (push_bounded (notifyEvent m)
           {| pe_eventNum := num; pe_eventArg := arg; pe_cltToken := 0; pe_eventArg2 := arg2 |})
        (processEvent m)).
Definition process_event (m : ADEvntMgr) (num arg token arg2 : Z) : Z * ADEvntMgr :=
  (0, set_queues m (notifyEvent m)
        (push_bounded (processEvent m)
           {| pe_eventNum := num; pe_eventArg := arg; pe_cltToken := token; pe_eventArg2 := arg2 |})).

(** [send_event()] from the outcomes of the client's connect and request. *)
Definition send_event (connect result : Z) : Z :=
  if negb (connect =? 0) then -1 else if result =? 0 then 0 else -1.

(** The body of the loop of [update_failure_counts()]. *)
Definition update_entry (now : Z) (failed delivered : list Z) (e : EventEntry) : EventEntry :=
  if bool_decide (srvToken e ∈ delivered) then
    {| cltToken := cltToken e; portNum := portNum e; eventNum := eventNum e;
       srvToken := srvToken e; sock_descr := sock_descr e; sock_id := sock_id e; ip := ip e;
       deleteFlag := deleteFlag e; failCount := 0; firstFailMs := firstFailMs e |}
  else if bool_decide (srvToken e ∈ failed) then
    let first := if failCount e =? 0 then now else firstFailMs e in
    let count := i32 (failCount e + 1) in
    {| cltToken := cltToken e; portNum := portNum e; eventNum := eventNum e;
       srvToken := srvToken e; sock_descr := sock_descr e; sock_id := sock_id e; ip := ip e;
       deleteFlag := if (count >=? ADEVNT_MGR_MAX_FAILURES) &&
                        (now - first >=? ADEVNT_MGR_FAIL_WINDOW_MS)
                     then true else deleteFlag e;
       failCount := count; firstFailMs := first |}
  else e.

(** [update_failure_counts()] at the time [now]. *)
Definition update_failure_counts (m : ADEvntMgr) (now : Z) (failed delivered : list Z) : ADEvntMgr :=
  match failed, delivered with
  | [], [] => m
  | _, _ =>
      set_list m (AckToken m)
        (List.filter (fun p => negb (RemoveNonListenerEntry p))
           (map (update_entry now failed delivered) (eventList m)))
  end.

(** The subscribers an event goes to. *)
Definition matching (m : ADEvntMgr) (entry : EventProcEntry) : list EventEntry :=
  List.filter (fun e => (eventNum e =? -1) || (eventNum e =? pe_eventNum entry)) (eventList m).

(** ** The threads *)

Inductive action :=
| Register (e : EventEntry)
| Unregister (srv_token : Z)
| Notify (num arg arg2 : Z)
| Process (num arg token arg2 : Z)
| Stop
| NotifyWake                       (* the callback starts: swap the queue *)
| NotifyNext                       (* the next event: copy its targets *)
| NotifySend (connect result : Z)  (* one delivery, or the return on shutdown *)
| NotifyDone (now : Z)             (* update_failure_counts *)
| ProcessWake
| ProcessNext.

Definition step (m : ADEvntMgr) (a : action) : option ADEvntMgr :=
  match a with
  | Register e => Some (register_event_subscription m e).2
  | Unregister t => Some (unregister_event_subscription m t).2
  | Notify n x y => Some (notify_event m n x y).2
  | Process n x t y => Some (process_event m n x t y).2
  | Stop => Some (stop m)
  | NotifyWake =>
      match notify_pc m with
      | NotifyLoop [] =>
          Some (set_notify (set_queues m [] (processEvent m)) (NotifyLoop (notifyEvent m)) (sent m))
      | _ => None
      end
  | NotifyNext =>
      match notify_pc m with
      | NotifyLoop (entry :: pending) =>
          Some (set_notify m (NotifySending entry pending (matching m entry) [] []) (sent m))
      | _ => None
      end
  | NotifySend connect result =>
      match notify_pc m with
      | NotifySending entry pending (t :: targets) failed delivered =>
          if stop_flag m then Some (set_notify m (NotifyLoop []) (sent m))
          else if send_event connect result =? -1 then
            Some (set_notify m (NotifySending entry pending targets (failed ++ [srvToken t]) delivered)
                    (sent m ++ [(t, entry, false)]))
          else
            Some (set_notify m (NotifySending entry pending targets failed (delivered ++ [srvToken t]))
                    (sent m ++ [(t, entry, true)]))
      | _ => None
      end
  | NotifyDone now =>
      match notify_pc m with
      | NotifySending entry pending [] failed delivered =>
          Some (set_notify (update_failure_counts m now failed delivered) (NotifyLoop pending) (sent m))
      | _ => None
      end
  | ProcessWake =>
      match process_pc m with
      | [] => Some (set_process (set_queues m (notifyEvent m) []) (processEvent m) (received m))
      | _ => None
      end
  | ProcessNext =>
      match process_pc m with
      | entry :: pending => Some (set_process m pending (received m ++ [entry]))
      | [] => None
      end
  end.

(** A run of the three threads; [None] when a step is not one the code can make. *)
Fixpoint run (m : ADEvntMgr) (l : list action) : option ADEvntMgr :=
  match l with
  | [] => Some m
  | a :: r => m' ← step m a; run m' r
  end.

Definition sub (n : Z) (e : Z) : EventEntry :=
  {| cltToken := n; portNum := 100; eventNum := e; srvToken := 0; sock_descr := 0; sock_id := 0;
     ip := []; deleteFlag := false; failCount := 3; firstFailMs := 0 |}.

Example evnt_ex :
  (fun m => (map srvToken (eventList m), map (fun '(e, p, b) => (srvToken e, pe_eventNum p, b)) (sent m)))
    <$> run new_ADEvntMgr
      [Register (sub 1 7); Register (sub 2 (-1)); Register (sub 1 7); Notify 7 0 0; Notify 8 0 0;
       NotifyWake; NotifyNext; NotifySend 0 0; Unregister 2; NotifySend 0 5; NotifyDone 10; NotifyNext] =
  Some ([1], [(1, 7, true); (2, 7, false)]).
Proof. vm_compute. reflexivity. Qed.

(** ** The notifier of the services ([class ADEvntNotifier]) *)
Module Notifier.

(** [struct EvntNotifyEntry] *)
Record EvntNotifyEntry := {
  nt_eventNum : Z;
  nt_eventArg : Z;
  nt_port : Z;
  nt_eventArg2 : Z;
}.

(** [NotifierList], what the running callback took from it, and the requests made:
    the entry and whether its connection was established. *)
Record ADEvntNotifier := {
  NotifierList : list EvntNotifyEntry;
  taken : list EvntNotifyEntry;
  requests : list (EvntNotifyEntry * bool);
}.

(** [NotifyEvent()] *)
Definition NotifyEvent (n : ADEvntNotifier) (num arg port arg2 : Z) : Z * ADEvntNotifier :=
  (0, {| NotifierList := NotifierList n ++
           [{| nt_eventNum := num; nt_eventArg := arg; nt_port := port; nt_eventArg2 := arg2 |}];
         taken := taken n; requests := requests n |}).

(** [monoshot_callback_function()]: taking the list, then one entry of it. *)
Definition wake (n : ADEvntNotifier) : option ADEvntNotifier :=
  match taken n with
  | [] => Some {| NotifierList := []; taken := NotifierList n; requests := requests n |}
  | _ => None
  end.
Definition send_next (n : ADEvntNotifier) (connect : Z) : option ADEvntNotifier :=
  match taken n with
  | e :: r => Some {| NotifierList := NotifierList n; taken := r;
                      requests := requests n ++ [(e, connect =? 0)] |}
  | [] => None
  end.

Inductive step : ADEvntNotifier -> ADEvntNotifier -> Prop :=
| step_notify n num arg port arg2 : step n (NotifyEvent n num arg port arg2).2
| step_wake n n' : wake n = Some n' -> step n n'
| step_send n n' c : send_next n c = Some n' -> step n n'.

(** Every event handed in, in order: sent, taken or still queued. *)
Definition events (n : ADEvntNotifier) : list EvntNotifyEntry :=
  map fst (requests n) ++ taken n ++ NotifierList n.

Lemma step_events (n n' : ADEvntNotifier) :
  step n n' -> events n' = events n \/ exists e, events n' = events n ++ [e].
Proof.
  intros [? num arg port arg2|? ? Hw|? ? c Hs]; unfold events.
  - right. eexists. simpl. by rewrite !app_assoc.
  - left. unfold wake in Hw. destruct (taken n0) eqn:E; simplify_eq. simpl. by rewrite app_nil_r.
  - left. unfold send_next in Hs. destruct (taken n0) eqn:E; simplify_eq. simpl.
    rewrite map_app. simpl. by rewrite <- !app_assoc.
Qed.
End Notifier.

(** ** Subscriptions *)

(** What makes two subscriptions the same one. *)
Definition key (e : EventEntry) : Z * Z * Z := (cltToken e, portNum e, eventNum e).

Lemma FindDuplicateEntry_key (a b : EventEntry) : FindDuplicateEntry a b = true <-> key a = key b.
Proof.
  unfold FindDuplicateEntry, key. rewrite !andb_true_iff, !Z.eqb_eq. split; [intros [[-> ->] ->]|intros [=]]; done.
Qed.

Definition token_ok (m : ADEvntMgr) (t : Z) : Prop := 0 < t <= AckToken m.

(** The tokens the notify thread works on. *)
Definition thread_tokens (pc : notify_thread) : list Z :=
  match pc with
  | NotifyLoop _ => []
  | NotifySending _ _ targets failed delivered => map srvToken targets ++ failed ++ delivered
  end.

(** The invariant after at most [k] steps. *)
Record evnt_ok (k : Z) (m : ADEvntMgr) : Prop := {
  ev_keys : NoDup (map key (eventList m));
  ev_tokens : NoDup (map srvToken (eventList m));
  ev_range : forall e, e ∈ eventList m -> token_ok m (srvToken e);
  ev_live : forall e, e ∈ eventList m -> deleteFlag e = false /\ 0 <= failCount e <= k;
  ev_ack : 0 <= AckToken m <= k;
  ev_thread : forall t, t ∈ thread_tokens (notify_pc m) -> token_ok m t;
}.

Lemma map_filter_sublist {A B} (f : A -> B) (p : A -> bool) (l : list A) :
  map f (List.filter p l) `sublist_of` map f l.
Proof.
  induction l as [|x l IH]; simpl; [done|]. destruct (p x); [by constructor|by constructor].
Qed.

Lemma elem_of_filter_bool {A} (p : A -> bool) (l : list A) (x : A) :
  x ∈ List.filter p l <-> p x = true /\ x ∈ l.
Proof. rewrite !list_elem_of_In, filter_In. tauto. Qed.

Lemma update_entry_key (now : Z) (f d : list Z) (e : EventEntry) :
  key (update_entry now f d e) = key e /\ srvToken (update_entry now f d e) = srvToken e.
Proof. unfold update_entry. repeat case_bool_decide; done. Qed.

Lemma map_update_key (now : Z) (f d : list Z) (l : list EventEntry) :
  map key (map (update_entry now f d) l) = map key l /\
  map srvToken (map (update_entry now f d) l) = map srvToken l.
Proof.
  rewrite !map_map. split; apply map_ext; intros e; apply update_entry_key.
Qed.

(** Removing subscriptions, or changing their counters, keeps the invariant. *)
Lemma evnt_ok_shrink (k : Z) (m : ADEvntMgr) (l : list EventEntry) :
  evnt_ok k m ->
  map key l `sublist_of` map key (eventList m) ->
  map srvToken l `sublist_of` map srvToken (eventList m) ->
  (forall e, e ∈ l -> deleteFlag e = false /\ 0 <= failCount e <= k + 1) ->
  evnt_ok (k + 1) (set_list m (AckToken m) l).
Proof.
  intros [Hk Ht Hr Hl Ha Hth] Sk St Hd. constructor; simpl; auto; try lia.
  - by eapply sublist_NoDup.
  - by eapply sublist_NoDup.
  - intros e He. assert (srvToken e ∈ map srvToken (eventList m)) as Hin.
    { eapply elem_of_sublist; [|done]. by apply (list_elem_of_fmap_2 srvToken). }
    apply list_elem_of_fmap_1 in Hin as (e' & -> & He'). by apply Hr.
Qed.

Lemma register_ok (k : Z) (m : ADEvntMgr) (e : EventEntry) :
  evnt_ok k m -> k < int_max -> evnt_ok (k + 1) (register_event_subscription m e).2.
Proof.
  intros Hok Hk. unfold register_event_subscription.
  destruct (find_first _ _) eqn:F; simpl; [destruct Hok; constructor; auto; try lia|].
  { intros x Hx. destruct (ev_live0 x Hx). split; [done|lia]. }
  destruct Hok as [Hkey Ht Hr Hl Ha Hth]. rewrite i32_id by (unfold int_min, int_max in *; lia).
  rewrite find_first_None in F.
  constructor; simpl; unfold token_ok in *; simpl; try lia.
  - rewrite map_app. apply NoDup_app. split_and!; [done| |apply NoDup_singleton].
    intros x (y & -> & Hy)%list_elem_of_fmap_1 Hx%list_elem_of_singleton.
    specialize (F y Hy). apply not_true_iff_false in F. by apply F, FindDuplicateEntry_key.
  - rewrite map_app. apply NoDup_app. split_and!; [done| |apply NoDup_singleton].
    intros x (y & -> & Hy)%list_elem_of_fmap_1 Hx%list_elem_of_singleton. simpl in Hx.
    specialize (Hr y Hy). lia.
  - intros x [Hx| ->%list_elem_of_singleton]%elem_of_app; [specialize (Hr x Hx); lia|simpl; lia].
  - intros x [Hx| ->%list_elem_of_singleton]%elem_of_app; [|simpl; split; [done|lia]].
    destruct (Hl x Hx). split; [done|lia].
  - intros t Hx. specialize (Hth t Hx). lia.
Qed.

Lemma update_ok (k : Z) (m : ADEvntMgr) now f d :
  evnt_ok k m -> k < int_max -> evnt_ok (k + 1) (update_failure_counts m now f d).
Proof.
  intros Hok Hk.
  assert (evnt_ok (k + 1) (set_list m (AckToken m)
    (List.filter (fun p => negb (RemoveNonListenerEntry p)) (map (update_entry now f d) (eventList m))))).
  { apply evnt_ok_shrink; [done| | |].
    - destruct (map_update_key now f d (eventList m)) as [<- _]. apply map_filter_sublist.
    - destruct (map_update_key now f d (eventList m)) as [_ <-]. apply map_filter_sublist.
    - intros e (Hf & (x & -> & Hx)%list_elem_of_fmap_1)%elem_of_filter_bool.
      unfold RemoveNonListenerEntry in Hf. apply negb_true_iff in Hf. split; [done|].
      destruct (ev_live k m Hok x Hx) as [_ Hc]. unfold update_entry.
      repeat case_bool_decide; simpl; try lia.
      rewrite i32_id; [lia|]. unfold int_min, int_max in *. lia. }
  destruct f, d; simpl; try done.
  destruct Hok; constructor; auto; try lia. intros e He. destruct (ev_live0 e He). split; [done|lia].
Qed.

(** Steps that leave the subscriptions alone. *)
Lemma evnt_ok_same_list (k : Z) (m m' : ADEvntMgr) :
  evnt_ok k m -> eventList m' = eventList m -> AckToken m' = AckToken m ->
  (forall t, t ∈ thread_tokens (notify_pc m') -> token_ok m t) -> evnt_ok (k + 1) m'.
Proof.
  intros [Hk Ht Hr Hl Ha Hth] El Ea Hth'. constructor; rewrite ?El, ?Ea; auto; try lia.
  - unfold token_ok in *. by rewrite Ea.
  - intros e He. destruct (Hl e He). split; [done|lia].
  - unfold token_ok in *. rewrite Ea. auto.
Qed.

Lemma step_ok (k : Z) (m m' : ADEvntMgr) (a : action) :
  evnt_ok k m -> k < int_max -> step m a = Some m' -> evnt_ok (k + 1) m'.
Proof.
  intros Hok Hk Hs. pose proof (ev_thread k m Hok) as Hth.
  destruct a; simpl in Hs; simplify_eq/=.
  - by apply register_ok.
  - unfold unregister_event_subscription. destruct (find_first _ _); simpl.
    + apply evnt_ok_shrink; [done|apply map_filter_sublist..|].
      intros x (_ & He)%elem_of_filter_bool. destruct (ev_live k m Hok x He). split; [done|lia].
    + by apply (evnt_ok_same_list k m).
  - by apply (evnt_ok_same_list k m).
  - by apply (evnt_ok_same_list k m).
  - by apply (evnt_ok_same_list k m).
  - destruct (notify_pc m) as [[|]|]; simplify_eq. apply (evnt_ok_same_list k m); simpl; set_solver.
  - destruct (notify_pc m) as [[|e p]|] eqn:E; simplify_eq.
    apply (evnt_ok_same_list k m); try done. simpl. rewrite app_nil_r.
    intros t (x & -> & (_ & Hx)%elem_of_filter_bool)%list_elem_of_fmap_1. by apply (ev_range k m Hok).
  - destruct (notify_pc m) as [|e p [|t ts] f d] eqn:E; simplify_eq. simpl in Hth.
    destruct (stop_flag m); simplify_eq;
      [apply (evnt_ok_same_list k m); simpl; set_solver|].
    destruct (_ =? -1); simplify_eq; apply (evnt_ok_same_list k m); simpl; set_solver.
  - destruct (notify_pc m) as [|e p [|t ts] f d] eqn:E; simplify_eq.
    destruct (update_ok k m now f d Hok Hk). constructor; simpl; try done. set_solver.
  - destruct (process_pc m); simplify_eq. by apply (evnt_ok_same_list k m).
  - destruct (process_pc m); simplify_eq. by apply (evnt_ok_same_list k m).
Qed.

Lemma new_ok : evnt_ok 0 new_ADEvntMgr.
Proof. constructor; simpl; try set_solver; try (by constructor); try lia. Qed.

Lemma run_snoc (m : ADEvntMgr) (l : list action) (a : action) :
  run m (l ++ [a]) = (m' ← run m l; step m' a).
Proof.
  revert m; induction l as [|b l IH]; intros m; simpl; [by destruct (step m a)|].
  destruct (step m b); simpl; [apply IH|done].
Qed.

Lemma run_ok (l : list action) (m : ADEvntMgr) :
  run new_ADEvntMgr l = Some m -> Z.of_nat (length l) <= int_max ->
  evnt_ok (Z.of_nat (length l)) m.
Proof.
  revert m; induction l as [|a l IH] using rev_ind; intros m Hr Hl; simpl in *.
  - simplify_eq. apply new_ok.
  - rewrite length_app in *. simpl in *. rewrite run_snoc in Hr.
    destruct (run new_ADEvntMgr l) as [m1|]; simpl in Hr; [|done].
    replace (Z.of_nat (length l + 1)) with (Z.of_nat (length l) + 1) in * by lia.
    apply (step_ok _ m1 m a); [apply IH; [done|lia]|lia|done].
Qed.

(** Whatever the three threads do, in any order, no two subscriptions have the
    same client token, port and event number, no two have the same server token,
    every token was handed out by this manager, and every subscription kept is
    one that no rule asks to delete.  (The bound on the run keeps the token
    counter from overflowing.) *)
Theorem subscriptions_unique (l : list action) (m : ADEvntMgr) :
  run new_ADEvntMgr l = Some m -> Z.of_nat (length l) <= int_max ->
  (forall i j e f, eventList m !! i = Some e -> eventList m !! j = Some f ->
     FindDuplicateEntry e f = true \/ FindEventEntry (srvToken e) f = true -> i = j) /\
  (forall e, e ∈ eventList m -> 1 <= srvToken e <= AckToken m /\ deleteFlag e = false).
Proof.
  intros Hr Hl. pose proof (run_ok l m Hr Hl) as Hok. split.
  - intros i j e f Hi Hj [Hd%FindDuplicateEntry_key|Ht].
    + apply (NoDup_lookup (map key (eventList m)) i j (key e)); [apply Hok| |].
      * by rewrite list_lookup_fmap, Hi.
      * by rewrite list_lookup_fmap, Hj, Hd.
    + unfold FindEventEntry in Ht. apply Z.eqb_eq in Ht.
      apply (NoDup_lookup (map srvToken (eventList m)) i j (srvToken e)); [apply Hok| |].
      * by rewrite list_lookup_fmap, Hi.
      * by rewrite list_lookup_fmap, Hj, Ht.
  - intros e He. pose proof (ev_range _ m Hok e He) as Ht. unfold token_ok in Ht.
    split; [lia|]. by apply (ev_live _ m Hok).
Qed.

Lemma subscriptions_unique_witness :
  exists m, run new_ADEvntMgr [Register (sub 1 7); Register (sub 1 7); Register (sub 2 7)] = Some m /\
  (forall e, e ∈ eventList m -> 1 <= srvToken e <= AckToken m /\ deleteFlag e = false).
Proof.
  eexists. split; [reflexivity|].
  apply (subscriptions_unique [Register (sub 1 7); Register (sub 1 7); Register (sub 2 7)]);
    [reflexivity|vm_compute; discriminate].
Defined.

(** ** When a subscription is dropped *)

(** The outcomes a run reports to [update_failure_counts()]: when, and the tokens
    whose delivery failed and succeeded. *)
Abbreviation report := (Z * list Z * list Z)%type.

Definition reported (m : ADEvntMgr) (a : action) : list report :=
  match a, notify_pc m with
  | NotifyDone now, NotifySending _ _ [] failed delivered => [(now, failed, delivered)]
  | _, _ => []
  end.

Fixpoint reports (m : ADEvntMgr) (l : list action) : list report :=
  match l with
  | [] => []
  | a :: r => reported m a ++ match step m a with Some m' => reports m' r | None => [] end
  end.

(** The times of the failures of a subscriber since its last delivery. *)
Definition failure_times (token : Z) (h : list report) : list Z :=
  fold_left (fun acc '(now, failed, delivered) =>
    if bool_decide (token ∈ delivered) then []
    else if bool_decide (token ∈ failed) then acc ++ [now] else acc) h [].

(** The rule of the header: at least five failures in a row, over a minute. *)
Definition gave_up (times : list Z) (now : Z) : Prop :=
  ADEVNT_MGR_MAX_FAILURES <= Z.of_nat (length times) /\
  exists first, head times = Some first /\ ADEVNT_MGR_FAIL_WINDOW_MS <= now - first.

Record history_ok (h : list report) (m : ADEvntMgr) : Prop := {
  hi_count : forall e, e ∈ eventList m ->
    failCount e = Z.of_nat (length (failure_times (srvToken e) h)) /\
    forall t, head (failure_times (srvToken e) h) = Some t -> firstFailMs e = t;
  hi_known : forall now f d t, (now, f, d) ∈ h -> t ∈ f ++ d -> token_ok m t;
}.

Lemma failure_times_snoc (token : Z) (h : list report) now f d :
  failure_times token (h ++ [(now, f, d)]) =
  if bool_decide (token ∈ d) then []
  else if bool_decide (token ∈ f) then failure_times token h ++ [now] else failure_times token h.
Proof. unfold failure_times. by rewrite fold_left_app. Qed.

Lemma failure_times_unknown (token : Z) (h : list report) :
  (forall now f d, (now, f, d) ∈ h -> token ∉ f ++ d) -> failure_times token h = [].
Proof.
  induction h as [|[[now f] d] h IH] using rev_ind; intros Hn; [done|].
  rewrite failure_times_snoc. assert (token ∉ f ++ d) by (apply (Hn now); set_solver).
  rewrite !bool_decide_eq_false_2 by set_solver. apply IH. intros n' f' d' Hi.
  apply (Hn n'). set_solver.
Qed.

Lemma reports_snoc (m m1 : ADEvntMgr) (l : list action) (a : action) :
  run m l = Some m1 -> reports m (l ++ [a]) = reports m l ++ reported m1 a.
Proof.
  revert m; induction l as [|b l IH]; intros m Hr; simpl in *; simplify_eq.
  - destruct (step m1 a); by rewrite app_nil_r.
  - destruct (step m b) as [m2|]; simpl in *; [|done]. rewrite IH by done. by rewrite app_assoc.
Qed.

(** What the update does to the counters is what the history says. *)
Lemma update_entry_history (k : Z) (h : list report) now f d (e : EventEntry) :
  0 <= failCount e <= k -> k < int_max ->
  failCount e = Z.of_nat (length (failure_times (srvToken e) h)) ->
  (forall t, head (failure_times (srvToken e) h) = Some t -> firstFailMs e = t) ->
  let e' := update_entry now f d e in
  let times := failure_times (srvToken e) (h ++ [(now, f, d)]) in
  failCount e' = Z.of_nat (length times) /\ (forall t, head times = Some t -> firstFailMs e' = t) /\
  (deleteFlag e = false -> deleteFlag e' = true -> gave_up times now) /\
  (srvToken e ∈ f -> srvToken e ∉ d -> gave_up times now -> deleteFlag e' = true).
Proof.
  intros Hc Hk Hlen Hhd e' times. subst e' times. rewrite failure_times_snoc. unfold update_entry.
  case_bool_decide as Hd; simpl; [split_and!; [done|done|congruence|done]|].
  case_bool_decide as Hf; simpl; [|split_and!; [done|done|congruence|done]].
  rewrite i32_id by (unfold int_min, int_max in *; lia). rewrite length_app. simpl.
  set (first := if failCount e =? 0 then now else firstFailMs e).
  assert (forall t, head (failure_times (srvToken e) h ++ [now]) = Some t -> first = t) as Hfirst.
  { unfold first. intros t Ht. destruct (failure_times (srvToken e) h) as [|x r]; simpl in *.
    - simplify_eq. by rewrite Hlen.
    - simplify_eq. destruct (Z.eqb_spec (failCount e) 0); [lia|]. by apply Hhd. }
  assert (head (failure_times (srvToken e) h ++ [now]) = Some first) as Hhead.
  { destruct (head (failure_times (srvToken e) h ++ [now])) eqn:E; [by rewrite (Hfirst _ eq_refl)|].
    by destruct (failure_times (srvToken e) h). }
  split_and!; [lia|done| |].
  - intros -> Hdel. destruct (_ && _) eqn:E; [|done]. apply andb_true_iff in E as [E1 E2].
    apply Z.geb_le in E1, E2. split; [rewrite length_app; simpl; lia|]. eauto.
  - intros _ _ [Hn (x & Hx & Hw)]. rewrite length_app in Hn. simpl in Hn.
    replace (_ && _) with true; [done|]. symmetry. apply andb_true_iff. rewrite !Z.geb_le.
    rewrite Hhead in Hx. simplify_eq. lia.
Qed.

Lemma step_history (k : Z) (h : list report) (m m' : ADEvntMgr) (a : action) :
  evnt_ok k m -> k < int_max -> history_ok h m -> step m a = Some m' ->
  history_ok (h ++ reported m a) m'.
Proof.
  intros Hok Hk [Hc Hn] Hs.
  assert (forall m2, eventList m2 = eventList m -> AckToken m2 = AckToken m -> history_ok h m2) as Hsame.
  { intros m2 El Ea. constructor; [by rewrite El|]. unfold token_ok in *. by rewrite Ea. }
  destruct a; simpl in Hs |- *; rewrite ?app_nil_r.
  all: try by (simplify_eq; apply Hsame).
  all: try by (destruct (process_pc m); simplify_eq; apply Hsame).
  - simplify_eq. unfold register_event_subscription. destruct (find_first _ _); [by apply Hsame|].
    simpl. pose proof (ev_ack k m Hok). rewrite i32_id by (unfold int_min, int_max in *; lia).
    constructor; simpl.
    + intros x [Hx| ->%list_elem_of_singleton]%elem_of_app; [by apply Hc|]. simpl.
      rewrite failure_times_unknown; [done|]. intros now f d Hin Ht.
      pose proof (Hn now f d _ Hin Ht) as Hr. unfold token_ok in Hr. lia.
    + intros now f d t Hin Ht. pose proof (Hn now f d t Hin Ht) as Hr.
      unfold token_ok in *. simpl. lia.
  - simplify_eq. unfold unregister_event_subscription. destruct (find_first _ _); [|by apply Hsame].
    constructor; simpl; [|done]. intros x (_ & Hx)%elem_of_filter_bool. by apply Hc.
  - destruct (notify_pc m) as [[|]|]; simplify_eq. by apply Hsame.
  - destruct (notify_pc m) as [[|]|]; simplify_eq. by apply Hsame.
  - destruct (notify_pc m) as [|x p [|t ts] f d]; simplify_eq.
    destruct (stop_flag m); simplify_eq; [by apply Hsame|].
    destruct (_ =? -1); simplify_eq; by apply Hsame.
  - destruct (notify_pc m) as [|x p [|t ts] f d] eqn:E; simplify_eq.
    pose proof (ev_thread k m Hok) as Hth. rewrite E in Hth. simpl in Hth.
    assert (AckToken (update_failure_counts m now f d) = AckToken m) as Ha by by destruct f, d.
    constructor; simpl.
    + intros y Hy.
      assert (exists y0, y = update_entry now f d y0 /\ y0 ∈ eventList m) as (y0 & -> & Hy0).
      { destruct f, d; simpl in Hy; [by exists y|..];
          apply elem_of_filter_bool in Hy as (_ & (y0 & -> & ?)%list_elem_of_fmap_1); eauto. }
      destruct (Hc y0 Hy0) as [Hc1 Hc2]. destruct (ev_live k m Hok y0 Hy0) as [_ Hrange].
      destruct (update_entry_key now f d y0) as [_ ->].
      by destruct (update_entry_history k h now f d y0 Hrange Hk Hc1 Hc2) as (? & ? & _).
    + intros n f' d' t Hin Ht. unfold token_ok. simpl. rewrite Ha.
      apply elem_of_app in Hin as [Hin|Hin%list_elem_of_singleton].
      * by apply (Hn n f' d').
      * simplify_eq. by apply Hth.
Qed.

Lemma run_history (l : list action) (m : ADEvntMgr) :
  run new_ADEvntMgr l = Some m -> Z.of_nat (length l) <= int_max ->
  history_ok (reports new_ADEvntMgr l) m.
Proof.
  revert m; induction l as [|a l IH] using rev_ind; intros m Hr Hl; simpl in *.
  - simplify_eq. constructor; simpl; set_solver.
  - rewrite length_app in *. simpl in *. rewrite run_snoc in Hr.
    destruct (run new_ADEvntMgr l) as [m1|] eqn:E; simpl in Hr; [|done].
    rewrite (reports_snoc _ m1) by done.
    apply (step_history (Z.of_nat (length l)) _ m1); [apply run_ok; [done|lia]|lia|apply IH; [done|lia]|done].
Qed.

Lemma update_entry_deleted (now : Z) (f d : list Z) (e : EventEntry) :
  deleteFlag e = false -> deleteFlag (update_entry now f d e) = true ->
  srvToken e ∈ f /\ srvToken e ∉ d.
Proof. intros He. unfold update_entry. repeat case_bool_decide; simpl; [congruence|done|congruence]. Qed.

Lemma update_list (m : ADEvntMgr) now f d e0 :
  srvToken e0 ∈ f ++ d ->
  eventList (update_failure_counts m now f d) =
  List.filter (fun p => negb (RemoveNonListenerEntry p)) (map (update_entry now f d) (eventList m)).
Proof. intros H. destruct f, d; try done. set_solver. Qed.

Lemma token_injective (k : Z) (m : ADEvntMgr) (e f : EventEntry) :
  evnt_ok k m -> e ∈ eventList m -> f ∈ eventList m -> srvToken e = srvToken f -> e = f.
Proof.
  intros Hok (i & Hi)%list_elem_of_lookup (j & Hj)%list_elem_of_lookup Ht.
  assert (i = j) as ->; [|by simplify_eq].
  apply (NoDup_lookup (map srvToken (eventList m)) i j (srvToken e)); [apply Hok| |].
  - by rewrite list_lookup_fmap, Hi.
  - by rewrite list_lookup_fmap, Hj, Ht.
Qed.

(** A subscription that goes in a step is unsubscribed, or marked by the report of the step. *)
Lemma step_removes (m m' : ADEvntMgr) (a : action) (e : EventEntry) :
  deleteFlag e = false -> step m a = Some m' -> e ∈ eventList m -> srvToken e ∉ map srvToken (eventList m') ->
  a = Unregister (srvToken e) \/
  exists now f d, reported m a = [(now, f, d)] /\ deleteFlag (update_entry now f d e) = true.
Proof.
  intros Hlive Hs He Hgone.
  assert (e ∉ eventList m') as Hne by (intros ?; by apply Hgone, (list_elem_of_fmap_2 srvToken)).
  destruct a; simpl in Hs; simplify_eq/=; try done.
  - exfalso. apply Hne. unfold register_event_subscription. destruct (find_first _ _); simpl; set_solver.
  - left. destruct (decide (srv_token = srvToken e)) as [->|Hn]; [done|]. exfalso. apply Hne.
    unfold unregister_event_subscription. destruct (find_first _ _); simpl; [|done].
    apply elem_of_filter_bool. split; [|done]. unfold FindEventEntry. by apply negb_true_iff, Z.eqb_neq.
  - destruct (notify_pc m) as [[|]|]; by simplify_eq.
  - destruct (notify_pc m) as [[|]|]; by simplify_eq.
  - destruct (notify_pc m) as [|x p [|t ts] f d]; simplify_eq.
    destruct (stop_flag m); simplify_eq; [done|]. destruct (_ =? -1); by simplify_eq.
  - right. destruct (notify_pc m) as [|x p [|t ts] f d]; simplify_eq. exists now, f, d. split; [done|].
    simpl in Hgone, Hne. destruct (deleteFlag (update_entry now f d e)) eqn:Ed; [done|].
    exfalso. apply Hgone. destruct (update_entry_key now f d e) as [_ <-]. apply (list_elem_of_fmap_2 srvToken).
    assert (update_entry now f d e ∈ map (update_entry now f d) (eventList m)) as Hm
      by by apply (list_elem_of_fmap_2 (update_entry now f d)).
    destruct f as [|? ?], d as [|? ?]; simpl; [by destruct e|..];
      (apply elem_of_filter_bool; split; [unfold RemoveNonListenerEntry; by rewrite Ed|done]).
  - destruct (process_pc m); by simplify_eq.
  - destruct (process_pc m); by simplify_eq.
Qed.

(** And the other way round. *)
Lemma step_removed (k : Z) (m m' : ADEvntMgr) (a : action) (e : EventEntry) :
  evnt_ok k m -> step m a = Some m' -> e ∈ eventList m ->
  a = Unregister (srvToken e) \/
  (exists now f d, reported m a = [(now, f, d)] /\ srvToken e ∈ f /\ deleteFlag (update_entry now f d e) = true) ->
  srvToken e ∉ map srvToken (eventList m').
Proof.
  intros Hok Hs He [->|(now & f & d & Hrep & Hf & Hdel)] (y & Ht & Hy)%list_elem_of_fmap_1.
  - simpl in Hs. simplify_eq. unfold unregister_event_subscription in Hy.
    destruct (find_first _ _) eqn:F; simpl in Hy.
    + apply elem_of_filter_bool in Hy as [Hn _]. unfold FindEventEntry in Hn. by apply negb_true_iff, Z.eqb_neq in Hn.
    + rewrite find_first_None in F. specialize (F e He). unfold FindEventEntry in F. by apply Z.eqb_neq in F.
  - destruct a; simpl in Hrep; try done. simpl in Hs.
    destruct (notify_pc m) as [|x p [|t ts] f' d']; simplify_eq. simpl in Hy.
    rewrite (update_list m now f d e) in Hy by set_solver.
    apply elem_of_filter_bool in Hy as (Hkept & (y0 & -> & Hy0)%list_elem_of_fmap_1).
    destruct (update_entry_key now f d y0) as [_ Hk]. rewrite Hk in Ht.
    rewrite (token_injective _ m y0 e Hok Hy0 He ltac:(done)) in Hkept.
    unfold RemoveNonListenerEntry in Hkept. by rewrite Hdel in Hkept.
Qed.

(** C6: exactly when a subscriber loses its subscription.  In any run, a step
    removes the subscription with a given token if and only if it is the
    unsubscription of that token, or it reports a failed delivery to that
    subscriber that is at least its fifth failure in a row since its last
    successful delivery, at least a minute after the first of them. *)
Theorem subscription_removed_iff (l : list action) (m m' : ADEvntMgr) (a : action) (e : EventEntry) :
  run new_ADEvntMgr l = Some m -> Z.of_nat (length l) < int_max ->
  step m a = Some m' -> e ∈ eventList m ->
  srvToken e ∉ map srvToken (eventList m') <->
  a = Unregister (srvToken e) \/
  exists now failed delivered, reported m a = [(now, failed, delivered)] /\
    srvToken e ∈ failed /\ srvToken e ∉ delivered /\
    gave_up (failure_times (srvToken e) (reports new_ADEvntMgr l ++ [(now, failed, delivered)])) now.
Proof.
  intros Hr Hl Hs He. pose proof (run_ok l m Hr ltac:(lia)) as Hok.
  destruct (hi_count _ _ (run_history l m Hr ltac:(lia)) e He) as [Hc1 Hc2].
  destruct (ev_live _ m Hok e He) as [Hlive Hrange].
  assert (forall n f d, let e' := update_entry n f d e in
    let times := failure_times (srvToken e) (reports new_ADEvntMgr l ++ [(n, f, d)]) in
    (deleteFlag e = false -> deleteFlag e' = true -> gave_up times n) /\
    (srvToken e ∈ f -> srvToken e ∉ d -> gave_up times n -> deleteFlag e' = true)) as Hupd.
  { intros n f d. by destruct (update_entry_history _ (reports new_ADEvntMgr l) n f d e Hrange Hl Hc1 Hc2)
      as (_ & _ & ? & ?). }
  split.
  - intros Hgone. destruct (step_removes m m' a e Hlive Hs He Hgone) as [|(n & f & d & Hrep & Hdel)]; [by left|right].
    exists n, f, d. destruct (update_entry_deleted n f d e Hlive Hdel). destruct (Hupd n f d) as [H1 _]. auto.
  - intros Hwhy. apply (step_removed _ m m' a e Hok Hs He). destruct Hwhy as [|(n & f & d & Hrep & Hf & Hd & Hg)]; [by left|right].
    exists n, f, d. destruct (Hupd n f d) as [_ H2]. auto.
Qed.

(** One event that the only subscriber does not take, reported at [t]. *)
Definition failed_delivery (t : Z) : list action :=
  [Notify 7 0 0; NotifyWake; NotifyNext; NotifySend 1 0; NotifyDone t].

(** Four failures, then a fifth one up to its report. *)
Definition failing_run : list action :=
  Register (sub 1 7) :: concat (map failed_delivery [1000; 21000; 41000; 51000]) ++
  [Notify 7 0 0; NotifyWake; NotifyNext; NotifySend 1 0].

Lemma subscription_removed_iff_witness :
  match run new_ADEvntMgr failing_run with
  | Some m =>
      match eventList m, step m (NotifyDone 61000), step m (NotifyDone 60999) with
      | [e], Some m', Some m'' =>
          srvToken e ∉ map srvToken (eventList m') /\ ~ (srvToken e ∉ map srvToken (eventList m''))
      | _, _, _ => False
      end
  | None => False
  end.
Proof.
  destruct (run new_ADEvntMgr failing_run) as [m|] eqn:Hr; [|vm_compute in Hr; discriminate].
  pose proof Hr as Hc. vm_compute in Hc. injection Hc as Hm. subst m. cbv [eventList].
  match type of Hr with _ = Some ?m => set (m0 := m) in * end.
  destruct (step m0 (NotifyDone 61000)) as [m1|] eqn:H1; [|vm_compute in H1; discriminate].
  destruct (step m0 (NotifyDone 60999)) as [m2|] eqn:H2; [|vm_compute in H2; discriminate].
  split.
  - apply (subscription_removed_iff failing_run m0 m1 (NotifyDone 61000));
      [exact Hr|vm_compute; reflexivity|exact H1|apply list_elem_of_here|].
    right. exists 61000, [1], []. split; [reflexivity|]. split; [apply list_elem_of_here|].
    split; [apply not_elem_of_nil|]. split; [vm_compute; discriminate|].
    exists 1000. split; [reflexivity|vm_compute; discriminate].
  - intros Hg.
    apply (subscription_removed_iff failing_run m0 m2 (NotifyDone 60999)) in Hg;
      [|exact Hr|vm_compute; reflexivity|exact H2|apply list_elem_of_here].
    destruct Hg as [Hg|(n & f & d & Hrep & _ & _ & _ & first & Hf & Hw)]; [discriminate|].
    injection Hrep as Hn Hff Hd. subst n f d. vm_compute in Hf. injection Hf as Hf. subst first.
    vm_compute in Hw. apply Hw. reflexivity.
Defined.

(** ** Queues *)

(** What a run puts in the two queues. *)
Definition notified (a : action) : list EventProcEntry :=
  match a with
  | Notify n x y => [{| pe_eventNum := n; pe_eventArg := x; pe_cltToken := 0; pe_eventArg2 := y |}]
  | _ => []
  end.
Definition processed (a : action) : list EventProcEntry :=
  match a with
  | Process n x t y => [{| pe_eventNum := n; pe_eventArg := x; pe_cltToken := t; pe_eventArg2 := y |}]
  | _ => []
  end.

Lemma push_bounded_lastn (q : list EventProcEntry) (e : EventProcEntry) :
  push_bounded (lastn ADEVNT_MGR_MAX_QUEUED q) e = lastn ADEVNT_MGR_MAX_QUEUED (q ++ [e]).
Proof.
  unfold push_bounded. rewrite lastn_length. unfold ADEVNT_MGR_MAX_QUEUED.
  destruct (decide (1024 <= length q)%nat).
  - rewrite lastn_snoc_full by lia.
    destruct (Nat.leb_spec 1024 (Nat.min 1024 (length q))); [done|lia].
  - rewrite lastn_snoc_room by lia.
    destruct (Nat.leb_spec 1024 (Nat.min 1024 (length q))); [lia|done].
Qed.

(** No step but the swap takes events out of a queue. *)
Lemma step_queues (m m' : ADEvntMgr) (a : action) (n p : list EventProcEntry) :
  step m a = Some m' ->
  (notifyEvent m = lastn ADEVNT_MGR_MAX_QUEUED n -> a <> NotifyWake ->
   notifyEvent m' = lastn ADEVNT_MGR_MAX_QUEUED (n ++ notified a)) /\
  (processEvent m = lastn ADEVNT_MGR_MAX_QUEUED p -> a <> ProcessWake ->
   processEvent m' = lastn ADEVNT_MGR_MAX_QUEUED (p ++ processed a)).
Proof.
  intros Hs. destruct a; simpl in Hs |- *; rewrite ?app_nil_r.
  - simplify_eq. unfold register_event_subscription. by destruct (find_first _ _).
  - simplify_eq. unfold unregister_event_subscription. by destruct (find_first _ _).
  - simplify_eq/=. split; intros; [by rewrite H, push_bounded_lastn|done].
  - simplify_eq/=. split; intros; [done|by rewrite H, push_bounded_lastn].
  - by simplify_eq/=.
  - destruct (notify_pc m) as [[|]|]; by simplify_eq.
  - destruct (notify_pc m) as [[|]|]; by simplify_eq.
  - destruct (notify_pc m) as [|x q [|t ts] f d]; simplify_eq.
    destruct (stop_flag m); simplify_eq; [done|]. destruct (_ =? -1); by simplify_eq.
  - destruct (notify_pc m) as [|x q [|t ts] f d]; simplify_eq. by destruct f, d.
  - destruct (process_pc m); by simplify_eq.
  - destruct (process_pc m); by simplify_eq.
Qed.

(** The queues keep the newest 1024 events.  As long as the notify (process)
    thread does not take its queue, the queue holds the last 1024 of the events
    handed in since, in the order they were handed in, whatever else the manager
    does in between: the order is kept and only the oldest are dropped. *)
Theorem queue_keeps_newest (l : list action) (m m' : ADEvntMgr) :
  notifyEvent m = [] -> processEvent m = [] -> run m l = Some m' ->
  (NotifyWake ∉ l -> notifyEvent m' = lastn 1024 (concat (map notified l))) /\
  (ProcessWake ∉ l -> processEvent m' = lastn 1024 (concat (map processed l))).
Proof.
  intros Hn Hp. revert m'; induction l as [|a l IH] using rev_ind; intros m' Hr.
  { simpl in Hr. simplify_eq. by rewrite Hn, Hp. }
  rewrite run_snoc in Hr. destruct (run m l) as [m1|] eqn:E; simpl in Hr; [|done].
  destruct (IH m1 eq_refl) as [IHn IHp].
  rewrite !map_app, !concat_app. simpl. rewrite !app_nil_r.
  destruct (step_queues m1 m' a (concat (map notified l)) (concat (map processed l)) Hr) as [H1 H2].
  split; intros Hw; [apply H1; [apply IHn|]|apply H2; [apply IHp|]]; set_solver.
Qed.

(** A run of three calls. *)
Definition three_calls : list action := [Notify 1 0 0; Register (sub 1 1); Notify 2 0 0].

Lemma queue_keeps_newest_witness :
  exists m, run new_ADEvntMgr three_calls = Some m /\ map pe_eventNum (notifyEvent m) = [1; 2].
Proof.
  destruct (run new_ADEvntMgr three_calls) as [m|] eqn:E; [|discriminate].
  exists m. split; [reflexivity|].
  destruct (queue_keeps_newest three_calls new_ADEvntMgr m eq_refl eq_refl E) as [H _].
  rewrite H; [reflexivity|]. intros N. unfold three_calls in N.
  repeat (apply elem_of_cons in N as [N|N]; [discriminate|]). by apply elem_of_nil in N.
Defined.

(** ** Delivery *)

(** The notify thread is sending [entry] to [targets] and has got the outcomes
    [oks] so far. *)
Record sending (s0 : list (EventEntry * EventProcEntry * bool)) (entry : EventProcEntry)
    (pending : list EventProcEntry) (targets : list EventEntry) (m : ADEvntMgr) (oks : list bool) : Prop := {
  sd_pc : notify_pc m = NotifySending entry pending (drop (length oks) targets)
            (map (fun x => srvToken x.1) (List.filter (fun x => negb x.2) (zip targets oks)))
            (map (fun x => srvToken x.1) (List.filter (fun x => x.2) (zip targets oks)));
  sd_sent : sent m = s0 ++ map (fun x => (x.1, entry, x.2)) (zip targets oks);
  sd_len : (length oks <= length targets)%nat;
}.

Lemma step_stop_flag (m m' : ADEvntMgr) (a : action) :
  step m a = Some m' -> stop_flag m' = false -> stop_flag m = false.
Proof.
  destruct a; simpl; unfold register_event_subscription, unregister_event_subscription,
    update_failure_counts; intros Hs; repeat case_match; simplify_eq/=; congruence.
Qed.

Lemma zip_snoc {A B} (l : list A) (k : list B) (x : A) (y : B) (r : list A) :
  drop (length k) l = x :: r -> (length k <= length l)%nat ->
  zip l (k ++ [y]) = zip l k ++ [(x, y)] /\ drop (length (k ++ [y])) l = r /\
  (length (k ++ [y]) <= length l)%nat.
Proof.
  revert l; induction k as [|b k IH]; intros [|a l] Hd Hl; simpl in *; try lia; simplify_eq.
  - split_and!; [by rewrite zip_with_nil_r|done|lia].
  - destruct (IH l Hd ltac:(lia)) as (-> & -> & ?). split_and!; [done|done|lia].
Qed.

Lemma step_sending s0 entry pending targets (m m' : ADEvntMgr) oks (a : action) :
  sending s0 entry pending targets m oks -> step m a = Some m' -> stop_flag m' = false ->
  (forall now, a <> NotifyDone now) ->
  exists oks', sending s0 entry pending targets m' oks'.
Proof.
  intros [Hpc Hsent Hlen] Hs Hstop Ha. pose proof (step_stop_flag m m' a Hs Hstop) as Hst.
  destruct a; simpl in Hs; rewrite ?Hpc in Hs; simplify_eq.
  - exists oks. unfold register_event_subscription. by destruct (find_first _ _); constructor.
  - exists oks. unfold unregister_event_subscription. by destruct (find_first _ _); constructor.
  - exists oks. by constructor.
  - exists oks. by constructor.
  - destruct (drop (length oks) targets) as [|t ts] eqn:E; [done|]. rewrite Hst in Hs.
    destruct (_ =? -1); simplify_eq.
    + exists (oks ++ [false]). destruct (zip_snoc targets oks t false ts E Hlen) as (Ez & Ed & El).
      constructor; simpl; [|by rewrite Hsent, Ez, map_app, app_assoc|done].
      rewrite Ez, Ed, !List.filter_app, !map_app. simpl. by rewrite app_nil_r.
    + exists (oks ++ [true]). destruct (zip_snoc targets oks t true ts E Hlen) as (Ez & Ed & El).
      constructor; simpl; [|by rewrite Hsent, Ez, map_app, app_assoc|done].
      rewrite Ez, Ed, !List.filter_app, !map_app. simpl. by rewrite app_nil_r.
  - by destruct (Ha now).
  - exists oks. destruct (process_pc m); simplify_eq. by constructor.
  - exists oks. destruct (process_pc m); simplify_eq. by constructor.
Qed.

Lemma run_stop_flag (m m' : ADEvntMgr) (l : list action) :
  run m l = Some m' -> stop_flag m' = false -> stop_flag m = false.
Proof.
  revert m; induction l as [|a l IH]; intros m Hr Hst; simpl in Hr; [by simplify_eq|].
  destruct (step m a) as [m1|] eqn:E; simpl in Hr; [|done]. eauto using step_stop_flag.
Qed.

Lemma run_sending s0 entry pending targets (m m' : ADEvntMgr) oks (l : list action) :
  sending s0 entry pending targets m oks -> run m l = Some m' -> stop_flag m' = false ->
  (forall now, NotifyDone now ∉ l) ->
  exists oks', sending s0 entry pending targets m' oks'.
Proof.
  revert m oks; induction l as [|a l IH]; intros m oks Hse Hr Hst Hnd; simpl in Hr.
  { simplify_eq. by exists oks. }
  destruct (step m a) as [m1|] eqn:E; simpl in Hr; [|done].
  destruct (step_sending _ _ _ _ m m1 oks a Hse E (run_stop_flag m1 m' l Hr Hst)) as [oks1 Hse1].
  { intros now ->. apply (Hnd now). set_solver. }
  apply (IH m1 oks1 Hse1 Hr Hst). intros now Hin. apply (Hnd now). set_solver.
Qed.

(** C7: an event reaches its subscribers.  When the notify thread takes an event
    and the manager is not stopped, then until the thread reports the outcomes it
    makes exactly one delivery, in order, to each subscription whose event number
    is that of the event or [-1] and which was there when the event was taken,
    and to nothing else, whatever the other threads do meanwhile; the counters are
    then updated with exactly the deliveries that failed and succeeded, and the
    thread goes on with the next event. *)
Theorem event_delivered (m m' : ADEvntMgr) entry pending (l : list action) (now : Z) :
  notify_pc m = NotifyLoop (entry :: pending) -> stop_flag m' = false ->
  (forall t, NotifyDone t ∉ l) ->
  run m (NotifyNext :: l ++ [NotifyDone now]) = Some m' ->
  exists oks m1,
    length oks = length (matching m entry) /\
    run m (NotifyNext :: l) = Some m1 /\
    sent m' = sent m ++ map (fun x => (x.1, entry, x.2)) (zip (matching m entry) oks) /\
    notify_pc m' = NotifyLoop pending /\
    eventList m' = eventList (update_failure_counts m1 now
      (map (fun x => srvToken x.1) (List.filter (fun x => negb x.2) (zip (matching m entry) oks)))
      (map (fun x => srvToken x.1) (List.filter (fun x => x.2) (zip (matching m entry) oks)))).
Proof.
  intros Hpc Hst Hnd Hr. rewrite app_comm_cons, run_snoc in Hr.
  destruct (run m (NotifyNext :: l)) as [m1|] eqn:E; simpl in Hr; [|done].
  simpl in E. rewrite Hpc in E. simpl in E.
  pose proof (step_stop_flag m1 m' (NotifyDone now) Hr Hst) as Hst1.
  destruct (run_sending (sent m) entry pending (matching m entry)
    (set_notify m (NotifySending entry pending (matching m entry) [] []) (sent m)) m1 [] l)
    as [oks [Hpc1 Hs1 Hl1]]; [|done|done|done|].
  { constructor; simpl; [|rewrite zip_with_nil_r|lia]; rewrite ?zip_with_nil_r, ?drop_0; [done|].
    by rewrite app_nil_r. }
  rewrite Hpc1 in Hr. destruct (drop (length oks) (matching m entry)) eqn:Ed; simplify_eq.
  exists oks, m1. apply (f_equal length) in Ed. rewrite length_drop in Ed. simpl in Ed.
  split_and!; [lia|done|done|done|done].
Qed.

(** A delivery to two of three subscribers while a fourth one registers. *)
Definition delivery_start : list action :=
  [Register (sub 1 7); Register (sub 2 8); Register (sub 3 (-1)); Notify 7 0 0; NotifyWake].
Definition delivery_event : EventProcEntry :=
  {| pe_eventNum := 7; pe_eventArg := 0; pe_cltToken := 0; pe_eventArg2 := 0 |}.
Definition delivery_steps : list action := [NotifySend 0 0; Register (sub 4 7); NotifySend 1 0].

Lemma event_delivered_witness :
  match run new_ADEvntMgr delivery_start with
  | Some m =>
      match run m (NotifyNext :: delivery_steps ++ [NotifyDone 5]) with
      | Some m' => exists oks, length oks = 2%nat /\
                     map (fun x => (srvToken x.1.1, x.2)) (sent m') = zip [1; 3] oks
      | None => False
      end
  | None => False
  end.
Proof.
  destruct (run new_ADEvntMgr delivery_start) as [m|] eqn:E0; [|discriminate].
  vm_compute in E0. injection E0 as Em. subst m.
  match goal with |- match run ?m ?l with _ => _ end =>
    pose (m0 := m); change m with m0; destruct (run m0 l) as [m'|] eqn:E end;
    [|vm_compute in E; discriminate].
  destruct (event_delivered m0 m' delivery_event [] delivery_steps 5) as (oks & m1 & Hl & _ & Hs & _);
    [reflexivity| | |exact E|].
  - vm_compute in E. injection E as Em. subst m'. reflexivity.
  - intros t N. unfold delivery_steps in N.
    repeat (apply elem_of_cons in N as [N|N]; [discriminate|]). by apply elem_of_nil in N.
  - exists oks. vm_compute in Hl. split; [exact Hl|]. rewrite Hs.
    destruct oks as [|x [|y [|? ?]]]; try discriminate. reflexivity.
Defined.
