(* ===== verification/Common.v ===== *)
(** * Result codes and string processing (ADCommon.hpp, JsonCmnDef.h and
    ADCmnStringProcessor.cpp of lib-jsonrpc-tcp)

    The codes every service answers with, their names on the wire, the macros that
    read the parameters of a request and the functions that build a response.  The
    JSON objects themselves belong to json-c, which is a parameter: the class
    [JsonC] lists the functions of it the code calls, with the documented
    behaviour that the theorems rely on. *)
From S2P Require Import Prelude.
Open Scope Z_scope.

(** ** Codes *)

(** [rpc_srv_result_t] *)
Module Rpc.
Definition SUCCESS : Z := 0.
Definition FAIL : Z := 1.
Definition IN_PROG : Z := 2.
Definition BUSY : Z := 3.
Definition NOT_STARTED : Z := 4.
Definition TIMEOUT : Z := 5.
Definition ARG_ERROR : Z := 6.
Definition MEM_ERROR : Z := 7.
Definition BUS_ERROR : Z := 8.
Definition ACTION_NOT_ALLOWED : Z := 9.
Definition DEV_NOT_ACCESSIBLE : Z := 10.
Definition FILE_NOT_FOUND : Z := 11.
Definition FEATURE_NOT_AVAILABLE : Z := 12.
Definition FEATURE_UNSUPPORTED : Z := 13.
Definition TASK_ID_NOT_FOUND : Z := 14.
Definition VALUE_OUT_OF_RANGE : Z := 15.
Definition FILE_OPEN_ERR : Z := 16.
Definition FILE_READ_ERR : Z := 17.
Definition FILE_WRITE_ERR : Z := 18.
Definition FILE_SAME : Z := 19.
Definition FILE_DIFFERENT : Z := 20.
Definition HOST_NOT_REACHABLE_ERR : Z := 21.
Definition RESEND : Z := 22.
Definition CS_EXPOSURE_ERR : Z := 23.
Definition CS_I2C_ERR : Z := 24.
Definition ITEM_NOT_FOUND : Z := 25.
Definition FILE_ERROR : Z := 26.
Definition DEVINFO_ERROR : Z := 27.
Definition FILE_EMPTY : Z := 28.
Definition ITEM_DUPLICATE_FOUND : Z := 29.
Definition UNKNOWN_COMMAND : Z := 30.
Definition DEVNODE_ACCERR : Z := 31.
Definition DEVNODE_OPENERR : Z := 32.
Definition OFFLINE_NODE : Z := 33.
Definition UNKNOWN : Z := 34.
Definition NONE : Z := 35.
End Rpc.

(** [STR_RPC_SRV_RESULT_STRING_TABLE] *)
Definition rpc_server_result_table : list string :=
  ["Success"; "Fail"; "InProgress"; "Busy"; "NotStarted"; "Timeout";
   "ArgError"; "MemError"; "BusError"; "ActionBlocked"; "DeviceError";
   "FileNotFound"; "FeatureNotAvailable"; "UnsupportedFeature";
   "taskIDNotFound"; "valueOutOfRange"; "FileOpenErr"; "FileReadErr";
   "FileWriteErr"; "FileSame"; "FileNotSame"; "HostUnreachable";
   "resend"; "csExposureError"; "csI2CErr"; "ItemNotFound"; "FileError";
   "DevInfoErr"; "FileEmpty"; "DuplicateItem"; "UnknownCmd";
   "DevNodeAccErr"; "DevNodeOpenErr"; "OfflineNode"; "Unknown"; "none"; EmptyString]%string.

(** [cmd_task_result_t] *)
Module Task.
Definition FAIL : Z := -1.
Definition SUCCESS : Z := 0.
Definition INVALID_PARAM : Z := 1.
Definition DEV_TIMEOUT : Z := 2.
Definition DEV_ERR : Z := 3.
Definition MEM_FAIL : Z := 4.
Definition IN_PROGRESS : Z := 5.
Definition NOT_STARTED : Z := 6.
Definition ACTUAL_VALUE : Z := 7.
Definition UNKNOWN : Z := 8.
End Task.

(** [rpc_srv_action_t] *)
Module Act.
Definition READ : Z := 0.
Definition WRITE : Z := 1.
Definition VERIFY : Z := 2.
Definition READONLY : Z := 3.
Definition WRITEONLY : Z := 4.
Definition READ_AND_WRITE : Z := 5.
Definition RESET : Z := 6.
Definition UNKNOWN : Z := 7.
Definition NONE : Z := 8.
End Act.

(** [display_panel_result_t] *)
Module Panel.
Definition SUCCESS : Z := 0.
Definition FAIL : Z := 1.
Definition IN_PROG : Z := 2.
Definition NOT_STARTED : Z := 3.
Definition TIMEOUT : Z := 4.
Definition ARG_ERROR : Z := 5.
Definition MEM_ERROR : Z := 6.
Definition BUS_ERROR : Z := 7.
Definition RESEND : Z := 8.
Definition FILE_NOT_FOUND : Z := 9.
Definition UNKNOWN : Z := 10.
Definition NONE : Z := 11.
End Panel.

(** [ADLIB_ASYNC_RESP_TYPE_T] *)
Definition ADLIB_ASYNC_RESP_TYPE_POLL : Z := 0.
Definition ADLIB_ASYNC_RESP_TYPE_TRIGGER : Z := 1.

Definition ADLIB_EVENT_NUM_INPROG_DONE : Z := 0.
Definition ADLIB_EVENT_NUM_SHUT_DOWN : Z := 1.

(** The names of the fields of a response. *)
Definition RPC_NAME_ARG_RESULT_OBJ : string := "result".
Definition RPC_NAME_ARG_RESULT_PARAM : string := "return".

(** ** Numbers as text *)

(** [%d]: the digits of a number, the last ones first. *)
Fixpoint decimal (fuel : nat) (n : Z) (acc : string) : string :=
  match fuel with
  | O => acc
  | S fuel =>
      let acc := String (ascii_of_N (Z.to_N (48 + n mod 10))) acc in
      if n <? 10 then acc else decimal fuel (n / 10) acc
  end.
Definition format_d (n : Z) : string :=
  if n <? 0 then String "-" (decimal 20 (- n) EmptyString) else decimal 20 n EmptyString.

(** ** json-c *)

(** The part of json-c the code calls, and the floating point conversions: the
    type of its objects, of doubles, and what [%f] and [atof] do.  [None] is the null
    pointer. *)
Class JsonC (J D : Type) := {
  json_tokener_parse : string -> option J;
  json_object_object_get : J -> string -> option J;
  json_object_get_string : J -> option string;
  json_object_new_object : J;
  json_object_new_string : string -> J;
  json_object_new_int : Z -> J;
  json_object_new_int64 : Z -> J;
  json_object_new_double : D -> J;
  json_object_object_add : J -> string -> J -> J;
  format_f : D -> string;
  atof : string -> D;
}.

(** What json-c documents of them: an object maps names to values, adding a field
    replaces one of that name and keeps the others, and the text of a string is
    the string. *)
Class JsonCLaws (J D : Type) `{JsonC J D} := {
  is_object : J -> Prop;
  new_object_is : is_object json_object_new_object;
  add_is : forall o k v, is_object o -> is_object (json_object_object_add o k v);
  get_new : forall k, json_object_object_get json_object_new_object k = None;
  get_add_eq : forall o k v, is_object o ->
    json_object_object_get (json_object_object_add o k v) k = Some v;
  get_add_ne : forall o k k' v, is_object o -> k <> k' ->
    json_object_object_get (json_object_object_add o k v) k' = json_object_object_get o k';
  string_of_string : forall s, json_object_get_string (json_object_new_string s) = Some s;
  string_of_int : forall n, json_object_get_string (json_object_new_int n) = Some (format_d n);
}.

(** ** Reading *)

(** [string_to_enum()]: the loop over the table; [None] past its end. *)
Fixpoint string_to_enum_from (table : list string) (s : string) (index max : nat) : option Z :=
  match max with
  | O => Some (Z.of_nat index)
  | S max =>
      match table with
      | [] => None
      | t :: r =>
          if (t =? s)%string then Some (Z.of_nat index) else string_to_enum_from r s (S index) max
      end
  end.
Definition string_to_enum (table : list string) (s : string) (max_enum_value : Z) : option Z :=
  string_to_enum_from table s 0 (Z.to_nat max_enum_value).

(** [convert_server_result_to_string()]; the codes are unsigned. *)
Definition convert_server_result_to_string (result : Z) : option string :=
  if result >=? Rpc.NONE then rpc_server_result_table !! Z.to_nat Rpc.UNKNOWN
  else rpc_server_result_table !! Z.to_nat result.

(** [convert_string_to_server_result()]: the loop, and the function. *)
Fixpoint server_result_from (table : list string) (s : string) (i n : nat) : option Z :=
  match n with
  | O => Some Rpc.UNKNOWN
  | S n =>
      match table with
      | [] => None
      | t :: r => if (s =? t)%string then Some (Z.of_nat i) else server_result_from r s (S i) n
      end
  end.
Definition convert_string_to_server_result (s : string) : option Z :=
  server_result_from rpc_server_result_table s 0 (Z.to_nat Rpc.NONE).

(** [atoi]: white space, a sign, digits; the value of a C [int]. *)
Definition is_space (c : ascii) : bool :=
  let n := N_of_ascii c in (n =? 32)%N || ((9 <=? n) && (n <=? 13))%N.
Definition digit_of (c : ascii) : option Z :=
  let n := Z.of_N (N_of_ascii c) in
  if (48 <=? n) && (n <=? 57) then Some (n - 48) else None.
Fixpoint skip_space (s : string) : string :=
  match s with
  | String c r => if is_space c then skip_space r else s
  | EmptyString => s
  end.
Fixpoint digits (s : string) (acc : Z) : Z :=
  match s with
  | String c r => match digit_of c with Some d => digits r (10 * acc + d) | None => acc end
  | EmptyString => acc
  end.
Definition atoi (s : string) : Z :=
  i32 match skip_space s with
      | String "-" r => - digits r 0
      | String "+" r => digits r 0
      | r => digits r 0
      end.

(** The first [n] characters, as [memcpy] with a length and a final NUL leaves them. *)
Definition truncate (n : nat) (s : string) : string := String.substring 0 n s.

(** [adlib_copy_param()] into an array of [n] characters. *)
Definition adlib_copy_param (n : nat) (src : string) : string :=
  truncate (if (n <=? String.length src)%nat then n - 1 else String.length src) src.

Section json.
Context `{JsonC J D}.

(** [json_object_object_get] and [json_object_get_string] of a pointer that may be
    null. *)
Definition get_opt (o : option J) (name : string) : option J := o ← o; json_object_object_get o name.
Definition string_opt (o : option J) : option string := o ← o; json_object_get_string o.

(** [find_single_param()] into a buffer of [value_size] bytes: the result, and what
    the buffer holds then. *)
Definition find_single_param (json_string param_name : string) (value_size : nat) : Z * option string :=
  if (value_size =? 0)%nat then (-1, None)
  else
    match json_tokener_parse json_string with
    | None => (-1, Some EmptyString)
    | Some new_obj =>
        let new_obj1 := json_object_object_get new_obj "params" in
        match string_opt new_obj1 with
        | None => (-1, Some EmptyString)
        | Some _ =>
            match string_opt (get_opt new_obj1 param_name) with
            | None => (-1, Some EmptyString)
            | Some src =>
                let n := String.length src in
                (0, Some (truncate (if (value_size <=? n)%nat then value_size - 1 else n) src))
            end
        end
    end.

(** The parameter value the macros [JSON_STRING_TO_...] go on with. *)
Definition param_value (socket_data name : string) : option string :=
  match find_single_param socket_data name 255 with
  | (0, Some v) => Some v
  | _ => None
  end.

(** [JSON_STRING_TO_ENUM], [JSON_STRING_TO_STRING], [JSON_STRING_TO_INT] and
    [JSON_STRING_TO_DOUBLE]: [None] when the macro makes the handler fail with
    [CMD_TASK_RESULT_INVALID_PARAM]. *)
Definition JSON_STRING_TO_ENUM (socket_data name : string) (table : list string) (max : Z) : option Z :=
  v ← param_value socket_data name;
  e ← string_to_enum table v max;
  if e >=? max then None else Some e.
Definition JSON_STRING_TO_STRING (socket_data name : string) (size : nat) : option string :=
  v ← param_value socket_data name; Some (adlib_copy_param size v).
Definition JSON_STRING_TO_INT (socket_data name : string) : option Z :=
  v ← param_value socket_data name; Some (atoi v).
Definition JSON_STRING_TO_DOUBLE (socket_data name : string) : option D :=
  v ← param_value socket_data name; Some (atof v).

(** ** The request being mapped *)

(** [JsonDataCommObj_t]; the command object [pDataObj] points to is kept by the
    handlers (file RpcMgr). *)
Record JsonDataCommObj := {
  req_id : Z;
  cmd_index : Z;
  mapper_result : Z;
  rpc_code : Z;
  socket_data : string;
  json_resp_obj : option J;
  custom_result_string : string;
  cltport : Z;
  client_ip : string;
  sock_id : Z;
  sock_descr : Z;
}.

Definition set_mapper_result (r : JsonDataCommObj) (c : Z) : JsonDataCommObj :=
  {| req_id := req_id r; cmd_index := cmd_index r; mapper_result := c; rpc_code := rpc_code r;
     socket_data := socket_data r; json_resp_obj := json_resp_obj r;
     custom_result_string := custom_result_string r; cltport := cltport r;
     client_ip := client_ip r; sock_id := sock_id r; sock_descr := sock_descr r |}.

Definition set_response (r : JsonDataCommObj) (c : Z) (o : J) : JsonDataCommObj :=
  {| req_id := req_id r; cmd_index := cmd_index r; mapper_result := mapper_result r; rpc_code := c;
     socket_data := socket_data r; json_resp_obj := Some o;
     custom_result_string := custom_result_string r; cltport := cltport r;
     client_ip := client_ip r; sock_id := sock_id r; sock_descr := sock_descr r |}.

(** ** Building a response *)

(** The sequence every overload of [prepare_result_string()] makes: the code, a new
    object with its name, and the fields in order. *)
Definition add_fields (o : J) (fields : list (string * J)) : J :=
  fold_left (fun o '(name, v) => json_object_object_add o name v) fields o.

Definition response_object (result : Z) (fields : list (string * J)) : option J :=
  name ← convert_server_result_to_string result;
  Some (add_fields (json_object_object_add json_object_new_object RPC_NAME_ARG_RESULT_PARAM
                      (json_object_new_string name)) fields).

Definition prepare (result : Z) (pReq : JsonDataCommObj) (fields : list (string * J))
  : option JsonDataCommObj :=
  o ← response_object result fields; Some (set_response pReq result o).

End json.
Arguments JsonDataCommObj J : clear implicits.

(** The overloads of [prepare_result_string()]; the suffix gives the types of the
    parameters: [s]tring, [i]nt, [l]ong, [d]ouble, [f]loat printed with [%f].  The
    last two take the result codes of the display panels. *)
Section overloads.
Context `{JsonC J D}.

Definition prepare_result_string (result : Z) (pReq : JsonDataCommObj J)
  : option (JsonDataCommObj J) :=
  prepare result pReq [].
Definition prepare_result_string_s (result : Z) (pReq : JsonDataCommObj J)
    (name1 : string) (val1 : string)
  : option (JsonDataCommObj J) :=
  prepare result pReq
    [(name1, json_object_new_string val1)].
Definition prepare_result_string_i (result : Z) (pReq : JsonDataCommObj J)
    (name1 : string) (val1 : Z)
  : option (JsonDataCommObj J) :=
  prepare result pReq
    [(name1, json_object_new_int val1)].
Definition prepare_result_string_iiff (result : Z) (pReq : JsonDataCommObj J)
    (name1 : string) (val1 : Z) (name2 : string) (val2 : Z) (name3 : string) (val3 : D)
    (name4 : string) (val4 : D)
  : option (JsonDataCommObj J) :=
  prepare result pReq
    [(name1, json_object_new_int val1); (name2, json_object_new_int val2);
     (name3, json_object_new_string (format_f val3));
     (name4, json_object_new_string (format_f val4))].
Definition prepare_result_string_iiii (result : Z) (pReq : JsonDataCommObj J)
    (name1 : string) (val1 : Z) (name2 : string) (val2 : Z) (name3 : string) (val3 : Z)
    (name4 : string) (val4 : Z)
  : option (JsonDataCommObj J) :=
  prepare result pReq
    [(name1, json_object_new_int val1); (name2, json_object_new_int val2);
     (name3, json_object_new_int val3); (name4, json_object_new_int val4)].
Definition prepare_result_string_iiiis (result : Z) (pReq : JsonDataCommObj J)
    (name1 : string) (val1 : Z) (name2 : string) (val2 : Z) (name3 : string) (val3 : Z)
    (name4 : string) (val4 : Z) (name5 : string) (val5 : string)
  : option (JsonDataCommObj J) :=
  prepare result pReq
    [(name1, json_object_new_int val1); (name2, json_object_new_int val2);
     (name3, json_object_new_int val3); (name4, json_object_new_int val4);
     (name5, json_object_new_string val5)].
Definition prepare_result_string_sssss (result : Z) (pReq : JsonDataCommObj J)
    (name1 : string) (val1 : string) (name2 : string) (val2 : string)
    (name3 : string) (val3 : string) (name4 : string) (val4 : string)
    (name5 : string) (val5 : string)
  : option (JsonDataCommObj J) :=
  prepare result pReq
    [(name1, json_object_new_string val1); (name2, json_object_new_string val2);
     (name3, json_object_new_string val3); (name4, json_object_new_string val4);
     (name5, json_object_new_string val5)].
Definition prepare_result_string_ssss (result : Z) (pReq : JsonDataCommObj J)
    (name1 : string) (val1 : string) (name2 : string) (val2 : string)
    (name3 : string) (val3 : string) (name4 : string) (val4 : string)
  : option (JsonDataCommObj J) :=
  prepare result pReq
    [(name1, json_object_new_string val1); (name2, json_object_new_string val2);
     (name3, json_object_new_string val3); (name4, json_object_new_string val4)].
Definition prepare_result_string_iiiiss (result : Z) (pReq : JsonDataCommObj J)
    (name1 : string) (val1 : Z) (name2 : string) (val2 : Z) (name3 : string) (val3 : Z)
    (name4 : string) (val4 : Z) (name5 : string) (val5 : string)
    (name6 : string) (val6 : string)
  : option (JsonDataCommObj J) :=
  prepare result pReq
    [(name1, json_object_new_int val1); (name2, json_object_new_int val2);
     (name3, json_object_new_int val3); (name4, json_object_new_int val4);
     (name5, json_object_new_string val5); (name6, json_object_new_string val6)].
Definition prepare_result_string_iiiiiii (result : Z) (pReq : JsonDataCommObj J)
    (name1 : string) (val1 : Z) (name2 : string) (val2 : Z) (name3 : string) (val3 : Z)
    (name4 : string) (val4 : Z) (name5 : string) (val5 : Z) (name6 : string) (val6 : Z)
    (name7 : string) (val7 : Z)
  : option (JsonDataCommObj J) :=
  prepare result pReq
    [(name1, json_object_new_int val1); (name2, json_object_new_int val2);
     (name3, json_object_new_int val3); (name4, json_object_new_int val4);
     (name5, json_object_new_int val5); (name6, json_object_new_int val6);
     (name7, json_object_new_int val7)].
Definition prepare_result_string_iii (result : Z) (pReq : JsonDataCommObj J)
    (name1 : string) (val1 : Z) (name2 : string) (val2 : Z) (name3 : string) (val3 : Z)
  : option (JsonDataCommObj J) :=
  prepare result pReq
    [(name1, json_object_new_int val1); (name2, json_object_new_int val2);
     (name3, json_object_new_int val3)].
Definition prepare_result_string_iiiiiiii (result : Z) (pReq : JsonDataCommObj J)
    (name1 : string) (val1 : Z) (name2 : string) (val2 : Z) (name3 : string) (val3 : Z)
    (name4 : string) (val4 : Z) (name5 : string) (val5 : Z) (name6 : string) (val6 : Z)
    (name7 : string) (val7 : Z) (name8 : string) (val8 : Z)
  : option (JsonDataCommObj J) :=
  prepare result pReq
    [(name1, json_object_new_int val1); (name2, json_object_new_int val2);
     (name3, json_object_new_int val3); (name4, json_object_new_int val4);
     (name5, json_object_new_int val5); (name6, json_object_new_int val6);
     (name7, json_object_new_int val7); (name8, json_object_new_int val8)].
Definition prepare_result_string_ii (result : Z) (pReq : JsonDataCommObj J)
    (name1 : string) (val1 : Z) (name2 : string) (val2 : Z)
  : option (JsonDataCommObj J) :=
  prepare result pReq
    [(name1, json_object_new_int val1); (name2, json_object_new_int val2)].
Definition prepare_result_string_ss (result : Z) (pReq : JsonDataCommObj J)
    (name1 : string) (val1 : string) (name2 : string) (val2 : string)
  : option (JsonDataCommObj J) :=
  prepare result pReq
    [(name1, json_object_new_string val1); (name2, json_object_new_string val2)].
Definition prepare_result_string_ssiiiiiiii (result : Z) (pReq : JsonDataCommObj J)
    (name1 : string) (val1 : string) (name2 : string) (val2 : string)
    (name3 : string) (val3 : Z) (name4 : string) (val4 : Z) (name5 : string) (val5 : Z)
    (name6 : string) (val6 : Z) (name7 : string) (val7 : Z) (name8 : string) (val8 : Z)
    (name9 : string) (val9 : Z) (name10 : string) (val10 : Z)
  : option (JsonDataCommObj J) :=
  prepare result pReq
    [(name1, json_object_new_string val1); (name2, json_object_new_string val2);
     (name3, json_object_new_int val3); (name4, json_object_new_int val4);
     (name5, json_object_new_int val5); (name6, json_object_new_int val6);
     (name7, json_object_new_int val7); (name8, json_object_new_int val8);
     (name9, json_object_new_int val9); (name10, json_object_new_int val10)].
Definition prepare_result_string_iiiiii (result : Z) (pReq : JsonDataCommObj J)
    (name1 : string) (val1 : Z) (name2 : string) (val2 : Z) (name3 : string) (val3 : Z)
    (name4 : string) (val4 : Z) (name5 : string) (val5 : Z) (name6 : string) (val6 : Z)
  : option (JsonDataCommObj J) :=
  prepare result pReq
    [(name1, json_object_new_int val1); (name2, json_object_new_int val2);
     (name3, json_object_new_int val3); (name4, json_object_new_int val4);
     (name5, json_object_new_int val5); (name6, json_object_new_int val6)].
Definition prepare_result_string_ddd (result : Z) (pReq : JsonDataCommObj J)
    (name1 : string) (val1 : D) (name2 : string) (val2 : D) (name3 : string) (val3 : D)
  : option (JsonDataCommObj J) :=
  prepare result pReq
    [(name1, json_object_new_double val1); (name2, json_object_new_double val2);
     (name3, json_object_new_double val3)].
Definition prepare_result_string_idsidd (result : Z) (pReq : JsonDataCommObj J)
    (name1 : string) (val1 : Z) (name2 : string) (val2 : D) (name3 : string) (val3 : string)
    (name4 : string) (val4 : Z) (name5 : string) (val5 : D) (name6 : string) (val6 : D)
  : option (JsonDataCommObj J) :=
  prepare result pReq
    [(name1, json_object_new_int val1); (name2, json_object_new_double val2);
     (name3, json_object_new_string val3); (name4, json_object_new_int val4);
     (name5, json_object_new_double val5); (name6, json_object_new_double val6)].
Definition prepare_result_string_ddddddddd (result : Z) (pReq : JsonDataCommObj J)
    (name1 : string) (val1 : D) (name2 : string) (val2 : D) (name3 : string) (val3 : D)
    (name4 : string) (val4 : D) (name5 : string) (val5 : D) (name6 : string) (val6 : D)
    (name7 : string) (val7 : D) (name8 : string) (val8 : D) (name9 : string) (val9 : D)
  : option (JsonDataCommObj J) :=
  prepare result pReq
    [(name1, json_object_new_double val1); (name2, json_object_new_double val2);
     (name3, json_object_new_double val3); (name4, json_object_new_double val4);
     (name5, json_object_new_double val5); (name6, json_object_new_double val6);
     (name7, json_object_new_double val7); (name8, json_object_new_double val8);
     (name9, json_object_new_double val9)].
Definition prepare_result_string_sssddddddddd (result : Z) (pReq : JsonDataCommObj J)
    (name1 : string) (val1 : string) (name2 : string) (val2 : string)
    (name3 : string) (val3 : string) (name4 : string) (val4 : D) (name5 : string) (val5 : D)
    (name6 : string) (val6 : D) (name7 : string) (val7 : D) (name8 : string) (val8 : D)
    (name9 : string) (val9 : D) (name10 : string) (val10 : D) (name11 : string) (val11 : D)
    (name12 : string) (val12 : D)
  : option (JsonDataCommObj J) :=
  prepare result pReq
    [(name1, json_object_new_string val1); (name2, json_object_new_string val2);
     (name3, json_object_new_string val3); (name4, json_object_new_double val4);
     (name5, json_object_new_double val5); (name6, json_object_new_double val6);
     (name7, json_object_new_double val7); (name8, json_object_new_double val8);
     (name9, json_object_new_double val9); (name10, json_object_new_double val10);
     (name11, json_object_new_double val11); (name12, json_object_new_double val12)].
Definition prepare_result_string_iiss (result : Z) (pReq : JsonDataCommObj J)
    (name1 : string) (val1 : Z) (name2 : string) (val2 : Z) (name3 : string) (val3 : string)
    (name4 : string) (val4 : string)
  : option (JsonDataCommObj J) :=
  prepare result pReq
    [(name1, json_object_new_int val1); (name2, json_object_new_int val2);
     (name3, json_object_new_string val3); (name4, json_object_new_string val4)].
Definition prepare_result_string_siii (result : Z) (pReq : JsonDataCommObj J)
    (name1 : string) (val1 : string) (name2 : string) (val2 : Z) (name3 : string) (val3 : Z)
    (name4 : string) (val4 : Z)
  : option (JsonDataCommObj J) :=
  prepare result pReq
    [(name1, json_object_new_string val1); (name2, json_object_new_int val2);
     (name3, json_object_new_int val3); (name4, json_object_new_int val4)].
Definition prepare_result_string_sss (result : Z) (pReq : JsonDataCommObj J)
    (name1 : string) (val1 : string) (name2 : string) (val2 : string)
    (name3 : string) (val3 : string)
  : option (JsonDataCommObj J) :=
  prepare result pReq
    [(name1, json_object_new_string val1); (name2, json_object_new_string val2);
     (name3, json_object_new_string val3)].
Definition prepare_result_string_lll (result : Z) (pReq : JsonDataCommObj J)
    (name1 : string) (val1 : Z) (name2 : string) (val2 : Z) (name3 : string) (val3 : Z)
  : option (JsonDataCommObj J) :=
  prepare result pReq
    [(name1, json_object_new_int64 (i64 val1)); (name2, json_object_new_int64 (i64 val2));
     (name3, json_object_new_int64 (i64 val3))].
Definition prepare_result_string_si (result : Z) (pReq : JsonDataCommObj J)
    (name1 : string) (val1 : string) (name2 : string) (val2 : Z)
  : option (JsonDataCommObj J) :=
  prepare result pReq
    [(name1, json_object_new_string val1); (name2, json_object_new_int val2)].

(** The [switch] of the panel overloads. *)
Definition panel_code (result : Z) : Z :=
  if result =? Panel.SUCCESS then Rpc.SUCCESS
  else if result =? Panel.FAIL then Rpc.FAIL
  else if result =? Panel.RESEND then Rpc.RESEND
  else if result =? Panel.TIMEOUT then Rpc.TIMEOUT
  else Rpc.UNKNOWN.
Definition panel_result_string (result : Z) (pReq : JsonDataCommObj J) 
  : option (JsonDataCommObj J) :=
  prepare (panel_code result) pReq [].
Definition panel_result_string_s (result : Z) (pReq : JsonDataCommObj J) (name1 : string) (val1 : string)
  : option (JsonDataCommObj J) :=
  prepare (panel_code result) pReq [(name1, json_object_new_string val1)].
End overloads.

(** [prepare_req_object()]: the action and command of the command object. *)
Definition prepare_req_object {P} (set_action : P -> Z -> Z -> P) (o : P) (action cmd : Z) : Z * P :=
  (0, set_action o action cmd).

(** ** Codes and their names *)

Lemma code_name_inverse (c : Z) :
  0 <= c < Rpc.NONE ->
  exists s, convert_server_result_to_string c = Some s /\ convert_string_to_server_result s = Some c.
Proof.
  intros Hc.
  assert (forallb (fun n => match convert_server_result_to_string (Z.of_nat n) with
    | Some s => match convert_string_to_server_result s with
                | Some c => c =? Z.of_nat n | None => false end
    | None => false end) (seq 0 35) = true) as Hall by (vm_compute; reflexivity).
  rewrite forallb_forall in Hall. specialize (Hall (Z.to_nat c)).
  unfold Rpc.NONE in Hc. rewrite in_seq, Z2Nat.id in Hall by lia. specialize (Hall ltac:(lia)).
  destruct (convert_server_result_to_string c) as [s|]; [|done]. exists s. split; [done|].
  destruct (convert_string_to_server_result s) as [c'|]; [|done]. by apply Z.eqb_eq in Hall as ->.
Qed.

(** The result codes survive the wire: the name a server puts in a response
    for a code is read back by a client as that code, for every code the table
    knows; every other code, and every unknown name, is [Unknown]. *)
Theorem result_code_roundtrip (c : Z) :
  (0 <= c < Rpc.NONE ->
   exists s, convert_server_result_to_string c = Some s /\ convert_string_to_server_result s = Some c) /\
  (Rpc.NONE <= c -> convert_server_result_to_string c = Some "Unknown"%string) /\
  (forall s, s ∉ take 35 rpc_server_result_table -> convert_string_to_server_result s = Some Rpc.UNKNOWN).
Proof.
  split_and!; [apply code_name_inverse|..].
  - intros Hc. unfold convert_server_result_to_string. destruct (Z.geb_spec c Rpc.NONE); [done|lia].
  - intros s Hs.
    assert (forall i n table, s ∉ take n table -> (n <= length table)%nat ->
      server_result_from table s i n = Some Rpc.UNKNOWN) as Hgen.
    { intros i n; revert i; induction n as [|n IH]; intros i [|t r] Hn Hl; simpl in *; try lia; [done..|].
      apply not_elem_of_cons in Hn as [Hn Hr]. destruct (String.eqb_spec s t); [done|].
      apply IH; [done|lia]. }
    apply Hgen; [done|]. vm_compute. lia.
Qed.

Lemma result_code_roundtrip_witness :
  (exists s, convert_server_result_to_string 14 = Some s /\ convert_string_to_server_result s = Some 14) /\
  convert_string_to_server_result "busy"%string = Some Rpc.UNKNOWN.
Proof.
  split; [apply (result_code_roundtrip 14); vm_compute; split; [discriminate|reflexivity]|].
  apply (result_code_roundtrip 0). vm_compute. intros N.
  repeat (apply elem_of_cons in N as [N|N]; [discriminate|]). by apply elem_of_nil in N.
Defined.

(** ** Bounds of the parameter buffers *)

Lemma substring_length (s : string) (n : nat) :
  String.length (String.substring 0 n s) = Nat.min n (String.length s).
Proof.
  revert n; induction s as [|c s IH]; intros [|n]; simpl; try done. by rewrite IH.
Qed.

Lemma truncate_all (s : string) : truncate (String.length s) s = s.
Proof. unfold truncate. induction s as [|c s IH]; simpl; [done|]. by rewrite IH. Qed.

Lemma truncate_ge (n : nat) (s : string) : (String.length s <= n)%nat -> truncate n s = s.
Proof.
  unfold truncate. revert n. induction s as [|x s IH]; intros n Hn; [by destruct n|].
  destruct n as [|n]; simpl in *; [lia|]. by rewrite IH by lia.
Qed.
Lemma truncate_length (n : nat) (s : string) : String.length (truncate n s) = Nat.min n (String.length s).
Proof. apply substring_length. Qed.

(** No parameter overruns the buffer it is copied to.  With a buffer of any
    size [find_single_param] leaves a string that fits with its final NUL; when it
    succeeds the text was JSON with that parameter, and a value that fits is copied
    whole; when it fails the buffer holds the empty string.  The bounded copy into
    an array does the same. *)
Theorem find_single_param_bounded `{JsonC J D} (text name : string) (size : nat) :
  (0 < size)%nat ->
  (exists r v, find_single_param text name size = (r, Some v) /\ (String.length v < size)%nat /\
    (r = -1 /\ v = EmptyString \/
     r = 0 /\ exists o params src, json_tokener_parse text = Some o /\
       json_object_object_get o "params" = Some params /\
       string_opt (json_object_object_get params name) = Some src /\
       ((String.length src < size)%nat -> v = src))) /\
  (forall src, (String.length (adlib_copy_param size src) < size)%nat /\
               ((String.length src < size)%nat -> adlib_copy_param size src = src)).
Proof.
  intros Hs. split.
  - unfold find_single_param, get_opt, string_opt. destruct (Nat.eqb_spec size 0); [lia|].
    destruct (json_tokener_parse text) as [o|] eqn:Eo; [|by exists (-1), EmptyString; auto].
    destruct (json_object_object_get o "params") as [p|] eqn:Ep; simpl;
      [|by exists (-1), EmptyString; auto].
    destruct (json_object_get_string p); simpl; [|by exists (-1), EmptyString; auto].
    destruct (json_object_object_get p name) as [v|] eqn:Ev; simpl; [|by exists (-1), EmptyString; auto].
    destruct (json_object_get_string v) as [src|] eqn:Es; [|by exists (-1), EmptyString; auto].
    eexists 0, _. split; [done|]. split.
    + unfold truncate. rewrite substring_length. destruct (Nat.leb_spec size (String.length src)); lia.
    + right. split; [done|]. exists o, p, src. rewrite Ev. simpl. split_and!; [done|done|done|].
      intros Hl. destruct (Nat.leb_spec size (String.length src)); [lia|]. apply truncate_all.
  - intros src. unfold adlib_copy_param. split.
    + unfold truncate. rewrite substring_length. destruct (Nat.leb_spec size (String.length src)); lia.
    + intros Hl. destruct (Nat.leb_spec size (String.length src)); [lia|]. apply truncate_all.
Qed.

(** ** Integers as text *)

Lemma digit_of_ascii (d : Z) :
  0 <= d < 10 -> digit_of (ascii_of_N (Z.to_N (48 + d))) = Some d.
Proof.
  intros Hd. unfold digit_of. rewrite N_ascii_embedding by lia. rewrite Z2N.id by lia.
  replace ((48 <=? 48 + d) && (48 + d <=? 57)) with true; [f_equal; lia|].
  symmetry. apply andb_true_iff. rewrite !Z.leb_le. lia.
Qed.

Lemma digits_decimal (fuel : nat) (n : Z) (acc : string) :
  0 <= n < 10 ^ Z.of_nat fuel -> digits (decimal fuel n acc) 0 = digits acc n.
Proof.
  revert n acc; induction fuel as [|fuel IH]; intros n acc Hn.
  { simpl in *. by replace n with 0 by lia. }
  pose proof (Z.mod_pos_bound n 10 eq_refl). pose proof (Z.div_mod n 10 ltac:(lia)) as Hdm.
  cbn [decimal]. destruct (Z.ltb_spec n 10).
  - cbn [digits]. rewrite digit_of_ascii by done. f_equal. rewrite Z.mod_small; lia.
  - rewrite IH.
    + cbn [digits]. rewrite digit_of_ascii by done. f_equal. lia.
    + replace (Z.of_nat (S fuel)) with (Z.succ (Z.of_nat fuel)) in Hn by lia.
      rewrite Z.pow_succ_r in Hn by lia. split; [apply Z.div_pos; lia|].
      apply Z.div_lt_upper_bound; lia.
Qed.

Lemma decimal_head (fuel : nat) (n : Z) (acc : string) :
  0 <= n -> (0 < fuel)%nat ->
  exists d r, decimal fuel n acc = String (ascii_of_N (Z.to_N (48 + d))) r /\ 0 <= d < 10.
Proof.
  revert n acc; induction fuel as [|fuel IH]; intros n acc Hn Hf; [lia|].
  pose proof (Z.mod_pos_bound n 10 eq_refl). cbn [decimal].
  destruct (Z.ltb_spec n 10); [eauto|]. destruct fuel; [simpl; eauto|].
  apply IH; [apply Z.div_pos; lia|lia].
Qed.

Lemma decimal_length (fuel : nat) (n : Z) (acc : string) :
  (String.length (decimal fuel n acc) <= fuel + String.length acc)%nat.
Proof.
  revert n acc; induction fuel as [|fuel IH]; intros n acc; cbn [decimal]; [lia|].
  destruct (n <? 10); [simpl; lia|].
  etransitivity; [apply IH|simpl; lia].
Qed.

Lemma format_d_length (n : Z) : (1 <= String.length (format_d n) <= 21)%nat.
Proof.
  unfold format_d. destruct (Z.ltb_spec n 0).
  - cbn [String.length]. pose proof (decimal_length 20 (- n) EmptyString) as Hl. cbn [String.length] in Hl. lia.
  - pose proof (decimal_length 20 n EmptyString) as Hl. destruct (decimal_head 20 n EmptyString) as (d & r & E & _); [done|lia|].
    rewrite E in *. cbn [String.length] in *. lia.
Qed.

Lemma atoi_plain (d : Z) (r : string) :
  0 <= d < 10 ->
  atoi (String (ascii_of_N (Z.to_N (48 + d))) r) =
  i32 (digits (String (ascii_of_N (Z.to_N (48 + d))) r) 0).
Proof.
  intros Hd. assert (d ∈ [0;1;2;3;4;5;6;7;8;9]) as Hin.
  { destruct (decide (d = 0)); [set_solver|]. rewrite !elem_of_cons. lia. }
  rewrite !elem_of_cons, elem_of_nil in Hin.
  by destruct_or! Hin; subst.
Qed.

(** [atoi] inverts [%d] on every [int]. *)
Lemma atoi_format_d (n : Z) : int_min <= n <= int_max -> atoi (format_d n) = n.
Proof.
  intros Hn. assert (10 ^ Z.of_nat 20 = 100000000000000000000) as E by done.
  unfold int_min, int_max in Hn. unfold format_d. destruct (Z.ltb_spec n 0).
  - unfold atoi. change (skip_space (String "-" ?s)) with (String "-" s).
    cbn [skip_space is_space]. 
    rewrite digits_decimal by lia. simpl digits.
    rewrite i32_id; unfold int_min, int_max; lia.
  - destruct (decimal_head 20 n EmptyString) as (d & r & Ed & Hd); [lia|lia|].
    rewrite Ed, atoi_plain by done. rewrite <- Ed, digits_decimal by lia. simpl.
    apply i32_id. unfold int_min, int_max; lia.
Qed.

(** ** Responses *)
Section responses.
Context `{JsonCLaws J D}.

Lemma add_fields_object (fields : list (string * J)) (o : J) :
  is_object o -> is_object (add_fields o fields).
Proof.
  revert o; induction fields as [|[k v] r IH]; intros o Ho; simpl; [done|].
  apply IH. by apply add_is.
Qed.

Lemma get_add_fields_ne (fields : list (string * J)) (o : J) (k : string) :
  is_object o -> k ∉ fields.*1 ->
  json_object_object_get (add_fields o fields) k = json_object_object_get o k.
Proof.
  revert o; induction fields as [|[k' v] r IH]; intros o Ho Hk; csimpl in *; [done|].
  apply not_elem_of_cons in Hk as [Hne Hk].
  change (add_fields o ((k', v) :: r)) with (add_fields (json_object_object_add o k' v) r).
  rewrite IH; [|by apply add_is|done]. by apply get_add_ne.
Qed.

Lemma get_add_fields (fields : list (string * J)) (o : J) (k : string) (v : J) :
  is_object o -> NoDup fields.*1 -> (k, v) ∈ fields ->
  json_object_object_get (add_fields o fields) k = Some v.
Proof.
  revert o; induction fields as [|[k' v'] r IH]; intros o Ho Hnd Hin; csimpl in *; [set_solver|].
  apply NoDup_cons in Hnd as [Hk Hnd].
  change (add_fields o ((k', v') :: r)) with (add_fields (json_object_object_add o k' v') r).
  apply elem_of_cons in Hin as [Heq|Hin]; [simplify_eq|apply IH; [by apply add_is|done..]].
  rewrite get_add_fields_ne; [by apply get_add_eq|by apply add_is|done].
Qed.

(** A response carries its result code, under ["return"], and each of its fields. *)
Lemma prepare_fields (result : Z) (pReq : JsonDataCommObj J) (fields : list (string * J)) :
  0 <= result -> NoDup (RPC_NAME_ARG_RESULT_PARAM :: fields.*1) ->
  exists pReq' o name, prepare result pReq fields = Some pReq' /\
    json_resp_obj pReq' = Some o /\ rpc_code pReq' = result /\
    mapper_result pReq' = mapper_result pReq /\ req_id pReq' = req_id pReq /\
    convert_server_result_to_string result = Some name /\
    string_opt (json_object_object_get o RPC_NAME_ARG_RESULT_PARAM) = Some name /\
    (forall k v, (k, v) ∈ fields -> json_object_object_get o k = Some v).
Proof.
  intros Hr [Hret Hnd]%NoDup_cons.
  assert (exists name, convert_server_result_to_string result = Some name) as [name En].
  { unfold convert_server_result_to_string. destruct (Z.geb_spec result Rpc.NONE); [by eexists|].
    destruct (lookup_lt_is_Some_2 rpc_server_result_table (Z.to_nat result)) as [s Hs]; [|by exists s].
    unfold Rpc.NONE in *. simpl. lia. }
  unfold prepare, response_object. rewrite En. simpl. eexists _, _, name.
  pose proof (add_is json_object_new_object RPC_NAME_ARG_RESULT_PARAM
    (json_object_new_string name) new_object_is) as Ho.
  split_and!; try done.
  - rewrite get_add_fields_ne by done. rewrite get_add_eq by apply new_object_is.
    simpl. apply string_of_string.
  - intros k v Hin. by apply get_add_fields.
Qed.

(** A client reads back what a service answered.  Whatever the result code and
    whatever value is attached, the response built for it gives the client that
    code under ["return"], and the attached value under its name: a string
    parameter as it is, an [int] parameter as a text that converts back to it.
    Likewise an [int] parameter of a request is read as the number that was sent. *)
Theorem int_and_result_survive (result : Z) (pReq : JsonDataCommObj J) (name s text : string) (n : Z) :
  0 <= result < Rpc.NONE -> name <> RPC_NAME_ARG_RESULT_PARAM -> int_min <= n <= int_max ->
  (exists r o, prepare_result_string_i result pReq name n = Some r /\ json_resp_obj r = Some o /\
     string_opt (get_opt (Some o) RPC_NAME_ARG_RESULT_PARAM) ≫= convert_string_to_server_result = Some result /\
     atoi <$> string_opt (get_opt (Some o) name) = Some n) /\
  (exists r o, prepare_result_string_s result pReq name s = Some r /\ json_resp_obj r = Some o /\
     string_opt (get_opt (Some o) RPC_NAME_ARG_RESULT_PARAM) ≫= convert_string_to_server_result = Some result /\
     string_opt (get_opt (Some o) name) = Some s) /\
  (forall params o, json_tokener_parse text = Some o -> json_object_object_get o "params" = Some params ->
     is_Some (json_object_get_string params) ->
     json_object_object_get params name = Some (json_object_new_int n) ->
     JSON_STRING_TO_INT text name = Some n).
Proof.
  intros Hr Hne Hn.
  assert (forall code, convert_server_result_to_string result = Some code ->
    convert_string_to_server_result code = Some result) as Hcode.
  { intros code Hc. destruct (code_name_inverse result Hr) as (s' & Hs & ?). by simplify_eq. }
  assert (forall v : J, NoDup (RPC_NAME_ARG_RESULT_PARAM :: [(name, v)].*1)) as Hnd.
  { intros v. csimpl. apply NoDup_cons. split; [set_solver|apply NoDup_singleton]. }
  split_and!.
  - destruct (prepare_fields result pReq [(name, json_object_new_int n)])
      as (r & o & code & E & Eo & _ & _ & _ & Ec & Er & Hf); [lia|apply Hnd|].
    exists r, o. unfold prepare_result_string_i, get_opt. simpl.
    rewrite (Hf name (json_object_new_int n)) by set_solver. simpl. rewrite Er, string_of_int. simpl.
    by rewrite Hcode, atoi_format_d.
  - destruct (prepare_fields result pReq [(name, json_object_new_string s)])
      as (r & o & code & E & Eo & _ & _ & _ & Ec & Er & Hf); [lia|apply Hnd|].
    exists r, o. unfold prepare_result_string_s, get_opt. simpl.
    rewrite (Hf name (json_object_new_string s)) by set_solver. simpl. rewrite Er, string_of_string. simpl.
    by rewrite Hcode.
  - intros params o Ht Hp [t Hps] Hg.
    assert ((255 <=? String.length (format_d n))%nat = false) as Hl.
    { apply Nat.leb_gt. unfold format_d.
      destruct (n <? 0); cbn [String.length]; pose proof (decimal_length 20 n EmptyString);
        pose proof (decimal_length 20 (- n) EmptyString); cbn [String.length] in *; lia. }
    unfold JSON_STRING_TO_INT, param_value, find_single_param, string_opt, get_opt.
    rewrite Ht, Hp. cbn [mbind option_bind Nat.eqb]. rewrite Hps, Hg. cbn [mbind option_bind].
    rewrite string_of_int, Hl, truncate_all. cbn [mbind option_bind]. by rewrite atoi_format_d.
Qed.
End responses.

(** ** A concrete JSON *)

(** Objects, strings and numbers, as an instance of the class for the witnesses. *)
Module Json.
Inductive value := Obj (fields : list (string * value)) | Str (s : string) | Num (n : Z).

Fixpoint set_field (fields : list (string * value)) (k : string) (v : value) : list (string * value) :=
  match fields with
  | [] => [(k, v)]
  | (k', v') :: r => if (k' =? k)%string then (k, v) :: r else (k', v') :: set_field r k v
  end.
Fixpoint get_field (fields : list (string * value)) (k : string) : option value :=
  match fields with
  | [] => None
  | (k', v) :: r => if (k' =? k)%string then Some v else get_field r k
  end.

(** A reader for the texts of the witnesses, with the single quote for strings. *)
Fixpoint until_quote (s : string) : option (string * string) :=
  match s with
  | EmptyString => None
  | String "'" r => Some (EmptyString, r)
  | String c r => match until_quote r with Some (a, b) => Some (String c a, b) | None => None end
  end.
Fixpoint after_digits (s : string) : string :=
  match s with
  | String c r => if digit_of c then after_digits r else s
  | EmptyString => s
  end.
Fixpoint read (fuel : nat) (s : string) : option (value * string) :=
  match fuel with
  | O => None
  | S fuel =>
      match s with
      | String "'" r => match until_quote r with Some (a, b) => Some (Str a, b) | None => None end
      | String "{" r => match read_fields fuel r with Some (f, b) => Some (Obj f, b) | None => None end
      | String "-" r => Some (Num (- digits r 0), after_digits r)
      | String c r => if digit_of c then Some (Num (digits s 0), after_digits s) else None
      | EmptyString => None
      end
  end
with read_fields (fuel : nat) (s : string) : option (list (string * value) * string) :=
  match fuel with
  | O => None
  | S fuel =>
      match s with
      | String "}" r => Some ([], r)
      | String "," r => read_fields fuel r
      | String "'" r =>
          match until_quote r with
          | Some (k, String ":" r) =>
              match read fuel r with
              | Some (v, r) =>
                  match read_fields fuel r with Some (f, b) => Some ((k, v) :: f, b) | None => None end
              | None => None
              end
          | _ => None
          end
      | _ => None
      end
  end.

#[export] Instance concrete : JsonC value Z := {
  json_tokener_parse s := fst <$> read 50 s;
  json_object_object_get o k := match o with Obj f => get_field f k | _ => None end;
  json_object_get_string o :=
    match o with Obj _ => Some "{}"%string | Str s => Some s | Num n => Some (format_d n) end;
  json_object_new_object := Obj [];
  json_object_new_string := Str;
  json_object_new_int := Num;
  json_object_new_int64 := Num;
  json_object_new_double := Num;
  json_object_object_add o k v := match o with Obj f => Obj (set_field f k v) | _ => o end;
  format_f := format_d;
  atof := atoi;
}.

#[export] Instance concrete_laws : JsonCLaws value Z.
Proof.
  refine {| is_object := fun o => match o with Obj _ => True | _ => False end |}; try done.
  - by intros [].
  - intros [f| |] k v Ho; try done. simpl. clear Ho.
    induction f as [|[k' v'] f IH]; simpl; [by rewrite String.eqb_refl|].
    destruct (String.eqb_spec k' k); simpl; [by rewrite String.eqb_refl|].
    by rewrite (proj2 (String.eqb_neq k' k)).
  - intros [f| |] k k2 v Ho Hne; try done. simpl. clear Ho.
    assert ((k =? k2)%string = false) as Hk by by apply String.eqb_neq.
    induction f as [|[k' v'] f IH]; simpl; [by rewrite Hk|].
    destruct (String.eqb_spec k' k) as [->|]; simpl; [by rewrite Hk|].
    by destruct (k' =? k2)%string.
Defined.
End Json.
Import Json.

(** A request that asks for nothing yet. *)
Definition blank_request {J} (text : string) : JsonDataCommObj J :=
  {| req_id := 1; cmd_index := 0; mapper_result := Task.UNKNOWN; rpc_code := Rpc.NOT_STARTED;
     socket_data := text; json_resp_obj := None; custom_result_string := EmptyString; cltport := 0;
     client_ip := EmptyString; sock_id := 0; sock_descr := 0 |}.

Lemma find_single_param_bounded_witness :
  exists r v, find_single_param "{'params':{'a':'hello'}}" "a" 4 = (r, Some v) /\
              (String.length v < 4)%nat /\ v = "hel"%string.
Proof.
  destruct (proj1 (find_single_param_bounded "{'params':{'a':'hello'}}" "a" 4 ltac:(lia)))
    as (r & v & E & Hl & _).
  exists r, v. split; [exact E|]. split; [exact Hl|]. vm_compute in E. congruence.
Defined.

Lemma int_and_result_survive_witness :
  JSON_STRING_TO_INT "{'id':1,'params':{'taskId':-12,'x':7}}" "taskId" = Some (-12).
Proof.
  destruct (int_and_result_survive Rpc.BUSY (blank_request (J := value) EmptyString) "taskId" "a"
    "{'id':1,'params':{'taskId':-12,'x':7}}" (-12)) as (_ & _ & H).
  - vm_compute. split; [discriminate|reflexivity].
  - discriminate.
  - vm_compute. split; discriminate.
  - apply (H (Obj [("taskId"%string, Num (-12)); ("x"%string, Num 7)])
             (Obj [("id"%string, Num 1);
                   ("params"%string, Obj [("taskId"%string, Num (-12)); ("x"%string, Num 7)])])).
    + reflexivity.
    + reflexivity.
    + eexists. reflexivity.
    + reflexivity.
Defined.
