(* ===== verification/Thread.v ===== *)
(** * Threads (ADThread.cpp, ADThread.hpp)

    The threads of the library: started, woken up and stopped from other threads, never
    cancelled.  The steps of the thread function and those of a call that holds
    [ctrl_lock] interleave with wakeups; the theorems say that a call of [stop_thread()]
    returns once the callback did, that nothing runs behind it, and that no wakeup is
    lost. *)
From S2P Require Import Prelude Common.
Open Scope Z_scope.

Inductive THRD_TYPE := THREAD_TYPE_MONOSHOT | THREAD_TYPE_NOBLOCK | THREAD_TYPE_NONE.
#[export] Instance THRD_TYPE_eq_dec : EqDecision THRD_TYPE.
Proof. solve_decision. Defined.
Definition ADTHREAD_STOP_TIMEOUT_MS : Z := 10000.
(** The code [ETIMEDOUT] of Linux. *)
Definition ETIMEDOUT : Z := 110.

(** Where [my_thread_func()] is: at the condition of its loop, in [sem_wait()], at the
    second look at the state, in the callback, behind a callback that returned on its own,
    at the last store, and behind it.  A callback may call [stop_thread()] and
    [start_thread()] of its own thread: it waits for [ctrl_lock], or for itself. *)
Inductive thread_pc :=
| TLoop | TWait | TRecheck | TCallback | TReturned | TFinish | TExit
| TSelfStop | TSelfStart | TSelfJoin.
#[export] Instance thread_pc_eq_dec : EqDecision thread_pc.
Proof. solve_decision. Defined.

(** Where the call is that holds [ctrl_lock]; [join_thread()] has its bound, its start and
    the time of its next message. *)
Inductive ctl_pc :=
| StartChecks
| StartJoin (next_log : Z)
| StartDrain
| StartActive
| StartFinished
| StartCreate
| StartDone
| StopChecks (max_wait_ms : Z)
| StopInactive (max_wait_ms : Z)
| StopPost (max_wait_ms : Z)
| StopJoin (max_wait_ms start next_log : Z)
| HeldBySelf.
#[export] Instance ctl_pc_eq_dec : EqDecision ctl_pc.
Proof. solve_decision. Defined.

(** [class ADThread]: [active] is the state, [consumer] whether a callback is attached,
    [thread] the pthread that exists, [ctl] the call that holds [ctrl_lock].  Counted for
    the statements: the wakeups and the callbacks since the semaphore was drained, and the
    messages of [join_thread()]. *)
Record ADThread := {
  th_type : THRD_TYPE;
  init_flag : bool;
  active : bool;
  started : bool;
  finished : bool;
  stop_timeout_ms : Z;
  one_shot_sema : Z;
  consumer : bool;
  thread : option thread_pc;
  ctl : option ctl_pc;
  woken : Z;
  begun : Z;
  logged : Z;
}.

(** [init_common()] with the constructors. *)
Definition new_ADThread (type : option THRD_TYPE) : ADThread :=
  {| th_type := default THREAD_TYPE_NONE type; init_flag := bool_decide (is_Some type); active := false; started := false;
     finished := true; stop_timeout_ms := ADTHREAD_STOP_TIMEOUT_MS; one_shot_sema := 0; consumer := false; thread := None;
     ctl := None; woken := 0; begun := 0; logged := 0 |}.

Section setters.
Implicit Types t : ADThread.
Definition with_active t (b : bool) : ADThread :=
  {| th_type := th_type t; init_flag := init_flag t; active := b; started := started t; finished := finished t;
     stop_timeout_ms := stop_timeout_ms t; one_shot_sema := one_shot_sema t; consumer := consumer t; thread := thread t;
     ctl := ctl t; woken := woken t; begun := begun t; logged := logged t |}.
Definition with_started t (b : bool) : ADThread :=
  {| th_type := th_type t; init_flag := init_flag t; active := active t; started := b; finished := finished t;
     stop_timeout_ms := stop_timeout_ms t; one_shot_sema := one_shot_sema t; consumer := consumer t; thread := thread t;
     ctl := ctl t; woken := woken t; begun := begun t; logged := logged t |}.
Definition with_finished t (b : bool) : ADThread :=
  {| th_type := th_type t; init_flag := init_flag t; active := active t; started := started t; finished := b;
     stop_timeout_ms := stop_timeout_ms t; one_shot_sema := one_shot_sema t; consumer := consumer t; thread := thread t;
     ctl := ctl t; woken := woken t; begun := begun t; logged := logged t |}.
Definition with_sema t (n woke calls : Z) : ADThread :=
  {| th_type := th_type t; init_flag := init_flag t; active := active t; started := started t; finished := finished t;
     stop_timeout_ms := stop_timeout_ms t; one_shot_sema := n; consumer := consumer t; thread := thread t;
     ctl := ctl t; woken := woke; begun := calls; logged := logged t |}.
Definition with_thread t (pc : option thread_pc) : ADThread :=
  {| th_type := th_type t; init_flag := init_flag t; active := active t; started := started t; finished := finished t;
     stop_timeout_ms := stop_timeout_ms t; one_shot_sema := one_shot_sema t; consumer := consumer t; thread := pc;
     ctl := ctl t; woken := woken t; begun := begun t; logged := logged t |}.
Definition with_ctl t (c : option ctl_pc) : ADThread :=
  {| th_type := th_type t; init_flag := init_flag t; active := active t; started := started t; finished := finished t;
     stop_timeout_ms := stop_timeout_ms t; one_shot_sema := one_shot_sema t; consumer := consumer t; thread := thread t;
     ctl := c; woken := woken t; begun := begun t; logged := logged t |}.
Definition with_setup t (type : THRD_TYPE) (init : bool) (attached : bool) (timeout logs : Z) : ADThread :=
  {| th_type := type; init_flag := init; active := active t; started := started t; finished := finished t;
     stop_timeout_ms := timeout; one_shot_sema := one_shot_sema t; consumer := attached; thread := thread t;
     ctl := ctl t; woken := woken t; begun := begun t; logged := logs |}.
End setters.

(** ** Calls without the lock *)

Definition set_thread_properties (t : ADThread) (type : THRD_TYPE) : Z * ADThread :=
  (0, with_setup t type true (consumer t) (stop_timeout_ms t) (logged t)).
(** [subscribe_thread_callback()]: the first consumer stays. *)
Definition subscribe_thread_callback (t : ADThread) (id : Z) : Z * ADThread :=
  if consumer t then (-1, t) else (id, with_setup t (th_type t) (init_flag t) true (stop_timeout_ms t) (logged t)).
Definition set_stop_timeout (t : ADThread) (timeout_ms : Z) : ADThread :=
  with_setup t (th_type t) (init_flag t) (consumer t) timeout_ms (logged t).
Definition stop_requested (t : ADThread) : bool := negb (active t).
Definition is_running (t : ADThread) : bool := negb (stop_requested t).
Definition wakeup_thread (t : ADThread) : Z * ADThread :=
  (0, if decide (th_type t = THREAD_TYPE_MONOSHOT) then with_sema t (one_shot_sema t + 1) (woken t + 1) (begun t) else t).

(** ** The thread *)

Definition goto (t : ADThread) (pc : thread_pc) : option ADThread := Some (with_thread t (Some pc)).
(** The callback begins, if one is attached; otherwise the thread goes on at [pc]. *)
Definition call_back (t : ADThread) (pc : thread_pc) : option ADThread :=
  if consumer t then Some (with_thread (with_sema t (one_shot_sema t) (woken t) (begun t + 1)) (Some TCallback)) else goto t pc.
(** A step of [my_thread_func()]; [interrupted] says that [sem_wait()] returns with EINTR.
    [None] when the thread waits, is in the callback, or has returned. *)
Definition my_thread_func (t : ADThread) (interrupted : bool) : option ADThread :=
  match thread t with
  | Some TLoop =>
      if negb (active t) then goto t TFinish
      else if decide (th_type t = THREAD_TYPE_MONOSHOT) then goto t TWait
      else call_back t TReturned
  | Some TWait =>
      if interrupted then goto t TLoop
      else if one_shot_sema t >? 0 then goto (with_sema t (one_shot_sema t - 1) (woken t) (begun t)) TRecheck
      else None
  | Some TRecheck => if active t then call_back t TLoop else goto t TFinish
  | Some TReturned => goto (with_active t false) TFinish
  | Some TFinish => goto (with_finished t true) TExit
  | _ => None
  end.
(** The callback returns. *)
Definition callback_returns (t : ADThread) : option ADThread :=
  match thread t with
  | Some TCallback => goto t (if decide (th_type t = THREAD_TYPE_MONOSHOT) then TLoop else TReturned)
  | _ => None
  end.
(** The calls a callback makes to its own thread: it waits for the lock, and then either
    only asks for the stop, or finds itself running, or joins itself. *)
Definition callback_calls (t : ADThread) (call : thread_pc) : option ADThread :=
  match thread t with Some TCallback => goto t call | _ => None end.
Definition self_call (t : ADThread) : option ADThread :=
  match thread t, ctl t with
  | Some TSelfStop, None => goto (if started t then with_active t false else t) TCallback
  | Some TSelfStart, None =>
      if negb (init_flag t) then goto t TCallback
      else if started t && active t then goto t TCallback
      else if started t then Some (with_ctl (with_thread t (Some TSelfJoin)) (Some HeldBySelf))
      else None
  | _, _ => None
  end.

(** ** Calls under the lock *)

(** One round of [join_thread()] at the time [now]: the thread has returned and is joined,
    or the bound is over, or the wait goes on with the time of the next message.  One
    reading of the clock stands for the two of a round. *)
Inductive join_round := Joined (t : ADThread) | TimedOut | Waiting (next_log : Z) (t : ADThread).
Definition join_thread (t : ADThread) (max_wait_ms start next_log now : Z) : option join_round :=
  if finished t then match thread t with Some TExit => Some (Joined (with_thread t None)) | _ => None end
  else if (0 <=? max_wait_ms) && (now - start >=? max_wait_ms) then Some TimedOut
  else if stop_timeout_ms t <=? 0 then Some (Waiting next_log t)
  else if now >=? next_log
  then Some (Waiting (now + stop_timeout_ms t) (with_setup t (th_type t) (init_flag t) (consumer t) (stop_timeout_ms t) (logged t + 1)))
  else Some (Waiting next_log t).
Definition first_log (t : ADThread) (now : Z) : Z := now + (if stop_timeout_ms t >? 0 then stop_timeout_ms t else 0).

Definition at_ctl (t : ADThread) (c : ctl_pc) : option (option Z * ADThread) := Some (None, with_ctl t (Some c)).
Definition unlock (t : ADThread) (ret : Z) : option (option Z * ADThread) := Some (Some ret, with_ctl t None).

(** A step of [start_thread()] behind its first check; [created] is the result of
    [pthread_create()]. *)
Definition start_step (t : ADThread) (now : Z) (created : bool) : option (option Z * ADThread) :=
  match ctl t with
  | Some StartChecks =>
      if started t then if active t then unlock t (-1) else at_ctl t (StartJoin (first_log t now))
      else at_ctl t StartDrain
  | Some (StartJoin next_log) =>
      match join_thread t (-1) now next_log now with
      | Some (Joined t) => at_ctl (with_started t false) StartDrain
      | Some (Waiting next_log t) => at_ctl t (StartJoin next_log)
      | _ => None
      end
  | Some StartDrain =>
      if one_shot_sema t >? 0 then at_ctl (with_sema t (one_shot_sema t - 1) (woken t) (begun t)) StartDrain
      else at_ctl (with_sema t (one_shot_sema t) 0 0) StartActive
  | Some StartActive => at_ctl (with_active t true) StartFinished
  | Some StartFinished => at_ctl (with_finished t false) StartCreate
  | Some StartCreate =>
      if created then at_ctl (with_thread t (Some TLoop)) StartDone
      else unlock (with_active (with_finished t true) false) (-1)
  | Some StartDone => unlock (with_started t true) 0
  | _ => None
  end.
(** A step of [stop_thread(max_wait_ms)] called by another thread. *)
Definition stop_step (t : ADThread) (now : Z) : option (option Z * ADThread) :=
  match ctl t with
  | Some (StopChecks w) => if negb (started t) then unlock t (-1) else at_ctl t (StopInactive w)
  | Some (StopInactive w) => at_ctl (with_active t false) (StopPost w)
  | Some (StopPost w) =>
      let t := if decide (th_type t = THREAD_TYPE_MONOSHOT) then with_sema t (one_shot_sema t + 1) (woken t) (begun t) else t in
      at_ctl t (StopJoin w now (first_log t now))
  | Some (StopJoin w start next_log) =>
      match join_thread t w start next_log now with
      | Some (Joined t) => unlock (with_started t false) 0
      | Some TimedOut => unlock t ETIMEDOUT
      | Some (Waiting next_log t) => at_ctl t (StopJoin w start next_log)
      | None => None
      end
  | _ => None
  end.

(** ** All together *)

(** What happens: another thread calls, or its call goes on; the thread goes on; its
    callback returns or calls; somebody wakes the thread up.  The properties are set and
    the callback is attached while there is no thread, as all classes do that have one. *)
Inductive action :=
| CallStart | CallStop (max_wait_ms : Z) | CtlStep (now : Z) (created : bool)
| ThreadStep (interrupted : bool) | CallbackReturns | CallbackStops | CallbackStarts | SelfCall
| Wakeup | Properties (type : THRD_TYPE) | Subscribe.

Definition silently (t : option ADThread) : option (option Z * ADThread) := (fun t => (None, t)) <$> t.
Definition step (t : ADThread) (a : action) : option (option Z * ADThread) :=
  match a with
  | CallStart => if negb (init_flag t) then Some (Some (-1), t)
                 else if decide (ctl t = None) then at_ctl t StartChecks else None
  | CallStop w => if decide (ctl t = None) then at_ctl t (StopChecks w) else None
  | CtlStep now created => match start_step t now created with Some r => Some r | None => stop_step t now end
  | ThreadStep interrupted => silently (my_thread_func t interrupted)
  | CallbackReturns => silently (callback_returns t)
  | CallbackStops => silently (callback_calls t TSelfStop)
  | CallbackStarts => silently (callback_calls t TSelfStart)
  | SelfCall => silently (self_call t)
  | Wakeup => Some (None, (wakeup_thread t).2)
  | Properties type =>
      if started t || negb (bool_decide (ctl t = None)) then None else Some (None, (set_thread_properties t type).2)
  | Subscribe =>
      if started t || negb (bool_decide (ctl t = None)) then None else Some (None, (subscribe_thread_callback t 0).2)
  end.

(** A schedule: the codes the calls returned, and the state. *)
Fixpoint run (t : ADThread) (l : list action) : option (list Z * ADThread) :=
  match l with
  | [] => Some ([], t)
  | a :: l =>
      '(r, t) ← step t a;
      '(rs, t) ← run t l;
      Some (match r with Some r => r :: rs | None => rs end, t)
  end.
Inductive reachable : ADThread -> Prop :=
| reachable_new type : reachable (new_ADThread type)
| reachable_step t a r t' : reachable t -> step t a = Some (r, t') -> reachable t'.

(** ** Invariants *)

(** What the call that holds the lock relies on. *)
Definition ctl_ok (t : ADThread) : Prop :=
  match ctl t with
  | Some StartDone => started t = false /\ thread t <> None
  | Some (StartFinished | StartCreate) => started t = false /\ thread t = None /\ active t = true
  | Some (StartDrain | StartActive) => started t = false /\ thread t = None /\ active t = false
  | Some (StartJoin _ | StopPost _ | StopJoin _ _ _) => started t = true /\ thread t <> None /\ active t = false
  | Some (StopInactive _) => started t = true /\ thread t <> None
  | Some HeldBySelf => started t = true /\ thread t = Some TSelfJoin
  | Some (StartChecks | StopChecks _) | None =>
      if started t then thread t <> None else thread t = None /\ active t = false
  end.
(** [finished] says that there is no thread, or that it is behind its last access. *)
Definition finished_ok (t : ADThread) : Prop :=
  finished t = match thread t with
               | None => match ctl t with Some StartCreate => false | _ => true end
               | Some TExit => true
               | Some _ => false
               end.
(** Where the thread may be. *)
Definition thread_ok (t : ADThread) : Prop :=
  match thread t with
  | Some (TFinish | TExit) => active t = false
  | Some TWait => th_type t = THREAD_TYPE_MONOSHOT /\
      (active t = true \/ 0 < one_shot_sema t \/ match ctl t with Some (StopPost _) => True | _ => False end)
  | Some TRecheck => th_type t = THREAD_TYPE_MONOSHOT
  | Some TReturned => th_type t <> THREAD_TYPE_MONOSHOT
  | Some TSelfJoin => ctl t = Some HeldBySelf
  | _ => True
  end.
(** Every wakeup since the start is in the semaphore or was given to a callback. *)
Definition woken_ok (t : ADThread) : Prop :=
  th_type t = THREAD_TYPE_MONOSHOT -> consumer t = true ->
  (active t = true \/ ctl t = Some StartActive) ->
  woken t = begun t + one_shot_sema t + match thread t with Some TRecheck => 1 | _ => 0 end.
Record ok (t : ADThread) : Prop := {
  o_sema : 0 <= one_shot_sema t;
  o_ctl : ctl_ok t;
  o_finished : finished_ok t;
  o_thread : thread_ok t;
  o_woken : woken_ok t;
}.

Ltac unfold_ok := unfold ctl_ok, finished_ok, thread_ok, woken_ok in *.
Ltac state_cases t := destruct t as [ty ini act sta fin tmo sem con th c wo be lo]; simpl in *; unfold_ok; simpl in *.

Ltac settle := simpl in *; destruct_and?; first [done | congruence | tauto | lia | intuition (congruence || lia)].

Lemma thread_step_ok t i t' : ok t -> my_thread_func t i = Some t' -> ok t'.
Proof.
  intros [Hs Hc Hf Ht Hw] E. state_cases t. unfold my_thread_func, call_back, goto in E. simpl in E.
  destruct th as [[]|]; try discriminate E.
  all: destruct act, i, con; simpl in E; repeat case_decide; try (destruct (Z.gtb_spec sem 0)); simplify_eq.
  all: constructor; unfold_ok; simpl in *; try lia.
  all: destruct c as [[]|], sta; settle.
Qed.

Lemma callback_step_ok t pc t' :
  ok t -> (callback_returns t = Some t' \/ (pc = TSelfStop \/ pc = TSelfStart) /\ callback_calls t pc = Some t') -> ok t'.
Proof.
  intros [Hs Hc Hf Ht Hw] E. state_cases t. unfold callback_returns, callback_calls, goto in E. simpl in E.
  destruct th as [[]|]; try (destruct E as [E|[_ E]]; discriminate E).
  assert (exists pc', t' = with_thread {| th_type := ty; init_flag := ini; active := act; started := sta; finished := fin; stop_timeout_ms := tmo;
    one_shot_sema := sem; consumer := con; thread := Some TCallback; ctl := c; woken := wo; begun := be; logged := lo |} (Some pc') /\
    match pc' with TLoop | TSelfStop | TSelfStart => True | TReturned => ty <> THREAD_TYPE_MONOSHOT | _ => False end) as (pc' & -> & Hpc).
  { destruct E as [[= <-]|[[-> | ->] [= <-]]]; eexists; split; try reflexivity; try done. by case_decide. }
  destruct pc'; try done; constructor; unfold_ok; simpl in *; try lia; destruct c as [[]|], sta; settle.
Qed.

Lemma self_step_ok t t' : ok t -> self_call t = Some t' -> ok t'.
Proof.
  intros [Hs Hc Hf Ht Hw] E. state_cases t. unfold self_call, goto in E. simpl in E.
  destruct th as [[]|], c as [c|]; try discriminate E; destruct ini, sta, act; simpl in E; try discriminate E; simplify_eq;
    constructor; unfold_ok; simpl in *; try lia; settle.
Qed.

Lemma start_step_ok t now created r t' : ok t -> start_step t now created = Some (r, t') -> ok t'.
Proof.
  intros [Hs Hc Hf Ht Hw] E. state_cases t. unfold start_step, join_thread, at_ctl, unlock in E. simpl in E.
  destruct c as [[]|]; try discriminate E.
  all: simpl in *; destruct_and?; subst.
  all: try destruct sta; try destruct act; try (destruct (Z.gtb_spec sem 0)); try destruct created; simpl in *; destruct_and?;
    try done; repeat case_match; simplify_eq; constructor; unfold_ok; settle.
Qed.

Lemma stop_step_ok t now r t' : ok t -> stop_step t now = Some (r, t') -> ok t'.
Proof.
  intros [Hs Hc Hf Ht Hw] E. state_cases t. unfold stop_step, join_thread, at_ctl, unlock in E. simpl in E.
  destruct c as [[]|]; try discriminate E.
  all: simpl in *; destruct_and?; subst.
  all: try destruct sta; simpl in *; destruct_and?; try done; repeat case_match; simplify_eq; constructor; unfold_ok; settle.
Qed.

Lemma any_step_ok t a r t' : ok t -> step t a = Some (r, t') -> ok t'.
Proof.
  intros Ho E. destruct a; simpl in E; unfold silently in E.
  - destruct (negb _); [by simplify_eq|]. case_decide as Hn; [|done]. unfold at_ctl in E. simplify_eq. destruct Ho as [Hs Hc Hf Ht Hw].
    state_cases t. subst. destruct th as [[]|], sta; constructor; unfold_ok; settle.
  - case_decide as Hn; [|done]. unfold at_ctl in E. simplify_eq. destruct Ho as [Hs Hc Hf Ht Hw].
    state_cases t. subst. destruct th as [[]|], sta; constructor; unfold_ok; settle.
  - destruct (start_step _ _ _) as [[r' t1]|] eqn:Es; simplify_eq; [by eapply start_step_ok|by eapply stop_step_ok].
  - apply fmap_Some in E as (t1 & E & [= -> ->]). by eapply thread_step_ok.
  - apply fmap_Some in E as (t1 & E & [= -> ->]). apply (callback_step_ok t TSelfStop); by auto.
  - apply fmap_Some in E as (t1 & E & [= -> ->]). apply (callback_step_ok t TSelfStop); by auto.
  - apply fmap_Some in E as (t1 & E & [= -> ->]). apply (callback_step_ok t TSelfStart); by auto.
  - apply fmap_Some in E as (t1 & E & [= -> ->]). by eapply self_step_ok.
  - simplify_eq. destruct Ho as [Hs Hc Hf Ht Hw]. unfold wakeup_thread. simpl. case_decide; [|done].
    state_cases t. constructor; unfold_ok; simpl; try lia; try done; destruct th as [[]|], c as [[]|]; settle.
  - destruct (started t) eqn:Est, (bool_decide_reflect (ctl t = None)) as [Hn|]; simpl in E; try discriminate E. simplify_eq.
    destruct Ho as [Hs Hc Hf Ht Hw]. state_cases t. subst. destruct_and?; subst. constructor; unfold_ok; settle.
  - destruct (started t) eqn:Est, (bool_decide_reflect (ctl t = None)) as [Hn|]; simpl in E; try discriminate E. simplify_eq.
    unfold subscribe_thread_callback. destruct (consumer t) eqn:Econ; [done|].
    destruct Ho as [Hs Hc Hf Ht Hw]. state_cases t. subst. destruct_and?; subst. constructor; unfold_ok; settle.
Qed.

Lemma thread_reachable_ok t : reachable t -> ok t.
Proof. induction 1 as [type|t a r t' _ IH E]; [by constructor|by eapply any_step_ok]. Qed.

(** ** One thread at a time *)

(** In every interleaving, [pthread_create()] is called only when there is no thread,
    so no thread is lost without a join; [finished] is set exactly while no thread is going
    to use the object any more, and it alone lets [pthread_join()] go ahead; a thread
    exists or is being made whenever the state is active, and a thread that leaves its
    loop leaves the state inactive, so that [start_thread()] starts it again. *)
Theorem one_thread t :
  reachable t ->
  (ctl t = Some StartCreate -> thread t = None) /\
  (finished t = true <-> (thread t = None /\ ctl t <> Some StartCreate) \/ thread t = Some TExit) /\
  (active t = true -> thread t <> None \/ ctl t = Some StartFinished \/ ctl t = Some StartCreate) /\
  (thread t = Some TFinish \/ thread t = Some TExit -> stop_requested t = true) /\
  (started t = true -> thread t <> None).
Proof.
  intros [Hs Hc Hf Ht Hw]%thread_reachable_ok. unfold stop_requested. state_cases t. split_and!.
  - intros ->. by destruct Hc as (_ & ? & _).
  - destruct th as [[]|], c as [[]|]; subst; settle.
  - intros ->. destruct th as [pc|]; [by left|right]. destruct c as [[]|]; try destruct sta; settle.
  - intros [-> | ->]; by rewrite Ht.
  - intros ->. destruct c as [[]|]; settle.
Qed.

(** Once the properties are set they stay set. *)
Lemma init_kept t a r t' : step t a = Some (r, t') -> init_flag t = true -> init_flag t' = true.
Proof.
  intros E Hi. destruct a; simpl in E; unfold silently, my_thread_func, callback_returns, callback_calls, self_call, call_back,
    start_step, stop_step, join_thread, goto, at_ctl, unlock, wakeup_thread, set_thread_properties, subscribe_thread_callback in E;
    repeat case_match; simplify_eq/=; try done; repeat case_match; simplify_eq/=; done.
Qed.
(** ** Stopping *)

(** The callback is not in a call of its own thread. *)
Definition own_call (t : ADThread) : bool :=
  match thread t with Some (TSelfStop | TSelfStart | TSelfJoin) => true | _ => false end.
(** What may happen meanwhile: anything but a callback that calls its own thread; other
    calls wait for the lock. *)
Definition quiet (a : action) : bool := match a with CallbackStops | CallbackStarts => false | _ => true end.
Definition moves (a : action) : nat := match a with ThreadStep _ | CallbackReturns => 1 | _ => 0 end.
(** How many steps the thread still makes, the return of its callback among them. *)
Definition steps_left (t : ADThread) : nat :=
  match thread t with
  | Some (TWait | TCallback) => 3
  | Some (TLoop | TReturned | TRecheck) => 2
  | Some TFinish => 1
  | _ => 0
  end.
Definition rounds (a : action) : nat := match a with CtlStep _ _ => 1 | _ => 0 end.
(** A call of [stop_thread()] by another thread: the steps it makes until it waits in
    [join_thread()], and its bound. *)
Definition stop_at (t : ADThread) : option (nat * Z) :=
  match ctl t with
  | Some (StopChecks w) => Some (3%nat, w)
  | Some (StopInactive w) => Some (2%nat, w)
  | Some (StopPost w) => Some (1%nat, w)
  | Some (StopJoin w _ _) => Some (0%nat, w)
  | _ => None
  end.
Definition joining (t : ADThread) (w : Z) : Prop :=
  (exists start next_log, ctl t = Some (StopJoin w start next_log)) /\ own_call t = false.

Lemma joining_active t w : ok t -> joining t w -> active t = false /\ thread t <> None.
Proof. intros [Hs Hc Hf Ht Hw] [(start & nl & E) Hown]. unfold ctl_ok in Hc. rewrite E in Hc. by destruct Hc as (_ & ? & ?). Qed.

(** A step while a call waits in [join_thread()]: the call returns, or the thread is
    nearer to its end. *)
Lemma joining_step t w a r t' :
  ok t -> init_flag t = true -> joining t w -> quiet a = true -> step t a = Some (r, t') ->
  match r with
  | Some code => (code = 0 /\ finished t = true \/ 0 <= w /\ code = ETIMEDOUT) /\ moves a = 0%nat
  | None => joining t' w /\ (steps_left t' + moves a <= steps_left t)%nat
  end.
Proof.
  intros Ho Hi Hj Hq E. pose proof (joining_active t w Ho Hj) as [Ha Hth]. destruct Hj as [(start & nl & Ec) Hown].
  destruct Ho as [Hs Hc Hf Ht Hw]. destruct a; try discriminate Hq; simpl in E; unfold silently in E.
  - rewrite Hi, Ec in E. by case_decide.
  - rewrite Ec in E. by case_decide.
  - assert (start_step t now created = None) as Es by (unfold start_step; by rewrite Ec). rewrite Es in E.
    unfold stop_step in E. rewrite Ec in E. unfold join_thread, unlock, at_ctl in E.
    destruct (finished t) eqn:Ef; [destruct (thread t) as [[]|] eqn:Eth; try discriminate E; simplify_eq; by auto|].
    destruct (Z.leb_spec 0 w); cbn [andb] in E.
    1: destruct (_ >=? w); [simplify_eq; by auto|].
    all: repeat case_match; simplify_eq; (split; [split; [by eexists _, _|exact Hown]|unfold steps_left; simpl; lia]).
  - apply fmap_Some in E as (t1 & E & [= -> ->]). unfold my_thread_func, call_back, goto in E. unfold own_call in Hown.
    unfold joining, own_call, steps_left. destruct (thread t) as [[]|] eqn:Eth; try discriminate E; rewrite ?Ha in E; simpl in E;
      repeat case_match; simplify_eq; simpl; (split; [split; [by eexists _, _|done]|lia]).
  - apply fmap_Some in E as (t1 & E & [= -> ->]). unfold callback_returns, goto in E.
    unfold joining, own_call, steps_left. destruct (thread t) as [[]|] eqn:Eth; try discriminate E. simplify_eq. simpl.
    split; [split; [by eexists _, _|by case_decide]|]. case_decide; lia.
  - apply fmap_Some in E as (t1 & E & [= -> ->]). unfold self_call in E. rewrite Ec in E. by destruct (thread t) as [[]|].
  - simplify_eq. unfold wakeup_thread. simpl. case_decide; simpl; (split; [split; [by eexists _, _|exact Hown]|unfold steps_left; simpl; lia]).
  - rewrite (bool_decide_eq_false_2 (ctl t = None)) in E by congruence. by rewrite orb_true_r in E.
  - rewrite (bool_decide_eq_false_2 (ctl t = None)) in E by congruence. by rewrite orb_true_r in E.
Qed.

Lemma joining_run t w l rs t' :
  reachable t -> init_flag t = true -> joining t w -> forallb quiet l = true -> run t l = Some (rs, t') ->
  (exists code rest, rs = code :: rest /\ (code = 0 \/ 0 <= w /\ code = ETIMEDOUT)) \/
  (rs = [] /\ reachable t' /\ joining t' w /\ (steps_left t' + sum_list_with moves l <= steps_left t)%nat).
Proof.
  revert t rs. induction l as [|a l IH]; intros t rs Hr Hi Hj Hq E; simpl in *.
  - simplify_eq. right. split_and!; [done..|lia].
  - apply andb_true_iff in Hq as [Hqa Hq]. destruct (step t a) as [[r t1]|] eqn:Es; simpl in E; [|done].
    destruct (run t1 l) as [[rs1 t2]|] eqn:Er; simpl in E; [|done]. simplify_eq.
    pose proof (joining_step t w a r t1 (thread_reachable_ok t Hr) Hi Hj Hqa Es) as Hstep.
    pose proof (init_kept t a r t1 Es Hi) as Hi1.
    assert (reachable t1) as Hr1 by (by eapply reachable_step). destruct r as [code|].
    + left. exists code, rs1. split; [done|]. destruct Hstep as [[[-> _]|[? ->]] _]; auto.
    + destruct Hstep as [Hj1 Hm]. destruct (IH t1 rs1 Hr1 Hi1 Hj1 Hq Er) as [Hl|(-> & ? & ? & Hl)]; [by left|].
      right. split_and!; [done..|lia].
Qed.

(** A thread that has not finished can make its next step. *)
Lemma joining_progress t w :
  ok t -> joining t w -> finished t = false -> exists a r t', moves a = 1%nat /\ quiet a = true /\ step t a = Some (r, t').
Proof.
  intros Ho Hj Hf. pose proof (joining_active t w Ho Hj) as [Ha Hth]. destruct Hj as [(start & nl & Ec) Hown].
  destruct Ho as [Hs Hc Hfin Ht Hw]. unfold finished_ok in Hfin. unfold thread_ok in Ht. unfold own_call in Hown.
  destruct (thread t) as [[]|] eqn:Eth; try done; try congruence.
  4: { exists CallbackReturns. eexists _, _. simpl. unfold callback_returns. rewrite Eth. by split_and!. }
  all: exists (ThreadStep false); simpl; unfold my_thread_func; rewrite Eth, ?Ha; simpl.
  all: try (eexists _, _; split_and!; reflexivity).
  rewrite Ec, Ha in Ht. destruct Ht as [_ [?|[Hsem|[]]]]; [done|]. destruct (Z.gtb_spec (one_shot_sema t) 0); [|lia].
  eexists _, _; split_and!; reflexivity.
Qed.

(** A thread that made its last steps is joined in the next round. *)
Lemma joined_next t1 t' w :
  reachable t' -> joining t' w -> (steps_left t' + 3 <= steps_left t1)%nat -> forall now created, exists t'',
    step t' (CtlStep now created) = Some (Some 0, t'') /\ thread t'' = None /\ started t'' = false.
Proof.
  intros Hr' Hj' Hl.
  assert (steps_left t1 <= 3)%nat as Hleft by (unfold steps_left; repeat case_match; lia).
  assert (steps_left t' = 0)%nat as Hzero by lia.
  pose proof (thread_reachable_ok t' Hr') as Ho. pose proof (joining_active t' w Ho Hj') as [Ha Hth]. destruct Hj' as [(st & nl & Ec') Hown'].
  assert (thread t' = Some TExit) as Hexit.
  { unfold steps_left in Hzero. unfold own_call in Hown'. by destruct (thread t') as [[]|]. }
  destruct Ho as [_ _ Hf _ _]. unfold finished_ok in Hf. rewrite Hexit in Hf. intros now created.
  simpl. unfold start_step, stop_step, join_thread. rewrite Ec', Hf, Hexit. by eexists.
Qed.

Lemma thread_func_moves t interrupted t' :
  my_thread_func t interrupted = Some t' -> ctl t' = ctl t /\ started t' = started t /\ own_call t' = false.
Proof.
  unfold my_thread_func, call_back, goto, own_call. destruct (thread t) as [[]|]; try discriminate; intros E;
    repeat case_match; simplify_eq/=; by split_and!.
Qed.

(** Before it waits, every round of the call is possible, and brings it nearer. *)
Lemma stopping_step t n w a r t' :
  ok t -> init_flag t = true -> stop_at t = Some (S n, w) -> own_call t = false -> quiet a = true ->
  step t a = Some (r, t') ->
  match r with
  | Some code => code = -1 /\ started t = false
  | None => stop_at t' = Some ((S n - rounds a)%nat, w) /\ own_call t' = false /\ started t' = started t
  end.
Proof.
  intros Ho Hi Hn Hown Hq E. assert (ctl t <> None) as Hctl by (intros Ec; unfold stop_at in Hn; by rewrite Ec in Hn).
  destruct Ho as [Hs Hc Hf Ht Hw]. unfold stop_at in *. unfold own_call in *.
  destruct a; try discriminate Hq; simpl in E; unfold silently in E; cbn [rounds]; rewrite ?Nat.sub_0_r.
  - rewrite Hi in E. by case_decide.
  - by case_decide.
  - unfold start_step, stop_step, unlock, at_ctl in E.
    destruct (ctl t) as [[]|] eqn:Ec; try discriminate Hn; simplify_eq/=.
    + destruct (started t) eqn:Est; simplify_eq/=; by auto.
    + done.
    + by case_decide.
  - apply fmap_Some in E as (t1 & E & [= -> ->]). destruct (thread_func_moves t interrupted t1 E) as (-> & Hst & Hown1). by split_and!.
  - apply fmap_Some in E as (t1 & E & [= -> ->]). unfold callback_returns, goto in E.
    destruct (thread t) as [[]|] eqn:Eth; try discriminate E. simplify_eq/=. split_and!; [done|by case_decide|done].
  - apply fmap_Some in E as (t1 & E & [= -> ->]). unfold self_call in E.
    destruct (thread t) as [[]|], (ctl t) as [c|]; done.
  - simplify_eq. unfold wakeup_thread. simpl. case_decide; done.
  - rewrite (bool_decide_eq_false_2 (ctl t = None)) in E by congruence. by rewrite orb_true_r in E.
  - rewrite (bool_decide_eq_false_2 (ctl t = None)) in E by congruence. by rewrite orb_true_r in E.
Qed.

(** What a call of [stop_thread(w)] on [t] may return. *)
Definition stop_code t (w code : Z) : Prop :=
  code = -1 /\ started t = false \/ code = 0 \/ 0 <= w /\ code = ETIMEDOUT.

Lemma stopping_run t n w l rs t' :
  reachable t -> init_flag t = true -> stop_at t = Some (n, w) -> own_call t = false ->
  forallb quiet l = true -> run t l = Some (rs, t') ->
  (exists code rest, rs = code :: rest /\ stop_code t w code) \/
  (rs = [] /\ reachable t' /\ init_flag t' = true /\ stop_at t' = Some ((n - sum_list_with rounds l)%nat, w) /\
   own_call t' = false).
Proof.
  revert t n rs. induction l as [|a l IH]; intros t n rs Hr Hi Hn Hown Hq E; simpl in *.
  - simplify_eq. right. rewrite Nat.sub_0_r. by split_and!.
  - apply andb_true_iff in Hq as [Hqa Hq]. destruct (step t a) as [[r t1]|] eqn:Es; simpl in E; [|done].
    destruct (run t1 l) as [[rs1 t2]|] eqn:Er; simpl in E; [|done]. simplify_eq.
    assert (match r with
            | Some code => stop_code t w code
            | None => stop_at t1 = Some ((n - rounds a)%nat, w) /\ own_call t1 = false /\
                (started t1 = false -> started t = false)
            end) as Hstep.
    { destruct n as [|n].
      - assert (joining t w) as Hj.
        { split; [|exact Hown]. unfold stop_at in Hn. destruct (ctl t) as [[]|]; simplify_eq. by eexists _, _. }
        pose proof (joining_step t w a r t1 (thread_reachable_ok t Hr) Hi Hj Hqa Es) as H. destruct r as [code|].
        + destruct H as [[[-> _]|[? ->]] _]; [by right; left|by right; right].
        + destruct H as [[(st & nl & Ec) Ho1] _]. unfold stop_at. rewrite Ec. split_and!; [done|done|].
          intros Hst. pose proof (thread_reachable_ok t1 ltac:(by eapply reachable_step)) as [_ Hc _ _ _].
          unfold ctl_ok in Hc. rewrite Ec in Hc. destruct Hc as [? _]. congruence.
      - pose proof (stopping_step t n w a r t1 (thread_reachable_ok t Hr) Hi Hn Hown Hqa Es) as H.
        destruct r as [code|]; [by left|]. destruct H as (? & ? & Hst). split_and!; [done..|congruence]. }
    destruct r as [code|]; [left; by exists code, rs1|]. destruct Hstep as (Hn1 & Ho1 & Hst).
    assert (reachable t1) as Hr1 by (by eapply reachable_step).
    destruct (IH t1 (n - rounds a)%nat rs1 Hr1 (init_kept _ _ _ _ Es Hi) Hn1 Ho1 Hq Er)
      as [(code & rest & -> & Hcode)|(-> & ? & ? & Hl & ?)].
    + left. exists code, rest. split; [done|]. destruct Hcode as [[-> Hs1]|Hcode]; [left; by auto|by right].
    + right. split_and!; try done. rewrite Hl. f_equal. f_equal. lia.
Qed.

Lemma thread_run_app t l1 l2 rs t' :
  run t (l1 ++ l2) = Some (rs, t') -> exists rs1 t1 rs2, run t l1 = Some (rs1, t1) /\ run t1 l2 = Some (rs2, t') /\ rs = rs1 ++ rs2.
Proof.
  revert t rs. induction l1 as [|a l1 IH]; intros t rs E; simpl in *; [by exists [], t, rs|].
  destruct (step t a) as [[r t1]|]; simpl in *; [|done]. destruct (run t1 (l1 ++ l2)) as [[rs1 t2]|] eqn:Er; simpl in *; [|done].
  simplify_eq. destruct (IH t1 rs1 Er) as (rsa & ta & rsb & -> & E2 & ->). simpl. eexists _, ta, rsb. split_and!; [done|done|].
  by destruct r.
Qed.

(** C31: [stop_thread()] called by another thread returns, as long as the callback does not
    stop or start its own thread meanwhile.  (A callback that does waits for the lock the
    call holds: without a bound neither returns, see [self_stop_deadlock].)  The call
    makes its rounds up to [join_thread()], at most three, each of them possible; a thread
    that was not started gives -1 there.  While it waits, the thread that has not finished
    can make its next step (a thread asleep in [sem_wait()] was woken up; a callback that
    runs has to return), and after at most three of them, with any interrupted waits,
    wakeups, other calls, clock readings and messages between them, the call has returned,
    or returns in its next round with 0 and without a thread.  Only a call with a bound
    may give up before, with [ETIMEDOUT], and then it always does when the bound is over,
    whatever the callback does. *)
Theorem stop_returns t n w :
  reachable t -> stop_at t = Some (n, w) ->
  ((0 < n)%nat -> forall now created, exists r t',
     step t (CtlStep now created) = Some (r, t') /\ (started t = false -> r = Some (-1))) /\
  (n = 0%nat -> 0 <= w -> exists start, forall now created, now - start >= w ->
     exists code t', step t (CtlStep now created) = Some (Some code, t') /\ (code = 0 \/ code = ETIMEDOUT)) /\
  (init_flag t = true -> own_call t = false ->
   (n = 0%nat -> finished t = false -> exists a r t', moves a = 1%nat /\ quiet a = true /\ step t a = Some (r, t')) /\
   forall l1 l2 rs t', forallb quiet (l1 ++ l2) = true -> run t (l1 ++ l2) = Some (rs, t') ->
     (sum_list_with rounds l1 >= n)%nat -> (sum_list_with moves l2 >= 3)%nat ->
     (exists code rest, rs = code :: rest /\
        (code = -1 /\ started t = false \/ code = 0 \/ 0 <= w /\ code = ETIMEDOUT)) \/
     (rs = [] /\ forall now created, exists t'',
        step t' (CtlStep now created) = Some (Some 0, t'') /\ thread t'' = None /\ started t'' = false)).
Proof.
  intros Hr Hn. split; [|split].
  - intros Hpos now created. pose proof (thread_reachable_ok t Hr) as [_ Hc _ _ _]. unfold ctl_ok in Hc.
    unfold stop_at in Hn. simpl. unfold start_step, stop_step, unlock, at_ctl.
    destruct (ctl t) as [[]|]; simplify_eq; [|destruct Hc as [Hst _]; by eexists _, _; split; [|rewrite Hst]..|lia].
    destruct (started t); by eexists _, _.
  - intros -> Hw. unfold stop_at in Hn. destruct (ctl t) as [[]|] eqn:Ec; simplify_eq. exists start. intros now created Hnow.
    pose proof (thread_reachable_ok t Hr) as [_ _ Hf _ _]. pose proof (thread_reachable_ok t Hr) as [_ Hc _ _ _].
    unfold finished_ok in Hf. unfold ctl_ok in Hc. rewrite Ec in Hc, Hf.
    simpl. unfold start_step, stop_step, join_thread, unlock. rewrite Ec. destruct (finished t).
    + destruct (thread t) as [[]|]; try discriminate Hf; [by eauto 6|by destruct Hc as (_ & ? & _)].
    + rewrite (proj2 (Z.leb_le 0 w)) by done. destruct (Z.geb_spec (now - start) w); [simpl; by eauto 6|lia].
  - intros Hi Hown.
    split.
    { intros ->. apply (joining_progress t w); [by apply thread_reachable_ok|]. split; [|exact Hown].
      unfold stop_at in Hn. destruct (ctl t) as [[]|]; simplify_eq. by eexists _, _. }
    intros l1 l2 rs t' Hq E Hl1 Hm. rewrite forallb_app in Hq. apply andb_true_iff in Hq as [Hq1 Hq2].
    destruct (thread_run_app t l1 l2 rs t' E) as (rs1 & t1 & rs2 & E1 & E2 & ->).
    destruct (stopping_run t n w l1 rs1 t1 Hr Hi Hn Hown Hq1 E1) as [(code & rest & -> & Hc)|(-> & Hr1 & Hi1 & Hn1 & Hown1)].
    { left. by exists code, (rest ++ rs2). }
    replace (n - sum_list_with rounds l1)%nat with 0%nat in Hn1 by lia.
    assert (joining t1 w) as Hj.
    { split; [|exact Hown1]. unfold stop_at in Hn1. destruct (ctl t1) as [[]|]; simplify_eq. by eexists _, _. }
    destruct (joining_run t1 w l2 rs2 t' Hr1 Hi1 Hj Hq2 E2) as [(code & rest & -> & Hc)|(-> & Hr' & Hj' & Hl)].
    { left. exists code, rest. split; [done|by right]. }
    right. split; [done|]. apply (joined_next t1 t' w); [done..|lia].
Qed.

(** Without a thread and a start nothing happens. *)
Definition at_rest (t : ADThread) : Prop :=
  thread t = None /\ started t = false /\ active t = false /\ match ctl t with None | Some (StopChecks _) => True | _ => False end.
Lemma rest_step t a r t' :
  at_rest t -> a <> CallStart -> step t a = Some (r, t') -> at_rest t' /\ begun t' = begun t.
Proof.
  intros (Hth & Hst & Hact & Hc) Ha E. destruct a; try done; simpl in E; unfold silently in E.
  - case_decide; [|done]. unfold at_ctl in E. simplify_eq. done.
  - unfold start_step, stop_step, unlock in E. destruct (ctl t) as [[]|] eqn:Ec; try done. rewrite Hst in E. simpl in E. by simplify_eq.
  - unfold my_thread_func in E. by rewrite Hth in E.
  - unfold callback_returns in E. by rewrite Hth in E.
  - unfold callback_calls in E. by rewrite Hth in E.
  - unfold callback_calls in E. by rewrite Hth in E.
  - unfold self_call in E. by rewrite Hth in E.
  - simplify_eq. unfold wakeup_thread. simpl. by case_decide.
  - destruct (_ || _); by simplify_eq.
  - destruct (_ || _); simplify_eq. unfold subscribe_thread_callback. by destruct (consumer t).
Qed.

(** C32: When [stop_thread()] returned 0 to another thread, the thread was joined, and until
    somebody calls [start_thread()] there is none and no callback begins, whatever wakeups
    and stops come: the objects the callback uses can go. *)
Theorem nothing_runs_after_stop t w start next_log now created t1 l rs t2 :
  reachable t -> ctl t = Some (StopJoin w start next_log) -> step t (CtlStep now created) = Some (Some 0, t1) ->
  CallStart ∉ l -> run t1 l = Some (rs, t2) ->
  thread t2 = None /\ begun t2 = begun t1 /\ stop_requested t2 = true.
Proof.
  intros Hr Ec E Hn El. assert (at_rest t1) as Hrest.
  { destruct (thread_reachable_ok t Hr) as [_ Hc _ _ _]. unfold ctl_ok in Hc. rewrite Ec in Hc. destruct Hc as (_ & _ & Ha).
    simpl in E. unfold start_step, stop_step, join_thread, unlock, at_ctl in E. rewrite Ec in E.
    destruct (finished t); [destruct (thread t) as [[]|]; simplify_eq; done|]. repeat case_match; simplify_eq. }
  clear Hr Ec E. revert t1 rs Hrest Hn El. induction l as [|a l IH]; intros t1 rs Hrest Hn El; simpl in El.
  - simplify_eq. destruct Hrest as (? & _ & Ha & _). unfold stop_requested. by rewrite Ha.
  - destruct (step t1 a) as [[r t3]|] eqn:Es; simpl in El; [|done].
    destruct (run t3 l) as [[rs3 t4]|] eqn:Er; simpl in El; [|done]. simplify_eq.
    apply not_elem_of_cons in Hn as [Ha Hn]. destruct (rest_step t1 a r t3 Hrest (not_eq_sym Ha) Es) as [Hrest' <-].
    by apply (IH t3 rs3).
Qed.

(** ** Wakeups *)

(** No wakeup of a running thread is lost or served twice: while no stop is asked for,
    the wakeups since the start are the callbacks begun, and those still in the semaphore
    or just taken out of it; as long as one is not served the callback runs or the thread
    can go on; and a thread asleep has served them all. *)
Theorem wakeups_served t pc :
  reachable t -> th_type t = THREAD_TYPE_MONOSHOT -> consumer t = true -> is_running t = true -> thread t = Some pc ->
  woken t = begun t + one_shot_sema t + (if decide (pc = TRecheck) then 1 else 0) /\
  (begun t < woken t -> pc = TCallback \/ own_call t = true \/ is_Some (my_thread_func t false)) /\
  (pc = TWait -> my_thread_func t false = None -> begun t = woken t).
Proof.
  intros [Hs Hc Hf Ht Hw]%thread_reachable_ok Hty Hcon Hrun Eth. unfold is_running, stop_requested in Hrun. apply negb_true_iff, negb_false_iff in Hrun.
  assert (woken t = begun t + one_shot_sema t + (if decide (pc = TRecheck) then 1 else 0)) as E.
  { rewrite (Hw Hty Hcon (or_introl Hrun)), Eth. by destruct pc. }
  split; [exact E|]. unfold my_thread_func, own_call, call_back, goto. unfold thread_ok in Ht. rewrite Eth, Hrun, ?Hcon in *.
  split.
  - intros Hlt. destruct pc; simpl in *; try (by eauto); try congruence.
    + right; right. by case_decide.
    + destruct (Z.gtb_spec (one_shot_sema t) 0); [by eauto|lia].
  - intros -> Hn. simpl in *. destruct (Z.gtb_spec (one_shot_sema t) 0); [discriminate Hn|lia].
Qed.

(** ** Starting again *)

(** The drain ends, and the new thread begins. *)
Lemma start_runs (n : nat) t now :
  ctl t = Some StartDrain -> one_shot_sema t = Z.of_nat n ->
  exists t', run t (repeat (CtlStep now true) (n + 5)) = Some ([0], t') /\ thread t' = Some TLoop /\ active t' = true /\
    finished t' = false /\ started t' = true /\ one_shot_sema t' = 0 /\ ctl t' = None.
Proof.
  revert t. induction n as [|n IH]; intros t Ec Es; [state_cases t; subst; by eexists|].
  change (S n + 5)%nat with (S (n + 5)). cbn [repeat run].
  assert (step t (CtlStep now true) = at_ctl (with_sema t (one_shot_sema t - 1) (woken t) (begun t)) StartDrain) as ->.
  { simpl. unfold start_step. rewrite Ec. destruct (Z.gtb_spec (one_shot_sema t) 0); [done|lia]. }
  set (t1 := with_sema _ _ _ _). destruct (IH (with_ctl t1 (Some StartDrain)) eq_refl) as (t' & E & H'); [unfold t1; simpl; lia|].
  cbn [at_ctl mbind option_bind]. unfold at_ctl. cbn [mbind option_bind]. rewrite E. by exists t'.
Qed.

(** A thread that was stopped, or whose callback returned on its own, starts again:
    [start_thread()] joins what is left of it, drops the wakeups of before, and returns 0
    with a new thread in front of its loop. *)
Theorem start_again t now :
  reachable t -> init_flag t = true -> ctl t = None -> thread t = None \/ thread t = Some TExit ->
  exists n t', run t (CallStart :: repeat (CtlStep now true) n) = Some ([0], t') /\ thread t' = Some TLoop /\ is_running t' = true /\
    one_shot_sema t' = 0 /\ ctl t' = None.
Proof.
  intros Hr Hi Ec Hth. pose proof (thread_reachable_ok t Hr) as [Hs Hc Hf Ht _]. unfold ctl_ok in Hc. unfold finished_ok in Hf. unfold thread_ok in Ht.
  rewrite Ec in Hc, Hf.
  assert (exists k t1, run t (CallStart :: repeat (CtlStep now true) k) = Some ([], t1) /\ ctl t1 = Some StartDrain /\
    one_shot_sema t1 = one_shot_sema t) as (k & t1 & E1 & Ec1 & Es1).
  { destruct Hth as [Hth|Hth]; rewrite Hth in *.
    - destruct (started t) eqn:Est; [done|]. exists 1%nat. simpl. rewrite Hi, Ec. simpl.
      unfold start_step. simpl. rewrite Est. by eexists.
    - exists 2%nat. simpl. rewrite Hi, Ec. simpl. unfold start_step. simpl. destruct (started t) eqn:Est; [|by destruct Hc].
      rewrite Ht. simpl. unfold join_thread. simpl. rewrite Hf, Hth. by eexists. }
  destruct (start_runs (Z.to_nat (one_shot_sema t1)) t1 now Ec1 ltac:(lia)) as (t2 & E2 & Hth2 & Ha2 & _ & _ & Hs2 & Hc2).
  exists (k + (Z.to_nat (one_shot_sema t1) + 5))%nat, t2. rewrite repeat_app, app_comm_cons.
  assert (forall l1 l2 x y r1 r2 z, run x l1 = Some (r1, y) -> run y l2 = Some (r2, z) -> run x (l1 ++ l2) = Some (r1 ++ r2, z)) as Happ.
  { induction l1 as [|a l1 IH]; intros l2 x y r1 r2 z Ex Ey; simpl in *; [by simplify_eq|].
    destruct (step x a) as [[r x1]|]; simpl in *; [|done]. destruct (run x1 l1) as [[r3 x2]|] eqn:E3; simpl in *; [|done].
    simplify_eq. rewrite (IH l2 x1 y r3 r2 z E3 Ey). simpl. by destruct r. }
  rewrite (Happ _ _ _ _ _ _ _ E1 E2). split_and!; [done|done|unfold is_running, stop_requested; by rewrite Ha2|done|done].
Qed.

(** ** A callback that stops its own thread while another thread stops it *)

(** It waits for the lock that the other call keeps until the callback returns: neither
    call returns, whatever else happens. *)
Lemma self_stop_deadlock t start next_log l rs t' :
  ctl t = Some (StopJoin (-1) start next_log) -> thread t = Some TSelfStop -> finished t = false -> CallStart ∉ l ->
  run t l = Some (rs, t') -> rs = [] /\ thread t' = Some TSelfStop.
Proof.
  revert t start next_log rs. induction l as [|a l IH]; intros t start nl rs Ec Eth Ef Hn E; simpl in E; [by simplify_eq|].
  apply not_elem_of_cons in Hn as [Ha Hn].
  destruct (step t a) as [[r t1]|] eqn:Es; simpl in E; [|done]. destruct (run t1 l) as [[rs1 t2]|] eqn:Er; simpl in E; [|done]. simplify_eq.
  assert (r = None /\ (exists st n2, ctl t1 = Some (StopJoin (-1) st n2)) /\ thread t1 = Some TSelfStop /\ finished t1 = false)
    as (-> & (st & n2 & Ec1) & Eth1 & Ef1); [|by apply (IH t1 st n2 rs1)].
  clear IH Er. destruct a; try done; simpl in Es; unfold silently in Es.
  - rewrite Ec in Es. by case_decide.
  - unfold start_step, stop_step, join_thread, at_ctl in Es. rewrite Ec, Ef in Es. simpl in Es.
    repeat case_match; simplify_eq; simpl; split_and!; try done; by eexists _, _.
  - unfold my_thread_func in Es. by rewrite Eth in Es.
  - unfold callback_returns in Es. by rewrite Eth in Es.
  - unfold callback_calls in Es. by rewrite Eth in Es.
  - unfold callback_calls in Es. by rewrite Eth in Es.
  - unfold self_call in Es. by rewrite Eth, Ec in Es.
  - simplify_eq. unfold wakeup_thread. simpl. case_decide; simpl; split_and!; try done; by eexists _, _.
  - rewrite (bool_decide_eq_false_2 (ctl t = None)) in Es by congruence. by rewrite orb_true_r in Es.
  - rewrite (bool_decide_eq_false_2 (ctl t = None)) in Es by congruence. by rewrite orb_true_r in Es.
Qed.

(** ** The properties at concrete schedules *)

Definition monoshot : ADThread := new_ADThread (Some THREAD_TYPE_MONOSHOT).
(** Started, woken twice, the first callback running. *)
Definition busy : list action :=
  [Subscribe; CallStart] ++ repeat (CtlStep 0 true) 6 ++ [ThreadStep false; Wakeup; Wakeup; ThreadStep false; ThreadStep false].
Definition at_end (l : list action) : ADThread := default monoshot (snd <$> run monoshot l).

Lemma thread_run_reachable t l rs t' : reachable t -> run t l = Some (rs, t') -> reachable t'.
Proof.
  revert t rs. induction l as [|a l IH]; intros t rs Hr E; simpl in E; [by simplify_eq|].
  destruct (step t a) as [[r t1]|] eqn:Es; simpl in E; [|done]. destruct (run t1 l) as [[rs1 t2]|] eqn:Er; simpl in E; [|done].
  simplify_eq. apply (IH t1 rs1); [by eapply reachable_step|done].
Qed.
Lemma at_end_reachable l : reachable (at_end l).
Proof.
  unfold at_end. destruct (run monoshot l) as [[rs t]|] eqn:E; simpl; [|apply reachable_new].
  eapply thread_run_reachable; [apply reachable_new|exact E].
Qed.

Definition stopping : list action := busy ++ CallStop (-1) :: repeat (CtlStep 0 true) 3.
Example stop_ex : fst <$> run monoshot (stopping ++ [CallbackReturns; ThreadStep false; ThreadStep false; CtlStep 9 true]) = Some [0; 0].
Proof. reflexivity. Qed.

Lemma one_thread_witness : finished (at_end busy) = false /\ thread (at_end busy) <> None.
Proof.
  destruct (one_thread (at_end busy) (at_end_reachable busy)) as (_ & _ & _ & _ & H). split; [reflexivity|]. apply H. reflexivity.
Defined.
Definition about_to_return : list action := stopping ++ [CallbackReturns; ThreadStep false; ThreadStep false].
Definition called : list action := busy ++ [CallStop (-1)].
Lemma stop_returns_witness :
  exists t'', step (at_end about_to_return) (CtlStep 7 true) = Some (Some 0, t'') /\ thread t'' = None.
Proof.
  destruct (stop_returns (at_end called) 3 (-1) (at_end_reachable called) eq_refl) as (_ & _ & H).
  destruct (H eq_refl eq_refl) as [_ Hend]. clear H.
  destruct (Hend (repeat (CtlStep 0 true) 3) [CallbackReturns; ThreadStep false; ThreadStep false] [] (at_end about_to_return))
    as [(code & rest & Hc & _)|[_ Hnext]];
    [reflexivity|vm_compute; reflexivity|simpl; lia|simpl; lia|discriminate Hc|].
  destruct (Hnext 7 true) as (t'' & E & Ht & _). exists t''. split; [exact E|exact Ht].
Defined.
Lemma nothing_runs_after_stop_witness :
  begun (at_end (about_to_return ++ [CtlStep 9 true; Wakeup; Wakeup])) = begun (at_end (about_to_return ++ [CtlStep 9 true])).
Proof.
  refine (proj1 (proj2 (nothing_runs_after_stop (at_end about_to_return) (-1) 0 10000 9 true
    (at_end (about_to_return ++ [CtlStep 9 true])) [Wakeup; Wakeup] []
    (at_end (about_to_return ++ [CtlStep 9 true; Wakeup; Wakeup])) (at_end_reachable about_to_return) _ _ _ _)));
    [vm_compute; reflexivity..| |vm_compute; reflexivity].
  intros [Hw|[Hw|[]%elem_of_nil]%elem_of_cons]%elem_of_cons; discriminate Hw.
Defined.
Lemma wakeups_served_witness : woken (at_end busy) = begun (at_end busy) + 1.
Proof.
  destruct (wakeups_served (at_end busy) TCallback (at_end_reachable busy) eq_refl eq_refl eq_refl eq_refl) as [E _].
  rewrite E. reflexivity.
Defined.
Lemma start_again_witness :
  exists n t', run (at_end (about_to_return ++ [CtlStep 9 true; Wakeup])) (CallStart :: repeat (CtlStep 20 true) n) = Some ([0], t').
Proof.
  destruct (start_again (at_end (about_to_return ++ [CtlStep 9 true; Wakeup])) 20 (at_end_reachable _) eq_refl eq_refl (or_introl eq_refl))
    as (n & t' & E & _). exists n, t'. exact E.
Defined.
Example deadlock_ex : ctl (at_end (stopping ++ [CallbackStops])) = Some (StopJoin (-1) 0 10000) /\
  thread (at_end (stopping ++ [CallbackStops])) = Some TSelfStop.
Proof. by split. Qed.
