(* ===== verification/Timer.v ===== *)
(** * The heartbeat (ADTimer.cpp, ADTimer.hpp)

    The main thread of a service waits for signals: ticks of the interval timer, registered
    signals, and the request to stop.  Two threads of file Thread notify the subscribers.
    The theorems say that ticks are neither lost nor piled up, that every registered signal
    reaches the subscribers with its value and in order, that a request to stop ends the
    wait on whatever thread it arrives, and that the dispositions of the signals are put
    back as they were. *)
From S2P Require Import Prelude Common Thread.
From S2P Require GenericChain.
Module Chain := GenericChain.Chain.
Open Scope Z_scope.

(** ** Signals *)

(** Their numbers on Linux, but for MIPS. *)
Definition SIGHUP : Z := 1.
Definition SIGINT : Z := 2.
Definition SIGQUIT : Z := 3.
Definition SIGKILL : Z := 9.
Definition SIGPIPE : Z := 13.
Definition SIGALRM : Z := 14.
Definition SIGTERM : Z := 15.
Definition SIGSTOP : Z := 19.
Definition SIGIO : Z := 29.
Definition NSIG : Z := 65.
Definition SI_QUEUE : Z := -1.
Definition SI_TKILL : Z := -6.

Definition stop_signal (sig : Z) : bool := existsb (Z.eqb sig) [SIGINT; SIGTERM; SIGQUIT].

(** [siginfo_t], as far as it is read. *)
Record siginfo_t := { si_code : Z; si_int : Z }.

(** What [forward_signal_handler()] does on the thread [me], [waiter_tid] being the thread
    that waits: the signal is queued to that thread with its information, or sent to it
    without, when the kernel refuses that; or the request to stop is noted. *)
Inductive forwarded := Queued (target : Z) (info : siginfo_t) | Sent (target : Z) | StopNoted | Dropped.
Definition forward_signal_handler (waiter_tid me sig : Z) (info : siginfo_t) (accepted : siginfo_t -> bool) : forwarded :=
  if (waiter_tid >? 0) && negb (me =? waiter_tid) then
    let copy := if (si_code info >=? 0) || (si_code info =? SI_TKILL) then {| si_code := SI_QUEUE; si_int := si_int info |} else info in
    if accepted copy then Queued waiter_tid copy else Sent waiter_tid
  else if stop_signal sig then StopNoted else Dropped.

(** *** Dispositions *)

Inductive disposition := SIG_DFL | SIG_IGN | Forward | Handler (address : Z).
#[export] Instance disposition_eq_dec : EqDecision disposition.
Proof. solve_decision. Defined.

(** The dispositions of the process, and [saved_action] with [saved_valid]. *)
Record dispositions := { current : gmap Z disposition; saved : gmap Z disposition }.
Definition action_of (d : dispositions) (sig : Z) : disposition := default SIG_DFL (current d !! sig).

(** [sigaction()] refuses numbers that are none, and the two signals nobody handles. *)
Definition sigaction_accepts (sig : Z) : bool := (0 <? sig) && (sig <? NSIG) && negb (sig =? SIGKILL) && negb (sig =? SIGSTOP).
Definition set_disposition (d : dispositions) (sig : Z) (sa : disposition) : Z * dispositions :=
  if (sig <=? 0) || (sig >=? NSIG) then (-1, d)
  else if negb (sigaction_accepts sig) then (-1, d)
  else
    let old := action_of d sig in
    (0, {| current := <[sig := sa]> (current d);
           saved := match saved d !! sig with None => <[sig := old]> (saved d) | Some _ => saved d end |}).
Definition install_forwarder (d : dispositions) (sig : Z) : Z * dispositions := set_disposition d sig Forward.
(** The loop over the numbers from [sig] on, [n] of them. *)
Fixpoint restore_from (n : nat) (sig : Z) (d : dispositions) : dispositions :=
  match n with
  | O => d
  | S n =>
      restore_from n (sig + 1)
        match saved d !! sig with
        | Some old => {| current := <[sig := old]> (current d); saved := delete sig (saved d) |}
        | None => d
        end
  end.
Definition restore_dispositions (d : dispositions) : dispositions := restore_from (Z.to_nat (NSIG - 1)) 1 d.

(** *** The interval *)

Record itimerval := { tv_sec : Z; tv_usec : Z }.
Definition start_millisec_timer (ms : Z) : itimerval :=
  if ms <? 1000 then {| tv_sec := 0; tv_usec := i32 (ms * 1000) |}
  else {| tv_sec := Z.quot ms 1000; tv_usec := Z.rem ms 1000 * 1000 |}.

(** ** The timer *)

(** [ADTimerConsumer] *)
Record ADTimerConsumer := { notify_custom_sig : Z; custom_sig_num : Z }.
(** A notification of the subscriber at a position. *)
Inductive notification := TimerNote (k : nat) | SigioNote (k : nat) | CustomNote (k : nat) (signum : Z).
(** Where [monoshot_callback_function()] is on one of the two threads. *)
Inductive body := NoBody | Entered | Notifying (signum : Z) | Left.
#[export] Instance body_eq_dec : EqDecision body.
Proof. solve_decision. Defined.
Record ADTIMER_CUSTOM_SIG := { sig_num : Z; sig_extra : Z }.

(** [class ADTimer], not passive, with its static members; [waiting] says that the main
    thread is in the loop of [wait_for_exit_signal()].  Counted for the statements: the
    notifications, the values of the registered signals that came, and those the
    subscribers were told; [armed] is the interval the kernel runs, if it does. *)
Record ADTimer := {
  millisec_time : Z;
  timer : itimerval;
  armed : option itimerval;
  stoptimer : bool;
  received_user_stop_sig : bool;
  timer_tick_pending : bool;
  waiting : bool;
  subscribers : list ADTimerConsumer;
  custom_sig_chain : Chain.chain ADTIMER_CUSTOM_SIG;
  SigInfoChain : Chain.chain ADTIMER_CUSTOM_SIG;
  TimerThread : ADThread;
  CustomSigThread : ADThread;
  timer_body : body;
  sig_body : body;
  actions : dispositions;
  notified : list notification;
  came : list Z;
  told : list Z;
}.

(** A chain without a consumer. *)
Definition new_chain : Chain.chain ADTIMER_CUSTOM_SIG :=
  {| Chain.items := []; Chain.ident := 0; Chain.peak := 0; Chain.open := true; Chain.attached := false;
     Chain.autoremove := true; Chain.deleter := true |}.
(** [subscribe_thread_callback()], [set_thread_properties()] and [start_thread()] of a
    thread of the timer. *)
Definition started_thread (created : bool) : ADThread :=
  default (new_ADThread None)
    (snd <$> run (new_ADThread None) ([Subscribe; Properties THREAD_TYPE_MONOSHOT; CallStart] ++ repeat (CtlStep 0 created) (if created then 6 else 5))).

Definition forwarded_signals : list Z := [SIGINT; SIGTERM; SIGQUIT; SIGHUP; SIGALRM; SIGIO].
Definition initial_actions (d : dispositions) : dispositions :=
  (set_disposition (fold_left (fun d sig => (install_forwarder d sig).2) forwarded_signals d) SIGPIPE SIG_IGN).2.
Definition new_ADTimer (timer_millisec : Z) (d : dispositions) (created1 created2 : bool) : ADTimer :=
  {| millisec_time := timer_millisec; timer := start_millisec_timer timer_millisec; armed := None; stoptimer := false;
     received_user_stop_sig := false; timer_tick_pending := false; waiting := false; subscribers := [];
     custom_sig_chain := new_chain; SigInfoChain := new_chain; TimerThread := started_thread created1;
     CustomSigThread := started_thread created2; timer_body := NoBody; sig_body := NoBody; actions := initial_actions d;
     notified := []; came := []; told := [] |}.

Section setters.
Implicit Types t : ADTimer.
Definition with_flags t (arm : option itimerval) (stop user pending wait : bool) : ADTimer :=
  {| millisec_time := millisec_time t; timer := timer t; armed := arm; stoptimer := stop; received_user_stop_sig := user;
     timer_tick_pending := pending; waiting := wait; subscribers := subscribers t; custom_sig_chain := custom_sig_chain t;
     SigInfoChain := SigInfoChain t; TimerThread := TimerThread t; CustomSigThread := CustomSigThread t; timer_body := timer_body t;
     sig_body := sig_body t; actions := actions t; notified := notified t; came := came t; told := told t |}.
Definition with_setup t (ms : Z) (i : itimerval) (l : list ADTimerConsumer) (d : dispositions) : ADTimer :=
  {| millisec_time := ms; timer := i; armed := armed t; stoptimer := stoptimer t; received_user_stop_sig := received_user_stop_sig t;
     timer_tick_pending := timer_tick_pending t; waiting := waiting t; subscribers := l; custom_sig_chain := custom_sig_chain t;
     SigInfoChain := SigInfoChain t; TimerThread := TimerThread t; CustomSigThread := CustomSigThread t; timer_body := timer_body t;
     sig_body := sig_body t; actions := d; notified := notified t; came := came t; told := told t |}.
Definition with_chains t (regs infos : Chain.chain ADTIMER_CUSTOM_SIG) : ADTimer :=
  {| millisec_time := millisec_time t; timer := timer t; armed := armed t; stoptimer := stoptimer t;
     received_user_stop_sig := received_user_stop_sig t; timer_tick_pending := timer_tick_pending t; waiting := waiting t;
     subscribers := subscribers t; custom_sig_chain := regs; SigInfoChain := infos; TimerThread := TimerThread t;
     CustomSigThread := CustomSigThread t; timer_body := timer_body t; sig_body := sig_body t; actions := actions t;
     notified := notified t; came := came t; told := told t |}.
Definition with_timer_thread t (th : ADThread) (b : body) : ADTimer :=
  {| millisec_time := millisec_time t; timer := timer t; armed := armed t; stoptimer := stoptimer t;
     received_user_stop_sig := received_user_stop_sig t; timer_tick_pending := timer_tick_pending t; waiting := waiting t;
     subscribers := subscribers t; custom_sig_chain := custom_sig_chain t; SigInfoChain := SigInfoChain t; TimerThread := th;
     CustomSigThread := CustomSigThread t; timer_body := b; sig_body := sig_body t; actions := actions t;
     notified := notified t; came := came t; told := told t |}.
Definition with_sig_thread t (th : ADThread) (b : body) : ADTimer :=
  {| millisec_time := millisec_time t; timer := timer t; armed := armed t; stoptimer := stoptimer t;
     received_user_stop_sig := received_user_stop_sig t; timer_tick_pending := timer_tick_pending t; waiting := waiting t;
     subscribers := subscribers t; custom_sig_chain := custom_sig_chain t; SigInfoChain := SigInfoChain t; TimerThread := TimerThread t;
     CustomSigThread := th; timer_body := timer_body t; sig_body := b; actions := actions t;
     notified := notified t; came := came t; told := told t |}.
Definition with_notes t (notes : list notification) (arrived delivered : list Z) : ADTimer :=
  {| millisec_time := millisec_time t; timer := timer t; armed := armed t; stoptimer := stoptimer t;
     received_user_stop_sig := received_user_stop_sig t; timer_tick_pending := timer_tick_pending t; waiting := waiting t;
     subscribers := subscribers t; custom_sig_chain := custom_sig_chain t; SigInfoChain := SigInfoChain t; TimerThread := TimerThread t;
     CustomSigThread := CustomSigThread t; timer_body := timer_body t; sig_body := sig_body t; actions := actions t;
     notified := notes; came := arrived; told := delivered |}.
End setters.

(** *** Subscribers *)

Definition notify_subscribers (t : ADTimer) : list notification := imap (fun k _ => TimerNote k) (subscribers t).
Definition notify_sigio_to_subscribers (t : ADTimer) : list notification := imap (fun k _ => SigioNote k) (subscribers t).
(** The flag alone counts, not the number a subscriber registered. *)
Definition notify_custom_sig_to_subscribers_new (t : ADTimer) (signum : Z) : list notification :=
  omap (fun x => x) (imap (fun k c => if notify_custom_sig c =? 1 then Some (CustomNote k signum) else None) (subscribers t)).
Definition noted (t : ADTimer) (l : list notification) : ADTimer := with_notes t (notified t ++ l) (came t) (told t).

(** [subscribe_timer_notification()] *)
Definition subscribe_timer_notification (t : ADTimer) (c : ADTimerConsumer) : ADTimer :=
  with_setup t (millisec_time t) (timer t)
    (subscribers t ++ [{| notify_custom_sig := 0; custom_sig_num := custom_sig_num c |}]) (actions t).
Definition push_custom_sig_registration (t : ADTimer) (sig : Z) : Z * ADTimer :=
  let '(ret, c) := Chain.put (custom_sig_chain t) {| sig_num := sig; sig_extra := 0 |} in
  (if ret =? 0 then 0 else -1, with_chains t c (SigInfoChain t)).
(** The subscriber at [k] registers; without a subscriber there the object is another. *)
Definition register_custom_signal (t : ADTimer) (sig : Z) (k : nat) : Z * ADTimer :=
  let l := alter (fun _ => {| notify_custom_sig := 1; custom_sig_num := sig |}) k (subscribers t) in
  let t := with_setup t (millisec_time t) (timer t) l (install_forwarder (actions t) sig).2 in
  (0, (push_custom_sig_registration t sig).2).
Definition restart_millisec_timer (t : ADTimer) (ms : Z) : Z * ADTimer :=
  (0, with_setup t ms (start_millisec_timer ms) (subscribers t) (actions t)).

(** *** The wait for signals *)

Definition wakeup_timer (t : ADTimer) : ADTimer := with_timer_thread t (wakeup_thread (TimerThread t)).2 (timer_body t).
Definition wakeup_sig (t : ADTimer) : ADTimer := with_sig_thread t (wakeup_thread (CustomSigThread t)).2 (sig_body t).

(** [notify_registered_signals()]: one element for each registration of the signal. *)
Definition put_signal (t : ADTimer) (sig value : Z) : ADTimer :=
  let '(ret, c) := Chain.put (SigInfoChain t) {| sig_num := value; sig_extra := sig |} in
  if ret =? 0 then wakeup_sig (with_notes (with_chains t (custom_sig_chain t) c) (notified t) (came t ++ [value]) (told t)) else t.
Definition notify_registered_signals (t : ADTimer) (sig : Z) (info : siginfo_t) : Z * ADTimer :=
  fold_left (fun '(r, t) reg => if sig =? sig_num reg then (0, put_signal t sig (si_int info)) else (r, t))
    (Chain.items (custom_sig_chain t)) (-1, t).

(** [wait_for_exit_signal()] up to its loop, and one signal received in it. *)
Definition begin_wait (t : ADTimer) : ADTimer :=
  with_flags t (Some (timer t)) (stoptimer t) (received_user_stop_sig t) (timer_tick_pending t) true.
Definition receive_signal (t : ADTimer) (sig : Z) (info : siginfo_t) : ADTimer :=
  if stop_signal sig then with_flags t (armed t) (stoptimer t) true (timer_tick_pending t) (waiting t)
  else if sig =? SIGIO then noted t (notify_sigio_to_subscribers t)
  else if sig =? SIGALRM then
    if stoptimer t then t
    else
      let t' := with_flags t (armed t) (stoptimer t) (received_user_stop_sig t) true (waiting t) in
      if timer_tick_pending t then t' else wakeup_timer t'
  else (notify_registered_signals t sig info).2.
(** Behind the loop: a further request to stop ends the process. *)
Definition allow_forced_termination (t : ADTimer) : ADTimer :=
  with_setup t (millisec_time t) (timer t) (subscribers t)
    (fold_left (fun d sig => (set_disposition d sig SIG_DFL).2) [SIGINT; SIGTERM; SIGQUIT] (actions t)).
Definition forced_exit (t : ADTimer) : ADTimer := with_flags t (armed t) (stoptimer t) true (timer_tick_pending t) (waiting t).
(** [stop()] in front of the two calls of [stop_thread()]. *)
Definition disarm (t : ADTimer) : ADTimer :=
  with_flags t None true (received_user_stop_sig t) (timer_tick_pending t) (waiting t).

(** *** The two threads *)

(** [monoshot_callback_function()] step by step: the flag is cleared before the
    subscribers are notified; a value is taken out of the chain before. *)
Definition timer_callback (t : ADTimer) : option ADTimer :=
  match timer_body t with
  | Entered => Some (with_timer_thread (with_flags t (armed t) (stoptimer t) (received_user_stop_sig t) false (waiting t)) (TimerThread t) (Notifying 0))
  | Notifying _ => Some (with_timer_thread (noted t (notify_subscribers t)) (TimerThread t) Left)
  | _ => None
  end.
Definition sig_callback (t : ADTimer) : option ADTimer :=
  match sig_body t with
  | Entered =>
      let '(r, c) := Chain.get (SigInfoChain t) in
      Some (with_sig_thread (with_chains t (custom_sig_chain t) c) (CustomSigThread t)
              match r with Some e => Notifying (sig_num e) | None => Left end)
  | Notifying signum =>
      let t := noted t (notify_custom_sig_to_subscribers_new t signum) in
      Some (with_sig_thread (with_notes t (notified t) (came t) (told t ++ [signum])) (CustomSigThread t) Left)
  | _ => None
  end.
(** A step of a thread: with the callback that begins, its body does; it returns when its
    body has. *)
Definition thread_moves (th : ADThread) (b : body) (a : Thread.action) : option (ADThread * body) :=
  match a with
  | ThreadStep _ =>
      '(_, th') ← step th a;
      Some (th', if begun th' =? begun th then b else Entered)
  | CallbackReturns => if decide (b = Left) then '(_, th') ← step th a; Some (th', NoBody) else None
  | CallStop _ | CtlStep _ _ => '(_, th') ← step th a; Some (th', b)
  | _ => None
  end.

Inductive event :=
| EReceive (sig : Z) (info : siginfo_t) | EWait | EForcedExit | EDisarm | ESubscribe (c : ADTimerConsumer) | ERegister (sig : Z) (k : nat)
| ERestart (ms : Z) | ETimerThread (a : Thread.action) | ESigThread (a : Thread.action) | ETimerBody | ESigBody.
Definition timer_step (t : ADTimer) (e : event) : option ADTimer :=
  match e with
  | EReceive sig info => if waiting t && negb (received_user_stop_sig t) then Some (receive_signal t sig info) else None
  | EWait => Some (begin_wait t)
  | EForcedExit => Some (forced_exit t)
  | EDisarm => Some (disarm t)
  | ESubscribe c => Some (subscribe_timer_notification t c)
  | ERegister sig k => Some (register_custom_signal t sig k).2
  | ERestart ms => Some (restart_millisec_timer t ms).2
  | ETimerThread a => '(th, b) ← thread_moves (TimerThread t) (timer_body t) a; Some (with_timer_thread t th b)
  | ESigThread a => '(th, b) ← thread_moves (CustomSigThread t) (sig_body t) a; Some (with_sig_thread t th b)
  | ETimerBody => timer_callback t
  | ESigBody => sig_callback t
  end.
Fixpoint timer_run (t : ADTimer) (l : list event) : option ADTimer :=
  match l with [] => Some t | e :: l => t ← timer_step t e; timer_run t l end.

(** ** Invariants *)

(** A thread of the timer with its callback: the body runs while the thread is in the
    callback, and only stops are called. *)
Record served_by (th : ADThread) (b : body) : Prop := {
  sb_reachable : reachable th;
  sb_type : th_type th = THREAD_TYPE_MONOSHOT;
  sb_consumer : consumer th = true;
  sb_body : b <> NoBody <-> thread th = Some TCallback;
  sb_le : begun th <= woken th;
  sb_self : own_call th = false;
  sb_ctl : match ctl th with None | Some (StopChecks _ | StopInactive _ | StopPost _ | StopJoin _ _ _) => True | _ => False end;
}.
(** The callbacks that wait to begin, or to make their first step. *)
Definition outstanding (th : ADThread) (b : body) : Z := woken th - begun th + (if decide (b = Entered) then 1 else 0).

Lemma outstanding_entered th : outstanding th Entered = woken th - begun th + 1.
Proof. unfold outstanding. by rewrite decide_True. Qed.
Lemma outstanding_other th b : b <> Entered -> outstanding th b = woken th - begun th.
Proof. intros Hb. unfold outstanding. rewrite decide_False by done. lia. Qed.

Lemma monoshot_step th i th' :
  my_thread_func th i = Some th' -> th_type th = THREAD_TYPE_MONOSHOT -> consumer th = true ->
  thread th <> Some TCallback /\ th_type th' = th_type th /\ consumer th' = true /\ ctl th' = ctl th /\ woken th' = woken th /\ own_call th' = false /\
  (begun th' = begun th /\ thread th' <> Some TCallback \/ begun th' = begun th + 1 /\ thread th' = Some TCallback /\
     thread th = Some TRecheck /\ active th = true).
Proof.
  intros E Hty Hcon. unfold my_thread_func, call_back, goto in E. rewrite Hcon, Hty in E.
  destruct (thread th) as [[]|]; try discriminate E; repeat case_match; simplify_eq; simpl; split_and!; try done; auto 10.
Qed.

Lemma thread_step_served th b i th' :
  served_by th b -> my_thread_func th i = Some th' -> reachable th' ->
  served_by th' (if begun th' =? begun th then b else Entered) /\
  outstanding th' (if begun th' =? begun th then b else Entered) = outstanding th b.
Proof.
  intros [Hr Hty Hcon Hb Hle Hself Hc] E Hr'. destruct (monoshot_step th i th' E Hty Hcon) as (Hne & Hty' & Hcon' & Hc' & Hw' & Hself' & Hcase).
  assert (b = NoBody) as -> by (destruct (decide (b = NoBody)) as [|Hn]; [done|by apply Hb in Hn]).
  unfold outstanding. rewrite Hw'. destruct Hcase as [[Eb Hn]|(Eb & Hcb & Hre & Hact)]; rewrite Eb.
  - rewrite Z.eqb_refl. split; [|done]. split; [done|congruence|done|by split|by rewrite Hw', Eb|done|by rewrite Hc'].
  - destruct (Z.eqb_spec (begun th + 1) (begun th)); [lia|]. simpl. split; [|lia].
    split; [done|congruence|done|by split| |done|by rewrite Hc']. destruct (thread_reachable_ok th Hr) as [Hsem _ _ _ Hwok].
    specialize (Hwok Hty Hcon (or_introl Hact)). rewrite Hre in Hwok. lia.
Qed.

Lemma ctl_step_served th b now created r th' :
  served_by th b -> step th (CtlStep now created) = Some (r, th') -> reachable th' ->
  served_by th' b /\ outstanding th' b = outstanding th b.
Proof.
  intros [Hr Hty Hcon Hb Hle Hself Hc] E Hr'. simpl in E. unfold start_step in E. unfold outstanding.
  assert (stop_step th now = Some (r, th')) as Es by (destruct (ctl th) as [[]|]; done). clear E.
  pose proof (thread_reachable_ok th Hr) as [_ Hctl _ _ _]. unfold ctl_ok in Hctl.
  unfold stop_step, join_thread, at_ctl, unlock in Es. destruct (ctl th) as [[]|] eqn:Ec; try done.
  - repeat case_match; simplify_eq; (split; [by split|done]).
  - simplify_eq. split; [by split|done].
  - simplify_eq. case_decide; (split; [by split|done]).
  - destruct (finished th); [destruct (thread th) as [[]|] eqn:Eth; try done|].
    + simplify_eq. simpl. split; [|done]. split; simpl; try done. split; [intros ?%Hb|]; done.
    + repeat case_match; simplify_eq; (split; [by split|done]).
Qed.

Lemma thread_moves_served th b a th' b' :
  served_by th b -> thread_moves th b a = Some (th', b') -> served_by th' b' /\ outstanding th' b' = outstanding th b.
Proof.
  intros Hs E. pose proof Hs as [Hr Hty Hcon Hb Hle Hself Hc]. unfold thread_moves in E.
  destruct a; try discriminate E.
  - destruct (step th _) as [[r t1]|] eqn:Es; simpl in E; [|done]. simplify_eq. pose proof (reachable_step _ _ _ _ Hr Es) as Hr'.
    simpl in Es. case_decide as Hn; [|done]. unfold at_ctl in Es. simplify_eq. split; [by split|done].
  - destruct (step th _) as [[r t1]|] eqn:Es; cbn [mbind option_bind] in E; [|done]. simplify_eq.
    apply (ctl_step_served th b' now created r th' Hs Es). by eapply reachable_step.
  - destruct (step th _) as [[r t1]|] eqn:Es; cbn [mbind option_bind] in E; [|done]. simplify_eq.
    pose proof (reachable_step _ _ _ _ Hr Es) as Hr'. simpl in Es. unfold silently in Es. apply fmap_Some in Es as (t1 & Es & [= -> ->]).
    by eapply thread_step_served.
  - case_decide as Hl; [|done]. subst. destruct (step th _) as [[r t1]|] eqn:Es; cbn [mbind option_bind] in E; [|done]. simplify_eq.
    pose proof (reachable_step _ _ _ _ Hr Es) as Hr'. simpl in Es. unfold silently in Es. apply fmap_Some in Es as (t1 & Es & [= -> ->]).
    unfold callback_returns, goto in Es. destruct (thread th) as [[]|] eqn:Eth; try done. simplify_eq. simpl.
    split; [|done]. split; simpl; try done; rewrite Hty; done.
Qed.

(** The value a callback has taken out of the chain. *)
Definition in_hand (b : body) : list Z := match b with Notifying v => [v] | _ => [] end.
Lemma in_hand_moves th b a th' b' : served_by th b -> thread_moves th b a = Some (th', b') -> in_hand b' = in_hand b.
Proof.
  intros [_ Hty Hcon Hbody _ _ _] E. unfold thread_moves in E.
  destruct a; try discriminate E; try (case_decide; [subst|done]);
    (destruct (step th _) as [[r t1]|] eqn:Es; cbn [mbind option_bind] in E; [|discriminate E]); simplify_eq; try done.
  destruct (_ =? _); [done|]. simpl in Es. unfold silently in Es. apply fmap_Some in Es as (t1 & Es & [= _ ->]).
  destruct (monoshot_step _ _ _ Es Hty Hcon) as (Hne & _). destruct b; try done. by destruct Hne; apply Hbody.
Qed.

(** What holds at every point: a tick that is pending has a callback on its way, and only
    one; the values in the chain have one each, and they are the values that came and
    were not told yet. *)
Record timer_ok (t : ADTimer) : Prop := {
  k_timer : served_by (TimerThread t) (timer_body t);
  k_sig : served_by (CustomSigThread t) (sig_body t);
  k_tick : outstanding (TimerThread t) (timer_body t) = if timer_tick_pending t then 1 else 0;
  k_open : Chain.open (SigInfoChain t) = true;
  k_infos : outstanding (CustomSigThread t) (sig_body t) = Z.of_nat (length (Chain.items (SigInfoChain t)));
  k_values : came t = told t ++ in_hand (sig_body t) ++ map sig_num (Chain.items (SigInfoChain t));
}.

Lemma wakeup_served th b : served_by th b -> served_by (wakeup_thread th).2 b /\ outstanding (wakeup_thread th).2 b = outstanding th b + 1.
Proof.
  intros [Hr Hty Hcon Hb Hle Hself Hc].
  assert (reachable (wakeup_thread th).2) as Hr' by (by apply (reachable_step th Wakeup None)).
  unfold wakeup_thread, outstanding in *. rewrite Hty in *. simpl in *. split; [split; simpl; try done; lia|lia].
Qed.

(** The body of a callback goes on, while the thread stays in it. *)
Lemma body_moves th b b' : served_by th b -> b <> NoBody -> b' <> NoBody -> served_by th b'.
Proof. intros [Hr Hty Hcon Hb Hle Hself Hc] Hn Hn'. split; try done. split; [intros _; by apply Hb|done]. Qed.

Lemma put_signal_ok t sig v : timer_ok t ->
  timer_ok (put_signal t sig v) /\ came (put_signal t sig v) = came t ++ [v] /\ told (put_signal t sig v) = told t /\
  custom_sig_chain (put_signal t sig v) = custom_sig_chain t.
Proof.
  intros [Ht Hs Hk Ho Hi Hv]. unfold put_signal, Chain.put. rewrite Ho. cbn [Z.eqb]. split; [|done].
  destruct (wakeup_served _ _ Hs) as [Hs' Hn]. split; try done; simpl.
  - etrans; [exact Hn|]. by rewrite Hi, length_app, Nat2Z.inj_add.
  - rewrite Hv, map_app. simpl. by rewrite !app_assoc.
Qed.

(** The registrations of a signal. *)
Definition registrations (t : ADTimer) (sig : Z) : nat :=
  length (List.filter (fun r => sig =? sig_num r) (Chain.items (custom_sig_chain t))).
Lemma notify_registered_ok t sig info : timer_ok t ->
  let t' := (notify_registered_signals t sig info).2 in
  timer_ok t' /\ came t' = came t ++ repeat (si_int info) (registrations t sig) /\ told t' = told t.
Proof.
  intros Ht. unfold notify_registered_signals, registrations. generalize (Chain.items (custom_sig_chain t)) as l, (-1)%Z as r.
  intros l r. revert t r Ht. induction l as [|reg l IH]; intros t r Ht; simpl; [by rewrite app_nil_r|].
  destruct (sig =? sig_num reg); [|by apply IH]. destruct (put_signal_ok t sig (si_int info) Ht) as (Ht' & Hc & Hd & _).
  destruct (IH _ 0 Ht') as (Ht2 & Hc2 & Hd2). split_and!; [done| |by rewrite Hd2].
  rewrite Hc2, Hc, <- app_assoc. done.
Qed.

Lemma timer_step_ok t e t' : timer_ok t -> timer_step t e = Some t' -> timer_ok t'.
Proof.
  intros Ht E. pose proof Ht as [Htt Hs Hk Ho Hi Hv]. destruct e; simpl in E.
  - destruct (_ && _); [|done]. simplify_eq. unfold receive_signal. destruct (stop_signal sig); [by split|].
    destruct (sig =? SIGIO); [by split|]. destruct (sig =? SIGALRM); [|by apply notify_registered_ok].
    destruct (stoptimer t); [done|]. destruct (timer_tick_pending t) eqn:Ep; [by split|].
    destruct (wakeup_served _ _ Htt) as [Htt' Hn]. split; try done. etrans; [exact Hn|]. by rewrite Hk.
  - simplify_eq. by split.
  - simplify_eq. by split.
  - simplify_eq. by split.
  - simplify_eq. by split.
  - simplify_eq. unfold register_custom_signal, push_custom_sig_registration, Chain.put. simpl.
    destruct (Chain.open (custom_sig_chain t)); by split.
  - simplify_eq. by split.
  - destruct (thread_moves _ _ a) as [[th b]|] eqn:Em; simpl in E; [|done]. simplify_eq.
    destruct (thread_moves_served _ _ a th b Htt Em) as [Hb Hn]. split; try done. simpl. by rewrite Hn.
  - destruct (thread_moves _ _ a) as [[th b]|] eqn:Em; simpl in E; [|done]. simplify_eq.
    destruct (thread_moves_served _ _ a th b Hs Em) as [Hb Hn]. split; try done; simpl; [by rewrite Hn|].
    by rewrite Hv, (in_hand_moves _ _ a th b Hs Em).
  - unfold timer_callback in E. destruct (timer_body t) eqn:Eb; simplify_eq.
    + split; try done; simpl; [by apply (body_moves _ Entered)|].
      rewrite outstanding_entered in Hk. rewrite outstanding_other by done.
      destruct (timer_tick_pending t) eqn:Ep; [lia|].
      destruct Htt as [_ _ _ _ Hle _ _]. lia.
    + split; try done. by apply (body_moves _ (Notifying signum)).
  - unfold sig_callback in E. destruct (sig_body t) eqn:Eb; simplify_eq.
    + rewrite outstanding_entered in Hi. pose proof (sb_le _ _ Hs) as Hle.
      destruct (Chain.items (SigInfoChain t)) as [|x l] eqn:El; [simpl in Hi; lia|].
      unfold Chain.get in E. rewrite El, Ho in E. simplify_eq. split; try done; simpl; [by apply (body_moves _ Entered)|].
      rewrite outstanding_other by done. simpl in Hi. lia.
    + split; try done; simpl; [by apply (body_moves _ (Notifying signum))|]. rewrite Hv. simpl. by rewrite <- app_assoc.
Qed.

Lemma started_thread_served created : served_by (started_thread created) NoBody.
Proof.
  assert (forall l r th, run (new_ADThread None) l = Some (r, th) -> reachable th) as Hr.
  { intros l r th E. eapply thread_run_reachable; [apply reachable_new|exact E]. }
  unfold started_thread. destruct created.
  - destruct (run _ _) as [[r th]|] eqn:E; [|discriminate E]. cbn [fmap option_fmap option_map default snd from_option].
    pose proof (Hr _ _ _ E). vm_compute in E. injection E as <- <-. by split.
  - destruct (run _ _) as [[r th]|] eqn:E; [|discriminate E]. cbn [fmap option_fmap option_map default snd from_option].
    pose proof (Hr _ _ _ E). vm_compute in E. injection E as <- <-. by split.
Qed.
Inductive timer_reachable : ADTimer -> Prop :=
| timer_new ms d b1 b2 : timer_reachable (new_ADTimer ms d b1 b2)
| timer_next t e t' : timer_reachable t -> timer_step t e = Some t' -> timer_reachable t'.
Lemma timer_reachable_ok t : timer_reachable t -> timer_ok t.
Proof.
  induction 1 as [ms d b1 b2|t e t' _ IH E]; [|by eapply timer_step_ok].
  split; try apply started_thread_served; try done; by destruct b1, b2.
Qed.

Lemma put_signal_pending t sig v : timer_tick_pending (put_signal t sig v) = timer_tick_pending t.
Proof. unfold put_signal. destruct (Chain.put _ _) as [ret c]. by destruct (ret =? 0). Qed.
Lemma notify_registered_pending t sig info : timer_tick_pending (notify_registered_signals t sig info).2 = timer_tick_pending t.
Proof.
  unfold notify_registered_signals. generalize (Chain.items (custom_sig_chain t)) as l, (-1)%Z as r.
  intros l r. revert t r. induction l as [|reg l IH]; intros t r; simpl; [done|].
  destruct (sig =? sig_num reg); [|apply IH]. by rewrite IH, put_signal_pending.
Qed.

(** Only the callback clears the flag of the tick, before it notifies. *)
Lemma pending_stays t e t' :
  timer_step t e = Some t' -> timer_tick_pending t = true ->
  timer_tick_pending t' = true \/ e = ETimerBody /\ timer_body t = Entered.
Proof.
  intros E Hp. destruct e; simpl in E.
  - destruct (_ && _); [|done]. simplify_eq. left. unfold receive_signal. rewrite Hp.
    repeat case_match; try done. by rewrite notify_registered_pending.
  - simplify_eq. by left.
  - simplify_eq. by left.
  - simplify_eq. by left.
  - simplify_eq. by left.
  - simplify_eq. left. unfold register_custom_signal, push_custom_sig_registration. by destruct (Chain.put _ _).
  - simplify_eq. by left.
  - destruct (thread_moves _ _ a) as [[th b]|]; simpl in E; simplify_eq. by left.
  - destruct (thread_moves _ _ a) as [[th b]|]; simpl in E; simplify_eq. by left.
  - unfold timer_callback in E. destruct (timer_body t) eqn:Eb; simplify_eq; [by right|by left].
  - unfold sig_callback in E. destruct (sig_body t) eqn:Eb; simplify_eq; [|by left].
    destruct (Chain.get _) as [r c]. simplify_eq. by left.
Qed.

(** A thread that runs, with a callback on its way, can go on. *)
Lemma running_thread th b : served_by th b -> is_running th = true -> exists pc, thread th = Some pc.
Proof.
  intros [Hreach _ _ _ _ _ Hc] Hrun. unfold is_running, stop_requested in Hrun. apply negb_true_iff, negb_false_iff in Hrun.
  destruct (thread th) as [pc|] eqn:Eth; [by exists pc|].
  pose proof (thread_reachable_ok _ Hreach) as [_ Hctl _ _ _]. unfold ctl_ok in Hctl. rewrite Eth, Hrun in Hctl.
  destruct (ctl th) as [[]|]; try done; destruct (started _); naive_solver.
Qed.
Lemma callback_coming th b (e e1 e2 : event) (next : event -> option ADTimer) :
  served_by th b -> is_running th = true -> 0 < outstanding th b ->
  (b = Entered \/ (exists v, b = Notifying v) -> is_Some (next e)) ->
  (is_Some (thread_moves th b (ThreadStep false)) -> is_Some (next e1)) ->
  (is_Some (thread_moves th b CallbackReturns) -> is_Some (next e2)) ->
  exists e', e' ∈ [e; e1; e2] /\ is_Some (next e').
Proof.
  intros Hs Hrun Hn Hbody Hmove Hret. destruct (running_thread th b Hs Hrun) as [pc Eth]. destruct Hs as [Hreach Hty Hcon Hb Hle Hself Hc].
  destruct (decide (b = Entered)) as [Eb|Hne]; [exists e; split; [set_solver|]; apply Hbody; by left|].
  destruct (wakeups_served th pc Hreach Hty Hcon Hrun Eth) as (_ & Hgo & _). rewrite outstanding_other in Hn by done.
  destruct Hgo as [->|[Hown|[th' Hth]]]; [lia| |congruence|].
  - destruct b as [| |v|]; [by destruct Hb as [_ Hb]; destruct (Hb Eth)|done| |].
    + exists e. split; [set_solver|]. apply Hbody. right. by exists v.
    + exists e2. split; [set_solver|]. apply Hret. simpl. unfold callback_returns. rewrite Eth. by eexists.
  - exists e1. split; [set_solver|]. apply Hmove. simpl. rewrite Hth. by eexists.
Qed.

(** C33: The heartbeat.  However late the subscribers are, at most one wakeup of the timer
    thread is outstanding, exactly while a tick is pending; as long as the thread runs, a
    pending tick can go on to its notification; and after every tick that comes before
    the timer is stopped, whenever no tick is pending any more a callback began its round
    of notifications in between. *)
Theorem heartbeat t info :
  timer_reachable t -> stoptimer t = false -> waiting t = true -> received_user_stop_sig t = false ->
  let th := TimerThread t in
  (outstanding th (timer_body t) = if timer_tick_pending t then 1 else 0) /\
  (is_running th = true -> one_shot_sema th <= 1) /\
  (timer_tick_pending t = true -> is_running th = true ->
   exists e, e ∈ [ETimerBody; ETimerThread (ThreadStep false); ETimerThread CallbackReturns] /\ is_Some (timer_step t e)) /\
  exists t1, timer_step t (EReceive SIGALRM info) = Some t1 /\
    forall l t2, timer_run t1 l = Some t2 -> timer_tick_pending t2 = false ->
      exists l1 l2 ta, l = l1 ++ ETimerBody :: l2 /\ timer_run t1 l1 = Some ta /\ timer_body ta = Entered.
Proof.
  intros Hr Hst Hw Hu. pose proof (timer_reachable_ok t Hr) as [Hs _ Hk _ _ _]. cbv zeta.
  pose proof Hs as [Hreach Hty Hcon Hb Hle Hself Hc].
  assert (outstanding (TimerThread t) (timer_body t) <= 1) as Hone by (rewrite Hk; by destruct (timer_tick_pending t)).
  split; [exact Hk|]. split; [|split].
  - intros Hrun. destruct (running_thread _ _ Hs Hrun) as [pc Eth]. destruct (wakeups_served _ pc Hreach Hty Hcon Hrun Eth) as [E _].
    unfold outstanding in Hone. repeat case_decide; lia.
  - intros Hp Hrun. apply (callback_coming _ _ _ _ _ (timer_step t) Hs Hrun); [rewrite Hk, Hp; lia|..].
    + intros [Eb|[v Eb]]; simpl; unfold timer_callback; rewrite Eb; by eexists.
    + intros [[th b] E]. simpl in *. rewrite E. by eexists.
    + intros [[th b] E]. simpl in *. rewrite E. by eexists.
  - eexists. split; [simpl; rewrite Hw, Hu; reflexivity|]. intros l t2 El Hp2.
    assert (timer_tick_pending (receive_signal t SIGALRM info) = true) as Hp1.
    { unfold receive_signal. simpl. rewrite Hst. by destruct (timer_tick_pending t). }
    revert El Hp1. generalize (receive_signal t SIGALRM info) as t1. clear - Hp2.
    induction l as [|e l IH]; intros t1 El Hp1; simpl in El; [congruence|].
    destruct (timer_step t1 e) as [t3|] eqn:Es; simpl in El; [|done].
    destruct (pending_stays _ _ _ Es Hp1) as [Hp3|[-> Hb]]; [|by exists [], l, t1].
    destruct (IH t3 El Hp3) as (l1 & l2 & ta & -> & E1 & Hb). exists (e :: l1), l2, ta. simpl. by rewrite Es.
Qed.

(** Registered signals.  A signal that nothing else handles adds its value once for
    every registration of its number, and no other signal does; the subscribers are told
    the values in the order they came: those told, the one a callback holds, and those in
    the chain are at any time the values that came; every value in the chain has a
    callback on its way, and while the thread runs it can go on. *)
Theorem signals_in_order t sig info :
  timer_reachable t -> waiting t = true -> received_user_stop_sig t = false ->
  let th := CustomSigThread t in
  (came t = told t ++ in_hand (sig_body t) ++ map sig_num (Chain.items (SigInfoChain t))) /\
  (outstanding th (sig_body t) = Z.of_nat (length (Chain.items (SigInfoChain t)))) /\
  (Chain.items (SigInfoChain t) <> [] -> is_running th = true ->
   exists e, e ∈ [ESigBody; ESigThread (ThreadStep false); ESigThread CallbackReturns] /\ is_Some (timer_step t e)) /\
  exists t1, timer_step t (EReceive sig info) = Some t1 /\ told t1 = told t /\
    came t1 = came t ++ (if stop_signal sig || (sig =? SIGIO) || (sig =? SIGALRM) then [] else repeat (si_int info) (registrations t sig)).
Proof.
  intros Hr Hw Hu. pose proof (timer_reachable_ok t Hr) as Ht. pose proof Ht as [_ Hs _ Ho Hi Hv]. cbv zeta.
  split_and!; [done|done| |].
  - intros Hne Hrun. apply (callback_coming _ _ _ _ _ (timer_step t) Hs Hrun).
    + rewrite Hi. destruct (Chain.items _); [done|simpl; lia].
    + intros [Eb|[v Eb]]; simpl; unfold sig_callback; rewrite Eb; [destruct (Chain.get _)|]; by eexists.
    + intros [[th b] E]. simpl in *. rewrite E. by eexists.
    + intros [[th b] E]. simpl in *. rewrite E. by eexists.
  - eexists. split; [simpl; rewrite Hw, Hu; reflexivity|]. unfold receive_signal.
    destruct (stop_signal sig); [by rewrite app_nil_r|]. destruct (sig =? SIGIO); [by rewrite app_nil_r|].
    destruct (sig =? SIGALRM); simpl; [destruct (stoptimer t), (timer_tick_pending t); by rewrite app_nil_r|].
    by destruct (notify_registered_ok t sig info Ht) as (_ & ? & ?).
Qed.

Lemma put_signal_user t sig v : received_user_stop_sig (put_signal t sig v) = received_user_stop_sig t.
Proof. unfold put_signal. destruct (Chain.put _ _) as [ret c]. by destruct (ret =? 0). Qed.

(** A request to stop is heard on whatever thread it arrives: on another thread than
    the one that waits it is queued to that one, with the value it carried, or sent
    without; on the waiting thread, or when none waits, it is noted.  Once it was received
    or noted, or somebody called [forced_exit()], it stays so, and the loop takes no
    further signal. *)
Theorem stop_request_heard t sig info waiter me accepted :
  stop_signal sig = true -> waiting t = true -> received_user_stop_sig t = false ->
  match forward_signal_handler waiter me sig info accepted with
  | Queued target i => target = waiter /\ me <> waiter /\ si_int i = si_int info
  | Sent target => target = waiter /\ me <> waiter
  | StopNoted => me = waiter \/ waiter <= 0
  | Dropped => False
  end /\
  forall t1, timer_step t (EReceive sig info) = Some t1 \/ t1 = forced_exit t ->
    forall l t2, timer_run t1 l = Some t2 ->
      received_user_stop_sig t2 = true /\ forall s i, timer_step t2 (EReceive s i) = None.
Proof.
  intros Hsig Hw Hu. split.
  - unfold forward_signal_handler. rewrite Hsig. destruct (Z.gtb_spec waiter 0), (Z.eqb_spec me waiter); simpl; auto.
    destruct (accepted _); [|done]. split_and!; try done. by destruct (_ || _).
  - intros t1 Ht1. assert (received_user_stop_sig t1 = true) as H1.
    { destruct Ht1 as [E| ->]; [|done]. cbn [timer_step] in E. rewrite Hw, Hu in E. injection E as <-.
      unfold receive_signal. by rewrite Hsig. }
    clear Ht1. intros l. revert t1 H1. induction l as [|e l IH]; intros t1 H1 t2 E; simpl in E.
    + simplify_eq. split; [done|]. intros s i. simpl. rewrite H1. by rewrite andb_false_r.
    + destruct (timer_step t1 e) as [t3|] eqn:Es; simpl in E; [|done]. apply (IH t3); [|done]. clear IH E.
      destruct e; simpl in Es.
      * rewrite H1, andb_false_r in Es. done.
      * by simplify_eq.
      * by simplify_eq.
      * by simplify_eq.
      * by simplify_eq.
      * simplify_eq. unfold register_custom_signal, push_custom_sig_registration. by destruct (Chain.put _ _).
      * by simplify_eq.
      * destruct (thread_moves _ _ a) as [[th b]|]; simpl in Es; by simplify_eq.
      * destruct (thread_moves _ _ a) as [[th b]|]; simpl in Es; by simplify_eq.
      * unfold timer_callback in Es. destruct (timer_body t1); by simplify_eq.
      * unfold sig_callback in Es. destruct (sig_body t1); simplify_eq; [|done]. destruct (Chain.get _). by simplify_eq.
Qed.

(** ** Dispositions *)

(** What a timer changed since the dispositions were [d0]. *)
Record changed_from (d0 d : dispositions) : Prop := {
  ch_saved : forall sig old, saved d !! sig = Some old -> old = action_of d0 sig /\ 0 < sig < NSIG;
  ch_others : forall sig, saved d !! sig = None -> action_of d sig = action_of d0 sig;
}.
Lemma set_disposition_changed d0 d sig sa : changed_from d0 d -> changed_from d0 (set_disposition d sig sa).2.
Proof.
  intros [Hs Ho]. unfold set_disposition. destruct (Z.leb_spec sig 0), (Z.geb_spec sig NSIG); simpl; try done.
  destruct (negb _); [done|]. split; simpl.
  - intros s old. destruct (saved d !! sig) eqn:E; [apply Hs|]. destruct (decide (s = sig)) as [->|Hne].
    + rewrite lookup_insert_eq. intros [= <-]. by rewrite Ho.
    + rewrite lookup_insert_ne by done. apply Hs.
  - intros s Hn. unfold action_of in *. simpl. destruct (decide (s = sig)) as [->|Hne].
    + destruct (saved d !! sig) eqn:E; [congruence|]. by rewrite lookup_insert_eq in Hn.
    + rewrite lookup_insert_ne by done. apply Ho. destruct (saved d !! sig); [done|]. by rewrite lookup_insert_ne in Hn.
Qed.
Lemma restore_from_spec n sig d0 d :
  changed_from d0 d -> (forall s old, saved d !! s = Some old -> sig <= s < sig + Z.of_nat n) ->
  saved (restore_from n sig d) = ∅ /\ forall s, action_of (restore_from n sig d) s = action_of d0 s.
Proof.
  revert sig d. induction n as [|n IH]; intros sig d Hd Hr; simpl.
  - split.
    + apply map_eq. intros s. rewrite lookup_empty. destruct (saved d !! s) eqn:E; [|done]. apply Hr in E. lia.
    + intros s. apply (ch_others d0 d Hd). destruct (saved d !! s) eqn:E; [|done]. apply Hr in E. lia.
  - apply IH.
    + destruct (saved d !! sig) as [old|] eqn:E; [|done]. destruct Hd as [Hs Ho]. split; simpl.
      * intros s o. destruct (decide (s = sig)) as [->|]; [by rewrite lookup_delete_eq|]. rewrite lookup_delete_ne by done. apply Hs.
      * intros s Hn. unfold action_of in *. simpl. destruct (decide (s = sig)) as [->|Hne].
        -- rewrite lookup_insert_eq. simpl. by apply Hs in E as [-> _].
        -- rewrite lookup_insert_ne by done. apply Ho. by rewrite lookup_delete_ne in Hn.
    + intros s old E. destruct (saved d !! sig) as [o|] eqn:Es.
      * simpl in E. destruct (decide (s = sig)) as [->|]; [by rewrite lookup_delete_eq in E|]. rewrite lookup_delete_ne in E by done.
        apply Hr in E. lia.
      * destruct (decide (s = sig)) as [->|]; [congruence|]. apply Hr in E. lia.
Qed.

(** Whatever signals a timer was made for, registered and gave up, its destructor
    leaves every signal of the process with the disposition it had before. *)
Theorem dispositions_restored d (sigs : list (Z * disposition)) :
  saved d = ∅ ->
  let d' := fold_left (fun d x => (set_disposition d x.1 x.2).2) sigs (initial_actions d) in
  saved (restore_dispositions d') = ∅ /\ forall sig, action_of (restore_dispositions d') sig = action_of d sig.
Proof.
  intros Hd. assert (changed_from d d) as H0 by (split; [intros sig old; by rewrite Hd|done]).
  assert (forall l d1, changed_from d d1 -> changed_from d (fold_left (fun d x => (set_disposition d x.1 x.2).2) l d1)) as Hfold.
  { induction l as [|x l IH]; intros d1 H1; simpl; [done|]. apply IH. by apply set_disposition_changed. }
  cbv zeta. set (d' := fold_left _ sigs _). assert (changed_from d d') as H1.
  { apply Hfold. unfold initial_actions, install_forwarder. apply set_disposition_changed.
    cbn [fold_left forwarded_signals]. by do 6 apply set_disposition_changed. }
  apply restore_from_spec; [done|]. intros s old E. apply (ch_saved d d' H1) in E as [_ E]. unfold NSIG in *. simpl. lia.
Qed.

(** The interval is the milliseconds asked for, in the form [setitimer()] takes. *)
Lemma interval_exact ms :
  0 <= ms <= int_max ->
  let i := start_millisec_timer ms in
  tv_sec i * 1000000 + tv_usec i = ms * 1000 /\ 0 <= tv_usec i < 1000000 /\ 0 <= tv_sec i.
Proof.
  intros Hms. unfold start_millisec_timer. destruct (Z.ltb_spec ms 1000); simpl.
  - rewrite i32_id by (unfold int_max, int_min in *; lia). lia.
  - rewrite Z.quot_div_nonneg, Z.rem_mod_nonneg by lia.
    pose proof (Z.div_mod ms 1000). pose proof (Z.mod_pos_bound ms 1000). pose proof (Z.div_pos ms 1000). lia.
Qed.

(** ** The properties at a concrete timer *)

Definition sigusr : Z := 40.
Definition value (v : Z) : siginfo_t := {| si_code := SI_QUEUE; si_int := v |}.
Definition fresh : ADTimer := new_ADTimer 100 {| current := ∅; saved := ∅ |} true true.
(** One subscriber, registered for a signal, and the wait. *)
Definition set_up : list event := [ESubscribe {| notify_custom_sig := 0; custom_sig_num := 0 |}; ERegister sigusr 0; EWait].
Definition after (l : list event) : ADTimer := default fresh (timer_run fresh l).
Lemma after_reachable l : timer_reachable (after l).
Proof.
  assert (forall l t t', timer_reachable t -> timer_run t l = Some t' -> timer_reachable t') as Hl.
  { clear l. induction l as [|e l IH]; intros t t' Ht E; simpl in E; [by simplify_eq|].
    destruct (timer_step t e) as [t1|] eqn:Es; simpl in E; [|done]. apply (IH t1); [by eapply timer_next|done]. }
  unfold after. destruct (timer_run fresh l) eqn:E; simpl; [|apply timer_new]. eapply Hl; [apply timer_new|exact E].
Qed.

Definition go (e : Thread.action -> event) : list event := [e (ThreadStep false); e (ThreadStep false); e (ThreadStep false)].
Example ticks_ex :
  notified (after (set_up ++ [EReceive SIGALRM (value 0); EReceive SIGALRM (value 0)] ++ go ETimerThread ++ [ETimerBody; ETimerBody])) = [TimerNote 0].
Proof. vm_compute. reflexivity. Qed.
Example value_ex :
  notified (after (set_up ++ [EReceive sigusr (value 7)] ++ go ESigThread ++ [ESigBody; ESigBody])) = [CustomNote 0 7].
Proof. vm_compute. reflexivity. Qed.

(** [restart_millisec_timer()] stores the interval; the kernel goes on with the old one. *)
Example restart_ex :
  let t := after (set_up ++ [ERestart 2500]) in
  (timer t, armed t) = ({| tv_sec := 2; tv_usec := 500000 |}, Some {| tv_sec := 0; tv_usec := 100000 |}).
Proof. vm_compute. reflexivity. Qed.

Lemma heartbeat_witness : one_shot_sema (TimerThread (after (set_up ++ [EReceive SIGALRM (value 0)]))) <= 1.
Proof.
  destruct (heartbeat (after (set_up ++ [EReceive SIGALRM (value 0)])) (value 0) (after_reachable _)) as (_ & Hs & _);
    [vm_compute; reflexivity..|]. apply Hs. vm_compute. reflexivity.
Defined.
Lemma signals_in_order_witness : exists t, timer_step (after set_up) (EReceive sigusr (value 7)) = Some t /\ came t = [7].
Proof.
  destruct (signals_in_order (after set_up) sigusr (value 7) (after_reachable _)) as (_ & _ & _ & t & E & _ & Hc);
    [vm_compute; reflexivity..|]. exists t. split; [exact E|]. rewrite Hc. vm_compute. reflexivity.
Defined.
Lemma stop_request_heard_witness :
  forward_signal_handler 1 2 SIGTERM (value 3) (fun _ => true) = Queued 1 (value 3) /\
  received_user_stop_sig (after (set_up ++ [EReceive SIGTERM (value 0)])) = true.
Proof.
  split; [reflexivity|].
  destruct (stop_request_heard (after set_up) SIGTERM (value 0) 1 2 (fun _ => true)) as [_ H]; [vm_compute; reflexivity..|].
  destruct (H (after (set_up ++ [EReceive SIGTERM (value 0)])) ltac:(left; vm_compute; reflexivity) [] _ eq_refl) as [Hs _]. exact Hs.
Defined.
Lemma dispositions_restored_witness :
  let d := {| current := {[SIGHUP := SIG_IGN]}; saved := ∅ |} in
  action_of (initial_actions d) SIGHUP = Forward /\ action_of (restore_dispositions (initial_actions d)) SIGHUP = SIG_IGN.
Proof.
  intros d. split; [vm_compute; reflexivity|].
  destruct (dispositions_restored d [] eq_refl) as [_ H]. etrans; [apply (H SIGHUP)|vm_compute; reflexivity].
Defined.
