(* ===== verification/TaskWorker.v ===== *)
(** * Asynchronous tasks (ADTaskWorker.cpp and ADTaskWorker.hpp of lib-jsonrpc-tcp)

    The RPC thread pushes tasks, polls their status and resets the identifiers; the
    worker thread takes tasks off a queue, runs them and records the result.  The
    two share two chains (file GenericChain), each access to one being atomic; the
    threads interleave between accesses.  Each method is therefore a small program:
    the program counters [rpc_pc] and [worker_pc] say which access comes next, and
    [step] makes it. *)
From S2P Require Import Prelude GenericChain Common.
Open Scope Z_scope.

(** ** Data *)

(** [WORK_CMD_AFTER_DONE_T] *)
Inductive WORK_CMD_AFTER_DONE :=
| WORK_CMD_AFTER_DONE_PRESERVE
| WORK_CMD_AFTER_DONE_DELETE
| WORK_CMD_AFTER_DONE_UNKNOWN
| WORK_CMD_AFTER_DONE_NONE.

(** [WORK_CMD_TASK_T]; [pWorkData] is an address. *)
Record WORK_CMD_TASK := {
  wt_taskID : Z;
  wt_percent_complete : Z;
  wt_command : Z;
  wt_taskSts : Z;
  wt_done_action : WORK_CMD_AFTER_DONE;
  wt_resp_type : Z;
  wt_pWorkData : Z;
}.

(** [WORK_CMD_TASK_IN_PROG_T] *)
Record WORK_CMD_TASK_IN_PROG := {
  ip_taskID : Z;
  ip_percent_complete : Z;
  ip_command : Z;
  ip_taskSts : Z;
  ip_task_err_message : string;
}.

Definition ADTASK_WORKER_RESET_WAIT_MS : Z := 1000.
Definition ADTASK_WORKER_MAX_INPROG_TASKS : Z := 256.

(** [identify_chain_element()] for the two chains. *)
Definition identify_task (ident : Z) (t : WORK_CMD_TASK) : bool := wt_taskID t =? ident.
Definition identify_inprog (ident : Z) (p : WORK_CMD_TASK_IN_PROG) : bool := ip_taskID p =? ident.

(** What a method of the RPC thread answers. *)
Inductive reply :=
| PushReply (ret : Z) (taskID : Z)
| StatusReply (ret : Z) (taskSts : Z)
| ResetReply (ret : Z).

(** Where the RPC thread is: idle, in [push_task()] (the size check, the eviction
    loop, between the chain accesses), in [get_task_status()] (after the status was
    read), or in [reset_task_id_and_chain()] (the two halves of [tasks_pending()],
    the final reset). *)
Inductive rpc_state :=
| RIdle
| RPushSize (cmd data : Z) (done : WORK_CMD_AFTER_DONE)
| REvictSize (cmd data : Z) (done : WORK_CMD_AFTER_DONE)
| REvictScan (cmd data : Z) (done : WORK_CMD_AFTER_DONE)
| REvictRemove (victim cmd data : Z) (done : WORK_CMD_AFTER_DONE)
| RIdent (cmd data : Z) (done : WORK_CMD_AFTER_DONE)
| RPutTask (taskID cmd data : Z) (done : WORK_CMD_AFTER_DONE)
| RPutRecord (taskID cmd : Z)
| RWakeup (taskID : Z)
| RStatus (taskID : Z)
| RStatusRemove (taskID sts : Z)
| RResetSize (start : Z)
| RResetScan (start : Z) (busy : bool)
| RResetWait (start : Z)
| RResetEmpty.

(** Where the worker thread is: waiting on its semaphore, at [chain_get], running a
    task, or recording its result. *)
Inductive worker_state :=
| WWait
| WGet
| WRun (t : WORK_CMD_TASK)
| WRecord (t : WORK_CMD_TASK) (result : Z)
| WEvent (t : WORK_CMD_TASK) (result : Z).

(** [class ADTaskWorker] and its threads; [sema] is the semaphore of [work_thread],
    [events] and [runs] record the events sent and the tasks run with their results. *)
Record ADTaskWorker := {
  work_chain : Chain.chain WORK_CMD_TASK;
  work_inprog_chain : Chain.chain WORK_CMD_TASK_IN_PROG;
  running_since_ms : Z;
  sema : Z;
  rpc_pc : rpc_state;
  worker_pc : worker_state;
  events : list (Z * Z * Z);
  runs : list (Z * Z);
}.

Definition new_ADTaskWorker : ADTaskWorker :=
  {| work_chain := Chain.empty_chain; work_inprog_chain := Chain.empty_chain;
     running_since_ms := 0; sema := 0; rpc_pc := RIdle; worker_pc := WWait;
     events := []; runs := [] |}.

Definition with_rpc (w : ADTaskWorker) (pc : rpc_state) : ADTaskWorker :=
  {| work_chain := work_chain w; work_inprog_chain := work_inprog_chain w;
     running_since_ms := running_since_ms w; sema := sema w; rpc_pc := pc;
     worker_pc := worker_pc w; events := events w; runs := runs w |}.
Definition with_worker (w : ADTaskWorker) (pc : worker_state) : ADTaskWorker :=
  {| work_chain := work_chain w; work_inprog_chain := work_inprog_chain w;
     running_since_ms := running_since_ms w; sema := sema w; rpc_pc := rpc_pc w;
     worker_pc := pc; events := events w; runs := runs w |}.
Definition with_work (w : ADTaskWorker) (c : Chain.chain WORK_CMD_TASK) : ADTaskWorker :=
  {| work_chain := c; work_inprog_chain := work_inprog_chain w;
     running_since_ms := running_since_ms w; sema := sema w; rpc_pc := rpc_pc w;
     worker_pc := worker_pc w; events := events w; runs := runs w |}.
Definition with_inprog (w : ADTaskWorker) (c : Chain.chain WORK_CMD_TASK_IN_PROG) : ADTaskWorker :=
  {| work_chain := work_chain w; work_inprog_chain := c;
     running_since_ms := running_since_ms w; sema := sema w; rpc_pc := rpc_pc w;
     worker_pc := worker_pc w; events := events w; runs := runs w |}.
Definition with_sema (w : ADTaskWorker) (n : Z) : ADTaskWorker :=
  {| work_chain := work_chain w; work_inprog_chain := work_inprog_chain w;
     running_since_ms := running_since_ms w; sema := n; rpc_pc := rpc_pc w;
     worker_pc := worker_pc w; events := events w; runs := runs w |}.
Definition with_running (w : ADTaskWorker) (t : Z) : ADTaskWorker :=
  {| work_chain := work_chain w; work_inprog_chain := work_inprog_chain w;
     running_since_ms := t; sema := sema w; rpc_pc := rpc_pc w;
     worker_pc := worker_pc w; events := events w; runs := runs w |}.
Definition with_logs (w : ADTaskWorker) (e : list (Z * Z * Z)) (r : list (Z * Z)) : ADTaskWorker :=
  {| work_chain := work_chain w; work_inprog_chain := work_inprog_chain w;
     running_since_ms := running_since_ms w; sema := sema w; rpc_pc := rpc_pc w;
     worker_pc := worker_pc w; events := e; runs := r |}.

(** ** The methods of the RPC thread *)

Definition new_task (taskID cmd data : Z) (done : WORK_CMD_AFTER_DONE) : WORK_CMD_TASK :=
  {| wt_taskID := taskID; wt_percent_complete := 0; wt_command := cmd; wt_taskSts := Rpc.IN_PROG;
     wt_done_action := done; wt_resp_type := ADLIB_ASYNC_RESP_TYPE_POLL; wt_pWorkData := data |}.
Definition new_record (taskID cmd : Z) : WORK_CMD_TASK_IN_PROG :=
  {| ip_taskID := taskID; ip_percent_complete := 0; ip_command := cmd; ip_taskSts := Rpc.IN_PROG;
     ip_task_err_message := EmptyString |}.

(** A status that is not [RPC_SRV_RESULT_IN_PROG]. *)
Definition finished (p : WORK_CMD_TASK_IN_PROG) : bool := negb (ip_taskSts p =? Rpc.IN_PROG).

(** One step of [push_task()] and [evict_completed_tasks()]. *)
Definition push_step (w : ADTaskWorker) : option (option reply * ADTaskWorker) :=
  match rpc_pc w with
  | RPushSize cmd data done =>
      Some (None, with_rpc w (if Chain.size (work_inprog_chain w) >=? ADTASK_WORKER_MAX_INPROG_TASKS
                              then REvictSize cmd data done else RIdent cmd data done))
  | REvictSize cmd data done =>
      Some (None, with_rpc w (if Chain.size (work_inprog_chain w) >=? ADTASK_WORKER_MAX_INPROG_TASKS
                              then REvictScan cmd data done else RIdent cmd data done))
  | REvictScan cmd data done =>
      let victim := match find_first finished (Chain.items (work_inprog_chain w)) with
                    | Some p => ip_taskID p | None => -1 end in
      Some (None, with_rpc w (if victim <? 0 then RIdent cmd data done
                              else REvictRemove victim cmd data done))
  | REvictRemove victim cmd data done =>
      Some (None, with_rpc (with_inprog w (Chain.take (identify_inprog victim) (work_inprog_chain w)).2)
                    (REvictSize cmd data done))
  | RIdent cmd data done =>
      let rc := Chain.generate_ident (work_inprog_chain w) in
      Some (None, with_rpc (with_inprog w rc.2) (RPutTask rc.1 cmd data done))
  | RPutTask taskID cmd data done =>
      let rc := Chain.put (work_chain w) (new_task taskID cmd data done) in
      if rc.1 =? 0 then Some (None, with_rpc (with_work w rc.2) (RPutRecord taskID cmd))
      else Some (Some (PushReply (-1) taskID), with_rpc w RIdle)
  | RPutRecord taskID cmd =>
      let rc := Chain.put (work_inprog_chain w) (new_record taskID cmd) in
      if rc.1 =? 0 then Some (None, with_rpc (with_inprog w rc.2) (RWakeup taskID))
      else Some (Some (PushReply (-1) taskID),
                 with_rpc (with_work w (Chain.take (identify_task taskID) (work_chain w)).2) RIdle)
  | RWakeup taskID =>
      Some (Some (PushReply 0 taskID), with_rpc (with_sema w (sema w + 1)) RIdle)
  | _ => None
  end.

(** One step of [get_task_status()]. *)
Definition status_step (w : ADTaskWorker) : option (option reply * ADTaskWorker) :=
  match rpc_pc w with
  | RStatus taskID =>
      match Chain.lookup (identify_inprog taskID) (work_inprog_chain w) with
      | None => Some (Some (StatusReply Rpc.SUCCESS Rpc.TASK_ID_NOT_FOUND), with_rpc w RIdle)
      | Some p =>
          if ip_taskSts p =? Rpc.IN_PROG then
            Some (Some (StatusReply Rpc.SUCCESS Rpc.IN_PROG), with_rpc w RIdle)
          else Some (None, with_rpc w (RStatusRemove taskID (ip_taskSts p)))
      end
  | RStatusRemove taskID sts =>
      Some (Some (StatusReply Rpc.SUCCESS sts),
            with_rpc (with_inprog w (Chain.take (identify_inprog taskID) (work_inprog_chain w)).2) RIdle)
  | _ => None
  end.

(** One step of [reset_task_id_and_chain()] and [tasks_pending()], at the time
    [now]. *)
Definition reset_step (w : ADTaskWorker) (now : Z) : option (option reply * ADTaskWorker) :=
  match rpc_pc w with
  | RResetSize start =>
      Some (None, with_rpc w (RResetScan start (Chain.size (work_chain w) >? 0)))
  | RResetScan start busy =>
      if busy || existsb (fun p => negb (finished p)) (Chain.items (work_inprog_chain w))
      then Some (None, with_rpc w (RResetWait start))
      else Some (None, with_rpc w RResetEmpty)
  | RResetWait start =>
      let since := running_since_ms w in
      if negb (since =? 0) && (now - since >=? ADTASK_WORKER_RESET_WAIT_MS) then
        Some (Some (ResetReply Rpc.BUSY), with_rpc w RIdle)
      else if now - start >=? ADTASK_WORKER_RESET_WAIT_MS then
        Some (Some (ResetReply Rpc.BUSY), with_rpc w RIdle)
      else Some (None, with_rpc w (RResetSize start))
  | RResetEmpty =>
      Some (Some (ResetReply Rpc.SUCCESS),
            with_rpc (with_inprog w (Chain.empty (work_inprog_chain w)).2) RIdle)
  | _ => None
  end.

(** ** The worker thread *)

(** The record with its result. *)
Definition complete (result : Z) (p : WORK_CMD_TASK_IN_PROG) : WORK_CMD_TASK_IN_PROG :=
  {| ip_taskID := ip_taskID p; ip_percent_complete := 100; ip_command := ip_command p;
     ip_taskSts := result; ip_task_err_message := ip_task_err_message p |}.

(** Writing through the pointer [chain_get_by_ident()] returned. *)
Fixpoint update_first {A} (f : A -> bool) (g : A -> A) (l : list A) : list A :=
  match l with
  | [] => []
  | x :: r => if f x then g x :: r else x :: update_first f g r
  end.

(** The action after the task: a trigger is deleted. *)
Definition done_action (t : WORK_CMD_TASK) : WORK_CMD_AFTER_DONE :=
  if wt_resp_type t =? ADLIB_ASYNC_RESP_TYPE_TRIGGER then WORK_CMD_AFTER_DONE_DELETE
  else wt_done_action t.

(** One step of [my_thread_func] and [monoshot_callback_function()]: at the time
    [now], and with the result of [run_work()] when a task ends. *)
Definition worker_step (w : ADTaskWorker) (now result : Z) : option ADTaskWorker :=
  match worker_pc w with
  | WWait => if sema w >? 0 then Some (with_worker (with_sema w (sema w - 1)) WGet) else None
  | WGet =>
      match Chain.get (work_chain w) with
      | (Some t, c) => Some (with_worker (with_running (with_work w c) now) (WRun t))
      | (None, _) => Some (with_worker w WWait)
      end
  | WRun t =>
      Some (with_worker (with_running (with_logs w (events w) (runs w ++ [(wt_taskID t, result)])) 0)
              (WRecord t result))
  | WRecord t r =>
      match done_action t with
      | WORK_CMD_AFTER_DONE_PRESERVE =>
          let c := work_inprog_chain w in
          Some (with_worker (with_inprog w
                  (Chain.set_items c (update_first (identify_inprog (wt_taskID t)) (complete r)
                                        (Chain.items c)))) (WEvent t r))
      | _ => Some (with_worker (with_inprog w
                     (Chain.take (identify_inprog (wt_taskID t)) (work_inprog_chain w)).2) WWait)
      end
  | WEvent t r =>
      Some (with_worker (with_logs w (events w ++ [(ADLIB_EVENT_NUM_INPROG_DONE, wt_taskID t, r)])
                           (runs w)) WWait)
  end.

(** ** Runs *)

Inductive action :=
| CallPush (cmd data : Z) (done : WORK_CMD_AFTER_DONE)
| CallStatus (taskID : Z)
| CallReset (now : Z)
| RpcStep (now : Z)
| WorkerStep (now result : Z).

Definition step (w : ADTaskWorker) (a : action) : option (option reply * ADTaskWorker) :=
  match a with
  | CallPush cmd data done =>
      match rpc_pc w with RIdle => Some (None, with_rpc w (RPushSize cmd data done)) | _ => None end
  | CallStatus taskID =>
      match rpc_pc w with RIdle => Some (None, with_rpc w (RStatus taskID)) | _ => None end
  | CallReset now =>
      match rpc_pc w with RIdle => Some (None, with_rpc w (RResetSize now)) | _ => None end
  | RpcStep now =>
      match push_step w with
      | Some r => Some r
      | None => match status_step w with Some r => Some r | None => reset_step w now end
      end
  | WorkerStep now result => w' ← worker_step w now result; Some (None, w')
  end.

(** The replies and the state after a run; [None] if a step cannot be made. *)
Fixpoint run (w : ADTaskWorker) (l : list action) : option (list reply * ADTaskWorker) :=
  match l with
  | [] => Some ([], w)
  | a :: r =>
      rw ← step w a;
      rest ← run rw.2 r;
      Some (match rw.1 with Some x => x :: rest.1 | None => rest.1 end, rest.2)
  end.

Definition push_run : list action :=
  [CallPush 7 0 WORK_CMD_AFTER_DONE_PRESERVE; RpcStep 0; RpcStep 0; RpcStep 0; RpcStep 0; RpcStep 0].
Definition work_run (r : Z) : list action :=
  [WorkerStep 5 0; WorkerStep 5 0; WorkerStep 9 r; WorkerStep 9 0; WorkerStep 9 0].
Definition status_run (id : Z) : list action := [CallStatus id; RpcStep 0; RpcStep 0].

Example worker_ex :
  fst <$> run new_ADTaskWorker (push_run ++ [CallStatus 1; RpcStep 0] ++ work_run 0 ++ status_run 1 ++
                                [CallStatus 1; RpcStep 0]) =
  Some [PushReply 0 1; StatusReply 0 Rpc.IN_PROG; StatusReply 0 0; StatusReply 0 Rpc.TASK_ID_NOT_FOUND].
Proof. vm_compute. reflexivity. Qed.

(** ** The invariant *)

(** The task the worker holds, and all tasks not finished yet. *)
Definition held (w : ADTaskWorker) : list WORK_CMD_TASK :=
  match worker_pc w with WRun t => [t] | WRecord t _ => [t] | _ => [] end.
Definition live (w : ADTaskWorker) : list WORK_CMD_TASK := held w ++ Chain.items (work_chain w).
Abbreviation records w := (Chain.items (work_inprog_chain w)).

Definition getting (w : ADTaskWorker) : Z := match worker_pc w with WGet => 1 | _ => 0 end.
Definition unannounced (w : ADTaskWorker) : Z :=
  match rpc_pc w with RPutRecord _ _ => 1 | RWakeup _ => 1 | _ => 0 end.

(** A task that has its record, in progress. *)
Definition tracked (w : ADTaskWorker) (t : WORK_CMD_TASK) : Prop :=
  exists p, p ∈ records w /\ ip_taskID p = wt_taskID t /\ ip_taskSts p = Rpc.IN_PROG.

(** The identifiers of the tasks not finished, and of the records. *)
Definition live_ids (w : ADTaskWorker) : list Z := map wt_taskID (live w).
Definition record_ids (w : ADTaskWorker) : list Z := map ip_taskID (records w).

(** The last result the worker got for an identifier. *)
Definition last_result (id : Z) (runs : list (Z * Z)) : option Z :=
  snd <$> find_first (fun x => x.1 =? id) (rev runs).

(** What holds at each point of the RPC thread's methods. *)
Definition rpc_ok (w : ADTaskWorker) : Prop :=
  let n := Chain.ident (work_inprog_chain w) in
  match rpc_pc w with
  | REvictRemove victim _ _ _ => victim ∉ live_ids w
  | RPutTask id _ _ _ => id = n /\ n ∉ live_ids w /\ n ∉ record_ids w /\ 0 < n
  | RPutRecord id _ => id = n /\ n ∉ record_ids w /\
      exists q t, Chain.items (work_chain w) = q ++ [t] /\ wt_taskID t = n /\ n ∉ map wt_taskID (held w ++ q)
  | RStatusRemove id sts => id ∉ live_ids w /\ last_result id (runs w) = Some sts
  | RResetScan _ busy => busy = false -> Chain.items (work_chain w) = []
  | RResetEmpty => live w = []
  | _ => True
  end.

(** The task being pushed, which has no record yet. *)
Definition unrecorded (w : ADTaskWorker) (id : Z) : Prop :=
  exists cmd, rpc_pc w = RPutRecord id cmd.

Record worker_ok (k : Z) (w : ADTaskWorker) : Prop := {
  wk_work : Chain.open (work_chain w) = true /\ Chain.attached (work_chain w) = true;
  wk_inprog : Chain.open (work_inprog_chain w) = true /\ Chain.attached (work_inprog_chain w) = true;
  wk_ident : 0 <= Chain.ident (work_inprog_chain w) <= k;
  wk_live : NoDup (live_ids w);
  wk_records : NoDup (record_ids w);
  wk_range : forall id, id ∈ live_ids w \/ id ∈ record_ids w -> 0 < id <= Chain.ident (work_inprog_chain w);
  wk_tracked : forall t, t ∈ live w -> tracked w t \/ unrecorded w (wt_taskID t);
  wk_count : Z.of_nat (length (Chain.items (work_chain w))) = sema w + getting w + unannounced w;
  wk_sema : 0 <= sema w;
  wk_results : forall p, p ∈ records w -> finished p = true ->
    last_result (ip_taskID p) (runs w) = Some (ip_taskSts p) /\ ip_taskID p ∉ live_ids w;
  wk_record : forall t r, worker_pc w = WRecord t r -> last_result (wt_taskID t) (runs w) = Some r;
  wk_rpc : rpc_ok w;
}.

Lemma last_result_snoc (id id' r : Z) (l : list (Z * Z)) :
  last_result id (l ++ [(id', r)]) = if id' =? id then Some r else last_result id l.
Proof. unfold last_result. rewrite rev_app_distr. simpl. by destruct (id' =? id). Qed.

Lemma update_first_ids (f : WORK_CMD_TASK_IN_PROG -> bool) (r : Z) (l : list WORK_CMD_TASK_IN_PROG) :
  map ip_taskID (update_first f (complete r) l) = map ip_taskID l.
Proof. induction l as [|x l IH]; simpl; [done|]. destruct (f x); simpl; [done|by rewrite IH]. Qed.

(** In a chain of records with distinct identifiers, finding, removing and updating
    by identifier concern the record with that identifier and no other. *)
Section by_ident.
Context (l : list WORK_CMD_TASK_IN_PROG) (id : Z).
Hypothesis Hnd : NoDup (map ip_taskID l).

Lemma record_injective (p q : WORK_CMD_TASK_IN_PROG) :
  p ∈ l -> q ∈ l -> ip_taskID p = ip_taskID q -> p = q.
Proof.
  intros (i & Hi)%list_elem_of_lookup (j & Hj)%list_elem_of_lookup Ht.
  assert (i = j) as ->; [|by simplify_eq].
  apply (NoDup_lookup (map ip_taskID l) i j (ip_taskID p) Hnd).
  - by rewrite list_lookup_fmap, Hi.
  - by rewrite list_lookup_fmap, Hj, Ht.
Qed.

Lemma elem_of_remove_ident (p : WORK_CMD_TASK_IN_PROG) :
  p ∈ remove_first (identify_inprog id) l <-> p ∈ l /\ ip_taskID p <> id.
Proof.
  clear -Hnd. induction l as [|x r IH]; simpl in *; [set_solver|].
  apply NoDup_cons in Hnd as [Hx Hr]. unfold identify_inprog at 1.
  destruct (Z.eqb_spec (ip_taskID x) id) as [<-|Hne].
  - split.
    + intros Hp. split; [set_solver|]. intros E. apply Hx. rewrite <- E.
      by apply (list_elem_of_fmap_2 ip_taskID).
    + intros [[->|?]%elem_of_cons ?]; done.
  - rewrite !elem_of_cons, (IH Hr). split; [intros [->|[? ?]]; auto|intros [[->|?] ?]; auto].
Qed.

Lemma elem_of_complete_ident (r : Z) (p : WORK_CMD_TASK_IN_PROG) :
  p ∈ update_first (identify_inprog id) (complete r) l <->
  (p ∈ l /\ ip_taskID p <> id) \/ exists q, q ∈ l /\ ip_taskID q = id /\ p = complete r q.
Proof.
  clear -Hnd. induction l as [|x rest IH]; simpl in *.
  - split; [set_solver|]. intros [[? _]|(? & ? & _)]; set_solver.
  - apply NoDup_cons in Hnd as [Hx Hr]. unfold identify_inprog at 1.
    assert (forall q, q ∈ rest -> ip_taskID q <> ip_taskID x) as Hne.
    { intros q Hq E. apply Hx. rewrite <- E. by apply (list_elem_of_fmap_2 ip_taskID). }
    destruct (Z.eqb_spec (ip_taskID x) id) as [<-|Hn].
    + split.
      * intros [->|Hp]%elem_of_cons; [right; exists x; set_solver|left; split; [set_solver|by apply Hne]].
      * intros [[[->|Hp]%elem_of_cons ?]|(q & [->|Hq]%elem_of_cons & Hid & ->)]; [done|set_solver..| |].
        -- apply elem_of_cons. by left.
        -- by destruct (Hne q Hq).
    + rewrite !elem_of_cons, (IH Hr). split.
      * intros [->|[[? ?]|(q & ? & ? & ->)]]; [by left; auto|by left; auto|].
        right. exists q. rewrite elem_of_cons. auto.
      * intros [[[->|?] ?]|(q & [->|?]%elem_of_cons & ? & ->)]; [by left|by right; left|done|].
        right. right. eauto.
Qed.

End by_ident.

(** ** Every step keeps the invariant *)

Lemma take_inprog (w : ADTaskWorker) (k id : Z) :
  worker_ok k w ->
  (Chain.take (identify_inprog id) (work_inprog_chain w)).2 =
  Chain.set_items (work_inprog_chain w) (remove_first (identify_inprog id) (records w)).
Proof. intros Hok. unfold Chain.take. by destruct (wk_inprog k w Hok) as [-> ->]. Qed.

(** Moving the RPC thread on. *)
Lemma ok_pc (k : Z) (w : ADTaskWorker) (pc : rpc_state) :
  worker_ok k w -> rpc_ok (with_rpc w pc) -> unannounced w = 0 -> unannounced (with_rpc w pc) = 0 ->
  worker_ok (k + 1) (with_rpc w pc).
Proof.
  intros [? ? ? ? ? ? Ht ? ? ? ? ?] Hr H0 H1. constructor; simpl; try done; try lia.
  - intros t Hin. destruct (Ht t Hin) as [?|[cmd Hu]]; [by left|].
    unfold unannounced in H0. by rewrite Hu in H0.
  - change (getting (with_rpc w pc)) with (getting w). lia.
Qed.

(** Removing the record of a task that is not live. *)
Lemma ok_remove (k : Z) (w : ADTaskWorker) (id : Z) (pc : rpc_state) :
  worker_ok k w -> id ∉ live_ids w -> unannounced w = 0 -> unannounced (with_rpc w pc) = 0 ->
  rpc_ok (with_rpc (with_inprog w (Chain.take (identify_inprog id) (work_inprog_chain w)).2) pc) ->
  worker_ok (k + 1) (with_rpc (with_inprog w (Chain.take (identify_inprog id) (work_inprog_chain w)).2) pc).
Proof.
  intros Hok Hid H0 H1 Hr. rewrite (take_inprog w k id Hok) in *.
  destruct Hok as [Hw Hi Hk Hlive Hrec Hrange Ht Hc Hs Hres Hrecord Hrpc].
  constructor; simpl; try done; try lia.
  - eapply sublist_NoDup; [exact Hrec|]. apply map_sublist, remove_first_sublist.
  - intros i [Hin|(p & -> & Hp)%list_elem_of_fmap_1]; [by apply Hrange; left|].
    apply (Hrange (ip_taskID p)). right. apply (list_elem_of_fmap_2 ip_taskID).
    by apply (elem_of_remove_ident (records w) id Hrec) in Hp as [? _].
  - intros t Hin. left. destruct (Ht t Hin) as [(p & Hp & Hpid & Hps)|[cmd Hu]].
    + exists p. simpl. rewrite (elem_of_remove_ident (records w) id Hrec). split_and!; try done.
      intros E. apply Hid. rewrite <- E, Hpid. by apply (list_elem_of_fmap_2 wt_taskID).
    + unfold unannounced in H0. by rewrite Hu in H0.
  - change (Z.of_nat (length (Chain.items (work_chain w))) =
            sema w + getting w + unannounced (with_rpc w pc)). lia.
  - intros p Hp Hf. apply Hres; [|done].
    by apply (elem_of_remove_ident (records w) id Hrec) in Hp as [? _].
Qed.

Lemma ident_fresh (k : Z) (w : ADTaskWorker) (id : Z) :
  worker_ok k w -> Chain.ident (work_inprog_chain w) < id -> id ∉ live_ids w /\ id ∉ record_ids w.
Proof.
  intros Hok Hid. split; intros Hin; [pose proof (wk_range k w Hok id (or_introl Hin))|
    pose proof (wk_range k w Hok id (or_intror Hin))]; lia.
Qed.

Lemma push_step_ok (k : Z) (w w' : ADTaskWorker) (r : option reply) :
  worker_ok k w -> k < int_max -> push_step w = Some (r, w') -> worker_ok (k + 1) w'.
Proof.
  intros Hok Hk Hs. pose proof (wk_rpc k w Hok) as Hrpc. unfold push_step in Hs.
  pose proof (wk_ident k w Hok) as Hident.
  destruct (rpc_pc w) eqn:Epc; simplify_eq; unfold rpc_ok in Hrpc; rewrite Epc in Hrpc;
    pose proof (eq_refl (unannounced w)) as Hun; unfold unannounced in Hun at 2; rewrite Epc in Hun.
  - destruct (_ >=? _); by apply ok_pc.
  - destruct (_ >=? _); by apply ok_pc.
  - destruct (find_first finished (records w)) as [p|] eqn:F.
    + destruct (_ <? 0); apply ok_pc; try done. simpl. apply find_first_Some in F as [Hp Hf].
      by apply (wk_results k w Hok p).
    + by apply ok_pc.
  - by apply (ok_remove k w victim).
  - simpl. set (n := i32 (Chain.ident (work_inprog_chain w) + 1)).
    assert (n = Chain.ident (work_inprog_chain w) + 1) as En.
    { apply i32_id. unfold int_min, int_max in *. lia. }
    destruct (ident_fresh k w n Hok) as [Hnl Hnr]; [lia|].
    destruct Hok as [Hw Hi _ Hlive Hrec Hrange Ht Hc Hsem Hres Hrecord _].
    constructor; simpl; try done; try lia.
    + intros id Hin. specialize (Hrange id Hin). lia.
    + intros t Hin. left. destruct (Ht t Hin) as [?|[cmd' Hu]]; [done|congruence].
    + change (Z.of_nat (length (Chain.items (work_chain w))) = sema w + getting w + 0). lia.
    + unfold rpc_ok. simpl. split_and!; [done..|lia].
  - unfold Chain.put in Hs. destruct (wk_work k w Hok) as [Ho Ha]. rewrite Ho in Hs.
    simpl in Hs. simplify_eq. destruct Hrpc as (-> & Hnl & Hnr & Hpos).
    destruct Hok as [Hw Hi _ Hlive Hrec Hrange Ht Hc Hsem Hres Hrecord _].
    set (n := Chain.ident (work_inprog_chain w)) in *.
    constructor; simpl; try done; try lia.
    + unfold live_ids, live in *. simpl. rewrite app_assoc, map_app.
      apply NoDup_app. split_and!; [done| |apply NoDup_singleton].
      intros x Hx Hx'. apply list_elem_of_singleton in Hx'. simpl in Hx'. by subst.
    + intros id [Hin|Hin]; [|by apply Hrange; right].
      unfold live_ids, live in Hin. simpl in Hin. rewrite app_assoc, map_app in Hin.
      apply elem_of_app in Hin as [Hin|Hin]; [by apply Hrange; left|].
      apply list_elem_of_singleton in Hin. simpl in Hin. subst id. lia.
    + intros t Hin. unfold live in Hin. simpl in Hin. rewrite app_assoc in Hin.
      apply elem_of_app in Hin as [Hin|Hin].
      * left. destruct (Ht t Hin) as [?|[cmd' Hu]]; [done|congruence].
      * apply list_elem_of_singleton in Hin as ->. right. by eexists.
    + rewrite length_app, Hun in *. unfold getting, unannounced in *. simpl. lia.
    + intros p Hp Hf. destruct (Hres p Hp Hf) as [Hl1 Hl2]. split; [done|].
      unfold live_ids, live. simpl. rewrite app_assoc, map_app. intros [?|Hx]%elem_of_app; [done|].
      apply list_elem_of_singleton in Hx. simpl in Hx.
      apply Hnr. rewrite <- Hx. by apply (list_elem_of_fmap_2 ip_taskID).
    + unfold rpc_ok. simpl. split_and!; [done|done|]. eexists _, _. split; [done|]. by split.
  - unfold Chain.put in Hs. destruct (wk_inprog k w Hok) as [Ho Ha]. rewrite Ho in Hs.
    simpl in Hs. simplify_eq. destruct Hrpc as (-> & Hnr & q & t0 & Eq & Et & Hq).
    destruct Hok as [Hw Hi _ Hlive Hrec Hrange Ht Hc Hsem Hres Hrecord _].
    set (n := Chain.ident (work_inprog_chain w)) in *.
    constructor; simpl; try done; try lia.
    + unfold record_ids in *. simpl. rewrite map_app. apply NoDup_app.
      split_and!; [done| |apply NoDup_singleton].
      intros x Hx Hx'. apply list_elem_of_singleton in Hx'. simpl in Hx'. by subst.
    + intros id [Hin|Hin]; [by apply Hrange; left|].
      unfold record_ids in Hin. simpl in Hin. rewrite map_app in Hin. apply elem_of_app in Hin as [Hin|Hin]; [by apply Hrange; right|].
      apply list_elem_of_singleton in Hin. simpl in Hin. subst id.
      apply (Hrange n). left. unfold live_ids, live. rewrite Eq, !map_app. simpl. set_solver.
    + intros t Hin. left. destruct (decide (wt_taskID t = n)) as [E|Hne].
      * exists (new_record n cmd). simpl. split; [set_solver|]. by split.
      * destruct (Ht t Hin) as [(p & ? & ? & ?)|[cmd' Hu]]; [exists p; simpl; set_solver|congruence].
    + rewrite Hun in Hc. unfold getting, unannounced in *. simpl. lia.
    + intros p [Hp|Hp]%elem_of_app Hf; [by apply Hres|].
      apply list_elem_of_singleton in Hp as ->. done.
  - destruct Hok as [Hw Hi _ Hlive Hrec Hrange Ht Hc Hsem Hres Hrecord _].
    constructor; simpl; try done; try lia.
    + intros t Hin. left. destruct (Ht t Hin) as [?|[cmd' Hu]]; [done|congruence].
    + rewrite Hun in Hc. unfold getting, unannounced in *. simpl. lia.
Qed.

Lemma status_step_ok (k : Z) (w w' : ADTaskWorker) (r : option reply) :
  worker_ok k w -> status_step w = Some (r, w') -> worker_ok (k + 1) w'.
Proof.
  intros Hok Hs. pose proof (wk_rpc k w Hok) as Hrpc. unfold status_step in Hs.
  destruct (rpc_pc w) eqn:Epc; simplify_eq; unfold rpc_ok in Hrpc; rewrite Epc in Hrpc;
    assert (unannounced w = 0) as Hun by (unfold unannounced; by rewrite Epc).
  - unfold Chain.lookup in Hs. destruct (wk_inprog k w Hok) as [_ Ha]. rewrite Ha in Hs.
    destruct (find_first _ _) as [p|] eqn:F; simplify_eq; [|by apply ok_pc].
    destruct (ip_taskSts p =? Rpc.IN_PROG) eqn:E; simplify_eq; apply ok_pc; try done.
    apply find_first_Some in F as [Hp Hid]. unfold identify_inprog in Hid. apply Z.eqb_eq in Hid as <-.
    simpl. destruct (wk_results k w Hok p Hp) as [? ?]; [unfold finished; by rewrite E|]. by split.
  - destruct Hrpc as [Hid _]. by apply (ok_remove k w taskID).
Qed.

Lemma reset_step_ok (k : Z) (w w' : ADTaskWorker) (now : Z) (r : option reply) :
  worker_ok k w -> reset_step w now = Some (r, w') -> worker_ok (k + 1) w'.
Proof.
  intros Hok Hs. pose proof (wk_rpc k w Hok) as Hrpc. unfold reset_step in Hs.
  destruct (rpc_pc w) eqn:Epc; simplify_eq; unfold rpc_ok in Hrpc; rewrite Epc in Hrpc;
    assert (unannounced w = 0) as Hun by (unfold unannounced; by rewrite Epc).
  - apply ok_pc; try done. unfold rpc_ok. simpl. unfold Chain.size.
    destruct (Chain.items (work_chain w)); [done|]. intros Hb. discriminate Hb.
  - destruct (busy || _) eqn:E; simplify_eq; apply ok_pc; try done. unfold rpc_ok. simpl.
    apply orb_false_iff in E as [-> E]. specialize (Hrpc eq_refl).
    change (live w = []). destruct (live w) as [|t l] eqn:El; [done|]. exfalso.
    destruct (wk_tracked k w Hok t) as [(p & Hp & _ & Hps)|[cmd Hu]]; [rewrite El; set_solver| |congruence].
    apply not_true_iff_false in E. apply E, existsb_exists. exists p.
    rewrite <- list_elem_of_In. split; [done|]. unfold finished. by rewrite Hps.
  - destruct (_ && _); simplify_eq; [by apply ok_pc|]. destruct (_ >=? _); simplify_eq; by apply ok_pc.
  - destruct Hok as [Hw Hi Hident Hlive Hrec Hrange Ht Hc Hsem Hres Hrecord _].
    change (live w = []) in Hrpc. constructor; simpl; try done; try lia.
    + by constructor.
    + intros id [Hin|Hin]; [|by apply elem_of_nil in Hin].
      change (id ∈ live_ids w) in Hin. unfold live_ids in Hin. rewrite Hrpc in Hin. by apply elem_of_nil in Hin.
    + intros t Hin. change (t ∈ live w) in Hin. rewrite Hrpc in Hin. by apply elem_of_nil in Hin.
    + rewrite Hun in Hc. unfold getting, unannounced in *. simpl. lia.
    + intros p Hp. by apply elem_of_nil in Hp.
Qed.

Lemma held_tracked (k : Z) (w : ADTaskWorker) (t : WORK_CMD_TASK) :
  worker_ok k w -> t ∈ held w -> tracked w t.
Proof.
  intros Hok Hin. destruct (wk_tracked k w Hok t) as [?|[cmd Hu]]; [unfold live; set_solver|done|].
  pose proof (wk_rpc k w Hok) as Hrpc. unfold rpc_ok in Hrpc. rewrite Hu in Hrpc.
  destruct Hrpc as (E & _ & q & t0 & _ & _ & Hn). exfalso. apply Hn. rewrite <- E.
  apply (list_elem_of_fmap_2 wt_taskID). set_solver.
Qed.

(** The worker finishing its task: it is not live any more, and the records that
    belong to other tasks are as before. *)
Lemma finish_ok (k : Z) (w w' : ADTaskWorker) (t : WORK_CMD_TASK) (r : Z)
    (c : list WORK_CMD_TASK_IN_PROG) (pc : worker_state) :
  worker_ok k w -> worker_pc w = WRecord t r -> (pc = WWait \/ pc = WEvent t r) ->
  w' = with_worker (with_inprog w (Chain.set_items (work_inprog_chain w) c)) pc ->
  map ip_taskID c `sublist_of` record_ids w ->
  (forall p, p ∈ c -> p ∈ records w /\ ip_taskID p <> wt_taskID t \/
                      exists q, q ∈ records w /\ ip_taskID q = wt_taskID t /\ p = complete r q) ->
  (forall p, p ∈ records w -> ip_taskID p <> wt_taskID t -> p ∈ c) ->
  worker_ok (k + 1) w'.
Proof.
  intros Hok Epc Hpc -> Hsub Hc1 Hc2.
  assert (held w = [t]) as Hheld by (unfold held; by rewrite Epc).
  assert (live w = t :: Chain.items (work_chain w)) as Hlw by (unfold live; by rewrite Hheld).
  destruct Hok as [Hw Hi Hident Hlive Hrec Hrange Ht Hc Hsem Hres Hrecord Hrpc].
  set (w' := with_worker _ pc).
  assert (live w' = Chain.items (work_chain w)) as Hl' by (destruct Hpc as [-> | ->]; done).
  assert (getting w = 0 /\ getting w' = 0) as [Hg Hg'].
  { unfold getting. rewrite Epc. by destruct Hpc as [-> | ->]. }
  unfold live_ids in Hlive. rewrite Hlw in Hlive. simpl in Hlive.
  apply NoDup_cons in Hlive as [Htq Hlive].
  assert (forall id, id ∈ live_ids w' -> id ∈ live_ids w /\ id <> wt_taskID t) as Hsubl.
  { unfold live_ids. rewrite Hl', Hlw. simpl. intros id Hin. split; [set_solver|]. by intros ->. }
  constructor; simpl; try done; try lia.
  - unfold live_ids. by rewrite Hl'.
  - by eapply sublist_NoDup.
  - intros id [Hin|Hin]; [apply Hrange; left; by apply Hsubl|].
    apply Hrange. right. by eapply elem_of_sublist.
  - intros x Hx. rewrite Hl' in Hx.
    assert (wt_taskID x <> wt_taskID t) as Hne.
    { intros E. apply Htq. rewrite <- E. by apply (list_elem_of_fmap_2 wt_taskID). }
    destruct (Ht x) as [(p & Hp & Hid & Hps)|[cmd Hu]]; [rewrite Hlw; set_solver|left|right].
    + exists p. split; [|done]. apply Hc2; [done|]. by rewrite Hid.
    + by exists cmd.
  - rewrite Hg'. rewrite Hg in Hc. done.
  - intros p Hp Hf. destruct (Hc1 p Hp) as [[Hp' Hne]|(q & Hq & Hid & ->)].
    + destruct (Hres p Hp' Hf). split; [done|]. by intros [? _]%Hsubl.
    + simpl in *. rewrite Hid. split; [by apply Hrecord|]. by intros [_ ?]%Hsubl.
  - intros t' r' E. destruct Hpc as [-> | ->]; discriminate E.
  - unfold rpc_ok in *. change (rpc_pc w') with (rpc_pc w).
    change (Chain.ident (work_inprog_chain w')) with (Chain.ident (work_inprog_chain w)).
    destruct (rpc_pc w) eqn:E; try done.
    + by intros [? _]%Hsubl.
    + destruct Hrpc as (-> & Hn & Hr & Hpos). split_and!; try done; [by intros [? _]%Hsubl|].
      intros Hin. apply Hr. by eapply elem_of_sublist.
    + destruct Hrpc as (-> & Hr & q & t0 & Eq & Et & Hn). split; [done|].
      split; [intros Hin; apply Hr; by eapply elem_of_sublist|].
      exists q, t0. split_and!; try done. intros Hin. apply Hn. rewrite Hheld.
      assert (held w' = []) as Hh' by (destruct Hpc as [-> | ->]; done). rewrite Hh' in Hin.
      simpl in *. set_solver.
    + destruct Hrpc as [Hn Hlast]. split; [by intros [? _]%Hsubl|done].
    + change (live w' = []). rewrite Hlw in Hrpc. discriminate.
Qed.

Lemma worker_get_ok (k : Z) (w : ADTaskWorker) (now : Z) :
  worker_ok k w -> worker_pc w = WGet ->
  exists t q, Chain.items (work_chain w) = t :: q /\ tracked w t /\
    worker_ok (k + 1) (with_worker (with_running (with_work w (Chain.set_items (work_chain w) q)) now) (WRun t)).
Proof.
  intros Hok Epc. assert (held w = []) as Hheld by (unfold held; by rewrite Epc).
  destruct Hok as [Hw Hi Hident Hlive Hrec Hrange Ht Hc Hsem Hres Hrecord Hrpc].
  assert (getting w = 1) as Hg by (unfold getting; by rewrite Epc).
  assert (0 <= unannounced w) by (unfold unannounced; destruct (rpc_pc w); lia).
  destruct (Chain.items (work_chain w)) as [|t q] eqn:Eq; [simpl in Hc; lia|].
  assert (live w = t :: q) as Hl by (unfold live; by rewrite Hheld, Eq).
  exists t, q. split; [done|].
  assert (forall id cmd, rpc_pc w = RPutRecord id cmd ->
    exists q' t0, q = q' ++ [t0] /\ wt_taskID t0 = Chain.ident (work_inprog_chain w) /\
      Chain.ident (work_inprog_chain w) ∉ map wt_taskID (t :: q')) as Hlast.
  { intros id cmd E. unfold rpc_ok in Hrpc. rewrite E, Hheld, Eq in Hrpc.
    destruct Hrpc as (_ & _ & q' & t0 & Eq' & Et & Hn). simpl in Hn.
    destruct q' as [|x q']; simpl in Eq'; simplify_eq.
    - unfold unannounced in Hc. rewrite E in Hc. simpl in Hc. lia.
    - exists q', t0. by split_and!. }
  split.
  - destruct (Ht t) as [?|[cmd Hu]]; [rewrite Hl; set_solver|done|].
    destruct (Hlast _ cmd Hu) as (q' & t0 & _ & _ & Hn). unfold rpc_ok in Hrpc. rewrite Hu in Hrpc.
    destruct Hrpc as (E & _). exfalso. apply Hn. simpl. rewrite <- E. set_solver.
  - constructor; simpl; try done; try lia.
    + unfold live_ids in *. by rewrite Hl in Hlive.
    + intros id Hin. apply Hrange. unfold live_ids in *. by rewrite Hl.
    + intros x Hx. apply Ht. by rewrite Hl.
    + rewrite Hg in Hc. simpl in Hc. unfold getting, unannounced in *. simpl. lia.
    + intros p Hp Hf. destruct (Hres p Hp Hf) as [? Hn]. split; [done|].
      unfold live_ids in *. by rewrite Hl in Hn.
    + unfold rpc_ok in *. simpl. unfold live_ids in *. rewrite Hl in Hrpc.
      destruct (rpc_pc w) eqn:E; try done; try (rewrite Eq in Hrpc; auto).
      * destruct Hrpc as (? & ? & _). split_and!; [done..|].
        destruct (Hlast _ _ eq_refl) as (q' & t0 & ? & ? & ?). exists q', t0. by split_and!.
      * intros Hb. by specialize (Hrpc Hb).
Qed.

Lemma worker_step_ok (k : Z) (w w' : ADTaskWorker) (now result : Z) :
  worker_ok k w -> worker_step w now result = Some w' -> worker_ok (k + 1) w'.
Proof.
  intros Hok Hs. unfold worker_step in Hs. destruct (worker_pc w) as [| |t|t r|t r] eqn:Epc.
  - destruct (Z.gtb_spec (sema w) 0); simplify_eq. assert (held w = []) as Hh by (unfold held; by rewrite Epc).
    destruct Hok as [Hw Hi Hident Hlive Hrec Hrange Ht Hc Hsem Hres Hrecord Hrpc].
    unfold rpc_ok, live_ids, live in *. rewrite Hh in *.
    constructor; simpl; try done; try lia.
    unfold getting in *. rewrite Epc in Hc. unfold unannounced in *. simpl. lia.
  - destruct (worker_get_ok k w now Hok Epc) as (t & q & Eq & _ & Hok').
    unfold Chain.get in Hs. rewrite Eq in Hs. destruct (wk_work k w Hok) as [Ho _]. rewrite Ho in Hs.
    by simplify_eq.
  - simplify_eq. assert (held w = [t]) as Hh by (unfold held; by rewrite Epc).
    destruct Hok as [Hw Hi Hident Hlive Hrec Hrange Ht Hc Hsem Hres Hrecord Hrpc].
    assert (wt_taskID t ∈ live_ids w) as Htl by (unfold live_ids, live; rewrite Hh; simpl; set_solver).
    assert (forall id, id ∉ live_ids w ->
      last_result id (runs w ++ [(wt_taskID t, result)]) = last_result id (runs w)) as Hlast.
    { intros id Hn. rewrite last_result_snoc. destruct (Z.eqb_spec (wt_taskID t) id); [by subst|done]. }
    unfold live_ids, live in *. rewrite Hh in *.
    constructor; simpl; try done; try lia.
    + unfold getting, unannounced in *. rewrite Epc in Hc. simpl. lia.
    + intros p Hp Hf. destruct (Hres p Hp Hf). split; [|done]. by rewrite Hlast.
    + intros t' r' [= <- <-]. rewrite last_result_snoc. by rewrite Z.eqb_refl.
    + unfold rpc_ok, live_ids, live in *. simpl. rewrite Hh in Hrpc. destruct (rpc_pc w); try done.
      destruct Hrpc as [Hn ?]. split; [done|]. by rewrite Hlast.
  - destruct (wk_inprog k w Hok) as [Ho Ha].
    assert (NoDup (record_ids w)) as Hnd by apply (wk_records k w Hok).
    assert (map ip_taskID (remove_first (identify_inprog (wt_taskID t)) (records w)) `sublist_of`
            record_ids w) as Hsub by (apply map_sublist, remove_first_sublist).
    destruct (done_action t); simplify_eq.
    { eapply (finish_ok k w _ t r _ (WEvent t r)); [done|done|auto|done|..].
      - by rewrite update_first_ids.
      - intros p Hp. by apply elem_of_complete_ident in Hp.
      - intros p Hp Hn. apply elem_of_complete_ident; auto. }
    all: rewrite (take_inprog w k _ Hok); eapply (finish_ok k w _ t r _ WWait);
      [done|done|auto|done|done|..]; intros p Hp;
      [left; by apply elem_of_remove_ident in Hp|intros; by apply elem_of_remove_ident].
  - simplify_eq. assert (held w = []) as Hh by (unfold held; by rewrite Epc).
    destruct Hok as [Hw Hi Hident Hlive Hrec Hrange Ht Hc Hsem Hres Hrecord Hrpc].
    unfold rpc_ok, live_ids, live in *. rewrite Hh in *.
    constructor; simpl; try done; try lia.
    unfold getting in *. rewrite Epc in Hc. unfold unannounced in *. simpl. lia.
Qed.

Lemma worker_any_step_ok (k : Z) (w w' : ADTaskWorker) (a : action) (r : option reply) :
  worker_ok k w -> k < int_max -> step w a = Some (r, w') -> worker_ok (k + 1) w'.
Proof.
  intros Hok Hk Hs. destruct a; simpl in Hs.
  - destruct (rpc_pc w) eqn:E; simplify_eq. apply ok_pc; try done. unfold unannounced. by rewrite E.
  - destruct (rpc_pc w) eqn:E; simplify_eq. apply ok_pc; try done. unfold unannounced. by rewrite E.
  - destruct (rpc_pc w) eqn:E; simplify_eq. apply ok_pc; try done. unfold unannounced. by rewrite E.
  - destruct (push_step w) as [[r1 w1]|] eqn:E1; simplify_eq; [by eapply push_step_ok|].
    destruct (status_step w) as [[r1 w1]|] eqn:E2; simplify_eq; [by eapply status_step_ok|].
    by eapply reset_step_ok.
  - destruct (worker_step w now result) eqn:E; simpl in Hs; simplify_eq. by eapply worker_step_ok.
Qed.

Lemma new_worker_ok : worker_ok 0 new_ADTaskWorker.
Proof.
  constructor; simpl; try done; try (by constructor); try lia.
  - intros id [Hin|Hin]; by apply elem_of_nil in Hin.
  - intros t Hin. by apply elem_of_nil in Hin.
  - intros p Hin. by apply elem_of_nil in Hin.
Qed.

Lemma worker_run_ok (l : list action) (k : Z) (w w' : ADTaskWorker) (rs : list reply) :
  worker_ok k w -> k + Z.of_nat (length l) <= int_max -> run w l = Some (rs, w') ->
  worker_ok (k + Z.of_nat (length l)) w'.
Proof.
  revert k w rs; induction l as [|a l IH]; intros k w rs Hok Hk Hr; simpl in Hr.
  { simplify_eq. simpl. by rewrite Z.add_0_r. }
  destruct (step w a) as [[r w1]|] eqn:E; simpl in Hr; [|done].
  destruct (run w1 l) as [[rs1 w2]|] eqn:E2; simpl in Hr; simplify_eq.
  cbn [length] in *. rewrite Nat2Z.inj_succ in *.
  replace (k + Z.succ (Z.of_nat (length l))) with ((k + 1) + Z.of_nat (length l)) in * by lia.
  apply (IH (k + 1) w1 rs1); [|done|done]. apply (worker_any_step_ok k w w1 a r); [done|lia|done].
Qed.

Lemma reachable_ok (l : list action) (w : ADTaskWorker) (rs : list reply) :
  run new_ADTaskWorker l = Some (rs, w) -> Z.of_nat (length l) <= int_max ->
  worker_ok (Z.of_nat (length l)) w.
Proof. intros Hr Hl. by apply (worker_run_ok l 0 new_ADTaskWorker w rs new_worker_ok). Qed.

(** ** What the invariant means *)

(** C8: no task is lost or forgotten.  In every state the two threads can reach,
    tasks not finished have distinct identifiers and so have the records; the task
    the worker is running, and the next one it takes when it has been woken, have
    exactly one record, in progress; and so has every queued task, but for the one
    whose push is between its two chain operations.  (In particular eviction never
    drops a task in progress, and the worker never finishes a task before its
    record exists.) *)
Theorem tasks_tracked (l : list action) (w : ADTaskWorker) (rs : list reply) :
  run new_ADTaskWorker l = Some (rs, w) -> Z.of_nat (length l) <= int_max ->
  NoDup (map wt_taskID (live w)) /\ NoDup (map ip_taskID (records w)) /\
  (forall t, t ∈ live w -> tracked w t \/ exists cmd, rpc_pc w = RPutRecord (wt_taskID t) cmd) /\
  (forall t, worker_pc w = WRun t -> tracked w t) /\
  (worker_pc w = WGet -> exists t q, Chain.items (work_chain w) = t :: q /\ tracked w t).
Proof.
  intros Hr Hl. pose proof (reachable_ok l w rs Hr Hl) as Hok.
  split_and!; [apply Hok|apply Hok|apply Hok| |].
  - intros t E. eapply held_tracked; [done|]. unfold held. rewrite E. set_solver.
  - intros E. destruct (worker_get_ok _ w 0 Hok E) as (t & q & ? & ? & _). eauto.
Qed.

(** A push, whose worker wakes up before the next push is complete. *)
Definition overlapping_pushes : list action :=
  push_run ++ [CallPush 8 0 WORK_CMD_AFTER_DONE_DELETE; RpcStep 0; RpcStep 0; RpcStep 0; WorkerStep 0 0].

Lemma tasks_tracked_witness :
  exists rs w t q, run new_ADTaskWorker overlapping_pushes = Some (rs, w) /\
    Chain.items (work_chain w) = t :: q /\ tracked w t /\ length q = 1%nat.
Proof.
  destruct (run new_ADTaskWorker overlapping_pushes) as [[rs w]|] eqn:E;
    [|vm_compute in E; discriminate].
  destruct (tasks_tracked overlapping_pushes w rs E) as (_ & _ & _ & _ & H); [vm_compute; discriminate|].
  destruct H as (t & q & Eq & Ht).
  - vm_compute in E. injection E as _ E. subst w. reflexivity.
  - exists rs, w, t, q. split; [reflexivity|]. split; [exact Eq|]. split; [exact Ht|].
    vm_compute in E. injection E as _ E. subst w. cbv in Eq. injection Eq as _ Eq. by subst q.
Defined.

(** C9: a status reply is the truth.  When the server answers a status request
    for a task, either there is no record and no unfinished task of that
    identifier, or the task is recorded in progress, or the status is what the
    last run of that task returned, the task is over and its record is gone. *)
Theorem status_truthful (l : list action) (w w' : ADTaskWorker) (rs : list reply) (a : action) (r s : Z) :
  run new_ADTaskWorker l = Some (rs, w) -> Z.of_nat (length l) <= int_max ->
  step w a = Some (Some (StatusReply r s), w') ->
  r = Rpc.SUCCESS /\ exists id,
    (rpc_pc w = RStatus id /\ s = Rpc.TASK_ID_NOT_FOUND /\ id ∉ record_ids w /\ id ∉ live_ids w) \/
    (rpc_pc w = RStatus id /\ s = Rpc.IN_PROG /\
       exists p, p ∈ records w /\ ip_taskID p = id /\ ip_taskSts p = Rpc.IN_PROG) \/
    (rpc_pc w = RStatusRemove id s /\ last_result id (runs w) = Some s /\
       id ∉ live_ids w' /\ id ∉ record_ids w').
Proof.
  intros Hr Hl Hs. pose proof (reachable_ok l w rs Hr Hl) as Hok.
  pose proof (wk_rpc _ w Hok) as Hrpc. destruct a; simpl in Hs.
  1-3: by destruct (rpc_pc w); simplify_eq.
  2: by destruct (worker_step w now result); simplify_eq.
  unfold push_step, status_step, reset_step in Hs. unfold rpc_ok in Hrpc.
  destruct (rpc_pc w) eqn:E; try done; try (by repeat case_match; simplify_eq).
  - unfold Chain.lookup in Hs. destruct (wk_inprog _ w Hok) as [_ Ha]. rewrite Ha in Hs.
    destruct (find_first _ _) as [p|] eqn:F.
    + destruct (ip_taskSts p =? Rpc.IN_PROG) eqn:Ep; simplify_eq. split; [done|]. exists taskID. right. left.
      apply find_first_Some in F as [Hp Hid]. unfold identify_inprog in Hid. apply Z.eqb_eq in Hid, Ep. split_and!; eauto.
    + simplify_eq. split; [done|]. exists taskID. left. rewrite find_first_None in F.
      assert (taskID ∉ record_ids w) as Hn.
      { intros (p & -> & Hp)%list_elem_of_fmap_1. specialize (F p Hp). unfold identify_inprog in F.
        by rewrite Z.eqb_refl in F. }
      split_and!; try done. intros (t & -> & Ht)%list_elem_of_fmap_1.
      destruct (wk_tracked _ w Hok t Ht) as [(p & Hp & Hid & _)|[cmd Hu]]; [|congruence].
      apply Hn. rewrite <- Hid. by apply (list_elem_of_fmap_2 ip_taskID).
  - simplify_eq. split; [done|]. exists taskID. right. right. destruct Hrpc as [Hn Hlast].
    split_and!; try done. rewrite (take_inprog w _ taskID Hok). unfold record_ids. simpl.
    intros (p & -> & Hp)%list_elem_of_fmap_1.
    apply (elem_of_remove_ident (records w) _ (wk_records _ w Hok)) in Hp as [_ ?]. done.
Qed.

(** A task that ends with a write error, and is asked for. *)
Definition failed_task : list action := push_run ++ work_run 16 ++ [CallStatus 1; RpcStep 0].

Lemma status_truthful_witness :
  match run new_ADTaskWorker failed_task with
  | Some (rs, w) => last_result 1 (runs w) = Some 16 /\ rpc_pc w = RStatusRemove 1 16
  | None => False
  end.
Proof.
  destruct (run new_ADTaskWorker failed_task) as [[rs w]|] eqn:E; [|vm_compute in E; discriminate].
  destruct (step w (RpcStep 0)) as [[[[| r s|]|] w']|] eqn:Es;
    try (vm_compute in E; injection E as _ E; subst w; vm_compute in Es; discriminate).
  destruct (status_truthful failed_task w w' rs (RpcStep 0) r s E) as (_ & id & Hid); [vm_compute; discriminate|exact Es|].
  vm_compute in E. injection E as _ E. subst w.
  destruct Hid as [(N & _)|[(N & _)|(Hid & Hr & _)]]; [discriminate..|].
  injection Hid as Hi Hsts. subst id s. split; [exact Hr|reflexivity].
Defined.

(** Identifiers restart only when nothing is left.  A reset that succeeds finds
    no queued or running task; it leaves no record, and the next identifier handed
    out is 1, so that it is the identifier of no unfinished task.  A completed push
    answers with an identifier that only its own task has. *)
Theorem reset_when_idle (l : list action) (w w' : ADTaskWorker) (rs : list reply) (a : action) :
  run new_ADTaskWorker l = Some (rs, w) -> Z.of_nat (length l) < int_max ->
  (step w a = Some (Some (ResetReply Rpc.SUCCESS), w') ->
     live w = [] /\ live w' = [] /\ records w' = [] /\
     (Chain.generate_ident (work_inprog_chain w')).1 = 1) /\
  (forall id, step w a = Some (None, w') -> rpc_pc w' = RWakeup id ->
     rpc_pc w <> RWakeup id -> id ∉ record_ids w /\ id ∈ record_ids w' /\ NoDup (record_ids w') /\
     NoDup (live_ids w')).
Proof.
  intros Hr Hl. pose proof (reachable_ok l w rs Hr ltac:(lia)) as Hok.
  pose proof (wk_rpc _ w Hok) as Hrpc. split.
  - intros Hs. destruct a; simpl in Hs.
    1-3: by destruct (rpc_pc w); simplify_eq.
    2: by destruct (worker_step w now result); simplify_eq.
    unfold push_step, status_step, reset_step in Hs. unfold rpc_ok in Hrpc.
    destruct (rpc_pc w) eqn:E; try done; try (by repeat case_match; simplify_eq).
  - intros id Hs Hpc Hn.
    pose proof (worker_any_step_ok _ w w' a None Hok Hl Hs) as Hok'.
    split; [|split; [|split; [apply Hok'|apply Hok']]]; destruct a; simpl in Hs.
    all: try by destruct (rpc_pc w); simplify_eq.
    all: try by (unfold worker_step in Hs; repeat case_match; simplify_eq; simplify_eq/=).
    all: unfold push_step, status_step, reset_step in Hs; unfold rpc_ok in Hrpc;
      destruct (rpc_pc w) eqn:E; try done; try (by repeat case_match; simplify_eq/=).
    + destruct (_ =? 0); simplify_eq/=. by destruct Hrpc as (-> & ? & _).
    + destruct (wk_inprog _ w Hok) as [Ho _]. unfold Chain.put in Hs. rewrite Ho in Hs. simplify_eq/=.
      unfold record_ids. simpl. rewrite map_app. simpl. set_solver.
Qed.

(** A push and its run, then a reset up to its last step. *)
Definition reset_run : list action :=
  push_run ++ work_run 0 ++ [CallReset 100; RpcStep 100; RpcStep 100].

Lemma reset_when_idle_witness :
  match run new_ADTaskWorker reset_run with
  | Some (rs, w) =>
      match step w (RpcStep 100) with
      | Some (Some (ResetReply r), w') => r = Rpc.SUCCESS /\ live w' = [] /\ records w' = []
      | _ => False
      end
  | None => False
  end.
Proof.
  destruct (run new_ADTaskWorker reset_run) as [[rs w]|] eqn:E; [|vm_compute in E; discriminate].
  destruct (step w (RpcStep 100)) as [[o w']|] eqn:Es;
    [|vm_compute in E; injection E as _ E; subst w; vm_compute in Es; discriminate].
  assert (o = Some (ResetReply Rpc.SUCCESS)) as Eo.
  { vm_compute in E. injection E as _ E. subst w. vm_compute in Es.
    injection Es as Eo _. rewrite <- Eo. reflexivity. }
  subst o.
  destruct (proj1 (reset_when_idle reset_run w w' rs (RpcStep 100) E ltac:(vm_compute; reflexivity)) Es)
    as (_ & H1 & H2 & _).
  split; [reflexivity|]. split; [exact H1|exact H2].
Defined.

(** ** Every queued task runs *)

Definition is_worker_step (a : action) : bool := match a with WorkerStep _ _ => true | _ => false end.

(** What [run_work()] returns at the steps of a run, should a task end there. *)
Definition step_results (acts : list action) : list Z :=
  omap (fun a => match a with WorkerStep _ r => Some r | _ => None end) acts.

(** The identifiers of the tasks still to be run: the one the worker runs now, then
    the queue. *)
Definition to_run (w : ADTaskWorker) : list Z :=
  match worker_pc w with WRun t => [wt_taskID t] | _ => [] end ++ map wt_taskID (Chain.items (work_chain w)).

(** The steps the worker can still make on its own: at most five for a queued task,
    and what is left of the task in hand. *)
Definition worker_left (w : ADTaskWorker) : nat :=
  let q := (5 * length (Chain.items (work_chain w)))%nat in
  match worker_pc w with
  | WWait => q
  | WGet => q - 1
  | WRun _ => q + 3
  | WRecord _ _ => q + 2
  | WEvent _ _ => q + 1
  end.

(** A step of the worker comes closer to the end, and runs the first of the tasks
    still to be run or none. *)
Lemma worker_step_progress (k : Z) (w w' : ADTaskWorker) (now r : Z) :
  worker_ok k w -> worker_step w now r = Some w' ->
  (worker_left w' < worker_left w)%nat /\ rpc_pc w' = rpc_pc w /\
  exists ran, runs w' = runs w ++ ran /\ to_run w = map fst ran ++ to_run w' /\
    (map snd ran) `sublist_of` [r].
Proof.
  intros Hok Hs. pose proof (wk_count k w Hok) as Hc. unfold worker_step in Hs.
  unfold worker_left, to_run, getting, unannounced in *.
  destruct (worker_pc w) as [| |t|t r'|t r'] eqn:E.
  - destruct (Z.gtb_spec (sema w) 0); simplify_eq/=. split_and!; [|done|].
    + destruct (rpc_pc w); lia.
    + exists []. rewrite app_nil_r. split_and!; [done..|apply sublist_nil_l].
  - destruct (worker_get_ok k w 0 Hok E) as (t & q & Eq & _). destruct (wk_work k w Hok) as [Ho _].
    unfold Chain.get in Hs. rewrite Eq, Ho in Hs. simplify_eq/=. rewrite Eq. simpl. split_and!; [lia|done|].
    exists []. rewrite app_nil_r. split_and!; [done..|apply sublist_nil_l].
  - simplify_eq/=. split_and!; [lia|done|]. exists [(wt_taskID t, r)]. by split_and!.
  - assert (exists ic pc, w' = with_worker (with_inprog w ic) pc /\ (pc = WWait \/ pc = WEvent t r'))
      as (ic & pc & -> & Hpc) by (destruct (done_action t); simplify_eq; eauto 6).
    simpl. split_and!; [destruct Hpc as [-> | ->]; lia|done|]. exists []. rewrite app_nil_r.
    split_and!; [done|by destruct Hpc as [-> | ->]|apply sublist_nil_l].
  - simplify_eq/=. split_and!; [lia|done|]. exists []. rewrite app_nil_r. split_and!; [done..|apply sublist_nil_l].
Qed.

(** The worker stops only to wait, with no task in the queue but one whose push is
    being carried out. *)
Lemma worker_stops_idle (k : Z) (w : ADTaskWorker) :
  worker_ok k w ->
  (forall now r, exists w', worker_step w now r = Some w') \/
  (worker_pc w = WWait /\ Z.of_nat (length (to_run w)) = unannounced w).
Proof.
  intros Hok. pose proof (wk_count k w Hok) as Hc. pose proof (wk_sema k w Hok) as Hs.
  unfold to_run, getting in *. unfold worker_step.
  destruct (worker_pc w) as [| |t|t r'|t r']; [|left; intros now r|left; by eauto| |left; by eauto].
  - destruct (Z.gtb_spec (sema w) 0); [left; by eauto|right]. split; [done|]. simpl. rewrite length_map. lia.
  - destruct (Chain.get (work_chain w)) as [[]]; eauto.
  - left. intros now r. destruct (done_action t); eauto.
Qed.

(** Any steps of the worker, put together. *)
Lemma worker_steps_progress (acts : list action) (k : Z) (w w' : ADTaskWorker) (rs : list reply) :
  worker_ok k w -> k + Z.of_nat (worker_left w) <= int_max -> forallb is_worker_step acts = true ->
  run w acts = Some (rs, w') ->
  rs = [] /\ (length acts + worker_left w' <= worker_left w)%nat /\ rpc_pc w' = rpc_pc w /\
  (exists k', worker_ok k' w') /\
  exists ran, runs w' = runs w ++ ran /\ to_run w = map fst ran ++ to_run w' /\
    (map snd ran) `sublist_of` (step_results acts).
Proof.
  revert k w rs; induction acts as [|a acts IH]; intros k w rs Hok Hk Hf Hr; simpl in Hr.
  { simplify_eq. split_and!; [done|simpl; lia|done|eauto|]. exists []. rewrite app_nil_r. by split_and!. }
  simpl in Hf. apply andb_prop in Hf as [Ha Hf]. destruct a as [| | | |now r]; try discriminate Ha.
  destruct (step w (WorkerStep now r)) as [[o w1]|] eqn:Es; simpl in Hr; [|done].
  pose proof Es as Es'. simpl in Es'. destruct (worker_step w now r) as [w2|] eqn:E; simpl in Es'; simplify_eq.
  destruct (worker_step_progress k w w1 now r Hok E) as (Hl & Hpc & ran1 & Hr1 & Ht1 & Hs1).
  destruct (run w1 acts) as [[rs1 w3]|] eqn:E3; simpl in Hr; simplify_eq.
  destruct (IH (k + 1) w1 rs) as (-> & Hlen & Hpc' & Hok' & ran2 & Hr2 & Ht2 & Hs2); [|lia|done|done|].
  { apply (worker_any_step_ok k w w1 (WorkerStep now r) None Hok); [lia|done]. }
  split_and!; [done|simpl; lia|congruence|done|].
  exists (ran1 ++ ran2). rewrite Hr2, Hr1, Ht1, Ht2, !map_app, <- !app_assoc. split_and!; [done..|].
  change (step_results (WorkerStep now r :: acts)) with ([r] ++ step_results acts). by apply sublist_app.
Qed.

(** C10: no wakeup is lost, and tasks run in the order they were pushed.  From any
    reachable state, wherever the worker is and whatever push is being carried out,
    let the worker make steps of its own, at any times and with any results of the
    tasks, each task its own (before [int_max] actions, so that identifiers do not run
    out).  It makes at most [worker_left] of them, which is
    five for each queued task and what is left of the one in hand; the tasks it
    runs are the first of those that were to be run, each once and in the order of
    the queue, and what is recorded of them are results returned in that order;
    and either its next step is possible, whatever the task returns, or it waits
    and has run every task, except one whose push has not announced it yet. *)
Theorem queue_drains (l acts : list action) (w w' : ADTaskWorker) (rs rs' : list reply) :
  run new_ADTaskWorker l = Some (rs, w) ->
  Z.of_nat (length l) + Z.of_nat (worker_left w) <= int_max ->
  forallb is_worker_step acts = true -> run w acts = Some (rs', w') ->
  rs' = [] /\ rpc_pc w' = rpc_pc w /\ (length acts + worker_left w' <= worker_left w)%nat /\
  (exists ran, runs w' = runs w ++ ran /\ to_run w = map fst ran ++ to_run w' /\
     (map snd ran) `sublist_of` (step_results acts)) /\
  ((forall now r, exists w'', step w' (WorkerStep now r) = Some (None, w'')) \/
   (worker_pc w' = WWait /\ Z.of_nat (length (to_run w')) = unannounced w)).
Proof.
  intros Hr Hl Hf Ha.
  assert (worker_ok (Z.of_nat (length l)) w) as Hok by (apply (reachable_ok l w rs Hr); lia).
  destruct (worker_steps_progress acts _ w w' rs' Hok Hl Hf Ha) as (-> & Hlen & Hpc & [k' Hok'] & Hran).
  split_and!; [done..|]. unfold unannounced. rewrite <- Hpc.
  destruct (worker_stops_idle k' w' Hok') as [Hn|Hn]; [left|right; exact Hn].
  intros now r. destruct (Hn now r) as [w'' E]. exists w''. simpl. by rewrite E.
Qed.

(** Two pushes, then the worker on its own: the first task returns 7, the second
    8. *)
Lemma queue_drains_witness :
  match run new_ADTaskWorker (push_run ++ push_run) with
  | Some (rs, w) =>
      match run w (work_run 7 ++ work_run 8) with
      | Some (rs', w') => worker_left w = 10%nat /\ worker_left w' = 0%nat /\ to_run w' = [] /\
          exists ran, map fst ran = [1; 2] /\ runs w' = ran /\ ran = [(1, 7); (2, 8)]
      | None => False
      end
  | None => False
  end.
Proof.
  destruct (run new_ADTaskWorker (push_run ++ push_run)) as [[rs w]|] eqn:E;
    [|vm_compute in E; discriminate].
  pose proof E as E0. vm_compute in E0. injection E0 as _ Ew.
  destruct (run w (work_run 7 ++ work_run 8)) as [[rs' w']|] eqn:E';
    [|subst w; vm_compute in E'; discriminate].
  destruct (queue_drains (push_run ++ push_run) (work_run 7 ++ work_run 8) w w' rs rs' E)
    as (_ & _ & Hl & (ran & Hruns & Hto & _) & _); [subst w; vm_compute; discriminate|reflexivity|exact E'|].
  subst w. vm_compute in E'. injection E' as _ Ew'. subst w'.
  split; [reflexivity|]. split; [reflexivity|]. split; [reflexivity|].
  exists ran. split; [|split; [exact Hruns|symmetry; exact Hruns]].
  unfold to_run in Hto. simpl in Hto. rewrite app_nil_r in Hto. symmetry. exact Hto.
Defined.
