(* ===== verification/TaskCalls.v ===== *)
(** * Calls to the task worker (ADTaskWorker.hpp, as ADJsonRpcMgr.cpp uses it)

    File TaskWorker gives the methods of [ADTaskWorker] step by step, so that the two
    threads interleave.  To its client a method is a call that returns: this file states
    that as the interface [TaskService] and implements it, the worker thread making, in
    front of each step of the call, the moves a schedule gives.  The theorem is that
    under any schedule a call returns, and that it is a run of the steps. *)
From S2P Require Import Prelude GenericChain Common TaskWorker.
Open Scope Z_scope.

(** What the manager uses of the task worker: [push_task()] with the identifier it
    stores, [get_task_status()] with the status it stores, and
    [reset_task_id_and_chain()]. *)
Class TaskService (W : Type) := {
  push_task : W -> Z -> Z -> WORK_CMD_AFTER_DONE -> (Z * Z) * W;
  get_task_status : W -> Z -> (Z * Z) * W;
  reset_task_id_and_chain : W -> Z * W;
}.

(** ** Calls under a schedule *)

(** What happens before a step of the call: the milliseconds that pass, and the moves of
    the worker thread, each with the result of [run_work()] should a task end in it. *)
Record round := { elapsed : nat; moves : list Z }.

(** The worker, the clock, and what is to happen; nothing more happens once the list is
    used up. *)
Record served := { worker : ADTaskWorker; clock : Z; schedule : list round }.

Definition worker_move (now : Z) (w : ADTaskWorker) (result : Z) : ADTaskWorker :=
  default w (worker_step w now result).

(** [usleep(5000)] at the end of a round of [reset_task_id_and_chain()]. *)
Definition pause (w : ADTaskWorker) : Z := match rpc_pc w with RResetWait _ => 5 | _ => 0 end.

(** The call to its return, with at most [fuel] steps. *)
Fixpoint finish_call (fuel : nat) (s : served) : option reply * served :=
  match fuel with
  | O => (None, s)
  | S fuel =>
      let r := default {| elapsed := 0; moves := [] |} (head (schedule s)) in
      let now := clock s + Z.of_nat (elapsed r) in
      let w := fold_left (worker_move now) (moves r) (worker s) in
      match step w (RpcStep now) with
      | None => (None, s)
      | Some (Some answer, w') => (Some answer, {| worker := w'; clock := now; schedule := tail (schedule s) |})
      | Some (None, w') =>
          finish_call fuel {| worker := w'; clock := now + pause w; schedule := tail (schedule s) |}
      end
  end.

(** The eviction makes at most three steps for a record, the reset at most three for a
    millisecond. *)
Definition call_fuel (w : ADTaskWorker) : nat := 3 * length (Chain.items (work_inprog_chain w)) + 3010.

Definition call (s : served) (a : action) : option reply * served :=
  match step (worker s) a with
  | Some (_, w) => finish_call (call_fuel w) {| worker := w; clock := clock s; schedule := schedule s |}
  | None => (None, s)
  end.

#[export] Instance worker_service : TaskService served := {
  push_task s cmd data done :=
    match call s (CallPush cmd data done) with (Some (PushReply r id), s') => ((r, id), s') | (_, s') => ((-1, -1), s') end;
  get_task_status s id :=
    match call s (CallStatus id) with (Some (StatusReply r sts), s') => ((r, sts), s') | (_, s') => ((-1, -1), s') end;
  reset_task_id_and_chain s :=
    match call s (CallReset (clock s)) with (Some (ResetReply r), s') => (r, s') | (_, s') => (-1, s') end;
}.

(** ** Every call returns *)

Abbreviation usable w := (Chain.open (work_inprog_chain w) && Chain.attached (work_inprog_chain w)).

(** The steps left: at most, and at the time [now]. *)
Definition rank (w : ADTaskWorker) (now : Z) : nat :=
  let n := length (records w) in
  let left start := Z.to_nat (start + ADTASK_WORKER_RESET_WAIT_MS - now) in
  match rpc_pc w with
  | RIdle => 0
  | RPushSize _ _ _ => 3 * n + 8
  | REvictSize _ _ _ => 3 * n + 7
  | REvictScan _ _ _ => 3 * n + 6
  | REvictRemove v _ _ _ => match find_first (identify_inprog v) (records w) with Some _ => 3 * n + 5 | None => 3 * n + 8 end
  | RIdent _ _ _ => 4
  | RPutTask _ _ _ _ => 3
  | RPutRecord _ _ => 2
  | RWakeup _ => 1
  | RStatus _ => 2
  | RStatusRemove _ _ => 1
  | RResetSize start => 3 * left start + 4
  | RResetScan start _ => 3 * left start + 3
  | RResetWait start => 3 * left start + 2
  | RResetEmpty => 1
  end%nat.

Lemma remove_first_length {A} (f : A -> bool) (l : list A) x :
  find_first f l = Some x -> length l = S (length (remove_first f l)).
Proof. intros H%remove_first_perm. apply Permutation_length in H. done. Qed.

Lemma take_items {A} (f : A -> bool) (c : Chain.chain A) :
  Chain.items (Chain.take f c).2 =
    if Chain.open c && Chain.attached c then remove_first f (Chain.items c) else Chain.items c.
Proof. unfold Chain.take. by destruct (Chain.open c && Chain.attached c). Qed.

Lemma take_usable {A} (f : A -> bool) (c : Chain.chain A) :
  Chain.open (Chain.take f c).2 = Chain.open c /\ Chain.attached (Chain.take f c).2 = Chain.attached c.
Proof. unfold Chain.take. by destruct (Chain.open c && Chain.attached c). Qed.

Lemma find_update_first (id v r : Z) l :
  is_Some (find_first (identify_inprog v) (update_first (identify_inprog id) (complete r) l)) <->
  is_Some (find_first (identify_inprog v) l).
Proof.
  induction l as [|p l IH]; simpl; [done|]. destruct (identify_inprog id p); simpl.
  - change (identify_inprog v (complete r p)) with (identify_inprog v p). destruct (identify_inprog v p); [by split; eauto|done].
  - destruct (identify_inprog v p); [by split; eauto|done].
Qed.

(** What a step of the worker leaves of the records. *)
Lemma worker_keeps (w w' : ADTaskWorker) now r :
  worker_step w now r = Some w' ->
  rpc_pc w' = rpc_pc w /\ usable w' = usable w /\
  (records w' = records w \/ (exists id x, records w' = update_first (identify_inprog id) (complete x) (records w)) \/
   (exists id, records w' = remove_first (identify_inprog id) (records w))).
Proof.
  intros H. unfold worker_step in H. destruct (worker_pc w) eqn:Ep; simpl in H.
  - destruct (sema w >? 0); simplify_eq. split_and!; [done|done|by left].
  - destruct (Chain.get (work_chain w)) as [[t|] c]; simplify_eq; split_and!; try done; by left.
  - simplify_eq. split_and!; [done|done|by left].
  - destruct (done_action t) eqn:Ed; simplify_eq; split_and!; try done; simpl.
    1: right; left; by eexists _, _.
    1, 3, 5: destruct (take_usable (identify_inprog (wt_taskID t)) (work_inprog_chain w)) as [-> ->]; done.
    all: rewrite take_items; destruct (usable w); [right; right; by eexists|by left].
  - simplify_eq. split_and!; [done|done|by left].
Qed.

Lemma update_first_len {A} (f : A -> bool) g (l : list A) : length (update_first f g l) = length l.
Proof. induction l as [|x l IH]; simpl; [done|]. destruct (f x); simpl; congruence. Qed.

Lemma rank_mono (w w' : ADTaskWorker) now :
  rpc_pc w' = rpc_pc w -> (length (records w') <= length (records w))%nat ->
  (forall v, find_first (identify_inprog v) (records w') = None ->
     find_first (identify_inprog v) (records w) = None \/ (length (records w') < length (records w))%nat) ->
  (rank w' now <= rank w now)%nat.
Proof.
  intros Hp Hl Hf. unfold rank. rewrite Hp. destruct (rpc_pc w); try lia.
  destruct (find_first (identify_inprog victim) (records w')) eqn:E'.
  - destruct (find_first _ (records w)); lia.
  - destruct (Hf _ E') as [->|]; [lia|]. destruct (find_first _ (records w)); lia.
Qed.

Lemma worker_rank (w w' : ADTaskWorker) now r :
  worker_step w now r = Some w' -> (rank w' now <= rank w now)%nat.
Proof.
  intros (Hp & _ & H)%worker_keeps.
  assert (forall id x, records w' = update_first (identify_inprog id) (complete x) (records w) -> (rank w' now <= rank w now)%nat) as Hup.
  { intros id x E. apply rank_mono; rewrite ?E, ?update_first_len; [done|lia|]. intros v Hv. left.
    destruct (find_first _ (records w)) eqn:E2; [|done].
    destruct (proj2 (find_update_first id v x (records w))) as [? Hs]; [by eexists|congruence]. }
  destruct H as [E|[(id & x & E)|[id E]]]; [|by eauto|destruct (find_first (identify_inprog id) (records w)) eqn:Ef].
  - apply rank_mono; rewrite ?E; auto.
  - apply remove_first_length in Ef. apply rank_mono; rewrite ?E; [done|lia|]. intros v _. right. lia.
  - rewrite remove_first_none in E by done. apply rank_mono; rewrite ?E; auto.
Qed.

Lemma rank_elapsed (w : ADTaskWorker) now (n : nat) : (rank w (now + Z.of_nat n) <= rank w now)%nat.
Proof. unfold rank. destruct (rpc_pc w); lia. Qed.

(** Which calls a program counter belongs to, and which replies. *)
Definition serves (pc : rpc_state) (a : action) : Prop :=
  match a, pc with
  | CallPush _ _ _, (RPushSize _ _ _ | REvictSize _ _ _ | REvictScan _ _ _ | REvictRemove _ _ _ _ | RIdent _ _ _
                     | RPutTask _ _ _ _ | RPutRecord _ _ | RWakeup _)
  | CallStatus _, (RStatus _ | RStatusRemove _ _)
  | CallReset _, (RResetSize _ | RResetScan _ _ | RResetWait _ | RResetEmpty) => True
  | _, _ => False
  end.
Definition answers (r : reply) (a : action) : Prop :=
  match a, r with
  | CallPush _ _ _, PushReply _ _ | CallStatus _, StatusReply _ _ | CallReset _, ResetReply _ => True
  | _, _ => False
  end.

(** A step of the call answers it, or brings its end nearer. *)
Lemma rpc_step_rank (w : ADTaskWorker) now (a : action) :
  serves (rpc_pc w) a -> usable w = true ->
  exists r w', step w (RpcStep now) = Some (r, w') /\ usable w' = true /\
    match r with
    | Some x => answers x a /\ rpc_pc w' = RIdle
    | None => serves (rpc_pc w') a /\ (rank w' (now + pause w) < rank w now)%nat
    end.
Proof.
  intros Hs Hu. pose proof (rank_elapsed w now) as _.
  assert (forall v, usable (with_inprog w (Chain.take (identify_inprog v) (work_inprog_chain w)).2) = true) as Htake.
  { intros v. simpl. by destruct (take_usable (identify_inprog v) (work_inprog_chain w)) as [-> ->]. }
  simpl. unfold push_step, status_step, reset_step, rank, pause.
  destruct (rpc_pc w) eqn:Ep; destruct a; try done; simpl; try rewrite Z.add_0_r.
  - destruct (_ >=? _); eexists _, _; (split; [reflexivity|]); simpl; split_and!; try done; lia.
  - destruct (_ >=? _); eexists _, _; (split; [reflexivity|]); simpl; split_and!; try done; lia.
  - destruct (find_first finished (records w)) as [p|] eqn:Ef.
    + destruct (Z.ltb_spec (ip_taskID p) 0); eexists _, _; (split; [reflexivity|]); simpl; split_and!; try done; [lia|].
      apply find_first_Some in Ef as [Hin _].
      destruct (find_first (identify_inprog (ip_taskID p)) (records w)) eqn:E; [lia|].
      rewrite find_first_None in E. specialize (E p Hin). unfold identify_inprog in E. by rewrite Z.eqb_refl in E.
    + eexists _, _; (split; [reflexivity|]); simpl; split_and!; try done; lia.
  - eexists _, _. split; [reflexivity|]. split_and!; [apply Htake|done|]. simpl. rewrite take_items, Hu.
    destruct (find_first (identify_inprog victim) (records w)) eqn:E.
    + apply remove_first_length in E. lia.
    + rewrite remove_first_none by done. lia.
  - eexists _, _. split; [reflexivity|]. simpl. split_and!; [done|done|lia].
  - unfold Chain.put. destruct (Chain.open (work_chain w)); simpl; eexists _, _; (split; [reflexivity|]);
      simpl; split_and!; try done; lia.
  - unfold Chain.put. apply andb_true_iff in Hu as [Ho Ha]. rewrite Ho. simpl. eexists _, _. split; [reflexivity|].
    simpl. rewrite ?Ho, ?Ha. split_and!; [done|done|lia].
  - eexists _, _. split; [reflexivity|]. simpl. by split_and!.
  - unfold Chain.lookup. destruct (if Chain.attached _ then _ else _) as [p|]; [destruct (_ =? _)|];
      eexists _, _; (split; [reflexivity|]); simpl; split_and!; try done; lia.
  - eexists _, _. split; [reflexivity|]. split_and!; [apply Htake|done|done].
  - eexists _, _. split; [reflexivity|]. simpl. split_and!; [done|done|lia].
  - destruct (_ || _); eexists _, _; (split; [reflexivity|]); simpl; split_and!; try done; lia.
  - destruct (negb _ && _); [eexists _, _; (split; [reflexivity|]); by split_and!|].
    destruct (Z.geb_spec (now - start) ADTASK_WORKER_RESET_WAIT_MS); eexists _, _; (split; [reflexivity|]);
      simpl; split_and!; try done. unfold ADTASK_WORKER_RESET_WAIT_MS in *. lia.
  - eexists _, _. split; [reflexivity|]. simpl. apply andb_true_iff in Hu as [-> ->]. by split_and!.
Qed.

Lemma run_app l1 l2 w w1 rs1 :
  run w l1 = Some (rs1, w1) ->
  run w (l1 ++ l2) = (r ← run w1 l2; Some (rs1 ++ r.1, r.2)).
Proof.
  revert w rs1. induction l1 as [|a l1 IH]; intros w rs1 H; simpl in *.
  { simplify_eq. destruct (run w1 l2) as [[]|]; done. }
  destruct (step w a) as [[r w2]|]; simpl in *; [|done].
  destruct (run w2 l1) as [[rs2 w3]|] eqn:E; simpl in *; simplify_eq.
  rewrite (IH w2 rs2 E). by destruct (run w1 l2) as [[? ?]|], r.
Qed.

(** A step that is not a call. *)
Definition within_call (a : action) : Prop := match a with RpcStep _ | WorkerStep _ _ => True | _ => False end.

Lemma worker_moves now l w :
  exists acts, run w acts = Some ([], fold_left (worker_move now) l w) /\ Forall within_call acts.
Proof.
  revert w. induction l as [|r l IH]; intros w; simpl; [by exists []|]. unfold worker_move at 2.
  destruct (worker_step w now r) as [w'|] eqn:E; simpl; [|apply IH].
  destruct (IH w') as (acts & Hr & Ha). exists (WorkerStep now r :: acts). split; [|by constructor].
  simpl. rewrite E. simpl. by rewrite Hr.
Qed.

Lemma worker_moves_keep now l w :
  rpc_pc (fold_left (worker_move now) l w) = rpc_pc w /\ usable (fold_left (worker_move now) l w) = usable w /\
  (rank (fold_left (worker_move now) l w) now <= rank w now)%nat.
Proof.
  revert w. induction l as [|r l IH]; intros w; simpl; [done|]. destruct (IH (worker_move now w r)) as (-> & -> & Hr).
  unfold worker_move in *. destruct (worker_step w now r) eqn:E; simpl in *; [|done].
  pose proof (worker_rank _ _ _ _ E). destruct (worker_keeps _ _ _ _ E) as (-> & -> & _). split_and!; [done|done|lia].
Qed.

Lemma finish_call_returns fuel s (a : action) :
  serves (rpc_pc (worker s)) a -> usable (worker s) = true -> (rank (worker s) (clock s) < fuel)%nat ->
  exists r s' acts, finish_call fuel s = (Some r, s') /\ answers r a /\ rpc_pc (worker s') = RIdle /\
  usable (worker s') = true /\ run (worker s) acts = Some ([r], worker s') /\ Forall within_call acts.
Proof.
  revert s. induction fuel as [|fuel IH]; intros s Hs Hu Hr; [lia|]. cbn [finish_call].
  set (rd := default _ (head (schedule s))). set (now := clock s + Z.of_nat (elapsed rd)).
  destruct (worker_moves now (moves rd) (worker s)) as (acts & Hrun & Hacts).
  destruct (worker_moves_keep now (moves rd) (worker s)) as (Hp & Hu1 & Hr1).
  set (w := fold_left (worker_move now) (moves rd) (worker s)) in *.
  destruct (rpc_step_rank w now a) as (r & w' & E & Hu' & Hcase); [by rewrite Hp|by rewrite Hu1|].
  rewrite E. pose proof (rank_elapsed (worker s) (clock s) (elapsed rd)) as He. fold now in He.
  destruct r as [r|].
  - destruct Hcase as [Ha Hi]. eexists r, _, (acts ++ [RpcStep now]). split; [done|]. split_and!; try done.
    + rewrite (run_app _ _ _ _ _ Hrun). cbn [run]. rewrite E. done.
    + apply Forall_app. split; [done|]. by repeat constructor.
  - destruct Hcase as [Hs' Hr'].
    destruct (IH {| worker := w'; clock := now + pause w; schedule := tail (schedule s) |})
      as (r & s' & acts' & -> & Ha & Hi & Hu2 & Hrun' & Hacts'); [done|done|simpl; lia|].
    eexists r, s', (acts ++ RpcStep now :: acts'). split; [done|]. split_and!; try done.
    + rewrite (run_app _ _ _ _ _ Hrun). cbn [run]. rewrite E. cbn. simpl in Hrun'. by rewrite Hrun'.
    + apply Forall_app. split; [done|]. by constructor.
Qed.

(** The states between two calls. *)
Definition between_calls (s : served) : Prop :=
  exists l rs, run new_ADTaskWorker l = Some (rs, worker s) /\ rpc_pc (worker s) = RIdle /\ usable (worker s) = true.

Definition is_call (a : action) (now : Z) : Prop :=
  match a with CallPush _ _ _ | CallStatus _ => True | CallReset n => n = now | _ => False end.

(** The calls a method of the manager makes on the worker, and what they give. *)
Lemma call_returns s (a : action) :
  is_call a (clock s) -> rpc_pc (worker s) = RIdle -> usable (worker s) = true ->
  exists r s' acts, call s a = (Some r, s') /\ answers r a /\ rpc_pc (worker s') = RIdle /\
    usable (worker s') = true /\ run (worker s) (a :: acts) = Some ([r], worker s') /\ Forall within_call acts.
Proof.
  intros Ha Hi Hu. unfold call.
  assert (exists w, step (worker s) a = Some (None, w) /\ serves (rpc_pc w) a /\ usable w = true /\
    (rank w (clock s) < call_fuel w)%nat) as (w & E & Hs & Hu' & Hr).
  { destruct a; try done; simpl; rewrite Hi; eexists; (split; [reflexivity|]); (split; [done|]); (split; [done|]);
      unfold rank, call_fuel; simpl; [lia|lia|]. simpl in Ha. subst. unfold ADTASK_WORKER_RESET_WAIT_MS. lia. }
  rewrite E.
  destruct (finish_call_returns (call_fuel w) {| worker := w; clock := clock s; schedule := schedule s |} a Hs Hu' Hr)
    as (r & s' & acts & Hf & ? & ? & ? & Hrun & ?). simpl in Hrun.
  exists r, s', acts. split_and!; try done. cbn [run]. rewrite E. cbn. by rewrite Hrun.
Qed.

(** C11: the methods of the task worker are calls that return.  Whatever the worker
    thread does meanwhile and however long its tasks take, pushing a task ends (the
    eviction loop too), and so do asking for a status and the reset, which waits for the
    tasks at most about a second.  The answer is the reply of a run of the steps in which
    the RPC thread does nothing else; so what file TaskWorker shows for every run holds
    after any sequence of calls. *)
Theorem calls_return s :
  between_calls s ->
  (forall cmd data done, exists r id acts, let s' := (push_task s cmd data done).2 in
     (push_task s cmd data done).1 = (r, id) /\ between_calls s' /\ Forall within_call acts /\
     run (worker s) (CallPush cmd data done :: acts) = Some ([PushReply r id], worker s')) /\
  (forall id, exists r sts acts, let s' := (get_task_status s id).2 in
     (get_task_status s id).1 = (r, sts) /\ between_calls s' /\ Forall within_call acts /\
     run (worker s) (CallStatus id :: acts) = Some ([StatusReply r sts], worker s')) /\
  (exists acts, let s' := (reset_task_id_and_chain s).2 in
     between_calls s' /\ Forall within_call acts /\
     run (worker s) (CallReset (clock s) :: acts) =
       Some ([ResetReply (reset_task_id_and_chain s).1], worker s')).
Proof.
  intros (l & rs & Hl & Hi & Hu).
  assert (forall a r s' acts, rpc_pc (worker s') = RIdle -> usable (worker s') = true ->
    run (worker s) (a :: acts) = Some ([r], worker s') -> between_calls s') as Hnext.
  { intros a r s' acts Hi' Hu' Hrun. exists (l ++ a :: acts), (rs ++ [r]). split_and!; [|done|done].
    by rewrite (run_app _ _ _ _ _ Hl), Hrun. }
  split_and!.
  - intros cmd data dn. destruct (call_returns s (CallPush cmd data dn)) as (r & s' & acts & E & Ha & Hi' & Hu' & Hrun & Hw);
      [done|done|done|]. destruct r; try done. eexists _, _, acts. simpl. rewrite E. split_and!; eauto.
  - intros id. destruct (call_returns s (CallStatus id)) as (r & s' & acts & E & Ha & Hi' & Hu' & Hrun & Hw);
      [done|done|done|]. destruct r; try done. eexists _, _, acts. simpl. rewrite E. split_and!; eauto.
  - destruct (call_returns s (CallReset (clock s))) as (r & s' & acts & E & Ha & Hi' & Hu' & Hrun & Hw);
      [done|done|done|]. destruct r; try done. exists acts. simpl. rewrite E. split_and!; eauto.
Qed.

(** A task pushed, running while its status is asked for, and still while a reset waits. *)
Definition slow_worker : served :=
  {| worker := new_ADTaskWorker; clock := 100; schedule := replicate 6 {| elapsed := 1; moves := [] |} ++
       [{| elapsed := 0; moves := [0; 0] |}] |}.
Example slow_worker_ex :
  let '((r, id), s1) := push_task slow_worker 7 0 WORK_CMD_AFTER_DONE_PRESERVE in
  let '((_, sts), s2) := get_task_status s1 id in
  let '(busy, s3) := reset_task_id_and_chain s2 in
  (r, id, sts, busy, clock s3) = (0, 1, Rpc.IN_PROG, Rpc.BUSY, 1106).
Proof. vm_compute. reflexivity. Qed.

Lemma calls_return_witness :
  between_calls slow_worker /\ (push_task slow_worker 7 0 WORK_CMD_AFTER_DONE_PRESERVE).1 = (0, 1) /\
  between_calls (push_task slow_worker 7 0 WORK_CMD_AFTER_DONE_PRESERVE).2.
Proof.
  assert (between_calls slow_worker) as H by (exists [], []; by split_and!).
  split; [exact H|]. split; [vm_compute; reflexivity|].
  destruct (proj1 (calls_return slow_worker H) 7 0 WORK_CMD_AFTER_DONE_PRESERVE) as (r & id & acts & _ & H2 & _).
  exact H2.
Defined.

(** ** What the manager relies on *)

(** The answers of a task worker between two calls, and that it stays usable. *)
Class TaskServiceLaws (W : Type) `{TaskService W} := {
  task_ok : W -> Prop;
  push_task_ok : forall w cmd data flag, task_ok w -> task_ok (push_task w cmd data flag).2;
  get_task_status_ok : forall w id, task_ok w ->
    task_ok (get_task_status w id).2 /\ (get_task_status w id).1.1 = Rpc.SUCCESS;
  reset_ok : forall w, task_ok w ->
    task_ok (reset_task_id_and_chain w).2 /\
    ((reset_task_id_and_chain w).1 = Rpc.SUCCESS \/ (reset_task_id_and_chain w).1 = Rpc.BUSY);
}.

Definition code_ok (r : reply) : Prop :=
  match r with
  | PushReply _ _ => True
  | StatusReply ret _ => ret = Rpc.SUCCESS
  | ResetReply ret => ret = Rpc.SUCCESS \/ ret = Rpc.BUSY
  end.

Lemma step_code w (a : action) r w' : step w a = Some (Some r, w') -> code_ok r.
Proof.
  intros H. destruct a; simpl in H; [destruct (rpc_pc w); by simplify_eq..| |by destruct (worker_step w now result)].
  unfold push_step, status_step, reset_step in H. destruct (rpc_pc w); simpl in H; try done; split_cases; simpl; auto.
Qed.

Lemma run_codes l w rs w' : run w l = Some (rs, w') -> Forall code_ok rs.
Proof.
  revert w rs. induction l as [|a l IH]; intros w rs H; simpl in H; simplify_eq; [constructor|].
  destruct (step w a) as [[r w1]|] eqn:E; simpl in H; [|done].
  destruct (run w1 l) as [[rs1 w2]|] eqn:E1; simpl in H; simplify_eq.
  apply IH in E1. destruct r; [|done]. constructor; [by eapply step_code|done].
Qed.

Lemma call_ok s (a : action) :
  is_call a (clock s) -> between_calls s ->
  exists r, (call s a).1 = Some r /\ answers r a /\ code_ok r /\ between_calls (call s a).2.
Proof.
  intros Ha (l & rs & Hl & Hi & Hu). destruct (call_returns s a Ha Hi Hu) as (r & s' & acts & E & Hr & Hi' & Hu' & Hrun & _).
  rewrite E. exists r. split_and!; [done|done| |].
  - apply run_codes in Hrun. by inversion_clear Hrun.
  - exists (l ++ a :: acts), (rs ++ [r]). split_and!; [|done|done]. by rewrite (run_app _ _ _ _ _ Hl), Hrun.
Qed.

#[export] Instance worker_service_laws : TaskServiceLaws served.
Proof.
  refine {| task_ok := between_calls |}; simpl.
  - intros s cmd data flag Hs. destruct (call_ok s (CallPush cmd data flag)) as (r & E & Hr & _ & Hs'); [done..|].
    destruct (call s _) as [o s']; simpl in *; subst. by destruct r.
  - intros s id Hs. destruct (call_ok s (CallStatus id)) as (r & E & Hr & Hc & Hs'); [done..|].
    destruct (call s _) as [o s']; simpl in *; subst. by destruct r.
  - intros s Hs. destruct (call_ok s (CallReset (clock s))) as (r & E & Hr & Hc & Hs'); [done..|].
    destruct (call s _) as [o s']; simpl in *; subst. by destruct r.
Defined.
