(* ===== verification/NetServer.v ===== *)
(** * The TCP server (ADNetServer.cpp and ADNetServer.hpp of lib-jsonrpc-tcp)

    The listen thread accepts connections, reads them, cuts requests out of the
    streams (file Framer) and queues them; the consumer (the RPC proxy) takes
    requests and schedules responses; the response thread sends them.  The three
    share the chains, the table of pending requests and the kernel's file
    descriptors, whose numbers the kernel reuses as soon as they are closed.

    A step of the model is one critical section of a lock ([pending_lock] or the
    mutex of a chain), or one system call; what a thread does between two of them
    only concerns data of its own.  [listen_pc] and [resp_pc] say where the threads
    are.  The kernel is part of the state: [fds] gives the peer behind each
    descriptor of a client, and the actions carry what the system calls return. *)
From S2P Require Import Prelude GenericChain.
From S2P Require Framer.
Open Scope Z_scope.

(** ** Data *)

Definition AD_NET_SERVER_MAX_JSON_MSG_SIZE : Z := 256 * 1024.
Definition AD_NET_SERVER_SEND_TIMEOUT_MS : Z := 1000.
Definition AD_NET_SERVER_SEND_WAIT_BUDGET_MS : Z := 5000.
Definition AD_NET_SERVER_SEND_WAIT_WINDOW_MS : Z := 60000.
Definition AD_NET_SERVER_MAX_PENDING_PER_CONN : Z := 256.
(** The size of an [fd_set] of the C library. *)
Definition FD_SETSIZE : Z := 1024.

Abbreviation msg := (list ascii).

(** [struct net_data_obj]; [data_buffer_len] is the length of [data_buffer]. *)
Record net_data_obj := {
  ident : Z;
  sock_descriptor : Z;
  port : Z;
  ip : string;
  cltid : Z;
  data_buffer : msg;
}.

(** [struct conn_pending] *)
Record conn_pending := {
  count : Z;
  paused : bool;
  dead : bool;
  wait_ms : Z;
  window_start_ms : Z;
}.

Definition new_conn_pending : conn_pending :=
  {| count := 0; paused := false; dead := false; wait_ms := 0; window_start_ms := 0 |}.

(** [identify_chain_element()] and [double_identify_chain_element()] *)
Definition identify_chain_element (n : Z) (o : net_data_obj) : bool := sock_descriptor o =? n.
Definition double_identify_chain_element (n1 n2 : Z) (o : net_data_obj) : bool :=
  (sock_descriptor o =? n1) && (ident o =? n2).

(** What the listen thread does after [queue_framed_requests()]: it came from
    [json_receive_data_and_notify_consumer()] with the result of [feed], or from
    [resume_paused_connections()] with the descriptors left. *)
Inductive queue_caller := FromRecv (frc : Z) | FromResume (rest : list Z).

Inductive listen_state :=
| LSelect
| LAccepted (fd port : Z) (ip : string)
| LQueueStart (fd : Z) (caller : queue_caller)
| LQueue (fd cltid port : Z) (ip : string) (caller : queue_caller)
| LQueued (fd : Z) (paused : bool) (caller : queue_caller)
| LResume (rest : list Z)
| LClose (fd : Z)
| LDeregister (fd : Z)
| LCloseFd (fd : Z).

(** The response thread, with the response it took and the peer its private
    duplicate of the descriptor leads to. *)
Inductive resp_state :=
| SWait
| SCheckDead (o : net_data_obj)
| SDup (o : net_data_obj)
| SSend (o : net_data_obj) (peer : Z)
| SBudget (o : net_data_obj) (peer waited : Z)
| SDrop (o : net_data_obj) (peer : Z) (timed_out : bool)
| SDone (o : net_data_obj).

(** [class ADNetServer] with its threads, the consumer ([taken]: the requests it
    has not answered) and the kernel ([fds], [shut]: the peers shut down).  [wake_sd] is [wake_pipe[0]].  [peers]
    and [sent] record which peer got which connection identifier, and what was sent
    to whom. *)
Record ADNetServer := {
  request_chain : Chain.chain net_data_obj;
  response_chain : Chain.chain net_data_obj;
  clientInfo_chain : Chain.chain net_data_obj;
  pending : gmap Z conn_pending;
  framers : gmap Z Framer.ADJsonStreamFramer;
  master_set : gset Z;
  paused_fds : gset Z;
  max_sd : Z;
  listen_sd : Z;
  wake_sd : Z;
  listen_pc : listen_state;
  resp_pc : resp_state;
  taken : list net_data_obj;
  fds : gmap Z Z;
  shut : list Z;
  next_peer : Z;
  peers : gmap Z Z;
  sent : list (Z * Z * msg);
}.

(** Field updates. *)
Definition with_chains (s : ADNetServer) (rq rs ci : Chain.chain net_data_obj) : ADNetServer :=
  {| request_chain := rq; response_chain := rs; clientInfo_chain := ci; pending := pending s;
     framers := framers s; master_set := master_set s; paused_fds := paused_fds s;
     max_sd := max_sd s; listen_sd := listen_sd s; wake_sd := wake_sd s; listen_pc := listen_pc s; resp_pc := resp_pc s;
     taken := taken s; fds := fds s; shut := shut s; next_peer := next_peer s; peers := peers s;
     sent := sent s |}.
Definition with_pending (s : ADNetServer) (p : gmap Z conn_pending) : ADNetServer :=
  {| request_chain := request_chain s; response_chain := response_chain s;
     clientInfo_chain := clientInfo_chain s; pending := p;
     framers := framers s; master_set := master_set s; paused_fds := paused_fds s;
     max_sd := max_sd s; listen_sd := listen_sd s; wake_sd := wake_sd s; listen_pc := listen_pc s; resp_pc := resp_pc s;
     taken := taken s; fds := fds s; shut := shut s; next_peer := next_peer s; peers := peers s;
     sent := sent s |}.
Definition with_framers (s : ADNetServer) (f : gmap Z Framer.ADJsonStreamFramer) : ADNetServer :=
  {| request_chain := request_chain s; response_chain := response_chain s;
     clientInfo_chain := clientInfo_chain s; pending := pending s;
     framers := f; master_set := master_set s; paused_fds := paused_fds s;
     max_sd := max_sd s; listen_sd := listen_sd s; wake_sd := wake_sd s; listen_pc := listen_pc s; resp_pc := resp_pc s;
     taken := taken s; fds := fds s; shut := shut s; next_peer := next_peer s; peers := peers s;
     sent := sent s |}.
Definition with_sets (s : ADNetServer) (m p : gset Z) (max : Z) : ADNetServer :=
  {| request_chain := request_chain s; response_chain := response_chain s;
     clientInfo_chain := clientInfo_chain s; pending := pending s;
     framers := framers s; master_set := m; paused_fds := p;
     max_sd := max; listen_sd := listen_sd s; wake_sd := wake_sd s; listen_pc := listen_pc s; resp_pc := resp_pc s;
     taken := taken s; fds := fds s; shut := shut s; next_peer := next_peer s; peers := peers s;
     sent := sent s |}.
Definition with_listen (s : ADNetServer) (pc : listen_state) : ADNetServer :=
  {| request_chain := request_chain s; response_chain := response_chain s;
     clientInfo_chain := clientInfo_chain s; pending := pending s;
     framers := framers s; master_set := master_set s; paused_fds := paused_fds s;
     max_sd := max_sd s; listen_sd := listen_sd s; wake_sd := wake_sd s; listen_pc := pc; resp_pc := resp_pc s;
     taken := taken s; fds := fds s; shut := shut s; next_peer := next_peer s; peers := peers s;
     sent := sent s |}.
Definition with_resp (s : ADNetServer) (pc : resp_state) : ADNetServer :=
  {| request_chain := request_chain s; response_chain := response_chain s;
     clientInfo_chain := clientInfo_chain s; pending := pending s;
     framers := framers s; master_set := master_set s; paused_fds := paused_fds s;
     max_sd := max_sd s; listen_sd := listen_sd s; wake_sd := wake_sd s; listen_pc := listen_pc s; resp_pc := pc;
     taken := taken s; fds := fds s; shut := shut s; next_peer := next_peer s; peers := peers s;
     sent := sent s |}.
Definition with_taken (s : ADNetServer) (t : list net_data_obj) : ADNetServer :=
  {| request_chain := request_chain s; response_chain := response_chain s;
     clientInfo_chain := clientInfo_chain s; pending := pending s;
     framers := framers s; master_set := master_set s; paused_fds := paused_fds s;
     max_sd := max_sd s; listen_sd := listen_sd s; wake_sd := wake_sd s; listen_pc := listen_pc s; resp_pc := resp_pc s;
     taken := t; fds := fds s; shut := shut s; next_peer := next_peer s; peers := peers s;
     sent := sent s |}.
Definition with_kernel (s : ADNetServer) (f : gmap Z Z) (sh : list Z) (n : Z) (p : gmap Z Z)
    (l : list (Z * Z * msg)) : ADNetServer :=
  {| request_chain := request_chain s; response_chain := response_chain s;
     clientInfo_chain := clientInfo_chain s; pending := pending s;
     framers := framers s; master_set := master_set s; paused_fds := paused_fds s;
     max_sd := max_sd s; listen_sd := listen_sd s; wake_sd := wake_sd s; listen_pc := listen_pc s; resp_pc := resp_pc s;
     taken := taken s; fds := f; shut := sh; next_peer := n; peers := p; sent := l |}.

(** After [start_listening()]: [lsd] is the listening socket, [wake] the read end of
    the pipe. *)
Definition started (lsd wake : Z) : ADNetServer :=
  {| request_chain := Chain.empty_chain; response_chain := Chain.empty_chain;
     clientInfo_chain := Chain.empty_chain; pending := ∅; framers := ∅;
     master_set := {[lsd; wake]}; paused_fds := ∅; max_sd := if lsd >? wake then lsd else wake;
     listen_sd := lsd; wake_sd := wake; listen_pc := LSelect; resp_pc := SWait; taken := []; fds := ∅; shut := [];
     next_peer := 1; peers := ∅; sent := [] |}.

(** ** Pending requests *)

Definition set_count (p : conn_pending) (n : Z) (b : bool) : conn_pending :=
  {| count := n; paused := b; dead := dead p; wait_ms := wait_ms p; window_start_ms := window_start_ms p |}.

(** [pending[cltid]] of a C++ map: the entry is created if there is none. *)
Definition pending_ref (m : gmap Z conn_pending) (id : Z) : conn_pending :=
  default new_conn_pending (m !! id).

(** [response_done()] *)
Definition response_done (m : gmap Z conn_pending) (id : Z) : gmap Z conn_pending :=
  if id <? 0 then m
  else match m !! id with
       | None => m
       | Some p =>
           let n := if count p >? 0 then count p - 1 else count p in
           let resume := paused p && (n <=? AD_NET_SERVER_MAX_PENDING_PER_CONN / 2) in
           <[id := set_count p n (paused p && negb resume)]> m
       end.

(** [connection_dead()] *)
Definition connection_dead (m : gmap Z conn_pending) (id : Z) : bool :=
  if id <? 0 then false else match m !! id with Some p => dead p | None => false end.

(** [over_send_wait_budget()] at the time [now] *)
Definition over_send_wait_budget (m : gmap Z conn_pending) (id waited now : Z)
  : bool * gmap Z conn_pending :=
  if (id <? 0) || (waited <=? 0) then (false, m)
  else match m !! id with
       | None => (false, m)
       | Some p =>
           let fresh := now - window_start_ms p >? AD_NET_SERVER_SEND_WAIT_WINDOW_MS in
           let start := if fresh then now else window_start_ms p in
           let w := (if fresh then 0 else wait_ms p) + waited in
           (w >? AD_NET_SERVER_SEND_WAIT_BUDGET_MS,
            <[id := {| count := count p; paused := paused p; dead := dead p; wait_ms := w;
                       window_start_ms := start |}]> m)
       end.

(** The critical section of [drop_connection()] *)
Definition mark_dead (m : gmap Z conn_pending) (id : Z) : gmap Z conn_pending :=
  if id <? 0 then m
  else let p := pending_ref m id in
       <[id := {| count := count p; paused := false; dead := true; wait_ms := wait_ms p;
                  window_start_ms := window_start_ms p |}]> m.

(** ** Sending *)

(** What a [send] of [n] bytes, or the [poll] after it, can do. *)
Inductive send_result :=
| Sent (k : nat)                  (* k bytes, k > 0 *)
| Interrupted                     (* EINTR *)
| WouldBlock (now : Z) (ok : bool) (* EAGAIN at the time now; [ok]: poll succeeds or is interrupted *)
| Broken.                         (* any other error *)

(** [send_with_deadline()] from the results of its system calls in order, and the
    time at the end: the result, what reached the peer, and the time waited.  [None]
    when the results given end before the function does, or are impossible. *)
Fixpoint send_with_deadline (start : Z) (buf : msg) (out : msg) (rs : list send_result) (now : Z)
  : option (Z * msg * Z) :=
  match buf with
  | [] => Some (0, out, now - start)
  | _ =>
      match rs with
      | [] => None
      | Sent k :: r =>
          if (0 <? k)%nat && (k <=? length buf)%nat
          then send_with_deadline start (drop k buf) (out ++ take k buf) r now
          else None
      | Interrupted :: r => send_with_deadline start buf out r now
      | Broken :: _ => Some (-1, out, 0)
      | WouldBlock t ok :: r =>
          let left := start + AD_NET_SERVER_SEND_TIMEOUT_MS - t in
          if left <=? 0 then Some (-2, out, 0)
          else if ok then send_with_deadline start buf out r now
          else Some (-1, out, 0)
      end
  end.

(** ** Client records *)

(** [get_client_info()]: address, port and identifier. *)
Definition get_client_info (ci : Chain.chain net_data_obj) (fd : Z) : option (string * Z * Z) :=
  o ← Chain.lookup (identify_chain_element fd) ci; Some (ip o, port o, ident o).

(** [register_client_info()] *)
Definition register_client_info (ci : Chain.chain net_data_obj) (fd clt_port : Z) (clt_ip : string)
  : Z * Chain.chain net_data_obj :=
  let rc := Chain.generate_ident ci in
  let o := {| ident := rc.1; sock_descriptor := fd; port := clt_port;
              ip := String.substring 0 511 clt_ip; cltid := -1; data_buffer := [] |} in
  let pc := Chain.put rc.2 o in
  if pc.1 =? 0 then (0, pc.2) else (-1, rc.2).

(** [deregister_client_info()]: the loop removes every record of the descriptor. *)
Fixpoint deregister_loop (fuel : nat) (fd : Z) (ci : Chain.chain net_data_obj) : Chain.chain net_data_obj :=
  match fuel with
  | O => ci
  | S fuel =>
      let rc := Chain.take (identify_chain_element fd) ci in
      match rc.1 with
      | Some _ => deregister_loop fuel fd rc.2
      | None => rc.2
      end
  end.
Definition deregister_client_info (ci : Chain.chain net_data_obj) (fd : Z) : Chain.chain net_data_obj :=
  deregister_loop (S (length (Chain.items ci))) fd ci.

(** The second half of [dup_if_same_client()]: the peer of the duplicate, if the
    descriptor still belongs to the connection of the response.  [IsConnectionAlive]
    is whether the descriptor is a connected socket. *)
Definition IsConnectionAlive (s : ADNetServer) (fd : Z) : bool :=
  match fds s !! fd with Some peer => negb (bool_decide (peer ∈ shut s)) | None => false end.
Definition dup_if_same_client (s : ADNetServer) (fd id : Z) : option Z :=
  if id <? 0 then if IsConnectionAlive s fd then fds s !! fd else None
  else
    info ← Chain.lookup (identify_chain_element fd) (clientInfo_chain s);
    if ident info =? id then fds s !! fd else None.

(** [schedule_response()] *)
Definition schedule_response (rs : Chain.chain net_data_obj) (fd id : Z) (buf : msg)
  : Z * Chain.chain net_data_obj :=
  let pc := Chain.put rs {| ident := 0; sock_descriptor := fd; port := -1; ip := EmptyString;
                            cltid := id; data_buffer := buf |} in
  if pc.1 =? 0 then (0, pc.2) else (-1, rs).

(** A request as [queue_framed_requests()] and
    [binary_receive_data_and_notify_consumer()] queue it. *)
Definition queue_request (rq : Chain.chain net_data_obj) (fd clt_port : Z) (clt_ip : string) (id : Z)
    (data : msg) : Z * Chain.chain net_data_obj :=
  let rc := Chain.generate_ident rq in
  let pc := Chain.put rc.2 {| ident := rc.1; sock_descriptor := fd; port := clt_port; ip := clt_ip;
                              cltid := id; data_buffer := data |} in
  if pc.1 =? 0 then (0, pc.2) else (-1, rc.2).

(** [binary_receive_data_and_notify_consumer()] *)
Definition binary_receive_data_and_notify_consumer (s : ADNetServer) (fd : Z) (buf : msg)
  : Z * Chain.chain net_data_obj :=
  match get_client_info (clientInfo_chain s) fd with
  | Some (clt_ip, clt_port, id) => queue_request (request_chain s) fd clt_port clt_ip id buf
  | None => queue_request (request_chain s) fd (-1) EmptyString (-1) buf
  end.

(** ** The steps of the listen thread *)

(** The fixed answer of [send_protocol_error()]. *)
Definition protocol_error_text : msg :=
  bytes "{ 'jsonrpc': '2.0', 'error': { 'code': -32700, 'message': 'Parse error.' }, 'id': null }".

(** [send] to the peer behind a descriptor, without waiting; [k] bytes are taken. *)
Definition send_now (s : ADNetServer) (fd : Z) (buf : msg) (k : nat) : ADNetServer :=
  match fds s !! fd with
  | Some peer => with_kernel s (fds s) (shut s) (next_peer s) (peers s) (sent s ++ [(peer, -1, take k buf)])
  | None => s
  end.

(** [while (max_sd > 0 && !FD_ISSET(max_sd, &master_set)) max_sd -= 1] *)
Fixpoint lower_max (n : nat) (m : gset Z) : Z :=
  match n with
  | O => 0
  | S n' => if bool_decide (Z.of_nat n ∈ m) then Z.of_nat n else lower_max n' m
  end.

(** Adding a descriptor to the set [select] looks at. *)
Definition fd_set (s : ADNetServer) (fd : Z) : ADNetServer :=
  with_sets s (master_set s ∪ {[fd]}) (paused_fds s) (if fd >? max_sd s then fd else max_sd s).

(** [accept4()] returned [fd]: a descriptor beyond [FD_SETSIZE] is closed again. *)
Definition accept_fd (s : ADNetServer) (fd clt_port : Z) (clt_ip : string) : ADNetServer :=
  if fd >=? FD_SETSIZE then s
  else with_listen (with_kernel s (<[fd := next_peer s]> (fds s)) (shut s) (next_peer s + 1) (peers s) (sent s))
         (LAccepted fd clt_port clt_ip).

(** The rest of the body of the accept loop: [print_client_info()], the framer, the
    set. *)
Definition register_fd (s : ADNetServer) (fd clt_port : Z) (clt_ip : string) : ADNetServer :=
  let rc := register_client_info (clientInfo_chain s) fd clt_port clt_ip in
  let s1 := with_chains s (request_chain s) (response_chain s) rc.2 in
  let s2 := with_kernel s1 (fds s) (shut s) (next_peer s)
              (<[Chain.ident rc.2 := default 0 (fds s !! fd)]> (peers s)) (sent s) in
  let s3 := with_framers s2 (<[fd := Framer.new_framer AD_NET_SERVER_MAX_JSON_MSG_SIZE]> (framers s)) in
  with_listen (fd_set s3 fd) LSelect.

(** [recv] returned [data] ([json_receive_data_and_notify_consumer()]). *)
Definition receive_fd (s : ADNetServer) (fd : Z) (data : msg) : ADNetServer :=
  match framers s !! fd with
  | None => with_listen s (LQueued fd false (FromRecv (-1)))
  | Some f =>
      let fr := Framer.feed f data in
      with_listen (with_framers s (<[fd := fr.2]> (framers s))) (LQueueStart fd (FromRecv fr.1))
  end.

(** [queue_framed_requests()]: up to the loop, and one round of the loop. *)
Definition queue_start (s : ADNetServer) (fd : Z) (caller : queue_caller) : ADNetServer :=
  match framers s !! fd with
  | None => with_listen s (LQueued fd false caller)
  | Some f =>
      if (Framer.available f =? 0)%nat then with_listen s (LQueued fd false caller)
      else
        match get_client_info (clientInfo_chain s) fd with
        | Some (clt_ip, clt_port, id) =>
            if connection_dead (pending s) id then
              with_listen (with_framers s (<[fd := Framer.reset f]> (framers s))) (LQueued fd false caller)
            else with_listen s (LQueue fd id clt_port clt_ip caller)
        | None =>
            with_listen (with_framers s (<[fd := Framer.reset f]> (framers s))) (LQueued fd false caller)
        end
  end.

Definition queue_round (s : ADNetServer) (fd id clt_port : Z) (clt_ip : string) (caller : queue_caller)
  : ADNetServer :=
  match framers s !! fd with
  | None => with_listen s (LQueued fd false caller)
  | Some f =>
      match Framer.next f with
      | (None, _) => with_listen s (LQueued fd false caller)
      | (Some m, f') =>
          let p := pending_ref (pending s) id in
          if (0 <=? id) && (count p >=? AD_NET_SERVER_MAX_PENDING_PER_CONN) then
            with_listen (with_pending s (<[id := set_count p (count p) true]> (pending s)))
              (LQueued fd true caller)
          else
            let pend := if 0 <=? id then <[id := set_count p (count p + 1) (paused p)]> (pending s)
                        else pending s in
            let s1 := with_framers (with_pending s pend) (<[fd := f']> (framers s)) in
            let rc := queue_request (request_chain s) fd clt_port clt_ip id m in
            if rc.1 =? 0 then
              with_listen (with_chains s1 rc.2 (response_chain s) (clientInfo_chain s))
                (LQueue fd id clt_port clt_ip caller)
            else
              with_listen (with_pending s1 (response_done pend id)) (LQueued fd false caller)
      end
  end.

(** What the callers do with the result: a framing error is answered ([k] bytes of
    the answer fit) and closes the connection, a full backlog pauses it. *)
Definition queue_end (s : ADNetServer) (fd : Z) (is_paused : bool) (caller : queue_caller) (k : nat)
  : ADNetServer :=
  match caller with
  | FromRecv frc =>
      if frc <? 0 then with_listen (send_now s fd protocol_error_text k) (LClose fd)
      else if is_paused then
        with_listen (with_sets s (master_set s ∖ {[fd]}) (paused_fds s ∪ {[fd]}) (max_sd s)) LSelect
      else with_listen s LSelect
  | FromResume rest =>
      if is_paused then with_listen (with_sets s (master_set s) (paused_fds s ∪ {[fd]}) (max_sd s)) (LResume rest)
      else with_listen (fd_set s fd) (LResume rest)
  end.

(** One round of [resume_paused_connections()]. *)
Definition resume_round (s : ADNetServer) (rest : list Z) : ADNetServer :=
  match rest with
  | [] => with_listen s LSelect
  | fd :: rest =>
      let resume := match get_client_info (clientInfo_chain s) fd with
                    | Some (_, _, id) =>
                        match pending s !! id with Some p => negb (paused p) | None => true end
                    | None => true
                    end in
      if resume then
        with_listen (with_sets s (master_set s) (paused_fds s ∖ {[fd]}) (max_sd s))
          (LQueueStart fd (FromResume rest))
      else with_listen s (LResume rest)
  end.

(** The steps of [close_connection()], and what the loop does after it. *)
Definition close_pending (s : ADNetServer) (fd : Z) : ADNetServer :=
  let s1 := match get_client_info (clientInfo_chain s) fd with
            | Some (_, _, id) => with_pending s (delete id (pending s))
            | None => s
            end in
  with_listen (with_sets s1 (master_set s) (paused_fds s ∖ {[fd]}) (max_sd s)) (LDeregister fd).
Definition close_deregister (s : ADNetServer) (fd : Z) : ADNetServer :=
  with_listen
    (with_framers (with_chains s (request_chain s) (response_chain s)
                     (deregister_client_info (clientInfo_chain s) fd))
       (delete fd (framers s)))
    (LCloseFd fd).
Definition close_fd (s : ADNetServer) (fd : Z) : ADNetServer :=
  let m := master_set s ∖ {[fd]} in
  with_listen
    (with_sets (with_kernel s (delete fd (fds s)) (shut s) (next_peer s) (peers s) (sent s))
       m (paused_fds s) (if fd =? max_sd s then lower_max (Z.to_nat (max_sd s)) m else max_sd s))
    LSelect.

(** The order in which a [std::set] is visited. *)
Definition sorted_fds (m : gset Z) : list Z := merge_sort Z.le (elements m).

(** ** All steps *)

Inductive action :=
| Accept (fd clt_port : Z) (clt_ip : string)  (* accept4() *)
| Recv (fd : Z) (data : msg)                   (* recv() > 0 *)
| RecvEnd (fd : Z)                             (* recv(): end of stream or error *)
| Resume                                       (* the pipe, or the timeout of select *)
| Listen (k : nat)                             (* the listen thread goes on *)
| Take                                         (* the consumer takes a request *)
| Respond (i : nat) (buf : msg)                (* and answers one it took *)
| Response (start now : Z) (results : list send_result). (* the response thread goes on *)

Definition listen_step (s : ADNetServer) (k : nat) : option ADNetServer :=
  match listen_pc s with
  | LSelect => None
  | LAccepted fd clt_port clt_ip => Some (register_fd s fd clt_port clt_ip)
  | LQueueStart fd caller => Some (queue_start s fd caller)
  | LQueue fd id clt_port clt_ip caller => Some (queue_round s fd id clt_port clt_ip caller)
  | LQueued fd is_paused caller => Some (queue_end s fd is_paused caller k)
  | LResume rest => Some (resume_round s rest)
  | LClose fd => Some (close_pending s fd)
  | LDeregister fd => Some (close_deregister s fd)
  | LCloseFd fd => Some (close_fd s fd)
  end.

(** [monoshot_callback_function()] of the response thread. *)
Definition response_step (s : ADNetServer) (start now : Z) (rs : list send_result) : option ADNetServer :=
  match resp_pc s with
  | SWait =>
      match Chain.get (response_chain s) with
      | (Some o, c) => Some (with_resp (with_chains s (request_chain s) c (clientInfo_chain s)) (SCheckDead o))
      | (None, _) => None
      end
  | SCheckDead o =>
      Some (with_resp s (if connection_dead (pending s) (cltid o) then SDone o else SDup o))
  | SDup o =>
      Some (with_resp s (match dup_if_same_client s (sock_descriptor o) (cltid o) with
                         | Some peer => SSend o peer
                         | None => SDone o
                         end))
  | SSend o peer =>
      r ← send_with_deadline start (data_buffer o) [] rs now;
      let '(src, out, waited) := r in
      let s := with_kernel s (fds s) (shut s) (next_peer s) (peers s) (sent s ++ [(peer, cltid o, out)]) in
      Some (with_resp s (if src =? 0 then SBudget o peer waited else SDrop o peer (src =? -2)))
  | SBudget o peer waited =>
      let r := over_send_wait_budget (pending s) (cltid o) waited now in
      Some (with_resp (with_pending s r.2) (if r.1 then SDrop o peer true else SDone o))
  | SDrop o peer _ =>
      Some (with_resp (with_kernel (with_pending s (mark_dead (pending s) (cltid o)))
              (fds s) (shut s ++ [peer]) (next_peer s) (peers s) (sent s)) (SDone o))
  | SDone o => Some (with_resp (with_pending s (response_done (pending s) (cltid o))) SWait)
  end.

Definition step (s : ADNetServer) (a : action) : option ADNetServer :=
  match a with
  | Accept fd clt_port clt_ip =>
      match listen_pc s with
      | LSelect => Some (accept_fd s fd clt_port clt_ip)
      | _ => None
      end
  | Recv fd data =>
      match listen_pc s with
      | LSelect =>
          if bool_decide (fd ∈ dom (fds s) /\ fd ∈ master_set s) && (fd <=? max_sd s)
             && (0 <? length data)%nat
          then Some (receive_fd s fd data) else None
      | _ => None
      end
  | RecvEnd fd =>
      match listen_pc s with
      | LSelect =>
          if bool_decide (fd ∈ dom (fds s) /\ fd ∈ master_set s) && (fd <=? max_sd s)
          then Some (with_listen s (LClose fd)) else None
      | _ => None
      end
  | Resume =>
      match listen_pc s with
      | LSelect => Some (with_listen s (LResume (sorted_fds (paused_fds s))))
      | _ => None
      end
  | Listen k => listen_step s k
  | Take =>
      match Chain.get (request_chain s) with
      | (Some o, c) =>
          Some (with_taken (with_chains s c (response_chain s) (clientInfo_chain s)) (taken s ++ [o]))
      | (None, _) => None
      end
  | Respond i buf =>
      o ← taken s !! i;
      Some (with_taken (with_chains s (request_chain s)
              (schedule_response (response_chain s) (sock_descriptor o) (cltid o) buf).2
              (clientInfo_chain s)) (delete i (taken s)))
  | Response start now rs => response_step s start now rs
  end.

(** The kernel hands out a descriptor nobody has open. *)
Definition kernel_ok (s : ADNetServer) (a : action) : Prop :=
  match a with
  | Accept fd _ _ => 0 <= fd /\ fd ∉ dom (fds s) /\ fd <> listen_sd s /\ fd <> wake_sd s
  | _ => True
  end.

Inductive reachable (s0 : ADNetServer) : nat -> ADNetServer -> Prop :=
| reach_start : reachable s0 0 s0
| reach_step n s s' a : reachable s0 n s -> kernel_ok s a -> step s a = Some s' -> reachable s0 (S n) s'.

Fixpoint run (s : ADNetServer) (l : list action) : option ADNetServer :=
  match l with
  | [] => Some s
  | a :: r => s' ← step s a; run s' r
  end.

(** ** Starting and stopping *)

(** [start_listening()] on a server that was never started, with the results of its
    system calls: [socket], [setsockopt], [ioctl], [bind], [listen] and the read end
    that [pipe2] gave. *)
Definition start_listening (connected : bool) (sock opt nonblock bound listening : Z) (pipe : option Z)
  : Z * option ADNetServer :=
  if connected then (-1, None)
  else if sock <? 0 then (-1, None)
  else if opt <? 0 then (-1, None)
  else if nonblock <? 0 then (-1, None)
  else if bound <? 0 then (-1, None)
  else if listening <? 0 then (-1, None)
  else match pipe with
       | None => (-1, None)
       | Some wake => (0, Some (started sock wake))
       end.

(** [close_connection()] when no other thread runs. *)
Definition close_connection (s : ADNetServer) (fd : Z) : ADNetServer :=
  let s2 := close_deregister (close_pending s fd) fd in
  with_kernel s2 (delete fd (fds s2)) (shut s2) (next_peer s2) (peers s2) (sent s2).

(** The loop over [0 .. max_sd] of [stop_listening()]; the two descriptors of the
    server itself are not in [fds]. *)
Fixpoint close_watched (n : nat) (s : ADNetServer) : ADNetServer :=
  let s1 := match n with O => s | S m => close_watched m s end in
  let i := Z.of_nat n in
  if bool_decide (i ∈ master_set s1) then
    if (i =? listen_sd s1) || (i =? wake_sd s1) then s1 else close_connection s1 i
  else s1.

(** [stop_listening()] once the two threads have ended. *)
Definition stop_listening (s : ADNetServer) : ADNetServer :=
  let s1 := foldl close_connection s (sorted_fds (paused_fds s)) in
  let s2 := with_chains s1 (Chain.empty (request_chain s1)).2 (Chain.empty (response_chain s1)).2
              (Chain.empty (clientInfo_chain s1)).2 in
  with_pending (close_watched (Z.to_nat (max_sd s2)) s2) ∅.

Definition one_request : list action :=
  [Accept 9 4000 "10.0.0.1"; Listen 0; Recv 9 (bytes "{'id':1}{'id"); Listen 0; Listen 0; Listen 0; Listen 0;
   Take; Respond 0 (bytes "ok"); Response 0 0 []; Response 0 0 []; Response 0 0 [];
   Response 0 3 [Sent 1; WouldBlock 2 true; Sent 1]; Response 0 3 []; Response 0 3 []].

Example server_ex :
  (fun s => (listen_pc s, resp_pc s, sent s, count <$> (pending s !! 1))) <$> run (started 5 7) one_request =
  Some (LSelect, SWait, [(1, 1, bytes "ok")], Some 0).
Proof. vm_compute. reflexivity. Qed.

(** ** The invariant *)

Abbreviation records s := (Chain.items (clientInfo_chain s)).

(** The response the response thread works on. *)
Definition held (s : ADNetServer) : list net_data_obj :=
  match resp_pc s with
  | SWait => []
  | SCheckDead o | SDup o | SSend o _ | SBudget o _ _ | SDrop o _ _ | SDone o => [o]
  end.

(** The requests not answered yet, wherever they are. *)
Definition unanswered (s : ADNetServer) : list net_data_obj :=
  Chain.items (request_chain s) ++ taken s ++ Chain.items (response_chain s) ++ held s.

Definition unanswered_ids (s : ADNetServer) : list Z := map cltid (unanswered s).
Definition occurrences (id : Z) (l : list Z) : Z := Z.of_nat (length (List.filter (fun i => i =? id) l)).
Definition outstanding (s : ADNetServer) (id : Z) : Z := occurrences id (unanswered_ids s).

(** The descriptor the listen thread works on. *)
Definition current (s : ADNetServer) : option Z :=
  match listen_pc s with
  | LSelect | LResume _ => None
  | LAccepted fd _ _ | LQueueStart fd _ | LQueue fd _ _ _ _ | LQueued fd _ _
  | LClose fd | LDeregister fd | LCloseFd fd => Some fd
  end.

(** The paused descriptors [resume_paused_connections()] has still to look at. *)
Definition to_resume (s : ADNetServer) : list Z :=
  match listen_pc s with
  | LResume rest | LQueueStart _ (FromResume rest) | LQueue _ _ _ _ (FromResume rest)
  | LQueued _ _ (FromResume rest) => rest
  | _ => []
  end.

Definition has_record (s : ADNetServer) (fd : Z) : Prop :=
  exists o, o ∈ records s /\ sock_descriptor o = fd.

(** What the listen thread knows at each of its points. *)
Definition listen_ok (s : ADNetServer) : Prop :=
  match listen_pc s with
  | LSelect | LResume _ => True
  | LAccepted fd _ _ => fd ∈ dom (fds s) /\ ~ has_record s fd /\ fd ∉ master_set s /\ fd ∉ paused_fds s /\
                        0 <= fd < FD_SETSIZE
  | LQueueStart fd (FromRecv _) | LQueued fd _ (FromRecv _) => has_record s fd /\ fd ∈ master_set s
  | LQueueStart fd (FromResume rest) | LQueued fd _ (FromResume rest) =>
      has_record s fd /\ fd ∉ master_set s /\ fd ∉ paused_fds s /\ 0 <= fd < FD_SETSIZE
  | LQueue fd id _ _ c =>
      (exists o, o ∈ records s /\ sock_descriptor o = fd /\ ident o = id) /\
      match c with
      | FromRecv _ => fd ∈ master_set s
      | FromResume _ => fd ∉ master_set s /\ fd ∉ paused_fds s /\ 0 <= fd < FD_SETSIZE
      end
  | LClose fd => has_record s fd /\ fd ∈ master_set s
  | LDeregister fd => has_record s fd /\ fd ∈ master_set s
  | LCloseFd fd => ~ has_record s fd /\ fd ∈ master_set s /\ fd ∈ dom (fds s)
  end.

(** A table entry within its bounds. *)
Definition entry_ok (p : conn_pending) : Prop :=
  0 <= count p <= AD_NET_SERVER_MAX_PENDING_PER_CONN /\
  (paused p = true -> AD_NET_SERVER_MAX_PENDING_PER_CONN / 2 < count p).

Record server_ok (n : Z) (s : ADNetServer) : Prop := {
  so_open : Chain.open (request_chain s) = true /\ Chain.open (response_chain s) = true /\
            Chain.open (clientInfo_chain s) = true /\ Chain.attached (clientInfo_chain s) = true;
  so_ident : 0 <= Chain.ident (clientInfo_chain s) <= n;
  so_fd_unique : NoDup (map sock_descriptor (records s));
  so_id_unique : NoDup (map ident (records s));
  so_record : forall o, o ∈ records s ->
    0 < ident o <= Chain.ident (clientInfo_chain s) /\
    exists peer, fds s !! sock_descriptor o = Some peer /\ peers s !! ident o = Some peer;
  so_peers : forall id peer, peers s !! id = Some peer -> 0 < id <= Chain.ident (clientInfo_chain s);
  so_fds : forall fd, fd ∈ dom (fds s) -> has_record s fd \/ exists p i, listen_pc s = LAccepted fd p i \/ listen_pc s = LCloseFd fd;
  so_framers : forall fd, fd ∈ dom (framers s) <-> has_record s fd;
  so_master : forall fd, fd ∈ master_set s -> fd <= max_sd s /\ 0 <= fd < FD_SETSIZE /\
    (fd ∈ dom (fds s) \/ fd = listen_sd s \/ fd = wake_sd s);
  so_paused : forall fd, fd ∈ paused_fds s -> fd ∈ dom (fds s) /\ fd ∉ master_set s /\ 0 <= fd < FD_SETSIZE;
  so_watched : forall fd, fd ∈ dom (fds s) ->
    fd ∈ master_set s \/ fd ∈ paused_fds s \/ current s = Some fd;
  so_special : listen_sd s ∉ dom (fds s) /\ wake_sd s ∉ dom (fds s) /\ 0 <= max_sd s;
  so_resume : NoDup (to_resume s) /\ forall fd, fd ∈ to_resume s -> fd ∈ paused_fds s;
  so_listen : listen_ok s;
  so_entries : forall id p, pending s !! id = Some p -> entry_ok p /\ 0 < id <= Chain.ident (clientInfo_chain s);
  so_count : forall o, o ∈ records s -> listen_pc s <> LDeregister (sock_descriptor o) ->
    count (pending_ref (pending s) (ident o)) = outstanding s (ident o);
  so_unanswered : forall id, id ∈ unanswered_ids s -> 0 < id <= Chain.ident (clientInfo_chain s);
  so_send : match resp_pc s with
            | SDup o => connection_dead (pending s) (cltid o) = false
            | SSend o peer => peers s !! cltid o = Some peer /\ connection_dead (pending s) (cltid o) = false
            | SBudget o peer _ | SDrop o peer _ => peers s !! cltid o = Some peer
            | _ => True
            end;
  so_sent : forall peer id m, (peer, id, m) ∈ sent s -> id = -1 \/ peers s !! id = Some peer;
}.

(** ** Lemmas on the parts *)

Lemma response_done_other (m : gmap Z conn_pending) (id i : Z) :
  i <> id -> response_done m id !! i = m !! i.
Proof.
  intros Hne. unfold response_done. destruct (id <? 0); [done|].
  destruct (m !! id); [|done]. by rewrite lookup_insert_ne.
Qed.

Lemma response_done_entry (m : gmap Z conn_pending) (id i : Z) (p : conn_pending) :
  (forall j q, m !! j = Some q -> entry_ok q) -> response_done m id !! i = Some p ->
  entry_ok p /\ is_Some (m !! i).
Proof.
  intros Hm Hp. destruct (decide (i = id)) as [->|Hne].
  - unfold response_done in Hp. destruct (id <? 0); [split; [by eapply Hm|by eexists]|].
    destruct (m !! id) as [q|] eqn:E; [|congruence].
    rewrite lookup_insert_eq in Hp. simplify_eq. split; [|by eexists].
    destruct (Hm id q E) as [Hc Hpause]. unfold entry_ok. simpl.
    destruct (Z.gtb_spec (count q) 0).
    + split; [lia|]. intros [Hq Hn]%andb_true_iff. apply negb_true_iff in Hn.
      destruct (paused q); simpl in Hn; [|done]. apply Z.leb_gt in Hn. lia.
    + split; [lia|]. intros [Hq%Hpause _]%andb_true_iff. done.
  - rewrite response_done_other in Hp by done. split; [by eapply Hm|by eexists].
Qed.

Lemma response_done_count (m : gmap Z conn_pending) (id : Z) :
  0 < id -> 0 < count (pending_ref m id) ->
  count (pending_ref (response_done m id) id) = count (pending_ref m id) - 1.
Proof.
  unfold response_done, pending_ref. intros Hid Hc. destruct (Z.ltb_spec id 0); [lia|].
  destruct (m !! id) as [p|] eqn:E; simpl in *; [|lia]. rewrite lookup_insert_eq. simpl.
  destruct (Z.gtb_spec (count p) 0); lia.
Qed.

Lemma mark_dead_entry (m : gmap Z conn_pending) (id i : Z) (p : conn_pending) :
  (forall j q, m !! j = Some q -> entry_ok q) -> mark_dead m id !! i = Some p ->
  entry_ok p /\ (i = id \/ is_Some (m !! i)).
Proof.
  intros Hm Hp. unfold mark_dead in Hp. destruct (id <? 0); [split; [by eapply Hm|right; by eexists]|].
  destruct (decide (i = id)) as [->|Hne].
  - rewrite lookup_insert_eq in Hp. simplify_eq. split; [|by left]. unfold entry_ok, pending_ref. simpl.
    destruct (m !! id) as [q|] eqn:E; simpl; [destruct (Hm id q E); split; [lia|done]|].
    split; [|done]. unfold AD_NET_SERVER_MAX_PENDING_PER_CONN. lia.
  - rewrite lookup_insert_ne in Hp by done. split; [by eapply Hm|right; by eexists].
Qed.

Lemma mark_dead_count (m : gmap Z conn_pending) (id i : Z) :
  count (pending_ref (mark_dead m id) i) = count (pending_ref m i).
Proof.
  unfold mark_dead. destruct (id <? 0); [done|]. unfold pending_ref at 1.
  destruct (decide (i = id)) as [->|Hne]; [by rewrite lookup_insert_eq|by rewrite lookup_insert_ne].
Qed.

Lemma budget_entry (m : gmap Z conn_pending) (id w now i : Z) (p : conn_pending) :
  (forall j q, m !! j = Some q -> entry_ok q) -> (over_send_wait_budget m id w now).2 !! i = Some p ->
  entry_ok p /\ is_Some (m !! i).
Proof.
  intros Hm Hp. unfold over_send_wait_budget in Hp.
  destruct (_ || _); [split; [by eapply Hm|by eexists]|].
  destruct (m !! id) as [q|] eqn:E; [|split; [by eapply Hm|by eexists]]. simpl in Hp.
  destruct (decide (i = id)) as [->|Hne].
  - rewrite lookup_insert_eq in Hp. simplify_eq. split; [|by eexists]. by apply (Hm id q E).
  - rewrite lookup_insert_ne in Hp by done. split; [by eapply Hm|by eexists].
Qed.

Lemma budget_count (m : gmap Z conn_pending) (id w now i : Z) :
  count (pending_ref (over_send_wait_budget m id w now).2 i) = count (pending_ref m i).
Proof.
  unfold over_send_wait_budget. destruct (_ || _); [done|]. destruct (m !! id) as [q|] eqn:E; [|done].
  simpl. unfold pending_ref. destruct (decide (i = id)) as [->|Hne];
    [by rewrite lookup_insert_eq, E|by rewrite lookup_insert_ne].
Qed.

Lemma deregister_spec (ci : Chain.chain net_data_obj) (fd : Z) :
  Chain.open ci = true -> Chain.attached ci = true ->
  deregister_client_info ci fd =
  Chain.set_items ci (List.filter (fun o => negb (identify_chain_element fd o)) (Chain.items ci)).
Proof.
  intros Ho Ha. unfold deregister_client_info.
  assert (forall fuel ci', Chain.open ci' = true -> Chain.attached ci' = true ->
    (length (Chain.items ci') < fuel)%nat -> deregister_loop fuel fd ci' =
    Chain.set_items ci' (List.filter (fun o => negb (identify_chain_element fd o)) (Chain.items ci'))) as H.
  2: { apply H; [done|done|lia]. }
  induction fuel as [|fuel IH]; intros ci' Ho' Ha' Hl; [lia|]. simpl. unfold Chain.take.
  rewrite Ho', Ha'. simpl. destruct (find_first _ _) as [o|] eqn:F.
  - rewrite IH; try done.
    + unfold Chain.set_items. simpl. f_equal. clear -F. revert o F.
      induction (Chain.items ci') as [|x l IHl]; intros o F; simpl in *; [done|].
      destruct (identify_chain_element fd x) eqn:E; simpl; [done|]. rewrite E. simpl. f_equal. eauto.
    + simpl. pose proof (remove_first_perm _ _ _ F) as Hp. apply Permutation_length in Hp. simpl in Hp. lia.
  - rewrite remove_first_none by done. f_equal. rewrite find_first_None in F.
    revert F. generalize (Chain.items ci') as l. clear. induction l as [|x l IHl]; intros F; simpl; [done|].
    rewrite F by set_solver. simpl. f_equal. apply IHl. intros y Hy. apply F. set_solver.
Qed.

Lemma occurrences_perm (id : Z) (l k : list Z) : l ≡ₚ k -> occurrences id l = occurrences id k.
Proof.
  unfold occurrences. intros Hp. f_equal. induction Hp; simpl; try done; try lia.
  - destruct (x =? id); simpl; lia.
  - destruct (x =? id), (y =? id); simpl; lia.
Qed.

Lemma occurrences_cons (id x : Z) (l : list Z) :
  occurrences id (x :: l) = occurrences id l + (if x =? id then 1 else 0).
Proof. unfold occurrences. simpl. destruct (x =? id); simpl; lia. Qed.

Lemma occurrences_nonneg (id : Z) (l : list Z) : 0 <= occurrences id l.
Proof. unfold occurrences. lia. Qed.

Lemma occurrences_in (id : Z) (l : list Z) : id ∈ l -> 0 < occurrences id l.
Proof.
  intros (l1 & l2 & ->)%list_elem_of_split. rewrite (occurrences_perm _ _ (id :: l1 ++ l2)).
  - rewrite occurrences_cons, Z.eqb_refl. pose proof (occurrences_nonneg id (l1 ++ l2)). lia.
  - symmetry. apply Permutation_middle.
Qed.

Lemma occurrences_none (id : Z) (l : list Z) : id ∉ l -> occurrences id l = 0.
Proof.
  unfold occurrences. induction l as [|x l IH]; intros Hn; simpl; [done|]. apply not_elem_of_cons in Hn as [? ?].
  destruct (Z.eqb_spec x id); [congruence|auto].
Qed.

(** ** Every step keeps the invariant *)

(** Steps of the consumer and of the response thread that move requests along. *)
Lemma ok_moved (n : Z) (s s' : ADNetServer) :
  server_ok n s ->
  s' = with_resp (with_taken (with_chains s (request_chain s') (response_chain s') (clientInfo_chain s))
                    (taken s')) (resp_pc s') ->
  Chain.open (request_chain s') = true -> Chain.open (response_chain s') = true ->
  unanswered_ids s' ≡ₚ unanswered_ids s ->
  match resp_pc s' with SWait | SCheckDead _ => True | _ => resp_pc s' = resp_pc s end ->
  server_ok (n + 1) s'.
Proof.
  intros Hok Es H1 H2 Hp Hpc. remember (resp_pc s') as pc eqn:Epc.
  remember (request_chain s') as rq. remember (response_chain s') as rs. remember (taken s') as tk.
  clear Epc Heqrq Heqrs Heqtk. subst s'. destruct Hok.
  constructor; simpl; try assumption; try lia.
  - destruct so_open0 as (? & ? & ? & ?). by split_and!.
  - intros o Ho Hn. rewrite so_count0 by done. unfold outstanding. symmetry. by apply occurrences_perm.
  - intros id Hid. apply so_unanswered0. by rewrite <- Hp.
  - destruct pc; try done; rewrite <- Hpc in so_send0; exact so_send0.
Qed.

Lemma take_ok (n : Z) (s : ADNetServer) (o : net_data_obj) (c : Chain.chain net_data_obj) :
  server_ok n s -> Chain.get (request_chain s) = (Some o, c) ->
  server_ok (n + 1) (with_taken (with_chains s c (response_chain s) (clientInfo_chain s)) (taken s ++ [o])).
Proof.
  intros Hok Hg. unfold Chain.get in Hg. destruct (so_open n s Hok) as (Ho1 & Ho2 & _).
  destruct (Chain.items (request_chain s)) as [|x r] eqn:E; [done|]. rewrite Ho1 in Hg. simplify_eq.
  apply (ok_moved n s); simpl; try done; [|by destruct (resp_pc s)].
  unfold unanswered_ids, unanswered. simpl. rewrite E. rewrite <- !app_assoc, !map_app. simpl.
  rewrite (Permutation_middle (map cltid r)). apply Permutation_app_head.
  by rewrite <- Permutation_middle.
Qed.

Lemma respond_ok (n : Z) (s : ADNetServer) (i : nat) (o : net_data_obj) (buf : msg) :
  server_ok n s -> taken s !! i = Some o ->
  server_ok (n + 1) (with_taken (with_chains s (request_chain s)
    (schedule_response (response_chain s) (sock_descriptor o) (cltid o) buf).2
    (clientInfo_chain s)) (delete i (taken s))).
Proof.
  intros Hok Hi. destruct (so_open n s Hok) as (Ho1 & Ho2 & _).
  unfold schedule_response, Chain.put. rewrite Ho2. simpl.
  apply (ok_moved n s); simpl; try done; [|by destruct (resp_pc s)].
  pose proof (Permutation_map cltid (delete_Permutation (taken s) i o Hi)) as Hp.
  unfold unanswered_ids, unanswered. simpl in *. rewrite !map_app. simpl.
  apply Permutation_app_head. rewrite Hp, <- app_assoc. simpl.
  rewrite <- !Permutation_middle. done.
Qed.

(** The pending table changed by the response thread: counts and bounds kept. *)
Lemma ok_table (n : Z) (s : ADNetServer) (m : gmap Z conn_pending) (pc : resp_state) k (sh : list Z)
    (l : list (Z * Z * msg)) :
  server_ok n s -> k = with_resp (with_kernel (with_pending s m) (fds s) sh (next_peer s) (peers s) l) pc ->
  (forall id p, m !! id = Some p -> entry_ok p /\ 0 < id <= Chain.ident (clientInfo_chain s)) ->
  (forall id, count (pending_ref m id) = count (pending_ref (pending s) id)) ->
  held k = held s ->
  (match pc with
   | SDup o => connection_dead m (cltid o) = false
   | SSend o peer => peers s !! cltid o = Some peer /\ connection_dead m (cltid o) = false
   | SBudget o peer _ | SDrop o peer _ => peers s !! cltid o = Some peer
   | _ => True
   end) ->
  (forall peer id m, (peer, id, m) ∈ l -> id = -1 \/ peers s !! id = Some peer) ->
  server_ok (n + 1) k.
Proof.
  intros Hok -> Hent Hcount Hheld Hsend Hl.
  assert (unanswered_ids (with_resp (with_kernel (with_pending s m) (fds s) sh (next_peer s) (peers s) l) pc)
          = unanswered_ids s) as Hun.
  { unfold unanswered_ids, unanswered. rewrite Hheld. done. }
  destruct Hok. constructor; simpl; try assumption; try lia.
  - intros o Ho Hn. rewrite Hcount. unfold outstanding. rewrite Hun. by apply so_count0.
  - intros id Hid. apply so_unanswered0. by rewrite <- Hun.
Qed.

Lemma unanswered_held (n : Z) (s : ADNetServer) (o : net_data_obj) :
  server_ok n s -> held s = [o] ->
  0 < cltid o <= Chain.ident (clientInfo_chain s) /\
  exists l, unanswered_ids s = l ++ [cltid o].
Proof.
  intros Hok Hh. assert (exists l, unanswered_ids s = l ++ [cltid o]) as [l El].
  { unfold unanswered_ids, unanswered. rewrite Hh, !app_assoc, map_app. by eexists. }
  split; [|by exists l]. apply (so_unanswered n s Hok). rewrite El. set_solver.
Qed.

Lemma dup_peer (n : Z) (s : ADNetServer) (fd id peer : Z) :
  server_ok n s -> 0 < id -> dup_if_same_client s fd id = Some peer -> peers s !! id = Some peer.
Proof.
  intros Hok Hid Hd. unfold dup_if_same_client in Hd. destruct (Z.ltb_spec id 0); [lia|].
  unfold Chain.lookup in Hd. destruct (so_open n s Hok) as (_ & _ & _ & Ha). rewrite Ha in Hd.
  destruct (find_first _ _) as [o|] eqn:F; simpl in Hd; [|done].
  apply find_first_Some in F as [Ho Hfd]. unfold identify_chain_element in Hfd. apply Z.eqb_eq in Hfd.
  destruct (Z.eqb_spec (ident o) id) as [<-|]; [|done].
  destruct (so_record n s Hok o Ho) as (_ & peer' & Hp1 & Hp2). rewrite Hfd in Hp1. congruence.
Qed.

Lemma response_step_ok (n : Z) (s s' : ADNetServer) start now rs :
  server_ok n s -> response_step s start now rs = Some s' -> server_ok (n + 1) s'.
Proof.
  intros Hok Hs. unfold response_step in Hs.
  assert (forall id p, pending s !! id = Some p -> entry_ok p) as Hent
    by (intros id p Hp; by apply (so_entries n s Hok id p)).
  pose proof (so_send n s Hok) as Hsend. pose proof (so_sent n s Hok) as Hsent.
  destruct (resp_pc s) as [|o|o|o peer|o peer w|o peer t|o] eqn:Epc.
  - unfold Chain.get in Hs. destruct (so_open n s Hok) as (Ho1 & Ho2 & _).
    destruct (Chain.items (response_chain s)) as [|x r] eqn:E; [done|]. rewrite Ho2 in Hs. simplify_eq.
    apply (ok_moved n s); simpl; try done. unfold unanswered_ids, unanswered. simpl. rewrite E.
    assert (held s = []) as -> by (unfold held; by rewrite Epc).
    rewrite app_nil_r, !map_app. simpl. do 2 apply Permutation_app_head. by rewrite <- Permutation_cons_append.
  - simplify_eq. assert (held s = [o]) as Hh by (unfold held; by rewrite Epc).
    apply (ok_table n s (pending s) _ _ (shut s) (sent s) Hok eq_refl); try done.
    + by apply (so_entries n s Hok).
    + unfold held at 1. simpl. rewrite Hh. by destruct (connection_dead _ _).
    + by destruct (connection_dead (pending s) (cltid o)) eqn:Ed.
  - simplify_eq. assert (held s = [o]) as Hh by (unfold held; by rewrite Epc).
    destruct (unanswered_held n s o Hok Hh) as [Hid _].
    apply (ok_table n s (pending s) _ _ (shut s) (sent s) Hok eq_refl); try done.
    + by apply (so_entries n s Hok).
    + unfold held at 1. simpl. rewrite Hh. by destruct (dup_if_same_client _ _ _).
    + destruct (dup_if_same_client _ _ _) as [peer|] eqn:Ed; [|done]. split; [|done].
      eapply dup_peer; [done| |done]. lia.
  - destruct (send_with_deadline _ _ _ _ _) as [[[src out] w]|]; simpl in Hs; simplify_eq.
    assert (held s = [o]) as Hh by (unfold held; by rewrite Epc). destruct Hsend as [Hpeer Hdead].
    apply (ok_table n s (pending s) _ _ (shut s) (sent s ++ [(peer, cltid o, out)]) Hok eq_refl); try done.
    + by apply (so_entries n s Hok).
    + unfold held at 1. simpl. rewrite Hh. by destruct (src =? 0).
    + by destruct (src =? 0).
    + intros peer' id m [Hin|Hin%list_elem_of_singleton]%elem_of_app; [by eapply Hsent|].
      simplify_eq. by right.
  - simplify_eq. assert (held s = [o]) as Hh by (unfold held; by rewrite Epc).
    apply (ok_table n s (over_send_wait_budget (pending s) (cltid o) w now).2 _ _ (shut s) (sent s) Hok eq_refl);
      try done.
    + intros id p Hp. destruct (budget_entry _ _ _ _ _ _ Hent Hp) as [? [q Hq]].
      split; [done|]. by apply (so_entries n s Hok id q).
    + intros id. apply budget_count.
    + unfold held at 1. simpl. rewrite Hh. by destruct (over_send_wait_budget _ _ _ _).1.
    + by destruct (over_send_wait_budget _ _ _ _).1.
  - simplify_eq. assert (held s = [o]) as Hh by (unfold held; by rewrite Epc).
    destruct (unanswered_held n s o Hok Hh) as [Hid _].
    apply (ok_table n s (mark_dead (pending s) (cltid o)) _ _ (shut s ++ [peer]) (sent s) Hok eq_refl);
      try done.
    + intros id p Hp. destruct (mark_dead_entry _ _ _ _ Hent Hp) as [? [->|[q Hq]]]; [done|].
      split; [done|]. by apply (so_entries n s Hok id q).
    + intros id. apply mark_dead_count.
  - simplify_eq. assert (held s = [o]) as Hh by (unfold held; by rewrite Epc).
    destruct (unanswered_held n s o Hok Hh) as [Hid [l El]].
    assert (unanswered_ids (with_resp (with_pending s (response_done (pending s) (cltid o))) SWait) = l) as El'.
    { unfold unanswered_ids, unanswered in *. simpl. rewrite Hh, !app_assoc, map_app in El.
      simpl in El. apply app_inj_tail in El as [<- _]. rewrite app_nil_r, !app_assoc. done. }
    destruct Hok. constructor; simpl; try assumption; try lia; try done.
    + intros id p Hp. destruct (response_done_entry _ _ _ _ Hent Hp) as [? [q Hq]].
      split; [done|]. by apply (so_entries0 id q).
    + intros r Hr Hn. specialize (so_count0 r Hr Hn). unfold outstanding in *. rewrite El'. rewrite El in so_count0.
      rewrite (occurrences_perm _ (l ++ [cltid o]) (cltid o :: l)) in so_count0
        by (symmetry; apply Permutation_cons_append).
      rewrite occurrences_cons in so_count0. pose proof (occurrences_nonneg (ident r) l).
      destruct (Z.eqb_spec (cltid o) (ident r)) as [E|Hne].
      * rewrite <- E in *. rewrite response_done_count; lia.
      * unfold pending_ref at 1. rewrite response_done_other by done. fold (pending_ref (pending s) (ident r)). lia.
    + intros id Hin. apply so_unanswered0. rewrite El. rewrite El' in Hin. set_solver.
Qed.

Lemma ok_mono (n : Z) (s : ADNetServer) : server_ok n s -> server_ok (n + 1) s.
Proof. intros []. constructor; try assumption. lia. Qed.

(** A point of the listen thread at which every open descriptor has its record. *)
Definition settled (pc : listen_state) : Prop :=
  match pc with LAccepted _ _ _ | LCloseFd _ | LDeregister _ => False | _ => True end.

(** Steps of the listen thread that change its position, the framers and the sets. *)
Lemma ok_listen (n : Z) (s k : ADNetServer) (pc : listen_state) fr (m p : gset Z) (max : Z)
    (l : list (Z * Z * msg)) :
  server_ok n s ->
  k = with_listen (with_sets (with_framers (with_kernel s (fds s) (shut s) (next_peer s) (peers s) l) fr) m p max) pc ->
  settled (listen_pc s) -> (settled pc \/ exists fd, pc = LDeregister fd) -> dom fr = dom (framers s) ->
  (forall fd, fd ∈ m -> fd <= max /\ 0 <= fd < FD_SETSIZE /\
     (fd ∈ dom (fds s) \/ fd = listen_sd s \/ fd = wake_sd s)) ->
  (forall fd, fd ∈ p -> fd ∈ dom (fds s) /\ fd ∉ m /\ 0 <= fd < FD_SETSIZE) ->
  (forall fd, fd ∈ dom (fds s) -> fd ∈ m \/ fd ∈ p \/ current k = Some fd) ->
  0 <= max ->
  (NoDup (to_resume k) /\ forall fd, fd ∈ to_resume k -> fd ∈ p) ->
  listen_ok k ->
  (forall peer id x, (peer, id, x) ∈ l -> id = -1 \/ peers s !! id = Some peer) ->
  server_ok (n + 1) k.
Proof.
  intros Hok -> Hold Hnew Hdom Hm Hp Hw Hmax Hres Hl Hsent.
  destruct Hok. constructor; simpl; try assumption; try lia.
  - intros fd Hfd. destruct (so_fds0 fd Hfd) as [?|(pt & i & [E|E])]; [by left| |]; by rewrite E in Hold.
  - intros fd. rewrite Hdom. apply so_framers0.
  - destruct so_special0 as (? & ? & _). by split_and!.
  - intros o Ho Hn. apply so_count0; [done|]. intros E. by rewrite E in Hold.
Qed.

(** A connected client has its record when the listen thread is settled. *)
Lemma settled_record (n : Z) (s : ADNetServer) (fd : Z) :
  server_ok n s -> settled (listen_pc s) -> fd ∈ dom (fds s) -> has_record s fd.
Proof.
  intros Hok Hset Hfd. destruct (so_fds n s Hok fd Hfd) as [?|(p & i & [E|E])]; [done|..];
    by rewrite E in Hset.
Qed.

Lemma get_client_info_record (n : Z) (s : ADNetServer) (fd : Z) :
  server_ok n s -> has_record s fd ->
  exists o, get_client_info (clientInfo_chain s) fd = Some (ip o, port o, ident o) /\
            o ∈ records s /\ sock_descriptor o = fd.
Proof.
  intros Hok (o & Ho & Hfd). unfold get_client_info, Chain.lookup.
  destruct (so_open n s Hok) as (_ & _ & _ & Ha). rewrite Ha.
  destruct (find_first (identify_chain_element fd) (records s)) as [x|] eqn:F.
  - apply find_first_Some in F as [Hx Hfx]. unfold identify_chain_element in Hfx. apply Z.eqb_eq in Hfx.
    exists x. simpl. by split_and!.
  - rewrite find_first_None in F. specialize (F o Ho). unfold identify_chain_element in F.
    apply Z.eqb_neq in F. done.
Qed.

Lemma accept_ok (n : Z) (s : ADNetServer) (fd cp : Z) (ci : string) :
  server_ok n s -> kernel_ok s (Accept fd cp ci) -> listen_pc s = LSelect ->
  server_ok (n + 1) (accept_fd s fd cp ci).
Proof.
  intros Hok (H0 & Hfd & Hl & Hw) Epc. unfold accept_fd.
  destruct (Z.geb_spec fd FD_SETSIZE); [by apply ok_mono|].
  assert (~ has_record s fd) as Hnr.
  { intros (o & Ho & <-). destruct (so_record n s Hok o Ho) as (_ & peer & Hp & _).
    apply Hfd. by apply elem_of_dom. }
  destruct Hok. unfold listen_ok, current in *. rewrite Epc in *.
  constructor; simpl; try assumption; try lia.
  - intros o Ho. destruct (so_record0 o Ho) as (? & peer & Hp & ?). split; [done|]. exists peer.
    split; [|done]. rewrite lookup_insert_ne; [done|]. intros E. apply Hnr. by exists o.
  - intros x Hx. rewrite dom_insert_L in Hx. apply elem_of_union in Hx as [Hx%elem_of_singleton|Hx].
    + right. exists cp, ci. left. by subst.
    + destruct (so_fds0 x Hx) as [?|(? & ? & [?|?])]; [by left|done..].
  - intros x Hx. rewrite dom_insert_L. destruct (so_master0 x Hx) as (? & ? & [?|?]).
    + split_and!; [lia..|]. left. by apply elem_of_union_r.
    + split_and!; [lia..|by right].
  - intros x Hx. rewrite dom_insert_L. destruct (so_paused0 x Hx) as (? & ? & ?).
    split_and!; [by apply elem_of_union_r|done|lia|lia].
  - intros x Hx. rewrite dom_insert_L in Hx. apply elem_of_union in Hx as [Hx%elem_of_singleton|Hx].
    + right. right. by subst.
    + destruct (so_watched0 x Hx) as [?|[?|?]]; [by left|by right; left|done].
  - rewrite dom_insert_L. destruct so_special0 as (? & ? & ?).
    split_and!; [..|done]; intros [?%elem_of_singleton|?]%elem_of_union; congruence.
  - split; [constructor|]. intros x Hx. by apply elem_of_nil in Hx.
  - unfold listen_ok. simpl. rewrite dom_insert_L.
    split_and!; [by apply elem_of_union_l, elem_of_singleton|done| | |lia|lia].
    + intros Hm. destruct (so_master0 fd Hm) as (_ & _ & [?|[?|?]]); done.
    + intros Hm. by destruct (so_paused0 fd Hm) as (? & _).
  - intros o Ho _. by apply so_count0.
Qed.

(** Registering the client: a fresh identifier, the framer, the set. *)
Lemma registered (n : Z) (s : ADNetServer) (fd cp : Z) (ci : string) :
  server_ok n s -> n < int_max -> exists o c,
  (register_client_info (clientInfo_chain s) fd cp ci).2 = c /\
  ident o = Chain.ident (clientInfo_chain s) + 1 /\ sock_descriptor o = fd /\
  Chain.items c = records s ++ [o] /\ Chain.ident c = ident o /\
  Chain.open c = true /\ Chain.attached c = true.
Proof.
  intros Hok Hn. destruct (so_open n s Hok) as (_ & _ & Ho & Ha). pose proof (so_ident n s Hok).
  eexists {| ident := Chain.ident (clientInfo_chain s) + 1; sock_descriptor := fd; port := cp;
            ip := String.substring 0 511 ci; cltid := -1; data_buffer := [] |}, _.
  split; [reflexivity|]. unfold register_client_info, Chain.generate_ident, Chain.put. simpl. rewrite Ho. simpl.
  assert (i32 (Chain.ident (clientInfo_chain s) + 1) = Chain.ident (clientInfo_chain s) + 1) as ->.
  - apply i32_id. unfold int_max, int_min in *. lia.
  - by split_and!.
Qed.

Lemma server_register_ok (n : Z) (s : ADNetServer) (fd cp : Z) (ci : string) :
  server_ok n s -> n < int_max -> listen_pc s = LAccepted fd cp ci ->
  server_ok (n + 1) (register_fd s fd cp ci).
Proof.
  intros Hok Hn Epc. destruct (registered n s fd cp ci Hok Hn) as (o & c & Ec & Hid & Hfd & Hit & Hci & Hop & Hat).
  unfold register_fd. rewrite Ec. clear Ec. pose proof (so_listen n s Hok) as Hl. unfold listen_ok in Hl.
  rewrite Epc in Hl. destruct Hl as (Hin & Hnr & Hnm & Hnp & Hr).
  apply elem_of_dom in Hin as Hin'. destruct Hin' as [peer Hpeer].
  assert (forall x, has_record s x -> x <> fd) as Hne by (intros x Hx ->; done).
  assert (forall id q, peers s !! id = Some q ->
    <[Chain.ident (clientInfo_chain s) + 1 := default 0 (fds s !! fd)]> (peers s) !! id = Some q) as Hold.
  { intros id q Hq. rewrite lookup_insert_ne; [done|]. pose proof (so_peers n s Hok id q Hq). lia. }
  destruct Hok. unfold current in *. rewrite Epc in *.
  constructor; simpl; unfold has_record; simpl; rewrite ?Hit, ?Hci, ?Hid in *; try assumption; try lia.
  - by destruct so_open0 as (? & ? & _).
  - rewrite map_app. apply NoDup_app. split_and!; [done| |apply NoDup_singleton].
    intros x (r & -> & Hr')%list_elem_of_fmap. simpl. rewrite list_elem_of_singleton, Hfd.
    apply Hne. by exists r.
  - rewrite map_app. apply NoDup_app. split_and!; [done| |apply NoDup_singleton].
    intros x (r & -> & Hr')%list_elem_of_fmap. simpl. rewrite list_elem_of_singleton, Hid.
    destruct (so_record0 r Hr') as [? _]. lia.
  - intros r [Hr'| ->%list_elem_of_singleton]%elem_of_app.
    + destruct (so_record0 r Hr') as (? & q & ? & ?). split; [lia|]. exists q. auto.
    + rewrite Hid. split; [lia|]. exists peer. rewrite lookup_insert_eq, Hfd, Hpeer. done.
  - intros id q [[<- _]|[_ Hq]]%lookup_insert_Some; [lia|]. specialize (so_peers0 id q Hq). lia.
  - intros x Hx. destruct (so_fds0 x Hx) as [(r & ? & ?)|(? & ? & [?|?])]; simplify_eq.
    + left. exists r. split; [by apply elem_of_app; left|done].
    + left. exists o. split; [by apply elem_of_app; right; apply list_elem_of_singleton|done].
  - intros x. rewrite dom_insert_L, elem_of_union, elem_of_singleton, so_framers0. split.
    + intros [->|(r & ? & ?)].
      * exists o. split; [by apply elem_of_app; right; apply list_elem_of_singleton|done].
      * exists r. split; [by apply elem_of_app; left|done].
    + intros (r & [?| ->%list_elem_of_singleton]%elem_of_app & <-); [right; by exists r|by left].
  - intros x [Hx%so_master0|Hx%elem_of_singleton]%elem_of_union;
      destruct (Z.gtb_spec fd (max_sd s)); subst; (split; [lia|]); (split; [lia|]); try tauto; by left.
  - intros x Hx. destruct (so_paused0 x Hx) as (? & ? & ?). split; [done|]. split; [|lia].
    intros [?|?%elem_of_singleton]%elem_of_union; congruence.
  - intros x Hx. rewrite elem_of_union, elem_of_singleton. destruct (so_watched0 x Hx) as [?|[?|?]]; simplify_eq; auto.
  - destruct (Z.gtb_spec fd (max_sd s)); destruct so_special0 as (? & ? & ?); split_and!; try done; lia.
  - split; [constructor|]. intros x Hx. by apply elem_of_nil in Hx.
  - done.
  - intros id q Hq. destruct (so_entries0 id q Hq). split; [done|lia].
  - intros r [Hr'| ->%list_elem_of_singleton]%elem_of_app _; [by apply so_count0|]. rewrite Hid.
    unfold outstanding, pending_ref. rewrite occurrences_none.
    + destruct (pending s !! _) as [q|] eqn:Eq; [|done]. destruct (so_entries0 _ _ Eq). lia.
    + intros Hu. specialize (so_unanswered0 _ Hu). lia.
  - intros id Hu. specialize (so_unanswered0 id Hu). lia.
  - destruct (resp_pc s); try done; [destruct so_send0|..]; auto.
  - intros q id x Hx. destruct (so_sent0 q id x Hx); auto.
Qed.

(** Steps of the listen thread that leave the sets alone. *)
Lemma ok_point (n : Z) (s k : ADNetServer) (pc : listen_state) fr (l : list (Z * Z * msg)) :
  server_ok n s ->
  k = with_listen (with_framers (with_kernel s (fds s) (shut s) (next_peer s) (peers s) l) fr) pc ->
  settled (listen_pc s) -> (settled pc \/ exists fd, pc = LDeregister fd) -> dom fr = dom (framers s) ->
  (current s = None \/ current k = current s) ->
  (NoDup (to_resume k) /\ forall fd, fd ∈ to_resume k -> fd ∈ paused_fds s) ->
  listen_ok k ->
  (forall peer id x, (peer, id, x) ∈ l -> id = -1 \/ peers s !! id = Some peer) ->
  server_ok (n + 1) k.
Proof.
  intros Hok Ek Hold Hnew Hdom Hcur Hres Hl Hsent.
  apply (ok_listen n s k pc fr (master_set s) (paused_fds s) (max_sd s) l Hok Ek); try done.
  - apply (so_master n s Hok).
  - apply (so_paused n s Hok).
  - intros fd Hfd. destruct (so_watched n s Hok fd Hfd) as [?|[?|?]]; [by left|by right; left|].
    right. right. destruct Hcur; congruence.
  - apply (so_special n s Hok).
Qed.

Lemma dom_replace {A} (m : gmap Z A) (fd : Z) (x y : A) : m !! fd = Some x -> dom (<[fd := y]> m) = dom m.
Proof. intros H. rewrite dom_insert_L. apply (elem_of_dom_2 m fd x) in H. set_solver. Qed.

Lemma receive_ok (n : Z) (s : ADNetServer) (fd : Z) (data : msg) :
  server_ok n s -> listen_pc s = LSelect -> fd ∈ dom (fds s) -> fd ∈ master_set s ->
  server_ok (n + 1) (receive_fd s fd data).
Proof.
  intros Hok Epc Hfd Hm. assert (settled (listen_pc s)) as Hset by by rewrite Epc.
  pose proof (settled_record n s fd Hok Hset Hfd) as Hr. unfold receive_fd.
  destruct (framers s !! fd) as [f|] eqn:Ef.
  - eapply (ok_point n s); [done|reflexivity|done|by left|by eapply dom_replace| | | |apply (so_sent n s Hok)].
    + left. unfold current. by rewrite Epc.
    + split; [constructor|]. by intros x Hx%elem_of_nil.
    + by split.
  - apply (so_framers n s Hok), elem_of_dom in Hr. rewrite Ef in Hr. by destruct Hr.
Qed.

Lemma queue_start_ok (n : Z) (s : ADNetServer) (fd : Z) (caller : queue_caller) :
  server_ok n s -> listen_pc s = LQueueStart fd caller -> server_ok (n + 1) (queue_start s fd caller).
Proof.
  intros Hok Epc. assert (settled (listen_pc s)) as Hset by by rewrite Epc.
  pose proof (so_listen n s Hok) as Hl. unfold listen_ok in Hl. rewrite Epc in Hl.
  pose proof (so_resume n s Hok) as Hres. unfold to_resume in Hres. rewrite Epc in Hres.
  assert (forall fr b, dom fr = dom (framers s) ->
    server_ok (n + 1) (with_listen (with_framers s fr) (LQueued fd b caller))) as Hqueued.
  { intros fr b Hd. eapply (ok_point n s); [done|reflexivity|done|by left|done| | | |apply (so_sent n s Hok)].
    - right. unfold current. by rewrite Epc.
    - exact Hres.
    - unfold listen_ok. simpl. exact Hl. }
  assert (forall b, server_ok (n + 1) (with_listen s (LQueued fd b caller))) as Hsame
    by (intros b; exact (Hqueued (framers s) b eq_refl)).
  unfold queue_start. destruct (framers s !! fd) as [f|] eqn:Ef; [|done].
  destruct (_ =? 0)%nat; [done|].
  assert (has_record s fd) as Hr by (destruct caller; tauto).
  destruct (get_client_info_record n s fd Hok Hr) as (o & -> & Ho & Hfd).
  destruct (connection_dead _ _); [apply Hqueued; by eapply dom_replace|].
  eapply (ok_point n s _ _ (framers s)); [done|reflexivity|done|by left|done| | | |apply (so_sent n s Hok)].
  - right. unfold current. by rewrite Epc.
  - exact Hres.
  - unfold listen_ok. simpl. split; [by exists o|]. destruct caller; tauto.
Qed.

(** The table entry [queue_framed_requests()] updates. *)
Lemma set_count_dead (m : gmap Z conn_pending) (id i c : Z) (b : bool) :
  connection_dead (<[id := set_count (pending_ref m id) c b]> m) i = connection_dead m i.
Proof.
  unfold connection_dead. destruct (i <? 0); [done|]. destruct (decide (i = id)) as [->|Hne].
  - rewrite lookup_insert_eq. unfold pending_ref, set_count. simpl. by destruct (m !! id).
  - by rewrite lookup_insert_ne.
Qed.

Lemma pending_ref_insert (m : gmap Z conn_pending) (id i : Z) (p : conn_pending) :
  pending_ref (<[id := p]> m) i = if i =? id then p else pending_ref m i.
Proof.
  unfold pending_ref. destruct (Z.eqb_spec i id) as [->|]; [by rewrite lookup_insert_eq|by rewrite lookup_insert_ne].
Qed.

Lemma pending_ref_ok (m : gmap Z conn_pending) (id : Z) :
  (forall j q, m !! j = Some q -> entry_ok q) -> entry_ok (pending_ref m id).
Proof.
  intros Hm. unfold pending_ref. destruct (m !! id) as [q|] eqn:E; [by eapply Hm|].
  split; [|done]. simpl. unfold AD_NET_SERVER_MAX_PENDING_PER_CONN. lia.
Qed.

(** Steps of [queue_framed_requests()] that touch the table and the request chain. *)
Lemma ok_queue (n : Z) (s k : ADNetServer) (fd id cp : Z) (ci : string) (caller : queue_caller)
    (pc : listen_state) (c : Z) (b : bool) (rq : Chain.chain net_data_obj) fr (more : list net_data_obj) :
  server_ok n s -> listen_pc s = LQueue fd id cp ci caller ->
  k = with_listen (with_chains (with_framers
        (with_pending s (<[id := set_count (pending_ref (pending s) id) c b]> (pending s))) fr)
        rq (response_chain s) (clientInfo_chain s)) pc ->
  dom fr = dom (framers s) -> Chain.open rq = true -> Chain.items rq = Chain.items (request_chain s) ++ more ->
  map cltid more = replicate (Z.to_nat (c - count (pending_ref (pending s) id))) id ->
  count (pending_ref (pending s) id) <= c ->
  entry_ok (set_count (pending_ref (pending s) id) c b) ->
  pc = LQueue fd id cp ci caller \/ pc = LQueued fd true caller ->
  server_ok (n + 1) k.
Proof.
  intros Hok Epc -> Hd Hop Hit Hmore Hc Hent Hpc.
  pose proof (so_listen n s Hok) as Hl. unfold listen_ok in Hl. rewrite Epc in Hl.
  destruct Hl as [(o & Ho & Hfd & Hid) Hcaller]. assert (0 < id <= Chain.ident (clientInfo_chain s)) as Hrange
    by (subst id; by apply (so_record n s Hok)).
  match goal with |- server_ok _ ?k => set (k' := k) end.
  assert (unanswered_ids k' ≡ₚ map cltid more ++ unanswered_ids s) as Hun.
  { unfold unanswered_ids, unanswered, k', held. simpl. rewrite Hit, !map_app, <- !app_assoc.
    apply Permutation_app_swap_app. }
  assert (forall x, occurrences x (unanswered_ids k') =
    occurrences x (unanswered_ids s) + (if x =? id then c - count (pending_ref (pending s) id) else 0)) as Hocc.
  { intros x. rewrite (occurrences_perm _ _ _ Hun), Hmore.
    clear -Hc. remember (Z.to_nat _) as r. assert (c - count (pending_ref (pending s) id) = Z.of_nat r) as -> by lia.
    clear. induction r as [|r IH]; simpl.
    - destruct (x =? id); lia.
    - rewrite occurrences_cons, IH, (Z.eqb_sym id). destruct (x =? id); lia. }
  assert (forall x, x ∈ unanswered_ids k' -> 0 < x <= Chain.ident (clientInfo_chain s)) as Hids.
  { intros x Hx. rewrite Hun, elem_of_app in Hx. destruct Hx as [Hx|Hx]; [|by apply (so_unanswered n s Hok)].
    rewrite Hmore in Hx. apply elem_of_replicate_inv in Hx. by subst. }
  assert (current k' = current s /\ to_resume k' = to_resume s) as [Hcur Hres].
  { unfold current, to_resume. rewrite Epc. simpl. by destruct Hpc as [-> | ->]. }
  destruct Hok. constructor; try assumption; try (simpl; assumption); try (simpl; lia).
  - destruct so_open0 as (_ & ?). by split.
  - intros x Hx. destruct (so_fds0 x Hx) as [?|(? & ? & [E|E])]; [by left|congruence..].
  - intros x. simpl. rewrite Hd. apply so_framers0.
  - simpl. rewrite Hcur. assumption.
  - simpl. rewrite Hres. assumption.
  - unfold listen_ok. subst k'. simpl. destruct Hpc as [-> | ->]; [by split; [exists o|]|].
    destruct caller; (split; [by exists o|exact Hcaller]).
  - simpl. intros i p [[<- <-]|[_ Hp]]%lookup_insert_Some; [done|]. by apply so_entries0.
  - simpl. intros r Hr _. rewrite pending_ref_insert. unfold outstanding. rewrite Hocc.
    fold (outstanding s (ident r)). rewrite <- so_count0 by (try congruence; done).
    destruct (Z.eqb_spec (ident r) id) as [->|]; simpl; lia.
  - simpl. destruct (resp_pc s); rewrite ?set_count_dead; done.
Qed.

Lemma queue_round_ok (n : Z) (s : ADNetServer) (fd id cp : Z) (ci : string) (caller : queue_caller) :
  server_ok n s -> listen_pc s = LQueue fd id cp ci caller ->
  server_ok (n + 1) (queue_round s fd id cp ci caller).
Proof.
  intros Hok Epc. assert (settled (listen_pc s)) as Hset by by rewrite Epc.
  pose proof (so_listen n s Hok) as Hl. unfold listen_ok in Hl. rewrite Epc in Hl.
  destruct Hl as [(o & Ho & Hfd & Hid) Hcaller].
  pose proof (so_resume n s Hok) as Hres. unfold to_resume in Hres. rewrite Epc in Hres.
  assert (server_ok (n + 1) (with_listen s (LQueued fd false caller))) as Hsame.
  { eapply (ok_point n s _ _ (framers s)); [done|reflexivity|done|by left|done| |exact Hres| |apply (so_sent n s Hok)].
    - right. unfold current. by rewrite Epc.
    - unfold listen_ok. simpl. destruct caller; (split; [by exists o|tauto]). }
  assert (entry_ok (pending_ref (pending s) id)) as Hent.
  { apply pending_ref_ok. intros j q Hq. by apply (so_entries n s Hok j q). }
  assert (0 < id) as Hpos by (subst id; by apply (so_record n s Hok)).
  unfold queue_round. destruct (framers s !! fd) as [f|] eqn:Ef; [|done].
  destruct (Framer.next f) as [[m|] f'] eqn:Enext; [|done].
  destruct (Z.leb_spec 0 id); [simpl|lia]. destruct Hent as [Hc Hp].
  destruct (Z.geb_spec (count (pending_ref (pending s) id)) AD_NET_SERVER_MAX_PENDING_PER_CONN).
  - eapply (ok_queue n s _ fd id cp ci caller _ (count (pending_ref (pending s) id)) true (request_chain s)
      (framers s) []); try done; [apply (so_open n s Hok)|by rewrite app_nil_r|by rewrite Z.sub_diag| |by right].
    split; [exact Hc|]. unfold AD_NET_SERVER_MAX_PENDING_PER_CONN in *. simpl. intros _.
    change (256 / 2) with 128. lia.
  - unfold queue_request, Chain.put, Chain.generate_ident. destruct (so_open n s Hok) as (Hop & _). simpl. rewrite Hop. simpl.
    eapply (ok_queue n s _ fd id cp ci caller _ (count (pending_ref (pending s) id) + 1) _ _ _ [_]);
      [done|done|reflexivity|by eapply dom_replace|done|reflexivity| |lia| |by left].
    + replace (_ + 1 - _) with 1 by lia. done.
    + split; simpl; [lia|]. intros Hpa. specialize (Hp Hpa). lia.
Qed.

Lemma send_now_shape (s : ADNetServer) (fd : Z) (buf : msg) (k : nat) :
  exists l, send_now s fd buf k = with_kernel s (fds s) (shut s) (next_peer s) (peers s) (sent s ++ l) /\
  forall x, x ∈ l -> exists peer, fds s !! fd = Some peer /\ x = (peer, -1, take k buf).
Proof.
  unfold send_now. destruct (fds s !! fd) as [peer|] eqn:E.
  - eexists [_]. split; [reflexivity|]. intros x ->%list_elem_of_singleton. by exists peer.
  - exists []. rewrite app_nil_r. split; [by destruct s|]. intros x Hx. by apply elem_of_nil in Hx.
Qed.

(** Steps that move one descriptor between the set of [select], the paused ones and
    the hands of the listen thread. *)
Lemma ok_moved_fd (n : Z) (s k : ADNetServer) (pc : listen_state) (fd : Z) (m p : gset Z) (max : Z) :
  server_ok n s -> k = with_listen (with_sets s m p max) pc ->
  settled (listen_pc s) -> settled pc ->
  (forall x, x <> fd -> (x ∈ m <-> x ∈ master_set s) /\ (x ∈ p <-> x ∈ paused_fds s)) ->
  fd ∈ dom (fds s) -> 0 <= fd < FD_SETSIZE -> (fd ∈ p -> fd ∉ m) -> (fd ∈ m -> fd <= max) ->
  fd ∈ m \/ fd ∈ p \/ current k = Some fd -> max_sd s <= max ->
  current s = None \/ current s = Some fd ->
  (NoDup (to_resume k) /\ forall x, x ∈ to_resume k -> x ∈ p) -> listen_ok k ->
  server_ok (n + 1) k.
Proof.
  intros Hok Ek Hold Hnew Hsame Hfd Hlim Hsep Hle Hwhere Hmax Hcur Hres Hl.
  apply (ok_listen n s k pc (framers s) m p max (sent s) Hok); try done; [by left|..].
  - intros x Hx. destruct (decide (x = fd)) as [->|Hne]; [split_and!; auto; lia|].
    apply (Hsame x Hne) in Hx. destruct (so_master n s Hok x Hx) as (? & ? & ?). split_and!; auto; lia.
  - intros x Hx. destruct (decide (x = fd)) as [->|Hne]; [split_and!; auto; lia|].
    apply (Hsame x Hne) in Hx. destruct (so_paused n s Hok x Hx) as (? & ? & ?).
    split_and!; auto; try lia. by rewrite (proj1 (Hsame x Hne)).
  - intros x Hx. destruct (decide (x = fd)) as [->|Hne]; [done|].
    rewrite (proj1 (Hsame x Hne)), (proj2 (Hsame x Hne)).
    destruct (so_watched n s Hok x Hx) as [?|[?|E]]; [by left|by right; left|destruct Hcur; congruence].
  - pose proof (so_special n s Hok). lia.
  - apply (so_sent n s Hok).
Qed.

Lemma record_open (n : Z) (s : ADNetServer) (fd : Z) : server_ok n s -> has_record s fd -> fd ∈ dom (fds s).
Proof.
  intros Hok (o & Ho & <-). destruct (so_record n s Hok o Ho) as (_ & q & Hq & _). by eapply elem_of_dom_2.
Qed.

Lemma queue_end_ok (n : Z) (s : ADNetServer) (fd : Z) (b : bool) (caller : queue_caller) (k : nat) :
  server_ok n s -> listen_pc s = LQueued fd b caller -> server_ok (n + 1) (queue_end s fd b caller k).
Proof.
  intros Hok Epc. assert (settled (listen_pc s)) as Hset by by rewrite Epc.
  pose proof (so_listen n s Hok) as Hl. unfold listen_ok in Hl. rewrite Epc in Hl.
  pose proof (so_resume n s Hok) as [Hnd Hres]. unfold to_resume in Hnd, Hres. rewrite Epc in Hnd, Hres.
  assert (current s = Some fd) as Ecur by (unfold current; by rewrite Epc).
  destruct caller as [frc|rest]; simpl.
  - destruct Hl as [Hr Hm]. pose proof (record_open n s fd Hok Hr).
    destruct (so_master n s Hok fd Hm) as (Hle & Hlim & _).
    destruct (frc <? 0).
    + destruct (send_now_shape s fd protocol_error_text k) as (l & -> & Hlm).
      eapply (ok_point n s _ _ (framers s)); [done|reflexivity|done|by left|done|right; by rewrite Ecur|done|by split|].
      intros peer id x [Hx|Hx]%elem_of_app; [by eapply (so_sent n s Hok)|].
      destruct (Hlm _ Hx) as (? & _ & E). simplify_eq. by left.
    + destruct b; [|apply (ok_moved_fd n s _ LSelect fd (master_set s) (paused_fds s) (max_sd s));
        try done; auto; intros Hp; by destruct (so_paused n s Hok fd Hp) as (? & ? & ?)].
      apply (ok_moved_fd n s _ LSelect fd (master_set s ∖ {[fd]}) (paused_fds s ∪ {[fd]}) (max_sd s));
        try done; auto; try set_solver; lia.
  - destruct Hl as (Hr & Hm & Hp & Hlim). pose proof (record_open n s fd Hok Hr). destruct b.
    + apply (ok_moved_fd n s _ (LResume rest) fd (master_set s) (paused_fds s ∪ {[fd]}) (max_sd s));
        try done; auto; set_solver.
    + apply (ok_moved_fd n s _ (LResume rest) fd (master_set s ∪ {[fd]}) (paused_fds s)
        (if fd >? max_sd s then fd else max_sd s)); try done; auto; try set_solver;
        destruct (Z.gtb_spec fd (max_sd s)); lia.
Qed.

Lemma sorted_fds_spec (m : gset Z) : NoDup (sorted_fds m) /\ forall x, x ∈ sorted_fds m -> x ∈ m.
Proof.
  unfold sorted_fds. assert (merge_sort Z.le (elements m) ≡ₚ elements m) as Hp by apply merge_sort_Permutation.
  split; [rewrite Hp; apply NoDup_elements|]. intros x. by rewrite Hp, elem_of_elements.
Qed.

Lemma resume_ok (n : Z) (s : ADNetServer) :
  server_ok n s -> listen_pc s = LSelect ->
  server_ok (n + 1) (with_listen s (LResume (sorted_fds (paused_fds s)))).
Proof.
  intros Hok Epc. assert (settled (listen_pc s)) as Hset by by rewrite Epc.
  eapply (ok_point n s _ (LResume (sorted_fds (paused_fds s))) (framers s) (sent s));
    [done|reflexivity|done|by left|done| | | |apply (so_sent n s Hok)].
  - left. unfold current. by rewrite Epc.
  - apply sorted_fds_spec.
  - done.
Qed.

Lemma resume_round_ok (n : Z) (s : ADNetServer) (rest : list Z) :
  server_ok n s -> listen_pc s = LResume rest -> server_ok (n + 1) (resume_round s rest).
Proof.
  intros Hok Epc. assert (settled (listen_pc s)) as Hset by by rewrite Epc.
  assert (current s = None) as Ecur by (unfold current; by rewrite Epc).
  pose proof (so_resume n s Hok) as [Hnd Hres]. unfold to_resume in Hnd, Hres. rewrite Epc in Hnd, Hres.
  assert (forall pc, settled pc -> (forall fd p i, pc <> LAccepted fd p i) ->
    match pc with LSelect => True | LResume r => NoDup r /\ (forall x, x ∈ r -> x ∈ paused_fds s) | _ => False end ->
    server_ok (n + 1) (with_listen s pc)) as Hgo.
  { intros pc Hpc _ Hr. apply (ok_point n s _ pc (framers s) (sent s) Hok);
      [reflexivity|done|by left|done|by left| | |apply (so_sent n s Hok)].
    - unfold to_resume. destruct pc; try done. split; [constructor|by intros x Hx%elem_of_nil].
    - unfold listen_ok. by destruct pc. }
  destruct rest as [|fd rest]; simpl; [by apply Hgo|].
  apply NoDup_cons in Hnd as [Hnin Hnd].
  match goal with |- context [if ?b then _ else _] => destruct b end.
  - destruct (so_paused n s Hok fd (Hres fd (list_elem_of_here _ _))) as (Hfd & Hnm & Hlim).
    apply (ok_moved_fd n s _ (LQueueStart fd (FromResume rest)) fd (master_set s) (paused_fds s ∖ {[fd]}) (max_sd s));
      try done; auto; try set_solver; try lia.
    unfold listen_ok. simpl. split_and!; try lia; [by apply (settled_record n s)|done|set_solver].
  - apply Hgo; [done|done|]. split; [done|]. intros x Hx. apply Hres. by apply list_elem_of_further.
Qed.

Lemma close_start_ok (n : Z) (s : ADNetServer) (fd : Z) :
  server_ok n s -> listen_pc s = LSelect -> fd ∈ dom (fds s) -> fd ∈ master_set s ->
  server_ok (n + 1) (with_listen s (LClose fd)).
Proof.
  intros Hok Epc Hfd Hm. assert (settled (listen_pc s)) as Hset by by rewrite Epc.
  apply (ok_point n s _ (LClose fd) (framers s) (sent s) Hok);
    [reflexivity|done|by left|done| | | |apply (so_sent n s Hok)].
  - left. unfold current. by rewrite Epc.
  - split; [constructor|by intros x Hx%elem_of_nil].
  - split; [by apply (settled_record n s)|done].
Qed.

(** [fd] names one record only. *)
Lemma record_unique (n : Z) (s : ADNetServer) (o o' : net_data_obj) :
  server_ok n s -> o ∈ records s -> o' ∈ records s ->
  (sock_descriptor o = sock_descriptor o' <-> o = o') /\ (ident o = ident o' <-> o = o').
Proof.
  intros Hok [i Hi]%list_elem_of_lookup_1 [j Hj]%list_elem_of_lookup_1.
  pose proof (so_fd_unique n s Hok) as Hf. pose proof (so_id_unique n s Hok) as Hd.
  split; (split; [intros E|by intros ->]).
  - assert (i = j) as ->; [|congruence].
    eapply (NoDup_lookup (map sock_descriptor (records s)) i j (sock_descriptor o) Hf);
      rewrite list_lookup_fmap; [by rewrite Hi|by rewrite Hj, E].
  - assert (i = j) as ->; [|congruence].
    eapply (NoDup_lookup (map ident (records s)) i j (ident o) Hd);
      rewrite list_lookup_fmap; [by rewrite Hi|by rewrite Hj, E].
Qed.

Lemma close_pending_ok (n : Z) (s : ADNetServer) (fd : Z) :
  server_ok n s -> listen_pc s = LClose fd -> server_ok (n + 1) (close_pending s fd).
Proof.
  intros Hok Epc. pose proof (so_listen n s Hok) as Hl. unfold listen_ok in Hl. rewrite Epc in Hl.
  destruct Hl as [Hr Hm]. unfold close_pending.
  destruct (get_client_info_record n s fd Hok Hr) as (o & -> & Ho & Hfd).
  assert (paused_fds s ∖ {[fd]} = paused_fds s) as ->.
  { apply set_eq. intros x. rewrite elem_of_difference, elem_of_singleton. split; [tauto|]. intros Hx.
    split; [done|]. intros ->. by destruct (so_paused n s Hok fd Hx) as (? & ? & ?). }
  pose proof (fun r Hr => record_unique n s r o Hok Hr Ho) as Hu.
  destruct Hok. unfold current in *. rewrite Epc in *.
  constructor; try assumption; try (simpl; lia).
  - intros x Hx. destruct (so_fds0 x Hx) as [?|(? & ? & [?|?])]; [by left|done..].
  - simpl. split; [constructor|by intros x Hx%elem_of_nil].
  - unfold listen_ok. simpl. by split.
  - intros id p. simpl. intros [_ Hp]%lookup_delete_Some. by apply so_entries0.
  - intros r Hr' Hne. simpl in *. unfold pending_ref. rewrite lookup_delete_ne.
    + apply so_count0; done.
    + intros E. apply Hne. f_equal. rewrite <- Hfd. symmetry in E. apply Hu in E; [|done]. by subst.
  - assert (forall i, connection_dead (pending s) i = false -> connection_dead (delete (ident o) (pending s)) i = false) as Hd.
    { intros i. unfold connection_dead. destruct (i <? 0); [done|]. destruct (decide (i = ident o)) as [->|];
        [by rewrite lookup_delete_eq|by rewrite lookup_delete_ne]. }
    simpl. destruct (resp_pc s); try done; [by apply Hd|]. destruct so_send0. auto.
Qed.

Lemma filter_sublist' {A} (f : A -> bool) (l : list A) : List.filter f l `sublist_of` l.
Proof. induction l as [|x l IH]; simpl; [done|]. destruct (f x); by constructor. Qed.

Lemma close_deregister_ok (n : Z) (s : ADNetServer) (fd : Z) :
  server_ok n s -> listen_pc s = LDeregister fd -> server_ok (n + 1) (close_deregister s fd).
Proof.
  intros Hok Epc. pose proof (so_listen n s Hok) as Hl. unfold listen_ok in Hl. rewrite Epc in Hl.
  destruct Hl as [Hr Hm]. pose proof (record_open n s fd Hok Hr) as Hfd.
  unfold close_deregister. destruct (so_open n s Hok) as (_ & _ & Hop & Hat). rewrite deregister_spec by done.
  assert (forall o, o ∈ List.filter (fun o => negb (identify_chain_element fd o)) (records s) <->
            o ∈ records s /\ sock_descriptor o <> fd) as Hin.
  { intros o. rewrite !list_elem_of_In, filter_In. unfold identify_chain_element.
    destruct (Z.eqb_spec (sock_descriptor o) fd); simpl; intuition congruence. }
  destruct Hok. unfold current in *. rewrite Epc in *.
  constructor; simpl; unfold has_record; simpl; try assumption; try lia.
  - exact (sublist_NoDup _ _ so_fd_unique0 (map_sublist _ _ _ (filter_sublist' _ _))).
  - exact (sublist_NoDup _ _ so_id_unique0 (map_sublist _ _ _ (filter_sublist' _ _))).
  - intros o [Ho _]%Hin. by apply so_record0.
  - intros x Hx. destruct (decide (x = fd)) as [->|Hne]; [right; exists 0, EmptyString; by right|].
    left. destruct (so_fds0 x Hx) as [(o & Ho & <-)|(? & ? & [?|?])]; [|done..]. exists o. by rewrite Hin.
  - intros x. rewrite dom_delete_L, elem_of_difference, elem_of_singleton, so_framers0. split.
    + intros [(o & Ho & <-) Hne]. exists o. by rewrite Hin.
    + intros (o & [Ho Hne]%Hin & <-). split; [by exists o|done].
  - split; [constructor|by intros x Hx%elem_of_nil].
  - unfold listen_ok, has_record. simpl. split_and!; try done. intros (o & [Ho Hne]%Hin & E). done.
  - intros o [Ho Hne]%Hin _. apply so_count0; [done|]. congruence.
Qed.

Lemma lower_max_spec (n : nat) (m : gset Z) :
  0 <= lower_max n m /\ forall x, x ∈ m -> 0 <= x <= Z.of_nat n -> x <= lower_max n m.
Proof.
  induction n as [|n [IH1 IH2]]; [simpl; split; [lia|intros; lia]|].
  cbn [lower_max]. case_bool_decide as Hm; [split; [lia|intros; lia]|].
  split; [done|]. intros x Hx Hr. apply IH2; [done|].
  assert (x <> Z.of_nat (S n)) by (intros ->; done). lia.
Qed.

Lemma close_fd_ok (n : Z) (s : ADNetServer) (fd : Z) :
  server_ok n s -> listen_pc s = LCloseFd fd -> server_ok (n + 1) (close_fd s fd).
Proof.
  intros Hok Epc. pose proof (so_listen n s Hok) as Hl. unfold listen_ok in Hl. rewrite Epc in Hl.
  destruct Hl as (Hr & Hm & Hfd). unfold close_fd. pose proof (so_master n s Hok fd Hm) as (_ & Hlim & _).
  destruct (lower_max_spec (Z.to_nat (max_sd s)) (master_set s ∖ {[fd]})) as [Hlow1 Hlow2].
  destruct Hok. unfold current in *. rewrite Epc in *. pose proof so_special0 as (Hls & Hws & Hmax).
  constructor; simpl; try assumption; try lia.
  - intros o Ho. destruct (so_record0 o Ho) as (? & q & ? & ?). split; [done|]. exists q.
    split; [|done]. rewrite lookup_delete_ne; [done|]. intros E. apply Hr. by exists o.
  - intros x. rewrite dom_delete_L, elem_of_difference, elem_of_singleton. intros [Hx Hne].
    destruct (so_fds0 x Hx) as [?|(? & ? & [?|?])]; [by left|done|congruence].
  - intros x [Hx Hne]%elem_of_difference. rewrite elem_of_singleton in Hne.
    rewrite dom_delete_L, elem_of_difference, elem_of_singleton.
    destruct (so_master0 x Hx) as (? & ? & ?). split; [|split; [done|tauto]].
    destruct (Z.eqb_spec fd (max_sd s)); [|done]. apply Hlow2; [set_solver|lia].
  - intros x Hx. destruct (so_paused0 x Hx) as (? & ? & ?). rewrite dom_delete_L.
    split; [|split; [set_solver|done]]. apply elem_of_difference. split; [done|].
    intros ->%elem_of_singleton. done.
  - intros x. rewrite dom_delete_L, elem_of_difference, elem_of_singleton. intros [Hx Hne].
    rewrite elem_of_difference, elem_of_singleton. destruct (so_watched0 x Hx) as [?|[?|?]]; [by left|by right; left|congruence].
  - rewrite dom_delete_L, !elem_of_difference. destruct (fd =? max_sd s); tauto.
  - split; [constructor|by intros x Hx%elem_of_nil].
  - done.
  - intros o Ho _. apply so_count0; [done|]. discriminate.
Qed.

Lemma server_step_ok (n : Z) (s s' : ADNetServer) (a : action) :
  server_ok n s -> n < int_max -> kernel_ok s a -> step s a = Some s' -> server_ok (n + 1) s'.
Proof.
  intros Hok Hn Hk Hs. destruct a as [fd cp ci|fd data|fd| |k| |i buf|start now rs]; simpl in Hs.
  - destruct (listen_pc s) eqn:Epc; simplify_eq. by apply accept_ok.
  - destruct (listen_pc s) eqn:Epc; try done. case_bool_decide as Hin; [|done]. simpl in Hs.
    destruct (_ && _); simplify_eq. apply receive_ok; tauto.
  - destruct (listen_pc s) eqn:Epc; try done. case_bool_decide as Hin; [|done]. simpl in Hs.
    destruct (_ <=? _); simplify_eq. apply close_start_ok; tauto.
  - destruct (listen_pc s) eqn:Epc; simplify_eq. by apply resume_ok.
  - unfold listen_step in Hs. destruct (listen_pc s) eqn:Epc; simplify_eq.
    + by apply server_register_ok.
    + by apply queue_start_ok.
    + by apply queue_round_ok.
    + by apply queue_end_ok.
    + by apply resume_round_ok.
    + by apply close_pending_ok.
    + by apply close_deregister_ok.
    + by apply close_fd_ok.
  - destruct (Chain.get (request_chain s)) as [[o|] c] eqn:E; simplify_eq. by apply take_ok.
  - destruct (taken s !! i) as [o|] eqn:E; simpl in Hs; simplify_eq. by apply respond_ok.
  - by eapply response_step_ok.
Qed.

Lemma started_ok (lsd wake : Z) :
  0 <= lsd < FD_SETSIZE -> 0 <= wake < FD_SETSIZE -> server_ok 0 (started lsd wake).
Proof.
  intros Hl Hw. constructor; simpl; unfold has_record; simpl;
    rewrite ?dom_empty_L; try done; try lia; try (intros; exfalso; set_solver).
  - constructor.
  - constructor.
  - intros fd. split; [set_solver|]. by intros (o & Ho%elem_of_nil & _).
  - intros fd Hfd. destruct (Z.gtb_spec lsd wake); (split; [set_solver by lia|]); set_solver by lia.
  - destruct (Z.gtb_spec lsd wake); split_and!; set_solver by lia.
  - split; [constructor|by intros fd Hfd%elem_of_nil].
Qed.

Lemma server_reachable_ok (lsd wake : Z) (n : nat) (s : ADNetServer) :
  0 <= lsd < FD_SETSIZE -> 0 <= wake < FD_SETSIZE -> Z.of_nat n <= int_max ->
  reachable (started lsd wake) n s -> server_ok (Z.of_nat n) s.
Proof.
  intros Hl Hw Hn Hr. induction Hr as [|n s s' a Hr IH Hk Hs]; [by apply started_ok|].
  replace (Z.of_nat (S n)) with (Z.of_nat n + 1) by lia. eapply server_step_ok; [apply IH|..]; try done; lia.
Qed.

(** ** Stopping *)

(** [s'] is [s] without the descriptors in [P]. *)
Definition closed (s s' : ADNetServer) (P : Z -> Prop) : Prop :=
  (forall x, x ∈ dom (fds s') <-> x ∈ dom (fds s) /\ ~ P x) /\
  (forall x, x ∈ dom (framers s') <-> x ∈ dom (framers s) /\ ~ P x) /\
  master_set s' = master_set s /\ max_sd s' = max_sd s /\ listen_sd s' = listen_sd s /\ wake_sd s' = wake_sd s.

Lemma closed_one (s : ADNetServer) (fd : Z) : closed s (close_connection s fd) (fun x => x = fd).
Proof.
  unfold closed, close_connection, close_deregister, close_pending.
  destruct (get_client_info _ _) as [[[? ?] ?]|]; simpl; split_and!; try done;
    intros x; rewrite dom_delete_L, elem_of_difference, elem_of_singleton; tauto.
Qed.

Lemma closed_trans (s1 s2 s3 : ADNetServer) (P Q : Z -> Prop) :
  closed s1 s2 P -> closed s2 s3 Q -> closed s1 s3 (fun x => P x \/ Q x).
Proof.
  intros (A1 & A2 & A3 & A4 & A5 & A6) (B1 & B2 & B3 & B4 & B5 & B6). split_and!; try congruence.
  - intros x. rewrite B1, A1. tauto.
  - intros x. rewrite B2, A2. tauto.
Qed.

Lemma closed_iff (s s' : ADNetServer) (P Q : Z -> Prop) :
  (forall x, P x <-> Q x) -> closed s s' P -> closed s s' Q.
Proof.
  intros H (A1 & A2 & ? & ? & ? & ?). split_and!; try done.
  - intros x. by rewrite A1, H.
  - intros x. by rewrite A2, H.
Qed.

Lemma closed_none (s : ADNetServer) : closed s s (fun _ => False).
Proof. unfold closed. split_and!; try done; intros x; tauto. Qed.

Lemma closed_list (l : list Z) (s : ADNetServer) : closed s (foldl close_connection s l) (fun x => x ∈ l).
Proof.
  revert s. induction l as [|fd l IH]; intros s; simpl.
  - eapply closed_iff; [|apply closed_none]. intros x. split; [done|]. by intros Hx%elem_of_nil.
  - eapply closed_iff; [|eapply closed_trans; [apply closed_one|apply IH]]. intros x. simpl.
    by rewrite elem_of_cons.
Qed.

Lemma closed_watched (n : nat) (s : ADNetServer) :
  closed s (close_watched n s)
    (fun x => x ∈ master_set s /\ 0 <= x <= Z.of_nat n /\ x <> listen_sd s /\ x <> wake_sd s).
Proof.
  assert (forall s0 s1 P i, closed s0 s1 P ->
    closed s0 (if bool_decide (i ∈ master_set s1) then
                 if (i =? listen_sd s1) || (i =? wake_sd s1) then s1 else close_connection s1 i else s1)
      (fun x => P x \/ x = i /\ x ∈ master_set s0 /\ x <> listen_sd s0 /\ x <> wake_sd s0)) as Hone.
  { intros s0 s1 P i H. pose proof H as (_ & _ & E1 & _ & E2 & E3). rewrite E1, E2, E3.
    case_bool_decide as Hi.
    - destruct (Z.eqb_spec i (listen_sd s0)) as [Hl|Hl]; simpl; [eapply closed_iff, H; intros x; intuition congruence|].
      destruct (Z.eqb_spec i (wake_sd s0)) as [Hw|Hw]; [eapply closed_iff, H; intros x; intuition congruence|].
      eapply closed_iff; [|eapply closed_trans; [exact H|apply closed_one]]. intros x. simpl.
      intuition (subst; auto).
    - eapply closed_iff, H. intros x. intuition congruence. }
  induction n as [|n IH]; cbn [close_watched].
  - eapply closed_iff; [|apply Hone, closed_none]. intros x. simpl.
    split; [intros [[]|(-> & ?)]|]; [split_and!; try tauto; lia|]. right. split_and!; try tauto; lia.
  - assert (forall x, x = Z.of_nat (S n) \/ 0 <= x <= Z.of_nat n <-> 0 <= x <= Z.of_nat (S n)) as Hr by lia.
    eapply closed_iff; [|apply Hone, IH]. intros x. simpl. specialize (Hr x). tauto.
Qed.

Definition emptied (s : ADNetServer) : Prop :=
  Chain.items (request_chain s) = [] /\ Chain.items (response_chain s) = [] /\ records s = [].

Lemma emptied_close (n : nat) (s : ADNetServer) : emptied s -> emptied (close_watched n s).
Proof.
  assert (forall s i, emptied s -> emptied (close_connection s i)) as Hone.
  { intros s0 i (E1 & E2 & E3).
    assert (Chain.items (deregister_client_info (clientInfo_chain s0) i) = []) as E4.
    { unfold deregister_client_info. rewrite E3. simpl. unfold Chain.take. rewrite E3. by destruct (_ && _). }
    unfold emptied, close_connection, close_deregister, close_pending.
    by destruct (get_client_info _ _) as [[[? ?] ?]|]. }
  revert s. induction n as [|n IH]; intros s Hs; cbn [close_watched];
    (case_bool_decide; [|auto]; destruct (_ || _); auto).
Qed.

(** Only registering a client adds to [peers]. *)
Lemma peers_step (s s' : ADNetServer) (a : action) :
  step s a = Some s' ->
  peers s' = peers s \/
  exists fd cp ci, listen_pc s = LAccepted fd cp ci /\ s' = register_fd s fd cp ci.
Proof.
  intros Hs. destruct a as [fd cp ci|fd data|fd| |k| |i buf|start now rs]; simpl in Hs.
  - left. destruct (listen_pc s); simplify_eq. unfold accept_fd. by destruct (_ >=? _).
  - left. destruct (listen_pc s); try done. destruct (_ && _); simplify_eq. unfold receive_fd.
    by destruct (framers s !! fd).
  - left. destruct (listen_pc s); try done. by destruct (_ && _); simplify_eq.
  - left. by destruct (listen_pc s); simplify_eq.
  - unfold listen_step in Hs. destruct (listen_pc s) eqn:Epc; simplify_eq; try (left; reflexivity).
    + right. eauto.
    + left. unfold queue_start. repeat (case_match; try reflexivity).
    + left. unfold queue_round. repeat (case_match; try reflexivity).
    + left. unfold queue_end, send_now. repeat (case_match; try reflexivity).
    + left. unfold resume_round. repeat (case_match; try reflexivity).
    + left. unfold close_pending. repeat (case_match; try reflexivity).
  - left. destruct (Chain.get (request_chain s)) as [[o|] c]; by simplify_eq.
  - left. destruct (taken s !! i); simpl in Hs; by simplify_eq.
  - left. unfold response_step in Hs. destruct (resp_pc s); try (by simplify_eq).
    + destruct (Chain.get _) as [[?|] ?]; by simplify_eq.
    + destruct (send_with_deadline _ _ _ _ _) as [[[? ?] ?]|]; simpl in Hs; by simplify_eq.
Qed.

Lemma peers_kept (n : Z) (s s' : ADNetServer) (a : action) (id peer : Z) :
  server_ok n s -> n < int_max -> step s a = Some s' -> peers s !! id = Some peer -> peers s' !! id = Some peer.
Proof.
  intros Hok Hn Hs Hp. destruct (peers_step s s' a Hs) as [->|(fd & cp & ci & _ & ->)]; [done|].
  destruct (registered n s fd cp ci Hok Hn) as (o & c & Ec & Hid & _ & _ & Hci & _).
  unfold register_fd. simpl. rewrite Ec, Hci, Hid, lookup_insert_ne; [done|].
  pose proof (so_peers n s Hok id peer Hp). lia.
Qed.

Lemma run_round (s : ADNetServer) (fd id cp : Z) (ci : string) (caller : queue_caller) (k : nat) (l : list action) :
  listen_pc s = LQueue fd id cp ci caller ->
  run s (Listen k :: l) = run (queue_round s fd id cp ci caller) l.
Proof. intros E. cbn [run step]. unfold listen_step. by rewrite E. Qed.

(** ** The properties *)

(** stopping a server leaves nothing behind: every connection of a client is
    closed, whether its descriptor is watched or paused, with its framer and its table
    entry, and the three chains are empty. *)
Theorem stop_closes_all (lsd wake : Z) (n : nat) (s : ADNetServer) :
  0 <= lsd < FD_SETSIZE -> 0 <= wake < FD_SETSIZE -> Z.of_nat n <= int_max ->
  reachable (started lsd wake) n s -> listen_pc s = LSelect ->
  fds (stop_listening s) = ∅ /\ framers (stop_listening s) = ∅ /\ pending (stop_listening s) = ∅ /\
  Chain.items (request_chain (stop_listening s)) = [] /\
  Chain.items (response_chain (stop_listening s)) = [] /\ records (stop_listening s) = [].
Proof.
  intros Hl Hw Hn Hr Epc. pose proof (server_reachable_ok lsd wake n s Hl Hw Hn Hr) as Hok.
  pose proof (closed_list (sorted_fds (paused_fds s)) s) as Hc1. unfold stop_listening.
  set (s1 := foldl close_connection s (sorted_fds (paused_fds s))) in *.
  match goal with |- context [close_watched ?n ?s] => set (s2 := s); set (m := n) end.
  destruct (emptied_close m s2 ltac:(by split_and!)) as (? & ? & ?). simpl.
  assert (closed s (close_watched m s2) (fun x => x ∈ sorted_fds (paused_fds s) \/
     x ∈ master_set s2 /\ 0 <= x <= Z.of_nat m /\ x <> listen_sd s2 /\ x <> wake_sd s2)) as Hc.
  { eapply closed_trans; [|apply closed_watched]. exact Hc1. }
  destruct Hc1 as (_ & _ & E1 & E2 & E3 & E4). subst m. simpl in Hc. rewrite E1, E2, E3, E4 in Hc.
  assert (forall x, x ∈ dom (fds s) -> x ∈ sorted_fds (paused_fds s) \/ x ∈ master_set s /\
            0 <= x <= Z.of_nat (Z.to_nat (max_sd s)) /\ x <> listen_sd s /\ x <> wake_sd s) as Hall.
  { intros x Hx. destruct (so_watched _ s Hok x Hx) as [Hm|[Hp|E]].
    - right. destruct (so_master _ s Hok x Hm) as (? & ? & _). destruct (so_special _ s Hok) as (? & ? & ?).
      split_and!; [done|lia|lia|congruence|congruence].
    - left. unfold sorted_fds. rewrite merge_sort_Permutation. by apply elem_of_elements.
    - unfold current in E. by rewrite Epc in E. }
  destruct Hc as (Hf & Hg & _). simpl. rewrite E2. split_and!; try done; try (rewrite <- E2; done).
  - apply dom_empty_iff_L, set_eq. intros x. rewrite Hf. specialize (Hall x). set_solver.
  - apply dom_empty_iff_L, set_eq. intros x. rewrite Hg.
    pose proof (fun H => Hall x (record_open _ s x Hok H)) as H'. rewrite <- (so_framers _ s Hok) in H'. set_solver.
Qed.

(** while [queue_framed_requests()] runs undisturbed, it queues the complete
    requests of the framer in their order, as many as the limit of 256 unanswered
    requests leaves room for; the others stay in the framer in order, and the
    connection is paused exactly when some had to stay. *)
Theorem requests_queued_in_order (s : ADNetServer) (fd id cp : Z) (ci : string) (caller : queue_caller)
    (f : Framer.ADJsonStreamFramer) :
  Chain.open (request_chain s) = true -> 0 <= id -> listen_pc s = LQueue fd id cp ci caller ->
  framers s !! fd = Some f -> 0 <= count (pending_ref (pending s) id) <= AD_NET_SERVER_MAX_PENDING_PER_CONN ->
  let room := Z.to_nat (AD_NET_SERVER_MAX_PENDING_PER_CONN - count (pending_ref (pending s) id)) in
  let sent_now := take room (Framer.ready f) in
  exists s' f', run s (repeat (Listen 0) (S (length sent_now))) = Some s' /\
    map data_buffer (Chain.items (request_chain s')) = map data_buffer (Chain.items (request_chain s)) ++ sent_now /\
    framers s' !! fd = Some f' /\ Framer.ready f' = drop room (Framer.ready f) /\
    listen_pc s' = LQueued fd (bool_decide (room < length (Framer.ready f))%nat) caller /\
    count (pending_ref (pending s') id) = count (pending_ref (pending s) id) + Z.of_nat (length sent_now).
Proof.
  intros Hop Hid Epc Hf Hc. cbv zeta. remember (Z.to_nat _) as room eqn:Er.
  revert s f Hop Epc Hf Hc Er. induction room as [|room IH]; intros s f Hop Epc Hf Hc Er;
    cbn [repeat]; rewrite (run_round s fd id cp ci caller) by done; unfold queue_round; rewrite Hf;
    unfold Framer.next; destruct (Framer.ready f) as [|m r] eqn:E; cbn [length take drop repeat].
  - eexists _, f. split; [reflexivity|]. simpl. rewrite app_nil_r. split_and!; try done. lia.
  - rewrite (proj2 (Z.leb_le 0 id) Hid), (proj2 (Z.geb_le _ _)) by lia.
    eexists _, f. split; [reflexivity|]. simpl. rewrite app_nil_r, pending_ref_insert, Z.eqb_refl.
    split_and!; try done. simpl. lia.
  - eexists _, f. split; [reflexivity|]. simpl. rewrite app_nil_r. split_and!; try done. lia.
  - destruct (Z.geb_spec (count (pending_ref (pending s) id)) AD_NET_SERVER_MAX_PENDING_PER_CONN); [lia|].
    rewrite (proj2 (Z.leb_le 0 id) Hid). unfold queue_request, Chain.put, Chain.generate_ident.
    match goal with |- context [run _ ?l] => remember l as rounds eqn:Erounds end.
    simpl. rewrite Hop. simpl. match goal with |- context [run ?s1 _] => set (s' := s1) end.
    match goal with f' := context [<[fd := ?g]>] |- _ => set (f1 := g) in * end.
    edestruct (IH s' f1) as (t & f2 & Hrun & Hq & Hfr & Hready & Hpc & Hcount); try done.
    + apply lookup_insert_eq.
    + subst s'. simpl. rewrite pending_ref_insert, Z.eqb_refl. simpl. lia.
    + subst s'. simpl. rewrite pending_ref_insert, Z.eqb_refl. simpl. lia.
    + exists t, f2. subst rounds s' f1. simpl in *. rewrite pending_ref_insert, Z.eqb_refl in Hcount. simpl in Hcount.
      rewrite Hq, map_app, <- app_assoc. split_and!; try done; [|lia].
      rewrite Hpc. f_equal. apply bool_decide_ext. lia.
Qed.

(** C12: a response goes to the connection whose request it answers, or nowhere, even
    when the descriptor was closed and given to another client in between: what was sent
    with a connection identifier went to the peer that was given this identifier, the
    requests read from a descriptor carry the identifier of the peer behind it, and no
    later step gives the identifier to another peer. *)
Theorem response_to_sender (lsd wake : Z) (n : nat) (s : ADNetServer) :
  0 <= lsd < FD_SETSIZE -> 0 <= wake < FD_SETSIZE -> Z.of_nat n < int_max ->
  reachable (started lsd wake) n s ->
  (forall peer id m, (peer, id, m) ∈ sent s -> id = -1 \/ peers s !! id = Some peer) /\
  (forall fd clt_ip clt_port id, get_client_info (clientInfo_chain s) fd = Some (clt_ip, clt_port, id) ->
     exists peer, fds s !! fd = Some peer /\ peers s !! id = Some peer) /\
  (forall a s' id peer, kernel_ok s a -> step s a = Some s' -> peers s !! id = Some peer ->
     peers s' !! id = Some peer).
Proof.
  intros Hl Hw Hn Hr. assert (server_ok (Z.of_nat n) s) as Hok by (apply (server_reachable_ok lsd wake); try done; lia).
  split_and!; [apply (so_sent _ s Hok)| |].
  - intros fd clt_ip clt_port id Hi. unfold get_client_info, Chain.lookup in Hi.
    destruct (so_open _ s Hok) as (_ & _ & _ & Ha). rewrite Ha in Hi.
    destruct (find_first _ _) as [o|] eqn:F; simpl in Hi; simplify_eq. apply find_first_Some in F as [Ho Hfd].
    apply Z.eqb_eq in Hfd. subst fd. apply (so_record _ s Hok o Ho).
  - intros a s' id peer _ Hs Hp. by apply (peers_kept (Z.of_nat n) s s' a).
Qed.

(** C13: the count of unanswered requests of a connection is exact, at any moment and
    whatever the three threads do: it is the number of its requests that wait to be
    taken, are in the hands of the consumer, or whose response was not sent yet; it
    is at most 256, and a paused connection has more than 128 of them, so the answers
    that are still to come resume it. *)
Theorem pending_exact (lsd wake : Z) (n : nat) (s : ADNetServer) (o : net_data_obj) :
  0 <= lsd < FD_SETSIZE -> 0 <= wake < FD_SETSIZE -> Z.of_nat n <= int_max ->
  reachable (started lsd wake) n s -> o ∈ records s -> listen_pc s <> LDeregister (sock_descriptor o) ->
  let p := pending_ref (pending s) (ident o) in
  count p = outstanding s (ident o) /\ 0 <= count p <= 256 /\ (paused p = true -> 128 < outstanding s (ident o)).
Proof.
  intros Hl Hw Hn Hr Ho Hpc. assert (server_ok (Z.of_nat n) s) as Hok by (by apply (server_reachable_ok lsd wake)).
  simpl. rewrite <- (so_count _ s Hok o Ho Hpc). split; [done|].
  apply pending_ref_ok. intros j q Hq. by apply (so_entries _ s Hok j q).
Qed.

(** C14: [select] is safe and no client is forgotten: the descriptors in its set are
    open, below [FD_SETSIZE] and not above [max_sd]; a connected client is in the set,
    paused, or in the hands of the listen thread, and never both watched and paused. *)
Theorem clients_watched (lsd wake : Z) (n : nat) (s : ADNetServer) (fd : Z) :
  0 <= lsd < FD_SETSIZE -> 0 <= wake < FD_SETSIZE -> Z.of_nat n <= int_max ->
  reachable (started lsd wake) n s ->
  (fd ∈ master_set s -> 0 <= fd < FD_SETSIZE /\ fd <= max_sd s /\ (fd ∈ dom (fds s) \/ fd = listen_sd s \/ fd = wake_sd s)) /\
  (fd ∈ dom (fds s) -> fd ∈ master_set s \/ fd ∈ paused_fds s \/ current s = Some fd) /\
  (fd ∈ paused_fds s -> fd ∉ master_set s).
Proof.
  intros Hl Hw Hn Hr. assert (server_ok (Z.of_nat n) s) as Hok by (by apply (server_reachable_ok lsd wake)).
  split_and!; [|apply (so_watched _ s Hok)|].
  - intros Hm. destruct (so_master _ s Hok fd Hm) as (? & ? & ?). auto.
  - intros Hp. by destruct (so_paused _ s Hok fd Hp) as (_ & ? & _).
Qed.

Definition send_outcome (start : Z) (full : msg) (rs : list send_result) (rc : Z) (out : msg) : Prop :=
  rc = 0 /\ out = full \/
  (exists rest, rest <> [] /\ full = out ++ rest) /\
  (rc = -2 /\ (exists t ok, WouldBlock t ok ∈ rs /\ start + AD_NET_SERVER_SEND_TIMEOUT_MS <= t) \/
   rc = -1 /\ (Broken ∈ rs \/ exists t, WouldBlock t false ∈ rs)).

Lemma send_outcome_cons (start : Z) (full : msg) (r : send_result) (rs : list send_result) (rc : Z) (out : msg) :
  send_outcome start full rs rc out -> send_outcome start full (r :: rs) rc out.
Proof.
  intros [?|[? [[? (t & ok & ? & ?)]|[? [?|[t ?]]]]]]; [by left|right; split; [done|]..].
  - left. split; [done|]. exists t, ok. split; [by apply list_elem_of_further|done].
  - right. split; [done|]. left. by apply list_elem_of_further.
  - right. split; [done|]. right. exists t. by apply list_elem_of_further.
Qed.

Lemma send_spec (start now : Z) (rs : list send_result) (buf out0 : msg) (rc : Z) (out : msg) (w : Z) :
  send_with_deadline start buf out0 rs now = Some (rc, out, w) -> send_outcome start (out0 ++ buf) rs rc out.
Proof.
  revert buf out0. induction rs as [|r rs IH]; intros [|b buf] out0 H; simpl in H; simplify_eq;
    try (left; by rewrite app_nil_r).
  destruct r as [k| |t ok|].
  - destruct (_ && _)%nat eqn:Ek; [|done]. apply IH in H. rewrite <- app_assoc, take_drop in H.
    by apply send_outcome_cons.
  - apply send_outcome_cons. by apply IH.
  - destruct (Z.leb_spec (start + AD_NET_SERVER_SEND_TIMEOUT_MS - t) 0); simplify_eq.
    + right. split; [by exists (b :: buf)|]. left. split; [done|]. exists t, ok. split; [apply list_elem_of_here|lia].
    + destruct ok; simplify_eq; [apply send_outcome_cons; by apply IH|].
      right. split; [by exists (b :: buf)|]. right. split; [done|]. right. exists t. apply list_elem_of_here.
  - simplify_eq. right. split; [by exists (b :: buf)|]. right. split; [done|]. left. apply list_elem_of_here.
Qed.

(** C15: [send_with_deadline()] succeeds exactly when the whole buffer was sent; a
    failure left a prefix of it, and -2 is only returned when the socket was full a
    second or more after the start. *)
Theorem send_all_or_fail (start now : Z) (buf : msg) (rs : list send_result) (rc : Z) (out : msg) (w : Z) :
  send_with_deadline start buf [] rs now = Some (rc, out, w) ->
  out `prefix_of` buf /\ (rc = 0 <-> out = buf) /\ (rc = 0 \/ rc = -1 \/ rc = -2) /\
  (rc = -2 -> exists t ok, WouldBlock t ok ∈ rs /\ start + AD_NET_SERVER_SEND_TIMEOUT_MS <= t) /\
  (rc = -1 -> Broken ∈ rs \/ exists t, WouldBlock t false ∈ rs).
Proof.
  intros H. apply send_spec in H. change ([] ++ buf) with buf in H.
  destruct H as [[-> ->]|[(rest & Hne & ->) Hrc]].
  - split_and!; try done; try lia.
  - assert (out <> out ++ rest) as Hout.
    { intros E. apply Hne. apply (app_inv_head out). by rewrite app_nil_r. }
    split; [by exists rest|]. destruct Hrc as [[-> H]|[-> H]]; split_and!; try done; try lia; auto.
Qed.

(** the response thread: it sends a response at most once, only to a connection that
    was not marked dead when it looked and whose record still stands behind the
    descriptor; after a partial or failed send, and when the connection used up its
    waiting budget, the connection is marked dead, so that nothing else is sent to it. *)
Theorem dead_gets_nothing (lsd wake : Z) (n : nat) (s s' : ADNetServer) start now rs :
  0 <= lsd < FD_SETSIZE -> 0 <= wake < FD_SETSIZE -> Z.of_nat n <= int_max ->
  reachable (started lsd wake) n s -> response_step s start now rs = Some s' ->
  (sent s' = sent s \/
   exists o peer out, resp_pc s = SSend o peer /\ sent s' = sent s ++ [(peer, cltid o, out)] /\
     out `prefix_of` data_buffer o /\ connection_dead (pending s) (cltid o) = false /\
     (out <> data_buffer o -> exists t, resp_pc s' = SDrop o peer t)) /\
  (forall o peer t, resp_pc s = SDrop o peer t ->
     connection_dead (pending s') (cltid o) = true /\ peer ∈ shut s') /\
  (forall o, resp_pc s = SCheckDead o -> connection_dead (pending s) (cltid o) = true -> resp_pc s' = SDone o).
Proof.
  intros Hl Hw Hn Hr Hs. assert (server_ok (Z.of_nat n) s) as Hok by (by apply (server_reachable_ok lsd wake)).
  pose proof (so_send _ s Hok) as Hsend. split_and!.
  - unfold response_step in Hs. destruct (resp_pc s) as [|o|o|o peer|o peer w|o peer t|o] eqn:Epc;
      try (simplify_eq; by left).
    + destruct (Chain.get _) as [[?|] ?]; simplify_eq. by left.
    + destruct (send_with_deadline _ _ _ _ _) as [[[rc out] w]|] eqn:Esend; simpl in Hs; simplify_eq. right.
      exists o, peer, out. apply send_spec in Esend. change ([] ++ data_buffer o) with (data_buffer o) in Esend.
      destruct Hsend as [_ Hdead]. split_and!; try done.
      * destruct Esend as [[_ ->]|[(rest & _ & ->) _]]; [done|by exists rest].
      * intros Hne. destruct Esend as [[_ ?]|[_ Hrc]]; [done|]. simpl.
        destruct (Z.eqb_spec rc 0); [destruct Hrc as [[? _]|[? _]]; lia|by eexists].
  - intros o peer t Epc. unfold response_step in Hs. rewrite Epc in Hs. simplify_eq. simpl.
    assert (0 < cltid o) by (apply (unanswered_held _ s o Hok); unfold held; by rewrite Epc).
    unfold mark_dead, connection_dead. destruct (Z.ltb_spec (cltid o) 0); [lia|].
    rewrite lookup_insert_eq. split; [done|]. apply elem_of_app. right. apply list_elem_of_here.
  - intros o Epc Hdead. unfold response_step in Hs. rewrite Epc, Hdead in Hs. by simplify_eq.
Qed.

(** ** The properties at concrete inputs *)

(** One connection with a whole request and the start of another. *)
Definition accept_one : list action :=
  [Accept 9 4000 "10.0.0.1"; Listen 0; Recv 9 (bytes "{'id':1}{'id'")].

Fixpoint kernel_run (s : ADNetServer) (l : list action) : bool :=
  match l with
  | [] => true
  | a :: r =>
      match a with
      | Accept fd _ _ => (0 <=? fd) && bool_decide (fd ∉ dom (fds s)) && negb (fd =? listen_sd s) && negb (fd =? wake_sd s)
      | _ => true
      end && match step s a with Some s' => kernel_run s' r | None => false end
  end.

Lemma run_reachable (s0 s s' : ADNetServer) (n : nat) (l : list action) :
  reachable s0 n s -> kernel_run s l = true -> run s l = Some s' -> reachable s0 (length l + n) s'.
Proof.
  revert s n. induction l as [|a l IH]; intros s n Hr Hk Hrun; simpl in *; [by simplify_eq|].
  apply andb_true_iff in Hk as [Hk1 Hk2]. destruct (step s a) as [t|] eqn:E; simpl in Hrun; [|done].
  replace (S (length l + n)) with (length l + S n)%nat by lia. apply (IH t); [|done|done].
  eapply reach_step; [done| |done]. destruct a; simpl; try done.
  rewrite !andb_true_iff, !negb_true_iff, !Z.eqb_neq, Z.leb_le, bool_decide_eq_true in Hk1. tauto.
Qed.

(** The state after the actions [l] of a server that listens on descriptor 5. *)
Definition final (l : list action) : ADNetServer := default (started 5 7) (run (started 5 7) l).

Lemma final_reachable (l : list action) :
  kernel_run (started 5 7) l = true -> reachable (started 5 7) (length l) (final l).
Proof.
  intros Hk. rewrite <- (Nat.add_0_r (length l)). apply (run_reachable _ (started 5 7)); [constructor|done|].
  unfold final. revert Hk. generalize (started 5 7) at 1 2 4. clear. induction l as [|a l IH]; intros s; simpl; [done|].
  rewrite andb_true_iff. intros [_ H]. destruct (step s a); simpl; [by apply IH|done].
Qed.

Lemma low_fds : 0 <= 5 < FD_SETSIZE /\ 0 <= 7 < FD_SETSIZE.
Proof. unfold FD_SETSIZE. lia. Qed.

Lemma stop_closes_all_witness :
  dom (fds (final one_request)) = {[9]} /\ fds (stop_listening (final one_request)) = ∅.
Proof.
  split; [vm_compute; reflexivity|]. destruct low_fds.
  apply (stop_closes_all 5 7 (length one_request) (final one_request)); [done|done|done| |vm_compute; reflexivity].
  apply final_reachable. vm_compute. reflexivity.
Defined.

(** Two requests arrive when one more is allowed. *)
Lemma requests_queued_in_order_witness :
  let s := with_listen (with_framers (with_pending (started 5 7)
             {[1 := set_count new_conn_pending 255 false]})
             {[9 := (Framer.feed (Framer.new_framer 1000) (bytes "{'a':1}{'b':2}")).2]})
             (LQueue 9 1 4000 "10.0.0.1" (FromRecv 0)) in
  exists s' f', run s (repeat (Listen 0) 2) = Some s' /\
    map data_buffer (Chain.items (request_chain s')) = [bytes "{'a':1}"] /\
    framers s' !! 9 = Some f' /\ Framer.ready f' = [bytes "{'b':2}"] /\
    listen_pc s' = LQueued 9 true (FromRecv 0).
Proof.
  cbv zeta. match goal with |- context [run ?s _] =>
    destruct (requests_queued_in_order s 9 1 4000 "10.0.0.1" (FromRecv 0)
      (Framer.feed (Framer.new_framer 1000) (bytes "{'a':1}{'b':2}")).2) as (s' & f' & H1 & H2 & H3 & H4 & H5 & _)
  end; [vm_compute; done|done|done|vm_compute; done|vm_compute; done|].
  exists s', f'. split; [exact H1|]. split; [exact H2|]. split; [exact H3|]. split; [exact H4|exact H5].
Defined.

(** The descriptor 9 is closed and given to a second client while the consumer still
    works on a request of the first: nothing is sent to the second. *)
Definition fd_reused : list action :=
  accept_one ++ [Listen 0; Listen 0; Listen 0; Listen 0; Take; RecvEnd 9; Listen 0; Listen 0; Listen 0;
                 Accept 9 4001 "10.0.0.2"; Listen 0; Respond 0 (bytes "secret"); Response 0 0 [];
                 Response 0 0 []; Response 0 0 []; Response 0 0 []].

Lemma response_to_sender_witness :
  sent (final fd_reused) = [] /\ resp_pc (final fd_reused) = SWait /\
  exists peer, fds (final fd_reused) !! 9 = Some peer /\ peers (final fd_reused) !! 2 = Some peer.
Proof.
  split; [vm_compute; reflexivity|]. split; [vm_compute; reflexivity|]. destruct low_fds.
  apply (response_to_sender 5 7 (length fd_reused) (final fd_reused)) with (clt_ip := "10.0.0.2"%string) (clt_port := 4001);
    [done|done|done| |vm_compute; reflexivity].
  apply final_reachable. vm_compute. reflexivity.
Defined.

Definition queued_one : list action := accept_one ++ [Listen 0; Listen 0].

Lemma pending_exact_witness :
  count (pending_ref (pending (final queued_one)) 1) = 1 /\ outstanding (final queued_one) 1 = 1.
Proof.
  assert (exists o, records (final queued_one) = [o] /\ ident o = 1) as (o & Ho & Hid)
    by (eexists; split; vm_compute; reflexivity).
  destruct low_fds. split; [vm_compute; reflexivity|]. rewrite <- Hid.
  destruct (pending_exact 5 7 (length queued_one) (final queued_one) o) as (<- & _ & _);
    [done|done|done| | | |rewrite Hid; vm_compute; reflexivity].
  - apply final_reachable. vm_compute. reflexivity.
  - rewrite Ho. apply list_elem_of_here.
  - vm_compute. discriminate.
Defined.

Lemma clients_watched_witness :
  9 ∈ master_set (final accept_one) \/ 9 ∈ paused_fds (final accept_one) \/ current (final accept_one) = Some 9.
Proof.
  destruct low_fds. apply (clients_watched 5 7 (length accept_one) (final accept_one)); [done|done|done| |].
  - apply final_reachable. vm_compute. reflexivity.
  - apply elem_of_dom. vm_compute. by eexists.
Defined.

Lemma send_all_or_fail_witness : bytes "ab" `prefix_of` bytes "abc".
Proof.
  apply (send_all_or_fail 0 2000 (bytes "abc") [Sent 2; WouldBlock 500 true; Interrupted; WouldBlock 1500 true] (-2) _ 0).
  reflexivity.
Defined.

(** The peer stops reading in the middle of the response. *)
Definition peer_stops : list action :=
  accept_one ++ [Listen 0; Listen 0; Listen 0; Listen 0; Take; Respond 0 (bytes "ok"); Response 0 0 [];
                 Response 0 0 []; Response 0 0 []; Response 0 2000 [Sent 1; WouldBlock 1000 true]].

Lemma dead_gets_nothing_witness :
  exists o peer, resp_pc (final peer_stops) = SDrop o peer true /\
    connection_dead (pending (final (peer_stops ++ [Response 0 0 []]))) (cltid o) = true.
Proof.
  destruct low_fds. eexists _, _. split; [vm_compute; reflexivity|].
  apply (dead_gets_nothing 5 7 (length peer_stops) (final peer_stops) (final (peer_stops ++ [Response 0 0 []])) 0 0 [])
    with (peer := 1) (t := true); [done|done|done| |vm_compute; reflexivity|vm_compute; reflexivity].
  apply final_reachable. vm_compute. reflexivity.
Defined.
