(* ===== verification/Proxy.v ===== *)
(** * The RPC proxy and the mapper (ADJsonRpcProxy.cpp, ADJsonRpcMapper.cpp)

    The proxy takes requests off the server's request chain on the listen thread,
    checks and parses them, and hands each to the mapper thread as a task object;
    the mapper converts it, has it worked on, and hands the identifier of the task to
    the response thread, which builds the response and schedules it.

    Three threads pass one object along by pointer, so the heap is part of the state:
    [tasks] gives the object behind each address, and a step through an address that is
    not allocated is [Dangling].  The chains hold addresses or identifiers as in the
    code.  A step is one access to a chain or a semaphore, with the work of the thread
    before it.  What the manager does with a request is the interface [MapConsumer]. *)
From S2P Require Import Prelude GenericChain Common.
From S2P Require Framer Checker NetServer.
Open Scope Z_scope.

(** ** Data *)

Definition JSON_RPC_METHOD_NAME_MAX_LENGTH : nat := 256.
Definition JSON_RPC_METHOD_RESP_MAX_LENGTH : nat := 1100.

(** [JSON_RPC_ERR_TYPE_T] *)
Module Err.
Definition PARSE_ERROR : Z := -32700.
Definition INVALID_REQ : Z := -32600.
Definition METHOD_NOT_FOUND : Z := -32601.
Definition INVALID_PARAMS : Z := -32602.
Definition INTERNAL_ERROR : Z := -32603.
Definition UNKNOWN_ERROR : Z := -33000.
End Err.

Inductive CMD_TASK_ACC := CMD_TASK_ACCESS_SYNC | CMD_TASK_ACCESS_ASYNC | CMD_TASK_ACCESS_NONE.

(** [ADJsonRpcCommand]; parent and producer are the one mapper and the one proxy. *)
Record ADJsonRpcCommand := { method : string; method_index : Z }.

(** What the proxy uses of json-c beyond [JsonC]: reading an integer, a member that is
    null, and the text of an object. *)
Class JsonRpcC (J : Type) := {
  json_object_get_int : J -> Z;
  json_object_object_add_null : J -> string -> J;
  json_object_to_json_string_length : J -> option (list ascii);
}.
Class JsonRpcCLaws (J D : Type) `{JsonCLaws J D, JsonRpcC J} := {
  add_null_is : forall o k, is_object o -> is_object (json_object_object_add_null o k);
  get_add_null : forall o k, is_object o -> json_object_object_get (json_object_object_add_null o k) k = None;
  get_add_null_ne : forall o k k', is_object o -> k <> k' ->
    json_object_object_get (json_object_object_add_null o k) k' = json_object_object_get o k';
  to_string_some : forall o, is_Some (json_object_to_json_string_length o);
}.

(** [ADJsonRpcMapConsumer]: what the manager, with a state of type [M], does with a
    request; [B] is the binary form behind [pDataObj]. *)
Class MapConsumer (M B J : Type) := {
  process_json_to_binary : M -> JsonDataCommObj J -> Z * JsonDataCommObj J * B * M;
  process_work : M -> JsonDataCommObj J -> B -> B * M;
  process_binary_to_json : M -> JsonDataCommObj J -> B -> JsonDataCommObj J * M;
}.

(** The text before the terminating NUL. *)
Fixpoint c_string (l : list ascii) : string :=
  match l with
  | [] => EmptyString
  | c :: r => if (c =? "000")%char then EmptyString else String c (c_string r)
  end.

Section proxy.
Context {J D M B : Type} `{JsonC J D} `{JsonRpcC J} `{MapConsumer M B J}.

Abbreviation address := positive.
Abbreviation net_data_obj := NetServer.net_data_obj.

(** [api_task_obj]; [json_resp_string] is never set. *)
Record api_task_obj := {
  ident : Z;
  req_id : Z;
  pNetData : net_data_obj;
  pRpcMethod : ADJsonRpcCommand;
  access : CMD_TASK_ACC;
  task_result : Z;
  rpc_code : Z;
  result_code : Z;
  json_resp_obj : option J;
  custom_result_string : string;
}.

(** The listen thread in [on_data_arrival()]: at the head of the loop, or with a task
    to hand over, or to wake the mapper for. *)
Inductive listen_state := LIdle | LLoop | LNotify (p : address) | LWake.

(** The mapper thread. *)
Inductive mapper_state :=
| MWait
| MGet
| MMap (p : address) (d : JsonDataCommObj J)
| MWork (p : address) (d : JsonDataCommObj J) (b : B)
| MBack (p : address) (d : JsonDataCommObj J) (b : B)
| MSend (p : address)
| MWake.

(** The response thread. *)
Inductive resp_state := RWait | RGet | RFind (id : Z) | RSend (p : address).

(** The proxy and the mapper with their threads; [req_sema] and [resp_sema] are the
    semaphores of [ReqThread] and [RespThread].  [received] and [accepted] record the
    requests taken and those handed over, [scheduled] the calls of [schedule_response()]
    (whether the response came from [json_process_rsponse()], to whom, what). *)
Record ADJsonRpcProxy := {
  rpc_call_list : list ADJsonRpcCommand;
  request_chain : Chain.chain net_data_obj;
  ReqRespChain : Chain.chain address;
  ReqChain : Chain.chain address;
  RespChain : Chain.chain Z;
  tasks : gmap address api_task_obj;
  req_sema : Z;
  resp_sema : Z;
  total_req_received : Z;
  total_res_sent : Z;
  listen_pc : listen_state;
  mapper_pc : mapper_state;
  resp_pc : resp_state;
  mgr : M;
  received : list net_data_obj;
  accepted : list net_data_obj;
  scheduled : list (bool * (Z * Z) * list ascii);
}.

(** ** Requests *)

Definition is_this_method_registered (l : list ADJsonRpcCommand) (rpc_method : string)
  : option ADJsonRpcCommand := find_first (fun c => (method c =? rpc_method)%string) l.

(** [attach_rpc_method()] *)
Definition attach_rpc_method (l : list ADJsonRpcCommand) (method_name : string) (method_indx : Z)
  : Z * list ADJsonRpcCommand :=
  if (JSON_RPC_METHOD_NAME_MAX_LENGTH <=? String.length method_name)%nat then (-1, l)
  else (0, l ++ [{| method := method_name; method_index := method_indx |}]).

Definition check_jsonrpc_2_0 (o : J) : Z :=
  match string_opt (json_object_object_get o "jsonrpc") with
  | Some version => if (version =? "2.0")%string then 0 else -1
  | None => -1
  end.

Definition get_jsonrpc_method (l : list ADJsonRpcCommand) (o : J) : option ADJsonRpcCommand :=
  match string_opt (json_object_object_get o "method") with
  | Some m => if (JSON_RPC_METHOD_NAME_MAX_LENGTH <=? String.length m)%nat then None
              else is_this_method_registered l m
  | None => None
  end.

Definition get_jsonrpc_acc (o : J) : CMD_TASK_ACC :=
  match string_opt (json_object_object_get o "access") with
  | Some a => if (a =? "sync")%string then CMD_TASK_ACCESS_SYNC
              else if (a =? "async")%string then CMD_TASK_ACCESS_ASYNC else CMD_TASK_ACCESS_SYNC
  | None => CMD_TASK_ACCESS_SYNC
  end.

Definition get_jsonrpc_id (o : J) : option Z :=
  match json_object_object_get o "id" with
  | Some v => match json_object_get_string v with Some _ => Some (json_object_get_int v) | None => None end
  | None => None
  end.

(** ** Responses *)

Definition error_message (err_type : Z) : string :=
  if err_type =? Err.PARSE_ERROR then "Parse error."
  else if err_type =? Err.INVALID_REQ then "Invalid Request."
  else if err_type =? Err.METHOD_NOT_FOUND then "Method not found."
  else if err_type =? Err.INVALID_PARAMS then "Invalid params."
  else "Internal error.".

(** The object of [json_send_error_response_string()]. *)
Definition error_response (id err_type : Z) : J :=
  let error_obj := json_object_object_add
                     (json_object_object_add json_object_new_object "code" (json_object_new_int err_type))
                     "message" (json_object_new_string (error_message err_type)) in
  let o := json_object_object_add
             (json_object_object_add json_object_new_object "jsonrpc" (json_object_new_string "2.0"))
             "error" error_obj in
  if (err_type =? Err.METHOD_NOT_FOUND) || (err_type =? Err.INVALID_PARAMS)
  then json_object_object_add o "id" (json_object_new_int id)
  else json_object_object_add_null o "id".

(** The object of [json_send_result_response_string()]. *)
Definition result_response (id : Z) (result : string) (resp : option J) : J :=
  let o := json_object_object_add json_object_new_object "jsonrpc" (json_object_new_string "2.0") in
  let result_obj := match resp with
                    | Some r => r
                    | None => json_object_object_add
                                (json_object_object_add json_object_new_object "return" (json_object_new_string "fail"))
                                "errorType" (json_object_new_string result)
                    end in
  json_object_object_add (json_object_object_add o "result" result_obj) "id" (json_object_new_int id).

(** The text for a task result in [json_send_new_result()]. *)
Definition task_result_string (t : api_task_obj) : string :=
  let r := task_result t in
  if r =? Task.FAIL then "Fail"
  else if r =? Task.SUCCESS then "Success"
  else if r =? Task.INVALID_PARAM then "ParamError"
  else if r =? Task.DEV_TIMEOUT then "Timeout"
  else if r =? Task.DEV_ERR then "DevError"
  else if r =? Task.MEM_FAIL then "MemError"
  else if r =? Task.IN_PROGRESS then "InProgress"
  else if r =? Task.ACTUAL_VALUE then truncate 1099 (custom_result_string t)
  else "Unknown".

(** The address of a response: the descriptor and the connection identifier. *)
Definition peer_of (o : net_data_obj) : Z * Z := (NetServer.sock_descriptor o, NetServer.cltid o).

(** [send_json_object()]: the calls of [schedule_response()] it makes. *)
Definition send_json_object (result : bool) (o : net_data_obj) (resp : J) : list (bool * (Z * Z) * list ascii) :=
  match json_object_to_json_string_length resp with
  | Some message => [(result, peer_of o, message)]
  | None => []
  end.

(** The verdict of [json_process_request()] on a request, up to the allocation of the
    task: the error answered, or what goes into the task. *)
Inductive verdict :=
| Refused (id err_type : Z)
| Accepted (id : Z) (m : ADJsonRpcCommand) (acc : CMD_TASK_ACC).

Definition examine_request (l : list ADJsonRpcCommand) (buffer : list ascii) : verdict :=
  match buffer with
  | "["%char :: _ => Refused 0 Err.INVALID_REQ
  | _ =>
      match Checker.json_checker_function buffer with
      | Checker.Go true =>
          match json_tokener_parse (c_string buffer) with
          | None => Refused 0 Err.PARSE_ERROR
          | Some o =>
              match get_jsonrpc_id o with
              | None => Refused 0 Err.INVALID_REQ
              | Some id =>
                  match get_jsonrpc_method l o with
                  | None => Refused id Err.METHOD_NOT_FOUND
                  | Some m => Accepted id m (get_jsonrpc_acc o)
                  end
              end
          end
      | _ => Refused 0 Err.PARSE_ERROR
      end
  end.

(** The task [json_process_request()] allocates. *)
Definition new_task (id : Z) (o : net_data_obj) (rid : Z) (m : ADJsonRpcCommand) (acc : CMD_TASK_ACC)
  : api_task_obj :=
  {| ident := id; req_id := rid; pNetData := o; pRpcMethod := m; access := acc;
     task_result := Task.NOT_STARTED; rpc_code := Rpc.NOT_STARTED; result_code := -32603;
     json_resp_obj := None; custom_result_string := EmptyString |}.

(** What the mapper makes of a task. *)
Definition data_obj (t : api_task_obj) : JsonDataCommObj J :=
  {| Common.req_id := req_id t; cmd_index := method_index (pRpcMethod t);
     mapper_result := Task.UNKNOWN; Common.rpc_code := Rpc.NOT_STARTED;
     socket_data := c_string (NetServer.data_buffer (pNetData t));
     Common.json_resp_obj := json_resp_obj t; Common.custom_result_string := custom_result_string t;
     cltport := NetServer.port (pNetData t); client_ip := NetServer.ip (pNetData t);
     sock_id := NetServer.cltid (pNetData t); sock_descr := NetServer.sock_descriptor (pNetData t) |}.

(** The task after the mapper wrote the result back; [custom_result_string] is the
    task's own buffer, which the mapper's callbacks write to. *)
Definition write_back (t : api_task_obj) (d : JsonDataCommObj J) : api_task_obj :=
  {| ident := ident t; req_id := req_id t; pNetData := pNetData t; pRpcMethod := pRpcMethod t;
     access := access t; task_result := mapper_result d; rpc_code := Common.rpc_code d;
     result_code := result_code t; json_resp_obj := Common.json_resp_obj d;
     custom_result_string := Common.custom_result_string d |}.

(** ** The threads *)

Inductive outcome := Next (s : ADJsonRpcProxy) | Blocked | Dangling.

(** Field updates. *)
Definition with_listen (s : ADJsonRpcProxy) (pc : listen_state) (rq : Chain.chain net_data_obj)
    (rc ac : list net_data_obj) (sc : list (bool * (Z * Z) * list ascii)) (n : Z) : ADJsonRpcProxy :=
  {| rpc_call_list := rpc_call_list s; request_chain := rq; ReqRespChain := ReqRespChain s;
     ReqChain := ReqChain s; RespChain := RespChain s; tasks := tasks s; req_sema := req_sema s;
     resp_sema := resp_sema s; total_req_received := n; total_res_sent := total_res_sent s;
     listen_pc := pc; mapper_pc := mapper_pc s; resp_pc := resp_pc s; mgr := mgr s;
     received := rc; accepted := ac; scheduled := sc |}.
Definition with_mapper (s : ADJsonRpcProxy) (pc : mapper_state) (m : M) : ADJsonRpcProxy :=
  {| rpc_call_list := rpc_call_list s; request_chain := request_chain s; ReqRespChain := ReqRespChain s;
     ReqChain := ReqChain s; RespChain := RespChain s; tasks := tasks s; req_sema := req_sema s;
     resp_sema := resp_sema s; total_req_received := total_req_received s; total_res_sent := total_res_sent s;
     listen_pc := listen_pc s; mapper_pc := pc; resp_pc := resp_pc s; mgr := m;
     received := received s; accepted := accepted s; scheduled := scheduled s |}.
Definition with_resp (s : ADJsonRpcProxy) (pc : resp_state) (sc : list (bool * (Z * Z) * list ascii)) (n : Z)
  : ADJsonRpcProxy :=
  {| rpc_call_list := rpc_call_list s; request_chain := request_chain s; ReqRespChain := ReqRespChain s;
     ReqChain := ReqChain s; RespChain := RespChain s; tasks := tasks s; req_sema := req_sema s;
     resp_sema := resp_sema s; total_req_received := total_req_received s; total_res_sent := n;
     listen_pc := listen_pc s; mapper_pc := mapper_pc s; resp_pc := pc; mgr := mgr s;
     received := received s; accepted := accepted s; scheduled := sc |}.
Definition with_shared (s : ADJsonRpcProxy) (rr rq : Chain.chain address) (rs : Chain.chain Z)
    (t : gmap address api_task_obj) (n1 n2 : Z) : ADJsonRpcProxy :=
  {| rpc_call_list := rpc_call_list s; request_chain := request_chain s; ReqRespChain := rr;
     ReqChain := rq; RespChain := rs; tasks := t; req_sema := n1; resp_sema := n2;
     total_req_received := total_req_received s; total_res_sent := total_res_sent s;
     listen_pc := listen_pc s; mapper_pc := mapper_pc s; resp_pc := resp_pc s; mgr := mgr s;
     received := received s; accepted := accepted s; scheduled := scheduled s |}.

Definition with_tasks (s : ADJsonRpcProxy) (t : gmap address api_task_obj) : ADJsonRpcProxy :=
  with_shared s (ReqRespChain s) (ReqChain s) (RespChain s) t (req_sema s) (resp_sema s).
Definition go_listen (s : ADJsonRpcProxy) (pc : listen_state) : ADJsonRpcProxy :=
  with_listen s pc (request_chain s) (received s) (accepted s) (scheduled s) (total_req_received s).
Definition go_resp (s : ADJsonRpcProxy) (pc : resp_state) : ADJsonRpcProxy :=
  with_resp s pc (scheduled s) (total_res_sent s).

(** Searching [ReqRespChain] reads the objects behind its addresses. *)
Definition all_allocated (s : ADJsonRpcProxy) : bool :=
  forallb (fun p => bool_decide (is_Some (tasks s !! p))) (Chain.items (ReqRespChain s)).
Definition identify_chain_element (s : ADJsonRpcProxy) (n : Z) (p : address) : bool :=
  match tasks s !! p with Some t => ident t =? n | None => false end.

(** [on_data_arrival()] and [json_process_request()]; [p] is the address a new task
    gets. *)
Definition listen_step (s : ADJsonRpcProxy) (p : address) : outcome :=
  match listen_pc s with
  | LIdle => Blocked
  | LLoop =>
      match Chain.get (request_chain s) with
      | (None, _) => Next (go_listen s LIdle)
      | (Some o, c) =>
          let answer e id := with_listen s LLoop c (received s ++ [o]) (accepted s)
                               (scheduled s ++ send_json_object false o (error_response id e))
                               (total_req_received s) in
          match examine_request (rpc_call_list s) (NetServer.data_buffer o) with
          | Refused id e => Next (answer e id)
          | Accepted rid m acc =>
              match tasks s !! p with
              | Some _ => Blocked
              | None =>
                  let rc := Chain.generate_ident (ReqRespChain s) in
                  let pc := Chain.put rc.2 p in
                  if pc.1 =? 0 then
                    Next (with_shared
                            (with_listen s (LNotify p) c (received s ++ [o]) (accepted s ++ [o])
                               (scheduled s) (total_req_received s))
                            pc.2 (ReqChain s) (RespChain s)
                            (<[p := new_task rc.1 o rid m acc]> (tasks s)) (req_sema s) (resp_sema s))
                  else Next (answer Err.INTERNAL_ERROR rid)
              end
          end
      end
  | LNotify p =>
      let pc := Chain.put (ReqChain s) p in
      if pc.1 =? 0 then
        Next (with_shared (go_listen s LWake) (ReqRespChain s) pc.2 (RespChain s) (tasks s)
                (req_sema s) (resp_sema s))
      else
        match tasks s !! p with
        | None => Dangling
        | Some t =>
            if all_allocated s then
              Next (with_shared
                      (with_listen s LLoop (request_chain s) (received s) (accepted s)
                         (scheduled s ++ send_json_object false (pNetData t)
                                           (error_response (req_id t) Err.INTERNAL_ERROR))
                         (total_req_received s))
                      (Chain.take (identify_chain_element s (ident t)) (ReqRespChain s)).2
                      (ReqChain s) (RespChain s) (delete p (tasks s)) (req_sema s) (resp_sema s))
            else Dangling
        end
  | LWake =>
      Next (with_shared
              (with_listen s LLoop (request_chain s) (received s) (accepted s) (scheduled s)
                 (i32 (total_req_received s + 1)))
              (ReqRespChain s) (ReqChain s) (RespChain s) (tasks s) (req_sema s + 1) (resp_sema s))
  end.

(** The mapper: writing the result of a request into its task. *)
Definition finish (s : ADJsonRpcProxy) (p : address) (d : JsonDataCommObj J) (m : M) : outcome :=
  match tasks s !! p with
  | None => Dangling
  | Some t => Next (with_mapper (with_tasks s (<[p := write_back t d]> (tasks s))) (MSend p) m)
  end.

(** [ADJsonRpcMapper::monoshot_callback_function()], with [json_send_response()]. *)
Definition mapper_step (s : ADJsonRpcProxy) : outcome :=
  match mapper_pc s with
  | MWait =>
      if req_sema s >? 0 then
        Next (with_shared (with_mapper s MGet (mgr s)) (ReqRespChain s) (ReqChain s) (RespChain s)
                (tasks s) (req_sema s - 1) (resp_sema s))
      else Blocked
  | MGet =>
      match Chain.get (ReqChain s) with
      | (None, _) => Next (with_mapper s MWait (mgr s))
      | (Some p, c) =>
          match tasks s !! p with
          | None => Dangling
          | Some t => Next (with_mapper (with_shared s (ReqRespChain s) c (RespChain s) (tasks s)
                                           (req_sema s) (resp_sema s)) (MMap p (data_obj t)) (mgr s))
          end
      end
  | MMap p d =>
      let '(rc, d', b, m) := process_json_to_binary (mgr s) d in
      if negb (rc =? 0) then finish s p d' m else Next (with_mapper s (MWork p d' b) m)
  | MWork p d b => let '(b', m) := process_work (mgr s) d b in Next (with_mapper s (MBack p d b') m)
  | MBack p d b => let '(d', m) := process_binary_to_json (mgr s) d b in finish s p d' m
  | MSend p =>
      match tasks s !! p with
      | None => Dangling
      | Some t =>
          let pc := Chain.put (RespChain s) (ident t) in
          if pc.1 =? 0 then
            Next (with_shared (with_mapper s MWake (mgr s)) (ReqRespChain s) (ReqChain s) pc.2 (tasks s)
                    (req_sema s) (resp_sema s))
          else Next (with_mapper s MWait (mgr s))
      end
  | MWake =>
      Next (with_shared (with_mapper s MWait (mgr s)) (ReqRespChain s) (ReqChain s) (RespChain s) (tasks s)
              (req_sema s) (resp_sema s + 1))
  end.

(** [json_process_rsponse()] and [json_send_new_result()]. *)
Definition resp_step (s : ADJsonRpcProxy) : outcome :=
  match resp_pc s with
  | RWait =>
      if resp_sema s >? 0 then
        Next (with_shared (go_resp s RGet) (ReqRespChain s) (ReqChain s) (RespChain s) (tasks s)
                (req_sema s) (resp_sema s - 1))
      else Blocked
  | RGet =>
      match Chain.get (RespChain s) with
      | (None, _) => Next (go_resp s RWait)
      | (Some id, c) => Next (with_shared (go_resp s (RFind id)) (ReqRespChain s) (ReqChain s) c (tasks s)
                                (req_sema s) (resp_sema s))
      end
  | RFind id =>
      if all_allocated s then
        match Chain.take (identify_chain_element s id) (ReqRespChain s) with
        | (None, _) => Next (go_resp s RWait)
        | (Some p, c) => Next (with_shared (go_resp s (RSend p)) c (ReqChain s) (RespChain s) (tasks s)
                                 (req_sema s) (resp_sema s))
        end
      else Dangling
  | RSend p =>
      match tasks s !! p with
      | None => Dangling
      | Some t =>
          Next (with_tasks
                  (with_resp s RWait
                     (scheduled s ++ send_json_object true (pNetData t)
                                       (result_response (req_id t) (task_result_string t) (json_resp_obj t)))
                     (i32 (total_res_sent s + 1)))
                  (delete p (tasks s)))
      end
  end.

(** ** Runs *)

Inductive action :=
| Arrive (l : list net_data_obj)   (* the server queued requests and calls on_data_arrival() *)
| Listen (p : address)
| Mapper
| Resp
| Manager (m : M).                  (* another thread of the manager *)

Definition step (s : ADJsonRpcProxy) (a : action) : outcome :=
  match a with
  | Arrive l =>
      match listen_pc s with
      | LIdle =>
          Next (with_listen s LLoop (fold_left (fun c o => (Chain.put c o).2) l (request_chain s))
                  (received s) (accepted s) (scheduled s) (total_req_received s))
      | _ => Blocked
      end
  | Listen p => listen_step s p
  | Mapper => mapper_step s
  | Resp => resp_step s
  | Manager m => Next (with_mapper s (mapper_pc s) m)
  end.

(** The proxy and the mapper after [start_listening()], with the methods [l]. *)
Definition new_ADJsonRpcProxy (l : list ADJsonRpcCommand) (m : M) : ADJsonRpcProxy :=
  {| rpc_call_list := l; request_chain := Chain.empty_chain; ReqRespChain := Chain.empty_chain;
     ReqChain := Chain.empty_chain; RespChain := Chain.empty_chain; tasks := ∅;
     req_sema := 0; resp_sema := 0; total_req_received := 0; total_res_sent := 0;
     listen_pc := LIdle; mapper_pc := MWait; resp_pc := RWait; mgr := m;
     received := []; accepted := []; scheduled := [] |}.

Inductive reachable (s0 : ADJsonRpcProxy) : nat -> ADJsonRpcProxy -> Prop :=
| reach_start : reachable s0 0 s0
| reach_step n s s' a : reachable s0 n s -> step s a = Next s' -> reachable s0 (S n) s'.

Fixpoint run (s : ADJsonRpcProxy) (l : list action) : option ADJsonRpcProxy :=
  match l with
  | [] => Some s
  | a :: r => match step s a with Next s' => run s' r | _ => None end
  end.

End proxy.
Arguments api_task_obj J : clear implicits.
Arguments ADJsonRpcProxy J M B : clear implicits.
Arguments action M : clear implicits.
Arguments mapper_state J B : clear implicits.

(** ** The invariant *)
Section invariant.
Context {J D M B : Type} `{JsonRpcCLaws J D} `{MapConsumer M B J}.
Abbreviation proxy := (ADJsonRpcProxy J M B).
Implicit Types (s : proxy) (p : positive).

(** The addresses each thread holds that are still in [ReqRespChain], the identifier
    the response thread looks for, and the task it has taken out. *)
Definition listen_held (pc : listen_state) : list positive :=
  match pc with LNotify p => [p] | _ => [] end.
Definition mapper_held (pc : mapper_state J B) : list positive :=
  match pc with MMap p _ | MWork p _ _ | MBack p _ _ | MSend p => [p] | _ => [] end.
Definition searched (pc : resp_state) : list Z := match pc with RFind id => [id] | _ => [] end.
Definition sending (pc : resp_state) : list positive := match pc with RSend p => [p] | _ => [] end.

Definition id_of (m : gmap positive (api_task_obj J)) (p : positive) : Z :=
  match m !! p with Some t => ident t | None => 0 end.
Definition peer_at (m : gmap positive (api_task_obj J)) (p : positive) : Z * Z :=
  match m !! p with Some t => peer_of (pNetData t) | None => (0, 0) end.

(** The peers of the logged responses, all or those of tasks. *)
Definition answered (l : list (bool * (Z * Z) * list ascii)) : list (Z * Z) := map (fun x => x.1.2) l.
Definition results (l : list (bool * (Z * Z) * list ascii)) : list (Z * Z) :=
  map (fun x => x.1.2) (List.filter (fun x => x.1.1) l).
Definition refusals (l : list (bool * (Z * Z) * list ascii)) : list (Z * Z) :=
  map (fun x => x.1.2) (List.filter (fun x => negb x.1.1) l).

Definition waking (pc : mapper_state J B) : Z := match pc with MWake => 1 | _ => 0 end.
Definition getting (pc : mapper_state J B) : Z := match pc with MGet => 1 | _ => 0 end.
Definition l_waking (pc : listen_state) : Z := match pc with LWake => 1 | _ => 0 end.
Definition r_getting (pc : resp_state) : Z := match pc with RGet => 1 | _ => 0 end.

Abbreviation queue s := (Chain.items (ReqRespChain s)).

Record proxy_ok (n : Z) (s : proxy) : Prop := {
  po_open : Chain.open (request_chain s) = true /\ Chain.open (ReqRespChain s) = true /\
            Chain.attached (ReqRespChain s) = true /\ Chain.open (ReqChain s) = true /\
            Chain.open (RespChain s) = true;
  po_ident : 0 <= Chain.ident (ReqRespChain s) <= n;
  po_pipeline : exists done, queue s = done ++ mapper_held (mapper_pc s) ++ Chain.items (ReqChain s) ++
                               listen_held (listen_pc s) /\
                map (id_of (tasks s)) done = searched (resp_pc s) ++ Chain.items (RespChain s);
  po_alloc : forall p, is_Some (tasks s !! p) <-> p ∈ sending (resp_pc s) ++ queue s;
  po_nodup : NoDup (sending (resp_pc s) ++ queue s);
  po_ids : forall p q, is_Some (tasks s !! p) -> is_Some (tasks s !! q) ->
    id_of (tasks s) p = id_of (tasks s) q -> p = q;
  po_range : forall p t, tasks s !! p = Some t -> 0 < ident t <= Chain.ident (ReqRespChain s);
  po_req : Z.of_nat (length (Chain.items (ReqChain s))) =
           req_sema s + getting (mapper_pc s) + l_waking (listen_pc s);
  po_resp : Z.of_nat (length (Chain.items (RespChain s))) =
            resp_sema s + r_getting (resp_pc s) + waking (mapper_pc s);
  po_semas : 0 <= req_sema s /\ 0 <= resp_sema s;
  po_order : map peer_of (accepted s) =
             results (scheduled s) ++ map (peer_at (tasks s)) (sending (resp_pc s) ++ queue s);
  po_once : map peer_of (received s) ≡ₚ refusals (scheduled s) ++ map peer_of (accepted s);
}.

Lemma send_one b (o : NetServer.net_data_obj) (r : J) :
  exists m, send_json_object b o r = [(b, peer_of o, m)].
Proof. unfold send_json_object. destruct (to_string_some r) as [m ->]. by exists m. Qed.

Lemma results_app l k : results (l ++ k) = results l ++ results k.
Proof. unfold results. by rewrite List.filter_app, map_app. Qed.
Lemma refusals_app l k : refusals (l ++ k) = refusals l ++ refusals k.
Proof. unfold refusals. by rewrite List.filter_app, map_app. Qed.

(** Identifiers and peers do not change when a task is rewritten, or another one is
    added or released. *)
Definition same_head (m m' : gmap positive (api_task_obj J)) (p : positive) : Prop :=
  id_of m' p = id_of m p /\ peer_at m' p = peer_at m p.

Lemma same_head_other m p q v : p <> q -> same_head m (<[q := v]> m) p.
Proof. intros Hne. unfold same_head, id_of, peer_at. by rewrite lookup_insert_ne. Qed.
Lemma same_head_delete m p q : p <> q -> same_head m (delete q m) p.
Proof. intros Hne. unfold same_head, id_of, peer_at. by rewrite lookup_delete_ne. Qed.
Lemma same_head_write m p q t d : m !! q = Some t -> same_head m (<[q := write_back t d]> m) p.
Proof.
  intros Hq. destruct (decide (p = q)) as [->|Hne]; [|by apply same_head_other].
  unfold same_head, id_of, peer_at. by rewrite lookup_insert_eq, Hq.
Qed.

Lemma map_same_head m m' l :
  (forall p, p ∈ l -> same_head m m' p) ->
  map (id_of m') l = map (id_of m) l /\ map (peer_at m') l = map (peer_at m) l.
Proof.
  intros Hs. induction l as [|p l IH]; simpl; [done|].
  destruct IH as [-> ->]; [intros q Hq; apply Hs; set_solver|].
  by destruct (Hs p (list_elem_of_here _ _)) as [-> ->].
Qed.

Lemma all_allocated_ok n s : proxy_ok n s -> all_allocated s = true.
Proof.
  intros Hok. unfold all_allocated. apply forallb_forall. intros p Hp. apply bool_decide_eq_true.
  apply (po_alloc n s Hok), elem_of_app. right. by apply list_elem_of_In.
Qed.

(** A step keeps the invariant, and never follows a dangling address. *)
Definition keeps (n : Z) (o : outcome) : Prop :=
  match o with Next s' => proxy_ok n s' | Blocked => True | Dangling => False end.

Lemma queue_task n s p : proxy_ok n s -> p ∈ queue s -> exists t, tasks s !! p = Some t.
Proof. intros Hok Hp. apply (po_alloc n s Hok), elem_of_app. by right. Qed.

Lemma mapper_task n s p :
  proxy_ok n s -> mapper_held (mapper_pc s) = [p] -> p ∈ queue s /\ exists t, tasks s !! p = Some t.
Proof.
  intros Hok Hh. destruct (po_pipeline n s Hok) as (l & Hq & _).
  assert (p ∈ queue s) as Hp by (rewrite Hq, Hh; set_solver). split; [done|].
  by apply (queue_task n).
Qed.

(** The mapper moves on with the task it holds. *)
Lemma mapper_moves n s (pc : mapper_state J B) (m : M) :
  proxy_ok n s -> mapper_held pc = mapper_held (mapper_pc s) -> getting pc = getting (mapper_pc s) ->
  waking pc = waking (mapper_pc s) -> proxy_ok (n + 1) (with_mapper s pc m).
Proof.
  intros [] Hh Hg Hw. constructor; simpl; rewrite ?Hh, ?Hg, ?Hw; try assumption. lia.
Qed.

Lemma finish_keeps n s p (d : JsonDataCommObj J) (m : M) :
  proxy_ok n s -> mapper_held (mapper_pc s) = [p] -> getting (mapper_pc s) = 0 -> waking (mapper_pc s) = 0 ->
  keeps (n + 1) (finish s p d m).
Proof.
  intros Hok Hh Hg Hw. destruct (mapper_task n s p Hok Hh) as (_ & t & Ht). unfold finish. rewrite Ht. simpl.
  set (m' := <[p := write_back t d]> (tasks s)).
  assert (forall l, map (id_of m') l = map (id_of (tasks s)) l /\ map (peer_at m') l = map (peer_at (tasks s)) l)
    as Hmap by (intros l; apply map_same_head; intros q _; by apply same_head_write).
  assert (forall q, id_of m' q = id_of (tasks s) q) as Hid by (intros q; by apply same_head_write).
  assert (forall q, is_Some (m' !! q) <-> is_Some (tasks s !! q)) as Hdom.
  { intros q. subst m'. destruct (decide (q = p)) as [->|Hne]; [rewrite lookup_insert_eq, Ht; by split; eexists|].
    by rewrite lookup_insert_ne. }
  destruct Hok. rewrite Hh, Hg, Hw in *. constructor; simpl; fold m'; try assumption; try lia.
  - destruct po_pipeline0 as (l & E1 & E2). exists l. by rewrite (proj1 (Hmap l)).
  - intros q. rewrite Hdom. apply po_alloc0.
  - intros q r. rewrite !Hdom, !Hid. apply po_ids0.
  - intros q u Hq. subst m'. destruct (decide (q = p)) as [->|Hne].
    + rewrite lookup_insert_eq in Hq. simplify_eq. by apply (po_range0 p t).
    + rewrite lookup_insert_ne in Hq by done. by apply (po_range0 q u).
  - by rewrite (proj2 (Hmap _)).
Qed.

Lemma mapper_keeps n s : proxy_ok n s -> keeps (n + 1) (mapper_step s).
Proof.
  intros Hok. unfold mapper_step.
  destruct (mapper_pc s) as [| |p d|p d b|p d b|p|] eqn:Epc.
  - destruct (Z.gtb_spec (req_sema s) 0); [|done]. destruct Hok. rewrite Epc in *.
    constructor; simpl in *; try assumption; lia.
  - unfold Chain.get. destruct (Chain.items (ReqChain s)) as [|p r] eqn:Er.
    + simpl. destruct Hok. rewrite Epc, Er in *. simpl in *.
      destruct (listen_pc s); simpl in *; lia.
    + destruct (po_open n s Hok) as (_ & _ & _ & Ho & _). rewrite Ho.
      destruct (po_pipeline n s Hok) as (l & Hq & Hl). rewrite Epc, Er in Hq. simpl in Hq.
      destruct (queue_task n s p Hok) as [t Ht]; [rewrite Hq; set_solver|]. rewrite Ht. simpl.
      destruct Hok. rewrite Epc, Er in *. constructor; simpl in *; try assumption; lia.
  - destruct (process_json_to_binary (mgr s) d) as [[[rc d'] b] m]. destruct (negb _).
    + by apply finish_keeps; rewrite ?Epc.
    + apply mapper_moves; by rewrite ?Epc.
  - destruct (process_work (mgr s) d b) as [b' m]. apply mapper_moves; by rewrite ?Epc.
  - destruct (process_binary_to_json (mgr s) d b) as [d' m]. by apply finish_keeps; rewrite ?Epc.
  - destruct (mapper_task n s p Hok) as (Hp & t & Ht); [by rewrite Epc|]. rewrite Ht.
    destruct (po_open n s Hok) as (? & ? & ? & ? & Ho). unfold Chain.put. rewrite Ho. simpl.
    destruct Hok. rewrite Epc in *. constructor; simpl in *; try assumption; try lia; [done|..].
    + destruct po_pipeline0 as (l & E1 & E2). exists (l ++ [p]). rewrite <- !app_assoc. split; [done|].
      rewrite map_app, E2, <- app_assoc. simpl. unfold id_of at 1. by rewrite Ht.
    + rewrite length_app. simpl. lia.
  - simpl. destruct Hok. rewrite Epc in *. constructor; simpl in *; try assumption; lia.
Qed.

Lemma resp_keeps n s : proxy_ok n s -> keeps (n + 1) (resp_step s).
Proof.
  intros Hok. unfold resp_step. pose proof (po_open n s Hok) as (_ & Ho1 & Ha1 & _ & Ho2).
  destruct (resp_pc s) as [| |id|p] eqn:Epc.
  - destruct (Z.gtb_spec (resp_sema s) 0); [|done]. destruct Hok. rewrite Epc in *.
    constructor; simpl in *; try assumption; lia.
  - unfold Chain.get. destruct (Chain.items (RespChain s)) as [|id r] eqn:Er.
    + simpl. destruct Hok. rewrite Epc, Er in *. simpl in *. destruct (mapper_pc s); simpl in *; lia.
    + rewrite Ho2. destruct Hok. rewrite Epc, Er in *. constructor; simpl in *; try assumption; lia.
  - rewrite (all_allocated_ok n s Hok). destruct (po_pipeline n s Hok) as (l & Hq & Hl).
    rewrite Epc in Hl. destruct l as [|p l]; [done|]. simpl in Hl. injection Hl as Hid Hl.
    destruct (queue_task n s p Hok) as [t Ht]; [rewrite Hq; set_solver|].
    unfold Chain.take. rewrite Ho1, Ha1. simpl. rewrite Hq. simpl. unfold identify_chain_element.
    unfold id_of in Hid. rewrite Ht in Hid |- *. rewrite Hid, Z.eqb_refl. simpl.
    destruct Hok. rewrite Epc, Hq in *. constructor; simpl in *; try assumption; try lia. by exists l.
  - assert (exists t, tasks s !! p = Some t) as [t Ht].
    { apply (po_alloc n s Hok). rewrite Epc. simpl. set_solver. }
    rewrite Ht. simpl. destruct (send_one true (pNetData t)
      (result_response (req_id t) (task_result_string t) (json_resp_obj t))) as [x ->].
    pose proof (po_nodup n s Hok) as Hnd. rewrite Epc in Hnd. simpl in Hnd. apply NoDup_cons in Hnd as [Hp Hnd].
    assert (forall l, p ∉ l -> map (id_of (delete p (tasks s))) l = map (id_of (tasks s)) l /\
              map (peer_at (delete p (tasks s))) l = map (peer_at (tasks s)) l) as Hmap.
    { intros l Hl. apply map_same_head. intros q Hq. apply same_head_delete. by intros ->. }
    assert (forall q, is_Some (delete p (tasks s) !! q) -> q <> p /\ is_Some (tasks s !! q)) as Hdom.
    { intros q [u Hu]. apply lookup_delete_Some in Hu as [Hne Hu]. split; [done|by eexists]. }
    destruct Hok. rewrite Epc in *. constructor; simpl in *; try assumption; try lia.
    + destruct po_pipeline0 as (l & E1 & E2). exists l.
      assert (p ∉ l) as Hl by (rewrite E1 in Hp; set_solver). by rewrite (proj1 (Hmap l Hl)).
    + intros q. rewrite lookup_delete_is_Some, po_alloc0. set_solver.
    + intros q q' Hq Hq'. destruct (Hdom q Hq) as [N ?], (Hdom q' Hq') as [N' ?].
      rewrite (proj1 (same_head_delete (tasks s) q p N)), (proj1 (same_head_delete (tasks s) q' p N')).
      by apply po_ids0.
    + intros q u [_ Hu]%lookup_delete_Some. by apply (po_range0 q u).
    + rewrite results_app, po_order0. simpl. rewrite (proj2 (Hmap _ Hp)), <- app_assoc. simpl.
      unfold peer_at at 1. by rewrite Ht.
    + rewrite refusals_app. simpl. by rewrite app_nil_r.
Qed.

(** A request becomes a task with a fresh identifier at a fresh address. *)
Lemma accept_inv_ok n s p (o : NetServer.net_data_obj) (rid : Z) (m : ADJsonRpcCommand) (acc : CMD_TASK_ACC)
    (rq : Chain.chain NetServer.net_data_obj) (rr : Chain.chain positive) :
  proxy_ok n s -> listen_pc s = LLoop -> tasks s !! p = None -> Chain.open rq = true ->
  Chain.items rr = queue s ++ [p] -> Chain.ident rr = Chain.ident (ReqRespChain s) + 1 ->
  Chain.open rr = true -> Chain.attached rr = true ->
  proxy_ok (n + 1) (with_shared
    (with_listen s (LNotify p) rq (received s ++ [o]) (accepted s ++ [o]) (scheduled s) (total_req_received s))
    rr (ReqChain s) (RespChain s)
    (<[p := new_task (Chain.ident (ReqRespChain s) + 1) o rid m acc]> (tasks s)) (req_sema s) (resp_sema s)).
Proof.
  intros Hok Epc Hp Hrq Hit Hid Hop Hat. set (t := new_task _ o rid m acc).
  assert (p ∉ sending (resp_pc s) ++ queue s) as Hnew.
  { intros Hin%(po_alloc n s Hok). destruct Hin. congruence. }
  assert (forall l, p ∉ l -> map (id_of (<[p := t]> (tasks s))) l = map (id_of (tasks s)) l /\
            map (peer_at (<[p := t]> (tasks s))) l = map (peer_at (tasks s)) l) as Hmap.
  { intros l Hl. apply map_same_head. intros q Hq. apply same_head_other. by intros ->. }
  assert (id_of (<[p := t]> (tasks s)) p = Chain.ident (ReqRespChain s) + 1) as Hidp
    by (unfold id_of; by rewrite lookup_insert_eq).
  assert (forall q, q <> p -> is_Some (<[p := t]> (tasks s) !! q) -> is_Some (tasks s !! q) /\
            id_of (<[p := t]> (tasks s)) q = id_of (tasks s) q /\
            id_of (tasks s) q <= Chain.ident (ReqRespChain s)) as Hold.
  { intros q Hne Hq. rewrite lookup_insert_ne in Hq by done. split; [done|].
    split; [by apply same_head_other|]. destruct Hq as [u Hu]. unfold id_of. rewrite Hu.
    apply (po_range n s Hok q u Hu). }
  destruct Hok. rewrite Epc in *. constructor; simpl in *; rewrite ?Hit, ?Hid; try assumption; try lia.
  - tauto.
  - destruct po_pipeline0 as (l & E1 & E2). exists l. rewrite E1, app_nil_r, <- !app_assoc. split; [done|].
    assert (p ∉ l) as Hl by (rewrite E1 in Hnew; set_solver). by rewrite (proj1 (Hmap l Hl)).
  - intros q. rewrite app_assoc, lookup_insert_is_Some, po_alloc0, (elem_of_app _ [p]), list_elem_of_singleton.
    destruct (decide (p = q)); intuition.
  - rewrite app_assoc. apply NoDup_app. split; [done|]. split; [|apply NoDup_singleton].
    intros q Hq ->%list_elem_of_singleton. done.
  - intros q q' Hq Hq' E. destruct (decide (q = p)) as [->|N], (decide (q' = p)) as [->|N']; try done.
    + destruct (Hold q' N' Hq') as (? & ? & ?). lia.
    + destruct (Hold q N Hq) as (? & ? & ?). lia.
    + destruct (Hold q N Hq) as (? & ? & ?), (Hold q' N' Hq') as (? & ? & ?). apply po_ids0; congruence.
  - intros q u [[<- <-]|[_ Hu]]%lookup_insert_Some; [simpl; lia|]. specialize (po_range0 q u Hu). lia.
  - rewrite app_assoc, (map_app (peer_at _)), (proj2 (Hmap _ Hnew)), map_app, po_order0, <- app_assoc.
    simpl. unfold peer_at at 3. by rewrite lookup_insert_eq.
  - rewrite !map_app. simpl. rewrite po_once0, <- app_assoc. done.
Qed.

Lemma listen_keeps n s p : proxy_ok n s -> n < int_max -> keeps (n + 1) (listen_step s p).
Proof.
  intros Hok Hn. unfold listen_step. pose proof (po_open n s Hok) as (Ho0 & Ho1 & Ha1 & Ho2 & _).
  destruct (listen_pc s) as [| |p'|] eqn:Epc; [done|..].
  - unfold Chain.get. destruct (Chain.items (request_chain s)) as [|o r] eqn:Er.
    + simpl. destruct Hok. rewrite Epc in *. constructor; simpl in *; try assumption; lia.
    + rewrite Ho0. destruct (examine_request _ _) as [id e|rid m acc].
      * simpl. destruct (send_one false o (error_response id e)) as [x ->]. destruct Hok. rewrite Epc in *.
        constructor; simpl in *; try assumption; try lia.
        -- by rewrite results_app, app_nil_r.
        -- rewrite refusals_app, map_app. simpl. rewrite po_once0, <- !app_assoc. apply Permutation_app_head.
           by rewrite Permutation_app_comm.
      * destruct (tasks s !! p) as [t|] eqn:Ht; [done|]. unfold Chain.put, Chain.generate_ident. simpl. rewrite Ho1. simpl.
        pose proof (po_ident n s Hok) as Hid. rewrite i32_id by (unfold int_min, int_max in *; lia).
        by apply accept_inv_ok.
  - unfold Chain.put. rewrite Ho2. simpl. destruct Hok. rewrite Epc in *.
    constructor; simpl in *; try assumption; try lia; [tauto|..].
    + destruct po_pipeline0 as (l & E1 & E2). exists l. by rewrite app_nil_r.
    + rewrite length_app. simpl. lia.
  - simpl. destruct Hok. rewrite Epc in *. constructor; simpl in *; try assumption; lia.
Qed.

Lemma step_keeps n s (a : action M) : proxy_ok n s -> n < int_max -> keeps (n + 1) (step s a).
Proof.
  intros Hok Hn. destruct a as [l|p| | |m]; simpl.
  - destruct (listen_pc s) eqn:Epc; [|done..]. simpl.
    assert (forall c : Chain.chain NetServer.net_data_obj, Chain.open c = true ->
      Chain.open (fold_left (fun c o => (Chain.put c o).2) l c) = true) as Hopen.
    { induction l as [|o l IH]; intros c Hc; simpl; [done|]. apply IH. unfold Chain.put. by rewrite Hc. }
    destruct Hok. rewrite Epc in *. constructor; simpl in *; try assumption; try lia.
    destruct po_open0 as [? ?]. split; [by apply Hopen|done].
  - by apply listen_keeps.
  - by apply mapper_keeps.
  - by apply resp_keeps.
  - by apply mapper_moves.
Qed.

Lemma new_proxy_ok l (m : M) : proxy_ok 0 (new_ADJsonRpcProxy (B := B) l m).
Proof.
  constructor; simpl; try done; try lia.
  - by exists [].
  - intros p. rewrite lookup_empty. split; [by intros []|by intros Hp%elem_of_nil].
  - constructor.
  - intros p q [? Hp]. by rewrite lookup_empty in Hp.
Qed.

Lemma proxy_reachable_ok l (m : M) (n : nat) s :
  reachable (new_ADJsonRpcProxy l m) n s -> Z.of_nat n <= int_max -> proxy_ok (Z.of_nat n) s.
Proof.
  intros Hr. induction Hr as [|n s s' a Hr IH Hs]; intros Hn; [apply new_proxy_ok|].
  pose proof (step_keeps (Z.of_nat n) s a (IH ltac:(lia)) ltac:(lia)) as Hk. rewrite Hs in Hk.
  by replace (Z.of_nat (S n)) with (Z.of_nat n + 1) by lia.
Qed.

(** ** The properties *)

Lemma answered_split l : answered l ≡ₚ refusals l ++ results l.
Proof.
  unfold answered, refusals, results. induction l as [|[[[] ?] ?] l IH]; simpl; [done| |by rewrite IH].
  rewrite IH. apply Permutation_middle.
Qed.

(** C16: every request the proxy took is answered exactly once: in every interleaving of
    the three threads, the addresses (descriptor and connection) of the responses
    scheduled so far and of the tasks in flight are those of the requests taken, each as
    often; the results of the accepted requests are scheduled in the order in which the
    requests came. *)
Theorem answered_once l (m : M) (n : nat) s :
  reachable (new_ADJsonRpcProxy l m) n s -> Z.of_nat n <= int_max ->
  let in_flight := map (peer_at (tasks s)) (sending (resp_pc s) ++ queue s) in
  map peer_of (received s) ≡ₚ answered (scheduled s) ++ in_flight /\
  map peer_of (accepted s) = results (scheduled s) ++ in_flight.
Proof.
  intros Hr Hn. pose proof (proxy_reachable_ok l m n s Hr Hn) as []. simpl. split; [|done].
  by rewrite po_once0, answered_split, po_order0, app_assoc.
Qed.

(** No thread follows a pointer to a released task: the object a thread works on
    is only released after the response thread sent its response, and that happens
    after the other two are done with it. *)
Theorem no_dangling_task l (m : M) (n : nat) s (a : action M) :
  reachable (new_ADJsonRpcProxy l m) n s -> Z.of_nat n < int_max -> step s a <> Dangling.
Proof.
  intros Hr Hn E. pose proof (step_keeps (Z.of_nat n) s a) as Hk. rewrite E in Hk.
  apply Hk; [|done]. apply (proxy_reachable_ok l m n s Hr). lia.
Qed.

(** C17: no wake-up is lost: when no thread can go on, every request taken was answered
    exactly once, no task is left, and none was accepted that did not get its result. *)
Theorem idle_when_answered l (m : M) (n : nat) s :
  reachable (new_ADJsonRpcProxy l m) n s -> Z.of_nat n <= int_max ->
  (forall p, step s (Listen p) = Blocked) -> step s Mapper = Blocked -> step s Resp = Blocked ->
  tasks s = ∅ /\ map peer_of (received s) ≡ₚ answered (scheduled s) /\
  map peer_of (accepted s) = results (scheduled s).
Proof.
  intros Hr Hn Hl Hm Hp. pose proof (proxy_reachable_ok l m n s Hr Hn) as Hok.
  assert (listen_pc s = LIdle) as El.
  { specialize (Hl (fresh (dom (tasks s)))). simpl in Hl. unfold listen_step in Hl.
    assert (tasks s !! fresh (dom (tasks s)) = None) as Hf by (apply not_elem_of_dom, is_fresh).
    destruct (listen_pc s); [done| | |done]; repeat (case_match; try done); congruence. }
  assert (mapper_pc s = MWait /\ req_sema s = 0) as [Em Es].
  { simpl in Hm. unfold mapper_step, finish in Hm. pose proof (po_semas _ s Hok).
    destruct (mapper_pc s) eqn:E; [|try done; repeat (case_match; try done)..].
    destruct (Z.gtb_spec (req_sema s) 0); [done|]. split; [done|lia]. }
  assert (resp_pc s = RWait /\ resp_sema s = 0) as [Ep Et].
  { simpl in Hp. unfold resp_step in Hp. pose proof (po_semas _ s Hok).
    destruct (resp_pc s) eqn:E; [|try done; repeat (case_match; try done)..].
    destruct (Z.gtb_spec (resp_sema s) 0); [done|]. split; [done|lia]. }
  assert (queue s = []) as Eq.
  { destruct (po_pipeline _ s Hok) as (k & E1 & E2). pose proof (po_req _ s Hok) as H4. pose proof (po_resp _ s Hok) as H5.
    rewrite El, Em, Ep, Es, Et in *. simpl in *.
    destruct (Chain.items (ReqChain s)); [|simpl in *; lia]. destruct (Chain.items (RespChain s)); [|simpl in *; lia].
    destruct k; [by rewrite E1|done]. }
  pose proof (po_order _ s Hok) as Hord. rewrite Ep, Eq in Hord. simpl in Hord. rewrite app_nil_r in Hord.
  split_and!; [|by rewrite (po_once _ s Hok), answered_split, Hord|done].
  apply map_eq. intros p. rewrite lookup_empty. destruct (tasks s !! p) eqn:E; [|done].
  assert (is_Some (tasks s !! p)) as Hin by by eexists. apply (po_alloc _ s Hok) in Hin.
  rewrite Ep, Eq in Hin. by apply elem_of_nil in Hin.
Qed.

Lemma get_add_other (o : J) (k k' : string) (v w : J) :
  is_object o -> k <> k' -> json_object_object_get o k' = Some w ->
  json_object_object_get (json_object_object_add o k v) k' = Some w.
Proof. intros Ho Hne Hg. by rewrite get_add_ne. Qed.

Ltac json_get := repeat first
  [ rewrite get_add_eq by eauto using add_is, add_null_is, new_object_is
  | rewrite get_add_null by eauto using add_is, add_null_is, new_object_is
  | rewrite get_add_null_ne by (eauto using add_is, add_null_is, new_object_is || done)
  | rewrite get_add_ne by (eauto using add_is, add_null_is, new_object_is || done)
  | rewrite get_new ].

(** C19: the responses are JSON-RPC 2.0 responses: the version, either an error object
    with the code and a message or a result, never both, and the identifier of the
    request; an error that is found before the identifier is known has a null one. *)
Theorem response_wellformed (id e : Z) (text : string) (r : option J) :
  let err := error_response id e in
  let res := result_response id text r in
  let str o k := o ← json_object_object_get o k; json_object_get_string o in
  str err "jsonrpc"%string = Some "2.0"%string /\ str res "jsonrpc"%string = Some "2.0"%string /\
  (exists eo, json_object_object_get err "error" = Some eo /\ str eo "code"%string = Some (format_d e) /\
              str eo "message"%string = Some (error_message e)) /\
  json_object_object_get err "result" = None /\ json_object_object_get res "error" = None /\
  str err "id"%string = (if (e =? Err.METHOD_NOT_FOUND) || (e =? Err.INVALID_PARAMS) then Some (format_d id) else None) /\
  str res "id"%string = Some (format_d id) /\
  (exists ro, json_object_object_get res "result" = Some ro /\
     match r with Some x => ro = x | None => str ro "errorType"%string = Some text end).
Proof.
  simpl. unfold error_response, result_response. split_and!.
  - destruct (_ || _); json_get; simpl; apply string_of_string.
  - json_get. simpl. apply string_of_string.
  - eexists. split; [destruct (_ || _); json_get; reflexivity|]. split; json_get; simpl;
      [apply string_of_int|apply string_of_string].
  - destruct (_ || _); json_get; done.
  - json_get. done.
  - destruct (_ || _); json_get; simpl; [apply string_of_int|done].
  - json_get. simpl. apply string_of_int.
  - eexists. split; [json_get; reflexivity|]. destruct r; [done|]. json_get. simpl. apply string_of_string.
Qed.

(** The methods a sequence of [attach_rpc_method()] registered. *)
Definition attach_all (l : list (string * Z)) : list ADJsonRpcCommand :=
  fold_left (fun c x => (attach_rpc_method c x.1 x.2).2) l [].

Lemma attached_short l c : c ∈ attach_all l -> (String.length (method c) < JSON_RPC_METHOD_NAME_MAX_LENGTH)%nat.
Proof.
  unfold attach_all. assert (forall k, (forall c, c ∈ k -> (String.length (method c) < JSON_RPC_METHOD_NAME_MAX_LENGTH)%nat) ->
    forall c, c ∈ fold_left (fun c x => (attach_rpc_method c x.1 x.2).2) l k ->
      (String.length (method c) < JSON_RPC_METHOD_NAME_MAX_LENGTH)%nat) as Hgen.
  { induction l as [|x l IH]; intros k Hk d Hd; simpl in Hd; [by apply Hk|]. apply (IH _) in Hd; [done|].
    unfold attach_rpc_method. destruct (Nat.leb_spec JSON_RPC_METHOD_NAME_MAX_LENGTH (String.length x.1)); [done|].
    simpl. intros d' [Hd'| ->%list_elem_of_singleton]%elem_of_app; [by apply Hk|done]. }
  apply Hgen. intros d Hd. by apply elem_of_nil in Hd.
Qed.

(** C18: which requests are accepted: exactly those that do not start with a bracket,
    that the checker and the parser take, that have a member id, and whose method has
    been registered; the length test in front of the search of the method never
    rejects a registered one, and the first method registered under the name is meant.
    Each other request gets the error of the first of these tests that fails. *)
Theorem request_verdict (l : list (string * Z)) (buffer : list ascii) :
  let methods := attach_all l in
  match examine_request methods buffer with
  | Accepted id c acc =>
      head buffer <> Some "["%char /\ Checker.json_checker_function buffer = Checker.Go true /\
      exists o, json_tokener_parse (c_string buffer) = Some o /\ get_jsonrpc_id o = Some id /\
        string_opt (json_object_object_get o "method") = Some (method c) /\
        find_first (fun x => (method x =? method c)%string) methods = Some c
  | Refused id e =>
      (e = Err.INVALID_REQ /\ head buffer = Some "["%char) \/
      (e = Err.PARSE_ERROR /\ head buffer <> Some "["%char /\
       (Checker.json_checker_function buffer <> Checker.Go true \/ json_tokener_parse (c_string buffer) = None)) \/
      (exists o, Checker.json_checker_function buffer = Checker.Go true /\
         json_tokener_parse (c_string buffer) = Some o /\
         (e = Err.INVALID_REQ /\ get_jsonrpc_id o = None \/
          e = Err.METHOD_NOT_FOUND /\ get_jsonrpc_id o = Some id /\
          forall c, c ∈ methods -> string_opt (json_object_object_get o "method") <> Some (method c)))
  end.
Proof.
  simpl. assert (forall b, head buffer <> Some "["%char -> (match buffer with "["%char :: _ => Refused 0 Err.INVALID_REQ
    | _ => b end) = b) as Hhead.
  { intros b Hb. destruct buffer as [|x r]; [done|]. simpl in Hb.
    destruct x as [[] [] [] [] [] [] [] []]; done. }
  unfold examine_request. destruct (decide (head buffer = Some "["%char)) as [Hh|Hh].
  { destruct buffer as [|x r]; [done|]. simpl in Hh. simplify_eq. by left. }
  rewrite Hhead by done. clear Hhead.
  destruct (Checker.json_checker_function buffer) as [[|]| |] eqn:Ec; try (right; left; split_and!; auto; fail).
  destruct (json_tokener_parse (c_string buffer)) as [o|] eqn:Eo; [|right; left; auto].
  destruct (get_jsonrpc_id o) as [id|] eqn:Ei; [|right; right; exists o; auto].
  unfold get_jsonrpc_method, is_this_method_registered.
  destruct (string_opt (json_object_object_get o "method")) as [name|] eqn:Em.
  2: { right; right; exists o. split_and!; auto. right. split_and!; auto. intros c _. by rewrite Em. }
  assert (forall c, c ∈ attach_all l -> method c = name -> (String.length name < JSON_RPC_METHOD_NAME_MAX_LENGTH)%nat)
    as Hlen by (intros c Hc <-; by apply (attached_short l)).
  destruct (Nat.leb_spec JSON_RPC_METHOD_NAME_MAX_LENGTH (String.length name)).
  { right; right; exists o. split_and!; auto. right. split_and!; auto. intros c Hc. rewrite Em. intros [= ->].
    specialize (Hlen c Hc eq_refl). lia. }
  destruct (find_first _ (attach_all l)) as [c|] eqn:Ef.
  - pose proof (find_first_Some _ _ _ Ef) as [Hc Hn]. apply String.eqb_eq in Hn. subst name.
    split_and!; auto. exists o. split_and!; auto.
  - right; right; exists o. split_and!; auto. right. split_and!; auto. intros c Hc. rewrite Em. intros [= ->].
    rewrite find_first_None in Ef. specialize (Ef c Hc). by rewrite String.eqb_refl in Ef.
Qed.

(** what the mapper does with a request: it converts it; if that fails, the task
    gets the result of the conversion and no work is done; otherwise the work is done
    once and the task gets what the conversion of its result gave. *)
Theorem mapper_maps s p (c : list positive) (t : api_task_obj J) :
  mapper_pc s = MGet -> Chain.items (ReqChain s) = p :: c -> Chain.open (ReqChain s) = true ->
  tasks s !! p = Some t ->
  let '(rc, d1, b1, m1) := process_json_to_binary (mgr s) (data_obj t) in
  let '(b2, m2) := process_work m1 d1 b1 in
  let '(d3, m3) := process_binary_to_json m2 d1 b2 in
  exists s', run s (if rc =? 0 then [Mapper; Mapper; Mapper; Mapper] else [Mapper; Mapper]) = Some s' /\
    mapper_pc s' = MSend p /\ Chain.items (ReqChain s') = c /\
    (rc = 0 -> mgr s' = m3 /\ tasks s' = <[p := write_back t d3]> (tasks s)) /\
    (rc <> 0 -> mgr s' = m1 /\ tasks s' = <[p := write_back t d1]> (tasks s)).
Proof.
  intros Epc Eq Eo Et. destruct (process_json_to_binary (mgr s) (data_obj t)) as [[[rc d1] b1] m1] eqn:E1.
  destruct (process_work m1 d1 b1) as [b2 m2] eqn:E2. destruct (process_binary_to_json m2 d1 b2) as [d3 m3] eqn:E3.
  assert (mapper_step s = Next (with_mapper (with_shared s (ReqRespChain s) (Chain.set_items (ReqChain s) c)
    (RespChain s) (tasks s) (req_sema s) (resp_sema s)) (MMap p (data_obj t)) (mgr s))) as Hget.
  { unfold mapper_step. rewrite Epc. unfold Chain.get. by rewrite Eq, Eo, Et. }
  destruct (Z.eqb_spec rc 0) as [->|Hne]; cbn [run step]; rewrite Hget; cbn; rewrite E1; cbn.
  - rewrite E2. cbn. rewrite E3. unfold finish. cbn. rewrite Et. eexists. split; [reflexivity|].
    split_and!; [reflexivity|reflexivity|by split|done].
  - destruct (Z.eqb_spec rc 0); [done|]. cbn. unfold finish. cbn. rewrite Et. eexists. split; [reflexivity|].
    split_and!; [reflexivity|reflexivity|done|by split].
Qed.

End invariant.

(** ** The properties at concrete inputs *)
Module Echo.

Fixpoint text (v : Json.value) : string :=
  match v with
  | Json.Obj f =>
      "{" ++ (fix go (f : list (string * Json.value)) : string :=
        match f with [] => EmptyString | (k, v) :: r => "'" ++ k ++ "':" ++ text v ++ "," ++ go r end) f ++ "}"
  | Json.Str s => "'" ++ s ++ "'"
  | Json.Num n => format_d n
  end%string.

(** The reader of file Common, for texts with double quotes. *)
Fixpoint single_quotes (s : string) : string :=
  match s with
  | EmptyString => EmptyString
  | String c r => String (if (c =? Framer.DQUOTE)%char then "'"%char else c) (single_quotes r)
  end.
#[export] Instance json : JsonC Json.value Z := {
  json_tokener_parse s := json_tokener_parse (JsonC := Json.concrete) (single_quotes s);
  json_object_object_get := json_object_object_get (JsonC := Json.concrete);
  json_object_get_string := json_object_get_string (JsonC := Json.concrete);
  json_object_new_object := json_object_new_object (JsonC := Json.concrete);
  json_object_new_string := json_object_new_string (JsonC := Json.concrete);
  json_object_new_int := json_object_new_int (JsonC := Json.concrete);
  json_object_new_int64 := json_object_new_int64 (JsonC := Json.concrete);
  json_object_new_double := json_object_new_double (JsonC := Json.concrete);
  json_object_object_add := json_object_object_add (JsonC := Json.concrete);
  format_f := format_f (JsonC := Json.concrete);
  atof := atof (JsonC := Json.concrete);
}.
#[export] Instance json_laws : JsonCLaws Json.value Z.
Proof.
  exact (@Build_JsonCLaws Json.value Z json
           (is_object (JsonCLaws := Json.concrete_laws)) (new_object_is (JsonCLaws := Json.concrete_laws))
           (add_is (JsonCLaws := Json.concrete_laws)) (get_new (JsonCLaws := Json.concrete_laws))
           (get_add_eq (JsonCLaws := Json.concrete_laws)) (get_add_ne (JsonCLaws := Json.concrete_laws))
           (string_of_string (JsonCLaws := Json.concrete_laws)) (string_of_int (JsonCLaws := Json.concrete_laws))).
Defined.

#[export] Instance rpc_json : JsonRpcC Json.value := {
  json_object_get_int o := match o with Json.Num n => n | Json.Str s => atoi s | _ => 0 end;
  json_object_object_add_null o k :=
    match o with Json.Obj f => Json.Obj (List.filter (fun x => negb (x.1 =? k)%string) f) | _ => o end;
  json_object_to_json_string_length o := Some (String.list_ascii_of_string (text o));
}.

#[export] Instance rpc_json_laws : JsonRpcCLaws Json.value Z.
Proof.
  constructor; [by intros [f| |] k| | |by eexists].
  - intros [f| |] k Ho; try done. simpl. induction f as [|[k' v] f IH]; simpl; [done|].
    destruct (String.eqb_spec k' k); simpl; [by apply IH|]. by rewrite (proj2 (String.eqb_neq k' k)); [apply IH|].
  - intros [f| |] k k2 Ho Hne; try done. simpl. induction f as [|[k' v] f IH]; simpl; [done|].
    destruct (String.eqb_spec k' k) as [->|]; simpl.
    + rewrite (proj2 (String.eqb_neq k k2)) by done. by apply IH.
    + destruct (k' =? k2)%string; [done|by apply IH].
Qed.

(** A manager that answers the method with index 7 and refuses the others; its state
    counts the work done. *)
#[export] Instance manager : MapConsumer Z Z Json.value := {
  process_json_to_binary m d :=
    if cmd_index d =? 7 then (0, d, Common.req_id d, m) else (-1, set_mapper_result d Task.INVALID_PARAM, 0, m);
  process_work m d b := (b + 1, m + 1);
  process_binary_to_json m d b :=
    (set_mapper_result (set_response d Rpc.SUCCESS (Json.Num b)) Task.SUCCESS, m);
}.

Definition methods : list ADJsonRpcCommand := attach_all [("echo", 7); ("none", 8)]%string.
Definition start : ADJsonRpcProxy Json.value Z Z := new_ADJsonRpcProxy methods 0.
Definition request (fd : Z) (text : list ascii) : NetServer.net_data_obj :=
  {| NetServer.ident := 0; NetServer.sock_descriptor := fd; NetServer.port := 1; NetServer.ip := EmptyString;
     NetServer.cltid := fd; NetServer.data_buffer := text |}.

(** Five requests on two connections: a good one, one for the method that fails, an
    unknown method, a bracket, and a text that is not JSON. *)
Definition five : list NetServer.net_data_obj :=
  [request 4 (bytes "{'id':1,'method':'echo'}"); request 5 (bytes "{'id':2,'method':'none'}");
   request 4 (bytes "{'id':3,'method':'nope'}"); request 4 (bytes "[]"); request 5 (bytes "{'id'}")].
Definition all_five : list (action Z) :=
  [Arrive five; Listen 1; Listen 1; Listen 1; Listen 2; Mapper; Mapper; Listen 1; Mapper; Listen 1; Listen 3;
   Listen 3; Listen 3; Mapper; Mapper; Mapper; Mapper; Resp; Resp; Resp; Listen 3; Mapper; Mapper; Mapper; Mapper; Mapper; Resp;
   Resp; Resp; Resp; Resp].
Definition final : ADJsonRpcProxy Json.value Z Z := default start (run start all_five).
End Echo.
Import Echo.

(** Everything is answered in the end: three refusals at once, then two results. *)
Example final_ex :
  (map (fun x => x.1) (scheduled final), mgr final, total_res_sent final) =
  ([(false, (4, 4)); (false, (4, 4)); (false, (5, 5)); (true, (4, 4)); (true, (5, 5))], 1, 2).
Proof. vm_compute. reflexivity. Qed.

Lemma run_reaches {J D M B} `{JsonC J D} `{JsonRpcC J} `{MapConsumer M B J} (s0 s s' : ADJsonRpcProxy J M B)
    (n : nat) (l : list (action M)) :
  reachable s0 n s -> run s l = Some s' -> reachable s0 (length l + n) s'.
Proof.
  revert s n. induction l as [|a l IH]; intros s n Hr Hl; simpl in *; [by simplify_eq|].
  destruct (step s a) as [t| |] eqn:E; [|done..]. replace (S (length l + n)) with (length l + S n)%nat by lia.
  apply (IH t); [by eapply reach_step|done].
Qed.

Lemma final_reached : reachable start (length all_five) final.
Proof.
  rewrite <- (Nat.add_0_r (length all_five)). eapply run_reaches; [constructor|]. vm_compute. reflexivity.
Qed.

Lemma answered_once_witness :
  map peer_of (received final) ≡ₚ answered (scheduled final) ++ map (peer_at (tasks final)) [] /\
  length (received final) = 5%nat.
Proof.
  split; [|vm_compute; reflexivity]. apply (answered_once methods 0 (length all_five) final final_reached).
  vm_compute. discriminate.
Defined.

Lemma no_dangling_task_witness : step final Resp <> Dangling.
Proof. apply (no_dangling_task methods 0 (length all_five) final Resp final_reached). vm_compute. reflexivity. Defined.

Lemma idle_when_answered_witness : tasks final = ∅ /\ map peer_of (received final) ≡ₚ answered (scheduled final).
Proof.
  destruct (idle_when_answered methods 0 (length all_five) final final_reached) as (H1 & H2 & _);
    [vm_compute; discriminate| | | |by split].
  - intros p. vm_compute. reflexivity.
  - vm_compute. reflexivity.
  - vm_compute. reflexivity.
Defined.

Lemma response_wellformed_witness :
  let err := error_response (J := Json.value) (D := Z) 3 Err.INVALID_PARAMS in
  json_object_object_get err "result" = None /\
  (json_object_object_get err "id" ≫= json_object_get_string) = Some "3"%string.
Proof.
  destruct (response_wellformed (J := Json.value) (D := Z) 3 Err.INVALID_PARAMS "Fail" None)
    as (_ & _ & _ & H4 & _ & H6 & _).
  split; [exact H4|]. vm_compute in H6. vm_compute. exact H6.
Defined.

(** A request in the hands of the mapper. *)
Definition taken : ADJsonRpcProxy Json.value Z Z := 
  default start (run start [Arrive five; Listen 1; Listen 1; Listen 1; Mapper]).

Lemma mapper_maps_witness :
  exists t s', tasks taken !! 1%positive = Some t /\ run taken [Mapper; Mapper; Mapper; Mapper] = Some s' /\
    mgr s' = 1 /\ mapper_pc s' = MSend 1.
Proof.
  destruct (tasks taken !! 1%positive) as [t|] eqn:E; [|vm_compute in E; discriminate].
  pose proof (mapper_maps taken 1%positive [] t ltac:(vm_compute; reflexivity) ltac:(vm_compute; reflexivity)
    ltac:(vm_compute; reflexivity) E) as H.
  vm_compute in E. injection E as <-. vm_compute in H. destruct H as (s' & H1 & H2 & _ & H3 & _).
  eexists _, s'. split; [reflexivity|]. split; [vm_compute; exact H1|]. split; [|exact H2].
  by destruct (H3 eq_refl) as [H4 _].
Defined.
