(* ===== verification/RpcMgr.v ===== *)
(** * The manager (ADJsonRpcMgr.cpp, ADJsonRpcMgr.hpp)

    The manager maps the JSON of a request to a packet, does the work, and maps the packet
    back to the response: for the commands every service has, by the handlers of
    [ADJsonRpcMgr], for the others by the service's, which are the interface [RpcService].
    It implements the interface [MapConsumer] that the mapper (file Proxy) uses, on top of
    the task worker (the interface [TaskService] of file TaskCalls), the event manager
    (file EvntMgr) and the parameter and response functions of file Common.

    A packet is the value of the C struct behind [dataRef].  [new T] leaves it
    uninitialised, as it does a local variable: [junk] and [junk_text] stand for what is
    read from there. *)
From S2P Require Import Prelude Common TaskWorker TaskCalls.
From S2P Require EvntMgr Proxy.
Open Scope Z_scope.

(** ** Commands *)

(** [EJSON_RPCGMGR_CMD] *)
Inductive EJSON_RPCGMGR_CMD :=
| GET_TASK_STS | GET_RPC_SRV_VERSION | TRIGGER_DATASAVE | GET_SETTINGS_STS | SHUTDOWN_SERVICE
| RESET_TASK_STS | GET_READY_STS | GET_DEBUG_LOG | SET_DEBUG_LOG | TRIGGER_FACTORY_STORE
| TRIGGER_FACTORY_RESTORE | EVENT_SUBSCRIBE | EVENT_UNSUBSCRIBE | EVENT_NOTIFY | EVENT_PROCESS
| TRIGGER_RUN | GET_DEVOP_STATE | SET_DEVOP_STATE | GET_MW_BYTE | SET_MW_BYTE | GET_MW_WORD
| SET_MW_WORD | GET_MW_DWORD | SET_MW_DWORD.

#[export] Instance EJSON_RPCGMGR_CMD_eq_dec : EqDecision EJSON_RPCGMGR_CMD.
Proof. solve_decision. Defined.

Definition EJSON_RPCGMGR_CMD_END : Z := 24.

Definition cmd_index_of (c : EJSON_RPCGMGR_CMD) : Z :=
  match c with
  | GET_TASK_STS => 0 | GET_RPC_SRV_VERSION => 1 | TRIGGER_DATASAVE => 2 | GET_SETTINGS_STS => 3
  | SHUTDOWN_SERVICE => 4 | RESET_TASK_STS => 5 | GET_READY_STS => 6 | GET_DEBUG_LOG => 7
  | SET_DEBUG_LOG => 8 | TRIGGER_FACTORY_STORE => 9 | TRIGGER_FACTORY_RESTORE => 10
  | EVENT_SUBSCRIBE => 11 | EVENT_UNSUBSCRIBE => 12 | EVENT_NOTIFY => 13 | EVENT_PROCESS => 14
  | TRIGGER_RUN => 15 | GET_DEVOP_STATE => 16 | SET_DEVOP_STATE => 17 | GET_MW_BYTE => 18
  | SET_MW_BYTE => 19 | GET_MW_WORD => 20 | SET_MW_WORD => 21 | GET_MW_DWORD => 22 | SET_MW_DWORD => 23
  end.

(** The commands with the names [Start()] registers them under, in its order. *)
Definition own_methods : list (string * EJSON_RPCGMGR_CMD) :=
  [("get_rpc_req_status", GET_TASK_STS); ("get_rpc_srv_version", GET_RPC_SRV_VERSION);
   ("trigger_settings_save", TRIGGER_DATASAVE); ("get_settings_status", GET_SETTINGS_STS);
   ("trigger_shutdown", SHUTDOWN_SERVICE); ("reset_task_status", RESET_TASK_STS);
   ("get_ready_status", GET_READY_STS); ("get_debug_logging", GET_DEBUG_LOG);
   ("set_debug_logging", SET_DEBUG_LOG); ("trigger_factory_store", TRIGGER_FACTORY_STORE);
   ("trigger_factory_restore", TRIGGER_FACTORY_RESTORE); ("subscribe_event", EVENT_SUBSCRIBE);
   ("unsubscribe_event", EVENT_UNSUBSCRIBE); ("notify_event", EVENT_NOTIFY);
   ("process_event", EVENT_PROCESS); ("run_now", TRIGGER_RUN); ("get_devop_state", GET_DEVOP_STATE);
   ("set_devop_state", SET_DEVOP_STATE); ("read_byte", GET_MW_BYTE); ("write_byte", SET_MW_BYTE);
   ("read_word", GET_MW_WORD); ("write_word", SET_MW_WORD); ("read_dword", GET_MW_DWORD);
   ("write_dword", SET_MW_DWORD)]%string.

(** The [switch] on the command: [None] is [default]. *)
Definition own_command (n : Z) : option EJSON_RPCGMGR_CMD :=
  find_first (fun c => cmd_index_of c =? n) (map snd own_methods).

(** The tables of names, without their terminators, and the enumerators used. *)
Definition RPCMGR_RPC_READY_STS_ARGSTS_TBL : list string := ["notready"; "ready"; "busy"; "unknown"; "none"]%string.
Definition READY_STATE_NOT_READY : Z := 0.
Definition READY_STATE_UNKNOWN : Z := 3.
Definition RPCMGR_RPC_DEBUG_LOG_ARGSTS_TBL : list string := ["disable"; "enable"; "unknown"; "none"]%string.
Definition FLAG_STATE_DISABLE : Z := 0.
Definition FLAG_STATE_ENABLE : Z := 1.
Definition FLAG_STATE_UNKNOWN : Z := 2.
Definition RPCMGR_RPC_DEVOP_STATE_ARGSTS_TBL : list string :=
  ["idle"; "on"; "laststate"; "off"; "reboot"; "booting"; "rebooting"; "switchingoff"; "boot"; "idlenoexthw";
   "unknown"; "none"]%string.
Definition DEVOP_STATE_UNKNOWN : Z := 10.

(** ** Packets and requests *)

(** The structs [RPCMGR_..._PACKET]; [ServicePacket] is one of a service. *)
Inductive packet (P : Type) :=
| TaskPacket (taskID : Z) (task_sts : string)
| IntegerPacket (value : Z)
| SettingsPacket (status : string)
| ReadyPacket (status : Z)
| DebugPacket (status : Z)
| EventPacket (cltToken portNum eventNum srvToken sock_descr sock_id : Z) (ip : string) (eventArg eventArg2 : Z)
| DevopPacket (status : Z)
| MiddlewarePacket (addr byte word dword : Z)
| ServicePacket (p : P).
Arguments TaskPacket {P}. Arguments IntegerPacket {P}. Arguments SettingsPacket {P}. Arguments ReadyPacket {P}.
Arguments DebugPacket {P}. Arguments EventPacket {P}. Arguments DevopPacket {P}. Arguments MiddlewarePacket {P}.
Arguments ServicePacket {P}.

(** [RPC_SRV_REQ]; [dataRef] is null until the packet is made. *)
Record RPC_SRV_REQ (P : Type) := {
  rq_action : Z;
  rq_cmd : Z;
  rq_clientId : Z;
  rq_reqIdent : Z;
  rq_result : Z;
  rq_dataRef : option (packet P);
}.
Arguments rq_action {P}. Arguments rq_cmd {P}. Arguments rq_clientId {P}. Arguments rq_reqIdent {P}.
Arguments rq_result {P}. Arguments rq_dataRef {P}. Arguments Build_RPC_SRV_REQ {P}.

Definition set_result {P} (r : RPC_SRV_REQ P) (c : Z) : RPC_SRV_REQ P :=
  Build_RPC_SRV_REQ (rq_action r) (rq_cmd r) (rq_clientId r) (rq_reqIdent r) c (rq_dataRef r).
Definition set_packet {P} (r : RPC_SRV_REQ P) (p : packet P) : RPC_SRV_REQ P :=
  Build_RPC_SRV_REQ (rq_action r) (rq_cmd r) (rq_clientId r) (rq_reqIdent r) (rq_result r) (Some p).
Definition set_action {P} (r : RPC_SRV_REQ P) (action cmd : Z) : RPC_SRV_REQ P :=
  Build_RPC_SRV_REQ action cmd (rq_clientId r) (rq_reqIdent r) (rq_result r) (rq_dataRef r).

(** ** Services *)

(** [ADJsonRpcMgrConsumer]: the members of the object a service attaches. *)
Record ADJsonRpcMgrConsumer := {
  strRpcName : string;
  index : Z;
  parent_index : Z;
  emulation : bool;
  logmsg : bool;
  cmnrpchandler : bool;
}.

(** What a handler does with the producer it is given: it pushes tasks, and goes on with
    the result and the identifier. *)
Inductive handler (R : Type) :=
| Done (r : R)
| Push (cmd data : Z) (done_flag : WORK_CMD_AFTER_DONE) (k : Z -> Z -> handler R).
Arguments Done {R}. Arguments Push {R}.

(** The virtual methods of the attached objects, by position, with the state [S] of the
    services; [J] is the type of JSON objects, [P] that of the service's packets. *)
Class RpcService (S P J : Type) := {
  svc_MapJsonToBinary : nat -> S -> JsonDataCommObj J -> RPC_SRV_REQ P -> Z -> Z * JsonDataCommObj J * RPC_SRV_REQ P * S;
  svc_MapBinaryToJson : nat -> S -> JsonDataCommObj J -> RPC_SRV_REQ P -> Z -> Z * JsonDataCommObj J * S;
  svc_ProcessWork : nat -> S -> JsonDataCommObj J -> RPC_SRV_REQ P -> Z -> handler (Z * RPC_SRV_REQ P * S);
  svc_ProcessWorkAsync : nat -> S -> Z -> Z -> Z * S;
  svc_ReceiveEvent : nat -> S -> Z -> Z -> Z -> Z -> S;
}.

(** ** The manager *)

(** [class ADJsonRpcMgr] with its bases; [eventReceiver] holds the positions of the
    receivers among the service's objects, [work_data] the addresses of the packets
    allocated for tasks, [forced_exits] the calls of [myTimer->forced_exit()]. *)
Record ADJsonRpcMgr (W S : Type) := {
  rpclist : list ADJsonRpcMgrConsumer;
  eventReceiver : list nat;
  AsyncTaskWorker : W;
  EventMgr : EvntMgr.ADEvntMgr;
  service : S;
  svnVersion : Z;
  shutdown_support : bool;
  ServiceReadyFlag : Z;
  ServiceDebugFlag : bool;
  methods_attached : bool;
  stopped : bool;
  myTimer : bool;
  forced_exits : Z;
  work_data : list Z;
  next_address : Z;
}.
Arguments rpclist {W S}. Arguments eventReceiver {W S}. Arguments AsyncTaskWorker {W S}. Arguments EventMgr {W S}.
Arguments service {W S}. Arguments svnVersion {W S}. Arguments shutdown_support {W S}.
Arguments ServiceReadyFlag {W S}. Arguments ServiceDebugFlag {W S}. Arguments methods_attached {W S}.
Arguments stopped {W S}. Arguments myTimer {W S}. Arguments forced_exits {W S}. Arguments work_data {W S}.
Arguments next_address {W S}.

Section setters.
Context {W S : Type}.
Implicit Types m : ADJsonRpcMgr W S.

Definition with_tasks m (w : W) : ADJsonRpcMgr W S :=
  {| rpclist := rpclist m; eventReceiver := eventReceiver m; AsyncTaskWorker := w; EventMgr := EventMgr m;
     service := service m; svnVersion := svnVersion m; shutdown_support := shutdown_support m;
     ServiceReadyFlag := ServiceReadyFlag m; ServiceDebugFlag := ServiceDebugFlag m;
     methods_attached := methods_attached m; stopped := stopped m; myTimer := myTimer m;
     forced_exits := forced_exits m; work_data := work_data m; next_address := next_address m |}.
Definition with_events m (e : EvntMgr.ADEvntMgr) : ADJsonRpcMgr W S :=
  {| rpclist := rpclist m; eventReceiver := eventReceiver m; AsyncTaskWorker := AsyncTaskWorker m; EventMgr := e;
     service := service m; svnVersion := svnVersion m; shutdown_support := shutdown_support m;
     ServiceReadyFlag := ServiceReadyFlag m; ServiceDebugFlag := ServiceDebugFlag m;
     methods_attached := methods_attached m; stopped := stopped m; myTimer := myTimer m;
     forced_exits := forced_exits m; work_data := work_data m; next_address := next_address m |}.
Definition with_service m (s : S) : ADJsonRpcMgr W S :=
  {| rpclist := rpclist m; eventReceiver := eventReceiver m; AsyncTaskWorker := AsyncTaskWorker m;
     EventMgr := EventMgr m; service := s; svnVersion := svnVersion m; shutdown_support := shutdown_support m;
     ServiceReadyFlag := ServiceReadyFlag m; ServiceDebugFlag := ServiceDebugFlag m;
     methods_attached := methods_attached m; stopped := stopped m; myTimer := myTimer m;
     forced_exits := forced_exits m; work_data := work_data m; next_address := next_address m |}.
Definition with_flags m (l : list ADJsonRpcMgrConsumer) (shutdown : bool) (ready : Z) (debug : bool) : ADJsonRpcMgr W S :=
  {| rpclist := l; eventReceiver := eventReceiver m; AsyncTaskWorker := AsyncTaskWorker m;
     EventMgr := EventMgr m; service := service m; svnVersion := svnVersion m; shutdown_support := shutdown;
     ServiceReadyFlag := ready; ServiceDebugFlag := debug; methods_attached := methods_attached m;
     stopped := stopped m; myTimer := myTimer m; forced_exits := forced_exits m; work_data := work_data m;
     next_address := next_address m |}.
Definition with_work m (l : list Z) (next : Z) : ADJsonRpcMgr W S :=
  {| rpclist := rpclist m; eventReceiver := eventReceiver m; AsyncTaskWorker := AsyncTaskWorker m;
     EventMgr := EventMgr m; service := service m; svnVersion := svnVersion m; shutdown_support := shutdown_support m;
     ServiceReadyFlag := ServiceReadyFlag m; ServiceDebugFlag := ServiceDebugFlag m;
     methods_attached := methods_attached m; stopped := stopped m; myTimer := myTimer m;
     forced_exits := forced_exits m; work_data := l; next_address := next |}.
Definition with_life m (receivers : list nat) (timer attached stop : bool) (exits : Z) : ADJsonRpcMgr W S :=
  {| rpclist := rpclist m; eventReceiver := receivers; AsyncTaskWorker := AsyncTaskWorker m;
     EventMgr := EventMgr m; service := service m; svnVersion := svnVersion m; shutdown_support := shutdown_support m;
     ServiceReadyFlag := ServiceReadyFlag m; ServiceDebugFlag := ServiceDebugFlag m; methods_attached := attached;
     stopped := stop; myTimer := timer; forced_exits := exits; work_data := work_data m;
     next_address := next_address m |}.

(** [new RPCMGR_TASK_STS_PACKET] for a task, and its deletion. *)
Definition new_work m : Z * ADJsonRpcMgr W S :=
  (next_address m, with_work m (next_address m :: work_data m) (next_address m + 1)).
Definition delete_work m (p : Z) : ADJsonRpcMgr W S :=
  with_work m (List.filter (fun q => negb (q =? p)) (work_data m)) (next_address m).

(** [AttachRpc()] and [AttachEventReceiver()] *)
Definition AttachRpc m (c : ADJsonRpcMgrConsumer) : ADJsonRpcMgr W S :=
  with_flags m (rpclist m ++ [c]) (shutdown_support m) (ServiceReadyFlag m) (ServiceDebugFlag m).
Definition AttachEventReceiver m (receiver : nat) : ADJsonRpcMgr W S :=
  with_life m (eventReceiver m ++ [receiver]) (myTimer m) (methods_attached m) (stopped m) (forced_exits m).
Definition AttachHeartBeat m : Z * ADJsonRpcMgr W S :=
  (0, with_life m (eventReceiver m) true (methods_attached m) (stopped m) (forced_exits m)).
Definition SupportShutdownRpc m (support : bool) : Z * ADJsonRpcMgr W S :=
  (0, with_flags m (rpclist m) support (ServiceReadyFlag m) (ServiceDebugFlag m)).
Definition SetServiceReadyFlag m (sts : Z) : Z * ADJsonRpcMgr W S :=
  (0, with_flags m (rpclist m) (shutdown_support m) sts (ServiceDebugFlag m)).

Definition get_total_attached_rpcs m : Z := Z.of_nat (length (rpclist m)).

(** [getRpcHandler(int)]: the position of the object it returns. *)
Definition getRpcHandler m (i : Z) : option (nat * ADJsonRpcMgrConsumer) :=
  if (i <? 0) || (i >=? Z.of_nat (length (rpclist m))) then None
  else c ← rpclist m !! Z.to_nat i; Some (Z.to_nat i, c).

Fixpoint find_cmn (l : list ADJsonRpcMgrConsumer) (i : nat) : option (nat * ADJsonRpcMgrConsumer) :=
  match l with
  | [] => None
  | c :: r => if cmnrpchandler c then Some (i, c) else find_cmn r (i + 1)
  end.
Definition getCmnRpcHandler m : option (nat * ADJsonRpcMgrConsumer) := find_cmn (rpclist m) 0.

Definition set_logmsg (flag : bool) (c : ADJsonRpcMgrConsumer) : ADJsonRpcMgrConsumer :=
  {| strRpcName := strRpcName c; index := index c; parent_index := parent_index c; emulation := emulation c;
     logmsg := flag; cmnrpchandler := cmnrpchandler c |}.
Definition set_parent_index (i : Z) (c : ADJsonRpcMgrConsumer) : ADJsonRpcMgrConsumer :=
  {| strRpcName := strRpcName c; index := index c; parent_index := i; emulation := emulation c;
     logmsg := logmsg c; cmnrpchandler := cmnrpchandler c |}.
Definition setRpcDebugLogFlag m (flag : bool) : ADJsonRpcMgr W S :=
  with_flags m (map (set_logmsg flag) (rpclist m)) (shutdown_support m) (ServiceReadyFlag m) (ServiceDebugFlag m).

(** The methods [Start()] registers: its own, then those of the attached objects. *)
Definition service_methods (l : list ADJsonRpcMgrConsumer) : list (string * Z) :=
  imap (fun i c => (strRpcName c, Z.of_nat i + EJSON_RPCGMGR_CMD_END)) l.
Definition registered_methods m : list (string * Z) :=
  map (fun x => (x.1, cmd_index_of x.2)) own_methods ++ service_methods (rpclist m).

(** [Start()], with the result of [Proxy.start_listening()]: what is registered, the
    result, and the manager after it. *)
Definition Start m (listening : Z) : list (string * Z) * Z * ADJsonRpcMgr W S :=
  if stopped m then ([], -1, m)
  else
    let ret := if listening =? 0 then 0 else -1 in
    if methods_attached m then ([], ret, m)
    else
      let m1 := with_life m (eventReceiver m) (myTimer m) true (stopped m) (forced_exits m) in
      let l := imap (fun i c => set_parent_index (Z.of_nat i + EJSON_RPCGMGR_CMD_END) c) (rpclist m) in
      (registered_methods m, ret,
       with_flags m1 l (shutdown_support m) (ServiceReadyFlag m) (ServiceDebugFlag m)).

(** [Stop()]: whether it stops the threads, which it does once. *)
Definition Stop m : bool * ADJsonRpcMgr W S :=
  if stopped m then (false, m)
  else (true, with_life (with_events m (EvntMgr.stop (EventMgr m))) (eventReceiver m) (myTimer m) (methods_attached m)
                true (forced_exits m)).
End setters.

(** The constructor. *)
Definition new_ADJsonRpcMgr {W S} (w : W) (s : S) (ver : Z) (debuglog : bool) : ADJsonRpcMgr W S :=
  {| rpclist := []; eventReceiver := []; AsyncTaskWorker := w; EventMgr := EvntMgr.new_ADEvntMgr; service := s;
     svnVersion := ver; shutdown_support := true; ServiceReadyFlag := READY_STATE_NOT_READY;
     ServiceDebugFlag := debuglog; methods_attached := false; stopped := false; myTimer := false;
     forced_exits := 0; work_data := []; next_address := 1 |}.

(** ** Reading parameters *)

(** [sscanf(s, "%lu", &v)]: the value of [v] after it; without a number it stays. *)
Definition ULONG_MAX : Z := 2 ^ 64 - 1.
Definition scan_lu (s : string) (old : Z) : Z :=
  let '(neg, r) := match skip_space s with
                   | String "-" r => (true, r)
                   | String "+" r => (false, r)
                   | r => (false, r)
                   end in
  match r with
  | String c _ =>
      if digit_of c then
        let n := digits r 0 in
        if n >? ULONG_MAX then ULONG_MAX else if neg : bool then wrap_u 64 (- n) else n
      else old
  | EmptyString => old
  end.

Section manager.
Context {W S P J D : Type} `{JsonC J D} `{TaskService W} `{RpcService S P J}.
Variable (junk : Z) (junk_text : string).
Abbreviation mgr := (ADJsonRpcMgr W S).
Abbreviation request := (RPC_SRV_REQ P).
Abbreviation comm := (JsonDataCommObj J).

(** [JSON_STRING_TO_ULONG], with the value of the variable before it. *)
Definition JSON_STRING_TO_ULONG (socket_data name : string) (old : Z) : option Z :=
  v ← param_value (D := D) socket_data name; Some (scan_lu v old).

Definition invalid_param (d : comm) (r : request) : Z * comm * request := (-1, set_mapper_result d Task.INVALID_PARAM, r).

(** An [int] parameter a handler needs, and one it takes as -1 when it is missing. *)
Definition with_int (d : comm) (r : request) (name : string) (k : Z -> Z * comm * request) : Z * comm * request :=
  match JSON_STRING_TO_INT (socket_data d) name with Some v => k v | None => invalid_param d r end.
Definition optional_int (d : comm) (r : request) (name : string) (k : Z -> Z * comm * request) : Z * comm * request :=
  if (find_single_param (socket_data d) name 255).1 =? 0 then with_int d r name k else k (-1).
Definition with_ulong (d : comm) (r : request) (name : string) (old : Z) (k : Z -> Z * comm * request) : Z * comm * request :=
  match JSON_STRING_TO_ULONG (socket_data d) name old with Some v => k v | None => invalid_param d r end.
Definition with_enum (d : comm) (r : request) (name : string) (table : list string) (max : Z)
    (k : Z -> Z * comm * request) : Z * comm * request :=
  match JSON_STRING_TO_ENUM (socket_data d) name table max with Some v => k v | None => invalid_param d r end.

Definition PREPARE_JSON_REQUEST (r : request) (p : packet P) (action : Z) (c : EJSON_RPCGMGR_CMD) : request :=
  set_packet (prepare_req_object set_action r action (cmd_index_of c)).2 p.

Definition new_task_packet : packet P := TaskPacket junk junk_text.
Definition new_event_packet : packet P := EventPacket junk junk junk junk junk junk junk_text junk junk.

(** ** From JSON to packets *)

Definition json_to_bin_get_task_sts (d : comm) (r : request) : Z * comm * request :=
  let r := PREPARE_JSON_REQUEST r new_task_packet Act.READ GET_TASK_STS in
  with_int d r "taskId" (fun v => (0, d, set_packet r (TaskPacket v junk_text))).
Definition json_to_bin_get_rpc_srv_version (d : comm) (r : request) : Z * comm * request :=
  (0, d, PREPARE_JSON_REQUEST r (IntegerPacket junk) Act.READ GET_RPC_SRV_VERSION).
Definition json_to_bin_trigger_datasave (d : comm) (r : request) : Z * comm * request :=
  (0, d, PREPARE_JSON_REQUEST r new_task_packet Act.WRITE TRIGGER_DATASAVE).
Definition json_to_bin_get_settings_sts (d : comm) (r : request) : Z * comm * request :=
  (0, d, PREPARE_JSON_REQUEST r (SettingsPacket junk_text) Act.READ GET_SETTINGS_STS).
Definition json_to_bin_shutdown_service (d : comm) (r : request) : Z * comm * request :=
  (0, d, PREPARE_JSON_REQUEST r new_task_packet Act.WRITE SHUTDOWN_SERVICE).
Definition json_to_bin_reset_task_sts (d : comm) (r : request) : Z * comm * request :=
  (0, d, PREPARE_JSON_REQUEST r new_task_packet Act.WRITE RESET_TASK_STS).
Definition json_to_bin_get_ready_sts (d : comm) (r : request) : Z * comm * request :=
  (0, d, PREPARE_JSON_REQUEST r (ReadyPacket junk) Act.READ GET_READY_STS).
Definition json_to_bin_get_debug_logging (d : comm) (r : request) : Z * comm * request :=
  (0, d, PREPARE_JSON_REQUEST r (DebugPacket junk) Act.READ GET_DEBUG_LOG).
Definition json_to_bin_set_debug_logging (d : comm) (r : request) : Z * comm * request :=
  let r := PREPARE_JSON_REQUEST r (DebugPacket junk) Act.WRITE SET_DEBUG_LOG in
  with_enum d r "status" RPCMGR_RPC_DEBUG_LOG_ARGSTS_TBL FLAG_STATE_UNKNOWN
    (fun v => (0, d, set_packet r (DebugPacket v))).
Definition json_to_bin_trigger_factory_store (d : comm) (r : request) : Z * comm * request :=
  (0, d, PREPARE_JSON_REQUEST r new_task_packet Act.WRITE TRIGGER_FACTORY_STORE).
Definition json_to_bin_trigger_factory_restore (d : comm) (r : request) : Z * comm * request :=
  (0, d, PREPARE_JSON_REQUEST r new_task_packet Act.WRITE TRIGGER_FACTORY_RESTORE).
Definition json_to_bin_event_subscribe (d : comm) (r : request) : Z * comm * request :=
  let r := PREPARE_JSON_REQUEST r new_event_packet Act.WRITE EVENT_SUBSCRIBE in
  with_int d r "cltToken" (fun cltToken =>
  optional_int d r "port" (fun portNum =>
  optional_int d r "evntNum" (fun eventNum =>
    (0, d, set_packet r (EventPacket cltToken portNum eventNum junk (sock_descr d) (sock_id d) (client_ip d) junk junk))))).
Definition json_to_bin_event_unsubscribe (d : comm) (r : request) : Z * comm * request :=
  let r := PREPARE_JSON_REQUEST r new_event_packet Act.WRITE EVENT_UNSUBSCRIBE in
  with_int d r "srvToken" (fun srvToken =>
    (0, d, set_packet r (EventPacket junk junk junk srvToken junk junk junk_text junk junk))).
Definition json_to_bin_event_notify (d : comm) (r : request) : Z * comm * request :=
  let r := PREPARE_JSON_REQUEST r new_event_packet Act.WRITE EVENT_NOTIFY in
  with_int d r "evntNum" (fun eventNum =>
  optional_int d r "evntArg1" (fun eventArg =>
  optional_int d r "evntArg2" (fun eventArg2 =>
    (0, d, set_packet r (EventPacket junk junk eventNum junk junk junk junk_text eventArg eventArg2))))).
Definition json_to_bin_event_process (d : comm) (r : request) : Z * comm * request :=
  let r := PREPARE_JSON_REQUEST r new_event_packet Act.WRITE EVENT_PROCESS in
  with_int d r "cltToken" (fun cltToken =>
  with_int d r "evntNum" (fun eventNum =>
  optional_int d r "evntArg1" (fun eventArg =>
  optional_int d r "evntArg2" (fun eventArg2 =>
    (0, d, set_packet r (EventPacket cltToken junk eventNum junk junk junk junk_text eventArg eventArg2)))))).
Definition json_to_bin_trigger_run (d : comm) (r : request) : Z * comm * request :=
  (0, d, PREPARE_JSON_REQUEST r new_task_packet Act.WRITE TRIGGER_RUN).
Definition json_to_bin_get_devop_state (d : comm) (r : request) : Z * comm * request :=
  (0, d, PREPARE_JSON_REQUEST r (DevopPacket junk) Act.READ GET_DEVOP_STATE).
Definition json_to_bin_set_devop_state (d : comm) (r : request) : Z * comm * request :=
  let r := PREPARE_JSON_REQUEST r (DevopPacket junk) Act.WRITE SET_DEVOP_STATE in
  with_enum d r "status" RPCMGR_RPC_DEVOP_STATE_ARGSTS_TBL DEVOP_STATE_UNKNOWN
    (fun v => (0, d, set_packet r (DevopPacket v))).

(** The six commands of the middleware; [tmp] is not initialised. *)
Definition new_mw_packet : packet P := MiddlewarePacket junk junk junk junk.
Definition json_to_bin_get_mw_byte (d : comm) (r : request) : Z * comm * request :=
  let r := PREPARE_JSON_REQUEST r new_mw_packet Act.READ GET_MW_BYTE in
  with_ulong d r "addr" junk (fun tmp => (0, d, set_packet r (MiddlewarePacket (u32 tmp) junk junk junk))).
Definition json_to_bin_set_mw_byte (d : comm) (r : request) : Z * comm * request :=
  let r := PREPARE_JSON_REQUEST r new_mw_packet Act.WRITE SET_MW_BYTE in
  with_ulong d r "addr" junk (fun tmp =>
  with_ulong d r "data" tmp (fun tmp2 => (0, d, set_packet r (MiddlewarePacket (u32 tmp) (u8 tmp2) junk junk)))).
Definition json_to_bin_get_mw_word (d : comm) (r : request) : Z * comm * request :=
  let r := PREPARE_JSON_REQUEST r new_mw_packet Act.READ GET_MW_WORD in
  with_ulong d r "addr" junk (fun tmp => (0, d, set_packet r (MiddlewarePacket (u32 tmp) junk junk junk))).
Definition json_to_bin_set_mw_word (d : comm) (r : request) : Z * comm * request :=
  let r := PREPARE_JSON_REQUEST r new_mw_packet Act.WRITE SET_MW_WORD in
  with_ulong d r "addr" junk (fun tmp =>
  with_ulong d r "data" tmp (fun tmp2 => (0, d, set_packet r (MiddlewarePacket (u32 tmp) junk (u8 tmp2) junk)))).
Definition json_to_bin_get_mw_dword (d : comm) (r : request) : Z * comm * request :=
  let r := PREPARE_JSON_REQUEST r new_mw_packet Act.READ GET_MW_DWORD in
  with_ulong d r "addr" junk (fun tmp => (0, d, set_packet r (MiddlewarePacket (u32 tmp) junk junk junk))).
Definition json_to_bin_set_mw_dword (d : comm) (r : request) : Z * comm * request :=
  let r := PREPARE_JSON_REQUEST r new_mw_packet Act.WRITE SET_MW_DWORD in
  with_ulong d r "addr" junk (fun tmp =>
  with_ulong d r "data" tmp (fun tmp2 => (0, d, set_packet r (MiddlewarePacket (u32 tmp) junk junk (u8 tmp2))))).

Definition MyMapJsonToBinary (d : comm) (r : request) : Z * comm * request :=
  match own_command (cmd_index d) with
  | Some GET_TASK_STS => json_to_bin_get_task_sts d r
  | Some GET_RPC_SRV_VERSION => json_to_bin_get_rpc_srv_version d r
  | Some TRIGGER_DATASAVE => json_to_bin_trigger_datasave d r
  | Some GET_SETTINGS_STS => json_to_bin_get_settings_sts d r
  | Some SHUTDOWN_SERVICE => json_to_bin_shutdown_service d r
  | Some RESET_TASK_STS => json_to_bin_reset_task_sts d r
  | Some GET_READY_STS => json_to_bin_get_ready_sts d r
  | Some GET_DEBUG_LOG => json_to_bin_get_debug_logging d r
  | Some SET_DEBUG_LOG => json_to_bin_set_debug_logging d r
  | Some TRIGGER_FACTORY_STORE => json_to_bin_trigger_factory_store d r
  | Some TRIGGER_FACTORY_RESTORE => json_to_bin_trigger_factory_restore d r
  | Some EVENT_SUBSCRIBE => json_to_bin_event_subscribe d r
  | Some EVENT_UNSUBSCRIBE => json_to_bin_event_unsubscribe d r
  | Some EVENT_NOTIFY => json_to_bin_event_notify d r
  | Some EVENT_PROCESS => json_to_bin_event_process d r
  | Some TRIGGER_RUN => json_to_bin_trigger_run d r
  | Some GET_DEVOP_STATE => json_to_bin_get_devop_state d r
  | Some SET_DEVOP_STATE => json_to_bin_set_devop_state d r
  | Some GET_MW_BYTE => json_to_bin_get_mw_byte d r
  | Some SET_MW_BYTE => json_to_bin_set_mw_byte d r
  | Some GET_MW_WORD => json_to_bin_get_mw_word d r
  | Some SET_MW_WORD => json_to_bin_set_mw_word d r
  | Some GET_MW_DWORD => json_to_bin_get_mw_dword d r
  | Some SET_MW_DWORD => json_to_bin_set_mw_dword d r
  | None => (-1, d, r)
  end.

(** ** The producer: calls of the service's handlers *)

Fixpoint run_handler {R} (m : mgr) (h : handler R) : R * mgr :=
  match h with
  | Done r => (r, m)
  | Push cmd data flag k =>
      (* PushAsyncTask() *)
      let '((ret, id), w) := push_task (AsyncTaskWorker m) (cmd + EJSON_RPCGMGR_CMD_END) data flag in
      run_handler (with_tasks m w) (k (if ret =? 0 then Rpc.IN_PROG else Rpc.FAIL) id)
  end.

(** The attached object a command of a service belongs to. *)
Definition page_handler (m : mgr) (cmd : Z) : option (nat * ADJsonRpcMgrConsumer) :=
  if cmd - EJSON_RPCGMGR_CMD_END >=? get_total_attached_rpcs m then None
  else if cmd - EJSON_RPCGMGR_CMD_END <? 0 then None
  else getRpcHandler m (cmd - EJSON_RPCGMGR_CMD_END).

Definition MapJsonToBinary (m : mgr) (d : comm) (r : request) : Z * comm * request * mgr :=
  match page_handler m (cmd_index d) with
  | None => (-1, d, r, m)
  | Some (k, c) =>
      let '(ret, d', r', s) := svc_MapJsonToBinary k (service m) d r (index c) in (ret, d', r', with_service m s)
  end.
Definition MapBinaryToJson (m : mgr) (d : comm) (r : request) : Z * comm * mgr :=
  match page_handler m (cmd_index d) with
  | None => (-1, d, m)
  | Some (k, c) => let '(ret, d', s) := svc_MapBinaryToJson k (service m) d r (index c) in (ret, d', with_service m s)
  end.
Definition ProcessWork (m : mgr) (d : comm) (r : request) : Z * request * mgr :=
  match page_handler m (cmd_index d) with
  | None => (-1, r, m)
  | Some (k, c) =>
      let '((ret, r', s), m') := run_handler m (svc_ProcessWork k (service m) d r (index c)) in
      (ret, r', with_service m' s)
  end.
Definition AsyncTaskWork (m : mgr) (cmd data : Z) : Z * mgr :=
  match page_handler m cmd with
  | None => (Rpc.FAIL, m)
  | Some (k, c) =>
      let '(ret, s) := svc_ProcessWorkAsync k (service m) (cmd - EJSON_RPCGMGR_CMD_END) data in (ret, with_service m s)
  end.
Definition CmnRpcHandler (m : mgr) (cmd data : Z) : Z * mgr :=
  match getCmnRpcHandler m with
  | None => (Rpc.FEATURE_UNSUPPORTED, m)
  | Some (k, c) => let '(ret, s) := svc_ProcessWorkAsync k (service m) cmd data in (ret, with_service m s)
  end.
Definition ProcessWorkCmnRpc (m : mgr) (d : comm) (r : request) : Z * request * mgr :=
  match getCmnRpcHandler m with
  | None => (-1, r, m)
  | Some (k, c) =>
      let '((ret, r', s), m') := run_handler m (svc_ProcessWork k (service m) d r (cmd_index d)) in
      (ret, r', with_service m' s)
  end.

(** [notify_event_receivers()] and [receive_events()] *)
Definition receive_events (m : mgr) (cltToken evntNum evntArg evntArg2 : Z) : mgr :=
  fold_left (fun m k => with_service m (svc_ReceiveEvent k (service m) cltToken evntNum evntArg evntArg2))
    (eventReceiver m) m.
Definition task_worker_event (m : mgr) (evntNum evntArg evntArg2 : Z) : mgr :=
  with_events m (EvntMgr.notify_event (EventMgr m) evntNum evntArg evntArg2).2.

(** [run_work()], on the worker thread: the command and the address of its packet. *)
Definition run_work (m : mgr) (cmd data : Z) : Z * mgr :=
  if cmd >=? EJSON_RPCGMGR_CMD_END then AsyncTaskWork m cmd data
  else match own_command cmd with
  | Some SHUTDOWN_SERVICE =>
      let m1 := if myTimer m then with_life m (eventReceiver m) (myTimer m) (methods_attached m) (stopped m)
                                    (forced_exits m + 1) else m in
      (Rpc.SUCCESS, delete_work m1 data)
  | Some TRIGGER_DATASAVE => let '(ret, m1) := CmnRpcHandler m cmd data in (ret, delete_work m1 data)
  | Some TRIGGER_FACTORY_STORE => let '(ret, m1) := CmnRpcHandler m cmd data in (ret, delete_work m1 data)
  | Some TRIGGER_FACTORY_RESTORE => let '(ret, m1) := CmnRpcHandler m cmd data in (ret, delete_work m1 data)
  | Some TRIGGER_RUN => let '(ret, m1) := CmnRpcHandler m cmd data in (ret, delete_work m1 data)
  | Some SET_DEVOP_STATE => let '(ret, m1) := CmnRpcHandler m cmd data in (ret, delete_work m1 data)
  | _ => (Rpc.FAIL, m)
  end.

(** ** The work of the manager's own commands *)

(** The [int] a packet begins with, where a cast to another packet finds its own. *)
Definition first_int (p : packet P) : Z :=
  match p with
  | TaskPacket n _ | IntegerPacket n | ReadyPacket n | DebugPacket n | EventPacket n _ _ _ _ _ _ _ _
  | DevopPacket n | MiddlewarePacket n _ _ _ => n
  | SettingsPacket _ | ServicePacket _ => junk
  end.
Definition write_first_int (p : packet P) (n : Z) : packet P :=
  match p with
  | TaskPacket _ s => TaskPacket n s
  | IntegerPacket _ => IntegerPacket n
  | ReadyPacket _ => ReadyPacket n
  | DebugPacket _ => DebugPacket n
  | EventPacket _ a b c d e f g h => EventPacket n a b c d e f g h
  | DevopPacket _ => DevopPacket n
  | MiddlewarePacket _ a b c => MiddlewarePacket n a b c
  | SettingsPacket _ | ServicePacket _ => p
  end.
Definition update_packet (r : request) (f : packet P -> packet P) : request :=
  match rq_dataRef r with Some p => set_packet r (f p) | None => r end.
Definition read_first_int (r : request) : Z := match rq_dataRef r with Some p => first_int p | None => junk end.

(** A packet for the task, [push_task()] with [&pPacket->taskID], and the result. *)
Definition push_own (c : EJSON_RPCGMGR_CMD) (flag : WORK_CMD_AFTER_DONE) (m : mgr) (r : request) : Z * request * mgr :=
  let '(p, m1) := new_work m in
  let '((ret, id), w) := push_task (AsyncTaskWorker m1) (cmd_index_of c) p flag in
  let m2 := with_tasks m1 w in
  let r1 := update_packet r (fun p => write_first_int p id) in
  if ret =? 0 then (0, set_result r1 Rpc.IN_PROG, m2) else (0, set_result r1 Rpc.FAIL, delete_work m2 p).

Definition process_get_task_status (m : mgr) (r : request) : Z * request * mgr :=
  let '((ret, sts), w) := get_task_status (AsyncTaskWorker m) (read_first_int r) in
  let taskSts := if (sts <? 0) || (sts >=? Rpc.NONE) then Rpc.UNKNOWN else sts in
  let name := default EmptyString (rpc_server_result_table !! Z.to_nat taskSts) in
  (0, update_packet (set_result r ret)
        (fun p => match p with TaskPacket id _ => TaskPacket id name | _ => p end), with_tasks m w).
Definition process_rpc_server_version (m : mgr) (r : request) : Z * request * mgr :=
  if rq_action r =? Act.READ
  then (0, set_result (update_packet r (fun p => write_first_int p (svnVersion m))) Rpc.SUCCESS, m)
  else (0, set_result r Rpc.ACTION_NOT_ALLOWED, m).
Definition process_trigger_datasave : mgr -> request -> Z * request * mgr :=
  push_own TRIGGER_DATASAVE WORK_CMD_AFTER_DONE_PRESERVE.
Definition process_get_settings_status (m : mgr) (d : comm) (r : request) : Z * request * mgr := ProcessWorkCmnRpc m d r.
Definition process_shutdown_service (m : mgr) (r : request) : Z * request * mgr :=
  if negb (shutdown_support m) then (0, set_result r Rpc.FEATURE_UNSUPPORTED, m)
  else if rq_action r =? Act.WRITE then push_own SHUTDOWN_SERVICE WORK_CMD_AFTER_DONE_DELETE m r
  else (0, set_result r Rpc.ACTION_NOT_ALLOWED, m).
Definition process_reset_task_sts (m : mgr) (r : request) : Z * request * mgr :=
  let '(ret, w) := reset_task_id_and_chain (AsyncTaskWorker m) in (0, set_result r ret, with_tasks m w).
Definition process_get_ready_status (m : mgr) (r : request) : Z * request * mgr :=
  (0, set_result (update_packet r (fun p => write_first_int p (ServiceReadyFlag m))) Rpc.SUCCESS, m).
Definition process_get_debug_logging (m : mgr) (r : request) : Z * request * mgr :=
  let status := if ServiceDebugFlag m then FLAG_STATE_ENABLE else FLAG_STATE_DISABLE in
  (0, set_result (update_packet r (fun p => write_first_int p status)) Rpc.SUCCESS, m).
Definition process_set_debug_logging (m : mgr) (r : request) : Z * request * mgr :=
  let set flag :=
    (0, set_result r Rpc.SUCCESS,
     setRpcDebugLogFlag (with_flags m (rpclist m) (shutdown_support m) (ServiceReadyFlag m) flag) flag) in
  if read_first_int r =? FLAG_STATE_DISABLE then set false
  else if read_first_int r =? FLAG_STATE_ENABLE then set true
  else (0, set_result r Rpc.ARG_ERROR, m).
Definition process_trigger_factory_store : mgr -> request -> Z * request * mgr :=
  push_own TRIGGER_FACTORY_STORE WORK_CMD_AFTER_DONE_PRESERVE.
Definition process_trigger_factory_restore : mgr -> request -> Z * request * mgr :=
  push_own TRIGGER_FACTORY_RESTORE WORK_CMD_AFTER_DONE_PRESERVE.
Definition process_event_subscribe (m : mgr) (r : request) : Z * request * mgr :=
  match rq_dataRef r with
  | Some (EventPacket cltToken portNum eventNum srvToken sock_descr sock_id ip a1 a2) =>
      let entry := {| EvntMgr.cltToken := cltToken; EvntMgr.portNum := portNum; EvntMgr.eventNum := eventNum;
                      EvntMgr.srvToken := junk; EvntMgr.sock_descr := sock_descr; EvntMgr.sock_id := sock_id;
                      EvntMgr.ip := String.list_ascii_of_string ip; EvntMgr.deleteFlag := false;
                      EvntMgr.failCount := junk; EvntMgr.firstFailMs := junk |} in
      let '((res, token), e) := EvntMgr.register_event_subscription (EventMgr m) entry in
      let r1 := set_packet r (EventPacket cltToken portNum eventNum (default srvToken token) sock_descr sock_id ip a1 a2) in
      (0, set_result r1 (if res =? 0 then Rpc.SUCCESS else if res =? -1 then Rpc.ITEM_DUPLICATE_FOUND else Rpc.FAIL),
       with_events m e)
  | _ => (0, r, m)
  end.
Definition process_event_unsubscribe (m : mgr) (r : request) : Z * request * mgr :=
  match rq_dataRef r with
  | Some (EventPacket _ _ _ srvToken _ _ _ _ _) =>
      let '(res, e) := EvntMgr.unregister_event_subscription (EventMgr m) srvToken in
      (0, set_result r (if res =? 0 then Rpc.SUCCESS else if res =? -1 then Rpc.ITEM_NOT_FOUND else Rpc.FAIL),
       with_events m e)
  | _ => (0, r, m)
  end.
Definition process_event_notify (m : mgr) (r : request) : Z * request * mgr :=
  match rq_dataRef r with
  | Some (EventPacket _ _ eventNum _ _ _ _ eventArg eventArg2) =>
      let '(res, e) := EvntMgr.notify_event (EventMgr m) eventNum eventArg eventArg2 in
      (0, set_result r (if res =? 0 then Rpc.SUCCESS else Rpc.FAIL), with_events m e)
  | _ => (0, r, m)
  end.
Definition process_event_process (m : mgr) (r : request) : Z * request * mgr :=
  match rq_dataRef r with
  | Some (EventPacket cltToken _ eventNum _ _ _ _ eventArg eventArg2) =>
      let e := (EvntMgr.process_event (EventMgr m) eventNum eventArg cltToken eventArg2).2 in
      (0, set_result r Rpc.SUCCESS, with_events m e)
  | _ => (0, r, m)
  end.
Definition process_trigger_run : mgr -> request -> Z * request * mgr :=
  push_own TRIGGER_RUN WORK_CMD_AFTER_DONE_PRESERVE.
Definition process_get_devop_state (m : mgr) (d : comm) (r : request) : Z * request * mgr := ProcessWorkCmnRpc m d r.
(** The packet is a [RPCMGR_DEVOP_STS_PACKET], the pointer one to a task packet. *)
Definition process_set_devop_state : mgr -> request -> Z * request * mgr :=
  push_own SET_DEVOP_STATE WORK_CMD_AFTER_DONE_PRESERVE.
Definition process_get_mw_byte (m : mgr) (d : comm) (r : request) : Z * request * mgr := ProcessWorkCmnRpc m d r.
Definition process_set_mw_byte (m : mgr) (d : comm) (r : request) : Z * request * mgr := ProcessWorkCmnRpc m d r.
Definition process_get_mw_word (m : mgr) (d : comm) (r : request) : Z * request * mgr := ProcessWorkCmnRpc m d r.
Definition process_set_mw_word (m : mgr) (d : comm) (r : request) : Z * request * mgr := ProcessWorkCmnRpc m d r.
Definition process_get_mw_dword (m : mgr) (d : comm) (r : request) : Z * request * mgr := ProcessWorkCmnRpc m d r.
Definition process_set_mw_dword (m : mgr) (d : comm) (r : request) : Z * request * mgr := ProcessWorkCmnRpc m d r.

Definition MyProcessWork (m : mgr) (d : comm) (r : request) : Z * request * mgr :=
  match own_command (cmd_index d) with
  | Some GET_TASK_STS => process_get_task_status m r
  | Some GET_RPC_SRV_VERSION => process_rpc_server_version m r
  | Some TRIGGER_DATASAVE => process_trigger_datasave m r
  | Some GET_SETTINGS_STS => process_get_settings_status m d r
  | Some SHUTDOWN_SERVICE => process_shutdown_service m r
  | Some RESET_TASK_STS => process_reset_task_sts m r
  | Some GET_READY_STS => process_get_ready_status m r
  | Some GET_DEBUG_LOG => process_get_debug_logging m r
  | Some SET_DEBUG_LOG => process_set_debug_logging m r
  | Some TRIGGER_FACTORY_STORE => process_trigger_factory_store m r
  | Some TRIGGER_FACTORY_RESTORE => process_trigger_factory_restore m r
  | Some EVENT_SUBSCRIBE => process_event_subscribe m r
  | Some EVENT_UNSUBSCRIBE => process_event_unsubscribe m r
  | Some EVENT_NOTIFY => process_event_notify m r
  | Some EVENT_PROCESS => process_event_process m r
  | Some TRIGGER_RUN => process_trigger_run m r
  | Some GET_DEVOP_STATE => process_get_devop_state m d r
  | Some SET_DEVOP_STATE => process_set_devop_state m r
  | Some GET_MW_BYTE => process_get_mw_byte m d r
  | Some SET_MW_BYTE => process_set_mw_byte m d r
  | Some GET_MW_WORD => process_get_mw_word m d r
  | Some SET_MW_WORD => process_set_mw_word m d r
  | Some GET_MW_DWORD => process_get_mw_dword m d r
  | Some SET_MW_DWORD => process_set_mw_dword m d r
  | None => (-1, r, m)
  end.

(** ** From packets to JSON *)

(** [sprintf(pReq->custom_result_string, ...)] *)
Definition set_custom (d : comm) (s : string) : comm :=
  {| req_id := req_id d; cmd_index := cmd_index d; mapper_result := mapper_result d; rpc_code := rpc_code d;
     socket_data := socket_data d; json_resp_obj := json_resp_obj d; custom_result_string := s;
     cltport := cltport d; client_ip := client_ip d; sock_id := sock_id d; sock_descr := sock_descr d |}.

(** The macros [PREPARE_JSON_RESP...]; a result below 0 has no name, and is read in
    front of the table of names ([None]). *)
Definition PREPARE_JSON_RESP (d : comm) (r : request) : option comm := prepare_result_string (rq_result r) d.
Definition PREPARE_JSON_RESP_STRING (d : comm) (r : request) (name val : string) : option comm :=
  if negb (rq_result r =? Rpc.SUCCESS) then prepare_result_string (rq_result r) d
  else prepare_result_string_s (rq_result r) (set_custom d val) name val.
Definition PREPARE_JSON_RESP_ENUM (d : comm) (r : request) (name : string) (val : Z) (table : list string) (max : Z)
  : option comm :=
  if negb (rq_result r =? Rpc.SUCCESS) then prepare_result_string (rq_result r) d
  else
    let v := if (val >? max) || (val <? 0) then max else val in
    let text := default EmptyString (table !! Z.to_nat v) in
    prepare_result_string_s (rq_result r) (set_custom d text) name text.
Definition PREPARE_JSON_RESP_INT (d : comm) (r : request) (name : string) (val : Z) : option comm :=
  if (rq_result r =? Rpc.SUCCESS) || (rq_result r =? Rpc.IN_PROG)
  then prepare_result_string_i (rq_result r) (set_custom d (format_d (i32 val))) name (i32 val)
  else prepare_result_string (rq_result r) d.
Definition PREPARE_JSON_RESP_IN_PROG (d : comm) (r : request) (name : string) : option comm :=
  PREPARE_JSON_RESP_INT d r name (read_first_int r).

Definition text_of (r : request) : string :=
  match rq_dataRef r with Some (TaskPacket _ s) => s | Some (SettingsPacket s) => s | _ => junk_text end.

Definition bin_to_json_get_task_sts (d : comm) (r : request) : option comm :=
  PREPARE_JSON_RESP_STRING d r "taskStatus" (text_of r).
Definition bin_to_json_get_rpc_srv_version (d : comm) (r : request) : option comm :=
  PREPARE_JSON_RESP_INT d r "version" (read_first_int r).
Definition bin_to_json_trigger_datasave (d : comm) (r : request) : option comm := PREPARE_JSON_RESP_IN_PROG d r "taskId".
Definition bin_to_json_get_settings_sts (d : comm) (r : request) : option comm :=
  PREPARE_JSON_RESP_STRING d r "status" (text_of r).
Definition bin_to_json_shutdown_service (d : comm) (r : request) : option comm := PREPARE_JSON_RESP_IN_PROG d r "taskId".
Definition bin_to_json_reset_task_sts (d : comm) (r : request) : option comm := PREPARE_JSON_RESP d r.
Definition bin_to_json_get_ready_sts (d : comm) (r : request) : option comm :=
  PREPARE_JSON_RESP_ENUM d r "status" (read_first_int r) RPCMGR_RPC_READY_STS_ARGSTS_TBL READY_STATE_UNKNOWN.
Definition bin_to_json_get_debug_logging (d : comm) (r : request) : option comm :=
  PREPARE_JSON_RESP_ENUM d r "status" (read_first_int r) RPCMGR_RPC_DEBUG_LOG_ARGSTS_TBL FLAG_STATE_UNKNOWN.
Definition bin_to_json_set_debug_logging (d : comm) (r : request) : option comm := PREPARE_JSON_RESP d r.
Definition bin_to_json_trigger_factory_store (d : comm) (r : request) : option comm :=
  PREPARE_JSON_RESP_IN_PROG d r "taskId".
Definition bin_to_json_trigger_factory_restore (d : comm) (r : request) : option comm :=
  PREPARE_JSON_RESP_IN_PROG d r "taskId".
Definition bin_to_json_event_subscribe (d : comm) (r : request) : option comm :=
  PREPARE_JSON_RESP_INT d r "srvToken"
    (match rq_dataRef r with Some (EventPacket _ _ _ t _ _ _ _ _) => t | _ => junk end).
Definition bin_to_json_event_unsubscribe (d : comm) (r : request) : option comm := PREPARE_JSON_RESP d r.
Definition bin_to_json_event_notify (d : comm) (r : request) : option comm := PREPARE_JSON_RESP d r.
Definition bin_to_json_event_process (d : comm) (r : request) : option comm := PREPARE_JSON_RESP d r.
Definition bin_to_json_trigger_run (d : comm) (r : request) : option comm := PREPARE_JSON_RESP_IN_PROG d r "taskId".
Definition bin_to_json_get_devop_state (d : comm) (r : request) : option comm :=
  PREPARE_JSON_RESP_ENUM d r "status" (read_first_int r) RPCMGR_RPC_DEVOP_STATE_ARGSTS_TBL DEVOP_STATE_UNKNOWN.
Definition bin_to_json_set_devop_state (d : comm) (r : request) : option comm := PREPARE_JSON_RESP d r.
Definition bin_to_json_get_mw_byte (d : comm) (r : request) : option comm :=
  PREPARE_JSON_RESP_INT d r "data" (match rq_dataRef r with Some (MiddlewarePacket _ b _ _) => b | _ => junk end).
Definition bin_to_json_set_mw_byte (d : comm) (r : request) : option comm := PREPARE_JSON_RESP d r.
Definition bin_to_json_get_mw_word (d : comm) (r : request) : option comm :=
  PREPARE_JSON_RESP_INT d r "data" (match rq_dataRef r with Some (MiddlewarePacket _ _ w _) => w | _ => junk end).
Definition bin_to_json_set_mw_word (d : comm) (r : request) : option comm := PREPARE_JSON_RESP d r.
Definition bin_to_json_get_mw_dword (d : comm) (r : request) : option comm :=
  PREPARE_JSON_RESP_INT d r "data" (match rq_dataRef r with Some (MiddlewarePacket _ _ _ w) => w | _ => junk end).
Definition bin_to_json_set_mw_dword (d : comm) (r : request) : option comm := PREPARE_JSON_RESP d r.

(** The result, and the response; [None] of an own command as of the macros. *)
Definition MyMapBinaryToJson (d : comm) (r : request) : Z * option comm :=
  match own_command (cmd_index d) with
  | Some GET_TASK_STS => (0, bin_to_json_get_task_sts d r)
  | Some GET_RPC_SRV_VERSION => (0, bin_to_json_get_rpc_srv_version d r)
  | Some TRIGGER_DATASAVE => (0, bin_to_json_trigger_datasave d r)
  | Some GET_SETTINGS_STS => (0, bin_to_json_get_settings_sts d r)
  | Some SHUTDOWN_SERVICE => (0, bin_to_json_shutdown_service d r)
  | Some RESET_TASK_STS => (0, bin_to_json_reset_task_sts d r)
  | Some GET_READY_STS => (0, bin_to_json_get_ready_sts d r)
  | Some GET_DEBUG_LOG => (0, bin_to_json_get_debug_logging d r)
  | Some SET_DEBUG_LOG => (0, bin_to_json_set_debug_logging d r)
  | Some TRIGGER_FACTORY_STORE => (0, bin_to_json_trigger_factory_store d r)
  | Some TRIGGER_FACTORY_RESTORE => (0, bin_to_json_trigger_factory_restore d r)
  | Some EVENT_SUBSCRIBE => (0, bin_to_json_event_subscribe d r)
  | Some EVENT_UNSUBSCRIBE => (0, bin_to_json_event_unsubscribe d r)
  | Some EVENT_NOTIFY => (0, bin_to_json_event_notify d r)
  | Some EVENT_PROCESS => (0, bin_to_json_event_process d r)
  | Some TRIGGER_RUN => (0, bin_to_json_trigger_run d r)
  | Some GET_DEVOP_STATE => (0, bin_to_json_get_devop_state d r)
  | Some SET_DEVOP_STATE => (0, bin_to_json_set_devop_state d r)
  | Some GET_MW_BYTE => (0, bin_to_json_get_mw_byte d r)
  | Some SET_MW_BYTE => (0, bin_to_json_set_mw_byte d r)
  | Some GET_MW_WORD => (0, bin_to_json_get_mw_word d r)
  | Some SET_MW_WORD => (0, bin_to_json_set_mw_word d r)
  | Some GET_MW_DWORD => (0, bin_to_json_get_mw_dword d r)
  | Some SET_MW_DWORD => (0, bin_to_json_set_mw_dword d r)
  | None => (-1, Some d)
  end.

(** ** The mapper's consumer *)

Definition create_req_obj (d : comm) : request := Build_RPC_SRV_REQ junk junk (req_id d) 0 Rpc.NOT_STARTED None.

(** [process_json_to_binary()], [process_work()] and [process_binary_to_json()]. *)
#[export] Instance manager_consumer : Proxy.MapConsumer mgr request J := {
  Proxy.process_json_to_binary m d :=
    let r := create_req_obj d in
    if cmd_index d >=? EJSON_RPCGMGR_CMD_END then MapJsonToBinary m d r
    else let '(ret, d', r') := MyMapJsonToBinary d r in (ret, d', r', m);
  Proxy.process_work m d r :=
    let '(_, r', m') := if cmd_index d >=? EJSON_RPCGMGR_CMD_END then ProcessWork m d r else MyProcessWork m d r in
    (r', m');
  Proxy.process_binary_to_json m d r :=
    if cmd_index d >=? EJSON_RPCGMGR_CMD_END then let '(_, d', m') := MapBinaryToJson m d r in (d', m')
    else (default d (MyMapBinaryToJson d r).2, m);
}.

(** What the mapper does with one request (file Proxy, [mapper_step]): the result of the
    mapping, the request with its response, and the manager. *)
Definition serve (m : mgr) (d : comm) : Z * comm * mgr :=
  let '(ret, d1, r1, m1) := Proxy.process_json_to_binary m d in
  if ret =? 0 then
    let '(r2, m2) := Proxy.process_work m1 d1 r1 in
    let '(d3, m3) := Proxy.process_binary_to_json m2 d1 r2 in (ret, d3, m3)
  else (ret, d1, m1).
End manager.
