(* ===== verification/RpcMgrSpec.v ===== *)
(** * What the manager promises (ADJsonRpcMgr.cpp)

    The model of the manager is file RpcMgr.  This file states what it promises its
    clients and proves it: which parameters the manager's own commands need, what each of
    them answers and changes, which service handler a method reaches, and what becomes of
    the packets of tasks; and, as the code is, which values are lost on the way. *)
From S2P Require Import Prelude Common TaskWorker TaskCalls RpcMgr.
From S2P Require EvntMgr Proxy.
Open Scope Z_scope.

(** ** Which parameters a command needs *)

(** The names of the parameters, with the values admitted where there is a table. *)
Definition required_params (c : EJSON_RPCGMGR_CMD) : list (string * option (list string)) :=
  match c with
  | GET_TASK_STS => [("taskId", None)]
  | SET_DEBUG_LOG => [("status", Some ["disable"; "enable"])]
  | EVENT_SUBSCRIBE => [("cltToken", None)]
  | EVENT_UNSUBSCRIBE => [("srvToken", None)]
  | EVENT_NOTIFY => [("evntNum", None)]
  | EVENT_PROCESS => [("cltToken", None); ("evntNum", None)]
  | SET_DEVOP_STATE => [("status", Some ["idle"; "on"; "laststate"; "off"; "reboot"; "booting"; "rebooting";
                                         "switchingoff"; "boot"; "idlenoexthw"])]
  | GET_MW_BYTE | GET_MW_WORD | GET_MW_DWORD => [("addr", None)]
  | SET_MW_BYTE | SET_MW_WORD | SET_MW_DWORD => [("addr", None); ("data", None)]
  | _ => []
  end%string.

(** The packet each command works on. *)
Definition packet_fits {P} (c : EJSON_RPCGMGR_CMD) (p : packet P) : Prop :=
  match c, p with
  | (GET_TASK_STS | TRIGGER_DATASAVE | SHUTDOWN_SERVICE | RESET_TASK_STS | TRIGGER_FACTORY_STORE
     | TRIGGER_FACTORY_RESTORE | TRIGGER_RUN), TaskPacket _ _
  | GET_RPC_SRV_VERSION, IntegerPacket _
  | GET_SETTINGS_STS, SettingsPacket _
  | GET_READY_STS, ReadyPacket _
  | (GET_DEBUG_LOG | SET_DEBUG_LOG), DebugPacket _
  | (EVENT_SUBSCRIBE | EVENT_UNSUBSCRIBE | EVENT_NOTIFY | EVENT_PROCESS), EventPacket _ _ _ _ _ _ _ _ _
  | (GET_DEVOP_STATE | SET_DEVOP_STATE), DevopPacket _
  | (GET_MW_BYTE | SET_MW_BYTE | GET_MW_WORD | SET_MW_WORD | GET_MW_DWORD | SET_MW_DWORD), MiddlewarePacket _ _ _ _ => True
  | _, _ => False
  end.
(** The commands that only read. *)
Definition reads (c : EJSON_RPCGMGR_CMD) : bool :=
  match c with
  | GET_TASK_STS | GET_RPC_SRV_VERSION | GET_SETTINGS_STS | GET_READY_STS | GET_DEBUG_LOG | GET_DEVOP_STATE
  | GET_MW_BYTE | GET_MW_WORD | GET_MW_DWORD => true
  | _ => false
  end.

Lemma own_command_index (c : EJSON_RPCGMGR_CMD) : own_command (cmd_index_of c) = Some c.
Proof. by destruct c. Qed.
Lemma cmd_index_range (c : EJSON_RPCGMGR_CMD) : 0 <= cmd_index_of c < EJSON_RPCGMGR_CMD_END.
Proof. by destruct c. Qed.

Lemma string_to_enum_from_spec (table : list string) (s : string) (n i : nat) :
  (n <= length table)%nat ->
  exists e, string_to_enum_from table s i n = Some (Z.of_nat e) /\ (e <= i + n)%nat /\
    ((e < i + n)%nat <-> s ∈ take n table).
Proof.
  revert table i. induction n as [|n IH]; intros [|t r] i Hn; simpl in *; try lia.
  - exists i. split_and!; [done|lia|]. split; [lia|]. by intros ?%elem_of_nil.
  - exists i. split_and!; [done|lia|]. split; [lia|]. by intros ?%elem_of_nil.
  - destruct (String.eqb_spec t s) as [->|Hne].
    + exists i. split_and!; [done|lia|]. split; [set_solver|lia].
    + destruct (IH r (S i) ltac:(lia)) as (e & E & He & Hin). exists e. split_and!; [done|lia|].
      rewrite elem_of_cons. split; intros Hx; [right; apply Hin; lia|]. destruct Hx as [->|Hx]; [done|].
      apply Hin in Hx. lia.
Qed.

Section checked.
Context {W S P J D : Type} `{JsonC J D} `{TaskService W} `{RpcService S P J}.
Variable (junk : Z) (junk_text : string).

(** A parameter is there, and has one of the values admitted. *)
Definition param_ok (text : string) (x : string * option (list string)) : bool :=
  match param_value text x.1 with
  | None => false
  | Some v => match x.2 with None => true | Some l => bool_decide (v ∈ l) end
  end.

Lemma with_int_spec (d : JsonDataCommObj J) (r : RPC_SRV_REQ P) name k :
  with_int d r name k = match param_value (socket_data d) name with Some v => k (atoi v) | None => invalid_param d r end.
Proof. unfold with_int, JSON_STRING_TO_INT. by destruct (param_value _ _). Qed.
Lemma optional_int_spec (d : JsonDataCommObj J) (r : RPC_SRV_REQ P) name k :
  optional_int d r name k = match param_value (socket_data d) name with Some v => k (atoi v) | None => k (-1) end.
Proof.
  unfold optional_int. rewrite with_int_spec. unfold param_value, find_single_param. simpl.
  destruct (json_tokener_parse _) as [o|]; simpl; [|done].
  destruct (string_opt (json_object_object_get o "params")); simpl; [|done].
  by destruct (string_opt _).
Qed.
Lemma with_ulong_spec (d : JsonDataCommObj J) (r : RPC_SRV_REQ P) name old k :
  with_ulong d r name old k =
    match param_value (socket_data d) name with Some v => k (scan_lu v old) | None => invalid_param d r end.
Proof. unfold with_ulong, JSON_STRING_TO_ULONG. by destruct (param_value _ _). Qed.
Lemma with_enum_spec (d : JsonDataCommObj J) (r : RPC_SRV_REQ P) name table (max : nat) k :
  (max <= length table)%nat ->
  with_enum d r name table (Z.of_nat max) k =
    if param_ok (socket_data d) (name, Some (take max table))
    then k (default 0 (JSON_STRING_TO_ENUM (socket_data d) name table (Z.of_nat max))) else invalid_param d r.
Proof.
  intros Hl. unfold with_enum, JSON_STRING_TO_ENUM, param_ok. simpl. destruct (param_value _ _) as [v|]; simpl; [|done].
  unfold string_to_enum. rewrite Nat2Z.id. destruct (string_to_enum_from_spec table v max 0 Hl) as (e & -> & He & Hin).
  simpl. destruct (Z.geb_spec (Z.of_nat e) (Z.of_nat max)).
  - rewrite bool_decide_eq_false_2; [done|]. rewrite <- Hin. lia.
  - rewrite bool_decide_eq_true_2; [done|]. apply Hin. lia.
Qed.

(** A request for one of the manager's commands is accepted exactly when the
    parameters the command needs are there, and have a value of the table where there is
    one; it is then turned into the packet of the command, with nothing of the request
    changed, and the action is to read or to write as the command does.  Otherwise the
    request fails with [CMD_TASK_RESULT_INVALID_PARAM].  The manager stays as it is. *)
Theorem own_request_checked (m : ADJsonRpcMgr W S) (d : JsonDataCommObj J) (c : EJSON_RPCGMGR_CMD) :
  cmd_index d = cmd_index_of c ->
  let '(ret, d', r, m') := Proxy.process_json_to_binary (MapConsumer := manager_consumer (D := D) junk junk_text) m d in
  m' = m /\
  if forallb (param_ok (socket_data d)) (required_params c)
  then ret = 0 /\ d' = d /\ (exists p, rq_dataRef r = Some p /\ packet_fits (P := P) c p) /\
       rq_action r = (if reads c then Act.READ else Act.WRITE) /\ rq_cmd r = cmd_index_of c /\
       rq_result r = Rpc.NOT_STARTED
  else ret <> 0 /\ d' = set_mapper_result d Task.INVALID_PARAM.
Proof.
  intros Ec. pose proof (cmd_index_range c) as Hr. simpl. rewrite Ec. destruct (Z.geb_spec (cmd_index_of c) EJSON_RPCGMGR_CMD_END); [lia|].
  unfold MyMapJsonToBinary. rewrite Ec, own_command_index. clear Hr.
  assert (forall v, param_ok (socket_data d) (v, None) = match param_value (socket_data d) v with Some _ => true | None => false end)
    as Hnone by (intros v; unfold param_ok; simpl; by destruct (param_value _ _)).
  unfold json_to_bin_get_task_sts, json_to_bin_set_debug_logging, json_to_bin_set_devop_state, json_to_bin_event_subscribe,
    json_to_bin_event_unsubscribe, json_to_bin_event_notify, json_to_bin_event_process, json_to_bin_get_mw_byte,
    json_to_bin_set_mw_byte, json_to_bin_get_mw_word, json_to_bin_set_mw_word, json_to_bin_get_mw_dword, json_to_bin_set_mw_dword.
  change FLAG_STATE_UNKNOWN with (Z.of_nat 2). change DEVOP_STATE_UNKNOWN with (Z.of_nat 10).
  destruct c; simpl required_params; cbn [forallb]; rewrite ?Hnone;
    rewrite ?with_int_spec, ?with_ulong_spec, ?with_enum_spec by (vm_compute; lia).
  all: repeat (rewrite ?with_int_spec, ?optional_int_spec, ?with_ulong_spec;
    match goal with |- context [param_value ?x ?y] => destruct (param_value x y) end).
  all: cbn [take RPCMGR_RPC_DEBUG_LOG_ARGSTS_TBL RPCMGR_RPC_DEVOP_STATE_ARGSTS_TBL].
  all: try match goal with |- context [param_ok ?x (?y, Some ?l)] => destruct (param_ok x (y, Some l)) end.
  all: cbn; split_and!; try done; by eexists.
Qed.
End checked.

(** ** What the commands answer *)

(** The values a request gives for its parameters. *)
Section answers.
Context {W S P J D : Type} `{JsonCLaws J D} `{TaskService W} `{RpcService S P J}.
Variable (junk : Z) (junk_text : string).
Implicit Types (m : ADJsonRpcMgr W S) (d : JsonDataCommObj J) (r : RPC_SRV_REQ P).

Definition int_param d (name : string) : Z := match param_value (socket_data d) name with Some v => atoi v | None => -1 end.

(** The entry a subscription asks for. *)
Definition wanted d : EvntMgr.EventEntry :=
  {| EvntMgr.cltToken := int_param d "cltToken"; EvntMgr.portNum := int_param d "port";
     EvntMgr.eventNum := int_param d "evntNum"; EvntMgr.srvToken := 0; EvntMgr.sock_descr := sock_descr d;
     EvntMgr.sock_id := sock_id d; EvntMgr.ip := String.list_ascii_of_string (client_ip d);
     EvntMgr.deleteFlag := false; EvntMgr.failCount := 0; EvntMgr.firstFailMs := 0 |}.

(** The commands that push a task, and those left to the service's common handler. *)
Definition pushes (c : EJSON_RPCGMGR_CMD) : option WORK_CMD_AFTER_DONE :=
  match c with
  | TRIGGER_DATASAVE | TRIGGER_FACTORY_STORE | TRIGGER_FACTORY_RESTORE | TRIGGER_RUN | SET_DEVOP_STATE =>
      Some WORK_CMD_AFTER_DONE_PRESERVE
  | SHUTDOWN_SERVICE => Some WORK_CMD_AFTER_DONE_DELETE
  | _ => None
  end.
Definition delegated (c : EJSON_RPCGMGR_CMD) : bool :=
  match c with
  | GET_SETTINGS_STS | GET_DEVOP_STATE | GET_MW_BYTE | SET_MW_BYTE | GET_MW_WORD | SET_MW_WORD | GET_MW_DWORD
  | SET_MW_DWORD => true
  | _ => false
  end.

Definition pushed m (c : EJSON_RPCGMGR_CMD) (flag : WORK_CMD_AFTER_DONE) : (Z * Z) * W :=
  push_task (AsyncTaskWorker m) (cmd_index_of c) (next_address m) flag.
Definition push_answer m (c : EJSON_RPCGMGR_CMD) (flag : WORK_CMD_AFTER_DONE) : Z * list (string * string) :=
  let '((ret, id), _) := pushed m c flag in
  if ret =? 0 then (Rpc.IN_PROG, [("taskId"%string, format_d (i32 id))]) else (Rpc.FAIL, []).
Definition status_name (sts : Z) : string :=
  default "Unknown"%string (if (0 <=? sts) && (sts <? Rpc.NONE) then rpc_server_result_table !! Z.to_nat sts else None).
Definition name_in (table : list string) (n : Z) : string :=
  default "unknown"%string (if 0 <=? n then table !! Z.to_nat n else None).

(** The result code and the values each command promises. *)
Definition promised m d (c : EJSON_RPCGMGR_CMD) : Z * list (string * string) :=
  match c with
  | GET_TASK_STS =>
      (Rpc.SUCCESS, [("taskStatus", status_name (get_task_status (AsyncTaskWorker m) (int_param d "taskId")).1.2)])
  | GET_RPC_SRV_VERSION => (Rpc.SUCCESS, [("version", format_d (i32 (svnVersion m)))])
  | TRIGGER_DATASAVE | TRIGGER_FACTORY_STORE | TRIGGER_FACTORY_RESTORE | TRIGGER_RUN =>
      push_answer m c WORK_CMD_AFTER_DONE_PRESERVE
  | SHUTDOWN_SERVICE =>
      if shutdown_support m then push_answer m c WORK_CMD_AFTER_DONE_DELETE else (Rpc.FEATURE_UNSUPPORTED, [])
  | RESET_TASK_STS => ((reset_task_id_and_chain (AsyncTaskWorker m)).1, [])
  | GET_READY_STS => (Rpc.SUCCESS, [("status", name_in ["notready"; "ready"; "busy"] (ServiceReadyFlag m))])
  | GET_DEBUG_LOG => (Rpc.SUCCESS, [("status", if ServiceDebugFlag m then "enable" else "disable")])
  | EVENT_SUBSCRIBE =>
      match find_first (EvntMgr.FindDuplicateEntry (wanted d)) (EvntMgr.eventList (EventMgr m)) with
      | Some _ => (Rpc.ITEM_DUPLICATE_FOUND, [])
      | None => (Rpc.SUCCESS, [("srvToken", format_d (i32 (EvntMgr.AckToken (EventMgr m) + 1)))])
      end
  | EVENT_UNSUBSCRIBE =>
      (if existsb (EvntMgr.FindEventEntry (int_param d "srvToken")) (EvntMgr.eventList (EventMgr m))
       then Rpc.SUCCESS else Rpc.ITEM_NOT_FOUND, [])
  | SET_DEVOP_STATE => ((push_answer m c WORK_CMD_AFTER_DONE_PRESERVE).1, [])
  | _ => (Rpc.SUCCESS, [])
  end%string.

(** What becomes of the manager. *)
Definition effect m d (c : EJSON_RPCGMGR_CMD) m' : Prop :=
  match c with
  | GET_TASK_STS => m' = with_tasks m (get_task_status (AsyncTaskWorker m) (int_param d "taskId")).2
  | RESET_TASK_STS => m' = with_tasks m (reset_task_id_and_chain (AsyncTaskWorker m)).2
  | SET_DEBUG_LOG =>
      exists flag : bool, param_value (socket_data d) "status" = Some (if flag then "enable" else "disable")%string /\
        ServiceDebugFlag m' = flag /\ rpclist m' = map (set_logmsg flag) (rpclist m) /\
        Forall (fun c => logmsg c = flag) (rpclist m') /\ AsyncTaskWorker m' = AsyncTaskWorker m /\ EventMgr m' = EventMgr m
  | EVENT_SUBSCRIBE => m' = with_events m (EvntMgr.register_event_subscription (EventMgr m) (wanted d)).2
  | EVENT_UNSUBSCRIBE =>
      m' = with_events m (EvntMgr.unregister_event_subscription (EventMgr m) (int_param d "srvToken")).2
  | EVENT_NOTIFY =>
      m' = with_events m (EvntMgr.notify_event (EventMgr m) (int_param d "evntNum") (int_param d "evntArg1")
                            (int_param d "evntArg2")).2
  | EVENT_PROCESS =>
      m' = with_events m (EvntMgr.process_event (EventMgr m) (int_param d "evntNum") (int_param d "evntArg1")
                            (int_param d "cltToken") (int_param d "evntArg2")).2
  | _ =>
      match pushes c with
      | Some flag =>
          if negb (shutdown_support m) && bool_decide (c = SHUTDOWN_SERVICE) then m' = m
          else AsyncTaskWorker m' = (pushed m c flag).2 /\ EventMgr m' = EventMgr m /\ rpclist m' = rpclist m /\
               next_address m' = next_address m + 1 /\
               (next_address m ∈ work_data m' <-> (pushed m c flag).1.1 = 0)
      | None => m' = m
      end
  end.

(** A response with a result code, its name, and these values. *)
Definition responds d (code : Z) (fields : list (string * string)) : Prop :=
  exists o name, json_resp_obj d = Some o /\ rpc_code d = code /\ convert_server_result_to_string code = Some name /\
    string_opt (json_object_object_get o RPC_NAME_ARG_RESULT_PARAM) = Some name /\
    forall k v, (k, v) ∈ fields -> string_opt (json_object_object_get o k) = Some v.

Lemma prepare_responds (code : Z) d (fields : list (string * J)) (texts : list (string * string)) :
  0 <= code -> NoDup (RPC_NAME_ARG_RESULT_PARAM :: fields.*1) ->
  (forall k v, (k, v) ∈ texts -> exists j, (k, j) ∈ fields /\ json_object_get_string j = Some v) ->
  exists d', prepare code d fields = Some d' /\ responds d' code texts.
Proof.
  intros Hc Hnd Ht. destruct (prepare_fields code d fields Hc Hnd) as (d' & o & name & E & Eo & Er & _ & _ & En & Hn & Hf).
  exists d'. split; [done|]. exists o, name. split_and!; try done. intros k v Hkv.
  destruct (Ht k v Hkv) as (j & Hj & Hs). by rewrite (Hf k j Hj).
Qed.

Lemma resp_plain d r : 0 <= rq_result r -> exists d', PREPARE_JSON_RESP d r = Some d' /\ responds d' (rq_result r) [].
Proof.
  intros Hr. apply prepare_responds; [done|apply NoDup_singleton|]. by intros k v ?%elem_of_nil.
Qed.
Lemma resp_one (code : Z) d name (j : J) (v : string) :
  0 <= code -> name <> RPC_NAME_ARG_RESULT_PARAM -> json_object_get_string j = Some v ->
  exists d', prepare code d [(name, j)] = Some d' /\ responds d' code [(name, v)].
Proof.
  intros Hc Hn Hj. apply prepare_responds; [done| |].
  - csimpl. apply NoDup_cons. split; [set_solver|apply NoDup_singleton].
  - intros k w [=-> ->]%list_elem_of_singleton. exists j. split; [set_solver|done].
Qed.
Lemma resp_int d r name (v : Z) :
  0 <= rq_result r -> name <> RPC_NAME_ARG_RESULT_PARAM ->
  exists d', PREPARE_JSON_RESP_INT d r name v = Some d' /\
    responds d' (rq_result r)
      (if (rq_result r =? Rpc.SUCCESS) || (rq_result r =? Rpc.IN_PROG) then [(name, format_d (i32 v))] else []).
Proof.
  intros Hr Hn. unfold PREPARE_JSON_RESP_INT. destruct (_ || _); [|by apply resp_plain].
  apply resp_one; [done|done|apply string_of_int].
Qed.
Lemma resp_string d r name (v : string) :
  0 <= rq_result r -> name <> RPC_NAME_ARG_RESULT_PARAM ->
  exists d', PREPARE_JSON_RESP_STRING d r name v = Some d' /\
    responds d' (rq_result r) (if rq_result r =? Rpc.SUCCESS then [(name, v)] else []).
Proof.
  intros Hr Hn. unfold PREPARE_JSON_RESP_STRING. destruct (_ =? _); [|by apply resp_plain].
  apply resp_one; [done|done|apply string_of_string].
Qed.
Lemma resp_enum d r name (v : Z) (table : list string) (max : Z) :
  0 <= rq_result r -> name <> RPC_NAME_ARG_RESULT_PARAM ->
  exists d', PREPARE_JSON_RESP_ENUM d r name v table max = Some d' /\
    responds d' (rq_result r)
      (if rq_result r =? Rpc.SUCCESS
       then [(name, default EmptyString (table !! Z.to_nat (if (v >? max) || (v <? 0) then max else v)))] else []).
Proof.
  intros Hr Hn. unfold PREPARE_JSON_RESP_ENUM. destruct (_ =? _); [|by apply resp_plain].
  apply resp_one; [done|done|apply string_of_string].
Qed.

Lemma status_name_spec (sts : Z) :
  default EmptyString (rpc_server_result_table !! Z.to_nat (if (sts <? 0) || (sts >=? Rpc.NONE) then Rpc.UNKNOWN else sts)) =
  status_name sts.
Proof.
  unfold status_name. destruct (Z.ltb_spec sts 0), (Z.geb_spec sts Rpc.NONE), (Z.leb_spec 0 sts), (Z.ltb_spec sts Rpc.NONE);
    try lia; try done. simpl.
  destruct (rpc_server_result_table !! Z.to_nat sts) eqn:E; [done|]. apply lookup_ge_None in E. unfold Rpc.NONE in *.
  simpl in E. lia.
Qed.

Lemma name_in_spec (l : list string) (rest : list string) (v : Z) :
  default EmptyString ((l ++ "unknown"%string :: rest) !!
    Z.to_nat (if (v >? Z.of_nat (length l)) || (v <? 0) then Z.of_nat (length l) else v)) = name_in l v.
Proof.
  unfold name_in. destruct (Z.gtb_spec v (Z.of_nat (length l))), (Z.ltb_spec v 0), (Z.leb_spec 0 v); simpl; try lia.
  1, 2: rewrite Nat2Z.id, lookup_app_r, Nat.sub_diag by lia; simpl; try done; by rewrite (lookup_ge_None_2 l) by lia.
  destruct (decide (v = Z.of_nat (length l))) as [->|].
  - rewrite Nat2Z.id, lookup_app_r, Nat.sub_diag by lia. by rewrite (lookup_ge_None_2 l) by lia.
  - rewrite lookup_app_l by lia. destruct (lookup_lt_is_Some_2 l (Z.to_nat v)) as [x ->]; [lia|done].
Qed.

(** One of the manager's commands, mapped to a packet, done and mapped back. *)
Lemma serve_own m d c r r2 m2 ret :
  cmd_index d = cmd_index_of c -> MyMapJsonToBinary junk junk_text d (create_req_obj junk d) = (0, d, r) ->
  MyProcessWork junk m d r = (ret, r2, m2) ->
  serve (P := P) (D := D) junk junk_text m d = (0, default d (MyMapBinaryToJson junk junk_text d r2).2, m2).
Proof.
  intros Ec E1 E2. pose proof (cmd_index_range c). unfold serve. simpl. rewrite Ec.
  destruct (Z.geb_spec (cmd_index_of c) EJSON_RPCGMGR_CMD_END); [lia|]. rewrite E1. simpl. rewrite Ec.
  destruct (Z.geb_spec (cmd_index_of c) EJSON_RPCGMGR_CMD_END); [lia|]. by rewrite E2.
Qed.

(** A task is pushed: the result, the identifier in the packet, the manager. *)
Lemma push_own_spec c flag m r p :
  rq_dataRef r = Some p ->
  exists r2 m2, push_own c flag m r = (0, r2, m2) /\ rq_result r2 = (push_answer m c flag).1 /\
    rq_dataRef r2 = Some (write_first_int p (pushed m c flag).1.2) /\
    AsyncTaskWorker m2 = (pushed m c flag).2 /\ EventMgr m2 = EventMgr m /\ rpclist m2 = rpclist m /\
    next_address m2 = next_address m + 1 /\ (next_address m ∈ work_data m2 <-> (pushed m c flag).1.1 = 0).
Proof.
  intros Hp. unfold push_own, push_answer, pushed, update_packet. simpl.
  destruct (push_task (AsyncTaskWorker m) (cmd_index_of c) (next_address m) flag) as [[ret id] w]. simpl. rewrite Hp.
  destruct (Z.eqb_spec ret 0); eexists _, _; (split; [reflexivity|]); simpl; split_and!; try done.
  - split; [done|set_solver].
  - split; [|done]. intros Hin%list_elem_of_In. rewrite Z.eqb_refl in Hin. simpl in Hin.
    apply filter_In in Hin as [_ Hn]. by rewrite Z.eqb_refl in Hn.
Qed.

(** A request that keeps the promise of its command. *)
Definition keeps_promise m d (c : EJSON_RPCGMGR_CMD) : Prop :=
  let '(ret, d', m') := serve (P := P) (D := D) junk junk_text m d in
  ret = 0 /\ responds d' (promised m d c).1 (promised m d c).2 /\ effect m d c m'.

(** The three parts of the proof that one does. *)
Lemma keeps_promise_intro m d c r r2 m2 :
  cmd_index d = cmd_index_of c ->
  MyMapJsonToBinary junk junk_text d (create_req_obj junk d) = (0, d, r) ->
  MyProcessWork junk m d r = (0, r2, m2) ->
  (exists d', (MyMapBinaryToJson junk junk_text d r2).2 = Some d' /\ responds d' (promised m d c).1 (promised m d c).2) ->
  effect m d c m2 -> keeps_promise m d c.
Proof.
  intros Ec E1 E2 (d' & E3 & Hr) He. unfold keeps_promise. rewrite (serve_own m d c r r2 m2 0 Ec E1 E2), E3. by split_and!.
Qed.

(** The tables of the commands at a request for [c]. *)
Ltac own_tables Ec := unfold MyMapJsonToBinary, MyProcessWork, MyMapBinaryToJson; rewrite Ec, own_command_index.

Lemma push_promised m d c flag :
  pushes c = Some flag -> c <> SET_DEVOP_STATE -> (c = SHUTDOWN_SERVICE -> shutdown_support m = true) ->
  promised m d c = push_answer m c flag.
Proof.
  intros Hc Hne Hs. destruct c; try done; injection Hc as <-; try reflexivity. simpl. by rewrite Hs.
Qed.

Lemma push_first c flag (p : packet P) n :
  pushes c = Some flag -> packet_fits c p -> first_int junk (write_first_int p n) = n.
Proof. destruct c, p; done. Qed.

Lemma push_fields m c flag :
  (if ((push_answer m c flag).1 =? Rpc.SUCCESS) || ((push_answer m c flag).1 =? Rpc.IN_PROG)
   then [("taskId"%string, format_d (i32 (pushed m c flag).1.2))] else []) = (push_answer m c flag).2.
Proof. unfold push_answer. destruct (pushed m c flag) as [[ret id] w]; simpl. by destruct (ret =? 0). Qed.

Lemma push_response d r c flag :
  pushes c = Some flag -> cmd_index d = cmd_index_of c ->
  (MyMapBinaryToJson junk junk_text d r).2 =
    if decide (c = SET_DEVOP_STATE) then PREPARE_JSON_RESP d r else PREPARE_JSON_RESP_IN_PROG junk d r "taskId".
Proof. intros Hc Ec. own_tables Ec. destruct c; first [discriminate Hc|reflexivity]. Qed.

Lemma push_promise m d c flag :
  pushes c = Some flag -> cmd_index d = cmd_index_of c ->
  forallb (param_ok (D := D) (socket_data d)) (required_params c) = true -> keeps_promise m d c.
Proof.
  intros Hc Ec Hp.
  assert (exists r p, MyMapJsonToBinary junk junk_text d (create_req_obj junk d) = (0, d, r) /\ rq_dataRef r = Some p /\
    packet_fits (P := P) c p /\ rq_action r = Act.WRITE) as (r & p & E1 & Ep & Hf & Ha).
  { own_tables Ec. destruct c; try done; try (eexists _, _; split_and!; try reflexivity; done).
    unfold json_to_bin_set_devop_state. change DEVOP_STATE_UNKNOWN with (Z.of_nat 10).
    rewrite with_enum_spec by (vm_compute; lia). cbn [required_params forallb] in Hp. apply andb_true_iff in Hp as [Hp _].
    cbn [take RPCMGR_RPC_DEVOP_STATE_ARGSTS_TBL]. rewrite Hp. eexists _, _. split_and!; try reflexivity; done. }
  destruct (push_own_spec c flag m r p Ep) as (r2 & m2 & E2 & Er & Ep2 & Hm).
  assert (0 <= rq_result r2) as Hcode.
  { rewrite Er. unfold push_answer. destruct (pushed m c flag) as [[ret id] w]. by destruct (ret =? 0). }
  destruct (decide (c = SHUTDOWN_SERVICE /\ shutdown_support m = false)) as [[-> Hs]|Hs].
  - eapply keeps_promise_intro; [done|exact E1| | |].
    + own_tables Ec. unfold process_shutdown_service. by rewrite Hs.
    + own_tables Ec. unfold promised. rewrite Hs.
      destruct (resp_int d (set_result r Rpc.FEATURE_UNSUPPORTED) "taskId" (read_first_int junk r)) as (d' & E & Hr); [done|done|].
      exists d'. split; [exact E|exact Hr].
    + unfold effect. simpl. by rewrite Hs.
  - assert (c = SHUTDOWN_SERVICE -> shutdown_support m = true) as Hs' by (intros ->; destruct (shutdown_support m); [done|by destruct Hs]).
    eapply (keeps_promise_intro m d c r r2 m2); [done|done| | |].
    + own_tables Ec. destruct c; try discriminate Hc; injection Hc as <-; try exact E2.
      unfold process_shutdown_service. by rewrite Hs', Ha.
    + rewrite (push_response d r2 c flag Hc Ec).
      destruct (resp_int d r2 "taskId" (read_first_int junk r2)) as (d' & E & Hr); [done|done|].
      destruct (resp_plain d r2) as (d2 & E' & Hr'); [done|].
      unfold read_first_int in Hr. rewrite Er, Ep2 in Hr. rewrite Er in Hr'.
      destruct (decide (c = SET_DEVOP_STATE)) as [->|Hne].
      * exists d2. split; [done|]. injection Hc as <-. exact Hr'.
      * rewrite (push_promised m d c flag Hc Hne Hs'). exists d'. split; [exact E|].
        rewrite (push_first c flag p _ Hc Hf), push_fields in Hr. exact Hr.
    + unfold effect. rewrite Hc.
      assert (negb (shutdown_support m) && bool_decide (c = SHUTDOWN_SERVICE) = false)%bool as ->.
      { destruct (decide (c = SHUTDOWN_SERVICE)) as [->|]; [by rewrite Hs'|].
        rewrite bool_decide_eq_false_2 by done. apply andb_false_r. }
      destruct c; first [discriminate Hc|exact Hm].
Qed.

(** The commands that read the state of the service, or set it. *)
Lemma state_promise m d c :
  c ∈ [GET_RPC_SRV_VERSION; GET_READY_STS; GET_DEBUG_LOG] -> cmd_index d = cmd_index_of c -> keeps_promise m d c.
Proof.
  intros Hc Ec. rewrite !elem_of_cons in Hc. destruct Hc as [-> | [-> | [-> | []%elem_of_nil]]];
    (eapply keeps_promise_intro; [done|by own_tables Ec|by own_tables Ec| |done]); own_tables Ec.
  - cbn [snd]. unfold bin_to_json_get_rpc_srv_version. by apply (resp_int d (set_result _ Rpc.SUCCESS) "version").
  - destruct (resp_enum d (set_result (update_packet (PREPARE_JSON_REQUEST (create_req_obj junk d) (ReadyPacket (P := P) junk) Act.READ GET_READY_STS)
      (fun p => write_first_int p (ServiceReadyFlag m))) Rpc.SUCCESS) "status" (ServiceReadyFlag m)
      RPCMGR_RPC_READY_STS_ARGSTS_TBL READY_STATE_UNKNOWN) as (d' & E & Hr); [done|done|].
    exists d'. split; [exact E|]. cbn [rq_result set_result Rpc.SUCCESS Z.eqb] in Hr.
    rewrite (name_in_spec ["notready"; "ready"; "busy"]%string ["none"]%string) in Hr. exact Hr.
  - destruct (ServiceDebugFlag m) eqn:Ef.
    + destruct (resp_one Rpc.SUCCESS (set_custom d "enable") "status" (json_object_new_string "enable") "enable")
        as (d' & E & Hr); [done|done|apply string_of_string|].
      exists d'. split; [exact E|]. simpl. rewrite Ef. exact Hr.
    + destruct (resp_one Rpc.SUCCESS (set_custom d "disable") "status" (json_object_new_string "disable") "disable")
        as (d' & E & Hr); [done|done|apply string_of_string|].
      exists d'. split; [exact E|]. simpl. rewrite Ef. exact Hr.
Qed.

Lemma set_debug_promise m d :
  cmd_index d = cmd_index_of SET_DEBUG_LOG ->
  forallb (param_ok (D := D) (socket_data d)) (required_params SET_DEBUG_LOG) = true -> keeps_promise m d SET_DEBUG_LOG.
Proof.
  intros Ec Hp. cbn [required_params forallb] in Hp. apply andb_true_iff in Hp as [Hp _]. unfold param_ok in Hp. simpl in Hp.
  destruct (param_value (socket_data d) "status") as [v|] eqn:Ev; [|done].
  apply bool_decide_eq_true in Hp. rewrite !elem_of_cons in Hp.
  assert (exists flag : bool, v = (if flag then "enable" else "disable")%string) as [flag ->].
  { destruct Hp as [-> | [-> | []%elem_of_nil]]; [by exists false|by exists true]. }
  set (r := set_packet (PREPARE_JSON_REQUEST (create_req_obj junk d) (DebugPacket (P := P) junk) Act.WRITE SET_DEBUG_LOG)
    (DebugPacket (if flag then FLAG_STATE_ENABLE else FLAG_STATE_DISABLE))).
  eapply (keeps_promise_intro m d SET_DEBUG_LOG r (set_result r Rpc.SUCCESS)
    (setRpcDebugLogFlag (with_flags m (rpclist m) (shutdown_support m) (ServiceReadyFlag m) flag) flag)); [done| | | |].
  - own_tables Ec. unfold json_to_bin_set_debug_logging, with_enum, JSON_STRING_TO_ENUM. rewrite Ev. by destruct flag.
  - own_tables Ec. unfold process_set_debug_logging. subst r. by destruct flag.
  - own_tables Ec. by apply resp_plain.
  - exists flag. destruct flag; simpl; split_and!; try done; apply Forall_forall; intros x Hx%list_elem_of_In%in_map_iff;
      by destruct Hx as (y & <- & _).
Qed.

(** The commands about tasks. *)
Lemma task_promise `{!TaskServiceLaws W} m d c :
  c ∈ [GET_TASK_STS; RESET_TASK_STS] -> task_ok (AsyncTaskWorker m) -> cmd_index d = cmd_index_of c ->
  forallb (param_ok (D := D) (socket_data d)) (required_params c) = true -> keeps_promise m d c.
Proof.
  intros Hc Hw Ec Hp. rewrite !elem_of_cons in Hc. destruct Hc as [-> | [-> | []%elem_of_nil]].
  - cbn [required_params forallb] in Hp. apply andb_true_iff in Hp as [Hp _]. unfold param_ok in Hp. simpl in Hp.
    destruct (param_value (socket_data d) "taskId") as [v|] eqn:Ev; [|done].
    assert (int_param d "taskId" = atoi v) as Ei by (unfold int_param; by rewrite Ev).
    destruct (get_task_status_ok (AsyncTaskWorker m) (atoi v) Hw) as [_ Hret].
    destruct (get_task_status (AsyncTaskWorker m) (atoi v)) as [[ret sts] w] eqn:Eg. simpl in Hret. subst ret.
    eapply (keeps_promise_intro m d GET_TASK_STS
      (set_packet (PREPARE_JSON_REQUEST (create_req_obj junk d) (new_task_packet (P := P) junk junk_text) Act.READ GET_TASK_STS)
         (TaskPacket (atoi v) junk_text))); [done| | | |].
    + own_tables Ec. unfold json_to_bin_get_task_sts. by rewrite with_int_spec, Ev.
    + own_tables Ec. unfold process_get_task_status, read_first_int. cbn [rq_dataRef set_packet first_int]. rewrite Eg. reflexivity.
    + own_tables Ec. unfold promised. rewrite Ei, Eg. cbn [fst snd]. rewrite <- status_name_spec.
      match goal with |- context [bin_to_json_get_task_sts _ d ?r] =>
        destruct (resp_string d r "taskStatus" (text_of junk_text r)) as (d' & E & Hr); [done|done|] end.
      exists d'. split; [exact E|exact Hr].
    + simpl. by rewrite Ei, Eg.
  - destruct (reset_ok (AsyncTaskWorker m) Hw) as [_ Hret].
    destruct (reset_task_id_and_chain (AsyncTaskWorker m)) as [ret w] eqn:Eg. simpl in Hret.
    eapply (keeps_promise_intro m d RESET_TASK_STS); [done|by own_tables Ec| | |].
    + own_tables Ec. unfold process_reset_task_sts. rewrite Eg. reflexivity.
    + own_tables Ec. unfold promised. rewrite Eg. apply resp_plain. simpl. by destruct Hret as [-> | ->].
    + simpl. by rewrite Eg.
Qed.

Lemma optional_int_param d r name k : optional_int d r name k = k (int_param d name).
Proof. rewrite optional_int_spec. unfold int_param. by destruct (param_value _ _). Qed.
Lemma with_int_param d r name k :
  param_ok (D := D) (socket_data d) (name, None) = true -> with_int d r name k = k (int_param d name).
Proof. intros Hp. rewrite with_int_spec. unfold int_param, param_ok in *. simpl in Hp. by destruct (param_value _ _). Qed.

Lemma unregister_result (e : EvntMgr.ADEvntMgr) t :
  (EvntMgr.unregister_event_subscription e t).1 =
    if existsb (EvntMgr.FindEventEntry t) (EvntMgr.eventList e) then 0 else -1.
Proof.
  unfold EvntMgr.unregister_event_subscription.
  destruct (find_first (EvntMgr.FindEventEntry t) (EvntMgr.eventList e)) as [x|] eqn:E; destruct (existsb _ _) eqn:Ex; try done.
  - apply find_first_Some in E as [Hin Hx]. apply not_true_iff_false in Ex. destruct Ex. apply existsb_exists.
    exists x. by rewrite <- list_elem_of_In.
  - apply existsb_exists in Ex as (x & Hin & Hx). rewrite find_first_None in E. rewrite E in Hx; [done|by apply list_elem_of_In].
Qed.

(** The commands of the event manager. *)
Lemma event_promise m d c :
  c ∈ [EVENT_SUBSCRIBE; EVENT_UNSUBSCRIBE; EVENT_NOTIFY; EVENT_PROCESS] -> cmd_index d = cmd_index_of c ->
  forallb (param_ok (D := D) (socket_data d)) (required_params c) = true -> keeps_promise m d c.
Proof.
  intros Hc Ec Hp. rewrite !elem_of_cons in Hc. destruct Hc as [-> | [-> | [-> | [-> | []%elem_of_nil]]]];
    cbn [required_params forallb] in Hp; rewrite ?andb_true_iff in Hp.
  - destruct Hp as [Hp _]. set (e := EvntMgr.register_event_subscription (EventMgr m) (wanted d)).
    eapply (keeps_promise_intro m d EVENT_SUBSCRIBE _ _ (with_events m e.2)); [done| | | |done].
    + own_tables Ec. unfold json_to_bin_event_subscribe.
      rewrite with_int_param, !optional_int_param by done. reflexivity.
    + own_tables Ec. unfold process_event_subscribe. cbn [rq_dataRef set_packet].
      match goal with |- context [EvntMgr.register_event_subscription ?a ?b] =>
        change (EvntMgr.register_event_subscription a b) with e end.
      rewrite (surjective_pairing e), (surjective_pairing e.1). reflexivity.
    + own_tables Ec. cbn [snd promised]. subst e. unfold bin_to_json_event_subscribe, EvntMgr.register_event_subscription.
      destruct (find_first (EvntMgr.FindDuplicateEntry (wanted d)) (EvntMgr.eventList (EventMgr m))) as [x|]; cbn [fst snd].
      * by apply (resp_int d (set_result _ Rpc.ITEM_DUPLICATE_FOUND) "srvToken").
      * destruct (resp_one Rpc.SUCCESS (set_custom d (format_d (i32 (i32 (EvntMgr.AckToken (EventMgr m) + 1))))) "srvToken"
          (json_object_new_int (i32 (i32 (EvntMgr.AckToken (EventMgr m) + 1)))) (format_d (i32 (i32 (EvntMgr.AckToken (EventMgr m) + 1)))))
          as (d' & E & Hr); [done|done|apply string_of_int|].
        exists d'. split; [exact E|]. rewrite (i32_id (i32 _)) in Hr by apply i32_range. exact Hr.
  - destruct Hp as [Hp _]. eapply keeps_promise_intro; [done| | | |].
    + own_tables Ec. unfold json_to_bin_event_unsubscribe. rewrite with_int_param by done. reflexivity.
    + own_tables Ec. unfold process_event_unsubscribe. cbn [rq_dataRef set_packet].
      rewrite (surjective_pairing (EvntMgr.unregister_event_subscription _ _)), unregister_result. reflexivity.
    + own_tables Ec. cbn [snd promised]. destruct (existsb _ _); by apply (resp_plain d (set_result _ _)).
    + done.
  - destruct Hp as [Hp _]. eapply keeps_promise_intro; [done| | | |].
    + own_tables Ec. unfold json_to_bin_event_notify. rewrite with_int_param, !optional_int_param by done. reflexivity.
    + own_tables Ec. reflexivity.
    + own_tables Ec. cbn [snd promised].
      match goal with |- context [set_result ?r ?c] => by apply (resp_plain d (set_result r c)) end.
    + done.
  - destruct Hp as [Hp1 [Hp2 _]]. eapply keeps_promise_intro; [done| | | |].
    + own_tables Ec. unfold json_to_bin_event_process. rewrite !with_int_param, !optional_int_param by done. reflexivity.
    + own_tables Ec. reflexivity.
    + own_tables Ec. cbn [snd promised].
      match goal with |- context [set_result ?r ?c] => by apply (resp_plain d (set_result r c)) end.
    + done.
Qed.

(** C20: what the manager's own commands answer, for every accepted request that is not
    left to the service: the response carries the code and the values [promised] gives
    (the status of the asked task by its name, the version, the state of the service, the
    identifier of the pushed task, the token of the subscription), and the manager changes
    as [effect] says and in no other way. *)
Theorem own_request_answered `{!TaskServiceLaws W} m d (c : EJSON_RPCGMGR_CMD) :
  task_ok (AsyncTaskWorker m) -> cmd_index d = cmd_index_of c -> delegated c = false ->
  forallb (param_ok (D := D) (socket_data d)) (required_params c) = true ->
  let '(ret, d', m') := serve (P := P) (D := D) junk junk_text m d in
  ret = 0 /\ responds d' (promised m d c).1 (promised m d c).2 /\ effect m d c m'.
Proof.
  intros Hw Ec Hd Hp. change (keeps_promise m d c).
  destruct c; try discriminate Hd; first
    [ by eapply push_promise | apply state_promise; [set_solver|done] | by apply set_debug_promise
    | apply task_promise; [set_solver|done..] | apply event_promise; [set_solver|done..] ].
Qed.
End answers.

(** ** Writing through the middleware, and the operation state *)

(** The first character of a number is no space and no sign. *)
Lemma scan_lu_digit (a : Z) (r : string) (old : Z) :
  0 <= a < 10 ->
  scan_lu (String (ascii_of_N (Z.to_N (48 + a))) r) old =
    let n := digits (String (ascii_of_N (Z.to_N (48 + a))) r) 0 in if n >? ULONG_MAX then ULONG_MAX else n.
Proof.
  intros Ha. assert (a ∈ [0;1;2;3;4;5;6;7;8;9]) as Hin.
  { destruct (decide (a = 0)); [set_solver|]. rewrite !elem_of_cons. lia. }
  rewrite !elem_of_cons, elem_of_nil in Hin. by destruct_or! Hin; subst.
Qed.
(** [sscanf("%lu")] reads back what [%d] prints. *)
Lemma scan_lu_format (n old : Z) : 0 <= n <= ULONG_MAX -> scan_lu (format_d n) old = n.
Proof.
  intros Hn. assert (ULONG_MAX < 10 ^ Z.of_nat 20) as E20 by reflexivity.
  destruct (decimal_head 20 n EmptyString) as (a & r & Ed & Ha); [lia|lia|].
  pose proof (digits_decimal 20 n EmptyString ltac:(lia)) as Hd. change (digits EmptyString n) with n in Hd.
  unfold format_d. destruct (Z.ltb_spec n 0); [lia|]. rewrite Ed in *. rewrite scan_lu_digit by done. cbv zeta. rewrite Hd.
  destruct (Z.gtb_spec n ULONG_MAX); [lia|done].
Qed.
Section writes.
Context {W S P J D : Type} `{JsonCLaws J D} `{TaskService W} `{RpcService S P J}.
Variable (junk : Z) (junk_text : string).
Implicit Types (m : ADJsonRpcMgr W S) (d : JsonDataCommObj J).

(** The data of a write, from its packet. *)
Definition written (c : EJSON_RPCGMGR_CMD) (p : packet P) : option Z :=
  match c, p with
  | SET_MW_BYTE, MiddlewarePacket _ b _ _ => Some b
  | SET_MW_WORD, MiddlewarePacket _ _ w _ => Some w
  | SET_MW_DWORD, MiddlewarePacket _ _ _ w => Some w
  | _, _ => None
  end.

(** the three write commands hand the service the address and the data, but of the
    data only the lowest eight bits, for words and double words too: [write_word] with
    [n] writes [n] modulo 256.  And a data parameter that is not a number does not make
    the request fail: the lowest byte of the address is written. *)
Theorem write_keeps_low_byte m d (c : EJSON_RPCGMGR_CMD) (a : Z) (v : string) :
  c ∈ [SET_MW_BYTE; SET_MW_WORD; SET_MW_DWORD] -> cmd_index d = cmd_index_of c -> 0 <= a < 2 ^ 32 ->
  param_value (D := D) (socket_data d) "addr" = Some (format_d a) -> param_value (D := D) (socket_data d) "data" = Some v ->
  exists r p x,
    Proxy.process_json_to_binary (MapConsumer := manager_consumer (P := P) (D := D) junk junk_text) m d = (0, d, r, m) /\
    rq_dataRef r = Some p /\ first_int junk p = a /\ written c p = Some x /\ 0 <= x < 256 /\
    (forall n, v = format_d n -> 0 <= n < 2 ^ 64 -> x = n mod 256) /\
    ((forall old, scan_lu v old = old) -> x = a mod 256).
Proof.
  intros Hc Ec Ha Eaddr Edata. pose proof (cmd_index_range c). simpl. rewrite Ec.
  destruct (Z.geb_spec (cmd_index_of c) EJSON_RPCGMGR_CMD_END); [lia|]. unfold MyMapJsonToBinary. rewrite Ec, own_command_index.
  assert (scan_lu (format_d a) junk = a) as Hscan by (apply scan_lu_format; unfold ULONG_MAX; lia).
  assert (u32 a = a) as Hu by (apply wrap_u_id; lia).
  assert (forall x, x = u8 (scan_lu v a) -> 0 <= x < 256 /\ (forall n, v = format_d n -> 0 <= n < 2 ^ 64 -> x = n mod 256) /\
    ((forall old, scan_lu v old = old) -> x = a mod 256)) as Hx.
  { intros x ->. split; [apply (wrap_u_range 8); lia|]. split; [|by intros ->].
    intros n -> Hn. rewrite scan_lu_format by (unfold ULONG_MAX; lia). done. }
  rewrite !elem_of_cons in Hc. destruct Hc as [-> | [-> | [-> | []%elem_of_nil]]];
    unfold json_to_bin_set_mw_byte, json_to_bin_set_mw_word, json_to_bin_set_mw_dword;
    rewrite !with_ulong_spec, Eaddr, with_ulong_spec, Edata, Hscan, Hu;
    eexists _, _, (u8 (scan_lu v a)); (split; [reflexivity|]); (split; [reflexivity|]); (split; [reflexivity|]);
    (split; [reflexivity|]); by apply Hx.
Qed.

Definition with_text d (text : string) : JsonDataCommObj J :=
  {| req_id := req_id d; cmd_index := cmd_index d; mapper_result := mapper_result d; rpc_code := rpc_code d;
     socket_data := text; json_resp_obj := json_resp_obj d; custom_result_string := custom_result_string d;
     cltport := cltport d; client_ip := client_ip d; sock_id := sock_id d; sock_descr := sock_descr d |}.

Lemma push_own_forgets c flag m (r r' : RPC_SRV_REQ P) :
  (push_own c flag m r).2 = (push_own c flag m r').2 /\
  rq_result (push_own c flag m r).1.2 = rq_result (push_own c flag m r').1.2 /\ (push_own c flag m r).1.1 = 0.
Proof.
  unfold push_own. cbn [new_work]. destruct (push_task _ _ _ _) as [[ret id] w]. by destruct (ret =? 0).
Qed.

Lemma devop_served m d :
  cmd_index d = cmd_index_of SET_DEVOP_STATE ->
  forallb (param_ok (D := D) (socket_data d)) (required_params SET_DEVOP_STATE) = true ->
  exists r : RPC_SRV_REQ P, let o := push_own SET_DEVOP_STATE WORK_CMD_AFTER_DONE_PRESERVE m r in
    serve (P := P) (D := D) junk junk_text m d = (0, default d (prepare_result_string (rq_result o.1.2) d), o.2).
Proof.
  intros Ec Hp. cbn [required_params forallb] in Hp. apply andb_true_iff in Hp as [Hp _].
  set (r0 := PREPARE_JSON_REQUEST (create_req_obj junk d) (DevopPacket (P := P) junk) Act.WRITE SET_DEVOP_STATE).
  set (r := set_packet r0 (DevopPacket (default 0
    (JSON_STRING_TO_ENUM (socket_data d) "status" RPCMGR_RPC_DEVOP_STATE_ARGSTS_TBL (Z.of_nat 10))))).
  exists r. set (o := push_own SET_DEVOP_STATE WORK_CMD_AFTER_DONE_PRESERVE m r).
  erewrite (serve_own junk junk_text m d SET_DEVOP_STATE r o.1.2 o.2 o.1.1 Ec).
  - unfold MyMapBinaryToJson. by rewrite Ec, own_command_index.
  - unfold MyMapJsonToBinary. rewrite Ec, own_command_index. unfold json_to_bin_set_devop_state.
    change DEVOP_STATE_UNKNOWN with (Z.of_nat 10). rewrite with_enum_spec by (vm_compute; lia).
    cbn [take RPCMGR_RPC_DEVOP_STATE_ARGSTS_TBL]. by rewrite Hp.
  - unfold MyProcessWork. rewrite Ec, own_command_index. subst o. unfold process_set_devop_state.
    by destruct (push_own _ _ m r) as [[? ?] ?].
Qed.

(** Setting the operation state has the same effect whatever the state is that the
    request asks for.  Two accepted requests that differ in the requested state only leave
    the manager in the same state, so the task that is to make the change cannot tell them
    apart, and get the same response; and the response holds nothing besides the result,
    so the client is not told which task it is. *)
Theorem devop_state_lost m d (text : string) :
  cmd_index d = cmd_index_of SET_DEVOP_STATE ->
  forallb (param_ok (D := D) (socket_data d)) (required_params SET_DEVOP_STATE) = true ->
  forallb (param_ok (D := D) text) (required_params SET_DEVOP_STATE) = true ->
  let '(ret1, d1, m1) := serve (P := P) (D := D) junk junk_text m d in
  let '(ret2, d2, m2) := serve (P := P) (D := D) junk junk_text m (with_text d text) in
  ret1 = 0 /\ ret2 = 0 /\ m1 = m2 /\ json_resp_obj d1 = json_resp_obj d2 /\ rpc_code d1 = rpc_code d2 /\
  (rpc_code d1 = Rpc.IN_PROG \/ rpc_code d1 = Rpc.FAIL) /\
  forall o k, json_resp_obj d1 = Some o -> k <> RPC_NAME_ARG_RESULT_PARAM -> json_object_object_get o k = None.
Proof.
  intros Ec Hp Ht. destruct (devop_served m d Ec Hp) as [r ->]. destruct (devop_served m (with_text d text) Ec Ht) as [r' ->].
  destruct (push_own_forgets SET_DEVOP_STATE WORK_CMD_AFTER_DONE_PRESERVE m r r') as (-> & -> & _).
  assert (rq_result (push_own SET_DEVOP_STATE WORK_CMD_AFTER_DONE_PRESERVE m r').1.2 = Rpc.IN_PROG \/
          rq_result (push_own SET_DEVOP_STATE WORK_CMD_AFTER_DONE_PRESERVE m r').1.2 = Rpc.FAIL) as Hcode.
  { unfold push_own. cbn [new_work]. destruct (push_task _ _ _ _) as [[ret id] w]. destruct (ret =? 0); auto. }
  assert (forall name : string, forall o : J, forall k : string, Some (json_object_object_add json_object_new_object RPC_NAME_ARG_RESULT_PARAM
    (json_object_new_string name)) = Some o -> k <> RPC_NAME_ARG_RESULT_PARAM -> json_object_object_get o k = None) as Hnone.
  { intros name o k [= <-] Hk. rewrite get_add_ne by (eauto using new_object_is). apply get_new. }
  destruct Hcode as [-> | ->]; cbn; split_and!; try done; auto; apply Hnone.
Qed.
End writes.

(** ** Reaching the handlers of the services *)
Section dispatch.
Context {W S P J D : Type} `{JsonC J D} `{TaskService W} `{RpcService S P J}.
Variable (junk : Z) (junk_text : string).
Implicit Types (m : ADJsonRpcMgr W S) (d : JsonDataCommObj J).

Definition fits_name (x : string * Z) : bool := (String.length x.1 <? Proxy.JSON_RPC_METHOD_NAME_MAX_LENGTH)%nat.

Lemma attach_all_filter (l : list (string * Z)) :
  Proxy.attach_all l =
    map (fun x => {| Proxy.method := x.1; Proxy.method_index := x.2 |}) (List.filter fits_name l).
Proof.
  unfold Proxy.attach_all. assert (forall k, fold_left (fun c x => (Proxy.attach_rpc_method c x.1 x.2).2) l k =
    k ++ map (fun x => {| Proxy.method := x.1; Proxy.method_index := x.2 |}) (List.filter fits_name l)) as Hgen;
    [|by rewrite Hgen].
  induction l as [|x l IH]; intros k; simpl; [by rewrite app_nil_r|]. rewrite IH. unfold Proxy.attach_rpc_method, fits_name.
  rewrite Nat.ltb_antisym. destruct (_ <=? _)%nat; simpl; [done|]. by rewrite <- app_assoc.
Qed.

Lemma own_method_found name own :
  (name, own) ∈ own_methods ->
  find_first (fun x => fits_name x && (x.1 =? name)%string) (map (fun x => (x.1, cmd_index_of x.2)) own_methods) =
    Some (name, cmd_index_of own).
Proof.
  assert (forallb (fun y : string * EJSON_RPCGMGR_CMD =>
    match find_first (fun x => fits_name x && (x.1 =? y.1)%string) (map (fun x => (x.1, cmd_index_of x.2)) own_methods) with
    | Some x => (x.1 =? y.1)%string && (x.2 =? cmd_index_of y.2)
    | None => false
    end) own_methods = true) as Hall by (vm_compute; reflexivity).
  rewrite forallb_forall in Hall. intros Hin%list_elem_of_In. specialize (Hall _ Hin). cbn [fst snd] in Hall.
  destruct (find_first _ _) as [[n z]|]; [|done]. simpl in Hall. apply andb_true_iff in Hall as [Hn Hz].
  apply String.eqb_eq in Hn. apply Z.eqb_eq in Hz. by subst.
Qed.

(** The index the proxy finds for a method name among the registered ones. *)
Definition method_found m (name : string) : option Z :=
  Proxy.method_index <$> find_first (fun c => (Proxy.method c =? name)%string) (Proxy.attach_all (registered_methods m)).

Lemma method_found_first m name :
  method_found m name = snd <$> find_first (fun x => fits_name x && (x.1 =? name)%string) (registered_methods m).
Proof.
  unfold method_found. rewrite attach_all_filter. induction (registered_methods m) as [|x l IH]; simpl; [done|].
  destruct (fits_name x); simpl; [|exact IH]. by destruct (x.1 =? name)%string.
Qed.

Lemma find_first_app {A} (f : A -> bool) (l k : list A) :
  find_first f (l ++ k) = match find_first f l with Some x => Some x | None => find_first f k end.
Proof. induction l as [|x l IH]; simpl; [done|]. by destruct (f x). Qed.

Lemma service_methods_lookup (l : list ADJsonRpcMgrConsumer) (f : string -> bool) (i : nat) c (n : nat) :
  l !! i = Some c -> f (strRpcName c) = true ->
  (forall j c', (j < i)%nat -> l !! j = Some c' -> f (strRpcName c') = false) ->
  find_first (fun x => f x.1) (imap (fun i c => (strRpcName c, Z.of_nat (n + i) + EJSON_RPCGMGR_CMD_END)) l) =
    Some (strRpcName c, Z.of_nat (n + i) + EJSON_RPCGMGR_CMD_END).
Proof.
  revert l n. induction i as [|i IH]; intros [|c0 l] n Hl Hf Hlt; simplify_eq/=; [by rewrite Hf|].
  rewrite (Hlt 0%nat c0) by (done || lia).
  rewrite (imap_ext _ (fun i c => (strRpcName c, Z.of_nat (Datatypes.S n + i) + EJSON_RPCGMGR_CMD_END)))
    by (intros; simpl; do 3 f_equal; lia).
  rewrite (IH l (Datatypes.S n)); [do 3 f_equal; lia|done|done|]. intros j c' Hj Hc. apply (Hlt (Datatypes.S j)); [lia|done].
Qed.

Lemma page_handler_at m (i : nat) c :
  rpclist m !! i = Some c -> page_handler m (Z.of_nat i + EJSON_RPCGMGR_CMD_END) = Some (i, c).
Proof.
  intros Hc. pose proof (lookup_lt_Some _ _ _ Hc). unfold page_handler, get_total_attached_rpcs, getRpcHandler.
  replace (Z.of_nat i + EJSON_RPCGMGR_CMD_END - EJSON_RPCGMGR_CMD_END) with (Z.of_nat i) by lia.
  destruct (Z.geb_spec (Z.of_nat i) (Z.of_nat (length (rpclist m)))); [lia|].
  destruct (Z.ltb_spec (Z.of_nat i) 0); [lia|]. simpl. by rewrite Nat2Z.id, Hc.
Qed.

Lemma page_handler_out m (n : Z) :
  n < EJSON_RPCGMGR_CMD_END \/ EJSON_RPCGMGR_CMD_END + Z.of_nat (length (rpclist m)) <= n -> page_handler m n = None.
Proof.
  intros Hn. unfold page_handler, get_total_attached_rpcs. destruct (Z.geb_spec (n - EJSON_RPCGMGR_CMD_END) (Z.of_nat (length (rpclist m)))); [done|].
  destruct (Z.ltb_spec (n - EJSON_RPCGMGR_CMD_END) 0); [done|lia].
Qed.

(** Requests and tasks reach the handler they are meant for.  Every name of the
    manager's own commands finds that command, whatever the services are called.  The name
    of an attached object finds the index the manager gave it, unless one of the own
    commands or an object attached before has the same name, or the name is too long; and
    with that index the mapping, the work and the task go to that object and no other,
    with the index the object chose for itself (the task: its position).  Any other index
    beyond the own commands reaches no object. *)
Theorem service_dispatch m d (i : nat) (c : ADJsonRpcMgrConsumer) (r : RPC_SRV_REQ P) :
  rpclist m !! i = Some c -> cmd_index d = Z.of_nat i + EJSON_RPCGMGR_CMD_END ->
  (forall name own, (name, own) ∈ own_methods -> method_found m name = Some (cmd_index_of own)) /\
  ((String.length (strRpcName c) < Proxy.JSON_RPC_METHOD_NAME_MAX_LENGTH)%nat ->
   strRpcName c ∉ own_methods.*1 ->
   (forall j c', (j < i)%nat -> rpclist m !! j = Some c' -> strRpcName c' <> strRpcName c) ->
   method_found m (strRpcName c) = Some (cmd_index d)) /\
  (Proxy.process_json_to_binary (MapConsumer := manager_consumer (P := P) (D := D) junk junk_text) m d =
     let '(ret, d', r', s) := svc_MapJsonToBinary i (service m) d (create_req_obj junk d) (index c) in
     (ret, d', r', with_service m s)) /\
  (Proxy.process_work (MapConsumer := manager_consumer (P := P) (D := D) junk junk_text) m d r =
     let '((_, r', s), m') := run_handler m (svc_ProcessWork i (service m) d r (index c)) in (r', with_service m' s)) /\
  (forall data, run_work m (cmd_index d) data =
     let '(ret, s) := svc_ProcessWorkAsync i (service m) (Z.of_nat i) data in (ret, with_service m s)) /\
  (forall n data, n >= EJSON_RPCGMGR_CMD_END + Z.of_nat (length (rpclist m)) -> run_work m n data = (Rpc.FAIL, m)).
Proof.
  intros Hc Ed. assert (cmd_index d >=? EJSON_RPCGMGR_CMD_END = true) as Hge by (apply Z.geb_le; lia).
  pose proof (page_handler_at m i c Hc) as Hp. rewrite <- Ed in Hp.
  split_and!.
  - intros name own Hin. rewrite method_found_first. unfold registered_methods. rewrite find_first_app.
    by rewrite (own_method_found name own Hin).
  - intros Hlen Hown Hlt. rewrite method_found_first. unfold registered_methods. rewrite find_first_app.
    assert (find_first (fun x => fits_name x && (x.1 =? strRpcName c)%string)
      (map (fun x => (x.1, cmd_index_of x.2)) own_methods) = None) as ->.
    { apply find_first_None. intros [n z] Hin. apply list_elem_of_In, in_map_iff in Hin as ((n' & own) & [= <- <-] & Hin).
      apply andb_false_iff. right. apply String.eqb_neq. simpl. intros ->. apply Hown. apply list_elem_of_fmap.
      exists (strRpcName c, own). split; [done|]. by apply list_elem_of_In. }
    assert (find_first (fun x => fits_name x && (x.1 =? strRpcName c)%string) (service_methods (rpclist m)) =
      Some (strRpcName c, Z.of_nat i + EJSON_RPCGMGR_CMD_END)) as ->; [|by rewrite Ed].
    apply (service_methods_lookup (rpclist m) (fun s => fits_name (s, 0) && (s =? strRpcName c)%string) i c 0 Hc).
    + rewrite String.eqb_refl, andb_true_r. by apply Nat.ltb_lt.
    + intros j c' Hj Hc'. apply andb_false_iff. right. apply String.eqb_neq. by apply (Hlt j).
  - simpl. rewrite Hge. unfold MapJsonToBinary. by rewrite Hp.
  - simpl. rewrite Hge. unfold ProcessWork. rewrite Hp. by destruct (run_handler _ _) as [[[? ?] ?] ?].
  - intros data. unfold run_work. rewrite Hge. unfold AsyncTaskWork. rewrite Hp, Ed.
    by replace (Z.of_nat i + EJSON_RPCGMGR_CMD_END - EJSON_RPCGMGR_CMD_END) with (Z.of_nat i) by lia.
  - intros n data Hn. unfold run_work. destruct (Z.geb_spec n EJSON_RPCGMGR_CMD_END); [|lia]. unfold AsyncTaskWork.
    by rewrite page_handler_out by lia.
Qed.

(** The packet allocated for a task of an own command is released when the task runs,
    whatever comes of it, and no other packet is; what the task is, the service's common
    handler does, or it is unsupported, and the shutdown ends the timer if there is one.
    Commands that push no task do nothing when they are run as one. *)
Theorem task_packet_released m (c : EJSON_RPCGMGR_CMD) (p : Z) :
  let '(code, m') := run_work m (cmd_index_of c) p in
  match pushes c with
  | None => code = Rpc.FAIL /\ m' = m
  | Some _ =>
      p ∉ work_data m' /\ (forall q, q <> p -> q ∈ work_data m' <-> q ∈ work_data m) /\
      next_address m' = next_address m /\ AsyncTaskWorker m' = AsyncTaskWorker m /\ EventMgr m' = EventMgr m /\
      if decide (c = SHUTDOWN_SERVICE)
      then code = Rpc.SUCCESS /\ forced_exits m' = forced_exits m + (if myTimer m then 1 else 0) /\ service m' = service m
      else forced_exits m' = forced_exits m /\
           match getCmnRpcHandler m with
           | None => code = Rpc.FEATURE_UNSUPPORTED /\ service m' = service m
           | Some (k, _) => (code, service m') = svc_ProcessWorkAsync k (service m) (cmd_index_of c) p
           end
  end.
Proof.
  pose proof (cmd_index_range c) as Hr.
  assert (forall (l : list Z), p ∉ List.filter (fun q => negb (q =? p)) l /\
    forall q, q <> p -> q ∈ List.filter (fun q => negb (q =? p)) l <-> q ∈ l) as Hdel.
  { intros l. split; [|intros q Hq].
    - intros [_ Hn]%list_elem_of_In%filter_In. by rewrite Z.eqb_refl in Hn.
    - rewrite !list_elem_of_In, filter_In. rewrite negb_true_iff, Z.eqb_neq. tauto. }
  unfold run_work. destruct (Z.geb_spec (cmd_index_of c) EJSON_RPCGMGR_CMD_END); [lia|]. rewrite own_command_index.
  destruct c; cbn [pushes]; try (by split);
    try (unfold CmnRpcHandler; destruct (getCmnRpcHandler m) as [[k h]|]; [destruct (svc_ProcessWorkAsync _ _ _ _) as [ret s]|];
         simpl; split_and!; try done; apply Hdel).
  destruct (myTimer m); simpl; split_and!; try done; try apply Hdel; lia.
Qed.
End dispatch.

(** ** A service, and the theorems at work *)

(** Objects that log the calls they get; a task is pushed for each work of theirs. *)
Module Demo.
Import Json.
#[export] Instance service : RpcService (list (nat * Z)) Z Json.value := {
  svc_MapJsonToBinary k s d r i := (0, d, set_packet r (ServicePacket i), s ++ [(k, i)]);
  svc_MapBinaryToJson k s d r i := (0, set_response d (rq_result r) (Json.Num i), s);
  svc_ProcessWork k s d r i :=
    Push i 5 WORK_CMD_AFTER_DONE_PRESERVE (fun code id => Done (0, set_result (set_packet r (ServicePacket id)) code, s ++ [(k, i)]));
  svc_ProcessWorkAsync k s i data := (Rpc.SUCCESS, s ++ [(k, i)]);
  svc_ReceiveEvent k s _ n _ _ := s ++ [(k, n)];
}.
Definition object (name : string) (i : Z) (common : bool) : ADJsonRpcMgrConsumer :=
  {| strRpcName := name; index := i; parent_index := 0; emulation := false; logmsg := false; cmnrpchandler := common |}.
Definition manager : ADJsonRpcMgr served (list (nat * Z)) :=
  AttachRpc (AttachRpc (new_ADJsonRpcMgr slow_worker [] 7 false) (object "display" 4 false)) (object "common" 9 true).
Definition ask (c : EJSON_RPCGMGR_CMD) (text : string) : JsonDataCommObj Json.value :=
  {| req_id := 1; cmd_index := cmd_index_of c; mapper_result := Task.UNKNOWN; rpc_code := Rpc.NOT_STARTED;
     socket_data := text; json_resp_obj := None; custom_result_string := EmptyString; cltport := 0;
     client_ip := EmptyString; sock_id := 0; sock_descr := 0 |}.
Definition answer (c : EJSON_RPCGMGR_CMD) (text : string) : Z * option Json.value :=
  let '(ret, d, _) := serve (P := Z) (D := Z) 77 "?" manager (ask c text) in (ret, json_resp_obj d).
End Demo.
Import Json Demo.

Example version_ex : answer GET_RPC_SRV_VERSION "{}" = (0, Some (Obj [("return", Str "Success"); ("version", Num 7)]))%string.
Proof. vm_compute. reflexivity. Qed.
Example run_ex : answer TRIGGER_RUN "{}" = (0, Some (Obj [("return", Str "InProgress"); ("taskId", Num 1)]))%string.
Proof. vm_compute. reflexivity. Qed.
(** A double word of 261 is written as 5. *)
Example write_dword_ex :
  let '(_, _, r, _) := Proxy.process_json_to_binary (MapConsumer := manager_consumer (P := Z) (D := Z) 77 "?") manager
    (ask SET_MW_DWORD "{'params':{'addr':16,'data':261}}") in rq_dataRef r = Some (MiddlewarePacket 16 77 77 5).
Proof. vm_compute. reflexivity. Qed.

Lemma own_request_checked_witness :
  (Proxy.process_json_to_binary (MapConsumer := manager_consumer (P := Z) (D := Z) 77 "?") manager
     (ask SET_DEBUG_LOG "{'params':{'status':'maybe'}}")).1.1.1 <> 0.
Proof.
  pose proof (own_request_checked (P := Z) (D := Z) 77 "?" manager (ask SET_DEBUG_LOG "{'params':{'status':'maybe'}}")
    SET_DEBUG_LOG eq_refl) as Hw.
  destruct (Proxy.process_json_to_binary _ _) as [[[ret d'] r] m']. destruct Hw as [_ Hw]. vm_compute in Hw. by destruct Hw.
Defined.

Lemma own_request_answered_witness :
  let '(ret, d', m') := serve (P := Z) (D := Z) 77 "?" manager (ask SET_DEBUG_LOG "{'params':{'status':'enable'}}") in
  rpc_code d' = Rpc.SUCCESS /\ ServiceDebugFlag m' = true.
Proof.
  assert (task_ok (AsyncTaskWorker manager)) as Hok by (exists [], []; by split_and!).
  assert (forallb (param_ok (J := Json.value) (D := Z) "{'params':{'status':'enable'}}") (required_params SET_DEBUG_LOG) = true)
    as Hp by (vm_compute; reflexivity).
  pose proof (own_request_answered (P := Z) (D := Z) 77 "?" manager (ask SET_DEBUG_LOG "{'params':{'status':'enable'}}")
    SET_DEBUG_LOG Hok eq_refl eq_refl Hp) as Hw.
  destruct (serve _ _ _ _) as [[ret d'] m']. destruct Hw as (_ & (o & name & _ & Hc & _) & (flag & Hv & Hf & _)).
  split; [exact Hc|]. rewrite Hf. destruct flag; [reflexivity|]. vm_compute in Hv. discriminate.
Defined.

Lemma write_keeps_low_byte_witness :
  exists r p, Proxy.process_json_to_binary (MapConsumer := manager_consumer (P := Z) (D := Z) 77 "?") manager
    (ask SET_MW_WORD "{'params':{'addr':16,'data':261}}") = (0, ask SET_MW_WORD "{'params':{'addr':16,'data':261}}", r, manager) /\
    rq_dataRef r = Some p /\ written SET_MW_WORD p = Some 5.
Proof.
  destruct (write_keeps_low_byte (P := Z) (D := Z) 77 "?" manager (ask SET_MW_WORD "{'params':{'addr':16,'data':261}}")
    SET_MW_WORD 16 "261") as (r & p & x & H1 & H2 & _ & H3 & _ & H4 & _); [| | | | |].
  - apply elem_of_cons. right. apply elem_of_cons. by left.
  - reflexivity.
  - vm_compute. split; [discriminate|reflexivity].
  - vm_compute. reflexivity.
  - vm_compute. reflexivity.
  - exists r, p. split; [exact H1|]. split; [exact H2|]. rewrite H3, (H4 261); [reflexivity|reflexivity|].
    vm_compute. split; [discriminate|reflexivity].
Defined.

Lemma devop_state_lost_witness :
  (serve (P := Z) (D := Z) 77 "?" manager (ask SET_DEVOP_STATE "{'params':{'status':'on'}}")).2 =
  (serve (P := Z) (D := Z) 77 "?" manager (ask SET_DEVOP_STATE "{'params':{'status':'off'}}")).2.
Proof.
  assert (forallb (param_ok (J := Json.value) (D := Z) "{'params':{'status':'on'}}") (required_params SET_DEVOP_STATE) = true)
    as Hon by (vm_compute; reflexivity).
  assert (forallb (param_ok (J := Json.value) (D := Z) "{'params':{'status':'off'}}") (required_params SET_DEVOP_STATE) = true)
    as Hoff by (vm_compute; reflexivity).
  pose proof (devop_state_lost (P := Z) (D := Z) 77 "?" manager (ask SET_DEVOP_STATE "{'params':{'status':'on'}}")
    "{'params':{'status':'off'}}" eq_refl Hon Hoff) as Hw.
  change (with_text (ask SET_DEVOP_STATE "{'params':{'status':'on'}}") "{'params':{'status':'off'}}")
    with (ask SET_DEVOP_STATE "{'params':{'status':'off'}}") in Hw.
  destruct (serve _ _ _ (ask SET_DEVOP_STATE "{'params':{'status':'on'}}")) as [[? ?] m1].
  destruct (serve _ _ _ _) as [[? ?] m2]. by destruct Hw as (_ & _ & Hm & _).
Defined.

Lemma service_dispatch_witness :
  method_found manager "common" = Some 25 /\
  run_work (P := Z) (J := Json.value) manager 25 5 = (Rpc.SUCCESS, with_service manager [(1%nat, 1)]).
Proof.
  destruct (service_dispatch (P := Z) (D := Z) 77 "?" manager (set_mapper_result
    {| req_id := 1; cmd_index := 25; mapper_result := 0; rpc_code := 0; socket_data := EmptyString; json_resp_obj := None;
       custom_result_string := EmptyString; cltport := 0; client_ip := EmptyString; sock_id := 0; sock_descr := 0 |} 0)
    1 (object "common" 9 true) (create_req_obj 0 (ask GET_TASK_STS EmptyString)) eq_refl eq_refl) as (_ & H2 & _ & _ & H5 & _).
  split.
  - apply H2; [vm_compute; lia| |].
    + vm_compute. intros Hin. repeat (apply elem_of_cons in Hin as [Hin|Hin]; [discriminate|]). by apply elem_of_nil in Hin.
    + intros [|[|j]] c' Hj Hc'; [|lia|lia]. injection Hc' as <-. discriminate.
  - apply (H5 5).
Defined.
