(* ===== verification/Io.v ===== *)
(** * Calls of the operating system, and code that makes them

    The client code talks to the kernel: it reads the clock, opens, polls, sends and
    receives.  This file gives these calls as a type, the kernel as a class that answers
    them, the computations that make them as a monad (the object's fields, the kernel and
    fuel for the loops), and the rules that prove a computation total and its
    postcondition. *)
From S2P Require Import Prelude.
Open Scope Z_scope.

(** ** System calls *)

(** What [connect()], [poll()], [send()] and [recv()] answer.  The errors the code looks
    at are [EINPROGRESS], [EINTR] and the pair [EAGAIN]/[EWOULDBLOCK]. *)
Inductive connect_answer := ConnectDone | ConnectPending | ConnectFailed.
Inductive poll_answer := PollIntr | PollFailed | PollTimeout | PollEvent.
Inductive send_answer := SendIntr | SendFailed | Sent (n : nat).
Inductive recv_answer := RecvIntr | RecvAgain | RecvFailed | Received (data : list ascii).

Inductive poll_event := POLLIN | POLLOUT.

(** The calls.  The clock is [CLOCK_MONOTONIC] in nanoseconds; [Recv] has the flag
    [MSG_DONTWAIT] or not; [SocketError] is [getsockopt(SO_ERROR)]; [USleep] is [usleep()]. *)
Inductive call : Type -> Type :=
| Clock : call Z
| Socket : call Z
| GetFlags (fd : Z) : call Z
| SetFlags (fd flags : Z) : call Z
| Connect (fd : Z) (ip : string) (port : Z) : call connect_answer
| Poll (fd : Z) (ev : poll_event) (timeout : Z) : call poll_answer
| SocketError (fd : Z) : call (option Z)
| SendTimeout (fd ms : Z) : call unit
| Send (fd : Z) (data : list ascii) : call send_answer
| Recv (fd size : Z) (dontwait : bool) : call recv_answer
| Close (fd : Z) : call unit
| USleep (us : Z) : call unit.

Class Kernel (W : Type) := { sys_call : forall A, call A -> W -> A * W }.

(** An answer after which the code goes on asking: an interruption, data received, and
    for code that waits until [deadline] (in milliseconds) a clock that is not there yet. *)
Definition goes_on (deadline : Z) {A} (c : call A) : A -> bool :=
  match c with
  | Clock => fun ns => ns / 1000000 <? deadline
  | Poll _ _ _ => fun a => match a with PollIntr => true | _ => false end
  | Send _ _ => fun a => match a with SendIntr => true | _ => false end
  | Recv _ _ _ => fun a => match a with RecvIntr => true | Received (_ :: _) => true | _ => false end
  | _ => fun _ => false
  end.

(** What the waiting code relies on: the clock passes every deadline after finitely many
    readings, and until then a process is interrupted finitely often and a peer sends
    finitely many pieces.  [credit] counts what is left of them. *)
Class KernelLaws (W : Type) `{Kernel W} := {
  credit : Z -> W -> nat;
  credit_falls : forall A (c : call A) w deadline,
    (credit deadline (sys_call A c w).2 <= credit deadline w)%nat;
  credit_spent : forall A (c : call A) w deadline,
    goes_on deadline c (sys_call A c w).1 = true ->
    (credit deadline (sys_call A c w).2 < credit deadline w)%nat;
}.

(** ** The monad *)

(** A computation on an object with fields [S] and a kernel [W]; [None] when a loop
    needed more rounds than the fuel. *)
Definition io (W S A : Type) : Type := nat -> S -> W -> option (A * S * W).

Section monad.
Context {W S : Type}.

#[export] Instance io_ret : MRet (io W S) := fun A a _ s w => Some (a, s, w).
#[export] Instance io_bind : MBind (io W S) := fun A B f m n s w =>
  match m n s w with Some (a, s, w) => f a n s w | None => None end.

Definition get : io W S S := fun _ s w => Some (s, s, w).
Definition modify (f : S -> S) : io W S () := fun _ s w => Some ((), f s, w).
Definition sys `{Kernel W} {A} (c : call A) : io W S A := fun _ s w =>
  let '(a, w) := sys_call A c w in Some (a, s, w).

(** [for (;;)]: a round either goes on with new values of the locals or leaves the loop. *)
Fixpoint rounds {L A} (n : nat) (body : L -> io W S (L + A)) (l : L) : io W S A :=
  match n with
  | O => fun _ _ _ => None
  | Datatypes.S n =>
      r ← body l;
      match r with inl l' => rounds n body l' | inr a => mret a end
  end.
Definition forever {L A} (body : L -> io W S (L + A)) (l : L) : io W S A := fun n => rounds n body l n.
End monad.

(** A method of a member object. *)
Definition on {W S T A} (field : S -> T) (update : S -> T -> S) (m : io W T A) : io W S A := fun n s w =>
  match m n (field s) w with Some (a, t, w) => Some (a, update s t, w) | None => None end.

(** A member function of an object that is a local variable, which starts as [t]. *)
Definition local {W S T A} (t : T) (m : io W T A) : io W S A := fun n s w =>
  match m n t w with Some (a, _, w) => Some (a, s, w) | None => None end.

(** ** Total correctness *)

(** From the fields [s] and the kernel [w] the computation ends, with the same result
    whatever fuel it gets beyond some amount, and that result satisfies [Q]. *)
Definition ends {W S A} (s : S) (w : W) (m : io W S A) (Q : A -> S -> W -> Prop) : Prop :=
  exists n a s' w', (forall k, (n <= k)%nat -> m k s w = Some (a, s', w')) /\ Q a s' w'.

Section rules.
Context {W S : Type}.
Implicit Types (s : S) (w : W).

Lemma ends_ret {A} s w (a : A) (Q : A -> S -> W -> Prop) : Q a s w -> ends s w (mret a) Q.
Proof. intros H. exists 0%nat, a, s, w. by split. Qed.

Lemma ends_bind {A B} s w (m : io W S A) (f : A -> io W S B) (R : A -> S -> W -> Prop) Q :
  ends s w m R -> (forall a s1 w1, R a s1 w1 -> ends s1 w1 (f a) Q) -> ends s w (m ≫= f) Q.
Proof.
  intros (n & a & s1 & w1 & E & Hr) Hf. destruct (Hf a s1 w1 Hr) as (n2 & b & s2 & w2 & E2 & Hq).
  exists (Nat.max n n2), b, s2, w2. split; [|done]. intros k Hk.
  unfold mbind, io_bind. rewrite E by lia. apply E2. lia.
Qed.

Lemma ends_conseq {A} s w (m : io W S A) (Q Q' : A -> S -> W -> Prop) :
  ends s w m Q' -> (forall a s w, Q' a s w -> Q a s w) -> ends s w m Q.
Proof. intros (n & a & s' & w' & E & ?) Hq. exists n, a, s', w'. eauto. Qed.

Lemma ends_get_bind {B} s w (f : S -> io W S B) Q : ends s w (f s) Q -> ends s w (get ≫= f) Q.
Proof.
  intros H. eapply (ends_bind _ _ _ _ (fun a s1 w1 => a = s /\ s1 = s /\ w1 = w)); [by exists 0%nat, s, s, w|].
  by intros a s1 w1 (-> & -> & ->).
Qed.

Lemma ends_modify_bind {B} s w g (f : () -> io W S B) Q : ends (g s) w (f ()) Q -> ends s w (modify g ≫= f) Q.
Proof.
  intros H. eapply (ends_bind _ _ _ _ (fun _ s1 w1 => s1 = g s /\ w1 = w)); [by exists 0%nat, (), (g s), w|].
  by intros [] s1 w1 [-> ->].
Qed.

Lemma ends_modify s w g (Q : () -> S -> W -> Prop) : Q () (g s) w -> ends s w (modify g) Q.
Proof. intros H. by exists 0%nat, (), (g s), w. Qed.

Lemma ends_sys_bind `{Kernel W} {A B} s w (c : call A) (f : A -> io W S B) Q :
  (forall a w', sys_call A c w = (a, w') -> ends s w' (f a) Q) -> ends s w (sys c ≫= f) Q.
Proof.
  intros Hq. destruct (sys_call A c w) as [a w'] eqn:E.
  eapply (ends_bind _ _ _ _ (fun a1 s1 w1 => a1 = a /\ s1 = s /\ w1 = w')).
  - exists 0%nat, a, s, w'. split; [|done]. intros k _. unfold sys. by rewrite E.
  - intros a1 s1 w1 (-> & -> & ->). by apply Hq.
Qed.

Lemma ends_ret_bind {A B} s w (a : A) (f : A -> io W S B) Q : ends s w (f a) Q -> ends s w (mret a ≫= f) Q.
Proof. intros (n & r). by exists n. Qed.

Lemma ends_assoc {A B C} s w (m : io W S A) (f : A -> io W S B) (g : B -> io W S C) Q :
  ends s w (m ≫= (fun a => f a ≫= g)) Q -> ends s w ((m ≫= f) ≫= g) Q.
Proof.
  intros (n & a & s' & w' & E & ?). exists n, a, s', w'. split; [|done]. intros k Hk. rewrite <- (E k Hk).
  unfold mbind, io_bind. by destruct (m k s w) as [[[? ?] ?]|].
Qed.

(** A loop whose rounds use up [measure] as long as they go on. *)
Lemma ends_forever {L A} (measure : L -> S -> W -> nat) (body : L -> io W S (L + A)) (I : L -> S -> W -> Prop)
    (Q : A -> S -> W -> Prop) :
  (forall l s w, I l s w -> ends s w (body l) (fun r s' w' =>
     match r with inl l' => I l' s' w' /\ (measure l' s' w' < measure l s w)%nat | inr a => Q a s' w' end)) ->
  forall l s w, I l s w -> ends s w (forever body l) Q.
Proof.
  intros Hb l s w Hi. cut (exists n a s' w',
    (forall k j, (n <= k)%nat -> (n <= j)%nat -> rounds k body l j s w = Some (a, s', w')) /\ Q a s' w').
  { intros (n & a & s' & w' & E & Hq). exists n, a, s', w'. split; [|done]. intros k Hk. by apply E. }
  remember (measure l s w) as c eqn:Ec. revert l s w Ec Hi.
  induction (lt_wf c) as [c _ IH]. intros l s w Ec Hi.
  destruct (Hb l s w Hi) as (n & r & s1 & w1 & E & Hr).
  destruct r as [l'|a].
  - destruct Hr as [Hi1 Hc]. rewrite <- Ec in Hc. destruct (IH _ Hc l' s1 w1 eq_refl Hi1) as (n2 & a & s2 & w2 & E2 & Hq).
    exists (Datatypes.S (Nat.max n n2)), a, s2, w2. split; [|done]. intros [|k] j Hk Hj; [lia|].
    cbn [rounds]. unfold mbind, io_bind. rewrite E by lia. apply E2; lia.
  - exists (Datatypes.S n), a, s1, w1. split; [|done]. intros [|k] j Hk Hj; [lia|].
    cbn [rounds]. unfold mbind, io_bind. by rewrite E by lia.
Qed.
End rules.

Lemma ends_on {W S T A} (field : S -> T) (update : S -> T -> S) (m : io W T A) s (w : W) (Q : A -> S -> W -> Prop) :
  ends (field s) w m (fun a t w' => Q a (update s t) w') -> ends s w (on field update m) Q.
Proof.
  intros (n & a & t & w' & E & Hq). exists n, a, (update s t), w'. split; [|done].
  intros k Hk. unfold on. by rewrite E.
Qed.

Lemma ends_local {W S T A} (t : T) (m : io W T A) (s : S) (w : W) (Q : A -> S -> W -> Prop) :
  ends t w m (fun a _ w' => Q a s w') -> ends s w (local t m) Q.
Proof.
  intros (n & a & t' & w' & E & Hq). exists n, a, s, w'. split; [|done].
  intros k Hk. unfold local. by rewrite E.
Qed.

(** Runs the straight-line part of a computation: every system call leaves its equation
    in the context. *)
Ltac io_step :=
  cbv beta match;
  lazymatch goal with
  | |- ends _ _ (get ≫= _) _ => apply ends_get_bind
  | |- ends _ _ (modify _ ≫= _) _ => apply ends_modify_bind
  | |- ends _ _ (mret _ ≫= _) _ => apply ends_ret_bind
  | |- ends _ _ ((_ ≫= _) ≫= _) _ => apply ends_assoc
  | |- ends _ _ (sys _ ≫= _) _ => apply ends_sys_bind; intros ? ? ?
  | |- ends _ _ (mret _) _ => apply ends_ret
  | |- ends _ _ (modify _) _ => apply ends_modify
  end; cbv beta.

(** ** A kernel with a record of what happened *)

(** The kernel together with the descriptors that are open, the bytes that were sent, and
    whether a call was made on a descriptor that was not open. *)
Record traced (W : Type) :=
  Traced { outside : W; open_fds : list Z; written : list ascii; misused : bool }.
Arguments Traced {W}.
Arguments outside {W}.
Arguments open_fds {W}.
Arguments written {W}.
Arguments misused {W}.

Definition fd_of {A} (c : call A) : option Z :=
  match c with
  | Clock | Socket | USleep _ => None
  | GetFlags fd | SetFlags fd _ | Connect fd _ _ | Poll fd _ _ | SocketError fd | SendTimeout fd _
  | Send fd _ | Recv fd _ _ | Close fd => Some fd
  end.
Definition allowed {A} (c : call A) (l : list Z) : bool :=
  match fd_of c with Some fd => existsb (Z.eqb fd) l | None => true end.
Definition fds_after {A} (c : call A) : A -> list Z -> list Z :=
  match c with
  | Socket => fun fd l => if fd <? 0 then l else fd :: l
  | Close fd => fun _ l => remove_first (Z.eqb fd) l
  | _ => fun _ l => l
  end.
Definition bytes_sent {A} (c : call A) : A -> list ascii :=
  match c with
  | Send _ data => fun a => match a with Sent n => take n data | _ => [] end
  | _ => fun _ => []
  end.

#[export] Instance traced_kernel `{Kernel W} : Kernel (traced W) := {
  sys_call A c t :=
    let '(a, w) := sys_call A c (outside t) in
    (a, {| outside := w; open_fds := fds_after c a (open_fds t); written := written t ++ bytes_sent c a;
           misused := misused t || negb (allowed c (open_fds t)) |});
}.
#[export] Instance traced_laws `{KernelLaws W} : KernelLaws (traced W).
Proof.
  refine {| credit d t := credit d (outside t) |}.
  - intros A c t d. pose proof (credit_falls A c (outside t) d) as Hc. cbn. by destruct (sys_call A c (outside t)).
  - intros A c t d Hg. pose proof (credit_spent A c (outside t) d) as Hc. cbn in *.
    destruct (sys_call A c (outside t)). by apply Hc.
Defined.

Lemma traced_call `{Kernel W} {A} (c : call A) (t t' : traced W) a :
  sys_call A c t = (a, t') ->
  open_fds t' = fds_after c a (open_fds t) /\ written t' = written t ++ bytes_sent c a /\
  misused t' = misused t || negb (allowed c (open_fds t)).
Proof. cbn. destruct (sys_call A c (outside t)). by intros [= -> <-]. Qed.

Lemma call_credit `{KernelLaws W} {A} (c : call A) (w w' : W) a d :
  sys_call A c w = (a, w') ->
  (credit d w' <= credit d w)%nat /\ (goes_on d c a = true -> (credit d w' < credit d w)%nat).
Proof.
  intros E. pose proof (credit_falls A c w d). pose proof (credit_spent A c w d). rewrite E in *. by split.
Qed.
