(* ===== verification/NetClient.v ===== *)
(** * The TCP client (ADNetClient.cpp, ADNetClient.hpp of lib-jsonrpc-tcp)

    A connection to a server: a connect that is bounded in time, requests sent whole,
    responses put together from the segments by the framer.  The methods are
    computations over the members of the class and the system calls of file Io. *)
From S2P Require Import Prelude Framer Io.
Open Scope Z_scope.

Definition AD_NET_CLIENT_CONNECT_TIMEOUT_MS : Z := 3000.
Definition AD_NET_CLIENT_SEND_TIMEOUT_MS : Z := 5000.
Definition O_NONBLOCK : Z := 2048.

(** The members; [beg_] is the start of [CmdTimer].  Times are in nanoseconds (the code
    divides them into a [double] of seconds). *)
Record ADNetClient := {
  beg_ : Z;
  time_elapsed : Z;
  ip : string;
  port : Z;
  connected : bool;
  sockfd : Z;
  connect_timeout_ms : Z;
  rx_framer : ADJsonStreamFramer;
}.

Definition new_ADNetClient (now : Z) : ADNetClient :=
  {| beg_ := now; time_elapsed := 0; ip := EmptyString; port := -1; connected := false; sockfd := -1;
     connect_timeout_ms := AD_NET_CLIENT_CONNECT_TIMEOUT_MS;
     rx_framer := new_framer ADJSON_STREAM_FRAMER_DEFAULT_MAX_MSG |}.

(** Field updates. *)
Definition with_time (c : ADNetClient) (b e : Z) : ADNetClient :=
  {| beg_ := b; time_elapsed := e; ip := ip c; port := port c; connected := connected c; sockfd := sockfd c;
     connect_timeout_ms := connect_timeout_ms c; rx_framer := rx_framer c |}.
Definition with_peer (c : ADNetClient) (i : string) (p : Z) : ADNetClient :=
  {| beg_ := beg_ c; time_elapsed := time_elapsed c; ip := i; port := p; connected := connected c; sockfd := sockfd c;
     connect_timeout_ms := connect_timeout_ms c; rx_framer := rx_framer c |}.
Definition with_socket (c : ADNetClient) (up : bool) (fd : Z) (f : ADJsonStreamFramer) : ADNetClient :=
  {| beg_ := beg_ c; time_elapsed := time_elapsed c; ip := ip c; port := port c; connected := up; sockfd := fd;
     connect_timeout_ms := connect_timeout_ms c; rx_framer := f |}.
Definition set_connect_timeout (c : ADNetClient) (timeout_ms : Z) : ADNetClient :=
  {| beg_ := beg_ c; time_elapsed := time_elapsed c; ip := ip c; port := port c; connected := connected c; sockfd := sockfd c;
     connect_timeout_ms := timeout_ms; rx_framer := rx_framer c |}.
Definition with_framer (c : ADNetClient) (f : ADJsonStreamFramer) : ADNetClient :=
  with_socket c (connected c) (sockfd c) f.
Definition with_fd (c : ADNetClient) (fd : Z) : ADNetClient := with_socket c (connected c) fd (rx_framer c).

Definition get_ip_addr (c : ADNetClient) : string := ip c.
Definition is_connected (c : ADNetClient) : bool := connected c.
Definition get_communication_time (c : ADNetClient) : Z := time_elapsed c.

Section client.
Context {W : Type} `{Kernel W}.
Abbreviation M := (io W ADNetClient).

Definition monotonic_ms : M Z := ns ← sys Clock; mret (ns / 1000000).

(** [CmdTimer.reset()], and [time_elapsed = CmdTimer.elapsed()]. *)
Definition timer_reset : M () := ns ← sys Clock; modify (fun c => with_time c ns (time_elapsed c)).
Definition timer_stop : M () := ns ← sys Clock; modify (fun c => with_time c (beg_ c) (ns - beg_ c)).

(** What is left until a deadline, as the argument of [poll()]. *)
Definition poll_time (deadline now : Z) : Z :=
  let left := deadline - now in i32 (if left <? 0 then 0 else left).

(** ** Connecting *)

(** The loop that waits for a connection that is in progress. *)
Definition wait_connected (deadline : Z) : M Z :=
  forever (fun _ : () =>
    now ← monotonic_ms;
    c ← get;
    a ← sys (Poll (sockfd c) POLLOUT (poll_time deadline now));
    match a with
    | PollIntr => mret (inl ())
    | PollFailed | PollTimeout => mret (inr (-1))
    | PollEvent =>
        e ← sys (SocketError (sockfd c));
        mret (inr (if bool_decide (e = Some 0) then 0 else -1))
    end) ().

Definition close_socket : M () :=
  c ← get;
  _ ← sys (Close (sockfd c));
  modify (fun c => with_fd c (-1)).

(** [sock_connect()] *)
Definition sock_connect : M Z :=
  c ← get;
  if connected c || (port c <? 1) || (ip c =? EmptyString)%string then mret (-1)
  else
    fd ← sys Socket;
    _ ← modify (fun c => with_fd c fd);
    if fd <? 0 then mret (-1)
    else
      flags ← sys (GetFlags fd);
      nonblocking ← (if flags <? 0 then mret false
                     else r ← sys (SetFlags fd (Z.lor flags O_NONBLOCK)); mret (0 <=? r));
      if negb nonblocking then _ ← close_socket; mret (-1)
      else
        a ← sys (Connect fd (ip c) (u16 (port c)));
        rc ← match a with
             | ConnectDone => mret 0
             | ConnectPending => now ← monotonic_ms; wait_connected (now + connect_timeout_ms c)
             | ConnectFailed => mret (-1)
             end;
        blocking ← (if rc <? 0 then mret false
                    else r ← sys (SetFlags fd flags); mret (0 <=? r));
        if negb blocking then _ ← close_socket; mret (-1)
        else
          _ ← sys (SendTimeout fd AD_NET_CLIENT_SEND_TIMEOUT_MS);
          _ ← modify (fun c => with_socket c true (sockfd c) (reset (rx_framer c)));
          mret 0.

(** [sock_connect(ip_addr, port_num)], with a string and with a pointer that may be
    null. *)
Definition sock_connect_str (ip_addr : string) (port_num : Z) : M Z :=
  c ← get;
  if connected c || (port_num <? 1) || (ip_addr =? EmptyString)%string then mret (-1)
  else _ ← modify (fun c => with_peer c (String.substring 0 15 ip_addr) port_num); sock_connect.
Definition sock_connect_ptr (ip_addr : option string) (port_num : Z) : M Z :=
  match ip_addr with Some i => sock_connect_str i port_num | None => mret (-1) end.

Definition sock_disconnect : M Z :=
  c ← get;
  _ ← (if connected c
       then _ ← sys (Close (sockfd c)); modify (fun c => with_socket c false (-1) (rx_framer c))
       else mret ());
  _ ← modify (fun c => with_framer c (reset (rx_framer c)));
  mret 0.

(** [ADNetClient(ip_addr, prt)] after the members have been set. *)
Definition construct (ip_addr : string) (prt : Z) : M () :=
  _ ← modify (fun c => with_peer c (String.substring 0 15 ip_addr) prt);
  _ ← sock_connect;
  mret ().

(** ** Sending *)

(** [while (recv(..., MSG_DONTWAIT) > 0);] *)
Definition drain_socket (fd : Z) : M () :=
  forever (fun _ : () =>
    a ← sys (Recv fd 1024 true);
    mret (match a with Received (_ :: _) => inl () | _ => inr () end)) ().

(** The loop of [send_data()]; the local is [total_sent]. *)
Definition send_loop (fd : Z) (send_buf : list ascii) : M Z :=
  forever (fun total_sent : nat =>
    if (total_sent <? length send_buf)%nat then
      a ← sys (Send fd (drop total_sent send_buf));
      mret (match a with
            | SendIntr => inl total_sent
            | SendFailed | Sent O => inr (-1)
            | Sent n => inl (total_sent + n)%nat
            end)
    else mret (inr 0)) 0%nat.

Definition send_data (send_buf : list ascii) : M Z :=
  c ← get;
  if negb (connected c) || bool_decide (send_buf = []) then mret (-1)
  else
    _ ← timer_reset;
    _ ← modify (fun c => with_framer c (reset (rx_framer c)));
    _ ← drain_socket (sockfd c);
    send_loop (sockfd c) send_buf.

(** [send_data()] of a C string: a text up to its NUL, or null. *)
Definition send_data_str (send_buf : option (list ascii)) : M Z :=
  match send_buf with Some b => send_data b | None => mret (-1) end.

(** ** Receiving *)

(** [receive_data()]: what the buffer holds when something was written to it. *)
Definition receive_data (buf_total_size : Z) : M (Z * option (list ascii)) :=
  c ← get;
  if negb (connected c) || (buf_total_size <=? 0) then mret (-1, None)
  else
    a ← sys (Recv (sockfd c) (buf_total_size - 1) false);
    mret (match a with Received data => (Z.of_nat (length data), Some data) | _ => (-1, None) end).

(** [wait_readable()] *)
Definition wait_readable (timeout_ms : Z) : M Z :=
  now ← monotonic_ms;
  let deadline := now + (if 0 <? timeout_ms then timeout_ms else 0) in
  forever (fun _ : () =>
    now ← monotonic_ms;
    c ← get;
    a ← sys (Poll (sockfd c) POLLIN (poll_time deadline now));
    mret (match a with
          | PollIntr => inl ()
          | PollFailed => inr (-1)
          | PollEvent => inr 1
          | PollTimeout => inr 0
          end)) ().

(** [receive_data_blocking()] *)
Definition receive_data_blocking (buf_total_size timeout_ms : Z) : M (Z * option (list ascii)) :=
  c ← get;
  if negb (connected c) || (buf_total_size <=? 0) then mret (-1, None)
  else
    _ ← timer_reset;
    r ← wait_readable timeout_ms;
    out ← (if r =? 1 then
             a ← forever (fun _ : () =>
                   a ← sys (Recv (sockfd c) (buf_total_size - 1) true);
                   mret (match a with RecvIntr => inl () | _ => inr a end)) ();
             mret (match a with
                   | Received (x :: data) => (Z.of_nat (length (x :: data)), Some (x :: data))
                   | _ => (-1, Some [])
                   end)
           else mret (-1, Some []));
    _ ← timer_stop;
    mret out.

(** The loop of [receive_json_blocking()]: the result, and [out], which is empty unless
    a message was taken. *)
Definition receive_json_loop (deadline : Z) : M (Z * list ascii) :=
  forever (fun _ : () =>
    c ← get;
    let '(msg, f) := next (rx_framer c) in
    match msg with
    | Some out => _ ← modify (fun c => with_framer c f); mret (inr (i32 (Z.of_nat (length out)), out))
    | None =>
        if has_error (rx_framer c) then mret (inr (-2, []))
        else
          now ← monotonic_ms;
          let left := deadline - now in
          readable ← (if left <=? 0 then mret 0 else wait_readable (i32 left));
          if negb (readable =? 1) then mret (inr (-1, []))
          else
            a ← sys (Recv (sockfd c) 4096 true);
            match a with
            | RecvIntr | RecvAgain => mret (inl ())
            | RecvFailed | Received [] => mret (inr (-2, []))
            | Received chunk =>
                _ ← modify (fun c => with_framer c (feed (rx_framer c) chunk).2);
                mret (inl ())
            end
    end) ().

(** [receive_json_blocking()] into a string *)
Definition receive_json_blocking (timeout_ms : Z) : M (Z * list ascii) :=
  c ← get;
  if negb (connected c) then mret (-1, [])
  else
    _ ← timer_reset;
    now ← monotonic_ms;
    r ← receive_json_loop (now + (if 0 <? timeout_ms then timeout_ms else 0));
    _ ← timer_stop;
    mret r.

(** [receive_json_blocking()] into a buffer *)
Definition receive_json_buffer (buf_total_size timeout_ms : Z) : M (Z * option (list ascii)) :=
  c ← get;
  if negb (connected c) || (buf_total_size <=? 0) then mret (-1, None)
  else
    '(rc, msg) ← receive_json_blocking timeout_ms;
    if rc <? 0 then mret (-1, Some [])
    else
      let n := Nat.min (length msg) (Z.to_nat (buf_total_size - 1)) in
      mret (i32 (Z.of_nat n), Some (take n msg)).

(** [~ADNetClient()] *)
Definition destruct_client : M () := _ ← sock_disconnect; mret ().
End client.
