(* ===== verification/NetClientSpec.v ===== *)
(** * Correctness of the TCP client

    Every method of file NetClient ends, keeps the invariant of the connection and does
    what it says: descriptors are opened and closed in pairs, a request is sent whole,
    and what is received is one complete message. *)
From S2P Require Import Prelude Framer Io NetClient.
Open Scope Z_scope.

(** ** The framer's part of the invariant *)

Record wellframed (f : ADJsonStreamFramer) : Prop := {
  wf_ok : framer_ok f;
  wf_limit : max_msg f = ADJSON_STREAM_FRAMER_DEFAULT_MAX_MSG;
  wf_mode : mode_wf (abs_mode f);
  wf_ready : Forall message (ready f);
  wf_partial : mode_bounded ADJSON_STREAM_FRAMER_DEFAULT_MAX_MSG (abs_mode f);
  wf_bound : Forall (fun m => Z.of_nat (length m) <= ADJSON_STREAM_FRAMER_DEFAULT_MAX_MSG) (ready f);
}.

Lemma new_wellframed : wellframed (new_framer ADJSON_STREAM_FRAMER_DEFAULT_MAX_MSG).
Proof. split; done. Qed.

Lemma reset_wellframed f : wellframed f -> wellframed (reset f).
Proof. intros [H1 H2 _ _ _ _]. split; try done; by apply reset_ok. Qed.

Lemma feed_wellframed f data : wellframed f -> wellframed (feed f data).2.
Proof.
  intros [H1 H2 H3 H4 H5 H6]. destruct (feed_refines f data H1) as [Hm Hr Hx Ho _]. rewrite H2 in *.
  destruct (spec_run_wf ADJSON_STREAM_FRAMER_DEFAULT_MAX_MSG _ data H3) as [Hw Hf].
  destruct (spec_run_bounded ADJSON_STREAM_FRAMER_DEFAULT_MAX_MSG _ data H5) as [Hb Hg].
  split; rewrite ?Hm, ?Hr; try done; by apply Forall_app.
Qed.

Lemma next_wellframed f :
  wellframed f ->
  match next f with
  | (Some m, f') => wellframed f' /\ message m /\ Z.of_nat (length m) <= ADJSON_STREAM_FRAMER_DEFAULT_MAX_MSG
  | (None, f') => f' = f
  end.
Proof.
  intros [H1 H2 H3 H4 H5 H6]. pose proof (next_ok f H1) as Ho. unfold next in *.
  destruct (ready f) as [|m r] eqn:E; [done|]. apply Forall_cons in H4 as [? ?], H6 as [? ?].
  split_and!; [|done|done]. by split.
Qed.

Lemma message_length m : message m -> (0 < length m)%nat.
Proof. intros (o & b & c & -> & _). simpl. lia. Qed.

(** ** The invariant *)

(** The descriptor is valid exactly while the client is connected. *)
Definition client_ok (c : ADNetClient) : Prop :=
  wellframed (rx_framer c) /\ (if connected c then 0 <= sockfd c else sockfd c < 0).

Lemma new_client_ok now : client_ok (new_ADNetClient now).
Proof. split; [apply new_wellframed|done]. Qed.

Lemma with_time_ok c b e : client_ok (with_time c b e) <-> client_ok c.
Proof. done. Qed.
Lemma with_framer_ok c f : wellframed f -> client_ok c -> client_ok (with_framer c f).
Proof. intros Hf [_ ?]. by split. Qed.
Lemma reset_client_ok c : client_ok c -> client_ok (with_framer c (reset (rx_framer c))).
Proof. intros [? ?]. by apply with_framer_ok; [apply reset_wellframed|]. Qed.
#[export] Hint Resolve with_framer_ok reset_client_ok feed_wellframed reset_wellframed : rpc.

Section spec.
Context {K : Type} `{KernelLaws K}.
Implicit Types (c s : ADNetClient) (w : traced K).

(** The descriptors that are open are the connection's. *)
Definition own_fds (c : ADNetClient) : list Z := if connected c then [sockfd c] else [].
Definition good (c : ADNetClient) (w : traced K) : Prop :=
  client_ok c /\ open_fds w = own_fds c /\ misused w = false.

(** Nothing was opened, closed or sent, and no call was made on a closed descriptor. *)
Definition quiet (w w' : traced K) : Prop :=
  open_fds w' = open_fds w /\ written w' = written w /\ misused w' = misused w /\
  forall d, (credit d w' <= credit d w)%nat.

#[export] Instance quiet_preorder : PreOrder quiet.
Proof.
  split; [by intros w; split_and!|]. intros w1 w2 w3 (? & ? & ? & Hc) (? & ? & ? & Hd).
  split_and!; [congruence|congruence|congruence|]. intros d. by rewrite Hd.
Qed.

Definition silent {A} (a : call A) : bool :=
  match a with Socket | Close _ | Send _ _ => false | _ => true end.
Lemma quiet_call {A} (a : call A) w w1 w' r :
  quiet w w1 -> sys_call A a w1 = (r, w') -> silent a = true -> allowed a (open_fds w) = true -> quiet w w'.
Proof.
  intros Hq E Hs Ha. transitivity w1; [done|]. destruct Hq as (Hq & _). destruct (traced_call a w1 w' r E) as (Ho & Hw & Hm).
  unfold quiet. rewrite Ho, Hw, Hm, Hq, Ha, orb_false_r. split_and!; [| |done|].
  - by destruct a.
  - destruct a; simpl; try done; by rewrite app_nil_r.
  - intros d. apply (call_credit a w1 w' r d E).
Qed.
Lemma good_quiet c w w' : good c w -> quiet w w' -> good c w'.
Proof. intros (? & ? & ?) (Hq & _ & Hm & _). split_and!; [done|congruence|congruence]. Qed.
Lemma allowed_own fd l : l = [fd] -> existsb (Z.eqb fd) l = true.
Proof. intros ->. simpl. by rewrite Z.eqb_refl. Qed.

End spec.

(** Closes the goal that the steps were quiet, from the equations of the calls. *)
Ltac quiet :=
  first [reflexivity|
  match goal with
  | E : sys_call _ _ ?w = (_, ?w') |- quiet _ ?w' =>
      refine (quiet_call _ _ w _ _ _ E eq_refl _); [quiet|first [reflexivity|apply allowed_own; first [assumption|simpl; congruence]]]
  | E : quiet ?w ?w' |- quiet _ ?w' => transitivity w; [quiet|exact E]
  end].

(** What the calls made so far leave of the credit for the deadline [d]. *)
Ltac credits d :=
  repeat match goal with
  | E : sys_call _ ?c ?w = (?a, ?w') |- _ =>
      let C1 := fresh "C" in let C2 := fresh "C" in
      destruct (call_credit c w w' a d E) as [C1 C2]; simpl goes_on in C2;
      try specialize (C2 eq_refl); rewrite ?Z.ltb_lt in C2; clear E
  | E : quiet _ _ |- _ => destruct E as (_ & _ & _ & E); specialize (E d)
  end; lia.

Section methods.
Context {K : Type} `{KernelLaws K}.
Implicit Types (c s : ADNetClient) (w : traced K).

(** ** Waiting *)

Lemma wait_connected_ends d s w :
  open_fds w = [sockfd s] ->
  ends s w (wait_connected d) (fun r s' w' => (r = 0 \/ r = -1) /\ s' = s /\ quiet w w').
Proof.
  intros Ho. apply (ends_forever (fun _ _ w => credit 0 w) _ (fun _ s' w' => s' = s /\ quiet w w')); [|by split].
  intros [] s1 w1 [-> Hq]. unfold monotonic_ms. repeat io_step.
  match goal with r : poll_answer |- _ => destruct r end; repeat io_step.
  1: { split; [split; [done|quiet]|credits 0]. }
  1, 2: by split_and!; [right|done|quiet].
  split_and!; [case_bool_decide; auto|done|quiet].
Qed.

Lemma wait_readable_ends timeout s w :
  open_fds w = [sockfd s] ->
  ends s w (wait_readable timeout) (fun r s' w' => s' = s /\ quiet w w').
Proof.
  intros Ho. unfold wait_readable, monotonic_ms. repeat io_step.
  apply (ends_forever (fun _ _ w => credit 0 w) _ (fun _ s' w' => s' = s /\ quiet w w')); [|by split; [|quiet]].
  intros [] s1 w1 [-> Hq]. repeat io_step.
  match goal with r : poll_answer |- _ => destruct r end; try (by split; [|quiet]).
  split; [split; [done|quiet]|credits 0].
Qed.

Lemma drain_ends fd s w :
  open_fds w = [fd] -> ends s w (drain_socket fd) (fun _ s' w' => s' = s /\ quiet w w').
Proof.
  intros Ho. apply (ends_forever (fun _ _ w => credit 0 w) _ (fun _ s' w' => s' = s /\ quiet w w')); [|by split].
  intros [] s1 w1 [-> Hq]. repeat io_step.
  destruct a as [| | |[|x l]]; try (by split; [|quiet]). split; [split; [done|quiet]|credits 0].
Qed.

(** ** Connecting *)

Lemma close_ends s w :
  open_fds w = [sockfd s] ->
  ends s w close_socket (fun _ s' w' =>
    s' = with_fd s (-1) /\ open_fds w' = [] /\ written w' = written w /\ misused w' = misused w).
Proof.
  intros Ho. unfold close_socket. repeat io_step.
  destruct (traced_call _ _ _ _ H1) as (-> & -> & ->). unfold allowed. rewrite Ho. simpl.
  by rewrite Z.eqb_refl, app_nil_r, orb_false_r.
Qed.

(** The [if] that sets the flags of the descriptor. *)
Lemma set_flags_ends fd failed flags s w :
  open_fds w = [fd] ->
  ends s w (if failed : bool then mret false else r ← sys (SetFlags fd flags); mret (0 <=? r))
    (fun _ s' w' => s' = s /\ quiet w w').
Proof. intros Ho. destruct failed; repeat io_step; by split; [|quiet]. Qed.

(** What [sock_connect()] promises from the fields [s]. *)
Definition connect_post s w (r : Z) s' (w' : traced K) : Prop :=
  good s' w' /\ written w' = written w /\
  (r = 0 /\ connected s = false /\ connected s' = true /\ rx_framer s' = reset (rx_framer s) \/
   r = -1 /\ connected s' = connected s /\ rx_framer s' = rx_framer s).

(** The error exits after [socket()]: the descriptor is closed. *)
Lemma give_up_ends s w fd w1 :
  client_ok s -> connected s = false -> open_fds w1 = [fd] -> written w1 = written w -> misused w1 = false ->
  ends (with_fd s fd) w1 (_ ← close_socket; mret (-1)) (connect_post s w).
Proof.
  intros [Hf _] Ec Ho Hw Hm. eapply ends_bind; [by apply close_ends|]. intros [] s2 w2 (-> & Ho2 & Hw2 & Hm2).
  io_step. split_and!; [|by rewrite Hw2|by right]. split; [by split; simpl; rewrite ?Ec|].
  split; [|congruence]. unfold own_fds. simpl. by rewrite Ec.
Qed.

(** [sock_connect()]: the connection is made with an empty framer and its descriptor is
    the only one open, or it is not made and none is; nothing is sent. *)
Lemma sock_connect_ends s w : good s w -> ends s w sock_connect (connect_post s w).
Proof.
  intros (Hok & Ho & Hm). unfold sock_connect. io_step. destruct (connected s || _ || _) eqn:Eg.
  { io_step. split_and!; [by split|done|by right]. }
  apply orb_false_iff in Eg as [[Ec _]%orb_false_iff _].
  unfold own_fds in Ho. rewrite Ec in Ho. repeat io_step.
  assert (open_fds w' = (if a <? 0 then [] else [a]) /\ written w' = written w /\ misused w' = false) as (Ho1 & Hw1 & Hm1).
  { destruct (traced_call _ _ _ _ H1) as (-> & -> & ->). rewrite Ho, Hm. simpl. by rewrite app_nil_r. }
  destruct (Z.ltb_spec a 0) as [Ha|Ha].
  { io_step. destruct Hok. split_and!; [|done|by right]. split; [split; [done|simpl; by rewrite Ec]|].
    split; [|done]. unfold own_fds. simpl. by rewrite Ec, Ho1. }
  io_step. rename a0 into flags.
  assert (quiet w' w'0) as Hq0 by quiet. pose proof (proj1 Hq0) as Ho2.
  eapply ends_bind; [apply set_flags_ends; congruence|]. intros nonblocking s1 w1 [-> Hq1].
  assert (quiet w' w1) as Hq by quiet. clear Hq0 Ho2 Hq1 H2. destruct nonblocking; cbn [negb].
  2: { destruct Hq as (? & ? & ? & _). apply give_up_ends; first [done|congruence]. }
  io_step. eapply (ends_bind _ _ _ _ (fun r s2 w2 => (r = 0 \/ r = -1) /\ s2 = with_fd s a /\ quiet w' w2)).
  { destruct a0; [io_step; split_and!; [by left|done|quiet]| |io_step; split_and!; [by right|done|quiet]].
    unfold monotonic_ms. repeat io_step. assert (quiet w' w'2) as Hq2 by quiet.
    eapply ends_conseq; [apply wait_connected_ends; rewrite (proj1 Hq2); exact Ho1|].
    intros r s2 w2 (? & -> & ?). split_and!; [done|done|]. by transitivity w'2. }
  intros rc s2 w2 (_ & -> & Hq2). pose proof (proj1 Hq2). eapply ends_bind; [apply set_flags_ends; congruence|].
  intros blocking s3 w3 [-> Hq3].
  assert (quiet w' w3) as Hq4 by (by transitivity w2). clear Hq Hq2 Hq3 H2.
  destruct blocking; cbn [negb]; [|destruct Hq4 as (? & ? & ? & _); apply give_up_ends; first [done|congruence]].
  repeat io_step.
  match goal with E : sys_call _ (SendTimeout _ _) _ = (_, ?w4) |- _ =>
    assert (quiet w' w4) as (Ho4 & Hw4 & Hm4 & _) by quiet end.
  destruct Hok as [Hf _].
  split_and!; [|congruence|left; by split_and!].
  split; [split; [by apply reset_wellframed|done]|]. unfold own_fds. simpl. split; congruence.
Qed.

Lemma sock_connect_str_ends ip_addr port_num s w :
  good s w ->
  ends s w (sock_connect_str ip_addr port_num) (fun r s' w' => good s' w' /\ written w' = written w /\
    (r = 0 /\ connected s' = true /\ ready (rx_framer s') = [] \/ r = -1 /\ connected s' = connected s)).
Proof.
  intros Hg. unfold sock_connect_str. io_step. destruct (_ || _).
  - io_step. split_and!; [done|done|by right].
  - io_step. eapply ends_conseq; [by apply sock_connect_ends|].
    intros r s' w' (Hg' & Hw & [(-> & _ & Hc & Hf) | (-> & Hc & _)]).
    + split_and!; [done|done|left]. by rewrite Hf.
    + split_and!; [done|done|by right].
Qed.

Lemma sock_disconnect_ends s w :
  good s w ->
  ends s w sock_disconnect (fun r s' w' =>
    r = 0 /\ good s' w' /\ connected s' = false /\ written w' = written w).
Proof.
  intros ([Hf Hc] & Ho & Hm). unfold sock_disconnect. io_step. unfold own_fds in Ho. destruct (connected s) eqn:Ec.
  - repeat io_step. destruct (traced_call _ _ _ _ H1) as (Ho1 & Hw1 & Hm1). rewrite Ho in Ho1.
    unfold allowed in Hm1. rewrite Ho, Hm in Hm1. simpl in Ho1, Hm1. rewrite Z.eqb_refl in Ho1, Hm1.
    split_and!; [done| |done|by rewrite Hw1, app_nil_r].
    split; [split; [by apply reset_wellframed|simpl; lia]|done].
  - eapply (ends_bind _ _ _ _ (fun _ s1 w1 => s1 = s /\ w1 = w)); [by io_step|]. intros [] s1 w1 [-> ->].
    repeat io_step. split_and!; [done| |done|done].
    split; [split; [by apply reset_wellframed|simpl; by rewrite Ec]|]. unfold own_fds. simpl. by rewrite Ec.
Qed.

(** ** Sending *)

Lemma send_loop_ends fd data s w :
  open_fds w = [fd] ->
  ends s w (send_loop fd data) (fun r s' w' => s' = s /\ open_fds w' = [fd] /\ misused w' = misused w /\
    (r = 0 /\ written w' = written w ++ data \/
     r = -1 /\ exists n, (n < length data)%nat /\ written w' = written w ++ take n data)).
Proof.
  intros Ho0. apply (ends_forever (fun n _ w => credit 0 w + (length data - n))%nat _
    (fun n s' w' => s' = s /\ open_fds w' = [fd] /\ misused w' = misused w /\ written w' = written w ++ take n data)).
  2: { split_and!; [done|done|done|by rewrite app_nil_r]. }
  intros n s1 w1 (-> & Ho & Hm & Hw). destruct (Nat.ltb_spec n (length data)) as [Hn|Hn].
  2: { io_step. split_and!; [done|done|done|left]. by rewrite Hw, take_ge by lia. }
  repeat io_step. destruct (traced_call _ _ _ _ H1) as (Ho1 & Hw1 & Hm1). simpl in Ho1, Hw1.
  unfold allowed in Hm1. simpl in Hm1. rewrite (allowed_own fd) in Hm1 by done. rewrite orb_false_r in Hm1.
  destruct (call_credit _ _ _ _ 0 H1) as [C1 C2]. simpl goes_on in C2.
  destruct a as [| |[|m]]; rewrite ?app_nil_r in Hw1.
  - specialize (C2 eq_refl). split; [split_and!; congruence|lia].
  - split_and!; [done|congruence|congruence|right]. split; [done|]. exists n. split; [done|congruence].
  - split_and!; [done|congruence|congruence|right]. split; [done|]. exists n. split; [done|congruence].
  - split; [|lia]. split_and!; [done|congruence|congruence|]. rewrite Hw1, Hw, <- app_assoc. f_equal.
    by rewrite take_take_drop.
Qed.

(** [send_data()]: the bytes on the wire are the whole request, or a proper prefix of it
    and the failure is reported; a response received earlier is forgotten. *)
Lemma send_data_ends data s w :
  good s w ->
  ends s w (send_data data) (fun r s' w' => good s' w' /\ connected s' = connected s /\
    (r = 0 /\ connected s = true /\ data <> [] /\ written w' = written w ++ data /\ ready (rx_framer s') = [] \/
     r = -1 /\ exists n, (n < length data \/ n = 0)%nat /\ written w' = written w ++ take n data)).
Proof.
  intros Hg. unfold send_data. io_step. destruct (connected s) eqn:Ec; cbn [negb orb].
  2: { io_step. split_and!; [done|done|right]. split; [done|]. exists 0%nat. split; [by right|by rewrite app_nil_r]. }
  case_bool_decide as Hd.
  { io_step. split_and!; [done|done|right]. split; [done|]. exists 0%nat. split; [by right|by rewrite app_nil_r]. }
  destruct Hg as ([Hf Hc] & Hg & Hm). unfold own_fds in Hg. rewrite Ec in Hc, Hg.
  unfold timer_reset. repeat io_step. assert (quiet w w') as Hq0 by quiet. pose proof (proj1 Hq0).
  eapply ends_bind; [apply drain_ends; simpl; congruence|]. intros [] s1 w1 [-> Hq].
  assert (quiet w w1) as (Ho & Hw & Hm1 & _) by quiet.
  eapply ends_conseq; [apply send_loop_ends; simpl; congruence|].
  intros r s2 w2 (-> & Ho2 & Hm2 & Hr). split_and!; [|done|].
  - split; [split; [by apply reset_wellframed|simpl; by rewrite Ec]|]. unfold own_fds. simpl. rewrite Ec. split; congruence.
  - rewrite Hw in Hr. destruct Hr as [(-> & Hr) | (-> & n & Hn & Hr)].
    + left. by split_and!.
    + right. split; [done|]. exists n. split; [by left|done].
Qed.

(** ** Receiving *)

(** One complete message and its length, or nothing. *)
Definition one_message (r : Z * list ascii) : Prop :=
  r.1 = Z.of_nat (length r.2) /\ message r.2 /\ Z.of_nat (length r.2) <= ADJSON_STREAM_FRAMER_DEFAULT_MAX_MSG \/
  (r.1 = -1 \/ r.1 = -2) /\ r.2 = [].

(** The connection is the same and its invariant holds, whatever the timer and the
    framer did; nothing was sent. *)
Definition same_link s w s' (w' : traced K) : Prop :=
  connected s' = connected s /\ sockfd s' = sockfd s /\ wellframed (rx_framer s') /\ quiet w w'.

Lemma same_link_good s w s' w' : good s w -> same_link s w s' w' -> good s' w' /\ connected s' = connected s /\ written w' = written w.
Proof.
  intros ([_ Hc] & Ho & Hm) (Ec & Ef & Hf & Ho' & Hw & Hm' & _).
  split_and!; [|done|done]. split; [split; [done|by rewrite Ec, Ef]|].
  unfold own_fds in *. rewrite Ec, Ef. split; congruence.
Qed.

Lemma receive_json_loop_ends deadline s w :
  wellframed (rx_framer s) -> open_fds w = [sockfd s] ->
  ends s w (receive_json_loop deadline) (fun r s' w' => one_message r /\ same_link s w s' w').
Proof.
  intros Hf0 Ho. apply (ends_forever (fun _ _ w => credit deadline w) _
    (fun _ s' w' => same_link s w s' w')); [|by split_and!].
  intros [] s1 w1 (Hc & Hfd & Hf & Hq). io_step. pose proof (next_wellframed _ Hf) as Hn.
  destruct (next (rx_framer s1)) as [[m|] f].
  { destruct Hn as (Hf' & Hm & Hb). repeat io_step. split; [|by split_and!]. left. split_and!; [|done|done].
    apply i32_id. unfold int_min, int_max, ADJSON_STREAM_FRAMER_DEFAULT_MAX_MSG in *. simpl. lia. }
  clear Hn. destruct (has_error (rx_framer s1)); [io_step; split; [right; auto|by split_and!]|].
  unfold monotonic_ms. repeat io_step.
  eapply (ends_bind _ _ _ _ (fun r s2 w2 => s2 = s1 /\ quiet w w2 /\ (credit deadline w2 <= credit deadline w')%nat /\
    (r = 1 -> a / 1000000 < deadline))).
  { assert (quiet w w') as Hq1 by quiet. destruct (Z.leb_spec (deadline - a / 1000000) 0); [io_step; split_and!; [done|done|done|lia]|].
    eapply ends_conseq; [apply wait_readable_ends; rewrite (proj1 Hq1); congruence|].
    intros r s2 w2 [-> Hq2]. split_and!; [done|quiet|credits deadline|lia]. }
  intros readable s2 w2 (-> & Hq2 & Hcr & Hd). destruct (Z.eqb_spec readable 1) as [Hr|Hr]; cbn [negb].
  2: { io_step. split; [right; auto|by split_and!]. }
  specialize (Hd Hr). rewrite Hfd. repeat io_step. destruct a0 as [| | |[|x data]]; repeat io_step.
  1, 2: split; [split_and!; [done|done|done|quiet]|clear Hq Hq2; credits deadline].
  1, 2: by split; [right; auto|split_and!; [done|done|done|quiet]].
  split; [split_and!; [done|done|by apply feed_wellframed|quiet]|clear Hq Hq2; credits deadline].
Qed.

(** [receive_json_blocking()]: it returns by its deadline with one complete message and
    its length, or with -1 or -2 and nothing. *)
Lemma receive_json_blocking_ends timeout s w :
  good s w ->
  ends s w (receive_json_blocking timeout) (fun r s' w' =>
    one_message r /\ (connected s = false -> r = (-1, [])) /\ same_link s w s' w').
Proof.
  intros ([Hf _] & Ho & _). unfold receive_json_blocking, own_fds in *. io_step. destruct (connected s) eqn:Ec; cbn [negb].
  2: { io_step. by split_and!; [right; auto|..]. }
  unfold timer_reset, monotonic_ms. repeat io_step. assert (quiet w w'0) as Hq0 by quiet. pose proof (proj1 Hq0).
  eapply ends_bind; [apply receive_json_loop_ends; [done|simpl; congruence]|]. intros r s1 w1 (Hr & Hc & Hfd & Hf' & Hq).
  unfold timer_stop. repeat io_step. split; [done|]. split; [done|]. split_and!; [simpl in *; congruence|done|done|quiet].
Qed.

Lemma receive_json_buffer_ends size timeout s w :
  good s w ->
  ends s w (receive_json_buffer size timeout) (fun r s' w' =>
    (r = (-1, None) \/ r = (-1, Some []) \/
     exists msg, message msg /\ r.2 = Some (take (Z.to_nat (size - 1)) msg) /\ 0 <= r.1) /\ same_link s w s' w').
Proof.
  intros Hg. unfold receive_json_buffer. io_step. destruct (_ || _).
  { io_step. destruct Hg as ([Hf _] & _). split; [by left|by split_and!]. }
  eapply ends_bind; [by apply receive_json_blocking_ends|].
  intros [rc msg] s1 w1 (Hr & _ & Hl). destruct Hr as [(E & Hm & Hb) | ([E|E] & _)]; simpl in E; subst rc.
  2, 3: simpl; io_step; split; [auto|done].
  rewrite (proj2 (Z.ltb_ge _ _)) by lia. io_step. split; [right; right|done].
  exists msg. simpl in *. split_and!; [done| |].
  - by rewrite take_min_length.
  - rewrite i32_id; [lia|]. unfold int_min, int_max, ADJSON_STREAM_FRAMER_DEFAULT_MAX_MSG in *. simpl in *. lia.
Qed.

Lemma receive_data_ends size s w :
  good s w -> ends s w (receive_data size) (fun _ s' w' => same_link s w s' w').
Proof.
  intros ([Hf _] & Ho & _). unfold receive_data, own_fds in *. io_step.
  destruct (connected s); cbn [negb orb]; [|io_step; by split_and!].
  destruct (_ <=? _); [io_step; by split_and!|]. repeat io_step. split_and!; [done|done|done|quiet].
Qed.

Lemma receive_data_blocking_ends size timeout s w :
  good s w ->
  ends s w (receive_data_blocking size timeout) (fun r s' w' =>
    (r.1 = -1 \/ exists data, data <> [] /\ r = (Z.of_nat (length data), Some data)) /\ same_link s w s' w').
Proof.
  intros ([Hf _] & Ho & _). unfold receive_data_blocking, own_fds in *. io_step.
  destruct (connected s) eqn:Ec; cbn [negb orb]; [|io_step; split; [by left|by split_and!]].
  destruct (_ <=? _); [io_step; split; [by left|by split_and!]|].
  unfold timer_reset. repeat io_step. assert (quiet w w') as Hq0 by quiet. pose proof (proj1 Hq0).
  eapply ends_bind; [apply wait_readable_ends; simpl; congruence|]. intros r s1 w1 [-> Hq].
  assert (quiet w w1) as Hq1 by quiet.
  eapply (ends_bind _ _ _ _ (fun r s2 w2 => s2 = with_time s a (time_elapsed s) /\ quiet w w2 /\
    (r.1 = -1 \/ exists data, data <> [] /\ r = (Z.of_nat (length data), Some data)))).
  { destruct (r =? 1); [|io_step; by split_and!; [|quiet|left]].
    eapply ends_bind.
    - apply (ends_forever (fun _ _ w => credit 0 w) _
        (fun _ s' w' => s' = with_time s a (time_elapsed s) /\ quiet w w')
        (fun _ s' w' => s' = with_time s a (time_elapsed s) /\ quiet w w')); [|by split].
      intros [] s2 w2 [-> Hq2]. repeat io_step.
      destruct a0; try (by split; [|quiet]). split; [split; [done|quiet]|credits 0].
    - intros a0 s2 w2 [-> Hq2]. io_step. split_and!; [done|quiet|].
      destruct a0 as [| | |[|x l]]; try (by left). right. by exists (x :: l). }
  intros out s2 w2 (-> & Hq2 & Hr). unfold timer_stop. repeat io_step. split; [done|].
  split_and!; [simpl; congruence|done|done|quiet].
Qed.

(** ** Any use of a client *)

(** The public methods, and a program that calls them. *)
Inductive client_call :=
| CallConnect (ip_addr : string) (port_num : Z)
| CallConnectPtr (ip_addr : option string) (port_num : Z)
| CallReconnect
| CallDisconnect
| CallSend (data : list ascii)
| CallSendString (data : option (list ascii))
| CallReceive (size : Z)
| CallReceiveBlocking (size timeout : Z)
| CallReceiveJson (timeout : Z)
| CallReceiveBuffer (size timeout : Z)
| CallSetTimeout (ms : Z).

Definition perform `{Kernel X} (a : client_call) : io X ADNetClient () :=
  match a with
  | CallConnect i p => _ ← sock_connect_str i p; mret ()
  | CallConnectPtr i p => _ ← sock_connect_ptr i p; mret ()
  | CallReconnect => _ ← sock_connect; mret ()
  | CallDisconnect => _ ← sock_disconnect; mret ()
  | CallSend d => _ ← send_data d; mret ()
  | CallSendString d => _ ← send_data_str d; mret ()
  | CallReceive n => _ ← receive_data n; mret ()
  | CallReceiveBlocking n t => _ ← receive_data_blocking n t; mret ()
  | CallReceiveJson t => _ ← receive_json_blocking t; mret ()
  | CallReceiveBuffer n t => _ ← receive_json_buffer n t; mret ()
  | CallSetTimeout ms => modify (fun c => set_connect_timeout c ms)
  end.
Fixpoint program `{Kernel X} (l : list client_call) : io X ADNetClient () :=
  match l with
  | [] => mret ()
  | a :: l => _ ← perform a; program l
  end.

Lemma perform_ends a s w : good s w -> ends s w (perform a) (fun _ s' w' => good s' w').
Proof.
  intros Hg. destruct a as [i p|[i|] p| | |d|[d|]|n|n t|t|n t|ms]; simpl.
  all: try (by io_step).
  all: apply (ends_bind _ _ _ _ (fun _ s' w' => good s' w')); [|intros; by io_step].
  - eapply ends_conseq; [by apply sock_connect_str_ends|by intros ??? (? & _)].
  - eapply ends_conseq; [by apply sock_connect_str_ends|by intros ??? (? & _)].
  - by io_step.
  - eapply ends_conseq; [by apply sock_connect_ends|by intros ??? (? & _)].
  - eapply ends_conseq; [by apply sock_disconnect_ends|by intros ??? (_ & ? & _)].
  - eapply ends_conseq; [by apply send_data_ends|by intros ??? (? & _)].
  - eapply ends_conseq; [by apply send_data_ends|by intros ??? (? & _)].
  - by io_step.
  - eapply ends_conseq; [by apply receive_data_ends|]. intros ??? Hl. by apply (same_link_good s w).
  - eapply ends_conseq; [by apply receive_data_blocking_ends|]. intros ??? [_ Hl]. by apply (same_link_good s w).
  - eapply ends_conseq; [by apply receive_json_blocking_ends|]. intros ??? (_ & _ & Hl). by apply (same_link_good s w).
  - eapply ends_conseq; [by apply receive_json_buffer_ends|]. intros ??? [_ Hl]. by apply (same_link_good s w).
Qed.

(** C21: a client leaks no descriptor and uses none that is closed.  Whatever methods are
    called and however the kernel answers, every call returns, no system call is made on
    a descriptor that is not open, the descriptors open at the end are the connection's
    (none when it is not connected), and the destructor closes it. *)
Theorem descriptors_balanced (l : list client_call) (now : Z) (w : traced K) :
  open_fds w = [] -> misused w = false ->
  ends (new_ADNetClient now) w (program l) (fun _ s' w' => good s' w') /\
  ends (new_ADNetClient now) w (_ ← program l; destruct_client) (fun _ _ w' => open_fds w' = [] /\ misused w' = false).
Proof.
  intros Ho Hm. assert (ends (new_ADNetClient now) w (program l) (fun _ s' w' => good s' w')) as He.
  { assert (good (new_ADNetClient now) w) as Hg by (by split_and!; [apply new_client_ok|..]). clear Ho Hm.
    revert Hg. generalize (new_ADNetClient now). revert w.
    induction l as [|a l IH]; intros w s Hg; simpl; [by io_step|].
    eapply ends_bind; [by apply perform_ends|]. intros [] s1 w1 Hg1. by apply IH. }
  split; [done|]. eapply ends_bind; [exact He|]. intros [] s1 w1 Hg. unfold destruct_client.
  eapply ends_bind; [by apply sock_disconnect_ends|]. intros r s2 w2 (_ & (_ & Ho2 & Hm2) & Hc & _).
  io_step. unfold own_fds in Ho2. by rewrite Hc in Ho2.
Qed.
End methods.
