(* ===== verification/Client.v ===== *)
(** * The JSON-RPC client (ADJsonRpcClient.cpp, ADJsonRpcClient.hpp of lib-jsonrpc-tcp)

    A call is made in four steps: [prepare_json_request()] builds the text of the request,
    [send_request()] sends it, [receive_response()] waits for the response with the
    request's identifier, and [find_json_result...()] reads the result code and the
    parameters out of it.  The parameters a caller passes by pointer for the outputs are
    results here: the list of values written, in the order of the pointers (reading stops
    at the first field that is missing, so that the ones written are the first ones). *)
From S2P Require Import Prelude Framer Io NetClient Common Proxy.
Open Scope Z_scope.

Definition MAX_RECV_BUFFER_SIZE : nat := 1400.
Definition MAX_SEND_BUFFER_SIZE : nat := 1400.
Definition ADJSONRPC_CLIENT_DEFAULT_OUT_SIZE : nat := 255.
Definition ADJSONRPC_CLIENT_MAX_OUT_SIZE : nat := 1100.

(** Names of fields (JsonCmnDef.h). *)
Module Arg.
Definition RPC_BLK_LIGHT_MEAS_RED : string := "blk_red".
Definition RPC_BLK_LIGHT_MEAS_GREEN : string := "blk_green".
Definition RPC_BLK_LIGHT_MEAS_BLUE : string := "blk_blue".
Definition RPC_ARG_CALIB_TIME_STAMP_PARAM : string := "timestamp".
Definition RPC_ARG_CALIB_PROD_DATA_PARAM : string := "proddata".
Definition RPC_ARG_CALIB_PROC_VERSION_PARAM : string := "processVer".
Definition RPC_ARG_RED_X : string := "red_X".
Definition RPC_ARG_RED_Y : string := "red_Y".
Definition RPC_ARG_RED_Z : string := "red_Z".
Definition RPC_ARG_GREEN_X : string := "green_X".
Definition RPC_ARG_GREEN_Y : string := "green_Y".
Definition RPC_ARG_GREEN_Z : string := "green_Z".
Definition RPC_ARG_BLUE_X : string := "blue_X".
Definition RPC_ARG_BLUE_Y : string := "blue_Y".
Definition RPC_ARG_BLUE_Z : string := "blue_Z".
Definition RPC_ARG_X : string := "X".
Definition RPC_ARG_Y : string := "Y".
Definition RPC_ARG_Z : string := "Z".
Definition RPC_COL_SENSOR0_RED : string := "red_0".
Definition RPC_COL_SENSOR0_GREEN : string := "green_0".
Definition RPC_COL_SENSOR0_BLUE : string := "blue_0".
Definition RPC_COL_SENSOR1_RED : string := "red_1".
Definition RPC_COL_SENSOR1_GREEN : string := "green_1".
Definition RPC_COL_SENSOR1_BLUE : string := "blue_1".
Definition RPC_ARG_COL_SEN0_RESULT_PARAM : string := "cs_resp0".
Definition RPC_ARG_COL_SEN1_RESULT_PARAM : string := "cs_resp1".
Definition RPC_COL_SENSOR0_WHITE : string := "white_0".
Definition RPC_COL_SENSOR1_WHITE : string := "white_1".
Definition RPC_ARG_COL_SENSOR_GAIN_PARAM : string := "gain".
Definition RPC_ARG_COL_SENSOR_PRESCALE_PARAM : string := "prescale".
Definition RPC_ARG_COL_SENSOR_PUL_PERIOD_PARAM : string := "period".
Definition RPC_ARG_COL_SENSOR_NUM_PULSES_PARAM : string := "pulses".
Definition RPC_ARG_TARGET_COLOR_TEMP : string := "colortemp".
Definition RPC_ARG_TARGET_LOCUS_OFFSET : string := "locusOffset".
Definition RPC_ARG_TARGET_GAMMA_FACTOR : string := "gammaFactor".
Definition RPC_ARG_TARGET_BRIGHTNESS : string := "brightness".
Definition RPC_ARG_TARGET_x : string := "target_x".
Definition RPC_ARG_TARGET_y : string := "target_y".
Definition RPC_ARG_COLOR_OUT_OF_TOLERANCE : string := "colorOutOfTolerance".
Definition RPC_ARG_COLOR_NOT_REACHABLE : string := "colorNotReachable".
Definition RPC_ARG_BRIGHTNESS_NOT_REACHABLE : string := "brightnessNotReachable".
Definition RPC_ARG_SPECTRAL_CALIB_MISSING : string := "spectralCalibMissing".
Definition RPC_ARG_SENSOR_STATUS : string := "sensorState".
End Arg.

(** ** The command object (ADCmnCltCmdProcessor.hpp) *)

(** The members [first_arg_param_name], [first_arg_param_value], ... of one parameter. *)
Record arg_param (D : Type) := {
  param_name : string;
  param_value : string;
  int_value : Z;
  double_value : D;
  ulong_value : Z;
  float_value : D;
}.
Arguments param_name {D}.
Arguments param_value {D}.
Arguments int_value {D}.
Arguments double_value {D}.
Arguments ulong_value {D}.
Arguments float_value {D}.

(** [CmdExecutionObj]; [params] are the parameters [first_arg_...] to [eighteen_arg_...]. *)
Record CmdExecutionObj (D : Type) := {
  command : Z;
  cmd_type : Z;
  act : Z;
  get_rpc_name : string;
  set_rpc_name : string;
  cmd_int_val : Z;
  cmd_enum_val : Z;
  arg_param_int_value : list Z;
  arg_param_ulong_value : list D;
  params : list (arg_param D);
  obj_result : Z;
  rpc_resp_result : string;
}.
Arguments command {D}.
Arguments cmd_type {D}.
Arguments act {D}.
Arguments get_rpc_name {D}.
Arguments set_rpc_name {D}.
Arguments cmd_int_val {D}.
Arguments cmd_enum_val {D}.
Arguments arg_param_int_value {D}.
Arguments arg_param_ulong_value {D}.
Arguments params {D}.
Arguments obj_result {D}.
Arguments rpc_resp_result {D}.

(** The values written through the output pointers. *)
Inductive cell (D : Type) := CStr (s : string) | CInt (n : Z) | CDouble (d : D) | CFloat (d : D).
Arguments CStr {D}.
Arguments CInt {D}.
Arguments CDouble {D}.
Arguments CFloat {D}.

(** How a field of a response is read: a string copied out, [atoi] or [atof] of its text,
    [json_object_get_int]. *)
Inductive kind := AsString | AsInt | AsJsonInt | AsDouble | AsFloat.

(** The buffer a request is stored to: the client's own, another one, or none. *)
Inductive result_buffer := SendBuffer | OtherBuffer | NoBuffer.

(** The members.  The buffers hold the bytes before the terminating NUL. *)
Record ADJsonRpcClient := {
  req_id : Z;
  tx_msg : list ascii;
  rx_msg : list ascii;
  tx_id : Z;
  out_size : nat;
  rx_timeout_override : Z;
  reconnect_needed : bool;
  connected : bool;
  ClientSocket : ADNetClient;
  send_buffer : list ascii;
  recv_buffer : list ascii;
}.

Definition new_ADJsonRpcClient (now : Z) : ADJsonRpcClient :=
  {| req_id := 0; tx_msg := []; rx_msg := []; tx_id := -1; out_size := ADJSONRPC_CLIENT_DEFAULT_OUT_SIZE;
     rx_timeout_override := 0; reconnect_needed := false; connected := false;
     ClientSocket := new_ADNetClient now; send_buffer := []; recv_buffer := [] |}.

(** Field updates. *)
Definition with_tx (c : ADJsonRpcClient) (m : list ascii) (id : Z) (b : list ascii) : ADJsonRpcClient :=
  {| req_id := req_id c; tx_msg := m; rx_msg := rx_msg c; tx_id := id; out_size := out_size c;
     rx_timeout_override := rx_timeout_override c; reconnect_needed := reconnect_needed c; connected := connected c;
     ClientSocket := ClientSocket c; send_buffer := b; recv_buffer := recv_buffer c |}.
Definition with_rx (c : ADJsonRpcClient) (m b : list ascii) : ADJsonRpcClient :=
  {| req_id := req_id c; tx_msg := tx_msg c; rx_msg := m; tx_id := tx_id c; out_size := out_size c;
     rx_timeout_override := rx_timeout_override c; reconnect_needed := reconnect_needed c; connected := connected c;
     ClientSocket := ClientSocket c; send_buffer := send_buffer c; recv_buffer := b |}.
Definition with_settings (c : ADJsonRpcClient) (id : Z) (size : nat) (timeout : Z) : ADJsonRpcClient :=
  {| req_id := id; tx_msg := tx_msg c; rx_msg := rx_msg c; tx_id := tx_id c; out_size := size;
     rx_timeout_override := timeout; reconnect_needed := reconnect_needed c; connected := connected c;
     ClientSocket := ClientSocket c; send_buffer := send_buffer c; recv_buffer := recv_buffer c |}.
Definition with_link (c : ADJsonRpcClient) (reconnect up : bool) (s : ADNetClient) : ADJsonRpcClient :=
  {| req_id := req_id c; tx_msg := tx_msg c; rx_msg := rx_msg c; tx_id := tx_id c; out_size := out_size c;
     rx_timeout_override := rx_timeout_override c; reconnect_needed := reconnect; connected := up;
     ClientSocket := s; send_buffer := send_buffer c; recv_buffer := recv_buffer c |}.

Definition set_rx_msg (m : list ascii) (c : ADJsonRpcClient) : ADJsonRpcClient := with_rx c m (recv_buffer c).
Definition set_reconnect (b : bool) (c : ADJsonRpcClient) : ADJsonRpcClient :=
  with_link c b (connected c) (ClientSocket c).
Definition set_socket (c : ADJsonRpcClient) (s : ADNetClient) : ADJsonRpcClient :=
  with_link c (reconnect_needed c) (connected c) s.

(** [set_output_size()], [set_receive_timeout()] and [set_connect_timeout()]. *)
Definition set_output_size (size : nat) (c : ADJsonRpcClient) : ADJsonRpcClient :=
  let size := if (size <? 1)%nat then 1%nat else size in
  let size := if (ADJSONRPC_CLIENT_MAX_OUT_SIZE <? size)%nat then ADJSONRPC_CLIENT_MAX_OUT_SIZE else size in
  with_settings c (req_id c) size (rx_timeout_override c).
Definition set_receive_timeout (timeout_ms : Z) (c : ADJsonRpcClient) : ADJsonRpcClient :=
  with_settings c (req_id c) (out_size c) timeout_ms.
Definition set_connect_timeout (timeout_ms : Z) (c : ADJsonRpcClient) : ADJsonRpcClient :=
  set_socket c (NetClient.set_connect_timeout (ClientSocket c) timeout_ms).

Definition get_ip_addr (c : ADJsonRpcClient) : string := ip (ClientSocket c).
Definition last_response (c : ADJsonRpcClient) : list ascii := rx_msg c.
Definition get_command_execution_time (c : ADJsonRpcClient) : Z := time_elapsed (ClientSocket c).

(** [copy_out()]: what the buffer holds; the source may be null. *)
Definition copy_out (c : ADJsonRpcClient) (src : option string) : string :=
  let src := default EmptyString src in
  let n := String.length src in
  truncate (if (out_size c <=? n)%nat then out_size c - 1 else n) src.

Section client.
Context {W J D : Type} `{Kernel W} `{JsonC J D} `{JsonRpcC J}.
Abbreviation M := (io W ADJsonRpcClient).

Definition on_socket {A} (m : io W ADNetClient A) : M A := on ClientSocket set_socket m.

(** ** Connection *)

Definition rpc_server_connect (ip_addr : string) (port_num : Z) : M Z :=
  c ← get;
  if connected c then mret (-1)
  else
    rc ← on_socket (sock_connect_str ip_addr port_num);
    if rc =? 0 then _ ← modify (fun c => with_link c (reconnect_needed c) true (ClientSocket c)); mret 0
    else mret (-1).

Definition rpc_server_disconnect : M Z :=
  c ← get;
  _ ← (if connected c then on_socket sock_disconnect else mret 0);
  _ ← modify (fun c => with_link c (reconnect_needed c) false (ClientSocket c));
  mret 0.

(** [~ADJsonRpcClient()] and the destructor of the socket. *)
Definition destruct_rpc_client : M () := _ ← on_socket sock_disconnect; on_socket destruct_client.

(** ** Sending a request *)

(** [store_request()]: the text in the buffer, which for another buffer than the
    client's is the result. *)
Definition store_request (result : result_buffer) (request : J) : M (list ascii) :=
  let str := default [] (json_object_to_json_string_length request) in
  let id := match json_object_object_get request "id" with Some jid => json_object_get_int jid | None => -1 end in
  let n := Nat.min (length str) (MAX_SEND_BUFFER_SIZE - 1) in
  _ ← modify (fun c => match result with
                       | SendBuffer => with_tx c str id (take n str)
                       | _ => with_tx c (tx_msg c) id (send_buffer c)
                       end);
  mret (match result with NoBuffer => [] | _ => take n str end).

Definition send_request : M Z :=
  c ← get;
  _ ← (if reconnect_needed c then
         _ ← on_socket sock_disconnect;
         rc ← on_socket sock_connect;
         if rc =? 0 then modify (set_reconnect false) else mret ()
       else mret ());
  _ ← modify (fun c => with_rx c [] []);
  c ← get;
  rc ← on_socket (send_data (tx_msg c));
  _ ← (if rc =? 0 then mret () else modify (set_reconnect true));
  mret rc.

(** ** Receiving the response *)

(** Whether a received text answers the request with identifier [id]. *)
Definition response_matches (text : list ascii) (id : Z) : bool :=
  match json_tokener_parse (c_string text) with
  | None => true
  | Some resp =>
      match json_object_object_get resp "id" with
      | Some jid => json_object_get_int jid =? id
      | None => true
      end
  end.

(** The loop of [receive_response()]. *)
Definition receive_loop (deadline : Z) : M () :=
  forever (fun _ : () =>
    now ← on_socket monotonic_ms;
    let left := deadline - now in
    if left <=? 0 then mret (inr ())
    else
      '(rc, msg) ← on_socket (receive_json_blocking (i32 left));
      _ ← modify (set_rx_msg msg);
      if rc =? -2 then _ ← modify (set_reconnect true); mret (inr ())
      else if rc <? 0 then mret (inr ())
      else
        c ← get;
        if tx_id c <? 0 then mret (inr ())
        else if response_matches (rx_msg c) (tx_id c) then mret (inr ())
        else _ ← modify (set_rx_msg []); mret (inl ())) ().

Definition receive_response (timeout_ms : Z) : M Z :=
  c ← get;
  let timeout_ms := if 0 <? rx_timeout_override c then rx_timeout_override c else timeout_ms in
  now ← on_socket monotonic_ms;
  _ ← receive_loop (now + timeout_ms);
  c ← get;
  if negb (bool_decide (rx_msg c = [])) && negb (reconnect_needed c) then
    let n := Nat.min (length (rx_msg c)) (MAX_RECV_BUFFER_SIZE - 1) in
    _ ← modify (fun c => with_rx c (rx_msg c) (take n (rx_msg c)));
    mret (i32 (Z.of_nat (length (rx_msg c))))
  else
    _ ← (if reconnect_needed c && negb (bool_decide (rx_msg c = [])) then modify (set_rx_msg []) else mret ());
    mret (-1).

(** [send_raw_data_and_receive_resp()]: the contents of [recv_buffer]. *)
Definition send_raw_data_and_receive_resp (tx_buffer : option (list ascii)) : M (list ascii) :=
  _ ← modify (fun c => with_rx c (rx_msg c) []);
  _ ← modify (fun c => with_tx c (default [] tx_buffer) (-1) (send_buffer c));
  _ ← send_request;
  _ ← receive_response 4000;
  c ← get;
  mret (recv_buffer c).

(** ** Building requests *)

(** The object every overload of [prepare_json_request()] builds: the parameters are
    fields of an object of their own, the first overload has none. *)
Definition request_object (method : string) (ID : Z) (fields : option (list (string * J))) : J :=
  let main_object := json_object_object_add json_object_new_object "jsonrpc" (json_object_new_string "2.0") in
  let main_object := json_object_object_add main_object "method" (json_object_new_string method) in
  let main_object := match fields with
                     | Some fields => json_object_object_add main_object "params" (add_fields json_object_new_object fields)
                     | None => main_object
                     end in
  json_object_object_add main_object "id" (json_object_new_int ID).

Definition prepare (method : string) (ID : Z) (result : result_buffer) (fields : option (list (string * J))) : M Z :=
  _ ← store_request result (request_object method ID fields); mret 0.

(** The overloads; the suffix gives the types of the parameters ([s]tring, [i]nt,
    [u]nsigned long), [_last] that the buffer is the last argument. *)
Definition prepare_json_request (method : string) (ID : Z) (result : result_buffer) : M Z :=
  prepare method ID result None.
Definition prepare_json_request_s (method : string) (ID : Z) (result : result_buffer) (name value : string) :
    M Z :=
  prepare method ID result (Some [(name, json_object_new_string value)]).
Definition prepare_json_request_i (method : string) (ID : Z) (result : result_buffer) (name : string)
    (value : Z) : M Z :=
  prepare method ID result (Some [(name, json_object_new_int value)]).
Definition prepare_json_request_ii_last (method : string) (ID : Z) (name1 : string) (value1 : Z)
    (name2 : string) (value2 : Z) (result : result_buffer) : M Z :=
  prepare method ID result (Some [(name1, json_object_new_int value1); (name2, json_object_new_int value2)]).
Definition prepare_json_request_iii_last (method : string) (ID : Z) (name1 : string) (value1 : Z)
    (name2 : string) (value2 : Z) (name3 : string) (value3 : Z) (result : result_buffer) : M Z :=
  prepare method ID result (Some [(name1, json_object_new_int value1); (name2, json_object_new_int value2);
    (name3, json_object_new_int value3)]).
Definition prepare_json_request_is_last (method : string) (ID : Z) (name1 : string) (value1 : Z) (name2
    value2 : string) (result : result_buffer) : M Z :=
  prepare method ID result (Some [(name1, json_object_new_int value1); (name2, json_object_new_string value2)]).
Definition prepare_json_request_i_last (method : string) (ID : Z) (name : string) (value : Z)
    (result : result_buffer) : M Z :=
  prepare method ID result (Some [(name, json_object_new_int value)]).
Definition prepare_json_request_ii (method : string) (ID : Z) (result : result_buffer) (name1 : string)
    (value1 : Z) (name2 : string) (value2 : Z) : M Z :=
  prepare method ID result (Some [(name1, json_object_new_int value1); (name2, json_object_new_int value2)]).
Definition prepare_json_request_is (method : string) (ID : Z) (result : result_buffer) (name1 : string)
    (value1 : Z) (name2 value2 : string) : M Z :=
  prepare method ID result (Some [(name1, json_object_new_int value1); (name2, json_object_new_string value2)]).
Definition prepare_json_request_ss (method : string) (ID : Z) (result : result_buffer) (name1 value1 name2
    value2 : string) : M Z :=
  prepare method ID result (Some [(name1, json_object_new_string value1); (name2, json_object_new_string
    value2)]).
Definition prepare_json_request_si (method : string) (ID : Z) (result : result_buffer) (name1 value1
    name2 : string) (value2 : Z) : M Z :=
  prepare method ID result (Some [(name1, json_object_new_string value1); (name2, json_object_new_int value2)]).
Definition prepare_json_request_sss (method : string) (ID : Z) (result : result_buffer) (name1 value1 name2
    value2 name3 value3 : string) : M Z :=
  prepare method ID result (Some [(name1, json_object_new_string value1); (name2, json_object_new_string
    value2); (name3, json_object_new_string value3)]).
Definition prepare_json_request_ssss (method : string) (ID : Z) (result : result_buffer) (name1 value1 name2
    value2 name3 value3 name4 value4 : string) : M Z :=
  prepare method ID result (Some [(name1, json_object_new_string value1); (name2, json_object_new_string
    value2); (name3, json_object_new_string value3); (name4, json_object_new_string value4)]).
Definition prepare_json_request_sssssssss (method : string) (ID : Z) (result : result_buffer) (name1 value1
    name2 value2 name3 value3 name4 value4 name5 value5 name6 value6 name7 value7 name8 value8 name9
    value9 : string) : M Z :=
  prepare method ID result (Some [(name1, json_object_new_string value1); (name2, json_object_new_string
    value2); (name3, json_object_new_string value3); (name4, json_object_new_string value4); (name5,
    json_object_new_string value5); (name6, json_object_new_string value6); (name7, json_object_new_string
    value7); (name8, json_object_new_string value8); (name9, json_object_new_string value9)]).
Definition prepare_json_request_siii (method : string) (ID : Z) (result : result_buffer) (name1 value1
    name2 : string) (value2 : Z) (name3 : string) (value3 : Z) (name4 : string) (value4 : Z) : M Z :=
  prepare method ID result (Some [(name1, json_object_new_string value1); (name2, json_object_new_int value2);
    (name3, json_object_new_int value3); (name4, json_object_new_int value4)]).
Definition prepare_json_request_ssiii (method : string) (ID : Z) (result : result_buffer) (name1 value1 name2
    value2 name3 : string) (value3 : Z) (name4 : string) (value4 : Z) (name5 : string) (value5 : Z) : M Z :=
  prepare method ID result (Some [(name1, json_object_new_string value1); (name2, json_object_new_string
    value2); (name3, json_object_new_int value3); (name4, json_object_new_int value4); (name5,
    json_object_new_int value5)]).
Definition prepare_json_request_uuu (method : string) (ID : Z) (result : result_buffer) (name1 : string)
    (value1 : Z) (name2 : string) (value2 : Z) (name3 : string) (value3 : Z) : M Z :=
  prepare method ID result (Some [(name1, json_object_new_int64 (i64 value1)); (name2, json_object_new_int64
    (i64 value2)); (name3, json_object_new_int64 (i64 value3))]).
Definition prepare_json_request_sssss (method : string) (ID : Z) (result : result_buffer) (name1 value1 name2
    value2 name3 value3 name4 value4 name5 value5 : string) : M Z :=
  prepare method ID result (Some [(name1, json_object_new_string value1); (name2, json_object_new_string
    value2); (name3, json_object_new_string value3); (name4, json_object_new_string value4); (name5,
    json_object_new_string value5)]).
Definition prepare_json_request_three_int_two_string (method : string) (ID : Z) (result : result_buffer)
    (name1 : string) (value1 : Z) (name2 : string) (value2 : Z) (name3 : string) (value3 : Z) (name4 value4
    name5 value5 : string) : M Z :=
  prepare method ID result (Some [(name1, json_object_new_int value1); (name2, json_object_new_int value2);
    (name3, json_object_new_int value3); (name4, json_object_new_string value4); (name5, json_object_new_string
    value5)]).
Definition prepare_json_request_four_int (method : string) (ID : Z) (result : result_buffer) (name1 : string)
    (value1 : Z) (name2 : string) (value2 : Z) (name3 : string) (value3 : Z) (name4 : string) (value4 : Z) : M
    Z :=
  prepare method ID result (Some [(name1, json_object_new_int value1); (name2, json_object_new_int value2);
    (name3, json_object_new_int value3); (name4, json_object_new_int value4)]).
Definition prepare_json_request_four_int_two_string (method : string) (ID : Z) (result : result_buffer)
    (name1 : string) (value1 : Z) (name2 : string) (value2 : Z) (name3 : string) (value3 : Z) (name4 : string)
    (value4 : Z) (name5 value5 name6 value6 : string) : M Z :=
  prepare method ID result (Some [(name1, json_object_new_int value1); (name2, json_object_new_int value2);
    (name3, json_object_new_int value3); (name4, json_object_new_int value4); (name5, json_object_new_string
    value5); (name6, json_object_new_string value6)]).
Definition prepare_json_request_two_int_two_string (method : string) (ID : Z) (result : result_buffer)
    (name1 : string) (value1 : Z) (name2 : string) (value2 : Z) (name3 value3 name4 value4 : string) : M Z :=
  prepare method ID result (Some [(name1, json_object_new_int value1); (name2, json_object_new_int value2);
    (name3, json_object_new_string value3); (name4, json_object_new_string value4)]).
Definition prepare_json_request_two_int_one_double_one_string (method : string) (ID : Z)
    (result : result_buffer) (name1 : string) (value1 : Z) (name2 : string) (value2 : D) (name3 value3
    name4 : string) (value4 : Z) : M Z :=
  prepare method ID result (Some [(name1, json_object_new_int value1); (name2, json_object_new_double value2);
    (name3, json_object_new_string value3); (name4, json_object_new_int value4)]).
Definition prepare_json_request_seven_int_param (method : string) (ID : Z) (result : result_buffer)
    (name1 : string) (value1 : Z) (name2 : string) (value2 : Z) (name3 : string) (value3 : Z) (name4 : string)
    (value4 : Z) (name5 : string) (value5 : Z) (name6 : string) (value6 : Z) (name7 : string) (value7 : Z) : M
    Z :=
  prepare method ID result (Some [(name1, json_object_new_int value1); (name2, json_object_new_int value2);
    (name3, json_object_new_int value3); (name4, json_object_new_int value4); (name5, json_object_new_int
    value5); (name6, json_object_new_int value6); (name7, json_object_new_int value7)]).
Definition prepare_json_request_single_int_nine_double_param (method : string) (ID : Z)
    (result : result_buffer) (name1 : string) (value1 : Z) (name2 : string) (value2 : D) (name3 : string)
    (value3 : D) (name4 : string) (value4 : D) (name5 : string) (value5 : D) (name6 : string) (value6 : D)
    (name7 : string) (value7 : D) (name8 : string) (value8 : D) (name9 : string) (value9 : D)
    (name10 : string) (value10 : D) : M Z :=
  prepare method ID result (Some [(name1, json_object_new_int value1); (name2, json_object_new_double value2);
    (name3, json_object_new_double value3); (name4, json_object_new_double value4); (name5,
    json_object_new_double value5); (name6, json_object_new_double value6); (name7, json_object_new_double
    value7); (name8, json_object_new_double value8); (name9, json_object_new_double value9); (name10,
    json_object_new_double value10)]).
Definition prepare_json_request_three_double (method : string) (ID : Z) (result : result_buffer)
    (name1 : string) (value1 : D) (name2 : string) (value2 : D) (name3 : string) (value3 : D) : M Z :=
  prepare method ID result (Some [(name1, json_object_new_double value1); (name2, json_object_new_double
    value2); (name3, json_object_new_double value3)]).
Definition prepare_json_request_three_string_nine_double_param (method : string) (ID : Z)
    (result : result_buffer) (name1 value1 name2 value2 name3 value3 name4 : string) (value4 : D)
    (name5 : string) (value5 : D) (name6 : string) (value6 : D) (name7 : string) (value7 : D) (name8 : string)
    (value8 : D) (name9 : string) (value9 : D) (name10 : string) (value10 : D) (name11 : string) (value11 : D)
    (name12 : string) (value12 : D) : M Z :=
  prepare method ID result (Some [(name1, json_object_new_string value1); (name2, json_object_new_string
    value2); (name3, json_object_new_string value3); (name4, json_object_new_double value4); (name5,
    json_object_new_double value5); (name6, json_object_new_double value6); (name7, json_object_new_double
    value7); (name8, json_object_new_double value8); (name9, json_object_new_double value9); (name10,
    json_object_new_double value10); (name11, json_object_new_double value11); (name12, json_object_new_double
    value12)]).
Definition prepare_json_request_one_string_three_int (method : string) (ID : Z) (result : result_buffer)
    (name1 value1 name2 : string) (value2 : Z) (name3 : string) (value3 : Z) (name4 : string) (value4 : Z) : M
    Z :=
  prepare method ID result (Some [(name1, json_object_new_string value1); (name2, json_object_new_int value2);
    (name3, json_object_new_int value3); (name4, json_object_new_int value4)]).

(** ** Reading responses *)

(** One field of the result object; [None] where the function returns early.  (The text
    of an object that is not null is not null, so that testing one or the other is the
    same.) *)
Definition find_field (c : ADJsonRpcClient) (o : option J) (name : string) (k : kind) : option (cell D) :=
  v ← get_opt o name;
  s ← json_object_get_string v;
  Some (match k with
        | AsString => CStr (copy_out c (Some s))
        | AsInt => CInt (atoi s)
        | AsJsonInt => CInt (json_object_get_int v)
        | AsDouble => CDouble (atof s)
        | AsFloat => CFloat (atof s)
        end).

Fixpoint find_fields (c : ADJsonRpcClient) (o : option J) (fields : list (string * kind)) : list (cell D) :=
  match fields with
  | [] => []
  | (name, k) :: fields =>
      match find_field c o name k with
      | Some v => v :: find_fields c o fields
      | None => []
      end
  end.

(** The sequence every [find_json_result...()] makes: the result, what [result_value]
    holds if it was written, and the values of the fields. *)
Definition find_result (c : ADJsonRpcClient) (json_string result_name : string) (fields : list (string * kind))
  : Z * option string * list (cell D) :=
  match json_tokener_parse json_string with
  | None => (-1, None, [])
  | Some new_obj =>
      let new_obj1 := json_object_object_get new_obj RPC_NAME_ARG_RESULT_OBJ in
      match string_opt new_obj1 with
      | None => (-1, None, [])
      | Some _ =>
          match string_opt (get_opt new_obj1 result_name) with
          | None => (-1, None, [])
          | Some s => (0, Some (copy_out c (Some s)), find_fields c new_obj1 fields)
          end
      end
  end.

Definition find_json_result (c : ADJsonRpcClient) (json_string param_name : string) : Z * option string * list
    (cell D) :=
  find_result c json_string param_name [].
Definition find_json_result_and_single_string_param (c : ADJsonRpcClient) (json_string result_name
    param_name : string) : Z * option string * list (cell D) :=
  find_result c json_string result_name [(param_name, AsString)].
Definition find_json_result_and_single_string_param_int (c : ADJsonRpcClient) (json_string result_name
    param_name : string) : Z * option string * list (cell D) :=
  find_result c json_string result_name [(param_name, AsJsonInt)].
Definition find_json_result_and_four_int_param (c : ADJsonRpcClient) (json_string result_name para1 para2
    para3 para4 : string) : Z * option string * list (cell D) :=
  find_result c json_string result_name [(para1, AsInt); (para2, AsInt); (para3, AsInt); (para4, AsInt)].
Definition find_json_result_and_three_int_param (c : ADJsonRpcClient) (json_string result_name para1 para2
    para3 : string) : Z * option string * list (cell D) :=
  find_result c json_string result_name [(Arg.RPC_BLK_LIGHT_MEAS_RED, AsInt); (Arg.RPC_BLK_LIGHT_MEAS_GREEN,
    AsInt); (Arg.RPC_BLK_LIGHT_MEAS_BLUE, AsInt)].
Definition find_json_result_and_three_string_nine_double_param (c : ADJsonRpcClient) (json_string result_name
    para1 para2 para3 para4 para5 para6 para7 para8 para9 para10 para11 para12 : string) : Z * option string *
    list (cell D) :=
  find_result c json_string result_name [(Arg.RPC_ARG_CALIB_TIME_STAMP_PARAM, AsString);
    (Arg.RPC_ARG_CALIB_PROD_DATA_PARAM, AsString); (Arg.RPC_ARG_CALIB_PROC_VERSION_PARAM, AsString);
    (Arg.RPC_ARG_RED_X, AsDouble); (Arg.RPC_ARG_RED_Y, AsDouble); (Arg.RPC_ARG_RED_Z, AsDouble);
    (Arg.RPC_ARG_GREEN_X, AsDouble); (Arg.RPC_ARG_GREEN_Y, AsDouble); (Arg.RPC_ARG_GREEN_Z, AsDouble);
    (Arg.RPC_ARG_BLUE_X, AsDouble); (Arg.RPC_ARG_BLUE_Y, AsDouble); (Arg.RPC_ARG_BLUE_Z, AsDouble)].
Definition find_json_result_and_three_double_delta_param (c : ADJsonRpcClient) (json_string result_name para1
    para2 para3 : string) : Z * option string * list (cell D) :=
  find_result c json_string result_name [(para1, AsDouble); (para2, AsDouble); (para3, AsDouble)].
Definition find_json_result_and_three_double_param (c : ADJsonRpcClient) (json_string result_name para1 para2
    para3 : string) : Z * option string * list (cell D) :=
  find_result c json_string result_name [(Arg.RPC_ARG_X, AsDouble); (Arg.RPC_ARG_Y, AsDouble); (Arg.RPC_ARG_Z,
    AsDouble)].
Definition find_json_result_and_nine_double_param (c : ADJsonRpcClient) (json_string result_name para1 para2
    para3 para4 para5 para6 para7 para8 para9 : string) : Z * option string * list (cell D) :=
  find_result c json_string result_name [(Arg.RPC_ARG_RED_X, AsDouble); (Arg.RPC_ARG_RED_Y, AsDouble);
    (Arg.RPC_ARG_RED_Z, AsDouble); (Arg.RPC_ARG_GREEN_X, AsDouble); (Arg.RPC_ARG_GREEN_Y, AsDouble);
    (Arg.RPC_ARG_GREEN_Z, AsDouble); (Arg.RPC_ARG_BLUE_X, AsDouble); (Arg.RPC_ARG_BLUE_Y, AsDouble);
    (Arg.RPC_ARG_BLUE_Z, AsDouble)].
Definition find_json_result_and_seven_int_param (c : ADJsonRpcClient) (json_string result_name para1 para2
    para3 para4 para5 para6 para7 : string) : Z * option string * list (cell D) :=
  find_result c json_string result_name [(para1, AsInt); (para2, AsInt); (para3, AsInt); (para4, AsInt); (para5,
    AsInt); (para6, AsInt); (para7, AsInt)].
Definition find_json_result_and_two_int_param (c : ADJsonRpcClient) (json_string result_name para1
    para2 : string) : Z * option string * list (cell D) :=
  find_result c json_string result_name [(para1, AsInt); (para2, AsInt)].
Definition find_json_result_and_six_int_param (c : ADJsonRpcClient) (json_string result_name para1 para2 para3
    para4 para5 para6 : string) : Z * option string * list (cell D) :=
  find_result c json_string result_name [(Arg.RPC_COL_SENSOR0_RED, AsInt); (Arg.RPC_COL_SENSOR0_GREEN, AsInt);
    (Arg.RPC_COL_SENSOR0_BLUE, AsInt); (Arg.RPC_COL_SENSOR1_RED, AsInt); (Arg.RPC_COL_SENSOR1_GREEN, AsInt);
    (Arg.RPC_COL_SENSOR1_BLUE, AsInt)].
Definition find_json_result_and_two_string_eight_int_param (c : ADJsonRpcClient) (json_string result_name
    para1 para2 para3 para4 para5 para6 para7 para8 para9 para10 : string) : Z * option string * list (cell
    D) :=
  find_result c json_string result_name [(Arg.RPC_ARG_COL_SEN0_RESULT_PARAM, AsString);
    (Arg.RPC_ARG_COL_SEN1_RESULT_PARAM, AsString); (Arg.RPC_COL_SENSOR0_RED, AsInt); (Arg.RPC_COL_SENSOR0_GREEN,
    AsInt); (Arg.RPC_COL_SENSOR0_BLUE, AsInt); (Arg.RPC_COL_SENSOR0_WHITE, AsInt); (Arg.RPC_COL_SENSOR1_RED,
    AsInt); (Arg.RPC_COL_SENSOR1_GREEN, AsInt); (Arg.RPC_COL_SENSOR1_BLUE, AsInt); (Arg.RPC_COL_SENSOR1_WHITE,
    AsInt)].
Definition find_json_result_and_two_int_two_string_param (c : ADJsonRpcClient) (json_string result_name para1
    para2 para3 para4 : string) : Z * option string * list (cell D) :=
  find_result c json_string result_name [(Arg.RPC_ARG_COL_SENSOR_GAIN_PARAM, AsInt);
    (Arg.RPC_ARG_COL_SENSOR_PRESCALE_PARAM, AsInt); (Arg.RPC_ARG_COL_SENSOR_PUL_PERIOD_PARAM, AsString);
    (Arg.RPC_ARG_COL_SENSOR_NUM_PULSES_PARAM, AsString)].
Definition find_json_result_and_four_int_one_string_param (c : ADJsonRpcClient) (json_string result_name para1
    para2 para3 para4 para5 : string) : Z * option string * list (cell D) :=
  find_result c json_string result_name [(para1, AsInt); (para2, AsInt); (para3, AsInt); (para4, AsInt); (para5,
    AsString)].
Definition find_json_result_and_four_int_two_string_param (c : ADJsonRpcClient) (json_string result_name para1
    para2 para3 para4 para5 para6 : string) : Z * option string * list (cell D) :=
  find_result c json_string result_name [(para1, AsInt); (para2, AsInt); (para3, AsInt); (para4, AsInt); (para5,
    AsString); (para6, AsString)].
Definition find_json_result_and_two_string_param (c : ADJsonRpcClient) (json_string result_name para1
    para2 : string) : Z * option string * list (cell D) :=
  find_result c json_string result_name [(para1, AsString); (para2, AsString)].
Definition find_json_result_and_two_int_three_double_one_string_param (c : ADJsonRpcClient) (json_string
    result_name para1 para2 para3 para4 para5 para6 : string) : Z * option string * list (cell D) :=
  find_result c json_string result_name [(Arg.RPC_ARG_TARGET_COLOR_TEMP, AsInt);
    (Arg.RPC_ARG_TARGET_LOCUS_OFFSET, AsDouble); (Arg.RPC_ARG_TARGET_GAMMA_FACTOR, AsString);
    (Arg.RPC_ARG_TARGET_BRIGHTNESS, AsInt); (Arg.RPC_ARG_TARGET_x, AsDouble); (Arg.RPC_ARG_TARGET_y, AsDouble)].
Definition find_json_result_and_two_int_two_double_one_string_param (c : ADJsonRpcClient) (json_string
    result_name para1 para2 para3 para4 : string) : Z * option string * list (cell D) :=
  find_result c json_string result_name [(para1, AsInt); (para2, AsInt); (para3, AsDouble); (para4, AsDouble)].
Definition find_json_result_and_two_int_two_float_one_string_param (c : ADJsonRpcClient) (json_string
    result_name para1 para2 para3 para4 : string) : Z * option string * list (cell D) :=
  find_result c json_string result_name [(para1, AsInt); (para2, AsInt); (para3, AsFloat); (para4, AsFloat)].
Definition find_json_result_one_string_three_int_param (c : ADJsonRpcClient) (json_string result_name para1
    para2 para3 para4 : string) : Z * option string * list (cell D) :=
  find_result c json_string result_name [(para1, AsString); (para2, AsInt); (para3, AsInt); (para4, AsInt)].
Definition find_json_result_one_string_one_int_param (c : ADJsonRpcClient) (json_string result_name para1
    para2 : string) : Z * option string * list (cell D) :=
  find_result c json_string result_name [(para1, AsString); (para2, AsInt)].
Definition find_json_result_and_five_string_param_statusErrorInfo (c : ADJsonRpcClient) (json_string
    result_name para1 para2 para3 para4 para5 : string) : Z * option string * list (cell D) :=
  find_result c json_string result_name [(Arg.RPC_ARG_COLOR_OUT_OF_TOLERANCE, AsString);
    (Arg.RPC_ARG_COLOR_NOT_REACHABLE, AsString); (Arg.RPC_ARG_BRIGHTNESS_NOT_REACHABLE, AsString);
    (Arg.RPC_ARG_SPECTRAL_CALIB_MISSING, AsString); (Arg.RPC_ARG_SENSOR_STATUS, AsString)].
Definition find_json_result_and_four_string_param (c : ADJsonRpcClient) (json_string result_name para1 para2
    para3 para4 : string) : Z * option string * list (cell D) :=
  find_result c json_string result_name [(para1, AsString); (para2, AsString); (para3, AsString); (para4,
    AsString)].
Definition find_json_result_and_three_string_param (c : ADJsonRpcClient) (json_string result_name para1 para2
    para3 : string) : Z * option string * list (cell D) :=
  find_result c json_string result_name [(para1, AsString); (para2, AsString); (para3, AsString)].
Definition find_json_result_and_six_int_one_string_param (c : ADJsonRpcClient) (json_string result_name para1
    para2 para3 para4 para5 para6 : string) : Z * option string * list (cell D) :=
  find_result c json_string result_name [(para1, AsInt); (para2, AsInt); (para3, AsInt); (para4, AsInt); (para5,
    AsInt); (para6, AsInt)].

(** ** Calls *)

(** What the functions below start with: the identifier of the request, the request, the
    exchange with the server. *)
Definition exchange (timeout_ms : Z) (prepare_request : Z -> M Z) : M () :=
  c ← get;
  _ ← modify (fun c => with_settings c (i32 (req_id c + 1)) (out_size c) (rx_timeout_override c));
  _ ← prepare_request (req_id c);
  _ ← send_request;
  _ ← receive_response timeout_ms;
  mret ().

(** [rx_json()] *)
Definition rx_json (c : ADJsonRpcClient) : string := c_string (rx_msg c).

(** What they end with: the code for a result string, or [RPC_SRV_RESULT_UNKNOWN] when
    there is none. *)
Definition result_code (r : Z * option string * list (cell D)) : option Z :=
  match r with
  | (rc, Some result_string, _) =>
      if rc =? 0 then convert_string_to_server_result result_string else Some Rpc.UNKNOWN
  | (_, None, _) => Some Rpc.UNKNOWN
  end.
Definition answer (find : ADJsonRpcClient -> string -> Z * option string * list (cell D)) : M (option Z * list (cell D)) :=
  c ← get;
  let r := find c (rx_json c) in
  mret (result_code r, r.2).

(** The same where a buffer holds [text] before. *)
Definition answer_or (text : string) (find : ADJsonRpcClient -> string -> Z * option string * list (cell D))
  : M (option Z * list (cell D)) :=
  c ← get;
  let r := find c (rx_json c) in
  mret (result_code r, match r.2 with [] => [CStr (copy_out c (Some text))] | cells => cells end).

(** The parameters of a command object. *)
Definition no_param : arg_param D :=
  {| param_name := EmptyString; param_value := EmptyString; int_value := 0; double_value := atof "0"; ulong_value := 0;
     float_value := atof "0" |}.
Definition param (o : CmdExecutionObj D) (i : nat) : arg_param D := nth i (params o) no_param.

(** A value written to its member. *)
Definition write_param (p : arg_param D) (v : cell D) : arg_param D :=
  match v with
  | CStr s => {| param_name := param_name p; param_value := s; int_value := int_value p; double_value := double_value p;
                 ulong_value := ulong_value p; float_value := float_value p |}
  | CInt n => {| param_name := param_name p; param_value := param_value p; int_value := n; double_value := double_value p;
                 ulong_value := ulong_value p; float_value := float_value p |}
  | CDouble d => {| param_name := param_name p; param_value := param_value p; int_value := int_value p; double_value := d;
                    ulong_value := ulong_value p; float_value := float_value p |}
  | CFloat d => {| param_name := param_name p; param_value := param_value p; int_value := int_value p;
                   double_value := double_value p; ulong_value := ulong_value p; float_value := d |}
  end.
Definition with_params (o : CmdExecutionObj D) (l : list (arg_param D)) : CmdExecutionObj D :=
  {| command := command o; cmd_type := cmd_type o; act := act o; get_rpc_name := get_rpc_name o;
     set_rpc_name := set_rpc_name o; cmd_int_val := cmd_int_val o; cmd_enum_val := cmd_enum_val o;
     arg_param_int_value := arg_param_int_value o; arg_param_ulong_value := arg_param_ulong_value o;
     params := l; obj_result := obj_result o; rpc_resp_result := rpc_resp_result o |}.
(** The values of the fields are written to the parameters [0], [1], ... *)
Definition write_params (o : CmdExecutionObj D) (cells : list (cell D)) : CmdExecutionObj D :=
  with_params o (zip_with write_param (params o) cells ++ drop (length cells) (params o)).
Definition answer_to (o : CmdExecutionObj D) (find : ADJsonRpcClient -> string -> Z * option string * list (cell D))
  : M (option Z * CmdExecutionObj D) :=
  '(code, cells) ← answer find;
  mret (code, write_params o cells).

Definition set_integer_type_i (method_name method_param_name : string) (method_param_value : Z) :
    M (option Z * list (cell D)) :=
  _ ← exchange 4000 (fun ID => prepare_json_request_i method_name ID SendBuffer method_param_name
    method_param_value);
  answer (fun c text => find_json_result c text RPC_NAME_ARG_RESULT_PARAM).
Definition set_integer_type_s (method_name method_param_name method_param_value : string) :
    M (option Z * list (cell D)) :=
  _ ← exchange 4000 (fun ID => prepare_json_request_s method_name ID SendBuffer method_param_name
    method_param_value);
  answer (fun c text => find_json_result c text RPC_NAME_ARG_RESULT_PARAM).
Definition get_integer_type (method_name param_name : string) : M (option Z * list (cell D)) :=
  _ ← exchange 4000 (fun ID => prepare_json_request method_name ID SendBuffer);
  answer_or "NotFound" (fun c text => find_json_result_and_single_string_param c text RPC_NAME_ARG_RESULT_PARAM
    param_name).
Definition set_integer_type_with_addr_para (method_name addr_para_name : string) (addr_para_value : Z)
    (method_param_name : string) (method_param_value : Z) : M (option Z * list (cell D)) :=
  _ ← exchange 4000 (fun ID => prepare_json_request_ii_last method_name ID addr_para_name addr_para_value
    method_param_name method_param_value SendBuffer);
  answer (fun c text => find_json_result c text RPC_NAME_ARG_RESULT_PARAM).
Definition get_integer_type_with_addr_para (method_name addr_para_name : string) (addr_para_value : Z)
    (resp_param_name : string) : M (option Z * list (cell D)) :=
  _ ← exchange 4000 (fun ID => prepare_json_request_i_last method_name ID addr_para_name addr_para_value
    SendBuffer);
  answer_or "unknown" (fun c text => find_json_result_and_single_string_param c text RPC_NAME_ARG_RESULT_PARAM
    resp_param_name).
Definition set_three_int_type (method_name int1Nm : string) (int1Vl : Z) (int2Nm : string) (int2Vl : Z)
    (int3Nm : string) (int3Vl : Z) : M (option Z * list (cell D)) :=
  _ ← exchange 4000 (fun ID => prepare_json_request_iii_last method_name ID int1Nm int1Vl int2Nm int2Vl int3Nm
    int3Vl SendBuffer);
  answer (fun c text => find_json_result c text RPC_NAME_ARG_RESULT_PARAM).
Definition set_three_int_get_one_int (method_name int1Nm : string) (int1Vl : Z) (int2Nm : string) (int2Vl : Z)
    (int3Nm : string) (int3Vl : Z) (int4Nm : string) : M (option Z * list (cell D)) :=
  _ ← exchange 4000 (fun ID => prepare_json_request_iii_last method_name ID int1Nm int1Vl int2Nm int2Vl int3Nm
    int3Vl SendBuffer);
  answer (fun c text => find_json_result_and_single_string_param_int c text RPC_NAME_ARG_RESULT_PARAM int4Nm).
Definition set_enum_type_with_addr_para (method_name addr_para_name : string) (addr_para_value : Z)
    (method_param_name method_param_value : string) : M (option Z * list (cell D)) :=
  _ ← exchange 4000 (fun ID => prepare_json_request_is_last method_name ID addr_para_name addr_para_value
    method_param_name method_param_value SendBuffer);
  answer (fun c text => find_json_result c text RPC_NAME_ARG_RESULT_PARAM).
Definition get_enum_type_with_addr_para (method_name addr_para_name : string) (addr_para_value : Z)
    (resp_param_name : string) : M (option Z * list (cell D)) :=
  _ ← exchange 4000 (fun ID => prepare_json_request_i_last method_name ID addr_para_name addr_para_value
    SendBuffer);
  answer_or "unknown" (fun c text => find_json_result_and_single_string_param c text RPC_NAME_ARG_RESULT_PARAM
    resp_param_name).
Definition get_string_type_with_string_para (method_name str_para_name str_para_value : string)
    (res_para_name : option string) : M (option Z * list (cell D)) :=
  _ ← exchange 4000 (fun ID => prepare_json_request_s method_name ID SendBuffer str_para_name str_para_value);
  answer_or "unknown" (fun c text => find_json_result_and_single_string_param c text RPC_NAME_ARG_RESULT_PARAM
    (default str_para_name res_para_name)).
Definition get_int_type_with_string_para (method_name str_para_name : string) (str_para_value : Z)
    (res_para_name : option string) : M (option Z * list (cell D)) :=
  _ ← exchange 4000 (fun ID => prepare_json_request_i method_name ID SendBuffer str_para_name str_para_value);
  answer_or "unknown" (fun c text => find_json_result_and_single_string_param c text RPC_NAME_ARG_RESULT_PARAM
    (default str_para_name res_para_name)).
Definition get_string_type_with_string_para_with_addr_para (method_name addr_para_name : string)
    (addr_para_value : Z) (str_para_value str_para_name : string) (res_para_name : option string) :
    M (option Z * list (cell D)) :=
  _ ← exchange 4000 (fun ID => prepare_json_request_is method_name ID SendBuffer addr_para_name addr_para_value
    str_para_name str_para_value);
  answer_or "unknown" (fun c text => find_json_result_and_single_string_param c text RPC_NAME_ARG_RESULT_PARAM
    (default str_para_name res_para_name)).
Definition set_double_string_type (method_name first_param_name first_param_value second_param_name
    second_param_value : string) : M (option Z * list (cell D)) :=
  _ ← exchange 4000 (fun ID => prepare_json_request_ss method_name ID SendBuffer first_param_name
    first_param_value second_param_name second_param_value);
  answer (fun c text => find_json_result c text RPC_NAME_ARG_RESULT_PARAM).
Definition set_tripple_string_type (method_name first_param_name first_param_value second_param_name
    second_param_value third_param_name third_param_value : string) : M (option Z * list (cell D)) :=
  _ ← exchange 4000 (fun ID => prepare_json_request_sss method_name ID SendBuffer first_param_name
    first_param_value second_param_name second_param_value third_param_name third_param_value);
  answer (fun c text => find_json_result c text RPC_NAME_ARG_RESULT_PARAM).
Definition set_four_string_type (method_name para1 para1val para2 para2val para3 para3val para4
    para4val : string) : M (option Z * list (cell D)) :=
  _ ← exchange 4000 (fun ID => prepare_json_request_ssss method_name ID SendBuffer para1 para1val para2 para2val
    para3 para3val para4 para4val);
  answer (fun c text => find_json_result c text RPC_NAME_ARG_RESULT_PARAM).
Definition set_three_string_type (method_name para1 para1val para2 para2val para3 para3val : string) :
    M (option Z * list (cell D)) :=
  _ ← exchange 4000 (fun ID => prepare_json_request_sss method_name ID SendBuffer para1 para1val para2 para2val
    para3 para3val);
  answer (fun c text => find_json_result c text RPC_NAME_ARG_RESULT_PARAM).
Definition set_tripple_string_get_single_string_type (method_name first_param_name first_param_value
    second_param_name second_param_value third_param_name third_param_value fourth_param_name : string) :
    M (option Z * list (cell D)) :=
  _ ← exchange 4000 (fun ID => prepare_json_request_sss method_name ID SendBuffer first_param_name
    first_param_value second_param_name second_param_value third_param_name third_param_value);
  answer (fun c text => find_json_result_and_single_string_param c text RPC_NAME_ARG_RESULT_PARAM
    fourth_param_name).
Definition set_single_string_triple_int_type (method_name first_param_name first_param_value
    second_param_name : string) (second_param_value : Z) (third_param_name : string) (third_param_value : Z)
    (fourth_param_name : string) (fourth_param_value : Z) : M (option Z * list (cell D)) :=
  _ ← exchange 4000 (fun ID => prepare_json_request_siii method_name ID SendBuffer first_param_name
    first_param_value second_param_name second_param_value third_param_name third_param_value fourth_param_name
    fourth_param_value);
  answer (fun c text => find_json_result c text RPC_NAME_ARG_RESULT_PARAM).
Definition set_single_string_single_int_type (method_name first_param_name first_param_value
    second_param_name : string) (second_param_value : Z) : M (option Z * list (cell D)) :=
  _ ← exchange 4000 (fun ID => prepare_json_request_si method_name ID SendBuffer first_param_name
    first_param_value second_param_name second_param_value);
  answer (fun c text => find_json_result c text RPC_NAME_ARG_RESULT_PARAM).
Definition set_double_string_triple_int_type (method_name first_param_name first_param_value second_param_name
    second_param_value third_param_name : string) (third_param_value : Z) (fourth_param_name : string)
    (fourth_param_value : Z) (fifth_param_name : string) (fifth_param_value : Z) :
    M (option Z * list (cell D)) :=
  _ ← exchange 4000 (fun ID => prepare_json_request_ssiii method_name ID SendBuffer first_param_name
    first_param_value second_param_name second_param_value third_param_name third_param_value fourth_param_name
    fourth_param_value fifth_param_name fifth_param_value);
  answer (fun c text => find_json_result c text RPC_NAME_ARG_RESULT_PARAM).
Definition set_four_int_type (method_name first_name : string) (first_value : Z) (second_name : string)
    (second_value : Z) (third_name : string) (third_value : Z) (fourth_name : string) (fourth_value : Z) :
    M (option Z * list (cell D)) :=
  _ ← exchange 4000 (fun ID => prepare_json_request_four_int method_name ID SendBuffer first_name first_value
    second_name second_value third_name third_value fourth_name fourth_value);
  answer (fun c text => find_json_result c text RPC_NAME_ARG_RESULT_PARAM).
Definition get_four_int_type (method_name para1 para2 para3 para4 : string) : M (option Z * list (cell D)) :=
  _ ← exchange 4000 (fun ID => prepare_json_request method_name ID SendBuffer);
  answer (fun c text => find_json_result_and_four_int_param c text RPC_NAME_ARG_RESULT_PARAM para1 para2 para3
    para4).
Definition get_five_string_type_status_error_info (o : CmdExecutionObj D) :
    M (option Z * CmdExecutionObj D) :=
  _ ← exchange 8000 (fun ID => prepare_json_request (get_rpc_name o) ID SendBuffer);
  answer_to o (fun c text => find_json_result_and_five_string_param_statusErrorInfo c text
    RPC_NAME_ARG_RESULT_PARAM (param_name (param o 0)) (param_name (param o 1)) (param_name (param o 2))
    (param_name (param o 3)) (param_name (param o 4))).
Definition set_four_int_two_string_type (method_name first_name : string) (first_value : Z)
    (second_name : string) (second_value : Z) (third_name : string) (third_value : Z) (fourth_name : string)
    (fourth_value : Z) (fifth_name fifth_value sixth_name sixth_value : string) :
    M (option Z * list (cell D)) :=
  _ ← exchange 4000 (fun ID => prepare_json_request_four_int_two_string method_name ID SendBuffer first_name
    first_value second_name second_value third_name third_value fourth_name fourth_value fifth_name fifth_value
    sixth_name sixth_value);
  answer (fun c text => find_json_result c text RPC_NAME_ARG_RESULT_PARAM).
Definition set_single_string_with_string_para (method_name para1 para1val para2 para2val : string) :
    M (option Z * list (cell D)) :=
  _ ← exchange 4000 (fun ID => prepare_json_request_ss method_name ID SendBuffer para1 para1val para2 para2val);
  answer (fun c text => find_json_result c text RPC_NAME_ARG_RESULT_PARAM).
Definition set_single_string_with_five_string_para (method_name para1 para1val para2 para2val para3 para3val
    para4 para4val para5 para5val : string) : M (option Z * list (cell D)) :=
  _ ← exchange 4000 (fun ID => prepare_json_request_sssss method_name ID SendBuffer para1 para1val para2
    para2val para3 para3val para4 para4val para5 para5val);
  answer (fun c text => find_json_result c text RPC_NAME_ARG_RESULT_PARAM).
Definition set_single_string_with_nine_string_para (method_name para1 para1val para2 para2val para3 para3val
    para4 para4val para5 para5val para6 para6val para7 para7val para8 para8val para9 para9val : string) :
    M (option Z * list (cell D)) :=
  _ ← exchange 4000 (fun ID => prepare_json_request_sssssssss method_name ID SendBuffer para1 para1val para2
    para2val para3 para3val para4 para4val para5 para5val para6 para6val para7 para7val para8 para8val para9
    para9val);
  answer (fun c text => find_json_result c text RPC_NAME_ARG_RESULT_PARAM).
Definition get_four_int_one_string_with_string_para (method_name para1 para2 para3 para4 para5 para6
    para6val : string) : M (option Z * list (cell D)) :=
  _ ← exchange 4000 (fun ID => prepare_json_request_s method_name ID SendBuffer para6 para6val);
  answer (fun c text => find_json_result_and_four_int_one_string_param c text RPC_NAME_ARG_RESULT_PARAM para1
    para2 para3 para4 para5).
Definition get_four_int_two_string_with_string_para (method_name para1 para2 para3 para4 para5 para6 para7
    para7val : string) : M (option Z * list (cell D)) :=
  _ ← exchange 4000 (fun ID => prepare_json_request_s method_name ID SendBuffer para7 para7val);
  answer (fun c text => find_json_result_and_four_int_two_string_param c text RPC_NAME_ARG_RESULT_PARAM para1
    para2 para3 para4 para5 para6).
Definition get_single_string_with_string_para (method_name para1 para1val para2 : string) :
    M (option Z * list (cell D)) :=
  _ ← exchange 4000 (fun ID => prepare_json_request_s method_name ID SendBuffer para1 para1val);
  answer (fun c text => find_json_result_and_single_string_param c text RPC_NAME_ARG_RESULT_PARAM para2).
Definition get_two_string_with_string_para (method_name para1 para2 : string) :
    M (option Z * list (cell D)) :=
  _ ← exchange 4000 (fun ID => prepare_json_request method_name ID SendBuffer);
  answer (fun c text => find_json_result_and_two_string_param c text RPC_NAME_ARG_RESULT_PARAM para1 para2).
Definition get_three_string_with_string_para (method_name para1 para2 para3 : string) :
    M (option Z * list (cell D)) :=
  _ ← exchange 4000 (fun ID => prepare_json_request method_name ID SendBuffer);
  answer (fun c text => find_json_result_and_three_string_param c text RPC_NAME_ARG_RESULT_PARAM para1 para2
    para3).
Definition get_two_int_three_double_one_string_type (method_name para1 para2 para3 para4 para5 para6 : string)
    : M (option Z * list (cell D)) :=
  _ ← exchange 4000 (fun ID => prepare_json_request method_name ID SendBuffer);
  answer (fun c text => find_json_result_and_two_int_three_double_one_string_param c text
    RPC_NAME_ARG_RESULT_PARAM para1 para2 para3 para4 para5 para6).
Definition get_two_int_two_float_one_string_with_string_para_double (method_name para1 para1val para2 para3
    para4 para5 : string) : M (option Z * list (cell D)) :=
  _ ← exchange 4000 (fun ID => prepare_json_request_s method_name ID SendBuffer para1 para1val);
  answer (fun c text => find_json_result_and_two_int_two_double_one_string_param c text
    RPC_NAME_ARG_RESULT_PARAM para2 para3 para4 para5).
Definition get_two_int_two_float_one_string_with_string_para_float (method_name para1 para1val para2 para3
    para4 para5 : string) : M (option Z * list (cell D)) :=
  _ ← exchange 4000 (fun ID => prepare_json_request_s method_name ID SendBuffer para1 para1val);
  answer (fun c text => find_json_result_and_two_int_two_float_one_string_param c text RPC_NAME_ARG_RESULT_PARAM
    para2 para3 para4 para5).
Definition get_three_int_type_with_integer_para (o : CmdExecutionObj D) : M (option Z * CmdExecutionObj D) :=
  _ ← exchange 8000 (fun ID => prepare_json_request_i (get_rpc_name o) ID SendBuffer (param_name (param o 0))
    (int_value (param o 0)));
  answer_to o (fun c text => find_json_result_and_three_int_param c text RPC_NAME_ARG_RESULT_PARAM (param_name
    (param o 0)) (param_name (param o 1)) (param_name (param o 2))).
Definition get_two_string_eight_int_type_with_three_int_two_string_para (o : CmdExecutionObj D) :
    M (option Z * CmdExecutionObj D) :=
  _ ← exchange 8000 (fun ID => prepare_json_request_three_int_two_string (get_rpc_name o) ID SendBuffer
    (param_name (param o 0)) (int_value (param o 0)) (param_name (param o 1)) (int_value (param o 1))
    (param_name (param o 2)) (int_value (param o 2)) (param_name (param o 3)) (param_value (param o 3))
    (param_name (param o 4)) (param_value (param o 4)));
  answer_to o (fun c text => find_json_result_and_two_string_eight_int_param c text RPC_NAME_ARG_RESULT_PARAM
    (param_name (param o 0)) (param_name (param o 1)) (param_name (param o 2)) (param_name (param o 3))
    (param_name (param o 4)) (param_name (param o 5)) (param_name (param o 6)) (param_name (param o 7))
    (param_name (param o 8)) (param_name (param o 9))).
Definition get_two_int_type_max_min_brightness (o : CmdExecutionObj D) : M (option Z * CmdExecutionObj D) :=
  _ ← exchange 8000 (fun ID => prepare_json_request (get_rpc_name o) ID SendBuffer);
  answer_to o (fun c text => find_json_result_and_two_int_param c text RPC_NAME_ARG_RESULT_PARAM
    "max_brightness" "min_brightness").
Definition get_six_int_type (o : CmdExecutionObj D) : M (option Z * CmdExecutionObj D) :=
  _ ← exchange 8000 (fun ID => prepare_json_request (get_rpc_name o) ID SendBuffer);
  answer_to o (fun c text => find_json_result_and_six_int_param c text RPC_NAME_ARG_RESULT_PARAM (param_name
    (param o 0)) (param_name (param o 1)) (param_name (param o 2)) (param_name (param o 3)) (param_name (param o
    4)) (param_name (param o 5))).
Definition get_seven_int_type_native_params (o : CmdExecutionObj D) : M (option Z * CmdExecutionObj D) :=
  _ ← exchange 8000 (fun ID => prepare_json_request (get_rpc_name o) ID SendBuffer);
  answer_to o (fun c text => find_json_result_and_seven_int_param c text RPC_NAME_ARG_RESULT_PARAM "backlight"
    "rOffset" "gOffset" "bOffset" "rGain" "gGain" "bGain").
Definition get_three_double_type (o : CmdExecutionObj D) : M (option Z * CmdExecutionObj D) :=
  _ ← exchange 8000 (fun ID => prepare_json_request (get_rpc_name o) ID SendBuffer);
  answer_to o (fun c text => find_json_result_and_three_double_delta_param c text RPC_NAME_ARG_RESULT_PARAM
    (param_name (param o 0)) (param_name (param o 1)) (param_name (param o 2))).
Definition get_three_double_type_with_string_para (o : CmdExecutionObj D) :
    M (option Z * CmdExecutionObj D) :=
  _ ← exchange 8000 (fun ID => prepare_json_request_s (get_rpc_name o) ID SendBuffer (param_name (param o 0))
    (param_value (param o 0)));
  answer_to o (fun c text => find_json_result_and_three_double_param c text RPC_NAME_ARG_RESULT_PARAM
    (param_name (param o 0)) (param_name (param o 1)) (param_name (param o 2))).
Definition get_nine_double_type (o : CmdExecutionObj D) : M (option Z * CmdExecutionObj D) :=
  _ ← exchange 8000 (fun ID => prepare_json_request (get_rpc_name o) ID SendBuffer);
  answer_to o (fun c text => find_json_result_and_nine_double_param c text RPC_NAME_ARG_RESULT_PARAM (param_name
    (param o 0)) (param_name (param o 1)) (param_name (param o 2)) (param_name (param o 3)) (param_name (param o
    4)) (param_name (param o 5)) (param_name (param o 6)) (param_name (param o 7)) (param_name (param o 8))).
Definition get_three_string_nine_double_type (o : CmdExecutionObj D) : M (option Z * CmdExecutionObj D) :=
  _ ← exchange 8000 (fun ID => prepare_json_request (get_rpc_name o) ID SendBuffer);
  answer_to o (fun c text => find_json_result_and_three_string_nine_double_param c text
    RPC_NAME_ARG_RESULT_PARAM (param_name (param o 0)) (param_name (param o 1)) (param_name (param o 2))
    (param_name (param o 3)) (param_name (param o 4)) (param_name (param o 5)) (param_name (param o 6))
    (param_name (param o 7)) (param_name (param o 8)) (param_name (param o 9)) (param_name (param o 10))
    (param_name (param o 11))).
Definition set_three_string_nine_double_type (o : CmdExecutionObj D) : M (option Z * list (cell D)) :=
  _ ← exchange 8000 (fun ID => prepare_json_request_three_string_nine_double_param (set_rpc_name o) ID
    SendBuffer (param_name (param o 0)) (param_value (param o 0)) (param_name (param o 1)) (param_value (param o
    1)) (param_name (param o 2)) (param_value (param o 2)) (param_name (param o 3)) (double_value (param o 3))
    (param_name (param o 4)) (double_value (param o 4)) (param_name (param o 5)) (double_value (param o 5))
    (param_name (param o 6)) (double_value (param o 6)) (param_name (param o 7)) (double_value (param o 7))
    (param_name (param o 8)) (double_value (param o 8)) (param_name (param o 9)) (double_value (param o 9))
    (param_name (param o 10)) (double_value (param o 10)) (param_name (param o 11)) (double_value (param o
    11)));
  answer (fun c text => find_json_result c text RPC_NAME_ARG_RESULT_PARAM).
Definition set_seven_int_type (o : CmdExecutionObj D) : M (option Z * list (cell D)) :=
  _ ← exchange 8000 (fun ID => prepare_json_request_seven_int_param (set_rpc_name o) ID SendBuffer (param_name
    (param o 0)) (int_value (param o 0)) (param_name (param o 1)) (int_value (param o 1)) (param_name (param o
    2)) (int_value (param o 2)) (param_name (param o 3)) (int_value (param o 3)) (param_name (param o 4))
    (int_value (param o 4)) (param_name (param o 5)) (int_value (param o 5)) (param_name (param o 6)) (int_value
    (param o 6)));
  answer (fun c text => find_json_result c text RPC_NAME_ARG_RESULT_PARAM).
Definition set_single_int_nine_double_type (o : CmdExecutionObj D) : M (option Z * list (cell D)) :=
  _ ← exchange 8000 (fun ID => prepare_json_request_single_int_nine_double_param (set_rpc_name o) ID SendBuffer
    (param_name (param o 0)) (int_value (param o 0)) (param_name (param o 1)) (double_value (param o 1))
    (param_name (param o 2)) (double_value (param o 2)) (param_name (param o 3)) (double_value (param o 3))
    (param_name (param o 4)) (double_value (param o 4)) (param_name (param o 5)) (double_value (param o 5))
    (param_name (param o 6)) (double_value (param o 6)) (param_name (param o 7)) (double_value (param o 7))
    (param_name (param o 8)) (double_value (param o 8)) (param_name (param o 9)) (double_value (param o 9)));
  answer (fun c text => find_json_result c text RPC_NAME_ARG_RESULT_PARAM).
Definition set_two_int_two_string_type (method_name first_name : string) (first_value : Z)
    (second_name : string) (second_value : Z) (third_name third_value fourth_name fourth_value : string) :
    M (option Z * list (cell D)) :=
  _ ← exchange 4000 (fun ID => prepare_json_request_two_int_two_string method_name ID SendBuffer first_name
    first_value second_name second_value third_name third_value fourth_name fourth_value);
  answer (fun c text => find_json_result c text RPC_NAME_ARG_RESULT_PARAM).
Definition set_three_double_type (method_name first_name : string) (first_value : D) (second_name : string)
    (second_value : D) (third_name : string) (third_value : D) : M (option Z * list (cell D)) :=
  _ ← exchange 4000 (fun ID => prepare_json_request_three_double method_name ID SendBuffer first_name
    first_value second_name second_value third_name third_value);
  answer (fun c text => find_json_result c text RPC_NAME_ARG_RESULT_PARAM).
Definition set_two_int_one_double_one_string_type (method_name first_name : string) (first_value : Z)
    (second_name : string) (second_value : D) (third_name third_value fourth_name : string) (fourth_value : Z)
    : M (option Z * list (cell D)) :=
  _ ← exchange 4000 (fun ID => prepare_json_request_two_int_one_double_one_string method_name ID SendBuffer
    first_name first_value second_name second_value third_name third_value fourth_name fourth_value);
  answer (fun c text => find_json_result c text RPC_NAME_ARG_RESULT_PARAM).
Definition get_two_int_two_string_type (method_name para1 para2 para3 para4 : string) :
    M (option Z * list (cell D)) :=
  _ ← exchange 4000 (fun ID => prepare_json_request method_name ID SendBuffer);
  answer (fun c text => find_json_result_and_two_int_two_string_param c text RPC_NAME_ARG_RESULT_PARAM para1
    para2 para3 para4).
Definition get_two_string_eight_int_type_with_integer_para (o : CmdExecutionObj D) :
    M (option Z * CmdExecutionObj D) :=
  _ ← exchange 80000 (fun ID => prepare_json_request_i (get_rpc_name o) ID SendBuffer (param_name (param o 0))
    (int_value (param o 0)));
  answer_to o (fun c text => find_json_result_and_two_string_eight_int_param c text RPC_NAME_ARG_RESULT_PARAM
    (param_name (param o 0)) (param_name (param o 1)) (param_name (param o 2)) (param_name (param o 3))
    (param_name (param o 4)) (param_name (param o 5)) (param_name (param o 6)) (param_name (param o 7))
    (param_name (param o 8)) (param_name (param o 9))).
Definition get_three_string_with_one_string_para (method_name para1 para1val para2 para3 para4 : string) :
    M (option Z * list (cell D)) :=
  _ ← exchange 4000 (fun ID => prepare_json_request_s method_name ID SendBuffer para1 para1val);
  answer (fun c text => find_json_result_and_three_string_param c text RPC_NAME_ARG_RESULT_PARAM para2 para3
    para4).
Definition get_three_string_type (method_name para1 para2 para3 : string) : M (option Z * list (cell D)) :=
  _ ← exchange 4000 (fun ID => prepare_json_request method_name ID SendBuffer);
  answer (fun c text => find_json_result_and_three_string_param c text RPC_NAME_ARG_RESULT_PARAM para1 para2
    para3).
Definition get_four_string_type (method_name para1 para2 para3 para4 : string) :
    M (option Z * list (cell D)) :=
  _ ← exchange 4000 (fun ID => prepare_json_request method_name ID SendBuffer);
  answer (fun c text => find_json_result_and_four_string_param c text RPC_NAME_ARG_RESULT_PARAM para1 para2
    para3 para4).
Definition set_one_string_three_int_type (method_name strname strval int1name : string) (int1val : Z)
    (int2name : string) (int2val : Z) (int3name : string) (int3val : Z) : M (option Z * list (cell D)) :=
  _ ← exchange 4000 (fun ID => prepare_json_request_one_string_three_int method_name ID SendBuffer strname
    strval int1name int1val int2name int2val int3name int3val);
  answer (fun c text => find_json_result c text RPC_NAME_ARG_RESULT_PARAM).
Definition get_one_string_three_int_type (method_name para1 para2 para3 para4 : string) :
    M (option Z * list (cell D)) :=
  _ ← exchange 4000 (fun ID => prepare_json_request method_name ID SendBuffer);
  answer (fun c text => find_json_result_one_string_three_int_param c text RPC_NAME_ARG_RESULT_PARAM para1 para2
    para3 para4).
Definition get_one_string_one_int_type (method_name para1 para2 : string) : M (option Z * list (cell D)) :=
  _ ← exchange 4000 (fun ID => prepare_json_request method_name ID SendBuffer);
  answer (fun c text => find_json_result_one_string_one_int_param c text RPC_NAME_ARG_RESULT_PARAM para1 para2).
Definition set_double_string_get_single_string_type (method_name first_param_name first_param_value
    second_param_name second_param_value third_para_name : string) : M (option Z * list (cell D)) :=
  _ ← exchange 4000 (fun ID => prepare_json_request_ss method_name ID SendBuffer first_param_name
    first_param_value second_param_name second_param_value);
  answer (fun c text => find_json_result_and_single_string_param c text RPC_NAME_ARG_RESULT_PARAM
    third_para_name).
Definition set_single_string_type (method_name method_param_name method_param_value : string) :
    M (option Z * list (cell D)) :=
  _ ← exchange 4000 (fun ID => prepare_json_request_s method_name ID SendBuffer method_param_name
    method_param_value);
  answer (fun c text => find_json_result c text RPC_NAME_ARG_RESULT_PARAM).
Definition set_single_string_get_single_string_type (method_name method_param_name method_param_value
    ret_para_name : string) : M (option Z * list (cell D)) :=
  _ ← exchange 4000 (fun ID => prepare_json_request_s method_name ID SendBuffer method_param_name
    method_param_value);
  answer (fun c text => find_json_result_and_single_string_param c text RPC_NAME_ARG_RESULT_PARAM
    ret_para_name).
Definition set_single_string_get_single_string_type_with_addr_para (method_name addr_para_name : string)
    (addr_para_value : Z) (method_param_name method_param_value ret_para_name : string) :
    M (option Z * list (cell D)) :=
  _ ← exchange 4000 (fun ID => prepare_json_request_is method_name ID SendBuffer addr_para_name addr_para_value
    method_param_name method_param_value);
  answer (fun c text => find_json_result_and_single_string_param c text RPC_NAME_ARG_RESULT_PARAM
    ret_para_name).
Definition set_action_noarg_type (method_name : string) : M (option Z * list (cell D)) :=
  _ ← exchange 4000 (fun ID => prepare_json_request method_name ID SendBuffer);
  answer (fun c text => find_json_result c text RPC_NAME_ARG_RESULT_PARAM).
Definition set_action_noarg_get_single_string_type (method_name ret_para_name : string) :
    M (option Z * list (cell D)) :=
  _ ← exchange 4000 (fun ID => prepare_json_request method_name ID SendBuffer);
  answer (fun c text => find_json_result_and_single_string_param c text RPC_NAME_ARG_RESULT_PARAM
    ret_para_name).
Definition get_string_type (method_name param_name : string) : M (option Z * list (cell D)) :=
  _ ← exchange 4000 (fun ID => prepare_json_request method_name ID SendBuffer);
  answer_or "NotFound" (fun c text => find_json_result_and_single_string_param c text RPC_NAME_ARG_RESULT_PARAM
    param_name).
Definition set_three_ulong_type (method_name first_name : string) (first_value : Z) (second_name : string)
    (second_value : Z) (third_name : string) (third_value : Z) : M (option Z * list (cell D)) :=
  _ ← exchange 4000 (fun ID => prepare_json_request_uuu method_name ID SendBuffer first_name first_value
    second_name second_value third_name third_value);
  answer (fun c text => find_json_result c text RPC_NAME_ARG_RESULT_PARAM).
Definition get_six_int_one_string_with_string_para (method_name para1 para1val para2 para3 para4 para5 para6
    para7 : string) : M (option Z * list (cell D)) :=
  _ ← exchange 4000 (fun ID => prepare_json_request_s method_name ID SendBuffer para1 para1val);
  answer (fun c text => find_json_result_and_six_int_one_string_param c text RPC_NAME_ARG_RESULT_PARAM para2
    para3 para4 para5 para6 para7).

(** [sscanf()] with the format [%lu]: the value stored, if one is. *)
Definition scan_number (r : string) : option Z :=
  match r with
  | String c _ => if digit_of c then Some (digits r 0) else None
  | EmptyString => None
  end.
Definition scan_lu (s : string) : option Z :=
  let limit := 2 ^ 64 in
  match skip_space s with
  | String "-" r => n ← scan_number r; Some (if n <? limit then (- n) mod limit else limit - 1)
  | String "+" r => n ← scan_number r; Some (Z.min n (limit - 1))
  | r => n ← scan_number r; Some (Z.min n (limit - 1))
  end.

(** [get_three_ulong_type()]: the code, and what is stored to the three values.  The
    strings go to arrays of 255 characters that hold [junk] before; [None] when one is
    written past its end. *)
Definition get_three_ulong_type (junk method_name first_name second_name third_name : string)
  : M (option (option Z * list (option Z))) :=
  '(tmp_res, cells) ← get_three_string_type method_name first_name second_name third_name;
  let str i := match nth_error cells i with Some (CStr s) => s | _ => junk end in
  if existsb (fun v => match v with CStr s => (255 <=? String.length s)%nat | _ => false end) cells then mret None
  else if bool_decide (tmp_res = Some Rpc.SUCCESS) then
    mret (Some (tmp_res, [scan_lu (str 0%nat); scan_lu (str 1%nat); scan_lu (str 2%nat)]))
  else mret (Some (tmp_res, [Some 0; Some 0; Some 0])).
End client.
