(* ===== verification/ClientSpec.v ===== *)
(** * Correctness of the JSON-RPC client

    A call ends by its timeout; the response it reads, if it has an identifier, has the
    identifier of the request, and the request was sent whole; what the client sends the
    server accepts, and what the server answers the client reads as it was written. *)
From S2P Require Import Prelude Framer Io NetClient NetClientSpec Common Proxy Client.
Open Scope Z_scope.

(** What the client relies on beyond the laws of the server: an empty text is no JSON,
    an integer is read as the one that was stored, an object has a text. *)
Class JsonClientLaws (J D : Type) `{JsonRpcCLaws J D} := {
  parse_empty : json_tokener_parse EmptyString = None;
  int_of_int : forall n, int_min <= n <= int_max -> json_object_get_int (json_object_new_int n) = n;
  object_text : forall o, is_object o -> is_Some (json_object_get_string o);
}.

Section exchange.
Context {K J D : Type} `{KernelLaws K} `{JsonC J D} `{JsonRpcC J}.
Implicit Types (c : ADJsonRpcClient) (w : traced K).

Definition rpc_ok (c : ADJsonRpcClient) (w : traced K) : Prop :=
  good (ClientSocket c) w /\ (1 <= out_size c <= ADJSONRPC_CLIENT_MAX_OUT_SIZE)%nat.

Lemma ends_on_socket {A} (m : io (traced K) ADNetClient A) c w Q :
  ends (ClientSocket c) w m Q ->
  ends c w (on_socket m) (fun a c' w' => exists s, c' = set_socket c s /\ Q a s w').
Proof. intros Hm. apply ends_on. eapply ends_conseq; [exact Hm|]. intros a s w' Hq. by exists s. Qed.

Lemma monotonic_ends s w :
  ends s w (monotonic_ms (W := traced K)) (fun ms s' w' =>
    s' = s /\ quiet w w' /\ forall d, ms < d -> (credit d w' < credit d w)%nat).
Proof.
  unfold monotonic_ms. repeat io_step. split_and!; [done|quiet|]. intros d Hd. credits d.
Qed.

(** ** Receiving *)

(** What is kept after [receive_loop()], [c] being the client before. *)
Record received c w c' (w' : traced K) : Prop := {
  rc_members : exists m s r, c' = with_link (with_rx c m (recv_buffer c)) r (connected c) s;
  rc_good : good (ClientSocket c') w';
  rc_written : written w' = written w;
  rc_message : rx_msg c' = [] \/ message (rx_msg c') /\ Z.of_nat (length (rx_msg c')) <= ADJSON_STREAM_FRAMER_DEFAULT_MAX_MSG;
  rc_reconnect : reconnect_needed c = true -> reconnect_needed c' = true;
}.

Lemma receive_loop_ends deadline c w :
  good (ClientSocket c) w -> rx_msg c = [] ->
  ends c w (receive_loop deadline) (fun _ c' w' => received c w c' w' /\
    (rx_msg c' = [] \/ tx_id c < 0 \/ response_matches (rx_msg c') (tx_id c) = true)).
Proof.
  intros Hg He. apply (ends_forever (fun _ _ w => credit deadline w) _
    (fun _ c' w' => received c w c' w' /\ rx_msg c' = [])).
  2: { split; [|done]. split; [|done|done|by left|done]. exists [], (ClientSocket c), (reconnect_needed c).
       destruct c; simpl in *; by subst. }
  intros [] c1 w1 [[(m1 & s1 & r1 & E1) Hg1 Hw1 _ Hr1] He1].
  eapply ends_bind; [by apply ends_on_socket, monotonic_ends|].
  intros now c2 w2 (s2 & -> & -> & Hq2 & Hcr). simpl in Hg1.
  assert (set_socket c1 (ClientSocket c1) = c1) as -> by by destruct c1.
  cbv zeta. destruct (Z.leb_spec (deadline - now) 0) as [Hd|Hd].
  { io_step. split; [|by left]. split; [by exists m1, s1, r1|by eapply good_quiet| |by left|done].
    by rewrite (proj1 (proj2 Hq2)). }
  assert (credit deadline w2 < credit deadline w1)%nat as Hlt by (apply Hcr; lia). clear Hcr.
  eapply ends_bind; [apply ends_on_socket, receive_json_blocking_ends; by eapply good_quiet|].
  intros [rc msg] c3 w3 (s3 & -> & Hm & _ & Hl). cbv beta match.
  destruct (same_link_good _ _ _ _ (good_quiet _ _ _ Hg1 Hq2) Hl) as (Hg3 & _ & Hw3).
  assert (written w3 = written w) as Hw by (rewrite Hw3, (proj1 (proj2 Hq2)); done).
  assert (credit deadline w3 <= credit deadline w2)%nat as Hle by apply Hl.
  assert (forall m r, (reconnect_needed c = true -> r = true) ->
    (m = [] \/ message m /\ Z.of_nat (length m) <= ADJSON_STREAM_FRAMER_DEFAULT_MAX_MSG) ->
    received c w (with_link (with_rx c m (recv_buffer c)) r (connected c) s3) w3) as Hrec.
  { intros m r Hr Hmm. split; [by exists m, s3, r|done|done|done|done]. }
  io_step. subst c1. simpl in He1, Hr1.
  destruct Hm as [(Erc & Hmsg & Hb) | [Erc Em]]; simpl in Erc.
  - assert (0 < length msg)%nat by by apply message_length.
    rewrite (proj2 (Z.eqb_neq rc (-2))), (proj2 (Z.ltb_ge rc 0)) by lia. io_step.
    cbn [tx_id set_rx_msg set_socket with_rx with_link rx_msg].
    destruct (Z.ltb_spec (tx_id c) 0); [io_step; split; [apply (Hrec msg r1); [done|by right]|by right; left]|].
    destruct (response_matches msg (tx_id c)) eqn:Er.
    + io_step. split; [apply (Hrec msg r1); [done|by right]|by right; right].
    + repeat io_step. split; [split; [apply (Hrec [] r1); [done|by left]|done]|lia].
  - simpl in Em. subst msg. destruct Erc as [-> | ->]; cbn [Z.eqb Z.ltb Z.compare Pos.eqb].
    + io_step. split; [apply (Hrec [] r1); [done|by left]|by left].
    + repeat io_step. split; [apply (Hrec [] true); [done|by left]|by left].
Qed.

(** [receive_response()]: the answer to the request with identifier [tx_id], or -1 and no
    response. *)
Definition response_of c (r : Z) c' : Prop :=
  r = Z.of_nat (length (rx_msg c')) /\ message (rx_msg c') /\ reconnect_needed c' = false /\
    (tx_id c < 0 \/ response_matches (rx_msg c') (tx_id c) = true) /\
    recv_buffer c' = take (MAX_RECV_BUFFER_SIZE - 1) (rx_msg c') \/
  r = -1 /\ rx_msg c' = [] /\ recv_buffer c' = recv_buffer c.

Lemma receive_response_ends timeout c w :
  good (ClientSocket c) w -> rx_msg c = [] ->
  ends c w (receive_response timeout) (fun r c' w' =>
    (exists m b s r, c' = with_link (with_rx c m b) r (connected c) s) /\
    good (ClientSocket c') w' /\ written w' = written w /\ response_of c r c' /\
    (reconnect_needed c = true -> r = -1)).
Proof.
  intros Hg He. unfold receive_response. io_step.
  eapply ends_bind; [by apply ends_on_socket, monotonic_ends|].
  intros now c1 w1 (s1 & -> & -> & Hq & _). assert (set_socket c (ClientSocket c) = c) as -> by by destruct c.
  eapply ends_bind; [apply receive_loop_ends; [by eapply good_quiet|done]|].
  intros [] c2 w2 [[(m & s & r & E) Hg2 Hw2 Hm Hr] Hmatch]. rewrite (proj1 (proj2 Hq)) in Hw2.
  io_step. case_bool_decide as Hm2; cbn [negb andb].
  { rewrite andb_false_r. repeat io_step. split_and!; [|done|done|right; by subst c2|done].
    subst c2. by exists m, (recv_buffer c), s, r. }
  destruct Hm as [|[Hm Hb]]; [done|]. destruct (reconnect_needed c2) eqn:Er; cbn [negb andb].
  - repeat io_step. subst c2. split_and!; [|done|done|by right|done]. by exists [], (recv_buffer c), s, r.
  - repeat io_step. subst c2. cbn in *. split_and!; [by eexists m, _, s, r|done|done| |naive_solver].
    left. destruct Hmatch as [?|Hmatch]; [done|].
    split_and!; [|done|done|done|].
    + apply i32_id. unfold int_min, int_max, ADJSON_STREAM_FRAMER_DEFAULT_MAX_MSG in *. simpl. lia.
    + apply (take_min_length (MAX_RECV_BUFFER_SIZE - 1) m).
Qed.

(** ** Sending *)

(** The reconnection in front of a request. *)
Lemma reconnect_ends c w :
  good (ClientSocket c) w ->
  ends c w (if reconnect_needed c then
              _ ← on_socket sock_disconnect;
              rc ← on_socket sock_connect;
              if rc =? 0 then modify (set_reconnect false) else mret ()
            else mret ())
    (fun _ c' w' => (exists s r, c' = with_link c r (connected c) s) /\ good (ClientSocket c') w' /\ written w' = written w).
Proof.
  intros Hg. destruct (reconnect_needed c) eqn:Er.
  2: { io_step. split; [|done]. exists (ClientSocket c), false. destruct c; simpl in *; by subst. }
  eapply ends_bind; [by apply ends_on_socket, sock_disconnect_ends|].
  intros r c1 w1 (s1 & -> & _ & Hg1 & _ & Hw1).
  eapply ends_bind; [by apply ends_on_socket, sock_connect_ends|].
  intros rc c2 w2 (s2 & -> & Hg2 & Hw2 & _).
  destruct (rc =? 0); io_step; (split_and!; [by eexists s2, _|done|congruence]).
Qed.

Lemma send_request_ends c w :
  good (ClientSocket c) w ->
  ends c w send_request (fun rc c' w' => exists s r, c' = with_link (with_rx c [] []) r (connected c) s /\
    good s w' /\
    (rc = 0 /\ written w' = written w ++ tx_msg c \/
     rc = -1 /\ r = true /\ exists n, written w' = written w ++ take n (tx_msg c))).
Proof.
  intros Hg. unfold send_request. io_step. eapply ends_bind; [by apply reconnect_ends|].
  intros [] c1 w1 ((s1 & r1 & ->) & Hg1 & Hw1). repeat io_step.
  eapply ends_bind; [by apply ends_on_socket, send_data_ends|].
  intros rc c2 w2 (s2 & -> & Hg2 & _ & Hs). simpl in Hs. rewrite Hw1 in Hs.
  destruct Hs as [(-> & _ & _ & Hw & _) | (-> & n & _ & Hw)]; cbn [Z.eqb]; repeat io_step.
  - exists s2, r1. split_and!; [done|done|by left].
  - exists s2, true. split_and!; [done|done|right]. split_and!; [done|done|by exists n].
Qed.

(** ** Connecting *)

Lemma new_rpc_ok now w : open_fds w = [] -> misused w = false -> rpc_ok (new_ADJsonRpcClient now) w.
Proof.
  intros Ho Hm. split; [|vm_compute; split; lia]. split_and!; [apply new_client_ok|done|done].
Qed.

Lemma rpc_server_connect_ends ip_addr port_num c w :
  rpc_ok c w -> ends c w (rpc_server_connect ip_addr port_num) (fun _ c' w' =>
    rpc_ok c' w' /\ req_id c' = req_id c /\ written w' = written w).
Proof.
  intros [Hg Hs]. unfold rpc_server_connect. io_step. destruct (connected c); [by io_step|].
  eapply ends_bind; [by apply ends_on_socket, sock_connect_str_ends|].
  intros rc c1 w1 (s & -> & Hg1 & Hw & _). destruct (rc =? 0); repeat io_step; (split; [by split|done]).
Qed.

Lemma rpc_server_disconnect_ends c w :
  rpc_ok c w -> ends c w rpc_server_disconnect (fun rc c' w' =>
    rc = 0 /\ rpc_ok c' w' /\ connected c' = false /\ written w' = written w /\
    (connected c = true -> open_fds w' = [])).
Proof.
  intros [Hg Hs]. unfold rpc_server_disconnect. io_step. destruct (connected c) eqn:Ec.
  - eapply ends_bind; [by apply ends_on_socket, sock_disconnect_ends|].
    intros rc c1 w1 (s & -> & _ & Hg1 & Hc & Hw). repeat io_step. split; [done|]. split; [by split|]. do 2 (split; [done|]).
    intros _. destruct Hg1 as (_ & -> & _). unfold own_fds. by rewrite Hc.
  - repeat io_step. split; [done|]. split; [by split|]. by do 2 (split; [done|]).
Qed.

Lemma destruct_rpc_client_ends c w :
  rpc_ok c w ->
  ends c w destruct_rpc_client (fun _ c' w' => open_fds w' = [] /\ misused w' = false /\ written w' = written w).
Proof.
  intros [Hg _]. unfold destruct_rpc_client. eapply ends_bind; [by apply ends_on_socket, sock_disconnect_ends|].
  intros r c1 w1 (s & -> & _ & Hg1 & _ & Hw). eapply ends_conseq.
  - apply ends_on_socket with (Q := fun _ s' w' => good s' w' /\ NetClient.connected s' = false /\ written w' = written w1).
    unfold destruct_client. eapply ends_bind; [by apply sock_disconnect_ends|].
    intros r1 s1 w2 (_ & Hg2 & Hc & Hw2). by apply ends_ret.
  - intros [] c2 w2 (s2 & _ & (_ & Ho & Hm) & Hc & Hw2). unfold own_fds in Ho. rewrite Hc in Ho. split_and!; congruence.
Qed.
End exchange.

(** ** An exchange *)

Section calls.
Context {K J D : Type} `{KernelLaws K} `{JsonClientLaws J D}.
Implicit Types (c : ADJsonRpcClient) (w : traced K).

(** The text of a request. *)
Definition request_text (method : string) (ID : Z) (fields : option (list (string * J))) : list ascii :=
  default [] (json_object_to_json_string_length (request_object method ID fields)).

Lemma request_object_is method ID fields : is_object (request_object method ID fields).
Proof.
  unfold request_object. apply add_is. destruct fields; repeat apply add_is; apply new_object_is.
Qed.

Lemma request_id method ID fields :
  json_object_object_get (request_object method ID fields) "id" = Some (json_object_new_int ID).
Proof. apply get_add_eq. destruct fields; repeat apply add_is; apply new_object_is. Qed.

Lemma prepare_ends method ID fields c w :
  int_min <= ID <= int_max ->
  ends c w (prepare method ID SendBuffer fields) (fun rc c' w' => rc = 0 /\ w' = w /\
    c' = with_tx c (request_text method ID fields) ID (take (MAX_SEND_BUFFER_SIZE - 1) (request_text method ID fields))).
Proof.
  intros Hid. unfold prepare, store_request. repeat io_step. rewrite request_id, int_of_int by done.
  split_and!; [done|done|]. by rewrite take_min_length.
Qed.

(** What an exchange leaves: the request of this identifier was sent, and what was
    received answers it; or nothing was received. *)
Definition exchanged method fields c w c' w' : Prop :=
  let request := request_text method (req_id c) fields in
  rpc_ok c' w' /\ req_id c' = i32 (req_id c + 1) /\ out_size c' = out_size c /\
  tx_msg c' = request /\ tx_id c' = req_id c /\ connected c' = connected c /\
  (rx_msg c' = [] /\ (exists n, written w' = written w ++ take n request) \/
   message (rx_msg c') /\ written w' = written w ++ request /\ reconnect_needed c' = false /\
   response_matches (rx_msg c') (req_id c) = true).

Lemma exchange_ends timeout method fields c w :
  rpc_ok c w -> 0 <= req_id c <= int_max ->
  ends c w (exchange timeout (fun ID => prepare method ID SendBuffer fields)) (fun _ => exchanged method fields c w).
Proof.
  intros [Hg Hs] Hid. unfold exchange. repeat io_step.
  eapply ends_bind; [apply prepare_ends; unfold int_min; lia|]. intros rc c1 w1 (_ & -> & ->).
  eapply ends_bind; [by apply send_request_ends|]. intros rc2 c2 w2 (s & r & -> & Hg2 & Hsent). simpl in Hsent.
  eapply ends_bind; [by apply receive_response_ends|].
  intros rc3 c3 w3 ((m & b & s3 & r3 & ->) & Hg3 & Hw3 & Hresp & Hfail). io_step. simpl in *.
  unfold exchanged. simpl. split_and!; [by split|done|done|done|done|done|].
  destruct Hresp as [(Erc & Hm & Hr & Hmatch & _) | (Erc & Hm & _)]; simpl in *.
  - destruct Hsent as [(_ & Hw) | (_ & -> & _)].
    + right. split_and!; [done|congruence|done|]. destruct Hmatch; [lia|done].
    + rewrite Hfail in Erc by done. lia.
  - left. split; [done|]. rewrite Hw3. destruct Hsent as [(_ & ->) | (_ & _ & Hn)]; [|done].
    exists (length (request_text method (req_id c) fields)). by rewrite take_ge.
Qed.

Lemma find_result_empty c name fields : find_result (D := D) c EmptyString name fields = (-1, None, []).
Proof. unfold find_result. by rewrite parse_empty. Qed.

(** ** The calls *)

(** What the reader of a response found: the result code and the values. *)
Definition read_with (find : ADJsonRpcClient -> string -> Z * option string * list (cell D)) c (text : string) :
    option Z * list (cell D) :=
  (result_code (find c text), (find c text).2).

(** The values [get_three_ulong_type()] stores for what was read: zeros unless the code is
    a success; [None] when a string does not fit its array. *)
Definition read_ulongs (junk : string) (r : option Z * list (cell D)) : option (option Z * list (option Z)) :=
  let str i := match nth_error r.2 i with Some (CStr s) => s | _ => junk end in
  if existsb (fun v => match v with CStr s => (255 <=? String.length s)%nat | _ => false end) r.2 then None
  else if bool_decide (r.1 = Some Rpc.SUCCESS) then
    Some (r.1, [scan_lu (str 0%nat); scan_lu (str 1%nat); scan_lu (str 2%nat)])
  else Some (r.1, [Some 0; Some 0; Some 0]).

(** [rpc_call method fields m value nothing]: [m] sends a request for [method] with the
    parameters [fields] and reads the answer.  Its result is [value] of the text of a
    response, and [nothing] if there is no response.  The calls differ in the values they
    leave then: none; the text a buffer was given before; the command object as it was;
    or three zeros. *)
Inductive rpc_call (method : string) : forall (fields : option (list (string * J))) {A : Type},
    io (traced K) ADJsonRpcClient A -> (ADJsonRpcClient -> string -> A) -> (ADJsonRpcClient -> A) -> Prop :=
| call_values timeout fields name wanted :
    rpc_call method fields
      (_ ← exchange timeout (fun ID => prepare method ID SendBuffer fields);
       answer (fun c text => find_result c text name wanted))
      (read_with (fun c text => find_result c text name wanted))
      (fun _ => (Some Rpc.UNKNOWN, []))
| call_default timeout fields name wanted text :
    rpc_call method fields
      (_ ← exchange timeout (fun ID => prepare method ID SendBuffer fields);
       answer_or text (fun c text => find_result c text name wanted))
      (fun c s => let r := read_with (fun c text => find_result c text name wanted) c s in
                  (r.1, match r.2 with [] => [CStr (copy_out c (Some text))] | cells => cells end))
      (fun c => (Some Rpc.UNKNOWN, [CStr (copy_out c (Some text))]))
| call_object timeout fields name wanted o :
    rpc_call method fields
      (_ ← exchange timeout (fun ID => prepare method ID SendBuffer fields);
       answer_to o (fun c text => find_result c text name wanted))
      (fun c s => let r := read_with (fun c text => find_result c text name wanted) c s in (r.1, write_params o r.2))
      (fun _ => (Some Rpc.UNKNOWN, o))
| call_ulongs junk name1 name2 name3 :
    rpc_call method None
      (get_three_ulong_type junk method name1 name2 name3)
      (fun c s => read_ulongs junk (read_with (fun c text =>
         find_json_result_and_three_string_param c text RPC_NAME_ARG_RESULT_PARAM name1 name2 name3) c s))
      (fun _ => Some (Some Rpc.UNKNOWN, [Some 0; Some 0; Some 0])).

(** The [set_] and [get_] methods of [ADJsonRpcClient], with any arguments. *)
Inductive client_method : forall {A : Type}, io (traced K) ADJsonRpcClient A -> Prop :=
| method_set_integer_type_i method_name method_param_name method_param_value : client_method (set_integer_type_i
    method_name method_param_name method_param_value)
| method_set_integer_type_s method_name method_param_name method_param_value : client_method (set_integer_type_s
    method_name method_param_name method_param_value)
| method_get_integer_type method_name param_name : client_method (get_integer_type method_name param_name)
| method_set_integer_type_with_addr_para method_name addr_para_name addr_para_value method_param_name
    method_param_value : client_method (set_integer_type_with_addr_para method_name addr_para_name addr_para_value
    method_param_name method_param_value)
| method_get_integer_type_with_addr_para method_name addr_para_name addr_para_value resp_param_name : client_method
    (get_integer_type_with_addr_para method_name addr_para_name addr_para_value resp_param_name)
| method_set_three_int_type method_name int1Nm int1Vl int2Nm int2Vl int3Nm int3Vl : client_method
    (set_three_int_type method_name int1Nm int1Vl int2Nm int2Vl int3Nm int3Vl)
| method_set_three_int_get_one_int method_name int1Nm int1Vl int2Nm int2Vl int3Nm int3Vl int4Nm : client_method
    (set_three_int_get_one_int method_name int1Nm int1Vl int2Nm int2Vl int3Nm int3Vl int4Nm)
| method_set_enum_type_with_addr_para method_name addr_para_name addr_para_value method_param_name
    method_param_value : client_method (set_enum_type_with_addr_para method_name addr_para_name addr_para_value
    method_param_name method_param_value)
| method_get_enum_type_with_addr_para method_name addr_para_name addr_para_value resp_param_name : client_method
    (get_enum_type_with_addr_para method_name addr_para_name addr_para_value resp_param_name)
| method_get_string_type_with_string_para method_name str_para_name str_para_value res_para_name : client_method
    (get_string_type_with_string_para method_name str_para_name str_para_value res_para_name)
| method_get_int_type_with_string_para method_name str_para_name str_para_value res_para_name : client_method
    (get_int_type_with_string_para method_name str_para_name str_para_value res_para_name)
| method_get_string_type_with_string_para_with_addr_para method_name addr_para_name addr_para_value str_para_value
    str_para_name res_para_name : client_method (get_string_type_with_string_para_with_addr_para method_name
    addr_para_name addr_para_value str_para_value str_para_name res_para_name)
| method_set_double_string_type method_name first_param_name first_param_value second_param_name second_param_value
    : client_method (set_double_string_type method_name first_param_name first_param_value second_param_name
    second_param_value)
| method_set_tripple_string_type method_name first_param_name first_param_value second_param_name
    second_param_value third_param_name third_param_value : client_method (set_tripple_string_type method_name
    first_param_name first_param_value second_param_name second_param_value third_param_name third_param_value)
| method_set_four_string_type method_name para1 para1val para2 para2val para3 para3val para4 para4val :
    client_method (set_four_string_type method_name para1 para1val para2 para2val para3 para3val para4 para4val)
| method_set_three_string_type method_name para1 para1val para2 para2val para3 para3val : client_method
    (set_three_string_type method_name para1 para1val para2 para2val para3 para3val)
| method_set_tripple_string_get_single_string_type method_name first_param_name first_param_value second_param_name
    second_param_value third_param_name third_param_value fourth_param_name : client_method
    (set_tripple_string_get_single_string_type method_name first_param_name first_param_value second_param_name
    second_param_value third_param_name third_param_value fourth_param_name)
| method_set_single_string_triple_int_type method_name first_param_name first_param_value second_param_name
    second_param_value third_param_name third_param_value fourth_param_name fourth_param_value : client_method
    (set_single_string_triple_int_type method_name first_param_name first_param_value second_param_name
    second_param_value third_param_name third_param_value fourth_param_name fourth_param_value)
| method_set_single_string_single_int_type method_name first_param_name first_param_value second_param_name
    second_param_value : client_method (set_single_string_single_int_type method_name first_param_name
    first_param_value second_param_name second_param_value)
| method_set_double_string_triple_int_type method_name first_param_name first_param_value second_param_name
    second_param_value third_param_name third_param_value fourth_param_name fourth_param_value fifth_param_name
    fifth_param_value : client_method (set_double_string_triple_int_type method_name first_param_name first_param_value
    second_param_name second_param_value third_param_name third_param_value fourth_param_name fourth_param_value
    fifth_param_name fifth_param_value)
| method_set_four_int_type method_name first_name first_value second_name second_value third_name third_value
    fourth_name fourth_value : client_method (set_four_int_type method_name first_name first_value second_name
    second_value third_name third_value fourth_name fourth_value)
| method_get_four_int_type method_name para1 para2 para3 para4 : client_method (get_four_int_type method_name para1
    para2 para3 para4)
| method_get_five_string_type_status_error_info o : client_method (get_five_string_type_status_error_info o)
| method_set_four_int_two_string_type method_name first_name first_value second_name second_value third_name
    third_value fourth_name fourth_value fifth_name fifth_value sixth_name sixth_value : client_method
    (set_four_int_two_string_type method_name first_name first_value second_name second_value third_name third_value
    fourth_name fourth_value fifth_name fifth_value sixth_name sixth_value)
| method_set_single_string_with_string_para method_name para1 para1val para2 para2val : client_method
    (set_single_string_with_string_para method_name para1 para1val para2 para2val)
| method_set_single_string_with_five_string_para method_name para1 para1val para2 para2val para3 para3val para4
    para4val para5 para5val : client_method (set_single_string_with_five_string_para method_name para1 para1val para2
    para2val para3 para3val para4 para4val para5 para5val)
| method_set_single_string_with_nine_string_para method_name para1 para1val para2 para2val para3 para3val para4
    para4val para5 para5val para6 para6val para7 para7val para8 para8val para9 para9val : client_method
    (set_single_string_with_nine_string_para method_name para1 para1val para2 para2val para3 para3val para4 para4val
    para5 para5val para6 para6val para7 para7val para8 para8val para9 para9val)
| method_get_four_int_one_string_with_string_para method_name para1 para2 para3 para4 para5 para6 para6val :
    client_method (get_four_int_one_string_with_string_para method_name para1 para2 para3 para4 para5 para6 para6val)
| method_get_four_int_two_string_with_string_para method_name para1 para2 para3 para4 para5 para6 para7 para7val :
    client_method (get_four_int_two_string_with_string_para method_name para1 para2 para3 para4 para5 para6 para7
    para7val)
| method_get_single_string_with_string_para method_name para1 para1val para2 : client_method
    (get_single_string_with_string_para method_name para1 para1val para2)
| method_get_two_string_with_string_para method_name para1 para2 : client_method (get_two_string_with_string_para
    method_name para1 para2)
| method_get_three_string_with_string_para method_name para1 para2 para3 : client_method
    (get_three_string_with_string_para method_name para1 para2 para3)
| method_get_two_int_three_double_one_string_type method_name para1 para2 para3 para4 para5 para6 : client_method
    (get_two_int_three_double_one_string_type method_name para1 para2 para3 para4 para5 para6)
| method_get_two_int_two_float_one_string_with_string_para_double method_name para1 para1val para2 para3 para4
    para5 : client_method (get_two_int_two_float_one_string_with_string_para_double method_name para1 para1val para2
    para3 para4 para5)
| method_get_two_int_two_float_one_string_with_string_para_float method_name para1 para1val para2 para3 para4 para5
    : client_method (get_two_int_two_float_one_string_with_string_para_float method_name para1 para1val para2 para3
    para4 para5)
| method_get_three_int_type_with_integer_para o : client_method (get_three_int_type_with_integer_para o)
| method_get_two_string_eight_int_type_with_three_int_two_string_para o : client_method
    (get_two_string_eight_int_type_with_three_int_two_string_para o)
| method_get_two_int_type_max_min_brightness o : client_method (get_two_int_type_max_min_brightness o)
| method_get_six_int_type o : client_method (get_six_int_type o)
| method_get_seven_int_type_native_params o : client_method (get_seven_int_type_native_params o)
| method_get_three_double_type o : client_method (get_three_double_type o)
| method_get_three_double_type_with_string_para o : client_method (get_three_double_type_with_string_para o)
| method_get_nine_double_type o : client_method (get_nine_double_type o)
| method_get_three_string_nine_double_type o : client_method (get_three_string_nine_double_type o)
| method_set_three_string_nine_double_type o : client_method (set_three_string_nine_double_type o)
| method_set_seven_int_type o : client_method (set_seven_int_type o)
| method_set_single_int_nine_double_type o : client_method (set_single_int_nine_double_type o)
| method_set_two_int_two_string_type method_name first_name first_value second_name second_value third_name
    third_value fourth_name fourth_value : client_method (set_two_int_two_string_type method_name first_name
    first_value second_name second_value third_name third_value fourth_name fourth_value)
| method_set_three_double_type method_name first_name first_value second_name second_value third_name third_value :
    client_method (set_three_double_type method_name first_name first_value second_name second_value third_name
    third_value)
| method_set_two_int_one_double_one_string_type method_name first_name first_value second_name second_value
    third_name third_value fourth_name fourth_value : client_method (set_two_int_one_double_one_string_type method_name
    first_name first_value second_name second_value third_name third_value fourth_name fourth_value)
| method_get_two_int_two_string_type method_name para1 para2 para3 para4 : client_method
    (get_two_int_two_string_type method_name para1 para2 para3 para4)
| method_get_two_string_eight_int_type_with_integer_para o : client_method
    (get_two_string_eight_int_type_with_integer_para o)
| method_get_three_string_with_one_string_para method_name para1 para1val para2 para3 para4 : client_method
    (get_three_string_with_one_string_para method_name para1 para1val para2 para3 para4)
| method_get_three_string_type method_name para1 para2 para3 : client_method (get_three_string_type method_name
    para1 para2 para3)
| method_get_four_string_type method_name para1 para2 para3 para4 : client_method (get_four_string_type method_name
    para1 para2 para3 para4)
| method_set_one_string_three_int_type method_name strname strval int1name int1val int2name int2val int3name
    int3val : client_method (set_one_string_three_int_type method_name strname strval int1name int1val int2name int2val
    int3name int3val)
| method_get_one_string_three_int_type method_name para1 para2 para3 para4 : client_method
    (get_one_string_three_int_type method_name para1 para2 para3 para4)
| method_get_one_string_one_int_type method_name para1 para2 : client_method (get_one_string_one_int_type
    method_name para1 para2)
| method_set_double_string_get_single_string_type method_name first_param_name first_param_value second_param_name
    second_param_value third_para_name : client_method (set_double_string_get_single_string_type method_name
    first_param_name first_param_value second_param_name second_param_value third_para_name)
| method_set_single_string_type method_name method_param_name method_param_value : client_method
    (set_single_string_type method_name method_param_name method_param_value)
| method_set_single_string_get_single_string_type method_name method_param_name method_param_value ret_para_name :
    client_method (set_single_string_get_single_string_type method_name method_param_name method_param_value
    ret_para_name)
| method_set_single_string_get_single_string_type_with_addr_para method_name addr_para_name addr_para_value
    method_param_name method_param_value ret_para_name : client_method
    (set_single_string_get_single_string_type_with_addr_para method_name addr_para_name addr_para_value
    method_param_name method_param_value ret_para_name)
| method_set_action_noarg_type method_name : client_method (set_action_noarg_type method_name)
| method_set_action_noarg_get_single_string_type method_name ret_para_name : client_method
    (set_action_noarg_get_single_string_type method_name ret_para_name)
| method_get_string_type method_name param_name : client_method (get_string_type method_name param_name)
| method_set_three_ulong_type method_name first_name first_value second_name second_value third_name third_value :
    client_method (set_three_ulong_type method_name first_name first_value second_name second_value third_name
    third_value)
| method_get_six_int_one_string_with_string_para method_name para1 para1val para2 para3 para4 para5 para6 para7 :
    client_method (get_six_int_one_string_with_string_para method_name para1 para1val para2 para3 para4 para5 para6
    para7)
| method_get_three_ulong_type junk method_name first_name second_name third_name : client_method
    (get_three_ulong_type junk method_name first_name second_name third_name).

Lemma methods_are_calls A (m : io (traced K) ADJsonRpcClient A) :
  client_method m -> exists method fields value nothing, rpc_call method fields m value nothing.
Proof.
  destruct 1; do 4 eexists;
    first [ by apply call_values | by apply call_default | by apply call_object | by apply call_ulongs ].
Qed.

Lemma rx_json_read c method fields c0 w0 w :
  exchanged method fields c0 w0 c w ->
  rx_msg c = [] /\ rx_json c = EmptyString \/
  rx_msg c <> [] /\ response_matches (rx_msg c) (req_id c0) = true /\ rx_json c = c_string (rx_msg c).
Proof.
  intros (_ & _ & _ & _ & _ & _ & [[He _] | (Hm & _ & _ & Hr)]); unfold rx_json.
  - left. by rewrite He.
  - right. split_and!; [|done|done]. intros He. apply message_length in Hm. rewrite He in Hm. simpl in Hm. lia.
Qed.

(** What a call does with the client and the network, and what it answers. *)
Definition answered_by {A} method (fields : option (list (string * J))) (value : ADJsonRpcClient -> string -> A)
    (nothing : ADJsonRpcClient -> A) c w (r : A) c' w' : Prop :=
  exchanged method fields c w c' w' /\
  (rx_msg c' = [] /\ r = nothing c' \/
   rx_msg c' <> [] /\ response_matches (rx_msg c') (req_id c) = true /\ r = value c' (c_string (rx_msg c'))).

Lemma answer_ends method fields c w c0 w0 name wanted :
  exchanged method fields c w c0 w0 ->
  ends c0 w0 (answer (fun c text => find_result c text name wanted))
    (answered_by method fields (read_with (fun c text => find_result c text name wanted))
       (fun _ => (Some Rpc.UNKNOWN, [])) c w).
Proof.
  intros Hx. unfold answer. repeat io_step. split; [done|].
  destruct (rx_json_read _ _ _ _ _ _ Hx) as [[He ->] | (Hm & Hr & ->)]; [left|by right].
  by rewrite find_result_empty.
Qed.

Lemma call_ends A (m : io (traced K) ADJsonRpcClient A) method fields value nothing c w :
  rpc_ok c w -> 0 <= req_id c <= int_max -> rpc_call method fields m value nothing ->
  ends c w m (answered_by method fields value nothing c w).
Proof.
  intros Hok Hid Hc. destruct Hc as [timeout fields name wanted|timeout fields name wanted text|
    timeout fields name wanted o|junk name1 name2 name3].
  - eapply ends_bind; [by apply exchange_ends|]. intros [] c1 w1 Hx. by apply answer_ends.
  - eapply ends_bind; [by apply exchange_ends|]. intros [] c1 w1 Hx. unfold answer_or. repeat io_step.
    split; [done|]. destruct (rx_json_read _ _ _ _ _ _ Hx) as [[He ->] | (Hm & Hr & ->)]; [left|by right].
    by rewrite find_result_empty.
  - eapply ends_bind; [by apply exchange_ends|]. intros [] c1 w1 Hx. unfold answer_to.
    eapply ends_bind; [by apply answer_ends|]. intros [code cells] c2 w2 [Hx2 Hr]. io_step.
    split; [done|]. destruct Hr as [[He [= -> ->]]|(He & Hm & [= -> ->])]; [left|by right].
    split; [done|]. unfold write_params, with_params. destruct o; simpl. by destruct params.
  - unfold get_three_ulong_type, get_three_string_type.
    eapply ends_bind; [eapply ends_bind; [by apply (exchange_ends 4000 method None)|];
                       intros [] c1 w1 Hx; by apply answer_ends|].
    intros r c2 w2 [Hx2 Hr].
    match goal with |- ends _ _ ?m _ => assert (m = mret (read_ulongs junk r)) as -> end.
    { destruct r as [code cells]. unfold read_ulongs. cbv beta match zeta. cbn [fst snd].
      destruct (existsb _ cells); [done|]. by destruct (bool_decide _). }
    io_step. split; [done|].
    destruct Hr as [[He ->] | (He & Hm & ->)]; [left|right]; by split_and!.
Qed.

(** C22: what the calls of the client do, whatever the network does.  Every [set_] or
    [get_] method is a call of one of four shapes.  A call returns; the bytes on the wire
    are the whole request, or a prefix of it; and either the result code and the values
    are read from one complete message that carries the identifier of this request or none
    (a late answer to an earlier request is never taken for it), or nothing is read: the
    code is [RPC_SRV_RESULT_UNKNOWN], and of the values there are none, or the text the
    method gives the buffer before, or the object is left as it is, or the three numbers
    are 0.  [send_raw_data_and_receive_resp()] returns too: it sends the bytes it is given,
    whole or a prefix, and answers with nothing or with the beginning of a complete
    message, whatever its identifier. *)
Theorem call_answered :
  (forall A (m : io (traced K) ADJsonRpcClient A), client_method m ->
     exists method fields value nothing, rpc_call method fields m value nothing) /\
  (forall c w, rpc_ok c w ->
     (forall A (m : io (traced K) ADJsonRpcClient A) method fields value nothing,
        0 <= req_id c <= int_max -> rpc_call method fields m value nothing ->
        ends c w m (fun r c' w' => exchanged method fields c w c' w' /\
          (rx_msg c' = [] /\ r = nothing c' \/
           rx_msg c' <> [] /\ response_matches (rx_msg c') (req_id c) = true /\
             r = value c' (c_string (rx_msg c'))))) /\
     (forall tx, ends c w (send_raw_data_and_receive_resp tx) (fun r c' w' =>
        rpc_ok c' w' /\ req_id c' = req_id c /\
        (r = [] /\ rx_msg c' = [] /\ (exists n, written w' = written w ++ take n (default [] tx)) \/
         r = take (MAX_RECV_BUFFER_SIZE - 1) (rx_msg c') /\ message (rx_msg c') /\
           written w' = written w ++ default [] tx)))).
Proof.
  split; [exact methods_are_calls|]. intros c w Hok. split; [intros; by apply call_ends|].
  intros tx. unfold send_raw_data_and_receive_resp. destruct Hok as [Hg Hs]. repeat io_step.
  eapply ends_bind; [by apply send_request_ends|]. intros rc2 c2 w2 (s & r & -> & Hg2 & Hsent). simpl in Hsent.
  eapply ends_bind; [by apply receive_response_ends|].
  intros rc3 c3 w3 ((m & b & s3 & r3 & ->) & Hg3 & Hw3 & Hresp & Hfail). repeat io_step. simpl in *.
  split_and!; [by split|done|].
  destruct Hresp as [(Erc & Hm & Hr & _ & Hb) | (Erc & Hm & Hb)]; simpl in *.
  - destruct Hsent as [(_ & Hw) | (_ & -> & _)]; [|by rewrite Hfail in Erc by done; lia].
    right. split_and!; [done|done|congruence].
  - left. subst m. split_and!; [done|done|]. rewrite Hw3.
    destruct Hsent as [(_ & ->) | (_ & _ & Hn)]; [|done]. exists (length (default [] tx)). by rewrite take_ge.
Qed.
End calls.

(** ** What the other side reads *)

(** A value that is sent: a string or an [int]. *)
Inductive value := VString (s : string) | VInt (n : Z).
Definition in_range (v : value) : Prop := match v with VString _ => True | VInt n => int_min <= n <= int_max end.
Definition value_text (v : value) : string := match v with VString s => s | VInt n => format_d n end.

Section roundtrip.
Context {J D : Type} `{JsonClientLaws J D}.
Implicit Types (c : ADJsonRpcClient).

Definition to_json (v : value) : J :=
  match v with VString s => json_object_new_string s | VInt n => json_object_new_int n end.
Definition json_fields (l : list (string * value)) : list (string * J) := map (fun x => (x.1, to_json x.2)) l.

Lemma json_fields_names l : (json_fields l).*1 = l.*1.
Proof. induction l as [|[k v] l IH]; csimpl; [done|by rewrite <- IH]. Qed.
Lemma json_fields_in l k v : (k, v) ∈ l -> (k, to_json v) ∈ json_fields l.
Proof. intros Hin. apply list_elem_of_In, in_map_iff. exists (k, v). by rewrite <- list_elem_of_In. Qed.
Lemma to_json_text v : json_object_get_string (to_json v) = Some (value_text v).
Proof. destruct v; [apply string_of_string|apply string_of_int]. Qed.

(** How a handler reads a parameter that is there. *)
Lemma param_value_found (text name s : string) (o ps p : J) :
  json_tokener_parse text = Some o -> json_object_object_get o "params" = Some ps -> is_Some (json_object_get_string ps) ->
  json_object_object_get ps name = Some p -> json_object_get_string p = Some s ->
  Common.param_value text name = Some (truncate 254 s).
Proof.
  intros Ho Hps [t Ht] Hp Hs. unfold Common.param_value, find_single_param, string_opt, get_opt.
  rewrite Ho, Hps. cbn [mbind option_bind Nat.eqb]. rewrite Ht, Hp. cbn [mbind option_bind]. rewrite Hs.
  destruct (Nat.leb_spec 255 (String.length s)) as [Hl|Hl]; [done|]. by rewrite truncate_all, truncate_ge by lia.
Qed.

(** The member that was added last, and one added before it. *)
Ltac member_eq := apply get_add_eq; repeat apply add_is; apply new_object_is.
Ltac member_ne := rewrite get_add_ne; [|repeat apply add_is; apply new_object_is|congruence].

(** The members of a request. *)
Lemma request_get method ID fields k :
  json_object_object_get (request_object method ID (Some fields)) k =
    if (k =? "id")%string then Some (json_object_new_int ID)
    else if (k =? "params")%string then Some (add_fields json_object_new_object fields)
    else if (k =? "method")%string then Some (json_object_new_string method)
    else if (k =? "jsonrpc")%string then Some (json_object_new_string "2.0")
    else None.
Proof.
  unfold request_object.
  destruct (String.eqb_spec k "id") as [->|N1]; [member_eq|]. member_ne.
  destruct (String.eqb_spec k "params") as [->|N2]; [member_eq|]. member_ne.
  destruct (String.eqb_spec k "method") as [->|N3]; [member_eq|]. member_ne.
  destruct (String.eqb_spec k "jsonrpc") as [->|N4]; [member_eq|]. member_ne. apply get_new.
Qed.

(** The parameters of a request are the values it was made of. *)
Lemma parameter_of_request (text method : string) (ID : Z) (vals : list (string * value)) name v :
  NoDup vals.*1 -> json_tokener_parse text = Some (request_object method ID (Some (json_fields vals))) -> (name, v) ∈ vals ->
  Common.param_value text name = Some (truncate 254 (value_text v)).
Proof.
  intros Hnd Hp Hin. eapply param_value_found; [exact Hp|by rewrite request_get| | |apply to_json_text].
  - apply object_text, add_fields_object, new_object_is.
  - apply get_add_fields; [apply new_object_is|by rewrite json_fields_names|by apply json_fields_in].
Qed.

(** C23: what the client sends, the server takes.  The request built for a registered
    method is accepted with its identifier, for synchronous access, and the code of the
    server reads every parameter: a string as it was given (up to the 254 characters a
    handler keeps), an [int] as the same number.  The hypotheses on the text say that
    json-c wrote the object as JSON and reads it back. *)
Theorem request_understood (l : list ADJsonRpcCommand) (m : ADJsonRpcCommand) (ID : Z) (vals : list (string * value))
    (text : list ascii) :
  int_min <= ID <= int_max -> NoDup vals.*1 -> Forall in_range vals.*2 ->
  is_this_method_registered l (method m) = Some m -> (String.length (method m) < JSON_RPC_METHOD_NAME_MAX_LENGTH)%nat ->
  text = request_text (method m) ID (Some (json_fields vals)) ->
  head text = Some "{"%char -> Checker.json_checker_function text = Checker.Go true ->
  json_tokener_parse (c_string text) = Some (request_object (method m) ID (Some (json_fields vals))) ->
  examine_request l text = Accepted ID m CMD_TASK_ACCESS_SYNC /\
  (forall name v, (name, v) ∈ vals ->
     Common.param_value (c_string text) name = Some (truncate 254 (value_text v))) /\
  (forall name n, (name, VInt n) ∈ vals -> JSON_STRING_TO_INT (c_string text) name = Some n).
Proof.
  intros Hid Hnd Hrange Hm Hlen Ht Hh Hc Hp.
  assert (forall name v, (name, v) ∈ vals ->
     Common.param_value (c_string text) name = Some (truncate 254 (value_text v))) as Hparam
    by (intros; by eapply parameter_of_request).
  split_and!; [|done|].
  - destruct text as [|x text]; [done|]. simpl in Hh. injection Hh as ->. unfold examine_request.
    rewrite Hc, Hp. unfold get_jsonrpc_id, get_jsonrpc_method, get_jsonrpc_acc, string_opt.
    rewrite (request_get _ _ _ "id"), (request_get _ _ _ "method"), (request_get _ _ _ "access").
    change ("id" =? "id")%string with true. change ("method" =? "id")%string with false.
    change ("method" =? "params")%string with false. change ("method" =? "method")%string with true.
    change ("access" =? "id")%string with false. change ("access" =? "params")%string with false.
    change ("access" =? "method")%string with false. change ("access" =? "jsonrpc")%string with false.
    cbv match. rewrite string_of_int. cbn [mbind option_bind]. rewrite string_of_string.
    rewrite (proj2 (Nat.leb_gt _ _)) by done. by rewrite Hm, int_of_int.
  - intros name n Hin. unfold JSON_STRING_TO_INT. rewrite (Hparam name (VInt n) Hin). simpl.
    assert (int_min <= n <= int_max) as Hn.
    { rewrite Forall_forall in Hrange. apply (Hrange (VInt n)). apply list_elem_of_fmap. by exists (name, VInt n). }
    pose proof (format_d_length n). by rewrite truncate_ge, atoi_format_d by (done || lia).
Qed.

(** What the client makes of a value, by the kind of output it wants. *)
Definition read_value c (v : value) (k : kind) : cell D :=
  match k with
  | AsString => CStr (copy_out c (Some (value_text v)))
  | AsInt => CInt (atoi (value_text v))
  | AsJsonInt => CInt (json_object_get_int (to_json v))
  | AsDouble => CDouble (atof (value_text v))
  | AsFloat => CFloat (atof (value_text v))
  end.

Lemma int_read_exactly c n :
  int_min <= n <= int_max -> read_value c (VInt n) AsInt = CInt n /\ read_value c (VInt n) AsJsonInt = CInt n.
Proof. intros Hn. simpl. by rewrite atoi_format_d, int_of_int. Qed.

Lemma find_fields_all c (o : J) (vals : list (string * value)) (wanted : list (string * (value * kind))) :
  is_object o -> (forall name v, (name, v) ∈ vals -> json_object_object_get o name = Some (to_json v)) ->
  Forall (fun x => (x.1, x.2.1) ∈ vals) wanted ->
  find_fields (D := D) c (Some o) (map (fun x => (x.1, x.2.2)) wanted) = map (fun x => read_value c x.2.1 x.2.2) wanted.
Proof.
  intros Ho Hv. induction wanted as [|[name [v k]] wanted IH]; intros Hw; simpl; [done|].
  apply Forall_cons in Hw as [Hin Hw]. simpl in Hin. unfold find_field, get_opt. simpl.
  rewrite (Hv name v Hin). simpl. rewrite to_json_text. simpl. rewrite IH by done. done.
Qed.

(** A response of the proxy has the result object and the identifier it was built with. *)
Lemma result_response_get (id : Z) (o : J) k :
  json_object_object_get (result_response id EmptyString (Some o)) k =
    if (k =? "id")%string then Some (json_object_new_int id)
    else if (k =? "result")%string then Some o
    else if (k =? "jsonrpc")%string then Some (json_object_new_string "2.0")
    else None.
Proof.
  unfold result_response.
  destruct (String.eqb_spec k "id") as [->|N1]; [member_eq|]. member_ne.
  destruct (String.eqb_spec k "result") as [->|N2]; [member_eq|]. member_ne.
  destruct (String.eqb_spec k "jsonrpc") as [->|N3]; [member_eq|]. member_ne. apply get_new.
Qed.

Lemma result_name_length code name :
  0 <= code < Rpc.NONE -> convert_server_result_to_string code = Some name -> (String.length name <= 19)%nat.
Proof.
  intros Hc Hn. assert (forallb (fun s => (String.length s <=? 19)%nat) rpc_server_result_table = true) as Hall by (vm_compute; reflexivity).
  assert (name ∈ rpc_server_result_table) as Hin.
  { unfold convert_server_result_to_string in Hn. destruct (code >=? Rpc.NONE); by eapply list_elem_of_lookup_2. }
  rewrite forallb_forall in Hall. apply Nat.leb_le, Hall. by apply list_elem_of_In.
Qed.

(** C24: what the server answers, the client reads.  From the response to a request with
    identifier [id], in which a service put a result code and values, the client takes
    the same code and, for the fields it asks for, the values: a string up to the output
    size, an [int] exactly; and the response passes the test of the identifier.  The
    output size must exceed the longest name of a code. *)
Theorem response_understood c (id code : Z) (pReq pReq' : JsonDataCommObj J) (o : J) (vals : list (string * value))
    (wanted : list (string * (value * kind))) (text : list ascii) :
  int_min <= id <= int_max -> 0 <= code < Rpc.NONE -> NoDup (RPC_NAME_ARG_RESULT_PARAM :: vals.*1) ->
  (19 < out_size c)%nat -> Forall (fun x => (x.1, x.2.1) ∈ vals) wanted ->
  Common.prepare code pReq (json_fields vals) = Some pReq' -> Common.json_resp_obj pReq' = Some o ->
  json_tokener_parse (c_string text) = Some (result_response id EmptyString (Some o)) ->
  response_matches text id = true /\
  let r := find_result c (c_string text) RPC_NAME_ARG_RESULT_PARAM (map (fun x => (x.1, x.2.2)) wanted) in
  result_code (D := D) r = Some code /\ r.2 = map (fun x => read_value c x.2.1 x.2.2) wanted.
Proof.
  intros Hid Hcode Hnd Hsize Hw Hprep Ho Hp. split.
  { unfold response_matches. rewrite Hp, result_response_get. simpl. rewrite int_of_int by done. by rewrite Z.eqb_refl. }
  destruct (prepare_fields code pReq (json_fields vals)) as (r' & o' & name & E & Eo & _ & _ & _ & Ec & Er & Hf);
    [lia|by rewrite json_fields_names|].
  rewrite Hprep in E. injection E as <-. rewrite Ho in Eo. injection Eo as <-.
  assert (is_object o) as Hobj.
  { unfold Common.prepare, response_object in Hprep. rewrite Ec in Hprep. simpl in Hprep. injection Hprep as <-.
    simpl in Ho. injection Ho as <-. apply add_fields_object, add_is, new_object_is. }
  unfold find_result. rewrite Hp, result_response_get. simpl. destruct (object_text o Hobj) as [t ->].
  unfold get_opt. simpl. rewrite Er. pose proof (result_name_length _ _ Hcode Ec) as Hl. unfold copy_out. simpl.
  rewrite (proj2 (Nat.leb_gt _ _)) by lia. rewrite truncate_all.
  destruct (code_name_inverse code Hcode) as (s & Hs & Hinv). rewrite Ec in Hs. injection Hs as <-. split; [done|].
  apply (find_fields_all c o vals); [done| |done]. intros k v Hin. apply Hf. by apply json_fields_in.
Qed.

(** ** Bounds of the outputs *)


Lemma copy_out_length c src : (1 <= out_size c)%nat -> (String.length (copy_out c src) < out_size c)%nat.
Proof.
  intros Hc. unfold copy_out. rewrite truncate_length.
  destruct (Nat.leb_spec (out_size c) (String.length (default EmptyString src))); lia.
Qed.

Definition fits (n : nat) (v : cell D) : Prop := match v with CStr s => (String.length s < n)%nat | _ => True end.

Lemma find_fields_fit c o wanted :
  (1 <= out_size c)%nat -> Forall (fits (out_size c)) (find_fields (D := D) c o wanted).
Proof.
  intros Hc. induction wanted as [|[name k] wanted IH]; simpl; [constructor|].
  unfold find_field. destruct (get_opt o name) as [v|]; simpl; [|constructor].
  destruct (json_object_get_string v); simpl; [|constructor]. constructor; [|done].
  destruct k; simpl; try done. by apply copy_out_length.
Qed.

(** Nothing the client writes overruns.  Whatever size is asked for, the output size
    stays between 1 and [ADJSONRPC_CLIENT_MAX_OUT_SIZE], the length of the client's own
    result buffers; and every string taken out of any response, the result name and the
    parameters, fits the output size with its final NUL. *)
Theorem outputs_bounded c (size : nat) (text name : string) (wanted : list (string * kind)) :
  let c' := set_output_size size c in
  (1 <= out_size c' <= ADJSONRPC_CLIENT_MAX_OUT_SIZE)%nat /\
  let r := find_result (D := D) c' text name wanted in
  Forall (fits (out_size c')) r.2 /\
  match r.1.2 with Some s => (String.length s < out_size c')%nat | None => True end.
Proof.
  intros c'. assert (1 <= out_size c' <= ADJSONRPC_CLIENT_MAX_OUT_SIZE)%nat as Hb.
  { unfold c', set_output_size, ADJSONRPC_CLIENT_MAX_OUT_SIZE. cbn [out_size with_settings].
    destruct (Nat.ltb_spec size 1); repeat match goal with |- context [(?a <? ?b)%nat] => destruct (Nat.ltb_spec a b) end; lia. }
  split; [done|]. cbv zeta. unfold find_result. destruct (json_tokener_parse text) as [o|]; [|by split; [constructor|]].
  destruct (string_opt (json_object_object_get o RPC_NAME_ARG_RESULT_OBJ)); [|by split; [constructor|]].
  destruct (string_opt (get_opt _ name)); [|by split; [constructor|]].
  split; [apply find_fields_fit; lia|apply copy_out_length; lia].
Qed.
End roundtrip.

(** ** The properties at concrete inputs *)

(** A kernel that follows a script: the clock advances by a millisecond when it is read, a
    request that is sent makes the next list of pieces arrive. *)
Module Script.
Record script := { now_ms : Z; inbox : list (list ascii); answers : list (list (list ascii)) }.

Definition pass (s : script) (ms : Z) : script :=
  {| now_ms := now_ms s + ms; inbox := inbox s; answers := answers s |}.
Definition run_call {A} (c : call A) (s : script) : A * script :=
  match c in call A return A * script with
  | Clock => (now_ms s * 1000000, pass s 1)
  | Socket => (3, s)
  | GetFlags _ => (2, s)
  | SetFlags _ _ => (0, s)
  | Connect _ _ _ => (ConnectPending, s)
  | Poll _ POLLOUT _ => (PollEvent, s)
  | Poll _ POLLIN t => match inbox s with [] => (PollTimeout, pass s (Z.max 0 t)) | _ => (PollEvent, s) end
  | SocketError _ => (Some 0, s)
  | SendTimeout _ _ => ((), s)
  | Send _ data =>
      (Sent (length data),
       {| now_ms := now_ms s; inbox := inbox s ++ default [] (head (answers s)); answers := tail (answers s) |})
  | Recv _ _ _ =>
      match inbox s with
      | [] => (RecvAgain, s)
      | x :: r => (Received x, {| now_ms := now_ms s; inbox := r; answers := answers s |})
      end
  | Close _ => ((), s)
  | USleep us => ((), pass s (Z.max 0 us / 1000))
  end.
#[export] Instance kernel : Kernel script := { sys_call A := run_call }.

Definition stock (s : script) : nat := length (inbox s) + length (concat (answers s)).
#[export] Instance kernel_laws : KernelLaws script.
Proof.
  refine {| credit d s := (Z.to_nat (d - now_ms s) + stock s)%nat |}.
  - intros A c s d. unfold stock. destruct c as [| | | | |fd [] t| | |fd data|fd n dw| |us]; simpl; try lia.
    + destruct (inbox s) eqn:E; simpl; rewrite ?E; simpl; lia.
    + destruct (answers s) as [|x r]; simpl; rewrite ?app_nil_r, ?length_app; lia.
    + destruct (inbox s) eqn:E; simpl; rewrite ?E; simpl; lia.
    + pose proof (Z.div_pos (Z.max 0 us) 1000). lia.
  - intros A c s d. unfold stock. destruct c as [| | | | |fd [] t| | |fd data|fd n dw| |us]; simpl; try done.
    + rewrite Z.ltb_lt. intros Hd. rewrite Z.div_mul in Hd by done. lia.
    + by destruct (inbox s).
    + destruct (inbox s) as [|[|x l] r] eqn:E; simpl; try done. intros _. rewrite ?E. simpl. lia.
Defined.

(** JSON with double quotes. *)
Fixpoint text (v : Json.value) : string :=
  match v with
  | Json.Obj f =>
      "{" ++ (fix go (first : bool) (f : list (string * Json.value)) : string :=
        match f with
        | [] => EmptyString
        | (k, v) :: r => (if first then EmptyString else ",") ++ "'" ++ k ++ "':" ++ text v ++ go false r
        end) true f ++ "}"
  | Json.Str s => "'" ++ s ++ "'"
  | Json.Num n => format_d n
  end%string.
#[export] Instance wire : JsonRpcC Json.value := {
  json_object_get_int := json_object_get_int (JsonRpcC := Echo.rpc_json);
  json_object_object_add_null := json_object_object_add_null (JsonRpcC := Echo.rpc_json);
  json_object_to_json_string_length o := Some (bytes (text o));
}.
#[export] Instance wire_laws : @JsonRpcCLaws Json.value Z Echo.json Echo.json_laws wire.
Proof.
  exact (@Build_JsonRpcCLaws Json.value Z Echo.json Echo.json_laws wire
    (add_null_is (JsonRpcCLaws := Echo.rpc_json_laws)) (get_add_null (JsonRpcCLaws := Echo.rpc_json_laws))
    (get_add_null_ne (JsonRpcCLaws := Echo.rpc_json_laws)) (fun o => ex_intro _ _ eq_refl)).
Defined.
#[export] Instance client_laws : @JsonClientLaws Json.value Z Echo.json Echo.json_laws wire wire_laws.
Proof.
  constructor; [reflexivity|reflexivity|]. intros [f| |] Ho; by eexists.
Defined.

(** A client connected to the scripted kernel with the answers to come. *)
Definition world (l : list (list (list ascii))) : traced script :=
  {| outside := {| now_ms := 5; inbox := []; answers := l |}; open_fds := []; written := []; misused := false |}.
Definition run {A} (m : io (traced script) ADJsonRpcClient A) (c : ADJsonRpcClient) (l : list (list (list ascii))) :
  option (A * ADJsonRpcClient * traced script) :=
  (_ ← rpc_server_connect "10.0.0.1" 40001; m) 100%nat c (world l).
Definition client : ADJsonRpcClient := new_ADJsonRpcClient 0.
End Script.
Import Echo Script.

(** A call whose answer arrives in two pieces after an answer to an earlier request. *)
Example stale_answer_ex :
  (fun x => (x.1.1, rx_msg x.1.2, written x.2)) <$>
    run (set_integer_type_i (J := Json.value) (D := Z) "set_x" "x" 7) client
      [[bytes "{'id':9,'result':{'return':'Busy'}}{'id':"; bytes "0,'result':{'return':'Success'}}"]] =
  Some ((Some Rpc.SUCCESS, []), bytes "{'id':0,'result':{'return':'Success'}}",
        bytes "{'jsonrpc':'2.0','method':'set_x','params':{'x':7},'id':0}").
Proof. vm_compute. reflexivity. Qed.

(** An output size of 5 truncates the name of the result code too: the call was made and
    succeeded, and its code is [RPC_SRV_RESULT_UNKNOWN]. *)
Example small_output_ex :
  (fun x => (x.1.1, rx_msg x.1.2)) <$>
    run (set_integer_type_i (J := Json.value) (D := Z) "set_x" "x" 7) (set_output_size 5 client)
      [[bytes "{'id':0,'result':{'return':'Success'}}"]] =
  Some ((Some Rpc.UNKNOWN, []), bytes "{'id':0,'result':{'return':'Success'}}").
Proof. vm_compute. reflexivity. Qed.

(** [get_three_ulong_type()] passes arrays of 255 characters on to a function that fills
    up to the output size: after [set_output_size(1100)] a long value is written past the
    end of the array. *)
Example ulong_overrun_ex :
  let long := String.string_of_list_ascii (repeat "1"%char 300) in
  let response := bytes ("{'id':0,'result':{'return':'Success','a':'" ++ long ++ "','b':'2','c':'3'}}")%string in
  (fun x => x.1.1) <$> run (get_three_ulong_type (J := Json.value) (D := Z) "" "get" "a" "b" "c")
    (set_output_size 1100 client) [[response]] = Some None /\
  (fun x => x.1.1) <$> run (get_three_ulong_type (J := Json.value) (D := Z) "" "get" "a" "b" "c") client [[response]] =
    Some (Some (Some Rpc.SUCCESS, [Some 18446744073709551615; Some 2; Some 3])).
Proof. split; vm_compute; reflexivity. Qed.

(** After [rpc_server_disconnect()] the second call connects again by itself, since the
    first one failed; the client does not know: disconnecting does nothing then, and
    connecting is refused. *)
Example reconnects_by_itself_ex :
  (fun x => (x.1.1, NetClient.connected (ClientSocket x.1.2), connected x.1.2, open_fds x.2)) <$>
    run (_ ← rpc_server_disconnect;
         r1 ← set_action_noarg_type (J := Json.value) (D := Z) "go";
         r2 ← set_action_noarg_type (J := Json.value) (D := Z) "go";
         _ ← rpc_server_disconnect;
         r3 ← rpc_server_connect "10.0.0.2" 40001;
         mret (r1, r2, r3)) client [[bytes "{'id':1,'result':{'return':'Success'}}"]] =
  Some ((Some Rpc.UNKNOWN, [], (Some Rpc.SUCCESS, []), -1), true, false, [3]).
Proof. vm_compute. reflexivity. Qed.

Definition some_calls : list client_call :=
  [CallConnect "10.0.0.1" 40001; CallReceiveJson 50; CallSend (bytes "{}"); CallReceiveBuffer 9 50; CallReconnect; CallDisconnect;
   CallReconnect].
Lemma descriptors_balanced_witness :
  exists n s w, program some_calls n (new_ADNetClient 0) (world [[bytes "{}"]]) = Some ((), s, w) /\ good s w.
Proof.
  destruct (descriptors_balanced some_calls 0 (world [[bytes "{}"]]) eq_refl eq_refl) as [(n & [] & s & w & E & Hg) _].
  exists n, s, w. split; [by apply E|exact Hg].
Defined.

(** A client after [rpc_server_connect()], and the world then. *)
Definition connected_client : ADJsonRpcClient :=
  set_socket client (with_socket (with_peer (new_ADNetClient 0) "10.0.0.1" 40001) true 3
    (new_framer ADJSON_STREAM_FRAMER_DEFAULT_MAX_MSG)).
Definition connected_world (l : list (list (list ascii))) : traced script :=
  {| outside := outside (world l); open_fds := [3]; written := []; misused := false |}.
Lemma connected_ok l : rpc_ok connected_client (connected_world l).
Proof.
  split; [|vm_compute; split; lia]. split_and!; [|done|done]. split; [|done]. apply new_wellframed.
Qed.

(** A method of the client, and the answer to it. *)
Definition version_call : io (traced script) ADJsonRpcClient (option Z * list (cell Z)) :=
  set_action_noarg_get_single_string_type (J := Json.value) "get" "version".
Definition version_world : traced script := connected_world [[bytes "{'id':0,'result':{'return':'Success','version':7}}"]].
Example client_version_ex :
  (fun x => x.1.1) <$> version_call 100%nat connected_client version_world = Some (Some Rpc.SUCCESS, [CStr "7"]).
Proof. vm_compute. reflexivity. Qed.

(** The same method when no answer comes, and one that gives its buffer a text before. *)
Example no_answer_ex :
  (fun x => x.1.1) <$> version_call 100%nat connected_client (connected_world []) = Some (Some Rpc.UNKNOWN, []) /\
  (fun x => x.1.1) <$> get_integer_type (J := Json.value) (D := Z) "get" "version" 100%nat connected_client
    (connected_world []) = Some (Some Rpc.UNKNOWN, [CStr "NotFound"]).
Proof. vm_compute. by split. Qed.

Lemma call_answered_witness :
  (exists method fields value nothing, rpc_call (J := Json.value) method fields version_call value nothing) /\
  exists n r c w, version_call n connected_client version_world = Some (r, c, w) /\
    exchanged (J := Json.value) (D := Z) "get" None connected_client version_world c w.
Proof.
  destruct (call_answered (K := script) (J := Json.value) (D := Z)) as [Hm Hc]. split.
  - exact (Hm _ version_call (method_set_action_noarg_get_single_string_type "get" "version")).
  - destruct (Hc connected_client version_world) as [Hc' _]; [apply connected_ok|].
    destruct (Hc' _ version_call "get"%string None _ _ ltac:(vm_compute; split; discriminate)
                (call_values "get" 4000 None RPC_NAME_ARG_RESULT_PARAM [("version", AsString)]%string))
      as (n & r & c & w & E & Hx & _).
    exists n, r, c, w. split; [by apply E|]. exact Hx.
Defined.

(** The request of a call with a string and a number, as the server takes it. *)
Definition sent_values : list (string * value) := [("name", VString "lamp"); ("level", VInt (-12))]%string.
Lemma request_understood_witness :
  let request := request_text (J := Json.value) (D := Z) "echo" 5 (Some (json_fields sent_values)) in
  request = bytes "{'jsonrpc':'2.0','method':'echo','params':{'name':'lamp','level':-12},'id':5}" /\
  JSON_STRING_TO_INT (J := Json.value) (D := Z) (c_string request) "level" = Some (-12).
Proof.
  intros request. split; [vm_compute; reflexivity|].
  destruct (request_understood (J := Json.value) (D := Z) methods {| method := "echo"; method_index := 7 |} 5 sent_values request)
    as (_ & _ & Hint).
  - vm_compute. split; discriminate.
  - apply (bool_decide_unpack _). vm_compute. exact I.
  - repeat constructor; vm_compute; discriminate.
  - vm_compute. reflexivity.
  - vm_compute. lia.
  - reflexivity.
  - vm_compute. reflexivity.
  - vm_compute. reflexivity.
  - vm_compute. reflexivity.
  - apply Hint. apply elem_of_cons. right. apply elem_of_cons. by left.
Defined.

(** The response to it, as the client reads it. *)
Definition answered : option (JsonDataCommObj Json.value) :=
  Common.prepare Rpc.BUSY (blank_request EmptyString) (json_fields sent_values).
Lemma response_understood_witness :
  result_code (D := Z) (find_result (J := Json.value) client
    "{'jsonrpc':'2.0','result':{'return':'Busy','name':'lamp','level':-12},'id':5}" RPC_NAME_ARG_RESULT_PARAM
    [("level", AsInt)]%string) = Some Rpc.BUSY.
Proof.
  destruct answered as [r|] eqn:Er; [|discriminate]. destruct (Common.json_resp_obj r) as [o|] eqn:Eo.
  2: { vm_compute in Er. injection Er as <-. discriminate. }
  destruct (response_understood (J := Json.value) (D := Z) client 5 Rpc.BUSY (blank_request EmptyString) r o sent_values
    [("level", (VInt (-12), AsInt))]%string (bytes "{'jsonrpc':'2.0','result':{'return':'Busy','name':'lamp','level':-12},'id':5}"))
    as [_ [Hcode _]].
  - vm_compute. split; discriminate.
  - vm_compute. split; [discriminate|reflexivity].
  - apply (bool_decide_unpack _). vm_compute. exact I.
  - vm_compute. lia.
  - constructor; [|constructor]. apply elem_of_cons. right. apply elem_of_cons. by left.
  - exact Er.
  - exact Eo.
  - vm_compute in Er. injection Er as <-. injection Eo as <-. vm_compute. reflexivity.
  - exact Hcode.
Defined.
