(* ===== verification/CmdProcessor.v ===== *)
(** * Running commands (ADCmnCltCmdProcessor.cpp, ADThreadedSockClient.cpp)

    A command object says what to call on a server; the command processor makes the call
    and logs its result, and a threaded client connects to a server and runs a list of
    commands, one after the other, in a thread. *)
From S2P Require Import Prelude GenericChain Io NetClient Common Client.
Open Scope Z_scope.

(** [CLIENT_CMD_TYPE] *)
Module Cmd.
Definition ACTION_NO_ARG : Z := 0.
Definition ENUM_GET_SET : Z := 1.
Definition INT_GET_SET : Z := 2.
Definition INT_GET_SET_WITH_DEV_ADDR : Z := 3.
Definition ENUM_GET_SET_WITH_DEV_ADDR : Z := 4.
Definition STRING_GET_SET_WITH_DEV_ADDR : Z := 5.
Definition STRING_GET_SET_WITH_STRING_PARA : Z := 6.
Definition STRING_GET_SET_WITH_ENUM_PARA : Z := 7.
Definition GET_TASK_STATUS : Z := 8.
Definition STRING_GET_SET : Z := 9.
Definition USER_DEFINED : Z := 10.
Definition GET_TASK_STATUS_WITH_DEV_ADDR : Z := 11.
Definition DOUBLE_INT_SET : Z := 12.
Definition UNKNOWN : Z := 13.
Definition NONE : Z := 14.
End Cmd.

Definition CLIENT_CMD_RESULT_INVALID_ACT : string := "invalid action!!!".

(** [OutputPrintMsgObj]; [result_parameter] is [None] when it was never written. *)
Record OutputPrintMsgObj := {
  msg_ip : string;
  rpc_method_name : string;
  action : Z;
  result : string;
  result_parameter : option string;
  exec_time : Z;
}.

(** The members of [ADThreadedSockClient], the connection of its thread, and the number
    of times the thread has looked at the request to stop. *)
Record session (D : Type) := {
  SrvSockConn : ADJsonRpcClient;
  cmd_chain : Chain.chain (CmdExecutionObj D);
  output_msg_chain : Chain.chain OutputPrintMsgObj;
  ip_addr : string;
  port : Z;
  running : bool;
  looked : nat;
}.
Arguments SrvSockConn {D}.
Arguments cmd_chain {D}.
Arguments output_msg_chain {D}.
Arguments ip_addr {D}.
Arguments port {D}.
Arguments running {D}.
Arguments looked {D}.

Section processor.
Context {W J D : Type} `{Kernel W} `{JsonC J D} `{Proxy.JsonRpcC J}.
Abbreviation obj := (CmdExecutionObj D).
Abbreviation M := (io W (session D)).

Definition with_conn (s : session D) (c : ADJsonRpcClient) : session D :=
  {| SrvSockConn := c; cmd_chain := cmd_chain s; output_msg_chain := output_msg_chain s; ip_addr := ip_addr s;
     port := port s; running := running s; looked := looked s |}.
Definition with_output (s : session D) (l : Chain.chain OutputPrintMsgObj) : session D :=
  {| SrvSockConn := SrvSockConn s; cmd_chain := cmd_chain s; output_msg_chain := l; ip_addr := ip_addr s;
     port := port s; running := running s; looked := looked s |}.
Definition with_commands (s : session D) (l : Chain.chain (CmdExecutionObj D)) (n : nat) : session D :=
  {| SrvSockConn := SrvSockConn s; cmd_chain := l; output_msg_chain := output_msg_chain s; ip_addr := ip_addr s;
     port := port s; running := running s; looked := n |}.
Definition set_running (b : bool) (s : session D) : session D :=
  {| SrvSockConn := SrvSockConn s; cmd_chain := cmd_chain s; output_msg_chain := output_msg_chain s; ip_addr := ip_addr s;
     port := port s; running := b; looked := looked s |}.

Definition on_conn {A} (m : io W ADJsonRpcClient A) : M A := on SrvSockConn with_conn m.

(** ** The command object *)

Definition set_result (o : obj) (code : option Z) : obj :=
  {| command := command o; cmd_type := cmd_type o; act := act o; get_rpc_name := get_rpc_name o;
     set_rpc_name := set_rpc_name o; cmd_int_val := cmd_int_val o; cmd_enum_val := cmd_enum_val o;
     arg_param_int_value := arg_param_int_value o; arg_param_ulong_value := arg_param_ulong_value o;
     params := params o; obj_result := default Rpc.UNKNOWN code; rpc_resp_result := rpc_resp_result o |}.

(** What a call wrote to the parameter [i]. *)
Definition store (o : obj) (i : nat) (cells : list (cell D)) : obj :=
  match cells with
  | v :: _ => with_params o (alter (fun p => write_param p v) i (params o))
  | [] => o
  end.

(** [copy_cmd_exec_obj()], a parameter at a time: the names and values of the first 17,
    the [int]s of the first 15, the [double]s of the first 13, the [float]s of the
    sixteenth and the seventeenth. *)
Definition copy_param (i : nat) (dest src : arg_param D) : arg_param D :=
  {| param_name := if (i <? 17)%nat then param_name src else param_name dest;
     param_value := if (i <? 17)%nat then param_value src else param_value dest;
     int_value := if (i <? 15)%nat then int_value src else int_value dest;
     double_value := if (i <? 13)%nat then double_value src else double_value dest;
     ulong_value := ulong_value dest;
     float_value := if (15 <=? i)%nat && (i <? 17)%nat then float_value src else float_value dest |}.
Definition copy_cmd_exec_obj (dest src : obj) : obj :=
  {| command := command src; cmd_type := cmd_type src; act := act src; get_rpc_name := get_rpc_name src;
     set_rpc_name := set_rpc_name src; cmd_int_val := cmd_int_val src; cmd_enum_val := cmd_enum_val src;
     arg_param_int_value := arg_param_int_value src; arg_param_ulong_value := arg_param_ulong_value dest;
     params := imap (fun i '(d, s) => copy_param i d s) (zip (params dest) (params src));
     obj_result := obj_result dest; rpc_resp_result := rpc_resp_result src |}.

(** ** Logging *)

(** [log_print_message()] with a text, and with a result code. *)
Definition log_message (o : OutputPrintMsgObj) : M Z :=
  s ← get;
  let '(r, l) := Chain.put (output_msg_chain s) o in
  _ ← modify (fun s => with_output s l);
  mret (if r =? 0 then 0 else -1).
Definition log_print_message_text (rpc_method_name : string) (action : Z) (result : string) : M Z :=
  s ← get;
  log_message {| msg_ip := get_ip_addr (SrvSockConn s); rpc_method_name := rpc_method_name; action := action;
    result := result; result_parameter := None; exec_time := get_command_execution_time (SrvSockConn s) |}.
Definition log_print_message (rpc_method_name : string) (action result : Z) (result_value : string) : M Z :=
  s ← get;
  log_message {| msg_ip := get_ip_addr (SrvSockConn s); rpc_method_name := rpc_method_name; action := action;
    result := default EmptyString (convert_server_result_to_string result); result_parameter := Some result_value;
    exec_time := get_command_execution_time (SrvSockConn s) |}.

(** ** The commands *)

Definition invalid_action (name : string) (o : obj) : M (Z * obj) :=
  _ ← log_print_message_text name Act.UNKNOWN CLIENT_CMD_RESULT_INVALID_ACT; mret (-1, o).

(** A call that writes, with no parameter to log, and a call whose value is logged from
    the parameter [i] it was stored to. *)
Definition write_call (o : obj) (call : io W ADJsonRpcClient (option Z * list (cell D))) : M (Z * obj) :=
  '(code, _) ← on_conn call;
  let o := set_result o code in
  _ ← log_print_message (set_rpc_name o) Act.WRITE (obj_result o) EmptyString;
  mret (0, o).
Definition value_call (o : obj) (name : string) (action : Z) (i : nat)
    (call : io W ADJsonRpcClient (option Z * list (cell D))) : M (Z * obj) :=
  '(code, cells) ← on_conn call;
  let o := set_result (store o i cells) code in
  _ ← log_print_message name action (obj_result o) (param_value (param o i));
  mret (0, o).
Abbreviation read_call o := (value_call o (get_rpc_name o) Act.READ).

Definition run_cmd_type_int_get_set (o : obj) : M (Z * obj) :=
  if act o =? Act.WRITE then
    write_call o (set_integer_type_i (set_rpc_name o) (param_name (param o 0)) (int_value (param o 0)))
  else if act o =? Act.READ then
    read_call o 0%nat (get_integer_type (get_rpc_name o) (param_name (param o 0)))
  else invalid_action "run_cmd_type_int_get_set" o.

Definition run_cmd_type_int_get_set_with_dev_addr (o : obj) : M (Z * obj) :=
  if act o =? Act.WRITE then
    write_call o (set_integer_type_with_addr_para (set_rpc_name o) (param_name (param o 0)) (int_value (param o 0))
                    (param_name (param o 1)) (int_value (param o 1)))
  else if act o =? Act.READ then
    read_call o 0%nat (get_integer_type_with_addr_para (get_rpc_name o) (param_name (param o 0)) (int_value (param o 0))
                     (param_name (param o 1)))
  else invalid_action "run_cmd_type_int_get_set" o.

Definition run_cmd_type_enum_get_set_with_dev_addr (o : obj) : M (Z * obj) :=
  if act o =? Act.WRITE then
    write_call o (set_enum_type_with_addr_para (set_rpc_name o) (param_name (param o 0)) (int_value (param o 0))
                    (param_name (param o 1)) (param_value (param o 1)))
  else if act o =? Act.READ then
    read_call o 0%nat (get_enum_type_with_addr_para (get_rpc_name o) (param_name (param o 0)) (int_value (param o 0))
                     (param_name (param o 1)))
  else invalid_action "run_cmd_type_enum_get_set_with_dev_addr" o.

Definition run_cmd_type_string_get_set_with_dev_addr (o : obj) : M (Z * obj) :=
  '(_, o) ← run_cmd_type_enum_get_set_with_dev_addr o; mret (0, o).

Definition run_cmd_type_action_noarg (o : obj) : M (Z * obj) :=
  if act o =? Act.WRITE then
    if (String.length (param_name (param o 0)) =? 0)%nat then write_call o (set_action_noarg_type (set_rpc_name o))
    else value_call o (set_rpc_name o) Act.WRITE 0
           (set_action_noarg_get_single_string_type (set_rpc_name o) (param_name (param o 0)))
  else invalid_action "run_cmd_type_action_noarg" o.

Definition run_cmd_type_enum_get_set (o : obj) : M (Z * obj) :=
  if act o =? Act.WRITE then
    if (String.length (param_name (param o 0)) =? 0)%nat then
      write_call o (set_single_string_type (set_rpc_name o) (param_name (param o 0)) (param_value (param o 0)))
    else value_call o (set_rpc_name o) Act.WRITE 1
           (set_single_string_get_single_string_type (set_rpc_name o) (param_name (param o 0)) (param_value (param o 0))
              (param_name (param o 1)))
  else if act o =? Act.READ then
    read_call o 0%nat (get_string_type (get_rpc_name o) (param_name (param o 0)))
  else invalid_action "run_cmd_type_enum_get_set" o.

Definition run_cmd_type_string_get_set (o : obj) : M (Z * obj) :=
  '(_, o) ← run_cmd_type_enum_get_set o; mret (0, o).

Definition run_get_task_progress_command (o : obj) : M (Z * obj) :=
  read_call o 1%nat (get_string_type_with_string_para (get_rpc_name o) (param_name (param o 0)) (param_value (param o 0))
                   (Some (param_name (param o 1)))).

Definition run_get_task_progress_command_with_dev_addr (o : obj) : M (Z * obj) :=
  read_call o 2%nat (get_string_type_with_string_para_with_addr_para (get_rpc_name o) (param_name (param o 0))
                   (int_value (param o 0)) (param_value (param o 1)) (param_name (param o 1)) (Some (param_name (param o 2)))).

Definition run_cmd_type_string_get_set_with_enum_para (o : obj) : M (Z * obj) :=
  if act o =? Act.WRITE then
    write_call o (set_double_string_type (set_rpc_name o) (param_name (param o 0)) (param_value (param o 0))
                    (param_name (param o 1)) (param_value (param o 1)))
  else if act o =? Act.READ then run_get_task_progress_command o
  else invalid_action "run_cmd_type_string_get_set_with_enum_para" o.

Definition run_cmd_type_double_int_set (o : obj) : M (Z * obj) :=
  if act o =? Act.WRITE then
    write_call o (set_integer_type_with_addr_para (set_rpc_name o) (param_name (param o 0)) (int_value (param o 0))
                    (param_name (param o 1)) (int_value (param o 1)))
  else invalid_action "run_cmd_type_double_int_set" o.

(** ** The threaded client *)

(** What the owner does with the commands of its own types, and what the thread sees of
    [stop_running] and [stop_requested()] when it looks for the n-th time. *)
Variable run_user_command : obj -> M (Z * obj).
Variable stop_requested : nat -> bool.

Definition run_command (o : obj) : M (Z * obj) :=
  let t := cmd_type o in
  if t =? Cmd.ACTION_NO_ARG then run_cmd_type_action_noarg o
  else if t =? Cmd.ENUM_GET_SET then run_cmd_type_enum_get_set o
  else if t =? Cmd.INT_GET_SET then run_cmd_type_int_get_set o
  else if t =? Cmd.INT_GET_SET_WITH_DEV_ADDR then run_cmd_type_int_get_set_with_dev_addr o
  else if t =? Cmd.STRING_GET_SET_WITH_DEV_ADDR then run_cmd_type_string_get_set_with_dev_addr o
  else if t =? Cmd.ENUM_GET_SET_WITH_DEV_ADDR then run_cmd_type_enum_get_set_with_dev_addr o
  else if t =? Cmd.STRING_GET_SET_WITH_ENUM_PARA then run_cmd_type_string_get_set_with_enum_para o
  else if t =? Cmd.GET_TASK_STATUS then run_get_task_progress_command o
  else if t =? Cmd.GET_TASK_STATUS_WITH_DEV_ADDR then run_get_task_progress_command_with_dev_addr o
  else if t =? Cmd.STRING_GET_SET then run_cmd_type_string_get_set o
  else if t =? Cmd.DOUBLE_INT_SET then run_cmd_type_double_int_set o
  else run_user_command o.

(** The loop of [thread_callback_function()]. *)
Definition command_loop : M () :=
  forever (fun _ : () =>
    s ← get;
    let '(c, l) := Chain.get (cmd_chain s) in
    match c with
    | None => mret (inr ())
    | Some o =>
        _ ← modify (fun s => with_commands s l (S (looked s)));
        if stop_requested (looked s) then mret (inr ())
        else _ ← run_command o; mret (inl ())
    end) ().

(** [thread_callback_function()]: the connection is a local of the thread. *)
Definition thread_callback_function : M Z :=
  now ← sys Clock;
  _ ← modify (fun s => with_conn s (set_output_size 1100 (new_ADJsonRpcClient now)));
  s ← get;
  if Chain.size (cmd_chain s) =? 0 then
    _ ← modify (set_running false); _ ← on_conn destruct_rpc_client; mret (-1)
  else
    rc ← on_conn (rpc_server_connect (ip_addr s) (port s));
    if negb (rc =? 0) then
      _ ← modify (set_running false); _ ← on_conn destruct_rpc_client; mret (-1)
    else
      _ ← command_loop;
      _ ← on_conn rpc_server_disconnect;
      _ ← modify (set_running false);
      _ ← on_conn destruct_rpc_client;
      mret 0.
End processor.

(** ** Starting and stopping *)

Section owner.
Context {D : Type}.

(** [copy_command_chain()]; [fresh] is what a new object holds. *)
Fixpoint copy_commands (fresh : CmdExecutionObj D) (dest : Chain.chain (CmdExecutionObj D)) (src : list (CmdExecutionObj D))
  : Z * Chain.chain (CmdExecutionObj D) :=
  match src with
  | [] => (0, dest)
  | o :: src =>
      let '(r, dest') := Chain.put dest (copy_cmd_exec_obj fresh o) in
      if r =? 0 then copy_commands fresh dest' src else (-1, dest')
  end.
Definition copy_command_chain (fresh : CmdExecutionObj D) (dest src : Chain.chain (CmdExecutionObj D))
  : Z * Chain.chain (CmdExecutionObj D) :=
  if Chain.size src =? 0 then (-1, dest) else copy_commands fresh dest (Chain.items src).

(** [run_commands()]: the fields when the thread starts, if it does. *)
Definition run_commands (fresh : CmdExecutionObj D) (s : session D) (srv_ip : string) (srv_port : Z)
    (src : Chain.chain (CmdExecutionObj D)) : bool * session D :=
  let l := (copy_command_chain fresh (cmd_chain s) src).2 in
  (negb (running s),
   {| SrvSockConn := SrvSockConn s; cmd_chain := l; output_msg_chain := output_msg_chain s; ip_addr := srv_ip;
      port := srv_port; running := true; looked := if running s then looked s else 0%nat |}).

(** [stop_command_execution()], when the thread it asks to stop has ended: the commands
    behind the one it stopped at are released. *)
Definition stop_command_execution (s : session D) : session D :=
  {| SrvSockConn := SrvSockConn s; cmd_chain := (Chain.empty (cmd_chain s)).2; output_msg_chain := output_msg_chain s;
     ip_addr := ip_addr s; port := port s; running := running s; looked := looked s |}.

(** [print_command_result()]: the messages in the order they are printed. *)
Definition print_command_result (s : session D) : list OutputPrintMsgObj * session D :=
  if Chain.open (output_msg_chain s) then
    (Chain.items (output_msg_chain s), with_output s (Chain.set_items (output_msg_chain s) []))
  else ([], s).
End owner.
