(* ===== verification/CmdProcessorSpec.v ===== *)
(** * Correctness of the threaded client

    Every command is run once, in order, and logs one message with the result code its
    call returned; the thread ends, and leaves no connection open. *)
From S2P Require Import Prelude GenericChain Io NetClient NetClientSpec Common Proxy Client ClientSpec CmdProcessor.
Open Scope Z_scope.

(** ** Result codes *)

Lemma server_result_range table s i n x :
  server_result_from table s i n = Some x -> 0 <= Z.of_nat i -> Z.of_nat (i + n) <= Rpc.NONE -> 0 <= x < Rpc.NONE.
Proof.
  revert i n. induction table as [|t table IH]; intros i [|n] Hx Hi Hn; simpl in *; try (injection Hx as <-; unfold Rpc.UNKNOWN, Rpc.NONE; lia); try done.
  destruct (s =? t)%string; [injection Hx as <-; lia|]. apply (IH (S i) n); [done|lia|lia].
Qed.

Lemma server_result_total table s i n : (n <= length table)%nat -> is_Some (server_result_from table s i n).
Proof.
  revert i n. induction table as [|t table IH]; intros i [|n] Hn; simpl in *; [by eexists|lia|by eexists|].
  destruct (s =? t)%string; [by eexists|]. apply IH. lia.
Qed.

(** A code is read from every text. *)
Lemma string_to_result s : exists x, convert_string_to_server_result s = Some x /\ 0 <= x < Rpc.NONE.
Proof.
  destruct (server_result_total rpc_server_result_table s 0 (Z.to_nat Rpc.NONE)) as [x Hx]; [vm_compute; lia|].
  exists x. split; [done|]. by apply (server_result_range _ _ _ _ _ Hx).
Qed.

Lemma result_code_range `{JsonC J D} (r : Z * option string * list (cell D)) :
  exists x, result_code r = Some x /\ 0 <= x < Rpc.NONE.
Proof.
  destruct r as [[rc [s|]] cells]; simpl; [|exists Rpc.UNKNOWN; vm_compute; repeat split; discriminate].
  destruct (rc =? 0); [apply string_to_result|exists Rpc.UNKNOWN; vm_compute; repeat split; discriminate].
Qed.

(** ** What is logged for a command *)

(** The types that are the processor's own. *)
Definition built_in {D} (o : CmdExecutionObj D) : bool :=
  existsb (Z.eqb (cmd_type o))
    [Cmd.ACTION_NO_ARG; Cmd.ENUM_GET_SET; Cmd.INT_GET_SET; Cmd.INT_GET_SET_WITH_DEV_ADDR;
     Cmd.STRING_GET_SET_WITH_DEV_ADDR; Cmd.ENUM_GET_SET_WITH_DEV_ADDR; Cmd.STRING_GET_SET_WITH_ENUM_PARA;
     Cmd.GET_TASK_STATUS; Cmd.GET_TASK_STATUS_WITH_DEV_ADDR; Cmd.STRING_GET_SET; Cmd.DOUBLE_INT_SET].
Definition task_status {D} (o : CmdExecutionObj D) : bool :=
  existsb (Z.eqb (cmd_type o)) [Cmd.GET_TASK_STATUS; Cmd.GET_TASK_STATUS_WITH_DEV_ADDR].
Definition write_only {D} (o : CmdExecutionObj D) : bool :=
  existsb (Z.eqb (cmd_type o)) [Cmd.ACTION_NO_ARG; Cmd.DOUBLE_INT_SET].

(** The method a command calls and whether it reads or writes: the status of a task is
    read whatever the action says; no method is called for an action that the type does
    not have. *)
Definition label {D} (o : CmdExecutionObj D) : option (string * Z) :=
  if task_status o then Some (get_rpc_name o, Act.READ)
  else if act o =? Act.WRITE then Some (set_rpc_name o, Act.WRITE)
  else if (act o =? Act.READ) && negb (write_only o) then Some (get_rpc_name o, Act.READ)
  else None.

(** The parameters of its request; [None] when it has none. *)
Definition text_param {J D} `{JsonC J D} (o : CmdExecutionObj D) (i : nat) : string * value :=
  (param_name (param (J := J) o i), VString (param_value (param (J := J) o i))).
Definition int_param {J D} `{JsonC J D} (o : CmdExecutionObj D) (i : nat) : string * value :=
  (param_name (param (J := J) o i), VInt (int_value (param (J := J) o i))).
Definition parameters {J D} `{JsonC J D} (o : CmdExecutionObj D) : option (list (string * value)) :=
  let t := cmd_type o in
  let text := text_param (J := J) o in
  let int := int_param (J := J) o in
  let to_write l := if act o =? Act.WRITE then Some l else None in
  if t =? Cmd.GET_TASK_STATUS then Some [text 0%nat]
  else if t =? Cmd.GET_TASK_STATUS_WITH_DEV_ADDR then Some [int 0%nat; text 1%nat]
  else if (t =? Cmd.ENUM_GET_SET) || (t =? Cmd.STRING_GET_SET) then to_write [text 0%nat]
  else if t =? Cmd.INT_GET_SET then to_write [int 0%nat]
  else if (t =? Cmd.ENUM_GET_SET_WITH_DEV_ADDR) || (t =? Cmd.STRING_GET_SET_WITH_DEV_ADDR) then
    Some (int 0%nat :: if act o =? Act.WRITE then [text 1%nat] else [])
  else if t =? Cmd.INT_GET_SET_WITH_DEV_ADDR then Some (int 0%nat :: if act o =? Act.WRITE then [int 1%nat] else [])
  else if t =? Cmd.STRING_GET_SET_WITH_ENUM_PARA then Some (text 0%nat :: if act o =? Act.WRITE then [text 1%nat] else [])
  else if t =? Cmd.DOUBLE_INT_SET then Some [int 0%nat; int 1%nat]
  else None.

(** What a command logs and sends when [ID] is the next request identifier: a request of
    its method with its parameters, whole unless the code is [RPC_SRV_RESULT_UNKNOWN]; or
    nothing, and that the action is not valid. *)
Definition one {J D : Type} `{JsonC J D} `{Proxy.JsonRpcC J} (ID : Z) (o : CmdExecutionObj D)
    (m : OutputPrintMsgObj) (sent : list ascii) : Prop :=
  match label o with
  | Some (name, a) =>
      rpc_method_name m = name /\ action m = a /\
      exists x n, 0 <= x < Rpc.NONE /\
        convert_server_result_to_string x = Some (CmdProcessor.result m) /\
        let text := request_text name ID (json_fields (J := J) <$> parameters (J := J) o) in
        sent = take n text /\ (x <> Rpc.UNKNOWN -> length text <= n)%nat
  | None => action m = Act.UNKNOWN /\ CmdProcessor.result m = CLIENT_CMD_RESULT_INVALID_ACT /\ sent = []
  end.
Definition next {D} (ID : Z) (o : CmdExecutionObj D) : Z := if label o then ID + 1 else ID.

(** The commands that ran, one after the other. *)
Inductive ran {J D : Type} `{JsonC J D} `{Proxy.JsonRpcC J} :
  Z -> list (CmdExecutionObj D) -> list OutputPrintMsgObj -> list ascii -> Prop :=
| ran_none ID : ran ID [] [] []
| ran_more ID o os m ms sent rest :
    one ID o m sent -> ran (next ID o) os ms rest -> ran ID (o :: os) (m :: ms) (sent ++ rest).

Section calls.
Context {K J D : Type} `{KernelLaws K} `{JsonClientLaws J D}.
Implicit Types (c : ADJsonRpcClient) (w : traced K).

(** What the processor relies on of a call of the client. *)
Definition call_ok (method : string) (fields : option (list (string * J))) (call : io (traced K) ADJsonRpcClient (option Z * list (cell D))) : Prop :=
  forall c w, rpc_ok c w -> 0 <= req_id c <= int_max ->
    ends c w call (fun r c' w' => rpc_ok c' w' /\ req_id c' = i32 (req_id c + 1) /\
      exists x n, r.1 = Some x /\ 0 <= x < Rpc.NONE /\
        written w' = written w ++ take n (request_text method (req_id c) fields) /\
        (x <> Rpc.UNKNOWN -> length (request_text method (req_id c) fields) <= n)%nat).

Lemma exchange_then timeout method (fields : option (list (string * J))) answer :
  (forall c w, ends c w answer (fun r c' w' => c' = c /\ w' = w /\ exists x, r.1 = Some x /\ 0 <= x < Rpc.NONE /\
     (rx_msg c = [] -> x = Rpc.UNKNOWN))) ->
  call_ok method fields (_ ← exchange timeout (fun ID => prepare method ID SendBuffer fields); answer).
Proof.
  intros Ha c w Hok Hid. eapply ends_bind; [by apply exchange_ends|].
  intros [] c1 w1 (Ho & Hi & _ & _ & _ & _ & Hx). eapply ends_conseq; [apply Ha|].
  intros r ? ? (-> & -> & x & Hr & Hrange & Hempty). split; [exact Ho|]. split; [done|]. exists x.
  destruct Hx as [(He & n & Hn) | (_ & Hw & _)].
  - exists n. do 3 (split; [done|]). by rewrite Hempty.
  - exists (length (request_text method (req_id c) fields)). rewrite take_ge by done. by do 3 (split; [done|]).
Qed.

Lemma answer_code name (wanted : list (string * kind)) c :
  exists x, result_code (find_result (D := D) c (rx_json c) name wanted) = Some x /\ 0 <= x < Rpc.NONE /\
    (rx_msg c = [] -> x = Rpc.UNKNOWN).
Proof.
  destruct (result_code_range (find_result (D := D) c (rx_json c) name wanted)) as (x & Hx & Hr).
  exists x. do 2 (split; [done|]). intros He. unfold rx_json in Hx. rewrite He, find_result_empty in Hx.
  by injection Hx.
Qed.

Lemma exchange_answer timeout method (fields : option (list (string * J))) name wanted :
  call_ok method fields (_ ← exchange timeout (fun ID => prepare method ID SendBuffer fields);
                  answer (fun c text => find_result c text name wanted)).
Proof.
  apply exchange_then. intros c w. unfold answer. repeat io_step. split_and!; [done|done|]. apply answer_code.
Qed.

Lemma exchange_answer_or timeout method (fields : option (list (string * J))) text name wanted :
  call_ok method fields (_ ← exchange timeout (fun ID => prepare method ID SendBuffer fields);
                  answer_or text (fun c text => find_result c text name wanted)).
Proof.
  apply exchange_then. intros c w. unfold answer_or. repeat io_step. split_and!; [done|done|]. apply answer_code.
Qed.

Lemma call_ok_eq method fields fields' call : fields = fields' -> call_ok method fields call -> call_ok method fields' call.
Proof. by intros ->. Qed.
Ltac call_ok := eapply call_ok_eq; [|first [apply exchange_answer | apply exchange_answer_or]].

(** ** One command *)

Implicit Types (s : session D) (o : CmdExecutionObj D).

(** What a command leaves of the session: its own message at the end of the output, and
    the connection after what it sent. *)
Definition command_ran o s w s' w' : Prop :=
  exists c' l' m sent, s' = with_output (with_conn s c') l' /\ Chain.open l' = true /\
    Chain.items l' = Chain.items (output_msg_chain s) ++ [m] /\ rpc_ok c' w' /\
    written w' = written w ++ sent /\ one (J := J) (req_id (SrvSockConn s)) o m sent /\
    req_id c' = i32 (next (req_id (SrvSockConn s)) o).

Definition ready s w : Prop :=
  rpc_ok (SrvSockConn s) w /\ 0 <= req_id (SrvSockConn s) <= int_max /\ Chain.open (output_msg_chain s) = true.

Lemma log_message_ends s w m :
  Chain.open (output_msg_chain s) = true ->
  ends s w (log_message m) (fun _ s' w' => w' = w /\ exists l', s' = with_output s l' /\ Chain.open l' = true /\
    Chain.items l' = Chain.items (output_msg_chain s) ++ [m]).
Proof.
  intros Ho. unfold log_message. io_step. unfold Chain.put. rewrite Ho. repeat io_step. split; [done|]. by eexists.
Qed.

Lemma invalid_action_ends name o s w :
  label o = None -> ready s w -> ends s w (invalid_action name o) (fun _ => command_ran o s w).
Proof.
  intros Hl (Hok & Hid & Ho). unfold invalid_action, log_print_message_text. repeat io_step.
  eapply ends_bind; [by apply log_message_ends|]. intros _ s1 w1 (-> & l' & -> & Ho' & Hi). io_step.
  eexists (SrvSockConn s), l', _, []. split; [by destruct s|]. split; [done|]. split; [exact Hi|]. split; [exact Hok|].
  split; [by rewrite app_nil_r|]. unfold one, next. rewrite Hl. split; [done|]. symmetry. apply i32_id. unfold int_min. lia.
Qed.

Lemma on_conn_ends {A} (m : io (traced K) ADJsonRpcClient A) s w Q :
  ends (SrvSockConn s) w m Q ->
  ends s w (on_conn (W := traced K) m) (fun a s' w' => exists c', s' = with_conn s c' /\ Q a c' w').
Proof. intros Hm. apply ends_on. eapply ends_conseq; [exact Hm|]. intros a c' w' Hq. by exists c'. Qed.

(** The message after a call that returned the code [x]. *)
Lemma logged_ends {A} name a o x v (r : A) s w c' w' n :
  let fields := json_fields (J := J) <$> parameters (J := J) o in
  label o = Some (name, a) -> ready s w -> rpc_ok c' w' -> req_id c' = i32 (req_id (SrvSockConn s) + 1) ->
  0 <= x < Rpc.NONE -> written w' = written w ++ take n (request_text name (req_id (SrvSockConn s)) fields) ->
  (x <> Rpc.UNKNOWN -> length (request_text name (req_id (SrvSockConn s)) fields) <= n)%nat ->
  ends (with_conn s c') w' (_ ← log_print_message name a x v; mret r) (fun _ => command_ran o s w).
Proof.
  intros fields Hl (_ & _ & Ho) Hok Hid Hx Hw Hn. unfold log_print_message. repeat io_step.
  eapply ends_bind; [by apply log_message_ends|]. intros _ s1 w1 (-> & l' & -> & Ho' & Hi). io_step.
  eexists c', l', _, _. split; [done|]. split; [done|]. split; [exact Hi|]. split; [exact Hok|]. split; [exact Hw|].
  unfold one, next. rewrite Hl. split; [|done]. do 2 (split; [done|]). exists x, n. split; [done|].
  destruct (code_name_inverse x Hx) as (t & Ht & _). simpl. rewrite Ht. by split_and!.
Qed.

Lemma write_call_ends o call s w :
  label o = Some (set_rpc_name o, Act.WRITE) -> call_ok (set_rpc_name o) (json_fields <$> parameters (J := J) o) call -> ready s w ->
  ends s w (write_call o call) (fun _ => command_ran o s w).
Proof.
  intros Hl Hc Hs. eapply ends_bind; [apply on_conn_ends, Hc; apply Hs|].
  intros [code cells] s1 w1 (c' & -> & Hok & Hid & x & n & Hx & Hr & Hw & Hn). simpl in Hx. subst code.
  by eapply logged_ends.
Qed.

Lemma value_call_ends o name a i call s w :
  label o = Some (name, a) -> call_ok name (json_fields <$> parameters (J := J) o) call -> ready s w ->
  ends s w (value_call o name a i call) (fun _ => command_ran o s w).
Proof.
  intros Hl Hc Hs. eapply ends_bind; [apply on_conn_ends, Hc; apply Hs|].
  intros [code cells] s1 w1 (c' & -> & Hok & Hid & x & n & Hx & Hr & Hw & Hn). simpl in Hx. subst code.
  by eapply logged_ends.
Qed.

Lemma ignored_ends (m : io (traced K) (session D) (Z * CmdExecutionObj D)) (Q : session D -> traced K -> Prop) s w :
  ends s w m (fun _ => Q) -> ends s w ('(_, o) ← m; mret (0, o)) (fun _ => Q).
Proof. intros Hm. eapply ends_bind; [exact Hm|]. intros [] s1 w1 Hq. by io_step. Qed.

(** One step of a command: the case of its action or of a name, or the call. *)
Ltac command_step :=
  match goal with
  | |- ends _ _ (if act ?o =? ?a then _ else _) _ => destruct (Z.eqb_spec (act o) a) as [?Ha|?Ha]
  | |- ends _ _ (if (String.length ?t =? 0)%nat then _ else _) _ => destruct (String.length t =? 0)%nat
  | |- ends _ _ (write_call _ _) _ => apply write_call_ends
  | |- ends _ _ (value_call _ _ _ _ _) _ => apply value_call_ends
  | |- ends _ _ (invalid_action _ _) _ => apply invalid_action_ends
  | |- call_ok _ _ _ => call_ok
  | |- label ?o = _ =>
      unfold label; repeat match goal with E : ?b = ?c |- _ => rewrite E; clear E end; try reflexivity;
      repeat match goal with E : act o <> _ |- _ => rewrite (proj2 (Z.eqb_neq _ _) E); clear E end; rewrite ?andb_false_r; reflexivity
  | |- _ = json_fields <$> parameters ?o =>
      repeat match goal with
      | E : parameters o = _ |- _ => rewrite E; clear E
      | E : cmd_type o = _ |- _ => unfold parameters; rewrite E; clear E
      | E : act o = _ |- _ => rewrite E; clear E
      | E : act o <> _ |- _ => rewrite (proj2 (Z.eqb_neq _ _) E); clear E
      end; reflexivity
  | |- ready _ _ => done
  end.

Lemma enum_ends o s w :
  parameters (J := J) o = (if act o =? Act.WRITE then Some [text_param (J := J) o 0%nat] else None) ->
  task_status o = false -> write_only o = false -> ready s w ->
  ends s w (run_cmd_type_enum_get_set o) (fun _ => command_ran o s w).
Proof. intros Hp Ht Hw Hs. unfold run_cmd_type_enum_get_set. repeat command_step. Qed.

Lemma enum_addr_ends o s w :
  parameters (J := J) o = Some (int_param (J := J) o 0%nat :: if act o =? Act.WRITE then [text_param (J := J) o 1%nat] else []) ->
  task_status o = false -> write_only o = false -> ready s w ->
  ends s w (run_cmd_type_enum_get_set_with_dev_addr o) (fun _ => command_ran o s w).
Proof. intros Hp Ht Hw Hs. unfold run_cmd_type_enum_get_set_with_dev_addr. repeat command_step. Qed.

Variable run_user_command : CmdExecutionObj D -> io (traced K) (session D) (Z * CmdExecutionObj D).

Lemma run_command_ends o s w :
  built_in o = true -> ready s w -> ends s w (run_command run_user_command o) (fun _ => command_ran o s w).
Proof.
  intros Hb Hs. assert (task_status o = task_status o) as Ht by done. assert (write_only o = write_only o) as Hw by done.
  unfold built_in, existsb in Hb. unfold task_status at 2, existsb in Ht. unfold write_only at 2, existsb in Hw.
  unfold run_command.
  repeat (apply orb_prop in Hb as [Hb|Hb]); try done; apply Z.eqb_eq in Hb; rewrite Hb in *;
    cbn [Z.eqb Pos.eqb orb Cmd.ACTION_NO_ARG Cmd.ENUM_GET_SET Cmd.INT_GET_SET Cmd.INT_GET_SET_WITH_DEV_ADDR
         Cmd.STRING_GET_SET_WITH_DEV_ADDR Cmd.ENUM_GET_SET_WITH_DEV_ADDR Cmd.STRING_GET_SET_WITH_ENUM_PARA
         Cmd.GET_TASK_STATUS Cmd.GET_TASK_STATUS_WITH_DEV_ADDR Cmd.STRING_GET_SET Cmd.DOUBLE_INT_SET] in *.
  all: first [apply ignored_ends, enum_addr_ends | apply enum_addr_ends | apply ignored_ends, enum_ends | apply enum_ends | idtac];
    try (unfold parameters; rewrite Hb; reflexivity); try done.
  - unfold run_cmd_type_action_noarg. repeat command_step.
  - unfold run_cmd_type_int_get_set. repeat command_step.
  - unfold run_cmd_type_int_get_set_with_dev_addr. repeat command_step.
  - unfold run_cmd_type_string_get_set_with_enum_para, run_get_task_progress_command. repeat command_step.
  - unfold run_get_task_progress_command. repeat command_step.
  - unfold run_get_task_progress_command_with_dev_addr. repeat command_step.
  - unfold run_cmd_type_double_int_set. repeat command_step.
Qed.

(** ** The commands of a thread *)

Variable stop_requested : nat -> bool.

(** The session after the commands [ran_so_far] of the session [s0] in the kernel [w0]. *)
Definition ran_since s0 w0 (ran_so_far : list (CmdExecutionObj D)) s w : Prop :=
  exists ms sent,
    Chain.items (output_msg_chain s) = Chain.items (output_msg_chain s0) ++ ms /\ written w = written w0 ++ sent /\
    looked s = (looked s0 + length ran_so_far)%nat /\
    (forall j, (j < length ran_so_far)%nat -> stop_requested (looked s0 + j) = false) /\
    forall os ms' rest, ran (J := J) (req_id (SrvSockConn s)) os ms' rest ->
      ran (J := J) (req_id (SrvSockConn s0)) (ran_so_far ++ os) (ms ++ ms') (sent ++ rest).

Definition loop_ok s0 w0 s w : Prop :=
  exists ran_so_far, Chain.items (cmd_chain s0) = ran_so_far ++ Chain.items (cmd_chain s) /\
    ran_since s0 w0 ran_so_far s w /\ ready s w /\ Chain.open (cmd_chain s) = true /\
    req_id (SrvSockConn s) + Chain.size (cmd_chain s) <= int_max.

(** How the loop ends: with all commands, or at the command where the stop was seen. *)
Definition loop_ended s0 w0 s w : Prop :=
  exists ran_so_far rest, Chain.items (cmd_chain s0) = ran_so_far ++ rest /\
    Chain.items (cmd_chain s) = drop 1 rest /\
    (rest <> [] -> stop_requested (looked s0 + length ran_so_far) = true) /\
    rpc_ok (SrvSockConn s) w /\
    exists ms sent, Chain.items (output_msg_chain s) = Chain.items (output_msg_chain s0) ++ ms /\
      written w = written w0 ++ sent /\ ran (J := J) (req_id (SrvSockConn s0)) ran_so_far ms sent /\
      forall j, (j < length ran_so_far)%nat -> stop_requested (looked s0 + j) = false.

Lemma ran_since_ends s0 w0 l s w : ran_since s0 w0 l s w ->
  exists ms sent, Chain.items (output_msg_chain s) = Chain.items (output_msg_chain s0) ++ ms /\
    written w = written w0 ++ sent /\ ran (J := J) (req_id (SrvSockConn s0)) l ms sent /\
    forall j, (j < length l)%nat -> stop_requested (looked s0 + j) = false.
Proof.
  intros (ms & sent & Hi & Hw & _ & Hst & Hr). exists ms, sent. do 2 (split; [done|]). split; [|done].
  specialize (Hr [] [] [] (ran_none _)). by rewrite !app_nil_r in Hr.
Qed.

Lemma ran_since_next s0 w0 l o items s w s' w' :
  ran_since s0 w0 l s w -> stop_requested (looked s) = false -> 0 <= req_id (SrvSockConn s) < int_max ->
  command_ran o (with_commands s items (S (looked s))) w s' w' ->
  ran_since s0 w0 (l ++ [o]) s' w' /\ ready s' w' /\ cmd_chain s' = items /\
  req_id (SrvSockConn s') <= req_id (SrvSockConn s) + 1.
Proof.
  intros (ms & sent & Hi & Hw & Hl & Hst & Hr) Hs Hid (c' & l' & m & b & -> & Ho & Hi' & Hok & Hw' & Hone & Hn).
  simpl in *. assert (req_id c' = next (req_id (SrvSockConn s)) o) as Hn'.
  { rewrite Hn. apply i32_id. unfold next, int_min. case_match; lia. }
  assert (req_id (SrvSockConn s) <= req_id c' <= req_id (SrvSockConn s) + 1).
  { rewrite Hn'. unfold next. case_match; lia. }
  split; [|split; [|split; [done|simpl; lia]]].
  - exists (ms ++ [m]), (sent ++ b). simpl. rewrite length_app. split_and!.
    + by rewrite Hi', Hi, app_assoc.
    + by rewrite Hw', Hw, app_assoc.
    + simpl. lia.
    + intros j Hj. simpl in Hj. destruct (decide (j < length l)%nat); [by apply Hst|].
      replace j with (length l) by lia. by rewrite <- Hl.
    + intros os ms' rest Hran. rewrite <- !app_assoc. apply Hr. simpl. constructor; [done|]. by rewrite <- Hn'.
  - split; [exact Hok|]. split; [simpl; lia|done].
Qed.

Lemma command_loop_ends s w :
  Forall (fun o => built_in o = true) (Chain.items (cmd_chain s)) -> loop_ok s w s w ->
  ends s w (command_loop run_user_command stop_requested) (fun _ => loop_ended s w).
Proof.
  intros Hb Hs. apply (ends_forever (fun _ s _ => length (Chain.items (cmd_chain s))) _ (fun _ => loop_ok s w)); [|done].
  clear Hs. intros [] s1 w1 (l & Hl & Hran & Hr & Ho & Hid). io_step. unfold Chain.get, Chain.size in *. rewrite Ho.
  destruct (Chain.items (cmd_chain s1)) as [|o os] eqn:Ei; cbv beta match.
  { io_step. exists l, []. split; [done|]. split; [by rewrite Ei|]. split; [done|]. split; [apply Hr|by apply ran_since_ends]. }
  io_step. destruct (stop_requested (looked s1)) eqn:Es.
  - io_step. exists l, (o :: os). split; [done|]. split; [done|].
    split; [|split; [apply Hr|exact (ran_since_ends _ _ _ _ _ Hran)]]. intros _. by destruct Hran as (? & ? & _ & _ & <- & _).
  - simpl in Hid. assert (built_in o = true) as Hbo.
    { rewrite Hl in Hb. apply Forall_app in Hb as [_ Hb]. by inversion Hb. }
    pose proof (proj1 (proj2 Hr)) as Hid0.
    eapply ends_bind; [apply run_command_ends; [done|exact Hr]|]. intros ? s2 w2 Hc. io_step.
    destruct (ran_since_next s w l o _ s1 w1 s2 w2 Hran Es ltac:(lia) Hc) as (Hran' & Hr' & Hi & Hid').
    split; [|rewrite Hi; simpl; lia]. exists (l ++ [o]). rewrite Hi. simpl. split; [by rewrite <- app_assoc|].
    split; [done|]. split; [done|]. split; [done|]. unfold Chain.size. simpl. lia.
Qed.

Lemma new_output_ok now w : open_fds w = [] -> misused w = false -> rpc_ok (set_output_size 1100 (new_ADJsonRpcClient now)) w.
Proof. intros Ho Hm. split; [by apply new_rpc_ok|vm_compute; split; lia]. Qed.

(** The end of the thread. *)
Lemma thread_end (r : Z) (Q : Z -> session D -> traced K -> Prop) s w :
  rpc_ok (SrvSockConn s) w ->
  (forall c' w', open_fds w' = [] -> misused w' = false -> written w' = written w ->
     Q r (with_conn (set_running false s) c') w') ->
  ends s w (_ ← modify (set_running false); _ ← on_conn destruct_rpc_client; mret r) Q.
Proof.
  intros Hok Hq. io_step. eapply ends_bind; [by apply on_conn_ends, destruct_rpc_client_ends|].
  intros [] s1 w1 (c & -> & Ho & Hm & Hw). io_step. by apply Hq.
Qed.

End calls.

(** ** The property at a concrete input *)

Import Echo Script.

(** A command of the type [t] with one parameter. *)
Definition command_of (t action : Z) (name p v : string) (n : Z) : CmdExecutionObj Z :=
  {| command := 0; cmd_type := t; act := action; get_rpc_name := "get_" ++ name; set_rpc_name := "set_" ++ name;
     cmd_int_val := 0; cmd_enum_val := 0; arg_param_int_value := []; arg_param_ulong_value := [];
     params := {| param_name := p; param_value := v; int_value := n; double_value := 0; ulong_value := 0;
                  float_value := 0 |} :: repeat (no_param (J := Json.value) (D := Z)) 17;
     obj_result := 0; rpc_resp_result := EmptyString |}%string.
Definition demo : session Z :=
  {| SrvSockConn := client;
     cmd_chain := Chain.set_items (Chain.empty_chain)
       [command_of Cmd.INT_GET_SET Act.WRITE "x" "x" EmptyString 7; command_of Cmd.DOUBLE_INT_SET Act.READ "y" "y" EmptyString 1;
        command_of Cmd.ENUM_GET_SET Act.READ "lamp" "lamp" EmptyString 0; command_of Cmd.INT_GET_SET Act.READ "z" "z" EmptyString 0];
     output_msg_chain := Chain.empty_chain; ip_addr := "10.0.0.1"; port := 40001; running := true; looked := 0 |}.
Definition demo_world : traced script :=
  world [[bytes "{'id':0,'result':{'return':'Success'}}"]; [bytes "{'id':1,'result':{'return':'Busy','lamp':'on'}}"]]%string.
Definition demo_user (o : CmdExecutionObj Z) : io (traced script) (session Z) (Z * CmdExecutionObj Z) := mret (0, o).

(** Three commands run before the stop; the second one is not valid and sends nothing. *)
Example four_commands_ex :
  (fun x => (x.1.1, (fun m => (rpc_method_name m, action m, CmdProcessor.result m, result_parameter m)) <$>
                      Chain.items (output_msg_chain x.1.2), Chain.items (cmd_chain x.1.2), open_fds x.2)) <$>
    thread_callback_function (J := Json.value) demo_user (fun n => n =? 3)%nat 100%nat demo demo_world =
  Some (0, [("set_x", Act.WRITE, "Success", Some EmptyString);
            ("run_cmd_type_double_int_set", Act.UNKNOWN, CLIENT_CMD_RESULT_INVALID_ACT, None);
            ("get_lamp", Act.READ, "Busy", Some "on")]%string, [], []).
Proof. vm_compute. reflexivity. Qed.

