(* ===== verification/Text.v ===== *)
(** * Texts and files

    What the services use of C++ string streams and of files: words, lines, pieces between
    separators, lower case, and reading back what was written line by line. *)
From S2P Require Import Prelude Common.
Open Scope Z_scope.

Definition newline : ascii := "010"%char.

(** ** Streams *)

(** [stream >> word]: the word after the white space, and what is left. *)
Fixpoint take_word (s : string) : string * string :=
  match s with
  | EmptyString => (EmptyString, EmptyString)
  | String c r => if is_space c then (EmptyString, s) else let '(w, t) := take_word r in (String c w, t)
  end.
Definition word (s : string) : string * string := take_word (skip_space s).

(** [getline(stream, piece, c)]: the text before the separator, and what is behind it. *)
Fixpoint until (c : ascii) (s : string) : string * string :=
  match s with
  | EmptyString => (EmptyString, EmptyString)
  | String x r => if (x =? c)%char then (EmptyString, r) else let '(a, b) := until c r in (String x a, b)
  end.
Definition line (s : string) : string * string := until newline s.

(** [while (stream.good()) { getline(stream, piece, c); ... }] *)
Fixpoint split (c : ascii) (s : string) : list string :=
  match s with
  | EmptyString => [EmptyString]
  | String x r =>
      if (x =? c)%char then EmptyString :: split c r
      else match split c r with p :: l => String x p :: l | [] => [String x EmptyString] end
  end.

(** [while (getline(file, line))] *)
Fixpoint lines (s : string) : list string :=
  match s with
  | EmptyString => []
  | String x r =>
      if (x =? newline)%char then EmptyString :: lines r
      else match lines r with p :: l => String x p :: l | [] => [String x EmptyString] end
  end.

(** [while (stream >> word)], as far as [fuel] goes; the length of the text is enough. *)
Fixpoint words_from (fuel : nat) (s : string) : list string :=
  match fuel with
  | O => []
  | S fuel => match word s with (EmptyString, _) => [] | (w, r) => w :: words_from fuel r end
  end.
Definition words (s : string) : list string := words_from (String.length s) s.

(** ** Characters *)

Definition tolower (c : ascii) : ascii :=
  let n := nat_of_ascii c in if ((65 <=? n) && (n <=? 90))%nat then ascii_of_nat (n + 32) else c.
Fixpoint map_string (f : ascii -> ascii) (s : string) : string :=
  match s with EmptyString => EmptyString | String c r => String (f c) (map_string f r) end.
Definition lower (s : string) : string := map_string tolower s.

(** [s.erase(remove(s.begin(), s.end(), c), s.end())] *)
Fixpoint remove_char (c : ascii) (s : string) : string :=
  match s with
  | EmptyString => EmptyString
  | String x r => if (x =? c)%char then remove_char c r else String x (remove_char c r)
  end.

Fixpoint has (c : ascii) (s : string) : bool :=
  match s with EmptyString => false | String x r => (x =? c)%char || has c r end.
Fixpoint spaced (s : string) : bool :=
  match s with EmptyString => false | String x r => is_space x || spaced r end.

(** A word as [>>] reads it. *)
Definition is_word (s : string) : bool := negb (String.length s =? 0)%nat && negb (spaced s).

(** [s.find(t)]: the position, and the text before and behind the first [t]. *)
Fixpoint find (t s : string) : option (string * string) :=
  if String.prefix t s then Some (EmptyString, String.substring (String.length t) (String.length s) s)
  else match s with
       | EmptyString => None
       | String c r => '(a, b) ← find t r; Some (String c a, b)
       end.

(** [s.rfind(c)]: the text before and behind the last [c]. *)
Fixpoint rfind (c : ascii) (s : string) : option (string * string) :=
  match s with
  | EmptyString => None
  | String x r =>
      match rfind c r with
      | Some (a, b) => Some (String x a, b)
      | None => if (x =? c)%char then Some (EmptyString, r) else None
      end
  end.

(** [endl] and the text of a file that was written line by line. *)
Definition endl : string := String newline EmptyString.
Definition file_of (l : list string) : string := foldr (fun x s => x ++ endl ++ s)%string EmptyString l.

(** ** Facts *)

Local Open Scope string_scope.

Lemma app_empty (a : string) : EmptyString ++ a = a.
Proof. done. Qed.
Lemma app_String x (a b : string) : String x a ++ b = String x (a ++ b).
Proof. done. Qed.
Create Rewrite HintDb text.
#[export] Hint Rewrite app_empty app_String : text.

Lemma until_none c s : has c s = false -> until c s = (s, EmptyString).
Proof. induction s as [|x s IH]; simpl; [done|]. intros [-> Hs]%orb_false_iff. by rewrite IH. Qed.

Lemma until_found c a b : has c a = false -> until c (a ++ String c b) = (a, b).
Proof.
  induction a as [|x a IH]; simpl; [by rewrite Ascii.eqb_refl|]. intros [-> Ha]%orb_false_iff. by rewrite IH.
Qed.

Lemma until_free c s : has c (until c s).1 = false.
Proof.
  induction s as [|x s IH]; simpl; [done|]. destruct (x =? c)%char eqn:E; [done|]. destruct (until c s). simpl in *.
  by rewrite E, IH.
Qed.

Lemma lines_cons x s : has newline x = false -> lines (x ++ endl ++ s) = x :: lines s.
Proof.
  induction x as [|c x IH]; simpl; [done|]. intros [-> Hx]%orb_false_iff. by rewrite (IH Hx).
Qed.

(** A file written line by line is read back line by line. *)
Lemma lines_file l : Forall (fun x => has newline x = false) l -> lines (file_of l) = l.
Proof. induction 1 as [|x l Hx _ IH]; simpl; [done|]. by rewrite lines_cons, IH. Qed.

Lemma append_assoc (a b c : string) : a ++ (b ++ c) = (a ++ b) ++ c.
Proof. induction a as [|x a IH]; autorewrite with text; [done|]. by rewrite IH. Qed.

Lemma file_of_app l k : file_of (l ++ k)%list = file_of l ++ file_of k.
Proof. induction l as [|x l IH]; simpl; [done|]. by rewrite IH, <- append_assoc. Qed.

Lemma spaced_app a b : spaced (a ++ b) = spaced a || spaced b.
Proof. induction a as [|x a IH]; autorewrite with text; simpl; [done|]. by rewrite IH, orb_assoc. Qed.

Lemma has_app c a b : has c (a ++ b) = has c a || has c b.
Proof. induction a as [|x a IH]; autorewrite with text; simpl; [done|]. by rewrite IH, orb_assoc. Qed.

Lemma take_word_app w s :
  spaced w = false -> match s with String c _ => is_space c = true | _ => True end -> take_word (w ++ s) = (w, s).
Proof.
  intros Hw Hs. induction w as [|c w IH]; simpl in *.
  - destruct s as [|c s]; simpl; [done|]. by rewrite Hs.
  - apply orb_false_iff in Hw as [Hc Hw]. autorewrite with text. simpl. by rewrite Hc, IH.
Qed.

Lemma skip_space_id s : match s with String c _ => is_space c = false | _ => True end -> skip_space s = s.
Proof. destruct s as [|c s]; simpl; [done|]. by intros ->. Qed.

(** The next word of a stream that holds it, with or without something behind it. *)
Lemma word_app w s :
  is_word w = true -> match s with String c _ => is_space c = true | _ => True end -> word (w ++ s) = (w, s).
Proof.
  unfold is_word, word. intros Hw Hs. apply andb_true_iff in Hw as [Hne Hw]. apply negb_true_iff in Hw.
  rewrite skip_space_id; [by apply take_word_app|]. destruct w as [|c w]; simpl in *; [done|].
  by apply orb_false_iff in Hw as [? _].
Qed.

Lemma word_space w s :
  is_word w = true -> match s with String c _ => is_space c = true | _ => True end -> word (String " " (w ++ s)) = (w, s).
Proof. intros Hw Hs. unfold word. simpl. by apply word_app. Qed.

Lemma word_nil s : word (String " " s) = word s.
Proof. done. Qed.

(** ** Numbers in texts *)

Lemma digit_char d : 0 <= d < 10 ->
  is_space (ascii_of_N (Z.to_N (48 + d))) = false /\ forall c, digit_of c = None -> Ascii.eqb (ascii_of_N (Z.to_N (48 + d))) c = false.
Proof.
  intros Hd. assert (d ∈ [0;1;2;3;4;5;6;7;8;9]) as Hin.
  { rewrite !elem_of_cons. lia. }
  rewrite !elem_of_cons, elem_of_nil in Hin.
  destruct_or! Hin; subst; (split; [done|]); intros c Hc;
    (match goal with |- Ascii.eqb ?x _ = _ => destruct (Ascii.eqb_spec x c) as [<-|] end; [discriminate Hc|done]).
Qed.

Lemma decimal_has c fuel n acc : digit_of c = None -> 0 <= n -> has c acc = false -> has c (decimal fuel n acc) = false.
Proof.
  intros Hc. revert n acc. induction fuel as [|fuel IH]; intros n acc Hn Ha; [done|]. cbn [decimal].
  destruct (digit_char (n mod 10) (Z.mod_pos_bound n 10 eq_refl)) as [_ Hd].
  assert (has c (String (ascii_of_N (Z.to_N (48 + n mod 10))) acc) = false) as Ha' by (cbn [has]; by rewrite Hd).
  destruct (n <? 10)%Z; [done|]. apply IH; [by apply Z.div_pos|done].
Qed.
Lemma format_d_has c n : digit_of c = None -> (c =? "-")%char = false -> has c (format_d n) = false.
Proof.
  intros Hc Hm. unfold format_d. destruct (Z.ltb_spec n 0); cbn [has]; [rewrite Ascii.eqb_sym, Hm; cbn [orb]|];
    (apply decimal_has; [done|lia|done]).
Qed.
(** A number is read up to the end of its line. *)
Lemma digits_line s acc : digits (s ++ endl) acc = digits s acc.
Proof. revert acc. induction s as [|c s IH]; intros acc; [done|]. autorewrite with text. simpl. by destruct (digit_of c). Qed.
Lemma atoi_line s : atoi (s ++ endl) = atoi s.
Proof.
  assert (skip_space (s ++ endl) = match skip_space s with EmptyString => EmptyString | t => t ++ endl end) as E.
  { induction s as [|c s IH]; [done|]. autorewrite with text. simpl. destruct (is_space c) eqn:Ec; [exact IH|].
    by autorewrite with text. }
  unfold atoi. rewrite E. destruct (skip_space s) as [|c t]; [done|]. autorewrite with text. f_equal.
  assert (digits (String c (t ++ endl)) 0 = digits (String c t) 0) as Hd.
  { rewrite <- app_String. apply digits_line. }
  destruct c as [[] [] [] [] [] [] [] []]; try exact Hd; by rewrite digits_line.
Qed.

Lemma length_append (a b : string) : String.length (a ++ b) = (String.length a + String.length b)%nat.
Proof. induction a as [|c a IH]; autorewrite with text; simpl; [done|]. by rewrite IH. Qed.
