(* ===== verification/SonOff.v ===== *)
(** * The client of a switch (ADSonOffHttpClient.cpp)

    Asks a switch for its state, and sets it, over HTTP: a request in the query of the
    address, and the first words of whatever comes back. *)
From S2P Require Import Prelude Common Proxy Io NetClient NetClientSpec Text.
Open Scope Z_scope.

(** [SONOFF_STATE] *)
Inductive SONOFF_STATE := SONOFF_OFF | SONOFF_ON | SONOFF_UNKNOWN.

(** The size of both buffers. *)
Definition SONOFF_BUFFER_SIZE : nat := 1400.

(** [class ADSonOffHttpClient]; the buffer to send is written before each use. *)
Record ADSonOffHttpClient := {
  so_connected : bool;
  so_socket : ADNetClient;
  so_recv : list ascii;
}.

Definition NUL : ascii := "000"%char.

Definition new_ADSonOffHttpClient (now : Z) : ADSonOffHttpClient :=
  {| so_connected := false; so_socket := new_ADNetClient now; so_recv := repeat NUL SONOFF_BUFFER_SIZE |}.
Definition so_with_socket (c : ADSonOffHttpClient) (s : ADNetClient) : ADSonOffHttpClient :=
  {| so_connected := so_connected c; so_socket := s; so_recv := so_recv c |}.
Definition so_with_connected (b : bool) (c : ADSonOffHttpClient) : ADSonOffHttpClient :=
  {| so_connected := b; so_socket := so_socket c; so_recv := so_recv c |}.
Definition so_with_recv (l : list ascii) (c : ADSonOffHttpClient) : ADSonOffHttpClient :=
  {| so_connected := so_connected c; so_socket := so_socket c; so_recv := l |}.

(** What is in a buffer after [data] and its NUL were written to its start. *)
Definition overlay (data buffer : list ascii) : list ascii :=
  data ++ NUL :: drop (S (length data)) buffer.

Section sonoff.
Context {W : Type} `{Kernel W}.
Abbreviation M := (io W ADSonOffHttpClient).

Definition so_on {A} (m : io W ADNetClient A) : M A := on so_socket so_with_socket m.

Definition so_server_connect (ip_addr : string) (port_num : Z) : M Z :=
  c ← get;
  if so_connected c then mret Rpc.SUCCESS
  else
    rc ← so_on (sock_connect_str ip_addr port_num);
    if rc =? 0 then _ ← modify (so_with_connected true); mret Rpc.SUCCESS else mret Rpc.FAIL.

Definition so_server_disconnect : M Z :=
  c ← get;
  _ ← (if so_connected c then _ ← so_on sock_disconnect; mret () else mret ());
  _ ← modify (so_with_connected false);
  mret Rpc.SUCCESS.

(** The destructor, with that of the socket. *)
Definition destruct_sonoff : M () := _ ← so_on sock_disconnect; so_on destruct_client.

Definition crlf : string := String "013" (String "010" EmptyString).
Definition http_request (query ip : string) : string :=
  "GET /cm?cmnd=" ++ query ++ " HTTP/1.1" ++ crlf ++ " Host:" ++ ip ++ crlf ++ crlf.

Definition so_send (query : string) : M () :=
  c ← get;
  _ ← so_on (send_data (String.list_ascii_of_string (http_request query (ip (so_socket c)))));
  mret ().
Definition so_receive : M () :=
  '(_, data) ← so_on (receive_data_blocking (Z.of_nat SONOFF_BUFFER_SIZE) 4000);
  modify (fun c => so_with_recv (match data with Some d => overlay d (so_recv c) | None => so_recv c end) c).

Definition set_sonoff_toggle : M Z :=
  c ← get;
  if negb (so_connected c) then mret Rpc.HOST_NOT_REACHABLE_ERR
  else _ ← so_send "Power%20TOGGLE"; _ ← so_receive; mret Rpc.SUCCESS.

(** [recv_buffer[100] = 0] *)
Definition so_clip : M () := modify (fun c => so_with_recv (<[100%nat := NUL]> (so_recv c)) c).

(** The state is the sixth word of what was received. *)
Definition state_of (msg : string) : SONOFF_STATE :=
  let '(_, s) := word msg in let '(_, s) := word s in let '(_, s) := word s in
  let '(_, s) := word s in let '(_, s) := word s in let '(arg6, _) := word s in
  if (arg6 =? "ON")%string then SONOFF_ON else if (arg6 =? "OFF")%string then SONOFF_OFF else SONOFF_UNKNOWN.

Definition get_sonoff_state : M (Z * SONOFF_STATE) :=
  c ← get;
  if negb (so_connected c) then mret (Rpc.HOST_NOT_REACHABLE_ERR, SONOFF_UNKNOWN)
  else
    _ ← so_send "Power%20";
    _ ← so_receive; _ ← so_clip;
    _ ← so_receive; _ ← so_clip;
    c ← get;
    mret (Rpc.SUCCESS, state_of (c_string (so_recv c))).

Definition set_sonoff_state (state : SONOFF_STATE) : M Z :=
  c ← get;
  if negb (so_connected c) then mret Rpc.HOST_NOT_REACHABLE_ERR
  else
    match state with
    | SONOFF_OFF => _ ← so_send "Power%20off"; _ ← so_receive; mret Rpc.SUCCESS
    | SONOFF_ON => _ ← so_send "Power%20On"; _ ← so_receive; mret Rpc.SUCCESS
    | SONOFF_UNKNOWN => mret Rpc.ARG_ERROR
    end.
End sonoff.

(** ** Every call ends and keeps the connection balanced *)

Section spec.
Context {K : Type} `{KernelLaws K}.
Implicit Types (c : ADSonOffHttpClient) (w : traced K).

Lemma so_on_ends {A} (m : io (traced K) ADNetClient A) c w Q :
  ends (so_socket c) w m Q -> ends c w (so_on m) (fun a c' w' => exists s, c' = so_with_socket c s /\ Q a s w').
Proof. intros Hm. apply ends_on. eapply ends_conseq; [exact Hm|]. intros a s w' Hq. by exists s. Qed.

Definition so_good c w : Prop := good (so_socket c) w.

Lemma so_server_connect_ends i p c w :
  so_good c w -> ends c w (so_server_connect i p) (fun _ c' w' => so_good c' w').
Proof.
  intros Hg. unfold so_server_connect. io_step. destruct (so_connected c); [by io_step|].
  eapply ends_bind; [by apply so_on_ends, sock_connect_str_ends|]. intros rc c1 w1 (s & -> & Hg1 & _).
  destruct (rc =? 0); by repeat io_step.
Qed.

Lemma so_server_disconnect_ends c w :
  so_good c w -> ends c w so_server_disconnect (fun _ c' w' => so_good c' w').
Proof.
  intros Hg. unfold so_server_disconnect. io_step. destruct (so_connected c); [|by repeat io_step].
  repeat io_step. eapply ends_bind; [by apply so_on_ends, sock_disconnect_ends|]. intros rc c1 w1 (s & -> & _ & Hg1 & _).
  by repeat io_step.
Qed.

Lemma destruct_sonoff_ends c w :
  so_good c w -> ends c w destruct_sonoff (fun _ _ w' => open_fds w' = [] /\ misused w' = false).
Proof.
  intros Hg. unfold destruct_sonoff. eapply ends_bind; [by apply so_on_ends, sock_disconnect_ends|].
  intros r c1 w1 (s & -> & _ & Hg1 & _). eapply ends_conseq.
  - apply so_on_ends with (Q := fun _ s' w' => good s' w' /\ connected s' = false). unfold destruct_client.
    eapply ends_bind; [by apply sock_disconnect_ends|]. intros r1 s1 w2 (_ & Hg2 & Hc & _). by apply ends_ret.
  - intros [] c2 w2 (s2 & _ & (_ & Ho & Hm) & Hc). unfold own_fds in Ho. by rewrite Hc in Ho.
Qed.

Lemma so_send_ends q c w : so_good c w -> ends c w (so_send q) (fun _ c' w' => so_good c' w').
Proof.
  intros Hg. unfold so_send. io_step. eapply ends_bind; [by apply so_on_ends, send_data_ends|].
  intros r c1 w1 (s & -> & Hg1 & _). by io_step.
Qed.

Lemma so_receive_ends c w : so_good c w -> ends c w so_receive (fun _ c' w' => so_good c' w').
Proof.
  intros Hg. unfold so_receive. eapply ends_bind; [by apply so_on_ends, receive_data_blocking_ends|].
  intros [r d] c1 w1 (s & -> & _ & Hl). io_step. by apply (same_link_good (so_socket c) w).
Qed.

Ltac so_run := repeat first [io_step | eapply ends_bind; [first [by apply so_send_ends|by apply so_receive_ends]|intros ? ? ? ?]].

(** A result code of the service. *)
Definition is_code (r : Z) : Prop := 0 <= r < Rpc.NONE.

Ltac so_end := split; [done|vm_compute; split; [discriminate|reflexivity]].

Lemma set_sonoff_toggle_ends c w :
  so_good c w -> ends c w set_sonoff_toggle (fun r c' w' => so_good c' w' /\ is_code r).
Proof. intros Hg. unfold set_sonoff_toggle. io_step. destruct (so_connected c); cbn [negb]; so_run; so_end. Qed.
Lemma set_sonoff_state_ends st c w :
  so_good c w -> ends c w (set_sonoff_state st) (fun r c' w' => so_good c' w' /\ is_code r).
Proof. intros Hg. unfold set_sonoff_state. io_step. destruct (so_connected c), st; cbn [negb]; so_run; so_end. Qed.
Lemma get_sonoff_state_ends c w :
  so_good c w -> ends c w get_sonoff_state (fun r c' w' => so_good c' w' /\ is_code r.1).
Proof.
  intros Hg. unfold get_sonoff_state, so_clip. io_step. destruct (so_connected c); cbn [negb]; [|io_step; so_end].
  so_run; first [done | so_end].
Qed.
End spec.
