(* ===== verification/XmppProxy.v ===== *)
(** * The XMPP client (ADXmppProxy.cpp)

    The proxy owns the client object of the XMPP library, takes its callbacks, and sends
    messages.  The library is a parameter: the roster it knows, whether a buddy is online,
    and subscriptions.  A client object has a number; a chat session belongs to the client
    it was opened on and is released with it, while the proxy keeps it in its table.
    [broken] is set when the code uses a null pointer or a session that was released, or
    lets an exception out of its thread. *)
From S2P Require Import Prelude Common Text.
Open Scope Z_scope.

(** What the code asks of the library's client object. *)
Class Gloox (G : Type) := {
  roster : G -> list string;
  online : G -> string -> option bool;
  roster_subscribe : G -> string -> G;
  roster_unsubscribe : G -> string -> G;
}.

(** A message that was sent. *)
Record stanza := { to : string; body : string; subject : string }.

(** The members that [connect()] copies from its arguments. *)
Record connection := {
  AdminBuddy : string;
  BkupAdminBuddy : string;
  UseBOSH : bool;
  BoshURL : string;
  BoshHost : string;
  TlsVerify : bool;
  SaslMech : string;
}.

(** [class ADXmppProxy]: [j] is the client object with its number, [clients] how many were
    made, [PingPipe] the length of the queue of pings, [pings] and [sent] what was sent. *)
Record ADXmppProxy (G : Type) := {
  j : option (nat * G);
  clients : nat;
  settings : connection;
  DebugLog : bool;
  iConnect : bool;
  failed_authorization : bool;
  connected : bool;
  disconnect_request : bool;
  DisconnectNow : bool;
  OnDemandDisconnect : bool;
  HeartBeat : Z;
  PingPipe : nat;
  AcceptBuddyList : list string;
  mySessions : gmap string nat;
  sent : list stanza;
  pings : nat;
  broken : bool;
}.
Arguments j {G}. Arguments clients {G}. Arguments settings {G}. Arguments DebugLog {G}. Arguments iConnect {G}.
Arguments failed_authorization {G}. Arguments connected {G}. Arguments disconnect_request {G}.
Arguments DisconnectNow {G}. Arguments OnDemandDisconnect {G}. Arguments HeartBeat {G}. Arguments PingPipe {G}.
Arguments AcceptBuddyList {G}. Arguments mySessions {G}. Arguments sent {G}. Arguments pings {G}. Arguments broken {G}.

Definition no_connection : connection :=
  {| AdminBuddy := EmptyString; BkupAdminBuddy := EmptyString; UseBOSH := false; BoshURL := EmptyString;
     BoshHost := EmptyString; TlsVerify := true; SaslMech := EmptyString |}.
Definition new_ADXmppProxy {G} : ADXmppProxy G :=
  {| j := None; clients := 0; settings := no_connection; DebugLog := false; iConnect := false;
     failed_authorization := false; connected := false; disconnect_request := false; DisconnectNow := false;
     OnDemandDisconnect := false; HeartBeat := 0; PingPipe := 0; AcceptBuddyList := []; mySessions := ∅; sent := [];
     pings := 0; broken := false |}.

(** ** Field updates *)

Section updates.
Context {G : Type}.
Implicit Types p : ADXmppProxy G.

Definition with_client p (o : option (nat * G)) (n : nat) (s : connection) (c r : bool) : ADXmppProxy G :=
  {| j := o; clients := n; settings := s; DebugLog := DebugLog p; iConnect := iConnect p;
     failed_authorization := failed_authorization p; connected := c; disconnect_request := r;
     DisconnectNow := DisconnectNow p; OnDemandDisconnect := OnDemandDisconnect p; HeartBeat := HeartBeat p;
     PingPipe := PingPipe p; AcceptBuddyList := AcceptBuddyList p; mySessions := mySessions p; sent := sent p;
     pings := pings p; broken := broken p |}.
Definition with_status p (log on failed now demand : bool) : ADXmppProxy G :=
  {| j := j p; clients := clients p; settings := settings p; DebugLog := log; iConnect := on;
     failed_authorization := failed; connected := connected p; disconnect_request := disconnect_request p;
     DisconnectNow := now; OnDemandDisconnect := demand; HeartBeat := HeartBeat p; PingPipe := PingPipe p;
     AcceptBuddyList := AcceptBuddyList p; mySessions := mySessions p; sent := sent p; pings := pings p;
     broken := broken p |}.
Definition with_pings p (beat : Z) (pipe n : nat) : ADXmppProxy G :=
  {| j := j p; clients := clients p; settings := settings p; DebugLog := DebugLog p; iConnect := iConnect p;
     failed_authorization := failed_authorization p; connected := connected p;
     disconnect_request := disconnect_request p; DisconnectNow := DisconnectNow p;
     OnDemandDisconnect := OnDemandDisconnect p; HeartBeat := beat; PingPipe := pipe;
     AcceptBuddyList := AcceptBuddyList p; mySessions := mySessions p; sent := sent p; pings := n; broken := broken p |}.
Definition with_chats p (accept : list string) (sessions : gmap string nat) (l : list stanza) (b : bool) : ADXmppProxy G :=
  {| j := j p; clients := clients p; settings := settings p; DebugLog := DebugLog p; iConnect := iConnect p;
     failed_authorization := failed_authorization p; connected := connected p;
     disconnect_request := disconnect_request p; DisconnectNow := DisconnectNow p;
     OnDemandDisconnect := OnDemandDisconnect p; HeartBeat := HeartBeat p; PingPipe := PingPipe p;
     AcceptBuddyList := accept; mySessions := sessions; sent := l; pings := pings p; broken := b |}.

Definition break p : ADXmppProxy G := with_chats p (AcceptBuddyList p) (mySessions p) (sent p) true.
Definition send p (m : stanza) : ADXmppProxy G :=
  with_chats p (AcceptBuddyList p) (mySessions p) (sent p ++ [m]) (broken p).
Definition with_accepted p (l : list string) : ADXmppProxy G := with_chats p l (mySessions p) (sent p) (broken p).
Definition set_gloox p (g : G) : ADXmppProxy G :=
  with_client p (match j p with Some (n, _) => Some (n, g) | None => None end) (clients p) (settings p) (connected p)
    (disconnect_request p).

Definition setForcedDisconnect p : ADXmppProxy G :=
  with_status p (DebugLog p) (iConnect p) (failed_authorization p) true (OnDemandDisconnect p).
Definition setOnDemandDisconnect (flag : bool) p : ADXmppProxy G :=
  with_status p (DebugLog p) (iConnect p) (failed_authorization p) (DisconnectNow p) flag.
Definition SetDebugLog (log : bool) p : ADXmppProxy G :=
  with_status p log (iConnect p) (failed_authorization p) (DisconnectNow p) (OnDemandDisconnect p).
End updates.

(** ** Connecting *)

Definition extractServerFromJID (jid : string) : string :=
  match find "@" jid with Some (_, server) => server | None => jid end.

Record BoshUrlComponents := { protocol : string; host : string; url_port : Z; path : string }.

(** [std::stoi]; [None] is an exception. *)
Definition stoi (s : string) : option Z :=
  let '(neg, r) := match skip_space s with
                   | String "-" r => (true, r)
                   | String "+" r => (false, r)
                   | r => (false, r)
                   end in
  match r with
  | String c _ =>
      if digit_of c then
        let v := if neg : bool then - digits r 0 else digits r 0 in
        if (int_min <=? v) && (v <=? int_max) then Some v else None
      else None
  | EmptyString => None
  end.

Definition parseBoshUrl (url : string) : option BoshUrlComponents :=
  let '(protocol, rest) := match find "://" url with Some x => x | None => ("http"%string, url) end in
  let '(hostPort, path) := match find "/" rest with Some (a, b) => (a, String "/" b) | None => (rest, "/"%string) end in
  match rfind ":" hostPort with
  | Some (h, t) => n ← stoi t; Some {| protocol := protocol; host := h; url_port := n; path := path |}
  | None =>
      Some {| protocol := protocol; host := hostPort; url_port := if (protocol =? "https")%string then 443 else 80;
              path := path |}
  end.

(** What the client object is set up with. *)
Inductive tls_policy := TLSDisabled | TLSOptional | TLSRequired.
Inductive sasl := AllButScramPlus | ScramPlus | Plain.
Record setup := {
  server : string;
  port : Z;
  tcp_host : option string;
  http_path : option string;
  tls_layer : bool;
  tls : option tls_policy;
  mechanisms : option sasl;
}.

Definition sasl_of (mech : string) : option sasl :=
  if (mech =? "scram-sha-1")%string then Some AllButScramPlus
  else if (mech =? "scram-sha-1-plus")%string then Some ScramPlus
  else if (mech =? "plain")%string then Some Plain
  else None.

Definition make_setup (user : string) (c : connection) (tlsEnabled : bool) : option setup :=
  if UseBOSH c then
    u ← parseBoshUrl (BoshURL c);
    Some {| server := BoshHost c; port := url_port u; tcp_host := Some (host u); http_path := Some (path u);
            tls_layer := (protocol u =? "https")%string;
            tls := Some (if negb tlsEnabled then TLSDisabled else if TlsVerify c then TLSRequired else TLSOptional);
            mechanisms := sasl_of (SaslMech c) |}
  else
    Some {| server := extractServerFromJID user; port := 5222; tcp_host := None; http_path := None; tls_layer := false;
            tls := None; mechanisms := sasl_of (SaslMech c) |}.

Section proxy.
Context {G : Type} `{Gloox G}.
Implicit Types p : ADXmppProxy G.

(** [connect()] up to [recv()]: the set-up of the new client [g], or nothing when there is
    a client already or an exception ends it. *)
Definition connect_begin p (g : G) (user adminbuddy bkupadminbuddy : string) (useBosh : bool) (boshUrl boshHost : string)
    (tlsVerify : bool) (saslMech : string) (tlsEnabled : bool) : option setup * ADXmppProxy G :=
  match j p with
  | Some _ => (None, p)
  | None =>
      let c := {| AdminBuddy := adminbuddy; BkupAdminBuddy := bkupadminbuddy; UseBOSH := useBosh; BoshURL := boshUrl;
                  BoshHost := if useBosh && (boshHost =? EmptyString)%string then extractServerFromJID user else boshHost;
                  TlsVerify := tlsVerify; SaslMech := saslMech |} in
      let p := with_client p (Some (clients p, g)) (S (clients p)) c true false in
      match make_setup user c tlsEnabled with
      | Some s => (Some s, with_pings p 0 (PingPipe p) (pings p))
      | None => (None, break p)
      end
  end.

(** What its loop looks at after each [recv()], and what it does behind the loop. *)
Definition disconnect_wanted p : bool := disconnect_request p || DisconnectNow p.
Definition connect_end p : ADXmppProxy G :=
  with_client p None (clients p) (settings p) false (disconnect_request p).

(** [disconnect()]; it waits for the client to go away, for 2 or 5 seconds at most. *)
Definition disconnect p : ADXmppProxy G :=
  if connected p then with_client p (j p) (clients p) (settings p) (connected p) true else p.

Definition onConnect p : ADXmppProxy G :=
  with_status p (DebugLog p) true (failed_authorization p) (DisconnectNow p) (OnDemandDisconnect p).
Definition onDisconnect (authentication_failed : bool) p : ADXmppProxy G :=
  with_status p (DebugLog p) false (authentication_failed || failed_authorization p) (DisconnectNow p)
    (OnDemandDisconnect p).

(** ** Messages *)

Definition is_admin_user p (user : string) : bool :=
  (user =? AdminBuddy (settings p))%string || (user =? BkupAdminBuddy (settings p))%string.

(** [receive_request()]: whether the message is passed on. *)
Definition receive_request p (sender : string) : bool * ADXmppProxy G :=
  if is_admin_user p sender then (true, p)
  else match j p with
       | Some (_, g) => (existsb (String.eqb sender) (roster g), p)
       | None => (false, break p)
       end.

(** [handleMessage()]: the message that is passed on, with its sender. *)
Definition handleMessage p (body sender : string) : option (string * string) * ADXmppProxy G :=
  if (0 <? String.length body)%nat then
    let '(b, p) := receive_request p sender in (if b : bool then Some (body, sender) else None, p)
  else (None, p).

(** A session that is used. *)
Definition use_session p (owner : nat) (m : stanza) : ADXmppProxy G :=
  match j p with
  | Some (n, _) => if (owner =? n)%nat then send p m else break p
  | None => break p
  end.

Definition send_reply p (reply sender : string) : Z * ADXmppProxy G :=
  match j p with
  | None => (-1, p)
  | Some _ =>
      match mySessions p !! sender with
      | Some owner => (0, use_session p owner {| to := sender; body := reply; subject := EmptyString |})
      | None => (-1, p)
      end
  end.

(** [handleMessageSession()]: a new chat of the buddy. *)
Definition handleMessageSession p (bare : string) : ADXmppProxy G :=
  match j p with
  | None => p
  | Some (n, _) =>
      let stale := match mySessions p !! bare with Some owner => DebugLog p && negb (owner =? n)%nat | None => false end in
      with_chats p (AcceptBuddyList p) (<[bare := n]> (mySessions p)) (sent p) (broken p || stale)
  end.

Definition SendMessageToBuddy p (address b s : string) : bool * ADXmppProxy G :=
  if negb (iConnect p) then (false, p)
  else match j p with
       | None => (false, break p)
       | Some (_, g) =>
           if existsb (String.eqb address) (roster g) then
             let m := {| to := address; body := b; subject := s |} in
             (true, match mySessions p !! address with Some owner => use_session p owner m | None => send p m end)
           else (false, p)
       end.

Definition IsMyBuddy p (address : string) : bool * ADXmppProxy G :=
  if negb (iConnect p) then (false, p)
  else match j p with
       | None => (false, break p)
       | Some (_, g) => (existsb (String.eqb address) (roster g), p)
       end.

(** ** Buddies *)

Definition join_lines (l : list string) : string := file_of l.

Definition get_buddy_list p (returnval : string) : string * ADXmppProxy G :=
  match j p with
  | Some (_, g) => ((returnval ++ join_lines (roster g))%string, p)
  | None => (returnval, break p)
  end.
Definition get_accept_buddy_list p (returnval : string) : string := (returnval ++ join_lines (AcceptBuddyList p))%string.

Definition accept_buddy p (buddy : string) : Z * ADXmppProxy G :=
  if existsb (String.eqb buddy) (AcceptBuddyList p) then (0, p)
  else (0, with_accepted p (AcceptBuddyList p ++ [buddy])).
Definition remove_buddy p (buddy : string) : Z * ADXmppProxy G :=
  if existsb (String.eqb buddy) (AcceptBuddyList p)
  then (0, with_accepted p (remove_first (String.eqb buddy) (AcceptBuddyList p)))
  else (-1, p).

Definition subscribe_buddy p (buddy : string) : Z * ADXmppProxy G :=
  match j p with
  | Some (_, g) => (0, set_gloox p (roster_subscribe g buddy))
  | None => (0, break p)
  end.
Definition unsubscribe_buddy p (buddy : string) : Z * ADXmppProxy G :=
  match j p with
  | Some (_, g) => (0, set_gloox p (roster_unsubscribe g buddy))
  | None => (0, break p)
  end.
Definition get_buddy_online_state p (buddy : string) : bool * ADXmppProxy G :=
  match j p with
  | Some (_, g) => match online g buddy with Some b => (b, p) | None => (false, break p) end
  | None => (false, break p)
  end.

(** A request of somebody to become a buddy, and to be none any more. *)
Definition handleSubscriptionRequest p (bare : string) : bool :=
  is_admin_user p bare || existsb (String.eqb bare) (AcceptBuddyList p).
Definition handleUnsubscriptionRequest p (bare : string) : ADXmppProxy G := (remove_buddy p bare).2.

(** ** The ping of the connection *)

Definition send_client_alive_ping p : bool * ADXmppProxy G :=
  match PingPipe p with O => (true, with_pings p (HeartBeat p) 1 (pings p)) | S _ => (false, p) end.

(** One round of [monoshot_callback_function()]. *)
Definition ping_round p : ADXmppProxy G :=
  let p := match j p with
           | None => p
           | Some _ =>
               let p := with_pings p (HeartBeat p + 1) (PingPipe p) (S (pings p)) in
               if HeartBeat p >? 3 then disconnect p else p
           end in
  with_pings p (HeartBeat p) (pred (PingPipe p)) (pings p).
Fixpoint ping_rounds (n : nat) p : ADXmppProxy G :=
  match n with O => p | S n => ping_rounds n (ping_round p) end.
Definition ping_thread p : ADXmppProxy G := ping_rounds (PingPipe p) p.

(** [handleEvent()] of an answer. *)
Definition pong p : ADXmppProxy G := with_pings p (HeartBeat p - 1) (PingPipe p) (pings p).
End proxy.
