(* ===== verification/XmppMgr.v ===== *)
(** * The message gateway (XmppMgr.cpp, XmppMgr.h)

    The manager takes chat messages as commands, runs each in its worker thread by a call
    of a service (file Client), and answers the sender.  It keeps aliases and event
    subscriptions, in memory and in files, and a list of the tasks that services run for
    it, whose results it sends when the services report them (EvntHandler.cpp). *)
From S2P Require Import Prelude Common Proxy Io NetClient Client Text SonOff XmppProxy.
Open Scope Z_scope.
Local Open Scope string_scope.

(** ** Commands *)

Inductive EXMPP_CMD_TYPES :=
| SMS_DELETE_ALL | SMS_DELETE | SMS_GET | SMS_SEND | SMS_LIST_UPDATE | SMS_GET_TOTAL | FMW_GET_VERSION | FMW_UPDATE
| FMW_UPDATE_STS | FMW_UPDATE_RES | FMW_REBOOT | FMW_UPTIME | FMW_HOSTNAME | FMW_GET_MYIP | FMW_RESET_HOSTNAME
| DIAL_VOICE | DIAL_USSD | GET_USSD | DEBUG_LOG_STS | GSM_MODEM_IDENT | LOG_UPDATE | LOG_COUNT | LOG_MSG
| FMW_GET_LOCALIP | FMW_POWEROFF | GPIO | GSM_EVENT_NOTIFY | GPIO_EVENT_NOTIFY | ALIAS | SLEEP | ACCOUNT | BOTNAME
| BUDDY_LIST | SHELLCMD | SHELLCMD_RESP | DEVIDENT | SHUTDOWN | SONOFF | DISPCLEAR | DISPPRINT | DISPBKLT
| SHELLCMD_TRIG | BUDDY_ADD | BUDDY_REMOVE | BUDDY_SUBSCRIBE | BUDDY_UNSUBSCRIBE | ACCEPT_BUDDY_LIST | RELAY_MESSAGE
| CMD_UNKNOWN.

#[export] Instance EXMPP_CMD_TYPES_eq_dec : EqDecision EXMPP_CMD_TYPES.
Proof. solve_decision. Defined.

Inductive EXMPP_USER_ACCESS_TYPES := ACCESS_ADMIN | ACCESS_READWRITE.

(** [XMPROXY_CMD_TABLE] and [xmproxy_cmd_table] *)
Record cmd_row := {
  cmdsts : bool;
  cmd : EXMPP_CMD_TYPES;
  cmd_name : string;
  cmd_arg : string;
  cmdaccess : EXMPP_USER_ACCESS_TYPES;
}.
Definition xmproxy_cmd_table : list cmd_row :=
  let row name arg c := Build_cmd_row true c name arg ACCESS_READWRITE in
  let off name arg c := Build_cmd_row false c name arg ACCESS_READWRITE in
  let adm name arg c := Build_cmd_row true c name arg ACCESS_ADMIN in
  [row "gsmcheck" "" GSM_MODEM_IDENT; row "smsupdate" "" SMS_LIST_UPDATE; row "smstotal" "" SMS_GET_TOTAL;
   row "smsget" "<zero_index_msg>" SMS_GET; row "smsdeleteall" "" SMS_DELETE_ALL;
   row "smssend" "<phone-num> <msg>" SMS_SEND; row "dialvoice" "<phone-num>" DIAL_VOICE;
   row "dialussd" "<ussd-code>" DIAL_USSD; row "readussd" "" GET_USSD; row "version" "" FMW_GET_VERSION;
   row "sysupdate" "" FMW_UPDATE; row "reboot" "" FMW_REBOOT; row "poweroff" "" FMW_POWEROFF;
   row "uptime" "" FMW_UPTIME; row "hostname" "[name]" FMW_HOSTNAME; row "resethostname" "" FMW_RESET_HOSTNAME;
   row "publicip" "" FMW_GET_MYIP; row "localip" "" FMW_GET_LOCALIP; off "logsts" "" DEBUG_LOG_STS;
   off "logupdate" "" LOG_UPDATE; off "logcount" "" LOG_COUNT; off "logmsg" "<zero_index_lineNum>" LOG_MSG;
   row "gpio" "<gpio_num> [sts(0/1)]" GPIO; row "eventgsm" "<sts[0/1]>" GSM_EVENT_NOTIFY;
   row "eventgpio" "<gpio_num> [sts(0/1)]" GPIO_EVENT_NOTIFY; row "alias" "name=cmd" ALIAS;
   row "sleep" "<seconds>" SLEEP; row "account" "" ACCOUNT; row "botname" "[name]" BOTNAME;
   row "buddylist" "" BUDDY_LIST; row "shellcmd" "<command>" SHELLCMD; row "shellcmdresp" "" SHELLCMD_RESP;
   row "shellcmdtrig" "<command>" SHELLCMD_TRIG; row "identify" "" DEVIDENT; adm "xmpshutdown" "" SHUTDOWN;
   row "sonoff" "<ip/hostname> [sts(on/off/toggle)]" SONOFF; row "dispclear" "" DISPCLEAR;
   row "display" "<line1/line2/line3..]> <message>" DISPPRINT; row "dispbklt" "<sts[on/off]>" DISPBKLT;
   adm "acceptbuddy" "[buddyID]" BUDDY_ADD; adm "rejectbuddy" "[buddyID]" BUDDY_REMOVE;
   adm "subscribe" "[buddyID]" BUDDY_SUBSCRIBE; adm "unsubscribe" "[buddyID]" BUDDY_UNSUBSCRIBE;
   row "acceptbuddylist" "" ACCEPT_BUDDY_LIST; adm "relaymsg" "<buddyID> <message>" RELAY_MESSAGE].

(** The ports of the services. *)
Definition ADCMN_PORT_SYSMGR : Z := 40001.
Definition ADCMN_PORT_GPIOCTL : Z := 40003.
Definition ADCMN_PORT_BBOXSMS : Z := 40004.
Definition ADCMN_PORT_XMPROXY : Z := 40005.

Definition BRBOX_SYS_CONFIG_FILE_PATH : string := "/etc/sysconfig.txt".
Definition GITHUB_FMW_DOWNLOAD_FOLDER : string := "http://github.com/hackboxguy/downloads/raw/master/".
Definition SHELLCMD_RESP_FILE_PATH : string := "/tmp/shellcmd.resp".
Definition SHELLCMD_RESP_MAX_FILE_SIZE : Z := 1300.

(** ** Entries *)

Record XmppCmdEntry := { cmdMsg : string; sender : string }.

(** [AyncEventEntry]: a task that a service runs. *)
Record AyncEventEntry := { taskID : Z; srvPort : Z; xmppTID : Z; requester : string }.

Inductive EXMPP_EVNT_TYPES := EVNT_GSM | EVNT_GPIO.
#[export] Instance EXMPP_EVNT_TYPES_eq_dec : EqDecision EXMPP_EVNT_TYPES.
Proof. solve_decision. Defined.
Definition evnt_name (t : EXMPP_EVNT_TYPES) : string := match t with EVNT_GSM => "gsm" | EVNT_GPIO => "gpio" end.

Record EventSubscrEntry := { subscriber : string; m_EvntType : EXMPP_EVNT_TYPES; m_EvntArg : Z; m_Status : bool }.

(** [FindAsyncEventEntry] and [FindEventSubscrEntry] *)
Definition FindAsyncEventEntry (tid port : Z) (e : AyncEventEntry) : bool := (taskID e =? tid)%Z && (srvPort e =? port)%Z.
Definition FindEventSubscrEntry (addr : string) (arg : Z) (type : EXMPP_EVNT_TYPES) (e : EventSubscrEntry) : bool :=
  match m_EvntType e with
  | EVNT_GSM => (subscriber e =? addr) && bool_decide (type = EVNT_GSM)
  | EVNT_GPIO => (subscriber e =? addr) && (m_EvntArg e =? arg)%Z && bool_decide (type = EVNT_GPIO)
  end.

(** ** The manager *)

(** The settings read from the login file and the command line. *)
Record account := {
  XmppUserName : string; XmppUserPw : string; XmppAdminBuddy : string; XmppBkupAdminBuddy : string;
  XmppUseBosh : bool; XmppBoshUrl : string; XmppBoshHost : string; XmppTlsVerify : bool; XmppTlsEnabled : bool;
  XmppSaslMech : string;
}.
Record options := {
  MgrDebugLog : bool; bboxSmsServerAddr : string; XmppBotNameFilePath : string; XmppNetInterface : string;
  AiAgentUrl : string; AiModel : string; AliasListFile : string; UpdateUrlFile : string;
  EventSubscrListFile : string; CyclicTime_ms : Z; botcli : bool;
}.

(** [class XmppMgr], with the table of commands and the files it reads and writes. *)
Record XmppMgr (G : Type) := {
  table : list cmd_row;
  acc : account;
  opts : options;
  event_period_ms : Z;
  XmppTaskIDCounter : Z;
  LastFmwUpdateTaskID : Z;
  processCmd : list XmppCmdEntry;
  AsyncTaskList : list AyncEventEntry;
  Inbox : list string;
  ResponseMsg : string;
  XmppBotName : string;
  XmppProxy : ADXmppProxy G;
  AliasList : gmap string string;
  myEventList : list EventSubscrEntry;
  files : gmap string string;
}.
Arguments table {G}. Arguments acc {G}. Arguments opts {G}. Arguments event_period_ms {G}.
Arguments XmppTaskIDCounter {G}. Arguments LastFmwUpdateTaskID {G}. Arguments processCmd {G}.
Arguments AsyncTaskList {G}. Arguments Inbox {G}. Arguments ResponseMsg {G}. Arguments XmppBotName {G}.
Arguments XmppProxy {G}. Arguments AliasList {G}. Arguments myEventList {G}. Arguments files {G}.

Section updates.
Context {G : Type}.
Implicit Types s : XmppMgr G.

Definition with_config s (t : list cmd_row) (a : account) (o : options) (period : Z) : XmppMgr G :=
  {| table := t; acc := a; opts := o; event_period_ms := period; XmppTaskIDCounter := XmppTaskIDCounter s;
     LastFmwUpdateTaskID := LastFmwUpdateTaskID s; processCmd := processCmd s; AsyncTaskList := AsyncTaskList s;
     Inbox := Inbox s; ResponseMsg := ResponseMsg s; XmppBotName := XmppBotName s; XmppProxy := XmppProxy s;
     AliasList := AliasList s; myEventList := myEventList s; files := files s |}.
Definition with_tasks s (l : list AyncEventEntry) (counter last : Z) : XmppMgr G :=
  {| table := table s; acc := acc s; opts := opts s; event_period_ms := event_period_ms s;
     XmppTaskIDCounter := counter; LastFmwUpdateTaskID := last; processCmd := processCmd s; AsyncTaskList := l;
     Inbox := Inbox s; ResponseMsg := ResponseMsg s; XmppBotName := XmppBotName s; XmppProxy := XmppProxy s;
     AliasList := AliasList s; myEventList := myEventList s; files := files s |}.
Definition with_queue s (q : list XmppCmdEntry) : XmppMgr G :=
  {| table := table s; acc := acc s; opts := opts s; event_period_ms := event_period_ms s;
     XmppTaskIDCounter := XmppTaskIDCounter s; LastFmwUpdateTaskID := LastFmwUpdateTaskID s; processCmd := q;
     AsyncTaskList := AsyncTaskList s; Inbox := Inbox s; ResponseMsg := ResponseMsg s; XmppBotName := XmppBotName s;
     XmppProxy := XmppProxy s; AliasList := AliasList s; myEventList := myEventList s; files := files s |}.
Definition with_inbox s (l : list string) (m : string) : XmppMgr G :=
  {| table := table s; acc := acc s; opts := opts s; event_period_ms := event_period_ms s;
     XmppTaskIDCounter := XmppTaskIDCounter s; LastFmwUpdateTaskID := LastFmwUpdateTaskID s;
     processCmd := processCmd s; AsyncTaskList := AsyncTaskList s; Inbox := l; ResponseMsg := m;
     XmppBotName := XmppBotName s; XmppProxy := XmppProxy s; AliasList := AliasList s; myEventList := myEventList s;
     files := files s |}.
Definition with_proxy s (p : ADXmppProxy G) : XmppMgr G :=
  {| table := table s; acc := acc s; opts := opts s; event_period_ms := event_period_ms s;
     XmppTaskIDCounter := XmppTaskIDCounter s; LastFmwUpdateTaskID := LastFmwUpdateTaskID s;
     processCmd := processCmd s; AsyncTaskList := AsyncTaskList s; Inbox := Inbox s; ResponseMsg := ResponseMsg s;
     XmppBotName := XmppBotName s; XmppProxy := p; AliasList := AliasList s; myEventList := myEventList s;
     files := files s |}.
Definition with_lists s (name : string) (aliases : gmap string string) (events : list EventSubscrEntry)
    (f : gmap string string) : XmppMgr G :=
  {| table := table s; acc := acc s; opts := opts s; event_period_ms := event_period_ms s;
     XmppTaskIDCounter := XmppTaskIDCounter s; LastFmwUpdateTaskID := LastFmwUpdateTaskID s;
     processCmd := processCmd s; AsyncTaskList := AsyncTaskList s; Inbox := Inbox s; ResponseMsg := ResponseMsg s;
     XmppBotName := name; XmppProxy := XmppProxy s; AliasList := aliases; myEventList := events; files := f |}.

(** ** Switching commands off *)

(** The rows of a group take the status, unless they are off already. *)
Definition set_group (group : list EXMPP_CMD_TYPES) (sts : bool) (r : cmd_row) : cmd_row :=
  if bool_decide (cmd r ∈ group) && cmdsts r
  then Build_cmd_row sts (cmd r) (cmd_name r) (cmd_arg r) (cmdaccess r) else r.
Definition gsm_group : list EXMPP_CMD_TYPES :=
  [GSM_MODEM_IDENT; SMS_LIST_UPDATE; SMS_GET_TOTAL; SMS_GET; SMS_DELETE_ALL; SMS_SEND; DIAL_VOICE; DIAL_USSD;
   GET_USSD; GSM_EVENT_NOTIFY].
Definition openwrt_group : list EXMPP_CMD_TYPES :=
  [GPIO; GPIO_EVENT_NOTIFY; FMW_HOSTNAME; FMW_RESET_HOSTNAME; FMW_POWEROFF; SHUTDOWN].
Definition docker_group : list EXMPP_CMD_TYPES :=
  [FMW_RESET_HOSTNAME; FMW_POWEROFF; SHUTDOWN; FMW_UPDATE; FMW_REBOOT].
Definition set_group_status s (group : list EXMPP_CMD_TYPES) (sts : bool) : XmppMgr G :=
  with_config s (map (set_group group sts) (table s)) (acc s) (opts s) (event_period_ms s).
Definition SetUSBGsmSts s (sts : bool) : XmppMgr G := set_group_status s gsm_group sts.
Definition SetOpenWrtCmdGroupSts s (sts : bool) : XmppMgr G := set_group_status s openwrt_group sts.
Definition SetDockerCmdGroupSts s (sts : bool) : XmppMgr G := set_group_status s docker_group sts.

Definition print_help s : string :=
  foldr (fun r t => if cmdsts r then cmd_name r ++ " " ++ cmd_arg r ++ endl ++ t else t) EmptyString (table s).

(** [ResolveCmdStr()] *)
Definition ResolveCmdStr (t : list cmd_row) (msg : string) : EXMPP_CMD_TYPES :=
  let c := lower (word msg).1 in
  match find_first (fun r => cmdsts r && (c =? cmd_name r)) t with
  | Some r => cmd r
  | None => CMD_UNKNOWN
  end.

(** ** Tasks in progress *)

(** [AccessAsyncTaskList()] that inserts an entry, and that takes one: the identifier the
    requester was given, and the requester. *)
Definition insert_task s (tid port : Z) (sender : string) : Z * XmppMgr G :=
  let n := i32 (XmppTaskIDCounter s + 1) in
  (n, with_tasks s (AsyncTaskList s ++ [{| taskID := tid; srvPort := port; xmppTID := n; requester := sender |}])%list n
        (LastFmwUpdateTaskID s)).
Definition take_task s (tid port : Z) : option (Z * string) * XmppMgr G :=
  match find_first (FindAsyncEventEntry tid port) (AsyncTaskList s) with
  | None => (None, s)
  | Some e =>
      (Some (xmppTID e, requester e),
       with_tasks s (List.filter (fun e => negb (FindAsyncEventEntry tid port e)) (AsyncTaskList s))
         (XmppTaskIDCounter s) (LastFmwUpdateTaskID s))
  end.
End updates.

(** ** Aliases *)

(** The entries of a [std::map] in its order. *)
Definition string_le (a b : string) : Prop := String.leb a b = true.
#[export] Instance string_le_dec : RelDecision string_le := fun a b => decide (String.leb a b = true).
Definition entry_le (a b : string * string) : Prop := string_le a.1 b.1.
#[export] Instance entry_le_dec : RelDecision entry_le := fun a b => decide (string_le a.1 b.1).
Definition alias_entries (m : gmap string string) : list (string * string) := merge_sort entry_le (map_to_list m).
Definition alias_line (e : string * string) : string := e.1 ++ "=" ++ e.2.

(** A line of the file of aliases. *)
Definition parse_alias (l : string) : string * string := let '(k, r) := until "=" l in (k, (until "=" r).1).

(** A line of the file of subscriptions, for a type that is known. *)
Definition parse_event (l : string) : option EventSubscrEntry :=
  let '(addr, r) := word l in let '(type, r) := word r in let '(arg, _) := word r in
  if type =? "gsm" then Some {| subscriber := addr; m_EvntType := EVNT_GSM; m_EvntArg := atoi arg; m_Status := true |}
  else if type =? "gpio" then Some {| subscriber := addr; m_EvntType := EVNT_GPIO; m_EvntArg := atoi arg; m_Status := true |}
  else None.
Definition event_line (e : EventSubscrEntry) : string :=
  subscriber e ++ " " ++ evnt_name (m_EvntType e) ++ " " ++ format_d (m_EvntArg e).

(** [$] and an alias, in any case. *)
Definition dollar (aliases : gmap string string) (t : string) : string :=
  match t with
  | String "$" r => default (lower r) (aliases !! lower r)
  | _ => t
  end.

Section manager.
Context {W G J D : Type} `{Kernel W} `{Gloox G} `{JsonC J D} `{JsonRpcC J}.

(** Which files can be written; the addresses of a host name; what a buffer holds that was
    never written; whether the program was built with the client of a language model, and
    what the server of the model [AiModel] answers to a prompt, if it does with status 200
    and a field ["response"]. *)
Variable can_write : string -> bool.
Variable gethostbyname : string -> option (list string).
Variable uninitialised : string.
Variable USE_AI_BOT : bool.
Variable Post : string -> string -> option string.

Implicit Types s : XmppMgr G.
Abbreviation M := (io W (XmppMgr G)).
Abbreviation call := (io W ADJsonRpcClient (option Z * list (cell D))).

(** [XmppMgr()]. *)
Definition BBOXSMS_SERVER_ADDR : string := "127.0.0.1".
Definition CLIENT_ALIVE_PING_DURATION_MS : Z := 90000.
Definition new_XmppMgr : XmppMgr G :=
  {| table := xmproxy_cmd_table;
     acc := Build_account EmptyString EmptyString EmptyString EmptyString false EmptyString EmptyString true true EmptyString;
     opts := {| MgrDebugLog := false; bboxSmsServerAddr := BBOXSMS_SERVER_ADDR; XmppBotNameFilePath := EmptyString;
                XmppNetInterface := EmptyString; AiAgentUrl := EmptyString; AiModel := "llama2:7b";
                AliasListFile := EmptyString; UpdateUrlFile := EmptyString; EventSubscrListFile := EmptyString;
                CyclicTime_ms := CLIENT_ALIVE_PING_DURATION_MS; botcli := false |};
     event_period_ms := 0; XmppTaskIDCounter := 0; LastFmwUpdateTaskID := 0; processCmd := []; AsyncTaskList := [];
     Inbox := []; ResponseMsg := EmptyString; XmppBotName := EmptyString; XmppProxy := new_ADXmppProxy; AliasList := ∅;
     myEventList := []; files := ∅ |}.

Definition on_proxy {A} (f : ADXmppProxy G -> A * ADXmppProxy G) : M A :=
  s ← get; let '(a, p) := f (XmppProxy s) in _ ← modify (fun s => with_proxy s p); mret a.

(** ** Files *)

Definition read_lines s (file : string) : list string :=
  match files s !! file with Some t => lines t | None => [] end.
Definition with_files s (f : gmap string string) : XmppMgr G :=
  with_lists s (XmppBotName s) (AliasList s) (myEventList s) f.
Definition write_file s (file text : string) : XmppMgr G :=
  if can_write file then with_files s (<[file := text]> (files s)) else s.
Definition append_file s (file text : string) : XmppMgr G :=
  write_file s file (default EmptyString (files s !! file) ++ text).

Definition set_aliases s (m : gmap string string) : XmppMgr G :=
  with_lists s (XmppBotName s) m (myEventList s) (files s).
Definition set_events s (l : list EventSubscrEntry) : XmppMgr G :=
  with_lists s (XmppBotName s) (AliasList s) l (files s).

Definition load_aliases (l : list string) (m : gmap string string) : gmap string string :=
  foldl (fun m l => let '(k, v) := parse_alias l in <[k := v]> m) m l.
Definition LoadAliasList s (file : string) : Z * XmppMgr G :=
  if file =? EmptyString then (Rpc.FAIL, s)
  else (Rpc.SUCCESS, set_aliases s (load_aliases (read_lines s file) (AliasList s))).
Definition ExtendAliasList s (file key val : string) : Z * XmppMgr G :=
  if file =? EmptyString then (Rpc.FAIL, s)
  else (Rpc.SUCCESS, append_file s file (file_of [alias_line (key, val)])).
Definition RewriteAliasList s (file : string) : Z * XmppMgr G :=
  if file =? EmptyString then (Rpc.FAIL, s)
  else (Rpc.SUCCESS, write_file s file (file_of (map alias_line (alias_entries (AliasList s))))).

Definition LoadEventSubscrList s (file : string) : Z * XmppMgr G :=
  if file =? EmptyString then (Rpc.FAIL, s)
  else (Rpc.SUCCESS, set_events s (myEventList s ++ omap parse_event (read_lines s file))%list).
Definition ExtendEventSubscrList s (file : string) (e : EventSubscrEntry) : Z * XmppMgr G :=
  if file =? EmptyString then (Rpc.FAIL, s)
  else (Rpc.SUCCESS, append_file s file (file_of [event_line e])).
Definition RewriteEventSubscrList s (file : string) : Z * XmppMgr G :=
  if file =? EmptyString then (Rpc.FAIL, s)
  else (Rpc.SUCCESS, write_file s file (file_of (map event_line (List.filter m_Status (myEventList s))))).

(** ** Arguments *)

Definition xpandarg s (arg : string) : string := dollar (AliasList s) arg.
Definition xpandargs s (arg : string) : string :=
  foldr (fun t r => dollar (AliasList s) t ++ " " ++ r) EmptyString (words arg).

(** ** Calling a service *)

(** A client that is a local variable: connect, call, disconnect; [None] when the server
    is not there. *)
Definition with_server {A} (port : Z) (calls : io W ADJsonRpcClient A) : M (option A) :=
  s ← get;
  now ← sys Clock;
  local (new_ADJsonRpcClient now)
    (rc ← rpc_server_connect (bboxSmsServerAddr (opts s)) port;
     if negb (rc =? 0)%Z then _ ← destruct_rpc_client; mret None
     else a ← calls; _ ← rpc_server_disconnect; _ ← destruct_rpc_client; mret (Some a)).

Definition text_of (initial : string) (cells : list (cell D)) : string :=
  match cells with CStr t :: _ => t | _ => initial end.
Definition code_of (r : option Z * list (cell D)) : Z := default Rpc.UNKNOWN r.1.

(** A call whose text is the answer, and one that has none. *)
Definition query (port : Z) (c : call) : M (Z * string) :=
  r ← with_server port c;
  mret match r with
       | None => (Rpc.HOST_NOT_REACHABLE_ERR, EmptyString)
       | Some r => (code_of r, text_of EmptyString r.2)
       end.
Definition action (port : Z) (c : call) : M (Z * string) :=
  r ← with_server port c;
  mret match r with None => (Rpc.HOST_NOT_REACHABLE_ERR, EmptyString) | Some r => (code_of r, EmptyString) end.

(** The identifier the requester is told: of a new entry if the service runs a task, or -1;
    [tID] is the text of the service's identifier. *)
Definition note_task (port : Z) (code : Z) (tID sender : string) : M (Z * string) :=
  if (code =? Rpc.IN_PROG)%Z then
    s ← get;
    let '(n, s') := insert_task s (atoi tID) port sender in
    _ ← modify (fun _ => s');
    mret (code, "taskID=" ++ format_d n)
  else mret (code, "taskID=" ++ format_d (-1)).

(** A call that starts a task; [initial] is what the buffer of its identifier holds. *)
Definition task (port : Z) (initial : string) (c : call) (sender : string) : M (Z * string) :=
  r ← with_server port c;
  match r with
  | None => mret (Rpc.HOST_NOT_REACHABLE_ERR, EmptyString)
  | Some r => note_task port (code_of r) (text_of initial r.2) sender
  end.

(** The command, its next word, the one behind it, or the rest of the line. *)
Definition arg1 (msg : string) : string := (word (word msg).2).1.
Definition arg2 (msg : string) : string := (word (word (word msg).2).2).1.
Definition rest1 (msg : string) : string := (line (word msg).2).1.
Definition rest2 (msg : string) : string := (line (word (word msg).2).2).1.
Definition empty (t : string) : bool := (String.length t =? 0)%nat.

(** What most commands start with. *)
Definition need_command (msg : string) (k : M (Z * string)) : M (Z * string) :=
  if empty (word msg).1 then mret (Rpc.UNKNOWN_COMMAND, EmptyString) else k.
Definition need_arg (arg : string) (k : M (Z * string)) : M (Z * string) :=
  if empty arg then mret (Rpc.ARG_ERROR, EmptyString) else k.
Definition need_admin (sender : string) (k : M (Z * string)) : M (Z * string) :=
  s ← get; if negb (is_admin_user (XmppProxy s) sender) then mret (Rpc.ACTION_NOT_ALLOWED, EmptyString) else k.

Definition plain_task (port : Z) (method sender : string) : M (Z * string) :=
  task port uninitialised (set_action_noarg_get_single_string_type method "taskId") sender.

(** ** The commands *)

Definition proc_cmd_sms_deleteall (msg sender : string) : M (Z * string) :=
  plain_task ADCMN_PORT_BBOXSMS "delete_all_sms" sender.
Definition proc_cmd_sms_delete (msg : string) : M (Z * string) := mret (Rpc.FEATURE_NOT_AVAILABLE, EmptyString).
Definition proc_cmd_sms_get (msg : string) : M (Z * string) :=
  need_command msg (need_arg (arg1 msg) (
    s ← get;
    query ADCMN_PORT_BBOXSMS
      (get_int_type_with_string_para "get_sms" "index" (atoi (xpandarg s (arg1 msg))) (Some "message")))).
Definition proc_cmd_sms_send (msg sender : string) : M (Z * string) :=
  need_command msg (need_arg (arg1 msg) (need_arg (rest2 msg) (
    s ← get;
    task ADCMN_PORT_BBOXSMS uninitialised
      (set_double_string_get_single_string_type "send_sms" "destination" (xpandarg s (arg1 msg)) "message"
         (xpandargs s (rest2 msg)) "taskId") sender))).
Definition proc_cmd_sms_list_update (msg sender : string) : M (Z * string) :=
  plain_task ADCMN_PORT_BBOXSMS "update_sms_list" sender.
Definition proc_cmd_sms_get_total (msg : string) : M (Z * string) :=
  query ADCMN_PORT_BBOXSMS (get_integer_type "get_total_sms" "msgcount").
Definition proc_cmd_fmw_get_version (msg : string) : M (Z * string) :=
  query ADCMN_PORT_SYSMGR (get_string_type_with_string_para "get_fmw_version" "module" "current" (Some "version")).

(** The address the firmware is loaded from. *)
Definition update_url s (image : string) : string :=
  if UpdateUrlFile (opts s) =? EmptyString then GITHUB_FMW_DOWNLOAD_FOLDER ++ image
  else match default EmptyString (head (read_lines s (UpdateUrlFile (opts s)))) with
       | EmptyString => GITHUB_FMW_DOWNLOAD_FOLDER ++ image
       | url => url
       end.
(** Its two calls: the download, and the update with the identifier of its task if the
    download runs. *)
Definition update_calls (url : string) : io W ADJsonRpcClient (Z * option string) :=
  r ← set_double_string_get_single_string_type "download_ftp_file" "srcaddr" url "targetpath" "/tmp/uBrBoxRoot.uimg"
        "taskId";
  if (code_of r =? Rpc.IN_PROG)%Z then
    r2 ← set_double_string_get_single_string_type "firmware_update" "module" "project" "filepath"
           "/tmp/uBrBoxRoot.uimg" "taskId";
    mret (code_of r2, Some (text_of (text_of EmptyString r.2) r2.2))
  else mret (code_of r, None).
Definition proc_cmd_fmw_update (msg sender : string) : M (Z * string) :=
  need_command msg (
    s ← get;
    match default EmptyString (head (read_lines s BRBOX_SYS_CONFIG_FILE_PATH)) with
    | EmptyString => mret (Rpc.FAIL, EmptyString)
    | board =>
        r ← with_server ADCMN_PORT_SYSMGR (update_calls (update_url s (board ++ ".uimg")));
        match r with
        | None => mret (Rpc.HOST_NOT_REACHABLE_ERR, EmptyString)
        | Some (code, None) => mret (code, EmptyString)
        | Some (code, Some tID) =>
            _ ← modify (fun s => with_tasks s (AsyncTaskList s) (XmppTaskIDCounter s) (atoi tID));
            note_task ADCMN_PORT_SYSMGR code tID sender
        end
    end).

Definition device_operation (operation sender : string) : M (Z * string) :=
  task ADCMN_PORT_SYSMGR EmptyString
    (set_single_string_get_single_string_type "set_device_operation" "operation" operation "taskId") sender.
Definition proc_cmd_fmw_reboot (msg sender : string) : M (Z * string) := device_operation "reboot" sender.
Definition proc_cmd_fmw_poweroff (msg sender : string) : M (Z * string) := device_operation "standby" sender.

Definition proc_cmd_fmw_update_sts (msg : string) : M (Z * string) :=
  '(code, v) ← query ADCMN_PORT_SYSMGR (get_string_type "get_async_task" "task");
  mret (code, if (code =? Rpc.SUCCESS)%Z then if v =? "none" then "Idle" else "Busy" else v).
Definition proc_cmd_fmw_update_res (msg : string) : M (Z * string) :=
  s ← get;
  query ADCMN_PORT_SYSMGR
    (get_string_type_with_string_para "get_rpc_req_status" "taskId" (format_d (LastFmwUpdateTaskID s)) (Some "taskStatus")).
Definition proc_cmd_fmw_uptime (msg : string) : M (Z * string) :=
  r ← with_server ADCMN_PORT_SYSMGR (get_three_string_type "get_load_info" "current" "average" "uptime");
  mret match r with
       | None => (Rpc.HOST_NOT_REACHABLE_ERR, EmptyString)
       | Some r => (code_of r, format_d (Z.quot (atoi (text_of EmptyString (drop 2 r.2))) 3600) ++ " Hours")
       end.

Definition proc_cmd_fmw_get_hostname (msg : string) : M (Z * string) :=
  query ADCMN_PORT_SYSMGR (get_string_type "get_hostname" "hostname").
Definition proc_cmd_fmw_set_hostname (msg : string) : M (Z * string) :=
  need_command msg (need_arg (arg1 msg) (
    action ADCMN_PORT_SYSMGR (set_single_string_type "set_hostname" "hostname" (arg1 msg)))).
Definition proc_cmd_fmw_hostname (msg : string) : M (Z * string) :=
  need_command msg (
    s ← get;
    if empty (xpandarg s (arg1 msg)) then proc_cmd_fmw_get_hostname msg else proc_cmd_fmw_set_hostname msg).

Definition proc_cmd_gpio (msg : string) : M (Z * string) :=
  need_command msg (need_arg (arg1 msg) (
    s ← get;
    let addr := atoi (xpandarg s (arg1 msg)) in
    if empty (arg2 msg) then query ADCMN_PORT_GPIOCTL (get_integer_type_with_addr_para "gpio_get" "addr" addr "data")
    else action ADCMN_PORT_GPIOCTL
           (set_integer_type_with_addr_para "gpio_set" "addr" addr "data" (atoi (xpandarg s (arg2 msg)))))).

Definition proc_cmd_fmw_get_myip (msg : string) : M (Z * string) :=
  query ADCMN_PORT_SYSMGR (get_string_type "get_my_public_ip" "ip").
Definition ask_ip (iface : string) : call := get_string_type_with_string_para "get_ip_addr" "iface" iface (Some "addr").
Definition try_ips : call :=
  r ← ask_ip "eth0";
  if (code_of r =? Rpc.SUCCESS)%Z then mret r
  else r ← ask_ip "eth1"; if (code_of r =? Rpc.SUCCESS)%Z then mret r else ask_ip "ppp0".
Definition proc_cmd_fmw_get_localip (msg : string) : M (Z * string) :=
  s ← get;
  query ADCMN_PORT_SYSMGR
    (if XmppNetInterface (opts s) =? EmptyString then try_ips else ask_ip (XmppNetInterface (opts s))).
Definition proc_cmd_fmw_set_default_hostname (msg : string) : M (Z * string) :=
  action ADCMN_PORT_SYSMGR (set_action_noarg_type "set_default_hostname").

Definition proc_cmd_dial_voice (msg rpc_cmd sender : string) : M (Z * string) :=
  need_command msg (need_arg (arg1 msg) (
    s ← get;
    task ADCMN_PORT_BBOXSMS uninitialised
      (set_single_string_get_single_string_type rpc_cmd "destination" (xpandarg s (arg1 msg)) "taskId") sender)).
Definition proc_cmd_get_ussd (msg : string) : M (Z * string) :=
  query ADCMN_PORT_BBOXSMS (get_string_type "get_ussd" "message").
Definition proc_cmd_logsts (msg : string) : M (Z * string) :=
  need_command msg (need_arg (arg1 msg) (
    if empty (arg2 msg) then query (atoi (arg1 msg)) (get_string_type "get_debug_logging" "status")
    else action (atoi (arg1 msg)) (set_single_string_type "set_debug_logging" "status" (arg2 msg)))).
Definition proc_cmd_gsm_modem_identify (msg sender : string) : M (Z * string) :=
  plain_task ADCMN_PORT_BBOXSMS "identify_dev" sender.
Definition proc_cmd_log_list_update (msg sender : string) : M (Z * string) :=
  plain_task ADCMN_PORT_SYSMGR "update_loglist" sender.
Definition proc_cmd_log_get_count (msg : string) : M (Z * string) :=
  query ADCMN_PORT_SYSMGR (get_integer_type "get_log_count" "logcount").
Definition proc_cmd_log_get_line (msg : string) : M (Z * string) :=
  need_command msg (need_arg (arg1 msg) (
    query ADCMN_PORT_SYSMGR
      (get_int_type_with_string_para "get_log_line" "index" (atoi (arg1 msg)) (Some "logmsg")))).

(** What the two commands for subscriptions share: [arg] is the status, or empty to read
    it. *)
Fixpoint set_status (test : EventSubscrEntry -> bool) (sts : bool) (l : list EventSubscrEntry) : list EventSubscrEntry :=
  match l with
  | [] => []
  | e :: r =>
      if test e then {| subscriber := subscriber e; m_EvntType := m_EvntType e; m_EvntArg := m_EvntArg e; m_Status := sts |} :: r
      else e :: set_status test sts r
  end.
Definition event_command s (sender : string) (type : EXMPP_EVNT_TYPES) (io : Z) (read : bool) (arg : string)
  : Z * string * XmppMgr G :=
  let test := FindEventSubscrEntry sender io type in
  match find_first test (myEventList s) with
  | Some e =>
      if read then (Rpc.SUCCESS, if m_Status e then "1" else "0", s)
      else (Rpc.SUCCESS, EmptyString,
            (RewriteEventSubscrList (set_events s (set_status test (arg =? "1") (myEventList s)))
               (EventSubscrListFile (opts s))).2)
  | None =>
      if read then (Rpc.SUCCESS, "0", s)
      else if arg =? "1" then
        let e := {| subscriber := sender; m_EvntType := type; m_EvntArg := io; m_Status := true |} in
        (Rpc.SUCCESS, EmptyString,
         (ExtendEventSubscrList (set_events s (myEventList s ++ [e])%list) (EventSubscrListFile (opts s)) e).2)
      else (Rpc.SUCCESS, EmptyString, s)
  end.
Definition run_pure (f : XmppMgr G -> Z * string * XmppMgr G) : M (Z * string) :=
  s ← get; let '(r, s') := f s in _ ← modify (fun _ => s'); mret r.
Definition proc_cmd_event_gsm (msg sender : string) : M (Z * string) :=
  need_command msg (run_pure (fun s => event_command s sender EVNT_GSM 0 (empty (arg1 msg)) (arg1 msg))).
Definition proc_cmd_event_gpio (msg sender : string) : M (Z * string) :=
  need_command msg (need_arg (arg1 msg) (
    run_pure (fun s => event_command s sender EVNT_GPIO (atoi (xpandarg s (arg1 msg))) (empty (arg2 msg))
                         (xpandarg s (arg2 msg))))).

Definition proc_cmd_alias s (msg : string) : Z * string * XmppMgr G :=
  if (msg =? "Alias") || (msg =? "alias") then
    (Rpc.SUCCESS, endl ++ file_of (map alias_line (alias_entries (AliasList s))), s)
  else
    let '(cmd, r) := until "=" msg in
    let value := (until "=" r).1 in
    let key := skip_space (line (word cmd).2).1 in
    let file := AliasListFile (opts s) in
    if empty value then
      (Rpc.SUCCESS, EmptyString, (RewriteAliasList (set_aliases s (delete key (AliasList s))) file).2)
    else
      let s' := set_aliases s (<[key := value]> (AliasList s)) in
      match AliasList s !! key with
      | Some _ => (Rpc.SUCCESS, EmptyString, (RewriteAliasList s' file).2)
      | None => (Rpc.SUCCESS, EmptyString, (ExtendAliasList s' file key value).2)
      end.

(** The argument of [usleep()] is computed as an [int], and passed as unsigned. *)
Definition proc_cmd_sleep (msg : string) : M (Z * string) :=
  need_command msg (need_arg (arg1 msg) (
    s ← get;
    _ ← sys (USleep (u32 (atoi (xpandarg s (arg1 msg)) * 1000 * 1000)));
    mret (Rpc.SUCCESS, EmptyString))).

Definition proc_cmd_account_name (msg : string) : M (Z * string) :=
  s ← get;
  mret (Rpc.SUCCESS, if empty (XmppUserName (acc s)) then "none" else XmppUserName (acc s)).
Definition set_bot_name s (name : string) : XmppMgr G :=
  let s := with_lists s name (AliasList s) (myEventList s) (files s) in
  if empty (XmppBotNameFilePath (opts s)) then s else write_file s (XmppBotNameFilePath (opts s)) (name ++ endl).
Definition proc_cmd_bot_name (msg : string) : M (Z * string) :=
  need_command msg (
    s ← get;
    if empty (rest1 msg) then mret (Rpc.SUCCESS, if empty (XmppBotName s) then "none" else XmppBotName s)
    else _ ← modify (fun s => set_bot_name s (xpandarg s (rest1 msg))); mret (Rpc.SUCCESS, EmptyString)).
Definition proc_cmd_buddy_list (msg : string) : M (Z * string) :=
  l ← on_proxy (fun p => get_buddy_list p endl); mret (Rpc.SUCCESS, l).

Definition proc_cmd_shellcmd (msg sender : string) (cmdtype : EXMPP_CMD_TYPES) : M (Z * string) :=
  need_command msg (need_arg (rest1 msg) (
    s ← get;
    let rpccmd := if bool_decide (cmdtype = SHELLCMD_TRIG) then "run_shellcmdtrig" else "run_shellcmd" in
    task ADCMN_PORT_SYSMGR uninitialised
      (set_single_string_get_single_string_type rpccmd "command" (xpandargs s (rest1 msg)) "taskId") sender)).
Definition proc_cmd_shellcmdresp (msg sender : string) : M (Z * string) :=
  s ← get;
  mret match files s !! SHELLCMD_RESP_FILE_PATH with
       | Some t =>
           if (Z.of_nat (String.length t) >? SHELLCMD_RESP_MAX_FILE_SIZE)%Z then (Rpc.VALUE_OUT_OF_RANGE, EmptyString)
           else (Rpc.SUCCESS, t)
       | None => (Rpc.FILE_OPEN_ERR, EmptyString)
       end.
Definition proc_cmd_devident (msg sender : string) : M (Z * string) :=
  plain_task ADCMN_PORT_SYSMGR "device_identify" sender.
Definition proc_cmd_xmpshutdown (msg sender : string) : M (Z * string) :=
  plain_task ADCMN_PORT_XMPROXY "trigger_shutdown" sender.

Definition with_switch {A} (ip : string) (calls : io W ADSonOffHttpClient A) : M (option A) :=
  now ← sys Clock;
  local (new_ADSonOffHttpClient now)
    (rc ← so_server_connect ip 80;
     if negb (rc =? 0)%Z then _ ← destruct_sonoff; mret None
     else a ← calls; _ ← so_server_disconnect; _ ← destruct_sonoff; mret (Some a)).
Definition switch_action (ip : string) (calls : io W ADSonOffHttpClient Z) : M (Z * string) :=
  r ← with_switch ip calls; mret (default Rpc.HOST_NOT_REACHABLE_ERR r, EmptyString).
Definition hostname_to_ip (hostname : string) : option string :=
  match gethostbyname hostname with Some (ip :: _) => Some ip | _ => None end.
Definition proc_cmd_sonoff (msg : string) : M (Z * string) :=
  need_command msg (need_arg (arg1 msg) (
    s ← get;
    match hostname_to_ip (xpandarg s (arg1 msg)) with
    | None => mret (Rpc.FAIL, EmptyString)
    | Some ip =>
        if empty (arg2 msg) then
          r ← with_switch ip get_sonoff_state;
          mret match r with
               | None => (Rpc.HOST_NOT_REACHABLE_ERR, EmptyString)
               | Some (code, SONOFF_ON) => (code, "on")
               | Some (code, SONOFF_OFF) => (code, "off")
               | Some (code, SONOFF_UNKNOWN) => (code, "unknown")
               end
        else
          let a := xpandarg s (arg2 msg) in
          if a =? "on" then switch_action ip (set_sonoff_state SONOFF_ON)
          else if a =? "off" then switch_action ip (set_sonoff_state SONOFF_OFF)
          else if a =? "toggle" then switch_action ip set_sonoff_toggle
          else mret (Rpc.ARG_ERROR, EmptyString)
    end)).

Definition proc_cmd_disp_clear (msg : string) : M (Z * string) :=
  action ADCMN_PORT_SYSMGR (set_action_noarg_type "display_clear").
Definition proc_cmd_disp_print (msg : string) : M (Z * string) :=
  need_command msg (need_arg (arg1 msg) (
    s ← get;
    let a := xpandarg s (arg1 msg) in
    if empty (rest2 msg) then
      query ADCMN_PORT_SYSMGR (get_integer_type_with_addr_para "display_print" "line" (atoi a) "msg")
    else action ADCMN_PORT_SYSMGR
           (set_double_string_type "display_print" "line" a "msg" (xpandarg s (rest2 msg))))).
Definition proc_cmd_get_display_backlight (msg : string) : M (Z * string) :=
  query ADCMN_PORT_SYSMGR (get_string_type "display_backlight_get" "status").
Definition proc_cmd_set_display_backlight (msg : string) : M (Z * string) :=
  need_command msg (need_arg (arg1 msg) (
    s ← get;
    action ADCMN_PORT_SYSMGR (set_single_string_type "display_backlight_set" "status" (xpandarg s (arg1 msg))))).
Definition proc_cmd_disp_backlight (msg : string) : M (Z * string) :=
  need_command msg
    (if empty (arg1 msg) then proc_cmd_get_display_backlight msg else proc_cmd_set_display_backlight msg).

(** ** Buddies *)

(** The argument of a command about a buddy: expanded, without spaces. *)
Definition buddy_arg s (msg : string) : string := remove_char " " (xpandarg s (rest1 msg)).
Definition buddy_command (msg sender : string) (k : string -> M (Z * string)) : M (Z * string) :=
  need_admin sender (need_command msg (need_arg (rest1 msg) (s ← get; k (buddy_arg s msg)))).
Definition proc_cmd_buddy_add (msg sender : string) : M (Z * string) :=
  buddy_command msg sender (fun b => _ ← on_proxy (fun p => accept_buddy p b); mret (Rpc.SUCCESS, EmptyString)).
Definition proc_cmd_buddy_remove (msg sender : string) : M (Z * string) :=
  buddy_command msg sender (fun b =>
    r ← on_proxy (fun p => remove_buddy p b);
    mret (if (r =? 0)%Z then Rpc.SUCCESS else Rpc.ITEM_NOT_FOUND, EmptyString)).
Definition proc_cmd_buddy_subscribe (msg sender : string) : M (Z * string) :=
  buddy_command msg sender (fun b => _ ← on_proxy (fun p => subscribe_buddy p b); mret (Rpc.SUCCESS, EmptyString)).
Definition proc_cmd_buddy_unsubscribe (msg sender : string) : M (Z * string) :=
  buddy_command msg sender (fun b => _ ← on_proxy (fun p => unsubscribe_buddy p b); mret (Rpc.SUCCESS, EmptyString)).
Definition proc_cmd_accept_buddy_list (msg : string) : M (Z * string) :=
  s ← get; mret (Rpc.SUCCESS, get_accept_buddy_list (XmppProxy s) endl).

(** Messages to a buddy, on behalf of the administrator, and of the other calls of the
    manager's service. *)
Definition send_message_internal (to message subject : string) (p : ADXmppProxy G) : Z * ADXmppProxy G :=
  let '(b, p) := SendMessageToBuddy p to message subject in (if b : bool then Rpc.SUCCESS else Rpc.FAIL, p).
Definition send_message (to message subject : string) (p : ADXmppProxy G) : Z * ADXmppProxy G :=
  let '(b, p) := IsMyBuddy p to in
  if negb b then (Rpc.ACTION_NOT_ALLOWED, p)
  else
    let '(on, p) := get_buddy_online_state p to in
    if negb on then (Rpc.OFFLINE_NODE, p) else send_message_internal to message subject p.
Definition proc_cmd_send_message (to message : string) : M Z := on_proxy (send_message to message "message").
Definition proc_cmd_send_message_internal s (to message : string) : Z * XmppMgr G :=
  let '(r, p) := send_message_internal to message "message" (XmppProxy s) in (r, with_proxy s p).
Definition proc_cmd_relay_message (msg sender : string) : M (Z * string) :=
  need_admin sender (need_command msg (need_arg (arg1 msg) (need_arg (rest2 msg) (
    s ← get;
    r ← proc_cmd_send_message (xpandarg s (arg1 msg)) (xpandarg s (rest2 msg));
    mret (r, EmptyString))))).
Definition proc_cmd_subscribe_message s (to : string) : Z * XmppMgr G :=
  let '(r, p) := subscribe_buddy (XmppProxy s) to in (if (r =? 0)%Z then Rpc.SUCCESS else Rpc.FAIL, with_proxy s p).
Definition proc_cmd_add_buddy s (to : string) : Z * XmppMgr G :=
  let '(r, p) := accept_buddy (XmppProxy s) to in (if (r =? 0)%Z then Rpc.SUCCESS else Rpc.FAIL, with_proxy s p).
Definition get_connected_status s : bool := iConnect (XmppProxy s).

Definition proc_cmd_get_inbox_count s : Z * Z := (Rpc.SUCCESS, Z.of_nat (length (Inbox s))).
Definition proc_cmd_get_inbox_msg s (index : Z) : Z * string :=
  if (index <? 0)%Z then (Rpc.VALUE_OUT_OF_RANGE, EmptyString)
  else match Inbox s !! Z.to_nat index with
       | Some m => (Rpc.SUCCESS, m)
       | None => (Rpc.VALUE_OUT_OF_RANGE, EmptyString)
       end.
Definition proc_cmd_get_inbox_empty s : Z * XmppMgr G := (Rpc.SUCCESS, with_inbox s [] (ResponseMsg s)).

(** ** The worker *)

(** The [switch] of [monoshot_callback_function()]. *)
Definition run_command (msg sender : string) : M (Z * string) :=
  s ← get;
  match ResolveCmdStr (table s) msg with
  | SMS_DELETE_ALL => proc_cmd_sms_deleteall msg sender
  | SMS_DELETE => proc_cmd_sms_delete msg
  | SMS_GET => proc_cmd_sms_get msg
  | SMS_SEND => proc_cmd_sms_send msg sender
  | SMS_LIST_UPDATE => proc_cmd_sms_list_update msg sender
  | SMS_GET_TOTAL => proc_cmd_sms_get_total msg
  | FMW_GET_VERSION => proc_cmd_fmw_get_version msg
  | FMW_UPDATE => proc_cmd_fmw_update msg sender
  | FMW_UPDATE_STS => proc_cmd_fmw_update_sts msg
  | FMW_UPDATE_RES => proc_cmd_fmw_update_res msg
  | FMW_REBOOT => proc_cmd_fmw_reboot msg sender
  | FMW_POWEROFF => proc_cmd_fmw_poweroff msg sender
  | FMW_UPTIME => proc_cmd_fmw_uptime msg
  | FMW_HOSTNAME => proc_cmd_fmw_hostname msg
  | FMW_GET_MYIP => proc_cmd_fmw_get_myip msg
  | FMW_RESET_HOSTNAME => proc_cmd_fmw_set_default_hostname msg
  | DIAL_VOICE => proc_cmd_dial_voice msg "dial_voice" sender
  | DIAL_USSD => proc_cmd_dial_voice msg "dial_ussd" sender
  | GET_USSD => proc_cmd_get_ussd msg
  | DEBUG_LOG_STS => proc_cmd_logsts msg
  | GSM_MODEM_IDENT => proc_cmd_gsm_modem_identify msg sender
  | LOG_UPDATE => proc_cmd_log_list_update msg sender
  | LOG_COUNT => proc_cmd_log_get_count msg
  | LOG_MSG => proc_cmd_log_get_line msg
  | FMW_GET_LOCALIP => proc_cmd_fmw_get_localip msg
  | GPIO => proc_cmd_gpio msg
  | GSM_EVENT_NOTIFY => proc_cmd_event_gsm msg sender
  | GPIO_EVENT_NOTIFY => proc_cmd_event_gpio msg sender
  | SLEEP => proc_cmd_sleep msg
  | ACCOUNT => proc_cmd_account_name msg
  | BOTNAME => proc_cmd_bot_name msg
  | BUDDY_LIST => proc_cmd_buddy_list msg
  | SHELLCMD => proc_cmd_shellcmd msg sender SHELLCMD
  | SHELLCMD_RESP => proc_cmd_shellcmdresp msg sender
  | SHELLCMD_TRIG => proc_cmd_shellcmd msg sender SHELLCMD_TRIG
  | DEVIDENT => proc_cmd_devident msg sender
  | SHUTDOWN => proc_cmd_xmpshutdown msg sender
  | SONOFF => proc_cmd_sonoff msg
  | DISPCLEAR => proc_cmd_disp_clear msg
  | DISPPRINT => proc_cmd_disp_print msg
  | DISPBKLT => proc_cmd_disp_backlight msg
  | BUDDY_ADD => proc_cmd_buddy_add msg sender
  | BUDDY_REMOVE => proc_cmd_buddy_remove msg sender
  | BUDDY_SUBSCRIBE => proc_cmd_buddy_subscribe msg sender
  | BUDDY_UNSUBSCRIBE => proc_cmd_buddy_unsubscribe msg sender
  | ACCEPT_BUDDY_LIST => proc_cmd_accept_buddy_list msg
  | RELAY_MESSAGE => proc_cmd_relay_message msg sender
  | ALIAS | CMD_UNKNOWN => mret (Rpc.UNKNOWN_COMMAND, EmptyString)
  end.

Definition reply_text (res : Z) (returnval : string) : string :=
  "return=" ++ default EmptyString (rpc_server_result_table !! Z.to_nat res) ++ " : result=" ++ returnval.
Definition reply (text sender : string) : M () :=
  _ ← on_proxy (fun p => send_reply p text sender); mret ().

(** The commands of a message: it may be an alias, in any case; its pieces between
    semicolons are commands or aliases of such. *)
Definition commands_of (aliases : gmap string string) (msg : string) : list string :=
  let msg := lower msg in
  let msg := default msg (aliases !! msg) in
  concat (map (fun t => match aliases !! t with Some v => split ";" v | None => [t] end) (split ";" msg)).

Fixpoint run_all (l : list string) (sender : string) : M () :=
  match l with
  | [] => mret ()
  | c :: l =>
      '(res, v) ← run_command c sender;
      _ ← reply (reply_text res v) sender;
      run_all l sender
  end.
Definition is_alias_command (msg : string) : bool := ((word msg).1 =? "Alias") || ((word msg).1 =? "alias").
Definition process_entry (e : XmppCmdEntry) : M () :=
  if is_alias_command (cmdMsg e) then
    '(res, v) ← run_pure (fun s => proc_cmd_alias s (cmdMsg e));
    reply (reply_text res v) (sender e)
  else s ← get; run_all (commands_of (AliasList s) (cmdMsg e)) (sender e).

Definition pop_cmd s : option (XmppCmdEntry * XmppMgr G) :=
  match processCmd s with e :: q => Some (e, with_queue s q) | [] => None end.
Definition monoshot_callback_function : M () :=
  forever (fun _ : () =>
    s ← get;
    match pop_cmd s with
    | None => mret (inr ())
    | Some (e, s') => _ ← modify (fun _ => s'); _ ← process_entry e; mret (inl ())
    end) ().

(** ** Messages from the chat *)

Definition generate_ai_response s (prompt : string) : string :=
  if USE_AI_BOT then default "Error generating response" (Post (AiModel (opts s)) prompt) else "Error generating response".
Definition answer_now s (text sender : string) : XmppMgr G :=
  with_proxy s (send_reply (XmppProxy s) text sender).2.
(** [onXmppMessage()]; an accepted command wakes the worker. *)
Definition onXmppMessage s (msg sender : string) : bool * XmppMgr G :=
  if (msg =? "Echo") || (msg =? "echo") then (false, answer_now s msg sender)
  else if (msg =? "Help") || (msg =? "help") then (false, answer_now s (print_help s) sender)
  else if find "return=" msg then (false, with_inbox s (Inbox s ++ [msg])%list msg)
  else if negb (empty (AiAgentUrl (opts s))) then (false, answer_now s (generate_ai_response s msg) sender)
  else (true, with_queue s (processCmd s ++ [{| cmdMsg := msg; sender := sender |}])%list).

(** ** Events *)

(** [RpcResponseCallback()] with the text of a result, and with its code. *)
Definition RpcResponseCallback_text s (taskRes : string) (taskID : Z) (to : string) : XmppMgr G :=
  answer_now s ("return=" ++ taskRes ++ " : result=taskID=" ++ format_d taskID) to.
Definition RpcResponseCallback s (taskRes taskID : Z) (to : string) : XmppMgr G :=
  RpcResponseCallback_text s (default EmptyString (rpc_server_result_table !! Z.to_nat taskRes)) taskID to.

Fixpoint send_events (l : list EventSubscrEntry) (evntArg : Z) (p : ADXmppProxy G) : ADXmppProxy G :=
  match l with
  | [] => p
  | e :: l =>
      let p := if bool_decide (m_EvntType e = EVNT_GPIO) && (m_EvntArg e =? evntArg)%Z && m_Status e
               then (SendMessageToBuddy p (subscriber e) ("eventgpio " ++ format_d evntArg) "event").2 else p in
      send_events l evntArg p
  end.
Definition GpioEventCallback s (evntNum evntArg : Z) : XmppMgr G :=
  with_proxy s (send_events (myEventList s) evntArg (XmppProxy s)).

Definition ADLIB_EVENT_NUM_END : Z := 5.

(** [EvntHandler::ReceiveEvent()]: the service [cltToken] (its port) reports that it goes
    down, that a task is done, or an event of its own. *)
Record EvntHandler := { sysmgrEventActive : bool; bboxSmsEventActive : bool; gpioEventActive : bool }.
Definition service_down (h : EvntHandler) (cltToken evntNum : Z) : EvntHandler :=
  let down p := ((cltToken =? p) && (evntNum =? ADLIB_EVENT_NUM_SHUT_DOWN))%Z in
  {| sysmgrEventActive := sysmgrEventActive h && negb (down ADCMN_PORT_SYSMGR);
     bboxSmsEventActive := bboxSmsEventActive h && negb (down ADCMN_PORT_BBOXSMS);
     gpioEventActive := gpioEventActive h && negb (down ADCMN_PORT_GPIOCTL) |}.

(** The client of [ReceiveEvent()] connects to this host. *)
Definition ask_status (port : Z) (c : call) : M (option (option Z * list (cell D))) :=
  now ← sys Clock;
  local (new_ADJsonRpcClient now)
    (rc ← rpc_server_connect "127.0.0.1" port;
     if negb (rc =? 0)%Z then _ ← destruct_rpc_client; mret None
     else a ← c; _ ← rpc_server_disconnect; _ ← destruct_rpc_client; mret (Some a)).
Definition ReceiveEvent (cltToken evntNum evntArg : Z) : M () :=
  if (evntNum =? ADLIB_EVENT_NUM_INPROG_DONE)%Z then
    s ← get;
    let '(t, s') := take_task s evntArg cltToken in
    _ ← modify (fun _ => s');
    match t with
    | None => mret ()
    | Some (xmpTID, to) =>
        r ← ask_status cltToken (get_string_type_with_string_para "get_rpc_req_status" "taskId" (format_d evntArg)
                                   (Some "taskStatus"));
        match r with
        | None => mret ()
        | Some r => modify (fun s => RpcResponseCallback_text s (text_of uninitialised r.2) xmpTID to)
        end
    end
  else if ((cltToken =? ADCMN_PORT_GPIOCTL) && (evntNum =? ADLIB_EVENT_NUM_END))%Z then
    modify (fun s => GpioEventCallback s evntNum evntArg)
  else mret ().

(** ** Start, stop, connection *)

(** A line of the login file: whether it is accepted, and the settings after it. *)
Definition value_or (old rest : string) : string := match (word rest).1 with EmptyString => old | v => v end.
Definition is_true (v : string) : bool := (v =? "true") || (v =? "True") || (v =? "TRUE").
Definition is_false (v : string) : bool := (v =? "false") || (v =? "False") || (v =? "FALSE").
Definition login_line (a : account) (l : string) : bool * account :=
  let '(key, rest) := word l in
  let v := (word rest).1 in
  let put user pw admin bkup bosh url host verify tls mech := Build_account user pw admin bkup bosh url host verify tls mech in
  let '(Build_account user pw admin bkup bosh url host verify tls mech) := a in
  if key =? "user:" then
    (negb (empty (value_or user rest)), put (value_or user rest) pw admin bkup bosh url host verify tls mech)
  else if key =? "pw:" then
    (negb (empty (value_or pw rest)), put user (value_or pw rest) admin bkup bosh url host verify tls mech)
  else if key =? "adminbuddy:" then (true, put user pw (value_or admin rest) bkup bosh url host verify tls mech)
  else if key =? "bkupadminbuddy:" then (true, put user pw admin (value_or bkup rest) bosh url host verify tls mech)
  else if key =? "bosh:" then (true, put user pw admin bkup (is_true v) url host verify tls mech)
  else if key =? "boshurl:" then (true, put user pw admin bkup bosh (value_or url rest) host verify tls mech)
  else if key =? "boshhost:" then (true, put user pw admin bkup bosh url (value_or host rest) verify tls mech)
  else if key =? "tlsverify:" then (true, put user pw admin bkup bosh url host (negb (is_false v)) tls mech)
  else if key =? "saslmech:" then (true, put user pw admin bkup bosh url host verify tls (value_or mech rest))
  else if key =? "xmpptls:" then (true, put user pw admin bkup bosh url host verify (negb (is_false v)) mech)
  else (true, a).
Fixpoint login_lines (a : account) (l : list string) : bool * account :=
  match l with
  | [] => (true, a)
  | x :: l =>
      if empty x then login_lines a l
      else let '(ok, a) := login_line a x in if ok : bool then login_lines a l else (false, a)
  end.

(** [Start()]: whether the thread of the connection starts. *)
Definition Start s (accountFilePath : string) : Z * XmppMgr G :=
  if empty accountFilePath then (Rpc.FAIL, s)
  else
    let s := (LoadAliasList s (AliasListFile (opts s))).2 in
    let s := (LoadEventSubscrList s (EventSubscrListFile (opts s))).2 in
    let '(ok, a) := login_lines (acc s) (read_lines s accountFilePath) in
    let s := with_config s (table s) a (opts s) (event_period_ms s) in
    if negb ok || empty (XmppUserName a) || empty (XmppUserPw a) then (Rpc.FAIL, s) else (Rpc.SUCCESS, s).
(** [Stop()], with whether the thread ended in time. *)
Definition Stop s (thread_ended : bool) : Z * XmppMgr G :=
  (if thread_ended then Rpc.SUCCESS else Rpc.FAIL, with_proxy s (disconnect (setForcedDisconnect (XmppProxy s)))).
Definition set_online_status s (status : bool) : Z * XmppMgr G :=
  (Rpc.SUCCESS,
   with_proxy s (if status then setOnDemandDisconnect false (XmppProxy s)
                 else disconnect (setOnDemandDisconnect true (XmppProxy s)))).

(** A round of [thread_callback_function()] up to [recv()]; [g] is the new client. *)
Definition login_round s (g : G) : option setup * XmppMgr G :=
  if OnDemandDisconnect (XmppProxy s) then (None, s)
  else
    let a := acc s in
    let '(c, p) := connect_begin (XmppProxy s) g (XmppUserName a) (XmppAdminBuddy a) (XmppBkupAdminBuddy a)
                     (XmppUseBosh a) (XmppBoshUrl a) (XmppBoshHost a) (XmppTlsVerify a) (XmppSaslMech a)
                     (XmppTlsEnabled a) in
    (c, with_proxy s p).

(** Every 100 ms: a ping when the period is over. *)
Definition timer_notification s : XmppMgr G :=
  let t := (event_period_ms s + 100)%Z in
  if (t <? CyclicTime_ms (opts s))%Z then with_config s (table s) (acc s) (opts s) t
  else with_proxy (with_config s (table s) (acc s) (opts s) 0) (send_client_alive_ping (XmppProxy s)).2.

(** The options of the command line. *)
Definition with_options s (o : options) : XmppMgr G := with_config s (table s) (acc s) o (event_period_ms s).
Definition SetDebugLog s (log : bool) : XmppMgr G :=
  let o := opts s in
  with_proxy (with_options s (Build_options log (bboxSmsServerAddr o) (XmppBotNameFilePath o) (XmppNetInterface o)
    (AiAgentUrl o) (AiModel o) (AliasListFile o) (UpdateUrlFile o) (EventSubscrListFile o) (CyclicTime_ms o) (botcli o)))
    (XmppProxy.SetDebugLog log (XmppProxy s)).
Definition SetAiAgentUrl s (url : string) : XmppMgr G :=
  let o := opts s in
  if negb USE_AI_BOT || botcli o then s
  else with_options s (Build_options (MgrDebugLog o) (bboxSmsServerAddr o) (XmppBotNameFilePath o) (XmppNetInterface o)
    url (AiModel o) (AliasListFile o) (UpdateUrlFile o) (EventSubscrListFile o) (CyclicTime_ms o) true).
Definition SetAiModel s (model : string) : XmppMgr G :=
  let o := opts s in
  with_options s (Build_options (MgrDebugLog o) (bboxSmsServerAddr o) (XmppBotNameFilePath o) (XmppNetInterface o)
    (AiAgentUrl o) model (AliasListFile o) (UpdateUrlFile o) (EventSubscrListFile o) (CyclicTime_ms o) (botcli o)).
Definition SetAliasListFilePath s (file : string) : XmppMgr G :=
  let o := opts s in
  with_options s (Build_options (MgrDebugLog o) (bboxSmsServerAddr o) (XmppBotNameFilePath o) (XmppNetInterface o)
    (AiAgentUrl o) (AiModel o) file (UpdateUrlFile o) (EventSubscrListFile o) (CyclicTime_ms o) (botcli o)).
Definition SetEventSubscrListFilePath s (file : string) : XmppMgr G :=
  let o := opts s in
  with_options s (Build_options (MgrDebugLog o) (bboxSmsServerAddr o) (XmppBotNameFilePath o) (XmppNetInterface o)
    (AiAgentUrl o) (AiModel o) (AliasListFile o) (UpdateUrlFile o) file (CyclicTime_ms o) (botcli o)).
Definition SetUpdateurlFilePath s (file : string) : XmppMgr G :=
  let o := opts s in
  with_options s (Build_options (MgrDebugLog o) (bboxSmsServerAddr o) (XmppBotNameFilePath o) (XmppNetInterface o)
    (AiAgentUrl o) (AiModel o) (AliasListFile o) file (EventSubscrListFile o) (CyclicTime_ms o) (botcli o)).
Definition SetNetInterface s (interface : string) : XmppMgr G :=
  let o := opts s in
  with_options s (Build_options (MgrDebugLog o) (bboxSmsServerAddr o) (XmppBotNameFilePath o) interface
    (AiAgentUrl o) (AiModel o) (AliasListFile o) (UpdateUrlFile o) (EventSubscrListFile o) (CyclicTime_ms o) (botcli o)).
Definition SetBotNameFilePath s (file : string) : XmppMgr G :=
  let o := opts s in
  let s := with_options s (Build_options (MgrDebugLog o) (bboxSmsServerAddr o) file (XmppNetInterface o)
    (AiAgentUrl o) (AiModel o) (AliasListFile o) (UpdateUrlFile o) (EventSubscrListFile o) (CyclicTime_ms o) (botcli o)) in
  match if empty file then None else files s !! file with
  | Some t => with_lists s (line t).1 (AliasList s) (myEventList s) (files s)
  | None => s
  end.

(** [SendMessage()]: a reply to nobody. *)
Definition SendMessage s (msg : string) : Z * XmppMgr G := (Rpc.SUCCESS, answer_now s msg EmptyString).
End manager.
