(* ===== verification/XmppMgrSpec.v ===== *)
(** * Correctness of the message gateway

    Every command of a message is run once and answered to its sender; only an
    administrator changes who is a buddy or has messages relayed; aliases and
    subscriptions are in their files as they are in memory; the result of a task goes to
    the one who started it. *)
From S2P Require Import Prelude Common Proxy Io NetClient NetClientSpec Client ClientSpec.
From S2P Require Import CmdProcessorSpec Text SonOff XmppProxy XmppMgr.
Open Scope Z_scope.

(** The library has an item for every address of its roster. *)
Class GlooxLaws (G : Type) `{Gloox G} := {
  roster_online : forall g address, address ∈ roster g -> is_Some (online g address);
}.

(** ** What a command may do *)

Section commands.
Context {K G J D : Type} `{KernelLaws K} `{GlooxLaws G} `{JsonClientLaws J D}.
Variable can_write : string -> bool.
Variable gethostbyname : string -> option (list string).
Variable uninitialised : string.
Implicit Types (s : XmppMgr G) (w : traced K) (p : ADXmppProxy G).

Definition clean w : Prop := open_fds w = [] /\ misused w = false.

(** A client is connected, the chats are its own, and [sender] has one. *)
Definition live p (sender : string) : Prop :=
  exists n g, j p = Some (n, g) /\ mySessions p !! sender = Some n /\ forall a o, mySessions p !! a = Some o -> o = n.

(** A command of [sender] keeps the chats and the administrators, breaks nothing, and
    sends nothing but what an administrator has relayed; for others it keeps the buddies
    too. *)
Record proxy_kept (sender : string) p p' : Prop := {
  pk_sessions : mySessions p' = mySessions p;
  pk_client : fst <$> j p' = fst <$> j p;
  pk_settings : settings p' = settings p;
  pk_broken : broken p' = broken p;
  pk_sent : exists l, sent p' = sent p ++ l /\ (length l <= 1)%nat /\ Forall (fun m => subject m = "message"%string) l;
  pk_others : is_admin_user p sender = false ->
    sent p' = sent p /\ j p' = j p /\ AcceptBuddyList p' = AcceptBuddyList p;
}.

Definition command_ok (sender : string) s (r : Z * string) s' (w' : traced K) : Prop :=
  0 <= r.1 < Rpc.NONE /\ clean w' /\ processCmd s' = processCmd s /\ AliasList s' = AliasList s /\
  table s' = table s /\ proxy_kept sender (XmppProxy s) (XmppProxy s').

Definition does_when (pre : XmppMgr G -> Prop) (sender : string) (m : io (traced K) (XmppMgr G) (Z * string)) : Prop :=
  forall s w, pre s -> live (XmppProxy s) sender -> clean w -> ends s w m (command_ok sender s).
Definition does : string -> io (traced K) (XmppMgr G) (Z * string) -> Prop := does_when (fun _ => True).
Definition by_admin (sender : string) s : Prop := is_admin_user (XmppProxy s) sender = true.

Lemma proxy_kept_refl sender p : proxy_kept sender p p.
Proof. split; try done. exists []. split_and!; [by rewrite app_nil_r|simpl; lia|done]. Qed.
Hint Resolve proxy_kept_refl : core.

Lemma command_ok_intro sender s r s' w' :
  0 <= r.1 < Rpc.NONE -> clean w' -> processCmd s' = processCmd s -> AliasList s' = AliasList s ->
  table s' = table s -> proxy_kept sender (XmppProxy s) (XmppProxy s') -> command_ok sender s r s' w'.
Proof. intros. by do 5 (split; [done|]). Qed.

Lemma answer_ok sender r s w : 0 <= r.1 < Rpc.NONE -> clean w -> command_ok sender s r s w.
Proof. intros Hr Hw. by apply command_ok_intro. Qed.

Lemma does_ret pre sender c v : 0 <= c < Rpc.NONE -> does_when pre sender (mret (c, v)).
Proof. intros Hc s w _ _ Hw. io_step. by apply answer_ok. Qed.

Lemma does_get pre sender k : (forall s, pre s -> does_when pre sender (k s)) -> does_when pre sender (s ← get; k s).
Proof. intros Hk s w Hp Hl Hw. io_step. by apply Hk. Qed.

Lemma does_need_command pre sender msg k : does_when pre sender k -> does_when pre sender (need_command msg k).
Proof. intros Hk. unfold need_command. destruct (empty _); [|done]. by apply does_ret. Qed.
Lemma does_need_arg pre sender a k : does_when pre sender k -> does_when pre sender (need_arg a k).
Proof. intros Hk. unfold need_arg. destruct (empty _); [|done]. by apply does_ret. Qed.
Lemma does_need_admin pre sender k : does_when (by_admin sender) sender k -> does_when pre sender (need_admin sender k).
Proof.
  intros Hk s w _ Hl Hw. unfold need_admin. io_step. destruct (is_admin_user _ _) eqn:E; cbn [negb]; [by apply Hk|].
  io_step. by apply answer_ok.
Qed.

(** ** Calls of services *)

(** Calls on a new client: a bounded number of exchanges, and what they return. *)
Definition calls_ok {A} (P : A -> Prop) (calls : io (traced K) ADJsonRpcClient A) (n : Z) : Prop :=
  0 <= n <= 100 /\ forall c w, rpc_ok c w -> 0 <= req_id c <= 100 - n ->
    ends c w calls (fun r c' w' => rpc_ok c' w' /\ 0 <= req_id c' <= req_id c + n /\ P r).

Definition has_code (r : option Z * list (cell D)) : Prop := 0 <= code_of r < Rpc.NONE.

Lemma call_ok_calls method fields call : call_ok (J := J) method fields call -> calls_ok has_code call 1.
Proof.
  intros Hc. split; [lia|]. intros c w Hok Hid. eapply ends_conseq; [apply Hc; [exact Hok|unfold int_max; lia]|].
  intros r c' w' (Hok' & Hr & x & n & Hx & Hrange & _). split; [exact Hok'|].
  rewrite i32_id in Hr by (unfold int_min, int_max; lia). split; [lia|]. unfold has_code, code_of. by rewrite Hx.
Qed.

Lemma exchange_calls timeout method (fields : option (list (string * J))) name wanted :
  calls_ok has_code (_ ← exchange timeout (fun ID => prepare method ID SendBuffer fields);
                     answer (fun c text => find_result c text name wanted)) 1.
Proof. eapply call_ok_calls, exchange_answer. Qed.
Lemma exchange_or_calls timeout method (fields : option (list (string * J))) text name wanted :
  calls_ok has_code (_ ← exchange timeout (fun ID => prepare method ID SendBuffer fields);
                     answer_or text (fun c text => find_result c text name wanted)) 1.
Proof. eapply call_ok_calls, exchange_answer_or. Qed.

Lemma new_client_ends {A} (P : A -> Prop) (calls : io (traced K) ADJsonRpcClient A) n now host port s w :
  calls_ok P calls n -> clean w ->
  ends s w (local (new_ADJsonRpcClient now)
    (rc ← rpc_server_connect host port;
     if negb (rc =? 0) then _ ← destruct_rpc_client; mret None
     else a ← calls; _ ← rpc_server_disconnect; _ ← destruct_rpc_client; mret (Some a)))
    (fun r s' w' => s' = s /\ clean w' /\ match r with Some a => P a | None => True end).
Proof.
  intros [Hn Hc] [Ho Hm]. apply ends_local. eapply ends_bind; [by apply rpc_server_connect_ends, new_rpc_ok|].
  intros rc c1 w1 (Hok & Hid & _). simpl in Hid. destruct (rc =? 0); cbn [negb].
  - eapply ends_bind; [apply Hc; [exact Hok|lia]|]. intros a c2 w2 (Hok2 & _ & Ha).
    eapply ends_bind; [apply rpc_server_disconnect_ends, Hok2|]. intros ? c3 w3 (_ & Hok3 & _).
    eapply ends_bind; [apply destruct_rpc_client_ends, Hok3|]. intros ? c4 w4 (Ho4 & Hm4 & _). by io_step.
  - eapply ends_bind; [apply destruct_rpc_client_ends, Hok|]. intros ? c4 w4 (Ho4 & Hm4 & _). by io_step.
Qed.

Lemma clock_clean w w' a : clean w -> sys_call Z Clock w = (a, w') -> clean w'.
Proof.
  intros [Ho Hm] E. destruct (traced_call _ _ _ _ E) as (Ho1 & _ & Hm1). simpl in *. split; [congruence|by rewrite Hm1, Hm].
Qed.

Lemma with_server_ends {A} (P : A -> Prop) (calls : io (traced K) ADJsonRpcClient A) n port s w :
  calls_ok P calls n -> clean w ->
  ends s w (with_server port calls) (fun r s' w' => s' = s /\ clean w' /\ match r with Some a => P a | None => True end).
Proof.
  intros Hc Hw. unfold with_server. repeat io_step. eapply new_client_ends; [exact Hc|]. by eapply clock_clean.
Qed.

Ltac a_call := first [apply exchange_calls | apply exchange_or_calls].

Lemma does_query pre sender port call n : calls_ok has_code call n -> does_when pre sender (query port call).
Proof.
  intros Hc s w _ _ Hw. unfold query. eapply ends_bind; [by eapply with_server_ends|].
  intros r s1 w1 (-> & Hw1 & Hr). io_step. apply answer_ok; [|done]. destruct r; [exact Hr|vm_compute; split; discriminate || done].
Qed.
Lemma does_action pre sender port call n : calls_ok has_code call n -> does_when pre sender (action port call).
Proof.
  intros Hc s w _ _ Hw. unfold action. eapply ends_bind; [by eapply with_server_ends|].
  intros r s1 w1 (-> & Hw1 & Hr). io_step. apply answer_ok; [|done]. destruct r; [exact Hr|vm_compute; split; discriminate || done].
Qed.

(** Changes of the manager's lists that are no concern of [command_ok]. *)
Lemma tasks_kept sender s r s' w l n k :
  command_ok sender s r s' w -> command_ok sender s r (with_tasks s' l n k) w.
Proof. done. Qed.

Lemma note_task_ends sender port code tID s0 s w :
  0 <= code < Rpc.NONE -> clean w -> (forall r, 0 <= r.1 < Rpc.NONE -> command_ok sender s0 r s w) ->
  ends s w (note_task port code tID sender) (command_ok sender s0).
Proof.
  intros Hc Hw Hok. unfold note_task. destruct (code =? Rpc.IN_PROG).
  - io_step. unfold insert_task. repeat io_step. by apply tasks_kept, Hok.
  - io_step. by apply Hok.
Qed.

Lemma does_task pre sender port initial call n :
  calls_ok has_code call n -> does_when pre sender (task port initial call sender).
Proof.
  intros Hc s w _ _ Hw. unfold task. eapply ends_bind; [by eapply with_server_ends|].
  intros r s1 w1 (-> & Hw1 & Hr). destruct r as [r|].
  - apply note_task_ends; [done|done|]. intros r' Hr'. by apply answer_ok.
  - io_step. by apply answer_ok.
Qed.

(** ** The proxy *)

Lemma does_proxy {A} pre sender (f : ADXmppProxy G -> A * ADXmppProxy G) (k : A -> Z * string) :
  (forall s, pre s -> live (XmppProxy s) sender ->
     0 <= (k (f (XmppProxy s)).1).1 < Rpc.NONE /\ proxy_kept sender (XmppProxy s) (f (XmppProxy s)).2) ->
  does_when pre sender (a ← on_proxy f; mret (k a)).
Proof.
  intros Hf s w Hp Hl Hw. unfold on_proxy. repeat io_step. destruct (Hf s Hp Hl) as [Hk Hkept].
  destruct (f (XmppProxy s)) as [a p']. repeat io_step. by apply command_ok_intro.
Qed.

(** What only changes the client's roster or the list of buddies that are accepted. *)
Lemma admin_kept sender p p' :
  is_admin_user p sender = true -> mySessions p' = mySessions p -> fst <$> j p' = fst <$> j p ->
  settings p' = settings p -> broken p' = broken p -> sent p' = sent p -> proxy_kept sender p p'.
Proof.
  intros Ha Hm Hj Hs Hb Hl. split; try done; [|by rewrite Ha]. exists []. rewrite app_nil_r. split_and!; [done|simpl; lia|done].
Qed.

Lemma send_message_kept sender to message p n g :
  is_admin_user p sender = true -> j p = Some (n, g) -> (forall a o, mySessions p !! a = Some o -> o = n) ->
  0 <= (send_message to message "message" p).1 < Rpc.NONE /\
  proxy_kept sender p (send_message to message "message" p).2.
Proof.
  intros Ha Hj Ho. unfold send_message, IsMyBuddy. rewrite Hj.
  destruct (iConnect p) eqn:Ei; cbn [negb]; [|by split].
  destruct (existsb (String.eqb to) (roster g)) eqn:Er; cbn [negb]; [|by split].
  unfold get_buddy_online_state. rewrite Hj. destruct (roster_online g to) as [b Hb].
  { apply existsb_exists in Er as (x & Hx & ->%String.eqb_eq). by apply list_elem_of_In. }
  rewrite Hb. destruct b; cbn [negb]; [|by split].
  unfold send_message_internal, SendMessageToBuddy. rewrite Ei, Hj, Er. cbn [negb]. split; [done|].
  assert (proxy_kept sender p (send p {| to := to; body := message; subject := "message" |})) as Hsend.
  { split; try done; [|by rewrite Ha]. eexists. split; [done|]. split; [simpl; lia|]. by repeat constructor. }
  destruct (mySessions p !! to) as [o|] eqn:E; [|done]. simpl. unfold use_session. rewrite Hj, (Ho _ _ E), Nat.eqb_refl.
  exact Hsend.
Qed.

(** ** The rest *)

Lemma does_pure pre sender (f : XmppMgr G -> Z * string * XmppMgr G) :
  (forall s, 0 <= (f s).1.1 < Rpc.NONE /\ processCmd (f s).2 = processCmd s /\ AliasList (f s).2 = AliasList s /\
     table (f s).2 = table s /\ XmppProxy (f s).2 = XmppProxy s) ->
  does_when pre sender (run_pure f).
Proof.
  intros Hf s w _ _ Hw. unfold run_pure. io_step. destruct (Hf s) as (Hr & Hq & Ha & Ht & Hp). destruct (f s) as [r s'].
  repeat io_step. simpl in *. apply command_ok_intro; [done..|by rewrite Hp].
Qed.

Lemma write_file_keeps s file text :
  processCmd (write_file can_write s file text) = processCmd s /\
  AliasList (write_file can_write s file text) = AliasList s /\
  table (write_file can_write s file text) = table s /\
  myEventList (write_file can_write s file text) = myEventList s /\
  XmppProxy (write_file can_write s file text) = XmppProxy s.
Proof. unfold write_file. by destruct (can_write file). Qed.

Ltac written :=
  match goal with |- context [write_file can_write ?s ?f ?t] =>
    let Hq := fresh in let Ha := fresh in let Ht := fresh in let Hp := fresh in
    destruct (write_file_keeps s f t) as (Hq & Ha & Ht & _ & Hp); rewrite ?Hq, ?Ha, ?Ht, ?Hp end.

Lemma event_command_keeps sender type io read arg s :
  let r := event_command can_write s sender type io read arg in
  0 <= r.1.1 < Rpc.NONE /\ processCmd r.2 = processCmd s /\ AliasList r.2 = AliasList s /\ table r.2 = table s /\
  XmppProxy r.2 = XmppProxy s.
Proof.
  unfold event_command, RewriteEventSubscrList, ExtendEventSubscrList, append_file.
  repeat case_match; simpl; try done; written; done.
Qed.

Lemma does_sleep pre sender us (c : Z) v : 0 <= c < Rpc.NONE -> does_when pre sender (_ ← sys (USleep us); mret (c, v)).
Proof.
  intros Hc s w _ _ [Ho Hm]. io_step.
  match goal with E : sys_call _ _ _ = _ |- _ => destruct (traced_call _ _ _ _ E) as (Ho1 & _ & Hm1) end.
  io_step. apply answer_ok; [done|]. simpl in *. split; [congruence|by rewrite Hm1, Hm].
Qed.

Lemma does_bot_name pre sender f (c : Z) v :
  0 <= c < Rpc.NONE ->
  does_when pre sender (_ ← modify (fun s => set_bot_name can_write s (f s)); mret (c, v)).
Proof.
  intros Hc s w _ _ Hw. repeat io_step. unfold set_bot_name. destruct (empty _); [by apply command_ok_intro|].
  match goal with |- context [write_file can_write ?s ?f ?t] => destruct (write_file_keeps s f t) as (Hq & Ha & Ht & _ & Hp) end.
  by apply command_ok_intro; [..|rewrite Hp].
Qed.

(** The client of a switch. *)
Lemma with_switch_ends {A} (P : A -> Prop) ip (calls : io (traced K) ADSonOffHttpClient A) s w :
  (forall c w, so_good c w -> ends c w calls (fun r c' w' => so_good c' w' /\ P r)) -> clean w ->
  ends s w (with_switch ip calls) (fun r s' w' => s' = s /\ clean w' /\ match r with Some a => P a | None => True end).
Proof.
  intros Hc Hw. unfold with_switch. io_step. apply ends_local.
  assert (clean w') as [Ho Hm] by by eapply clock_clean.
  assert (so_good (new_ADSonOffHttpClient a) w') as Hg by by split_and!; [apply new_client_ok|..].
  eapply ends_bind; [by apply so_server_connect_ends|]. intros rc c1 w1 Hg1. destruct (rc =? 0); cbn [negb].
  - eapply ends_bind; [by apply Hc|]. intros r c2 w2 [Hg2 Hp]. eapply ends_bind; [by apply so_server_disconnect_ends|].
    intros ? c3 w3 Hg3. eapply ends_bind; [by apply destruct_sonoff_ends|]. intros ? c4 w4 Hw4. by io_step.
  - eapply ends_bind; [by apply destruct_sonoff_ends|]. intros ? c4 w4 Hw4. by io_step.
Qed.

Lemma does_map pre sender m (f : Z * string -> io (traced K) (XmppMgr G) (Z * string)) :
  does_when pre sender m -> (forall r, 0 <= r.1 < Rpc.NONE -> exists r', f r = mret r' /\ 0 <= r'.1 < Rpc.NONE) ->
  does_when pre sender (m ≫= f).
Proof.
  intros Hm Hk s w Hp Hl Hw. eapply ends_bind; [by apply Hm|]. intros r s1 w1 (Hr & Hw1 & Hq & Ha & Ht & Hpk).
  destruct (Hk r Hr) as (r' & -> & Hr'). io_step. by apply command_ok_intro.
Qed.

Lemma does_with_server {A} pre sender port (calls : io (traced K) ADJsonRpcClient A) (P : A -> Prop) n
    (k : option A -> Z * string) :
  calls_ok P calls n -> (forall a, P a -> 0 <= (k (Some a)).1 < Rpc.NONE) -> 0 <= (k None).1 < Rpc.NONE ->
  does_when pre sender (r ← with_server port calls; mret (k r)).
Proof.
  intros Hc Hs Hn s w _ _ Hw. eapply ends_bind; [by eapply with_server_ends|]. intros r s1 w1 (-> & Hw1 & Hr).
  io_step. apply answer_ok; [|done]. destruct r; [by apply Hs|done].
Qed.

Lemma does_switch {A} pre sender ip (calls : io (traced K) ADSonOffHttpClient A) (P : A -> Prop) (k : option A -> Z * string) :
  (forall c w, so_good c w -> ends c w calls (fun r c' w' => so_good c' w' /\ P r)) ->
  (forall a, P a -> 0 <= (k (Some a)).1 < Rpc.NONE) -> 0 <= (k None).1 < Rpc.NONE ->
  does_when pre sender (r ← with_switch ip calls; mret (k r)).
Proof.
  intros Hc Hk Hn s w _ _ Hw. eapply ends_bind; [by eapply with_switch_ends|]. intros r s1 w1 (-> & Hw1 & Hr).
  io_step. apply answer_ok; [|done]. destruct r; [by apply Hk|done].
Qed.

Ltac code := first [done | vm_compute; split; [discriminate|reflexivity]].

(** One step of a command: the check it starts with, or the call it makes. *)
Ltac command_step :=
  match goal with
  | |- does_when _ _ (need_command _ _) => apply does_need_command
  | |- does_when _ _ (need_arg _ _) => apply does_need_arg
  | |- does_when _ _ (need_admin _ _) => apply does_need_admin
  | |- does_when _ _ (get ≫= _) => apply does_get; intros ? _
  | |- does_when _ _ (query _ _) => eapply does_query
  | |- does_when _ _ (action _ _) => eapply does_action
  | |- does_when _ _ (task _ _ _ _) => eapply does_task
  | |- does_when _ _ (if ?b then _ else _) => destruct b
  | |- does_when _ _ (mret (_, _)) => apply does_ret
  | |- calls_ok _ _ _ => a_call
  | |- _ <= _ < _ => code
  end.
Ltac command := repeat command_step.

Lemma plain_task_does pre sender port method : does_when pre sender (plain_task uninitialised port method sender).
Proof. unfold plain_task. command. Qed.
Hint Resolve plain_task_does : core.

Lemma update_sts_does pre sender msg : does_when pre sender (proc_cmd_fmw_update_sts msg).
Proof. apply does_map; [command|]. intros [c v] Hr. by eexists. Qed.

Lemma uptime_does pre sender msg : does_when pre sender (proc_cmd_fmw_uptime msg).
Proof. unfold proc_cmd_fmw_uptime. eapply does_with_server; [a_call|by intros a Ha|code]. Qed.

Lemma calls_ret {A} (P : A -> Prop) a : P a -> calls_ok P (mret a) 0.
Proof. intros Ha. split; [lia|]. intros c w Hok Hid. io_step. split; [exact Hok|]. split; [lia|done]. Qed.

Lemma calls_bind {A B} (P : A -> Prop) (Q : B -> Prop) m (f : A -> io (traced K) ADJsonRpcClient B) n k :
  n + k <= 100 -> calls_ok P m n -> (forall a, P a -> calls_ok Q (f a) k) -> 0 <= k -> calls_ok Q (m ≫= f) (n + k).
Proof.
  intros Hnk [Hn Hm] Hf Hk. split; [lia|]. intros c w Hok Hid.
  eapply ends_bind; [apply Hm; [exact Hok|lia]|]. intros a c1 w1 (Hok1 & Hid1 & Ha).
  destruct (Hf a Ha) as [_ Hfa]. eapply ends_conseq; [apply Hfa; [exact Hok1|lia]|].
  intros r c2 w2 (Hok2 & Hid2 & Hr). split; [exact Hok2|]. split; [lia|done].
Qed.

Lemma calls_weaken {A} (P : A -> Prop) m n k : calls_ok P m n -> n <= k <= 100 -> calls_ok P m k.
Proof.
  intros [Hn Hm] Hk. split; [lia|]. intros c w Hok Hid. eapply ends_conseq; [apply Hm; [exact Hok|lia]|].
  intros r c2 w2 (Hok2 & Hid2 & Hr). split; [exact Hok2|]. split; [lia|done].
Qed.

Lemma try_ips_calls : calls_ok has_code try_ips (1 + (1 + 1)).
Proof.
  unfold try_ips, ask_ip. eapply calls_bind; [lia|a_call| |lia]. intros r Hr.
  destruct (code_of r =? Rpc.SUCCESS); [eapply calls_weaken; [by apply calls_ret|lia]|].
  eapply calls_bind; [lia|a_call| |lia]. intros r2 Hr2.
  destruct (code_of r2 =? Rpc.SUCCESS); [eapply calls_weaken; [by apply calls_ret|lia]|]. a_call.
Qed.

Lemma update_calls_ok url : calls_ok (fun r => 0 <= r.1 < Rpc.NONE) (update_calls url) (1 + (1 + 0)).
Proof.
  unfold update_calls. eapply calls_bind; [lia|a_call| |lia]. intros r Hr.
  destruct (code_of r =? Rpc.IN_PROG); [|eapply calls_weaken; [by apply calls_ret|lia]].
  eapply calls_bind; [lia|a_call| |lia]. intros r2 Hr2. by apply calls_ret.
Qed.

Lemma localip_does pre sender msg : does_when pre sender (proc_cmd_fmw_get_localip msg).
Proof.
  unfold proc_cmd_fmw_get_localip. command_step. destruct (XmppNetInterface (opts s) =? EmptyString)%string; command.
  apply try_ips_calls.
Qed.

Lemma update_does pre sender msg : does_when pre sender (proc_cmd_fmw_update msg sender).
Proof.
  unfold proc_cmd_fmw_update. do 2 command_step. destruct (default _ _) as [|x board]; [command|].
  intros s1 w1 _ _ Hw. eapply ends_bind; [eapply with_server_ends; [apply update_calls_ok|done]|].
  intros [[code [tID|]]|] s2 w2 (-> & Hw2 & Hr); simpl in Hr; [|io_step; by apply answer_ok..]. io_step.
  apply note_task_ends; [done|done|]. intros r Hrr. by apply command_ok_intro.
Qed.

Lemma switch_action_does pre sender ip calls :
  (forall c w, so_good c w -> ends c w calls (fun r c' w' => so_good c' w' /\ is_code r)) ->
  does_when pre sender (switch_action ip calls).
Proof. intros Hc. unfold switch_action. eapply does_switch; [exact Hc|by intros a Ha|code]. Qed.

Lemma sonoff_does pre sender msg : does_when pre sender (proc_cmd_sonoff gethostbyname msg).
Proof.
  unfold proc_cmd_sonoff. do 3 command_step. destruct (hostname_to_ip _ _) as [ip|]; [|command].
  cbv zeta. repeat command_step.
  - eapply does_switch; [apply get_sonoff_state_ends|by intros [c []] Hc|code].
  - apply switch_action_does, set_sonoff_state_ends.
  - apply switch_action_does, set_sonoff_state_ends.
  - apply switch_action_does, set_sonoff_toggle_ends.
Qed.

(** A command about a buddy. *)
Lemma does_buddy {A} sender msg (f : string -> ADXmppProxy G -> A * ADXmppProxy G) (k : A -> Z) pre :
  (forall b p n g, is_admin_user p sender = true -> j p = Some (n, g) ->
     0 <= k (f b p).1 < Rpc.NONE /\ proxy_kept sender p (f b p).2) ->
  does_when pre sender (buddy_command msg sender (fun b => a ← on_proxy (f b); mret (k a, EmptyString))).
Proof.
  intros Hf. unfold buddy_command. command.
  apply (does_proxy (by_admin sender) sender _ (fun a => (k a, EmptyString))).
  intros s1 Ha (n & g & Hj & _). by eapply Hf.
Qed.

Lemma buddy_add_does pre sender msg : does_when pre sender (proc_cmd_buddy_add msg sender).
Proof.
  apply does_buddy with (k := fun _ => Rpc.SUCCESS). intros b p n g Ha Hj. split; [code|]. unfold accept_buddy.
  destruct (existsb _ _); by apply admin_kept.
Qed.
Lemma buddy_remove_does pre sender msg : does_when pre sender (proc_cmd_buddy_remove msg sender).
Proof.
  apply does_buddy with (k := fun r => if (r =? 0) then Rpc.SUCCESS else Rpc.ITEM_NOT_FOUND).
  intros b p n g Ha Hj. unfold remove_buddy. destruct (existsb _ _); (split; [code|by apply admin_kept]).
Qed.
Lemma buddy_subscribe_does pre sender msg : does_when pre sender (proc_cmd_buddy_subscribe msg sender).
Proof.
  apply does_buddy with (k := fun _ => Rpc.SUCCESS). intros b p n g Ha Hj. split; [code|].
  unfold subscribe_buddy. rewrite Hj. apply admin_kept; try done. simpl. by rewrite Hj.
Qed.
Lemma buddy_unsubscribe_does pre sender msg : does_when pre sender (proc_cmd_buddy_unsubscribe msg sender).
Proof.
  apply does_buddy with (k := fun _ => Rpc.SUCCESS). intros b p n g Ha Hj. split; [code|].
  unfold unsubscribe_buddy. rewrite Hj. apply admin_kept; try done. simpl. by rewrite Hj.
Qed.
Lemma buddy_list_does pre sender msg : does_when pre sender (proc_cmd_buddy_list msg).
Proof.
  apply does_proxy with (k := fun l => (Rpc.SUCCESS, l)). intros s _ (n & g & Hj & _). unfold get_buddy_list. rewrite Hj.
  split; [code|done].
Qed.
Lemma relay_does pre sender msg : does_when pre sender (proc_cmd_relay_message msg sender).
Proof.
  unfold proc_cmd_relay_message. command.
  apply does_proxy with (k := fun r => (r, EmptyString)). intros s1 Ha (n & g & Hj & _ & Ho).
  by eapply send_message_kept.
Qed.

Lemma bot_name_does pre sender msg : does_when pre sender (proc_cmd_bot_name can_write msg).
Proof. unfold proc_cmd_bot_name. command. apply does_bot_name. code. Qed.
Lemma shellcmd_does pre sender msg t : does_when pre sender (proc_cmd_shellcmd uninitialised msg sender t).
Proof. unfold proc_cmd_shellcmd. command. Qed.
Lemma shellcmdresp_does pre sender msg : does_when pre sender (proc_cmd_shellcmdresp msg sender).
Proof. unfold proc_cmd_shellcmdresp. command_step. destruct (_ !! _); [case_match|]; command. Qed.
Lemma event_gsm_does pre sender msg : does_when pre sender (proc_cmd_event_gsm can_write msg sender).
Proof. unfold proc_cmd_event_gsm. command. apply does_pure. intros s. apply event_command_keeps. Qed.
Lemma event_gpio_does pre sender msg : does_when pre sender (proc_cmd_event_gpio can_write msg sender).
Proof. unfold proc_cmd_event_gpio. command. apply does_pure. intros s. apply event_command_keeps. Qed.
Lemma sleep_does pre sender msg : does_when pre sender (proc_cmd_sleep msg).
Proof. unfold proc_cmd_sleep. command. apply does_sleep. code. Qed.

Hint Resolve update_sts_does uptime_does localip_does update_does sonoff_does buddy_add_does buddy_remove_does
  buddy_subscribe_does buddy_unsubscribe_does buddy_list_does relay_does bot_name_does shellcmd_does shellcmdresp_does
  event_gsm_does event_gpio_does sleep_does : core.

Lemma run_command_does msg sender : does sender (run_command can_write gethostbyname uninitialised msg sender).
Proof.
  unfold run_command. apply does_get. intros s _.
  destruct (ResolveCmdStr (table s) msg); try done; cbv beta delta
    [proc_cmd_sms_deleteall proc_cmd_sms_delete proc_cmd_sms_get proc_cmd_sms_send proc_cmd_sms_list_update
     proc_cmd_sms_get_total proc_cmd_fmw_get_version proc_cmd_fmw_update_res proc_cmd_fmw_reboot proc_cmd_fmw_poweroff
     device_operation proc_cmd_fmw_hostname proc_cmd_fmw_get_hostname proc_cmd_fmw_set_hostname proc_cmd_fmw_get_myip
     proc_cmd_fmw_set_default_hostname proc_cmd_dial_voice proc_cmd_get_ussd proc_cmd_logsts
     proc_cmd_gsm_modem_identify proc_cmd_log_list_update proc_cmd_log_get_count proc_cmd_log_get_line proc_cmd_gpio
     proc_cmd_account_name proc_cmd_devident proc_cmd_xmpshutdown proc_cmd_disp_clear proc_cmd_disp_print
     proc_cmd_disp_backlight proc_cmd_get_display_backlight proc_cmd_set_display_backlight proc_cmd_accept_buddy_list];
    cbv zeta; try done; command; done.
Qed.

(** ** The worker *)

Abbreviation run := (run_command can_write gethostbyname uninitialised).

Lemma command_ends msg sender s w :
  live (XmppProxy s) sender -> clean w ->
  ends s w (run msg sender) (fun r s' w' => command_ok sender s r s' w' /\
    (ResolveCmdStr (table s) msg = CMD_UNKNOWN -> r = (Rpc.UNKNOWN_COMMAND, EmptyString))).
Proof.
  intros Hl Hw. destruct (decide (ResolveCmdStr (table s) msg = CMD_UNKNOWN)) as [E|E].
  - unfold run_command. io_step. rewrite E. io_step. split; [|done]. apply answer_ok; [code|done].
  - eapply ends_conseq; [by apply run_command_does|]. by intros r s' w' Hok.
Qed.

(** The messages a list of commands sends: what an administrator has relayed, and one
    reply for each command, in order. *)
Inductive answered (t : list cmd_row) (admin : bool) (sender : string) : list string -> list stanza -> Prop :=
| answered_none : answered t admin sender [] []
| answered_more c cs relayed res v rest :
    (length relayed <= 1)%nat -> Forall (fun m => subject m = "message"%string) relayed ->
    (admin = false -> relayed = []) -> 0 <= res < Rpc.NONE ->
    (ResolveCmdStr t c = CMD_UNKNOWN -> res = Rpc.UNKNOWN_COMMAND /\ v = EmptyString) ->
    answered t admin sender cs rest ->
    answered t admin sender (c :: cs)
      (relayed ++ {| to := sender; body := reply_text res v; subject := EmptyString |} :: rest).

(** What is kept of the proxy while the worker runs. *)
Record chats_kept p p' : Prop := {
  ck_sessions : mySessions p' = mySessions p;
  ck_client : fst <$> j p' = fst <$> j p;
  ck_settings : settings p' = settings p;
  ck_broken : broken p' = broken p;
}.

#[local] Instance chats_kept_preorder : PreOrder chats_kept.
Proof. split; [by intros p|]. intros p1 p2 p3 [? ? ? ?] [? ? ? ?]. split; congruence. Qed.

Lemma live_kept p p' sender : chats_kept p p' -> live p sender -> live p' sender.
Proof.
  intros [Hs Hj _ _] (n & g & Ej & Hl). rewrite Ej in Hj. simpl in Hj. destruct (j p') as [[n' g']|] eqn:E; [|done].
  simpl in Hj. injection Hj as ->. exists n, g'. by rewrite Hs.
Qed.

Lemma proxy_kept_chats sender p p' : proxy_kept sender p p' -> chats_kept p p'.
Proof. by intros [? ? ? ? _ _]. Qed.

Lemma send_reply_live p text sender :
  live p sender -> (send_reply p text sender).2 = send p {| to := sender; body := text; subject := EmptyString |}.
Proof.
  intros (n & g & Hj & Hs & _). unfold send_reply, use_session. rewrite Hj, Hs. cbn [fst]. by rewrite Nat.eqb_refl.
Qed.

Lemma reply_ends text sender s w :
  live (XmppProxy s) sender ->
  ends s w (reply (W := traced K) text sender) (fun _ s' w' =>
    w' = w /\ s' = with_proxy s (send (XmppProxy s) {| to := sender; body := text; subject := EmptyString |})).
Proof.
  intros Hl. unfold reply, on_proxy. repeat io_step. pose proof (send_reply_live _ text _ Hl) as E.
  destruct (send_reply (XmppProxy s) text sender) as [r p]. simpl in E. subst p. by repeat io_step.
Qed.

(** What the worker leaves of the manager: the queue, the aliases and the table are as
    given, the replies are sent. *)
Definition worked (q : list XmppCmdEntry) (aliases : gmap string string) s (l : list stanza) s' (w' : traced K) : Prop :=
  clean w' /\ processCmd s' = q /\ AliasList s' = aliases /\ table s' = table s /\
  chats_kept (XmppProxy s) (XmppProxy s') /\ sent (XmppProxy s') = sent (XmppProxy s) ++ l.

Lemma run_all_ends l sender s w :
  live (XmppProxy s) sender -> clean w ->
  ends s w (run_all can_write gethostbyname uninitialised l sender) (fun _ s' w' => exists ms,
    worked (processCmd s) (AliasList s) s ms s' w' /\
    answered (table s) (is_admin_user (XmppProxy s) sender) sender l ms).
Proof.
  revert s w. induction l as [|c l IH]; intros s w Hl Hw; cbn [run_all].
  { io_step. exists []. split; [|constructor]. split; [done|]. by rewrite app_nil_r. }
  eapply ends_bind; [by apply command_ends|].
  intros [res v] s1 w1 ((Hr & Hw1 & Hq1 & Ha1 & Ht1 & Hp1) & Hu).
  pose proof (proxy_kept_chats _ _ _ Hp1) as Hk1. pose proof (live_kept _ _ _ Hk1 Hl) as Hl1.
  eapply ends_bind; [by apply reply_ends|]. intros [] s2 w2 (-> & ->).
  eapply ends_conseq; [apply IH; [|done]|].
  { destruct Hl1 as (n & g & ? & ? & ?). by exists n, g. }
  intros [] s3 w3 (ms & (Hw3 & Hq3 & Ha3 & Ht3 & Hk3 & Hs3) & Hans). simpl in *.
  destruct (pk_sent _ _ _ Hp1) as (relayed & Hrel & Hlen & Hsub).
  exists (relayed ++ {| to := sender; body := reply_text res v; subject := EmptyString |} :: ms). split.
  - split; [done|]. split; [congruence|]. split; [congruence|]. split; [congruence|]. split.
    + etrans; [exact Hk1|]. by destruct Hk3.
    + rewrite Hs3, Hrel. by rewrite <- !app_assoc.
  - constructor; try done.
    + intros Hn. destruct (pk_others _ _ _ Hp1 Hn) as (Hsame & _). rewrite Hrel in Hsame.
      by apply app_eq_self_l in Hsame || (rewrite <- (app_nil_r (sent (XmppProxy s))) in Hsame at 2; by apply app_inv_head in Hsame).
    + intros E. by injection (Hu E) as -> ->.
    + replace (is_admin_user (XmppProxy s) sender) with (is_admin_user (XmppProxy s1) sender);
        [by rewrite <- Ht1|]. unfold is_admin_user. by rewrite (pk_settings _ _ _ Hp1).
Qed.

(** What an alias command makes of the aliases, and what it answers. *)
Definition lists_aliases (msg : string) : bool := (msg =? "Alias")%string || (msg =? "alias")%string.
Definition alias_key (msg : string) : string := skip_space (line (word (until "=" msg).1).2).1.
Definition alias_value (msg : string) : string := (until "=" (until "=" msg).2).1.
Definition alias_update (a : gmap string string) (msg : string) : gmap string string :=
  if lists_aliases msg then a
  else if empty (alias_value msg) then delete (alias_key msg) a else <[alias_key msg := alias_value msg]> a.
Definition alias_reply (a : gmap string string) (msg : string) : string :=
  if lists_aliases msg then (endl ++ file_of (map alias_line (alias_entries a)))%string else EmptyString.

(** The file an alias command leaves. *)
Definition alias_file s (msg : string) : gmap string string :=
  if lists_aliases msg then files s
  else
    let a := alias_update (AliasList s) msg in
    let s' := set_aliases s a in
    let file := AliasListFile (opts s) in
    if negb (empty (alias_value msg)) && negb (bool_decide (is_Some (AliasList s !! alias_key msg)))
    then files (ExtendAliasList can_write s' file (alias_key msg) (alias_value msg)).2
    else files (RewriteAliasList can_write s' file).2.

Lemma proc_cmd_alias_spec s msg :
  proc_cmd_alias can_write s msg =
  (Rpc.SUCCESS, alias_reply (AliasList s) msg,
   with_lists s (XmppBotName s) (alias_update (AliasList s) msg) (myEventList s) (alias_file s msg)).
Proof.
  unfold proc_cmd_alias, alias_reply, alias_file, alias_update, lists_aliases, alias_key, alias_value.
  destruct (_ || _); [by destruct s|]. destruct (until "=" msg) as [c r]. simpl. destruct (until "=" r) as [v r']. simpl.
  unfold RewriteAliasList, ExtendAliasList, append_file, write_file.
  destruct (empty v); cbn [negb andb]; [by repeat case_match|].
  destruct (AliasList s !! _) as [old|] eqn:E.
  - rewrite bool_decide_true by by eexists. cbn [negb]. by repeat case_match.
  - rewrite bool_decide_false by by intros [? ?]. cbn [negb]. by repeat case_match.
Qed.

(** The messages a queue of entries sends, and the aliases behind it. *)
Inductive answered_all (t : list cmd_row) (admin : string -> bool)
  : gmap string string -> list XmppCmdEntry -> gmap string string -> list stanza -> Prop :=
| all_none a : answered_all t admin a [] a []
| all_alias a e q a' ms :
    is_alias_command (cmdMsg e) = true -> answered_all t admin (alias_update a (cmdMsg e)) q a' ms ->
    answered_all t admin a (e :: q) a'
      ({| to := sender e; body := reply_text Rpc.SUCCESS (alias_reply a (cmdMsg e)); subject := EmptyString |} :: ms)
| all_commands a e q a' l ms :
    is_alias_command (cmdMsg e) = false ->
    answered t (admin (sender e)) (sender e) (commands_of a (cmdMsg e)) l -> answered_all t admin a q a' ms ->
    answered_all t admin a (e :: q) a' (l ++ ms).

(** The part of the proxy that [answered_all] looks at is the same for all entries. *)
Definition ready s w : Prop := clean w /\ Forall (fun e => live (XmppProxy s) (sender e)) (processCmd s).

(** The state behind some rounds of the worker: what the rest will answer completes what
    was answered. *)
Definition so_far s0 s w : Prop :=
  ready s w /\ table s = table s0 /\ chats_kept (XmppProxy s0) (XmppProxy s) /\
  exists sent_now, sent (XmppProxy s) = sent (XmppProxy s0) ++ sent_now /\
    forall a ms, answered_all (table s0) (is_admin_user (XmppProxy s0)) (AliasList s) (processCmd s) a ms ->
      answered_all (table s0) (is_admin_user (XmppProxy s0)) (AliasList s0) (processCmd s0) a (sent_now ++ ms).

Lemma admin_same p p' sender : chats_kept p p' -> is_admin_user p' sender = is_admin_user p sender.
Proof. intros Hk. unfold is_admin_user. by rewrite (ck_settings _ _ Hk). Qed.

Lemma entry_ends e s w :
  live (XmppProxy s) (sender e) -> clean w ->
  ends s w (process_entry can_write gethostbyname uninitialised e) (fun _ s' w' => exists ms,
    clean w' /\ processCmd s' = processCmd s /\ table s' = table s /\ chats_kept (XmppProxy s) (XmppProxy s') /\
    sent (XmppProxy s') = sent (XmppProxy s) ++ ms /\
    forall q a rest, answered_all (table s) (is_admin_user (XmppProxy s)) (AliasList s') q a rest ->
      answered_all (table s) (is_admin_user (XmppProxy s)) (AliasList s) (e :: q) a (ms ++ rest)).
Proof.
  intros Hl Hw. unfold process_entry. destruct (is_alias_command (cmdMsg e)) eqn:Ea.
  - unfold run_pure. repeat io_step. rewrite proc_cmd_alias_spec. repeat io_step.
    eapply ends_conseq; [by apply reply_ends|]. intros [] s' w' (-> & ->). eexists [_]. simpl.
    do 5 (split; [done|]). intros q a rest Hr. by apply all_alias.
  - io_step. eapply ends_conseq; [by apply run_all_ends|]. intros [] s' w' (ms & (Hw' & Hq & Ha & Ht & Hk & Hs) & Hans).
    exists ms. do 5 (split; [done|]). intros q a rest Hr. rewrite Ha in Hr. by apply all_commands.
Qed.

Lemma round_ends s0 e q s w :
  so_far s0 s w -> processCmd s = e :: q ->
  ends (with_queue s q) w (process_entry can_write gethostbyname uninitialised e)
    (fun _ s' w' => so_far s0 s' w' /\ processCmd s' = q).
Proof.
  intros ([Hw Hl] & Ht & Hk & sn & Hsn & Hans) Eq. rewrite Eq in Hl, Hans. apply Forall_cons in Hl as [He Hl].
  eapply ends_conseq; [by apply entry_ends|]. simpl. intros [] s' w' (ms & Hw' & Hq' & Ht' & Hk' & Hs' & Hans').
  split; [|done]. split.
  { split; [done|]. rewrite Hq'. eapply Forall_impl; [exact Hl|]. intros e' He'. by eapply live_kept. }
  split; [congruence|]. split; [by etrans|]. exists (sn ++ ms). rewrite Hs', Hsn. split; [by rewrite <- app_assoc|].
  intros a rest Hr. rewrite <- app_assoc. apply Hans. rewrite <- Ht. rewrite <- Ht, Hq' in Hr.
  destruct Hk as [? ? Hset ?]. unfold is_admin_user in *. rewrite <- Hset in *. by apply Hans'.
Qed.


(** C27: What a command of somebody who is no administrator may do to the proxy: nothing.
    It sends no message to others, accepts and drops no buddy, and leaves the client with
    its roster as it is, whatever the command and its arguments; the service behind
    [Kernel] may answer anything. *)
Theorem admin_only msg sender s w :
  live (XmppProxy s) sender -> clean w -> is_admin_user (XmppProxy s) sender = false ->
  ends s w (run msg sender) (fun _ s' _ =>
    sent (XmppProxy s') = sent (XmppProxy s) /\ j (XmppProxy s') = j (XmppProxy s) /\
    AcceptBuddyList (XmppProxy s') = AcceptBuddyList (XmppProxy s) /\
    settings (XmppProxy s') = settings (XmppProxy s)).
Proof.
  intros Hl Hw Hn. eapply ends_conseq; [by apply command_ends|]. intros r s' w' ((_ & _ & _ & _ & _ & Hp) & _).
  destruct (pk_others _ _ _ Hp Hn) as (? & ? & ?). by rewrite (pk_settings _ _ _ Hp).
Qed.

(** ** Tasks *)

(** Tasks that are started meanwhile. *)
Definition insert_tasks s (l : list (Z * Z * string)) : XmppMgr G :=
  foldl (fun s '(tid, port, who) => (insert_task s tid port who).2) s l.

Lemma insert_tasks_list s l :
  exists n more, insert_tasks s l = with_tasks s (AsyncTaskList s ++ more) n (LastFmwUpdateTaskID s) /\
    map (fun e => (taskID e, srvPort e)) more = map fst l.
Proof.
  revert s. induction l as [|[[tid port] who] l IH]; intros s; simpl.
  { exists (XmppTaskIDCounter s), []. rewrite app_nil_r. by destruct s. }
  destruct (IH (insert_task s tid port who).2) as (n & more & E & Em). unfold insert_tasks in *. simpl in *. rewrite E.
  exists n. eexists (_ :: more). rewrite <- app_assoc. split; [done|]. simpl. by rewrite Em.
Qed.

Lemma find_first_middle (f : AyncEventEntry -> bool) l1 e l2 :
  Forall (fun x => f x = false) l1 -> f e = true -> find_first f (l1 ++ e :: l2) = Some e.
Proof. induction 1 as [|x l1 Hx _ IH]; intros He; simpl; [by rewrite He|]. by rewrite Hx, IH. Qed.

Lemma filter_none (f : AyncEventEntry -> bool) l :
  Forall (fun x => f x = false) l -> List.filter (fun x => negb (f x)) l = l.
Proof. induction 1 as [|x l Hx _ IH]; simpl; [done|]. by rewrite Hx, IH. Qed.

Lemma others_differ tid port (more : list AyncEventEntry) (l : list (Z * Z * string)) :
  map (fun e => (taskID e, srvPort e)) more = map fst l -> Forall (fun t => t.1 <> (tid, port)) l ->
  Forall (fun e => FindAsyncEventEntry tid port e = false) more.
Proof.
  revert more. induction l as [|t l IH]; intros [|e more] Hm Hl; try discriminate Hm; [done|].
  apply Forall_cons in Hl as [Ht Hl]. injection Hm as He Hm. constructor; [|by apply IH].
  unfold FindAsyncEventEntry. apply andb_false_iff. rewrite !Z.eqb_neq. cbv beta in Ht. rewrite <- He in Ht.
  destruct (decide (taskID e = tid)); [right; congruence|by left].
Qed.

(** The identifier and the requester come back from the list, and the entry goes. *)
Lemma take_inserted s tid port sender l :
  Forall (fun e => FindAsyncEventEntry tid port e = false) (AsyncTaskList s) -> Forall (fun t => t.1 <> (tid, port)) l ->
  let '(n, s1) := insert_task s tid port sender in
  exists s2, take_task (insert_tasks s1 l) tid port = (Some (n, sender), s2) /\ XmppProxy s2 = XmppProxy s /\
    opts s2 = opts s /\ Forall (fun e => FindAsyncEventEntry tid port e = false) (AsyncTaskList s2).
Proof.
  intros Hs Hl. unfold insert_task. cbv zeta.
  destruct (insert_tasks_list (insert_task s tid port sender).2 l) as (n & more & E & Em).
  pose proof (others_differ _ _ _ _ Em Hl) as Hmore. unfold insert_task in E. cbn [snd] in E. rewrite E.
  assert (forall k who, FindAsyncEventEntry tid port {| taskID := tid; srvPort := port; xmppTID := k; requester := who |} = true) as Hf
    by (intros; unfold FindAsyncEventEntry; simpl; by rewrite !Z.eqb_refl).
  eexists. unfold take_task. cbn [AsyncTaskList with_tasks]. rewrite <- app_assoc. simpl.
  rewrite find_first_middle by done. split; [done|]. split; [done|]. split; [done|]. cbn [AsyncTaskList with_tasks].
  rewrite List.filter_app. simpl. rewrite Hf. simpl. rewrite !filter_none by done. by apply Forall_app_2.
Qed.

(** A task is reported to the one who started it: when a service says that it runs the
    task [tid] for a command of [sender], the sender is told an identifier; whatever
    other tasks are started meanwhile, when the service reports that [tid] is done, the
    manager asks it for the status once and sends this sender a message with the same
    identifier (or none, when the service cannot be reached), and keeps no entry of the
    task. *)
Theorem task_reported tid port sender l s w :
  int_min <= tid <= int_max -> live (XmppProxy s) sender -> clean w ->
  Forall (fun e => FindAsyncEventEntry tid port e = false) (AsyncTaskList s) -> Forall (fun t => t.1 <> (tid, port)) l ->
  ends s w
    (r ← note_task port Rpc.IN_PROG (format_d tid) sender;
     _ ← modify (fun s => insert_tasks s l);
     _ ← ReceiveEvent uninitialised port ADLIB_EVENT_NUM_INPROG_DONE tid;
     mret r)
    (fun r s' w' => exists n, r = (Rpc.IN_PROG, ("taskID=" ++ format_d n)%string) /\ clean w' /\
       Forall (fun e => FindAsyncEventEntry tid port e = false) (AsyncTaskList s') /\
       (XmppProxy s' = XmppProxy s \/ exists status,
          XmppProxy s' = send (XmppProxy s)
            {| to := sender; body := ("return=" ++ status ++ " : result=taskID=" ++ format_d n)%string;
               subject := EmptyString |})).
Proof.
  intros Ht Hl Hw Hs Hothers. unfold note_task. rewrite (Z.eqb_refl Rpc.IN_PROG), atoi_format_d by done.
  repeat io_step. pose proof (take_inserted s tid port sender l Hs Hothers) as Htake.
  destruct (insert_task s tid port sender) as [n s1]. destruct Htake as (s2 & Htake & Hp & Ho & Hgone).
  repeat io_step. unfold ReceiveEvent. rewrite Z.eqb_refl. repeat io_step. rewrite Htake. repeat io_step. unfold ask_status. repeat io_step.
  eapply ends_bind.
  { eapply new_client_ends; [apply exchange_or_calls|by eapply clock_clean]. }
  intros r s3 w3 (-> & Hw3 & _). destruct r as [r|]; repeat io_step; exists n; split; try done.
  - split; [done|]. split; [done|]. right. eexists. unfold RpcResponseCallback_text, answer_now.
    cbn [XmppProxy with_proxy]. rewrite Hp. by rewrite (send_reply_live _ _ _ Hl).
  - split; [done|]. split; [done|]. by left.
Qed.
End commands.

(** ** The properties at concrete inputs *)

Import Echo Script.


(** A library whose roster is a list; everybody in it is online. *)
Module Chat.
Definition buddies : Type := list string.
#[export] Instance gloox : Gloox buddies := {
  roster g := g;
  online g a := if bool_decide (a ∈ g) then Some true else None;
  roster_subscribe g a := (a :: g)%list;
  roster_unsubscribe g a := List.filter (fun x => negb (String.eqb x a)) g;
}.
#[export] Instance gloox_laws : GlooxLaws buddies.
Proof. constructor. intros g a Ha. unfold online, gloox. rewrite bool_decide_true by exact Ha. by eexists. Defined.

Definition proxy : ADXmppProxy buddies :=
  let p := with_client new_ADXmppProxy (Some (0%nat, ["boss@x"; "guest@x"]%string)) 1
             {| AdminBuddy := "boss@x"; BkupAdminBuddy := EmptyString; UseBOSH := false; BoshURL := EmptyString;
                BoshHost := EmptyString; TlsVerify := true; SaslMech := EmptyString |} true false in
  with_chats (onConnect p) [] {[ "boss@x" := 0%nat; "guest@x" := 0%nat ]}%string [] false.
Definition manager : XmppMgr buddies :=
  {| table := xmproxy_cmd_table;
     acc := Build_account EmptyString EmptyString "boss@x" EmptyString false EmptyString EmptyString true true EmptyString;
     opts := {| MgrDebugLog := false; bboxSmsServerAddr := "10.0.0.1"; XmppBotNameFilePath := EmptyString;
                XmppNetInterface := "eth0"; AiAgentUrl := EmptyString; AiModel := EmptyString;
                AliasListFile := "/etc/aliases"; UpdateUrlFile := EmptyString; EventSubscrListFile := "/etc/events";
                CyclicTime_ms := 60000; botcli := false |};
     event_period_ms := 0; XmppTaskIDCounter := 0; LastFmwUpdateTaskID := 0;
     processCmd := [{| cmdMsg := "alias hi=relaymsg guest@x hello;version"; sender := "boss@x" |};
                    {| cmdMsg := "Hi;acceptbuddy new@x"; sender := "boss@x" |};
                    {| cmdMsg := "acceptbuddy me@x;Frobnicate"; sender := "guest@x" |}];
     AsyncTaskList := []; Inbox := []; ResponseMsg := EmptyString; XmppBotName := EmptyString; XmppProxy := proxy;
     AliasList := ∅; myEventList := []; files := ∅ |}%string.
Definition world : traced script := Script.world [[bytes "{'id':0,'result':{'return':'Success','version':'01.04'}}"]]%string.
Definition worker : io (traced script) (XmppMgr buddies) () :=
  monoshot_callback_function (J := Json.value) (D := Z) (fun _ => true) (fun _ => None) EmptyString.

Lemma manager_live who : In who ["boss@x"; "guest@x"]%string -> live proxy who.
Proof.
  intros Hw. exists 0%nat, ["boss@x"; "guest@x"]%string. split; [reflexivity|]. split.
  - destruct Hw as [<-|[<-|[]]]; reflexivity.
  - intros a o Ho. unfold proxy in Ho. simpl in Ho. apply lookup_insert_Some in Ho as [[_ <-]|[_ Ho]]; [reflexivity|].
    by apply lookup_singleton_Some in Ho as [_ <-].
Qed.
End Chat.
Import Chat.

(** The administrator defines an alias and uses it, in another case; a guest may not accept
    buddies, and an unknown command is answered. *)
Example gateway_ex :
  (fun x => (map (fun m => (to m, body m, subject m)) (sent (XmppProxy x.1.2)), AcceptBuddyList (XmppProxy x.1.2),
             processCmd x.1.2, open_fds x.2)) <$> worker 100%nat manager world =
  Some ([("boss@x", "return=Success : result=", EmptyString);
         ("guest@x", " hello", "message"); ("boss@x", "return=Success : result=", EmptyString);
         ("boss@x", "return=Success : result=01.04", EmptyString);
         ("boss@x", "return=Success : result=", EmptyString);
         ("guest@x", "return=ActionBlocked : result=", EmptyString);
         ("guest@x", "return=UnknownCmd : result=", EmptyString)]%string, ["new@x"]%string, [], []).
Proof. vm_compute. reflexivity. Qed.


Lemma admin_only_witness :
  exists n r s w, run_command (J := Json.value) (D := Z) (fun _ => true) (fun _ => None) EmptyString
      "relaymsg boss@x hello" "guest@x" n manager world = Some (r, s, w) /\
    sent (XmppProxy s) = [] /\ AcceptBuddyList (XmppProxy s) = [].
Proof.
  destruct (admin_only (J := Json.value) (D := Z) (fun _ => true) (fun _ => None) EmptyString
    "relaymsg boss@x hello" "guest@x" manager world) as (n & r & s & w & E & Hs & _ & Ha & _).
  - apply manager_live. simpl. tauto.
  - split; reflexivity.
  - vm_compute. reflexivity.
  - exists n, r, s, w. split; [by apply E|]. split; [rewrite Hs; reflexivity|rewrite Ha; reflexivity].
Defined.

Definition done_world : traced script := Script.world [[bytes "{'id':0,'result':{'return':'Success','taskStatus':'Fail'}}"]]%string.
Definition started (l : list (Z * Z * string)) : io (traced script) (XmppMgr buddies) (Z * string) :=
  r ← note_task ADCMN_PORT_SYSMGR Rpc.IN_PROG (format_d 12) "guest@x"%string;
  _ ← modify (fun s => insert_tasks s l);
  _ ← ReceiveEvent (J := Json.value) (D := Z) EmptyString ADCMN_PORT_SYSMGR ADLIB_EVENT_NUM_INPROG_DONE 12;
  mret r.
Example task_reported_ex :
  (fun x => (x.1.1, map (fun m => (to m, body m)) (sent (XmppProxy x.1.2)), length (AsyncTaskList x.1.2))) <$>
    started [(12, ADCMN_PORT_GPIOCTL, "boss@x")]%string 100%nat manager done_world =
  Some (Rpc.IN_PROG, "taskID=1", [("guest@x", "return=Fail : result=taskID=1")], 1%nat)%string.
Proof. vm_compute. reflexivity. Qed.

Lemma task_reported_witness :
  exists n r s w, started [(12, ADCMN_PORT_GPIOCTL, "boss@x")]%string n manager done_world = Some (r, s, w) /\ open_fds w = [].
Proof.
  destruct (task_reported (J := Json.value) (D := Z) EmptyString 12 ADCMN_PORT_SYSMGR "guest@x"
    [(12, ADCMN_PORT_GPIOCTL, "boss@x")]%string manager done_world) as (n & r & s & w & E & k & _ & [Hw _] & _).
  - vm_compute. split; discriminate.
  - apply manager_live. simpl. tauto.
  - split; reflexivity.
  - constructor.
  - repeat constructor. vm_compute. discriminate.
  - exists n, r, s, w. split; [by apply E|exact Hw].
Defined.
