(* ===== verification/XmppFiles.v ===== *)
(** * The gateway's texts

    The aliases and the subscriptions are kept in memory and in files: after any sequence
    of commands, reading the file again gives what is in memory.  The URL of a BOSH server
    is taken apart into what it was made of. *)
From S2P Require Import Prelude Common ClientSpec Text XmppProxy XmppMgr XmppMgrSpec.
Open Scope Z_scope.

(** ** Words and characters of texts *)

Lemma has_lower_part c d s : has c s = false -> has c (until d s).1 = false /\ has c (until d s).2 = false.
Proof.
  induction s as [|x s IH]; simpl; [done|]. intros [Hx Hs]%orb_false_iff. destruct (IH Hs) as [H1 H2].
  destruct (x =? d)%char; [done|]. destruct (until d s). simpl in *. by rewrite Hx, H1.
Qed.

Lemma has_skip_space c s : has c s = false -> has c (skip_space s) = false.
Proof.
  induction s as [|x s IH]; simpl; [done|]. intros [Hx Hs]%orb_false_iff. destruct (is_space x); [by apply IH|].
  simpl. by rewrite Hx, Hs.
Qed.

Lemma has_take_word c s : has c s = false -> has c (take_word s).1 = false /\ has c (take_word s).2 = false.
Proof.
  induction s as [|x s IH]; simpl; [done|]. intros [Hx Hs]%orb_false_iff. destruct (IH Hs) as [H1 H2].
  destruct (is_space x); simpl; [by rewrite Hx, Hs|]. destruct (take_word s). simpl in *. by rewrite Hx, H1.
Qed.

Lemma has_word c s : has c s = false -> has c (word s).1 = false /\ has c (word s).2 = false.
Proof. intros Hs. by apply has_take_word, has_skip_space. Qed.

Lemma take_word_free s : spaced (take_word s).1 = false.
Proof.
  induction s as [|x s IH]; simpl; [done|]. destruct (is_space x) eqn:E; [done|].
  destruct (take_word s). simpl in *. by rewrite E, IH.
Qed.

Lemma has_spaced c s : is_space c = true -> spaced s = false -> has c s = false.
Proof.
  intros Hc. induction s as [|x s IH]; simpl; [done|]. intros [Hx Hs]%orb_false_iff. rewrite (IH Hs).
  destruct (Ascii.eqb_spec x c) as [->|]; [congruence|done].
Qed.

Lemma word_is_word s : (word s).1 <> EmptyString -> is_word (word s).1 = true.
Proof.
  intros Hs. unfold is_word, word in *. rewrite take_word_free. by destruct (take_word _).1.
Qed.

(** ** Aliases *)

(** A key and a value that are read back as they are written. *)
Definition good_alias (e : string * string) : Prop :=
  has "=" e.1 = false /\ has newline e.1 = false /\ has "=" e.2 = false /\ has newline e.2 = false.
Definition good_aliases (m : gmap string string) : Prop := map_Forall (fun k v => good_alias (k, v)) m.

Lemma parse_alias_line e : good_alias e -> parse_alias (alias_line e) = e.
Proof.
  destruct e as [k v]. intros (Hk & _ & Hv & _). simpl in *. unfold parse_alias, alias_line. cbn [fst snd]. autorewrite with text.
  rewrite until_found by done. by rewrite until_none.
Qed.

Lemma alias_line_free e : good_alias e -> has newline (alias_line e) = false.
Proof.
  destruct e as [k v]. intros (_ & Hk & _ & Hv). simpl in *. unfold alias_line. cbn [fst snd].
  rewrite has_app, Hk. autorewrite with text. simpl. by rewrite Hv.
Qed.

Lemma parse_alias_good l : has newline l = false -> good_alias (parse_alias l).
Proof.
  intros Hl. unfold parse_alias. pose proof (until_free "=" l) as Hk. pose proof (has_lower_part _ "=" _ Hl) as [H1 H2].
  destruct (until "=" l) as [k r]. simpl in *. pose proof (has_lower_part _ "=" _ H2) as [H3 _].
  by split; [|split; [|split; [apply until_free|]]].
Qed.

Lemma load_aliases_app l1 l2 m : load_aliases (l1 ++ l2) m = load_aliases l2 (load_aliases l1 m).
Proof. apply foldl_app. Qed.

Lemma load_aliases_lines l m :
  Forall good_alias l -> load_aliases (map alias_line l) m = foldl (fun m e => <[e.1 := e.2]> m) m l.
Proof.
  intros Hl. revert m. induction Hl as [|e l He _ IH]; intros m; simpl; [done|]. rewrite <- IH. unfold load_aliases. simpl.
  rewrite parse_alias_line by done. by destruct e.
Qed.

Lemma insert_all_list (l : list (string * string)) :
  NoDup l.*1 -> foldl (fun m e => <[e.1 := e.2]> m) (∅ : gmap string string) l = list_to_map l.
Proof.
  intros Hl. induction l as [|[k v] l IH] using rev_ind; [done|].
  rewrite fmap_app in Hl. apply NoDup_app in Hl as (Hl & Hd & _). rewrite foldl_app, IH by done. simpl.
  rewrite list_to_map_app. simpl. rewrite <- insert_union_r; [by rewrite right_id_L by apply _|].
  apply not_elem_of_list_to_map. intros Hk. apply (Hd k Hk). simpl. by left.
Qed.

Lemma alias_entries_perm m : alias_entries m ≡ₚ map_to_list m.
Proof. apply merge_sort_Permutation. Qed.

Lemma good_entries m : good_aliases m -> Forall good_alias (alias_entries m).
Proof.
  intros Hm. rewrite alias_entries_perm. apply Forall_forall. intros [k v] Hkv%elem_of_map_to_list. by apply Hm.
Qed.

Lemma entries_nodup m : NoDup (alias_entries m).*1.
Proof.
  assert ((alias_entries m).*1 ≡ₚ (map_to_list m).*1) as -> by by apply fmap_Permutation, alias_entries_perm.
  apply NoDup_fst_map_to_list.
Qed.

(** The lines of all entries are the map again. *)
Lemma load_entries m : good_aliases m -> load_aliases (map alias_line (alias_entries m)) ∅ = m.
Proof.
  intros Hm. rewrite load_aliases_lines by by apply good_entries.
  rewrite insert_all_list by apply entries_nodup.
  rewrite (list_to_map_proper _ _ (entries_nodup m) (alias_entries_perm m)). apply list_to_map_to_list.
Qed.

Lemma load_good l m : Forall (fun x => has newline x = false) l -> good_aliases m -> good_aliases (load_aliases l m).
Proof.
  intros Hl. revert m. induction Hl as [|x l Hx _ IH]; intros m Hm; [done|]. unfold load_aliases. simpl.
  pose proof (parse_alias_good x Hx) as Hg. destruct (parse_alias x) as [k v]. apply IH. by apply map_Forall_insert_2.
Qed.

Lemma alias_parts_good msg : has newline msg = false -> good_alias (alias_key msg, alias_value msg).
Proof.
  intros Hm. unfold alias_key, alias_value. pose proof (has_lower_part _ "=" _ Hm) as [H1 H2].
  pose proof (has_lower_part _ "=" _ H2) as [H3 _]. pose proof (until_free "=" msg) as He.
  split; [|split; [|split]]; cbn [fst snd]; try done.
  - by apply has_skip_space, has_lower_part, has_word.
  - apply has_skip_space, until_free.
  - apply until_free.
Qed.

Lemma update_good a msg : has newline msg = false -> good_aliases a -> good_aliases (alias_update a msg).
Proof.
  intros Hm Ha. unfold alias_update. destruct (lists_aliases msg); [done|].
  destruct (empty _); [by apply map_Forall_delete|]. apply map_Forall_insert_2; [by apply alias_parts_good|done].
Qed.

(** ** Subscriptions *)

Lemma decimal_word fuel n acc : 0 <= n -> spaced acc = false -> spaced (decimal fuel n acc) = false.
Proof.
  revert n acc. induction fuel as [|fuel IH]; intros n acc Hn Ha; [done|]. cbn [decimal].
  destruct (digit_char (n mod 10) (Z.mod_pos_bound n 10 eq_refl)) as [Hs _].
  assert (spaced (String (ascii_of_N (Z.to_N (48 + n mod 10))) acc) = false) as Ha' by (simpl; by rewrite Hs).
  destruct (n <? 10); [done|]. apply IH; [by apply Z.div_pos|done].
Qed.

Lemma format_d_word n : is_word (format_d n) = true.
Proof.
  unfold is_word, format_d. pose proof (decimal_word 20 (Z.abs n) EmptyString ltac:(lia) eq_refl) as Hs.
  pose proof (decimal_head 20 (Z.abs n) EmptyString ltac:(lia) ltac:(lia)) as (d & r & E & _).
  destruct (Z.ltb_spec n 0).
  - replace (- n) with (Z.abs n) by lia. cbn [spaced String.length]. by rewrite Hs.
  - replace n with (Z.abs n) by lia. rewrite Hs, E. done.
Qed.

Definition good_event (e : EventSubscrEntry) : Prop :=
  is_word (subscriber e) = true /\ int_min <= m_EvntArg e <= int_max.

Lemma is_word_spaced w : is_word w = true -> spaced w = false.
Proof. unfold is_word. intros [_ Hw%negb_true_iff]%andb_true_iff. done. Qed.

Lemma evnt_name_word t : is_word (evnt_name t) = true.
Proof. by destruct t. Qed.

Lemma append_end (w : string) : (w ++ EmptyString)%string = w.
Proof. induction w as [|c w IH]; autorewrite with text; [done|]. by rewrite IH. Qed.
Lemma word_end w : is_word w = true -> word (String " " w) = (w, EmptyString).
Proof. intros Hw. rewrite <- (append_end w) at 1. by apply word_space. Qed.

Lemma event_line_words e :
  event_line e = (subscriber e ++ String " " (evnt_name (m_EvntType e) ++ String " " (format_d (m_EvntArg e))))%string.
Proof. done. Qed.

(** A line that is written for an active subscription is read as this subscription. *)
Lemma parse_event_line e : good_event e -> m_Status e = true -> parse_event (event_line e) = Some e.
Proof.
  intros [Hs Ha] Hst. unfold parse_event. rewrite event_line_words. rewrite word_app by done.
  cbv beta match. rewrite word_space by (done || apply evnt_name_word). cbv beta match.
  rewrite word_end by apply format_d_word. cbv beta match. rewrite atoi_format_d by done.
  destruct e as [sub [|] arg sts]; simpl in *; by subst.
Qed.

Lemma event_line_free e : good_event e -> has newline (event_line e) = false.
Proof.
  intros [Hs _]. rewrite event_line_words, !has_app. cbn [has]. rewrite !has_app. cbn [has].
  rewrite (has_spaced newline (subscriber e)), (has_spaced newline (evnt_name _)), (has_spaced newline (format_d _)); try done;
    apply is_word_spaced; [apply format_d_word|apply evnt_name_word|done].
Qed.

Lemma word_empty s : (word s).1 = EmptyString -> (word s).2 = EmptyString.
Proof.
  unfold word. assert (forall t, match skip_space t with String c _ => is_space c = false | _ => True end) as Hh.
  { induction t as [|c t IH]; simpl; [done|]. by destruct (is_space c) eqn:E. }
  specialize (Hh s). destruct (skip_space s) as [|c t]; simpl; [done|]. rewrite Hh. by destruct (take_word t).
Qed.

Lemma parse_event_good l e : parse_event l = Some e -> good_event e /\ m_Status e = true.
Proof.
  unfold parse_event. destruct (word l) as [a r] eqn:Ea. destruct (word r) as [t r'] eqn:Et. destruct (word r') as [g r''].
  intros He. assert (is_word a = true) as Ha.
  { replace a with (word l).1 by by rewrite Ea. apply word_is_word. intros E.
    pose proof (word_empty _ E) as E2. rewrite Ea in E2. simpl in E2. subst r. injection Et as <- <-. discriminate He. }
  destruct (t =? "gsm")%string; [|destruct (t =? "gpio")%string; [|done]]; injection He as <-;
    (split; [|done]); (split; [done|]); apply i32_range.
Qed.

(** ** The files *)

Section files.
Context {G : Type}.
Variable can_write : string -> bool.
Implicit Types s : XmppMgr G.

(** The file [f] holds whole lines, which give the aliases. *)
Definition aliases_saved (f : string) s : Prop :=
  AliasListFile (opts s) = f /\ good_aliases (AliasList s) /\
  exists ls, default EmptyString (files s !! f) = file_of ls /\ Forall (fun x => has newline x = false) ls /\
    load_aliases ls ∅ = AliasList s.

Lemma read_lines_of s f ls :
  default EmptyString (files s !! f) = file_of ls -> Forall (fun x => has newline x = false) ls -> read_lines s f = ls.
Proof.
  intros Hf Hl. unfold read_lines. destruct (files s !! f) as [t|]; simpl in *.
  - subst t. by apply lines_file.
  - destruct ls as [|[|c x] ls]; [done|discriminate Hf|discriminate Hf].
Qed.

Lemma alias_saved f s msg :
  f <> EmptyString -> can_write f = true -> has newline msg = false -> aliases_saved f s ->
  aliases_saved f (proc_cmd_alias can_write s msg).2.
Proof.
  intros Hf Hw Hm (Ho & Hg & ls & Hfile & Hls & Hload). rewrite proc_cmd_alias_spec. cbn [snd].
  assert ((f =? EmptyString)%string = false) as Ef by by apply String.eqb_neq.
  pose proof (update_good _ _ Hm Hg) as Hg'. split; [done|]. split; [done|]. cbn [files AliasList with_lists].
  unfold alias_file. destruct (lists_aliases msg) eqn:El.
  { exists ls. unfold alias_update. by rewrite El. }
  destruct (_ && _) eqn:Ec.
  - exists (ls ++ [alias_line (alias_key msg, alias_value msg)]). pose proof (alias_parts_good _ Hm) as Hp.
    unfold ExtendAliasList, append_file, write_file. rewrite Ho, Ef, Hw. cbn. rewrite lookup_insert_eq. simpl.
    rewrite Hfile, file_of_app. split; [done|]. split; [by apply Forall_app_2; [|constructor; [apply alias_line_free|]]|].
    rewrite load_aliases_app, Hload. unfold load_aliases. cbn [foldl]. rewrite parse_alias_line by done.
    apply andb_true_iff in Ec as [Ev%negb_true_iff _]. unfold alias_update. by rewrite El, Ev.
  - exists (map alias_line (alias_entries (alias_update (AliasList s) msg))).
    unfold RewriteAliasList, write_file. rewrite Ho, Ef, Hw. cbn. rewrite lookup_insert_eq. simpl.
    split; [done|]. split; [|by apply load_entries]. apply Forall_map. eapply Forall_impl; [by apply good_entries|].
    apply alias_line_free.
Qed.

(** The manager reads the file and runs alias commands. *)
Definition restart_then (f : string) s (msgs : list string) : XmppMgr G :=
  foldl (fun s m => (proc_cmd_alias can_write s m).2) (LoadAliasList s f).2 msgs.

(** Aliases survive a restart: when the manager has read its file of aliases and then
    runs any number of alias commands (none with a line break in it), reading the file
    again gives the aliases it has, whether a command added one, replaced one, removed
    one, or listed them. *)
Theorem aliases_persist f s ls msgs :
  f <> EmptyString -> can_write f = true -> AliasListFile (opts s) = f -> AliasList s = ∅ ->
  default EmptyString (files s !! f) = file_of ls -> Forall (fun x => has newline x = false) ls ->
  Forall (fun m => has newline m = false) msgs ->
  load_aliases (read_lines (restart_then f s msgs) f) ∅ = AliasList (restart_then f s msgs).
Proof.
  intros Hf Hw Ho Ha Hfile Hls Hmsgs. set (s' := restart_then f s msgs).
  assert (aliases_saved f s') as (_ & _ & ls' & Hfile' & Hls' & Hload); [|by rewrite (read_lines_of _ _ _ Hfile' Hls')].
  assert (aliases_saved f (LoadAliasList s f).2) as Hs.
  { unfold LoadAliasList. destruct (String.eqb_spec f EmptyString); [done|]. cbn [snd].
    rewrite (read_lines_of _ _ _ Hfile Hls), Ha. split; [done|]. split; [by apply load_good|]. by exists ls. }
  subst s'. unfold restart_then. revert Hs. generalize (LoadAliasList s f).2. induction Hmsgs as [|m msgs Hm _ IH]; intros s0 Hs; simpl; [done|].
  by apply IH, alias_saved.
Qed.

(** The file [f] holds whole lines, which give the active subscriptions. *)
Definition events_saved (f : string) s : Prop :=
  EventSubscrListFile (opts s) = f /\ Forall good_event (myEventList s) /\
  exists ls, default EmptyString (files s !! f) = file_of ls /\ Forall (fun x => has newline x = false) ls /\
    omap parse_event ls = List.filter m_Status (myEventList s).

Lemma parse_event_lines l :
  Forall good_event l -> omap parse_event (map event_line (List.filter m_Status l)) = List.filter m_Status l.
Proof.
  induction 1 as [|e l He _ IH]; csimpl; [done|]. destruct (m_Status e) eqn:E; csimpl; [|done].
  by rewrite parse_event_line, IH.
Qed.

Lemma set_status_good test sts l : Forall good_event l -> Forall good_event (set_status test sts l).
Proof. induction 1 as [|e l He Hl IH]; simpl; [done|]. destruct (test e); by constructor. Qed.

Lemma events_rewritten f s l :
  f <> EmptyString -> can_write f = true -> EventSubscrListFile (opts s) = f -> Forall good_event l ->
  events_saved f (RewriteEventSubscrList can_write (set_events s l) f).2.
Proof.
  intros Hf Hw Ho Hl. assert ((f =? EmptyString)%string = false) as Ef by by apply String.eqb_neq.
  unfold RewriteEventSubscrList, write_file. rewrite Ef, Hw. split; [done|]. split; [done|].
  exists (map event_line (List.filter m_Status l)). cbn. rewrite lookup_insert_eq. split; [done|]. split.
  - apply Forall_map, Forall_forall. intros e [_ He]%list_elem_of_In%filter_In%and_comm. apply event_line_free.
    rewrite Forall_forall in Hl. apply Hl. by apply list_elem_of_In.
  - by apply parse_event_lines.
Qed.

Lemma events_extended f s e :
  f <> EmptyString -> can_write f = true -> good_event e -> m_Status e = true -> events_saved f s ->
  events_saved f (ExtendEventSubscrList can_write (set_events s (myEventList s ++ [e])) f e).2.
Proof.
  intros Hf Hw He Hst (Ho & Hg & ls & Hfile & Hls & Hload).
  assert ((f =? EmptyString)%string = false) as Ef by by apply String.eqb_neq.
  unfold ExtendEventSubscrList, append_file, write_file. rewrite Ef, Hw. split; [done|].
  split; [by apply Forall_app_2; [|constructor]|]. exists (ls ++ [event_line e]). cbn. rewrite lookup_insert_eq. simpl.
  rewrite Hfile, file_of_app. split; [done|].
  split; [by apply Forall_app_2; [|constructor; [apply event_line_free|]]|].
  rewrite omap_app, Hload, List.filter_app. simpl. by rewrite parse_event_line, Hst.
Qed.

Lemma event_saved f s sender type io read arg :
  f <> EmptyString -> can_write f = true -> is_word sender = true -> int_min <= io <= int_max -> events_saved f s ->
  events_saved f (event_command can_write s sender type io read arg).2.
Proof.
  intros Hf Hw Hs Hio Hsaved. pose proof Hsaved as (Ho & Hg & _). unfold event_command. rewrite Ho.
  destruct (find_first _ _) as [e|]; (destruct read; [done|]).
  - by apply events_rewritten; [| | |apply set_status_good].
  - destruct (arg =? "1")%string; [|done]. by apply events_extended.
Qed.

Lemma loaded_events ls : Forall good_event (omap parse_event ls) /\ List.filter m_Status (omap parse_event ls) = omap parse_event ls.
Proof.
  induction ls as [|l ls [IH1 IH2]]; csimpl; [done|]. destruct (parse_event l) as [e|] eqn:E; csimpl; [|done].
  destruct (parse_event_good _ _ E) as [He Hst]. rewrite Hst, IH2. split; [by constructor|done].
Qed.

(** A command for subscriptions: its sender, the type and number of the event, whether it
    reads the status, and its argument. *)
Record event_cmd := { ec_sender : string; ec_type : EXMPP_EVNT_TYPES; ec_io : Z; ec_read : bool; ec_arg : string }.
Definition run_event s (c : event_cmd) : XmppMgr G :=
  (event_command can_write s (ec_sender c) (ec_type c) (ec_io c) (ec_read c) (ec_arg c)).2.

(** The manager reads the file and runs commands for subscriptions. *)
Definition restart_events (f : string) s (cmds : list event_cmd) : XmppMgr G :=
  foldl run_event (LoadEventSubscrList s f).2 cmds.

(** Subscriptions survive a restart: when the manager has read its file of
    subscriptions and then runs any number of commands that subscribe, unsubscribe or ask
    (of senders whose addresses are words), reading the file again gives the
    subscriptions that are active, each with its subscriber, type and number. *)
Theorem events_persist f s ls cmds :
  f <> EmptyString -> can_write f = true -> EventSubscrListFile (opts s) = f -> myEventList s = [] ->
  default EmptyString (files s !! f) = file_of ls -> Forall (fun x => has newline x = false) ls ->
  Forall (fun c => is_word (ec_sender c) = true /\ int_min <= ec_io c <= int_max) cmds ->
  omap parse_event (read_lines (restart_events f s cmds) f) = List.filter m_Status (myEventList (restart_events f s cmds)).
Proof.
  intros Hf Hw Ho Ha Hfile Hls Hcmds. set (s' := restart_events f s cmds).
  assert (events_saved f s') as (_ & _ & ls' & Hfile' & Hls' & Hload); [|by rewrite (read_lines_of _ _ _ Hfile' Hls')].
  assert (events_saved f (LoadEventSubscrList s f).2) as Hs.
  { unfold LoadEventSubscrList. destruct (String.eqb_spec f EmptyString); [done|]. cbn [snd].
    rewrite (read_lines_of _ _ _ Hfile Hls), Ha. destruct (loaded_events ls) as [H1 H2]. split; [done|]. split; [done|].
    exists ls. by split_and!. }
  subst s'. unfold restart_events. revert Hs. generalize (LoadEventSubscrList s f).2.
  induction Hcmds as [|c cmds [Hc1 Hc2] _ IH]; intros s0 Hs; simpl; [done|]. by apply IH, event_saved.
Qed.
End files.

(** ** URLs *)

Lemma prefix_app t b : String.prefix t (t ++ b) = true.
Proof. induction t as [|c t IH]; autorewrite with text; simpl; [by destruct b|]. by destruct (ascii_dec c c). Qed.

Lemma substring_behind t b n : String.substring (String.length t) n (t ++ b) = String.substring 0 n b.
Proof. induction t as [|c t IH]; autorewrite with text; [done|]. simpl. exact IH. Qed.


(** A text is found behind one that does not hold its first character. *)
Lemma find_behind c t a b : has c a = false -> find (String c t) (a ++ String c (t ++ b)) = Some (a, b).
Proof.
  intros Ha. induction a as [|x a IH].
  - rewrite app_empty, <- app_String. cbn [find]. autorewrite with text. cbn [find].
    rewrite <- app_String, prefix_app, substring_behind. do 2 f_equal. apply truncate_ge.
    rewrite length_append. lia.
  - simpl in Ha. apply orb_false_iff in Ha as [Hx Ha]. autorewrite with text in *. cbn [find String.prefix].
    destruct (ascii_dec c x) as [->|]; [by rewrite Ascii.eqb_refl in Hx|]. by rewrite IH.
Qed.

Lemma rfind_none c s : has c s = false -> rfind c s = None.
Proof. induction s as [|x s IH]; simpl; [done|]. intros [-> Hs]%orb_false_iff. by rewrite IH. Qed.

Lemma rfind_last c a b : has c b = false -> rfind c (a ++ String c b) = Some (a, b).
Proof.
  intros Hb. induction a as [|x a IH]; autorewrite with text; cbn [rfind]; [by rewrite rfind_none, Ascii.eqb_refl|].
  by rewrite IH.
Qed.

Lemma stoi_plain d r : 0 <= d < 10 ->
  stoi (String (ascii_of_N (Z.to_N (48 + d))) r) =
  let v := digits (String (ascii_of_N (Z.to_N (48 + d))) r) 0 in
  if (int_min <=? v) && (v <=? int_max) then Some v else None.
Proof.
  intros Hd. assert (d ∈ [0;1;2;3;4;5;6;7;8;9]) as Hin by (rewrite !elem_of_cons; lia).
  rewrite !elem_of_cons, elem_of_nil in Hin. by destruct_or! Hin; subst.
Qed.

Lemma stoi_format_d n : 0 <= n <= int_max -> stoi (format_d n) = Some n.
Proof.
  intros Hn. unfold format_d. destruct (Z.ltb_spec n 0); [lia|].
  destruct (decimal_head 20 n EmptyString) as (d & r & E & Hd); [lia|lia|]. rewrite E, stoi_plain by done.
  rewrite <- E, digits_decimal by (unfold int_max in Hn; lia). cbn [digits]. cbv zeta.
  destruct (Z.leb_spec int_min n); [|unfold int_min in *; lia]. by destruct (Z.leb_spec n int_max); [|lia].
Qed.

(** The text of a URL with all its parts. *)
Definition url_text (u : BoshUrlComponents) : string :=
  (protocol u ++ "://" ++ (host u ++ String ":" (format_d (url_port u))) ++ path u)%string.

(** The URL of a BOSH server is taken apart into the protocol, host, port and path it
    was written with: any protocol without a colon, any host without a slash (it may hold
    colons: the last one is the one in front of the port), any port that fits an [int],
    and any path that starts with a slash. *)
Theorem url_parsed u :
  has ":" (protocol u) = false -> has "/" (host u) = false -> 0 <= url_port u <= int_max ->
  match path u with String "/" _ => True | _ => False end ->
  parseBoshUrl (url_text u) = Some u.
Proof.
  intros Hp Hh Hn Hpath. unfold parseBoshUrl, url_text. rewrite (app_String ":" "//"), (find_behind ":" "//") by done.
  destruct u as [p h n [|c r]]; simpl in *; [done|]. assert (c = "/"%char) as -> by by repeat case_match; simplify_eq.
  assert (has "/" (format_d n) = false) as Hs.
  { unfold format_d. destruct (Z.ltb_spec n 0); [lia|]. apply decimal_has; [done|lia|done]. }
  assert (has ":" (format_d n) = false) as Hc.
  { unfold format_d. destruct (Z.ltb_spec n 0); [lia|]. apply decimal_has; [done|lia|done]. }
  assert (forall a, has "/" a = false -> find "/" (a ++ String "/" r) = Some (a, r)) as Hslash
    by (intros a; apply (find_behind "/" EmptyString)).
  rewrite Hslash by (rewrite has_app, Hh; by cbn [has]). cbv beta match.
  rewrite rfind_last by done. by rewrite stoi_format_d.
Qed.

(** ** The properties at concrete inputs *)

Definition alias_file_text : string := file_of ["hi=version"; "up=uptime"]%string.
Definition events_file_text : string := file_of ["guest@x gpio 4"; "boss@x gsm 0"]%string.
Definition stored : XmppMgr Chat.buddies :=
  with_files Chat.manager {[ "/etc/aliases" := alias_file_text; "/etc/events" := events_file_text ]}%string.
Definition alias_msgs : list string := ["alias up="; "alias Now=gpio 1"; "alias hi=localip;uptime"; "alias"]%string.
Definition always : string -> bool := fun _ => true.
Definition after_aliases : XmppMgr Chat.buddies :=
  restart_then always "/etc/aliases" stored alias_msgs.

Example aliases_ex :
  map_to_list (AliasList after_aliases) = [("Now", "gpio 1"); ("hi", "localip;uptime")]%string /\
  lines (default EmptyString (files after_aliases !! "/etc/aliases"%string)) = ["Now=gpio 1"; "hi=localip;uptime"]%string.
Proof. vm_compute. split; reflexivity. Qed.

Lemma aliases_persist_witness :
  load_aliases (read_lines after_aliases "/etc/aliases") ∅ = AliasList after_aliases.
Proof.
  apply (aliases_persist always "/etc/aliases" stored ["hi=version"; "up=uptime"]%string alias_msgs).
  - discriminate.
  - reflexivity.
  - reflexivity.
  - reflexivity.
  - vm_compute. reflexivity.
  - repeat constructor.
  - repeat constructor.
Defined.

Definition event_cmds : list event_cmd :=
  [{| ec_sender := "guest@x"; ec_type := EVNT_GPIO; ec_io := 5; ec_read := false; ec_arg := "1" |};
   {| ec_sender := "guest@x"; ec_type := EVNT_GPIO; ec_io := 4; ec_read := false; ec_arg := "0" |};
   {| ec_sender := "boss@x"; ec_type := EVNT_GSM; ec_io := 0; ec_read := true; ec_arg := EmptyString |}]%string.
Definition after_events : XmppMgr Chat.buddies :=
  restart_events always "/etc/events" stored event_cmds.

Example events_ex :
  lines (default EmptyString (files after_events !! "/etc/events"%string)) = ["boss@x gsm 0"; "guest@x gpio 5"]%string.
Proof. vm_compute. reflexivity. Qed.

Lemma events_persist_witness :
  omap parse_event (read_lines after_events "/etc/events") = List.filter m_Status (myEventList after_events).
Proof.
  apply (events_persist always "/etc/events" stored ["guest@x gpio 4"; "boss@x gsm 0"]%string event_cmds).
  - discriminate.
  - reflexivity.
  - reflexivity.
  - reflexivity.
  - vm_compute. reflexivity.
  - repeat constructor.
  - repeat constructor; vm_compute; discriminate.
Defined.

Definition bosh_url : BoshUrlComponents :=
  {| protocol := "https"; host := "[fe80::1]"; url_port := 7443; path := "/http-bind/" |}%string.
Lemma url_parsed_witness : parseBoshUrl "https://[fe80::1]:7443/http-bind/" = Some bosh_url.
Proof.
  apply (url_parsed bosh_url).
  - reflexivity.
  - reflexivity.
  - vm_compute. split; discriminate.
  - exact I.
Defined.

(** An address of version 6 without a port is cut at its last colon, and a port that does
    not fit is an exception. *)
Example url_without_port_ex :
  host <$> parseBoshUrl "https://[fe80::1]/http-bind/" = Some "[fe80:"%string /\ parseBoshUrl "http://h:99999999999" = None.
Proof. vm_compute. split; reflexivity. Qed.
