(* ===== verification/SysInfo.v ===== *)
(** * The host of a service (ADSysInfo.cpp)

    What a service asks the machine it runs on: shell commands, files below /proc, the
    network interfaces.  The machine is a parameter, the class [Host]; what its commands
    and files answer is text without NUL characters. *)
From S2P Require Import Prelude Common Text RpcMgr.
From Stdlib Require Import SpecFloat.
Open Scope Z_scope.

(** An interface with an address, as the [ioctl()]s describe it: its hardware address
    and its mask may be refused. *)
Record interface := { if_name : string; if_ip : string; if_mac : option (list Z); if_netmask : option string }.

(** [system()] with the status it returns; [popen()] with what the command writes; a whole
    file; writing a file; the interfaces; whether a path is a regular file. *)
Class Host (H : Type) := {
  host_system : string -> H -> Z * H;
  host_popen : string -> H -> option string * H;
  host_file : H -> string -> option string;
  host_write : string -> string -> H -> bool * H;
  host_interfaces : H -> option (list interface);
  host_is_file : H -> string -> bool;
}.

(** ** Reading texts *)

(** [fgets()] into an array of [n] characters: a line with its end, as far as it fits. *)
Fixpoint fgets (n : nat) (s : string) : string :=
  match n, s with
  | S (S n as k), String c r => String c (if (c =? newline)%char then EmptyString else fgets k r)
  | _, _ => EmptyString
  end.
Lemma fgets_line n s : has newline s = false -> (String.length s + 2 <= n)%nat -> fgets n (s ++ endl) = (s ++ endl)%string.
Proof.
  revert n. induction s as [|c s IH]; intros [|[|n]] Hs Hn; simpl in Hn; try lia; [done|].
  simpl in Hs. apply orb_false_iff in Hs as [Hc Hs]. autorewrite with text. cbn [fgets]. rewrite Hc. f_equal.
  apply (IH (S n)); [done|lia].
Qed.
(** [s[strlen(s) - 1] = 0] *)
Definition chop (s : string) : string := truncate (String.length s - 1) s.

(** The text from the first [t] on, [strstr()]. *)
Definition strstr (s t : string) : option string := '(_, r) ← find t s; Some (t ++ r)%string.

(** [sscanf()] with [%d], [%s] and [%f] behind white space; the old value where nothing
    matches. *)
Definition scan_d (s : string) (old : Z) : Z :=
  let number r := match r with String c _ => if digit_of c then true else false | EmptyString => false end in
  let t := skip_space s in
  let u := match t with String "-" r | String "+" r => r | _ => t end in
  if number u then atoi s else old.
Definition scan_s (s old : string) : string := match word s with (EmptyString, _) => old | (w, _) => w end.

(** A decimal number, with its fraction and exponent, rounded to a [float]. *)
Fixpoint span_digits (s : string) : string * string :=
  match s with
  | String c r => if digit_of c then let '(a, b) := span_digits r in (String c a, b) else (EmptyString, s)
  | EmptyString => (EmptyString, EmptyString)
  end.
Definition exact (neg : bool) (n : Z) : spec_float := match n with Zpos p => S754_finite neg p 0 | _ => S754_zero neg end.
Definition float_of (neg : bool) (n exponent : Z) : spec_float :=
  if n =? 0 then S754_zero neg
  else if exponent <? 0 then SFdiv 24 128 (exact neg n) (exact false (10 ^ - exponent))
  else SFdiv 24 128 (exact neg (n * 10 ^ exponent)) (exact false 1).
Definition scan_f (s : string) : option (spec_float * string) :=
  let '(neg, r) := match skip_space s with
                   | String "-" r => (true, r) | String "+" r => (false, r) | r => (false, r) end in
  let '(a, r1) := span_digits r in
  let '(b, r2) := match r1 with String "." r => span_digits r | _ => (EmptyString, r1) end in
  let '(e, r3) :=
    match r2 with
    | String "e" t | String "E" t =>
        let '(eneg, t) := match t with String "-" t => (true, t) | String "+" t => (false, t) | _ => (false, t) end in
        let '(x, t) := span_digits t in
        match x with EmptyString => (0, r2) | _ => let n := digits x 0 in (if eneg : bool then - n else n, t) end
    | _ => (0, r2)
    end in
  match (a ++ b)%string with
  | EmptyString => None
  | n => Some (float_of neg (digits n 0) (e - Z.of_nat (String.length b)), r3)
  end.
(** The conversion to [int]; out of its range the processor gives the least value. *)
Definition float_to_int (x : spec_float) : Z :=
  match x with
  | S754_zero _ => 0
  | S754_finite neg p e =>
      let n := Z.shiftl (Zpos p) e in
      let v := if neg : bool then - n else n in
      if (int_min <=? v) && (v <=? int_max) then v else int_min
  | _ => int_min
  end.

(** ** ADSysInfo *)

(** [strstr()] from the character behind the last match on, until there is none. *)
Fixpoint count_string_occurance (s t : string) : Z :=
  match s with
  | EmptyString => 0
  | String _ r => (if String.prefix t s then 1 else 0) + count_string_occurance r t
  end.

Section info.
Context {H : Type} `{Host H}.
Implicit Types h : H.
Local Open Scope string_scope.
Local Open Scope Z_scope.

Definition read_whole_file h (path : string) : option string := host_file h path.

Definition get_cpu_cores h : Z :=
  match read_whole_file h "/proc/cpuinfo" with
  | None => -1 | Some arg => count_string_occurance arg "model name"
  end.
(** Two numbers one behind the other; the second is read only behind a first. *)
Definition get_current_and_average_load h (current average : spec_float) : Z * spec_float * spec_float :=
  match read_whole_file h "/proc/loadavg" with
  | None => (-1, current, average)
  | Some arg =>
      match scan_f arg with
      | None => (0, current, average)
      | Some (x, r) => (0, x, match scan_f r with Some (y, _) => y | None => average end)
      end
  end%Z.
Definition after (t s : string) : string := String.substring (String.length t) (String.length s) s.
Definition get_mem_and_free_mem h (mem_kb mem_free_kb : Z) : Z * Z * Z :=
  match read_whole_file h "/proc/meminfo" with
  | None => (-1, mem_kb, mem_free_kb)
  | Some arg =>
      match strstr arg "MemTotal:" with
      | None => (-1, mem_kb, mem_free_kb)
      | Some p =>
          let mem_kb := scan_d (after "MemTotal:" p) mem_kb in
          match strstr arg "MemFree:" with
          | None => (-1, mem_kb, mem_free_kb)
          | Some p => (0, mem_kb, scan_d (after "MemFree:" p) mem_free_kb)
          end
      end
  end%Z.
Definition get_uptime h (uptime : Z) : Z * Z :=
  match read_whole_file h "/proc/uptime" with
  | None => (-1, uptime)
  | Some arg => (0, float_to_int (match scan_f arg with Some (x, _) => x | None => S754_zero false end))
  end%Z.

Definition tab : string := String "009"%char EmptyString.
(** The name of the processor; and whether it fitted the arrays of 512 and 256 characters. *)
Definition get_cpu_model_name h (model : string) : Z * string * bool :=
  let fits n s := (String.length s <? n)%nat in
  let by_name arg model ok :=
    match strstr arg ("model name" ++ tab ++ ":") with
    | None => (-1, model, ok)
    | Some p => let m := scan_s (after ("model name" ++ tab ++ ":") p) model in (0, m, ok && fits 512%nat m)
    end%Z in
  match read_whole_file h "/proc/cpuinfo" with
  | None => (-1, model, true)
  | Some arg =>
      match strstr arg ("Processor" ++ tab ++ ":") with
      | None => by_name arg model true
      | Some p =>
          let m := scan_s (after ("Processor" ++ tab ++ ":") p) model in
          let ok := fits 256%nat m in
          if String.eqb (truncate 3 m) "ARM" then (0, m, ok) else by_name arg m ok
      end
  end%Z.

Record system_status := {
  mem : Z; memfree : Z; cores : Z; cur_load : Z; avg_load : Z; uptime : Z; cpu_model : string; status_fits : bool }.

(** [(int)((load / (float)cores) * 100.0)]: the quotient is a [float], the product a [double]. *)
Definition load_percent (load : spec_float) (cores : Z) : Z :=
  float_to_int (SFmul 53 1024 (SFdiv 24 128 load (float_of (cores <? 0)%Z (Z.abs cores) 0)) (exact false 100)).

(** The values start as 0, but for the name of the processor, which is not initialised. *)
Definition read_system_status h (junk_text : string) : system_status :=
  let n := get_cpu_cores h in
  let cores := if n <? 1 then 1 else n in
  let '(r1, cload, aload) := get_current_and_average_load h (S754_zero false) (S754_zero false) in
  let '(cur, avg) := if r1 =? 0 then (load_percent cload cores, load_percent aload cores) else (-1, -1) in
  let '(r2, m, f) := get_mem_and_free_mem h 0 0 in
  let '(m, f) := if r2 =? 0 then (m, f) else (-1, -1) in
  let '(r3, up) := get_uptime h 0 in
  let up := if r3 =? 0 then up else -1 in
  let '(r4, model, ok) := get_cpu_model_name h junk_text in
  let model := if r4 =? 0 then model else "unknown" in
  {| mem := m; memfree := f; cores := cores; cur_load := cur; avg_load := avg; uptime := up; cpu_model := model;
     status_fits := ok |}%Z.

(** The texts these functions write, and whether all of them fitted. *)
Definition read_mem_info h (junk_text : string) : string * string * string * bool :=
  let s := read_system_status h junk_text in
  (format_d (Z.quot (mem s) 1024), format_d (Z.quot (memfree s) 1024),
   format_d (Z.quot (i32 (mem s - memfree s)) 1024), status_fits s).
Definition read_load_info h (junk_text : string) : string * string * string * bool :=
  let s := read_system_status h junk_text in
  (format_d (cur_load s), format_d (avg_load s), format_d (uptime s), status_fits s).
Definition read_cpu_info h (junk_text : string) : string * string * string * bool :=
  let s := read_system_status h junk_text in (cpu_model s, format_d (cores s), "unknown", status_fits s).

(** *** The network *)

Definition MAX_IFS : nat := 64.
Definition MAX_ALLOWED_INTERFACES : nat := 8.
Record eth_name_ip_str := { dev : string; ip : string; mac : string; netmask : string }.

Definition hex_digit (n : Z) : ascii := ascii_of_nat (Z.to_nat (if n <? 10 then 48 + n else 55 + n)%Z).
Definition hex_byte (n : Z) : string := String (hex_digit (n / 16)) (String (hex_digit (n mod 16)) EmptyString).
Fixpoint format_mac (l : list Z) : string :=
  match l with [] => EmptyString | [n] => hex_byte n | n :: l => hex_byte n ++ ":" ++ format_mac l end.

(** The loop over the interfaces, [i] of which are in the list; the list has room for
    [MAX_ALLOWED_INTERFACES], and the second result says whether all fitted. *)
Fixpoint probe_from (i : nat) (l : list interface) : option (list eth_name_ip_str) * bool :=
  match l with
  | [] => (Some [], true)
  | x :: l =>
      match if_mac x with
      | None => (None, true)
      | Some m =>
          if (MAX_ALLOWED_INTERFACES <? i)%nat then (Some [], true)
          else
            let e := {| dev := if_name x; ip := if_ip x; mac := format_mac m;
                        netmask := default "not_available" (if_netmask x) |} in
            let '(r, ok) := probe_from (S i) l in (cons e <$> r, (i <? MAX_ALLOWED_INTERFACES)%nat && ok)
      end
  end.
Definition probe_eth_interface_details h : option (list eth_name_ip_str) * bool :=
  match host_interfaces h with None => (None, true) | Some l => probe_from 0 (take MAX_IFS l) end.

(** The address, the hardware address and the mask of an interface. *)
Record network_info := { n_mac : string; n_ip : string; n_netmask : string }.
Definition unknown_network : network_info := {| n_mac := "unknown"; n_ip := "unknown"; n_netmask := "unknown" |}.
Definition read_network_info h (eth : string) : Z * network_info * bool :=
  match probe_eth_interface_details h with
  | (None, ok) => (-1, unknown_network, ok)
  | (Some l, ok) =>
      match find_first (fun e => negb (String.eqb (dev e) "lo") && String.eqb (dev e) eth) l with
      | Some e => (0, {| n_mac := mac e; n_ip := ip e; n_netmask := netmask e |}, ok)
      | None => (-1, unknown_network, ok)
      end
  end%Z.
Definition read_network_info_ifconfig h (eth : string) (old : network_info) : Z * network_info * H :=
  let '(status, h) := host_system ("ifconfig | grep " ++ eth ++ " >/dev/null") h in
  if negb (status =? 0) then (-1, old, h)
  else
    match host_popen ("ifconfig | grep " ++ eth ++ " | awk '{print $5}'") h with
    | (None, h) => (-1, old, h)
    | (Some out, h) =>
        match fgets 250 out with
        | EmptyString => (-1, old, h)
        | line => (0, {| n_mac := chop line; n_ip := "NotConnected"; n_netmask := "NotConnected" |}, h)
        end
    end%Z.

Definition quoted (s : string) : string := let q := String "034"%char EmptyString in q ++ s ++ q.
(** The lines of [ifconfig] that begin the description of an interface. *)
Definition interface_lines : string :=
  "ifconfig | grep " ++ quoted "Link encap" ++ " | grep -v " ++ quoted "Local Loopback".
Definition get_total_eth_count h : Z * Z * H :=
  let '(status, h) := host_system (interface_lines ++ " >/dev/null") h in
  if negb (status =? 0) then (Rpc.SUCCESS, 0, h)
  else
    match host_popen (interface_lines ++ " | sed -n '$='") h with
    | (None, h) => (Rpc.FILE_OPEN_ERR, 0, h)
    | (Some out, h) => (Rpc.SUCCESS, match fgets 250 out with EmptyString => 0 | line => atoi line end, h)
    end%Z.
(** The name stays as it was when the command writes nothing. *)
Definition get_nth_eth_name h (index : Z) (name : string) : Z * string * H :=
  match host_popen (interface_lines ++ " | sed -n '" ++ format_d index ++ ",1p' | awk '{print $1}'") h with
  | (None, h) => (Rpc.FILE_OPEN_ERR, name, h)
  | (Some out, h) => (Rpc.SUCCESS, match fgets 250 out with EmptyString => name | line => chop line end, h)
  end.

(** *** Commands *)

(** The codes of exit a script reports. *)
Definition script_result (res : Z) : Z :=
  match res with
  | 0 => Rpc.SUCCESS | 1 => Rpc.FILE_OPEN_ERR | 2 => Rpc.FILE_READ_ERR | 3 => Rpc.FILE_WRITE_ERR
  | 4 => Rpc.ARG_ERROR | 5 => Rpc.ARG_ERROR | 6 => Rpc.HOST_NOT_REACHABLE_ERR | 7 => Rpc.FILE_SAME
  | 8 => Rpc.FILE_DIFFERENT | 9 => Rpc.FILE_NOT_FOUND | _ => Rpc.FAIL
  end%Z.
Definition run_shell_script h (script : string) (emulation : bool) : Z * H :=
  if emulation then (Rpc.SUCCESS, h)
  else let '(status, h) := host_system script h in (script_result (Z.quot status 256), h).
(** The first line of what a command writes; [ret_val] stays as it was when it writes nothing. *)
Definition run_shell_query h (cmd ret_val : string) : Z * string * H :=
  match host_popen cmd h with
  | (None, h) => (Rpc.FILE_OPEN_ERR, ret_val, h)
  | (Some out, h) => (Rpc.SUCCESS, match fgets 250 out with EmptyString => ret_val | line => line end, h)
  end.
End info.
