(* ===== verification/LogHandler.v ===== *)
(** * The log of the services (LogHandler.cpp, LogHandler.h of sysmgr)

    The system manager keeps the lines of the log that the services wrote in a chain, and
    reads them out one by one. *)
From S2P Require Import Prelude Common Text SysInfo.
From S2P Require GenericChain.
Import GenericChain (Chain.chain).
Module Chain := GenericChain.Chain.
Open Scope Z_scope.

Definition LOG_MSG_MATCH_STRING : string := "BRBOX".
Definition MAX_LOG_MESSAGE_LENGTH : nat := 512.
Record LOG_MSG_PACKET := { LineNum : Z; Msg : string }.
Record LogHandler := { logmsg_chain : Chain.chain LOG_MSG_PACKET; LogFilePath : string }.

Definition new_LogHandler (path : string) : LogHandler := {| logmsg_chain := Chain.empty_chain; LogFilePath := path |}.
Definition with_chain (l : LogHandler) (c : Chain.chain LOG_MSG_PACKET) : LogHandler :=
  {| logmsg_chain := c; LogFilePath := LogFilePath l |}.

(** [identify_chain_element()] *)
Definition identify_line (ident : Z) (e : LOG_MSG_PACKET) : bool := LineNum e =? ident.

(** The commands: one line of those that match, and their number. *)
Definition line_command (log_filepath match_string : string) (line : Z) : string :=
  ("grep " ++ match_string ++ " " ++ log_filepath ++ " | sed '" ++ format_d line ++ "," ++ format_d line ++ "!d' ")%string.
Definition count_command (log_filepath match_string : string) : string :=
  ("grep " ++ match_string ++ " " ++ log_filepath ++ " | sed -n '$='")%string.

Section log.
Context {H : Type} `{Host H}.
Implicit Types (l : LogHandler) (h : H).

Definition grep_log_message_line h (log_filepath match_string : string) (line : Z) : option string * H :=
  match host_popen (line_command log_filepath match_string line) h with
  | (None, h) => (None, h)
  | (Some out, h) =>
      (match fgets (MAX_LOG_MESSAGE_LENGTH - 2) out with EmptyString => None | message => Some message end, h)
  end.
Definition push_log_message (line : Z) (message : string) (c : Chain.chain LOG_MSG_PACKET) : Z * Chain.chain LOG_MSG_PACKET :=
  let '(ret, c) := Chain.put c {| LineNum := line; Msg := message |} in (if ret =? 0 then 0 else -1, c).

(** The loop of [update_logmsg_chain()] for [n] lines from the one with index [i] on. *)
Fixpoint update_from (n : nat) (i : Z) l h (log_filepath match_string : string) : LogHandler * H :=
  match n with
  | O => (l, h)
  | S n =>
      let '(found, h) := grep_log_message_line h log_filepath match_string (i + 1) in
      let l := match found with
               | Some msg => with_chain l (push_log_message (i + 1) msg (logmsg_chain l)).2
               | None => l
               end in
      update_from n (i + 1) l h log_filepath match_string
  end.
Definition update_logmsg_chain l h (log_filepath match_string : string) (total_lines : Z) : LogHandler * H :=
  update_from (Z.to_nat total_lines) 0 (with_chain l (Chain.empty (logmsg_chain l)).2) h log_filepath match_string.
Definition read_log_message_count l h (log_filepath match_string : string) : Z * LogHandler * H :=
  match host_popen (count_command log_filepath match_string) h with
  | (None, h) => (Rpc.FILE_OPEN_ERR, l, h)
  | (Some out, h) =>
      match fgets 250 out with
      | EmptyString => (Rpc.ITEM_NOT_FOUND, l, h)
      | line => let '(l, h) := update_logmsg_chain l h log_filepath match_string (atoi line) in (Rpc.SUCCESS, l, h)
      end
  end.
Definition Is_it_valid_file h (filepath : string) : Z := if host_is_file h filepath then 0 else -1.
(** [remove_all()] takes the elements out and leaves the counter of identifiers. *)
Definition UpdateLogList l h : Z * LogHandler * H :=
  if negb (Is_it_valid_file h (LogFilePath l) =? 0) then (Rpc.FILE_READ_ERR, l, h)
  else
    let l := with_chain l (Chain.set_items (logmsg_chain l) []) in
    let '(_, l, h) := read_log_message_count l h (LogFilePath l) LOG_MSG_MATCH_STRING in (Rpc.SUCCESS, l, h).
Definition GetLogLines l : Z := Chain.size (logmsg_chain l).
Definition read_log_message_line l (line_num : Z) : Z * option string :=
  match Chain.lookup (identify_line (i32 (line_num + 1))) (logmsg_chain l) with
  | None => (Rpc.ITEM_NOT_FOUND, None)
  | Some e => (Rpc.SUCCESS, Some (Msg e))
  end.

(** ** The lines read are the lines of the log *)

(** What [grep] and [sed] do: [matched h] are the lines of the file that match. *)
Class GrepLaws (path : string) (matched : H -> list string) : Prop := {
  grep_count : forall h, exists h',
    host_popen (count_command path LOG_MSG_MATCH_STRING) h =
      (Some match matched h with [] => EmptyString | k => (format_d (Z.of_nat (length k)) ++ endl)%string end, h') /\
    matched h' = matched h;
  grep_line : forall h (i : nat) x, matched h !! i = Some x -> exists h',
    host_popen (line_command path LOG_MSG_MATCH_STRING (Z.of_nat i + 1)) h = (Some (x ++ endl)%string, h') /\
    matched h' = matched h;
}.

(** A line as it is kept, with its end, unless it is too long. *)
Definition kept (x : string) : string := fgets (MAX_LOG_MESSAGE_LENGTH - 2) (x ++ endl)%string.
Definition numbered (n : nat) (k : list string) : list LOG_MSG_PACKET :=
  imap (fun i x => {| LineNum := Z.of_nat (n + i) + 1; Msg := kept x |}) k.

Context (path : string) (matched : H -> list string) `{!GrepLaws path matched}.

Lemma kept_some x : kept x <> EmptyString.
Proof. unfold kept. by destruct x as [|c x]. Qed.

Lemma update_from_lines k (n : nat) l h (c0 : list string) :
  Chain.open (logmsg_chain l) = true -> matched h = c0 ++ k -> n = length c0 ->
  exists l' h', update_from (length k) (Z.of_nat n) l h path LOG_MSG_MATCH_STRING = (l', h') /\ matched h' = matched h /\
    Chain.items (logmsg_chain l') = Chain.items (logmsg_chain l) ++ numbered n k /\ LogFilePath l' = LogFilePath l /\
    Chain.attached (logmsg_chain l') = Chain.attached (logmsg_chain l) /\ Chain.open (logmsg_chain l') = true.
Proof.
  revert n l h c0. induction k as [|x k IH]; intros n l h c0 Ho Hm ->; simpl.
  - exists l, h. by rewrite app_nil_r.
  - destruct (grep_line h (length c0) x) as (h1 & E & Hm1); [rewrite Hm; by apply list_lookup_middle|].
    unfold grep_log_message_line. rewrite E. fold (kept x). pose proof (kept_some x).
    destruct (kept x) as [|c t] eqn:Ek; [done|]. unfold push_log_message, Chain.put. rewrite Ho. simpl.
    replace (Z.of_nat (length c0) + 1) with (Z.of_nat (S (length c0))) by lia.
    set (c1 := {| Chain.items := _ |}).
    destruct (IH (S (length c0)) (with_chain l c1) h1 (c0 ++ [x])) as (l' & h' & E' & Hm' & Hi & Hp & Ha & Ho');
      [done|by rewrite Hm1, Hm, <- app_assoc|rewrite length_app; simpl; lia|].
    exists l', h'. rewrite E'. split_and!; [done|by rewrite Hm'| |done|done|done].
    rewrite Hi. simpl. rewrite <- app_assoc. f_equal. unfold numbered. simpl. rewrite Ek, Nat.add_0_r.
    f_equal; [f_equal; lia|]. apply imap_ext. intros i y _. simpl. do 2 f_equal. lia.
Qed.

Lemma lookup_numbered k (n : nat) (j : Z) :
  0 <= j -> find_first (identify_line (Z.of_nat n + j + 1)) (numbered n k) =
    (fun x => {| LineNum := Z.of_nat n + j + 1; Msg := kept x |}) <$> k !! Z.to_nat j.
Proof.
  revert n j. induction k as [|x k IH]; intros n j Hj; [done|]. unfold numbered. simpl.
  unfold identify_line at 1. simpl. rewrite Nat.add_0_r. destruct (Z.eqb_spec (Z.of_nat n + 1) (Z.of_nat n + j + 1)).
  - replace j with 0 by lia. simpl. do 2 f_equal. lia.
  - rewrite (imap_ext _ (fun i x => {| LineNum := Z.of_nat (S n + i) + 1; Msg := kept x |}))
      by (intros; simpl; do 2 f_equal; lia).
    replace (Z.of_nat n + j + 1) with (Z.of_nat (S n) + (j - 1) + 1) by lia. fold (numbered (S n) k).
    rewrite IH by lia. replace (Z.to_nat j) with (S (Z.to_nat (j - 1))) by lia. done.
Qed.

(** After the log was read again, the number of lines is the number of lines of the
    file that match, and the line with an index is the line at that place, with its end
    and cut to what the packet holds; there is no line at any other index.  When the file
    is not there, what was read before stays. *)
Theorem log_lines_read l h :
  LogFilePath l = path -> Chain.open (logmsg_chain l) = true -> Chain.attached (logmsg_chain l) = true ->
  Z.of_nat (length (matched h)) <= int_max ->
  let '(code, l', h') := UpdateLogList l h in
  if host_is_file h path
  then code = Rpc.SUCCESS /\ matched h' = matched h /\ GetLogLines l' = Z.of_nat (length (matched h)) /\
       forall i, 0 <= i < int_max -> read_log_message_line l' i =
         match matched h !! Z.to_nat i with
         | Some x => (Rpc.SUCCESS, Some (kept x)) | None => (Rpc.ITEM_NOT_FOUND, None) end
  else code = Rpc.FILE_READ_ERR /\ l' = l /\ h' = h.
Proof.
  intros Hp Ho Ha Hlen. unfold UpdateLogList, Is_it_valid_file. rewrite Hp. destruct (host_is_file h path); simpl; [|done].
  rewrite Hp. unfold read_log_message_count. destruct (grep_count h) as (h1 & E & Hm1). rewrite E.
  assert (forall c, Chain.attached c = true -> Chain.items c = numbered 0 (matched h) ->
    Chain.size c = Z.of_nat (length (matched h)) /\
    forall l' i, logmsg_chain l' = c -> 0 <= i < int_max -> read_log_message_line l' i =
      match matched h !! Z.to_nat i with Some x => (Rpc.SUCCESS, Some (kept x)) | None => (Rpc.ITEM_NOT_FOUND, None) end) as Hend.
  { intros c Hca Hc. unfold Chain.size. rewrite Hc. unfold numbered. rewrite length_imap. split; [done|].
    intros l' i Hl' Hi. unfold read_log_message_line, Chain.lookup. rewrite Hl', Hca, Hc.
    rewrite i32_id by (unfold int_max, int_min in *; lia). pose proof (lookup_numbered (matched h) 0 i) as Hf.
    change (Z.of_nat 0 + i + 1) with (0 + i + 1) in Hf. rewrite Z.add_0_l in Hf. rewrite Hf by lia. by destruct (matched h !! Z.to_nat i). }
  destruct (matched h) as [|x k] eqn:Em.
  - simpl. destruct (Hend (Chain.set_items (logmsg_chain l) [])) as [Hs Hr]; [done|done|].
    split_and!; [done|done|exact Hs|]. intros i Hi. by apply Hr.
  - set (n := Z.of_nat (length (x :: k))) in *. rewrite fgets_line by
      (apply format_d_has || (pose proof (format_d_length n); lia); done).
    destruct (format_d n ++ endl)%string as [|c t] eqn:Et; [by destruct (format_d n)|].
    rewrite <- Et, atoi_line, atoi_format_d by (unfold int_min; lia). unfold update_logmsg_chain, n.
    rewrite Nat2Z.id. set (l0 := with_chain _ (Chain.empty _).2).
    destruct (update_from_lines (x :: k) 0 l0 h1 []) as (l' & h' & Eu & Hm' & Hi & _ & Ha' & _);
      [done|by rewrite Hm1|done|].
    change (Z.of_nat 0) with 0 in Eu. rewrite Eu. simpl in Hi.
    destruct (Hend (logmsg_chain l')) as [Hs Hr]; [by rewrite Ha'|done|].
    split_and!; [done|by rewrite Hm'|exact Hs|]. intros i Hl. by apply Hr.
Qed.
End log.

(** ** The property at a concrete log *)

Module Log.
Definition log_file : string := "/tmp/messages".
Definition brbox_lines : list string := ["12:00 BRBOX started"; "12:05 BRBOX event"]%string.
Definition answer (cmd : string) : string :=
  if (cmd =? count_command log_file LOG_MSG_MATCH_STRING)%string then ("2" ++ endl)%string
  else default EmptyString (find_first (fun _ => true)
    (omap (fun x => x) (imap (fun i x => if (cmd =? line_command log_file LOG_MSG_MATCH_STRING (Z.of_nat i + 1))%string
                                          then Some (x ++ endl)%string else None) brbox_lines))).
#[export] Instance machine : Host () := {
  host_system _ h := (0, h);
  host_popen cmd h := (Some (answer cmd), h);
  host_file _ _ := None;
  host_write _ _ h := (false, h);
  host_interfaces _ := None;
  host_is_file _ path := (path =? log_file)%string;
}.
#[export] Instance machine_greps : GrepLaws log_file (fun _ : () => brbox_lines).
Proof.
  constructor.
  - intros []. exists (). split; [vm_compute; reflexivity|done].
  - intros [] i x Hx. exists (). split; [|done]. do 2 (destruct i as [|i]; [injection Hx as <-; vm_compute; reflexivity|]). done.
Qed.
End Log.
Import Log.

Lemma log_lines_read_witness :
  let '(_, l, _) := UpdateLogList (new_LogHandler Log.log_file) () in
  GetLogLines l = 2 /\ read_log_message_line l 1 = (Rpc.SUCCESS, Some ("12:05 BRBOX event" ++ endl)%string).
Proof.
  pose proof (log_lines_read Log.log_file (fun _ => Log.brbox_lines) (new_LogHandler Log.log_file) () eq_refl eq_refl eq_refl
    ltac:(vm_compute; discriminate)) as Hw.
  destruct (UpdateLogList _ _) as [[code l] h]. destruct Hw as (_ & _ & Hn & Hr). split; [exact Hn|].
  rewrite Hr by (unfold int_max; lia). vm_compute. reflexivity.
Defined.
