(* ===== verification/Services.v ===== *)
(** * What the services share (ADCommon.hpp, as the services use it)

    The macros with which a service makes its packets and reads string parameters, and the
    way of one call through the manager to an attached object and back. *)
From S2P Require Import Prelude Common TaskWorker TaskCalls RpcMgr RpcMgrSpec.
From S2P Require Proxy.
Open Scope Z_scope.

(** ** Packets and parameters *)

Section packets.
Context {P J D : Type} `{JsonC J D}.
Abbreviation request := (RPC_SRV_REQ P).
Abbreviation comm := (JsonDataCommObj J).

(** [PREPARE_JSON_REQUEST] of a service: its packet, the action and its number of the call. *)
Definition PREPARE_REQUEST (r : request) (p : P) (action cmd : Z) : request :=
  set_packet (prepare_req_object set_action r action cmd).2 (ServicePacket p).
Definition service_packet (r : request) (p : P) : request := set_packet r (ServicePacket p).

(** [JSON_STRING_TO_STRING] into an array of [size] characters. *)
Definition with_string (d : comm) (r : request) (name : string) (size : nat) (k : string -> Z * comm * request)
  : Z * comm * request :=
  match JSON_STRING_TO_STRING (D := D) (socket_data d) name size with Some v => k v | None => invalid_param d r end.
End packets.

(** [strncpy()] into an array of [size] characters, read as a string: [rest] is what is
    behind the array. *)
Definition strncpy (size : nat) (src rest : string) : string :=
  if (String.length src <? size)%nat then src else (truncate size src ++ rest)%string.

Section parameters.
Context {P J D : Type} `{JsonC J D}.
Implicit Types (d : JsonDataCommObj J) (r : RPC_SRV_REQ P).

(** A parameter is cut after 254 characters, less than the arrays of the packets hold. *)
Lemma param_value_short text name v : param_value (D := D) text name = Some v -> (String.length v <= 254)%nat.
Proof.
  unfold param_value, find_single_param. cbn [Nat.eqb]. destruct (json_tokener_parse _) as [o|]; [|done].
  destruct (string_opt _); [|done]. destruct (string_opt _) as [src|]; [|done].
  destruct (Nat.leb_spec 255 (String.length src)); intros [= <-]; rewrite truncate_length; lia.
Qed.

Lemma adlib_copy_fits size v : (String.length v < size)%nat -> adlib_copy_param size v = v.
Proof.
  intros Hv. unfold adlib_copy_param. destruct (Nat.leb_spec size (String.length v)); [lia|].
  apply truncate_all.
Qed.

Definition argument d (name : string) : string := default EmptyString (param_value (D := D) (socket_data d) name).

Lemma argument_short d name : (String.length (argument d name) <= 254)%nat.
Proof. unfold argument. destruct (param_value _ _) as [v|] eqn:E; simpl; [by eapply param_value_short|lia]. Qed.

(** What a parameter handler does with the parameters of a request. *)
Lemma with_string_spec d r name size k :
  (254 < size)%nat ->
  with_string (D := D) d r name size k =
    if param_ok (D := D) (socket_data d) (name, None) then k (argument d name) else invalid_param d r.
Proof.
  intros Hs. unfold with_string, JSON_STRING_TO_STRING, param_ok, argument. simpl.
  destruct (param_value _ _) as [v|] eqn:Ev; simpl; [|done]. apply param_value_short in Ev.
  by rewrite adlib_copy_fits by lia.
Qed.

(** The place of a text in a table, and the value of a parameter that is one of its texts. *)
Fixpoint index_of (x : string) (l : list string) : nat :=
  match l with [] => 0 | y :: l => if (y =? x)%string then 0 else S (index_of x l) end.
Definition choice d (name : string) (l : list string) : Z := Z.of_nat (index_of (argument d name) l).

Lemma index_of_lt x l : x ∈ l -> (index_of x l < length l)%nat.
Proof.
  induction l as [|y l IH]; simpl; [by intros ?%elem_of_nil|]. intros Hx. destruct (String.eqb_spec y x); [lia|].
  apply elem_of_cons in Hx as [->|Hx]; [done|]. specialize (IH Hx). lia.
Qed.
Lemma index_of_at x y l (i : nat) : NoDup l -> l !! i = Some y -> x ∈ l -> (Z.of_nat (index_of x l) =? Z.of_nat i) = (x =? y)%string.
Proof.
  revert i. induction l as [|z l IH]; intros i Hnd Hi Hx; [done|]. apply NoDup_cons in Hnd as [Hz Hnd]. simpl.
  destruct (String.eqb_spec z x) as [->|Hne].
  - destruct i as [|i]; simpl in Hi; [injection Hi as ->; by rewrite String.eqb_refl|].
    destruct (String.eqb_spec x y) as [->|]; [by apply list_elem_of_lookup_2 in Hi|]. by apply Z.eqb_neq.
  - apply elem_of_cons in Hx as [->|Hx]; [done|]. destruct i as [|i]; simpl in Hi.
    + injection Hi as ->. destruct (String.eqb_spec x y) as [->|]; [done|]. apply Z.eqb_neq. lia.
    + rewrite <- (IH i Hnd Hi Hx). destruct (Z.eqb_spec (Z.of_nat (index_of x l)) (Z.of_nat i)), (Z.eqb_spec (Z.of_nat (S (index_of x l))) (Z.of_nat (S i))); done || lia.
Qed.
Lemma string_to_enum_index table x (n i : nat) :
  (n <= length table)%nat -> x ∈ take n table ->
  string_to_enum_from table x i n = Some (Z.of_nat (i + index_of x (take n table))).
Proof.
  revert n i. induction table as [|y l IH]; intros [|n] i Hn Hx; simpl in *; try lia; try (by apply elem_of_nil in Hx).
  destruct (String.eqb_spec y x) as [->|Hne]; [by rewrite Nat.add_0_r|].
  apply elem_of_cons in Hx as [->|Hx]; [done|]. rewrite IH by (lia || done). do 2 f_equal. lia.
Qed.
(** A parameter that has to be one of the first [max] texts of a table. *)
Lemma with_enum_choice d r name table (max : nat) k :
  (max <= length table)%nat ->
  with_enum (D := D) d r name table (Z.of_nat max) k =
    if param_ok (D := D) (socket_data d) (name, Some (take max table)) then k (choice d name (take max table)) else invalid_param d r.
Proof.
  intros Hl. rewrite with_enum_spec by done. unfold param_ok. cbn [fst snd].
  destruct (param_value _ _) as [v|] eqn:Ev; [|done]. destruct (bool_decide_reflect (v ∈ take max table)) as [Hv|]; [|done].
  unfold choice, argument, JSON_STRING_TO_ENUM, string_to_enum. rewrite Ev. cbn [default mbind option_bind from_option].
  unfold id. rewrite Nat2Z.id, (string_to_enum_index table v max 0 Hl Hv). cbn [mbind option_bind]. rewrite Nat.add_0_l.
  pose proof (index_of_lt v _ Hv) as Hi. rewrite length_take in Hi.
  destruct (Z.geb_spec (Z.of_nat (index_of v (take max table))) (Z.of_nat max)); [lia|done].
Qed.
Lemma param_one_of d name l : param_ok (D := D) (socket_data d) (name, Some l) = true -> argument d name ∈ l.
Proof.
  unfold param_ok, argument. cbn [fst snd]. destruct (param_value _ _) as [v|]; [|done]. by intros ?%bool_decide_eq_true.
Qed.
Lemma with_int_argument d r name k :
  with_int (D := D) d r name k = if param_ok (D := D) (socket_data d) (name, None) then k (atoi (argument d name)) else invalid_param d r.
Proof. rewrite with_int_spec. unfold param_ok, argument. cbn [fst snd]. by destruct (param_value _ _). Qed.
End parameters.

(** ** A call through the manager *)

Section call.
Context {W S P J D : Type} `{JsonCLaws J D} `{TaskService W} `{RpcService S P J}.
Variable (junk : Z) (junk_text : string).
Implicit Types (m : ADJsonRpcMgr W S) (d : JsonDataCommObj J) (r : RPC_SRV_REQ P).

(** A call for the object at [i], in its three steps. *)
Lemma call_served m d (i : nat) o r s1 z r2 s2 m2 ret d' s3 :
  rpclist m !! i = Some o -> cmd_index d = Z.of_nat i + EJSON_RPCGMGR_CMD_END ->
  svc_MapJsonToBinary i (service m) d (create_req_obj junk d) (index o) = (0, d, r, s1) ->
  run_handler (with_service m s1) (svc_ProcessWork i s1 d r (index o)) = ((z, r2, s2), m2) ->
  rpclist m2 = rpclist m ->
  svc_MapBinaryToJson i s2 d r2 (index o) = (ret, d', s3) ->
  serve (P := P) (D := D) junk junk_text m d = (0, d', with_service m2 s3).
Proof.
  intros Ho Ed E1 E2 El E3. assert ((cmd_index d >=? EJSON_RPCGMGR_CMD_END) = true) as Hge by (apply Z.geb_le; lia).
  assert (forall m', rpclist m' = rpclist m -> page_handler m' (cmd_index d) = Some (i, o)) as Hp
    by (intros m' E; rewrite Ed; apply page_handler_at; by rewrite E).
  unfold serve. cbn [Proxy.process_json_to_binary Proxy.process_work Proxy.process_binary_to_json manager_consumer].
  rewrite Hge. unfold RpcMgr.MapJsonToBinary. rewrite Hp, E1 by done. cbn [Z.eqb]. unfold RpcMgr.ProcessWork.
  rewrite Hp by done. cbn [service with_service]. rewrite E2. rewrite Hge. unfold RpcMgr.MapBinaryToJson.
  rewrite Hp by exact El. cbn [service with_service]. by rewrite E3.
Qed.

(** A call whose work needs no task. *)
Lemma call_done m d (i : nat) o r s1 z r2 s2 ret d' s3 :
  rpclist m !! i = Some o -> cmd_index d = Z.of_nat i + EJSON_RPCGMGR_CMD_END ->
  svc_MapJsonToBinary i (service m) d (create_req_obj junk d) (index o) = (0, d, r, s1) ->
  svc_ProcessWork i s1 d r (index o) = Done (z, r2, s2) ->
  svc_MapBinaryToJson i s2 d r2 (index o) = (ret, d', s3) ->
  serve (P := P) (D := D) junk junk_text m d = (0, d', with_service m s3).
Proof.
  intros Ho Ed E1 E2 E3. rewrite (call_served m d i o r s1 z r2 s2 (with_service m s1) ret d' s3 Ho Ed E1); try done.
  by rewrite E2.
Qed.

(** A call that is refused. *)
Lemma call_refused m d (i : nat) o ret r d' :
  rpclist m !! i = Some o -> cmd_index d = Z.of_nat i + EJSON_RPCGMGR_CMD_END ->
  svc_MapJsonToBinary i (service m) d (create_req_obj junk d) (index o) = (ret, d', r, service m) ->
  ret <> 0 -> serve (P := P) (D := D) junk junk_text m d = (ret, d', m).
Proof.
  intros Ho Ed E1 Hret. assert ((cmd_index d >=? EJSON_RPCGMGR_CMD_END) = true) as Hge by (apply Z.geb_le; lia).
  assert (page_handler m (cmd_index d) = Some (i, o)) as Hp by (rewrite Ed; by apply page_handler_at).
  unfold serve. cbn [Proxy.process_json_to_binary manager_consumer]. rewrite Hge. unfold RpcMgr.MapJsonToBinary.
  rewrite Hp, E1. apply Z.eqb_neq in Hret. rewrite Hret. by destruct m.
Qed.

(** A response without values. *)
Lemma plain_answer d r code : rq_result r = code -> 0 <= code ->
  exists d', PREPARE_JSON_RESP (D := D) d r = Some d' /\ responds d' code [].
Proof. intros <- Hc. by apply resp_plain. Qed.
End call.
