(* ===== verification/SysRpc.v ===== *)
(** * The system manager's calls (SysRpc.cpp, SysmgrJsonDef.h)

    The class [SysRpc] of the service that answers for the machine: its load and memory,
    firmware, files, host name, log and shell commands.  Its objects share the data cache
    of the service; each has flags of its own that say which values it has cached. *)
From S2P Require Import Prelude Common Text TaskWorker TaskCalls RpcMgr SysInfo LogHandler Services.
Open Scope Z_scope.

(** ** The calls *)

(** [EJSON_SYSMGR_RPC_TYPES] *)
Inductive EJSON_SYSMGR_RPC_TYPES :=
| GET_MAC_ADDR | SET_MAC_ADDR | GET_ETH_COUNT | GET_ETH_NAME | GET_LOADINFO | GET_MEMINFO | GET_CPUINFO
| GET_DEV_OP | SET_DEV_OP | GET_FMWVER | GET_BOOT_SYSTEM | SET_FMWUPDATE | SET_DOWNLOADFTP | SET_DOWNLOADTFTP
| GET_ASYNCTASK | GET_DEVTYPE | GET_HOSTNAME | SET_HOSTNAME | GET_MY_PUBLIC_IP | SET_DEFAULT_HOSTNAME
| SET_UPDATE_LOG | GET_LOG_COUNT | GET_LOG_LINE | GET_IP_ADDR | SET_IP_ADDR | GET_NETMASK | SET_NETMASK
| RUN_SHELLCMD | DEVIDENT | EVNT_SUBSCRIBE | DISP_CLEAR | DISP_PRINT | DISP_GET_BKLT | DISP_SET_BKLT
| RUN_SHELLCMDTRIG.
#[export] Instance EJSON_SYSMGR_RPC_TYPES_eq_dec : EqDecision EJSON_SYSMGR_RPC_TYPES.
Proof. solve_decision. Defined.

Definition sysmgr_rpc_types : list EJSON_SYSMGR_RPC_TYPES :=
  [GET_MAC_ADDR; SET_MAC_ADDR; GET_ETH_COUNT; GET_ETH_NAME; GET_LOADINFO; GET_MEMINFO; GET_CPUINFO;
   GET_DEV_OP; SET_DEV_OP; GET_FMWVER; GET_BOOT_SYSTEM; SET_FMWUPDATE; SET_DOWNLOADFTP; SET_DOWNLOADTFTP;
   GET_ASYNCTASK; GET_DEVTYPE; GET_HOSTNAME; SET_HOSTNAME; GET_MY_PUBLIC_IP; SET_DEFAULT_HOSTNAME;
   SET_UPDATE_LOG; GET_LOG_COUNT; GET_LOG_LINE; GET_IP_ADDR; SET_IP_ADDR; GET_NETMASK; SET_NETMASK;
   RUN_SHELLCMD; DEVIDENT; EVNT_SUBSCRIBE; DISP_CLEAR; DISP_PRINT; DISP_GET_BKLT; DISP_SET_BKLT;
   RUN_SHELLCMDTRIG].
(** The number of a call is its place in the enumeration. *)
Fixpoint place (c : EJSON_SYSMGR_RPC_TYPES) (l : list EJSON_SYSMGR_RPC_TYPES) : Z :=
  match l with [] => 0 | x :: l => if decide (x = c) then 0 else 1 + place c l end.
Definition rpc_index (c : EJSON_SYSMGR_RPC_TYPES) : Z := place c sysmgr_rpc_types.
Definition rpc_type (idx : Z) : option EJSON_SYSMGR_RPC_TYPES := if idx <? 0 then None else sysmgr_rpc_types !! Z.to_nat idx.
Definition EJSON_SYSMGR_RPC_NONE : Z := 36.

(** ** Values and packets *)

Definition SYSMGR_RPC_DEV_OP_ARG_TABL : list string :=
  ["idle"; "on"; "laststate"; "standby"; "reboot"; "booting"; "rebooting"; "switchingoff"; "boot"; "unknown"; "none"]%string.
Definition DEV_OP_IDLE : Z := 0.
Definition DEV_OP_ON : Z := 1.
Definition DEV_OP_STANDBY : Z := 3.
Definition DEV_OP_REBOOT : Z := 4.
Definition DEV_OP_UNKNOWN : Z := 9.
Definition SYSMGR_RPC_FMW_VER_ARG_TABL : list string :=
  ["current"; "backup"; "kernel"; "project"; "brbox1"; "brbox2"; "unknown"; "none"]%string.
Definition FMW_MODULE_BRBOX_CURRENT : Z := 0.
Definition FMW_MODULE_BRBOX_BACKUP : Z := 1.
Definition FMW_MODULE_BRBOX_PROJECT : Z := 3.
Definition FMW_MODULE_UNKNOWN : Z := 6.
Definition SYSMGR_RPC_BOOT_SYSTEM_ARG_TABL : list string := ["brbox1"; "brbox2"; "unknown"; "none"]%string.
Definition BOOT_SYSTEM_UNKNOWN : Z := 2.
Definition SYSMGR_RPC_ASYNCTASK_ARG_TABL : list string :=
  ["devop"; "fupdate"; "ftpdownload"; "tftpdownload"; "loglistupdt"; "shellcmd"; "devident"; "shellcmdtrig"; "none"; "none"]%string.
Definition ASYNCTASK_UNKNOWN : Z := 8.
Definition ADCMN_BOARD_TYPE_TABLE : list string :=
  ["RASPI_A"; "RASPI_APLUS"; "RASPI_B"; "RASPI_BPLUS"; "RASPI_B2"; "BAYTRAIL"; "BAYTRAIL_I210"; "BBB"; "RASPI_0"; "RASPI_0W";
   "RASPI_3"; "X86_64"; "X86_32"; "A5_V11"; "NEXX_3020"; "GL_MT300NV2"; "RASPI_2"; "RASPI_4"; "Unknown"; "none"]%string.
Definition BOARD_TYPE_UNKNOWN : Z := 18.
Definition BOARD_TYPE_GL_MT300NV2 : Z := 15.

Definition SYSMGR_BRDSK_TOOL : string := "brdskmgr".
Definition SYSMGR_TEMP_FMW_READ_FILE : string := "/tmp/temp-fmw-ver.txt".
Definition SYSMGR_UPDATE_TOOL : string := "update".
Definition MIPS_UPDATE_TOOL : string := "mips-update.sh".
Definition HOST_NAME_FILE_PATH : string := "/mnt/settings/etc/hostname".
Definition DEF_HOST_NAME_FILE_PATH : string := "/etc/hostname".
Definition SHELLCMD_RESP_FILE_PATH : string := "/tmp/shellcmd.resp".

(** The structs [SYSMGR_..._PACKET], with the fields the calls use. *)
Inductive sysmgr_packet :=
| MAC_ADDR_PACKET (eth_type : Z) (mac_addr : string) (EthCountIndx : Z) (eth_name : string)
| NET_INFO_PACKET (eth_type : Z) (addr eth_name : string)
| LOAD_INFO_PACKET (cur_load avg_load uptime : string)
| MEM_INFO_PACKET (mem memfree memused : string)
| CPU_INFO_PACKET (cpu_model cpu_cores cpu_freq : string)
| DEV_OP_PACKET (operation taskID : Z)
| FMW_MODULE_PACKET (module : Z) (cmn_fname_ver_str : string) (taskID : Z)
| BOOT_SYSTEM_PACKET (system : Z)
| DOWNLOAD_FILE_PACKET (srcurl sourcefilepath targetfilepath : string) (taskID : Z)
| ASYNCTASK_PACKET (task : Z)
| DEVTYPE_PACKET (DevType : Z)
| HOSTNAME_PACKET (hostname : string)
| MY_PUBLIC_IP_PACKET (ip : string)
| LOG_PACKET (index total : Z) (logmsg : string) (taskID : Z)
| SHELLCMD_PACKET (cmd : string) (taskID : Z)
| DEVIDENT_PACKET (taskID : Z)
| EVNT_SUBSCR_PACKET (taskID : Z)
| PRINT_PACKET (line : Z) (msg : string) (bklsts : Z).

(** The sizes of the arrays. *)
Definition FNAME_SIZE : nat := 512.
Definition PATH_SIZE : nat := 1024.
Definition FMWVER_SIZE : nat := 100.
Definition HOSTNAME_SIZE : nat := 1024.
Definition SHELLCMD_SIZE : nat := 1024.
Definition CMDLINE_SIZE : nat := 512.

(** ** The state of the service *)

(** How a board shows which one it is: the class of its [DevIdent] object. *)
Inductive dev_ident := DevIdentRaspiAZero | DevIdentA5V11 | DevIdentNexx3020 | DevIdentGlMt300nv2.

(** [EvntMonitEntry], as far as a subscription needs it. *)
Record EvntMonitEntry := {
  mon_ip : string; mon_port : Z; mon_srvToken : Z; mon_evntType : Z; mon_subscription : Z; mon_subscription_sts : bool }.

(** What does not change: the board, the configuration and whether the machine is emulated. *)
Record ADCMN_DEV_INFO := { BoardType : Z; SyscfgType : Z; emulation_flag : bool }.

(** The values cached, and the objects (by their positions) that have set their flag. *)
Record versions := {
  crnt_fmwver : string; bkup_fmwver : string; bootsys : Z;
  crnt_fmwver_updated : gset nat; bkup_fmwver_updated : gset nat; boot_system_updated : gset nat }.

(** [SYSMGR_CMN_DATA_CACHE], with the machine, the packets allocated for tasks, and whether
    something was written behind an array; of the default event handler its token and
    whether its subscription is active. *)
Record SYSMGR_CMN_DATA_CACHE (H : Type) := {
  machine : H;
  pDevInfo : ADCMN_DEV_INFO;
  DevOp : Z;
  cached : versions;
  AsyncCmdInProgress : Z;
  pLogger : LogHandler;
  pDevIdent : option dev_ident;
  pEventCustom : option (list EvntMonitEntry);
  pEventDefault : option (Z * bool);
  pDisplay : bool;
  work_packets : gmap Z sysmgr_packet;
  next_packet : Z;
  overrun : bool;
}.
Arguments machine {H}. Arguments pDevInfo {H}. Arguments DevOp {H}. Arguments cached {H}. Arguments AsyncCmdInProgress {H}.
Arguments pLogger {H}. Arguments pDevIdent {H}. Arguments pEventCustom {H}. Arguments pEventDefault {H}. Arguments pDisplay {H}.
Arguments work_packets {H}. Arguments next_packet {H}. Arguments overrun {H}. Arguments Build_SYSMGR_CMN_DATA_CACHE {H}.

Section setters.
Context {H : Type}.
Implicit Types s : SYSMGR_CMN_DATA_CACHE H.
Definition with_machine s (h : H) : SYSMGR_CMN_DATA_CACHE H :=
  Build_SYSMGR_CMN_DATA_CACHE h (pDevInfo s) (DevOp s) (cached s) (AsyncCmdInProgress s) (pLogger s) (pDevIdent s)
    (pEventCustom s) (pEventDefault s) (pDisplay s) (work_packets s) (next_packet s) (overrun s).
Definition with_devop s (op : Z) : SYSMGR_CMN_DATA_CACHE H :=
  Build_SYSMGR_CMN_DATA_CACHE (machine s) (pDevInfo s) op (cached s) (AsyncCmdInProgress s) (pLogger s) (pDevIdent s)
    (pEventCustom s) (pEventDefault s) (pDisplay s) (work_packets s) (next_packet s) (overrun s).
Definition with_cached s (c : versions) : SYSMGR_CMN_DATA_CACHE H :=
  Build_SYSMGR_CMN_DATA_CACHE (machine s) (pDevInfo s) (DevOp s) c (AsyncCmdInProgress s) (pLogger s) (pDevIdent s)
    (pEventCustom s) (pEventDefault s) (pDisplay s) (work_packets s) (next_packet s) (overrun s).
Definition with_async s (cmd : Z) : SYSMGR_CMN_DATA_CACHE H :=
  Build_SYSMGR_CMN_DATA_CACHE (machine s) (pDevInfo s) (DevOp s) (cached s) cmd (pLogger s) (pDevIdent s)
    (pEventCustom s) (pEventDefault s) (pDisplay s) (work_packets s) (next_packet s) (overrun s).
Definition with_logger s (l : LogHandler) : SYSMGR_CMN_DATA_CACHE H :=
  Build_SYSMGR_CMN_DATA_CACHE (machine s) (pDevInfo s) (DevOp s) (cached s) (AsyncCmdInProgress s) l (pDevIdent s)
    (pEventCustom s) (pEventDefault s) (pDisplay s) (work_packets s) (next_packet s) (overrun s).
Definition with_packets s (w : gmap Z sysmgr_packet) (next : Z) : SYSMGR_CMN_DATA_CACHE H :=
  Build_SYSMGR_CMN_DATA_CACHE (machine s) (pDevInfo s) (DevOp s) (cached s) (AsyncCmdInProgress s) (pLogger s) (pDevIdent s)
    (pEventCustom s) (pEventDefault s) (pDisplay s) w next (overrun s).
Definition with_events s (l : option (list EvntMonitEntry)) (e : option (Z * bool)) : SYSMGR_CMN_DATA_CACHE H :=
  Build_SYSMGR_CMN_DATA_CACHE (machine s) (pDevInfo s) (DevOp s) (cached s) (AsyncCmdInProgress s) (pLogger s) (pDevIdent s)
    l e (pDisplay s) (work_packets s) (next_packet s) (overrun s).
(** A copy that fits, or writes behind its array. *)
Definition copied s (fits : bool) : SYSMGR_CMN_DATA_CACHE H :=
  Build_SYSMGR_CMN_DATA_CACHE (machine s) (pDevInfo s) (DevOp s) (cached s) (AsyncCmdInProgress s) (pLogger s) (pDevIdent s)
    (pEventCustom s) (pEventDefault s) (pDisplay s) (work_packets s) (next_packet s) (overrun s || negb fits).

(** [OBJECT_MEM_NEW(pWorkData, ...)] with the values filled in, and [OBJ_MEM_DELETE()]. *)
Definition new_packet s (p : sysmgr_packet) : Z * SYSMGR_CMN_DATA_CACHE H :=
  (next_packet s, with_packets s (<[next_packet s := p]> (work_packets s)) (next_packet s + 1)).
Definition delete_packet s (a : Z) : SYSMGR_CMN_DATA_CACHE H := with_packets s (delete a (work_packets s)) (next_packet s).
End setters.

Section sysrpc.
Context {H J D : Type} `{Host H} `{JsonC J D}.
Variable (junk : Z) (junk_text : string).
Abbreviation state := (SYSMGR_CMN_DATA_CACHE H).
Abbreviation request := (RPC_SRV_REQ sysmgr_packet).
Abbreviation comm := (JsonDataCommObj J).

Definition fits (size : nat) (text : string) : bool := (String.length text <? size)%nat.
Definition emulated (s : state) : bool := emulation_flag (pDevInfo s).
(** Boards and configurations with OpenWrt. *)
Definition openwrt_system (s : state) : bool :=
  let board := BoardType (pDevInfo s) in
  let config := SyscfgType (pDevInfo s) in
  if existsb (Z.eqb board) [13; 14; 15] then true
  else if existsb (Z.eqb board) [0; 1; 2; 3; 4; 8; 9] then config =? 0
  else if existsb (Z.eqb board) [16; 10; 17] then config =? 1
  else false.

(** ** From JSON to packets *)

Definition PREPARE (r : request) (p : sysmgr_packet) (action : Z) (c : EJSON_SYSMGR_RPC_TYPES) : request :=
  PREPARE_REQUEST r p action (rpc_index c).

Definition json_to_bin_get_loadinfo (d : comm) (r : request) : Z * comm * request :=
  (0, d, PREPARE r (LOAD_INFO_PACKET junk_text junk_text junk_text) Act.READ GET_LOADINFO).
Definition json_to_bin_get_meminfo (d : comm) (r : request) : Z * comm * request :=
  (0, d, PREPARE r (MEM_INFO_PACKET junk_text junk_text junk_text) Act.READ GET_MEMINFO).
Definition json_to_bin_get_cpuinfo (d : comm) (r : request) : Z * comm * request :=
  (0, d, PREPARE r (CPU_INFO_PACKET junk_text junk_text junk_text) Act.READ GET_CPUINFO).
Definition json_to_bin_get_devop (d : comm) (r : request) : Z * comm * request :=
  (0, d, PREPARE r (DEV_OP_PACKET junk junk) Act.READ GET_DEV_OP).
Definition json_to_bin_set_devop (d : comm) (r : request) : Z * comm * request :=
  let r := PREPARE r (DEV_OP_PACKET junk junk) Act.WRITE SET_DEV_OP in
  with_enum (D := D) d r "operation" SYSMGR_RPC_DEV_OP_ARG_TABL DEV_OP_UNKNOWN
    (fun v => (0, d, service_packet r (DEV_OP_PACKET v junk))).
Definition json_to_bin_get_fmwver (d : comm) (r : request) : Z * comm * request :=
  let r := PREPARE r (FMW_MODULE_PACKET junk junk_text junk) Act.READ GET_FMWVER in
  with_enum (D := D) d r "module" SYSMGR_RPC_FMW_VER_ARG_TABL FMW_MODULE_UNKNOWN
    (fun v => (0, d, service_packet r (FMW_MODULE_PACKET v junk_text junk))).
Definition json_to_bin_get_bootsys (d : comm) (r : request) : Z * comm * request :=
  (0, d, PREPARE r (BOOT_SYSTEM_PACKET junk) Act.READ GET_BOOT_SYSTEM).
Definition json_to_bin_set_fmwupdate (d : comm) (r : request) : Z * comm * request :=
  let r := PREPARE r (FMW_MODULE_PACKET junk junk_text junk) Act.WRITE SET_FMWUPDATE in
  with_enum (D := D) d r "module" SYSMGR_RPC_FMW_VER_ARG_TABL FMW_MODULE_UNKNOWN (fun v =>
  with_string (D := D) d r "filepath" FNAME_SIZE (fun path => (0, d, service_packet r (FMW_MODULE_PACKET v path junk)))).
Definition json_to_bin_download_file (d : comm) (r : request) (command : EJSON_SYSMGR_RPC_TYPES) : Z * comm * request :=
  let r := PREPARE r (DOWNLOAD_FILE_PACKET junk_text junk_text junk_text junk) Act.WRITE command in
  let target src file :=
    with_string (D := D) d r "targetpath" PATH_SIZE
      (fun path => (0, d, service_packet r (DOWNLOAD_FILE_PACKET src file path junk))) in
  with_string (D := D) d r "srcaddr" PATH_SIZE (fun src =>
  if decide (command = SET_DOWNLOADTFTP) then with_string (D := D) d r "srcfile" PATH_SIZE (target src)
  else target src EmptyString).
Definition json_to_bin_get_async_task_in_progress (d : comm) (r : request) : Z * comm * request :=
  (0, d, PREPARE r (ASYNCTASK_PACKET junk) Act.READ GET_ASYNCTASK).
Definition json_to_bin_get_devtype (d : comm) (r : request) : Z * comm * request :=
  (0, d, PREPARE r (DEVTYPE_PACKET junk) Act.READ GET_DEVTYPE).
Definition json_to_bin_get_hostname (d : comm) (r : request) : Z * comm * request :=
  (0, d, PREPARE r (HOSTNAME_PACKET junk_text) Act.READ GET_HOSTNAME).
Definition json_to_bin_set_hostname (d : comm) (r : request) : Z * comm * request :=
  let r := PREPARE r (HOSTNAME_PACKET junk_text) Act.WRITE SET_HOSTNAME in
  with_string (D := D) d r "hostname" HOSTNAME_SIZE (fun v => (0, d, service_packet r (HOSTNAME_PACKET v))).
Definition json_to_bin_get_myip (d : comm) (r : request) : Z * comm * request :=
  (0, d, PREPARE r (MY_PUBLIC_IP_PACKET junk_text) Act.READ GET_MY_PUBLIC_IP).
Definition json_to_bin_set_def_hostname (d : comm) (r : request) : Z * comm * request :=
  (0, d, PREPARE r (HOSTNAME_PACKET junk_text) Act.WRITE SET_DEFAULT_HOSTNAME).
Definition json_to_bin_loglist_update (d : comm) (r : request) : Z * comm * request :=
  (0, d, PREPARE r (LOG_PACKET junk junk junk_text junk) Act.WRITE SET_UPDATE_LOG).
Definition json_to_bin_get_logcount (d : comm) (r : request) : Z * comm * request :=
  (0, d, PREPARE r (LOG_PACKET junk junk junk_text junk) Act.READ GET_LOG_COUNT).
Definition json_to_bin_get_logline (d : comm) (r : request) : Z * comm * request :=
  let r := PREPARE r (LOG_PACKET junk junk junk_text junk) Act.READ GET_LOG_LINE in
  with_int (D := D) d r "index" (fun v => (0, d, service_packet r (LOG_PACKET v junk junk_text junk))).
Definition json_to_bin_run_shellcmd (d : comm) (r : request) : Z * comm * request :=
  let r := PREPARE r (SHELLCMD_PACKET junk_text junk) Act.WRITE RUN_SHELLCMD in
  with_string (D := D) d r "command" SHELLCMD_SIZE (fun v => (0, d, service_packet r (SHELLCMD_PACKET v junk))).
Definition json_to_bin_devident (d : comm) (r : request) : Z * comm * request :=
  (0, d, PREPARE r (DEVIDENT_PACKET junk) Act.WRITE DEVIDENT).
Definition json_to_bin_subscribe_events (d : comm) (r : request) : Z * comm * request :=
  (0, d, PREPARE r (EVNT_SUBSCR_PACKET junk) Act.WRITE EVNT_SUBSCRIBE).

Definition MapJsonToBinary (d : comm) (r : request) (idx : Z) : Z * comm * request :=
  match rpc_type idx with
  | Some GET_LOADINFO => json_to_bin_get_loadinfo d r
  | Some GET_MEMINFO => json_to_bin_get_meminfo d r
  | Some GET_CPUINFO => json_to_bin_get_cpuinfo d r
  | Some GET_DEV_OP => json_to_bin_get_devop d r
  | Some SET_DEV_OP => json_to_bin_set_devop d r
  | Some GET_FMWVER => json_to_bin_get_fmwver d r
  | Some GET_BOOT_SYSTEM => json_to_bin_get_bootsys d r
  | Some SET_FMWUPDATE => json_to_bin_set_fmwupdate d r
  | Some SET_DOWNLOADFTP => json_to_bin_download_file d r SET_DOWNLOADFTP
  | Some SET_DOWNLOADTFTP => json_to_bin_download_file d r SET_DOWNLOADTFTP
  | Some GET_ASYNCTASK => json_to_bin_get_async_task_in_progress d r
  | Some GET_DEVTYPE => json_to_bin_get_devtype d r
  | Some GET_HOSTNAME => json_to_bin_get_hostname d r
  | Some SET_HOSTNAME => json_to_bin_set_hostname d r
  | Some GET_MY_PUBLIC_IP => json_to_bin_get_myip d r
  | Some SET_DEFAULT_HOSTNAME => json_to_bin_set_def_hostname d r
  | Some SET_UPDATE_LOG => json_to_bin_loglist_update d r
  | Some GET_LOG_COUNT => json_to_bin_get_logcount d r
  | Some GET_LOG_LINE => json_to_bin_get_logline d r
  | Some RUN_SHELLCMD => json_to_bin_run_shellcmd d r
  | Some RUN_SHELLCMDTRIG => json_to_bin_run_shellcmd d r
  | Some DEVIDENT => json_to_bin_devident d r
  | Some EVNT_SUBSCRIBE => json_to_bin_subscribe_events d r
  | _ => (-1, d, r)
  end.

(** ** The work of reading calls *)

(** A handler that first checks the action it is asked for. *)
Definition reading (s : state) (r : request) (f : request * state) : request * state :=
  if negb (rq_action r =? Act.READ) then (set_result r Rpc.ACTION_NOT_ALLOWED, s) else f.
Definition answered (s : state) (r : request) (p : sysmgr_packet) (code : Z) : request * state :=
  (set_result (service_packet r p) code, s).

Definition process_get_loadinfo (s : state) (r : request) : request * state :=
  reading s r (let '(a, b, c, ok) := read_load_info (machine s) junk_text in
               answered (copied s ok) r (LOAD_INFO_PACKET a b c) Rpc.SUCCESS).
Definition process_get_meminfo (s : state) (r : request) : request * state :=
  reading s r (let '(a, b, c, ok) := read_mem_info (machine s) junk_text in
               answered (copied s ok) r (MEM_INFO_PACKET a b c) Rpc.SUCCESS).
Definition process_get_cpuinfo (s : state) (r : request) : request * state :=
  reading s r (let '(a, b, c, ok) := read_cpu_info (machine s) junk_text in
               answered (copied s ok) r (CPU_INFO_PACKET a b c) Rpc.SUCCESS).
Definition process_get_devop (s : state) (r : request) : request * state :=
  reading s r (answered s r (DEV_OP_PACKET (DevOp s) junk) Rpc.SUCCESS).

(** The file a tool wrote: its first 100 characters, without the end of the line; or the
    code of the failure. *)
Definition strip_line (t : string) : string := match rfind newline t with Some (a, EmptyString) => a | _ => t end.
Definition read_tool_output (s : state) (command : string) : (Z + string) * state :=
  let '(status, h) := host_system command (machine s) in
  let s := with_machine s h in
  if negb (status =? 0) then (inl Rpc.FILE_OPEN_ERR, s)
  else match host_file h SYSMGR_TEMP_FMW_READ_FILE with
       | None => (inl Rpc.FILE_OPEN_ERR, s)
       | Some text => (inr (truncate 100 text), s)
       end.

(** The version of the running firmware, or of the backup: of the cache of the object at
    [k], or by the tool; the cache has room for 99 characters. *)
Definition version_command (s : state) (option : string) : string :=
  if openwrt_system s then ("cat /etc/version.txt > " ++ SYSMGR_TEMP_FMW_READ_FILE)%string
  else (SYSMGR_BRDSK_TOOL ++ " " ++ option ++ " > " ++ SYSMGR_TEMP_FMW_READ_FILE)%string.
Definition read_version (s : state) (r : request) (module : Z) (taskID : Z) (option : string)
    (store : string -> versions) : request * state :=
  let unknown := service_packet r (FMW_MODULE_PACKET module "unknown" taskID) in
  match read_tool_output s (version_command s option) with
  | (inl code, s) => (set_result unknown code, s)
  | (inr EmptyString, s) => (set_result unknown Rpc.FILE_READ_ERR, s)
  | (inr text, s) =>
      let v := strip_line text in
      answered (copied (with_cached s (store v)) (fits FMWVER_SIZE v)) r (FMW_MODULE_PACKET module v taskID) Rpc.SUCCESS
  end.
Definition process_get_fmwver (k : nat) (s : state) (r : request) : request * state :=
  reading s r
    match rq_dataRef r with
    | Some (ServicePacket (FMW_MODULE_PACKET module _ id)) =>
        let c := cached s in
        if emulated s then answered s r (FMW_MODULE_PACKET module "00.01.12345" id) Rpc.SUCCESS
        else if module =? FMW_MODULE_BRBOX_CURRENT then
          if decide (k ∈ crnt_fmwver_updated c)
          then answered s r (FMW_MODULE_PACKET module (crnt_fmwver c) id) Rpc.SUCCESS
          else read_version s r module id "-v" (fun v =>
                 Build_versions v (bkup_fmwver c) (bootsys c) ({[k]} ∪ crnt_fmwver_updated c) (bkup_fmwver_updated c)
                   (boot_system_updated c))
        else if module =? FMW_MODULE_BRBOX_BACKUP then
          if decide (k ∈ bkup_fmwver_updated c)
          then answered s r (FMW_MODULE_PACKET module (bkup_fmwver c) id) Rpc.SUCCESS
          else read_version s r module id "-b" (fun v =>
                 Build_versions (crnt_fmwver c) v (bootsys c) (crnt_fmwver_updated c) ({[k]} ∪ bkup_fmwver_updated c)
                   (boot_system_updated c))
        else answered s r (FMW_MODULE_PACKET module "unknown" id) Rpc.FEATURE_NOT_AVAILABLE
    | _ => (r, s)
    end.
(** The result stays as it was when the tool writes nothing. *)
Definition process_get_bootsys (k : nat) (s : state) (r : request) : request * state :=
  reading s r
    (let c := cached s in
     if decide (k ∈ boot_system_updated c) then answered s r (BOOT_SYSTEM_PACKET (bootsys c)) Rpc.SUCCESS
     else
       match read_tool_output s (SYSMGR_BRDSK_TOOL ++ " -c > " ++ SYSMGR_TEMP_FMW_READ_FILE)%string with
       | (inl code, s) => (set_result r code, s)
       | (inr EmptyString, s) => (r, s)
       | (inr text, s) =>
           match string_to_enum SYSMGR_RPC_BOOT_SYSTEM_ARG_TABL (strip_line text) BOOT_SYSTEM_UNKNOWN with
           | Some b =>
               if b >=? BOOT_SYSTEM_UNKNOWN then answered s r (BOOT_SYSTEM_PACKET BOOT_SYSTEM_UNKNOWN) Rpc.FAIL
               else answered (with_cached s (Build_versions (crnt_fmwver c) (bkup_fmwver c) b (crnt_fmwver_updated c)
                                (bkup_fmwver_updated c) ({[k]} ∪ boot_system_updated c)))
                      r (BOOT_SYSTEM_PACKET b) Rpc.SUCCESS
           | None => (r, s)
           end
       end).

(** The task that runs now, by the number of its call. *)
Definition get_async_task_in_progress (s : state) : Z :=
  match rpc_type (AsyncCmdInProgress s) with
  | Some SET_DEV_OP => 0
  | Some SET_FMWUPDATE => 1
  | Some SET_DOWNLOADFTP => 2
  | Some SET_DOWNLOADTFTP => 3
  | Some SET_UPDATE_LOG => 4
  | Some RUN_SHELLCMD => 5
  | Some DEVIDENT => 6
  | Some RUN_SHELLCMDTRIG => 7
  | _ => ASYNCTASK_UNKNOWN
  end.
Definition process_get_async_task_in_progress (s : state) (r : request) : request * state :=
  reading s r (answered s r (ASYNCTASK_PACKET (get_async_task_in_progress s)) Rpc.SUCCESS).
Definition process_get_devtype (s : state) (r : request) : request * state :=
  reading s r (answered s r (DEVTYPE_PACKET (BoardType (pDevInfo s))) Rpc.SUCCESS).
Definition process_get_hostname (s : state) (r : request) : request * state :=
  let name text := answered (copied s (fits HOSTNAME_SIZE (word text).1)) r (HOSTNAME_PACKET (word text).1) Rpc.SUCCESS in
  reading s r
    match host_file (machine s) HOST_NAME_FILE_PATH with
    | Some text => name text
    | None =>
        match host_file (machine s) DEF_HOST_NAME_FILE_PATH with
        | Some text => name text
        | None => (set_result r Rpc.FILE_OPEN_ERR, s)
        end
    end.
Definition process_set_hostname (s : state) (r : request) : request * state :=
  match rq_dataRef r with
  | Some (ServicePacket (HOSTNAME_PACKET name)) =>
      let '(written, h) := host_write HOST_NAME_FILE_PATH name (machine s) in
      (set_result r (if written : bool then Rpc.SUCCESS else Rpc.FILE_OPEN_ERR), with_machine s h)
  | _ => (r, s)
  end.
Definition process_get_myip (s : state) (r : request) : request * state :=
  match rq_dataRef r with
  | Some (ServicePacket (MY_PUBLIC_IP_PACKET old)) =>
      let '(code, ip, h) := run_shell_query (machine s) "wget http://ipinfo.io/ip -qO -" old in
      answered (with_machine s h) r (MY_PUBLIC_IP_PACKET ip) code
  | _ => (r, s)
  end.
Definition process_set_def_hostname (s : state) (r : request) : request * state :=
  let '(code, h) := run_shell_script (machine s) "default-hostname -f y" (emulated s) in
  (set_result r code, with_machine s h).
Definition process_get_logcount (s : state) (r : request) : request * state :=
  match rq_dataRef r with
  | Some (ServicePacket (LOG_PACKET i _ t id)) => answered s r (LOG_PACKET i (GetLogLines (pLogger s)) t id) Rpc.SUCCESS
  | _ => (r, s)
  end.
Definition process_get_logline (s : state) (r : request) : request * state :=
  match rq_dataRef r with
  | Some (ServicePacket (LOG_PACKET i n t id)) =>
      let '(code, found) := read_log_message_line (pLogger s) i in answered s r (LOG_PACKET i n (default t found) id) code
  | _ => (r, s)
  end.

(** ** Calls that start a task *)

(** [OBJECT_MEM_NEW(pWorkData, ...)], [PushAsyncTask()] with the packet's field for the
    identifier, and the deletion when the task was not taken. *)
Definition push_work (s : state) (r : request) (data : sysmgr_packet) (cmd : EJSON_SYSMGR_RPC_TYPES)
    (told : Z -> sysmgr_packet) : handler (Z * request * state) :=
  let '(a, s1) := new_packet s data in
  Push (rpc_index cmd) a WORK_CMD_AFTER_DONE_PRESERVE (fun code id =>
    Done (0, set_result (service_packet r (told id)) code, if code =? Rpc.IN_PROG then s1 else delete_packet s1 a)).
Definition writing (s : state) (r : request) (f : handler (Z * request * state)) : handler (Z * request * state) :=
  if negb (rq_action r =? Act.WRITE) then Done (0, set_result r Rpc.ACTION_NOT_ALLOWED, s) else f.

Definition process_set_devop (s : state) (r : request) : handler (Z * request * state) :=
  writing s r
    match rq_dataRef r with
    | Some (ServicePacket (DEV_OP_PACKET op _)) => push_work s r (DEV_OP_PACKET op junk) SET_DEV_OP (DEV_OP_PACKET op)
    | _ => Done (0, r, s)
    end.
Definition process_set_fmwupdate (s : state) (r : request) : handler (Z * request * state) :=
  writing s r
    match rq_dataRef r with
    | Some (ServicePacket (FMW_MODULE_PACKET module path _)) =>
        if negb (module =? FMW_MODULE_BRBOX_PROJECT) then Done (0, set_result r Rpc.ARG_ERROR, s)
        else push_work s r (FMW_MODULE_PACKET module path junk) SET_FMWUPDATE (FMW_MODULE_PACKET module path)
    | _ => Done (0, r, s)
    end.
Definition process_download_file (s : state) (r : request) (command : EJSON_SYSMGR_RPC_TYPES) : handler (Z * request * state) :=
  match rq_dataRef r with
  | Some (ServicePacket (DOWNLOAD_FILE_PACKET src file target _)) =>
      push_work s r (DOWNLOAD_FILE_PACKET src file target junk) command (DOWNLOAD_FILE_PACKET src file target)
  | _ => Done (0, r, s)
  end.
Definition process_loglist_update (s : state) (r : request) : handler (Z * request * state) :=
  match rq_dataRef r with
  | Some (ServicePacket (LOG_PACKET i n t _)) =>
      push_work s r (LOG_PACKET junk junk junk_text junk) SET_UPDATE_LOG (LOG_PACKET i n t)
  | _ => Done (0, r, s)
  end.
(** A command that does not fit with its redirection is dropped, its packet stays. *)
Definition process_run_shellcmd (s : state) (r : request) (cmdtype : EJSON_SYSMGR_RPC_TYPES) : handler (Z * request * state) :=
  match rq_dataRef r with
  | Some (ServicePacket (SHELLCMD_PACKET cmd _)) =>
      let tmpcmd := if decide (cmdtype = RUN_SHELLCMDTRIG) then cmd else (cmd ++ " > " ++ SHELLCMD_RESP_FILE_PATH)%string in
      if fits SHELLCMD_SIZE tmpcmd then push_work s r (SHELLCMD_PACKET tmpcmd junk) RUN_SHELLCMD (SHELLCMD_PACKET cmd)
      else Done (0, r, (new_packet s (SHELLCMD_PACKET junk_text junk)).2)
  | _ => Done (0, r, s)
  end.
Definition process_devident (s : state) (r : request) : handler (Z * request * state) :=
  push_work s r (DEVIDENT_PACKET junk) DEVIDENT DEVIDENT_PACKET.

(** ** The tasks *)

(** A script, and the state behind it. *)
Definition script (s : state) (cmdline : string) : Z * state :=
  let '(code, h) := run_shell_script (machine s) cmdline (emulated s) in (code, with_machine s h).
(** A command that does not fit the array [cmdline] is not run. *)
Definition bounded_script (s : state) (cmd : string) : option (Z * state) :=
  if fits CMDLINE_SIZE cmd then Some (script s cmd) else None.

Definition process_async_set_devop (s : state) (op : Z) : Z * state :=
  if (op =? DEV_OP_IDLE) || (op =? DEV_OP_ON) then (Rpc.SUCCESS, with_devop s op)
  else if op =? DEV_OP_STANDBY then script s "sleep 3;poweroff"
  else if op =? DEV_OP_REBOOT then script s "sleep 3;reboot"
  else (Rpc.ARG_ERROR, s).
(** The object at [k], which runs the task, clears its own flag. *)
Definition forget_backup (k : nat) (s : state) : state :=
  let c := cached s in
  with_cached s (Build_versions (crnt_fmwver c) (bkup_fmwver c) (bootsys c) (crnt_fmwver_updated c)
    (bkup_fmwver_updated c ∖ {[k]}) (boot_system_updated c)).
Definition update_command (s : state) (path : string) : string :=
  if openwrt_system s then ("sleep 2;" ++ MIPS_UPDATE_TOOL ++ " -u " ++ path ++ " > /tmp/update.result")%string
  else (SYSMGR_UPDATE_TOOL ++ " -u " ++ path)%string.
Definition process_async_set_fmwupdate (k : nat) (s : state) (module : Z) (path : string) : Z * state :=
  if module =? FMW_MODULE_BRBOX_PROJECT then
    match bounded_script s (update_command s path) with
    | Some (code, s) => (code, forget_backup k s)
    | None => (Rpc.ARG_ERROR, s)
    end
  else (Rpc.ARG_ERROR, s).
Definition download_command (s : state) (command : EJSON_SYSMGR_RPC_TYPES) (src file target : string) : string :=
  if decide (command = SET_DOWNLOADFTP) then
    ((if (BoardType (pDevInfo s) =? BOARD_TYPE_GL_MT300NV2)%Z then "wget " else "wget --tries=2 ") ++ src ++ " -O " ++ target)%string
  else ("tftp " ++ src ++ " -c get " ++ file ++ " " ++ target)%string.
Definition process_async_download_file (s : state) (command : EJSON_SYSMGR_RPC_TYPES) (src file target : string) : Z * state :=
  default (Rpc.ARG_ERROR, s) (bounded_script s (download_command s command src file target)).
Definition process_async_loglist_update (s : state) : Z * state :=
  let '(code, l, h) := UpdateLogList (pLogger s) (machine s) in (code, with_logger (with_machine s h) l).
Definition process_async_run_shellcmd (s : state) (cmd : string) : Z * state :=
  if emulated s then (Rpc.SUCCESS, s)
  else let '(status, h) := host_system cmd (machine s) in
       (if negb (status =? 0) then Rpc.FAIL else Rpc.SUCCESS, with_machine s h).

(** [DevIdent...::device_identify()]: the commands that blink the light of the board. *)
Fixpoint repeated (n : nat) (l : list string) : list string := match n with O => [] | S n => l ++ repeated n l end.
Definition ident_commands (i : dev_ident) : list string :=
  (match i with
   | DevIdentRaspiAZero =>
       "echo none | tee /sys/class/leds/led0/trigger" ::
       repeated 10 ["echo 1 | tee /sys/class/leds/led0/brightness"; "echo 0 | tee /sys/class/leds/led0/brightness"] ++
       ["echo mmc0 | tee /sys/class/leds/led0/trigger"]
   | DevIdentA5V11 =>
       repeated 10 ["echo 1 > /sys/class/leds/a5-v11\:red\:power/brightness";
                    "echo 0 > /sys/class/leds/a5-v11\:red\:power/brightness"] ++
       ["echo 0 > /sys/class/leds/a5-v11\:red\:power/brightness"]
   | DevIdentNexx3020 =>
       repeated 10 ["echo 1 > /sys/class/leds/wt3020\:blue\:power/brightness";
                    "echo 0 > /sys/class/leds/wt3020\:blue\:power/brightness"] ++
       ["echo 0 > /sys/class/leds/wt3020\:blue\:power/brightness"]
   | DevIdentGlMt300nv2 =>
       "cat /sys/class/leds/green:power/brightness > /tmp/last-power-led-state.txt" ::
       repeated 10 ["echo 1 > /sys/class/leds/green:power/brightness"; "echo 0 > /sys/class/leds/green:power/brightness"] ++
       repeated 2 ["echo $(cat /tmp/last-power-led-state.txt) > /sys/class/leds/green:power/brightness"]
   end)%list%string.
Definition device_identify (i : dev_ident) (h : H) : Z * H :=
  (Rpc.SUCCESS, fold_left (fun h cmd => (host_system cmd h).2) (ident_commands i) h).
Definition process_async_devident (s : state) : Z * state :=
  if emulated s then (Rpc.SUCCESS, s)
  else match pDevIdent s with
       | None => (Rpc.FEATURE_NOT_AVAILABLE, s)
       | Some i => let '(code, h) := device_identify i (machine s) in (code, with_machine s h)
       end.

(** The task of a call, by its packet; [None] for a call that has none here. *)
Definition run_task (k : nat) (s : state) (c : EJSON_SYSMGR_RPC_TYPES) (p : option sysmgr_packet) : option (Z * state) :=
  match c, p with
  | SET_DEV_OP, Some (DEV_OP_PACKET op _) => Some (process_async_set_devop s op)
  | SET_FMWUPDATE, Some (FMW_MODULE_PACKET module path _) => Some (process_async_set_fmwupdate k s module path)
  | SET_DOWNLOADFTP, Some (DOWNLOAD_FILE_PACKET src file target _)
  | SET_DOWNLOADTFTP, Some (DOWNLOAD_FILE_PACKET src file target _) => Some (process_async_download_file s c src file target)
  | SET_UPDATE_LOG, _ => Some (process_async_loglist_update s)
  | RUN_SHELLCMD, Some (SHELLCMD_PACKET cmd _) => Some (process_async_run_shellcmd s cmd)
  | DEVIDENT, _ => Some (process_async_devident s)
  | _, _ => None
  end.
(** The task, statement by statement: the state, with [ret_val], once the number of the
    call is noted, behind the [switch] that carries the task out and deletes its packet,
    and once the number is reset.  Requests of other threads are served between them. *)
Definition ProcessWorkStates (k : nat) (s : state) (cmd data : Z) : list (Z * state) :=
  let s1 := with_async s cmd in
  let '(ret_val, s2) :=
    match c ← rpc_type cmd; run_task k s1 c (work_packets s1 !! data) with
    | Some (code, s2) => (code, delete_packet s2 data)
    | None => (Rpc.FAIL, s1)
    end in
  [(Rpc.FAIL, s1); (ret_val, s2); (ret_val, with_async s2 EJSON_SYSMGR_RPC_NONE)].
Definition ProcessWorkAsync (k : nat) (s : state) (cmd data : Z) : Z * state :=
  default (Rpc.FAIL, s) (last (ProcessWorkStates k s cmd data)).

(** ** Subscriptions *)

(** [SUBSCRIBE_EVENT] and [UNSUBSCRIBE_EVENT], calls of the client of another service:
    address, port, our token and the event give its token, or -1. *)
Variable subscribe : string -> Z -> Z -> Z -> H -> Z * H.
Variable unsubscribe : string -> Z -> Z -> H -> H.

(** [SubscribeEvents()]: the loop works on a copy of each entry. *)
Fixpoint SubscribeEvents (l : list EvntMonitEntry) (h : H) : list EvntMonitEntry * H :=
  match l with
  | [] => ([], h)
  | e :: l =>
      let h := if mon_subscription_sts e then h
               else (subscribe (mon_ip e) (mon_port e) (mon_srvToken e) (mon_evntType e) h).2 in
      let '(l, h) := SubscribeEvents l h in (e :: l, h)
  end.
Fixpoint UnSubscribeEvents (l : list EvntMonitEntry) (h : H) : list EvntMonitEntry * H :=
  match l with
  | [] => ([], h)
  | e :: l =>
      let h := if mon_subscription_sts e then unsubscribe (mon_ip e) (mon_port e) (mon_subscription e) h else h in
      let '(l, h) := UnSubscribeEvents l h in (e :: l, h)
  end.
Definition process_subscribe_events (s : state) (r : request) : request * state :=
  match pEventCustom s with
  | None => (set_result r Rpc.FEATURE_NOT_AVAILABLE, s)
  | Some l => (set_result r Rpc.SUCCESS, with_machine s (SubscribeEvents l (machine s)).2)
  end.

(** ** [ProcessWork()] *)
Definition ProcessWork (k : nat) (s : state) (r : request) (idx : Z) : handler (Z * request * state) :=
  let work f := let '(r', s') := f s r in Done (0, r', s') in
  match rpc_type idx with
  | Some GET_LOADINFO => work process_get_loadinfo
  | Some GET_MEMINFO => work process_get_meminfo
  | Some GET_CPUINFO => work process_get_cpuinfo
  | Some GET_DEV_OP => work process_get_devop
  | Some SET_DEV_OP => process_set_devop s r
  | Some GET_FMWVER => work (process_get_fmwver k)
  | Some GET_BOOT_SYSTEM => work (process_get_bootsys k)
  | Some SET_FMWUPDATE => process_set_fmwupdate s r
  | Some SET_DOWNLOADFTP => process_download_file s r SET_DOWNLOADFTP
  | Some SET_DOWNLOADTFTP => process_download_file s r SET_DOWNLOADTFTP
  | Some GET_ASYNCTASK => work process_get_async_task_in_progress
  | Some GET_DEVTYPE => work process_get_devtype
  | Some GET_HOSTNAME => work process_get_hostname
  | Some SET_HOSTNAME => work process_set_hostname
  | Some GET_MY_PUBLIC_IP => work process_get_myip
  | Some SET_DEFAULT_HOSTNAME => work process_set_def_hostname
  | Some SET_UPDATE_LOG => process_loglist_update s r
  | Some GET_LOG_COUNT => work process_get_logcount
  | Some GET_LOG_LINE => work process_get_logline
  | Some RUN_SHELLCMD => process_run_shellcmd s r RUN_SHELLCMD
  | Some DEVIDENT => process_devident s r
  | Some EVNT_SUBSCRIBE => work process_subscribe_events
  | Some RUN_SHELLCMDTRIG => process_run_shellcmd s r RUN_SHELLCMDTRIG
  | _ => Done (0, r, s)
  end.

(** ** From packets to JSON *)

(** Three texts, when the work succeeded. *)
Definition three_texts (d : comm) (r : request) (n1 n2 n3 : string) : option comm :=
  if negb (rq_result r =? Rpc.SUCCESS) then prepare_result_string (rq_result r) d
  else match rq_dataRef r with
       | Some (ServicePacket (LOAD_INFO_PACKET a b c)) | Some (ServicePacket (MEM_INFO_PACKET a b c))
       | Some (ServicePacket (CPU_INFO_PACKET a b c)) => prepare_result_string_sss (rq_result r) d n1 a n2 b n3 c
       | _ => None
       end.
Definition packet_int (r : request) : Z :=
  match rq_dataRef r with
  | Some (ServicePacket (DEV_OP_PACKET n _)) | Some (ServicePacket (BOOT_SYSTEM_PACKET n))
  | Some (ServicePacket (ASYNCTASK_PACKET n)) | Some (ServicePacket (DEVTYPE_PACKET n))
  | Some (ServicePacket (LOG_PACKET _ n _ _)) | Some (ServicePacket (MAC_ADDR_PACKET _ _ n _))
  | Some (ServicePacket (PRINT_PACKET _ _ n)) => n
  | _ => junk
  end.
Definition packet_text (r : request) : string :=
  match rq_dataRef r with
  | Some (ServicePacket (FMW_MODULE_PACKET _ t _)) | Some (ServicePacket (HOSTNAME_PACKET t))
  | Some (ServicePacket (MY_PUBLIC_IP_PACKET t)) | Some (ServicePacket (LOG_PACKET _ _ t _))
  | Some (ServicePacket (NET_INFO_PACKET _ t _)) => t
  | _ => junk_text
  end.
Definition packet_task (r : request) : Z :=
  match rq_dataRef r with
  | Some (ServicePacket (DEV_OP_PACKET _ id)) | Some (ServicePacket (FMW_MODULE_PACKET _ _ id))
  | Some (ServicePacket (DOWNLOAD_FILE_PACKET _ _ _ id)) | Some (ServicePacket (LOG_PACKET _ _ _ id))
  | Some (ServicePacket (SHELLCMD_PACKET _ id)) | Some (ServicePacket (DEVIDENT_PACKET id)) => id
  | _ => junk
  end.
(** [PREPARE_JSON_RESP_IN_PROG] with the packet's identifier of the task. *)
Definition in_progress (d : comm) (r : request) : option comm := PREPARE_JSON_RESP_INT (D := D) d r "taskId" (packet_task r).
Definition plain (d : comm) (r : request) : option comm := PREPARE_JSON_RESP (D := D) d r.

Definition bin_to_json_get_loadinfo (d : comm) (r : request) : option comm := three_texts d r "current" "average" "uptime".
Definition bin_to_json_get_meminfo (d : comm) (r : request) : option comm := three_texts d r "memMB" "memfreeMB" "memusedMB".
Definition bin_to_json_get_cpuinfo (d : comm) (r : request) : option comm := three_texts d r "model" "cores" "frequency".
Definition bin_to_json_get_devop (d : comm) (r : request) : option comm :=
  PREPARE_JSON_RESP_ENUM (D := D) d r "operation" (packet_int r) SYSMGR_RPC_DEV_OP_ARG_TABL DEV_OP_UNKNOWN.
Definition bin_to_json_set_devop : comm -> request -> option comm := in_progress.
Definition bin_to_json_get_fmwver (d : comm) (r : request) : option comm :=
  PREPARE_JSON_RESP_STRING (D := D) d r "version" (packet_text r).
Definition bin_to_json_get_bootsys (d : comm) (r : request) : option comm :=
  PREPARE_JSON_RESP_ENUM (D := D) d r "system" (packet_int r) SYSMGR_RPC_BOOT_SYSTEM_ARG_TABL BOOT_SYSTEM_UNKNOWN.
Definition bin_to_json_set_fmwupdate : comm -> request -> option comm := in_progress.
Definition bin_to_json_download_file : comm -> request -> option comm := in_progress.
Definition bin_to_json_get_async_task_in_progress (d : comm) (r : request) : option comm :=
  PREPARE_JSON_RESP_ENUM (D := D) d r "task" (packet_int r) SYSMGR_RPC_ASYNCTASK_ARG_TABL ASYNCTASK_UNKNOWN.
Definition bin_to_json_get_devtype (d : comm) (r : request) : option comm :=
  PREPARE_JSON_RESP_ENUM (D := D) d r "type" (packet_int r) ADCMN_BOARD_TYPE_TABLE BOARD_TYPE_UNKNOWN.
Definition bin_to_json_get_hostname (d : comm) (r : request) : option comm :=
  PREPARE_JSON_RESP_STRING (D := D) d r "hostname" (packet_text r).
Definition bin_to_json_set_hostname : comm -> request -> option comm := plain.
Definition bin_to_json_get_myip (d : comm) (r : request) : option comm :=
  PREPARE_JSON_RESP_STRING (D := D) d r "ip" (packet_text r).
Definition bin_to_json_set_def_hostname : comm -> request -> option comm := plain.
Definition bin_to_json_loglist_update : comm -> request -> option comm := in_progress.
Definition bin_to_json_get_logcount (d : comm) (r : request) : option comm :=
  PREPARE_JSON_RESP_INT (D := D) d r "logcount" (packet_int r).
Definition bin_to_json_get_logline (d : comm) (r : request) : option comm :=
  PREPARE_JSON_RESP_STRING (D := D) d r "logmsg" (packet_text r).
Definition bin_to_json_run_shellcmd : comm -> request -> option comm := in_progress.
Definition bin_to_json_devident : comm -> request -> option comm := in_progress.
Definition bin_to_json_subscribe_events : comm -> request -> option comm := plain.

(** The code and the response of a mapping; -1 for a call of another class. *)
Definition MapBinaryToJson (d : comm) (r : request) (idx : Z) : Z * comm :=
  let map f := (0, default d (f d r)) in
  match rpc_type idx with
  | Some GET_LOADINFO => map bin_to_json_get_loadinfo
  | Some GET_MEMINFO => map bin_to_json_get_meminfo
  | Some GET_CPUINFO => map bin_to_json_get_cpuinfo
  | Some GET_DEV_OP => map bin_to_json_get_devop
  | Some SET_DEV_OP => map bin_to_json_set_devop
  | Some GET_FMWVER => map bin_to_json_get_fmwver
  | Some GET_BOOT_SYSTEM => map bin_to_json_get_bootsys
  | Some SET_FMWUPDATE => map bin_to_json_set_fmwupdate
  | Some SET_DOWNLOADFTP => map bin_to_json_download_file
  | Some SET_DOWNLOADTFTP => map bin_to_json_download_file
  | Some GET_ASYNCTASK => map bin_to_json_get_async_task_in_progress
  | Some GET_DEVTYPE => map bin_to_json_get_devtype
  | Some GET_HOSTNAME => map bin_to_json_get_hostname
  | Some SET_HOSTNAME => map bin_to_json_set_hostname
  | Some GET_MY_PUBLIC_IP => map bin_to_json_get_myip
  | Some SET_DEFAULT_HOSTNAME => map bin_to_json_set_def_hostname
  | Some SET_UPDATE_LOG => map bin_to_json_loglist_update
  | Some GET_LOG_COUNT => map bin_to_json_get_logcount
  | Some GET_LOG_LINE => map bin_to_json_get_logline
  | Some RUN_SHELLCMD => map bin_to_json_run_shellcmd
  | Some RUN_SHELLCMDTRIG => map bin_to_json_run_shellcmd
  | Some DEVIDENT => map bin_to_json_devident
  | Some EVNT_SUBSCRIBE => map bin_to_json_subscribe_events
  | _ => (-1, d)
  end.
End sysrpc.
