(* ===== verification/SysmgrRpc.v ===== *)
(** * The system manager (NetRpc.cpp, DispCtrlRpc.cpp, CmnRpc.cpp, EventMonitor.cpp, EventHandler.cpp, main.cpp)

    The other classes of the system manager: calls about the network and the display, the
    handler of the common calls, and the receivers of events; and the service they make
    together with the class [SysRpc], with the objects [main()] attaches in their order. *)
From S2P Require Import Prelude Common Text TaskWorker TaskCalls RpcMgr SysInfo LogHandler Services SysRpc.
Open Scope Z_scope.

(** The virtual methods of a display; the drivers of character displays are in file [Lcd]. *)
Class DisplayDevice (H : Type) := {
  clear_display : H -> Z * H;
  print_line : string -> Z -> H -> Z * H;
  get_back_light : H -> Z * bool;
  set_back_light : bool -> H -> Z * H;
}.

Definition SYSMGR_RPC_MAC_ADDR_ARG_IFACE_TABL : list string :=
  ["eth0"; "eth1"; "wlan0"; "br-lan"; "eth0.1"; "eth0.2"; "br0"; "tun1"; "enp110s0"; "usb0"; "unknown"; "none"]%string.
Definition IFACE_TYPE_UNKNOWN : Z := 10.
Definition SYSMGR_RPC_DISP_LINE_ARG_TABL : list string := ["line1"; "line2"; "line3"; "line4"; "lineall"; "none"; "none"]%string.
Definition LINE_UNKNOWN : Z := 5.
Definition SYSMGR_RPC_DISP_BKLT_ARG_TABL : list string := ["off"; "on"; "unknown"; "none"]%string.
Definition BKLT_STS_OFF : Z := 0.
Definition BKLT_STS_ON : Z := 1.
Definition BKLT_STS_UNKNOWN : Z := 2.
Definition ETH_NAME_SIZE : nat := 512.
Definition DISP_MSG_SIZE : nat := 1024.

Section sysmgr.
Context {H J D : Type} `{Host H} `{DisplayDevice H} `{JsonC J D}.
Variable (junk : Z) (junk_text : string).
Variable subscribe : string -> Z -> Z -> Z -> H -> Z * H.
Variable unsubscribe : string -> Z -> Z -> H -> H.
Abbreviation state := (SYSMGR_CMN_DATA_CACHE H).
Abbreviation request := (RPC_SRV_REQ sysmgr_packet).
Abbreviation comm := (JsonDataCommObj J).

(** ** NetRpc *)

Definition new_mac_packet : sysmgr_packet := MAC_ADDR_PACKET junk junk_text junk junk_text.
Definition new_net_packet : sysmgr_packet := NET_INFO_PACKET junk junk_text junk_text.

Definition json_to_bin_get_mac_addr (d : comm) (r : request) : Z * comm * request :=
  let r := PREPARE r new_mac_packet Act.READ GET_MAC_ADDR in
  with_string (D := D) d r "iface" ETH_NAME_SIZE (fun v => (0, d, service_packet r (MAC_ADDR_PACKET junk junk_text junk v))).
Definition json_to_bin_set_mac_addr (d : comm) (r : request) : Z * comm * request :=
  let r := PREPARE r new_mac_packet Act.WRITE SET_MAC_ADDR in
  with_enum (D := D) d r "iface" SYSMGR_RPC_MAC_ADDR_ARG_IFACE_TABL IFACE_TYPE_UNKNOWN
    (fun v => (0, d, service_packet r (MAC_ADDR_PACKET v junk_text junk junk_text))).
Definition json_to_bin_get_eth_count (d : comm) (r : request) : Z * comm * request :=
  (0, d, PREPARE r new_mac_packet Act.READ GET_ETH_COUNT).
Definition json_to_bin_get_eth_name (d : comm) (r : request) : Z * comm * request :=
  let r := PREPARE r new_mac_packet Act.READ GET_ETH_NAME in
  with_int (D := D) d r "index" (fun v => (0, d, service_packet r (MAC_ADDR_PACKET junk junk_text v junk_text))).
Definition json_to_bin_net (c : EJSON_SYSMGR_RPC_TYPES) (d : comm) (r : request) : Z * comm * request :=
  let r := PREPARE r new_net_packet Act.READ c in
  with_string (D := D) d r "iface" ETH_NAME_SIZE (fun v => (0, d, service_packet r (NET_INFO_PACKET junk junk_text v))).
Definition json_to_bin_set_net (c : EJSON_SYSMGR_RPC_TYPES) (d : comm) (r : request) : Z * comm * request :=
  let r := PREPARE r new_net_packet Act.WRITE c in
  with_enum (D := D) d r "iface" SYSMGR_RPC_MAC_ADDR_ARG_IFACE_TABL IFACE_TYPE_UNKNOWN
    (fun v => (0, d, service_packet r (NET_INFO_PACKET v junk_text junk_text))).
Definition json_to_bin_get_ip_addr : comm -> request -> Z * comm * request := json_to_bin_net GET_IP_ADDR.
Definition json_to_bin_set_ip_addr : comm -> request -> Z * comm * request := json_to_bin_set_net SET_IP_ADDR.
Definition json_to_bin_get_netmask : comm -> request -> Z * comm * request := json_to_bin_net GET_NETMASK.
Definition json_to_bin_set_netmask : comm -> request -> Z * comm * request := json_to_bin_set_net SET_NETMASK.

(** What is known of an interface: by its address, or else by [ifconfig]; -1 when neither
    knows it. *)
Definition network_of (s : state) (eth : string) : Z * network_info * state :=
  match read_network_info (machine s) eth with
  | (0, n, ok) => (0, n, copied s ok)
  | (_, n, ok) => let '(ret, n, h) := read_network_info_ifconfig (machine s) eth n in (ret, n, with_machine (copied s ok) h)
  end.
Definition found (ret : Z) : Z := if ret =? 0 then Rpc.SUCCESS else Rpc.FAIL.
Definition unsupported (s : state) (r : request) : request * state := (set_result r Rpc.FEATURE_UNSUPPORTED, s).

Definition process_get_mac_addr (s : state) (r : request) : request * state :=
  match rq_dataRef r with
  | Some (ServicePacket (MAC_ADDR_PACKET t _ i eth)) =>
      let '(ret, n, s) := network_of s eth in answered s r (MAC_ADDR_PACKET t (n_mac n) i eth) (found ret)
  | _ => (r, s)
  end.
Definition process_set_mac_addr : state -> request -> request * state := unsupported.
Definition process_get_eth_count (s : state) (r : request) : request * state :=
  match rq_dataRef r with
  | Some (ServicePacket (MAC_ADDR_PACKET t m _ eth)) =>
      let '(code, n, h) := get_total_eth_count (machine s) in
      answered (with_machine s h) r (MAC_ADDR_PACKET t m n eth) code
  | _ => (r, s)
  end.
Definition process_get_eth_name (s : state) (r : request) : request * state :=
  match rq_dataRef r with
  | Some (ServicePacket (MAC_ADDR_PACKET t m i eth)) =>
      let '(code, n, h) := get_total_eth_count (machine s) in
      let s := with_machine s h in
      if negb (code =? Rpc.SUCCESS) then (set_result r code, s)
      else if n =? 0 then (set_result r Rpc.FAIL, s)
      else if i >? i32 (n - 1) then (set_result r Rpc.ARG_ERROR, s)
      else
        let '(code, eth, h) := get_nth_eth_name h (i32 (i + 1)) eth in
        answered (with_machine s h) r (MAC_ADDR_PACKET t m i eth) code
  | _ => (r, s)
  end.
Definition process_net (pick : network_info -> string) (s : state) (r : request) : request * state :=
  match rq_dataRef r with
  | Some (ServicePacket (NET_INFO_PACKET t _ eth)) =>
      let '(ret, n, s) := network_of s eth in answered s r (NET_INFO_PACKET t (pick n) eth) (found ret)
  | _ => (r, s)
  end.
Definition process_get_ip_addr : state -> request -> request * state := process_net n_ip.
Definition process_set_ip_addr : state -> request -> request * state := unsupported.
Definition process_get_netmask : state -> request -> request * state := process_net n_netmask.
Definition process_set_netmask : state -> request -> request * state := unsupported.

(** ** DispCtrlRpc *)

Definition new_print_packet : sysmgr_packet := PRINT_PACKET junk junk_text junk.
Definition json_to_bin_disp_clear (d : comm) (r : request) : Z * comm * request :=
  (0, d, PREPARE r new_print_packet Act.WRITE DISP_CLEAR).
Definition json_to_bin_disp_print (d : comm) (r : request) : Z * comm * request :=
  let r := PREPARE r new_print_packet Act.WRITE DISP_PRINT in
  with_enum (D := D) d r "line" SYSMGR_RPC_DISP_LINE_ARG_TABL LINE_UNKNOWN (fun v =>
  with_string (D := D) d r "msg" DISP_MSG_SIZE (fun t => (0, d, service_packet r (PRINT_PACKET v t junk)))).
Definition json_to_bin_backlight_get (d : comm) (r : request) : Z * comm * request :=
  (0, d, PREPARE r new_print_packet Act.READ DISP_GET_BKLT).
Definition json_to_bin_backlight_set (d : comm) (r : request) : Z * comm * request :=
  let r := PREPARE r new_print_packet Act.WRITE DISP_SET_BKLT in
  with_enum (D := D) d r "status" SYSMGR_RPC_DISP_BKLT_ARG_TABL BKLT_STS_UNKNOWN
    (fun v => (0, d, service_packet r (PRINT_PACKET junk junk_text v))).

Definition process_disp_clear (s : state) (r : request) : request * state :=
  if pDisplay s then let '(code, h) := clear_display (machine s) in (set_result r code, with_machine s h)
  else (set_result r Rpc.FAIL, s).
Definition process_disp_print (s : state) (r : request) : request * state :=
  match rq_dataRef r with
  | Some (ServicePacket (PRINT_PACKET line msg _)) =>
      if pDisplay s then let '(code, h) := print_line msg line (machine s) in (set_result r code, with_machine s h)
      else (set_result r Rpc.FAIL, s)
  | _ => (r, s)
  end.
Definition process_backlight_get (s : state) (r : request) : request * state :=
  match rq_dataRef r with
  | Some (ServicePacket (PRINT_PACKET line msg _)) =>
      if pDisplay s then
        let '(code, sts) := get_back_light (machine s) in
        answered s r (PRINT_PACKET line msg (if sts : bool then BKLT_STS_ON else BKLT_STS_OFF)) code
      else (set_result r Rpc.FAIL, s)
  | _ => (r, s)
  end.
Definition process_backlight_set (s : state) (r : request) : request * state :=
  match rq_dataRef r with
  | Some (ServicePacket (PRINT_PACKET _ _ sts)) =>
      if pDisplay s then
        let '(code, h) := set_back_light (sts =? BKLT_STS_ON) (machine s) in (set_result r code, with_machine s h)
      else (set_result r Rpc.FAIL, s)
  | _ => (r, s)
  end.

(** ** From packets to JSON *)

Definition mac_text (pick_name : bool) (r : request) : string :=
  match rq_dataRef r with
  | Some (ServicePacket (MAC_ADDR_PACKET _ m _ n)) => if pick_name then n else m
  | _ => junk_text
  end.
Definition bin_to_json_get_mac_addr (d : comm) (r : request) : option comm :=
  PREPARE_JSON_RESP_STRING (D := D) d r "addr" (mac_text false r).
Definition bin_to_json_set_mac_addr : comm -> request -> option comm := plain (D := D).
Definition bin_to_json_get_eth_count (d : comm) (r : request) : option comm :=
  PREPARE_JSON_RESP_INT (D := D) d r "count" (packet_int junk r).
Definition bin_to_json_get_eth_name (d : comm) (r : request) : option comm :=
  PREPARE_JSON_RESP_STRING (D := D) d r "name" (mac_text true r).
Definition bin_to_json_get_ip_addr (d : comm) (r : request) : option comm :=
  PREPARE_JSON_RESP_STRING (D := D) d r "addr" (packet_text junk_text r).
Definition bin_to_json_set_ip_addr : comm -> request -> option comm := plain (D := D).
Definition bin_to_json_get_netmask (d : comm) (r : request) : option comm :=
  PREPARE_JSON_RESP_STRING (D := D) d r "addr" (packet_text junk_text r).
Definition bin_to_json_set_netmask : comm -> request -> option comm := plain (D := D).
Definition bin_to_json_disp_clear : comm -> request -> option comm := plain (D := D).
Definition bin_to_json_disp_print : comm -> request -> option comm := plain (D := D).
Definition bin_to_json_backlight_get (d : comm) (r : request) : option comm :=
  PREPARE_JSON_RESP_ENUM (D := D) d r "status" (packet_int junk r) SYSMGR_RPC_DISP_BKLT_ARG_TABL BKLT_STS_UNKNOWN.
Definition bin_to_json_backlight_set : comm -> request -> option comm := plain (D := D).

(** ** The methods of the classes *)

Definition net_MapJsonToBinary (d : comm) (r : request) (idx : Z) : Z * comm * request :=
  match rpc_type idx with
  | Some GET_MAC_ADDR => json_to_bin_get_mac_addr d r
  | Some SET_MAC_ADDR => json_to_bin_set_mac_addr d r
  | Some GET_ETH_COUNT => json_to_bin_get_eth_count d r
  | Some GET_ETH_NAME => json_to_bin_get_eth_name d r
  | Some GET_IP_ADDR => json_to_bin_get_ip_addr d r
  | Some SET_IP_ADDR => json_to_bin_set_ip_addr d r
  | Some GET_NETMASK => json_to_bin_get_netmask d r
  | Some SET_NETMASK => json_to_bin_set_netmask d r
  | _ => (-1, d, r)
  end.
Definition net_MapBinaryToJson (d : comm) (r : request) (idx : Z) : Z * comm :=
  let map f := (0, default d (f d r)) in
  match rpc_type idx with
  | Some GET_MAC_ADDR => map bin_to_json_get_mac_addr
  | Some SET_MAC_ADDR => map bin_to_json_set_mac_addr
  | Some GET_ETH_COUNT => map bin_to_json_get_eth_count
  | Some GET_ETH_NAME => map bin_to_json_get_eth_name
  | Some GET_IP_ADDR => map bin_to_json_get_ip_addr
  | Some SET_IP_ADDR => map bin_to_json_set_ip_addr
  | Some GET_NETMASK => map bin_to_json_get_netmask
  | Some SET_NETMASK => map bin_to_json_set_netmask
  | _ => (-1, d)
  end.
Definition net_ProcessWork (s : state) (r : request) (idx : Z) : Z * request * state :=
  let work f := let '(r', s') := f s r in (0, r', s') in
  match rpc_type idx with
  | Some GET_MAC_ADDR => work process_get_mac_addr
  | Some SET_MAC_ADDR => work process_set_mac_addr
  | Some GET_ETH_COUNT => work process_get_eth_count
  | Some GET_ETH_NAME => work process_get_eth_name
  | Some GET_IP_ADDR => work process_get_ip_addr
  | Some SET_IP_ADDR => work process_set_ip_addr
  | Some GET_NETMASK => work process_get_netmask
  | Some SET_NETMASK => work process_set_netmask
  | _ => (-1, r, s)
  end.
Definition disp_MapJsonToBinary (d : comm) (r : request) (idx : Z) : Z * comm * request :=
  match rpc_type idx with
  | Some DISP_CLEAR => json_to_bin_disp_clear d r
  | Some DISP_PRINT => json_to_bin_disp_print d r
  | Some DISP_GET_BKLT => json_to_bin_backlight_get d r
  | Some DISP_SET_BKLT => json_to_bin_backlight_set d r
  | _ => (-1, d, r)
  end.
Definition disp_MapBinaryToJson (d : comm) (r : request) (idx : Z) : Z * comm :=
  let map f := (0, default d (f d r)) in
  match rpc_type idx with
  | Some DISP_CLEAR => map bin_to_json_disp_clear
  | Some DISP_PRINT => map bin_to_json_disp_print
  | Some DISP_GET_BKLT => map bin_to_json_backlight_get
  | Some DISP_SET_BKLT => map bin_to_json_backlight_set
  | _ => (-1, d)
  end.
Definition disp_ProcessWork (s : state) (r : request) (idx : Z) : Z * request * state :=
  let work f := let '(r', s') := f s r in (0, r', s') in
  match rpc_type idx with
  | Some DISP_CLEAR => work process_disp_clear
  | Some DISP_PRINT => work process_disp_print
  | Some DISP_GET_BKLT => work process_backlight_get
  | Some DISP_SET_BKLT => work process_backlight_set
  | _ => (-1, r, s)
  end.

(** ** The receivers of events *)

(** [LoadEventMonitList()]: address, port, token and event of each line; the names behind
    them are only printed. *)
Definition parse_monitor (l : string) : EvntMonitEntry :=
  let '(ip, r1) := word l in
  let '(port, r2) := word r1 in
  let '(token, r3) := word r2 in
  let '(event, _) := word r3 in
  {| mon_ip := ip; mon_port := atoi port; mon_srvToken := atoi token; mon_evntType := atoi event;
     mon_subscription := -1; mon_subscription_sts := false |}.
Definition LoadEventMonitList (h : H) (listFile : string) (l : list EvntMonitEntry) : Z * list EvntMonitEntry :=
  if (String.length listFile <=? 0)%nat then (Rpc.FAIL, l)
  else (Rpc.SUCCESS, l ++ map parse_monitor (lines (default EmptyString (host_file h listFile)))).
(** The constructor and the destructor of [EventMonitor]. *)
Definition new_EventMonitor (s : state) (config : string) : state :=
  let l := (LoadEventMonitList (machine s) config []).2 in
  let '(l, h) := SubscribeEvents subscribe l (machine s) in with_events (with_machine s h) (Some l) (pEventDefault s).
Definition destruct_event_monitor (s : state) : state :=
  match pEventCustom s with
  | Some l => let '(l, h) := UnSubscribeEvents unsubscribe l (machine s) in
              with_events (with_machine s h) (Some l) (pEventDefault s)
  | None => s
  end.
(** An entry is off when its service shuts down; the name of an event is read from a table
    of 12, of which only the upper end is checked. *)
Fixpoint switch_off (token : Z) (l : list EvntMonitEntry) : list EvntMonitEntry :=
  match l with
  | [] => []
  | e :: l =>
      if mon_srvToken e =? token
      then Build_EvntMonitEntry (mon_ip e) (mon_port e) (mon_srvToken e) (mon_evntType e) (mon_subscription e) false :: l
      else e :: switch_off token l
  end.
Definition monitor_event (s : state) (l : list EvntMonitEntry) (myToken evntNum : Z) : state :=
  if existsb (fun e => mon_srvToken e =? myToken) l then
    let s := with_events s (Some (if evntNum =? 1 then switch_off myToken l else l)) (pEventDefault s) in
    if evntNum <=? 11 then copied s (0 <=? evntNum) else s
  else s.

Definition EVENT_GPIOSRV : Z := 40003.
Definition new_EventHandler (s : state) : state :=
  let '(token, h) := subscribe "127.0.0.1" EVENT_GPIOSRV EVENT_GPIOSRV (-1) (machine s) in
  with_events (with_machine s h) (pEventCustom s) (Some (token, negb (token =? -1))).
Definition destruct_event_handler (s : state) : state :=
  match pEventDefault s with
  | Some (token, true) => with_machine s (unsubscribe "127.0.0.1" EVENT_GPIOSRV token (machine s))
  | _ => s
  end.
Definition handler_event (s : state) (e : Z * bool) (cltToken evntNum : Z) : state :=
  with_events s (pEventCustom s) (Some (e.1, if (cltToken =? EVENT_GPIOSRV) && (evntNum =? 1) then false else e.2)).

(** The receiver [main()] makes: a monitor when it is configured, or the default handler. *)
Definition attach_receiver (s : state) (config : string) : state :=
  if (String.length config =? 0)%nat then new_EventHandler s else new_EventMonitor s config.
Definition receive (s : state) (cltToken evntNum : Z) : state :=
  match pEventCustom s, pEventDefault s with
  | Some l, _ => monitor_event s l cltToken evntNum
  | None, Some e => handler_event s e cltToken evntNum
  | None, None => s
  end.

(** ** The service *)

Inductive rpc_class := NetRpc | SysRpc | DispCtrlRpc | CmnRpc.

(** The objects of [main()], in the order they are attached. *)
Definition sysmgr_objects : list (string * rpc_class * EJSON_SYSMGR_RPC_TYPES) :=
  [("get_mac_addr", NetRpc, GET_MAC_ADDR); ("set_mac_addr", NetRpc, SET_MAC_ADDR); ("get_eth_count", NetRpc, GET_ETH_COUNT);
   ("get_eth_name", NetRpc, GET_ETH_NAME); ("get_ip_addr", NetRpc, GET_IP_ADDR); ("set_ip_addr", NetRpc, SET_IP_ADDR);
   ("get_netmask", NetRpc, GET_NETMASK); ("set_netmask", NetRpc, SET_NETMASK);
   ("get_load_info", SysRpc, GET_LOADINFO); ("get_mem_info", SysRpc, GET_MEMINFO); ("get_cpu_info", SysRpc, GET_CPUINFO);
   ("get_device_operation", SysRpc, GET_DEV_OP); ("set_device_operation", SysRpc, SET_DEV_OP);
   ("get_fmw_version", SysRpc, GET_FMWVER); ("get_boot_system", SysRpc, GET_BOOT_SYSTEM);
   ("firmware_update", SysRpc, SET_FMWUPDATE); ("download_tftp_file", SysRpc, SET_DOWNLOADTFTP);
   ("download_ftp_file", SysRpc, SET_DOWNLOADFTP); ("get_async_task", SysRpc, GET_ASYNCTASK);
   ("get_devtype", SysRpc, GET_DEVTYPE); ("get_hostname", SysRpc, GET_HOSTNAME); ("set_hostname", SysRpc, SET_HOSTNAME);
   ("get_my_public_ip", SysRpc, GET_MY_PUBLIC_IP); ("set_default_hostname", SysRpc, SET_DEFAULT_HOSTNAME);
   ("update_loglist", SysRpc, SET_UPDATE_LOG); ("get_log_count", SysRpc, GET_LOG_COUNT);
   ("get_log_line", SysRpc, GET_LOG_LINE); ("run_shellcmd", SysRpc, RUN_SHELLCMD); ("device_identify", SysRpc, DEVIDENT);
   ("re_subscribe_events", SysRpc, EVNT_SUBSCRIBE); ("run_shellcmdtrig", SysRpc, RUN_SHELLCMDTRIG);
   ("display_clear", DispCtrlRpc, DISP_CLEAR); ("display_print", DispCtrlRpc, DISP_PRINT);
   ("display_backlight_get", DispCtrlRpc, DISP_GET_BKLT); ("display_backlight_set", DispCtrlRpc, DISP_SET_BKLT);
   ("cmnrpc", CmnRpc, GET_MAC_ADDR)]%string.
Definition class_of (k : nat) : rpc_class := match sysmgr_objects !! k with Some (_, c, _) => c | None => CmnRpc end.
Definition rpc_object (emulation logmsg : bool) (x : string * rpc_class * EJSON_SYSMGR_RPC_TYPES) : ADJsonRpcMgrConsumer :=
  {| strRpcName := x.1.1; index := rpc_index x.2; parent_index := 0; emulation := emulation; logmsg := logmsg;
     cmnrpchandler := match x.1.2 with CmnRpc => true | _ => false end |}.

(** The methods of the object at [k]; [CmnRpc] has nothing to do. *)
Definition sysmgr_service : RpcService state sysmgr_packet J :=
  {| svc_MapJsonToBinary k s d r idx :=
       match class_of k with
       | NetRpc => (net_MapJsonToBinary d r idx, s)
       | SysRpc => (MapJsonToBinary (D := D) junk junk_text d r idx, s)
       | DispCtrlRpc => (disp_MapJsonToBinary d r idx, s)
       | CmnRpc => (0, d, r, s)
       end;
     svc_MapBinaryToJson k s d r idx :=
       match class_of k with
       | NetRpc => (net_MapBinaryToJson d r idx, s)
       | SysRpc => (MapBinaryToJson (D := D) junk junk_text d r idx, s)
       | DispCtrlRpc => (disp_MapBinaryToJson d r idx, s)
       | CmnRpc => (0, d, s)
       end;
     svc_ProcessWork k s d r idx :=
       match class_of k with
       | NetRpc => Done (net_ProcessWork s r idx)
       | SysRpc => ProcessWork junk junk_text subscribe k s r idx
       | DispCtrlRpc => Done (disp_ProcessWork s r idx)
       | CmnRpc => Done (0, r, s)
       end;
     svc_ProcessWorkAsync k s cmd data :=
       match class_of k with
       | NetRpc | DispCtrlRpc => (Rpc.FAIL, s)
       | SysRpc => ProcessWorkAsync k s cmd data
       | CmnRpc => (Rpc.SUCCESS, s)
       end;
     svc_ReceiveEvent k s cltToken evntNum _ _ := receive s cltToken evntNum |}.
End sysmgr.
