(* ===== verification/SysmgrSpec.v ===== *)
(** * What the system manager promises

    The calls of the system manager, through the manager of file RpcMgr with the objects
    that [main()] attaches: what each call answers and does, by the parameters of its
    request and the machine, and what the tasks do that some calls start. *)
From S2P Require Import Prelude Common Text TaskWorker TaskCalls RpcMgr RpcMgrSpec SysInfo LogHandler Services SysRpc SysmgrRpc.
From S2P Require Proxy.
Local Open Scope string_scope.
Local Open Scope Z_scope.

(** The drivers of displays report codes of [RPC_SRV_RESULT]. *)
Class DisplayLaws (H : Type) `{DisplayDevice H} : Prop := {
  clear_code : forall h : H, 0 <= (clear_display h).1;
  print_code : forall text line (h : H), 0 <= (print_line text line h).1;
  get_light_code : forall h : H, 0 <= (get_back_light h).1;
  set_light_code : forall b (h : H), 0 <= (set_back_light b h).1;
}.

(** ** The promises *)

(** The calls that start a task, with the number of the command the task runs. *)
Definition task_of (c : EJSON_SYSMGR_RPC_TYPES) : option EJSON_SYSMGR_RPC_TYPES :=
  match c with
  | SET_DEV_OP | SET_FMWUPDATE | SET_DOWNLOADFTP | SET_DOWNLOADTFTP | SET_UPDATE_LOG | RUN_SHELLCMD | DEVIDENT => Some c
  | RUN_SHELLCMDTRIG => Some RUN_SHELLCMD
  | _ => None
  end.

(** The parameters a call needs, with the values they may have. *)
Definition required (c : EJSON_SYSMGR_RPC_TYPES) : list (string * option (list string)) :=
  match c with
  | GET_MAC_ADDR | GET_IP_ADDR | GET_NETMASK => [("iface", None)]
  | SET_MAC_ADDR | SET_IP_ADDR | SET_NETMASK => [("iface", Some (take 10 SYSMGR_RPC_MAC_ADDR_ARG_IFACE_TABL))]
  | GET_ETH_NAME | GET_LOG_LINE => [("index", None)]
  | SET_DEV_OP => [("operation", Some (take 9 SYSMGR_RPC_DEV_OP_ARG_TABL))]
  | GET_FMWVER => [("module", Some (take 6 SYSMGR_RPC_FMW_VER_ARG_TABL))]
  | SET_FMWUPDATE => [("module", Some (take 6 SYSMGR_RPC_FMW_VER_ARG_TABL)); ("filepath", None)]
  | SET_DOWNLOADFTP => [("srcaddr", None); ("targetpath", None)]
  | SET_DOWNLOADTFTP => [("srcaddr", None); ("srcfile", None); ("targetpath", None)]
  | SET_HOSTNAME => [("hostname", None)]
  | RUN_SHELLCMD | RUN_SHELLCMDTRIG => [("command", None)]
  | DISP_PRINT => [("line", Some (take 5 SYSMGR_RPC_DISP_LINE_ARG_TABL)); ("msg", None)]
  | DISP_SET_BKLT => [("status", Some (take 2 SYSMGR_RPC_DISP_BKLT_ARG_TABL))]
  | _ => []
  end.

Section promises.
Context {H J D : Type} `{Host H} `{DisplayDevice H} `{JsonC J D}.
Variable (junk : Z) (junk_text : string).
Variable subscribe : string -> Z -> Z -> Z -> H -> Z * H.
Abbreviation state := (SYSMGR_CMN_DATA_CACHE H).
Abbreviation comm := (JsonDataCommObj J).
Abbreviation outcome := (Z * list (string * string) * state)%type.
Implicit Types (s : state) (d : comm).

Definition on_success (code : Z) (fields : list (string * string)) : list (string * string) :=
  if code =? Rpc.SUCCESS then fields else [].
(** The name of a value, or of the unknown one. *)
Definition spelled (table : list string) (max v : Z) : string :=
  default EmptyString (table !! Z.to_nat (if (v >? max) || (v <? 0) then max else v)).

(** The version a tool reports, which is then kept. *)
Definition version_by_tool s (option : string) (store : string -> versions) : outcome :=
  match read_tool_output s (version_command s option) with
  | (inl code, s) => (code, [], s)
  | (inr EmptyString, s) => (Rpc.FILE_READ_ERR, [], s)
  | (inr text, s) =>
      let v := strip_line text in
      (Rpc.SUCCESS, [("version", v)], copied (with_cached s (store v)) (fits FMWVER_SIZE v))
  end.
Definition version_promised s (k : nat) (module : string) : outcome :=
  let c := cached s in
  if emulated s then (Rpc.SUCCESS, [("version", "00.01.12345")], s)
  else if (module =? "current")%string then
    if decide (k ∈ crnt_fmwver_updated c) then (Rpc.SUCCESS, [("version", crnt_fmwver c)], s)
    else version_by_tool s "-v" (fun v => Build_versions v (bkup_fmwver c) (bootsys c) ({[k]} ∪ crnt_fmwver_updated c)
                                            (bkup_fmwver_updated c) (boot_system_updated c))
  else if (module =? "backup")%string then
    if decide (k ∈ bkup_fmwver_updated c) then (Rpc.SUCCESS, [("version", bkup_fmwver c)], s)
    else version_by_tool s "-b" (fun v => Build_versions (crnt_fmwver c) v (bootsys c) (crnt_fmwver_updated c)
                                            ({[k]} ∪ bkup_fmwver_updated c) (boot_system_updated c))
  else (Rpc.FEATURE_NOT_AVAILABLE, [], s).

(** The system that was started: [brbox1] or [brbox2], as the tool says it. *)
Definition boot_promised s (k : nat) : outcome :=
  let c := cached s in
  let keep b := Build_versions (crnt_fmwver c) (bkup_fmwver c) b (crnt_fmwver_updated c) (bkup_fmwver_updated c)
                  ({[k]} ∪ boot_system_updated c) in
  if decide (k ∈ boot_system_updated c)
  then (Rpc.SUCCESS, [("system", spelled SYSMGR_RPC_BOOT_SYSTEM_ARG_TABL BOOT_SYSTEM_UNKNOWN (bootsys c))], s)
  else
    match read_tool_output s (SYSMGR_BRDSK_TOOL ++ " -c > " ++ SYSMGR_TEMP_FMW_READ_FILE)%string with
    | (inl code, s) => (code, [], s)
    | (inr EmptyString, s) => (Rpc.NOT_STARTED, [], s)
    | (inr text, s) =>
        if (strip_line text =? "brbox1")%string then (Rpc.SUCCESS, [("system", "brbox1")], with_cached s (keep 0))
        else if (strip_line text =? "brbox2")%string then (Rpc.SUCCESS, [("system", "brbox2")], with_cached s (keep 1))
        else (Rpc.FAIL, [], s)
    end.

(** The task that runs. *)
Definition running s : string :=
  match rpc_type (AsyncCmdInProgress s) with
  | Some SET_DEV_OP => "devop"
  | Some SET_FMWUPDATE => "fupdate"
  | Some SET_DOWNLOADFTP => "ftpdownload"
  | Some SET_DOWNLOADTFTP => "tftpdownload"
  | Some SET_UPDATE_LOG => "loglistupdt"
  | Some RUN_SHELLCMD => "shellcmd"
  | Some DEVIDENT => "devident"
  | Some RUN_SHELLCMDTRIG => "shellcmdtrig"
  | _ => "none"
  end.

(** The name of the host: the first word of the file of the settings, or else of the system. *)
Definition hostname_promised s : outcome :=
  match host_file (machine s) HOST_NAME_FILE_PATH, host_file (machine s) DEF_HOST_NAME_FILE_PATH with
  | Some text, _ | None, Some text =>
      (Rpc.SUCCESS, [("hostname", (word text).1)], copied s (fits HOSTNAME_SIZE (word text).1))
  | None, None => (Rpc.FILE_OPEN_ERR, [], s)
  end.

(** What is asked of the network about the interface named by the request. *)
Definition network_promised d s (name : string) (pick : network_info -> string) : outcome :=
  let '(ret, n, s') := network_of s (argument (D := D) d "iface") in
  if ret =? 0 then (Rpc.SUCCESS, [(name, pick n)], s') else (Rpc.FAIL, [], s').
Definition eth_name_promised d s : outcome :=
  let i := atoi (argument (D := D) d "index") in
  let '(code, n, h) := get_total_eth_count (machine s) in
  let s := with_machine s h in
  if negb (code =? Rpc.SUCCESS) then (code, [], s)
  else if n =? 0 then (Rpc.FAIL, [], s)
  else if i >? i32 (n - 1) then (Rpc.ARG_ERROR, [], s)
  else let '(code, eth, h) := get_nth_eth_name h (i32 (i + 1)) junk_text in
       (code, on_success code [("name", eth)], with_machine s h).

(** A command for the display, when there is one. *)
Definition display_promised s (f : H -> Z * H) : outcome :=
  if pDisplay s then let '(code, h) := f (machine s) in (code, [], with_machine s h) else (Rpc.FAIL, [], s).

(** The code, the values and the state of each call that starts no task, at the object [k]. *)
Definition promised d (k : nat) s (c : EJSON_SYSMGR_RPC_TYPES) : outcome :=
  match c with
  | GET_LOADINFO => let '(a, b, t, ok) := read_load_info (machine s) junk_text in
      (Rpc.SUCCESS, [("current", a); ("average", b); ("uptime", t)], copied s ok)
  | GET_MEMINFO => let '(a, b, t, ok) := read_mem_info (machine s) junk_text in
      (Rpc.SUCCESS, [("memMB", a); ("memfreeMB", b); ("memusedMB", t)], copied s ok)
  | GET_CPUINFO => let '(a, b, t, ok) := read_cpu_info (machine s) junk_text in
      (Rpc.SUCCESS, [("model", a); ("cores", b); ("frequency", t)], copied s ok)
  | GET_DEV_OP => (Rpc.SUCCESS, [("operation", spelled SYSMGR_RPC_DEV_OP_ARG_TABL DEV_OP_UNKNOWN (DevOp s))], s)
  | GET_FMWVER => version_promised s k (argument (D := D) d "module")
  | GET_BOOT_SYSTEM => boot_promised s k
  | GET_ASYNCTASK => (Rpc.SUCCESS, [("task", running s)], s)
  | GET_DEVTYPE => (Rpc.SUCCESS, [("type", spelled ADCMN_BOARD_TYPE_TABLE BOARD_TYPE_UNKNOWN (BoardType (pDevInfo s)))], s)
  | GET_HOSTNAME => hostname_promised s
  | SET_HOSTNAME =>
      let '(written, h) := host_write HOST_NAME_FILE_PATH (argument (D := D) d "hostname") (machine s) in
      (if written : bool then Rpc.SUCCESS else Rpc.FILE_OPEN_ERR, [], with_machine s h)
  | GET_MY_PUBLIC_IP =>
      let '(code, ip, h) := run_shell_query (machine s) "wget http://ipinfo.io/ip -qO -" junk_text in
      (code, on_success code [("ip", ip)], with_machine s h)
  | SET_DEFAULT_HOSTNAME =>
      let '(code, h) := run_shell_script (machine s) "default-hostname -f y" (emulated s) in (code, [], with_machine s h)
  | GET_LOG_COUNT => (Rpc.SUCCESS, [("logcount", format_d (i32 (GetLogLines (pLogger s))))], s)
  | GET_LOG_LINE =>
      match read_log_message_line (pLogger s) (atoi (argument (D := D) d "index")) with
      | (code, Some line) => (code, on_success code [("logmsg", line)], s)
      | (code, None) => (code, on_success code [("logmsg", junk_text)], s)
      end
  | EVNT_SUBSCRIBE =>
      match pEventCustom s with
      | Some l => (Rpc.SUCCESS, [], with_machine s (SubscribeEvents subscribe l (machine s)).2)
      | None => (Rpc.FEATURE_NOT_AVAILABLE, [], s)
      end
  | GET_MAC_ADDR => network_promised d s "addr" n_mac
  | GET_IP_ADDR => network_promised d s "addr" n_ip
  | GET_NETMASK => network_promised d s "addr" n_netmask
  | SET_MAC_ADDR | SET_IP_ADDR | SET_NETMASK => (Rpc.FEATURE_UNSUPPORTED, [], s)
  | GET_ETH_COUNT =>
      let '(code, n, h) := get_total_eth_count (machine s) in
      (code, on_success code [("count", format_d (i32 n))], with_machine s h)
  | GET_ETH_NAME => eth_name_promised d s
  | DISP_CLEAR => display_promised s clear_display
  | DISP_PRINT =>
      display_promised s (print_line (argument (D := D) d "msg") (choice (D := D) d "line" (take 5 SYSMGR_RPC_DISP_LINE_ARG_TABL)))
  | DISP_GET_BKLT =>
      if pDisplay s then
        let '(code, lit) := get_back_light (machine s) in
        (code, on_success code [("status", if lit : bool then "on" else "off")], s)
      else (Rpc.FAIL, [], s)
  | DISP_SET_BKLT => display_promised s (set_back_light (argument (D := D) d "status" =? "on")%string)
  | _ => (Rpc.FAIL, [], s)
  end.
End promises.

(** ** Requests *)

Definition class_for (c : EJSON_SYSMGR_RPC_TYPES) : rpc_class :=
  match c with
  | GET_MAC_ADDR | SET_MAC_ADDR | GET_ETH_COUNT | GET_ETH_NAME | GET_IP_ADDR | SET_IP_ADDR | GET_NETMASK | SET_NETMASK => NetRpc
  | DISP_CLEAR | DISP_PRINT | DISP_GET_BKLT | DISP_SET_BKLT => DispCtrlRpc
  | _ => SysRpc
  end.

Lemma sysmgr_type_of c : rpc_type (rpc_index c) = Some c.
Proof. by destruct c. Qed.

(** The objects are of the class of their call, and the names are found. *)
Lemma object_class (i : nat) name cls c :
  sysmgr_objects !! i = Some (name, cls, c) -> cls <> CmnRpc -> class_of i = class_for c.
Proof.
  intros Hi Hc. unfold class_of. rewrite Hi. do 36 (destruct i as [|i]; [by injection Hi as <- <- <-|]). done.
Qed.

Section calls.
Context {W H J D : Type} `{Host H} `{DisplayDevice H} `{JsonCLaws J D} `{TaskService W}.
Variable (junk : Z) (junk_text : string).
Variable subscribe : string -> Z -> Z -> Z -> H -> Z * H.
Abbreviation state := (SYSMGR_CMN_DATA_CACHE H).
Abbreviation manager := (ADJsonRpcMgr W state).
Abbreviation comm := (JsonDataCommObj J).
Abbreviation request := (RPC_SRV_REQ sysmgr_packet).
#[local] Instance this_service : RpcService state sysmgr_packet J := sysmgr_service (D := D) junk junk_text subscribe.
Implicit Types (m : manager) (d : comm) (r : request) (s : state).

Lemma object_found m (emulation logmsg : bool) (i : nat) name cls c :
  rpclist m = map (rpc_object emulation logmsg) sysmgr_objects -> sysmgr_objects !! i = Some (name, cls, c) ->
  rpclist m !! i = Some (rpc_object emulation logmsg (name, cls, c)) /\
  method_found m name = Some (Z.of_nat i + EJSON_RPCGMGR_CMD_END).
Proof.
  intros Hl Hi. split; [by rewrite Hl, list_lookup_fmap, Hi|].
  rewrite method_found_first. unfold registered_methods. rewrite Hl.
  do 36 (destruct i as [|i]; [injection Hi as <- <- <-; vm_compute; reflexivity|]). done.
Qed.

(** The packet of a request. *)
Definition packet_of d (c : EJSON_SYSMGR_RPC_TYPES) : sysmgr_packet :=
  let arg := argument (D := D) d in
  let pick := choice (D := D) d in
  match c with
  | GET_LOADINFO => LOAD_INFO_PACKET junk_text junk_text junk_text
  | GET_MEMINFO => MEM_INFO_PACKET junk_text junk_text junk_text
  | GET_CPUINFO => CPU_INFO_PACKET junk_text junk_text junk_text
  | GET_DEV_OP => DEV_OP_PACKET junk junk
  | SET_DEV_OP => DEV_OP_PACKET (pick "operation" (take 9 SYSMGR_RPC_DEV_OP_ARG_TABL)) junk
  | GET_FMWVER => FMW_MODULE_PACKET (pick "module" (take 6 SYSMGR_RPC_FMW_VER_ARG_TABL)) junk_text junk
  | SET_FMWUPDATE => FMW_MODULE_PACKET (pick "module" (take 6 SYSMGR_RPC_FMW_VER_ARG_TABL)) (arg "filepath") junk
  | GET_BOOT_SYSTEM => BOOT_SYSTEM_PACKET junk
  | SET_DOWNLOADFTP => DOWNLOAD_FILE_PACKET (arg "srcaddr") EmptyString (arg "targetpath") junk
  | SET_DOWNLOADTFTP => DOWNLOAD_FILE_PACKET (arg "srcaddr") (arg "srcfile") (arg "targetpath") junk
  | GET_ASYNCTASK => ASYNCTASK_PACKET junk
  | GET_DEVTYPE => DEVTYPE_PACKET junk
  | GET_HOSTNAME | SET_DEFAULT_HOSTNAME => HOSTNAME_PACKET junk_text
  | SET_HOSTNAME => HOSTNAME_PACKET (arg "hostname")
  | GET_MY_PUBLIC_IP => MY_PUBLIC_IP_PACKET junk_text
  | SET_UPDATE_LOG | GET_LOG_COUNT => LOG_PACKET junk junk junk_text junk
  | GET_LOG_LINE => LOG_PACKET (atoi (arg "index")) junk junk_text junk
  | RUN_SHELLCMD | RUN_SHELLCMDTRIG => SHELLCMD_PACKET (arg "command") junk
  | DEVIDENT => DEVIDENT_PACKET junk
  | EVNT_SUBSCRIBE => EVNT_SUBSCR_PACKET junk
  | GET_MAC_ADDR => MAC_ADDR_PACKET junk junk_text junk (arg "iface")
  | SET_MAC_ADDR => MAC_ADDR_PACKET (pick "iface" (take 10 SYSMGR_RPC_MAC_ADDR_ARG_IFACE_TABL)) junk_text junk junk_text
  | GET_ETH_COUNT => MAC_ADDR_PACKET junk junk_text junk junk_text
  | GET_ETH_NAME => MAC_ADDR_PACKET junk junk_text (atoi (arg "index")) junk_text
  | GET_IP_ADDR | GET_NETMASK => NET_INFO_PACKET junk junk_text (arg "iface")
  | SET_IP_ADDR | SET_NETMASK => NET_INFO_PACKET (pick "iface" (take 10 SYSMGR_RPC_MAC_ADDR_ARG_IFACE_TABL)) junk_text junk_text
  | DISP_CLEAR | DISP_GET_BKLT => PRINT_PACKET junk junk_text junk
  | DISP_PRINT => PRINT_PACKET (pick "line" (take 5 SYSMGR_RPC_DISP_LINE_ARG_TABL)) (arg "msg") junk
  | DISP_SET_BKLT => PRINT_PACKET junk junk_text (pick "status" (take 2 SYSMGR_RPC_DISP_BKLT_ARG_TABL))
  end.
Definition action_of (c : EJSON_SYSMGR_RPC_TYPES) : Z :=
  match c with
  | SET_MAC_ADDR | SET_DEV_OP | SET_FMWUPDATE | SET_DOWNLOADFTP | SET_DOWNLOADTFTP | SET_HOSTNAME | SET_DEFAULT_HOSTNAME
  | SET_UPDATE_LOG | SET_IP_ADDR | SET_NETMASK | RUN_SHELLCMD | RUN_SHELLCMDTRIG | DEVIDENT | EVNT_SUBSCRIBE | DISP_CLEAR
  | DISP_PRINT | DISP_SET_BKLT => Act.WRITE
  | _ => Act.READ
  end.
Definition mapped d (c : EJSON_SYSMGR_RPC_TYPES) : request :=
  PREPARE (create_req_obj junk d) (packet_of d c) (action_of c) (default c (task_of c)).

(** The parameters, one behind the other. *)
Lemma parameter_checked d (x : string * option (list string)) (rest : list (string * option (list string))) (ok : Z * comm * request)
    (k : Z * comm * request) r :
  (if forallb (param_ok (D := D) (socket_data d)) rest then k = ok
   else exists r', k = (-1, set_mapper_result d Task.INVALID_PARAM, r')) ->
  if forallb (param_ok (D := D) (socket_data d)) (x :: rest)
  then (if param_ok (D := D) (socket_data d) x then k else invalid_param d r) = ok
  else exists r', (if param_ok (D := D) (socket_data d) x then k else invalid_param d r) =
         (-1, set_mapper_result d Task.INVALID_PARAM, r').
Proof. intros Hk. cbn [forallb]. destruct (param_ok _ x); simpl; [exact Hk|by eexists]. Qed.

(** One parameter of a kind, in front of the goal of [parameter_checked]. *)
Local Ltac parameter :=
  first
    [ rewrite with_string_spec by (vm_compute; lia)
    | rewrite with_int_argument
    | match goal with |- context [with_enum _ _ _ ?t ?n _] =>
        let k := eval vm_compute in (Z.to_nat n) in
        change n with (Z.of_nat k); rewrite with_enum_choice by (vm_compute; lia) end ];
  apply parameter_checked.

Lemma sysmgr_call_mapped (i : nat) s d c :
  class_of i = class_for c ->
  if forallb (param_ok (D := D) (socket_data d)) (required c)
  then svc_MapJsonToBinary i s d (create_req_obj junk d) (rpc_index c) = (0, d, mapped d c, s)
  else exists r, svc_MapJsonToBinary i s d (create_req_obj junk d) (rpc_index c) =
         (-1, set_mapper_result d Task.INVALID_PARAM, r, s).
Proof.
  intros Hcls. cbn [svc_MapJsonToBinary this_service sysmgr_service]. rewrite Hcls.
  assert (forall (x : Z * comm * request),
    (if forallb (param_ok (D := D) (socket_data d)) (required c) then x = (0, d, mapped d c)
     else exists r, x = (-1, set_mapper_result d Task.INVALID_PARAM, r)) ->
    if forallb (param_ok (D := D) (socket_data d)) (required c) then (x, s) = (0, d, mapped d c, s)
    else exists r, (x, s) = (-1, set_mapper_result d Task.INVALID_PARAM, r, s)) as Hs.
  { intros x Hx. destruct (forallb _ _); [by rewrite Hx|]. destruct Hx as [r ->]. by exists r. }
  destruct c; cbn [class_for]; apply Hs; clear Hs; unfold net_MapJsonToBinary, disp_MapJsonToBinary, MapJsonToBinary;
    rewrite sysmgr_type_of; cbn [required]; try reflexivity;
    unfold json_to_bin_get_mac_addr, json_to_bin_set_mac_addr, json_to_bin_get_eth_name, json_to_bin_get_ip_addr,
      json_to_bin_set_ip_addr, json_to_bin_get_netmask, json_to_bin_set_netmask, json_to_bin_net, json_to_bin_set_net,
      json_to_bin_set_devop, json_to_bin_get_fmwver, json_to_bin_set_fmwupdate, json_to_bin_download_file, json_to_bin_set_hostname,
      json_to_bin_get_logline, json_to_bin_run_shellcmd, json_to_bin_disp_print, json_to_bin_backlight_set;
    try (destruct (decide _) as [|_]; [done|]);
    repeat parameter; reflexivity.
Qed.

(** ** Answers *)

(** The codes of the machine's functions are none below 0. *)
Lemma query_code (h : H) cmd old : 0 <= (run_shell_query h cmd old).1.1.
Proof. unfold run_shell_query. by destruct (host_popen cmd h) as [[out|] h']. Qed.
Lemma script_code (h : H) cmd emulation : 0 <= (run_shell_script h cmd emulation).1.
Proof.
  unfold run_shell_script. destruct emulation; [done|]. destruct (host_system cmd h) as [status h']. simpl.
  unfold script_result. repeat case_match; done.
Qed.
Lemma eth_count_code (h : H) : 0 <= (get_total_eth_count h).1.1 /\ (get_total_eth_count h).1.1 <> Rpc.IN_PROG.
Proof.
  unfold get_total_eth_count. destruct (host_system _ h) as [status h1]. destruct (negb _); [done|].
  by destruct (host_popen _ h1) as [[out|] h2].
Qed.
Lemma eth_name_code (h : H) i old : 0 <= (get_nth_eth_name h i old).1.1.
Proof. unfold get_nth_eth_name. by destruct (host_popen _ h) as [[out|] h2]. Qed.
Lemma tool_code s cmd code s' : read_tool_output s cmd = (inl code, s') -> code = Rpc.FILE_OPEN_ERR.
Proof.
  unfold read_tool_output. destruct (host_system cmd (machine s)) as [status h]. destruct (negb _); [by intros [= <- _]|].
  destruct (host_file h _); [done|by intros [= <- _]].
Qed.

(** What a handler did and the answer made of it are as promised. *)
Definition as_promised (promise : Z * list (string * string) * state) (work : request * state) (answer : request -> option comm) : Prop :=
  let '(code, fields, s') := promise in
  work.2 = s' /\ exists d', answer work.1 = Some d' /\ responds d' code fields.

Lemma answer_plain d r s code (answer : request -> option comm) :
  answer (set_result r code) = PREPARE_JSON_RESP (D := D) d (set_result r code) -> 0 <= code ->
  as_promised (code, [], s) (set_result r code, s) answer.
Proof. intros Ea Hc. split; [done|]. cbn [fst]. rewrite Ea. by apply plain_answer. Qed.
Lemma answer_string d r s code name v (answer : request -> option comm) :
  answer (set_result r code) = PREPARE_JSON_RESP_STRING (D := D) d (set_result r code) name v ->
  0 <= code -> name <> RPC_NAME_ARG_RESULT_PARAM ->
  as_promised (code, on_success code [(name, v)], s) (set_result r code, s) answer.
Proof. intros Ea Hc Hn. split; [done|]. cbn [fst]. rewrite Ea. by apply resp_string. Qed.
Lemma answer_enum d r s code name v table max (answer : request -> option comm) :
  answer (set_result r code) = PREPARE_JSON_RESP_ENUM (D := D) d (set_result r code) name v table max ->
  0 <= code -> name <> RPC_NAME_ARG_RESULT_PARAM ->
  as_promised (code, on_success code [(name, spelled table max v)], s) (set_result r code, s) answer.
Proof. intros Ea Hc Hn. split; [done|]. cbn [fst]. rewrite Ea. by apply resp_enum. Qed.
Lemma on_success_not code fields : code <> Rpc.SUCCESS -> on_success code fields = [].
Proof. unfold on_success. by destruct (Z.eqb_spec code Rpc.SUCCESS). Qed.

Lemma answer_texts d r s n1 n2 n3 a b t :
  rq_result r = Rpc.SUCCESS -> NoDup [RPC_NAME_ARG_RESULT_PARAM; n1; n2; n3] ->
  rq_dataRef r = Some (ServicePacket (LOAD_INFO_PACKET a b t)) \/ rq_dataRef r = Some (ServicePacket (MEM_INFO_PACKET a b t)) \/
  rq_dataRef r = Some (ServicePacket (CPU_INFO_PACKET a b t)) ->
  as_promised (Rpc.SUCCESS, [(n1, a); (n2, b); (n3, t)], s) (r, s) (fun r => three_texts (D := D) d r n1 n2 n3).
Proof.
  intros Hr Hn Hp. split; [done|]. unfold three_texts. cbn [fst]. rewrite Hr.
  assert (exists d', prepare_result_string_sss (D := D) Rpc.SUCCESS d n1 a n2 b n3 t = Some d' /\
    responds d' Rpc.SUCCESS [(n1, a); (n2, b); (n3, t)]) as (d' & E & Hd).
  { apply prepare_responds; [done|exact Hn|]. intros k v Hin.
    do 3 (apply elem_of_cons in Hin as [Heq|Hin];
      [injection Heq as -> ->; eexists; split; [apply list_elem_of_In; simpl; by auto|apply string_of_string]|]).
    by apply elem_of_nil in Hin. }
  exists d'. split; [|done]. by destruct Hp as [->|[->| ->]].
Qed.

Lemma answer_int d r s code name v (answer : request -> option comm) :
  answer (set_result r code) = PREPARE_JSON_RESP_INT (D := D) d (set_result r code) name v ->
  0 <= code -> code <> Rpc.IN_PROG -> name <> RPC_NAME_ARG_RESULT_PARAM ->
  as_promised (code, on_success code [(name, format_d (i32 v))], s) (set_result r code, s) answer.
Proof.
  intros Ea Hc Hi Hn. split; [done|]. cbn [fst]. rewrite Ea. apply Z.eqb_neq in Hi. unfold on_success.
  destruct (resp_int (D := D) d (set_result r code) name v Hc Hn) as (d' & E & Hr). exists d'. split; [done|].
  cbn [rq_result set_result] in Hr. by rewrite Hi, orb_false_r in Hr.
Qed.

Lemma answer_value d r s name v (answer : request -> option comm) :
  answer (set_result r Rpc.SUCCESS) = PREPARE_JSON_RESP_STRING (D := D) d (set_result r Rpc.SUCCESS) name v ->
  name <> RPC_NAME_ARG_RESULT_PARAM ->
  as_promised (Rpc.SUCCESS, [(name, v)], s) (set_result r Rpc.SUCCESS, s) answer.
Proof. intros Ea Hn. by apply (answer_string d r s Rpc.SUCCESS name v). Qed.
Lemma answer_failed d r s code name v (answer : request -> option comm) :
  answer (set_result r code) = PREPARE_JSON_RESP_STRING (D := D) d (set_result r code) name v ->
  0 <= code -> code <> Rpc.SUCCESS -> name <> RPC_NAME_ARG_RESULT_PARAM -> as_promised (code, [], s) (set_result r code, s) answer.
Proof. intros Ea Hc Hne Hn. rewrite <- (on_success_not code [(name, v)]) by done. by apply (answer_string d). Qed.

(** The classes of calls whose answers need more than one case. *)
Lemma network_answered d s name (pick : network_info -> string) r (packet : network_info -> sysmgr_packet) (answer : request -> option comm) :
  (forall n code, answer (set_result (service_packet r (packet n)) code) =
     PREPARE_JSON_RESP_STRING (D := D) d (set_result (service_packet r (packet n)) code) name (pick n)) ->
  name <> RPC_NAME_ARG_RESULT_PARAM ->
  as_promised (network_promised (D := D) d s name pick)
    (let '(ret, n, s') := network_of s (argument (D := D) d "iface") in answered s' r (packet n) (found ret)) answer.
Proof.
  intros Ha Hn. unfold network_promised. destruct (network_of s _) as [[ret n] s']. unfold answered, found.
  destruct (ret =? 0); [by apply (answer_value d _ s' name)|by apply (answer_failed d _ s' Rpc.FAIL name (pick n))].
Qed.

Lemma eth_name_answered d s :
  as_promised (eth_name_promised (D := D) junk_text d s) (process_get_eth_name s (mapped d GET_ETH_NAME))
    (bin_to_json_get_eth_name (D := D) junk_text d).
Proof.
  unfold eth_name_promised, process_get_eth_name. cbn [mapped PREPARE PREPARE_REQUEST packet_of rq_dataRef set_packet].
  pose proof (eth_count_code (machine s)) as [Hc _]. destruct (get_total_eth_count (machine s)) as [[code n] h]. cbn [fst] in Hc.
  destruct (Z.eqb_spec code Rpc.SUCCESS) as [->|Hne]; cbn [negb].
  2: by apply (answer_failed d _ _ code "name" junk_text).
  destruct (n =? 0); [by apply (answer_failed d _ _ Rpc.FAIL "name" junk_text)|].
  destruct (_ >? _); [by apply (answer_failed d _ _ Rpc.ARG_ERROR "name" junk_text)|].
  pose proof (eth_name_code h (i32 (atoi (argument (D := D) d "index") + 1)) junk_text) as Hc2.
  destruct (get_nth_eth_name h _ junk_text) as [[code eth] h2]. by apply (answer_string d).
Qed.

Lemma display_answered s r (f : H -> Z * H) (answer : request -> option comm) d :
  (forall code, answer (set_result r code) = PREPARE_JSON_RESP (D := D) d (set_result r code)) -> 0 <= (f (machine s)).1 ->
  as_promised (display_promised s f)
    (if pDisplay s then let '(code, h) := f (machine s) in (set_result r code, with_machine s h) else (set_result r Rpc.FAIL, s)) answer.
Proof.
  intros Ha Hc. unfold display_promised. destruct (pDisplay s); [|by apply (answer_plain d)].
  destruct (f (machine s)) as [code h]. by apply (answer_plain d).
Qed.

Lemma hostname_answered d s :
  as_promised (hostname_promised s) (process_get_hostname s (mapped d GET_HOSTNAME)) (bin_to_json_get_hostname (D := D) junk_text d).
Proof.
  unfold hostname_promised, process_get_hostname. cbn [reading mapped]. change (rq_action _ =? Act.READ) with true. cbn [negb].
  destruct (host_file (machine s) HOST_NAME_FILE_PATH) as [a|]; [by apply (answer_value d)|].
  destruct (host_file (machine s) DEF_HOST_NAME_FILE_PATH) as [a|]; [by apply (answer_value d)|].
  by apply (answer_failed d _ _ Rpc.FILE_OPEN_ERR "hostname" junk_text).
Qed.

Lemma version_by_tool_answered d s r module id option store :
  as_promised (version_by_tool s option store) (read_version s r module id option store) (bin_to_json_get_fmwver (D := D) junk_text d).
Proof.
  unfold version_by_tool, read_version. destruct (read_tool_output s _) as [[code|text] s'] eqn:E.
  - apply tool_code in E as ->. by apply (answer_failed d _ s' Rpc.FILE_OPEN_ERR "version" "unknown").
  - destruct text as [|x text]; [by apply (answer_failed d _ s' Rpc.FILE_READ_ERR "version" "unknown")|].
    by apply (answer_value d).
Qed.

Lemma version_answered (i : nat) d s :
  argument (D := D) d "module" ∈ take 6 SYSMGR_RPC_FMW_VER_ARG_TABL ->
  as_promised (version_promised s i (argument (D := D) d "module")) (process_get_fmwver i s (mapped d GET_FMWVER))
    (bin_to_json_get_fmwver (D := D) junk_text d).
Proof.
  intros Hm. unfold version_promised, process_get_fmwver, reading. change (rq_action _ =? Act.READ) with true. cbn [negb].
  change (rq_dataRef (mapped d GET_FMWVER)) with (Some (ServicePacket (packet_of d GET_FMWVER))). cbn [packet_of].
  destruct (emulated s); [by apply (answer_value d)|].
  assert (forall (k : nat) x, take 6 SYSMGR_RPC_FMW_VER_ARG_TABL !! k = Some x ->
    (choice (D := D) d "module" (take 6 SYSMGR_RPC_FMW_VER_ARG_TABL) =? Z.of_nat k) = (argument (D := D) d "module" =? x)%string) as Hc.
  { intros k x Hk. apply index_of_at; [|done|done]. by apply (bool_decide_unpack (NoDup _)). }
  change FMW_MODULE_BRBOX_CURRENT with (Z.of_nat 0). change FMW_MODULE_BRBOX_BACKUP with (Z.of_nat 1).
  rewrite (Hc 0%nat "current"), (Hc 1%nat "backup") by done.
  destruct (_ =? "current")%string; [|destruct (_ =? "backup")%string].
  - destruct (decide _); [by apply (answer_value d)|apply version_by_tool_answered].
  - destruct (decide _); [by apply (answer_value d)|apply version_by_tool_answered].
  - by apply (answer_failed d _ s Rpc.FEATURE_NOT_AVAILABLE "version" "unknown").
Qed.

Lemma boot_answered (i : nat) d s :
  as_promised (boot_promised s i) (process_get_bootsys i s (mapped d GET_BOOT_SYSTEM)) (bin_to_json_get_bootsys (D := D) junk d).
Proof.
  unfold boot_promised, process_get_bootsys, reading. change (rq_action _ =? Act.READ) with true. cbn [negb].
  assert (forall s' r (code : Z) v, code <> Rpc.SUCCESS -> 0 <= code ->
    as_promised (code, [], s') (set_result (service_packet r (BOOT_SYSTEM_PACKET v)) code, s') (bin_to_json_get_bootsys (D := D) junk d)) as Hfail.
  { intros s' r code v Hne Hc.
    rewrite <- (on_success_not code [("system", spelled SYSMGR_RPC_BOOT_SYSTEM_ARG_TABL BOOT_SYSTEM_UNKNOWN v)]) by done.
    by apply (answer_enum d). }
  assert (forall s' r v, as_promised (Rpc.SUCCESS, [("system", spelled SYSMGR_RPC_BOOT_SYSTEM_ARG_TABL BOOT_SYSTEM_UNKNOWN v)], s')
    (answered s' r (BOOT_SYSTEM_PACKET v) Rpc.SUCCESS) (bin_to_json_get_bootsys (D := D) junk d)) as Hok.
  { intros s' r v. by apply (answer_enum d _ s' Rpc.SUCCESS "system" v SYSMGR_RPC_BOOT_SYSTEM_ARG_TABL BOOT_SYSTEM_UNKNOWN). }
  destruct (decide _); [apply Hok|]. destruct (read_tool_output s _) as [[code|text] s'] eqn:E.
  - apply tool_code in E as ->. by apply (Hfail s' (mapped d GET_BOOT_SYSTEM) Rpc.FILE_OPEN_ERR junk).
  - destruct text as [|x text]; [by apply (Hfail s' (create_req_obj junk d) Rpc.NOT_STARTED junk)|].
    unfold string_to_enum. cbn [string_to_enum_from SYSMGR_RPC_BOOT_SYSTEM_ARG_TABL BOOT_SYSTEM_UNKNOWN Z.to_nat Pos.to_nat Pos.iter_op Nat.add].
    rewrite (String.eqb_sym "brbox1"), (String.eqb_sym "brbox2").
    destruct (_ =? "brbox1")%string; [apply (Hok _ _ 0)|]. destruct (_ =? "brbox2")%string; [apply (Hok _ _ 1)|].
    by apply Hfail.
Qed.

Lemma running_answered d s :
  as_promised (Rpc.SUCCESS, [("task", running s)], s) (process_get_async_task_in_progress s (mapped d GET_ASYNCTASK))
    (bin_to_json_get_async_task_in_progress (D := D) junk d).
Proof.
  assert (running s = spelled SYSMGR_RPC_ASYNCTASK_ARG_TABL ASYNCTASK_UNKNOWN (get_async_task_in_progress s)) as ->.
  { unfold running, get_async_task_in_progress. destruct (rpc_type (AsyncCmdInProgress s)) as [[]|]; reflexivity. }
  by apply (answer_enum d _ s Rpc.SUCCESS "task" _ SYSMGR_RPC_ASYNCTASK_ARG_TABL ASYNCTASK_UNKNOWN).
Qed.

Definition answers (i : nat) d s c r : Prop :=
  let '(code, fields, s') := promised (D := D) junk_text subscribe d i s c in
  exists r2 d', svc_ProcessWork i s d r (rpc_index c) = Done (0, r2, s') /\
    svc_MapBinaryToJson i s' d r2 (rpc_index c) = (0, d', s') /\ responds d' code fields.

Lemma by_work (i : nat) d s c r (f : state -> request -> request * state) (answer : request -> option comm) :
  (svc_ProcessWork i s d r (rpc_index c) = let '(r', s') := f s r in Done (0, r', s')) \/
  (svc_ProcessWork i s d r (rpc_index c) = Done (let '(r', s') := f s r in (0, r', s'))) ->
  (forall s' r', svc_MapBinaryToJson i s' d r' (rpc_index c) = (0, default d (answer r'), s')) ->
  as_promised (promised (D := D) junk_text subscribe d i s c) (f s r) answer -> answers i d s c r.
Proof.
  unfold answers, as_promised. intros Hw Ha. destruct (promised _ _ d i s c) as [[code fields] s'].
  destruct (f s r) as [r2 s2]; cbn [fst snd]. intros (-> & d' & E & Hr). exists r2, d'.
  split; [by destruct Hw|]. by rewrite Ha, E.
Qed.

Lemma sysmgr_call_answers `{!DisplayLaws H} (i : nat) d s c :
  class_of i = class_for c -> task_of c = None ->
  forallb (param_ok (D := D) (socket_data d)) (required c) = true -> answers i d s c (mapped d c).
Proof.
  intros Hcls Htask Hp.
  destruct c; try discriminate Htask; cbn [class_for] in Hcls;
    (eapply by_work;
      [ cbn [svc_ProcessWork this_service sysmgr_service]; rewrite Hcls; unfold net_ProcessWork, disp_ProcessWork, ProcessWork;
        rewrite sysmgr_type_of; first [left; reflexivity|right; reflexivity]
      | intros; cbn [svc_MapBinaryToJson this_service sysmgr_service]; rewrite Hcls;
        unfold net_MapBinaryToJson, disp_MapBinaryToJson, MapBinaryToJson; rewrite sysmgr_type_of; reflexivity
      | cbn [promised] ]).
  - by apply (network_answered d s "addr" n_mac _ (fun n => MAC_ADDR_PACKET junk (n_mac n) junk (argument (D := D) d "iface"))).
  - by apply (answer_plain d).
  - unfold process_get_eth_count. cbn [mapped PREPARE PREPARE_REQUEST packet_of rq_dataRef set_packet].
    pose proof (eth_count_code (machine s)) as [Hc Hn]. destruct (get_total_eth_count (machine s)) as [[code n] h].
    by apply (answer_int d).
  - apply eth_name_answered.
  - unfold process_get_loadinfo, reading. destruct (read_load_info _ _) as [[[a b] t] ok].
    apply answer_texts; [done|by apply (bool_decide_unpack (NoDup _))|by left].
  - unfold process_get_meminfo, reading. destruct (read_mem_info _ _) as [[[a b] t] ok].
    apply answer_texts; [done|by apply (bool_decide_unpack (NoDup _))|by right; left].
  - unfold process_get_cpuinfo, reading. destruct (read_cpu_info _ _) as [[[a b] t] ok].
    apply answer_texts; [done|by apply (bool_decide_unpack (NoDup _))|by right; right].
  - by apply (answer_enum d _ s Rpc.SUCCESS "operation" (DevOp s) SYSMGR_RPC_DEV_OP_ARG_TABL DEV_OP_UNKNOWN).
  - apply version_answered. cbn [required forallb] in Hp. apply andb_true_iff in Hp as [Hp _]. by apply param_one_of in Hp.
  - apply boot_answered.
  - apply running_answered.
  - by apply (answer_enum d _ s Rpc.SUCCESS "type" _ ADCMN_BOARD_TYPE_TABLE BOARD_TYPE_UNKNOWN).
  - apply hostname_answered.
  - unfold process_set_hostname. cbn [mapped PREPARE PREPARE_REQUEST packet_of rq_dataRef set_packet].
    destruct (host_write _ _ _) as [[] h]; by apply (answer_plain d).
  - unfold process_get_myip. cbn [mapped PREPARE PREPARE_REQUEST packet_of rq_dataRef set_packet].
    pose proof (query_code (machine s) "wget http://ipinfo.io/ip -qO -" junk_text) as Hc.
    destruct (run_shell_query _ _ _) as [[code ip] h]. by apply (answer_string d).
  - unfold process_set_def_hostname. pose proof (script_code (machine s) "default-hostname -f y" (emulated s)) as Hc.
    destruct (run_shell_script _ _ _) as [code h]. by apply (answer_plain d).
  - by apply (answer_int d _ s Rpc.SUCCESS "logcount" (GetLogLines (pLogger s))).
  - unfold process_get_logline. cbn [mapped PREPARE PREPARE_REQUEST packet_of rq_dataRef set_packet].
    unfold read_log_message_line. destruct (Chain.lookup _ _) as [e|]; [by apply (answer_value d)|].
    by apply (answer_failed d _ s Rpc.ITEM_NOT_FOUND "logmsg" junk_text).
  - by apply (network_answered d s "addr" n_ip _ (fun n => NET_INFO_PACKET junk (n_ip n) (argument (D := D) d "iface"))).
  - by apply (answer_plain d).
  - by apply (network_answered d s "addr" n_netmask _ (fun n => NET_INFO_PACKET junk (n_netmask n) (argument (D := D) d "iface"))).
  - by apply (answer_plain d).
  - unfold process_subscribe_events. destruct (pEventCustom s); by apply (answer_plain d).
  - apply (display_answered s _ clear_display _ d); [done|apply clear_code].
  - apply (display_answered s _ (print_line _ _) _ d); [done|apply print_code].
  - unfold process_backlight_get. cbn [mapped PREPARE PREPARE_REQUEST packet_of rq_dataRef set_packet].
    destruct (pDisplay s); [|by apply (answer_failed d _ s Rpc.FAIL "status" junk_text)].
    pose proof (get_light_code (machine s)) as Hc. destruct (get_back_light (machine s)) as [code []].
    + by apply (answer_enum d _ s code "status" 1 SYSMGR_RPC_DISP_BKLT_ARG_TABL BKLT_STS_UNKNOWN).
    + by apply (answer_enum d _ s code "status" 0 SYSMGR_RPC_DISP_BKLT_ARG_TABL BKLT_STS_UNKNOWN).
  - cbn [required forallb] in Hp. apply andb_true_iff in Hp as [Hp%param_one_of _].
    assert ((choice (D := D) d "status" (take 2 SYSMGR_RPC_DISP_BKLT_ARG_TABL) =? BKLT_STS_ON) = (argument (D := D) d "status" =? "on")%string)
      as Hc by (apply (index_of_at _ _ _ 1); [by apply (bool_decide_unpack (NoDup _))|done|done]).
    unfold process_backlight_set. cbn [mapped PREPARE PREPARE_REQUEST packet_of rq_dataRef set_packet]. rewrite Hc.
    apply (display_answered s _ (set_back_light _) _ d); [done|apply set_light_code].
Qed.

(** C29: The calls of the system manager that start no task, through the manager that
    [main()] sets up: the name of each call finds its object, and a request is refused
    with [CMD_TASK_RESULT_INVALID_PARAM], changing nothing, exactly when a parameter is
    missing or not one of its table.  Otherwise it gets one response, with the promised
    code and values: the load, memory and processors as /proc describes them, the version
    of a firmware and the system that was started, kept by the object once the tool said
    them, names of hosts and interfaces, lines of the log, the addresses of interfaces; and
    the state changes as promised. *)
Theorem sysmgr_served `{!DisplayLaws H} m d (emulation logmsg : bool) (i : nat) name cls c :
  rpclist m = map (rpc_object emulation logmsg) sysmgr_objects -> sysmgr_objects !! i = Some (name, cls, c) ->
  cls <> CmnRpc -> task_of c = None -> cmd_index d = Z.of_nat i + EJSON_RPCGMGR_CMD_END ->
  method_found m name = Some (cmd_index d) /\
  let '(ret, d', m') := serve (P := sysmgr_packet) (D := D) junk junk_text m d in
  if forallb (param_ok (D := D) (socket_data d)) (required c)
  then let '(code, fields, s') := promised (D := D) junk_text subscribe d i (service m) c in
       ret = 0 /\ responds d' code fields /\ m' = with_service m s'
  else ret <> 0 /\ d' = set_mapper_result d Task.INVALID_PARAM /\ m' = m.
Proof.
  intros Hl Hi Hcls Htask Ed. destruct (object_found m emulation logmsg i name cls c Hl Hi) as [Ho Hf].
  split; [by rewrite Ed|]. pose proof (object_class i name cls c Hi Hcls) as Hclass.
  pose proof (sysmgr_call_mapped i (service m) d c Hclass) as Hmap. destruct (forallb _ _) eqn:Hp.
  - pose proof (sysmgr_call_answers i d (service m) c Hclass Htask Hp) as Hans. unfold answers in Hans.
    destruct (promised _ _ d i (service m) c) as [[code fields] s']. destruct Hans as (r2 & d' & Hw & Hb & Hr).
    pose proof (call_done junk junk_text m d i _ (mapped d c) (service m) 0 r2 s' 0 d' s' Ho Ed) as Hd.
    rewrite Hd; [done|exact Hmap|exact Hw|exact Hb].
  - destruct Hmap as (r & Hmap). pose proof (call_refused junk junk_text m d i _ (-1) r (set_mapper_result d Task.INVALID_PARAM) Ho Ed) as Hd.
    by rewrite (Hd Hmap).
Qed.

(** ** Calls that start a task *)

(** What a task does, by the parameters of the request that started it. *)
Definition task_effect d s (c : EJSON_SYSMGR_RPC_TYPES) : Z * state :=
  let arg := argument (D := D) d in
  let run cmd := let '(code, h) := run_shell_script (machine s) cmd (emulated s) in (code, with_machine s h) in
  match c with
  | SET_DEV_OP =>
      if (arg "operation" =? "idle")%string then (Rpc.SUCCESS, with_devop s DEV_OP_IDLE)
      else if (arg "operation" =? "on")%string then (Rpc.SUCCESS, with_devop s DEV_OP_ON)
      else if (arg "operation" =? "standby")%string then run "sleep 3;poweroff"%string
      else if (arg "operation" =? "reboot")%string then run "sleep 3;reboot"%string
      else (Rpc.ARG_ERROR, s)
  | SET_FMWUPDATE =>
      let '(code, s) := run (update_command s (arg "filepath")) in (code, forget_backup (Z.to_nat (rpc_index SET_FMWUPDATE)) s)
  | SET_DOWNLOADFTP | SET_DOWNLOADTFTP =>
      let cmd := download_command s c (arg "srcaddr") (arg "srcfile") (arg "targetpath") in
      if fits CMDLINE_SIZE cmd then run cmd else (Rpc.ARG_ERROR, s)
  | SET_UPDATE_LOG => process_async_loglist_update s
  | RUN_SHELLCMD => process_async_run_shellcmd s (arg "command" ++ " > " ++ SHELLCMD_RESP_FILE_PATH)%string
  | RUN_SHELLCMDTRIG => process_async_run_shellcmd s (arg "command")
  | DEVIDENT => process_async_devident s
  | _ => (Rpc.FAIL, s)
  end.

(** The packet a task gets. *)
Definition task_packet d (c : EJSON_SYSMGR_RPC_TYPES) : sysmgr_packet :=
  match c with
  | RUN_SHELLCMD => SHELLCMD_PACKET (argument (D := D) d "command" ++ " > " ++ SHELLCMD_RESP_FILE_PATH)%string junk
  | _ => packet_of d c
  end.

(** The requests that start a task: the firmware is updated for a project only. *)
Definition startable d (c : EJSON_SYSMGR_RPC_TYPES) : bool :=
  match c with SET_FMWUPDATE => (argument (D := D) d "module" =? "project")%string | _ => true end.

Lemma choice_is d name l (k : nat) x :
  param_ok (D := D) (socket_data d) (name, Some l) = true -> l !! k = Some x -> bool_decide (NoDup l) = true ->
  (choice (D := D) d name l =? Z.of_nat k) = (argument (D := D) d name =? x)%string.
Proof. intros Hp%param_one_of Hk Hn%bool_decide_eq_true. by apply index_of_at. Qed.

Lemma shellcmd_fits d c :
  fits SHELLCMD_SIZE (if decide (c = RUN_SHELLCMDTRIG) then argument (D := D) d "command"
                      else (argument (D := D) d "command" ++ " > " ++ SHELLCMD_RESP_FILE_PATH)%string) = true.
Proof.
  pose proof (argument_short (D := D) d "command"). apply Nat.ltb_lt. unfold SHELLCMD_SIZE.
  destruct (decide _); rewrite ?length_append; simpl; lia.
Qed.

(** The work of such a call: the packet for the task, and what is pushed. *)
Lemma task_pushed (i : nat) d s c n :
  class_of i = SysRpc -> task_of c = Some n -> forallb (param_ok (D := D) (socket_data d)) (required c) = true ->
  startable d c = true ->
  exists told, (forall id, packet_task junk (service_packet (mapped d c) (told id)) = id) /\
    svc_ProcessWork i s d (mapped d c) (rpc_index c) =
      push_work s (mapped d c) (task_packet d c) n told.
Proof.
  intros Hcls Hn Hp Hs. cbn [svc_ProcessWork this_service sysmgr_service]. rewrite Hcls. unfold ProcessWork. rewrite sysmgr_type_of.
  pose proof (shellcmd_fits d c) as Hfit.
  destruct c; try discriminate Hn; injection Hn as <-.
  - by exists (DEV_OP_PACKET (choice (D := D) d "operation" (take 9 SYSMGR_RPC_DEV_OP_ARG_TABL))).
  - exists (FMW_MODULE_PACKET (choice (D := D) d "module" (take 6 SYSMGR_RPC_FMW_VER_ARG_TABL)) (argument (D := D) d "filepath")).
    split; [done|]. cbn [required forallb] in Hp. apply andb_true_iff in Hp as [Hm _].
    unfold process_set_fmwupdate, writing. change (rq_action _ =? Act.WRITE) with true. cbn [negb].
    cbn [mapped PREPARE PREPARE_REQUEST packet_of rq_dataRef set_packet]. change FMW_MODULE_BRBOX_PROJECT with (Z.of_nat 3).
    rewrite (choice_is d "module" _ 3 "project" Hm) by done. cbn [startable] in Hs. by rewrite Hs.
  - by exists (DOWNLOAD_FILE_PACKET (argument (D := D) d "srcaddr") EmptyString (argument (D := D) d "targetpath")).
  - by exists (DOWNLOAD_FILE_PACKET (argument (D := D) d "srcaddr") (argument (D := D) d "srcfile") (argument (D := D) d "targetpath")).
  - by exists (LOG_PACKET junk junk junk_text).
  - exists (SHELLCMD_PACKET (argument (D := D) d "command")). split; [done|].
    unfold process_run_shellcmd. cbn [mapped PREPARE PREPARE_REQUEST packet_of rq_dataRef set_packet].
    destruct (decide (RUN_SHELLCMD = RUN_SHELLCMDTRIG)); [done|]. by rewrite Hfit.
  - by exists DEVIDENT_PACKET.
  - exists (SHELLCMD_PACKET (argument (D := D) d "command")). split; [done|].
    unfold process_run_shellcmd. cbn [mapped PREPARE PREPARE_REQUEST packet_of rq_dataRef set_packet].
    destruct (decide (RUN_SHELLCMDTRIG = RUN_SHELLCMDTRIG)); [|done]. by rewrite Hfit.
Qed.

(** The command a task is pushed with is the number of its call, and at that position an
    object of the class [SysRpc] is attached. *)
Lemma task_object c n : task_of c = Some n -> class_of (Z.to_nat (rpc_index n)) = SysRpc /\ task_of n = Some n.
Proof. intros Hn. destruct c; try discriminate Hn; injection Hn as <-; by vm_compute. Qed.

Lemma task_run d s c n :
  task_of c = Some n -> forallb (param_ok (D := D) (socket_data d)) (required c) = true -> startable d c = true ->
  run_task (Z.to_nat (rpc_index n)) s n (Some (task_packet d c)) = Some (task_effect d s c).
Proof.
  intros Hn Hp Hs. destruct c; try discriminate Hn; injection Hn as <-; try reflexivity.
  - cbn [required forallb] in Hp. apply andb_true_iff in Hp as [Ho _].
    cbn [task_packet packet_of run_task task_effect]. f_equal. unfold process_async_set_devop, script.
    change DEV_OP_IDLE with (Z.of_nat 0). change DEV_OP_ON with (Z.of_nat 1). change DEV_OP_STANDBY with (Z.of_nat 3).
    change DEV_OP_REBOOT with (Z.of_nat 4).
    rewrite (choice_is d "operation" _ 0 "idle" Ho), (choice_is d "operation" _ 1 "on" Ho), (choice_is d "operation" _ 3 "standby" Ho),
      (choice_is d "operation" _ 4 "reboot" Ho) by done.
    destruct (String.eqb_spec (argument (D := D) d "operation") "idle") as [E|]; [|destruct (_ =? "on")%string eqn:E; [|done]]; cbn [orb].
    + do 2 f_equal. unfold choice. by rewrite E.
    + apply String.eqb_eq in E. do 2 f_equal. unfold choice. by rewrite E.
  - cbn [required forallb] in Hp. apply andb_true_iff in Hp as [Hm _]. cbn [startable] in Hs.
    cbn [task_packet packet_of run_task task_effect]. f_equal. unfold process_async_set_fmwupdate.
    change FMW_MODULE_BRBOX_PROJECT with (Z.of_nat 3). rewrite (choice_is d "module" _ 3 "project" Hm), Hs by done.
    unfold bounded_script. assert (fits CMDLINE_SIZE (update_command s (argument (D := D) d "filepath")) = true) as ->.
    { pose proof (argument_short (D := D) d "filepath"). apply Nat.ltb_lt. unfold CMDLINE_SIZE, update_command.
      destruct (openwrt_system s); rewrite !length_append; simpl; lia. }
    unfold script. by destruct (run_shell_script _ _ _).
  - cbn [task_packet packet_of run_task task_effect]. f_equal. unfold process_async_download_file, bounded_script.
    by destruct (fits _ _).
  - cbn [task_packet packet_of run_task task_effect]. f_equal. unfold process_async_download_file, bounded_script.
    by destruct (fits _ _).
Qed.

Lemma task_answer (i : nat) d s c n r told code :
  class_of i = class_for c -> task_of c = Some n -> 0 <= code ->
  exists d', svc_MapBinaryToJson i s d (set_result (service_packet r told) code) (rpc_index c) = (0, d', s) /\
    responds d' code (if (code =? Rpc.SUCCESS) || (code =? Rpc.IN_PROG)
                      then [("taskId", format_d (i32 (packet_task junk (service_packet r told))))] else []).
Proof.
  intros Hcls Hn Hc. assert (class_of i = SysRpc) as Hs by (rewrite Hcls; by destruct c).
  destruct (resp_int (D := D) d (set_result (service_packet r told) code) "taskId" (packet_task junk (service_packet r told)))
    as (d' & E & Hr); [done|done|]. exists d'. split; [|exact Hr].
  cbn [svc_MapBinaryToJson this_service sysmgr_service]. rewrite Hs. unfold MapBinaryToJson. rewrite sysmgr_type_of.
  assert (in_progress (D := D) junk d (set_result (service_packet r told) code) = Some d') as E' by exact E.
  destruct c; try discriminate Hn; cbn beta iota; unfold bin_to_json_set_devop, bin_to_json_set_fmwupdate, bin_to_json_download_file,
    bin_to_json_loglist_update, bin_to_json_run_shellcmd, bin_to_json_devident; by rewrite E'.
Qed.

(** The word for the task of a call.  [run_shellcmdtrig] runs the task of [run_shellcmd],
    under its number. *)
Definition task_word (c : EJSON_SYSMGR_RPC_TYPES) : string :=
  match c with
  | SET_DEV_OP => "devop"
  | SET_FMWUPDATE => "fupdate"
  | SET_DOWNLOADFTP => "ftpdownload"
  | SET_DOWNLOADTFTP => "tftpdownload"
  | SET_UPDATE_LOG => "loglistupdt"
  | RUN_SHELLCMD | RUN_SHELLCMDTRIG => "shellcmd"
  | DEVIDENT => "devident"
  | _ => "none"
  end.

(** In the state [s], every request for the task in progress is answered with [word], and
    changes nothing. *)
Definition tells_task m s (word : string) : Prop :=
  forall d, method_found (with_service m s) "get_async_task" = Some (cmd_index d) ->
    let '(z, d', m') := serve (P := sysmgr_packet) (D := D) junk junk_text (with_service m s) d in
    z = 0 /\ responds d' Rpc.SUCCESS [("task", word)] /\ m' = with_service m s.

Lemma running_told m (emulation logmsg : bool) s :
  rpclist m = map (rpc_object emulation logmsg) sysmgr_objects -> tells_task m s (running s).
Proof.
  intros Hl d Ed. set (m' := with_service m s) in *. set (i := 18%nat).
  destruct (object_found m' emulation logmsg i "get_async_task" SysRpc GET_ASYNCTASK Hl eq_refl) as [Ho Hf].
  rewrite Hf in Ed. injection Ed as Ed. symmetry in Ed.
  assert (class_of i = SysRpc) as Hc by reflexivity.
  pose proof (sysmgr_call_mapped i s d GET_ASYNCTASK Hc) as Hmap. cbn [required forallb] in Hmap.
  assert (answers i d s GET_ASYNCTASK (mapped d GET_ASYNCTASK)) as (r2 & d' & Hw & Hb & Hr).
  { eapply by_work; [| |apply running_answered].
    - cbn [svc_ProcessWork this_service sysmgr_service]. rewrite Hc. unfold ProcessWork. rewrite sysmgr_type_of. left. reflexivity.
    - intros. cbn [svc_MapBinaryToJson this_service sysmgr_service]. rewrite Hc. unfold MapBinaryToJson.
      rewrite sysmgr_type_of. reflexivity. }
  pose proof (call_done junk junk_text m' d i _ (mapped d GET_ASYNCTASK) s 0 r2 s 0 d' s Ho Ed Hmap Hw Hb) as ->. done.
Qed.

Lemma running_noted s c n : task_of c = Some n -> running (with_async s (rpc_index n)) = task_word c.
Proof. intros Hn. destruct c; try discriminate Hn; by injection Hn as <-. Qed.

Lemma effect_keeps_note d s c : AsyncCmdInProgress (task_effect d s c).2 = AsyncCmdInProgress s.
Proof.
  unfold task_effect, process_async_loglist_update, process_async_run_shellcmd, process_async_devident.
  destruct c; try done; repeat case_match; simplify_eq/=; try done.
Qed.

(** The run of the task, whenever it comes. *)
Lemma task_states m d c n (a : Z) :
  task_of c = Some n -> forallb (param_ok (D := D) (socket_data d)) (required c) = true -> startable d c = true ->
  work_packets (service m) !! a = Some (task_packet d c) ->
  let '(code, s) := task_effect d (with_async (service m) (rpc_index n)) c in
  ProcessWorkStates (Z.to_nat (rpc_index n)) (service m) (rpc_index n) a =
    [(Rpc.FAIL, with_async (service m) (rpc_index n)); (code, delete_packet s a);
     (code, with_async (delete_packet s a) EJSON_SYSMGR_RPC_NONE)].
Proof.
  intros Hn Hp Hs Ha. unfold ProcessWorkStates. rewrite sysmgr_type_of. cbn [mbind option_bind].
  change (work_packets (with_async (service m) (rpc_index n))) with (work_packets (service m)). rewrite Ha.
  rewrite task_run by done. by destruct (task_effect _ _ _).
Qed.

Lemma task_runs m (emulation logmsg : bool) c n (a : Z) :
  rpclist m = map (rpc_object emulation logmsg) sysmgr_objects -> task_of c = Some n ->
  run_work m (rpc_index n + EJSON_RPCGMGR_CMD_END) a =
    let '(code, s) := ProcessWorkAsync (Z.to_nat (rpc_index n)) (service m) (rpc_index n) a in (code, with_service m s).
Proof.
  intros Hl Hn. destruct (task_object c n Hn) as [Hcls _].
  assert (0 <= rpc_index n) as Hpos by (by destruct n).
  assert (exists o, rpclist m !! Z.to_nat (rpc_index n) = Some o) as [o Ho].
  { rewrite Hl, list_lookup_fmap. destruct c; try discriminate Hn; injection Hn as <-; by eexists. }
  pose proof (page_handler_at m _ o Ho) as Hpage. rewrite Z2Nat.id in Hpage by done.
  unfold run_work. destruct (Z.geb_spec (rpc_index n + EJSON_RPCGMGR_CMD_END) EJSON_RPCGMGR_CMD_END); [|lia].
  unfold AsyncTaskWork. rewrite Hpage. cbn [svc_ProcessWorkAsync this_service sysmgr_service]. rewrite Hcls.
  by replace (rpc_index n + EJSON_RPCGMGR_CMD_END - EJSON_RPCGMGR_CMD_END) with (rpc_index n) by lia.
Qed.

(** The firmware of another module than the project is not updated. *)
Lemma update_refused (i : nat) d s :
  class_of i = SysRpc -> forallb (param_ok (D := D) (socket_data d)) (required SET_FMWUPDATE) = true ->
  startable d SET_FMWUPDATE = false ->
  svc_ProcessWork i s d (mapped d SET_FMWUPDATE) (rpc_index SET_FMWUPDATE) =
    Done (0, set_result (service_packet (mapped d SET_FMWUPDATE) (packet_of d SET_FMWUPDATE)) Rpc.ARG_ERROR, s).
Proof.
  intros Hcls Hp Hs. cbn [svc_ProcessWork this_service sysmgr_service]. rewrite Hcls. unfold ProcessWork. rewrite sysmgr_type_of.
  cbn [required forallb] in Hp. apply andb_true_iff in Hp as [Hm _].
  unfold process_set_fmwupdate, writing. change (rq_action _ =? Act.WRITE) with true. cbn [negb].
  cbn [mapped PREPARE PREPARE_REQUEST packet_of rq_dataRef set_packet]. change FMW_MODULE_BRBOX_PROJECT with (Z.of_nat 3).
  rewrite (choice_is d "module" _ 3 "project" Hm) by done. cbn [startable] in Hs. by rewrite Hs.
Qed.

(** C30: The calls that start a task.  A request is refused when a parameter is missing or
    not one of its table, or asks to update the firmware of another module than the
    project, and then nothing changes.  Otherwise a packet with the values of the
    request is allocated and pushed; when the task worker takes it, the response is
    [InProgress] with the identifier of the task, and whenever the worker runs the task
    with the packet still there, exactly what was asked is done: the machine is switched
    off or started again, updated, a file fetched, the log read again, the command run
    with its output in the file of the responses or without, the light of the board
    blinks.  From before the task is carried out until the packet is released behind it,
    [get_async_task] is answered with the word for the task, and with [none] afterwards;
    the word for [run_shellcmdtrig] is that of [run_shellcmd], whose task it runs.  A
    packet the worker does not take is released at once, with the response [Fail].  (Of an
    update, the object whose task it is forgets the version of the backup it kept, not the
    object that answers for the version: see [backup_stale_ex].) *)
Theorem task_runs_request m d (emulation logmsg : bool) (i : nat) name cls c n :
  rpclist m = map (rpc_object emulation logmsg) sysmgr_objects -> sysmgr_objects !! i = Some (name, cls, c) ->
  task_of c = Some n -> cmd_index d = Z.of_nat i + EJSON_RPCGMGR_CMD_END ->
  let cmd := rpc_index n + EJSON_RPCGMGR_CMD_END in
  let '(a, s1) := new_packet (service m) (task_packet d c) in
  let '((ret, id), w) := push_task (AsyncTaskWorker m) cmd a WORK_CMD_AFTER_DONE_PRESERVE in
  let '(z, d', m') := serve (P := sysmgr_packet) (D := D) junk junk_text m d in
  if negb (forallb (param_ok (D := D) (socket_data d)) (required c))
  then z <> 0 /\ d' = set_mapper_result d Task.INVALID_PARAM /\ m' = m
  else if negb (startable d c) then z = 0 /\ responds d' Rpc.ARG_ERROR [] /\ m' = m
  else
    z = 0 /\ AsyncTaskWorker m' = w /\ rpclist m' = rpclist m /\
    if ret =? 0 then
      responds d' Rpc.IN_PROG [("taskId", format_d (i32 id))] /\ service m' = s1 /\
      forall m2, rpclist m2 = rpclist m -> work_packets (service m2) !! a = work_packets s1 !! a ->
        let noted := with_async (service m2) (rpc_index n) in
        let '(code, s2) := task_effect d noted c in
        let released := delete_packet s2 a in
        let over := with_async released EJSON_SYSMGR_RPC_NONE in
        ProcessWorkStates (Z.to_nat (rpc_index n)) (service m2) (rpc_index n) a =
          [(Rpc.FAIL, noted); (code, released); (code, over)] /\
        run_work m2 cmd a = (code, with_service m2 over) /\
        tells_task m2 noted (task_word c) /\ tells_task m2 released (task_word c) /\ tells_task m2 over "none"
    else responds d' Rpc.FAIL [] /\ service m' = delete_packet s1 a.
Proof.
  intros Hl Hi Hn Ed. destruct (object_found m emulation logmsg i name cls c Hl Hi) as [Ho _].
  assert (cls <> CmnRpc) as Hcmn by (intros ->; clear - Hi Hn; do 36 (destruct i as [|i]; [by simplify_eq/=|]); done).
  pose proof (object_class i name cls c Hi Hcmn) as Hclass. assert (class_of i = SysRpc) as Hsys by (rewrite Hclass; by destruct c).
  cbv zeta. destruct (new_packet _ _) as [a s1] eqn:Enew. destruct (push_task _ _ _ _) as [[ret id] w] eqn:Epush.
  pose proof (sysmgr_call_mapped i (service m) d c Hclass) as Hmap. destruct (forallb _ _) eqn:Hp; cbn [negb].
  2: { destruct Hmap as (r & Hmap). pose proof (call_refused junk junk_text m d i _ (-1) r (set_mapper_result d Task.INVALID_PARAM) Ho Ed) as Hd.
       by rewrite (Hd Hmap). }
  destruct (startable d c) eqn:Hs; cbn [negb].
  2: { assert (c = SET_FMWUPDATE) as -> by (by destruct c).
       destruct (task_answer i d (service m) SET_FMWUPDATE n (mapped d SET_FMWUPDATE) (packet_of d SET_FMWUPDATE) Rpc.ARG_ERROR Hclass Hn)
         as (d' & Hb & Hr); [done|].
       set (r2 := set_result _ Rpc.ARG_ERROR) in Hb.
       pose proof (call_done junk junk_text m d i _ (mapped d SET_FMWUPDATE) (service m) 0 r2 (service m) 0 d' (service m) Ho Ed) as Hd.
       rewrite Hd; [|exact Hmap|by apply update_refused|exact Hb]. split_and!; [done|exact Hr|by destruct m]. }
  destruct (task_pushed i d (service m) c n Hsys Hn Hp Hs) as (told & Hid & Hw).
  set (code := if ret =? 0 then Rpc.IN_PROG else Rpc.FAIL).
  set (s2 := if code =? Rpc.IN_PROG then s1 else delete_packet s1 a).
  destruct (task_answer i d s2 c n (mapped d c) (told id) code Hclass Hn) as (d' & Hb & Hr); [unfold code; by destruct (_ =? _)|].
  rewrite Hid in Hr. set (r2 := set_result _ code) in Hb.
  pose proof (call_served junk junk_text m d i _ (mapped d c) (service m) 0 r2 s2 (with_tasks (with_service m (service m)) w) 0 d' s2 Ho Ed) as Hd.
  rewrite Hd; [|exact Hmap| |done|exact Hb].
  2: { cbn [index rpc_object snd]. rewrite Hw. unfold push_work. rewrite Enew. cbn [run_handler AsyncTaskWorker with_service].
       rewrite Epush. done. }
  cbn [AsyncTaskWorker rpclist service with_tasks with_service]. split_and!; [done..|].
  subst s2 code. destruct (ret =? 0) eqn:Eret; cbn [Rpc.IN_PROG Rpc.FAIL Rpc.SUCCESS Z.eqb Pos.eqb orb] in Hr |- *; [|by split].
  split_and!; [exact Hr|done|]. intros m2 Hl2 Ha2.
  assert (work_packets (service m2) !! a = Some (task_packet d c)) as Hpacket.
  { rewrite Ha2. injection Enew as <- <-. apply lookup_insert_eq. }
  rewrite Hl in Hl2. pose proof (task_states m2 d c n a Hn Hp Hs Hpacket) as Hstates.
  pose proof (effect_keeps_note d (with_async (service m2) (rpc_index n)) c) as Hnote.
  destruct (task_effect _ _ _) as [z2 s2]. cbn [snd] in Hnote. cbv zeta. split; [exact Hstates|]. split.
  { rewrite (task_runs m2 emulation logmsg c n a Hl2 Hn). unfold ProcessWorkAsync. by rewrite Hstates. }
  pose proof (fun s => running_told m2 emulation logmsg s Hl2) as Htold. split_and!.
  - rewrite <- (running_noted (service m2) c n Hn). apply Htold.
  - rewrite <- (running_noted (service m2) c n Hn).
    assert (running (with_async (service m2) (rpc_index n)) = running (delete_packet s2 a)) as ->; [|apply Htold].
    unfold running. cbn [AsyncCmdInProgress delete_packet with_packets]. by rewrite Hnote.
  - apply (Htold (with_async (delete_packet s2 a) EJSON_SYSMGR_RPC_NONE)).
Qed.
End calls.

(** ** The properties at a concrete machine *)

Import Json.

Module Machine.
(** The commands that were run. *)
Definition file (path : string) : option string :=
  find_first (fun x => (x.1 =? path)%string)
    [("/proc/loadavg", "0.50 0.25 0.10 1/100 999" ++ endl); ("/proc/uptime", "4711.5 100.0" ++ endl);
     (HOST_NAME_FILE_PATH, "brbox" ++ endl)]%string ≫= fun x => Some x.2.
#[export] Instance host : Host (list string) := {
  host_system cmd h := (0, (h ++ [cmd])%list);
  host_popen cmd h := (None, (h ++ [cmd])%list);
  host_file _ path := file path;
  host_write path text h := (true, (h ++ [path])%list);
  host_interfaces _ :=
    Some [{| if_name := "eth0"; if_ip := "10.0.0.7"; if_mac := Some [0; 17; 34; 51; 68; 85]; if_netmask := Some "255.0.0.0" |}];
  host_is_file _ _ := false;
}.
#[export] Instance panel : DisplayDevice (list string) := {
  clear_display h := (Rpc.SUCCESS, (h ++ ["clear"])%list);
  print_line text line h := (Rpc.SUCCESS, (h ++ [text])%list);
  get_back_light h := (Rpc.SUCCESS, true);
  set_back_light _ h := (Rpc.SUCCESS, h);
}.
#[export] Instance panel_laws : DisplayLaws (list string).
Proof. by constructor. Qed.

Definition board : ADCMN_DEV_INFO := {| BoardType := BOARD_TYPE_GL_MT300NV2; SyscfgType := 0; emulation_flag := false |}.
Definition cache : SYSMGR_CMN_DATA_CACHE (list string) :=
  {| machine := []; pDevInfo := board; DevOp := DEV_OP_ON;
     cached := Build_versions "" "" 0 ∅ ∅ ∅; AsyncCmdInProgress := EJSON_SYSMGR_RPC_NONE;
     pLogger := new_LogHandler "/tmp/messages"; pDevIdent := Some DevIdentGlMt300nv2; pEventCustom := None; pEventDefault := None;
     pDisplay := true; work_packets := ∅; next_packet := 4096; overrun := false |}.
Definition no_service (ip : string) (port token event : Z) (h : list string) : Z * list string := (-1, h).
Definition manager : ADJsonRpcMgr served (SYSMGR_CMN_DATA_CACHE (list string)) :=
  fold_left (fun m x => AttachRpc m (rpc_object false false x)) sysmgr_objects (new_ADJsonRpcMgr slow_worker cache 7 false).
Definition call (i : Z) (text : string) : JsonDataCommObj Json.value :=
  {| req_id := 1; cmd_index := i + EJSON_RPCGMGR_CMD_END; mapper_result := Task.UNKNOWN; rpc_code := Rpc.NOT_STARTED;
     socket_data := text; json_resp_obj := None; custom_result_string := EmptyString; cltport := 0;
     client_ip := EmptyString; sock_id := 0; sock_descr := 0 |}.
#[export] Instance service : RpcService (SYSMGR_CMN_DATA_CACHE (list string)) sysmgr_packet Json.value :=
  this_service (D := Z) 77 "?" no_service.
Definition answer_to (i : Z) (text : string) := serve (P := sysmgr_packet) (D := Z) 77 "?" manager (call i text).
End Machine.
Import Machine.

Example load_ex :
  json_resp_obj (answer_to 8 "{}").1.2 =
    Some (Obj [("return", Str "Success"); ("current", Str "50"); ("average", Str "25"); ("uptime", Str "4711")])%string.
Proof. vm_compute. reflexivity. Qed.
Example mac_ex :
  json_resp_obj (answer_to 0 "{'params':{'iface':'eth0'}}").1.2 =
    Some (Obj [("return", Str "Success"); ("addr", Str "00:11:22:33:44:55")])%string.
Proof. vm_compute. reflexivity. Qed.
Example shellcmd_ex :
  let '(_, d, m) := answer_to 27 "{'params':{'command':'date'}}" in
  let '(code, m') := run_work m 51 4096 in
  (json_resp_obj d, code, machine (RpcMgr.service m')) =
    (Some (Obj [("return", Str "InProgress"); ("taskId", Num 1)]), Rpc.SUCCESS, ["date > /tmp/shellcmd.resp"])%string.
Proof. vm_compute. reflexivity. Qed.

(** The update runs on the object at position 11, whose flag it clears; the version of
    the backup is kept by the object at position 13. *)
Example backup_stale_ex :
  let old := with_cached cache (Build_versions "" "01.00" 0 ∅ {[13%nat]} ∅) in
  let '(_, s) := process_async_set_fmwupdate 11 old FMW_MODULE_BRBOX_PROJECT "/tmp/new.bin" in
  (promised (H := list string) (D := Z) "?" no_service (call 13 "{'params':{'module':'backup'}}") 13 s GET_FMWVER).1 =
    (Rpc.SUCCESS, [("version", "01.00")])%string.
Proof. vm_compute. reflexivity. Qed.

Lemma sysmgr_served_witness :
  method_found manager "get_load_info" = Some 32 /\ (answer_to 8 "{}").1.1 = 0.
Proof.
  destruct (sysmgr_served (D := Z) 77 "?" no_service manager (call 8 "{}") false false 8 "get_load_info" SysRpc GET_LOADINFO
    eq_refl eq_refl ltac:(discriminate) eq_refl eq_refl) as [Hfound Hserved].
  split; [exact Hfound|]. unfold answer_to, service. destruct (serve _ _ _ _) as [[ret d] m].
  cbn [forallb required] in Hserved. destruct (promised _ _ _ _ _ _) as [[code fields] s']. apply Hserved.
Defined.

Lemma task_runs_request_witness :
  let '(z, d, m) := answer_to 27 "{'params':{'command':'date'}}" in
  z = 0 /\ exists code m', run_work (P := sysmgr_packet) (J := Json.value) m 51 4096 = (code, m') /\ work_packets (RpcMgr.service m') !! 4096 = None /\
    tells_task (D := Z) 77 "?" no_service m (with_async (RpcMgr.service m) (rpc_index RUN_SHELLCMD)) "shellcmd".
Proof.
  pose proof (task_runs_request (D := Z) 77 "?" no_service manager (call 27 "{'params':{'command':'date'}}") false false 27
    "run_shellcmd" SysRpc RUN_SHELLCMD RUN_SHELLCMD eq_refl eq_refl eq_refl eq_refl) as Hw.
  cbv zeta in Hw. unfold answer_to, service. destruct (new_packet _ _) as [a s1] eqn:En.
  destruct (push_task _ _ _ _) as [[ret id] w] eqn:Ep. vm_compute in Ep. injection Ep as <- <- <-.
  destruct (serve _ _ _ _) as [[z d] m]. change (socket_data (call 27 _)) with "{'params':{'command':'date'}}"%string in Hw.
  assert (forallb (param_ok (J := Json.value) (D := Z) "{'params':{'command':'date'}}") (required RUN_SHELLCMD) = true) as Hp
    by (vm_compute; reflexivity).
  rewrite Hp in Hw. cbn [negb startable] in Hw. destruct Hw as (Hz & _ & Hl & _ & Hs & Hrun). split; [exact Hz|].
  injection En as <- <-. specialize (Hrun m Hl ltac:(by rewrite Hs)). destruct (task_effect _ _ _) as [code s2].
  destruct Hrun as (_ & Hrun & Htold & _). eexists _, _. split; [exact Hrun|]. split; [apply lookup_delete_eq|exact Htold].
Defined.
