(* ===== verification/XmppRpc.v ===== *)
(** * The gateway's service (XmppRpc.cpp, XmproxyJsonDef.h)

    The calls of the gateway: an implementation of the interface [RpcService] (file RpcMgr)
    on the state of the message gateway (file XmppMgr), the objects [main()] attaches, and
    what each call answers and changes when it comes through the manager. *)
From S2P Require Import Prelude Common TaskWorker TaskCalls RpcMgr RpcMgrSpec Services.
From S2P Require Proxy XmppProxy XmppMgr XmppMgrSpec.
Open Scope Z_scope.

(** ** The calls *)

(** [EJSON_XMPROXY_RPC_TYPES]; the second one has no object. *)
Inductive EJSON_XMPROXY_RPC_TYPES :=
| GET_ASYNCTASK | SMS_DELETE_ALL | GET_ONLINE_STATUS | SET_ONLINE_STATUS | SET_SEND_MESSAGE | SET_SUBSCRIBE
| SET_ACCEPT_BUDDY | GET_INBOX_COUNT | GET_INBOX | SET_INBOX_EMPTY.
#[export] Instance EJSON_XMPROXY_RPC_TYPES_eq_dec : EqDecision EJSON_XMPROXY_RPC_TYPES.
Proof. solve_decision. Defined.

Definition xmproxy_rpc_types : list EJSON_XMPROXY_RPC_TYPES :=
  [GET_ASYNCTASK; SMS_DELETE_ALL; GET_ONLINE_STATUS; SET_ONLINE_STATUS; SET_SEND_MESSAGE; SET_SUBSCRIBE;
   SET_ACCEPT_BUDDY; GET_INBOX_COUNT; GET_INBOX; SET_INBOX_EMPTY].
Definition rpc_type_index (c : EJSON_XMPROXY_RPC_TYPES) : Z :=
  match c with
  | GET_ASYNCTASK => 0 | SMS_DELETE_ALL => 1 | GET_ONLINE_STATUS => 2 | SET_ONLINE_STATUS => 3
  | SET_SEND_MESSAGE => 4 | SET_SUBSCRIBE => 5 | SET_ACCEPT_BUDDY => 6 | GET_INBOX_COUNT => 7 | GET_INBOX => 8
  | SET_INBOX_EMPTY => 9
  end.
Definition rpc_type (idx : Z) : option EJSON_XMPROXY_RPC_TYPES :=
  find_first (fun c => rpc_type_index c =? idx) xmproxy_rpc_types.
Definition EJSON_XMPROXY_RPC_NONE : Z := 11.

Definition XMPROXY_RPC_ASYNCTASK_ARG_TABL : list string := ["listUpdate"; "devIdent"; "deleteAll"; "none"; "none"]%string.
Definition XMPROXY_ASYNCTASK_UNKNOWN : Z := 3.
Definition XMPROXY_RPC_ONLINE_STATUS_ARG_TABL : list string := ["online"; "offline"; "unknown"; "none"]%string.
Definition XMPROXY_ONLINESTS_ONLINE : Z := 0.
Definition XMPROXY_ONLINESTS_OFFLINE : Z := 1.
Definition XMPROXY_ONLINESTS_UNKNOWN : Z := 2.

(** The structs [XMPROXY_..._PACKET]. *)
Inductive xmproxy_packet :=
| ASYNCTASK_PACKET (task : Z)
| ONLINESTS_PACKET (status : Z)
| SENDMSG_PACKET (to msg : string)
| SUBSCRIBE_PACKET (to msg : string)
| ACCEPT_BUDDY_PACKET (to msg : string)
| INBOX_PACKET (inbox_count inbox_index : Z) (message : string).
Definition XMPROXY_TO_SIZE : nat := 512.
Definition XMPROXY_MSG_SIZE : nat := 1024.

(** [XMPROXY_CMN_DATA_CACHE]: the manager, and the task that runs. *)
Record XMPROXY_CMN_DATA_CACHE (G : Type) := { pXmpMgr : XmppMgr.XmppMgr G; AsyncCmdInProgress : Z }.
Arguments pXmpMgr {G}. Arguments AsyncCmdInProgress {G}. Arguments Build_XMPROXY_CMN_DATA_CACHE {G}.

Section service.
Context {G J D : Type} `{XmppProxy.Gloox G} `{JsonC J D}.
Variable (junk : Z) (junk_text : string).
Abbreviation state := (XMPROXY_CMN_DATA_CACHE G).
Abbreviation request := (RPC_SRV_REQ xmproxy_packet).
Abbreviation comm := (JsonDataCommObj J).

Definition set_mgr (s : state) (m : XmppMgr.XmppMgr G) : state := Build_XMPROXY_CMN_DATA_CACHE m (AsyncCmdInProgress s).

Definition PREPARE (r : request) (p : xmproxy_packet) (action : Z) (c : EJSON_XMPROXY_RPC_TYPES) : request :=
  PREPARE_REQUEST r p action (rpc_type_index c).

(** ** From JSON to packets *)

Definition json_to_bin_get_async_task_in_progress (d : comm) (r : request) : Z * comm * request :=
  (0, d, PREPARE r (ASYNCTASK_PACKET junk) Act.READ GET_ASYNCTASK).
Definition json_to_bin_get_online_status (d : comm) (r : request) : Z * comm * request :=
  (0, d, PREPARE r (ONLINESTS_PACKET junk) Act.READ GET_ONLINE_STATUS).
Definition json_to_bin_set_online_status (d : comm) (r : request) : Z * comm * request :=
  let r := PREPARE r (ONLINESTS_PACKET junk) Act.WRITE SET_ONLINE_STATUS in
  with_enum (D := D) d r "status" XMPROXY_RPC_ONLINE_STATUS_ARG_TABL XMPROXY_ONLINESTS_UNKNOWN
    (fun v => (0, d, service_packet r (ONLINESTS_PACKET v))).
Definition json_to_bin_set_send_message (d : comm) (r : request) : Z * comm * request :=
  let r := PREPARE r (SENDMSG_PACKET junk_text junk_text) Act.WRITE SET_SEND_MESSAGE in
  with_string d r "to" XMPROXY_TO_SIZE (fun to =>
  with_string d r "msg" XMPROXY_MSG_SIZE (fun msg => (0, d, service_packet r (SENDMSG_PACKET to msg)))).
Definition json_to_bin_set_subscribe_message (d : comm) (r : request) : Z * comm * request :=
  let r := PREPARE r (SUBSCRIBE_PACKET junk_text junk_text) Act.WRITE SET_SUBSCRIBE in
  with_string d r "to" XMPROXY_TO_SIZE (fun to =>
  with_string d r "msg" XMPROXY_MSG_SIZE (fun msg => (0, d, service_packet r (SUBSCRIBE_PACKET to msg)))).
Definition json_to_bin_set_accept_buddy (d : comm) (r : request) : Z * comm * request :=
  let r := PREPARE r (ACCEPT_BUDDY_PACKET junk_text junk_text) Act.WRITE SET_ACCEPT_BUDDY in
  with_string d r "to" XMPROXY_TO_SIZE (fun to =>
  with_string d r "msg" XMPROXY_MSG_SIZE (fun msg => (0, d, service_packet r (ACCEPT_BUDDY_PACKET to msg)))).
Definition json_to_bin_get_inbox_count (d : comm) (r : request) : Z * comm * request :=
  (0, d, PREPARE r (INBOX_PACKET junk junk junk_text) Act.READ GET_INBOX_COUNT).
Definition json_to_bin_get_inbox_msg (d : comm) (r : request) : Z * comm * request :=
  let r := PREPARE r (INBOX_PACKET junk junk junk_text) Act.READ GET_INBOX in
  with_int (D := D) d r "index" (fun v => (0, d, service_packet r (INBOX_PACKET junk v junk_text))).
Definition json_to_bin_set_inbox_clean (d : comm) (r : request) : Z * comm * request :=
  (0, d, PREPARE r (INBOX_PACKET junk junk junk_text) Act.READ SET_INBOX_EMPTY).

Definition MapJsonToBinary (s : state) (d : comm) (r : request) (idx : Z) : Z * comm * request * state :=
  let map f := (f d r, s) in
  match rpc_type idx with
  | Some GET_ASYNCTASK => map json_to_bin_get_async_task_in_progress
  | Some GET_ONLINE_STATUS => map json_to_bin_get_online_status
  | Some SET_ONLINE_STATUS => map json_to_bin_set_online_status
  | Some SET_SEND_MESSAGE => map json_to_bin_set_send_message
  | Some SET_SUBSCRIBE => map json_to_bin_set_subscribe_message
  | Some SET_ACCEPT_BUDDY => map json_to_bin_set_accept_buddy
  | Some GET_INBOX_COUNT => map json_to_bin_get_inbox_count
  | Some GET_INBOX => map json_to_bin_get_inbox_msg
  | Some SET_INBOX_EMPTY => map json_to_bin_set_inbox_clean
  | Some SMS_DELETE_ALL | None => (-1, d, r, s)
  end.

(** ** The work *)

(** No task of this service is known; see [ProcessWorkAsync()]. *)
Definition get_async_task_in_progress (s : state) : Z := XMPROXY_ASYNCTASK_UNKNOWN.

Definition process_get_async_task_in_progress (s : state) (r : request) : request * state :=
  if negb (rq_action r =? Act.READ) then (set_result r Rpc.ACTION_NOT_ALLOWED, s)
  else (set_result (service_packet r (ASYNCTASK_PACKET (get_async_task_in_progress s))) Rpc.SUCCESS, s).
Definition process_get_online_status (s : state) (r : request) : request * state :=
  if negb (rq_action r =? Act.READ) then (set_result r Rpc.ACTION_NOT_ALLOWED, s)
  else
    let status := if XmppMgr.get_connected_status (pXmpMgr s) then XMPROXY_ONLINESTS_ONLINE else XMPROXY_ONLINESTS_OFFLINE in
    (set_result (service_packet r (ONLINESTS_PACKET status)) Rpc.SUCCESS, s).
Definition process_set_online_status (s : state) (r : request) : request * state :=
  if negb (rq_action r =? Act.WRITE) then (set_result r Rpc.ACTION_NOT_ALLOWED, s)
  else match rq_dataRef r with
       | Some (ServicePacket (ONLINESTS_PACKET status)) =>
           let '(res, m) := XmppMgr.set_online_status (pXmpMgr s) (status =? XMPROXY_ONLINESTS_ONLINE) in
           (set_result r res, set_mgr s m)
       | _ => (r, s)
       end.
Definition process_set_send_message (s : state) (r : request) : request * state :=
  match rq_dataRef r with
  | Some (ServicePacket (SENDMSG_PACKET to msg)) =>
      let '(res, m) := XmppMgr.proc_cmd_send_message_internal (pXmpMgr s) to msg in (set_result r res, set_mgr s m)
  | _ => (r, s)
  end.
Definition process_set_subscribe_message (s : state) (r : request) : request * state :=
  match rq_dataRef r with
  | Some (ServicePacket (SUBSCRIBE_PACKET to msg)) =>
      let '(res, m) := XmppMgr.proc_cmd_subscribe_message (pXmpMgr s) to in (set_result r res, set_mgr s m)
  | _ => (r, s)
  end.
Definition process_set_accept_buddy (s : state) (r : request) : request * state :=
  match rq_dataRef r with
  | Some (ServicePacket (ACCEPT_BUDDY_PACKET to msg)) =>
      let '(res, m) := XmppMgr.proc_cmd_add_buddy (pXmpMgr s) to in (set_result r res, set_mgr s m)
  | _ => (r, s)
  end.
Definition process_get_inbox_count (s : state) (r : request) : request * state :=
  match rq_dataRef r with
  | Some (ServicePacket (INBOX_PACKET _ i t)) =>
      let '(res, n) := XmppMgr.proc_cmd_get_inbox_count (pXmpMgr s) in
      (set_result (service_packet r (INBOX_PACKET n i t)) res, s)
  | _ => (r, s)
  end.
Definition process_get_inbox_msg (s : state) (r : request) : request * state :=
  match rq_dataRef r with
  | Some (ServicePacket (INBOX_PACKET n i _)) =>
      let '(res, t) := XmppMgr.proc_cmd_get_inbox_msg (pXmpMgr s) i in
      (set_result (service_packet r (INBOX_PACKET n i (strncpy XMPROXY_MSG_SIZE t junk_text))) res, s)
  | _ => (r, s)
  end.
Definition process_set_inbox_clean (s : state) (r : request) : request * state :=
  let '(res, m) := XmppMgr.proc_cmd_get_inbox_empty (pXmpMgr s) in (set_result r res, set_mgr s m).

Definition ProcessWork (s : state) (r : request) (idx : Z) : handler (Z * request * state) :=
  let work f := let '(r', s') := f s r in Done (0, r', s') in
  match rpc_type idx with
  | Some GET_ASYNCTASK => work process_get_async_task_in_progress
  | Some GET_ONLINE_STATUS => work process_get_online_status
  | Some SET_ONLINE_STATUS => work process_set_online_status
  | Some SET_SEND_MESSAGE => work process_set_send_message
  | Some SET_SUBSCRIBE => work process_set_subscribe_message
  | Some SET_ACCEPT_BUDDY => work process_set_accept_buddy
  | Some GET_INBOX_COUNT => work process_get_inbox_count
  | Some GET_INBOX => work process_get_inbox_msg
  | Some SET_INBOX_EMPTY => work process_set_inbox_clean
  | Some SMS_DELETE_ALL | None => Done (0, r, s)
  end.

(** No call of this service starts a task. *)
Definition ProcessWorkAsync (s : state) (cmd : Z) : Z * state :=
  (Rpc.FAIL, Build_XMPROXY_CMN_DATA_CACHE (pXmpMgr s) EJSON_XMPROXY_RPC_NONE).

(** ** From packets to JSON *)

Definition packet_int (r : request) : Z :=
  match rq_dataRef r with
  | Some (ServicePacket (ASYNCTASK_PACKET n)) | Some (ServicePacket (ONLINESTS_PACKET n))
  | Some (ServicePacket (INBOX_PACKET n _ _)) => n
  | _ => junk
  end.
Definition packet_text (r : request) : string :=
  match rq_dataRef r with Some (ServicePacket (INBOX_PACKET _ _ t)) => t | _ => junk_text end.

Definition bin_to_json_get_async_task_in_progress (d : comm) (r : request) : option comm :=
  PREPARE_JSON_RESP_ENUM (D := D) d r "task" (packet_int r) XMPROXY_RPC_ASYNCTASK_ARG_TABL XMPROXY_ASYNCTASK_UNKNOWN.
Definition bin_to_json_get_online_status (d : comm) (r : request) : option comm :=
  PREPARE_JSON_RESP_ENUM (D := D) d r "status" (packet_int r) XMPROXY_RPC_ONLINE_STATUS_ARG_TABL XMPROXY_ONLINESTS_UNKNOWN.
Definition bin_to_json_set_online_status (d : comm) (r : request) : option comm := PREPARE_JSON_RESP (D := D) d r.
Definition bin_to_json_set_send_message (d : comm) (r : request) : option comm := PREPARE_JSON_RESP (D := D) d r.
Definition bin_to_json_set_subscribe_message (d : comm) (r : request) : option comm := PREPARE_JSON_RESP (D := D) d r.
Definition bin_to_json_set_accept_buddy (d : comm) (r : request) : option comm := PREPARE_JSON_RESP (D := D) d r.
Definition bin_to_json_get_inbox_count (d : comm) (r : request) : option comm :=
  PREPARE_JSON_RESP_INT (D := D) d r "count" (packet_int r).
Definition bin_to_json_get_inbox_msg (d : comm) (r : request) : option comm :=
  PREPARE_JSON_RESP_STRING (D := D) d r "message" (packet_text r).
Definition bin_to_json_set_inbox_clean (d : comm) (r : request) : option comm := PREPARE_JSON_RESP (D := D) d r.

Definition MapBinaryToJson (s : state) (d : comm) (r : request) (idx : Z) : Z * comm * state :=
  let map f := (0, default d (f d r), s) in
  match rpc_type idx with
  | Some GET_ASYNCTASK => map bin_to_json_get_async_task_in_progress
  | Some GET_ONLINE_STATUS => map bin_to_json_get_online_status
  | Some SET_ONLINE_STATUS => map bin_to_json_set_online_status
  | Some SET_SEND_MESSAGE => map bin_to_json_set_send_message
  | Some SET_SUBSCRIBE => map bin_to_json_set_subscribe_message
  | Some SET_ACCEPT_BUDDY => map bin_to_json_set_accept_buddy
  | Some GET_INBOX_COUNT => map bin_to_json_get_inbox_count
  | Some GET_INBOX => map bin_to_json_get_inbox_msg
  | Some SET_INBOX_EMPTY => map bin_to_json_set_inbox_clean
  | Some SMS_DELETE_ALL | None => (-1, d, s)
  end.

(** The objects of the class share the state; which one it is says [index]. *)
Definition xmpp_service : RpcService state xmproxy_packet J :=
  {| svc_MapJsonToBinary _ := MapJsonToBinary;
     svc_MapBinaryToJson _ := MapBinaryToJson;
     svc_ProcessWork _ s _ r idx := ProcessWork s r idx;
     svc_ProcessWorkAsync _ s cmd _ := ProcessWorkAsync s cmd;
     svc_ReceiveEvent _ s _ _ _ _ := s |}.
End service.

(** ** The objects of [main()] *)

Definition xmpp_objects : list (string * EJSON_XMPROXY_RPC_TYPES) :=
  [("get_async_task", GET_ASYNCTASK); ("get_online_status", GET_ONLINE_STATUS); ("set_online_status", SET_ONLINE_STATUS);
   ("send_message", SET_SEND_MESSAGE); ("send_subscribe", SET_SUBSCRIBE); ("accept_buddy", SET_ACCEPT_BUDDY);
   ("get_inbox_count", GET_INBOX_COUNT); ("get_inbox_message", GET_INBOX); ("empty_inbox", SET_INBOX_EMPTY)]%string.
Definition rpc_object (emulation logmsg : bool) (x : string * EJSON_XMPROXY_RPC_TYPES) : ADJsonRpcMgrConsumer :=
  {| strRpcName := x.1; index := rpc_type_index x.2; parent_index := 0; emulation := emulation; logmsg := logmsg;
     cmnrpchandler := false |}.
Definition attach_all {W G} (m : ADJsonRpcMgr W (XMPROXY_CMN_DATA_CACHE G)) (emulation logmsg : bool) :
  ADJsonRpcMgr W (XMPROXY_CMN_DATA_CACHE G) :=
  fold_left (fun m x => AttachRpc m (rpc_object emulation logmsg x)) xmpp_objects m.

(** ** What the calls answer *)

Section promise.
Context {W G J D : Type} `{XmppProxy.Gloox G} `{JsonCLaws J D} `{TaskService W}.
Variable (junk : Z) (junk_text : string).
Abbreviation gateway := (ADJsonRpcMgr W (XMPROXY_CMN_DATA_CACHE G)).
#[local] Instance this_service : RpcService (XMPROXY_CMN_DATA_CACHE G) xmproxy_packet J :=
  xmpp_service (D := D) junk junk_text.
Implicit Types (m : gateway) (d : JsonDataCommObj J) (r : RPC_SRV_REQ xmproxy_packet) (s : XMPROXY_CMN_DATA_CACHE G).

Definition required (c : EJSON_XMPROXY_RPC_TYPES) : list (string * option (list string)) :=
  match c with
  | SET_ONLINE_STATUS => [("status", Some ["online"; "offline"])]
  | SET_SEND_MESSAGE | SET_SUBSCRIBE | SET_ACCEPT_BUDDY => [("to", None); ("msg", None)]
  | GET_INBOX => [("index", None)]
  | _ => []
  end%string.

(** The code, the values, and the state of the gateway after the call. *)
Definition promised d s (c : EJSON_XMPROXY_RPC_TYPES) : Z * list (string * string) * XMPROXY_CMN_DATA_CACHE G :=
  let m := pXmpMgr s in
  match c with
  | GET_ASYNCTASK => (Rpc.SUCCESS, [("task", "none")], s)
  | SMS_DELETE_ALL => (Rpc.FAIL, [], s)
  | GET_ONLINE_STATUS =>
      (Rpc.SUCCESS, [("status", if XmppMgr.get_connected_status m then "online" else "offline")], s)
  | SET_ONLINE_STATUS =>
      (Rpc.SUCCESS, [], set_mgr s (XmppMgr.set_online_status m (argument d "status" =? "online")).2)
  | SET_SEND_MESSAGE =>
      let '(code, m') := XmppMgr.proc_cmd_send_message_internal m (argument d "to") (argument d "msg") in (code, [], set_mgr s m')
  | SET_SUBSCRIBE => (Rpc.SUCCESS, [], set_mgr s (XmppMgr.proc_cmd_subscribe_message m (argument d "to")).2)
  | SET_ACCEPT_BUDDY => (Rpc.SUCCESS, [], set_mgr s (XmppMgr.proc_cmd_add_buddy m (argument d "to")).2)
  | GET_INBOX_COUNT => (Rpc.SUCCESS, [("count", format_d (i32 (Z.of_nat (length (XmppMgr.Inbox m)))))], s)
  | GET_INBOX =>
      match if (atoi (argument d "index") <? 0)%Z then None else XmppMgr.Inbox m !! Z.to_nat (atoi (argument d "index")) with
      | Some t => (Rpc.SUCCESS, [("message", strncpy XMPROXY_MSG_SIZE t junk_text)], s)
      | None => (Rpc.VALUE_OUT_OF_RANGE, [], s)
      end
  | SET_INBOX_EMPTY => (Rpc.SUCCESS, [], set_mgr s (XmppMgr.with_inbox m [] (XmppMgr.ResponseMsg m)))
  end%string.

Lemma rpc_type_of c : rpc_type (rpc_type_index c) = Some c.
Proof. by destruct c. Qed.

(** An answer of the gateway's service: the steps of a call, with their results. *)
Definition answers m d c r : Prop :=
  let '(code, fields, s') := promised d (service m) c in
  exists r2 d', ProcessWork junk_text (service m) r (rpc_type_index c) = Done (0, r2, s') /\
    MapBinaryToJson (D := D) junk junk_text s' d r2 (rpc_type_index c) = (0, d', s') /\ responds d' code fields.

Lemma answers_intro m d c r r2 code fields s' (response : option (JsonDataCommObj J)) :
  promised d (service m) c = (code, fields, s') ->
  ProcessWork junk_text (service m) r (rpc_type_index c) = Done (0, r2, s') ->
  MapBinaryToJson (D := D) junk junk_text s' d r2 (rpc_type_index c) = (0, default d response, s') ->
  (exists d', response = Some d' /\ responds d' code fields) -> answers m d c r.
Proof. unfold answers. intros -> E1 E2 (d' & -> & Hr). by exists r2, d'. Qed.

(** The packet the request of a call is mapped to. *)
Definition mapped d c : RPC_SRV_REQ xmproxy_packet :=
  let r := create_req_obj junk d in
  match c with
  | GET_ASYNCTASK | SMS_DELETE_ALL => PREPARE r (ASYNCTASK_PACKET junk) Act.READ GET_ASYNCTASK
  | GET_ONLINE_STATUS => PREPARE r (ONLINESTS_PACKET junk) Act.READ GET_ONLINE_STATUS
  | SET_ONLINE_STATUS =>
      PREPARE r (ONLINESTS_PACKET (if (argument d "status" =? "online")%string then 0 else 1)) Act.WRITE SET_ONLINE_STATUS
  | SET_SEND_MESSAGE => PREPARE r (SENDMSG_PACKET (argument d "to") (argument d "msg")) Act.WRITE SET_SEND_MESSAGE
  | SET_SUBSCRIBE => PREPARE r (SUBSCRIBE_PACKET (argument d "to") (argument d "msg")) Act.WRITE SET_SUBSCRIBE
  | SET_ACCEPT_BUDDY => PREPARE r (ACCEPT_BUDDY_PACKET (argument d "to") (argument d "msg")) Act.WRITE SET_ACCEPT_BUDDY
  | GET_INBOX_COUNT => PREPARE r (INBOX_PACKET junk junk junk_text) Act.READ GET_INBOX_COUNT
  | GET_INBOX => PREPARE r (INBOX_PACKET junk (atoi (argument d "index")) junk_text) Act.READ GET_INBOX
  | SET_INBOX_EMPTY => PREPARE r (INBOX_PACKET junk junk junk_text) Act.READ SET_INBOX_EMPTY
  end.

Lemma call_mapped s d c :
  c <> SMS_DELETE_ALL ->
  if forallb (param_ok (D := D) (socket_data d)) (required c)
  then MapJsonToBinary (D := D) junk junk_text s d (create_req_obj junk d) (rpc_type_index c) = (0, d, mapped d c, s)
  else exists r, MapJsonToBinary (D := D) junk junk_text s d (create_req_obj junk d) (rpc_type_index c) =
         (-1, set_mapper_result d Task.INVALID_PARAM, r, s).
Proof.
  intros Hc. unfold MapJsonToBinary. rewrite rpc_type_of. destruct c; try done; cbn [required forallb]; try done.
  - unfold json_to_bin_set_online_status. change XMPROXY_ONLINESTS_UNKNOWN with (Z.of_nat 2).
    rewrite with_enum_spec by (vm_compute; lia). cbn [take XMPROXY_RPC_ONLINE_STATUS_ARG_TABL].
    unfold param_ok, mapped, argument, JSON_STRING_TO_ENUM. cbn [fst snd].
    destruct (param_value _ _) as [v|]; simpl; [|by eexists]. destruct (bool_decide_reflect (v ∈ ["online"; "offline"]%string)) as [Hv|Hv];
      simpl; [|by eexists]. apply elem_of_cons in Hv as [->|Hv]; [done|]. by apply list_elem_of_singleton in Hv as ->.
  - unfold json_to_bin_set_send_message. rewrite with_string_spec by (vm_compute; lia).
    destruct (param_ok _ _); simpl; [|by eexists]. rewrite with_string_spec by (vm_compute; lia).
    destruct (param_ok _ _); simpl; [done|by eexists].
  - unfold json_to_bin_set_subscribe_message. rewrite with_string_spec by (vm_compute; lia).
    destruct (param_ok _ _); simpl; [|by eexists]. rewrite with_string_spec by (vm_compute; lia).
    destruct (param_ok _ _); simpl; [done|by eexists].
  - unfold json_to_bin_set_accept_buddy. rewrite with_string_spec by (vm_compute; lia).
    destruct (param_ok _ _); simpl; [|by eexists]. rewrite with_string_spec by (vm_compute; lia).
    destruct (param_ok _ _); simpl; [done|by eexists].
  - unfold json_to_bin_get_inbox_msg. rewrite with_int_spec. unfold mapped, argument, param_ok. cbn [fst snd].
    destruct (param_value _ _) as [v|]; simpl; [done|by eexists].
Qed.

Lemma send_code_range (s : XmppMgr.XmppMgr G) to msg : 0 <= (XmppMgr.proc_cmd_send_message_internal s to msg).1.
Proof.
  unfold XmppMgr.proc_cmd_send_message_internal, XmppMgr.send_message_internal.
  by destruct (XmppProxy.SendMessageToBuddy _ _ _ _) as [[] p].
Qed.

(** The work of one call. *)
Tactic Notation "work" reference(f) :=
  cbn [promised]; unfold ProcessWork; rewrite rpc_type_of; unfold f; cbn [mapped PREPARE PREPARE_REQUEST rq_dataRef set_packet].

Lemma call_answers m d c : c <> SMS_DELETE_ALL -> answers m d c (mapped d c).
Proof.
  intros Hc. set (s := service m). destruct c; try done.
  - eapply answers_intro; [reflexivity..|]. by apply resp_enum.
  - eapply answers_intro; [reflexivity..|]. unfold bin_to_json_get_online_status. cbn [packet_int].
    match goal with |- context [PREPARE_JSON_RESP_ENUM d ?r ?n ?v ?t ?x] => destruct (resp_enum (D := D) d r n v t x) as (d' & E & Hr); [done|done|] end.
    exists d'. split; [exact E|]. by destruct (XmppMgr.get_connected_status (pXmpMgr (RpcMgr.service m))).
  - eapply (answers_intro m d SET_ONLINE_STATUS _ (set_result (mapped d SET_ONLINE_STATUS) Rpc.SUCCESS));
      [reflexivity| |reflexivity|by apply plain_answer].
    simpl. by destruct (argument d "status" =? "online")%string.
  - pose proof (send_code_range (pXmpMgr s) (argument d "to") (argument d "msg")) as Hcode.
    destruct (XmppMgr.proc_cmd_send_message_internal (pXmpMgr s) (argument d "to") (argument d "msg")) as [code m'] eqn:E.
    eapply (answers_intro m d SET_SEND_MESSAGE _ (set_result (mapped d SET_SEND_MESSAGE) code));
      [cbn [promised]; fold s; by rewrite E| |reflexivity|by apply plain_answer].
    work process_set_send_message. fold s. by rewrite E.
  - eapply (answers_intro m d SET_SUBSCRIBE _ (set_result (mapped d SET_SUBSCRIBE) Rpc.SUCCESS));
      [reflexivity| |reflexivity|by apply plain_answer].
    work process_set_subscribe_message. unfold XmppMgr.proc_cmd_subscribe_message, XmppProxy.subscribe_buddy. by destruct (XmppProxy.j _) as [[? ?]|].
  - eapply (answers_intro m d SET_ACCEPT_BUDDY _ (set_result (mapped d SET_ACCEPT_BUDDY) Rpc.SUCCESS));
      [reflexivity| |reflexivity|by apply plain_answer].
    work process_set_accept_buddy. unfold XmppMgr.proc_cmd_add_buddy, XmppProxy.accept_buddy. by destruct (existsb _ _).
  - eapply answers_intro; [reflexivity..|]. by apply resp_int.
  - assert (XmppMgr.proc_cmd_get_inbox_msg (pXmpMgr s) (atoi (argument d "index")) =
      match if (atoi (argument d "index") <? 0)%Z then None
            else XmppMgr.Inbox (pXmpMgr s) !! Z.to_nat (atoi (argument d "index")) with
      | Some t => (Rpc.SUCCESS, t) | None => (Rpc.VALUE_OUT_OF_RANGE, EmptyString) end) as Hmsg
      by (unfold XmppMgr.proc_cmd_get_inbox_msg; by destruct (_ <? 0)).
    destruct (if atoi (argument d "index") <? 0 then None else _) as [t|] eqn:Et.
    + eapply answers_intro; [cbn [promised]; fold s; by rewrite Et|work process_get_inbox_msg; fold s; by rewrite Hmsg
        |reflexivity|by apply resp_string].
    + eapply answers_intro; [cbn [promised]; fold s; by rewrite Et|work process_get_inbox_msg; fold s; by rewrite Hmsg
        |reflexivity|by apply resp_string].
  - eapply answers_intro; [reflexivity..|]. by apply plain_answer.
Qed.

(** C28: The calls of the gateway, through the manager that [main()] sets up: the name of
    each call finds its object (whatever the position differs from the number of the
    call), and a request is refused with [CMD_TASK_RESULT_INVALID_PARAM], changing
    nothing, exactly when a parameter is missing or not one of its table; otherwise it
    gets one response with the promised code and values, and the gateway's state changes
    as promised: the connection is wanted or not, one message is sent to a buddy, a buddy
    is asked or accepted, the inbox is read, counted or emptied. *)
Theorem gateway_served m d (emulation logmsg : bool) (i : nat) name c :
  rpclist m = map (rpc_object emulation logmsg) xmpp_objects -> xmpp_objects !! i = Some (name, c) ->
  cmd_index d = Z.of_nat i + EJSON_RPCGMGR_CMD_END ->
  method_found m name = Some (cmd_index d) /\
  let '(ret, d', m') := serve (P := xmproxy_packet) (D := D) junk junk_text m d in
  if forallb (param_ok (D := D) (socket_data d)) (required c)
  then let '(code, fields, s') := promised d (service m) c in
       ret = 0 /\ responds d' code fields /\ m' = with_service m s'
  else ret <> 0 /\ d' = set_mapper_result d Task.INVALID_PARAM /\ m' = m.
Proof.
  intros Hl Hi Ed. assert (rpclist m !! i = Some (rpc_object emulation logmsg (name, c))) as Ho
    by (rewrite Hl; by rewrite list_lookup_fmap, Hi).
  assert (c <> SMS_DELETE_ALL) as Hc.
  { intros ->. clear Ho Ed. do 9 (destruct i as [|i]; [discriminate Hi|]). discriminate Hi. }
  split.
  - rewrite method_found_first. unfold registered_methods. rewrite Hl, Ed. clear Ho Ed.
    do 9 (destruct i as [|i]; [injection Hi as <- <-; vm_compute; reflexivity|]). done.
  - pose proof (call_mapped (service m) d c Hc) as Hmap. destruct (forallb _ _).
    + pose proof (call_answers m d c Hc) as Hans. unfold answers in Hans.
      destruct (promised d (service m) c) as [[code fields] s']. destruct Hans as (r2 & d' & Hw & Hb & Hr).
      pose proof (call_done junk junk_text m d i _ (mapped d c) (service m) 0 r2 s' 0 d' s' Ho Ed) as Hd.
      rewrite Hd; [done|exact Hmap|exact Hw|exact Hb].
    + destruct Hmap as (r & Hmap). pose proof (call_refused junk junk_text m d i _ (-1) r (set_mapper_result d Task.INVALID_PARAM) Ho Ed) as Hd.
      by rewrite (Hd Hmap).
Qed.
End promise.

(** ** The property at a concrete input *)
Import Json RpcMgrSpec.Demo.
#[local] Existing Instance XmppMgrSpec.Chat.gloox.

Definition cache : XMPROXY_CMN_DATA_CACHE XmppMgrSpec.Chat.buddies :=
  Build_XMPROXY_CMN_DATA_CACHE XmppMgrSpec.Chat.manager EJSON_XMPROXY_RPC_NONE.
Definition gateway_manager : ADJsonRpcMgr served (XMPROXY_CMN_DATA_CACHE XmppMgrSpec.Chat.buddies) :=
  attach_all (new_ADJsonRpcMgr slow_worker cache 7 false) false false.
Definition call (i : Z) (text : string) : JsonDataCommObj Json.value :=
  {| req_id := 1; cmd_index := i + EJSON_RPCGMGR_CMD_END; mapper_result := Task.UNKNOWN; rpc_code := Rpc.NOT_STARTED;
     socket_data := text; json_resp_obj := None; custom_result_string := EmptyString; cltport := 0;
     client_ip := EmptyString; sock_id := 0; sock_descr := 0 |}.
#[local] Instance gateway_service : RpcService (XMPROXY_CMN_DATA_CACHE XmppMgrSpec.Chat.buddies) xmproxy_packet Json.value :=
  this_service (D := Z) 77 "?".
Definition answer_to (i : Z) (text : string) :=
  serve (P := xmproxy_packet) (D := Z) 77 "?" gateway_manager (call i text).

Example send_message_ex :
  let '(ret, d, m) := answer_to 3 "{'params':{'to':'guest@x','msg':'hi'}}" in
  (ret, json_resp_obj d, XmppProxy.sent (XmppMgr.XmppProxy (pXmpMgr (RpcMgr.service m)))) =
  (0, Some (Obj [("return", Str "Success")]),
   [{| XmppProxy.to := "guest@x"; XmppProxy.body := "hi"; XmppProxy.subject := "message" |}])%string.
Proof. vm_compute. reflexivity. Qed.

Lemma gateway_served_witness :
  method_found gateway_manager "get_inbox_message" = Some 31 /\ (answer_to 7 "{'params':{'index':0}}").1.1 = 0.
Proof.
  destruct (gateway_served (D := Z) 77 "?" gateway_manager (call 7 "{'params':{'index':0}}") false false 7
    "get_inbox_message" GET_INBOX eq_refl eq_refl eq_refl) as [Hfound Hserved].
  split; [exact Hfound|]. unfold answer_to, gateway_service.
  destruct (serve _ _ _ _) as [[ret d] m]. assert (forallb (param_ok (J := Json.value) (D := Z) "{'params':{'index':0}}") (required GET_INBOX) = true)
    as Hp by (vm_compute; reflexivity).
  change (socket_data (call 7 "{'params':{'index':0}}")) with "{'params':{'index':0}}"%string in Hserved. rewrite Hp in Hserved.
  destruct (promised _ _ _ _) as [[code fields] s']. apply Hserved.
Defined.
