(* ===== verification/Cmdline.v ===== *)
(** * The command line (ADCmdlineHelper.cpp, ADCmdlineHelper.hpp)

    What the options of a program do: those every program has, and those its own class, the
    consumer, adds.  A client makes a command of each option and, when all are read, starts
    a worker (file CmdProcessor) for every server with copies of the commands; a server
    keeps the values.  The splitting of [argv] into options and arguments is [getopt_long()],
    a parameter.

    [strcpy()] from the command line is not bounded; [overrun] says that one of the copies
    went beyond its array. *)
From S2P Require Import Prelude GenericChain Text SysInfo Common Client CmdProcessor.
From S2P Require Proxy RpcMgr SysRpc.
Local Open Scope string_scope.
Local Open Scope Z_scope.

(** ** The members *)

(** [OptionsEntryObj], an entry of [struct option]. *)
Record OptionsEntryObj := { cmd_name : string; has_arg : Z; val : Z }.
Definition no_argument : Z := 0.
Definition optional_argument : Z := 2.
Definition MAX_LONG_OPT_ITEMS : Z := 210.
Definition CONSUMERS_OPTIONS_ARG_START_BOUNDARY : Z := 256.

(** What [getopt_long()] finds in [argv]: the values of the options with their arguments. *)
Class Getopt := { getopt_long : list string -> string -> list OptionsEntryObj -> list (Z * option string) }.
Definition short_options : string := "hvpiegtdlnskwrabxzucfjmoyq1".
Definition opt (c : ascii) : Z := Z.of_nat (nat_of_ascii c).

Inductive CMDLINE_HELPER_MODE :=
| CMDLINE_HELPER_MODE_CLIENT | CMDLINE_HELPER_MODE_SERVER | CMDLINE_HELPER_MODE_UNKNOWN | CMDLINE_HELPER_MODE_NONE.
Inductive CMDLINE_OPT_TYPE := CMDLINE_OPT_TYPE_NO | CMDLINE_OPT_TYPE_YES.

(** The values the options set; [BoardType] is that of [DeviceInfo]. *)
Record option_values := {
  help_printed : bool;
  autotest : bool;
  interval_us : Z;
  interval_ms_delay : Z;
  max_loop : Z;
  test_num : Z;
  ip : string;
  port : Z;
  bind_addr : string;
  emulation_mode : CMDLINE_OPT_TYPE;
  socket_log : CMDLINE_OPT_TYPE;
  debug_log : CMDLINE_OPT_TYPE;
  settings : string;
  BoardType : Z;
}.

(** [class ADCmdlineHelper] with its base: [S] is the state of the consumer, [machine]
    what the shell commands run on, [printed] the results that were printed. *)
Record ADCmdlineHelper (S H D : Type) := {
  my_mode : CMDLINE_HELPER_MODE;
  OptionsChain : Chain.chain OptionsEntryObj;
  HelpMsgChain : Chain.chain string;
  ipChain : Chain.chain string;
  ClientWorkersList : Chain.chain (session D);
  CmdChain : Chain.chain (CmdExecutionObj D);
  complete_subargument : option string;
  subarg_ptr : option nat;
  opts : option_values;
  pConsumer : option S;
  overrun : bool;
  machine : H;
  printed : list OutputPrintMsgObj;
}.
Arguments my_mode {S H D}. Arguments OptionsChain {S H D}. Arguments HelpMsgChain {S H D}. Arguments ipChain {S H D}.
Arguments ClientWorkersList {S H D}. Arguments CmdChain {S H D}. Arguments complete_subargument {S H D}.
Arguments subarg_ptr {S H D}. Arguments opts {S H D}. Arguments pConsumer {S H D}. Arguments overrun {S H D}.
Arguments machine {S H D}. Arguments printed {S H D}.

(** A method: it answers and changes the members. *)
Definition method (S H D A : Type) : Type := ADCmdlineHelper S H D -> A * ADCmdlineHelper S H D.
#[export] Instance method_ret S H D : MRet (method S H D) := fun A a h => (a, h).
#[export] Instance method_bind S H D : MBind (method S H D) := fun A B f m h => let '(a, h) := m h in f a h.

(** [class ADCmdlineHelperConsumer]: the program's own options and server, and its test. *)
Class ADCmdlineHelperConsumer (S H D : Type) := {
  parse_my_cmdline_options : Z -> method S H D Z;
  run_my_autotest : string -> Z -> Z -> Z -> S -> S;
  get_my_server_port : S -> Z;
}.

Section members.
Context {S H D : Type}.
Implicit Types h : ADCmdlineHelper S H D.
Abbreviation M := (method S H D).

Definition gets {A} (f : ADCmdlineHelper S H D -> A) : M A := fun h => (f h, h).
Definition set_chains (a : Chain.chain OptionsEntryObj) (b c : Chain.chain string) (w : Chain.chain (session D))
    (l : Chain.chain (CmdExecutionObj D)) : M () := fun h =>
  ((), {| my_mode := my_mode h; OptionsChain := a; HelpMsgChain := b; ipChain := c; ClientWorkersList := w; CmdChain := l;
     complete_subargument := complete_subargument h; subarg_ptr := subarg_ptr h; opts := opts h; pConsumer := pConsumer h;
     overrun := overrun h; machine := machine h; printed := printed h |}).
Definition set_options_chain a : M () := fun h => set_chains a (HelpMsgChain h) (ipChain h) (ClientWorkersList h) (CmdChain h) h.
Definition set_help_chain b : M () := fun h => set_chains (OptionsChain h) b (ipChain h) (ClientWorkersList h) (CmdChain h) h.
Definition set_ip_chain c : M () := fun h => set_chains (OptionsChain h) (HelpMsgChain h) c (ClientWorkersList h) (CmdChain h) h.
Definition set_workers w : M () := fun h => set_chains (OptionsChain h) (HelpMsgChain h) (ipChain h) w (CmdChain h) h.
Definition set_cmd_chain l : M () := fun h => set_chains (OptionsChain h) (HelpMsgChain h) (ipChain h) (ClientWorkersList h) l h.
Definition set_subargument (s : option string) (p : option nat) : M () := fun h =>
  ((), {| my_mode := my_mode h; OptionsChain := OptionsChain h; HelpMsgChain := HelpMsgChain h; ipChain := ipChain h;
     ClientWorkersList := ClientWorkersList h; CmdChain := CmdChain h; complete_subargument := s; subarg_ptr := p;
     opts := opts h; pConsumer := pConsumer h; overrun := overrun h; machine := machine h; printed := printed h |}).
Definition set_rest (v : option_values) (c : option S) (o : bool) (m : H) (l : list OutputPrintMsgObj) : M () := fun h =>
  ((), {| my_mode := my_mode h; OptionsChain := OptionsChain h; HelpMsgChain := HelpMsgChain h; ipChain := ipChain h;
     ClientWorkersList := ClientWorkersList h; CmdChain := CmdChain h; complete_subargument := complete_subargument h;
     subarg_ptr := subarg_ptr h; opts := v; pConsumer := c; overrun := o; machine := m; printed := l |}).
Definition set_opts (f : option_values -> option_values) : M () := fun h =>
  set_rest (f (opts h)) (pConsumer h) (overrun h) (machine h) (printed h) h.
Definition set_consumer (c : option S) : M () := fun h => set_rest (opts h) c (overrun h) (machine h) (printed h) h.

Definition set_machine (m : H) : M () := fun h => set_rest (opts h) (pConsumer h) (overrun h) m (printed h) h.
Definition print_results (l : list OutputPrintMsgObj) : M () := fun h =>
  set_rest (opts h) (pConsumer h) (overrun h) (machine h) (printed h ++ l) h.

(** [strcpy()] of a text of the command line into an array. *)
Definition strcpy (size : nat) (s : string) : M string := fun h =>
  let '(_, h) := set_rest (opts h) (pConsumer h) (overrun h || (size <=? String.length s)%nat) (machine h) (printed h) h in (s, h).
End members.

(** The values, one by one. *)
Section values.
Implicit Types v : option_values.
Definition set_flags (a b : bool) v := Build_option_values a b (interval_us v) (interval_ms_delay v) (max_loop v) (test_num v)
  (ip v) (port v) (bind_addr v) (emulation_mode v) (socket_log v) (debug_log v) (settings v) (BoardType v).
Definition set_loops (us ms loops test : Z) v := Build_option_values (help_printed v) (autotest v) us ms loops test
  (ip v) (port v) (bind_addr v) (emulation_mode v) (socket_log v) (debug_log v) (settings v) (BoardType v).
Definition set_address (a : string) (p : Z) (b : string) v := Build_option_values (help_printed v) (autotest v) (interval_us v)
  (interval_ms_delay v) (max_loop v) (test_num v) a p b (emulation_mode v) (socket_log v) (debug_log v) (settings v) (BoardType v).
Definition set_modes (e s d : CMDLINE_OPT_TYPE) v := Build_option_values (help_printed v) (autotest v) (interval_us v)
  (interval_ms_delay v) (max_loop v) (test_num v) (ip v) (port v) (bind_addr v) e s d (settings v) (BoardType v).
Definition set_files (f : string) (board : Z) v := Build_option_values (help_printed v) (autotest v) (interval_us v)
  (interval_ms_delay v) (max_loop v) (test_num v) (ip v) (port v) (bind_addr v) (emulation_mode v) (socket_log v) (debug_log v) f board.

Definition set_help_printed v := set_flags true (autotest v) v.
Definition set_autotest v := set_flags (help_printed v) true v.
Definition set_interval_us n v := set_loops n (interval_ms_delay v) (max_loop v) (test_num v) v.
Definition set_interval_ms_delay n v := set_loops (interval_us v) n (max_loop v) (test_num v) v.
Definition set_max_loop n v := set_loops (interval_us v) (interval_ms_delay v) n (test_num v) v.
Definition set_test_num n v := set_loops (interval_us v) (interval_ms_delay v) (max_loop v) n v.
Definition set_ip s v := set_address s (port v) (bind_addr v) v.
Definition set_port n v := set_address (ip v) n (bind_addr v) v.
Definition set_bind_addr s v := set_address (ip v) (port v) s v.
Definition set_emulation_mode b v := set_modes b (socket_log v) (debug_log v) v.
Definition set_socket_log b v := set_modes (emulation_mode v) b (debug_log v) v.
Definition set_debug_log b v := set_modes (emulation_mode v) (socket_log v) b v.
Definition set_settings s v := set_files s (BoardType v) v.
Definition set_BoardType n v := set_files (settings v) n v.
End values.

(** ** Arguments of an option *)

(** A C string in a buffer; the place of a character in it. *)
Definition zero : ascii := Ascii.zero.
Definition c_str (s : string) : string := (until zero s).1.
Definition from (n : nat) (s : string) : string := String.substring n (String.length s) s.
Definition set_char (n : nat) (c : ascii) (s : string) : string := (truncate n s ++ String c (from (n + 1) s))%string.
Fixpoint strchr (c : ascii) (s : string) : option nat :=
  match s with
  | EmptyString => None
  | String x r => if (x =? c)%char then Some 0%nat else Datatypes.S <$> strchr c r
  end.
(** The loop that looks for commas, from [s] on. *)
Fixpoint count_commas (s : string) : Z :=
  match s with
  | EmptyString => 0
  | String x r => (if (x =? ",")%char then 1 else 0) + count_commas r
  end.

(** The options every program has, those of a client and those of a server. *)
Definition common_options : list (string * Z * Z * option string) :=
  [("help", optional_argument, opt "h", None);
   ("version", no_argument, opt "v", Some "--version                  (print the version number of this tool)");
   ("port", optional_argument, opt "p", Some "--port                     (server's listening tcp port number)")].
Definition client_options : list (string * Z * Z * option string) :=
  [("ip", optional_argument, opt "i", Some "--ip=ip1,ip2,ip3,ipN       (server ip address: default is localhost, multiple ip's can be specified)");
   ("autotest", optional_argument, opt "t", None);
   ("delay", optional_argument, opt "d", Some "--delay                    (delay between loop iteration: default is 1ms)");
   ("loopcount", optional_argument, opt "l", Some "--loopcount                (repeatation of a test: default is 1)");
   ("testnum", optional_argument, opt "n", None);
   ("tasksts", optional_argument, opt "k", Some "--tasksts=taskID           (read the status of the task which was in progress)");
   ("shutdown", optional_argument, opt "w", Some "--shutdown                 (shuts down the service)");
   ("serversion", optional_argument, opt "r", Some "--serversion               (read the rpc server version)");
   ("savedata", optional_argument, opt "a", Some "--savedata                 (trigger saving of server settings)");
   ("datasts", optional_argument, opt "b", Some "--datasts                  (read the status of settings save/load action)");
   ("rsttasksts", optional_argument, opt "x", Some "--rsttasksts               (resets task status chain and ID to 0)");
   ("readysts", optional_argument, opt "z", Some "--readysts                 (read the ready state of service)");
   ("logdebug", optional_argument, opt "c", Some "--logdebug=[enable/disable](read/write debug logging status of the service)");
   ("storefactory", optional_argument, opt "j", Some "--storefactory             (trigger storing of factory settings)");
   ("restorefactory", optional_argument, opt "m", Some "--restorefactory           (trigger restoring of factory settings)");
   ("evSub", optional_argument, opt "o", Some "--evSub=cltToken,portNum   (subscribe for event notification)");
   ("evUnsub", optional_argument, opt "y", Some "--evUnsub=srvToken         (unsubscribe for event notification)");
   ("evNotify", optional_argument, opt "q", Some "--evNotify=evntNum,evntArg (notify event)");
   ("srvop", optional_argument, opt "1", Some "--srvop=[on/off/idle/reboot/idlenoexthw](read/write device operation state of the service)");
   ("rwbyte", optional_argument, opt "2", Some "--rwbyte=addr,data         (read/write middleware byte from/to given address)");
   ("rwword", optional_argument, opt "3", Some "--rwword=addr,data         (read/write middleware word from/to given address)");
   ("rwdword", optional_argument, opt "4", Some "--rwdword=addr,data        (read/write middleware dword from/to given address)")].
Definition server_options : list (string * Z * Z * option string) :=
  [("bindaddr", optional_argument, opt "B", Some "--bindaddr=ip              (listen only on this IPv4 address, e.g. 127.0.0.1; default: all)");
   ("debuglog", no_argument, opt "u", Some "--debuglog                 (enable debug logging)");
   ("emulation", optional_argument, opt "e", Some "--emulation                (disable actual h/w access, run in emulation mode)");
   ("logsocket", optional_argument, opt "g", Some "--logsocket                (enable json req/resp string-print on socket)");
   ("settings", optional_argument, opt "s", Some "--settings=filepath        (settings text filepath to be loaded and stored)");
   ("boardtype", optional_argument, opt "f", Some "--boardtype=[RASPI_0/RASPI_0W,RASPI_A/RASPI_APLUS/RASPI_B/RASPI_BPLUS/RASPI_B2/BAYTRAIL/BAYTRAIL_I210] (pass cpu board type to service)")].

(** A command that is ready, and one that is given up with -1. *)
Abbreviation done o := (mret (Some o)).
Abbreviation given_up := (mret None).

Section helper.
Context {S H D : Type} `{Host H} `{ADCmdlineHelperConsumer S H D} `{Getopt}.
Abbreviation M := (method S H D).
Abbreviation obj := (CmdExecutionObj D).

Definition set_new_subargument (arg : option string) : M Z :=
  complete ← gets complete_subargument;
  _ ← match complete with Some _ => set_subargument None None | None => mret () end;
  match arg with
  | None | Some EmptyString => mret 0
  | Some arg => _ ← set_subargument (Some arg) (Some 0%nat); mret (1 + count_commas (c_str arg))
  end.

(** The answer, and what [*subarg] points to when it is not 0. *)
Definition get_next_subargument : M (Z * string) :=
  complete ← gets complete_subargument;
  p ← gets subarg_ptr;
  match complete with
  | None => mret (0, EmptyString)
  | Some b =>
      if (String.length (c_str b) =? 0)%nat then mret (0, EmptyString)
      else match p with
      | None => mret (0, EmptyString)
      | Some p =>
          match strchr "," (c_str (from p b)) with
          | None => _ ← set_subargument (Some b) None; mret (1, c_str (from p b))
          | Some n =>
              let b := set_char (p + n) zero b in
              _ ← set_subargument (Some b) (Some (p + n + 1)%nat); mret (2, c_str (from p b))
          end
      end
  end.

(** ** Options and help *)

Definition insert_options_entry (opt_name : string) (has_arg val : Z) (my_own_options : bool) : M Z :=
  l ← gets OptionsChain;
  let val := if my_own_options then val else val + CONSUMERS_OPTIONS_ARG_START_BOUNDARY in
  let '(r, l) := Chain.put l (Build_OptionsEntryObj opt_name has_arg val) in
  _ ← set_options_chain l; mret (if r =? 0 then 0 else -1).
Definition insert_help_entry (HelpMsg : string) : M Z :=
  l ← gets HelpMsgChain;
  let '(r, l) := Chain.put l HelpMsg in
  _ ← set_help_chain l; mret (if r =? 0 then 0 else -1).
(** The texts that are printed are those of the chain, in order. *)
Definition print_help : M Z :=
  l ← gets HelpMsgChain;
  if Chain.size l =? 0 then mret (-1) else _ ← set_opts set_help_printed; mret 0.
(** [long_options_table] when there is room for it. *)
Definition fill_long_options_table : M (option (list OptionsEntryObj)) :=
  l ← gets OptionsChain;
  if (Chain.size l =? 0) || (Chain.size l >=? MAX_LONG_OPT_ITEMS) then mret None else mret (Some (Chain.items l)).

Fixpoint insert_entries (l : list (string * Z * Z * option string)) (own : bool) : M () :=
  match l with
  | [] => mret ()
  | (name, has_arg, val, help) :: l =>
      _ ← insert_options_entry name has_arg val own;
      _ ← match help with Some text => insert_help_entry text | None => mret 0 end;
      insert_entries l own
  end.

(** The members before [init_myself()]. *)
Definition new_helper (mode : CMDLINE_HELPER_MODE) (m : H) : ADCmdlineHelper S H D :=
  {| my_mode := mode; OptionsChain := Chain.empty_chain; HelpMsgChain := Chain.empty_chain; ipChain := Chain.empty_chain;
     ClientWorkersList := Chain.empty_chain; CmdChain := Chain.empty_chain; complete_subargument := None; subarg_ptr := None;
     opts := {| help_printed := false; autotest := false; interval_us := 1000; interval_ms_delay := 1; max_loop := 1;
                test_num := 0; ip := "127.0.0.1"; port := -1; bind_addr := EmptyString; emulation_mode := CMDLINE_OPT_TYPE_NO;
                socket_log := CMDLINE_OPT_TYPE_NO; debug_log := CMDLINE_OPT_TYPE_NO; settings := EmptyString;
                BoardType := SysRpc.BOARD_TYPE_UNKNOWN |};
     pConsumer := None; overrun := false; machine := m; printed := [] |}.
(** [init_myself()] *)
Definition init_myself : M () :=
  _ ← insert_entries common_options true;
  mode ← gets my_mode;
  match mode with
  | CMDLINE_HELPER_MODE_CLIENT => insert_entries client_options true
  | CMDLINE_HELPER_MODE_SERVER => insert_entries server_options true
  | _ => mret ()
  end.
Definition attach_helper (c : S) : M Z :=
  p ← gets pConsumer;
  match p with None => _ ← set_consumer (Some c); mret 0 | Some _ => mret (-1) end.

(** ** Commands *)

(** What a new [CmdExecutionObj] holds. *)
Variable fresh : obj.

Definition with_command (command act : Z) (o : obj) : obj :=
  {| Client.command := command; cmd_type := cmd_type o; Client.act := act; get_rpc_name := get_rpc_name o;
     set_rpc_name := set_rpc_name o; cmd_int_val := cmd_int_val o; cmd_enum_val := cmd_enum_val o;
     arg_param_int_value := arg_param_int_value o; arg_param_ulong_value := arg_param_ulong_value o;
     params := params o; obj_result := obj_result o; rpc_resp_result := rpc_resp_result o |}.
Definition with_names (get_name set_name : string) (o : obj) : obj :=
  {| Client.command := command o; cmd_type := cmd_type o; Client.act := act o; get_rpc_name := get_name;
     set_rpc_name := set_name; cmd_int_val := cmd_int_val o; cmd_enum_val := cmd_enum_val o;
     arg_param_int_value := arg_param_int_value o; arg_param_ulong_value := arg_param_ulong_value o;
     params := params o; obj_result := obj_result o; rpc_resp_result := rpc_resp_result o |}.
Definition with_values (int_val enum_val : Z) (o : obj) : obj :=
  {| Client.command := command o; cmd_type := cmd_type o; Client.act := act o; get_rpc_name := get_rpc_name o;
     set_rpc_name := set_rpc_name o; cmd_int_val := int_val; cmd_enum_val := enum_val;
     arg_param_int_value := arg_param_int_value o; arg_param_ulong_value := arg_param_ulong_value o;
     params := params o; obj_result := obj_result o; rpc_resp_result := rpc_resp_result o |}.
Definition with_type (t : Z) (o : obj) : obj :=
  {| Client.command := command o; cmd_type := t; Client.act := act o; get_rpc_name := get_rpc_name o;
     set_rpc_name := set_rpc_name o; cmd_int_val := cmd_int_val o; cmd_enum_val := cmd_enum_val o;
     arg_param_int_value := arg_param_int_value o; arg_param_ulong_value := arg_param_ulong_value o;
     params := params o; obj_result := obj_result o; rpc_resp_result := rpc_resp_result o |}.
Definition with_get_name (name : string) (o : obj) : obj := with_names name (set_rpc_name o) o.
Definition with_set_name (name : string) (o : obj) : obj := with_names (get_rpc_name o) name o.
Definition with_int_val (n : Z) (o : obj) : obj := with_values n (cmd_enum_val o) o.
Definition with_enum_val (n : Z) (o : obj) : obj := with_values (cmd_int_val o) n o.
Definition with_act (a : Z) (o : obj) : obj := with_command (command o) a o.

(** The members of the parameter [i]: 0 is [first_arg_...]. *)
Definition set_name (i : nat) (s : string) (o : obj) : obj :=
  with_params o (alter (fun p => Build_arg_param D s (param_value p) (int_value p) (double_value p) (ulong_value p) (float_value p)) i (params o)).
Definition set_value (i : nat) (s : string) (o : obj) : obj :=
  with_params o (alter (fun p => Build_arg_param D (param_name p) s (int_value p) (double_value p) (ulong_value p) (float_value p)) i (params o)).
Definition set_int (i : nat) (n : Z) (o : obj) : obj :=
  with_params o (alter (fun p => Build_arg_param D (param_name p) (param_value p) n (double_value p) (ulong_value p) (float_value p)) i (params o)).
Definition strcpy_value (i : nat) (s : string) (o : obj) : M obj :=
  s ← strcpy Proxy.JSON_RPC_METHOD_RESP_MAX_LENGTH s; mret (set_value i s o).

(** The tables have a text for every value below [enum_max_val]. *)
Definition enum_of (table : list string) (s : string) (enum_max_val : Z) : Z :=
  default enum_max_val (string_to_enum table s enum_max_val).
Definition enum_text (table : list string) (n : Z) : string := default EmptyString (table !! Z.to_nat n).

(** What every command ends with: the chain takes it, unless it was given up. *)
Definition push (build : M (option obj)) : M Z :=
  r ← build;
  match r with
  | None => mret (-1)
  | Some o =>
      l ← gets CmdChain;
      let '(r, l) := Chain.put l o in
      _ ← set_cmd_chain l; mret (if r =? 0 then 0 else -1)
  end.

Definition push_int_type_command (rpc_cmd : Z) (get_rpc_name set_rpc_name : string) (readonly : bool) : M Z :=
  push (
    let o := with_type Cmd.INT_GET_SET (with_names get_rpc_name set_rpc_name (with_command rpc_cmd (act fresh) fresh)) in
    if readonly then done (with_act Act.READ o)
    else
      '(n, subarg) ← get_next_subargument;
      if n =? 0 then done (with_act Act.READ o)
      else done (with_act Act.WRITE (with_int_val (atoi subarg) o))).

Definition push_action_type_noarg_command (rpc_cmd : Z) (rpc_name : string) (ret_string : option string) : M Z :=
  push (done (with_set_name rpc_name (set_name 0 (default EmptyString ret_string)
    (with_type Cmd.ACTION_NO_ARG (with_command rpc_cmd Act.WRITE fresh))))).

Definition push_single_int_get_set_command (getcmd setcmd : Z) (get_rpc_name set_rpc_name param_name : string)
    (readonly : bool) : M Z :=
  push (
    let o := set_name 0 param_name (with_type Cmd.INT_GET_SET (with_names get_rpc_name set_rpc_name fresh)) in
    if readonly then done (with_command getcmd Act.READ o)
    else
      '(n, subarg) ← get_next_subargument;
      if n =? 0 then done (with_command getcmd Act.READ o)
      else done (with_command setcmd Act.WRITE (set_int 0 (atoi subarg) (with_int_val (atoi subarg) o)))).

Definition push_int_get_set_with_dev_addr_arg_command (getcmd setcmd : Z)
    (get_rpc_name set_rpc_name int_param_name addr_param_name : string) (addr_param_val forced_act : Z) : M Z :=
  push (
    let o := with_type Cmd.INT_GET_SET_WITH_DEV_ADDR (with_names get_rpc_name set_rpc_name fresh) in
    let addressed a := set_name 1 int_param_name (set_int 0 a (set_name 0 addr_param_name o)) in
    if addr_param_val >=? 0 then
      '(n, subarg) ← get_next_subargument;
      if n =? 0 then
        if forced_act =? Act.WRITEONLY then given_up
        else done (with_command getcmd Act.READ (addressed addr_param_val))
      else
        if forced_act =? Act.READONLY then given_up
        else done (with_command setcmd Act.WRITE (set_int 1 (atoi subarg) (addressed addr_param_val)))
    else
      '(n, addr) ← get_next_subargument;
      if n =? 0 then given_up
      else
        '(n, subarg) ← get_next_subargument;
        if n =? 0 then done (with_command getcmd Act.READ (addressed (atoi addr)))
        else done (with_command setcmd Act.WRITE (set_int 1 (atoi subarg) (addressed (atoi addr))))).

Definition push_enum_get_set_with_dev_addr_arg_command (getcmd setcmd : Z) (get_rpc_name set_rpc_name : string)
    (enum_string_table : list string) (enum_max_val : Z) (enum_param_name addr_param_name : string)
    (addr_param_val forced_act : Z) : M Z :=
  push (
    let o := set_name 1 enum_param_name (set_int 0 addr_param_val (set_name 0 addr_param_name
               (with_type Cmd.ENUM_GET_SET_WITH_DEV_ADDR (with_names get_rpc_name set_rpc_name fresh)))) in
    '(n, subarg) ← get_next_subargument;
    if n =? 0 then
      if forced_act =? Act.WRITEONLY then given_up else done (with_command getcmd Act.READ o)
    else if forced_act =? Act.READONLY then given_up
    else
      let e := enum_of enum_string_table subarg enum_max_val in
      if e >=? enum_max_val then done (with_command getcmd Act.READ (with_enum_val e o))
      else done (with_command setcmd Act.WRITE (set_value 1 (enum_text enum_string_table e) (with_enum_val e o)))).

Definition push_string_get_set_with_dev_addr_arg_command (getcmd setcmd : Z)
    (get_rpc_name set_rpc_name string_param_name addr_param_name : string) (addr_param_val forced_act : Z) : M Z :=
  push (
    let o := set_name 1 string_param_name (set_int 0 addr_param_val (set_name 0 addr_param_name
               (with_type Cmd.STRING_GET_SET_WITH_DEV_ADDR (with_names get_rpc_name set_rpc_name fresh)))) in
    '(n, subarg) ← get_next_subargument;
    if n =? 0 then
      if forced_act =? Act.WRITEONLY then given_up else done (with_command getcmd Act.READ o)
    else if forced_act =? Act.READONLY then given_up
    else o ← strcpy_value 1 subarg o; done (with_command setcmd Act.WRITE o)).

Definition push_single_enum_get_set_command (getcmd setcmd : Z) (get_rpc_name set_rpc_name : string)
    (enum_string_table : list string) (enum_max_val : Z) (param_name : string) (ret_string : option string) : M Z :=
  push (
    let o := set_name 0 param_name (with_type Cmd.ENUM_GET_SET (with_names get_rpc_name set_rpc_name fresh)) in
    '(n, subarg) ← get_next_subargument;
    if n =? 0 then done (with_command getcmd Act.READ o)
    else
      let e := enum_of enum_string_table subarg enum_max_val in
      if e >=? enum_max_val then done (with_command getcmd Act.READ (with_enum_val e o))
      else done (with_command setcmd Act.WRITE (set_name 1 (default EmptyString ret_string)
             (set_value 0 (enum_text enum_string_table e) (with_enum_val e o))))).

Definition push_string_get_set_with_string_arg_command (getcmd setcmd : Z)
    (get_rpc_name set_rpc_name first_par_name first_par_val sec_para_name sec_para_val : string) (forced_act : Z) : M Z :=
  push (
    let o := with_type Cmd.STRING_GET_SET_WITH_STRING_PARA (with_names get_rpc_name set_rpc_name fresh) in
    o ← strcpy_value 0 first_par_val (set_name 0 first_par_name o);
    o ← strcpy_value 1 sec_para_val (set_name 1 sec_para_name o);
    '(n, _) ← get_next_subargument;
    if n =? 0 then
      if forced_act =? Act.WRITEONLY then given_up else done (with_command getcmd Act.READ o)
    else if forced_act =? Act.READONLY then given_up
    else done (with_command setcmd Act.WRITE o)).

Definition push_get_task_progress_command_with_dev_addr (get_rpc_name addr : string) (addr_val : Z)
    (taskID_name taskSts_name : string) (command : Z) : M Z :=
  push (
    let o := with_type Cmd.GET_TASK_STATUS_WITH_DEV_ADDR (with_names get_rpc_name get_rpc_name fresh) in
    '(n, subarg) ← get_next_subargument;
    if n =? 0 then given_up
    else
      o ← strcpy_value 1 subarg (set_name 1 taskID_name (set_int 0 addr_val (set_name 0 addr o)));
      done (set_name 2 taskSts_name (with_command command Act.READ o))).

Definition push_get_task_progress_command (get_rpc_name taskID_name taskSts_name : string) (command : Z) : M Z :=
  push (
    let o := with_type Cmd.GET_TASK_STATUS (with_names get_rpc_name get_rpc_name fresh) in
    '(n, subarg) ← get_next_subargument;
    if n =? 0 then given_up
    else
      o ← strcpy_value 0 subarg (set_name 0 taskID_name o);
      done (set_name 1 taskSts_name (with_command command Act.READ o))).

(** Only [RPC_SRV_ACT_READ_AND_WRITE] gives the object a command and an action. *)
Definition push_string_get_set_with_enum_arg (getcmd setcmd : Z) (get_rpc set_rpc enum_name : string) (enum_max : Z)
    (enum_table : list string) (string_name : string) (forced_act : Z) : M Z :=
  push (
    let o := with_type Cmd.STRING_GET_SET_WITH_ENUM_PARA (with_names get_rpc set_rpc fresh) in
    '(n, subarg) ← get_next_subargument;
    if n =? 0 then given_up
    else
      let temp_val := enum_of enum_table subarg enum_max in
      if temp_val >=? enum_max then given_up
      else
        let o := set_name 1 string_name (set_value 0 (enum_text enum_table temp_val) (set_name 0 enum_name o)) in
        if forced_act =? Act.READ_AND_WRITE then
          '(n, subarg) ← get_next_subargument;
          if n =? 0 then done (with_command getcmd Act.READ o)
          else o ← strcpy_value 1 subarg (with_command setcmd Act.WRITE o); done o
        else done o).

Definition push_string_get_set_command (getcmd setcmd : Z) (get_rpc_name set_rpc_name string_param_name : string)
    (forced_act : Z) : M Z :=
  push (
    let o := set_name 0 string_param_name (with_type Cmd.STRING_GET_SET (with_names get_rpc_name set_rpc_name fresh)) in
    '(n, subarg) ← get_next_subargument;
    if n =? 0 then
      if forced_act =? Act.WRITEONLY then given_up else done (with_command getcmd Act.READ o)
    else if forced_act =? Act.READONLY then given_up
    else o ← strcpy_value 0 subarg o; done (with_command setcmd Act.WRITE o)).

Definition push_double_int_set_command (setcmd : Z) (set_rpc_name param1_name param2_name : string) : M Z :=
  push (
    let o := with_type Cmd.DOUBLE_INT_SET (with_set_name set_rpc_name fresh) in
    '(n, subarg) ← get_next_subargument;
    if n =? 0 then given_up
    else
      let o := set_name 0 param1_name (set_int 0 (atoi subarg) (with_int_val (atoi subarg) (with_command setcmd Act.WRITE o))) in
      '(n, subarg) ← get_next_subargument;
      if n =? 0 then given_up
      else done (set_name 1 param2_name (set_int 1 (atoi subarg) o))).

(** ** Addresses *)

Definition push_ip_to_list (ip_str : string) : M Z :=
  ip_str ← strcpy 255 ip_str;
  l ← gets ipChain;
  let '(r, l) := Chain.put l ip_str in
  _ ← set_ip_chain l; mret (if r =? 0 then 0 else -1).

(** The first line that a command writes, as far as [size] goes. *)
Definition shell_line (command : string) (size : nat) : M (option string) :=
  command ← strcpy 1024 command;
  m ← gets machine;
  let '(out, m) := host_popen command m in
  _ ← set_machine m;
  mret (text ← out; match fgets size text with EmptyString => None | t => Some t end).
Definition grep_ip_line (ip_filepath : string) (line : Z) : M (option string) :=
  t ← shell_line ("sed '" ++ format_d line ++ "," ++ format_d line ++ "!d' " ++ ip_filepath) 254;
  mret ((fun t => match rfind newline t with Some (a, EmptyString) => a | _ => t end) <$> t).
Definition count_total_ip_from_file (ip_filepath : string) : M Z :=
  t ← shell_line ("sed -n '$=' " ++ ip_filepath) 250;
  mret (match t with Some t => atoi t | None => -1 end).
(** The loop of [push_ip_to_list_from_file()]: the lines from [i] on. *)
Fixpoint push_ip_lines (file : string) (i : Z) (n : nat) : M () :=
  match n with
  | O => mret ()
  | Datatypes.S n =>
      t ← grep_ip_line file (i + 1);
      _ ← match t with Some a => push_ip_to_list a | None => mret 0 end;
      push_ip_lines file (i + 1) n
  end.
Definition push_ip_to_list_from_file (file : string) : M Z :=
  total ← count_total_ip_from_file file;
  _ ← push_ip_lines file 0 (Z.to_nat total); mret 0.

(** The loop of [parse_ip_list_opt()]; a round for each piece of the argument is enough. *)
Fixpoint parse_ips (rounds : nat) (FileChecked : bool) : M () :=
  match rounds with
  | O => mret ()
  | Datatypes.S rounds =>
      '(n, subarg) ← get_next_subargument;
      if n =? 0 then mret ()
      else
        m ← gets machine;
        if negb FileChecked && host_is_file m subarg then _ ← push_ip_to_list_from_file subarg; mret ()
        else
          a ← strcpy 255 subarg;
          _ ← set_opts (set_ip a);
          _ ← push_ip_to_list subarg;
          parse_ips rounds true
  end.
Definition parse_ip_list_opt : M Z :=
  complete ← gets complete_subargument;
  _ ← parse_ips (Datatypes.S (String.length (default EmptyString complete))) false; mret 0.

(** ** Values *)

(** [if (get_next_subargument(&subarg) != 0) ...] *)
Definition when_given (f : string -> M ()) : M Z :=
  '(n, subarg) ← get_next_subargument;
  if n =? 0 then mret 0 else _ ← f subarg; mret 0.

Definition parse_port_number_opt : M Z := when_given (fun subarg => set_opts (set_port (atoi subarg))).
Definition parse_emulation_mode_opt : M Z :=
  when_given (fun subarg => if (subarg =? "yes")%string then set_opts (set_emulation_mode CMDLINE_OPT_TYPE_YES) else mret ()).
Definition parse_socket_log_opt : M Z :=
  when_given (fun subarg => if (subarg =? "yes")%string then set_opts (set_socket_log CMDLINE_OPT_TYPE_YES) else mret ()).
Definition parse_board_type_opt : M Z :=
  when_given (fun subarg => set_opts (set_BoardType (enum_of SysRpc.ADCMN_BOARD_TYPE_TABLE subarg SysRpc.BOARD_TYPE_UNKNOWN))).

Definition get_bind_address (h : ADCmdlineHelper S H D) : option string :=
  if (String.length (bind_addr (opts h)) =? 0)%nat then None else Some (bind_addr (opts h)).
Definition get_socket_log_opt (h : ADCmdlineHelper S H D) : Z :=
  match socket_log (opts h) with CMDLINE_OPT_TYPE_YES => 1 | _ => 0 end.
Definition get_debug_log_opt (h : ADCmdlineHelper S H D) : bool :=
  match debug_log (opts h) with CMDLINE_OPT_TYPE_YES => true | _ => false end.

Definition parse_subscribers_cmdline (arg : Z) : M Z :=
  c ← gets pConsumer;
  match c with Some _ => parse_my_cmdline_options arg | None => mret (-1) end.
Definition get_subscribers_server_port : M Z :=
  c ← gets pConsumer;
  mret (match c with Some c => get_my_server_port (H := H) (D := D) c | None => -1 end).
Definition run_subscribers_autotest (ip : string) (interval_us max_loop test_num : Z) : M Z :=
  c ← gets pConsumer;
  match c with
  | Some c => _ ← set_consumer (Some (run_my_autotest (H := H) (D := D) ip interval_us max_loop test_num c)); mret 0
  | None => mret (-1)
  end.

(** ** Workers *)

Definition start_new_client_worker (ip_addr : string) (srv_port : Z) : M Z :=
  commands ← gets CmdChain;
  let worker := {| SrvSockConn := new_ADJsonRpcClient 0; cmd_chain := Chain.empty_chain; output_msg_chain := Chain.empty_chain;
                   CmdProcessor.ip_addr := "127.0.0.1"; CmdProcessor.port := 0; running := false; looked := 0%nat |} in
  let '(_, worker) := CmdProcessor.run_commands fresh worker ip_addr srv_port commands in
  l ← gets ClientWorkersList;
  let '(r, l) := Chain.put l worker in
  _ ← set_workers l; mret (if r =? 0 then 0 else -1).
(** The loop over [ipChain], which is taken empty. *)
Fixpoint start_workers (n : nat) : M () :=
  match n with
  | O => mret ()
  | Datatypes.S n =>
      l ← gets ipChain;
      let '(a, l) := Chain.get l in
      match a with
      | None => mret ()
      | Some a => _ ← set_ip_chain l; p ← gets (fun h => port (opts h)); _ ← start_new_client_worker a p; start_workers n
      end
  end.

(** How often a worker is looked at until it has ended, or no longer. *)
Definition MAX_SRV_RESPONSE_TIMEOUT : Z := 120000.
Fixpoint wait_for (is_running : nat -> bool) (n : nat) (i : nat) : nat :=
  match n with
  | O => i
  | Datatypes.S n => if is_running i then wait_for is_running n (Datatypes.S i) else i
  end.

(** The workers run meanwhile: [later w t] is what the worker [w] (by its place) has done when
    it has been looked at [t] times. *)
Variable later : nat -> nat -> session D -> session D.
Fixpoint wait_for_workers (i : nat) (l : list (session D)) : list OutputPrintMsgObj :=
  match l with
  | [] => []
  | w :: l =>
      let t := wait_for (fun t => running (later i t w)) (Z.to_nat MAX_SRV_RESPONSE_TIMEOUT) 0 in
      (print_command_result (later i t w)).1 ++ wait_for_workers (Datatypes.S i) l
  end.
Definition wait_for_client_workers_to_finish : M Z :=
  l ← gets ClientWorkersList; _ ← print_results (wait_for_workers 0 (Chain.items l)); mret 0.
Definition delete_client_workers : M Z :=
  l ← gets ClientWorkersList; _ ← set_workers (Chain.set_items l []); mret 0.

Definition run_commands : M Z :=
  commands ← gets CmdChain;
  if Chain.size commands =? 0 then mret (-1)
  else
    ips ← gets ipChain;
    a ← gets (fun h => ip (opts h));
    _ ← (if Chain.size ips =? 0 then push_ip_to_list a else mret 0);
    ips ← gets ipChain;
    _ ← start_workers (Datatypes.S (length (Chain.items ips)));
    _ ← wait_for_client_workers_to_finish;
    _ ← delete_client_workers;
    mret 0.

(** ** The options *)

Definition RPC (c : RpcMgr.EJSON_RPCGMGR_CMD) : Z := RpcMgr.cmd_index_of c.

(** The cases of the [switch] in [parse_cmdline_arguments()]: [Some r] ends the loop with [r]. *)
Definition parse_option (arg : Z) : M (option Z) :=
  let go (m : M Z) : M (option Z) := _ ← m; mret None in
  if (arg =? opt "?") || (arg =? opt "h") then _ ← print_help; mret (Some 0)
  else if arg =? opt "v" then go (_ ← set_opts set_help_printed; mret 0)
  else if arg =? opt "p" then go parse_port_number_opt
  else if arg =? opt "B" then go (when_given (fun subarg => set_opts (set_bind_addr (truncate 63 subarg))))
  else if arg =? opt "u" then go (_ ← set_opts (set_debug_log CMDLINE_OPT_TYPE_YES); mret 0)
  else if arg =? opt "i" then go parse_ip_list_opt
  else if arg =? opt "e" then go (_ ← set_opts (set_emulation_mode CMDLINE_OPT_TYPE_YES); mret 0)
  else if arg =? opt "g" then go (_ ← set_opts (set_socket_log CMDLINE_OPT_TYPE_YES); mret 0)
  else if arg =? opt "t" then go (_ ← set_opts set_autotest; mret 0)
  else if arg =? opt "d" then go (when_given (fun subarg => set_opts (set_interval_ms_delay (atoi subarg))))
  else if arg =? opt "l" then go (when_given (fun subarg => set_opts (set_max_loop (atoi subarg))))
  else if arg =? opt "n" then go (when_given (fun subarg => set_opts (set_test_num (atoi subarg))))
  else if arg =? opt "s" then go (when_given (fun subarg => s ← strcpy 1024 subarg; set_opts (set_settings s)))
  else if arg =? opt "k" then go (push_get_task_progress_command "get_rpc_req_status" "taskId" "taskStatus" (RPC RpcMgr.GET_TASK_STS))
  else if arg =? opt "c" then
    go (push_single_enum_get_set_command (RPC RpcMgr.GET_DEBUG_LOG) (RPC RpcMgr.SET_DEBUG_LOG) "get_debug_logging"
          "set_debug_logging" RpcMgr.RPCMGR_RPC_DEBUG_LOG_ARGSTS_TBL RpcMgr.FLAG_STATE_UNKNOWN "status" None)
  else if arg =? opt "w" then go (push_action_type_noarg_command (RPC RpcMgr.SHUTDOWN_SERVICE) "trigger_shutdown" (Some "taskId"))
  else if arg =? opt "r" then
    go (push_single_int_get_set_command (RPC RpcMgr.GET_RPC_SRV_VERSION) (RPC RpcMgr.GET_RPC_SRV_VERSION)
          "get_rpc_srv_version" "get_rpc_srv_version" "version" true)
  else if arg =? opt "a" then go (push_action_type_noarg_command (RPC RpcMgr.TRIGGER_DATASAVE) "trigger_settings_save" (Some "taskId"))
  else if arg =? opt "b" then
    go (push_string_get_set_command (RPC RpcMgr.GET_SETTINGS_STS) (RPC RpcMgr.GET_SETTINGS_STS) "get_settings_status"
          "get_settings_status" "status" Act.READONLY)
  else if arg =? opt "x" then go (push_action_type_noarg_command (RPC RpcMgr.RESET_TASK_STS) "reset_task_status" None)
  else if arg =? opt "z" then
    go (push_string_get_set_command (RPC RpcMgr.GET_READY_STS) (RPC RpcMgr.GET_READY_STS) "get_ready_status"
          "get_ready_status" "status" Act.READONLY)
  else if arg =? opt "f" then go parse_board_type_opt
  else if arg =? opt "j" then go (push_action_type_noarg_command (RPC RpcMgr.TRIGGER_FACTORY_STORE) "trigger_factory_store" (Some "taskId"))
  else if arg =? opt "m" then go (push_action_type_noarg_command (RPC RpcMgr.TRIGGER_FACTORY_RESTORE) "trigger_factory_restore" (Some "taskId"))
  else if arg =? opt "o" then go (push_double_int_set_command (RPC RpcMgr.EVENT_SUBSCRIBE) "subscribe_event" "cltToken" "port")
  else if arg =? opt "y" then
    go (push_single_int_get_set_command (RPC RpcMgr.EVENT_UNSUBSCRIBE) (RPC RpcMgr.EVENT_UNSUBSCRIBE) "unsubscribe_event"
          "unsubscribe_event" "srvToken" false)
  else if arg =? opt "q" then go (push_double_int_set_command (RPC RpcMgr.EVENT_NOTIFY) "notify_event" "evntNum" "evntArg1")
  else if arg =? opt "1" then
    go (push_single_enum_get_set_command (RPC RpcMgr.GET_DEVOP_STATE) (RPC RpcMgr.SET_DEVOP_STATE) "get_devop_state"
          "set_devop_state" RpcMgr.RPCMGR_RPC_DEVOP_STATE_ARGSTS_TBL RpcMgr.DEVOP_STATE_UNKNOWN "status" None)
  else if arg =? opt "2" then
    go (push_int_get_set_with_dev_addr_arg_command (RPC RpcMgr.GET_MW_BYTE) (RPC RpcMgr.SET_MW_BYTE) "read_byte" "write_byte"
          "data" "addr" (-1) Act.READ_AND_WRITE)
  else if arg =? opt "3" then
    go (push_int_get_set_with_dev_addr_arg_command (RPC RpcMgr.GET_MW_WORD) (RPC RpcMgr.SET_MW_WORD) "read_word" "write_word"
          "data" "addr" (-1) Act.READ_AND_WRITE)
  else if arg =? opt "4" then
    go (push_int_get_set_with_dev_addr_arg_command (RPC RpcMgr.GET_MW_DWORD) (RPC RpcMgr.SET_MW_DWORD) "read_dword"
          "write_dword" "data" "addr" (-1) Act.READ_AND_WRITE)
  else
    r ← parse_subscribers_cmdline (arg - CONSUMERS_OPTIONS_ARG_START_BOUNDARY);
    mret (if r =? 0 then None else Some (-1)).

Fixpoint parse_options (l : list (Z * option string)) : M (option Z) :=
  match l with
  | [] => mret None
  | (arg, optarg) :: l =>
      _ ← set_new_subargument optarg;
      r ← parse_option arg;
      match r with Some r => mret (Some r) | None => parse_options l end
  end.

Definition parse_cmdline_arguments (argv : list string) : M Z :=
  table ← fill_long_options_table;
  match table with
  | None => mret (-1)
  | Some table =>
      r ← parse_options (getopt_long argv short_options table);
      match r with
      | Some r => mret r
      | None =>
          p ← gets (fun h => port (opts h));
          _ ← (if p <=? 0 then p ← get_subscribers_server_port; set_opts (set_port p) else mret ());
          mode ← gets my_mode;
          match mode with
          | CMDLINE_HELPER_MODE_CLIENT =>
              v ← gets opts;
              _ ← set_opts (set_interval_us (i32 (interval_us v * interval_ms_delay v)));
              v ← gets opts;
              _ ← (if autotest v then run_subscribers_autotest (ip v) (interval_us v) (max_loop v) (test_num v) else run_commands);
              mret 0
          | _ => mret 0
          end
      end
  end.
End helper.
