(* ===== verification/CmdlineClients.v ===== *)
(** * The clients of the services on the command line (SysmgrCltCmdline.cpp, XmproxyCltCmdline.cpp)

    The options each client adds to those of file Cmdline, the commands they make, and how
    the commands of the client's own types are run. *)
From S2P Require Import Prelude GenericChain Io SysInfo Common Client CmdProcessor Cmdline.
From S2P Require SysRpc SysmgrRpc XmppRpc XmppMgr Proxy.
Local Open Scope string_scope.
Local Open Scope Z_scope.

(** ** Commands both clients have *)

Section commands.
Context {S H D : Type} `{Host H}.
Abbreviation M := (method S H D).
Abbreviation obj := (CmdExecutionObj D).
Variable fresh : obj.

Definition push_get_string_of_index (rpc_name : string) (rpc_index : Z) (arg_name result_name : string) : M Z :=
  push (
    let o := with_type Cmd.USER_DEFINED (with_get_name rpc_name fresh) in
    '(n, subarg) ← get_next_subargument;
    if n =? 0 then given_up
    else
      o ← strcpy_value 0 subarg (set_name 0 arg_name o);
      done (with_command rpc_index Act.READ (set_name 1 result_name o))).
End commands.

Section runs.
Context {W J D : Type} `{Kernel W} `{JsonC J D} `{Proxy.JsonRpcC J}.
Abbreviation R := (io W (session D) (Z * CmdExecutionObj D)).

Definition run_get_string_of_index (o : CmdExecutionObj D) : R :=
  if act o =? Act.READ then
    value_call o (get_rpc_name o) Act.READ 1
      (get_string_type_with_string_para (get_rpc_name o) (param_name (param o 0)) (param_value (param o 0))
         (Some (param_name (param o 1))))
  else invalid_action "run_get_log_msg_command" o.
End runs.

(** ** The client of the system manager *)

Module Sysmgr.
Import SysRpc.

(** The constructor's entries. *)
Definition options : list (string * Z * Z * option string) :=
  [("mac", optional_argument, rpc_index GET_MAC_ADDR, Some "--mac=ethN,<addr>          [get/set mac address]");
   ("ipaddr", optional_argument, rpc_index GET_IP_ADDR, Some "--ipaddr=ethN,<addr>       [get/set ip address]");
   ("netmask", optional_argument, rpc_index GET_NETMASK, Some "--netmask=ethN,<addr>      [get/set netmask address]");
   ("ethcount", optional_argument, rpc_index GET_ETH_COUNT, Some "--ethcount                 [read total available eth interfaces]");
   ("ethname", optional_argument, rpc_index GET_ETH_NAME, Some "--ethname=index            [read ethname of a given zero-based-index]");
   ("loadinfo", optional_argument, rpc_index GET_LOADINFO, Some "--loadinfo                 [read system's load and uptime info]");
   ("meminfo", optional_argument, rpc_index GET_MEMINFO, Some "--meminfo                  [read system's memory info]");
   ("cpuinfo", optional_argument, rpc_index GET_CPUINFO, Some "--cpuinfo                  [read system's cpu info]");
   ("devop", optional_argument, rpc_index GET_DEV_OP, Some "--devop=state              [read/write device operation state=<idle/on/standby/reboot>]");
   ("fversion", optional_argument, rpc_index GET_FMWVER, Some "--fversion=module          [get fmw module version, module=<current/backup/kernel/project>]");
   ("bootdev", optional_argument, rpc_index GET_BOOT_SYSTEM, Some "--bootdev                  [read currently booted system<brbox1/brbox2>]");
   ("fupdate", optional_argument, rpc_index SET_FMWUPDATE, Some "--fupdate=module,filepath  [trigger fmw update of defined module=<project>]");
   ("ftget", optional_argument, rpc_index SET_DOWNLOADFTP, Some "--ftget=srcURL,trgtpath    [download file from the ftp server to defined target_file_path]");
   ("tftget", optional_argument, rpc_index SET_DOWNLOADTFTP, Some "--tftget=srvip,trgt,src    [download file from tftp server's(srvip) to target_file_path]");
   ("asynctasksts", optional_argument, rpc_index GET_ASYNCTASK, Some "--asynctasksts             [read async-task-in-progress if any]");
   ("devtype", optional_argument, rpc_index GET_DEVTYPE, Some "--devtype                  [read device type]");
   ("hostname", optional_argument, rpc_index GET_HOSTNAME, Some "--hostname                 [read/write hostname]");
   ("myip", optional_argument, rpc_index GET_MY_PUBLIC_IP, Some "--myip                     [read my internet ip]");
   ("defhostname", optional_argument, rpc_index SET_DEFAULT_HOSTNAME, Some "--defhostname              [reset hostname to default]");
   ("updateloglist", optional_argument, rpc_index SET_UPDATE_LOG, Some "--updateloglist            [update debug logging list]");
   ("getlogcount", optional_argument, rpc_index GET_LOG_COUNT, Some "--getlogcount              [returns total number of log lines available]");
   ("getlog", optional_argument, rpc_index GET_LOG_LINE, Some "--getlog=index             [read the log line of zero based index]");
   ("shellcmd", optional_argument, rpc_index RUN_SHELLCMD, Some "--shellcmd=cmd             [run a command in linux shell]");
   ("devident", optional_argument, rpc_index DEVIDENT, Some "--devident                 [identify board by blinking onboard LED]");
   ("evntsubscr", optional_argument, rpc_index EVNT_SUBSCRIBE, Some "--evntsubscr               [re-subscribe events foe event logging]");
   ("shellcmdtrig", optional_argument, rpc_index RUN_SHELLCMDTRIG, Some "--shellcmdtrig=cmd         [run a command in linux shell without output]")].

Section client.
Context {H D : Type} `{Host H}.
Abbreviation M := (method () H D).
Abbreviation obj := (CmdExecutionObj D).
Variable fresh : obj.

Definition push_get_info_command (cmd : Z) (rpc_name arg1_name arg2_name arg3_name : string) : M Z :=
  push (done (set_name 2 arg3_name (set_name 1 arg2_name (set_name 0 arg1_name
    (with_type Cmd.USER_DEFINED (with_get_name rpc_name (with_command cmd Act.READ fresh))))))).

Definition push_fmw_version_read_command : M Z :=
  push (
    let o := with_type Cmd.USER_DEFINED (with_get_name "get_fmw_version" fresh) in
    '(n, subarg) ← get_next_subargument;
    if n =? 0 then given_up
    else
      let module := enum_of SYSMGR_RPC_FMW_VER_ARG_TABL subarg FMW_MODULE_UNKNOWN in
      if module >=? FMW_MODULE_UNKNOWN then given_up
      else done (with_command (rpc_index GET_FMWVER) Act.READ (set_name 1 "version"
             (set_value 0 (enum_text SYSMGR_RPC_FMW_VER_ARG_TABL module) (set_name 0 "module" o))))).

Definition push_fmw_update_command : M Z :=
  push (
    let o := with_type Cmd.USER_DEFINED (with_set_name "firmware_update" fresh) in
    '(n, subarg) ← get_next_subargument;
    if n =? 0 then given_up
    else
      let module := enum_of SYSMGR_RPC_FMW_VER_ARG_TABL subarg FMW_MODULE_UNKNOWN in
      if module >=? FMW_MODULE_UNKNOWN then given_up
      else
        let o := with_command (rpc_index SET_FMWUPDATE) Act.WRITE
                   (set_value 0 (enum_text SYSMGR_RPC_FMW_VER_ARG_TABL module) (set_name 0 "module" o)) in
        '(n, subarg) ← get_next_subargument;
        if n =? 0 then given_up
        else o ← strcpy_value 1 subarg (set_name 1 "filepath" o); done (set_name 2 "taskId" o)).

Definition push_file_download (rpc_cmd : EJSON_SYSMGR_RPC_TYPES) : M Z :=
  push (
    let ftp := bool_decide (rpc_cmd = SET_DOWNLOADFTP) in
    let name := if ftp then "download_ftp_file" else "download_tftp_file" in
    let o := with_command (rpc_index (if ftp then SET_DOWNLOADFTP else SET_DOWNLOADTFTP)) Act.WRITE
               (with_type Cmd.USER_DEFINED (with_names name name fresh)) in
    '(n, subarg) ← get_next_subargument;
    if n =? 0 then given_up
    else
      o ← strcpy_value 0 subarg (set_name 0 "srcaddr" o);
      '(n, subarg) ← get_next_subargument;
      if n =? 0 then given_up
      else
        o ← strcpy_value 1 subarg (set_name 1 "targetpath" o);
        let o := set_name 2 "taskId" o in
        if bool_decide (rpc_cmd = SET_DOWNLOADTFTP) then
          '(n, subarg) ← get_next_subargument;
          if n =? 0 then given_up
          else o ← strcpy_value 2 subarg (set_name 2 "srcfile" o); done (set_name 3 "taskId" o)
        else done o).

Definition push_get_indexed_msg_command (rpc_name : string) (rpc_index : Z) (arg_name result_name : string) : M Z :=
  push (
    let o := with_type Cmd.USER_DEFINED (with_get_name rpc_name fresh) in
    '(n, subarg) ← get_next_subargument;
    if n =? 0 then given_up
    else done (with_command rpc_index Act.READ (set_name 1 result_name (set_int 0 (atoi subarg) (set_name 0 arg_name o))))).

Definition push_shell_cmd (cmd : EJSON_SYSMGR_RPC_TYPES) (cmdname : string) : M Z :=
  push (
    let o := with_type Cmd.USER_DEFINED (with_command (rpc_index cmd) Act.WRITE (with_names cmdname cmdname fresh)) in
    '(n, subarg) ← get_next_subargument;
    if n =? 0 then given_up
    else o ← strcpy_value 0 subarg (set_name 0 "command" o); done (set_name 1 "taskId" o)).

Definition parse_my_cmdline_options (arg : Z) : M Z :=
  let iface get set name_get name_set :=
    push_string_get_set_with_enum_arg fresh (rpc_index get) (rpc_index set) name_get name_set "iface"
      SysmgrRpc.IFACE_TYPE_UNKNOWN SysmgrRpc.SYSMGR_RPC_MAC_ADDR_ARG_IFACE_TABL "addr" Act.READ_AND_WRITE in
  let read_int c name arg := push_single_int_get_set_command fresh (rpc_index c) (rpc_index c) name name arg true in
  let enum get set name_get name_set table max arg ret :=
    push_single_enum_get_set_command fresh (rpc_index get) (rpc_index set) name_get name_set table max arg ret in
  _ ← match rpc_type arg with
      | Some GET_MAC_ADDR => iface GET_MAC_ADDR SET_MAC_ADDR "get_mac_addr" "set_mac_addr"
      | Some GET_IP_ADDR => iface GET_IP_ADDR SET_IP_ADDR "get_ip_addr" "set_ip_addr"
      | Some GET_NETMASK => iface GET_NETMASK SET_NETMASK "get_netmask" "set_netmask"
      | Some GET_ETH_COUNT => read_int GET_ETH_COUNT "get_eth_count" "count"
      | Some GET_ETH_NAME => push_get_string_of_index fresh "get_eth_name" (rpc_index GET_ETH_NAME) "index" "name"
      | Some GET_LOADINFO => push_get_info_command (rpc_index GET_LOADINFO) "get_load_info" "current" "average" "uptime"
      | Some GET_MEMINFO => push_get_info_command (rpc_index GET_MEMINFO) "get_mem_info" "memMB" "memfreeMB" "memusedMB"
      | Some GET_CPUINFO => push_get_info_command (rpc_index GET_CPUINFO) "get_cpu_info" "model" "cores" "frequency"
      | Some GET_DEV_OP => enum GET_DEV_OP SET_DEV_OP "get_device_operation" "set_device_operation"
                             SYSMGR_RPC_DEV_OP_ARG_TABL DEV_OP_UNKNOWN "operation" (Some "taskId")
      | Some GET_FMWVER => push_fmw_version_read_command
      | Some GET_BOOT_SYSTEM => enum GET_BOOT_SYSTEM GET_BOOT_SYSTEM "get_boot_system" "get_boot_system"
                                  SYSMGR_RPC_BOOT_SYSTEM_ARG_TABL BOOT_SYSTEM_UNKNOWN "system" None
      | Some SET_FMWUPDATE => push_fmw_update_command
      | Some SET_DOWNLOADFTP => push_file_download SET_DOWNLOADFTP
      | Some SET_DOWNLOADTFTP => push_file_download SET_DOWNLOADTFTP
      | Some GET_ASYNCTASK => enum GET_ASYNCTASK GET_ASYNCTASK "get_async_task" "get_async_task"
                                SYSMGR_RPC_ASYNCTASK_ARG_TABL ASYNCTASK_UNKNOWN "task" None
      | Some GET_DEVTYPE => enum GET_DEVTYPE GET_DEVTYPE "get_devtype" "get_devtype" ADCMN_BOARD_TYPE_TABLE
                              BOARD_TYPE_UNKNOWN "type" None
      | Some GET_HOSTNAME => push_string_get_set_command fresh (rpc_index GET_HOSTNAME) (rpc_index SET_HOSTNAME)
                               "get_hostname" "set_hostname" "hostname" Act.READ_AND_WRITE
      | Some GET_MY_PUBLIC_IP => push_string_get_set_command fresh (rpc_index GET_MY_PUBLIC_IP) (rpc_index GET_MY_PUBLIC_IP)
                                   "get_my_public_ip" "get_my_public_ip" "ip" Act.READ_AND_WRITE
      | Some SET_DEFAULT_HOSTNAME =>
          push_action_type_noarg_command fresh (rpc_index SET_DEFAULT_HOSTNAME) "set_default_hostname" None
      | Some SET_UPDATE_LOG => push_action_type_noarg_command fresh (rpc_index SET_UPDATE_LOG) "update_loglist" (Some "taskId")
      | Some GET_LOG_COUNT => read_int GET_LOG_COUNT "get_log_count" "logcount"
      | Some GET_LOG_LINE => push_get_indexed_msg_command "get_log_line" (rpc_index GET_LOG_LINE) "index" "logmsg"
      | Some RUN_SHELLCMD => push_shell_cmd RUN_SHELLCMD "run_shellcmd"
      | Some RUN_SHELLCMDTRIG => push_shell_cmd RUN_SHELLCMDTRIG "run_shellcmdtrig"
      | Some DEVIDENT => push_action_type_noarg_command fresh (rpc_index DEVIDENT) "device_identify" (Some "taskId")
      | Some EVNT_SUBSCRIBE => push_action_type_noarg_command fresh (rpc_index EVNT_SUBSCRIBE) "re_subscribe_events" None
      | _ => mret 0
      end;
  mret 0.

(** [get_my_server_port()] gives the port of the service; there is no test. *)
Definition consumer : ADCmdlineHelperConsumer () H D :=
  {| Cmdline.parse_my_cmdline_options := parse_my_cmdline_options; run_my_autotest _ _ _ _ s := s;
     get_my_server_port _ := XmppMgr.ADCMN_PORT_SYSMGR |}.
(** The constructor. *)
Definition SysmgrCltCmdline (m : H) : ADCmdlineHelper () H D :=
  ((_ ← init_myself; _ ← attach_helper tt; insert_entries options false) (new_helper CMDLINE_HELPER_MODE_CLIENT m)).2.
End client.

(** *** Running the client's own commands *)

Section run.
Context {W J D : Type} `{Kernel W} `{JsonC J D} `{Proxy.JsonRpcC J}.
Abbreviation M := (io W (session D)).
Abbreviation obj := (CmdExecutionObj D).

(** The three values as one text; it is logged only when it fits whole. *)
Definition run_get_info_command (o : obj) : M (Z * obj) :=
  if negb (act o =? Act.READ) then invalid_action "get_info_command" o
  else
    '(code, cells) ← on_conn (get_three_string_type (get_rpc_name o) (param_name (param o 0)) (param_name (param o 1))
                                (param_name (param o 2)));
    let o := CmdProcessor.set_result (write_params o cells) code in
    let info := param_name (param o 0) ++ ":" ++ param_value (param o 0) ++ "," ++
                param_name (param o 1) ++ ":" ++ param_value (param o 1) ++ "," ++
                param_name (param o 2) ++ ":" ++ param_value (param o 2) in
    let cap := Proxy.JSON_RPC_METHOD_RESP_MAX_LENGTH in
    let o := set_value 3 (truncate (if (String.length info <? cap)%nat then String.length info else cap - 1) info) o in
    _ ← (if (String.length info <? cap)%nat
         then log_print_message (get_rpc_name o) Act.READ (obj_result o) (param_value (param o 3)) else mret 0);
    mret (0, o).

Definition run_fmw_version_command (o : obj) : M (Z * obj) :=
  if act o =? Act.READ then
    value_call o (get_rpc_name o) Act.READ 1
      (get_string_type_with_string_para (get_rpc_name o) (param_name (param o 0)) (param_value (param o 0))
         (Some (param_name (param o 1))))
  else invalid_action "run_fmw_version_command" o.

Definition run_fmw_update_command (o : obj) : M (Z * obj) :=
  if act o =? Act.WRITE then
    value_call o (set_rpc_name o) Act.READ 2
      (set_double_string_get_single_string_type (set_rpc_name o) (param_name (param o 0)) (param_value (param o 0))
         (param_name (param o 1)) (param_value (param o 1)) (param_name (param o 2)))
  else invalid_action "run_fmw_update_command" o.

Definition run_file_download (o : obj) : M (Z * obj) :=
  if act o =? Act.WRITE then
    if command o =? rpc_index SET_DOWNLOADTFTP then
      value_call o (set_rpc_name o) Act.READ 3
        (set_tripple_string_get_single_string_type (set_rpc_name o) (param_name (param o 0)) (param_value (param o 0))
           (param_name (param o 1)) (param_value (param o 1)) (param_name (param o 2)) (param_value (param o 2))
           (param_name (param o 3)))
    else
      value_call o (set_rpc_name o) Act.READ 2
        (set_double_string_get_single_string_type (set_rpc_name o) (param_name (param o 0)) (param_value (param o 0))
           (param_name (param o 1)) (param_value (param o 1)) (param_name (param o 2)))
  else invalid_action "run_ftp_file_download" o.

Definition run_get_indexed_msg_command (o : obj) : M (Z * obj) :=
  if act o =? Act.READ then
    value_call o (get_rpc_name o) Act.READ 1
      (get_int_type_with_string_para (get_rpc_name o) (param_name (param o 0)) (int_value (param o 0))
         (Some (param_name (param o 1))))
  else invalid_action "run_get_indexed_msg_command" o.

Definition run_shell_cmd (o : obj) : M (Z * obj) :=
  if act o =? Act.WRITE then
    value_call o (set_rpc_name o) Act.WRITE 1
      (set_single_string_get_single_string_type (set_rpc_name o) (param_name (param o 0)) (param_value (param o 0))
         (param_name (param o 1)))
  else invalid_action "run_shell_cmd" o.

Definition run_my_commands (o : obj) : M (Z * obj) :=
  let go (m : M (Z * obj)) : M (Z * obj) := '(_, o) ← m; mret (0, o) in
  match rpc_type (command o) with
  | Some GET_ETH_NAME => go (run_get_string_of_index o)
  | Some (GET_LOADINFO | GET_MEMINFO | GET_CPUINFO) => go (run_get_info_command o)
  | Some GET_FMWVER => go (run_fmw_version_command o)
  | Some SET_FMWUPDATE => go (run_fmw_update_command o)
  | Some (SET_DOWNLOADFTP | SET_DOWNLOADTFTP) => go (run_file_download o)
  | Some GET_LOG_LINE => go (run_get_indexed_msg_command o)
  | Some (RUN_SHELLCMD | RUN_SHELLCMDTRIG) => go (run_shell_cmd o)
  | _ => mret (-1, o)
  end.
End run.
End Sysmgr.

(** ** The client of the gateway *)

Module Xmproxy.
Import XmppRpc.

(** The constructor's entries. *)
Definition options : list (string * Z * Z * option string) :=
  [("asynctasksts", optional_argument, rpc_type_index GET_ASYNCTASK, Some "--asynctasksts             [read async-task-in-progress if any]");
   ("connectsts", optional_argument, rpc_type_index GET_ONLINE_STATUS, Some "--connectsts[=online/offline] [get/set xmpp connection status]");
   ("relaymsg", optional_argument, rpc_type_index SET_SEND_MESSAGE, Some "--relaymsg=<to>,<msg>      [send the message to a recipient's address]");
   ("subscribe", optional_argument, rpc_type_index SET_SUBSCRIBE, Some "--subscribe=<to>,<msg>     [send a friend request with msg]");
   ("acceptbuddy", optional_argument, rpc_type_index SET_ACCEPT_BUDDY, Some "--acceptbuddy=<buddy>,<msg>[accept buddy if friend request arrives]");
   ("inboxcount", optional_argument, rpc_type_index GET_INBOX_COUNT, Some "--inboxcount               [read total available messages]");
   ("inbox", optional_argument, rpc_type_index GET_INBOX, Some "--inbox=index              [read inbox message of a given zero-based-index]");
   ("inboxempty", optional_argument, rpc_type_index SET_INBOX_EMPTY, Some "--inboxempty               [empty all inbox messages]")].

Section client.
Context {H D : Type} `{Host H}.
Abbreviation M := (method () H D).
Abbreviation obj := (CmdExecutionObj D).
Variable fresh : obj.

Definition push_send_msg_command (rpc_name : string) (rpc_index : Z) (arg_name arg_name2 : string) : M Z :=
  push (
    '(n, subarg) ← get_next_subargument;
    if n =? 0 then given_up
    else
      o ← strcpy_value 0 subarg fresh;
      '(n, subarg) ← get_next_subargument;
      if n =? 0 then given_up
      else
        o ← strcpy_value 1 subarg o;
        done (with_type Cmd.USER_DEFINED (with_command rpc_index Act.WRITE (set_name 1 arg_name2 (set_name 0 arg_name
                (with_get_name rpc_name o)))))).

Definition parse_my_cmdline_options (arg : Z) : M Z :=
  let send c name := push_send_msg_command name (rpc_type_index c) "to" "msg" in
  _ ← match rpc_type arg with
      | Some GET_ASYNCTASK =>
          push_single_enum_get_set_command fresh (rpc_type_index GET_ASYNCTASK) (rpc_type_index GET_ASYNCTASK)
            "get_async_task" "get_async_task" XMPROXY_RPC_ASYNCTASK_ARG_TABL XMPROXY_ASYNCTASK_UNKNOWN "task" None
      | Some GET_ONLINE_STATUS =>
          push_single_enum_get_set_command fresh (rpc_type_index GET_ONLINE_STATUS) (rpc_type_index SET_ONLINE_STATUS)
            "get_online_status" "set_online_status" XMPROXY_RPC_ONLINE_STATUS_ARG_TABL XMPROXY_ONLINESTS_UNKNOWN "status" None
      | Some SET_SEND_MESSAGE => send SET_SEND_MESSAGE "send_message"
      | Some SET_SUBSCRIBE => send SET_SUBSCRIBE "send_subscribe"
      | Some SET_ACCEPT_BUDDY => send SET_ACCEPT_BUDDY "accept_buddy"
      | Some GET_INBOX_COUNT =>
          push_single_int_get_set_command fresh (rpc_type_index GET_INBOX_COUNT) (rpc_type_index GET_INBOX_COUNT)
            "get_inbox_count" "get_inbox_count" "count" true
      | Some GET_INBOX => push_get_string_of_index fresh "get_inbox_message" (rpc_type_index GET_INBOX) "index" "message"
      | Some SET_INBOX_EMPTY => push_action_type_noarg_command fresh (rpc_type_index SET_INBOX_EMPTY) "empty_inbox" None
      | _ => mret 0
      end;
  mret 0.

Definition consumer : ADCmdlineHelperConsumer () H D :=
  {| Cmdline.parse_my_cmdline_options := parse_my_cmdline_options; run_my_autotest _ _ _ _ s := s;
     get_my_server_port _ := XmppMgr.ADCMN_PORT_XMPROXY |}.
(** The constructor. *)
Definition XmproxyCltCmdline (m : H) : ADCmdlineHelper () H D :=
  ((_ ← init_myself; _ ← attach_helper tt; insert_entries options false) (new_helper CMDLINE_HELPER_MODE_CLIENT m)).2.
End client.

Section run.
Context {W J D : Type} `{Kernel W} `{JsonC J D} `{Proxy.JsonRpcC J}.
Abbreviation M := (io W (session D)).
Abbreviation obj := (CmdExecutionObj D).

Definition run_send_msg_command (o : obj) : M (Z * obj) :=
  '(code, _) ← on_conn (set_double_string_type (get_rpc_name o) (param_name (param o 0)) (param_value (param o 0))
                          (param_name (param o 1)) (param_value (param o 1)));
  let o := CmdProcessor.set_result o code in
  _ ← log_print_message (get_rpc_name o) Act.WRITE (obj_result o) EmptyString;
  mret (0, o).

Definition run_my_commands (o : obj) : M (Z * obj) :=
  match rpc_type (command o) with
  | Some (SET_SEND_MESSAGE | SET_SUBSCRIBE | SET_ACCEPT_BUDDY) => '(_, o) ← run_send_msg_command o; mret (0, o)
  | Some GET_INBOX => '(_, o) ← run_get_string_of_index o; mret (0, o)
  | _ => mret (-1, o)
  end.
End run.
End Xmproxy.
