(* ===== verification/CmdlineServers.v ===== *)
(** * The command lines of the services (MyCmdline.cpp of sysmgr and of xmproxy)

    The options each service adds to those of file Cmdline, and the values it starts with. *)
From S2P Require Import Prelude GenericChain SysInfo Common Cmdline.
From S2P Require SysRpc.
Local Open Scope string_scope.
Local Open Scope Z_scope.

Definition ADCMN_SYSCFG_TYPE_TABLE : list string :=
  ["raspi-remote-kit"; "raspi2-remote-kit"; "hlk-rm04"; "gl-mt300nv2-remote-kit"; "gl-mt300nv2-awsiot-demo"; "docker"; "Unknown"; "none"].
Definition ADCMN_SYSCFG_TYPE_UNKNOWN : Z := 6.
(** The number of a configuration; every text that is none of the table is unknown. *)
Definition sys_config_enum (syscfg : string) : Z := enum_of ADCMN_SYSCFG_TYPE_TABLE syscfg ADCMN_SYSCFG_TYPE_UNKNOWN.

Section options.
Context {S H D : Type} `{Host H}.
Abbreviation M := (method S H D).

(** [if (get_next_subargument(&sub_arg) == 0) member = without; else member = sub_arg;] into a
    member of any length, and into an array. *)
Definition assign (set : string -> S -> S) (without : string) : M Z :=
  '(n, sub_arg) ← get_next_subargument;
  c ← gets pConsumer;
  _ ← set_consumer (set (if n =? 0 then without else sub_arg) <$> c); mret 0.
Definition assign_array (size : nat) (set : string -> S -> S) (without : string) : M Z :=
  '(n, sub_arg) ← get_next_subargument;
  s ← (if n =? 0 then mret without else strcpy size sub_arg);
  c ← gets pConsumer;
  _ ← set_consumer (set s <$> c); mret 0.
End options.

(** ** The system manager *)

Module SysmgrSrv.
(** [SYSMGR_CMDLINE_OPT] *)
Definition OPT_MONITCFG : Z := 100.
Definition OPT_SYSCFG : Z := 101.
Definition OPT_DISPTYPE : Z := 102.
Definition OPT_DISPDEVICE : Z := 103.

Record MyCmdline := {
  port_number : Z;
  version_number : string;
  MonitCfgFile : string;
  SystemConfig : string;
  DisplayType : string;
  DevNode : string;
}.
Definition with_MonitCfgFile s c := Build_MyCmdline (port_number c) (version_number c) s (SystemConfig c) (DisplayType c) (DevNode c).
Definition with_SystemConfig s c := Build_MyCmdline (port_number c) (version_number c) (MonitCfgFile c) s (DisplayType c) (DevNode c).
Definition with_DisplayType s c := Build_MyCmdline (port_number c) (version_number c) (MonitCfgFile c) (SystemConfig c) s (DevNode c).
Definition with_DevNode s c := Build_MyCmdline (port_number c) (version_number c) (MonitCfgFile c) (SystemConfig c) (DisplayType c) s.

Definition options : list (string * Z * Z * option string) :=
  [("evntmonitcfg", optional_argument, OPT_MONITCFG, Some "--evntmonitcfg=filepath         (config file for monitoring the event)");
   ("syscfg", optional_argument, OPT_SYSCFG, Some "--syscfg=sys_config_str         (specify system type ex:a5v11-xmpp/a5v11-base/3020f-base/docker)");
   ("disptype", optional_argument, OPT_DISPTYPE, Some "--disptype=type                 (display-type [ssd1306_128x32/ssd1306_128x64/1602_pcf/1604_pcf/2002_pcf/2004_pcf])");
   ("device", optional_argument, OPT_DISPDEVICE, Some "--device=/dev/i2c-x         (i2c device node if applicable)")].

Section server.
Context {H D : Type} `{Host H}.
Abbreviation M := (method MyCmdline H D).

Definition parse_my_cmdline_options (arg : Z) : M Z :=
  _ ← (if arg =? OPT_MONITCFG then assign with_MonitCfgFile EmptyString
       else if arg =? OPT_SYSCFG then assign with_SystemConfig "none"
       else if arg =? OPT_DISPTYPE then assign with_DisplayType "none"
       else if arg =? OPT_DISPDEVICE then assign with_DevNode "/dev/i2c-0"
       else mret 0);
  mret 0.
#[export] Instance consumer : ADCmdlineHelperConsumer MyCmdline H D :=
  {| Cmdline.parse_my_cmdline_options := parse_my_cmdline_options; run_my_autotest _ _ _ _ c := c; get_my_server_port := port_number |}.

(** The constructor. *)
Definition new_MyCmdline (mode : CMDLINE_HELPER_MODE) (portnum : Z) (version_str : string) (m : H) : ADCmdlineHelper MyCmdline H D :=
  ((_ ← init_myself;
    version ← strcpy 255 version_str;
    _ ← attach_helper {| port_number := portnum; version_number := version; MonitCfgFile := EmptyString;
                         SystemConfig := EmptyString; DisplayType := EmptyString; DevNode := "/dev/i2c-0" |};
    insert_entries options false) (new_helper mode m)).2.

Definition get_emulation_mode (h : ADCmdlineHelper MyCmdline H D) : bool :=
  match emulation_mode (opts h) with CMDLINE_OPT_TYPE_YES => true | _ => false end.
Definition get_sys_config_enum (c : MyCmdline) : Z := sys_config_enum (SystemConfig c).
End server.
End SysmgrSrv.

(** ** The gateway *)

Module XmproxySrv.
(** [XMPROXY_CMDLINE_OPT] *)
Definition OPT_LOGIN_FILE : Z := 100.
Definition OPT_USBGSM_STS : Z := 101.
Definition OPT_ALIAS_LIST_FILE : Z := 102.
Definition OPT_BOT_NAME_FILE : Z := 103.
Definition OPT_EVNT_SUBSCR_LIST_FILE : Z := 104.
Definition OPT_NETINTERFACE : Z := 105.
Definition OPT_UPDATEURL : Z := 106.
Definition OPT_AIAGENT : Z := 107.
Definition OPT_AIMODEL : Z := 108.
Definition OPT_SYSCFG : Z := 109.
Definition XMPROXY_DEFAULT_LOGIN_FILE_PATH : string := "/mnt/settings/etc/xmpp.login".

Record MyCmdline := {
  port_number : Z;
  version_number : string;
  LoginFilePath : string;
  UsbGSMSts : bool;
  AliasListFilePath : string;
  BotNameFilePath : string;
  EvntSubscrListFilePath : string;
  UpdateUrlFilePath : string;
  NetInterface : string;
  AiAgentUrl : string;
  AiModel : string;
  SystemConfig : string;
}.
Section updates.
Implicit Types c : MyCmdline.
Definition with_files (login alias bot evnt url : string) c := Build_MyCmdline (port_number c) (version_number c) login (UsbGSMSts c)
  alias bot evnt url (NetInterface c) (AiAgentUrl c) (AiModel c) (SystemConfig c).
Definition with_names (iface agent model config : string) c := Build_MyCmdline (port_number c) (version_number c) (LoginFilePath c)
  (UsbGSMSts c) (AliasListFilePath c) (BotNameFilePath c) (EvntSubscrListFilePath c) (UpdateUrlFilePath c) iface agent model config.
Definition with_UsbGSMSts (b : bool) c := Build_MyCmdline (port_number c) (version_number c) (LoginFilePath c) b (AliasListFilePath c)
  (BotNameFilePath c) (EvntSubscrListFilePath c) (UpdateUrlFilePath c) (NetInterface c) (AiAgentUrl c) (AiModel c) (SystemConfig c).
Definition with_LoginFilePath s c := with_files s (AliasListFilePath c) (BotNameFilePath c) (EvntSubscrListFilePath c) (UpdateUrlFilePath c) c.
Definition with_AliasListFilePath s c := with_files (LoginFilePath c) s (BotNameFilePath c) (EvntSubscrListFilePath c) (UpdateUrlFilePath c) c.
Definition with_BotNameFilePath s c := with_files (LoginFilePath c) (AliasListFilePath c) s (EvntSubscrListFilePath c) (UpdateUrlFilePath c) c.
Definition with_EvntSubscrListFilePath s c := with_files (LoginFilePath c) (AliasListFilePath c) (BotNameFilePath c) s (UpdateUrlFilePath c) c.
Definition with_UpdateUrlFilePath s c := with_files (LoginFilePath c) (AliasListFilePath c) (BotNameFilePath c) (EvntSubscrListFilePath c) s c.
Definition with_NetInterface s c := with_names s (AiAgentUrl c) (AiModel c) (SystemConfig c) c.
Definition with_AiAgentUrl s c := with_names (NetInterface c) s (AiModel c) (SystemConfig c) c.
Definition with_AiModel s c := with_names (NetInterface c) (AiAgentUrl c) s (SystemConfig c) c.
Definition with_SystemConfig s c := with_names (NetInterface c) (AiAgentUrl c) (AiModel c) s c.
End updates.

Definition options : list (string * Z * Z * option string) :=
  [("loginfile", optional_argument, OPT_LOGIN_FILE, Some "--loginfile=filepath       (path to the file having xmpp user/pw details)");
   ("usbgsm", optional_argument, OPT_USBGSM_STS, Some "--usbgsm=sts               (sts=0 means no usbgsm module connected)");
   ("aliaslist", optional_argument, OPT_ALIAS_LIST_FILE, Some "--aliaslist=filepath       (file path of alias list)");
   ("botname", optional_argument, OPT_BOT_NAME_FILE, Some "--botname=filepath         (file path of Bot Name)");
   ("evntsubscr", optional_argument, OPT_EVNT_SUBSCR_LIST_FILE, Some "--evntsubscr=filepath      (file path of event subscriber's list)");
   ("iface", optional_argument, OPT_NETINTERFACE, Some "--iface=ethx               (ip of netinterface to print on display)");
   ("updateurl", optional_argument, OPT_UPDATEURL, Some "--updateurl=filepath       (sysupdate fmw-file url)");
   ("aiagent", optional_argument, OPT_AIAGENT, Some "--aiagent=url              (ollama AI agent url)");
   ("aimodel", optional_argument, OPT_AIMODEL, Some "--aimodel=model            (model to connect)");
   ("syscfg", optional_argument, OPT_SYSCFG, Some "--syscfg=sys_config_str    (specify system type ex:a5v11-xmpp/a5v11-base/3020f-base/docker)")].

Section server.
Context {H D : Type} `{Host H}.
Abbreviation M := (method MyCmdline H D).

Definition parse_my_cmdline_options (arg : Z) : M Z :=
  _ ← (if arg =? OPT_LOGIN_FILE then assign_array 512 with_LoginFilePath XMPROXY_DEFAULT_LOGIN_FILE_PATH
       else if arg =? OPT_USBGSM_STS then
         '(n, sub_arg) ← get_next_subargument;
         c ← gets pConsumer;
         _ ← set_consumer (with_UsbGSMSts (negb (n =? 0) && (atoi sub_arg =? 1)) <$> c); mret 0
       else if arg =? OPT_ALIAS_LIST_FILE then assign_array 512 with_AliasListFilePath EmptyString
       else if arg =? OPT_BOT_NAME_FILE then assign_array 512 with_BotNameFilePath EmptyString
       else if arg =? OPT_EVNT_SUBSCR_LIST_FILE then assign_array 512 with_EvntSubscrListFilePath EmptyString
       else if arg =? OPT_NETINTERFACE then assign with_NetInterface EmptyString
       else if arg =? OPT_UPDATEURL then assign_array 1024 with_UpdateUrlFilePath EmptyString
       else if arg =? OPT_AIAGENT then assign with_AiAgentUrl EmptyString
       else if arg =? OPT_AIMODEL then assign with_AiModel EmptyString
       else if arg =? OPT_SYSCFG then assign with_SystemConfig "none"
       else mret 0);
  mret 0.
#[export] Instance consumer : ADCmdlineHelperConsumer MyCmdline H D :=
  {| Cmdline.parse_my_cmdline_options := parse_my_cmdline_options; run_my_autotest _ _ _ _ c := c; get_my_server_port := port_number |}.

(** The constructor. *)
Definition new_MyCmdline (mode : CMDLINE_HELPER_MODE) (portnum : Z) (version_str : string) (m : H) : ADCmdlineHelper MyCmdline H D :=
  ((_ ← init_myself;
    version ← strcpy 255 version_str;
    _ ← attach_helper {| port_number := portnum; version_number := version; LoginFilePath := XMPROXY_DEFAULT_LOGIN_FILE_PATH;
                         UsbGSMSts := false; AliasListFilePath := EmptyString; BotNameFilePath := EmptyString;
                         EvntSubscrListFilePath := EmptyString; UpdateUrlFilePath := EmptyString; NetInterface := EmptyString;
                         AiAgentUrl := EmptyString; AiModel := EmptyString; SystemConfig := EmptyString |};
    insert_entries options false) (new_helper mode m)).2.

Definition get_emulation_mode (h : ADCmdlineHelper MyCmdline H D) : bool :=
  match emulation_mode (opts h) with CMDLINE_OPT_TYPE_YES => true | _ => false end.
Definition get_sys_config_enum (c : MyCmdline) : Z := sys_config_enum (SystemConfig c).
End server.
End XmproxySrv.
