(* ===== verification/CmdlineSpec.v ===== *)
(** * Arguments and usages of options

    How the argument of an option is taken apart, and what an option asks for: a usage gives
    the method and the parameters for the values that were given.  The methods that push
    commands make the commands of their usages. *)
From S2P Require Import Prelude GenericChain Text Io SysInfo Common NetClient NetClientSpec Client ClientSpec CmdProcessor CmdProcessorSpec.
From S2P Require Import Cmdline CmdlineClients.
From S2P Require Proxy RpcMgr RpcMgrSpec Services SysRpc SysmgrRpc SysmgrSpec XmppRpc.
Local Open Scope string_scope.
Local Open Scope Z_scope.

(** ** Texts *)

Lemma split_free c a : has c a = false -> split c a = [a].
Proof. induction a as [|x a IH]; simpl; [done|]. intros [-> Ha]%orb_false_iff. by rewrite IH. Qed.
Lemma split_found c a b : has c a = false -> split c (a ++ String c b) = a :: split c b.
Proof.
  induction a as [|x a IH]; autorewrite with text; simpl; [by rewrite Ascii.eqb_refl|].
  intros [-> Ha]%orb_false_iff. by rewrite IH.
Qed.
Lemma split_cons c s : exists x l, split c s = x :: l.
Proof. destruct s as [|x s]; simpl; [by eauto|]. destruct (x =? c)%char; [by eauto|]. destruct (split c s); eauto. Qed.
Lemma split_nil c a : split c a = [EmptyString] -> a = EmptyString.
Proof.
  destruct a as [|x a]; [done|]. simpl. destruct (x =? c)%char; [by destruct (split_cons c a) as (? & ? & ->)|].
  by destruct (split c a).
Qed.
Lemma strchr_spec c s :
  match strchr c s with
  | None => has c s = false
  | Some n => exists a b, s = a ++ String c b /\ has c a = false /\ n = String.length a
  end.
Proof.
  induction s as [|x s IH]; simpl; [done|]. destruct (Ascii.eqb_spec x c) as [->|Hx]; [by exists EmptyString, s|].
  destruct (strchr c s) as [n|]; simpl; [|by rewrite IH]. destruct IH as (a & b & -> & Ha & ->).
  exists (String x a), b. simpl. apply Ascii.eqb_neq in Hx. by rewrite Hx.
Qed.
Lemma count_split s : 1 + count_commas s = Z.of_nat (length (split "," s)).
Proof.
  induction s as [|x s IH]; [done|]. cbn [count_commas split]. destruct (x =? ",")%char; simpl; [lia|].
  destruct (split_cons "," s) as (y & l & El). rewrite El in *. simpl in *. lia.
Qed.
Lemma from_app a s : from (String.length a) (a ++ s) = s.
Proof.
  unfold from. assert (forall m, (String.length s <= m)%nat -> String.substring (String.length a) m (a ++ s) = s) as Hm.
  { intros m Hm. induction a as [|x a IH]; autorewrite with text; simpl; [by apply truncate_ge|exact IH]. }
  apply Hm. rewrite length_append. lia.
Qed.
Lemma truncate_app a s : truncate (String.length a) (a ++ s) = a.
Proof. unfold truncate. induction a as [|x a IH]; autorewrite with text; simpl; [by destruct s|by rewrite IH]. Qed.
Lemma append_snoc a x s : a ++ String x s = (a ++ String x EmptyString) ++ s.
Proof. induction a as [|y a IH]; autorewrite with text; [done|]. by rewrite IH. Qed.
Lemma set_char_app a x c s : set_char (String.length a) c (a ++ String x s) = a ++ String c s.
Proof.
  unfold set_char. rewrite truncate_app. do 2 f_equal. rewrite append_snoc.
  replace (String.length a + 1)%nat with (String.length (a ++ String x EmptyString)); [by rewrite from_app|].
  by rewrite length_append.
Qed.
Lemma c_str_whole s : has zero s = false -> c_str s = s.
Proof. intros Hs. unfold c_str. by rewrite until_none. Qed.
Lemma c_str_cut a s : has zero a = false -> c_str (a ++ String zero s) = a.
Proof. intros Ha. unfold c_str. by rewrite until_found. Qed.
Lemma c_str_empty s : (String.length (c_str s) =? 0)%nat = match s with String x _ => (x =? zero)%char | EmptyString => true end.
Proof.
  destruct s as [|x s]; [done|]. unfold c_str. cbn [until]. destruct (x =? zero)%char; [done|].
  by destruct (until zero s).
Qed.

(** ** The arguments of an option *)

(** What an argument holds: its parts between commas; when the first of several is empty,
    that is all the option gets. *)
Definition first_or_all (l : list string) : list string := match l with EmptyString :: _ => [EmptyString] | _ => l end.
Definition pieces (arg : option string) : list string :=
  match arg with None | Some EmptyString => [] | Some a => first_or_all (split "," a) end.

Section arguments.
Context {S H D : Type}.
Implicit Types h : ADCmdlineHelper S H D.
Abbreviation M := (method S H D).

(** The parts that were not taken yet. *)
Definition remaining h : list string :=
  match complete_subargument h with
  | None => []
  | Some b =>
      if (String.length (c_str b) =? 0)%nat then []
      else match subarg_ptr h with
           | Some p => if (p =? 0)%nat then first_or_all (split "," (from p b)) else split "," (from p b)
           | None => []
           end
  end.
(** The pointer is in the copy of the argument, and the part behind it is as it was given. *)
Definition reading h : Prop :=
  forall b p, complete_subargument h = Some b -> subarg_ptr h = Some p ->
    exists a t, b = a ++ t /\ p = String.length a /\ has zero t = false.
(** [h] with other arguments left, and where a copy was too long. *)
Definition reargued h (s : option string) (p : option nat) (o : bool) : ADCmdlineHelper S H D :=
  (set_rest (opts h) (pConsumer h) o (machine h) (printed h) (set_subargument s p h).2).2.

Lemma reargued_again h s p o s' p' o' : reargued (reargued h s p o) s' p' o' = reargued h s' p' o'.
Proof. done. Qed.
Lemma reargued_id h : reargued h (complete_subargument h) (subarg_ptr h) (overrun h) = h.
Proof. by destruct h. Qed.
Lemma reargued_overrun h s p o o' : remaining (reargued h s p o) = remaining (reargued h s p o').
Proof. done. Qed.

Lemma new_subargument h arg :
  has zero (default EmptyString arg) = false ->
  exists s p,
    set_new_subargument arg h =
      (Z.of_nat (match arg with None | Some EmptyString => 0 | Some a => length (split "," a) end), reargued h s p (overrun h)) /\
    remaining (reargued h s p (overrun h)) = pieces arg /\ reading (reargued h s p (overrun h)).
Proof.
  intros Ha. unfold set_new_subargument. destruct arg as [[|x a]|].
  2: {
    exists (Some (String x a)), (Some 0%nat). simpl in Ha. split; [|split].
    - rewrite <- count_split, c_str_whole by done. by destruct h as [??????[?|]].
    - unfold remaining, pieces. cbn [complete_subargument subarg_ptr reargued set_rest set_subargument snd].
      rewrite c_str_empty. apply orb_false_iff in Ha as [-> Ha]. cbn [Nat.eqb].
      f_equal. f_equal. apply (from_app EmptyString).
    - intros b p [= <-] [= <-]. by exists EmptyString, (String x a). }
  all: exists None, (if complete_subargument h then None else subarg_ptr h);
    split; [by destruct h as [??????[?|]]|split; [done|by intros ???]].
Qed.

Lemma next_subargument h :
  reading h ->
  exists n s p,
    get_next_subargument h = ((n, default EmptyString (head (remaining h))), reargued h s p (overrun h)) /\
    (n = 0 <-> remaining h = []) /\ remaining (reargued h s p (overrun h)) = tail (remaining h) /\
    reading (reargued h s p (overrun h)).
Proof.
  intros Hr. unfold get_next_subargument, remaining. unfold mbind, method_bind, gets.
  destruct (complete_subargument h) as [b|] eqn:Eb.
  2: { exists 0, None, (subarg_ptr h). split; [by destruct h; simpl in *; subst|]. split; [done|]. split; [done|by intros ???]. }
  destruct (String.length (c_str b) =? 0)%nat eqn:Ec.
  { exists 0, (Some b), (subarg_ptr h). split; [by destruct h; simpl in *; subst|]. split; [done|].
    cbn [complete_subargument subarg_ptr reargued set_rest set_subargument snd]. rewrite Ec.
    split; [by destruct (subarg_ptr h)|]. intros ? p [= <-] Ep. by apply Hr. }
  destruct (subarg_ptr h) as [p|] eqn:Ep.
  2: { exists 0, (Some b), None. split; [by destruct h; simpl in *; subst|]. split; [done|].
    cbn [complete_subargument subarg_ptr reargued set_rest set_subargument snd]. rewrite Ec. split; [done|by intros ???]. }
  destruct (Hr b p Eb Ep) as (a & t & -> & -> & Ht). rewrite from_app, (c_str_whole t) by done.
  pose proof (strchr_spec "," t) as Hs. destruct (strchr "," t) as [n|].
  - destruct Hs as (x & y & -> & Hx & ->). rewrite has_app in Ht. apply orb_false_iff in Ht as [Hzx Hzy].
    cbn [has] in Hzy. apply orb_false_iff in Hzy as [_ Hzy].
    assert (set_char (String.length a + String.length x) zero (a ++ (x ++ String "," y)) = a ++ (x ++ String zero y)) as ->.
    { rewrite !append_assoc, <- length_append. apply set_char_app. }
    exists 2, (Some (a ++ (x ++ String zero y))), (Some (String.length a + String.length x + 1)%nat).
    rewrite from_app, c_str_cut by done. rewrite split_found by done.
    assert (from (String.length a + String.length x + 1) (a ++ (x ++ String zero y)) = y) as Hy.
    { rewrite append_assoc, append_snoc.
      replace (String.length a + String.length x + 1)%nat with (String.length ((a ++ x) ++ String zero EmptyString));
        [apply from_app|rewrite !length_append; simpl; lia]. }
    cbn [complete_subargument subarg_ptr reargued set_rest set_subargument snd]. rewrite Hy.
    rewrite (proj2 (Nat.eqb_neq (_ + 1) 0)) by lia. rewrite !c_str_empty in *.
    destruct a as [|a0 a]; autorewrite with text; simpl String.length; cbn [Nat.eqb].
    + destruct x as [|x0 x]; simpl.
      * split; [by destruct h|]. split; [done|]. split; [done|].
        intros ? ? [= <-] [= <-]. by exists (String zero EmptyString), y.
      * autorewrite with text in *. simpl in Ec |- *. rewrite Ec. split; [by destruct h|]. split; [done|]. split; [done|].
        intros ? ? [= <-] [= <-]. exists (String x0 x ++ String zero EmptyString), y.
        rewrite <- append_snoc, length_append. simpl. split; [done|]. split; [lia|done].
    + autorewrite with text in Ec. simpl in Ec. rewrite Ec. split; [by destruct h|]. split; [done|]. split; [done|].
      intros ? ? [= <-] [= <-]. exists (String a0 a ++ (x ++ String zero EmptyString)), y.
      rewrite !length_append. simpl. split; [|split; [lia|done]]. autorewrite with text. f_equal.
      by rewrite <- append_assoc, <- append_snoc.
  - exists 1, (Some (a ++ t)), None. rewrite split_free by done.
    assert ((if (String.length a =? 0)%nat then first_or_all [t] else [t]) = [t]) as ->.
    { destruct (String.length a =? 0)%nat; [|done]. by destruct t. }
    split; [by destruct h|]. split; [done|].
    cbn [complete_subargument subarg_ptr reargued set_rest set_subargument snd]. by destruct (_ =? 0)%nat.
Qed.

(** Taking the parts one by one until there is none. *)
Fixpoint read_all (n : nat) : M (list string) :=
  match n with
  | O => mret []
  | Datatypes.S n => '(r, x) ← get_next_subargument; if r =? 0 then mret [] else l ← read_all n; mret (x :: l)
  end.

Lemma read_all_remaining n h :
  reading h -> (length (remaining h) < n)%nat -> (read_all n h).1 = remaining h.
Proof.
  revert h. induction n as [|n IH]; intros h Hr Hn; [lia|]. cbn [read_all]. unfold mbind at 1, method_bind at 1.
  destruct (next_subargument h Hr) as (r & s & p & E & Hz & Ht & Hr'). rewrite E. cbv beta iota.
  destruct (remaining h) as [|x l] eqn:El.
  - by rewrite (proj2 Hz).
  - rewrite (proj2 (Z.eqb_neq r 0)) by (intros ->; by discriminate (proj1 Hz eq_refl)).
    unfold mbind, method_bind. simpl in Ht, Hn. specialize (IH _ Hr'). rewrite Ht in IH. specialize (IH ltac:(lia)).
    destruct (read_all n _) as [l' h']. simpl in *. by subst.
Qed.
End arguments.

(** Parts written with commas between them. *)
Fixpoint join (l : list string) : string :=
  match l with [] => EmptyString | [x] => x | x :: l => x ++ String "," (join l) end.
Lemma split_join l : l <> [] -> Forall (fun x => has "," x = false) l -> split "," (join l) = l.
Proof.
  intros Hl Hc. induction Hc as [|x l Hx Hc IH]; [done|]. destruct l as [|y l]; [by apply split_free|].
  change (join (x :: y :: l)) with (x ++ String "," (join (y :: l))). rewrite split_found by done. by rewrite IH.
Qed.
Lemma join_has c l : (c =? ",")%char = false -> Forall (fun x => has c x = false) l -> has c (join l) = false.
Proof.
  intros Hc Hl. induction Hl as [|x l Hx Hl IH]; [done|]. destruct l as [|y l]; [done|].
  change (join (x :: y :: l)) with (x ++ String "," (join (y :: l))). rewrite has_app, Hx. cbn [has].
  rewrite Ascii.eqb_sym, Hc. exact IH.
Qed.

(** What is written into an option with commas is what the option reads, part by part, and
    the number of the parts is known from the start; but of parts the first of which is
    empty the others are never seen. *)
Theorem subarguments_read {S H D} (h : ADCmdlineHelper S H D) (l : list string) (n : nat) :
  join l <> EmptyString -> Forall (fun x => has "," x = false) l -> Forall (fun x => has zero x = false) l ->
  (length l < n)%nat ->
  let '(count, h') := set_new_subargument (Some (join l)) h in
  count = Z.of_nat (length l) /\ (read_all n h').1 = first_or_all l.
Proof.
  intros Hj Hc Hz Hn. destruct (new_subargument h (Some (join l))) as (s & p & E & Hr & Hw); [by apply join_has|].
  rewrite E. assert (split "," (join l) = l) as Hs by (apply split_join; [by intros ->|done]).
  assert (pieces (Some (join l)) = first_or_all l) as Hl by (unfold pieces; destruct (join l); [done|by rewrite Hs]).
  split; [destruct (join l); [done|by rewrite Hs]|]. rewrite read_all_remaining, Hr; [done|done|].
  rewrite Hr, Hl. destruct l as [|[|x y] l]; simpl in *; lia.
Qed.
Lemma subarguments_read_witness :
  let '(count, h') := set_new_subargument (Some "eth0,10.0.0.1") (new_helper (S := ()) (D := Z) CMDLINE_HELPER_MODE_CLIENT tt) in
  count = 2 /\ (read_all 3 h').1 = ["eth0"; "10.0.0.1"].
Proof.
  apply (subarguments_read (new_helper CMDLINE_HELPER_MODE_CLIENT tt) ["eth0"; "10.0.0.1"] 3);
    [done|repeat constructor|repeat constructor|simpl; lia].
Defined.

(** ** Usages *)

(** What an argument may be, and how it is sent. *)
Inductive argument_kind := AnyText | AnyNumber | OneOf (l : list string).
Definition read_as (k : argument_kind) (x : string) : option value :=
  match k with
  | AnyText => Some (VString x)
  | AnyNumber => Some (VInt (atoi x))
  | OneOf l => if bool_decide (x ∈ l) then Some (VString x) else None
  end.

(** A call without parameters, whatever is given, or only when nothing is; a value that is
    read, or set to what is given if that is one of its values; a call with parameters,
    which must all be given; a value among several, read or set. *)
Inductive usage :=
| Plain (name : string)
| Bare (name : string)
| GetSet (get set : string) (param : string * argument_kind)
| Needs (name : string) (params : list (string * argument_kind))
| GetSetOf (get set : string) (key param : string * argument_kind).

Fixpoint given (params : list (string * argument_kind)) (args : list string) : option (list (string * value)) :=
  match params, args with
  | [], _ => Some []
  | _, [] => None
  | (name, k) :: params, x :: args => v ← read_as k x; l ← given params args; Some ((name, v) :: l)
  end.
(** The method and the parameters an option sends. *)
Definition request_data : Type := string * option (list (string * value)).
Definition sent (u : usage) (args : list string) : option request_data :=
  match u with
  | Plain name => Some (name, None)
  | Bare name => match args with [] => Some (name, None) | _ => None end
  | GetSet get set (name, k) =>
      match args with
      | [] => Some (get, None)
      | x :: _ => match read_as k x with Some v => Some (set, Some [(name, v)]) | None => Some (get, None) end
      end
  | Needs name params => l ← given params args; Some (name, Some l)
  | GetSetOf get set (key, k) (name, k') =>
      match args with
      | [] => None
      | [x] => v ← read_as k x; Some (get, Some [(key, v)])
      | x :: y :: _ => v ← read_as k x; v' ← read_as k' y; Some (set, Some [(key, v); (name, v')])
      end
  end.

(** The request of a command, whose object has at least four parameters; [user] is that of
    the client's own types. *)
Definition request {J D} `{JsonC J D} (user : CmdExecutionObj D -> option request_data) (o : CmdExecutionObj D) : option request_data :=
  if (length (params o) <? 4)%nat then None
  else if built_in o then '(name, _) ← label o; Some (name, parameters (J := J) o) else user o.

(** ** The commands that are made *)

Section makes.
Context {S H J D : Type} `{JsonC J D}.
Abbreviation M := (method S H D).
Abbreviation obj := (CmdExecutionObj D).
Variable user : obj -> option request_data.
Abbreviation request := (request (J := J) user).
Implicit Types h : ADCmdlineHelper S H D.

(** Too long for the arrays of a command. *)
Definition long (x : string) : Prop := (Proxy.JSON_RPC_METHOD_RESP_MAX_LENGTH <= String.length x)%nat.

(** A command is built whose request is the wanted one for the arguments that are left, or
    none if none is wanted; [seen] are the arguments that were taken before. *)
Definition builds (seen : list string) (build : M (option obj)) (want : list string -> option request_data) : Prop :=
  forall h, reading h -> exists r s p o,
    build h = (r, reargued h s p (overrun h || o)) /\
    match r with Some x => exists c, request x = Some c /\ want (remaining h) = Some c | None => want (remaining h) = None end /\
    (o = true -> Exists long (seen ++ remaining h)).

Lemma builds_done seen x want c : request x = Some c -> (forall l, want l = Some c) -> builds seen (done x) want.
Proof.
  intros Hx Hw h _. exists (Some x), (complete_subargument h), (subarg_ptr h), false. rewrite orb_false_r, reargued_id.
  split; [done|]. split; [by exists c|done].
Qed.
Lemma builds_given_up seen want : (forall l, want l = None) -> builds seen given_up want.
Proof.
  intros Hw h _. exists None, (complete_subargument h), (subarg_ptr h), false. rewrite orb_false_r, reargued_id. by split_and!.
Qed.
Lemma builds_next seen (m0 : M (option obj)) m1 want :
  builds seen m0 (fun _ => want []) -> (forall x, builds (x :: seen) (m1 x) (fun l => want (x :: l))) ->
  builds seen ('(n, x) ← get_next_subargument; if n =? 0 then m0 else m1 x) want.
Proof.
  intros Hnone Hsome h Hr. destruct (next_subargument h Hr) as (n & s & p & E & Hz & Ht & Hr').
  unfold mbind, method_bind. rewrite E. cbv beta iota. destruct (remaining h) as [|x l].
  - rewrite (proj2 Hz eq_refl). destruct (Hnone _ Hr') as (r & s' & p' & o & E' & Hm & Ho). cbn [Z.eqb]. rewrite E'.
    exists r, s', p', o. split; [done|]. split; [done|]. by rewrite Ht in Ho.
  - rewrite (proj2 (Z.eqb_neq n 0)) by (intros ->; by discriminate (proj1 Hz eq_refl)).
    destruct (Hsome x _ Hr') as (r & s' & p' & o & E' & Hm & Ho). change (default EmptyString (head (x :: l))) with x. cbv beta iota. rewrite E'.
    rewrite Ht in *. exists r, s', p', o. split; [done|]. split; [exact Hm|]. intros Hl. specialize (Ho Hl). simpl in Ho.
    rewrite Exists_cons, !Exists_app in *. rewrite Exists_cons. tauto.
Qed.
Lemma builds_copy seen i x o (k : obj -> M (option obj)) want :
  x ∈ seen -> builds seen (k (set_value i x o)) want -> builds seen (o ← strcpy_value i x o; k o) want.
Proof.
  intros Hx Hk h Hr. unfold strcpy_value, strcpy, mbind, method_bind.
  destruct (Hk (reargued h (complete_subargument h) (subarg_ptr h) (overrun h || (Proxy.JSON_RPC_METHOD_RESP_MAX_LENGTH <=? String.length x)%nat)))
    as (r & s & p & b & E & Hm & Ho); [exact Hr|].
  exists r, s, p, ((Proxy.JSON_RPC_METHOD_RESP_MAX_LENGTH <=? String.length x)%nat || b). rewrite orb_assoc. split; [|split; [exact Hm|]].
  - refine (eq_trans _ E). by destruct h.
  - intros [Hl%Nat.leb_le|Hb]%orb_true_iff; [|by apply Ho]. apply Exists_app. left. apply Exists_exists. by exists x.
Qed.

(** What a method that pushes a command does, by its usage. *)
Definition grown (k l : Chain.chain obj) (c : option request_data) : Prop :=
  Chain.open l = Chain.open k /\
  match c with
  | Some c => exists x, Chain.items l = (Chain.items k ++ [x])%list /\ request x = Some c
  | None => l = k
  end.
Definition makes (m : M Z) (u : usage) : Prop :=
  forall h, reading h -> Chain.open (CmdChain h) = true -> exists r s p o l,
    m h = (r, (set_cmd_chain l (reargued h s p (overrun h || o))).2) /\
    grown (CmdChain h) l (sent u (remaining h)) /\ (o = true -> Exists long (remaining h)).

Lemma push_makes build u : builds [] build (sent u) -> makes (push build) u.
Proof.
  intros Hb h Hr Ho. destruct (Hb h Hr) as (r & s & p & o & E & Hm & Hl). unfold push, mbind, method_bind. rewrite E.
  destruct r as [x|].
  - destruct Hm as (c & Hx & ->). unfold gets. cbn [CmdChain reargued set_rest set_subargument snd]. unfold Chain.put. rewrite Ho.
    cbn [Z.eqb]. eexists _, s, p, o, _. split; [reflexivity|]. split; [|done]. split; [done|]. by exists x.
  - rewrite Hm. exists (-1), s, p, o, (CmdChain h). split; [done|]. split; [done|done].
Qed.

Lemma enum_of_spec table x (max : nat) :
  (max <= length table)%nat ->
  (enum_of table x (Z.of_nat max) >=? Z.of_nat max) = negb (bool_decide (x ∈ take max table)) /\
  (x ∈ take max table -> enum_text table (enum_of table x (Z.of_nat max)) = x).
Proof.
  intros Hl. unfold enum_of, string_to_enum. rewrite Nat2Z.id. destruct (decide (x ∈ take max table)) as [Hx|Hx].
  - rewrite (Services.string_to_enum_index table x max 0 Hl Hx), bool_decide_eq_true_2 by done. simpl.
    pose proof (Services.index_of_lt x _ Hx) as Hi. rewrite length_take in Hi.
    split; [rewrite Z.geb_leb; apply Z.leb_gt; lia|]. intros _. unfold enum_text. rewrite Nat2Z.id.
    assert (take max table !! Services.index_of x (take max table) = Some x) as Hat.
    { clear Hi. induction (take max table) as [|y l IH]; [by apply elem_of_nil in Hx|]. simpl.
      destruct (String.eqb_spec y x) as [->|Hne]; [done|]. apply elem_of_cons in Hx as [->|Hx]; [done|]. by apply IH. }
    rewrite lookup_take in Hat. case_decide; [|done]. by rewrite Hat.
  - rewrite bool_decide_eq_false_2 by done. split; [|done].
    destruct (RpcMgrSpec.string_to_enum_from_spec table x max 0 Hl) as (e & -> & He & Hin). simpl. rewrite Z.geb_leb. apply Z.leb_le.
    destruct (decide (e < 0 + max)%nat) as [Hlt|]; [by apply Hin in Hlt|lia].
Qed.
Lemma builds_enum seen table x (max : nat) m0 m1 want :
  (max <= length table)%nat ->
  (bool_decide (x ∈ take max table) = false -> builds seen m0 want) ->
  (bool_decide (x ∈ take max table) = true -> enum_text table (enum_of table x (Z.of_nat max)) = x -> builds seen m1 want) ->
  builds seen (if enum_of table x (Z.of_nat max) >=? Z.of_nat max then m0 else m1) want.
Proof.
  intros Hl Hno Hyes. destruct (enum_of_spec table x max Hl) as [-> Ht]. destruct (bool_decide _) eqn:E; simpl; [|by apply Hno].
  apply Hyes; [done|]. apply Ht. by apply bool_decide_eq_true in E.
Qed.

End makes.

(** *** Automation *)

Lemma gateway_type_of c : XmppRpc.rpc_type (XmppRpc.rpc_type_index c) = Some c.
Proof. by destruct c. Qed.

(** What the clients' own types of commands call is opened by the tactics below. *)
Ltac open_own := idtac.
(** The request of a command that was put together field by field. *)
Ltac request_eq :=
  let P := fresh "P" in
  match goal with E : exists _ _ _ _ _, params _ = _ |- _ => destruct E as (? & ? & ? & ? & ? & P) end;
  unfold request, built_in, label, task_status, write_only, parameters; open_own; unfold text_param, int_param, param;
  cbn -[SysRpc.rpc_index SysRpc.rpc_type XmppRpc.rpc_type_index XmppRpc.rpc_type];
  rewrite ?SysmgrSpec.sysmgr_type_of, ?gateway_type_of; cbn -[SysRpc.rpc_index XmppRpc.rpc_type_index];
  rewrite ?P; cbn; reflexivity.
(** What is wanted, once it is known which values are in their tables. *)
Ltac want_eq :=
  intros; cbn -[take]; repeat match goal with E : bool_decide _ = _ |- _ => rewrite E; clear E end;
  first [reflexivity | match goal with |- context [match ?l with [] => _ | _ => _ end] => by destruct l end].
Ltac building :=
  repeat match goal with
  | |- forall _, _ => intros ?
  | |- makes _ (push _) _ => apply push_makes; cbv zeta
  | |- builds _ _ (get_next_subargument ≫= _) _ => apply builds_next
  | |- builds _ _ (strcpy_value _ _ _ ≫= _) _ => apply builds_copy; [set_solver|]
  | |- builds _ _ (if enum_of _ _ (Z.of_nat _) >=? _ then _ else _) _ => apply builds_enum; [first [assumption|vm_compute; lia]|intros ?|intros ? ?]
  | |- builds _ _ (if enum_of _ ?x ?max >=? _ then _ else _) _ =>
      let n := eval vm_compute in (Z.to_nat max) in change max with (Z.of_nat n)
  | E : enum_text _ _ = _ |- builds _ _ _ _ => rewrite E; clear E
  | |- builds _ _ given_up _ => apply builds_given_up; want_eq
  | |- builds _ _ (done _) _ => eapply builds_done; [request_eq|want_eq]
  end.

Section methods.
Context {S H J D : Type} `{JsonC J D}.
Abbreviation M := (method S H D).
Abbreviation obj := (CmdExecutionObj D).
Variable user : obj -> option request_data.
Abbreviation makes_it := (makes (S := S) (H := H) (J := J) user).
Variable fresh : obj.
Hypothesis fresh_params : exists a b c d l, params fresh = a :: b :: c :: d :: l.

Lemma action_makes c name ret : makes_it (push_action_type_noarg_command fresh c name ret) (Plain name).
Proof. unfold push_action_type_noarg_command. building. Qed.
Lemma int_read_makes c c' name p : makes_it (push_single_int_get_set_command fresh c c' name name p true) (Plain name).
Proof. unfold push_single_int_get_set_command. building. Qed.
Lemma int_makes c c' get set p : makes_it (push_single_int_get_set_command fresh c c' get set p false) (GetSet get set (p, AnyNumber)).
Proof. unfold push_single_int_get_set_command. building. Qed.
Lemma enum_makes c c' get set table (max : nat) p ret :
  (max <= length table)%nat ->
  makes_it (push_single_enum_get_set_command fresh c c' get set table (Z.of_nat max) p ret) (GetSet get set (p, OneOf (take max table))).
Proof. intros Hl. unfold push_single_enum_get_set_command. building. Qed.
Lemma string_makes c c' get set p :
  makes_it (push_string_get_set_command fresh c c' get set p Act.READ_AND_WRITE) (GetSet get set (p, AnyText)).
Proof. unfold push_string_get_set_command. cbn [Z.eqb Pos.eqb Act.READ_AND_WRITE Act.WRITEONLY Act.READONLY]. building. Qed.
Lemma string_read_makes c c' get set p :
  makes_it (push_string_get_set_command fresh c c' get set p Act.READONLY) (Bare get).
Proof. unfold push_string_get_set_command. cbn [Z.eqb Pos.eqb Act.READONLY Act.WRITEONLY]. building. Qed.
Lemma address_makes c c' get set data addr :
  makes_it (push_int_get_set_with_dev_addr_arg_command fresh c c' get set data addr (-1) Act.READ_AND_WRITE)
    (GetSetOf get set (addr, AnyNumber) (data, AnyNumber)).
Proof. unfold push_int_get_set_with_dev_addr_arg_command. cbn [Z.geb Z.compare]. building. Qed.
Lemma numbers_makes c name p q :
  makes_it (push_double_int_set_command fresh c name p q) (Needs name [(p, AnyNumber); (q, AnyNumber)]).
Proof. unfold push_double_int_set_command. building. Qed.
Lemma task_makes name id sts c : makes_it (push_get_task_progress_command fresh name id sts c) (Needs name [(id, AnyText)]).
Proof. unfold push_get_task_progress_command. building. Qed.
Lemma enum_string_makes c c' get set key table (max : nat) p :
  (max <= length table)%nat ->
  makes_it (push_string_get_set_with_enum_arg fresh c c' get set key (Z.of_nat max) table p Act.READ_AND_WRITE)
    (GetSetOf get set (key, OneOf (take max table)) (p, AnyText)).
Proof. intros Hl. unfold push_string_get_set_with_enum_arg. cbn [Z.eqb Pos.eqb Act.READ_AND_WRITE]. building. Qed.

Lemma index_makes c name arg res :
  (forall o, cmd_type o = Cmd.USER_DEFINED -> command o = c -> act o = Act.READ -> get_rpc_name o = name ->
     user o = Some (name, Some [text_param (J := J) o 0%nat])) ->
  makes_it (push_get_string_of_index fresh name c arg res) (Needs name [(arg, AnyText)]).
Proof.
  intros Hu. unfold push_get_string_of_index. building. eapply builds_done; [|want_eq].
  unfold request, built_in. cbn. rewrite Hu by done. unfold text_param, param. cbn.
  destruct fresh_params as (? & ? & ? & ? & ? & ->). reflexivity.
Qed.
End methods.
