(* ===== verification/CmdlineOptions.v ===== *)
(** * What the options of the clients do

    A client makes of each option the command its usage says, with the values that were
    given, and no copy goes beyond its array; the service it is for has the method and finds
    the parameters it needs. *)
From S2P Require Import Prelude GenericChain Text Io SysInfo Common NetClient NetClientSpec Client ClientSpec CmdProcessor CmdProcessorSpec.
From S2P Require Import Cmdline CmdlineClients CmdlineSpec.
From S2P Require Proxy RpcMgr RpcMgrSpec SysRpc SysmgrRpc SysmgrSpec XmppRpc.
Local Open Scope string_scope.
Local Open Scope Z_scope.

(** ** The options that set values *)

Section values.
Context {S H D : Type} `{Host H}.
Implicit Types h : ADCmdlineHelper S H D.
Abbreviation M := (method S H D).

(** All that reading an option leaves alone, but for the commands; and with them. *)
Definition undisturbed h h' : Prop :=
  pConsumer h' = pConsumer h /\ overrun h' = overrun h /\ my_mode h' = my_mode h /\ printed h' = printed h /\
  ClientWorkersList h' = ClientWorkersList h /\ Chain.open (ipChain h') = Chain.open (ipChain h).
Definition same h h' : Prop := CmdChain h' = CmdChain h /\ undisturbed h h'.
#[export] Instance undisturbed_order : PreOrder undisturbed.
Proof. split; [by intros h; split_and!|]. unfold undisturbed. intros h1 h2 h3 H1 H2. destruct_and!. split_and!; congruence. Qed.
#[export] Instance same_order : PreOrder same.
Proof. split; [by intros h|]. intros h1 h2 h3 [E1 H1] [E2 H2]. split; [congruence|by transitivity h2]. Qed.
(** A method that takes no argument and answers something with [Q]. *)
Definition keeps {A} (Q : A -> Prop) (m : M A) : Prop := forall h,
  Q (m h).1 /\ same h (m h).2 /\ complete_subargument (m h).2 = complete_subargument h /\ subarg_ptr (m h).2 = subarg_ptr h.
Abbreviation any := (fun _ => True).
(** One that takes arguments, which are shorter than [n]. *)
Definition reads {A} (n : nat) (m : M A) : Prop := forall h,
  reading h -> Forall (fun x => (String.length x < n)%nat) (remaining h) -> same h (m h).2.

Lemma keeps_ret {A} (Q : A -> Prop) a : Q a -> keeps Q (mret a).
Proof. intros Ha h. by split_and!. Qed.
Lemma keeps_gets {A} (f : ADCmdlineHelper S H D -> A) : keeps any (gets f).
Proof. intros h. by split_and!. Qed.
Lemma keeps_bind {A B} (P : A -> Prop) (Q : B -> Prop) (m : M A) f :
  keeps P m -> (forall a, P a -> keeps Q (f a)) -> keeps Q (m ≫= f).
Proof.
  intros Hm Hf h. destruct (Hm h) as (Ha & E1 & E2 & E3). unfold mbind, method_bind. destruct (m h) as [a h'].
  simpl in *. destruct (Hf a Ha h') as (Hb & F1 & F2 & F3). split; [done|]. split; [by transitivity h'|]. split; congruence.
Qed.
Lemma keeps_weaken {A} (P Q : A -> Prop) (m : M A) : (forall a, P a -> Q a) -> keeps P m -> keeps Q m.
Proof. intros Hpq Hm h. destruct (Hm h) as [? ?]. by split; [apply Hpq|]. Qed.
Lemma keeps_opts f : keeps any (set_opts (S := S) (H := H) (D := D) f).
Proof. intros h. by split_and!. Qed.
Lemma keeps_machine m : keeps any (set_machine (S := S) (D := D) m).
Proof. intros h. by split_and!. Qed.
Lemma keeps_strcpy n s : (String.length s < n)%nat -> keeps (eq s) (strcpy (S := S) (H := H) (D := D) n s).
Proof.
  intros Hs h. unfold strcpy. cbn. unfold same, undisturbed. cbn. split_and!; try done.
  by rewrite (proj2 (Nat.leb_gt _ _) Hs), orb_false_r.
Qed.

Lemma reads_keeps {A} n (m : M A) : keeps any m -> reads n m.
Proof. intros Hm h _ _. apply Hm. Qed.
Lemma reads_bind {A B} n (P : A -> Prop) (m : M A) (f : A -> M B) :
  keeps P m -> (forall a, P a -> reads n (f a)) -> reads n (m ≫= f).
Proof.
  intros Hm Hf h Hr Hl. destruct (Hm h) as (Ha & E1 & E2 & E3). unfold mbind, method_bind. destruct (m h) as [a h'].
  simpl in *. transitivity h'; [done|]. apply (Hf a Ha h').
  - intros b p. rewrite E2, E3. apply Hr.
  - unfold remaining in *. by rewrite E2, E3.
Qed.
Lemma reads_next {B} n (f : Z * string -> M B) :
  (forall r x, r = 0 \/ (String.length x < n)%nat -> reads n (f (r, x))) -> reads n (get_next_subargument ≫= f).
Proof.
  intros Hf h Hr Hl. destruct (next_subargument h Hr) as (r & s & p & E & Hz & Ht & Hr'). unfold mbind, method_bind. rewrite E.
  transitivity (reargued h s p (overrun h)); [by split_and!|].
  apply (Hf r (default EmptyString (head (remaining h)))); [|done|].
  - destruct (remaining h) as [|x l]; [left; by apply Hz|right]. by apply Forall_inv in Hl.
  - rewrite Ht. destruct Hl; [constructor|done].
Qed.
Lemma reads_given n f : (forall x, (String.length x < n)%nat -> keeps any (f x)) -> reads n (when_given (S := S) (H := H) (D := D) f).
Proof.
  intros Hf. unfold when_given. apply reads_next. intros r x Hx. apply reads_keeps. destruct (Z.eqb_spec r 0); [by apply keeps_ret|].
  eapply keeps_bind; [apply Hf; by destruct Hx|]. intros. by apply keeps_ret.
Qed.

Lemma fgets_length n s : (String.length (fgets (Datatypes.S n) s) <= n)%nat.
Proof.
  revert s. induction n as [|n IH]; intros [|c s]; cbn [fgets String.length]; try lia. destruct (c =? newline)%char; [simpl; lia|].
  exact (le_n_S _ _ (IH s)).
Qed.
Lemma rfind_length c s a b : rfind c s = Some (a, b) -> (String.length a <= String.length s)%nat.
Proof.
  revert a b. induction s as [|x s IH]; intros a b; simpl; [done|]. destruct (rfind c s) as [[a' b']|].
  - intros [= <- <-]. simpl. by specialize (IH _ _ eq_refl); lia.
  - destruct (x =? c)%char; [|done]. intros [= <- <-]. simpl. lia.
Qed.

Lemma keeps_push_ip x : (String.length x < 255)%nat -> keeps any (push_ip_to_list (S := S) (H := H) (D := D) x).
Proof.
  intros Hx. unfold push_ip_to_list. eapply keeps_bind; [by apply keeps_strcpy|]. intros _ <-.
  intros h. unfold mbind, method_bind. cbn [gets]. destruct (Chain.put (ipChain h) x) as [r l'] eqn:E. split; [done|].
  split; [|done]. split; [done|]. split_and!; try done. cbn. unfold Chain.put in E.
  destruct (Chain.open (ipChain h)) eqn:Eo; injection E as <- <-; done.
Qed.
Lemma keeps_shell_line c n :
  (String.length c < 1024)%nat ->
  keeps (fun t => match t with Some t => (String.length t <= n)%nat | None => True end)
    (shell_line (S := S) (H := H) (D := D) c (Datatypes.S n)).
Proof.
  intros Hc. unfold shell_line. eapply keeps_bind; [by apply keeps_strcpy|]. intros _ <-.
  eapply keeps_bind; [apply keeps_gets|]. intros m _. destruct (host_popen c m) as [out m'].
  eapply keeps_bind; [apply keeps_machine|]. intros _ _. apply keeps_ret. destruct out as [t|]; [|done].
  pose proof (fgets_length n t). unfold mbind, option_bind. destruct (fgets (Datatypes.S n) t); done.
Qed.
Lemma keeps_ip_lines file i n : (String.length file < 255)%nat -> keeps any (push_ip_lines (S := S) (H := H) (D := D) file i n).
Proof.
  intros Hf. revert i. induction n as [|n IH]; intros i; cbn [push_ip_lines]; [by apply keeps_ret|].
  eapply keeps_bind with (P := fun t => match t with Some t => (String.length t <= 253)%nat | None => True end).
  - unfold grep_ip_line. eapply keeps_bind; [apply keeps_shell_line|].
    + rewrite !length_append. pose proof (format_d_length (i + 1)). simpl. lia.
    + intros [t|] Ht; apply keeps_ret; [|done]. simpl. destruct (rfind newline t) as [[a [|]]|] eqn:E; [|done|done].
      apply rfind_length in E. lia.
  - intros t Ht. eapply keeps_bind; [|by intros; apply IH]. destruct t; [apply keeps_push_ip; lia|by apply keeps_ret].
Qed.
Lemma keeps_ip_file file : (String.length file < 255)%nat -> keeps any (push_ip_to_list_from_file (S := S) (H := H) (D := D) file).
Proof.
  intros Hf. unfold push_ip_to_list_from_file. eapply keeps_bind with (P := any).
  - unfold count_total_ip_from_file. eapply keeps_bind; [apply keeps_shell_line|]; [rewrite length_append; simpl; lia|].
    intros. by apply keeps_ret.
  - intros total _. eapply keeps_bind; [by apply keeps_ip_lines|]. intros. by apply keeps_ret.
Qed.
Lemma reads_ips rounds b : reads 255 (parse_ips (S := S) (H := H) (D := D) rounds b).
Proof.
  revert b. induction rounds as [|rounds IH]; intros b; cbn [parse_ips]; [by apply reads_keeps, keeps_ret|].
  apply reads_next. intros r x Hx. destruct (Z.eqb_spec r 0); [by apply reads_keeps, keeps_ret|]. destruct Hx as [|Hx]; [done|].
  eapply reads_bind; [apply keeps_gets|]. intros m _. destruct (negb b && host_is_file m x).
  - apply reads_keeps. eapply keeps_bind; [by apply keeps_ip_file|]. intros. by apply keeps_ret.
  - eapply reads_bind; [by apply keeps_strcpy|]. intros _ <-. eapply reads_bind; [apply keeps_opts|]. intros _ _.
    eapply reads_bind; [by apply keeps_push_ip|]. intros. apply IH.
Qed.
Lemma reads_ip_list : reads 255 (parse_ip_list_opt (S := S) (H := H) (D := D)).
Proof.
  unfold parse_ip_list_opt. eapply reads_bind; [apply keeps_gets|]. intros a _ h Hr Hl.
  pose proof (reads_ips (Datatypes.S (String.length (default EmptyString a))) false h Hr Hl) as Hs.
  unfold mbind, method_bind in *. by destruct (parse_ips _ _ h).
Qed.
(** The loop has rounds for all parts: each becomes an address, and the last one is kept. *)
Lemma ips_read rounds b h :
  reading h -> Chain.open (ipChain h) = true -> (length (remaining h) <= rounds)%nat ->
  (b = true \/ forall x, head (remaining h) = Some x -> host_is_file (machine h) x = false) ->
  let '(_, h') := parse_ips rounds b h in
  Chain.items (ipChain h') = (Chain.items (ipChain h) ++ remaining h)%list /\
  ip (opts h') = default (ip (opts h)) (last (remaining h)).
Proof.
  revert b h. induction rounds as [|rounds IH]; intros b h Hr Ho Hn Hf; cbn [parse_ips].
  { cbn. destruct (remaining h); [|simpl in Hn; lia]. by rewrite app_nil_r. }
  unfold mbind at 1, method_bind at 1. destruct (next_subargument h Hr) as (r & s & p & E & Hz & Ht & Hr'). rewrite E. cbv beta iota.
  destruct (remaining h) as [|x l] eqn:El; [rewrite (proj2 Hz eq_refl); cbn; by rewrite app_nil_r|].
  rewrite (proj2 (Z.eqb_neq r 0)) by (intros ->; by discriminate (proj1 Hz eq_refl)). cbn [default from_option head id].
  unfold mbind at 1, method_bind at 1. cbn [gets].
  assert (negb b && host_is_file (machine h) x = false) as Hfile by (destruct Hf as [->|Hf]; [done|rewrite Hf by done; by destruct b]).
  change (machine (reargued h s p (overrun h))) with (machine h). rewrite Hfile.
  unfold push_ip_to_list, mbind, method_bind, strcpy, Chain.put. cbn. rewrite Ho. cbn.
  match goal with |- context [parse_ips rounds true ?h1] => specialize (IH true h1) end.
  cbn in IH. change (remaining _) with (remaining (reargued h s p (overrun h))) in IH. rewrite Ht in IH. simpl in Hn.
  specialize (IH Hr' eq_refl ltac:(simpl; lia) (or_introl eq_refl)). destruct (parse_ips rounds true _) as [u h1].
  destruct IH as [-> ->]. simpl. rewrite <- app_assoc. split; [done|].
  destruct l as [|y l]; [done|]. change (last (x :: y :: l)) with (last (y :: l)).
  by destruct (proj2 (last_is_Some (y :: l))) as [z ->].
Qed.
Lemma split_length c s : (length (split c s) <= Datatypes.S (String.length s))%nat.
Proof.
  induction s as [|x s IH]; simpl; [lia|]. destruct (x =? c)%char; simpl; [lia|]. destruct (split c s); simpl in *; lia.
Qed.
Lemma substring_shorter n m s : (String.length (String.substring n m s) <= String.length s)%nat.
Proof.
  revert n m. induction s as [|x s IH]; intros [|n] [|m]; simpl; try lia; [specialize (IH 0%nat m)|specialize (IH n 0%nat)|specialize (IH n (Datatypes.S m))]; lia.
Qed.
Lemma remaining_length h : (length (remaining h) <= Datatypes.S (String.length (default EmptyString (complete_subargument h))))%nat.
Proof.
  unfold remaining. destruct (complete_subargument h) as [b|]; [|simpl; lia]. cbn [default from_option id].
  destruct (_ =? 0)%nat; [simpl; lia|]. destruct (subarg_ptr h) as [p|]; [|simpl; lia].
  pose proof (split_length "," (from p b)). pose proof (substring_shorter p (String.length b) b). unfold from in *.
  destruct (p =? 0)%nat; [|lia]. destruct (split "," _) as [|[|]]; simpl in *; lia.
Qed.
(** [--ip] with addresses: all are kept, in order, behind those given before. *)
Lemma ip_list_read h arg :
  has zero (default EmptyString arg) = false -> Chain.open (ipChain h) = true ->
  (forall x, head (pieces arg) = Some x -> host_is_file (machine h) x = false) ->
  let '(_, h') := (_ ← set_new_subargument arg; parse_ip_list_opt) h in
  Chain.items (ipChain h') = (Chain.items (ipChain h) ++ pieces arg)%list /\ ip (opts h') = default (ip (opts h)) (last (pieces arg)).
Proof.
  intros Hz Ho Hf. unfold mbind at 1, method_bind at 1. destruct (new_subargument h arg Hz) as (s & p & E & Hr & Hw). rewrite E.
  unfold parse_ip_list_opt. unfold mbind, method_bind. cbn [gets].
  rewrite <- Hr in Hf |- *. set (h1 := reargued h s p (overrun h)) in *.
  pose proof (ips_read (Datatypes.S (String.length (default EmptyString (complete_subargument h1)))) false h1 Hw Ho (remaining_length h1)
    (or_intror Hf)) as Hi.
  by destruct (parse_ips _ _ h1).
Qed.
Lemma keeps_help : keeps any (print_help (S := S) (H := H) (D := D)).
Proof.
  unfold print_help. eapply keeps_bind; [apply keeps_gets|]. intros l _. destruct (Chain.size l =? 0); [by apply keeps_ret|].
  eapply keeps_bind; [apply keeps_opts|]. intros. by apply keeps_ret.
Qed.
End values.

(** ** The clients *)

Inductive client := SysmgrClient | GatewayClient.

(** The usages of the options every client has, and of each client's own. *)
Definition own_usages : list (ascii * usage) :=
  [("k"%char, Needs "get_rpc_req_status" [("taskId", AnyText)]);
   ("c"%char, GetSet "get_debug_logging" "set_debug_logging" ("status", OneOf ["disable"; "enable"]));
   ("w"%char, Plain "trigger_shutdown");
   ("r"%char, Plain "get_rpc_srv_version");
   ("a"%char, Plain "trigger_settings_save");
   ("b"%char, Bare "get_settings_status");
   ("x"%char, Plain "reset_task_status");
   ("z"%char, Bare "get_ready_status");
   ("j"%char, Plain "trigger_factory_store");
   ("m"%char, Plain "trigger_factory_restore");
   ("o"%char, Needs "subscribe_event" [("cltToken", AnyNumber); ("port", AnyNumber)]);
   ("y"%char, GetSet "unsubscribe_event" "unsubscribe_event" ("srvToken", AnyNumber));
   ("q"%char, Needs "notify_event" [("evntNum", AnyNumber); ("evntArg1", AnyNumber)]);
   ("1"%char, GetSet "get_devop_state" "set_devop_state" ("status", OneOf (take 10 RpcMgr.RPCMGR_RPC_DEVOP_STATE_ARGSTS_TBL)));
   ("2"%char, GetSetOf "read_byte" "write_byte" ("addr", AnyNumber) ("data", AnyNumber));
   ("3"%char, GetSetOf "read_word" "write_word" ("addr", AnyNumber) ("data", AnyNumber));
   ("4"%char, GetSetOf "read_dword" "write_dword" ("addr", AnyNumber) ("data", AnyNumber))].
Definition sysmgr_usage (c : SysRpc.EJSON_SYSMGR_RPC_TYPES) : option usage :=
  let interface := ("iface", OneOf (take 10 SysmgrRpc.SYSMGR_RPC_MAC_ADDR_ARG_IFACE_TABL)) in
  let module := ("module", OneOf (take 6 SysRpc.SYSMGR_RPC_FMW_VER_ARG_TABL)) in
  match c with
  | SysRpc.GET_MAC_ADDR => Some (GetSetOf "get_mac_addr" "set_mac_addr" interface ("addr", AnyText))
  | SysRpc.GET_IP_ADDR => Some (GetSetOf "get_ip_addr" "set_ip_addr" interface ("addr", AnyText))
  | SysRpc.GET_NETMASK => Some (GetSetOf "get_netmask" "set_netmask" interface ("addr", AnyText))
  | SysRpc.GET_ETH_COUNT => Some (Plain "get_eth_count")
  | SysRpc.GET_ETH_NAME => Some (Needs "get_eth_name" [("index", AnyText)])
  | SysRpc.GET_LOADINFO => Some (Plain "get_load_info")
  | SysRpc.GET_MEMINFO => Some (Plain "get_mem_info")
  | SysRpc.GET_CPUINFO => Some (Plain "get_cpu_info")
  | SysRpc.GET_DEV_OP => Some (GetSet "get_device_operation" "set_device_operation"
                                 ("operation", OneOf (take 9 SysRpc.SYSMGR_RPC_DEV_OP_ARG_TABL)))
  | SysRpc.GET_FMWVER => Some (Needs "get_fmw_version" [module])
  | SysRpc.GET_BOOT_SYSTEM => Some (GetSet "get_boot_system" "get_boot_system"
                                      ("system", OneOf (take 2 SysRpc.SYSMGR_RPC_BOOT_SYSTEM_ARG_TABL)))
  | SysRpc.SET_FMWUPDATE => Some (Needs "firmware_update" [module; ("filepath", AnyText)])
  | SysRpc.SET_DOWNLOADFTP => Some (Needs "download_ftp_file" [("srcaddr", AnyText); ("targetpath", AnyText)])
  | SysRpc.SET_DOWNLOADTFTP =>
      Some (Needs "download_tftp_file" [("srcaddr", AnyText); ("targetpath", AnyText); ("srcfile", AnyText)])
  | SysRpc.GET_ASYNCTASK => Some (GetSet "get_async_task" "get_async_task"
                                    ("task", OneOf (take 8 SysRpc.SYSMGR_RPC_ASYNCTASK_ARG_TABL)))
  | SysRpc.GET_DEVTYPE => Some (GetSet "get_devtype" "get_devtype" ("type", OneOf (take 18 SysRpc.ADCMN_BOARD_TYPE_TABLE)))
  | SysRpc.GET_HOSTNAME => Some (GetSet "get_hostname" "set_hostname" ("hostname", AnyText))
  | SysRpc.GET_MY_PUBLIC_IP => Some (GetSet "get_my_public_ip" "get_my_public_ip" ("ip", AnyText))
  | SysRpc.SET_DEFAULT_HOSTNAME => Some (Plain "set_default_hostname")
  | SysRpc.SET_UPDATE_LOG => Some (Plain "update_loglist")
  | SysRpc.GET_LOG_COUNT => Some (Plain "get_log_count")
  | SysRpc.GET_LOG_LINE => Some (Needs "get_log_line" [("index", AnyNumber)])
  | SysRpc.RUN_SHELLCMD => Some (Needs "run_shellcmd" [("command", AnyText)])
  | SysRpc.RUN_SHELLCMDTRIG => Some (Needs "run_shellcmdtrig" [("command", AnyText)])
  | SysRpc.DEVIDENT => Some (Plain "device_identify")
  | SysRpc.EVNT_SUBSCRIBE => Some (Plain "re_subscribe_events")
  | _ => None
  end.
Definition gateway_usage (c : XmppRpc.EJSON_XMPROXY_RPC_TYPES) : option usage :=
  let message := [("to", AnyText); ("msg", AnyText)] in
  match c with
  | XmppRpc.GET_ASYNCTASK => Some (GetSet "get_async_task" "get_async_task"
                                     ("task", OneOf (take 3 XmppRpc.XMPROXY_RPC_ASYNCTASK_ARG_TABL)))
  | XmppRpc.GET_ONLINE_STATUS => Some (GetSet "get_online_status" "set_online_status"
                                         ("status", OneOf (take 2 XmppRpc.XMPROXY_RPC_ONLINE_STATUS_ARG_TABL)))
  | XmppRpc.SET_SEND_MESSAGE => Some (Needs "send_message" message)
  | XmppRpc.SET_SUBSCRIBE => Some (Needs "send_subscribe" message)
  | XmppRpc.SET_ACCEPT_BUDDY => Some (Needs "accept_buddy" message)
  | XmppRpc.GET_INBOX_COUNT => Some (Plain "get_inbox_count")
  | XmppRpc.GET_INBOX => Some (Needs "get_inbox_message" [("index", AnyText)])
  | XmppRpc.SET_INBOX_EMPTY => Some (Plain "empty_inbox")
  | _ => None
  end.
Definition client_usage (c : client) (arg : Z) : option usage :=
  match c with
  | SysmgrClient => SysRpc.rpc_type arg ≫= sysmgr_usage
  | GatewayClient => XmppRpc.rpc_type arg ≫= gateway_usage
  end.
(** The usage of the option with the value [arg], if it makes commands. *)
Definition option_usage (c : client) (arg : Z) : option usage :=
  match snd <$> find_first (fun x => opt x.1 =? arg) own_usages with
  | Some u => Some u
  | None => client_usage c (arg - CONSUMERS_OPTIONS_ARG_START_BOUNDARY)
  end.

(** What the commands of the clients' own types call. *)
Definition own_request {J D} `{JsonC J D} (c : client) (o : CmdExecutionObj D) : option request_data :=
  let text := text_param (J := J) o in
  let reading name l := if act o =? Act.READ then Some (name, l) else None in
  let writing name l := if act o =? Act.WRITE then Some (name, l) else None in
  match c with
  | SysmgrClient =>
      match SysRpc.rpc_type (command o) with
      | Some (SysRpc.GET_ETH_NAME | SysRpc.GET_FMWVER) => reading (get_rpc_name o) (Some [text 0%nat])
      | Some (SysRpc.GET_LOADINFO | SysRpc.GET_MEMINFO | SysRpc.GET_CPUINFO) => reading (get_rpc_name o) None
      | Some (SysRpc.SET_FMWUPDATE | SysRpc.SET_DOWNLOADFTP) => writing (set_rpc_name o) (Some [text 0%nat; text 1%nat])
      | Some SysRpc.SET_DOWNLOADTFTP => writing (set_rpc_name o) (Some [text 0%nat; text 1%nat; text 2%nat])
      | Some SysRpc.GET_LOG_LINE => reading (get_rpc_name o) (Some [int_param (J := J) o 0%nat])
      | Some (SysRpc.RUN_SHELLCMD | SysRpc.RUN_SHELLCMDTRIG) => writing (set_rpc_name o) (Some [text 0%nat])
      | _ => None
      end
  | GatewayClient =>
      match XmppRpc.rpc_type (command o) with
      | Some (XmppRpc.SET_SEND_MESSAGE | XmppRpc.SET_SUBSCRIBE | XmppRpc.SET_ACCEPT_BUDDY) =>
          Some (get_rpc_name o, Some [text 0%nat; text 1%nat])
      | Some XmppRpc.GET_INBOX => reading (get_rpc_name o) (Some [text 0%nat])
      | _ => None
      end
  end.

Ltac open_own ::= unfold own_request.

Create HintDb makes.
Section clients.
Context {H J D : Type} `{Host H} `{JsonC J D}.
Abbreviation M := (method () H D).
Abbreviation obj := (CmdExecutionObj D).
Implicit Types h : ADCmdlineHelper () H D.
Variable fresh : obj.
Hypothesis fresh_params : exists a b c d l, params fresh = a :: b :: c :: d :: l.

(** *** The commands of the clients' own types *)

Abbreviation makes_own c := (makes (S := ()) (H := H) (J := J) (own_request (J := J) c)).

Lemma info_makes c name a b d :
  c = SysRpc.GET_LOADINFO \/ c = SysRpc.GET_MEMINFO \/ c = SysRpc.GET_CPUINFO ->
  makes_own SysmgrClient (Sysmgr.push_get_info_command fresh (SysRpc.rpc_index c) name a b d) (Plain name).
Proof. intros [-> | [-> | ->]]; unfold Sysmgr.push_get_info_command; building. Qed.
Lemma version_makes : makes_own SysmgrClient (Sysmgr.push_fmw_version_read_command fresh)
  (Needs "get_fmw_version" [("module", OneOf (take 6 SysRpc.SYSMGR_RPC_FMW_VER_ARG_TABL))]).
Proof. unfold Sysmgr.push_fmw_version_read_command. building. Qed.
Lemma update_makes : makes_own SysmgrClient (Sysmgr.push_fmw_update_command fresh)
  (Needs "firmware_update" [("module", OneOf (take 6 SysRpc.SYSMGR_RPC_FMW_VER_ARG_TABL)); ("filepath", AnyText)]).
Proof. unfold Sysmgr.push_fmw_update_command. building. Qed.
Lemma ftp_makes : makes_own SysmgrClient (Sysmgr.push_file_download fresh SysRpc.SET_DOWNLOADFTP)
  (Needs "download_ftp_file" [("srcaddr", AnyText); ("targetpath", AnyText)]).
Proof.
  unfold Sysmgr.push_file_download. apply push_makes. cbv zeta.
  change (bool_decide (SysRpc.SET_DOWNLOADFTP = SysRpc.SET_DOWNLOADFTP)) with true.
  change (bool_decide (SysRpc.SET_DOWNLOADFTP = SysRpc.SET_DOWNLOADTFTP)) with false. cbv iota. building.
Qed.
Lemma tftp_makes : makes_own SysmgrClient (Sysmgr.push_file_download fresh SysRpc.SET_DOWNLOADTFTP)
  (Needs "download_tftp_file" [("srcaddr", AnyText); ("targetpath", AnyText); ("srcfile", AnyText)]).
Proof.
  unfold Sysmgr.push_file_download. apply push_makes. cbv zeta.
  change (bool_decide (SysRpc.SET_DOWNLOADTFTP = SysRpc.SET_DOWNLOADFTP)) with false.
  change (bool_decide (SysRpc.SET_DOWNLOADTFTP = SysRpc.SET_DOWNLOADTFTP)) with true. cbv iota. building.
Qed.
Lemma log_line_makes arg res :
  makes_own SysmgrClient (Sysmgr.push_get_indexed_msg_command fresh "get_log_line" (SysRpc.rpc_index SysRpc.GET_LOG_LINE) arg res)
    (Needs "get_log_line" [(arg, AnyNumber)]).
Proof. unfold Sysmgr.push_get_indexed_msg_command. building. Qed.
Lemma shell_makes c name :
  c = SysRpc.RUN_SHELLCMD \/ c = SysRpc.RUN_SHELLCMDTRIG ->
  makes_own SysmgrClient (Sysmgr.push_shell_cmd fresh c name) (Needs name [("command", AnyText)]).
Proof. intros [-> | ->]; unfold Sysmgr.push_shell_cmd; building. Qed.
Lemma eth_name_makes arg res :
  makes_own SysmgrClient (push_get_string_of_index fresh "get_eth_name" (SysRpc.rpc_index SysRpc.GET_ETH_NAME) arg res)
    (Needs "get_eth_name" [(arg, AnyText)]).
Proof. apply index_makes; [done|]. intros o Ht Hc Ha Hn. unfold own_request. by rewrite Hc, SysmgrSpec.sysmgr_type_of, Ha, Hn. Qed.
Lemma inbox_makes arg res :
  makes_own GatewayClient (push_get_string_of_index fresh "get_inbox_message" (XmppRpc.rpc_type_index XmppRpc.GET_INBOX) arg res)
    (Needs "get_inbox_message" [(arg, AnyText)]).
Proof. apply index_makes; [done|]. intros o Ht Hc Ha Hn. unfold own_request. by rewrite Hc, gateway_type_of, Ha, Hn. Qed.
Lemma message_makes c name a b :
  c = XmppRpc.SET_SEND_MESSAGE \/ c = XmppRpc.SET_SUBSCRIBE \/ c = XmppRpc.SET_ACCEPT_BUDDY ->
  makes_own GatewayClient (Xmproxy.push_send_msg_command fresh name (XmppRpc.rpc_type_index c) a b)
    (Needs name [(a, AnyText); (b, AnyText)]).
Proof. intros [-> | [-> | ->]]; unfold Xmproxy.push_send_msg_command; building. Qed.

(** *** What an option does *)

Definition client_consumer (c : client) : ADCmdlineHelperConsumer () H D :=
  match c with SysmgrClient => Sysmgr.consumer fresh | GatewayClient => Xmproxy.consumer fresh end.
Definition user c : obj -> option request_data := own_request (J := J) c.

(** A method that makes the command of a usage of arguments shorter than [n], or none. *)
Definition acts {A} (c : client) (n : nat) (u : option usage) (m : M A) : Prop := forall h,
  reading h -> Chain.open (CmdChain h) = true -> pConsumer h = Some tt -> Forall (fun x => (String.length x < n)%nat) (remaining h) ->
  undisturbed h (m h).2 /\
  grown (J := J) (user c) (CmdChain h) (CmdChain (m h).2) (u ≫= λ u, sent u (remaining h)).

Lemma makes_acts c u (m : M Z) : makes_own c m u -> acts c Proxy.JSON_RPC_METHOD_RESP_MAX_LENGTH (Some u) m.
Proof.
  intros Hm h Hr Ho Hc Hl. destruct (Hm h Hr Ho) as (z & s & p & o & l & -> & Hg & Hlong).
  split; [|exact Hg]. split; [done|]. split; [|done]. cbn. destruct o; [|apply orb_false_r].
  exfalso. specialize (Hlong eq_refl). apply Exists_exists in Hlong as (x & Hx & Hlong). rewrite Forall_forall in Hl. specialize (Hl x Hx).
  unfold long in Hlong. lia.
Qed.
Lemma reads_acts {A} c n (m : M A) : reads n m -> acts c n None m.
Proof. intros Hm h Hr Ho Hc Hl. destruct (Hm h Hr Hl) as (-> & Hu). by split_and!. Qed.
Lemma acts_then {A B} c n u (m : M A) (f : A -> M B) : acts c n u m -> (forall a h, (f a h).2 = h) -> acts c n u (m ≫= f).
Proof.
  intros Hm Hf h Hr Ho Hc Hl. specialize (Hm h Hr Ho Hc Hl). unfold mbind, method_bind. destruct (m h) as [a h']. by rewrite Hf.
Qed.

#[local] Hint Resolve action_makes int_read_makes int_makes string_makes string_read_makes address_makes numbers_makes task_makes
  info_makes version_makes update_makes ftp_makes tftp_makes log_line_makes shell_makes eth_name_makes inbox_makes message_makes : makes.
(** A command with a table has the number of its values as a literal. *)
Ltac makes_option :=
  first [ by auto with makes
        | match goal with
          | |- context [push_single_enum_get_set_command _ _ _ _ _ _ ?max] =>
              let n := eval vm_compute in (Z.to_nat max) in change max with (Z.of_nat n); apply enum_makes; [done|vm_compute; lia]
          | |- context [push_string_get_set_with_enum_arg _ _ _ _ _ _ ?max] =>
              let n := eval vm_compute in (Z.to_nat max) in change max with (Z.of_nat n); apply enum_string_makes; [done|vm_compute; lia]
          end ].

Lemma consumer_acts c arg :
  acts c Proxy.JSON_RPC_METHOD_RESP_MAX_LENGTH (client_usage c arg) (parse_my_cmdline_options (ADCmdlineHelperConsumer := client_consumer c) arg).
Proof.
  destruct c; unfold client_usage; cbn [parse_my_cmdline_options client_consumer Sysmgr.consumer Xmproxy.consumer].
  - unfold Sysmgr.parse_my_cmdline_options. cbv zeta. apply acts_then; [|done].
    destruct (SysRpc.rpc_type arg) as [[]|]; cbn [mbind option_bind sysmgr_usage];
      first [by apply reads_acts, reads_keeps, keeps_ret | apply makes_acts; makes_option].
  - unfold Xmproxy.parse_my_cmdline_options. cbv zeta. apply acts_then; [|done].
    destruct (XmppRpc.rpc_type arg) as [[]|]; cbn [mbind option_bind gateway_usage];
      first [by apply reads_acts, reads_keeps, keeps_ret | apply makes_acts; makes_option].
Qed.

(** How long a part of the argument may be. *)
Definition room (arg : Z) : nat :=
  if arg =? opt "i" then 255%nat else if arg =? opt "s" then 1024%nat else Proxy.JSON_RPC_METHOD_RESP_MAX_LENGTH.

Abbreviation parse_client_option c := (parse_option (H1 := client_consumer c) fresh).

Lemma subscribers_acts c arg :
  acts c Proxy.JSON_RPC_METHOD_RESP_MAX_LENGTH (client_usage c arg) (parse_subscribers_cmdline (H1 := client_consumer c) arg).
Proof.
  intros h Hr Ho Hc Hl. unfold parse_subscribers_cmdline, gets, mbind, method_bind. rewrite Hc. by apply consumer_acts.
Qed.
Ltac value_option :=
  apply reads_acts;
  match goal with
  | |- reads _ (when_given _) => apply reads_given; intros ? ?
  | |- reads _ parse_ip_list_opt => apply reads_ip_list
  | |- _ => apply reads_keeps
  end;
  repeat match goal with
  | |- keeps _ (if ?b then _ else _) => destruct b
  | |- keeps _ (set_opts _) => apply keeps_opts
  | |- keeps _ print_help => apply keeps_help
  | |- keeps _ (mret _) => by apply keeps_ret
  | |- keeps _ (_ ≫= _) => eapply keeps_bind; [first [apply keeps_opts | by apply keeps_strcpy] | intros ? ?]
  end.
(** What is known of an option with a certain letter. *)
Ltac letters :=
  unfold option_usage, own_usages, room; cbn [find_first fst snd];
  repeat match goal with |- context [opt ?a =? opt ?b] => let v := eval vm_compute in (opt a =? opt b) in change (opt a =? opt b) with v end;
  cbn [fmap option_fmap option_map snd].
Ltac own_option c k :=
  apply acts_then; [|done];
  first [ replace (option_usage c (opt k)) with (@None usage) by (by destruct c); by value_option
        | letters; apply makes_acts; makes_option ].
Lemma option_acts c arg : acts c (room arg) (option_usage c arg) (parse_client_option c arg).
Proof.
  unfold parse_option, parse_port_number_opt, parse_board_type_opt. cbv zeta.
  destruct (Z.eqb_spec arg (opt "?")) as [->|Hq]; [own_option c "?"%char|].
  destruct (Z.eqb_spec arg (opt "h")) as [->|Hh]; [own_option c "h"%char|]. cbn [orb].
  repeat match goal with |- acts _ _ _ (if arg =? opt ?k then _ else _) =>
    let E := fresh "E" in destruct (Z.eqb_spec arg (opt k)) as [E|?]; [rewrite E; clear E; own_option c k|] end.
  assert (find_first (fun x => opt x.1 =? arg) own_usages = None) as Hn.
  { apply find_first_None. unfold own_usages. intros x Hx. apply Z.eqb_neq. intros <-.
    repeat (apply elem_of_cons in Hx as [->|Hx]; [by auto|]). by apply elem_of_nil in Hx. }
  unfold option_usage. rewrite Hn. cbn [fmap option_fmap option_map]. apply acts_then; [|done].
  unfold room. rewrite !(proj2 (Z.eqb_neq _ _)) by done. apply subscribers_acts.
Qed.

(** Help ends the reading of the options. *)
Definition ends_reading (arg : Z) : bool := (arg =? opt "?") || (arg =? opt "h").
Lemma then_answer {A B} (m : M A) (f : A -> M B) (r : B) h : (forall a h', (f a h').1 = r) -> ((m ≫= f) h).1 = r.
Proof. intros Hf. unfold mbind, method_bind. destruct (m h) as [a h']. apply Hf. Qed.
Lemma option_answer c arg h :
  pConsumer h = Some tt -> (parse_client_option c arg h).1 = if ends_reading arg then Some 0 else None.
Proof.
  intros Hc. unfold ends_reading, parse_option. cbv zeta.
  destruct ((arg =? opt "?") || (arg =? opt "h")); [by apply then_answer|].
  repeat match goal with |- ((if ?b then _ else _) _).1 = _ => destruct b; [by apply then_answer|] end.
  unfold parse_subscribers_cmdline. unfold mbind at 1 2, method_bind at 1 2. cbn [gets]. rewrite Hc.
  assert ((parse_my_cmdline_options (ADCmdlineHelperConsumer := client_consumer c) (arg - CONSUMERS_OPTIONS_ARG_START_BOUNDARY) h).1 = 0) as Hz
    by (destruct c; by apply then_answer).
  by destruct (parse_my_cmdline_options _ h) as [z h']; simpl in *; subst.
Qed.

(** The requests the options ask for, in order, as far as the options are read. *)
Fixpoint wanted (c : client) (l : list (Z * option string)) : list request_data :=
  match l with
  | [] => []
  | (arg, optarg) :: l =>
      if ends_reading arg then []
      else (option_list (option_usage c arg ≫= λ u, sent u (pieces optarg)) ++ wanted c l)%list
  end.
(** Options whose arguments fit where they are copied. *)
Definition fits : Z * option string -> bool := fun '(arg, optarg) =>
  negb (has zero (default EmptyString optarg)) && forallb (fun x => (String.length x <? room arg)%nat) (pieces optarg).
Lemma fits_spec arg optarg :
  fits (arg, optarg) = true ->
  has zero (default EmptyString optarg) = false /\ Forall (fun x => (String.length x < room arg)%nat) (pieces optarg).
Proof.
  intros [Hz Hx]%andb_true_iff. split; [by apply negb_true_iff|]. apply Forall_forall. intros x Hin. rewrite forallb_forall in Hx.
  apply Nat.ltb_lt, Hx. by apply list_elem_of_In.
Qed.

Lemma grown_requests c k l u :
  grown (J := J) (user c) k l u ->
  Chain.open l = Chain.open k /\
  request (J := J) (user c) <$> Chain.items l = ((request (J := J) (user c) <$> Chain.items k) ++ (Some <$> option_list u))%list.
Proof.
  intros [Ho Hg]. split; [done|]. destruct u as [u|]; simpl.
  - destruct Hg as (x & -> & Hx). by rewrite fmap_app, <- Hx.
  - subst. by rewrite app_nil_r.
Qed.
Lemma options_read (c : client) (l : list (Z * option string)) h :
  Chain.open (CmdChain h) = true -> pConsumer h = Some tt -> forallb fits l = true ->
  let '(r, h') := parse_options (H1 := client_consumer c) fresh l h in
  r = (if existsb (fun x => ends_reading x.1) l then Some 0 else None) /\
  request (J := J) (user c) <$> Chain.items (CmdChain h') =
    ((request (J := J) (user c) <$> Chain.items (CmdChain h)) ++ (Some <$> wanted c l))%list /\
  undisturbed h h' /\ Chain.open (CmdChain h') = true.
Proof.
  intros Ho Hc Hl. revert h Ho Hc. induction l as [|[arg optarg] l IH]; intros h Ho Hc.
  { cbn. rewrite app_nil_r. by split_and!. }
  cbn [forallb] in Hl. apply andb_true_iff in Hl as [[Hz Hx]%fits_spec Hl]. specialize (IH Hl).
  cbn [parse_options wanted existsb fst]. unfold mbind, method_bind.
  destruct (new_subargument h optarg Hz) as (s & p & E & Hr & Hw). rewrite E.
  rewrite <- Hr in Hx. pose proof (option_answer c arg (reargued h s p (overrun h)) Hc) as Ha.
  destruct (option_acts c arg (reargued h s p (overrun h)) Hw Ho Hc Hx) as (Hu & Hg). rewrite Hr in Hg.
  assert (undisturbed h (parse_client_option c arg (reargued h s p (overrun h))).2) as Hu' by (etransitivity; [|exact Hu]; by split_and!).
  destruct (parse_client_option c arg _) as [r h']. cbn [fst snd] in *. subst r.
  apply grown_requests in Hg as [Ho' Hg]. cbn [CmdChain reargued set_rest set_subargument snd overrun] in *.
  destruct (ends_reading arg) eqn:Hend; simpl.
  - split; [done|]. split; [|by rewrite Ho']. rewrite Hg. do 2 f_equal.
    assert (option_usage c arg = None) as ->; [|done].
    apply orb_true_iff in Hend as [->%Z.eqb_eq| ->%Z.eqb_eq]; by destruct c.
  - specialize (IH h'). rewrite Ho', (proj1 Hu') in IH. specialize (IH Ho Hc). destruct (parse_options fresh l h') as [r'' h''].
    destruct IH as (-> & -> & Hu'' & Ho''). split; [done|]. split; [|split; [by transitivity h'|done]].
    by rewrite Hg, fmap_app, <- app_assoc.
Qed.
End clients.

(** ** The calls the services have *)

(** The parameters a service needs for a method it has: those every service has, then the
    objects it attaches. *)
Definition needed (c : client) (name : string) : option (list (string * option (list string))) :=
  match find_first (fun x => (x.1 =? name)%string) RpcMgr.own_methods with
  | Some (_, own) => Some (RpcMgrSpec.required_params own)
  | None =>
      match c with
      | SysmgrClient => (fun x => SysmgrSpec.required x.2) <$> find_first (fun x => (x.1.1 =? name)%string) SysmgrRpc.sysmgr_objects
      | GatewayClient => (fun x => XmppRpc.required x.2) <$> find_first (fun x => (x.1 =? name)%string) XmppRpc.xmpp_objects
      end
  end.
(** Arguments of these names and kinds give a service the parameter it needs. *)
Definition covers (l : list (string * argument_kind)) (x : string * option (list string)) : bool :=
  match find_first (fun y => (y.1 =? x.1)%string) l with
  | Some (_, k) =>
      match x.2, k with
      | None, _ => true
      | Some t, OneOf l => forallb (fun v => bool_decide (v ∈ t) && (String.length v <=? 254)%nat) l
      | Some _, _ => false
      end
  | None => false
  end.
Definition taken (c : client) (name : string) (l : list (string * argument_kind)) : bool :=
  bool_decide (NoDup l.*1) && match needed c name with Some ps => forallb (covers l) ps | None => false end.
(** What a usage sends without and with a value is taken. *)
Definition usage_taken (c : client) (u : usage) : bool :=
  match u with
  | Plain name | Bare name => taken c name []
  | GetSet get set p => taken c get [] && taken c set [p]
  | Needs name l => taken c name l
  | GetSetOf get set key p => taken c get [key] && taken c set [key; p]
  end.

(** Values that were made of arguments. *)
Definition made (x : string * argument_kind) (y : string * value) : Prop := x.1 = y.1 /\ exists a, read_as x.2 a = Some y.2.
Lemma given_made l args vals : given l args = Some vals -> Forall2 made l vals.
Proof.
  revert args vals. induction l as [|[n k] l IH]; intros args vals; cbn [given]; [by intros [= <-]|].
  destruct args as [|x args]; [done|]. destruct (read_as k x) as [v|] eqn:Ev; simpl; [|done].
  destruct (given l args) as [vals'|] eqn:Eg; simpl; [|done]. intros [= <-]. constructor; [split; [done|by exists x]|by eapply IH].
Qed.
Lemma sent_taken c u args m f :
  usage_taken c u = true -> sent u args = Some (m, f) ->
  exists l, taken c m l = true /\ Forall2 made l (default [] f).
Proof.
  destruct u as [name|name|get set [n k]|name l|get set [n k] [n' k']]; cbn [usage_taken sent].
  - intros Ht [= <- <-]. by exists [].
  - destruct args; [|done]. intros Ht [= <- <-]. by exists [].
  - intros [Hg Hs]%andb_true_iff. destruct args as [|x args]; [intros [= <- <-]; by exists []|].
    destruct (read_as k x) as [v|] eqn:Ev; intros [= <- <-]; [|by exists []]. exists [(n, k)]. split; [done|].
    repeat constructor. simpl. by exists x.
  - intros Ht. destruct (given l args) as [vals|] eqn:Eg; simpl; [|done]. intros [= <- <-]. exists l. split; [done|]. by eapply given_made.
  - intros [Hg Hs]%andb_true_iff. destruct args as [|x [|y args]]; [done| |]; destruct (read_as k x) as [v|] eqn:Ev; simpl; try done.
    + intros [= <- <-]. exists [(n, k)]. split; [done|]. repeat constructor. simpl. by exists x.
    + destruct (read_as k' y) as [v'|] eqn:Ev'; simpl; [|done]. intros [= <- <-]. exists [(n, k); (n', k')]. split; [done|].
      repeat constructor; simpl; by eexists.
Qed.

Section served.
Context {J D : Type} `{JsonClientLaws J D}.

Lemma taken_parameters c m l f ID text :
  taken c m l = true -> Forall2 made l (default [] f) ->
  json_tokener_parse text = Some (request_object m ID (json_fields (J := J) <$> f)) ->
  exists ps, needed c m = Some ps /\ forallb (RpcMgrSpec.param_ok (J := J) (D := D) text) ps = true.
Proof.
  unfold taken. intros [Hnd%bool_decide_eq_true Ht]%andb_true_iff Hm Hp. destruct (needed c m) as [ps|]; [|done].
  exists ps. split; [done|]. apply forallb_forall. intros x Hx. rewrite forallb_forall in Ht. specialize (Ht x Hx). unfold covers in Ht.
  destruct (find_first _ l) as [[n k]|] eqn:Ef; [|done]. apply find_first_Some in Ef as [Hin Hn%String.eqb_eq]. simpl in Hn. subst n.
  destruct (proj1 (list_elem_of_lookup _ _) Hin) as [i Hi]. destruct (Forall2_lookup_l _ _ _ _ _ Hm Hi) as ([n v] & Hv & Hn & a & Ha).
  simpl in Hn, Ha. subst n. destruct f as [vals|]; [|done]. simpl in Hv, Hm.
  assert (vals.*1 = l.*1) as Hnames.
  { clear -Hm. induction Hm as [|y z l vals [E _] _ IH]; csimpl; [done|]. by rewrite E, IH. }
  unfold RpcMgrSpec.param_ok. rewrite (parameter_of_request text m ID vals x.1 v); [| by rewrite Hnames |done|by eapply list_elem_of_lookup_2].
  destruct x.2 as [t|]; [|done]. destruct k as [| |l']; [done|done|]. cbn [read_as] in Ha. case_bool_decide as Hl; [|done].
  injection Ha as <-. rewrite forallb_forall in Ht. apply list_elem_of_In in Hl. specialize (Ht a Hl). apply andb_true_iff in Ht as [Hat Hlen%Nat.leb_le].
  cbn [value_text]. by rewrite truncate_ge.
Qed.

(** All usages, but of [--evUnsub] only what it sends with a value. *)
Lemma usages_taken c arg u :
  option_usage c arg = Some u -> usage_taken c u = true \/ arg = opt "y" /\ u = GetSet "unsubscribe_event" "unsubscribe_event" ("srvToken", AnyNumber).
Proof.
  unfold option_usage. destruct (find_first _ own_usages) as [[k u']|] eqn:Ef; simpl.
  - intros [= <-]. apply find_first_Some in Ef as [Hin Hk%Z.eqb_eq]. simpl in Hk. subst arg.
    unfold own_usages in Hin.
    repeat (apply elem_of_cons in Hin as [[= -> ->]|Hin]; [first [by right | left; destruct c; vm_compute; reflexivity]|]). by apply elem_of_nil in Hin.
  - unfold client_usage. intros Hu. left. destruct c.
    + destruct (SysRpc.rpc_type _) as [[]|]; try done; injection Hu as <-; vm_compute; reflexivity.
    + destruct (XmppRpc.rpc_type _) as [[]|]; try done; injection Hu as <-; vm_compute; reflexivity.
Qed.

Lemma option_served c arg u args m f ID text :
  option_usage c arg = Some u -> sent u args = Some (m, f) -> (arg = opt "y" -> args <> []) ->
  json_tokener_parse text = Some (request_object m ID (json_fields (J := J) <$> f)) ->
  exists ps, needed c m = Some ps /\ forallb (RpcMgrSpec.param_ok (J := J) (D := D) text) ps = true.
Proof.
  intros Hu Hs Hy Hp. destruct (usages_taken c arg u Hu) as [Ht|[Ha ->]].
  - destruct (sent_taken c u args m f Ht Hs) as (l & Hl & Hm). by eapply taken_parameters.
  - destruct args as [|x args]; [by specialize (Hy Ha)|]. injection Hs as <- <-.
    eapply (taken_parameters c _ [("srvToken", AnyNumber)]); [destruct c; vm_compute; reflexivity| |exact Hp].
    repeat constructor. simpl. by exists x.
Qed.

(** The service of the client [c] has the method [m], and finds what it needs in every text
    that is read as its request. *)
Definition serves (c : client) (x : request_data) : Prop :=
  exists ps, needed c x.1 = Some ps /\ forall ID text,
    json_tokener_parse text = Some (request_object x.1 ID (json_fields (J := J) <$> x.2)) ->
    forallb (RpcMgrSpec.param_ok (J := J) (D := D) text) ps = true.
(** [--evUnsub] has a value. *)
Definition unsubscribes : Z * option string -> bool := fun '(arg, optarg) =>
  negb (arg =? opt "y") || negb (bool_decide (pieces optarg = [])).
Lemma usage_served c arg u args x :
  option_usage c arg = Some u -> sent u args = Some x -> (arg = opt "y" -> args <> []) -> serves c x.
Proof.
  intros Hu Hs Hy. destruct x as [m f].
  assert (exists ps, needed c m = Some ps) as [ps Hps].
  { destruct (usages_taken c arg u Hu) as [Ht|[Ha ->]].
    - destruct (sent_taken c u args m f Ht Hs) as (l & Hl & _). unfold taken in Hl. destruct (needed c m) as [ps|]; [by exists ps|].
      by rewrite andb_false_r in Hl.
    - destruct args as [|x args]; [by specialize (Hy Ha)|]. injection Hs as <- <-. destruct c; by eexists. }
  exists ps. split; [done|]. intros ID text Ht. destruct (option_served c arg u args m f ID text Hu Hs Hy Ht) as (ps' & Hps' & Hok).
  cbn in Hps. rewrite Hps in Hps'. by injection Hps' as <-.
Qed.
Lemma wanted_served c l : forallb unsubscribes l = true -> Forall (serves c) (wanted c l).
Proof.
  induction l as [|[arg optarg] l IH]; cbn [forallb wanted]; [constructor|]. intros [Hy Hl]%andb_true_iff.
  destruct (ends_reading arg); [constructor|]. apply Forall_app. split; [|by apply IH].
  destruct (option_usage c arg) as [u|] eqn:Hu; simpl; [|constructor]. destruct (sent u (pieces optarg)) as [x|] eqn:Hs; simpl; [|constructor].
  constructor; [|constructor]. eapply usage_served; [exact Hu|exact Hs|]. intros -> Hp. unfold unsubscribes in Hy. rewrite Hp in Hy. done.
Qed.

End served.

(** ** The property at a concrete option *)

Import Json Proxy.Echo ClientSpec.Script.

Definition devop_options : list (Z * option string) :=
  [(SysRpc.rpc_index SysRpc.GET_DEV_OP + CONSUMERS_OPTIONS_ARG_START_BOUNDARY, Some "standby"); (opt "z", None); (opt "y", Some "3")].
Definition any_command : CmdExecutionObj Z := command_of 0 0 EmptyString EmptyString EmptyString 0.
#[local] Instance no_machine : Host () :=
  {| host_system _ h := (0, h); host_popen _ h := (None, h); host_file _ _ := None; host_write _ _ h := (false, h);
     host_interfaces _ := None; host_is_file _ _ := false |}.
