(* ===== verification/CmdlineRun.v ===== *)
(** * Running the commands of the command line

    The client starts a worker for every address with copies of all commands, waits for them
    and prints what they logged. *)
From S2P Require Import Prelude GenericChain Text SysInfo Common Client ClientSpec CmdProcessor CmdProcessorSpec.
From S2P Require Import Cmdline CmdlineClients CmdlineSpec CmdlineOptions.
From S2P Require Proxy XmppMgr SysmgrSpec.
Local Open Scope string_scope.
Local Open Scope Z_scope.

(** ** The workers *)

Section workers.
Context {H J D : Type} `{Host H} `{JsonC J D}.
Abbreviation M := (method () H D).
Abbreviation obj := (CmdExecutionObj D).
Implicit Types h : ADCmdlineHelper () H D.
Variable fresh : obj.
Hypothesis fresh_params : exists a b c d l, params fresh = a :: b :: c :: d :: l.

(** A copy of a command asks for the same. *)
Lemma copied_param (o : obj) i :
  (4 <= length (params o))%nat -> (i < 4)%nat ->
  param_name (param (J := J) (copy_cmd_exec_obj fresh o) i) = param_name (param (J := J) o i) /\
  param_value (param (J := J) (copy_cmd_exec_obj fresh o) i) = param_value (param (J := J) o i) /\
  int_value (param (J := J) (copy_cmd_exec_obj fresh o) i) = int_value (param (J := J) o i).
Proof.
  intros Hl Hi. destruct fresh_params as (a & b & c & d & l & Hf). unfold param. cbn [params copy_cmd_exec_obj]. rewrite Hf.
  destruct (params o) as [|a' [|b' [|c' [|d' l']]]]; simpl in Hl; try lia.
  do 4 (destruct i as [|i]; [by split_and!|]). lia.
Qed.
Lemma copied_request c (o : obj) (x : request_data) :
  request (J := J) (own_request (J := J) c) o = Some x ->
  request (J := J) (own_request (J := J) c) (copy_cmd_exec_obj fresh o) = Some x.
Proof.
  unfold request. destruct (Nat.ltb_spec (length (params o)) 4) as [|Hl]; [done|]. intros Hx.
  assert ((length (params (copy_cmd_exec_obj fresh o)) <? 4)%nat = false) as ->.
  { destruct fresh_params as (a & b & c' & d & l & Hf). cbn [params copy_cmd_exec_obj]. rewrite length_imap, length_zip, Hf. cbn [length].
    apply Nat.ltb_ge. lia. }
  pose proof (copied_param o 0 Hl ltac:(lia)) as (N0 & V0 & I0). pose proof (copied_param o 1 Hl ltac:(lia)) as (N1 & V1 & I1).
  pose proof (copied_param o 2 Hl ltac:(lia)) as (N2 & V2 & I2).
  rewrite <- Hx. unfold built_in, label, task_status, write_only, parameters, own_request, text_param, int_param.
  cbn [cmd_type copy_cmd_exec_obj act get_rpc_name set_rpc_name command].
  change (param (J := J) {| command := _ |}) with (param (J := J) (copy_cmd_exec_obj fresh o)).
  by rewrite ?N0, ?V0, ?I0, ?N1, ?V1, ?I1, ?N2, ?V2, ?I2.
Qed.

(** *** Starting them *)

Lemma commands_copied (dest : Chain.chain obj) src :
  Chain.open dest = true ->
  let '(r, dest') := copy_commands fresh dest src in
  r = 0 /\ Chain.open dest' = true /\ Chain.items dest' = (Chain.items dest ++ map (copy_cmd_exec_obj fresh) src)%list.
Proof.
  revert dest. induction src as [|o src IH]; intros dest Ho; cbn [copy_commands map]; [by rewrite app_nil_r|].
  unfold Chain.put. rewrite Ho. cbn [Z.eqb]. match goal with |- context [copy_commands fresh ?d src] => specialize (IH d eq_refl) end.
  destruct (copy_commands fresh _ src) as [r dest']. destruct IH as (-> & Ho' & ->). split; [done|]. split; [done|].
  cbn [Chain.items]. by rewrite <- app_assoc.
Qed.

(** The worker of an address, with the commands of the program [h]. *)
Definition works_for (c : client) h (a : string) (w : session D) : Prop :=
  CmdProcessor.ip_addr w = a /\ CmdProcessor.port w = port (opts h) /\ CmdProcessor.running w = true /\
  request (J := J) (own_request (J := J) c) <$> Chain.items (cmd_chain w) =
    request (J := J) (own_request (J := J) c) <$> Chain.items (CmdChain h).
Definition with_lists h (a : Chain.chain string) (w : Chain.chain (session D)) : ADCmdlineHelper () H D :=
  (set_workers w (set_ip_chain a h).2).2.
(** Commands with a request each. *)
Definition commands_known (c : client) h : Prop :=
  Chain.items (CmdChain h) <> [] /\ Forall (fun o => is_Some (request (J := J) (own_request (J := J) c) o)) (Chain.items (CmdChain h)).

Lemma worker_started c h a p :
  commands_known c h -> Chain.open (ClientWorkersList h) = true -> p = port (opts h) ->
  exists w l, start_new_client_worker fresh a p h = (0, with_lists h (ipChain h) l) /\ works_for c h a w /\
    Chain.open l = true /\ Chain.items l = (Chain.items (ClientWorkersList h) ++ [w])%list.
Proof.
  intros [Hne Hk] Ho ->. unfold start_new_client_worker. unfold mbind at 1, method_bind at 1. cbn [gets].
  unfold CmdProcessor.run_commands. cbv zeta. cbn [cmd_chain running SrvSockConn output_msg_chain negb].
  unfold mbind, method_bind. cbn [gets]. unfold Chain.put. rewrite Ho. cbn [Z.eqb].
  eexists _, _. split; [by destruct h|]. split; [|by split].
  split; [done|]. split; [done|]. split; [done|]. cbn [cmd_chain]. unfold copy_command_chain.
  assert ((Chain.size (CmdChain h) =? 0) = false) as ->.
  { apply Z.eqb_neq. unfold Chain.size. by destruct (Chain.items (CmdChain h)). }
  match goal with |- context [copy_commands fresh ?d ?l] =>
    pose proof (commands_copied d l eq_refl) as Hc; destruct (copy_commands fresh d l) as [r dest] end.
  destruct Hc as (_ & _ & Hd). cbn [snd]. rewrite Hd. cbn [Chain.items Chain.empty_chain app].
  clear Hne Hd. induction Hk as [|o l [x Hx] Hl IH]; [done|]. csimpl. rewrite Hx, (copied_request c o x Hx). by f_equal.
Qed.
Lemma workers_started c n h :
  commands_known c h -> Chain.open (ClientWorkersList h) = true -> Chain.open (ipChain h) = true ->
  (length (Chain.items (ipChain h)) < n)%nat ->
  exists ips ws new, start_workers fresh n h = ((), with_lists h ips ws) /\ Chain.items ips = [] /\
    Forall2 (works_for c h) (Chain.items (ipChain h)) new /\
    Chain.items ws = (Chain.items (ClientWorkersList h) ++ new)%list /\ Chain.open ips = true /\ Chain.open ws = true.
Proof.
  revert h. induction n as [|n IH]; intros h Hk Hw Ho Hn; [lia|]. cbn [start_workers]. unfold mbind at 1, method_bind at 1. cbn [gets].
  unfold Chain.get. rewrite Ho. destruct (Chain.items (ipChain h)) as [|a l] eqn:Ei; cbv beta iota.
  - exists (ipChain h), (ClientWorkersList h), []. rewrite app_nil_r. split; [by destruct h|]. by split_and!.
  - unfold mbind, method_bind. cbn [gets].
    change (set_ip_chain (Chain.set_items (ipChain h) l) h) with ((), with_lists h (Chain.set_items (ipChain h) l) (ClientWorkersList h)).
    cbv beta iota.
    destruct (worker_started c (with_lists h (Chain.set_items (ipChain h) l) (ClientWorkersList h)) a _ Hk Hw eq_refl)
      as (w & ws & -> & Hwf & Hwo & Hwi).
    edestruct (IH (with_lists h (Chain.set_items (ipChain h) l) ws)) as (ips & ws' & new & E & Hi & Hf & Hws & Ho1 & Ho2);
      [exact Hk|exact Hwo|exact Ho|simpl in Hn |- *; lia|].
    exists ips, ws', (w :: new). split; [exact E|]. split; [done|]. split; [constructor; [exact Hwf|exact Hf]|].
    split; [|done]. rewrite Hws. change (ClientWorkersList (with_lists h _ ws)) with ws. rewrite Hwi. by rewrite <- app_assoc.
Qed.

(** *** Running them *)

Variable later : nat -> nat -> session D -> session D.

(** The worker [w] at the place [i] has ended when it was looked at [t] times, or is no
    longer waited for. *)
Definition ended (i : nat) (w : session D) (t : nat) : Prop :=
  (t <= Z.to_nat MAX_SRV_RESPONSE_TIMEOUT)%nat /\ (forall j, (j < t)%nat -> running (later i j w) = true) /\
  ((t < Z.to_nat MAX_SRV_RESPONSE_TIMEOUT)%nat -> running (later i t w) = false).
(** What is printed of the workers from the place [i] on. *)
Inductive prints : nat -> list (session D) -> list OutputPrintMsgObj -> Prop :=
| prints_none i : prints i [] []
| prints_more i w t l ms : ended i w t -> prints (Datatypes.S i) l ms -> prints i (w :: l) ((print_command_result (later i t w)).1 ++ ms).

Lemma wait_for_spec (f : nat -> bool) n i :
  (i <= wait_for f n i <= i + n)%nat /\ (forall j, (i <= j < wait_for f n i)%nat -> f j = true) /\
  ((wait_for f n i < i + n)%nat -> f (wait_for f n i) = false).
Proof.
  revert i. induction n as [|n IH]; intros i; cbn [wait_for]; [repeat split; lia|]. destruct (f i) eqn:E.
  - destruct (IH (Datatypes.S i)) as (Hr & Hj & Hf). split; [lia|]. split.
    + intros j Hij. destruct (decide (j = i)) as [->|]; [done|]. apply Hj. lia.
    + intros Hlt. apply Hf. lia.
  - split; [lia|]. split; [lia|done].
Qed.
Lemma wait_prints i l : prints i l (wait_for_workers later i l).
Proof.
  revert i. induction l as [|w l IH]; intros i; cbn [wait_for_workers]; [constructor|]. cbv zeta. constructor; [|apply IH].
  set (n := Z.to_nat MAX_SRV_RESPONSE_TIMEOUT). destruct (wait_for_spec (fun t => running (later i t w)) n 0) as (Hr & Hj & Hf).
  split; [lia|]. split; [|exact Hf]. intros j Hlt. apply Hj. lia.
Qed.

(** The addresses the commands are for. *)
Definition addresses h : list string := match Chain.items (ipChain h) with [] => [ip (opts h)] | l => l end.

Lemma client_run c h :
  commands_known c h -> Chain.open (ipChain h) = true -> Chain.open (ClientWorkersList h) = true ->
  Chain.items (ClientWorkersList h) = [] ->
  let '(r, h') := Cmdline.run_commands fresh later h in
  r = 0 /\ Chain.items (ipChain h') = [] /\ Chain.items (ClientWorkersList h') = [] /\
  exists ws ms, Forall2 (works_for c h) (addresses h) ws /\ prints 0 ws ms /\ printed h' = (printed h ++ ms)%list.
Proof.
  intros Hk Hi Ho Hw. unfold Cmdline.run_commands. unfold mbind at 1, method_bind at 1. cbn [gets].
  assert ((Chain.size (CmdChain h) =? 0) = false) as ->.
  { apply Z.eqb_neq. unfold Chain.size. destruct Hk as [Hne _]. by destruct (Chain.items (CmdChain h)). }
  unfold mbind at 1 2 3, method_bind at 1 2 3. cbn [gets].
  assert (exists r h1, (if Chain.size (ipChain h) =? 0 then push_ip_to_list (ip (opts h)) else mret 0) h = (r, h1) /\
    commands_known c h1 /\ Chain.items (ipChain h1) = addresses h /\ Chain.open (ipChain h1) = true /\
    ClientWorkersList h1 = ClientWorkersList h /\ printed h1 = printed h /\ CmdChain h1 = CmdChain h /\ opts h1 = opts h)
    as (r & h1 & E & Hk1 & Ha & Hi1 & Hw1 & Hp1 & Hc1 & Ho1).
  { unfold addresses, Chain.size. destruct (Chain.items (ipChain h)) as [|a l] eqn:Ei; simpl.
    - unfold push_ip_to_list, mbind, method_bind, strcpy, Chain.put.
      cbn. rewrite Hi. cbn.
      eexists _, _. split; [reflexivity|]. split; [exact Hk|]. cbn. by rewrite Ei.
    - exists 0, h. by split_and!. }
  rewrite E. cbv beta iota. unfold mbind at 1 2, method_bind at 1 2. cbn [gets].
  edestruct (workers_started c (Datatypes.S (length (Chain.items (ipChain h1)))) h1) as (ips & ws & new & Es & Hips & Hf & Hws & Ho1' & Ho2);
    [done|by rewrite Hw1|done|lia|]. rewrite Es.
  rewrite Hw1, Hw in Hws. cbn [app] in Hws.
  unfold wait_for_client_workers_to_finish, delete_client_workers, mbind, method_bind. cbn. rewrite Hws, Hips. split; [done|]. split; [done|].
  split; [done|]. exists new, (wait_for_workers later 0 new). rewrite Hp1. split; [|split; [apply wait_prints|done]].
  rewrite <- Ha. eapply Forall2_impl; [exact Hf|]. intros a w (Hwa & Hwp & Hwr & Hwc). unfold works_for. by rewrite <- Ho1, <- Hc1.
Qed.

(** *** The whole program *)

(** A client that has not read its options, and the port of its service. *)
Definition new_client (c : client) (m : H) : ADCmdlineHelper () H D :=
  match c with SysmgrClient => Sysmgr.SysmgrCltCmdline m | GatewayClient => Xmproxy.XmproxyCltCmdline m end.
Definition service_port (c : client) : Z :=
  match c with SysmgrClient => XmppMgr.ADCMN_PORT_SYSMGR | GatewayClient => XmppMgr.ADCMN_PORT_XMPROXY end.
Abbreviation read_options c l h := (parse_options (H1 := client_consumer fresh c) fresh l h).2.

Definition with_port (p : Z) h : ADCmdlineHelper () H D := (set_opts (set_port p) h).2.
Lemma options_count c m :
  (Chain.size (OptionsChain (new_client c m)) =? 0) || (Chain.size (OptionsChain (new_client c m)) >=? MAX_LONG_OPT_ITEMS) = false.
Proof. destruct c; vm_compute; reflexivity. Qed.
(** The worker of an address when the options gave [h] and ask for the requests [l]. *)
Definition started_with (c : client) h (l : list request_data) (a : string) (w : session D) : Prop :=
  CmdProcessor.ip_addr w = a /\
  CmdProcessor.port w = (if port (opts h) <=? 0 then service_port c else port (opts h)) /\
  running w = true /\
  request (J := J) (own_request (J := J) c) <$> Chain.items (cmd_chain w) = Some <$> l.

Lemma command_line_result `{Getopt} (c : client) (argv : list string) (m : H) :
  let h0 := new_client c m in
  let l := getopt_long argv short_options (Chain.items (OptionsChain h0)) in
  let h1 := read_options c l h0 in
  forallb fits l = true -> existsb (fun x => ends_reading x.1) l = false -> wanted c l <> [] -> autotest (opts h1) = false ->
  let '(r, h') := parse_cmdline_arguments (H1 := client_consumer fresh c) fresh later argv h0 in
  r = 0 /\ exists ws, prints 0 ws (printed h') /\ Forall2 (started_with c h1 (wanted c l)) (addresses h1) ws.
Proof.
  intros h0 l h1 Hl Hend Hwant Hauto.
  assert (fill_long_options_table h0 = (Some (Chain.items (OptionsChain h0)), h0)) as Ht.
  { unfold fill_long_options_table, mbind, method_bind. unfold gets, h0. by rewrite options_count. }
  pose proof (options_read (J := J) fresh fresh_params c l h0) as Hread. unfold h1 in *. clear h1.
  destruct (parse_options fresh l h0) as [r h1] eqn:Eh1. cbn [snd] in *.
  destruct Hread as (Hr & Hreq & (Hpc & _ & Hmode & Hpr & Hws & Hips) & Hopen); [by destruct c|by destruct c|done|].
  rewrite Hend in Hr. subst r.
  assert (Chain.items (CmdChain h0) = []) as Hc0 by (by destruct c). rewrite Hc0 in Hreq. cbn [fmap list_fmap app] in Hreq.
  unfold parse_cmdline_arguments. unfold mbind at 1, method_bind at 1. rewrite Ht. unfold mbind at 1, method_bind at 1.
  change (getopt_long argv short_options (Chain.items (OptionsChain h0))) with l. rewrite Eh1.
  unfold mbind at 1 2, method_bind at 1 2. cbn [gets].
  assert ((if port (opts h1) <=? 0
           then p ← get_subscribers_server_port (H1 := client_consumer fresh c); set_opts (set_port p) else mret ()) h1 =
          ((), with_port (if port (opts h1) <=? 0 then service_port c else port (opts h1)) h1)) as ->.
  { destruct (port (opts h1) <=? 0); [|by destruct h1 as [????????[]]].
    unfold get_subscribers_server_port, mbind, method_bind. cbn [gets]. rewrite Hpc. by destruct c. }
  set (p := if port (opts h1) <=? 0 then service_port c else port (opts h1)).
  unfold mbind, method_bind. cbn [gets]. change (my_mode (with_port p h1)) with (my_mode h1). rewrite Hmode.
  replace (my_mode h0) with CMDLINE_HELPER_MODE_CLIENT by (by destruct c). cbn [set_opts set_rest].
  match goal with |- context [autotest (opts ?h2)] => set (h' := h2) end.
  change (autotest (opts h')) with (autotest (opts h1)). rewrite Hauto.
  pose proof (client_run c h') as Hrun.
  destruct (Cmdline.run_commands fresh later h') as [r h2]. destruct Hrun as (-> & _ & _ & ws & ms & Hf & Hm & Hp).
  - split; [|].
    + intros Hno. change (CmdChain h') with (CmdChain h1) in Hno. rewrite Hno in Hreq. by destruct (wanted c l).
    + change (CmdChain h') with (CmdChain h1). clear -Hreq. revert Hreq. generalize (wanted c l).
      induction (Chain.items (CmdChain h1)) as [|o k IH]; [by constructor|]. intros [|x w] [= Hx Hk]; constructor; [by exists x|by eapply IH].
  - change (ipChain h') with (ipChain h1). rewrite Hips. by destruct c.
  - change (ClientWorkersList h') with (ClientWorkersList h1). rewrite Hws. by destruct c.
  - change (ClientWorkersList h') with (ClientWorkersList h1). rewrite Hws. by destruct c.
  - split; [done|]. exists ws. split.
    + rewrite Hp. change (printed h') with (printed h1). rewrite Hpr. replace (printed h0) with (@nil OutputPrintMsgObj) by (by destruct c). exact Hm.
    + eapply Forall2_impl; [exact Hf|]. intros a w (Ha & Hport & Hrunning & Hw). split; [exact Ha|]. split; [exact Hport|].
      split; [exact Hrunning|]. rewrite Hw. exact Hreq.
Qed.
(** C34: Every server is sent what the options say: a client whose options fit and ask for
    something, and not for help or a test, starts one worker for each address, in order
    ([--ip], or 127.0.0.1), at the port that was given or that of its service, with the
    requests of all options in order; it waits for each until it has ended, or 120000 times,
    and prints what it logged. *)
Theorem command_line_run `{Getopt} (c : client) (argv : list string) (m : H) (l : list (Z * option string)) h1 r h' :
  l = getopt_long argv short_options (Chain.items (OptionsChain (new_client c m))) -> h1 = read_options c l (new_client c m) ->
  forallb fits l = true -> existsb (fun x => ends_reading x.1) l = false -> wanted c l <> [] -> autotest (opts h1) = false ->
  parse_cmdline_arguments (H1 := client_consumer fresh c) fresh later argv (new_client c m) = (r, h') ->
  r = 0 /\ exists ws, prints 0 ws (printed h') /\ Forall2 (started_with c h1 (wanted c l)) (addresses h1) ws.
Proof.
  intros -> -> Hl Hend Hwant Hauto Hrun. pose proof (command_line_result c argv m Hl Hend Hwant Hauto) as Hr. by rewrite Hrun in Hr.
Qed.
End workers.

(** ** The properties at a concrete command line *)

Import Json Proxy.Echo SysmgrSpec.Machine.

Module CommandLine.
(** What [getopt_long()] makes of the arguments [--name] and [--name=value]. *)
Definition read_argument (table : list OptionsEntryObj) (a : string) : Z * option string :=
  match rev (split "=" a) with
  | value :: name :: _ => (match find_first (fun e => ("--" ++ cmd_name e =? name)%string) table with Some e => val e | None => opt "?" end, Some value)
  | _ => (match find_first (fun e => ("--" ++ cmd_name e =? a)%string) table with Some e => val e | None => opt "?" end, None)
  end.
#[export] Instance getopt : Getopt := {| getopt_long argv _ table := map (read_argument table) argv |}.
Definition fresh : CmdExecutionObj Z := command_of 0 0 EmptyString EmptyString EmptyString 0.
(** Workers that end when they are looked at for the third time, with the result of the
    place they have. *)
Definition later (i t : nat) (w : session Z) : session Z :=
  {| SrvSockConn := SrvSockConn w; cmd_chain := cmd_chain w;
     output_msg_chain := Chain.set_items (output_msg_chain w)
       [{| msg_ip := ip_addr w; rpc_method_name := "get_ready_status"; action := Act.READ; CmdProcessor.result := "Success";
           result_parameter := None; exec_time := Z.of_nat i |}];
     ip_addr := ip_addr w; CmdProcessor.port := CmdProcessor.port w; running := (t <? 2)%nat; looked := looked w |}.
Definition argv : list string :=
  ["--ip=10.0.0.1,10.0.0.2"; "--mac=eth0,00:11:22:33:44:55"; "--readysts"; "--shellcmd=ls"; "--fversion=wrong"].
Definition options_of (argv : list string) : list (Z * option string) :=
  getopt_long argv short_options (Chain.items (OptionsChain (new_client (D := Z) SysmgrClient ([] : list string)))).
End CommandLine.
Import CommandLine.
Abbreviation run :=
  (parse_cmdline_arguments (H1 := client_consumer fresh SysmgrClient) fresh later CommandLine.argv (new_client SysmgrClient ([] : list string))).

(** The version of no module is not asked for. *)
Example wanted_ex :
  wanted SysmgrClient (options_of CommandLine.argv) =
    [("set_mac_addr", Some [("iface", VString "eth0"); ("addr", VString "00:11:22:33:44:55")]); ("get_ready_status", None);
     ("run_shellcmd", Some [("command", VString "ls")])].
Proof. vm_compute. reflexivity. Qed.
(** Of a command with a comma the rest is not sent, and of a message. *)
Example comma_ex :
  wanted SysmgrClient (options_of ["--shellcmd=ls a,b"]) = [("run_shellcmd", Some [("command", VString "ls a")])] /\
  wanted SysmgrClient (options_of ["--shellcmd=,b"]) = [("run_shellcmd", Some [("command", VString "")])].
Proof. vm_compute. done. Qed.
(** A value that is none of the table reads. *)
Example unknown_value_ex : wanted SysmgrClient (options_of ["--devop=onn"]) = [("get_device_operation", None)].
Proof. vm_compute. reflexivity. Qed.

Lemma fits_ex : forallb fits (options_of CommandLine.argv) = true.
Proof. vm_compute. reflexivity. Qed.
Lemma no_help_ex : existsb (fun x => ends_reading x.1) (options_of CommandLine.argv) = false.
Proof. vm_compute. reflexivity. Qed.
Definition read_argv :=
  (parse_options (H1 := client_consumer fresh SysmgrClient) fresh (options_of CommandLine.argv) (new_client SysmgrClient [])).2.
Lemma no_test_ex : autotest (opts read_argv) = false.
Proof. vm_compute. reflexivity. Qed.
Lemma printed_ex : length (printed run.2) = 2%nat.
Proof. vm_compute. reflexivity. Qed.
Lemma options_ex :
  options_of CommandLine.argv =
    getopt_long CommandLine.argv short_options (Chain.items (OptionsChain (new_client (D := Z) SysmgrClient ([] : list string)))).
Proof. unfold options_of. reflexivity. Qed.
Lemma read_ex :
  read_argv = (parse_options (H1 := client_consumer fresh SysmgrClient) fresh (options_of CommandLine.argv) (new_client SysmgrClient [])).2.
Proof. unfold read_argv. reflexivity. Qed.
Lemma addresses_ex : addresses read_argv = ["10.0.0.1"; "10.0.0.2"].
Proof. vm_compute. reflexivity. Qed.
Lemma asked_ex : wanted SysmgrClient (options_of CommandLine.argv) <> [].
Proof. rewrite wanted_ex. discriminate. Qed.
Lemma fresh_ex : exists a b c d l, params fresh = a :: b :: c :: d :: l.
Proof. by eexists _, _, _, _, _. Qed.
Lemma command_line_run_witness :
  exists r h ws, run = (r, h) /\ r = 0 /\ prints later 0 ws (printed h) /\
    Forall2 (started_with (J := Json.value) SysmgrClient read_argv (wanted SysmgrClient (options_of CommandLine.argv)))
      ["10.0.0.1"; "10.0.0.2"] ws /\ length (printed h) = 2%nat.
Proof.
  pose proof printed_ex as Hp. rewrite <- addresses_ex. destruct run as [r h] eqn:E.
  destruct (command_line_run (J := Json.value) fresh fresh_ex later SysmgrClient CommandLine.argv [] (options_of CommandLine.argv)
    read_argv r h options_ex read_ex fits_ex no_help_ex asked_ex no_test_ex E) as (Hr & ws & Hw & Hf).
  exists r, h, ws. exact (conj eq_refl (conj Hr (conj Hw (conj Hf Hp)))).
Defined.
