(* ===== verification/CmdlineOwn.v ===== *)
(** * Running the commands of the clients' own types

    What a command asks for (file CmdlineOptions) is what the client's [run_my_commands()]
    sends. *)
From S2P Require Import Prelude GenericChain Text Io SysInfo Common NetClient NetClientSpec Client ClientSpec CmdProcessor CmdProcessorSpec.
From S2P Require Import Cmdline CmdlineClients CmdlineSpec CmdlineOptions.
From S2P Require Proxy SysRpc XmppRpc.
Local Open Scope string_scope.
Local Open Scope Z_scope.

(** A call that is one exchange with the request that is wanted. *)
Ltac exchanged := eapply call_ok_eq; [|first [apply exchange_answer | apply exchange_answer_or]]; reflexivity.

Lemma sysmgr_index n c : SysRpc.rpc_type n = Some c -> n = SysRpc.rpc_index c.
Proof.
  unfold SysRpc.rpc_type. destruct (Z.ltb_spec n 0) as [|Hn]; [done|]. rewrite <- (Z2Nat.id n) at 2 by done.
  generalize (Z.to_nat n). intros k. do 36 (destruct k as [|k]; [by intros [= <-]|]). done.
Qed.

Section own.
Context {K J D : Type} `{KernelLaws K} `{JsonClientLaws J D}.
Abbreviation obj := (CmdExecutionObj D).
Implicit Types (s : session D) (o : obj) (w : traced K).

Definition run_own (c : client) (o : obj) : io (traced K) (session D) (Z * obj) :=
  match c with SysmgrClient => Sysmgr.run_my_commands (J := J) o | GatewayClient => Xmproxy.run_my_commands (J := J) o end.

(** The request went out, whole unless the code is [RPC_SRV_RESULT_UNKNOWN], and at most
    one message was logged, of the method with the code's name. *)
Definition called (name : string) (f : option (list (string * value))) s w s' w' : Prop :=
  let text := request_text name (req_id (SrvSockConn s)) (json_fields (J := J) <$> f) in
  exists c' l' ms n x, s' = with_output (with_conn s c') l' /\ Chain.open l' = true /\
    Chain.items l' = (Chain.items (output_msg_chain s) ++ ms)%list /\ (length ms <= 1)%nat /\
    Forall (fun m => rpc_method_name m = name /\ convert_server_result_to_string x = Some (CmdProcessor.result m)) ms /\
    rpc_ok c' w' /\ req_id c' = i32 (req_id (SrvSockConn s) + 1) /\ 0 <= x < Rpc.NONE /\
    written w' = (written w ++ take n text)%list /\ (x <> Rpc.UNKNOWN -> length text <= n)%nat.

Lemma call_then {A} name f (call : io (traced K) ADJsonRpcClient (option Z * list (cell D)))
    (k : option Z * list (cell D) -> io (traced K) (session D) A) s w Q :
  call_ok name (json_fields (J := J) <$> f) call -> ready s w ->
  (forall c' x cells w', let s' := with_conn s c' in
     Chain.open (output_msg_chain s') = true -> 0 <= x < Rpc.NONE ->
     (forall ms l', Chain.items l' = (Chain.items (output_msg_chain s) ++ ms)%list -> Chain.open l' = true -> (length ms <= 1)%nat ->
        Forall (fun m => rpc_method_name m = name /\ convert_server_result_to_string x = Some (CmdProcessor.result m)) ms ->
        called name f s w (with_output s' l') w') ->
     ends s' w' (k (Some x, cells)) Q) ->
  ends s w (on_conn call ≫= k) Q.
Proof.
  intros Hc (Hok & Hid & Ho) Hk. eapply ends_bind; [by apply on_conn_ends, Hc|].
  intros [code cells] s1 w1 (c' & -> & Hok' & Hid' & x & n & Hx & Hr & Hw & Hn). simpl in Hx. subst code.
  apply Hk; [exact Ho|exact Hr|]. intros ms l' Hl Hlo Hms Hf. by exists c', l', ms, n, x.
Qed.
Lemma logged name a x v (r : Z * obj) s w (Q : Z * obj -> session D -> traced K -> Prop) :
  Chain.open (output_msg_chain s) = true -> 0 <= x < Rpc.NONE ->
  (forall l' m, Chain.items l' = (Chain.items (output_msg_chain s) ++ [m])%list -> Chain.open l' = true ->
     rpc_method_name m = name -> convert_server_result_to_string x = Some (CmdProcessor.result m) -> Q r (with_output s l') w) ->
  ends s w (_ ← log_print_message name a x v; mret r) Q.
Proof.
  intros Ho Hx Hq. unfold log_print_message. repeat io_step.
  eapply ends_bind; [by apply log_message_ends|]. intros _ s1 w1 (-> & l' & -> & Ho' & Hi). io_step.
  eapply Hq; [exact Hi|done|done|]. destruct (code_name_inverse x Hx) as (t & Ht & _). simpl. by rewrite Ht.
Qed.

Lemma value_sends o name a i f call s w :
  call_ok name (json_fields (J := J) <$> f) call -> ready s w ->
  ends s w (value_call o name a i call) (fun r s' w' => r.1 = 0 /\ called name f s w s' w').
Proof.
  intros Hc Hs. unfold value_call. eapply call_then; [exact Hc|done|]. intros c' x cells w' s' Ho Hx Hcalled.
  apply logged; [done|done|]. intros l' m Hi Hl Hn Ht. split; [done|]. eapply Hcalled; [exact Hi|done|simpl; lia|].
  by repeat constructor.
Qed.

Lemma info_sends o s w :
  act o = Act.READ -> ready s w ->
  ends s w (Sysmgr.run_get_info_command (J := J) o) (fun r s' w' => r.1 = 0 /\ called (get_rpc_name o) None s w s' w').
Proof.
  intros Ha Hs. unfold Sysmgr.run_get_info_command. rewrite Ha. cbn [Z.eqb Pos.eqb Act.READ negb].
  eapply (call_then (get_rpc_name o) None); [exchanged|done|]. intros c' x cells w' s' Ho Hx Hcalled. cbv zeta.
  destruct (_ <? _)%nat.
  - apply logged; [done|done|]. intros l' m Hi Hl Hn Ht. split; [done|]. eapply Hcalled; [exact Hi|done|simpl; lia|].
    by repeat constructor.
  - repeat io_step. split; [done|]. apply (Hcalled [] (output_msg_chain s')); [by rewrite app_nil_r|done|simpl; lia|done].
Qed.
Lemma message_sends o s w :
  ready s w ->
  ends s w (Xmproxy.run_send_msg_command (J := J) o)
    (fun r s' w' => r.1 = 0 /\ called (get_rpc_name o) (Some [text_param (J := J) o 0; text_param (J := J) o 1]) s w s' w').
Proof.
  intros Hs. unfold Xmproxy.run_send_msg_command.
  eapply (call_then (get_rpc_name o) (Some [text_param (J := J) o 0; text_param (J := J) o 1])); [exchanged|done|]. intros c' x cells w' s' Ho Hx Hcalled.
  apply logged; [done|done|]. intros l' m Hi Hl Hn Ht. split; [done|]. eapply Hcalled; [exact Hi|done|simpl; lia|].
  by repeat constructor.
Qed.
Lemma answered (m : io (traced K) (session D) (Z * obj)) s w (Q : session D -> traced K -> Prop) :
  ends s w m (fun r s' w' => r.1 = 0 /\ Q s' w') ->
  ends s w ('(_, o) ← m; mret (0, o)) (fun r s' w' => r.1 = 0 /\ Q s' w').
Proof. intros Hm. eapply ends_bind; [exact Hm|]. intros [a o] s1 w1 [_ Hq]. by io_step. Qed.

(** What an own command asks for is what is sent: the client's function for it calls the
    method, with the parameters, under the next identifier; it ends, logs at most one
    message, which has the name of the code, and changes nothing else of the session. *)
Theorem own_command_sent (c : client) o name f s w :
  own_request (J := J) c o = Some (name, f) -> ready s w ->
  ends s w (run_own c o) (fun r s' w' => r.1 = 0 /\ called name f s w s' w').
Proof.
  intros Hr Hs. unfold own_request in Hr. destruct c; cbn [run_own].
  - unfold Sysmgr.run_my_commands. destruct (SysRpc.rpc_type (command o)) as [[]|] eqn:Et; try done;
      destruct (act o =? _) eqn:Ea; try done; injection Hr as <- <-; apply answered;
      first [apply info_sends; [by apply Z.eqb_eq|done]
            | unfold run_get_string_of_index, Sysmgr.run_fmw_version_command, Sysmgr.run_fmw_update_command, Sysmgr.run_file_download,
                Sysmgr.run_get_indexed_msg_command, Sysmgr.run_shell_cmd;
              rewrite Ea;
              try rewrite (sysmgr_index _ _ Et); cbn [Z.eqb Pos.eqb SysRpc.rpc_index];
              apply value_sends; [exchanged|done] ].
  - unfold Xmproxy.run_my_commands. destruct (XmppRpc.rpc_type (command o)) as [[]|] eqn:Et; try done;
      try (injection Hr as <- <-; by apply answered, message_sends).
    destruct (act o =? Act.READ) eqn:Ea; [|done]. injection Hr as <- <-. apply answered.
    unfold run_get_string_of_index. rewrite Ea. apply value_sends; [exchanged|done].
Qed.
End own.

(** ** The property at a concrete command *)

Import Proxy.Echo ClientSpec.Script.

(** [--shellcmd=ls] of the client of the system manager. *)
Definition shell_command : CmdExecutionObj Z :=
  set_name 1 "taskId" (set_value 0 "ls" (set_name 0 "command" (with_type Cmd.USER_DEFINED (with_command (SysRpc.rpc_index SysRpc.RUN_SHELLCMD) Act.WRITE
    (with_names "run_shellcmd" "run_shellcmd" (command_of 0 0 EmptyString EmptyString EmptyString 0)))))).
Definition own_session : session Z :=
  {| SrvSockConn := client; cmd_chain := Chain.set_items Chain.empty_chain [shell_command]; output_msg_chain := Chain.empty_chain;
     ip_addr := "10.0.0.1"; CmdProcessor.port := 40001; running := true; looked := 0 |}.

Example shell_command_ex :
  (fun x => (x.1.1, (fun m => (rpc_method_name m, CmdProcessor.result m, result_parameter m)) <$> Chain.items (output_msg_chain x.1.2),
             written x.2)) <$>
    thread_callback_function (J := Json.value) (run_own (J := Json.value) SysmgrClient) (fun _ => false) 100%nat own_session
      (world [[bytes "{'id':0,'result':{'return':'InProgress','taskId':'7'}}"]]) =
  Some (0, [("run_shellcmd", "InProgress", Some "7")],
        bytes "{'jsonrpc':'2.0','method':'run_shellcmd','params':{'command':'ls'},'id':0}").
Proof. vm_compute. reflexivity. Qed.

Lemma own_command_sent_witness :
  ends own_session (world []) (run_own (J := Json.value) SysmgrClient shell_command) (fun r s' w' => r.1 = 0 /\
    called (J := Json.value) (D := Z) "run_shellcmd" (Some [("command", VString "ls")]) own_session (world []) s' w').
Proof.
  apply (own_command_sent (J := Json.value) SysmgrClient shell_command "run_shellcmd" (Some [("command", VString "ls")])).
  - vm_compute. reflexivity.
  - split; [by apply new_rpc_ok|]. split; [vm_compute; split; discriminate|done].
Defined.
