(* ===== verification/StrMap.v ===== *)
(** * The hash table of the settings

    lib-settings/src/strmap.cpp: a table from strings to strings.  A bucket is an array of
    pairs; a pair remembers how many bytes were allocated for its value, because [sm_put()]
    copies a new value over the old one when it is not longer. *)
From S2P Require Import Prelude.
Local Open Scope string_scope.
Local Open Scope Z_scope.

(** What depends on the machine: the value of a plain [char] as an [int] (signed or not),
    and the width of [unsigned long]. *)
Class Target := { char_value : ascii -> Z; long_bits : Z }.

Record Pair := { key : string; value : string; room : Z }.
Abbreviation Bucket := (list Pair).
Record StrMap := { buckets : list Bucket }.

Definition strlen (s : string) : Z := Z.of_nat (String.length s).

Section table.
Context `{Target}.

(** ** Operations *)

Definition ulong (z : Z) : Z := wrap_u long_bits z.

Fixpoint hash_from (h : Z) (str : string) : Z :=
  match str with
  | EmptyString => h
  | String c str => hash_from (ulong (ulong (ulong (Z.shiftl h 5) + h) + char_value c)) str
  end.
Definition hash (str : string) : Z := hash_from 5381 str.

Definition count (map : StrMap) : nat := length (buckets map).

Definition sm_new (capacity : nat) : StrMap := {| buckets := replicate capacity [] |}.

(** The bucket a key belongs to; [map->count] is not 0. *)
Definition index (map : StrMap) (k : string) : nat := Z.to_nat (hash k mod Z.of_nat (count map)).
Definition bucket (map : StrMap) (k : string) : Bucket := default [] (buckets map !! index map k).

(** The first pair with the key, and where it is in the array. *)
Definition get_pair (b : Bucket) (k : string) : option (nat * Pair) := list_find (fun p => key p = k) b.

(** [sm_get()] with an output buffer or without one: the value returned, and what was
    copied. *)
Definition sm_get (map : StrMap) (k : string) (out_buf : bool) (n_out_buf : Z) : Z * option string :=
  match get_pair (bucket map k) k with
  | None => (0, None)
  | Some (_, p) =>
      if negb out_buf && (n_out_buf =? 0) then (strlen (value p) + 1, None)
      else if negb out_buf then (0, None)
      else if n_out_buf <=? strlen (value p) then (0, None)
      else (1, Some (value p))
  end.

Definition sm_exists (map : StrMap) (k : string) : Z :=
  match get_pair (bucket map k) k with None => 0 | Some _ => 1 end.

(** The value of a pair is replaced; the memory grows when the old value is shorter. *)
Definition replace_value (p : Pair) (v : string) : Pair :=
  {| key := key p; value := v; room := if strlen (value p) <? strlen v then strlen v + 1 else room p |}.
Definition new_pair (k v : string) : Pair := {| key := k; value := v; room := strlen v + 1 |}.

Definition put_in (b : Bucket) (k v : string) : Bucket :=
  match get_pair b k with
  | Some (i, p) => <[i := replace_value p v]> b
  | None => (b ++ [new_pair k v])%list
  end.
Definition sm_put (map : StrMap) (k v : string) : Z * StrMap :=
  (1, {| buckets := <[index map k := put_in (bucket map k) k v]> (buckets map) |}).

Definition sm_get_count (map : StrMap) : Z := Z.of_nat (sum_list_with length (buckets map)).

(** [enum_func] is called with every pair; [obj] is what it works on. *)
Definition sm_enum {A} (map : StrMap) (enum_func : string -> string -> A -> A) (obj : A) : Z * A :=
  (1, foldl (fun a p => enum_func (key p) (value p) a) obj (concat (buckets map))).

(** ** The table as a map *)

(** Every value fits in its memory, every key is in its bucket, and once. *)
Record well_formed (map : StrMap) : Prop := {
  wf_count : (0 < count map)%nat;
  wf_room : Forall (Forall (fun p => strlen (value p) < room p)) (buckets map);
  wf_place : forall i b p, buckets map !! i = Some b -> p ∈ b -> index map (key p) = i;
  wf_once : Forall (fun b => NoDup (key <$> b)) (buckets map);
}.

Definition pairs (map : StrMap) : list (string * string) := (fun p => (key p, value p)) <$> concat (buckets map).
Definition to_map (map : StrMap) : gmap string string := list_to_map (pairs map).

Lemma index_lt map k : (0 < count map)%nat -> (index map k < count map)%nat.
Proof. intros Hc. unfold index. pose proof (Z.mod_pos_bound (hash k) (Z.of_nat (count map))). lia. Qed.

Lemma index_bucket map k : (0 < count map)%nat -> buckets map !! index map k = Some (bucket map k).
Proof.
  intros Hc. unfold bucket. assert (is_Some (buckets map !! index map k)) as [b E] by (by apply lookup_lt_is_Some_2, index_lt).
  by rewrite E.
Qed.

Lemma find_key b k i p : get_pair b k = Some (i, p) -> b !! i = Some p /\ key p = k.
Proof. intros (? & ? & _)%list_find_Some. done. Qed.

Lemma find_key_none b k : get_pair b k = None <-> k ∉ key <$> b.
Proof.
  unfold get_pair. rewrite list_find_None, Forall_forall. split.
  - intros Hn (p & -> & Hp)%list_elem_of_fmap. by eapply Hn.
  - intros Hk p Hp <-. apply Hk. by apply list_elem_of_fmap_2.
Qed.

(** The keys of buckets that hold different places are distinct. *)
Lemma places_once (place : string -> nat) (bs : list Bucket) n :
  (forall i b p, bs !! i = Some b -> p ∈ b -> place (key p) = (n + i)%nat) ->
  Forall (fun b => NoDup (key <$> b)) bs -> NoDup (key <$> concat bs).
Proof.
  revert n. induction bs as [|b bs IH]; intros n Hp Ho; cbn; [constructor|].
  apply Forall_cons in Ho as [Hb Ho]. rewrite fmap_app. apply NoDup_app. split; [done|]. split.
  - intros k (p & -> & H1)%list_elem_of_fmap (q & Eq & H2)%list_elem_of_fmap.
    apply list_elem_of_In, in_concat in H2 as (b' & H3%list_elem_of_In & H2%list_elem_of_In).
    apply list_elem_of_lookup in H3 as [j H3].
    pose proof (Hp 0%nat b p eq_refl H1). pose proof (Hp (S j) b' q H3 H2). rewrite <- Eq in *. lia.
  - apply (IH (S n)); [|done]. intros i b' p Hb' Hp'. rewrite (Hp (S i) b' p Hb' Hp'). lia.
Qed.

(** The keys of the whole table are distinct. *)
Lemma keys_once map : well_formed map -> NoDup (pairs map).*1.
Proof.
  intros [_ _ Hp Ho]. unfold pairs. rewrite <- list_fmap_compose.
  apply (places_once (index map) _ 0); [|done]. intros i b p Hb Hin. by rewrite (Hp i b p).
Qed.

Lemma in_table map p : p ∈ concat (buckets map) <-> exists i b, buckets map !! i = Some b /\ p ∈ b.
Proof.
  rewrite list_elem_of_In, in_concat. split.
  - intros (b & Hb%list_elem_of_In & Hp%list_elem_of_In). apply list_elem_of_lookup in Hb as [i Hb]. by exists i, b.
  - intros (i & b & Hb & Hp). exists b. split; apply list_elem_of_In; [by eapply list_elem_of_lookup_2|done].
Qed.

(** What is found under a key is what the map has. *)
Lemma lookup_spec map k : well_formed map -> to_map map !! k = (value ∘ snd) <$> get_pair (bucket map k) k.
Proof.
  intros Hwf. pose proof (keys_once map Hwf) as Hnd. destruct Hwf as [Hc _ Hp _].
  destruct (get_pair (bucket map k) k) as [[i p]|] eqn:E; cbn.
  - apply find_key in E as [E <-]. apply elem_of_list_to_map; [done|]. apply list_elem_of_fmap. exists p.
    split; [done|]. apply in_table. eexists _, _. split; [by apply index_bucket|]. by eapply list_elem_of_lookup_2.
  - apply find_key_none in E. apply not_elem_of_list_to_map. intros (kv & -> & Hkv)%list_elem_of_fmap.
    apply list_elem_of_fmap in Hkv as (p & -> & (i & b & Hb & Hin)%in_table). cbn in *.
    pose proof (Hp i b p Hb Hin) as <-. rewrite index_bucket in Hb by done. simplify_eq.
    apply E. by apply list_elem_of_fmap_2.
Qed.

Lemma new_well_formed capacity : (0 < capacity)%nat -> well_formed (sm_new capacity).
Proof.
  intros Hc. split; cbn.
  - unfold count. cbn. by rewrite length_replicate.
  - apply Forall_replicate. constructor.
  - intros i b p [-> _]%lookup_replicate Hp. by apply not_elem_of_nil in Hp.
  - apply Forall_replicate. constructor.
Qed.

Lemma put_keys b k v : key <$> put_in b k v = if get_pair b k then key <$> b else ((key <$> b) ++ [k])%list.
Proof.
  unfold put_in. destruct (get_pair b k) as [[i p]|] eqn:E; [|by rewrite fmap_app].
  apply find_key in E as [E <-]. rewrite list_fmap_insert. apply list_insert_id. by rewrite list_lookup_fmap, E.
Qed.

Lemma put_once b k v : NoDup (key <$> b) -> NoDup (key <$> put_in b k v).
Proof.
  intros Hb. rewrite put_keys. destruct (get_pair b k) eqn:E; [done|]. apply find_key_none in E.
  apply NoDup_app. split; [done|]. split; [|by repeat constructor; apply not_elem_of_nil].
  intros x Hx ->%list_elem_of_singleton. done.
Qed.

Lemma put_room b k v :
  Forall (fun p => strlen (value p) < room p) b -> Forall (fun p => strlen (value p) < room p) (put_in b k v).
Proof.
  intros Hb. unfold put_in. destruct (get_pair b k) as [[i p]|] eqn:E.
  - apply find_key in E as [E _]. apply Forall_insert; [done|]. pose proof (Forall_lookup_1 _ _ _ _ Hb E).
    cbn in *. case_match; lia.
  - apply Forall_app. split; [done|]. repeat constructor. cbn. lia.
Qed.

(** What is found in a bucket. *)
Definition found (b : Bucket) (k : string) : option string := (value ∘ snd) <$> get_pair b k.

Lemma found_cons p b k : found (p :: b) k = if decide (key p = k) then Some (value p) else found b k.
Proof. unfold found, get_pair. cbn. case_decide; [done|]. by destruct (list_find _ b) as [[]|]. Qed.

Lemma put_in_cons p b k v :
  put_in (p :: b) k v = if decide (key p = k) then replace_value p v :: b else p :: put_in b k v.
Proof. unfold put_in, get_pair. cbn. case_decide; [done|]. by destruct (list_find _ b) as [[]|]. Qed.

Lemma put_found b k v k' : found (put_in b k v) k' = if decide (k = k') then Some v else found b k'.
Proof.
  induction b as [|p b IH].
  - change (put_in [] k v) with [new_pair k v]. rewrite found_cons. cbn. by case_decide.
  - rewrite put_in_cons. destruct (decide (key p = k)) as [<-|Hne]; rewrite !found_cons; cbn; [by case_decide|].
    rewrite IH. repeat case_decide; congruence.
Qed.

Lemma put_bucket map k v i : (0 < count map)%nat ->
  buckets (sm_put map k v).2 !! i =
    if decide (index map k = i) then Some (put_in (bucket map k) k v) else buckets map !! i.
Proof.
  intros Hc. cbn. case_decide as E; [subst i|by rewrite list_lookup_insert_ne].
  apply list_lookup_insert_eq. by apply index_lt.
Qed.

Lemma put_count map k v : count (sm_put map k v).2 = count map.
Proof. unfold count. cbn. by rewrite length_insert. Qed.

Lemma put_index map k v x : index (sm_put map k v).2 x = index map x.
Proof. unfold index. by rewrite put_count. Qed.

Lemma put_member b k v p : p ∈ put_in b k v -> key p = k \/ p ∈ b.
Proof.
  induction b as [|q b IH]; [intros ->%list_elem_of_singleton; by left|]. rewrite put_in_cons.
  case_decide; rewrite !elem_of_cons; intros [->|Hp]; auto. destruct (IH Hp); auto.
Qed.

Lemma put_well_formed map k v : well_formed map -> well_formed (sm_put map k v).2.
Proof.
  intros [Hc Hr Hp Ho]. pose proof (index_bucket map k Hc) as Hb. split.
  - by rewrite put_count.
  - cbn. apply Forall_insert; [done|]. by apply put_room, (Forall_lookup_1 _ _ _ _ Hr Hb).
  - intros i b p. rewrite put_bucket, put_index by done. case_decide as E; [|by apply Hp].
    intros [= <-] [<-|Hin]%put_member; [done|]. by apply (Hp i (bucket map k)); [rewrite <- E|].
  - cbn. apply Forall_insert; [done|]. by apply put_once, (Forall_lookup_1 _ _ _ _ Ho Hb).
Qed.

(** ** The operations on the map *)

Lemma put_map map k v : well_formed map -> to_map (sm_put map k v).2 = <[k := v]> (to_map map).
Proof.
  intros Hwf. pose proof (put_well_formed map k v Hwf) as Hwf'. destruct (Hwf) as [Hc _ _ _].
  apply map_eq. intros x. rewrite (lookup_spec _ x Hwf'). change (found (bucket (sm_put map k v).2 x) x = <[k:=v]> (to_map map) !! x).
  unfold bucket. rewrite put_index, put_bucket by done.
  destruct (decide (k = x)) as [<-|Hne].
  - rewrite decide_True by done. etrans; [apply put_found|]. by rewrite decide_True, lookup_insert_eq.
  - rewrite lookup_insert_ne, (lookup_spec map x Hwf) by done. fold (found (bucket map x) x). case_decide as E; [|done].
    etrans; [apply put_found|]. rewrite decide_False by done. unfold bucket. by rewrite E.
Qed.

Lemma new_map capacity : to_map (sm_new capacity) = ∅.
Proof. unfold to_map, pairs, sm_new. cbn. by induction capacity. Qed.

(** The pairs in the order of the table are the pairs of the map. *)
Lemma pairs_map map : well_formed map -> map_to_list (to_map map) ≡ₚ pairs map.
Proof. intros Hwf. apply map_to_list_to_map. by apply keys_once. Qed.

Lemma count_map map : well_formed map -> sm_get_count map = Z.of_nat (size (to_map map)).
Proof.
  intros Hwf. unfold sm_get_count. rewrite <- length_map_to_list, (pairs_map map Hwf).
  unfold pairs. rewrite length_fmap. f_equal. induction (buckets map) as [|b bs IH]; cbn; [done|].
  by rewrite length_app, IH.
Qed.

Lemma enum_pairs {A} map (f : string -> string -> A -> A) (a : A) :
  sm_enum map f a = (1, foldl (fun a kv => f kv.1 kv.2 a) a (pairs map)).
Proof.
  unfold sm_enum, pairs. f_equal. revert a. by induction (concat (buckets map)) as [|p l IH]; intros a; cbn.
Qed.

(** What [sm_get()] promises for a map. *)
Definition get_of (o : option string) (out_buf : bool) (n_out_buf : Z) : Z * option string :=
  match o, out_buf with
  | None, _ => (0, None)
  | Some v, true => if strlen v <? n_out_buf then (1, Some v) else (0, None)
  | Some v, false => if n_out_buf =? 0 then (strlen v + 1, None) else (0, None)
  end.

Lemma get_map map k out_buf n : well_formed map -> sm_get map k out_buf n = get_of (to_map map !! k) out_buf n.
Proof.
  intros Hwf. rewrite (lookup_spec map k Hwf). unfold sm_get.
  destruct (get_pair (bucket map k) k) as [[i p]|]; [|done]. cbn. destruct out_buf; cbn; [|by destruct (n =? 0)].
  rewrite Z.ltb_antisym. by destruct (n <=? _).
Qed.

Lemma exists_map map k : well_formed map -> sm_exists map k = if to_map map !! k then 1 else 0.
Proof. intros Hwf. rewrite (lookup_spec map k Hwf). unfold sm_exists. by destruct (get_pair _ _) as [[]|]. Qed.

End table.
