(* ===== verification/Settings.v ===== *)
(** * The settings of a file

    lib-settings/src/settings.cpp: settings are sections of keys and values; a file holds
    them as text.  [parse_str()] reads a line, [settings_open()] a file and
    [settings_save()] writes one. *)
From S2P Require Import Prelude Common Text StrMap.
Local Open Scope string_scope.
Local Open Scope Z_scope.

Definition MAX_KEYCHARS : Z := 256.
Definition MAX_VALUECHARS : Z := 256.
Definition MAX_LINECHARS : Z := MAX_KEYCHARS + MAX_VALUECHARS + 10.
Definition COMMENT_CHAR : ascii := "#".
Definition SECTION_START_CHAR : ascii := "[".
Definition SECTION_END_CHAR : ascii := "]".
Definition KEY_VALUE_SEPARATOR_CHAR : ascii := "=".
Definition DEFAULT_STRMAP_CAPACITY : nat := 256.
Definition NUL : ascii := "000".

Record Section_ := { sec_name : string; sec_map : StrMap }.
Record Settings := { sections : list Section_ }.
Record ParseState := { current_section : string; has_section : bool }.
Inductive ConvertMode := CONVERT_MODE_INT | CONVERT_MODE_LONG | CONVERT_MODE_DOUBLE.

(** Doubles, with [atof()], what [%E] prints, and [==]. *)
Class Doubles (D : Type) := { atof : string -> D; format_E : D -> string; same_double : D -> D -> bool }.

(** What a conversion stores. *)
Inductive number (D : Type) := Int (n : Z) | Long (n : Z) | Double (d : D).
Arguments Int {D} n. Arguments Long {D} n. Arguments Double {D} d.

(** ** Lines *)

Definition is_blank_char (c : ascii) : bool :=
  ((c =? " ") || (c =? "009") || (c =? "013") || (c =? "010"))%char.
Fixpoint is_blank_str (str : string) : bool :=
  match str with EmptyString => true | String c r => is_blank_char c && is_blank_str r end.

(** Walking over the blanks at the start, and back over those at the end. *)
Fixpoint skip_blanks (str : string) : string :=
  match str with String c r => if is_blank_char c then skip_blanks r else str | EmptyString => EmptyString end.
Fixpoint drop_blanks (str : string) : string :=
  match str with
  | EmptyString => EmptyString
  | String c r => match drop_blanks r with
                  | EmptyString => if is_blank_char c then EmptyString else String c EmptyString
                  | r => String c r
                  end
  end.
Definition trim_str (str : string) : string := drop_blanks (skip_blanks str).

Definition starts_with (c : ascii) (str : string) : bool :=
  match str with String x _ => (x =? c)%char | EmptyString => false end.
Definition is_comment_str (str : string) : bool := starts_with COMMENT_CHAR str.
Definition is_section_str (str : string) : bool := starts_with SECTION_START_CHAR str && has SECTION_END_CHAR str.
Definition is_key_value_str (str : string) : bool :=
  negb (starts_with KEY_VALUE_SEPARATOR_CHAR str) && has KEY_VALUE_SEPARATOR_CHAR str.
Definition is_key_without_value_str (str : string) : bool :=
  negb (starts_with KEY_VALUE_SEPARATOR_CHAR str) && negb (has KEY_VALUE_SEPARATOR_CHAR str).

(** A string copied to a buffer of [n] bytes, its terminator included. *)
Definition copied (n : Z) (str : string) : option string := if strlen str <? n then Some str else None.

Definition get_section_from_str (str : string) (out_buf_n : Z) : option string :=
  match str with
  | String _ str => copied out_buf_n (until SECTION_END_CHAR str).1
  | EmptyString => copied out_buf_n EmptyString
  end.
Definition get_key_value_from_str (str : string) (out_buf1_n out_buf2_n : Z) : option (string * string) :=
  let '(k, v) := until KEY_VALUE_SEPARATOR_CHAR str in
  k ← copied out_buf1_n k; v ← copied out_buf2_n (skip_blanks v); Some (drop_blanks k, v).
Definition get_key_without_value_from_str (str : string) (out_buf_n : Z) : option string := copied out_buf_n str.

(** [get_token()] again and again: the pieces between delimiters; none behind the last one. *)
Fixpoint tokens (delim : ascii) (str : string) : list string :=
  match str with
  | EmptyString => []
  | String c r =>
      if (c =? delim)%char then EmptyString :: tokens delim r
      else match tokens delim r with
           | [] => [String c EmptyString]
           | t :: l => String c t :: l
           end
  end.

Section settings.
Context `{Target} {D : Type} `{Doubles D}.

(** ** Settings *)

Definition settings_new : Settings := {| sections := [] |}.

Definition get_section (s : list Section_) (name : string) : option (nat * Section_) :=
  list_find (fun x => sec_name x = name) s.

(** [settings_set()] of pointers that are not NULL. *)
Definition settings_set (s : Settings) (section key value : string) : Z * Settings :=
  if strlen section =? 0 then (0, s)
  else match get_section (sections s) section with
       | Some (i, x) =>
           let '(r, m) := sm_put (sec_map x) key value in
           (r, {| sections := <[i := {| sec_name := sec_name x; sec_map := m |}]> (sections s) |})
       | None =>
           let '(r, m) := sm_put (sm_new DEFAULT_STRMAP_CAPACITY) key value in
           (r, {| sections := (sections s ++ [{| sec_name := section; sec_map := m |}])%list |})
       end.

Definition settings_get (s : Settings) (section key : string) (out_buf : bool) (n_out_buf : Z) : Z * option string :=
  match get_section (sections s) section with
  | None => (0, None)
  | Some (_, x) => sm_get (sec_map x) key out_buf n_out_buf
  end.

Definition settings_section_get_count (s : Settings) (section : string) : Z :=
  match get_section (sections s) section with None => 0 | Some (_, x) => sm_get_count (sec_map x) end.

Definition settings_section_enum {A} (s : Settings) (section : string) (f : string -> string -> A -> A) (obj : A) : Z * A :=
  match get_section (sections s) section with None => (0, obj) | Some (_, x) => sm_enum (sec_map x) f obj end.

(** *** Reading *)

(** One line: [None] when it is refused. *)
Definition parse_str (s : Settings) (str : string) (st : ParseState) : option (Settings * ParseState) :=
  let set key value :=
    if has_section st then
      let '(r, s) := settings_set s (current_section st) key value in
      if r =? 0 then None else Some (s, st)
    else None in
  if strlen str =? 0 then Some (s, st)
  else if is_blank_str str then Some (s, st)
  else if is_comment_str str then Some (s, st)
  else if is_section_str str then
    buf ← get_section_from_str str MAX_LINECHARS;
    if MAX_LINECHARS <? strlen buf + 1 then None
    else Some (s, {| current_section := buf; has_section := true |})
  else if is_key_value_str str then
    '(buf1, buf2) ← get_key_value_from_str str MAX_LINECHARS MAX_LINECHARS; set buf1 buf2
  else if is_key_without_value_str str then
    buf ← get_key_without_value_from_str str MAX_LINECHARS; set buf EmptyString
  else None.

(** The characters before a NUL. *)
Definition c_string (s : string) : string := (until NUL s).1.

(** [fgets()]: at most [n] characters, up to the end of a line; and what is left. *)
Fixpoint fgets (n : nat) (stream : string) : string * string :=
  match n, stream with
  | S n, String c r =>
      if (c =? newline)%char then (String c EmptyString, r)
      else let '(a, b) := fgets n r in (String c a, b)
  | _, _ => (EmptyString, stream)
  end.

(** The loop of [settings_open()]; every line takes a character off the stream. *)
Fixpoint parse_lines (fuel : nat) (s : Settings) (stream : string) (st : ParseState) : option Settings :=
  match fuel, stream with
  | _, EmptyString => Some s
  | O, _ => None
  | S fuel, _ =>
      let '(buf, stream) := fgets (Z.to_nat (MAX_LINECHARS - 1)) stream in
      '(s, st) ← parse_str s (trim_str (c_string buf)) st;
      parse_lines fuel s stream st
  end.
Definition settings_open (stream : string) : option Settings :=
  parse_lines (String.length stream) settings_new stream {| current_section := EmptyString; has_section := false |}.

(** *** Writing *)

Definition enum_map (key value : string) : list string :=
  if (strlen key <? MAX_KEYCHARS) && (strlen value <? MAX_VALUECHARS)
  then [key ++ " " ++ String KEY_VALUE_SEPARATOR_CHAR " " ++ value ++ endl] else [].

(** The texts [settings_save()] writes one after the other. *)
Definition section_text (x : Section_) : list string :=
  ([("[" ++ sec_name x ++ "]" ++ endl)%string]
    ++ (sm_enum (sec_map x) (fun k v out => out ++ enum_map k v) []).2 ++ [endl])%list.
Definition settings_save (s : Settings) : list string := sections s ≫= section_text.

(** *** Numbers *)

Definition long_max : Z := 2 ^ (long_bits - 1) - 1.
Definition long_min : Z := - 2 ^ (long_bits - 1).

(** [atol()]: the nearest [long] of the digits. *)
Definition atol (s : string) : Z :=
  Z.max long_min (Z.min long_max match skip_space s with
      | String "-" r => - digits r 0
      | String "+" r => digits r 0
      | r => digits r 0
      end).

Definition convert (mode : ConvertMode) (v : string) : number D :=
  match mode with
  | CONVERT_MODE_INT => Int (atoi v)
  | CONVERT_MODE_LONG => Long (atol v)
  | CONVERT_MODE_DOUBLE => Double (atof v)
  end.

Definition get_converted_value (s : Settings) (section key : string) (mode : ConvertMode) : option (number D) :=
  match settings_get s section key true MAX_VALUECHARS with
  | (_, Some v) => Some (convert mode v)
  | _ => None
  end.

(** The array after the call; [None] when it is left alone. *)
Definition get_converted_tuple (s : Settings) (section key : string) (delim : ascii) (mode : ConvertMode)
    (out : list (number D)) : option (list (number D)) :=
  if (length out =? 0)%nat then None
  else match settings_get s section key true MAX_VALUECHARS with
       | (_, Some v) =>
           let l := take (length out) (convert mode <$> tokens delim v) in
           Some (l ++ drop (length l) out)%list
       | _ => None
       end.

Definition settings_get_int (s : Settings) (section key : string) : option (number D) :=
  get_converted_value s section key CONVERT_MODE_INT.
Definition settings_get_long (s : Settings) (section key : string) : option (number D) :=
  get_converted_value s section key CONVERT_MODE_LONG.
Definition settings_get_double (s : Settings) (section key : string) : option (number D) :=
  get_converted_value s section key CONVERT_MODE_DOUBLE.
Definition settings_get_int_tuple (s : Settings) (section key : string) (out : list (number D)) :=
  get_converted_tuple s section key "," CONVERT_MODE_INT out.
Definition settings_get_long_tuple (s : Settings) (section key : string) (out : list (number D)) :=
  get_converted_tuple s section key "," CONVERT_MODE_LONG out.
Definition settings_get_double_tuple (s : Settings) (section key : string) (out : list (number D)) :=
  get_converted_tuple s section key "," CONVERT_MODE_DOUBLE out.

End settings.
