(* ===== verification/SettingsSpec.v ===== *)
(** * What settings promise

    Settings are a map per section, a text that is saved reads back as the same maps, and
    what is read can be saved again. *)
From S2P Require Import Prelude Common Text StrMap Settings.
Local Open Scope string_scope.
Local Open Scope Z_scope.

(** ** Settings as maps *)

Section maps.
Context `{Target}.

Definition map_of (s : Settings) (section : string) : gmap string string :=
  match snd <$> get_section (sections s) section with Some x => to_map (sec_map x) | None => ∅ end.

Record settings_ok (s : Settings) : Prop := {
  ok_once : NoDup (sec_name <$> sections s);
  ok_named : EmptyString ∉ sec_name <$> sections s;
  ok_maps : Forall (fun x => well_formed (sec_map x)) (sections s);
}.

Lemma found_section s i x name : get_section s name = Some (i, x) -> s !! i = Some x /\ sec_name x = name.
Proof. by intros (? & ? & _)%list_find_Some. Qed.

Lemma no_section s name : get_section s name = None <-> name ∉ sec_name <$> s.
Proof.
  unfold get_section. rewrite list_find_None, Forall_forall. split.
  - intros Hn (x & -> & Hx)%list_elem_of_fmap. by eapply Hn.
  - intros Hk x Hx <-. apply Hk. by apply list_elem_of_fmap_2.
Qed.

Lemma get_section_app a b name :
  get_section (a ++ b)%list name =
    match get_section a name with Some r => Some r | None => prod_map (fun n => (n + length a)%nat) id <$> get_section b name end.
Proof.
  unfold get_section. destruct (list_find _ a) as [[i x]|] eqn:E.
  - by apply list_find_app_l.
  - by apply list_find_app_r.
Qed.

Lemma get_section_set s i x y name : s !! i = Some x -> sec_name y = sec_name x ->
  NoDup (sec_name <$> s) ->
  snd <$> get_section (<[i := y]> s) name = if decide (sec_name x = name) then Some y else snd <$> get_section s name.
Proof.
  intros Hi Hn. revert i Hi. induction s as [|z s IH]; intros i Hi Hnd; [done|].
  cbn in Hnd. apply NoDup_cons in Hnd as [Hz Hnd]. destruct i as [|i]; cbn in Hi |- *.
  - injection Hi as ->. unfold get_section. cbn. rewrite Hn. by case_decide.
  - specialize (IH i Hi Hnd). unfold get_section in *. cbn. destruct (decide (sec_name z = name)) as [<-|Hne].
    + rewrite decide_False; [done|]. intros Heq. apply Hz. rewrite <- Heq. apply list_elem_of_fmap_2.
      by eapply list_elem_of_lookup_2.
    + destruct (list_find _ (<[i:=y]> s)) as [[]|], (list_find _ s) as [[]|]; cbn in *; done.
Qed.

(** A table with one pair. *)
Lemma first_pair k v :
  well_formed (sm_put (sm_new DEFAULT_STRMAP_CAPACITY) k v).2 /\
  to_map (sm_put (sm_new DEFAULT_STRMAP_CAPACITY) k v).2 = <[k := v]> ∅.
Proof.
  assert (well_formed (sm_new DEFAULT_STRMAP_CAPACITY)) as Hwf by (apply new_well_formed; unfold DEFAULT_STRMAP_CAPACITY; lia).
  split; [by apply put_well_formed|]. etrans; [by apply put_map|]. by rewrite new_map.
Qed.

Lemma set_spec s section k v : settings_ok s -> section <> EmptyString ->
  (settings_set s section k v).1 = 1 /\ settings_ok (settings_set s section k v).2 /\
  forall x, map_of (settings_set s section k v).2 x = if decide (section = x) then <[k := v]> (map_of s x) else map_of s x.
Proof.
  intros [Ho Hn Hm] Hne. unfold settings_set.
  destruct (strlen section =? 0) eqn:E; [by destruct section|].
  destruct (get_section (sections s) section) as [[i y]|] eqn:Es.
  - apply found_section in Es as Ey. destruct Ey as [Hi <-]. cbn.
    pose proof (Forall_lookup_1 _ _ _ _ Hm Hi) as Hwf. split; [done|]. split.
    + split; cbn.
      * rewrite list_fmap_insert. by rewrite list_insert_id; [|rewrite list_lookup_fmap, Hi].
      * rewrite list_fmap_insert. by rewrite list_insert_id; [|rewrite list_lookup_fmap, Hi].
      * apply Forall_insert; [done|]. cbn. by apply put_well_formed.
    + intros x. unfold map_of. cbn [sections snd].
      rewrite (get_section_set (sections s) i y) by done. case_decide as Ex; [|done]. subst x.
      rewrite Es. by apply put_map.
  - apply no_section in Es as Hno. pose proof (first_pair k v) as [Hw Hf].
    assert ((sm_put (sm_new DEFAULT_STRMAP_CAPACITY) k v).1 = 1) as Hr by done.
    destruct (sm_put (sm_new DEFAULT_STRMAP_CAPACITY) k v) as [r m]. cbn [fst snd] in *. split; [done|]. split.
    + split; cbn [sections snd]; rewrite ?fmap_app; cbn [fmap list_fmap sec_name].
      * apply NoDup_app. split; [done|]. split; [|apply NoDup_singleton]. intros x Hx ->%list_elem_of_singleton. done.
      * rewrite elem_of_app, list_elem_of_singleton. naive_solver.
      * apply Forall_app. split; [done|]. by apply Forall_singleton.
    + intros x. unfold map_of. cbn [sections snd]. rewrite get_section_app. destruct (decide (section = x)) as [<-|Hx].
      * rewrite Es. unfold get_section at 1. cbn [list_find sec_name]. rewrite decide_True by done.
        done.
      * destruct (get_section (sections s) x) as [[]|]; [done|]. unfold get_section. cbn. by rewrite decide_False.
Qed.

Lemma set_names s section k v n :
  n ∈ sec_name <$> sections (settings_set s section k v).2 -> n = section \/ n ∈ sec_name <$> sections s.
Proof.
  unfold settings_set. destruct (strlen section =? 0); [by right|].
  destruct (get_section (sections s) section) as [[i x]|] eqn:E.
  - apply found_section in E as [Hi Hn]. destruct (sm_put (sec_map x) k v) as [r m]. cbn [snd sections].
    rewrite list_fmap_insert, list_insert_id; [by right|]. by rewrite list_lookup_fmap, Hi.
  - destruct (sm_put (sm_new DEFAULT_STRMAP_CAPACITY) k v) as [r m]. cbn [snd sections]. rewrite fmap_app, elem_of_app.
    intros [?|?%list_elem_of_singleton]; [by right|by left].
Qed.

(** Everything settings hold, in the order they are written. *)
Definition entries (s : Settings) : list (string * string * string) :=
  sections s ≫= fun x => (fun kv => (sec_name x, kv.1, kv.2)) <$> pairs (sec_map x).

Definition set_all (s : Settings) (l : list (string * string * string)) : Settings :=
  foldl (fun s e => (settings_set s e.1.1 e.1.2 e.2).2) s l.

Lemma found_in s x : NoDup (sec_name <$> s) -> x ∈ s -> snd <$> get_section s (sec_name x) = Some x.
Proof.
  intros Hnd Hx. destruct (get_section s (sec_name x)) as [[i y]|] eqn:E.
  - apply found_section in E as [Hi Hn]. cbn. f_equal. apply list_elem_of_lookup in Hx as [j Hj].
    assert (i = j) as ->; [|congruence]. eapply NoDup_lookup; [exact Hnd| |].
    + rewrite list_lookup_fmap, Hi. cbn. by rewrite Hn.
    + by rewrite list_lookup_fmap, Hj.
  - apply no_section in E. exfalso. apply E. by apply list_elem_of_fmap_2.
Qed.

Lemma in_entries s x k v : settings_ok s -> (x, k, v) ∈ entries s <-> map_of s x !! k = Some v.
Proof.
  intros [Ho _ Hm]. unfold entries, map_of. rewrite list_elem_of_bind. split.
  - intros (y & ([k' v'] & [= -> -> ->] & Hin)%list_elem_of_fmap & Hy). rewrite (found_in _ y Ho Hy).
    apply elem_of_list_to_map; [|done]. apply keys_once. rewrite Forall_forall in Hm. by apply Hm.
  - destruct (get_section (sections s) x) as [[i y]|] eqn:E; cbn; [|by rewrite lookup_empty].
    apply found_section in E as [Hi <-]. intros Hk. exists y. split; [|by eapply list_elem_of_lookup_2].
    apply list_elem_of_fmap. exists (k, v). split; [done|]. by apply elem_of_list_to_map_2.
Qed.

Lemma entries_once s : settings_ok s -> NoDup (entries s).*1.
Proof.
  intros [Ho _ Hm]. unfold entries. induction (sections s) as [|y l IH]; cbn; [constructor|].
  cbn in Ho. apply NoDup_cons in Ho as [Hy Ho]. apply Forall_cons in Hm as [Hw Hm].
  rewrite fmap_app. apply NoDup_app. split; [|split; [|by apply IH]].
  - rewrite <- list_fmap_compose. change (fst ∘ (fun kv : string * string => (sec_name y, kv.1, kv.2))) with
      (pair (sec_name y) ∘ (@fst string string)). rewrite list_fmap_compose.
    apply NoDup_fmap; [by intros ?? [=]|]. by apply keys_once.
  - intros p (e & -> & (kv & -> & _)%list_elem_of_fmap)%list_elem_of_fmap
      (e' & He & (z & (kv' & -> & _)%list_elem_of_fmap & Hz)%list_elem_of_bind)%list_elem_of_fmap.
    cbn in He. injection He as Hn _. apply Hy. rewrite Hn. by apply list_elem_of_fmap_2.
Qed.

Lemma set_all_spec l s : settings_ok s -> Forall (fun e => e.1.1 <> EmptyString) l -> NoDup l.*1 ->
  settings_ok (set_all s l) /\
  forall x k v, map_of (set_all s l) x !! k = Some v <-> (x, k, v) ∈ l \/ ((x, k) ∉ l.*1 /\ map_of s x !! k = Some v).
Proof.
  revert s. induction l as [|[[n j] w] l IH]; intros s Hs Hn Hd; cbn in *.
  - split; [done|]. intros x k v. set_solver.
  - apply Forall_cons in Hn as [Hne Hn]. apply NoDup_cons in Hd as [Hnew Hd]. cbn in Hne.
    destruct (set_spec s n j w Hs Hne) as (_ & Hs' & Hmap). destruct (IH _ Hs' Hn Hd) as [Hok HI].
    split; [done|]. intros x k v. rewrite HI, Hmap. clear HI IH. rewrite !elem_of_cons.
    destruct (decide (n = x)) as [<-|]; [destruct (decide (j = k)) as [<-|]|].
    + rewrite lookup_insert_eq. split; [|intros [[[= <-]|]|]]; naive_solver.
    + rewrite lookup_insert_ne by done. naive_solver.
    + naive_solver.
Qed.

Lemma set_all_names l s n : n ∈ sec_name <$> sections (set_all s l) -> n ∈ sec_name <$> sections s \/ n ∈ l.*1.*1.
Proof.
  revert s. induction l as [|e l IH]; intros s Hn; [by left|]. cbn in Hn |- *. rewrite elem_of_cons.
  destruct (IH _ Hn) as [[->|?]%set_names|?]; auto.
Qed.

(** [settings_get()] looks the key up in the map of its section. *)
Lemma get_spec s section k out_buf n : settings_ok s ->
  settings_get s section k out_buf n = get_of (map_of s section !! k) out_buf n.
Proof.
  intros [_ _ Hm]. unfold settings_get, map_of. destruct (get_section (sections s) section) as [[i x]|] eqn:E; cbn.
  - apply get_map. apply found_section in E as [Hi _]. by eapply (Forall_lookup_1 _ _ _ _ Hm).
  - by rewrite lookup_empty.
Qed.
End maps.

(** ** Lines of a file *)

Lemma drop_blanks_app a b : is_blank_str b = true -> drop_blanks (a ++ b) = drop_blanks a.
Proof.
  intros Hb. induction a as [|c a IH]; autorewrite with text.
  - induction b as [|c b IH]; [done|]. cbn in Hb |- *. apply andb_true_iff in Hb as [Hc Hb].
    cbn in IH. by rewrite (IH Hb), Hc.
  - cbn. by rewrite IH.
Qed.

Lemma drop_blanks_end a c : is_blank_char c = false -> drop_blanks (a ++ String c EmptyString) = a ++ String c EmptyString.
Proof.
  intros Hc. induction a as [|x a IH]; autorewrite with text; cbn [drop_blanks]; [by rewrite Hc|].
  rewrite IH. by destruct a.
Qed.

Lemma drop_blanks_keep a b : b <> EmptyString -> drop_blanks b = b -> drop_blanks (a ++ b) = a ++ b.
Proof.
  intros Hne Hb. induction a as [|x a IH]; autorewrite with text; [done|]. cbn [drop_blanks]. rewrite IH.
  destruct a; [by destruct b|done].
Qed.

Lemma drop_blanks_idem s : drop_blanks (drop_blanks s) = drop_blanks s.
Proof.
  induction s as [|c s IH]; [done|]. cbn. destruct (drop_blanks s) as [|x t] eqn:E.
  - destruct (is_blank_char c) eqn:Ec; [done|]. cbn. by rewrite Ec.
  - cbn [drop_blanks] in *. by rewrite IH.
Qed.

Lemma drop_blanks_blank s : is_blank_str s = true <-> drop_blanks s = EmptyString.
Proof.
  induction s as [|c s IH]; [done|]. cbn. rewrite andb_true_iff, IH.
  destruct (drop_blanks s), (is_blank_char c); naive_solver.
Qed.

Lemma trim_line s : trim_str (s ++ endl) = trim_str s.
Proof.
  unfold trim_str. assert (skip_blanks (s ++ endl) = match skip_blanks s with EmptyString => EmptyString | t => t ++ endl end) as ->.
  { induction s as [|c s IH]; [done|]. autorewrite with text. cbn. by destruct (is_blank_char c). }
  destruct (skip_blanks s); [done|]. by apply drop_blanks_app.
Qed.

Lemma skip_blanks_app a b : trim_str a = a -> a <> EmptyString -> skip_blanks (a ++ b) = a ++ b.
Proof.
  intros Ha Hne. destruct a as [|c a]; [done|]. autorewrite with text. unfold trim_str in Ha. cbn in *.
  destruct (is_blank_char c) eqn:Ec; [|done]. exfalso. clear Hne b.
  assert (forall s, (String.length (drop_blanks (skip_blanks s)) <= String.length s)%nat) as Hl.
  { assert (forall s, (String.length (drop_blanks s) <= String.length s)%nat) as Hd.
    { induction s as [|x s IH]; [done|]. cbn. destruct (drop_blanks s), (is_blank_char x); cbn in *; lia. }
    induction s as [|x s IH]; [done|]. cbn [skip_blanks]. destruct (is_blank_char x); [cbn; lia|]. apply Hd. }
  specialize (Hl a). rewrite Ha in Hl. cbn in Hl. lia.
Qed.

Lemma trimmed_drop a : trim_str a = a -> drop_blanks a = a.
Proof.
  intros Ha. destruct (decide (a = EmptyString)) as [->|Hne]; [done|].
  pose proof (skip_blanks_app a EmptyString Ha Hne) as Hs. 
  assert (a ++ EmptyString = a) as E by (clear; induction a as [|x a IH]; [done|autorewrite with text; by rewrite IH]).
  rewrite E in Hs. unfold trim_str in Ha. by rewrite Hs in Ha.
Qed.

Lemma fgets_one_line n x r : has newline x = false -> (String.length x < n)%nat -> fgets n (x ++ endl ++ r) = (x ++ endl, r).
Proof.
  revert n. induction x as [|c x IH]; intros [|n] Hx Hn; cbn in Hn; try lia; autorewrite with text; cbn [fgets].
  - done.
  - cbn in Hx. apply orb_false_iff in Hx as [-> Hx]. by rewrite IH by (done || lia).
Qed.

Lemma fgets_split n s : let '(a, b) := fgets n s in s = a ++ b /\ (n <> O -> s <> EmptyString -> (String.length b < String.length s)%nat).
Proof.
  revert s. induction n as [|n IH]; intros [|c s]; cbn; try by split.
  destruct (c =? newline)%char; [split; [done|cbn; lia]|]. specialize (IH s). destruct (fgets n s) as [a b].
  destruct IH as [-> _]. split; [done|]. intros _ _. cbn. rewrite length_append. lia.
Qed.

Lemma c_string_line x : has NUL x = false -> c_string (x ++ endl) = x ++ endl.
Proof.
  intros Hx. unfold c_string. rewrite until_none; [done|]. by rewrite has_app, Hx.
Qed.

(** ** Reading a text line by line *)

Section text.
Context `{Target}.

Definition parse_text (s : Settings) (stream : string) (st : ParseState) : option Settings :=
  parse_lines (String.length stream) s stream st.

(** The length of the stream is enough fuel. *)
Lemma parse_fuel f1 f2 s stream st :
  (String.length stream <= f1)%nat -> (String.length stream <= f2)%nat ->
  parse_lines f1 s stream st = parse_lines f2 s stream st.
Proof.
  revert f2 s stream st. induction f1 as [|f1 IH]; intros [|f2] s [|c stream] st H1 H2; cbn in H1, H2; try lia; try done.
  cbn [parse_lines]. pose proof (fgets_split (Z.to_nat (MAX_LINECHARS - 1)) (String c stream)) as Hf.
  destruct (fgets _ _) as [a b]. destruct Hf as [_ Hb]. specialize (Hb ltac:(by vm_compute) ltac:(done)). cbn in Hb.
  destruct (parse_str _ _ _) as [[s' st']|]; [|done]. cbn. apply IH; lia.
Qed.

Lemma parse_line s x r st :
  has newline x = false -> has NUL x = false -> strlen x < MAX_LINECHARS - 1 ->
  parse_text s (x ++ endl ++ r) st = '(s, st) ← parse_str s (trim_str x) st; parse_text s r st.
Proof.
  intros Hn Hz Hl. unfold parse_text.
  assert (exists n, String.length (x ++ endl ++ r) = S n /\ (String.length r <= n)%nat) as (n & En & Hr).
  { rewrite !length_append. cbn. exists (String.length x + String.length r)%nat. lia. }
  rewrite En. destruct (x ++ endl ++ r) as [|c t] eqn:Ex; [done|]. cbn [parse_lines]. rewrite <- Ex, fgets_one_line; [|done|].
  - rewrite c_string_line, trim_line by done. destruct (parse_str _ _ _) as [[s' st']|]; [|done]. cbn. by apply parse_fuel.
  - unfold strlen in Hl. lia.
Qed.

(** *** What is written and read back *)

Definition fits (k v : string) : bool := (strlen k <? MAX_KEYCHARS) && (strlen v <? MAX_VALUECHARS).

(** A key and a value that a line can hold: no blanks around, no line end, no [=] in the
    key, and the line is no comment and no section. *)
Definition pair_ok (k v : string) : bool :=
  negb (strlen k =? 0) && (trim_str k =? k)%string && negb (has KEY_VALUE_SEPARATOR_CHAR k) &&
  negb (has newline k) && negb (has NUL k) && negb (starts_with COMMENT_CHAR k) &&
  (trim_str v =? v)%string && negb (has newline v) && negb (has NUL v) &&
  negb (starts_with SECTION_START_CHAR k && (has SECTION_END_CHAR k || has SECTION_END_CHAR v)).

(** A name of a section that a line can hold. *)
Definition name_ok (n : string) : bool :=
  negb (strlen n =? 0) && negb (has SECTION_END_CHAR n) && negb (has newline n) && negb (has NUL n) &&
  (strlen n <? MAX_LINECHARS - 3).

Lemma strlen_app a b : strlen (a ++ b) = strlen a + strlen b.
Proof. unfold strlen. rewrite length_append. lia. Qed.

Lemma copied_all n str : strlen str < n -> copied n str = Some str.
Proof. unfold copied. intros Hl%Z.ltb_lt. by rewrite Hl. Qed.

Lemma starts_with_app c a b : a <> EmptyString -> starts_with c (a ++ b) = starts_with c a.
Proof. by destruct a. Qed.

Lemma strlen_zero s : strlen s = 0 <-> s = EmptyString.
Proof. destruct s; [done|]. unfold strlen. cbn. split; [lia|done]. Qed.

Lemma strlen_pos s : s <> EmptyString -> (strlen s =? 0) = false.
Proof. by destruct s. Qed.

Lemma section_line n s st : name_ok n = true ->
  parse_str s (trim_str ("[" ++ n ++ "]")) st = Some (s, {| current_section := n; has_section := true |}).
Proof.
  unfold name_ok. rewrite !andb_true_iff, !negb_true_iff, Z.ltb_lt. intros [[[[Hne He] Hl] Hz] Hs].
  assert (trim_str ("[" ++ n ++ "]") = "[" ++ n ++ "]") as ->.
  { apply (drop_blanks_end ("[" ++ n) "]"). done. }
  unfold parse_str. rewrite strlen_pos by done.
  change (is_blank_str ("[" ++ n ++ "]")) with false. change (is_comment_str ("[" ++ n ++ "]")) with false. cbv beta iota.
  replace (is_section_str ("[" ++ n ++ "]")) with true
    by (unfold is_section_str; rewrite !has_app; cbn; by rewrite orb_true_r).
  change (get_section_from_str ("[" ++ n ++ "]") MAX_LINECHARS) with (copied MAX_LINECHARS (until SECTION_END_CHAR (n ++ "]")).1).
  rewrite until_found by done. cbn [fst]. rewrite copied_all by lia. cbn [mbind option_bind].
  by rewrite (proj2 (Z.ltb_ge MAX_LINECHARS (strlen n + 1))) by lia.
Qed.

(** The text of a pair, without the end of the line; and what is left of it. *)
Definition pair_text (k v : string) : string := k ++ String " " (String KEY_VALUE_SEPARATOR_CHAR (String " " v)).
Definition pair_trimmed (k v : string) : string :=
  k ++ String " " (String KEY_VALUE_SEPARATOR_CHAR (match v with EmptyString => EmptyString | _ => String " " v end)).

Lemma trim_pair k v : trim_str k = k -> k <> EmptyString -> trim_str v = v -> trim_str (pair_text k v) = pair_trimmed k v.
Proof.
  intros Hk Hne Hv. unfold trim_str at 1, pair_text, pair_trimmed. rewrite skip_blanks_app by done. destruct v as [|c v].
  - change (String " " (String KEY_VALUE_SEPARATOR_CHAR " ")) with (String " " (String KEY_VALUE_SEPARATOR_CHAR "") ++ " ").
    rewrite append_assoc, drop_blanks_app by done. by apply drop_blanks_keep.
  - change (String " " (String KEY_VALUE_SEPARATOR_CHAR (String " " (String c v)))) with
      (String " " (String KEY_VALUE_SEPARATOR_CHAR " ") ++ String c v).
    rewrite append_assoc. apply drop_blanks_keep; [done|]. by apply trimmed_drop.
Qed.

(** A trimmed text that is not empty begins with something else than a blank. *)
Lemma trimmed_head k : trim_str k = k -> k <> EmptyString -> exists c r, k = String c r /\ is_blank_char c = false.
Proof.
  intros Hk Hne. pose proof (skip_blanks_app k EmptyString Hk Hne) as Hs. destruct k as [|c r]; [done|]. exists c, r.
  split; [done|]. destruct (is_blank_char c) eqn:Ec; [|done]. exfalso. autorewrite with text in Hs. cbn in Hs. rewrite Ec in Hs.
  assert (forall s, (String.length (skip_blanks s) <= String.length s)%nat) as Hl.
  { induction s as [|x s IH]; [done|]. cbn. destruct (is_blank_char x); cbn; lia. }
  specialize (Hl (r ++ "")). apply (f_equal String.length) in Hs. cbn in Hs. lia.
Qed.

(** The key and the value come back from the line. *)
Lemma pair_back k v : trim_str k = k -> trim_str v = v -> has KEY_VALUE_SEPARATOR_CHAR k = false ->
  strlen k < MAX_KEYCHARS -> strlen v < MAX_VALUECHARS ->
  get_key_value_from_str (pair_trimmed k v) MAX_LINECHARS MAX_LINECHARS = Some (k, v).
Proof.
  unfold MAX_KEYCHARS, MAX_VALUECHARS. intros Hk Hv Heq Hlk Hlv. unfold get_key_value_from_str, pair_trimmed.
  set (w := match v with EmptyString => _ | _ => _ end).
  assert (skip_blanks w = v) as Hw.
  { destruct (decide (v = EmptyString)) as [->|Hne]; [done|].
    destruct (trimmed_head v Hv Hne) as (c & r & -> & Hb). subst w. cbn. by rewrite Hb. }
  change (String " " (String KEY_VALUE_SEPARATOR_CHAR w)) with (" " ++ String KEY_VALUE_SEPARATOR_CHAR w).
  rewrite append_assoc, until_found by (by rewrite has_app, Heq).
  assert (strlen " " = 1) as H1 by done.
  rewrite (copied_all MAX_LINECHARS (k ++ " ")) by (rewrite strlen_app; unfold MAX_LINECHARS, MAX_KEYCHARS, MAX_VALUECHARS; lia).
  rewrite Hw. cbn [mbind option_bind].
  rewrite (copied_all MAX_LINECHARS v) by (unfold MAX_LINECHARS, MAX_KEYCHARS, MAX_VALUECHARS; lia). cbn [mbind option_bind].
  rewrite drop_blanks_app by done. by rewrite trimmed_drop.
Qed.

Definition put_pair (s : Settings) (st : ParseState) (k v : string) : Settings :=
  (settings_set s (current_section st) k v).2.

Lemma pair_line s st k v : pair_ok k v = true -> fits k v = true ->
  settings_ok s -> has_section st = true -> current_section st <> EmptyString ->
  parse_str s (trim_str (pair_text k v)) st = Some (put_pair s st k v, st).
Proof.
  unfold pair_ok, fits. rewrite !andb_true_iff, !negb_true_iff, !Z.ltb_lt, !String.eqb_eq.
  intros [[[[[[[[[Hk Htk] Heq] Hnk] Hzk] Hc] Htv] Hnv] Hzv] Hsec] [Hlk Hlv] Hs Hhas Hcur.
  assert (k <> EmptyString) as Hne by (by intros ->).
  rewrite trim_pair by done. destruct (trimmed_head k Htk Hne) as (c & r & Ek & Hb).
  assert (starts_with KEY_VALUE_SEPARATOR_CHAR k = false) as Hse by (rewrite Ek in Heq |- *; by apply orb_false_iff in Heq as [? _]).
  unfold pair_trimmed. set (w := match v with EmptyString => EmptyString | _ => String " " v end).
  assert (forall x, has x w = has x v || (negb (strlen v =? 0) && (x =? " ")%char)) as Hw.
  { intros x. subst w. destruct v as [|y v]; [done|]. rewrite strlen_pos by done.
    change (has x (String " " (String y v))) with ((" " =? x)%char || has x (String y v)). by rewrite (Ascii.eqb_sym " " x), orb_comm. }
  unfold parse_str. rewrite strlen_pos by (by rewrite Ek).
  replace (is_blank_str (k ++ _)) with false by (rewrite Ek; autorewrite with text; cbn; by rewrite Hb).
  unfold is_comment_str, is_section_str, is_key_value_str. rewrite !starts_with_app, Hc, Hse by done.
  rewrite !has_app. cbn [has]. rewrite Hw.
  replace (_ && (has SECTION_END_CHAR k || _)) with false; [|symmetry; cbn; by rewrite andb_false_r, orb_false_r].
  replace (negb false && _) with true by (cbn; by rewrite orb_true_r).
  change (k ++ String " " (String KEY_VALUE_SEPARATOR_CHAR w)) with (pair_trimmed k v).
  rewrite pair_back by done. cbn [mbind option_bind]. rewrite Hhas. unfold put_pair.
  destruct (set_spec s (current_section st) k v Hs Hcur) as [Hr _]. by destruct (settings_set _ _ _ _) as [z s'], z.
Qed.

(** *** The whole text *)

Definition written (l : list string) : string := foldr String.append EmptyString l.

Lemma written_cat a b : written (a ++ b)%list = written a ++ written b.
Proof.
  induction a as [|x a IH]; [done|]. change (x ++ written (a ++ b)%list = (x ++ written a) ++ written b).
  by rewrite IH, append_assoc.
Qed.

Lemma written_app a b r : written (a ++ b)%list ++ r = written a ++ (written b ++ r).
Proof. by rewrite written_cat, append_assoc. Qed.

Definition fitting (l : list (string * string)) : list (string * string) := filter (fun kv => fits kv.1 kv.2 = true) l.

Lemma enum_writes m : (sm_enum m (fun k v out => out ++ enum_map k v)%list []).2 = pairs m ≫= uncurry enum_map.
Proof.
  rewrite enum_pairs. cbn [snd].
  assert (forall (l : list (string * string)) (a : list string),
    foldl (fun a kv => a ++ enum_map kv.1 kv.2)%list a l = (a ++ (l ≫= uncurry enum_map))%list) as E.
  { induction l as [|[k v] l IH]; intros a; cbn [foldl mbind list_bind fst snd]; [by rewrite app_nil_r|].
    rewrite IH. cbn. by rewrite app_assoc. }
  by rewrite E.
Qed.

Lemma pair_ok_line k v : pair_ok k v = true -> has newline (pair_text k v) = false /\ has NUL (pair_text k v) = false.
Proof.
  unfold pair_ok. rewrite !andb_true_iff, !negb_true_iff. intros [[[[[[[[[_ _] _] Hn] Hz] _] _] Hn'] Hz'] _].
  unfold pair_text. rewrite !has_app. cbn [has]. by rewrite Hn, Hz, Hn', Hz'.
Qed.

Lemma pair_length k v : strlen (pair_text k v) = strlen k + strlen v + 3.
Proof. unfold pair_text. rewrite strlen_app. unfold strlen. cbn [String.length]. lia. Qed.

Lemma pairs_lines l s r st :
  Forall (fun kv => pair_ok kv.1 kv.2 = true) l -> settings_ok s -> has_section st = true -> current_section st <> EmptyString ->
  settings_ok (foldl (fun s kv => put_pair s st kv.1 kv.2) s (fitting l)) /\
  parse_text s (written (l ≫= uncurry enum_map) ++ r) st =
    parse_text (foldl (fun s kv => put_pair s st kv.1 kv.2) s (fitting l)) r st.
Proof.
  intros Hl. revert s. induction l as [|[k v] l IH]; intros s Hs Hh Hc; [done|]. apply Forall_cons in Hl as [Hp Hl].
  specialize (IH Hl). cbn [mbind list_bind uncurry fst snd] in *. unfold fitting. rewrite filter_cons. cbn [fst snd].
  rewrite written_app. unfold enum_map. fold (fits k v). destruct (fits k v) eqn:E.
  - rewrite decide_True by done. cbn [foldl fst snd].
    assert (settings_ok (put_pair s st k v)) as Hs' by (by apply set_spec). destruct (IH _ Hs' Hh Hc) as [Ho Hp'].
    split; [done|]. cbn [written foldr].
    replace ((_ ++ _) ++ _) with (pair_text k v ++ endl ++ (written (l ≫= uncurry enum_map) ++ r)).
    2: { unfold pair_text. rewrite !append_assoc. autorewrite with text. by rewrite <- !append_assoc. }
    destruct (pair_ok_line k v Hp) as [H1 H2]. unfold fits in E. apply andb_true_iff in E as E'. destruct E' as [E1%Z.ltb_lt E2%Z.ltb_lt].
    rewrite parse_line, pair_line; [exact Hp'|done..|]. rewrite pair_length. unfold MAX_LINECHARS, MAX_KEYCHARS, MAX_VALUECHARS in *. lia.
  - rewrite decide_False by done. by apply IH.
Qed.

(** Names, keys and values that lines can hold. *)
Definition pairs_ok (s : Settings) : Prop := forall x k v, map_of s x !! k = Some v -> pair_ok k v = true.
Definition text_ok (s : Settings) : Prop := Forall (fun n => name_ok n = true) (sec_name <$> sections s) /\ pairs_ok s.

Lemma text_ok_sections s : settings_ok s -> text_ok s ->
  Forall (fun x => name_ok (sec_name x) = true /\ Forall (fun kv => pair_ok kv.1 kv.2 = true) (pairs (sec_map x))) (sections s).
Proof.
  intros Hs [Hn Hp]. apply Forall_fmap in Hn. apply Forall_forall. intros x Hx. rewrite Forall_forall in Hn. split; [by apply Hn|].
  apply Forall_forall. intros [k v] Hkv. apply (Hp (sec_name x)), in_entries; [done|]. apply list_elem_of_bind.
  exists x. split; [|done]. apply list_elem_of_fmap. by exists (k, v).
Qed.

Definition kept_of (x : Section_) : list (string * string * string) :=
  (fun kv => (sec_name x, kv.1, kv.2)) <$> fitting (pairs (sec_map x)).
Definition kept (s : Settings) : list (string * string * string) := sections s ≫= kept_of.

Lemma in_kept s x k v : (x, k, v) ∈ kept s <-> (x, k, v) ∈ entries s /\ fits k v = true.
Proof.
  unfold kept, entries, kept_of, fitting. rewrite !list_elem_of_bind. setoid_rewrite list_elem_of_fmap.
  setoid_rewrite list_elem_of_filter. split.
  - intros (y & (kv & [= -> -> ->] & Hf & Hin) & Hy). split; [|done]. exists y. eauto.
  - intros [(y & (kv & [= -> -> ->] & Hin) & Hy) Hf]. exists y. eauto.
Qed.

Lemma kept_once s : settings_ok s -> NoDup (kept s).*1.
Proof.
  intros Hs. eapply sublist_NoDup; [by apply entries_once|]. apply fmap_sublist. unfold kept, entries.
  induction (sections s) as [|x l IH]; cbn; [done|]. apply sublist_app; [|exact IH]. unfold kept_of.
  apply fmap_sublist, sublist_filter.
Qed.

Lemma section_lines x s r st :
  name_ok (sec_name x) = true -> Forall (fun kv => pair_ok kv.1 kv.2 = true) (pairs (sec_map x)) -> settings_ok s ->
  exists st', settings_ok (set_all s (kept_of x)) /\
    parse_text s (written (section_text x) ++ r) st = parse_text (set_all s (kept_of x)) r st'.
Proof.
  intros Hn Hp Hs. exists {| current_section := sec_name x; has_section := true |}.
  pose proof Hn as Hn'. unfold name_ok in Hn'. rewrite !andb_true_iff, !negb_true_iff, Z.ltb_lt in Hn'.
  destruct Hn' as [[[[Hne He] Hl] Hz] Hlen].
  unfold section_text. rewrite enum_writes, written_app, written_app. cbn [written foldr].
  destruct (pairs_lines (pairs (sec_map x)) s (endl ++ r) {| current_section := sec_name x; has_section := true |})
    as [Hok Hpp]; [done..|cbn; by intros E; rewrite E in Hne|].
  assert (set_all s (kept_of x) = foldl (fun s kv => put_pair s {| current_section := sec_name x; has_section := true |} kv.1 kv.2) s (fitting (pairs (sec_map x)))) as ->.
  { unfold set_all, kept_of. rewrite foldl_fmap. done. }
  split; [done|].
  replace ((endl ++ "") ++ r) with (endl ++ r) by done.
  replace ((_ ++ "") ++ _) with (("[" ++ sec_name x ++ "]") ++ endl ++ (written (pairs (sec_map x) ≫= uncurry enum_map) ++ endl ++ r)).
  2: { rewrite !append_assoc. autorewrite with text. by rewrite <- !append_assoc. }
  rewrite parse_line, section_line; [..|rewrite !strlen_app; change (strlen "[") with 1; change (strlen "]") with 1; lia];
    [|done|by rewrite !has_app, Hl|by rewrite !has_app, Hz].
  cbn [mbind option_bind]. rewrite Hpp. by apply (parse_line _ "" r).
Qed.

Lemma set_all_app s a b : set_all s (a ++ b) = set_all (set_all s a) b.
Proof. apply foldl_app. Qed.

Lemma sections_lines l s st :
  Forall (fun x => name_ok (sec_name x) = true /\ Forall (fun kv => pair_ok kv.1 kv.2 = true) (pairs (sec_map x))) l ->
  settings_ok s -> parse_text s (written (l ≫= section_text)) st = Some (set_all s (l ≫= kept_of)).
Proof.
  intros Hl. revert s st. induction l as [|x l IH]; intros s st Hs; [done|]. apply Forall_cons in Hl as [[Hn Hp] Hl].
  specialize (IH Hl). change ((x :: l) ≫= section_text) with (section_text x ++ (l ≫= section_text))%list. rewrite written_cat.
  destruct (section_lines x s (written (l ≫= section_text)) st Hn Hp Hs) as (st' & Hok & ->).
  change ((x :: l) ≫= kept_of) with (kept_of x ++ (l ≫= kept_of))%list. rewrite set_all_app. by apply IH.
Qed.

Lemma settings_new_ok : settings_ok settings_new.
Proof. split; cbn; [constructor|apply not_elem_of_nil|constructor]. Qed.

Lemma open_text stream :
  settings_open stream = parse_text settings_new stream {| current_section := EmptyString; has_section := false |}.
Proof. reflexivity. Qed.

(** The settings that are read back from what was saved. *)
Lemma save_open s : settings_ok s -> text_ok s ->
  exists s', settings_open (written (settings_save s)) = Some s' /\ settings_ok s' /\ text_ok s' /\
    forall x k v, map_of s' x !! k = Some v <-> map_of s x !! k = Some v /\ fits k v = true.
Proof.
  intros Hs Ht. exists (set_all settings_new (kept s)).
  destruct (set_all_spec (kept s) settings_new settings_new_ok) as [Hok Hmap]; [|by apply kept_once|].
  - apply Forall_forall. intros [[x k] v] [Hin%in_entries _]%in_kept; [|done]. cbn.
    intros ->. destruct Hs as [_ Hn _]. unfold map_of in Hin.
    destruct (get_section (sections s) "") as [[i y]|] eqn:E; [|done].
    apply found_section in E as [Hi Ey]. apply Hn. rewrite <- Ey. apply list_elem_of_fmap_2. by eapply list_elem_of_lookup_2.
  - assert (forall x k v, map_of (set_all settings_new (kept s)) x !! k = Some v <-> map_of s x !! k = Some v /\ fits k v = true) as Hall.
    { intros x k v. rewrite Hmap, in_kept, in_entries by done. unfold map_of at 2. cbn. rewrite lookup_empty. naive_solver. }
    split; [|split; [done|split; [|done]]].
    + rewrite open_text. unfold settings_save, kept. by rewrite (sections_lines _ _ _ (text_ok_sections s Hs Ht) settings_new_ok).
    + destruct Ht as [Hn Hp]. split; [|intros x k v [? _]%Hall; by eapply Hp].
      apply Forall_forall. intros n [Hin|(p & -> & (e & -> & He)%list_elem_of_fmap)%list_elem_of_fmap]%set_all_names.
      { by apply not_elem_of_nil in Hin. }
      rewrite Forall_forall in Hn. apply Hn. apply list_elem_of_bind in He as (y & (kv & -> & _)%list_elem_of_fmap & Hy).
      cbn [fst]. by apply (list_elem_of_fmap_2 sec_name).
Qed.

(** ** What is read can be saved *)

Lemma has_skip c s : has c s = false -> has c (skip_blanks s) = false.
Proof.
  induction s as [|x s IH]; [done|]. intros Hx. cbn [skip_blanks]. destruct (is_blank_char x); [|done].
  cbn in Hx. apply orb_false_iff in Hx as [_ Hx]. by apply IH.
Qed.

Lemma has_drop c s : has c s = false -> has c (drop_blanks s) = false.
Proof.
  induction s as [|x s IH]; [done|]. cbn. intros [Hx Hs]%orb_false_iff. specialize (IH Hs).
  destruct (drop_blanks s); [by destruct (is_blank_char x); cbn; rewrite ?Hx|cbn in *; by rewrite Hx, IH].
Qed.

Lemma has_trim c s : has c s = false -> has c (trim_str s) = false.
Proof. intros Hs. by apply has_drop, has_skip. Qed.

Lemma skip_head s : match skip_blanks s with String c _ => is_blank_char c = false | EmptyString => True end.
Proof. induction s as [|x s IH]; [done|]. cbn [skip_blanks]. by destruct (is_blank_char x) eqn:E. Qed.

Lemma skip_id s : match s with String c _ => is_blank_char c = false | EmptyString => True end -> skip_blanks s = s.
Proof. destruct s as [|c s]; [done|]. cbn. by intros ->. Qed.

Lemma drop_head s c r : s = String c r -> is_blank_char c = false -> exists r', drop_blanks s = String c r'.
Proof. intros -> Hc. cbn. rewrite Hc. destruct (drop_blanks r); by eexists. Qed.

Lemma trim_idem s : trim_str (trim_str s) = trim_str s.
Proof.
  unfold trim_str. pose proof (skip_head s) as Hh. rewrite (skip_id (drop_blanks (skip_blanks s))); [apply drop_blanks_idem|].
  destruct (skip_blanks s) as [|c r] eqn:E; [done|]. by destruct (drop_head (String c r) c r eq_refl Hh) as [r' ->].
Qed.

Lemma drop_suffix a b : drop_blanks (a ++ b) = a ++ b -> drop_blanks b = b.
Proof.
  induction a as [|x a IH]; [done|]. autorewrite with text. cbn [drop_blanks]. intros Hd. apply IH.
  destruct (drop_blanks (a ++ b)) as [|y t] eqn:E; [|by injection Hd].
  destruct (is_blank_char x); [done|]. injection Hd as Hd. by rewrite <- Hd.
Qed.

Lemma until_eq c s : s = (until c s).1 ++ (if has c s then String c (until c s).2 else EmptyString).
Proof.
  induction s as [|x s IH]; [done|]. cbn. destruct (x =? c)%char eqn:E.
  - apply Ascii.eqb_eq in E as ->. done.
  - destruct (until c s) as [a b]. cbn in *. autorewrite with text. by rewrite <- IH.
Qed.

Lemma fgets_piece n s : exists x, has newline x = false /\ ((fgets n s).1 = x \/ (fgets n s).1 = x ++ endl).
Proof.
  revert s. induction n as [|n IH]; intros [|c s]; try (exists ""; split; [done|by left]). cbn [fgets].
  destruct (c =? newline)%char eqn:E.
  - apply Ascii.eqb_eq in E as ->. exists "". split; [done|by right].
  - destruct (IH s) as (x & Hx & Hp). destruct (fgets n s) as [a b]. cbn in *. exists (String c x). cbn. rewrite E, Hx. split; [done|].
    destruct Hp as [->| ->]; [by left|by right].
Qed.

(** A line the loop hands to [parse_str()]. *)
Definition line_ok (str : string) : Prop := trim_str str = str /\ has newline str = false /\ has NUL str = false.

Lemma line_read n s : line_ok (trim_str (c_string (fgets n s).1)).
Proof.
  split; [apply trim_idem|]. split; [|apply has_trim, until_free].
  destruct (fgets_piece n s) as (x & Hx & [->| ->]).
  - apply has_trim. unfold c_string. rewrite (until_eq NUL x), has_app in Hx. by apply orb_false_iff in Hx as [Hx _].
  - unfold c_string. destruct (has NUL x) eqn:E.
    + apply has_trim. pose proof (until_eq NUL x) as Ex. rewrite E in Ex. rewrite Ex in Hx |- *.
      rewrite <- append_assoc. autorewrite with text. rewrite until_found by apply until_free. cbn.
      rewrite has_app in Hx. by apply orb_false_iff in Hx as [Hx _].
    + rewrite until_none by (by rewrite has_app, E). cbn [fst]. rewrite trim_line. by apply has_trim.
Qed.

Definition name_chars (n : string) : Prop := has SECTION_END_CHAR n = false /\ has newline n = false /\ has NUL n = false.

Lemma until_has x c s : has x s = false -> has x (until c s).1 = false /\ (has c s = true -> has x (until c s).2 = false).
Proof.
  intros Hx. rewrite (until_eq c s), has_app in Hx. apply orb_false_iff in Hx as [H1 H2]. split; [done|].
  intros Hc. rewrite Hc in H2. cbn in H2. by apply orb_false_iff in H2 as [_ ?].
Qed.

Lemma section_read str n : line_ok str -> get_section_from_str str MAX_LINECHARS = Some n -> name_chars n.
Proof.
  intros (_ & Hn & Hz). destruct str as [|c str]; unfold get_section_from_str, copied; case_match; try done; intros [= <-]; [done|].
  cbn in Hn, Hz. apply orb_false_iff in Hn as [_ Hn], Hz as [_ Hz]. split; [apply until_free|]. split; by apply until_has.
Qed.

Lemma pair_ok_intro k v : k <> EmptyString -> trim_str k = k -> has KEY_VALUE_SEPARATOR_CHAR k = false ->
  has newline k = false -> has NUL k = false -> starts_with COMMENT_CHAR k = false -> trim_str v = v ->
  has newline v = false -> has NUL v = false ->
  starts_with SECTION_START_CHAR k = false \/ (has SECTION_END_CHAR k = false /\ has SECTION_END_CHAR v = false) ->
  pair_ok k v = true.
Proof.
  intros H1 H2 H3 H4 H5 H6 H7 H8 H9 H10. unfold pair_ok. rewrite strlen_pos, H3, H4, H5, H6, H8, H9, H2, H7, !String.eqb_refl by done.
  cbn. destruct H10 as [->|[-> ->]]; [done|by rewrite andb_false_r].
Qed.

Lemma skip_suffix s : exists p, s = p ++ skip_blanks s.
Proof.
  induction s as [|c s [p IH]]; [by exists ""|]. cbn [skip_blanks]. destruct (is_blank_char c); [|by exists ""].
  exists (String c p). autorewrite with text. by rewrite <- IH.
Qed.

(** The key and the value of a line can be written again. *)
Lemma pair_read str k v : line_ok str -> str <> EmptyString -> is_comment_str str = false -> is_section_str str = false ->
  is_key_value_str str = true -> get_key_value_from_str str MAX_LINECHARS MAX_LINECHARS = Some (k, v) -> pair_ok k v = true.
Proof.
  intros (Ht & Hn & Hz) Hne Hc Hs. unfold is_key_value_str. intros [Hse%negb_true_iff Hq]%andb_true_iff Hg.
  unfold get_key_value_from_str in Hg. destruct (trimmed_head str Ht Hne) as (c & r & Ec & Hb).
  pose proof (until_eq KEY_VALUE_SEPARATOR_CHAR str) as Eu. rewrite Hq in Eu.
  pose proof (until_free KEY_VALUE_SEPARATOR_CHAR str) as Hfree.
  pose proof (until_has newline KEY_VALUE_SEPARATOR_CHAR str Hn) as [Hn1 Hn2]. specialize (Hn2 Hq).
  pose proof (until_has NUL KEY_VALUE_SEPARATOR_CHAR str Hz) as [Hz1 Hz2]. specialize (Hz2 Hq).
  destruct (until KEY_VALUE_SEPARATOR_CHAR str) as [a b]. cbn [fst snd] in *.
  unfold copied in Hg. repeat case_match; simplify_eq/=. 
  assert (exists a', a = String c a') as [a' ->].
  { destruct a as [|x a]; [|injection Eu as <- _; by eexists]. injection Eu as -> _. by rewrite Ascii.eqb_refl in Hse. }
  destruct (drop_head (String c a') c a' eq_refl Hb) as [d Ed].
  assert (trim_str (skip_blanks b) = skip_blanks b) as Hv.
  { unfold trim_str. rewrite (skip_id (skip_blanks b)) by apply skip_head. destruct (skip_suffix b) as [p Ep].
    apply (drop_suffix (String c a' ++ String KEY_VALUE_SEPARATOR_CHAR p)). rewrite <- append_assoc. autorewrite with text.
    rewrite <- Ep. rewrite app_String in Eu. rewrite <- Eu. by apply trimmed_drop. }
  assert (trim_str (drop_blanks (String c a')) = drop_blanks (String c a')) as Hk.
  { unfold trim_str. rewrite skip_id by (by rewrite Ed). apply drop_blanks_idem. }
  apply pair_ok_intro; try done; try by (apply has_drop || apply has_skip).
  - by rewrite Ed.
  - by rewrite Ed.
  - unfold is_section_str in Hs. apply andb_false_iff in Hs as [Hs|Hs]; [left; by rewrite Ed|right].
    rewrite Eu, has_app in Hs. cbn [has] in Hs. apply orb_false_iff in Hs as [Hs1 [_ Hs2]%orb_false_iff].
    split; [by apply has_drop|by apply has_skip].
Qed.

Lemma key_read str : line_ok str -> str <> EmptyString -> is_comment_str str = false -> is_section_str str = false ->
  is_key_without_value_str str = true -> pair_ok str EmptyString = true.
Proof.
  intros (Ht & Hn & Hz) Hne Hc Hs. unfold is_key_without_value_str. intros [_ Hq%negb_true_iff]%andb_true_iff.
  apply pair_ok_intro; try done. unfold is_section_str in Hs. apply andb_false_iff in Hs as [Hs|Hs]; [by left|by right].
Qed.

Record readable (s : Settings) (st : ParseState) : Prop := {
  rd_ok : settings_ok s;
  rd_pairs : pairs_ok s;
  rd_names : Forall name_chars (sec_name <$> sections s);
  rd_current : has_section st = true -> name_chars (current_section st);
}.

Lemma set_read s st k v s' r : readable s st -> has_section st = true -> pair_ok k v = true ->
  settings_set s (current_section st) k v = (r, s') -> r <> 0 -> readable s' st.
Proof.
  intros [Hok Hp Hn Hc] Hh Hkv E Hr. assert (current_section st <> EmptyString) as Hne.
  { intros Ee. rewrite Ee in E. change ((0, s) = (r, s')) in E. congruence. }
  destruct (set_spec s (current_section st) k v Hok Hne) as (_ & Hok' & Hmap).
  pose proof (set_names s (current_section st) k v) as Hnames. rewrite E in Hok', Hmap, Hnames. cbn [snd] in *.
  split; [done| | |done].
  - intros x k' v'. rewrite Hmap. case_decide; [|by apply Hp].
    rewrite lookup_insert_Some. intros [[<- <-]|[_ Hl]]; [done|]. by eapply Hp.
  - apply Forall_forall. intros n [->|Hin]%Hnames; [by apply Hc|]. by rewrite Forall_forall in Hn; apply Hn.
Qed.

Lemma parse_read s str st s' st' : line_ok str -> readable s st -> parse_str s str st = Some (s', st') -> readable s' st'.
Proof.
  intros Hl Hr. pose proof Hr as [Hok Hp Hn Hc]. unfold parse_str. destruct (strlen str =? 0) eqn:E0; [by intros [= <- <-]|].
  assert (str <> EmptyString) as Hne by (by intros ->).
  destruct (is_blank_str str); [by intros [= <- <-]|].
  destruct (is_comment_str str) eqn:Ecm; [by intros [= <- <-]|].
  destruct (is_section_str str) eqn:Es.
  { destruct (get_section_from_str str MAX_LINECHARS) as [n|] eqn:En; [|done]. cbn [mbind option_bind].
    destruct (MAX_LINECHARS <? _); [done|]. intros [= <- <-]. split; try done. intros _. by eapply section_read. }
  assert (forall k v, pair_ok k v = true -> (if has_section st then
      let '(r, s0) := settings_set s (current_section st) k v in if r =? 0 then None else Some (s0, st) else None) =
      Some (s', st') -> readable s' st') as Hset.
  { intros k v Hkv. destruct (has_section st) eqn:Eh; [|done]. destruct (settings_set _ _ _ _) as [r s0] eqn:Eset.
    destruct (r =? 0) eqn:Er; [done|]. intros [= <- <-]. apply Z.eqb_neq in Er. by eapply set_read. }
  destruct (is_key_value_str str) eqn:Ek.
  { destruct (get_key_value_from_str str MAX_LINECHARS MAX_LINECHARS) as [[k v]|] eqn:Eg; [|done]. cbn [mbind option_bind].
    apply Hset. by eapply pair_read. }
  destruct (is_key_without_value_str str) eqn:Ekw; [|done].
  unfold get_key_without_value_from_str, copied. destruct (strlen str <? MAX_LINECHARS); [|done]. cbn [mbind option_bind]. apply Hset. by apply key_read.
Qed.

Lemma lines_read fuel s stream st s' : readable s st -> parse_lines fuel s stream st = Some s' -> exists st', readable s' st'.
Proof.
  revert s stream st. induction fuel as [|fuel IH]; intros s [|c stream] st Hr; cbn [parse_lines]; try done;
    try (intros [= <-]; by exists st).
  pose proof (line_read (Z.to_nat (MAX_LINECHARS - 1)) (String c stream)) as Hl.
  destruct (fgets _ _) as [buf rest]. cbn [fst] in Hl.
  destruct (parse_str s (trim_str (c_string buf)) st) as [[s1 st1]|] eqn:Ep; [|done]. cbn [mbind option_bind].
  apply IH. by eapply parse_read.
Qed.

(** What is read from any text can be saved again, if no name fills its line. *)
Lemma open_ok stream s : settings_open stream = Some s ->
  settings_ok s /\ (Forall (fun n => strlen n < MAX_LINECHARS - 3) (sec_name <$> sections s) -> text_ok s).
Proof.
  intros Ho. assert (readable settings_new {| current_section := EmptyString; has_section := false |}) as Hr.
  { split; [apply settings_new_ok| |constructor|done]. intros x k v. unfold map_of. cbn. by rewrite lookup_empty. }
  destruct (lines_read _ _ _ _ _ Hr Ho) as [st [Hok Hp Hn _]].
  split; [done|]. intros Hs. split; [|done]. apply Forall_forall. intros n Hin. rewrite Forall_forall in Hn, Hs.
  destruct (Hn n Hin) as (H1 & H2 & H3). unfold name_ok. rewrite H1, H2, H3, (proj2 (Z.ltb_lt _ _) (Hs n Hin)), strlen_pos; [done|].
  intros ->. by destruct Hok as [_ ? _].
Qed.
End text.

(** ** Saving and reading *)

Section roundtrip.
Context `{Target}.

(** C36: settings that are saved are read back, if every line of the file can hold what it
    stands for.  That is [text_ok]: no key and no value has blanks around it, a line end or
    a NUL in it; a key is not empty, has no [=] and does not begin a comment; a pair does
    not look like a line of a section; and the name of a section is not empty, has no closing bracket,
    line end or NUL, and fewer than 519 characters.  (Other texts are changed by the file:
    a key [a=b] comes back as [a].)  The sections have names of their own, and their tables are
    maps ([settings_ok], which [settings_set] keeps in a section with a name, and
    [settings_open] makes).  Then a key has its value again if the key and the
    value are shorter than 256 characters, and otherwise it is missing; nothing is added,
    and the settings read can be saved again. *)
Theorem settings_roundtrip (s : Settings) (Hs : settings_ok s) (Ht : text_ok s) :
  exists s', settings_open (written (settings_save s)) = Some s' /\ settings_ok s' /\ text_ok s' /\
    forall section k out_buf n,
      settings_get s' section k out_buf n =
        match map_of s section !! k with
        | Some v => if fits k v then settings_get s section k out_buf n else (0, None)
        | None => (0, None)
        end.
Proof.
  destruct (save_open s Hs Ht) as (s' & Ho & Hok & Htok & Hmap). exists s'. split; [done|]. split; [done|]. split; [done|].
  intros x k out_buf n. rewrite !get_spec by done. destruct (map_of s x !! k) as [v|] eqn:E.
  - destruct (fits k v) eqn:Ef; [by rewrite (proj2 (Hmap x k v))|].
    destruct (map_of s' x !! k) as [w|] eqn:E'; [|done]. apply Hmap in E' as [E' Ef']. congruence.
  - destruct (map_of s' x !! k) as [w|] eqn:E'; [|done]. apply Hmap in E' as [E' _]. congruence.
Qed.
End roundtrip.

(** *** A machine, and settings *)

#[local] Instance amd64 : Target :=
  {| char_value := fun c => wrap_s 8 (Z.of_N (N_of_ascii c)); long_bits := 64 |}.

Definition network : Settings :=
  set_all settings_new [("Data", "host", "10.0.0.1"); ("Data", "ports", "1, 2"); ("MetaData", "Size", "")].

(** A text that is not [text_ok], and one that is too long. *)
Example text_changed_ex :
  let s := set_all settings_new [("Data", "a=b", "1"); ("Data", "long", String.concat EmptyString (repeat "12345678" 32))] in
  let s' := default settings_new (settings_open (written (settings_save s))) in
  (settings_get s' "Data" "a" true 256, (settings_get s' "Data" "a=b" true 256).1, (settings_get s' "Data" "long" true 256).1) =
    ((1, Some "b = 1"), 0, 0).
Proof. vm_compute. reflexivity. Qed.

Lemma settings_roundtrip_witness :
  let s' := default settings_new (settings_open (written (settings_save network))) in
  settings_get s' "Data" "ports" true 256 = (1, Some "1, 2").
Proof.
  assert (settings_ok network /\ pairs_ok network) as [Hs Hp].
  { pose proof (set_all_spec [("Data", "host", "10.0.0.1"); ("Data", "ports", "1, 2"); ("MetaData", "Size", "")] settings_new settings_new_ok) as Hall.
    destruct Hall as [Hok Hm]; [by repeat constructor|by apply (bool_decide_unpack _); vm_compute|].
    split; [done|]. intros x k v. unfold network. rewrite Hm, !elem_of_cons, elem_of_nil. unfold map_of. cbn.
    intros [Hin|[_ Hin]]; [|by rewrite lookup_empty in Hin]. destruct_or! Hin; simplify_eq; by vm_compute. }
  assert (text_ok network) as Ht by (split; [by repeat (constructor; [by vm_compute|]); constructor|done]).
  destruct (settings_roundtrip network Hs Ht) as (s' & Ho & _ & _ & Hg). cbv zeta. rewrite Ho. cbn [default].
  rewrite Hg. by vm_compute.
Defined.
