(* ===== verification/ADSettings.v ===== *)
(** * The settings of a program, in two files

    ADSettings.cpp: a program attaches its variables as settings; [Load()] reads them from
    the newer of two files that pass their checksums, [Store()] writes those that changed to
    the other file.  The files, and what [sha1sum] says about them, are the class [Disk];
    what an operation writes is a list of [disk_op]s, so that it can be cut anywhere. *)
From S2P Require Import Prelude Common Text StrMap Settings.
Local Open Scope string_scope.
Local Open Scope Z_scope.

(** ** Data *)

Inductive ESETTINGS_STATE :=
| ESETTINGS_STATE_OK_MAIN | ESETTINGS_STATE_OK_BACKUP | ESETTINGS_STATE_OK_OVERRIDE_DATA
| ESETTINGS_STATE_NO_FILE_PASSED | ESETTINGS_STATE_EMPTY_FILE_CREATE_ERROR | ESETTINGS_STATE_EMPTY_FILE_DEFAULT_DATA
| ESETTINGS_STATE_MAIN_FILE_CORRUPT | ESETTINGS_STATE_BACKUP_FILE_CORRUPT | ESETTINGS_STATE_BOTH_FILES_CORRUPT
| ESETTINGS_STATE_UNKNOWN | ESETTINGS_STATE_NONE.
Inductive ESETTINGS_KEY_TYPE :=
| ESETTINGS_KEY_TYPE_STRING | ESETTINGS_KEY_TYPE_INT | ESETTINGS_KEY_TYPE_INT_ARR | ESETTINGS_KEY_TYPE_LONG
| ESETTINGS_KEY_TYPE_LONG_ARR | ESETTINGS_KEY_TYPE_DOUBLE | ESETTINGS_KEY_TYPE_DOUBLE_ARR
| ESETTINGS_KEY_TYPE_UNKNOWN | ESETTINGS_KEY_TYPE_NONE.
Inductive ESETTINGS_KEY_STATE :=
| ESETTINGS_KEY_STATE_NOT_LOADED | ESETTINGS_KEY_STATE_LOADED | ESETTINGS_KEY_STATE_NOT_FOUND
| ESETTINGS_KEY_STATE_STORED | ESETTINGS_KEY_STATE_UNKNOWN | ESETTINGS_KEY_STATE_NONE.
Inductive ESETTINGS_SELECTED_FILE :=
| ESETTINGS_SELECTED_FILE_MAIN | ESETTINGS_SELECTED_FILE_BACKUP | ESETTINGS_SELECTED_FILE_UNKNOWN | ESETTINGS_SELECTED_FILE_NONE.
Inductive ESETTINGS_SECTION :=
| ESETTINGS_SECTION_DATA | ESETTINGS_SECTION_META_DATA | ESETTINGS_SECTION_UNKNOWN | ESETTINGS_SECTION_NONE.

#[export] Instance key_state_eq : EqDecision ESETTINGS_KEY_STATE := ltac:(solve_decision).
#[export] Instance section_eq : EqDecision ESETTINGS_SECTION := ltac:(solve_decision).
#[export] Instance settings_state_eq : EqDecision ESETTINGS_STATE := ltac:(solve_decision).

Definition SETTINGS_STATUS_STRING_TABLE : list string :=
  ["OkMain"; "OkBkup"; "OkFmwOvride"; "NoFile"; "EmptyFileErr"; "EmptyFileDef"; "MainCorrupt"; "BkupCorrupt";
   "BothCorrupt"; "unknown"; "none"].
Definition state_index (s : ESETTINGS_STATE) : nat :=
  match s with
  | ESETTINGS_STATE_OK_MAIN => 0 | ESETTINGS_STATE_OK_BACKUP => 1 | ESETTINGS_STATE_OK_OVERRIDE_DATA => 2
  | ESETTINGS_STATE_NO_FILE_PASSED => 3 | ESETTINGS_STATE_EMPTY_FILE_CREATE_ERROR => 4
  | ESETTINGS_STATE_EMPTY_FILE_DEFAULT_DATA => 5 | ESETTINGS_STATE_MAIN_FILE_CORRUPT => 6
  | ESETTINGS_STATE_BACKUP_FILE_CORRUPT => 7 | ESETTINGS_STATE_BOTH_FILES_CORRUPT => 8
  | ESETTINGS_STATE_UNKNOWN => 9 | ESETTINGS_STATE_NONE => 10
  end.

Definition SETTINGS_SECTION_DATA_NAME : string := "Data".
Definition SETTINGS_SECTION_META_DATA_NAME : string := "MetaData".
Definition SETTINGS_SECTION_META_DATA_VERSION : string := "Version".
Definition SETTINGS_SECTION_META_DATA_SEQ_COUNT : string := "SequenceCount".
Definition SETTINGS_SECTION_META_DATA_SIZE : string := "Size".
Definition SHA1_FILE_EXTENSION : string := "sha1".
Definition ALTERNATE_FILE_EXTENSION : string := "alt".
Definition SETTINGS_META_ENTRY_VERSION : Z := 65000.
Definition SETTINGS_META_ENTRY_SEQCOUNT : Z := 65001.
Definition SETTINGS_META_ENTRY_SIZE : Z := 65002.

(** A variable of the program that a setting stands for.  It has the type the entry says,
    and an array has as many elements as [value_size] has room for. *)
Inductive cell (D : Type) :=
| VString (s : string) | VInt (n : Z) | VInts (l : list Z) | VLong (n : Z) | VLongs (l : list Z)
| VDouble (d : D) | VDoubles (l : list D).
Arguments VString {D} s. Arguments VInt {D} n. Arguments VInts {D} l. Arguments VLong {D} n. Arguments VLongs {D} l.
Arguments VDouble {D} d. Arguments VDoubles {D} l.

Abbreviation pointer := positive.

(** An entry; [value] points to the variable. *)
Record SETTINGS_ENTRY := {
  key_index : Z; key_type : ESETTINGS_KEY_TYPE; entry_key : string; value : pointer; value_size : Z;
  key_state : ESETTINGS_KEY_STATE; section : ESETTINGS_SECTION; section_name : string
}.

(** What [attach_setting()] puts in the local chain: a copy of the entry with a value of its own. *)
Record local_entry (D : Type) := { copy : SETTINGS_ENTRY; local_value : cell D }.
Arguments copy {D} _. Arguments local_value {D} _.

(** Files by their names, and what a process does to them. *)
Abbreviation files := (gmap string string).
Inductive disk_op := Truncate (path : string) | Append (path : string) (text : string).

(** What the process may read and write; what [sha1sum path] prints when the file holds
    [content]; and whether [sha1sum -c] accepts that text for a content of the file. *)
Class Disk := {
  readable : string -> bool;
  writable : string -> bool;
  sha1sum : string -> string -> string;
  sha1_check : string -> string -> string -> bool
}.

Definition run_op (fs : files) (o : disk_op) : files :=
  match o with
  | Truncate path => <[path := EmptyString]> fs
  | Append path text => <[path := default EmptyString (fs !! path) ++ text]> fs
  end.
Definition run (ops : list disk_op) (fs : files) : files := foldl run_op fs ops.

(** The members of the class.  [MetaData.version], [.seq_count] and [.size] are variables,
    because entries point to them; [entries] are the objects the chain points to. *)
Record ADSettings_ (D : Type) := {
  file : string; alternate_file : string; selected_file : ESETTINGS_SELECTED_FILE;
  SettingsState : ESETTINGS_STATE;
  SettingsChain : list pointer;
  SettingsChainLocal : list (local_entry D);
  filepath : string;
  settings : option Settings;
  settings_open_flag : bool;
  entries : gmap pointer SETTINGS_ENTRY;
  vars : gmap pointer (cell D)
}.
Arguments file {D} _. Arguments alternate_file {D} _. Arguments selected_file {D} _. Arguments SettingsState {D} _.
Arguments SettingsChain {D} _. Arguments SettingsChainLocal {D} _. Arguments filepath {D} _. Arguments settings {D} _.
Arguments settings_open_flag {D} _. Arguments entries {D} _. Arguments vars {D} _.

(** [MetaData.version], [MetaData.seq_count], [MetaData.size], and [MetaStngTbl[0..2]]. *)
Definition version_var : pointer := 1.
Definition seq_count_var : pointer := 2.
Definition size_var : pointer := 3.
Definition MetaStngTbl0 : pointer := 1.
Definition MetaStngTbl1 : pointer := 2.
Definition MetaStngTbl2 : pointer := 3.

Section class.
Context `{Target} {D : Type} `{Doubles D} `{Disk}.
(** What fresh memory of [new char[]] holds, seen as a value of a type. *)
Context (junk : ESETTINGS_KEY_TYPE -> Z -> cell D).

Abbreviation ADSettings := (ADSettings_ D).

Definition set_meta (a : ADSettings) f alt sel : ADSettings :=
  {| file := f; alternate_file := alt; selected_file := sel; SettingsState := SettingsState a;
     SettingsChain := SettingsChain a; SettingsChainLocal := SettingsChainLocal a; filepath := filepath a;
     settings := settings a; settings_open_flag := settings_open_flag a; entries := entries a; vars := vars a |}.
Definition set_state (a : ADSettings) st : ADSettings :=
  {| file := file a; alternate_file := alternate_file a; selected_file := selected_file a; SettingsState := st;
     SettingsChain := SettingsChain a; SettingsChainLocal := SettingsChainLocal a; filepath := filepath a;
     settings := settings a; settings_open_flag := settings_open_flag a; entries := entries a; vars := vars a |}.
Definition set_chains (a : ADSettings) c l : ADSettings :=
  {| file := file a; alternate_file := alternate_file a; selected_file := selected_file a;
     SettingsState := SettingsState a; SettingsChain := c; SettingsChainLocal := l; filepath := filepath a;
     settings := settings a; settings_open_flag := settings_open_flag a; entries := entries a; vars := vars a |}.
Definition set_local (a : ADSettings) l : ADSettings := set_chains a (SettingsChain a) l.
Definition set_path (a : ADSettings) p : ADSettings :=
  {| file := file a; alternate_file := alternate_file a; selected_file := selected_file a;
     SettingsState := SettingsState a; SettingsChain := SettingsChain a; SettingsChainLocal := SettingsChainLocal a;
     filepath := p; settings := settings a; settings_open_flag := settings_open_flag a; entries := entries a;
     vars := vars a |}.
Definition set_settings (a : ADSettings) s open : ADSettings :=
  {| file := file a; alternate_file := alternate_file a; selected_file := selected_file a;
     SettingsState := SettingsState a; SettingsChain := SettingsChain a; SettingsChainLocal := SettingsChainLocal a;
     filepath := filepath a; settings := s; settings_open_flag := open; entries := entries a; vars := vars a |}.
Definition set_memory (a : ADSettings) e v : ADSettings :=
  {| file := file a; alternate_file := alternate_file a; selected_file := selected_file a;
     SettingsState := SettingsState a; SettingsChain := SettingsChain a; SettingsChainLocal := SettingsChainLocal a;
     filepath := filepath a; settings := settings a; settings_open_flag := settings_open_flag a; entries := e;
     vars := v |}.
Definition set_entry (a : ADSettings) p e : ADSettings := set_memory a (<[p := e]> (entries a)) (vars a).
Definition set_var (a : ADSettings) p c : ADSettings := set_memory a (entries a) (<[p := c]> (vars a)).

Definition with_state (e : SETTINGS_ENTRY) st : SETTINGS_ENTRY :=
  {| key_index := key_index e; key_type := key_type e; entry_key := entry_key e; value := value e;
     value_size := value_size e; key_state := st; section := section e; section_name := section_name e |}.

(** The object of a program with these entries and variables, before anything is attached. *)
Definition new_ADSettings (e : gmap pointer SETTINGS_ENTRY) (v : gmap pointer (cell D)) : ADSettings :=
  {| file := EmptyString; alternate_file := EmptyString; selected_file := ESETTINGS_SELECTED_FILE_UNKNOWN;
     SettingsState := ESETTINGS_STATE_UNKNOWN; SettingsChain := []; SettingsChainLocal := []; filepath := EmptyString;
     settings := None; settings_open_flag := false; entries := e; vars := v |}.

(** ** Entries *)

Definition init_setting (indx : Z) (type : ESETTINGS_KEY_TYPE) (name : string) (val : pointer) (val_size : Z)
    (sec : ESETTINGS_SECTION) : SETTINGS_ENTRY :=
  {| key_index := indx; key_type := type; entry_key := name; value := val; value_size := val_size;
     key_state := ESETTINGS_KEY_STATE_NOT_LOADED; section := sec;
     section_name := if decide (sec = ESETTINGS_SECTION_META_DATA) then SETTINGS_SECTION_META_DATA_NAME
                     else SETTINGS_SECTION_DATA_NAME |}.

(** The entry [pEntry] points to goes to one chain, a copy to the other. *)
Definition attach_setting (a : ADSettings) (pEntry : pointer) : Z * ADSettings :=
  match entries a !! pEntry with
  | None => (-1, a)
  | Some e =>
      (0, set_chains a (SettingsChain a ++ [pEntry])%list
            (SettingsChainLocal a ++ [{| copy := e; local_value := junk (key_type e) (value_size e) |}])%list)
  end.

Definition InitAndInsertMetaDataEntries (a : ADSettings) : Z * ADSettings :=
  let a := set_entry a MetaStngTbl0 (init_setting SETTINGS_META_ENTRY_VERSION ESETTINGS_KEY_TYPE_INT
             SETTINGS_SECTION_META_DATA_VERSION version_var 4 ESETTINGS_SECTION_META_DATA) in
  let a := set_entry a MetaStngTbl1 (init_setting SETTINGS_META_ENTRY_SEQCOUNT ESETTINGS_KEY_TYPE_INT
             SETTINGS_SECTION_META_DATA_SEQ_COUNT seq_count_var 4 ESETTINGS_SECTION_META_DATA) in
  let a := set_entry a MetaStngTbl2 (init_setting SETTINGS_META_ENTRY_SIZE ESETTINGS_KEY_TYPE_INT
             SETTINGS_SECTION_META_DATA_SIZE size_var 4 ESETTINGS_SECTION_META_DATA) in
  let a := (attach_setting a MetaStngTbl0).2 in
  let a := (attach_setting a MetaStngTbl1).2 in
  (0, (attach_setting a MetaStngTbl2).2).

Definition not_loaded (a : ADSettings) (p : pointer) : bool :=
  match entries a !! p with
  | Some e => negb (bool_decide (key_state e = ESETTINGS_KEY_STATE_LOADED))
  | None => true
  end.
Definition ValidateMetaDataEntries (a : ADSettings) : Z * ADSettings :=
  let a := if not_loaded a MetaStngTbl0 then set_var a version_var (VInt 0) else a in
  let a := if not_loaded a MetaStngTbl1 then set_var a seq_count_var (VInt 0) else a in
  let a := if not_loaded a MetaStngTbl2 then set_var a size_var (VInt 0) else a in
  (0, a).

Definition get_version (a : ADSettings) : option Z :=
  match vars a !! version_var with Some (VInt n) => Some n | _ => None end.
Definition set_version (a : ADSettings) (version : Z) : Z * ADSettings := (0, set_var a version_var (VInt version)).
(** Three getters that store nothing through their pointer. *)
Definition get_seq_count (a : ADSettings) (count : Z) : Z * Z := (0, count).
Definition get_size (a : ADSettings) (size : Z) : Z * Z := (0, size).
Definition get_checksum (a : ADSettings) (cs : Z) : Z * Z := (0, cs).
Definition ReadStatus (a : ADSettings) : option string := SETTINGS_STATUS_STRING_TABLE !! state_index (SettingsState a).

(** ** Files *)

Definition Is_it_valid_file (fs : files) (path : string) : Z := match fs !! path with Some _ => 0 | None => -1 end.

(** [fopen(path, "r")] and what is in the file. *)
Definition contents (fs : files) (path : string) : option string :=
  if readable path then fs !! path else None.

Definition sha1_of (path : string) : string := path ++ "." ++ SHA1_FILE_EXTENSION.

Definition Open (a : ADSettings) (fs : files) : Z * ADSettings :=
  if settings_open_flag a then (0, a)
  else if Is_it_valid_file fs (filepath a) =? 0 then
    match contents fs (filepath a) with
    | None => (-1, a)
    | Some text =>
        match settings_open text with
        | None => (-1, set_settings a None false)
        | Some s => (0, set_settings a (Some s) true)
        end
    end
  else (-1, a).

(** The texts are written one after the other. *)
Definition Save (a : ADSettings) : Z * list disk_op :=
  if negb (settings_open_flag a) then (-1, [])
  else if writable (filepath a) then
    match settings a with
    | None => (-1, [Truncate (filepath a)])
    | Some s => (0, Truncate (filepath a) :: (Append (filepath a) <$> settings_save s))
    end
  else (-1, []).

(** What [ReadMetaData()] finds: version, sequence count and size. *)
Definition int_of (o : option (number D)) (missing : Z) : Z := match o with Some (Int n) => n | _ => missing end.
Definition meta_int (s : Settings) (k : string) : Z := int_of (settings_get_int s SETTINGS_SECTION_META_DATA_NAME k) (-1).
Definition ReadMetaData (fs : files) (path : string) : Z * (Z * Z * Z) :=
  match contents fs path with
  | None => (-1, (0, 0, 0))
  | Some text =>
      match settings_open text with
      | None => (-1, (0, 0, 0))
      | Some s => (0, (meta_int s SETTINGS_SECTION_META_DATA_VERSION, meta_int s SETTINGS_SECTION_META_DATA_SEQ_COUNT,
                       meta_int s SETTINGS_SECTION_META_DATA_SIZE))
      end
  end.

(** [sha1sum path > path.sha1], and [sha1sum -c path.sha1]; the value is the exit status of
    the command. *)
Definition CalculateCheckSum (fs : files) (path : string) : Z * list disk_op :=
  if negb (writable (sha1_of path)) then (512, [])
  else match contents fs path with
       | None => (256, [Truncate (sha1_of path)])
       | Some text => (0, [Truncate (sha1_of path); Append (sha1_of path) (sha1sum path text)])
       end.
Definition VerifyCheckSum (fs : files) (path : string) : bool :=
  match contents fs (sha1_of path), contents fs path with
  | Some sum, Some text => sha1_check path sum text
  | _, _ => false
  end.

Definition SwapAlternateFile (a : ADSettings) : Z * ADSettings :=
  (0, set_meta a (alternate_file a) (file a)
        match selected_file a with
        | ESETTINGS_SELECTED_FILE_MAIN => ESETTINGS_SELECTED_FILE_BACKUP
        | _ => ESETTINGS_SELECTED_FILE_MAIN
        end).

(** [touch path]. *)
Definition touch (fs : files) (path : string) : Z * files :=
  match fs !! path with
  | Some _ => (if writable path then 0 else 256, fs)
  | None => if writable path then (0, <[path := EmptyString]> fs) else (256, fs)
  end.

Definition backup_of (mainfile : string) : string := truncate 1023 (mainfile ++ "." ++ ALTERNATE_FILE_EXTENSION).

Definition keep_default (a : ADSettings) (st : ESETTINGS_STATE) : ADSettings :=
  if decide (SettingsState a = ESETTINGS_STATE_EMPTY_FILE_DEFAULT_DATA) then a else set_state a st.

Definition take_meta (a : ADSettings) (m : Z * Z * Z) : ADSettings :=
  let '(version, seq, size) := m in
  set_var (set_var (set_var a seq_count_var (VInt seq)) version_var (VInt version)) size_var (VInt size).

(** Which of the two files is the one to read. *)
Definition choose_file (a : ADSettings) (fs : files) (mainfile bkupfile : string) : ADSettings :=
  let Metamain := (ReadMetaData fs mainfile).2 in
  let Metabkup := (ReadMetaData fs bkupfile).2 in
  match VerifyCheckSum fs mainfile, VerifyCheckSum fs bkupfile with
  | false, false =>
      keep_default (set_meta a bkupfile mainfile ESETTINGS_SELECTED_FILE_BACKUP) ESETTINGS_STATE_BOTH_FILES_CORRUPT
  | true, false =>
      keep_default (set_meta a mainfile bkupfile ESETTINGS_SELECTED_FILE_MAIN) ESETTINGS_STATE_BACKUP_FILE_CORRUPT
  | false, true =>
      keep_default (set_meta a bkupfile mainfile ESETTINGS_SELECTED_FILE_BACKUP) ESETTINGS_STATE_MAIN_FILE_CORRUPT
  | true, true =>
      if Metabkup.1.2 <=? Metamain.1.2
      then set_state (set_meta (take_meta a Metamain) mainfile bkupfile ESETTINGS_SELECTED_FILE_MAIN) ESETTINGS_STATE_OK_MAIN
      else set_state (set_meta (take_meta a Metabkup) bkupfile mainfile ESETTINGS_SELECTED_FILE_BACKUP) ESETTINGS_STATE_OK_BACKUP
  end.

Definition FileConsistencyCheck (a : ADSettings) (fs : files) (mainfile : string) : Z * ADSettings * files :=
  if strlen mainfile =? 0 then (-1, set_state a ESETTINGS_STATE_NO_FILE_PASSED, fs)
  else
    let '(r, a, fs) :=
      if Is_it_valid_file fs mainfile =? 0 then (0, a, fs)
      else let '(r, fs) := touch fs mainfile in
           (r, set_state a (if r =? 0 then ESETTINGS_STATE_EMPTY_FILE_DEFAULT_DATA else ESETTINGS_STATE_EMPTY_FILE_CREATE_ERROR), fs) in
    if negb (r =? 0) then (-1, a, fs)
    else
      let bkupfile := backup_of mainfile in
      let '(r, fs) := if Is_it_valid_file fs bkupfile =? 0 then (0, fs) else touch fs bkupfile in
      if negb (r =? 0) then (-1, a, fs) else (0, choose_file a fs mainfile bkupfile, fs).

(** ** Loading *)

Definition ints (l : list (number D)) : list Z := (fun x => match x with Int n | Long n => n | Double _ => 0 end) <$> l.
Definition doubles (l : list (number D)) (default : D) : list D := (fun x => match x with Double d => d | _ => default end) <$> l.

(** Reading a value: whether it was found, and the variable after it. *)
Definition get_value (s : Settings) (e : SETTINGS_ENTRY) (v : cell D) : bool * cell D :=
  let sec := section_name e in
  let k := entry_key e in
  match key_type e, v with
  | ESETTINGS_KEY_TYPE_STRING, VString _ =>
      match settings_get s sec k true (value_size e) with (_, Some t) => (true, VString t) | _ => (false, v) end
  | ESETTINGS_KEY_TYPE_INT, VInt _ =>
      match settings_get_int s sec k with Some (Int n) => (true, VInt n) | _ => (false, v) end
  | ESETTINGS_KEY_TYPE_INT_ARR, VInts l =>
      match settings_get_int_tuple s sec k (Int <$> l) with Some r => (true, VInts (ints r)) | _ => (false, v) end
  | ESETTINGS_KEY_TYPE_LONG, VLong _ =>
      match settings_get_long s sec k with Some (Long n) => (true, VLong n) | _ => (false, v) end
  | ESETTINGS_KEY_TYPE_LONG_ARR, VLongs l =>
      match settings_get_long_tuple s sec k (Long <$> l) with Some r => (true, VLongs (ints r)) | _ => (false, v) end
  | ESETTINGS_KEY_TYPE_DOUBLE, VDouble _ =>
      match settings_get_double s sec k with Some (Double d) => (true, VDouble d) | _ => (false, v) end
  | ESETTINGS_KEY_TYPE_DOUBLE_ARR, VDoubles l =>
      match l, settings_get_double_tuple s sec k (Double <$> l) with
      | d :: _, Some r => (true, VDoubles (doubles r d))
      | _, _ => (false, v)
      end
  | _, _ => (false, v)
  end.

(** One round of the loop of [Load()]; the pointers in the chain are valid. *)
Definition load_entry (s : Settings) (a : ADSettings) (p : pointer) (i : nat) : ADSettings :=
  match entries a !! p, SettingsChainLocal a !! i with
  | Some e, Some l =>
      match vars a !! value e with
      | Some v =>
          let '(r1, v) := get_value s e v in
          let '(r2, w) := get_value s (copy l) (local_value l) in
          let st := if r1 && r2 then ESETTINGS_KEY_STATE_LOADED else ESETTINGS_KEY_STATE_NOT_FOUND in
          let a := set_entry (set_var a (value e) v) p (with_state e st) in
          set_local a (<[i := {| copy := with_state (copy l) st; local_value := w |}]> (SettingsChainLocal a))
      | None => a
      end
  | _, _ => a
  end.

Fixpoint load_entries (s : Settings) (a : ADSettings) (ps : list pointer) (i : nat) : Z * ADSettings :=
  match ps with
  | [] => (0, a)
  | p :: ps =>
      match SettingsChainLocal a !! i with
      | None => (-1, a)
      | Some _ => load_entries s (load_entry s a p i) ps (S i)
      end
  end.

Definition Load (a : ADSettings) (fs : files) (mainfile : string) : Z * ADSettings * files :=
  let a := set_meta (set_path a EmptyString) EmptyString EmptyString (selected_file a) in
  let '(r, a, fs) := FileConsistencyCheck a fs mainfile in
  if negb (r =? 0) then (-1, a, fs)
  else
    let a := set_path a (file a) in
    let a := (InitAndInsertMetaDataEntries a).2 in
    let '(r, a) := Open a fs in
    if negb (r =? 0) then (-1, a, fs)
    else match settings a with
         | None => (-1, a, fs)
         | Some s =>
             let '(r, a) := load_entries s a (SettingsChain a) 0 in
             if negb (r =? 0) then (-1, a, fs) else (0, (ValidateMetaDataEntries a).2, fs)
         end.

(** ** Storing *)

Fixpoint comma_separated (l : list string) : string :=
  match l with
  | [] => EmptyString
  | [x] => x
  | x :: l => x ++ ", " ++ comma_separated l
  end.

(** The text of a value. *)
Definition value_text (t : ESETTINGS_KEY_TYPE) (v : cell D) : string :=
  match t, v with
  | ESETTINGS_KEY_TYPE_STRING, VString s => s
  | ESETTINGS_KEY_TYPE_INT, VInt n => format_d n
  | ESETTINGS_KEY_TYPE_INT_ARR, VInts l => comma_separated (format_d <$> l)
  | ESETTINGS_KEY_TYPE_LONG, VLong n => format_d n
  | ESETTINGS_KEY_TYPE_LONG_ARR, VLongs l => comma_separated (format_d <$> l)
  | ESETTINGS_KEY_TYPE_DOUBLE, VDouble d => format_E d
  | ESETTINGS_KEY_TYPE_DOUBLE_ARR, VDoubles l => comma_separated (format_E <$> l)
  | _, _ => "unknown"
  end.

(** Whether the variable differs from its local copy; an array of doubles always does. *)
Definition value_changed (t : ESETTINGS_KEY_TYPE) (v w : cell D) : bool :=
  match t, v, w with
  | ESETTINGS_KEY_TYPE_STRING, VString a, VString b => negb (a =? b)%string
  | ESETTINGS_KEY_TYPE_INT, VInt a, VInt b => negb (a =? b)
  | ESETTINGS_KEY_TYPE_INT_ARR, VInts a, VInts b => negb (bool_decide (a = b))
  | ESETTINGS_KEY_TYPE_LONG, VLong a, VLong b => negb (a =? b)
  | ESETTINGS_KEY_TYPE_LONG_ARR, VLongs a, VLongs b => negb (bool_decide (a = b))
  | ESETTINGS_KEY_TYPE_DOUBLE, VDouble a, VDouble b => negb (same_double a b)
  | ESETTINGS_KEY_TYPE_DOUBLE_ARR, VDoubles _, VDoubles _ => true
  | _, _, _ => false
  end.

(** One round of the loop of [Store()]: the local copy follows, the settings are updated. *)
Definition store_entry (s : Settings) (a : ADSettings) (p : pointer) (i : nat) : bool * Settings * ADSettings :=
  match entries a !! p, SettingsChainLocal a !! i with
  | Some e, Some l =>
      match vars a !! value e with
      | Some v =>
          let changed := value_changed (key_type e) v (local_value l) in
          let a := if changed then set_local a (<[i := {| copy := copy l; local_value := v |}]> (SettingsChainLocal a)) else a in
          (changed, (settings_set s (section_name e) (entry_key e) (value_text (key_type e) v)).2, a)
      | None => (false, s, a)
      end
  | _, _ => (false, s, a)
  end.

Fixpoint store_entries (s : Settings) (a : ADSettings) (ps : list pointer) (i : nat) (changed : bool) :
    Z * bool * Settings * ADSettings :=
  match ps with
  | [] => (0, changed, s, a)
  | p :: ps =>
      match SettingsChainLocal a !! i with
      | None => (-1, changed, s, a)
      | Some _ =>
          let '(c, s, a) := store_entry s a p i in
          store_entries s a ps (S i) (changed || c)
      end
  end.

Definition is_seq_count (e : SETTINGS_ENTRY) : bool := key_index e =? SETTINGS_META_ENTRY_SEQCOUNT.

Definition UpdateSequenceCount (a : ADSettings) : Z * ADSettings :=
  if negb (settings_open_flag a) then (-1, a)
  else match settings a with
  | None => (-1, a)
  | Some s =>
      let pEntry := find_first (fun p => match entries a !! p with Some e => is_seq_count e | None => false end) (SettingsChain a) in
      let pEntryLocal := list_find (fun l => is_seq_count (copy l) = true) (SettingsChainLocal a) in
      match (p ← pEntry; entries a !! p), pEntryLocal with
      | Some e, Some (i, l) =>
          match vars a !! seq_count_var with
          | Some (VInt n) =>
              let a := set_var a seq_count_var (VInt (i32 (n + 1))) in
              match vars a !! value e with
              | Some (VInt v) =>
                  let a := set_local a (<[i := {| copy := copy l; local_value := VInt v |}]> (SettingsChainLocal a)) in
                  (0, set_settings a (Some (settings_set s (section_name e) (entry_key e) (format_d v)).2) (settings_open_flag a))
              | _ => (-1, a)
              end
          | _ => (-1, a)
          end
      | _, _ => (-1, a)
      end
  end.

(** [Store()] with the writes it makes.  An empty path makes [Load()] fail. *)
Definition Store (a : ADSettings) (fs : files) : Z * ADSettings * list disk_op :=
  if negb (settings_open_flag a) then (-1, a, [])
  else if strlen (filepath a) =? 0 then (-1, (Load a fs (filepath a)).1.2, [])
  else match settings a with
       | None => (-1, a, [])
       | Some s =>
           let '(r, changed, s, a) := store_entries s a (SettingsChain a) 0 false in
           let a := set_settings a (Some s) (settings_open_flag a) in
           if negb (r =? 0) then (-1, a, [])
           else if changed then
             let a := set_path a (alternate_file a) in
             let a := (UpdateSequenceCount a).2 in
             let '(r, ops) := Save a in
             if negb (r =? 0) then (r, a, ops)
             else
               let a := (SwapAlternateFile a).2 in
               let '(r, sums) := CalculateCheckSum (run ops fs) (filepath a) in
               (r, a, (ops ++ sums)%list)
           else (0, a, [])
       end.

End class.
