(* ===== verification/ADSettingsSpec.v ===== *)
(** * What the two files of the settings promise

    Wherever [Store()] is cut off, [Load()] finds a file that passes its checksum, with
    either everything as it was before or everything as it was stored; and what is stored is
    loaded again. *)
From S2P Require Import Prelude Common Text StrMap Settings SettingsSpec ADSettings.
Local Open Scope string_scope.
Local Open Scope Z_scope.

(** The process may use its files; a checksum that is written is accepted, a text is the
    checksum of one content only, and a part of a checksum is at most the checksum of the
    same content. *)
Class DiskLaws `{Disk} := {
  may_read : forall p, readable p = true;
  may_write : forall p, writable p = true;
  sum_accepted : forall p c, sha1_check p (sha1sum p c) c = true;
  sum_one : forall p t c c', sha1_check p t c = true -> sha1_check p t c' = true -> c' = c;
  sum_part : forall p t u c c', sha1sum p c = t ++ u -> sha1_check p t c' = true -> c' = c;
}.

(** What a process that is stopped anywhere has done of a list of writes: some of them, and
    of the last one perhaps a part. *)
Inductive torn : list disk_op -> list disk_op -> Prop :=
| torn_before l : torn l []
| torn_within p t u l : torn (Append p (t ++ u) :: l) [Append p t]
| torn_after o l k : torn l k -> torn (o :: l) (o :: k).

Lemma torn_all l : torn l l.
Proof. induction l as [|o l IH]; [apply torn_before|by apply torn_after]. Qed.

(** ** Writing a file and its checksum *)

Section disk.
Context `{Target} `{Disk} `{!DiskLaws}.

Definition store_ops (alt : string) (texts : list string) : list disk_op :=
  (Truncate alt :: (Append alt <$> texts)) ++
    [Truncate (sha1_of alt); Append (sha1_of alt) (sha1sum alt (written texts))].

Lemma append_nil s : s ++ EmptyString = s.
Proof. induction s as [|c s IH]; [done|]. autorewrite with text. by rewrite IH. Qed.

Lemma run_appends alt texts fs x :
  run (Append alt <$> texts) (<[alt := x]> fs) = <[alt := x ++ written texts]> fs.
Proof.
  revert x. induction texts as [|t l IH]; intros x; cbn; [by rewrite append_nil|].
  rewrite lookup_insert_eq, insert_insert_eq. cbn. change (foldl run_op) with (fun fs ops => run ops fs). cbv beta. rewrite IH.
  by rewrite append_assoc.
Qed.

Lemma run_ops_app a b fs : run (a ++ b) fs = run b (run a fs).
Proof. apply foldl_app. Qed.

Lemma run_text alt texts fs : run (Truncate alt :: (Append alt <$> texts)) fs = <[alt := written texts]> fs.
Proof. apply (run_appends alt texts fs EmptyString). Qed.

Lemma run_store alt texts fs :
  run (store_ops alt texts) fs =
    <[sha1_of alt := sha1sum alt (written texts)]> (<[alt := written texts]> fs).
Proof.
  unfold store_ops. rewrite run_ops_app, run_text. cbn. by rewrite lookup_insert_eq, insert_insert_eq.
Qed.

(** The states of the disk at which writing a file and its checksum can be cut off. *)
Lemma torn_app a b k : torn (a ++ b) k -> torn a k \/ exists k', torn b k' /\ k = (a ++ k')%list.
Proof.
  revert k. induction a as [|o a IH]; intros k Hk; [right; by exists k|]. cbn in Hk.
  remember (o :: a ++ b)%list as l eqn:El. destruct Hk as [l|p t u l|o' l k Hk].
  - left. constructor.
  - injection El as <- ->. left. constructor.
  - injection El as -> ->. destruct (IH k Hk) as [|(k' & Hk' & ->)]; [left; by constructor|right; by exists k'].
Qed.

Lemma torn_appends alt texts k fs x : torn (Append alt <$> texts) k -> exists y, run k (<[alt := x]> fs) = <[alt := y]> fs.
Proof.
  revert x k. induction texts as [|t l IH]; intros x k Hk; cbn in Hk.
  - inversion Hk; subst. by exists x.
  - inversion Hk as [| |o l' k' Hk']; subst; cbn.
    + by exists x.
    + rewrite lookup_insert_eq, insert_insert_eq. by eexists.
    + rewrite lookup_insert_eq, insert_insert_eq. by apply IH.
Qed.

Inductive cut (alt : string) (texts : list string) (fs : files) : files -> Prop :=
| cut_before : cut alt texts fs fs
| cut_text y : cut alt texts fs (<[alt := y]> fs)
| cut_sum t u : sha1sum alt (written texts) = t ++ u ->
    cut alt texts fs (<[sha1_of alt := t]> (<[alt := written texts]> fs)).

Lemma store_cut alt texts fs k : torn (store_ops alt texts) k -> cut alt texts fs (run k fs).
Proof.
  intros [Hk|(k' & Hk & ->)]%torn_app.
  - inversion Hk as [| |o l k' Hk']; subst; [apply cut_before|]. cbn.
    destruct (torn_appends alt texts k' fs EmptyString Hk') as [y Ey]. unfold run in Ey. rewrite Ey. apply cut_text.
  - rewrite run_ops_app, run_text. inversion Hk as [| |o l k1 Hk1]; subst; [apply cut_text|]. clear Hk.
    inversion Hk1 as [|p t u l Ep|o l k2 Hk2]; subst; cbn.
    + apply (cut_sum _ _ _ EmptyString (sha1sum alt (written texts))). done.
    + rewrite lookup_insert_eq, insert_insert_eq. cbn. by apply (cut_sum _ _ _ t u).
    + inversion Hk2; subst. cbn. rewrite lookup_insert_eq, insert_insert_eq. cbn.
      apply (cut_sum _ _ _ (sha1sum alt (written texts)) EmptyString). by rewrite append_nil.
Qed.

(** ** Two files, one of them right *)

Context {D : Type} `{Doubles D}.

(** The sequence count [ReadMetaData()] finds in a text. *)
Definition seq_of (text : string) : Z :=
  match settings_open text with Some s => meta_int (D := D) s SETTINGS_SECTION_META_DATA_SEQ_COUNT | None => 0 end.

Definition valid (fs : files) (p c : string) : Prop :=
  fs !! p = Some c /\ exists t, fs !! sha1_of p = Some t /\ sha1_check p t c = true.

(** Between two valid files the main file is preferred. *)
Definition older (m sel : string) (x y : Z) : Prop := if decide (sel = m) then x <= y else x < y.

Definition names_short (s : Settings) : Prop := Forall (fun n => strlen n < MAX_LINECHARS - 3) (sec_name <$> sections s).

(** The file [sel] is right and holds the text [c]; whatever the checksum of the other one
    accepts is older. *)
Record recoverable (m : string) (fs : files) (c sel alt : string) : Prop := {
  rc_main : m <> EmptyString /\ strlen m <= 1000;
  rc_paths : sel = m /\ alt = backup_of m \/ sel = backup_of m /\ alt = m;
  rc_valid : valid fs sel c;
  rc_alt : is_Some (fs !! alt);
  rc_older : forall t c', fs !! sha1_of alt = Some t -> sha1_check alt t c' = true -> older m sel (seq_of c') (seq_of c);
  rc_text : exists s, settings_open c = Some s /\ names_short s;
}.

Lemma backup_eq m : strlen m <= 1000 -> backup_of m = m ++ ".alt".
Proof. intros Hm. apply truncate_ge. rewrite length_append. unfold strlen in Hm. cbn. lia. Qed.

Lemma length_ne a b : strlen a <> strlen b -> a <> b.
Proof. by intros Hl ->. Qed.

(** The four files of a main file are different. *)
Lemma paths_differ m sel alt : strlen m <= 1000 -> (sel = m /\ alt = backup_of m \/ sel = backup_of m /\ alt = m) ->
  sel <> alt /\ sha1_of sel <> alt /\ sha1_of sel <> sha1_of alt /\ sel <> sha1_of alt /\ alt <> sha1_of alt.
Proof.
  intros Hm Hp. rewrite (backup_eq m Hm) in Hp. unfold sha1_of.
  destruct Hp as [[-> ->]|[-> ->]]; repeat split; apply length_ne; rewrite !strlen_app; unfold strlen; cbn; lia.
Qed.

Lemma older_flip m sel alt x y : (sel = m /\ alt = backup_of m \/ sel = backup_of m /\ alt = m) -> x < y -> older m alt x y.
Proof. intros _ Hl. unfold older. case_decide; lia. Qed.

Lemma valid_frame fs fs' p c : fs' !! p = fs !! p -> fs' !! sha1_of p = fs !! sha1_of p -> valid fs p c -> valid fs' p c.
Proof. intros E1 E2 [Hc Ht]. split; [congruence|]. by rewrite E2. Qed.

(** Wherever the writing of a newer text is cut off, the old or the new text is there. *)
Lemma cut_recoverable m fs c sel alt texts fs' :
  recoverable m fs c sel alt -> cut alt texts fs fs' ->
  seq_of c < seq_of (written texts) -> (exists s, settings_open (written texts) = Some s /\ names_short s) ->
  recoverable m fs' c sel alt \/ recoverable m fs' (written texts) alt sel.
Proof.
  intros [[Hm1 Hm2] Hp Hv Ha Ho Ht] Hcut Hnew Hread. destruct (paths_differ m sel alt Hm2 Hp) as (D1 & D2 & D3 & D4 & D5).
  destruct Hcut as [|y|t u Esum].
  - left. by split.
  - left. split; try done.
    + apply (valid_frame fs); [by rewrite lookup_insert_ne..|done].
    + by rewrite lookup_insert_eq.
    + intros t c'. rewrite lookup_insert_ne by done. apply Ho.
  - assert (valid (<[sha1_of alt:=t]> (<[alt:=written texts]> fs)) sel c) as Hv'.
    { apply (valid_frame fs); [by rewrite !lookup_insert_ne..|done]. }
    destruct (sha1_check alt t (written texts)) eqn:E; [right|left]; split; try done.
    + destruct Hp as [[-> ->]|[-> ->]]; auto.
    + split; [by rewrite lookup_insert_ne, lookup_insert_eq|]. exists t. by rewrite lookup_insert_eq.
    + destruct Hv' as [Hv' _]. by rewrite Hv'.
    + intros t' c' Et' Hc'. destruct Hv' as (_ & t2 & Et2 & Hc2). simplify_eq.
      rewrite (sum_one _ _ c c' Hc2 Hc'). by eapply older_flip.
    + rewrite lookup_insert_ne, lookup_insert_eq by done. by eexists.
    + intros t' c'. rewrite lookup_insert_eq. intros [= <-] Hc'. pose proof (sum_part _ _ _ _ _ Esum Hc') as ->. congruence.
Qed.

(** ** Which file is read *)

Lemma valid_verify fs p c : valid fs p c -> VerifyCheckSum fs p = true.
Proof. intros (Hc & t & Ht & Hk). unfold VerifyCheckSum, contents. by rewrite !may_read, Hc, Ht. Qed.

Lemma verify_valid fs p : VerifyCheckSum fs p = true -> exists c, valid fs p c.
Proof.
  unfold VerifyCheckSum, contents. rewrite !may_read. destruct (fs !! sha1_of p) as [t|] eqn:Et; [|done].
  destruct (fs !! p) as [c|] eqn:Ec; [|done]. intros Hk. exists c. split; [done|]. by exists t.
Qed.

Lemma read_seq fs p c : fs !! p = Some c -> (ReadMetaData (D := D) fs p).2.1.2 = seq_of c.
Proof. intros Hc. unfold ReadMetaData, contents, seq_of. rewrite may_read, Hc. by destruct (settings_open c). Qed.

Lemma choose_recoverable (a : ADSettings_ D) m fs c sel alt : recoverable m fs c sel alt ->
  exists x se st, choose_file a fs m (backup_of m) = set_state (set_meta x sel alt se) st /\ (x = a \/ exists mt, x = take_meta a mt).
Proof.
  intros [[_ Hm] Hp Hv Ha Ho _]. destruct (paths_differ m sel alt Hm Hp) as (D1 & _).
  pose proof (valid_verify _ _ _ Hv) as Hvs. pose proof (read_seq fs sel c (proj1 Hv)) as Hs.
  assert (forall c', valid fs alt c' -> older m sel (ReadMetaData (D := D) fs alt).2.1.2 (seq_of c)) as Halt.
  { intros c' (Hc' & t & Ht & Hk). rewrite (read_seq _ _ _ Hc'). by apply (Ho t). }
  assert (forall st f g se, exists st', keep_default (set_meta a f g se) st = set_state (set_meta a f g se) st') as Hkeep.
  { intros st f g se. unfold keep_default. case_decide; [|by exists st]. exists (SettingsState a). done. }
  destruct Hp as [[-> ->]|[-> ->]]; unfold choose_file; rewrite Hvs.
  - destruct (VerifyCheckSum fs (backup_of m)) eqn:E.
    + destruct (verify_valid _ _ E) as [c' Hc']. specialize (Halt c' Hc'). rewrite Hs. unfold older in Halt.
      rewrite decide_True in Halt by done. rewrite (proj2 (Z.leb_le _ _) Halt).
      eexists (take_meta a _), _, _. split; [reflexivity|]. right. by eexists.
    + destruct (Hkeep ESETTINGS_STATE_BACKUP_FILE_CORRUPT m (backup_of m) ESETTINGS_SELECTED_FILE_MAIN) as [st ->].
      exists a. eexists _, st. split; [reflexivity|by left].
  - destruct (VerifyCheckSum fs m) eqn:E.
    + destruct (verify_valid _ _ E) as [c' Hc']. specialize (Halt c' Hc'). rewrite Hs. unfold older in Halt.
      rewrite decide_False in Halt by done. rewrite (proj2 (Z.leb_gt _ _) Halt).
      eexists (take_meta a _), _, _. split; [reflexivity|]. right. by eexists.
    + destruct (Hkeep ESETTINGS_STATE_MAIN_FILE_CORRUPT (backup_of m) m ESETTINGS_SELECTED_FILE_BACKUP) as [st ->].
      exists a. eexists _, st. split; [reflexivity|by left].
Qed.

Lemma check_recoverable (a : ADSettings_ D) m fs c sel alt : recoverable m fs c sel alt ->
  FileConsistencyCheck a fs m = (0, choose_file a fs m (backup_of m), fs).
Proof.
  intros [[Hne Hm] Hp [Hv _] [ca Ha] _ _]. unfold FileConsistencyCheck. rewrite strlen_pos by done.
  assert (Is_it_valid_file fs m = 0 /\ Is_it_valid_file fs (backup_of m) = 0) as [-> E2].
  { unfold Is_it_valid_file. by destruct Hp as [[-> ->]|[-> ->]]; rewrite Hv, Ha. }
  cbn. by rewrite E2.
Qed.
End disk.

(** ** What [Load()] leaves in the variables *)

Section load.
Context `{Target} {D : Type} `{Doubles D}.

(** Entries up to their state. *)
Definition shape (es : gmap pointer SETTINGS_ENTRY) : gmap pointer SETTINGS_ENTRY :=
  (fun e => with_state e ESETTINGS_KEY_STATE_NONE) <$> es.

Definition load_var (s : Settings) (es : gmap pointer SETTINGS_ENTRY) (vs : gmap pointer (cell D)) (p : pointer) : gmap pointer (cell D) :=
  match es !! p with
  | Some e => match vs !! value e with Some v => <[value e := (get_value s e v).2]> vs | None => vs end
  | None => vs
  end.

Lemma get_value_state s e st (v : cell D) : get_value s (with_state e st) v = get_value s e v.
Proof. done. Qed.

Lemma load_var_shape s es vs p : load_var s (shape es) vs p = load_var s es vs p.
Proof.
  unfold load_var, shape. rewrite lookup_fmap. destruct (es !! p) as [e|]; [|done]. cbn.
  by destruct (vs !! value e).
Qed.

Lemma shape_insert es p e st : es !! p = Some e -> shape (<[p := with_state e st]> es) = shape es.
Proof.
  intros Hp. unfold shape. rewrite fmap_insert. apply insert_id. by rewrite lookup_fmap, Hp.
Qed.

Lemma load_entry_frame s (a : ADSettings_ D) p i :
  SettingsChain (load_entry s a p i) = SettingsChain a /\
  length (SettingsChainLocal (load_entry s a p i)) = length (SettingsChainLocal a) /\
  shape (entries (load_entry s a p i)) = shape (entries a) /\
  (is_Some (SettingsChainLocal a !! i) -> vars (load_entry s a p i) = load_var s (entries a) (vars a) p) /\
  (forall q, q <> p -> entries (load_entry s a p i) !! q = entries a !! q) /\
  (forall j, j <> i -> SettingsChainLocal (load_entry s a p i) !! j = SettingsChainLocal a !! j) /\
  (fun e => with_state e ESETTINGS_KEY_STATE_NONE) ∘ copy <$> SettingsChainLocal (load_entry s a p i) =
    (fun e => with_state e ESETTINGS_KEY_STATE_NONE) ∘ copy <$> SettingsChainLocal a /\
  file (load_entry s a p i) = file a /\ alternate_file (load_entry s a p i) = alternate_file a /\
  filepath (load_entry s a p i) = filepath a /\ settings (load_entry s a p i) = settings a /\
  settings_open_flag (load_entry s a p i) = settings_open_flag a.
Proof.
  unfold load_entry, load_var. destruct (entries a !! p) as [e|] eqn:Ee; [|done].
  destruct (SettingsChainLocal a !! i) as [l|] eqn:El; [|by repeat split; intros []].
  destruct (vars a !! value e) as [v|]; [|done].
  destruct (get_value s e v) as [r1 v'], (get_value s (copy l) (local_value l)) as [r2 w]. cbn.
  split; [done|]. split; [by rewrite length_insert|]. split; [by apply shape_insert|]. split; [done|].
  split; [intros q Hq; by rewrite lookup_insert_ne|]. split; [intros j Hj; by rewrite list_lookup_insert_ne|].
  split; [|done]. rewrite list_fmap_insert. apply list_insert_id. rewrite list_lookup_fmap, El. done.
Qed.

(** The loop as a fold. *)
Fixpoint load_all (s : Settings) (a : ADSettings_ D) (ps : list pointer) (i : nat) : ADSettings_ D :=
  match ps with [] => a | p :: ps => load_all s (load_entry s a p i) ps (S i) end.

Lemma load_entries_all s a ps i : (i + length ps <= length (SettingsChainLocal a))%nat ->
  load_entries s a ps i = (0, load_all s a ps i).
Proof.
  revert a i. induction ps as [|p ps IH]; intros a i Hl; [done|]. cbn in Hl |- *.
  destruct (lookup_lt_is_Some_2 (SettingsChainLocal a) i) as [l El]; [lia|]. rewrite El. apply IH.
  rewrite (proj1 (proj2 (load_entry_frame s a p i))). lia.
Qed.

Lemma load_all_app s a ps qs i : load_all s a (ps ++ qs) i = load_all s (load_all s a ps i) qs (i + length ps).
Proof.
  revert a i. induction ps as [|p ps IH]; intros a i; cbn; [by rewrite Nat.add_0_r|]. rewrite IH. f_equal. lia.
Qed.

Lemma load_all_frame s (a : ADSettings_ D) ps i : (i + length ps <= length (SettingsChainLocal a))%nat ->
  SettingsChain (load_all s a ps i) = SettingsChain a /\
  length (SettingsChainLocal (load_all s a ps i)) = length (SettingsChainLocal a) /\
  shape (entries (load_all s a ps i)) = shape (entries a) /\
  vars (load_all s a ps i) = foldl (load_var s (shape (entries a))) (vars a) ps /\
  (forall q, q ∉ ps -> entries (load_all s a ps i) !! q = entries a !! q) /\
  (forall j, (i + length ps <= j)%nat -> SettingsChainLocal (load_all s a ps i) !! j = SettingsChainLocal a !! j) /\
  (fun e => with_state e ESETTINGS_KEY_STATE_NONE) ∘ copy <$> SettingsChainLocal (load_all s a ps i) =
    (fun e => with_state e ESETTINGS_KEY_STATE_NONE) ∘ copy <$> SettingsChainLocal a /\
  file (load_all s a ps i) = file a /\ alternate_file (load_all s a ps i) = alternate_file a /\
  filepath (load_all s a ps i) = filepath a /\ settings (load_all s a ps i) = settings a /\
  settings_open_flag (load_all s a ps i) = settings_open_flag a.
Proof.
  revert a i. induction ps as [|p ps IH]; intros a i Hl; [done|]. cbn [load_all length foldl] in *.
  destruct (load_entry_frame s a p i) as (F1 & F2 & F3 & F4 & F5 & F6 & F7 & F8 & F9 & F10 & F11 & F12).
  destruct (IH (load_entry s a p i) (S i)) as (G1 & G2 & G3 & G4 & G5 & G6 & G7 & G8 & G9 & G10 & G11 & G12); [rewrite F2; lia|].
  rewrite G1, G2, G3, G4, G7, G8, G9, G10, G11, G12, F1, F2, F3, F7, F8, F9, F10, F11, F12, F4, load_var_shape
    by (apply lookup_lt_is_Some_2; lia).
  repeat split.
  - intros q [Hq Hqs]%not_elem_of_cons. by rewrite G5, F5.
  - intros j Hj. rewrite G6, F6 by lia. done.
Qed.

Definition meta_entry (ix : Z) (name : string) (j : pointer) : SETTINGS_ENTRY :=
  init_setting ix ESETTINGS_KEY_TYPE_INT name j 4 ESETTINGS_SECTION_META_DATA.
Definition meta_found (s : Settings) (name : string) : option (number D) :=
  settings_get_int s SETTINGS_SECTION_META_DATA_NAME name.
Definition meta_value (s : Settings) (name : string) : cell D := VInt (int_of (meta_found s name) 0).

Lemma meta_found_int s name : meta_found s name = None \/ exists n, meta_found s name = Some (Int n).
Proof.
  unfold meta_found, settings_get_int, get_converted_value.
  destruct (settings_get s _ name true _) as [r [t|]]; [right|by left]. by eexists.
Qed.

Lemma load_meta s (a : ADSettings_ D) ix name j i n z :
  entries a !! j = Some (meta_entry ix name j) -> vars a !! j = Some (VInt n) ->
  SettingsChainLocal a !! i = Some {| copy := meta_entry ix name j; local_value := VInt z |} ->
  vars (load_entry s a j i) = <[j := VInt (int_of (meta_found s name) n)]> (vars a) /\
  not_loaded (load_entry s a j i) j = match meta_found s name with Some _ => false | None => true end /\
  forall q, q <> j -> not_loaded (load_entry s a j i) q = not_loaded a q.
Proof.
  intros He Hv Hl. unfold load_entry. rewrite He, Hl. change (value (meta_entry ix name j)) with j. rewrite Hv.
  unfold get_value. cbn [meta_entry init_setting key_type section_name entry_key copy local_value].
  rewrite decide_True by done. unfold meta_found, settings_get_int, get_converted_value, not_loaded.
  destruct (settings_get s SETTINGS_SECTION_META_DATA_NAME name true MAX_VALUECHARS) as [r [t|]]; cbn;
    rewrite lookup_insert_eq; (split; [done|]); (split; [done|]); intros q Hq; by rewrite lookup_insert_ne.
Qed.

Lemma validate_vars (d : ADSettings_ D) : vars (ValidateMetaDataEntries d).2 =
  let v := if not_loaded d MetaStngTbl0 then <[version_var := VInt 0]> (vars d) else vars d in
  let v := if not_loaded d MetaStngTbl1 then <[seq_count_var := VInt 0]> v else v in
  if not_loaded d MetaStngTbl2 then <[size_var := VInt 0]> v else v.
Proof.
  assert (forall (x : ADSettings_ D) p v q, not_loaded (set_var x p v) q = not_loaded x q) as Hset by done.
  unfold ValidateMetaDataEntries. cbv zeta.
  replace (not_loaded (if not_loaded d MetaStngTbl0 then set_var d version_var (VInt 0) else d) MetaStngTbl1) with
    (not_loaded d MetaStngTbl1) by (by destruct (not_loaded d MetaStngTbl0)).
  destruct (not_loaded d MetaStngTbl0), (not_loaded d MetaStngTbl1); cbn [snd]; rewrite ?Hset;
    by destruct (not_loaded d MetaStngTbl2).
Qed.

(** The three entries of the class, and [ValidateMetaDataEntries()]. *)
Lemma load_metas s (a : ADSettings_ D) i n1 n2 n3 z1 z2 z3 :
  entries a !! MetaStngTbl0 = Some (meta_entry SETTINGS_META_ENTRY_VERSION SETTINGS_SECTION_META_DATA_VERSION version_var) ->
  entries a !! MetaStngTbl1 = Some (meta_entry SETTINGS_META_ENTRY_SEQCOUNT SETTINGS_SECTION_META_DATA_SEQ_COUNT seq_count_var) ->
  entries a !! MetaStngTbl2 = Some (meta_entry SETTINGS_META_ENTRY_SIZE SETTINGS_SECTION_META_DATA_SIZE size_var) ->
  vars a !! version_var = Some (VInt n1) -> vars a !! seq_count_var = Some (VInt n2) -> vars a !! size_var = Some (VInt n3) ->
  SettingsChainLocal a !! i =
    Some {| copy := meta_entry SETTINGS_META_ENTRY_VERSION SETTINGS_SECTION_META_DATA_VERSION version_var; local_value := VInt z1 |} ->
  SettingsChainLocal a !! S i =
    Some {| copy := meta_entry SETTINGS_META_ENTRY_SEQCOUNT SETTINGS_SECTION_META_DATA_SEQ_COUNT seq_count_var; local_value := VInt z2 |} ->
  SettingsChainLocal a !! S (S i) =
    Some {| copy := meta_entry SETTINGS_META_ENTRY_SIZE SETTINGS_SECTION_META_DATA_SIZE size_var; local_value := VInt z3 |} ->
  vars (ValidateMetaDataEntries (load_all s a [MetaStngTbl0; MetaStngTbl1; MetaStngTbl2] i)).2 =
    <[size_var := meta_value s SETTINGS_SECTION_META_DATA_SIZE]>
      (<[seq_count_var := meta_value s SETTINGS_SECTION_META_DATA_SEQ_COUNT]>
        (<[version_var := meta_value s SETTINGS_SECTION_META_DATA_VERSION]> (vars a))).
Proof.
  intros E1 E2 E3 V1 V2 V3 L1 L2 L3. cbn [load_all].
  destruct (load_meta s a _ _ _ i n1 z1 E1 V1 L1) as (A1 & A2 & A3).
  destruct (load_entry_frame s a MetaStngTbl0 i) as (_ & _ & _ & _ & F5 & F6 & _).
  set (b := load_entry s a MetaStngTbl0 i) in *. rewrite <- (F5 MetaStngTbl1) in E2 by done. rewrite <- (F5 MetaStngTbl2) in E3 by done.
  rewrite <- (F6 (S i)) in L2 by lia. rewrite <- (F6 (S (S i))) in L3 by lia.
  destruct (load_meta s b _ _ _ (S i) n2 z2 E2) as (B1 & B2 & B3); [by rewrite A1, lookup_insert_ne|done|].
  destruct (load_entry_frame s b MetaStngTbl1 (S i)) as (_ & _ & _ & _ & G5 & G6 & _).
  set (c := load_entry s b MetaStngTbl1 (S i)) in *. rewrite <- (G5 MetaStngTbl2) in E3 by done.
  rewrite <- (G6 (S (S i))) in L3 by lia.
  destruct (load_meta s c _ _ _ (S (S i)) n3 z3 E3) as (C1 & C2 & C3); [by rewrite B1, A1, !lookup_insert_ne|done|].
  set (d := load_entry s c MetaStngTbl2 (S (S i))) in *.
  assert (not_loaded d MetaStngTbl0 = match meta_found s SETTINGS_SECTION_META_DATA_VERSION with Some _ => false | None => true end) as N1
    by (by rewrite C3, B3, A2).
  assert (not_loaded d MetaStngTbl1 = match meta_found s SETTINGS_SECTION_META_DATA_SEQ_COUNT with Some _ => false | None => true end) as N2
    by (by rewrite C3, B2).
  rewrite validate_vars, N1, N2, C2, C1, B1, A1. unfold meta_value. clear.
  unfold MetaStngTbl0, MetaStngTbl1, MetaStngTbl2, version_var, seq_count_var, size_var.
  apply map_eq. intros q. cbv zeta.
  destruct (meta_found_int s SETTINGS_SECTION_META_DATA_VERSION) as [->|[? ->]],
    (meta_found_int s SETTINGS_SECTION_META_DATA_SEQ_COUNT) as [->|[? ->]],
    (meta_found_int s SETTINGS_SECTION_META_DATA_SIZE) as [->|[? ->]]; rewrite !lookup_insert; repeat case_decide; simplify_eq; done.
Qed.

Context `{Disk} `{!DiskLaws} (junk : ESETTINGS_KEY_TYPE -> Z -> cell D).
Context (junk_int : forall n, exists z, junk ESETTINGS_KEY_TYPE_INT n = VInt z).

Abbreviation version_entry := (meta_entry SETTINGS_META_ENTRY_VERSION SETTINGS_SECTION_META_DATA_VERSION version_var).
Abbreviation seq_entry := (meta_entry SETTINGS_META_ENTRY_SEQCOUNT SETTINGS_SECTION_META_DATA_SEQ_COUNT seq_count_var).
Abbreviation size_entry := (meta_entry SETTINGS_META_ENTRY_SIZE SETTINGS_SECTION_META_DATA_SIZE size_var).
Abbreviation metas := [MetaStngTbl0; MetaStngTbl1; MetaStngTbl2].

Definition with_metas (es : gmap pointer SETTINGS_ENTRY) : gmap pointer SETTINGS_ENTRY :=
  <[MetaStngTbl2 := size_entry]> (<[MetaStngTbl1 := seq_entry]> (<[MetaStngTbl0 := version_entry]> es)).

Lemma init_metas (a : ADSettings_ D) :
  SettingsChain (InitAndInsertMetaDataEntries junk a).2 = (SettingsChain a ++ metas)%list /\
  SettingsChainLocal (InitAndInsertMetaDataEntries junk a).2 = (SettingsChainLocal a ++
    ((fun e => {| copy := e; local_value := junk ESETTINGS_KEY_TYPE_INT 4 |}) <$> [version_entry; seq_entry; size_entry]))%list /\
  entries (InitAndInsertMetaDataEntries junk a).2 = with_metas (entries a) /\
  vars (InitAndInsertMetaDataEntries junk a).2 = vars a /\
  file (InitAndInsertMetaDataEntries junk a).2 = file a /\
  alternate_file (InitAndInsertMetaDataEntries junk a).2 = alternate_file a /\
  filepath (InitAndInsertMetaDataEntries junk a).2 = filepath a /\
  settings_open_flag (InitAndInsertMetaDataEntries junk a).2 = settings_open_flag a.
Proof.
  assert (forall (b : ADSettings_ D) p e, entries b !! p = Some e -> (attach_setting junk b p).2 =
    set_chains b (SettingsChain b ++ [p])%list (SettingsChainLocal b ++ [{| copy := e; local_value := junk (key_type e) (value_size e) |}])%list) as Hatt.
  { intros b p e He. unfold attach_setting. by rewrite He. }
  unfold InitAndInsertMetaDataEntries. cbv zeta. rewrite (Hatt _ MetaStngTbl0 version_entry) by (cbn [entries set_chains set_entry set_memory]; by rewrite !lookup_insert).
  rewrite (Hatt _ MetaStngTbl1 seq_entry) by (cbn [entries set_chains set_entry set_memory]; by rewrite !lookup_insert). rewrite (Hatt _ MetaStngTbl2 size_entry) by (cbn [entries set_chains set_entry set_memory]; by rewrite !lookup_insert).
  cbn [snd SettingsChain SettingsChainLocal set_chains]. repeat split; by rewrite <- !app_assoc.
Qed.

(** An object before [Load()]: the settings of the program are attached, none of them is
    one of the class, and the variables are there. *)
Record fresh (a : ADSettings_ D) : Prop := {
  fr_closed : settings_open_flag a = false;
  fr_length : length (SettingsChainLocal a) = length (SettingsChain a);
  fr_user : Forall (fun p => p ∉ metas /\ exists e v, entries a !! p = Some e /\ vars a !! value e = Some v /\
              value e ∉ metas /\ is_seq_count e = false) (SettingsChain a);
  fr_local : Forall (fun l => is_seq_count (copy l) = false) (SettingsChainLocal a);
  fr_metas : forall p, p ∈ metas -> exists n, vars a !! p = Some (VInt n);
}.

(** What [Load()] leaves in the variables when it reads [s]. *)
Definition loaded_vars (a : ADSettings_ D) (s : Settings) : gmap pointer (cell D) :=
  <[size_var := meta_value s SETTINGS_SECTION_META_DATA_SIZE]>
    (<[seq_count_var := meta_value s SETTINGS_SECTION_META_DATA_SEQ_COUNT]>
      (<[version_var := meta_value s SETTINGS_SECTION_META_DATA_VERSION]>
        (foldl (load_var s (shape (entries a))) (vars a) (SettingsChain a)))).

Definition user_entry (es : gmap pointer SETTINGS_ENTRY) (p : pointer) : Prop :=
  forall e, es !! p = Some e -> value e ∉ metas.

(** The variables of the class do not matter for those of the program. *)
Lemma fold_metas s es us v w :
  Forall (user_entry es) us ->
  (forall p, p ∉ metas -> v !! p = w !! p) ->
  (forall p, p ∉ metas -> foldl (load_var s es) v us !! p = foldl (load_var s es) w us !! p) /\
  (forall p, p ∈ metas -> foldl (load_var s es) v us !! p = v !! p).
Proof.
  intros Hu. revert v w. induction us as [|p us IH]; intros v w Hvw; [done|]. apply Forall_cons in Hu as [Hp Hu]. cbn [foldl].
  assert (forall q, q ∈ metas -> load_var s es v p !! q = v !! q) as Hm.
  { intros q Hq. unfold load_var. destruct (es !! p) as [e|] eqn:Ee; [|done]. specialize (Hp e Ee).
    destruct (v !! value e); [|done]. rewrite lookup_insert_ne; [done|]. by intros Eq; subst q. }
  destruct (IH Hu (load_var s es v p) (load_var s es w p)) as [Ha Hb].
  - intros q Hq. unfold load_var. destruct (es !! p) as [e|] eqn:Ee; [|by apply Hvw]. specialize (Hp e Ee).
    rewrite <- (Hvw (value e)) by done. destruct (v !! value e); [|by apply Hvw].
    rewrite !lookup_insert. case_decide; [done|by apply Hvw].
  - split; [done|]. intros q Hq. by rewrite Hb, Hm.
Qed.

Lemma user_fresh (a : ADSettings_ D) : fresh a -> Forall (user_entry (shape (entries a))) (SettingsChain a).
Proof.
  intros [_ _ Hu _ _]. eapply Forall_impl; [exact Hu|]. intros p (_ & e & v & He & _ & Hv & _) e'.
  unfold shape. rewrite lookup_fmap, He. by intros [= <-].
Qed.

(** Only the entries of the program matter for its variables. *)
Lemma fold_entries s (es es' : gmap pointer SETTINGS_ENTRY) (v : gmap pointer (cell D)) us :
  Forall (fun p => es !! p = es' !! p) us -> foldl (load_var s es) v us = foldl (load_var s es') v us.
Proof.
  revert v. induction us as [|p us IH]; intros v Hu; [done|]. apply Forall_cons in Hu as [Hp Hu]. cbn.
  replace (load_var s es v p) with (load_var s es' v p) by (unfold load_var; by rewrite Hp). by apply IH.
Qed.

Lemma with_metas_user es p : p ∉ metas -> with_metas es !! p = es !! p.
Proof.
  rewrite !not_elem_of_cons. intros (? & ? & ? & _). unfold with_metas. by rewrite !lookup_insert_ne by done.
Qed.

(** The loop over all entries of a fresh object to which those of the class were added. *)
Lemma load_program s (a b : ADSettings_ D) : fresh a ->
  SettingsChain b = (SettingsChain a ++ metas)%list ->
  SettingsChainLocal b = (SettingsChainLocal a ++
    ((fun e => {| copy := e; local_value := junk ESETTINGS_KEY_TYPE_INT 4 |}) <$> [version_entry; seq_entry; size_entry]))%list ->
  entries b = with_metas (entries a) ->
  (forall p, p ∉ metas -> vars b !! p = vars a !! p) ->
  (forall p, p ∈ metas -> exists n, vars b !! p = Some (VInt n)) ->
  load_entries s b (SettingsChain b) 0 = (0, load_all s b (SettingsChain b) 0) /\
  vars (ValidateMetaDataEntries (load_all s b (SettingsChain b) 0)).2 = loaded_vars a s.
Proof.
  intros Hf Hc Hl He Hv Hn. pose proof (fr_length a Hf) as Hlen. destruct (junk_int 4) as [z Hz].
  assert (length (SettingsChainLocal b) = (length (SettingsChain a) + 3)%nat) as Hlb by (rewrite Hl, length_app, Hlen; done).
  split; [apply load_entries_all; rewrite Hc, length_app, Hlb; cbn; lia|].
  rewrite Hc, load_all_app. cbn [Nat.add].
  destruct (load_all_frame s b (SettingsChain a) 0) as (_ & G2 & _ & G4 & G5 & G6 & _); [rewrite Hlb; lia|].
  set (c := load_all s b (SettingsChain a) 0) in *. cbn [Nat.add] in G6.
  assert (forall p, p ∈ metas -> p ∉ SettingsChain a) as Hnot.
  { intros p Hp Hin. destruct Hf as [_ _ Hu _ _]. rewrite Forall_forall in Hu. by destruct (Hu p Hin). }
  assert (Forall (fun p => shape (entries b) !! p = shape (entries a) !! p) (SettingsChain a)) as Hsh.
  { apply Forall_forall. intros p Hin. unfold shape. rewrite !lookup_fmap, He, with_metas_user; [done|].
    intros Hp. by apply (Hnot p). }
  rewrite (fold_entries s _ _ (vars b) _ Hsh) in G4.
  destruct (fold_metas s _ _ (vars b) (vars a) (user_fresh a Hf) Hv) as [Ha Hb].
  assert (forall p, p ∈ metas -> exists n, vars c !! p = Some (VInt n)) as Hcn.
  { intros p Hp. rewrite G4, Hb by done. by apply Hn. }
  assert (forall k e, [version_entry; seq_entry; size_entry] !! k = Some e ->
    SettingsChainLocal c !! (k + length (SettingsChain a))%nat = Some {| copy := e; local_value := VInt z |}) as Hlc.
  { intros k e Hk. rewrite G6, Hl, lookup_app_r by lia. rewrite Hlen, Nat.add_sub, list_lookup_fmap, Hk, Hz. done. }
  destruct (Hcn MetaStngTbl0) as [n1 V1]; [set_solver|]. destruct (Hcn MetaStngTbl1) as [n2 V2]; [set_solver|].
  destruct (Hcn MetaStngTbl2) as [n3 V3]; [set_solver|].
  rewrite (load_metas s c (length (SettingsChain a)) n1 n2 n3 z z z); try done.
  - rewrite G4. unfold loaded_vars. apply map_eq. intros q. rewrite !lookup_insert. repeat case_decide; try done.
    apply Ha. rewrite !not_elem_of_cons. repeat split; try (intros ->; done). apply not_elem_of_nil.
  - rewrite G5, He; [|by apply Hnot; set_solver]. unfold with_metas. by rewrite !lookup_insert.
  - rewrite G5, He; [|by apply Hnot; set_solver]. unfold with_metas. by rewrite !lookup_insert.
  - rewrite G5, He; [|by apply Hnot; set_solver]. unfold with_metas. by rewrite !lookup_insert.
  - by apply (Hlc 0%nat).
  - by apply (Hlc 1%nat).
  - by apply (Hlc 2%nat).
Qed.

(** ** An object whose file is open *)

Definition first_seq (a : ADSettings_ D) : option pointer :=
  find_first (fun p => match entries a !! p with Some e => is_seq_count e | None => false end) (SettingsChain a).
Definition local_seq (a : ADSettings_ D) : option (nat * local_entry D) :=
  list_find (fun l => is_seq_count (copy l) = true) (SettingsChainLocal a).

Record live (m : string) (a : ADSettings_ D) (fs : files) (c sel alt : string) : Prop := {
  lv_files : recoverable (D := D) m fs c sel alt;
  lv_file : file a = sel;
  lv_alt : alternate_file a = alt;
  lv_path : filepath a = sel;
  lv_open : settings_open_flag a = true;
  lv_settings : exists s, settings a = Some s /\ settings_ok s /\ text_ok s;
  lv_length : length (SettingsChainLocal a) = length (SettingsChain a);
  lv_local : is_Some (local_seq a);
  lv_first : first_seq a = Some MetaStngTbl1;
  lv_meta : exists st, entries a !! MetaStngTbl1 = Some (with_state seq_entry st);
  lv_seq : exists n, vars a !! seq_count_var = Some (VInt n) /\ seq_of (D := D) c <= n;
}.

Lemma seq_index es p : (match es !! p with Some e => is_seq_count e | None => false end) =
  match shape es !! p with Some e => is_seq_count e | None => false end.
Proof. unfold shape. rewrite lookup_fmap. by destruct (es !! p). Qed.

Lemma find_first_ext {A} (f g : A -> bool) l : (forall x, f x = g x) -> find_first f l = find_first g l.
Proof. intros Hfg. induction l as [|x l IH]; [done|]. cbn. by rewrite Hfg, IH. Qed.

Lemma find_first_skip {A} (f : A -> bool) l k : Forall (fun x => f x = false) l -> find_first f (l ++ k) = find_first f k.
Proof. induction 1 as [|x l Hx _ IH]; [done|]. cbn. by rewrite Hx. Qed.

Lemma first_seq_shape (a b : ADSettings_ D) : SettingsChain a = SettingsChain b -> shape (entries a) = shape (entries b) ->
  first_seq a = first_seq b.
Proof.
  intros Hc Hs. unfold first_seq. rewrite Hc. apply find_first_ext. intros p. rewrite (seq_index (entries a)), (seq_index (entries b)). by rewrite Hs.
Qed.

Lemma local_seq_shape (a b : ADSettings_ D) :
  (fun e => with_state e ESETTINGS_KEY_STATE_NONE) ∘ copy <$> SettingsChainLocal a =
    (fun e => with_state e ESETTINGS_KEY_STATE_NONE) ∘ copy <$> SettingsChainLocal b ->
  is_Some (local_seq a) -> is_Some (local_seq b).
Proof.
  intros He [[i l] Hl]. unfold local_seq in *. apply list_find_Some in Hl as (Hi & Hp & _).
  apply (f_equal (lookup i)) in He. rewrite !list_lookup_fmap, Hi in He. cbn in He.
  destruct (SettingsChainLocal b !! i) as [l'|] eqn:El; [|done]. cbn in He.
  destruct (list_find_elem_of (fun l => is_seq_count (copy l) = true) (SettingsChainLocal b) l') as [r Hr].
  - by eapply list_elem_of_lookup_2.
  - injection He as He. unfold is_seq_count in *. congruence.
  - by exists r.
Qed.

Lemma validate_frame (d : ADSettings_ D) : exists v, (ValidateMetaDataEntries d).2 = set_memory d (entries d) v.
Proof.
  unfold ValidateMetaDataEntries. cbv zeta. cbn [snd].
  assert (forall (x j : ADSettings_ D) k p c, (exists v, x = set_memory d (entries d) v) ->
    exists v, (if not_loaded j k then set_var x p c else x) = set_memory d (entries d) v) as Hstep.
  { intros x j k p c [v ->]. case_match; [|by exists v]. by eexists. }
  apply Hstep, Hstep, Hstep. exists (vars d). by destruct d.
Qed.

Lemma first_metas (a : ADSettings_ D) b : fresh a -> SettingsChain b = (SettingsChain a ++ metas)%list ->
  entries b = with_metas (entries a) -> first_seq b = Some MetaStngTbl1.
Proof.
  intros [_ _ Hu _ _] Hc He. unfold first_seq. rewrite Hc, find_first_skip.
  - cbn [find_first]. rewrite He. unfold with_metas. by rewrite !lookup_insert.
  - eapply Forall_impl; [exact Hu|]. intros p (Hp & e & v & Ee & _ & _ & Hi). by rewrite He, with_metas_user, Ee.
Qed.

Lemma shape_entry es p e : shape es !! p = Some (with_state e ESETTINGS_KEY_STATE_NONE) ->
  exists st, es !! p = Some (with_state e st).
Proof.
  unfold shape. rewrite lookup_fmap. destruct (es !! p) as [[]|]; [|done]. destruct e. cbn. unfold with_state. cbn.
  intros [= -> -> -> -> -> -> ->]. by eexists.
Qed.

Lemma live_loaded m fs c sel alt s (a b : ADSettings_ D) :
  recoverable (D := D) m fs c sel alt -> fresh a -> settings_open c = Some s ->
  SettingsChain b = (SettingsChain a ++ metas)%list ->
  SettingsChainLocal b = (SettingsChainLocal a ++
    ((fun e => {| copy := e; local_value := junk ESETTINGS_KEY_TYPE_INT 4 |}) <$> [version_entry; seq_entry; size_entry]))%list ->
  entries b = with_metas (entries a) ->
  file b = sel -> alternate_file b = alt -> filepath b = sel -> settings b = Some s -> settings_open_flag b = true ->
  vars (ValidateMetaDataEntries (load_all s b (SettingsChain b) 0)).2 = loaded_vars a s ->
  live m (ValidateMetaDataEntries (load_all s b (SettingsChain b) 0)).2 fs c sel alt.
Proof.
  intros Hr Hf Hs Hc Hl He Hfile Halt Hpath Hset Hopen Hv.
  assert (length (SettingsChainLocal b) = length (SettingsChain b)) as Hlen.
  { rewrite Hl, Hc, !length_app, (fr_length a Hf). done. }
  destruct (load_all_frame s b (SettingsChain b) 0) as (G1 & G2 & G3 & _ & _ & _ & G7 & G8 & G9 & G10 & G11 & G12); [lia|].
  set (d := load_all s b (SettingsChain b) 0) in *.
  destruct (validate_frame d) as [v Ev]. rewrite Ev in Hv |- *. cbn [vars set_memory] in Hv. subst v.
  split; cbn [file alternate_file filepath settings settings_open_flag SettingsChain SettingsChainLocal entries vars set_memory]; try congruence.
  - exists s. split; [congruence|]. destruct (rc_text _ _ _ _ _ Hr) as (s' & Hs' & Hn). simplify_eq.
    destruct (open_ok c s Hs) as [Hok Ht]. split; [done|]. by apply Ht.
  - apply (local_seq_shape b); [by symmetry|]. unfold local_seq. rewrite Hl.
    destruct (list_find_elem_of (fun l => is_seq_count (copy l) = true)
      (SettingsChainLocal a ++ ((fun e => {| copy := e; local_value := junk ESETTINGS_KEY_TYPE_INT 4 |}) <$> [version_entry; seq_entry; size_entry]))%list
      {| copy := seq_entry; local_value := junk ESETTINGS_KEY_TYPE_INT 4 |}) as [r Hr']; [cbn; set_solver|done|by exists r].
  - rewrite <- (first_metas a b Hf Hc He). by apply first_seq_shape.
  - apply shape_entry. rewrite G3, He. unfold shape, with_metas. rewrite lookup_fmap. by rewrite !lookup_insert.
  - eexists. split; [unfold loaded_vars; by rewrite !lookup_insert|].
    unfold seq_of. rewrite Hs. unfold meta_int. fold (meta_found s SETTINGS_SECTION_META_DATA_SEQ_COUNT).
    destruct (meta_found s SETTINGS_SECTION_META_DATA_SEQ_COUNT) as [[]|]; cbn; lia.
Qed.

(** [Load()] from files of which one is right. *)
Lemma load_spec m (a : ADSettings_ D) fs c sel alt s :
  recoverable (D := D) m fs c sel alt -> fresh a -> settings_open c = Some s ->
  exists a', Load junk a fs m = (0, a', fs) /\ vars a' = loaded_vars a s /\ live m a' fs c sel alt.
Proof.
  intros Hr Hf Hs. unfold Load. set (a0 := set_meta (set_path a "") "" "" (selected_file a)).
  rewrite (check_recoverable a0 m fs c sel alt Hr). cbn [Z.eqb negb].
  destruct (choose_recoverable a0 m fs c sel alt Hr) as (x & se & st & -> & Hx).
  set (b0 := set_path (set_state (set_meta x sel alt se) st) _).
  destruct (init_metas b0) as (I1 & I2 & I3 & I4 & I5 & I6 & I7 & I8).
  assert (SettingsChain x = SettingsChain a /\ SettingsChainLocal x = SettingsChainLocal a /\ entries x = entries a /\
    settings_open_flag x = false /\ (forall p, p ∉ metas -> vars x !! p = vars a !! p) /\
    (forall p, p ∈ metas -> exists n, vars x !! p = Some (VInt n))) as (X1 & X2 & X3 & X4 & X5 & X6).
  { destruct Hf as [Hcl _ _ _ Hme]. destruct Hx as [->|[[[v q] z] ->]]; [done|]. repeat split; try done.
    - intros p Hp. rewrite !not_elem_of_cons in Hp. destruct Hp as (? & ? & ? & _). cbn. by rewrite !lookup_insert_ne.
    - intros p Hp. cbn. rewrite !lookup_insert. repeat case_decide; [by eexists..|]. by apply Hme. }
  set (b := (InitAndInsertMetaDataEntries junk b0).2) in *. cbv zeta.
  change (SettingsChain b0) with (SettingsChain x) in I1. change (SettingsChainLocal b0) with (SettingsChainLocal x) in I2.
  change (entries b0) with (entries x) in I3. change (settings_open_flag b0) with (settings_open_flag x) in I8.
  rewrite X1 in I1. rewrite X2 in I2. rewrite X3 in I3. rewrite X4 in I8.
  change (filepath b0) with sel in I7. change (file b0) with sel in I5. change (alternate_file b0) with alt in I6.
  unfold Open. rewrite I8, I7.
  pose proof (rc_valid _ _ _ _ _ Hr) as [Hc _]. unfold Is_it_valid_file, contents. rewrite may_read, Hc. cbn [Z.eqb]. rewrite Hs.
  cbn [negb settings set_settings].
  destruct (load_program s a (set_settings b (Some s) true) Hf) as [Hall Hvars]; cbn [set_settings SettingsChain SettingsChainLocal entries vars].
  { done. } { done. } { done. }
  { intros p Hp. rewrite I4. by apply X5. } { intros p Hp. rewrite I4. by apply X6. }
  cbn [SettingsChain set_settings] in Hall. rewrite Hall. cbn [Z.eqb negb].
  eexists. split; [reflexivity|]. split; [exact Hvars|]. by apply (live_loaded m fs c sel alt s a (set_settings b (Some s) true)).
Qed.

(** ** [Store()] *)

(** Every setting has a text that a line of a file can hold. *)
Definition storable (a : ADSettings_ D) : Prop :=
  forall p, p ∈ SettingsChain a -> exists e v, entries a !! p = Some e /\ vars a !! value e = Some v /\
    name_ok (section_name e) = true /\ pair_ok (entry_key e) (value_text (key_type e) v) = true.

Definition storable_b (a : ADSettings_ D) : bool :=
  forallb (fun p =>
    match entries a !! p with
    | Some e => match vars a !! value e with
                | Some v => name_ok (section_name e) && pair_ok (entry_key e) (value_text (key_type e) v)
                | None => false
                end
    | None => false
    end) (SettingsChain a).

Lemma storable_dec (a : ADSettings_ D) : storable_b a = true -> storable a.
Proof.
  unfold storable_b. rewrite forallb_forall. intros Hall p Hp%list_elem_of_In. specialize (Hall p Hp).
  destruct (entries a !! p) as [e|] eqn:Ee; [|done]. destruct (vars a !! value e) as [v|] eqn:Ev; [|done].
  apply andb_true_iff in Hall as [? ?]. by exists e, v.
Qed.

Definition text_of (a : ADSettings_ D) (p : pointer) : option (string * string * string) :=
  e ← entries a !! p; v ← vars a !! value e; Some (section_name e, entry_key e, value_text (key_type e) v).
Definition texts_of (a : ADSettings_ D) (ps : list pointer) : list (string * string * string) := omap (text_of a) ps.

Lemma name_nonempty n : name_ok n = true -> n <> EmptyString.
Proof. by intros Hn ->. Qed.

Lemma set_text_ok s x k v : settings_ok s -> text_ok s -> name_ok x = true -> pair_ok k v = true ->
  settings_ok (settings_set s x k v).2 /\ text_ok (settings_set s x k v).2.
Proof.
  intros Hs [Hn Hp] Hx Hkv. destruct (set_spec s x k v Hs (name_nonempty x Hx)) as (_ & Hok & Hmap).
  split; [done|]. split.
  - apply Forall_forall. intros n [->|Hin]%set_names; [done|]. rewrite Forall_forall in Hn. by apply Hn.
  - intros y k' v'. rewrite Hmap. case_decide; [|by apply Hp]. rewrite lookup_insert_Some.
    intros [[<- <-]|[_ Hl]]; [done|]. by eapply Hp.
Qed.

Lemma store_entry_spec s (a : ADSettings_ D) p i x : text_of a p = Some x -> is_Some (SettingsChainLocal a !! i) ->
  exists c l, store_entry s a p i = (c, set_all s [x], set_local a l) /\ copy <$> l = copy <$> SettingsChainLocal a.
Proof.
  unfold text_of, store_entry. destruct (entries a !! p) as [e|]; [|done]. cbn [mbind option_bind].
  destruct (vars a !! value e) as [v|] eqn:Ev; [|done]. cbn [mbind option_bind]. intros [= <-] [l Hl]. rewrite Hl.
  eexists (value_changed (key_type e) v (local_value l)), (if value_changed (key_type e) v (local_value l) then _ else SettingsChainLocal a).
  destruct (value_changed (key_type e) v (local_value l)).
  - split; [reflexivity|]. rewrite list_fmap_insert. apply list_insert_id. by rewrite list_lookup_fmap, Hl.
  - split; [|done]. by destruct a.
Qed.

Lemma set_local_twice (a : ADSettings_ D) l k : set_local (set_local a l) k = set_local a k.
Proof. done. Qed.

Lemma copies_length (l k : list (local_entry D)) : copy <$> l = copy <$> k -> length l = length k.
Proof. intros He. apply (f_equal length) in He. by rewrite !length_fmap in He. Qed.

Lemma store_entries_spec s (a : ADSettings_ D) ps i c :
  Forall (fun p => is_Some (text_of a p)) ps -> (i + length ps <= length (SettingsChainLocal a))%nat ->
  exists c' l, store_entries s a ps i c = (0, c', set_all s (texts_of a ps), set_local a l) /\
    copy <$> l = copy <$> SettingsChainLocal a.
Proof.
  intros Hps. revert s a i c Hps. induction ps as [|p ps IH]; intros s a i c Hps Hlen.
  - exists c, (SettingsChainLocal a). cbn. split; [by destruct a|done].
  - apply Forall_cons in Hps as [[x Hx] Hps]. cbn [length] in Hlen.
    destruct (lookup_lt_is_Some_2 (SettingsChainLocal a) i) as [l0 Hl0]; [lia|].
    destruct (store_entry_spec s a p i x Hx) as (c1 & l1 & E1 & Hc1); [by eexists|].
    cbn [store_entries]. rewrite Hl0, E1.
    destruct (IH (set_all s [x]) (set_local a l1) (S i) (c || c1)) as (c2 & l2 & E2 & Hc2).
    + exact Hps.
    + cbn [set_local set_chains SettingsChainLocal]. rewrite (copies_length _ _ Hc1). lia.
    + rewrite E2. exists c2, l2. cbn [texts_of omap list_omap]. unfold texts_of in *. cbn. rewrite Hx.
      split; [done|]. rewrite Hc2. done.
Qed.

Lemma set_all_text_ok l s : settings_ok s -> text_ok s ->
  Forall (fun x => name_ok x.1.1 = true /\ pair_ok x.1.2 x.2 = true) l ->
  settings_ok (set_all s l) /\ text_ok (set_all s l).
Proof.
  intros Hs Ht Hl. revert s Hs Ht. induction Hl as [|x l [Hn Hp] _ IH]; intros s Hs Ht; [done|].
  cbn. destruct (set_text_ok s x.1.1 x.1.2 x.2 Hs Ht Hn Hp). by apply IH.
Qed.

Lemma seq_range c : int_min <= seq_of (D := D) c <= int_max.
Proof.
  unfold seq_of. destruct (settings_open c) as [s|]; [|unfold int_min, int_max; lia]. unfold meta_int.
  fold (meta_found s SETTINGS_SECTION_META_DATA_SEQ_COUNT). unfold meta_found, settings_get_int, get_converted_value.
  destruct (settings_get s _ _ true _) as [r [t|]]; cbn; [apply i32_range|unfold int_min, int_max; lia].
Qed.

(** The settings with the next sequence count. *)
Definition counted (s : Settings) (n : Z) : Settings :=
  (settings_set s SETTINGS_SECTION_META_DATA_NAME SETTINGS_SECTION_META_DATA_SEQ_COUNT (format_d (n + 1))).2.

Lemma update_spec (a : ADSettings_ D) s n st : settings_open_flag a = true -> settings a = Some s -> first_seq a = Some MetaStngTbl1 ->
  entries a !! MetaStngTbl1 = Some (with_state seq_entry st) -> is_Some (local_seq a) ->
  vars a !! seq_count_var = Some (VInt n) -> int_min <= n < int_max ->
  exists l, (UpdateSequenceCount a).2 =
      set_settings (set_local (set_var a seq_count_var (VInt (n + 1))) l) (Some (counted s n)) (settings_open_flag a) /\
    copy <$> l = copy <$> SettingsChainLocal a.
Proof.
  intros Ho Hs Hf He [[i l] Hl] Hv Hn. unfold UpdateSequenceCount. replace (negb (settings_open_flag a)) with false by (by rewrite Ho). rewrite Hs.
  change (find_first (fun p => match entries a !! p with Some e => is_seq_count e | None => false end) (SettingsChain a))
    with (first_seq a).
  change (list_find (fun l => is_seq_count (copy l) = true) (SettingsChainLocal a)) with (local_seq a).
  rewrite Hf, Hl. cbn [mbind option_bind]. rewrite He, Hv.
  change (value (with_state seq_entry st)) with seq_count_var. cbn [vars set_var set_memory]. rewrite lookup_insert_eq, i32_id by lia.
  eexists. split; [reflexivity|]. cbn [SettingsChainLocal set_var set_memory]. rewrite list_fmap_insert. apply list_insert_id.
  apply list_find_Some in Hl as (Hi & _). by rewrite list_lookup_fmap, Hi.
Qed.

(** A number is a text a line can hold. *)
Lemma no_blanks_trimmed s : (forall c, is_blank_char c = true -> has c s = false) -> trim_str s = s.
Proof.
  intros Hb. assert (forall s, (forall c, is_blank_char c = true -> has c s = false) -> drop_blanks s = s) as Hd.
  { clear. induction s as [|x s IH]; [done|]. intros Hb. cbn.
    assert (is_blank_char x = false) as Hx.
    { destruct (is_blank_char x) eqn:E; [|done]. specialize (Hb x E). cbn in Hb. by rewrite Ascii.eqb_refl in Hb. }
    rewrite IH; [by destruct s; rewrite ?Hx|]. intros c Hc. specialize (Hb c Hc). cbn in Hb. by apply orb_false_iff in Hb as [_ ?]. }
  unfold trim_str. rewrite skip_id; [by apply Hd|]. destruct s as [|x s]; [done|].
  destruct (is_blank_char x) eqn:E; [|done]. specialize (Hb x E). cbn in Hb. by rewrite Ascii.eqb_refl in Hb.
Qed.

Lemma blank_no_digit c : is_blank_char c = true -> digit_of c = None /\ (c =? "-")%char = false.
Proof.
  unfold is_blank_char. rewrite !orb_true_iff, !Ascii.eqb_eq. intros [[[->| ->]| ->]| ->]; done.
Qed.

Lemma number_text n : trim_str (format_d n) = format_d n /\ has newline (format_d n) = false /\
  has NUL (format_d n) = false /\ has SECTION_END_CHAR (format_d n) = false.
Proof.
  repeat split; try by apply format_d_has. apply no_blanks_trimmed. intros c [Hd Hm]%blank_no_digit. by apply format_d_has.
Qed.

Lemma counted_ok s n : settings_ok s -> text_ok s ->
  settings_ok (counted s n) /\ text_ok (counted s n) /\
  forall x, map_of (counted s n) x = if decide (SETTINGS_SECTION_META_DATA_NAME = x)
    then <[SETTINGS_SECTION_META_DATA_SEQ_COUNT := format_d (n + 1)]> (map_of s x) else map_of s x.
Proof.
  intros Hs Ht. destruct (number_text (n + 1)) as (T1 & T2 & T3 & T4).
  destruct (set_text_ok s SETTINGS_SECTION_META_DATA_NAME SETTINGS_SECTION_META_DATA_SEQ_COUNT (format_d (n + 1)) Hs Ht) as [Hok Htok];
    [done|by apply pair_ok_intro; auto|].
  split; [done|]. split; [done|]. by apply set_spec.
Qed.

(** What the new text says. *)
Lemma counted_text s n : settings_ok s -> text_ok s -> int_min <= n < int_max ->
  seq_of (D := D) (written (settings_save (counted s n))) = n + 1 /\
  exists s', settings_open (written (settings_save (counted s n))) = Some s' /\ names_short s' /\ settings_ok s' /\ text_ok s' /\
    forall x k v, map_of s' x !! k = Some v <-> map_of (counted s n) x !! k = Some v /\ fits k v = true.
Proof.
  intros Hs Ht Hn. destruct (counted_ok s n Hs Ht) as (Hok & Htok & Hmap).
  destruct (save_open _ Hok Htok) as (s' & Ho & Hok' & [Hn' Hp'] & Hall). split.
  - unfold seq_of. rewrite Ho. unfold meta_int, settings_get_int, get_converted_value. rewrite get_spec by done.
    pose proof (format_d_length (n + 1)) as Hl.
    rewrite (proj2 (Hall SETTINGS_SECTION_META_DATA_NAME SETTINGS_SECTION_META_DATA_SEQ_COUNT (format_d (n + 1)))).
    + unfold get_of. rewrite (proj2 (Z.ltb_lt _ _)) by (unfold strlen, MAX_VALUECHARS; lia).
      cbn. apply atoi_format_d. unfold int_min, int_max in *. lia.
    + rewrite Hmap, decide_True, lookup_insert_eq by done. split; [done|]. unfold fits. apply andb_true_iff.
      split; [done|]. apply Z.ltb_lt. unfold strlen, MAX_VALUECHARS. lia.
  - exists s'. split; [done|]. split; [|done]. unfold names_short. eapply Forall_impl; [exact Hn'|]. intros x.
    unfold name_ok. rewrite !andb_true_iff, Z.ltb_lt. by intros [_ ?].
Qed.

Definition stored_settings (a : ADSettings_ D) (s : Settings) (n : Z) : Settings :=
  counted (set_all s (texts_of a (SettingsChain a))) n.

Lemma storable_texts (a : ADSettings_ D) : storable a ->
  Forall (fun p => is_Some (text_of a p)) (SettingsChain a) /\
  Forall (fun x => name_ok x.1.1 = true /\ pair_ok x.1.2 x.2 = true) (texts_of a (SettingsChain a)).
Proof.
  unfold storable, texts_of. generalize (SettingsChain a). intros ps Hall. induction ps as [|p ps IH]; [done|].
  destruct (Hall p) as (e & v & He & Hv & Hn & Hp); [by left|].
  assert (text_of a p = Some (section_name e, entry_key e, value_text (key_type e) v)) as Ht.
  { unfold text_of. rewrite He. cbn. by rewrite Hv. }
  destruct IH as [I1 I2]; [intros q Hq; apply Hall; by right|]. split; [constructor; [by eexists|done]|].
  cbn. rewrite Ht. by constructor.
Qed.

Lemma local_seq_copies (a b : ADSettings_ D) : copy <$> SettingsChainLocal a = copy <$> SettingsChainLocal b ->
  is_Some (local_seq b) -> is_Some (local_seq a).
Proof. intros He. apply local_seq_shape. rewrite !(list_fmap_compose copy). by rewrite He. Qed.

(** The complete writing of a newer text. *)
Lemma stored_recoverable m fs c sel alt texts : recoverable (D := D) m fs c sel alt ->
  seq_of (D := D) c < seq_of (D := D) (written texts) ->
  (exists s, settings_open (written texts) = Some s /\ names_short s) ->
  recoverable (D := D) m (run (store_ops alt texts) fs) (written texts) alt sel.
Proof.
  intros Hr Hlt Ht. pose proof (store_cut alt texts fs _ (torn_all _)) as Hcut.
  destruct (cut_recoverable m fs c sel alt texts _ Hr Hcut Hlt Ht) as [Hold|]; [|done]. exfalso.
  pose proof (rc_older _ _ _ _ _ Hold (sha1sum alt (written texts)) (written texts)) as Ho.
  rewrite run_store, lookup_insert_eq in Ho. specialize (Ho eq_refl (sum_accepted _ _)). unfold older in Ho. case_decide; lia.
Qed.

(** [Store()] writes nothing, or the next text to the other file; then that file is the
    right one. *)
Lemma store_spec m (a : ADSettings_ D) fs c sel alt n s :
  live m a fs c sel alt -> storable a -> vars a !! seq_count_var = Some (VInt n) -> n < int_max -> settings a = Some s ->
  exists a' ops, Store junk a fs = (0, a', ops) /\ vars a' !! seq_count_var = Some (VInt (if ops then n else n + 1)) /\
    ((ops = [] /\ live m a' fs c sel alt) \/
     (ops = store_ops alt (settings_save (stored_settings a s n)) /\
      live m a' (run ops fs) (written (settings_save (stored_settings a s n))) alt sel)).
Proof.
  intros [Hr Hf Ha Hp Ho (s0 & Hs0 & Hs & Ht) Hl Hlo Hfi [st Hme] (n0 & Hn0 & Hseq)] Hst Hn Hmax Es.
  rewrite Es in Hs0. injection Hs0 as <-. rewrite Hn in Hn0. injection Hn0 as <-. subst sel alt.
  destruct (storable_texts a Hst) as [Hsome Hall].
  unfold Store. rewrite Ho, Es. cbn [negb].
  assert ((strlen (filepath a) =? 0) = false) as ->.
  { apply strlen_pos. rewrite Hp. destruct Hr as [[Hm1 Hm2] Hpa _ _ _ _]. rewrite (backup_eq m Hm2) in Hpa.
    destruct Hpa as [[-> _]|[-> _]]; [done|by destruct m]. }
  destruct (store_entries_spec s a (SettingsChain a) 0 false Hsome) as (ch & l & -> & Hcopy); [lia|].
  cbn [Z.eqb negb]. set (s1 := set_all s (texts_of a (SettingsChain a))).
  destruct (set_all_text_ok _ s Hs Ht Hall) as [Hs1 Ht1]. change (settings_open_flag (set_local a l)) with (settings_open_flag a). rewrite Ho.
  destruct ch.
  - assert (int_min <= n < int_max) as Hrange by (pose proof (seq_range c); lia).
    destruct (counted_text s1 n Hs1 Ht1 Hrange) as (Hsq & s' & Hopen & Hshort & _).
    destruct (counted_ok s1 n Hs1 Ht1) as (Hok2 & Htok2 & _).
    set (a1 := set_path (set_settings (set_local a l) (Some s1) true) _).
    destruct (update_spec a1 s1 n st eq_refl eq_refl) as (l2 & -> & Hcopy2); try done.
    { by apply (local_seq_copies a1 a). }
    change (settings_open_flag a1) with true. unfold Save. cbn [set_settings set_local set_chains set_var set_memory settings_open_flag filepath settings negb].
    rewrite may_write. change (filepath a1) with (alternate_file a). cbn [Z.eqb negb].
    unfold CalculateCheckSum, contents. rewrite may_write, may_read, run_text, lookup_insert_eq. cbn [negb].
    eexists _, _. split; [reflexivity|]. split; [cbn; by rewrite lookup_insert_eq|]. right. split; [done|].
    assert (recoverable (D := D) m (run (store_ops (alternate_file a) (settings_save (counted s1 n))) fs) (written (settings_save (counted s1 n))) (alternate_file a) (file a)) as Hr'.
    { apply (stored_recoverable m fs c); [done|lia|by exists s']. }
    split; try (cbn; done).
    + by eexists.
    + cbn. rewrite (copies_length _ _ Hcopy2). cbn. by rewrite (copies_length _ _ Hcopy).
    + apply (local_seq_copies _ a); [|done]. etrans; [exact Hcopy2|exact Hcopy].
    + by exists st.
    + exists (n + 1). cbn. rewrite lookup_insert_eq. split; [done|]. unfold stored_settings. fold s1. lia.
  - eexists _, []. split; [reflexivity|]. split; [done|]. left. split; [done|]. split; try done.
    + by exists s1.
    + cbn. by rewrite (copies_length _ _ Hcopy).
    + by apply (local_seq_copies _ a).
    + by exists st.
    + by exists n.
Qed.

(** ** Processes that come and go *)

Definition count_room (a : ADSettings_ D) : Prop := forall n, vars a !! seq_count_var = Some (VInt n) -> n < int_max.

(** The files of [m] in the course of time, with the object of the running process, if
    there is one: it loads, changes its variables, stores, and may be stopped at any time,
    in the middle of a [Store()], too. *)
Inductive life (m : string) : option (ADSettings_ D) -> files -> Prop :=
| life_start fs c sel alt : recoverable (D := D) m fs c sel alt -> life m None fs
| life_load a a' fs fs' r : life m None fs -> fresh a -> Load junk a fs m = (r, a', fs') -> life m (Some a') fs'
| life_change a fs p v : life m (Some a) fs -> p <> seq_count_var -> life m (Some (set_var a p v)) fs
| life_store a a' fs r ops : life m (Some a) fs -> storable a -> count_room a -> Store junk a fs = (r, a', ops) ->
    life m (Some a') (run ops fs)
| life_killed a a' fs r ops k : life m (Some a) fs -> storable a -> count_room a -> Store junk a fs = (r, a', ops) ->
    torn ops k -> life m None (run k fs)
| life_exit a fs : life m (Some a) fs -> life m None fs.

Definition sound (m : string) (o : option (ADSettings_ D)) (fs : files) : Prop :=
  exists c sel alt, match o with None => recoverable (D := D) m fs c sel alt | Some a => live m a fs c sel alt end.

Lemma torn_none k : torn [] k -> k = [].
Proof. by inversion 1. Qed.

Lemma store_of_live m (a : ADSettings_ D) fs c sel alt : live m a fs c sel alt -> storable a -> count_room a ->
  exists a' ops, Store junk a fs = (0, a', ops) /\
    ((ops = [] /\ live m a' fs c sel alt) \/
     exists s n, settings a = Some s /\ settings_ok s /\ text_ok s /\ vars a !! seq_count_var = Some (VInt n) /\
       int_min <= n < int_max /\ seq_of (D := D) c <= n /\ ops = store_ops alt (settings_save (stored_settings a s n)) /\
       live m a' (run ops fs) (written (settings_save (stored_settings a s n))) alt sel).
Proof.
  intros Hl Hst Hroom. pose proof Hl as [_ _ _ _ _ (s & Hs & Hok & Ht) _ _ _ _ (n & Hn & Hc)].
  destruct (store_spec m a fs c sel alt n s Hl Hst Hn (Hroom n Hn) Hs) as (a' & ops & E & _ & [[-> Hl']|[-> Hl']]).
  - exists a', []. split; [done|]. by left.
  - eexists a', _. split; [done|]. right. exists s, n. pose proof (seq_range c). pose proof (Hroom n Hn).
    split; [done|]. split; [done|]. split; [done|]. split; [done|]. split; [lia|]. by split.
Qed.

(** A [Store()] that is cut off leaves the old or the new text. *)
Lemma torn_store m (a a' : ADSettings_ D) fs c sel alt r ops k : live m a fs c sel alt -> storable a -> count_room a ->
  Store junk a fs = (r, a', ops) -> torn ops k ->
  exists c1 sel1 alt1, recoverable (D := D) m (run ops fs) c1 sel1 alt1 /\
    (recoverable (D := D) m (run k fs) c sel alt \/ recoverable (D := D) m (run k fs) c1 sel1 alt1).
Proof.
  intros Hl Hst Hroom E Hk. destruct (store_of_live m a fs c sel alt Hl Hst Hroom) as (b & os & E' & Hcases).
  rewrite E in E'. injection E' as -> -> ->. destruct Hcases as [[-> Hl']|(s & n & Hs & Hok & Ht & Hn & Hrange & Hc & -> & Hl')].
  - exists c, sel, alt. apply torn_none in Hk as ->. split; [apply Hl'|]. left. apply Hl.
  - eexists _, alt, sel. split; [apply Hl'|]. destruct (storable_texts a Hst) as [_ Hall].
    destruct (set_all_text_ok _ s Hok Ht Hall) as [Hs1 Ht1].
    destruct (counted_text _ n Hs1 Ht1 Hrange) as (Hsq & s' & Hopen & Hshort & _).
    apply (cut_recoverable m fs); [apply Hl|by apply store_cut|unfold stored_settings; lia|by exists s'].
Qed.

Lemma life_sound m o fs : life m o fs -> sound m o fs.
Proof.
  induction 1 as [fs c sel alt Hr|a a' fs fs' r _ IH Hf E|a fs p v _ IH Hp|a a' fs r ops _ IH Hst Hroom E
    |a a' fs r ops k _ IH Hst Hroom E Hk|a fs _ IH].
  - by exists c, sel, alt.
  - destruct IH as (c & sel & alt & Hr). destruct (rc_text _ _ _ _ _ Hr) as (s & Hs & _).
    destruct (load_spec m a fs c sel alt s Hr Hf Hs) as (b & E' & _ & Hl). rewrite E in E'. injection E' as -> -> ->. by exists c, sel, alt.
  - destruct IH as (c & sel & alt & [Hr Hfi Ha Hpa Ho Hs Hl Hlo Hfs Hme (n & Hn & Hc)]). exists c, sel, alt.
    split; try done. exists n. cbn. by rewrite lookup_insert_ne.
  - destruct IH as (c & sel & alt & Hl). destruct (store_of_live m a fs c sel alt Hl Hst Hroom) as (b & os & E' & Hcases).
    rewrite E in E'. injection E' as -> -> ->. destruct Hcases as [[-> Hl']|(s & n & _ & _ & _ & _ & _ & _ & -> & Hl')]; by eexists _, _, _.
  - destruct IH as (c & sel & alt & Hl). destruct (torn_store m a a' fs c sel alt r ops k Hl Hst Hroom E Hk) as (c1 & s1 & a1 & _ & [?|?]);
      by eexists _, _, _.
  - destruct IH as (c & sel & alt & Hl). exists c, sel, alt. apply Hl.
Qed.


End load.

(** ** A disk *)

Module Drive.
(** Instead of a checksum the content itself, every character behind a mark. *)
Fixpoint code (c : string) : string :=
  match c with EmptyString => "0" | String x c => String "1" (String x (code c)) end.

#[export] Instance drive : Disk :=
  {| readable := fun _ => true; writable := fun _ => true; sha1sum := fun _ c => code c;
     sha1_check := fun _ t c => (t =? code c)%string |}.

Lemma code_prefix c c' u : code c = code c' ++ u -> c' = c.
Proof.
  revert c'. induction c as [|x c IH]; intros [|y c']; cbn [code]; autorewrite with text; try done.
  intros [= -> Hc]. by rewrite (IH c').
Qed.

#[export] Instance drive_laws : DiskLaws.
Proof.
  split; try done; cbn.
  - intros _ c. apply String.eqb_refl.
  - intros _ t c c' ->%String.eqb_eq Hc%String.eqb_eq. apply (code_prefix c c' EmptyString). by rewrite append_nil.
  - intros _ t u c c' Hc ->%String.eqb_eq. by apply (code_prefix c c' u).
Qed.

#[export] Instance amd64 : Target :=
  {| char_value := fun c => wrap_s 8 (Z.of_N (N_of_ascii c)); long_bits := 64 |}.

(** Doubles that are whole numbers. *)
#[export] Instance whole : Doubles Z :=
  {| atof := atoi; format_E := format_d; same_double := Z.eqb |}.

Definition junk (t : ESETTINGS_KEY_TYPE) (size : Z) : cell Z :=
  match t with
  | ESETTINGS_KEY_TYPE_INT => VInt 77
  | ESETTINGS_KEY_TYPE_INT_ARR => VInts (replicate (Z.to_nat (size / 4)) 77)
  | _ => VString "?"
  end.

(** A program with a name and a list. *)
Definition program : ADSettings_ Z :=
  let a := new_ADSettings
    {[10%positive := init_setting 1 ESETTINGS_KEY_TYPE_STRING "name" 10 64 ESETTINGS_SECTION_DATA;
      11%positive := init_setting 2 ESETTINGS_KEY_TYPE_INT_ARR "list" 11 8 ESETTINGS_SECTION_DATA]}
    {[1%positive := VInt 5; 2%positive := VInt 5; 3%positive := VInt 5; 10%positive := VString "none"; 11%positive := VInts [1; 2]]} in
  (attach_setting junk (attach_setting junk a 10).2 11).2.

(** The files after its first [Store()], and the program after it has loaded them and
    changed its list. *)
Definition first_run : Z * ADSettings_ Z * files := Load junk program ∅ "cfg".
Definition disk : files := run (Store junk first_run.1.2 first_run.2).2 first_run.2.
Definition text : string := default EmptyString (disk !! "cfg").
Definition loaded : ADSettings_ Z := (Load junk program disk "cfg").1.2.
Definition changed : ADSettings_ Z := set_var loaded 11 (VInts [3; 4]).

Lemma program_fresh : fresh program.
Proof.
  split; [done|done| | |].
  - replace (SettingsChain program) with [10; 11]%positive by (by vm_compute). apply Forall_forall. intros p Hp.
    rewrite !elem_of_cons, elem_of_nil in Hp. destruct_or! Hp; subst p;
      (split; [by apply (bool_decide_unpack _); vm_compute|]); eexists _, _;
      (split; [reflexivity|]); (split; [reflexivity|]); (split; [by apply (bool_decide_unpack _); vm_compute|done]).
  - repeat constructor.
  - intros p. rewrite !elem_of_cons, elem_of_nil. intros [->|[->|[->|[]]]]; by eexists.
Qed.

Lemma disk_recoverable : recoverable (D := Z) "cfg" disk text "cfg" "cfg.alt".
Proof.
  split.
  - by split.
  - left. by split.
  - split; [by vm_compute|]. exists (code text). by split; vm_compute.
  - by eexists; vm_compute.
  - intros t c'. change (sha1_of "cfg.alt") with "cfg.alt.sha1". replace (disk !! "cfg.alt.sha1") with (@None string) by (by vm_compute). done.
  - exists (default settings_new (settings_open text)). split; [by vm_compute|].
    apply (bool_decide_unpack _). by vm_compute.
Qed.

Lemma changed_storable : storable changed.
Proof.
  apply storable_dec. by vm_compute.
Qed.

Lemma changed_room : count_room changed.
Proof. intros n. replace (vars changed !! seq_count_var) with (Some (@VInt Z 1)) by (by vm_compute). by intros [= <-]. Qed.

End Drive.
