(* ===== verification/ADSettingsValues.v ===== *)
(** * What is stored is loaded

    The text of every type of value reads back as the value, so a [Load()] after a [Store()]
    gives the program its variables again; and where that fails. *)
From S2P Require Import Prelude Common Text StrMap Settings SettingsSpec ADSettings ADSettingsSpec.
Local Open Scope string_scope.
Local Open Scope Z_scope.

(** What the code relies on for doubles: [atof()] skips a blank, and [%E] prints no comma. *)
Class DoublesLaws (D : Type) `{Doubles D} := {
  atof_blank : forall s, atof (String " " s) = atof s;
  format_no_comma : forall d, has "," (format_E d) = false;
  format_some : forall d, format_E d <> EmptyString;
}.

Section values.
Context `{Target} {D : Type} `{Doubles D} `{!DoublesLaws D}.

(** ** Texts of values *)

Definition long_ok (n : Z) : Prop := long_min <= n <= long_max /\ - 10 ^ 20 < n < 10 ^ 20.

(** A value that fits its entry. *)
Definition holds (e : SETTINGS_ENTRY) (v : cell D) : Prop :=
  match key_type e, v with
  | ESETTINGS_KEY_TYPE_STRING, VString s => strlen s < value_size e
  | ESETTINGS_KEY_TYPE_INT, VInt n => int_min <= n <= int_max
  | ESETTINGS_KEY_TYPE_INT_ARR, VInts l => l <> [] /\ Forall (fun n => int_min <= n <= int_max) l
  | ESETTINGS_KEY_TYPE_LONG, VLong n => long_ok n
  | ESETTINGS_KEY_TYPE_LONG_ARR, VLongs l => l <> [] /\ Forall long_ok l
  | ESETTINGS_KEY_TYPE_DOUBLE, VDouble _ => True
  | ESETTINGS_KEY_TYPE_DOUBLE_ARR, VDoubles l => l <> []
  | _, _ => False
  end.

(** A variable of the same type and size. *)
Definition same_kind (v w : cell D) : Prop :=
  match v, w with
  | VString _, VString _ | VInt _, VInt _ | VLong _, VLong _ | VDouble _, VDouble _ => True
  | VInts l, VInts k | VLongs l, VLongs k => length l = length k
  | VDoubles l, VDoubles k => length l = length k
  | _, _ => False
  end.

(** The value that comes back: a double as precise as [%E] prints it, the rest as it was. *)
Definition reread (v : cell D) : cell D :=
  match v with
  | VDouble d => VDouble (atof (format_E d))
  | VDoubles l => VDoubles ((fun d => atof (format_E d)) <$> l)
  | _ => v
  end.

Lemma tokens_one c t : has c t = false -> t <> EmptyString -> tokens c t = [t].
Proof.
  induction t as [|x t IH]; [done|]. cbn. intros [-> Ht]%orb_false_iff _. destruct t as [|y t]; [done|].
  by rewrite (IH Ht).
Qed.

Lemma tokens_app c t r : has c t = false -> tokens c (t ++ String c r) = t :: tokens c r.
Proof.
  induction t as [|x t IH]; autorewrite with text; cbn; [by rewrite Ascii.eqb_refl|]. intros [-> Ht]%orb_false_iff.
  by rewrite (IH Ht).
Qed.

(** The pieces of an array: all but the first with a blank in front. *)
Lemma tokens_comma l : Forall (fun t => has "," t = false /\ t <> EmptyString) l ->
  tokens "," (comma_separated l) = match l with [] => [] | t :: l => t :: (String " " <$> l) end.
Proof.
  assert (forall l, Forall (fun t => has "," t = false /\ t <> EmptyString) l -> l <> [] ->
    tokens "," (String " " (comma_separated l)) = String " " <$> l) as Hrest.
  { clear l. induction l as [|t l IH]; [done|]. intros [[Hc Hne] Hl]%Forall_cons _. destruct l as [|u l].
    - cbn [comma_separated fmap list_fmap]. apply tokens_one; [by cbn|done].
    - change (String " " (comma_separated (t :: u :: l))) with ((String " " t) ++ (String "," (String " " (comma_separated (u :: l))))).
      rewrite tokens_app by (by cbn). by rewrite IH. }
  intros Hl. destruct l as [|t l]; [done|]. apply Forall_cons in Hl as [[Hc Hne] Hl]. destruct l as [|u l]; [by apply tokens_one|].
  change (comma_separated (t :: u :: l)) with (t ++ String "," (String " " (comma_separated (u :: l)))).
  rewrite tokens_app by done. by rewrite Hrest.
Qed.

Lemma number_pieces l : Forall (fun t => has "," t = false /\ t <> EmptyString) (format_d <$> l).
Proof.
  apply Forall_fmap, Forall_true. intros n. cbn. split; [by apply format_d_has|]. intros E. pose proof (format_d_length n) as Hl.
  rewrite E in Hl. cbn in Hl. lia.
Qed.

Lemma atoi_blank s : atoi (String " " s) = atoi s.
Proof. done. Qed.
Lemma atol_blank s : atol (String " " s) = atol s.
Proof. done. Qed.

(** [strtol()] without its limits. *)
Definition number_of (s : string) : Z :=
  match skip_space s with String "-" r => - digits r 0 | String "+" r => digits r 0 | r => digits r 0 end.

Lemma atol_number s : atol s = Z.max long_min (Z.min long_max (number_of s)).
Proof. done. Qed.

Lemma number_plain d r : 0 <= d < 10 ->
  number_of (String (ascii_of_N (Z.to_N (48 + d))) r) = digits (String (ascii_of_N (Z.to_N (48 + d))) r) 0.
Proof.
  intros Hd. assert (d ∈ [0;1;2;3;4;5;6;7;8;9]) as Hin by (rewrite !elem_of_cons; lia).
  rewrite !elem_of_cons, elem_of_nil in Hin. by destruct_or! Hin; subst.
Qed.

Lemma number_format n : - 10 ^ 20 < n < 10 ^ 20 -> number_of (format_d n) = n.
Proof.
  intros Hn. unfold format_d. destruct (Z.ltb_spec n 0).
  - unfold number_of. change (skip_space (String "-" (decimal 20 (- n) ""))) with (String "-" (decimal 20 (- n) "")).
    cbv beta iota. rewrite digits_decimal by (change (Z.of_nat 20) with 20; lia). cbn. lia.
  - destruct (decimal_head 20 n EmptyString) as (d & r & Ed & Hd); [lia|lia|].
    rewrite Ed, number_plain by done. rewrite <- Ed, digits_decimal by (change (Z.of_nat 20) with 20; lia). done.
Qed.

Lemma atol_format n : long_ok n -> atol (format_d n) = n.
Proof. intros [Hl Hn]. rewrite atol_number, number_format by done. lia. Qed.

(** *** Reading what was written *)

Lemma get_text s x k t n : settings_ok s -> map_of s x !! k = Some t -> strlen t < n ->
  settings_get s x k true n = (1, Some t).
Proof. intros Hs Hm Hn. rewrite get_spec, Hm by done. unfold get_of. by rewrite (proj2 (Z.ltb_lt _ _) Hn). Qed.

(** An array comes back when as many pieces are read as it has elements. *)
Lemma get_tuple s x k mode (l : list string) (w : list (number D)) :
  settings_ok s -> map_of s x !! k = Some (comma_separated l) -> strlen (comma_separated l) < MAX_VALUECHARS ->
  Forall (fun t => has "," t = false /\ t <> EmptyString) l -> length w = length l -> l <> [] ->
  (forall t, convert (D := D) mode (String " " t) = convert mode t) ->
  get_converted_tuple s x k "," mode w = Some (convert mode <$> l).
Proof.
  intros Hs Hm Hlen Hl Hw Hne Hblank. unfold get_converted_tuple.
  assert ((length w =? 0)%nat = false) as -> by (rewrite Hw; by destruct l).
  rewrite (get_text s x k _ _ Hs Hm Hlen), tokens_comma by done. f_equal.
  assert (convert (D := D) mode <$> match l with [] => [] | t :: l => t :: (String " " <$> l) end = convert mode <$> l) as ->.
  { destruct l as [|t l]; [done|]. cbn. f_equal. rewrite <- list_fmap_compose. apply list_fmap_ext. intros i y _. apply Hblank. }
  rewrite take_ge by (rewrite length_fmap; lia). rewrite drop_ge, app_nil_r; [done|]. rewrite length_fmap. lia.
Qed.

Lemma ints_int f (l : list string) : ints (D := D) ((fun t => Int (f t)) <$> l) = f <$> l.
Proof. unfold ints. rewrite <- list_fmap_compose. done. Qed.
Lemma ints_long f (l : list string) : ints (D := D) ((fun t => Long (f t)) <$> l) = f <$> l.
Proof. unfold ints. rewrite <- list_fmap_compose. done. Qed.

Lemma map_format f (P : Z -> Prop) l : (forall n, P n -> f (format_d n) = n) -> Forall P l -> f <$> (format_d <$> l) = l.
Proof.
  intros Hf. induction 1 as [|n l Hn _ IH]; [done|]. cbn. by rewrite Hf, IH.
Qed.

Lemma get_value_text s e v w : settings_ok s ->
  map_of s (section_name e) !! entry_key e = Some (value_text (key_type e) v) ->
  strlen (value_text (key_type e) v) < MAX_VALUECHARS -> holds e v -> same_kind v w -> get_value s e w = (true, reread v).
Proof.
  intros Hs Hm Hlen Hh Hk. unfold get_value, holds in *.
  destruct (key_type e), v as [t|n|l|n|l|d|l], w as [t'|n'|l'|n'|l'|d'|l']; try done; cbn [value_text reread same_kind] in *.
  - by rewrite (get_text _ _ _ _ _ Hs Hm Hh).
  - unfold settings_get_int, get_converted_value. rewrite (get_text _ _ _ _ _ Hs Hm Hlen). cbn. by rewrite atoi_format_d.
  - destruct Hh as [Hne Hall]. unfold settings_get_int_tuple. rewrite (get_tuple s _ _ _ (format_d <$> l)); try done.
    + cbn [convert]. rewrite (ints_int atoi). by rewrite (map_format atoi _ l atoi_format_d Hall).
    + apply number_pieces.
    + by rewrite !length_fmap.
    + by destruct l.
  - unfold settings_get_long, get_converted_value. rewrite (get_text _ _ _ _ _ Hs Hm Hlen). cbn [convert]. by rewrite atol_format.
  - destruct Hh as [Hne Hall]. unfold settings_get_long_tuple. rewrite (get_tuple s _ _ _ (format_d <$> l)); try done.
    + f_equal. f_equal. etrans; [apply (ints_long atol)|]. by apply (map_format atol _ l atol_format).
    + apply number_pieces.
    + by rewrite !length_fmap.
    + by destruct l.
  - unfold settings_get_double, get_converted_value. by rewrite (get_text _ _ _ _ _ Hs Hm Hlen).
  - destruct l' as [|d' l']; [by destruct l|]. unfold settings_get_double_tuple. rewrite (get_tuple s _ _ _ (format_E <$> l)); try done.
    + cbn [convert]. f_equal. f_equal. unfold doubles. rewrite <- !list_fmap_compose. done.
    + apply Forall_fmap, Forall_true. intros x. split; [apply format_no_comma|apply format_some].
    + by rewrite !length_fmap.
    + by destruct l.
    + intros t. cbn. by rewrite atof_blank.
Qed.

(** ** Programs that store and programs that load *)

(** Entries of the same setting. *)
Definition same_setting (e f : SETTINGS_ENTRY) : Prop :=
  section_name e = section_name f /\ entry_key e = entry_key f /\ key_type e = key_type f.

(** The variables the chain of a program stands for. *)
Definition targets (es : gmap pointer SETTINGS_ENTRY) (ps : list pointer) : list pointer :=
  omap (fun p => value <$> es !! p) ps.

(** No setting of the program is attached under two entries. *)
Definition settings_once (a : ADSettings_ D) : Prop :=
  forall p q e f, p ∈ SettingsChain a -> q ∈ SettingsChain a -> entries a !! p = Some e -> entries a !! q = Some f ->
    section_name e = section_name f -> entry_key e = entry_key f -> p = q.

Definition settings_once_b (a : ADSettings_ D) : bool :=
  bool_decide (NoDup ((fun p => (fun e => (section_name e, entry_key e)) <$> entries a !! p) <$> SettingsChain a)).

Lemma settings_once_dec (a : ADSettings_ D) : settings_once_b a = true -> settings_once a.
Proof.
  intros Hd%bool_decide_eq_true p q e f [i Hi]%list_elem_of_lookup [j Hj]%list_elem_of_lookup He Hf Es Ek.
  assert (i = j) as ->; [|congruence].
  apply (NoDup_lookup _ i j (Some (section_name e, entry_key e)) Hd); rewrite list_lookup_fmap.
  - by rewrite Hi; cbn; rewrite He.
  - rewrite Hj; cbn; rewrite Hf; cbn. by rewrite Es, Ek.
Qed.

Lemma targets_elem es ps p e : p ∈ ps -> es !! p = Some e -> value e ∈ targets es ps.
Proof. intros Hp He. apply list_elem_of_omap. exists p. by rewrite He. Qed.

Lemma load_var_other s es (vs : gmap pointer (cell D)) p x : x ∉ targets es [p] -> load_var s es vs p !! x = vs !! x.
Proof.
  unfold targets, load_var. cbn. destruct (es !! p) as [e|]; cbn; [|done]. rewrite list_elem_of_singleton.
  intros Hx. destruct (vs !! value e); [|done]. by rewrite lookup_insert_ne.
Qed.

Lemma targets_cons es p ps : targets es (p :: ps) = (targets es [p] ++ targets es ps)%list.
Proof. unfold targets. cbn. by destruct (value <$> es !! p). Qed.

Lemma fold_other s es ps (vs : gmap pointer (cell D)) x : x ∉ targets es ps -> foldl (load_var s es) vs ps !! x = vs !! x.
Proof.
  revert vs. induction ps as [|p ps IH]; intros vs; [done|]. rewrite targets_cons, not_elem_of_app. intros [Hp Hps].
  cbn [foldl]. by rewrite IH, load_var_other.
Qed.

(** Each variable is read once, with its own entry. *)
Lemma fold_one s es ps (vs : gmap pointer (cell D)) p e w :
  NoDup (targets es ps) -> p ∈ ps -> es !! p = Some e -> vs !! value e = Some w ->
  foldl (load_var s es) vs ps !! value e = Some (get_value s e w).2.
Proof.
  revert vs. induction ps as [|q ps IH]; intros vs; [by rewrite elem_of_nil|].
  rewrite targets_cons, NoDup_app, elem_of_cons. intros (_ & Hnot & Hd) Hin He Hv. cbn [foldl].
  destruct (decide (p = q)) as [<-|Hne].
  - rewrite fold_other by (apply Hnot, (targets_elem _ _ p); [by left|done]). unfold load_var. by rewrite He, Hv, lookup_insert_eq.
  - assert (p ∈ ps) as Hps by (by destruct Hin). apply IH; [done..|]. rewrite load_var_other; [done|].
    intros Hq. apply (Hnot _ Hq). by apply (targets_elem _ _ p).
Qed.

(** A setting that is set to one text only has that text in the end. *)
Lemma set_all_one l s x k t : settings_ok s -> Forall (fun y => y.1.1 <> EmptyString) l ->
  (forall u, (x, k, u) ∈ l -> u = t) -> (x, k, t) ∈ l \/ map_of s x !! k = Some t ->
  map_of (set_all s l) x !! k = Some t.
Proof.
  revert s. induction l as [|[[y j] u] l IH]; intros s Hs Hl Ht Hin.
  - destruct Hin as [Hin|]; [by apply elem_of_nil in Hin|done].
  - apply Forall_cons in Hl as [Hy Hl]. destruct (set_spec s y j u Hs Hy) as (_ & Hok & Hmap).
    cbn. apply (IH _ Hok Hl); [intros u' Hu; apply Ht; by right|].
    destruct Hin as [[[= -> -> ->]|Hin]%elem_of_cons|Hin]; [|by left|]; right; rewrite Hmap.
    + by rewrite decide_True, lookup_insert_eq.
    + case_decide; [|done]. subst y. rewrite lookup_insert. case_decide; [|done]. subst j. f_equal. apply Ht. by left.
Qed.

Lemma text_of_in (a : ADSettings_ D) p e v : p ∈ SettingsChain a -> entries a !! p = Some e -> vars a !! value e = Some v ->
  (section_name e, entry_key e, value_text (key_type e) v) ∈ texts_of a (SettingsChain a).
Proof. intros Hp He Hv. apply list_elem_of_omap. exists p. unfold text_of. rewrite He. cbn. by rewrite Hv. Qed.

Lemma stored_map (a : ADSettings_ D) s q f v : settings_ok s -> storable a -> settings_once a ->
  q ∈ SettingsChain a -> entries a !! q = Some f -> vars a !! value f = Some v ->
  map_of (set_all s (texts_of a (SettingsChain a))) (section_name f) !! entry_key f = Some (value_text (key_type f) v).
Proof.
  intros Hs Hst Ho Hq Hf Hv. apply set_all_one; [done| | |left; by apply (text_of_in _ q)].
  - destruct (storable_texts a Hst) as [_ Hall]. eapply Forall_impl; [exact Hall|]. intros x [Hn _]. by apply name_nonempty.
  - intros u (p & Hp & Hu)%list_elem_of_omap. unfold text_of in Hu. destruct (entries a !! p) as [e|] eqn:He; [|done]. cbn in Hu.
    destruct (vars a !! value e) as [z|] eqn:Hz; [|done]. injection Hu as Es Ek <-.
    pose proof (Ho p q e f Hp Hq He Hf Es Ek) as ->. by simplify_eq.
Qed.

Context `{Disk} `{!DiskLaws} (junk : ESETTINGS_KEY_TYPE -> Z -> cell D).
Context (junk_int : forall n, exists z, junk ESETTINGS_KEY_TYPE_INT n = VInt z).

Lemma loaded_value (b : ADSettings_ D) s p e v w : fresh b -> NoDup (targets (entries b) (SettingsChain b)) ->
  settings_ok s -> p ∈ SettingsChain b -> entries b !! p = Some e -> vars b !! value e = Some w ->
  map_of s (section_name e) !! entry_key e = Some (value_text (key_type e) v) ->
  strlen (value_text (key_type e) v) < MAX_VALUECHARS -> holds e v -> same_kind v w ->
  loaded_vars b s !! value e = Some (reread v).
Proof.
  intros Hb Hd Hs Hp He Hw Hm Hlen Hh Hk.
  pose proof (fr_user b Hb) as Hu. rewrite Forall_forall in Hu. destruct (Hu p Hp) as (_ & e' & v' & He' & _ & Hv & _).
  simplify_eq. rewrite !not_elem_of_cons in Hv. destruct Hv as (V1 & V2 & V3 & _).
  unfold loaded_vars. rewrite !lookup_insert_ne by (apply not_eq_sym; done).
  assert (forall ps, targets (shape (entries b)) ps = targets (entries b) ps) as Ht.
  { unfold targets, shape. intros ps. induction ps as [|q ps IH]; [done|]. cbn. rewrite lookup_fmap, IH.
    by destruct (entries b !! q). }
  change (value e) with (value (with_state e ESETTINGS_KEY_STATE_NONE)).
  rewrite (fold_one s (shape (entries b)) (SettingsChain b) (vars b) p _ w); [|by rewrite Ht|done| |done].
  - rewrite get_value_state. by rewrite (get_value_text s e v w).
  - unfold shape. by rewrite lookup_fmap, He.
Qed.

End values.

(** ** The program of [Drive] *)
Import Drive.

#[export] Instance whole_laws : DoublesLaws Z.
Proof.
  split; cbn.
  - done.
  - intros d. by apply format_d_has.
  - intros d E. pose proof (format_d_length d) as Hl. rewrite E in Hl. cbn in Hl. lia.
Qed.

Lemma changed_chain : SettingsChain changed = [10; 11; MetaStngTbl0; MetaStngTbl1; MetaStngTbl2]%positive.
Proof. by vm_compute. Qed.

Lemma program_chain : SettingsChain program = [10; 11]%positive.
Proof. by vm_compute. Qed.

