(* ===== verification/I2CBus.v ===== *)
(** * Bytes to a device

    I2CBusAccess.cpp: the bytes for a device on an I2C bus go through a device node of this
    machine or, as calls, to a server that has the bus.  The kernel's side of the node is
    the class [I2C]; the client object is what the class [RemoteBus] says of it (file
    [Client]). *)
From S2P Require Import Prelude Common Text.
Local Open Scope string_scope.
Local Open Scope Z_scope.

Inductive ADLIB_DEV_CONN_TYPE :=
| ADLIB_DEV_CONN_TYPE_DEVNODE | ADLIB_DEV_CONN_TYPE_NETWORK | ADLIB_DEV_CONN_TYPE_UNKNOWN | ADLIB_DEV_CONN_TYPE_NONE.

Definition RPCMGR_RPC_MW_BYTE_GET : string := "read_byte".
Definition RPCMGR_RPC_MW_BYTE_SET : string := "write_byte".
Definition RPCMGR_RPC_MW_WORD_GET : string := "read_word".
Definition RPCMGR_RPC_MW_WORD_SET : string := "write_word".
Definition RPCMGR_RPC_MW_DWORD_GET : string := "read_dword".
Definition RPCMGR_RPC_MW_DWORD_SET : string := "write_dword".
Definition RPCMGR_RPC_MW_ARGADDR : string := "addr".
Definition RPCMGR_RPC_MW_ARGDATA : string := "data".

(** [stat()] (the mode), [open()] (the descriptor, and [errno] as it is then), [close()],
    [ioctl(fd, I2C_SLAVE, addr)], [ioctl(fd, I2C_SMBUS, ...)] for one byte, [write()],
    [read()] (the count and the bytes), and whether [inet_pton()] takes an address. *)
Class I2C (W : Type) := {
  stat_mode : string -> W -> option Z;
  open_node : string -> W -> Z * Z * W;
  close_node : Z -> W -> W;
  set_slave : Z -> Z -> W -> Z * W;
  smbus_write : Z -> Z -> W -> Z * W;
  smbus_read : Z -> W -> Z * Z * W;
  fd_write : Z -> list Z -> W -> Z * W;
  fd_read : Z -> Z -> W -> Z * list Z * W;
  inet_pton : string -> bool;
}.

(** The calls of the client object. *)
Class RemoteBus (W : Type) := {
  rpc_server_connect : string -> Z -> W -> Z * W;
  rpc_server_disconnect : W -> W;
  set_integer_type_with_addr_para : string -> string -> Z -> string -> Z -> W -> Z * W;
  get_integer_type_with_addr_para : string -> string -> Z -> string -> W -> Z * string * W;
}.

Record I2CBusAccess (W : Type) := {
  fd : Z; DevOpened : Z; ConnType : ADLIB_DEV_CONN_TYPE; node : string; IpAddr : string; Port : Z; world : W
}.
Arguments fd {W} _. Arguments DevOpened {W} _. Arguments ConnType {W} _. Arguments node {W} _.
Arguments IpAddr {W} _. Arguments Port {W} _. Arguments world {W} _.

Abbreviation u16 := (wrap_u 16).
Abbreviation u32 := (wrap_u 32).

Section bus.
Context {W : Type} `{I2C W} `{RemoteBus W}.
(** What a variable that was not set holds. *)
Context (junk : Z) (junk_type : ADLIB_DEV_CONN_TYPE).
Abbreviation bus := (I2CBusAccess W).

Definition with_world (b : bus) (w : W) : bus :=
  {| fd := fd b; DevOpened := DevOpened b; ConnType := ConnType b; node := node b; IpAddr := IpAddr b; Port := Port b;
     world := w |}.

(** ** Opening *)

Definition is_digit (c : ascii) : bool := match digit_of c with Some _ => true | None => false end.
Fixpoint is_digits (s : string) : bool :=
  match s with EmptyString => true | String c r => is_digit c && is_digits r end.
Definition is_number (s : string) : bool := is_digits s && negb (s =? EmptyString)%string.
Definition validateIpAddress (ipAddress : string) : bool := inet_pton ipAddress.

(** [while (getline(f, s, ':'))] *)
Fixpoint pieces (c : ascii) (s : string) : list string :=
  match s with
  | EmptyString => []
  | String x r =>
      if (x =? c)%char then EmptyString :: pieces c r
      else match pieces c r with p :: l => String x p :: l | [] => [String x EmptyString] end
  end.

(** The code, the port and the address. *)
Definition is_it_network_node (devnode : string) : Z * Z * string :=
  let node_of str1 str2 :=
    let port := if is_number str1 then Some (atoi str1) else if is_number str2 then Some (atoi str2) else None in
    match port with
    | None => (Rpc.FAIL, -1, "none")
    | Some port =>
        if validateIpAddress str1 then (Rpc.SUCCESS, port, str1)
        else if validateIpAddress str2 then (Rpc.SUCCESS, port, str2)
        else (Rpc.FAIL, port, "none")
    end in
  match pieces ":" devnode with
  | [str1; str2] => node_of str1 str2
  | [str1] => node_of str1 "127.0.0.1"
  | _ => (Rpc.FAIL, -1, "none")
  end.

Definition S_ISCHR (mode : Z) : bool := Z.land mode 61440 =? 8192.
Definition is_it_device_node (devnode : string) (w : W) : Z :=
  if S_ISCHR (default junk (stat_mode devnode w)) then Rpc.SUCCESS else Rpc.FAIL.

Definition ENOENT : Z := 2.
Definition EACCES : Z := 13.
Definition ENOTDIR : Z := 20.

(** The constructor, and the destructor. *)
Definition open_bus (DevNode : string) (w : W) : bus :=
  if is_it_device_node DevNode w =? Rpc.SUCCESS then
    let '(d, errno, w) := open_node DevNode w in
    let '(opened, type) :=
      if errno =? ENOENT then (Rpc.FILE_NOT_FOUND, junk_type)
      else if errno =? ENOTDIR then (Rpc.FILE_NOT_FOUND, junk_type)
      else if errno =? EACCES then (Rpc.DEVNODE_ACCERR, junk_type)
      else (Rpc.SUCCESS, ADLIB_DEV_CONN_TYPE_DEVNODE) in
    {| fd := d; DevOpened := opened; ConnType := type; node := DevNode; IpAddr := EmptyString; Port := junk; world := w |}
  else
    let '(r, port, ip) := is_it_network_node DevNode in
    if r =? Rpc.SUCCESS then
      let '(r, w) := rpc_server_connect ip port w in
      let '(opened, type) :=
        if negb (r =? 0) then (Rpc.HOST_NOT_REACHABLE_ERR, junk_type) else (Rpc.SUCCESS, ADLIB_DEV_CONN_TYPE_NETWORK) in
      {| fd := junk; DevOpened := opened; ConnType := type; node := DevNode; IpAddr := ip; Port := port; world := w |}
    else {| fd := junk; DevOpened := Rpc.FAIL; ConnType := junk_type; node := DevNode; IpAddr := ip; Port := port; world := w |}.
Definition close_bus (b : bus) : W :=
  if DevOpened b =? Rpc.SUCCESS then
    match ConnType b with
    | ADLIB_DEV_CONN_TYPE_DEVNODE => close_node (fd b) (world b)
    | ADLIB_DEV_CONN_TYPE_NETWORK => rpc_server_disconnect (world b)
    | _ => world b
    end
  else world b.

(** ** Transfers *)

Definition SetSlaveAddr (addr : Z) (b : bus) : Z * bus :=
  let '(r, w) := set_slave (fd b) addr (world b) in
  (if r <? 0 then Rpc.BUS_ERROR else Rpc.SUCCESS, with_world b w).

Definition i2c_smbus_read_byte (b : bus) : Z * bus :=
  let '(r, byte, w) := smbus_read (fd b) (world b) in
  (if negb (r =? 0) then -1 else Z.land 255 byte, with_world b w).
Definition i2c_smbus_write_byte (value : Z) (b : bus) : Z * bus :=
  let '(r, w) := smbus_write (fd b) value (world b) in (r, with_world b w).

(** What all transfers do: an error of opening is the answer; on a node the address of the
    device comes first, over the network the call. *)
Definition transfer {A} (b : bus) (addr : Z) (fail : Z -> A) (local remote : bus -> A * bus) : A * bus :=
  if negb (DevOpened b =? Rpc.SUCCESS) then (fail (DevOpened b), b)
  else match ConnType b with
       | ADLIB_DEV_CONN_TYPE_DEVNODE =>
           let '(r, b) := SetSlaveAddr (u8 addr) b in
           if negb (r =? Rpc.SUCCESS) then (fail r, b) else local b
       | ADLIB_DEV_CONN_TYPE_NETWORK => remote b
       | _ => (fail Rpc.FAIL, b)
       end.

Definition remote_get (method : string) (addr : Z) (cast : Z -> Z) (b : bus) : Z * option Z * bus :=
  let '(r, tmpbuf, w) := get_integer_type_with_addr_para method RPCMGR_RPC_MW_ARGADDR addr RPCMGR_RPC_MW_ARGDATA (world b) in
  (r, if r =? Rpc.SUCCESS then Some (cast (atoi tmpbuf)) else None, with_world b w).
Definition remote_set (method : string) (addr data : Z) (b : bus) : Z * bus :=
  let '(r, w) := set_integer_type_with_addr_para method RPCMGR_RPC_MW_ARGADDR addr RPCMGR_RPC_MW_ARGDATA data (world b) in
  (r, with_world b w).

(** The value read is [None] when [*data] is left alone. *)
Definition no_data (r : Z) : Z * option Z := (r, None).

Definition read_byte (addr : Z) (b : bus) : Z * option Z * bus :=
  transfer b addr no_data
    (fun b => let '(smret, b) := i2c_smbus_read_byte b in
              if smret <? 0 then (Rpc.FILE_READ_ERR, None, b) else (Rpc.SUCCESS, Some (u8 smret), b))
    (remote_get RPCMGR_RPC_MW_BYTE_GET addr u8).
Definition write_byte (addr data : Z) (b : bus) : Z * bus :=
  transfer b addr id
    (fun b => let '(smret, b) := i2c_smbus_write_byte data b in
              if negb (smret =? 0) then (Rpc.FILE_WRITE_ERR, b) else (Rpc.SUCCESS, b))
    (remote_set RPCMGR_RPC_MW_BYTE_SET addr data).

(** [n] bytes of the node. *)
Definition I2C_READ (n : Z) (b : bus) : bool * list Z * bus :=
  let '(count, buff, w) := fd_read (fd b) n (world b) in (count =? n, buff, with_world b w).
Definition I2C_WRITE (buff : list Z) (b : bus) : Z * bus :=
  let '(count, w) := fd_write (fd b) buff (world b) in
  (if negb (count =? Z.of_nat (length buff)) then Rpc.FILE_WRITE_ERR else Rpc.SUCCESS, with_world b w).
Definition at_ (buff : list Z) (i : nat) : Z := default 0 (buff !! i).

Definition word_of (buff : list Z) : Z := Z.lor (u16 (Z.shiftl (at_ buff 0) 8)) (at_ buff 1).
Definition word_bytes (data : Z) : list Z := [u8 (Z.shiftr data 8); Z.land data 255].
Definition dword_of (buff : list Z) : Z :=
  Z.lor (Z.lor (Z.lor (u32 (Z.shiftl (at_ buff 0) 24)) (u32 (Z.shiftl (at_ buff 1) 16))) (u32 (Z.shiftl (at_ buff 2) 8))) (at_ buff 3).
Definition dword_bytes (data : Z) : list Z :=
  [u8 (Z.shiftr data 24); u8 (Z.shiftr data 16); u8 (Z.shiftr data 8); Z.land data 255].

Definition read_bytes (n : Z) (value : list Z -> Z) (b : bus) : Z * option Z * bus :=
  let '(all, buff, b) := I2C_READ n b in
  if all : bool then (Rpc.SUCCESS, Some (value buff), b) else (Rpc.FILE_READ_ERR, None, b).

Definition read_word (addr : Z) (b : bus) : Z * option Z * bus :=
  transfer b addr no_data (read_bytes 2 word_of) (remote_get RPCMGR_RPC_MW_WORD_GET addr u16).
Definition write_word (addr data : Z) (b : bus) : Z * bus :=
  transfer b addr id (I2C_WRITE (word_bytes data)) (remote_set RPCMGR_RPC_MW_WORD_SET addr data).
Definition read_dword (addr : Z) (b : bus) : Z * option Z * bus :=
  transfer b addr no_data (read_bytes 4 dword_of) (remote_get RPCMGR_RPC_MW_DWORD_GET addr u32).
Definition write_dword (addr data : Z) (b : bus) : Z * bus :=
  transfer b addr id (I2C_WRITE (dword_bytes data)) (remote_set RPCMGR_RPC_MW_DWORD_SET addr data).

(** Arrays go to the descriptor whatever the type of the connection is; an array read has
    what [read()] put in it. *)
Definition write_array (addr : Z) (data : list Z) (b : bus) : Z * bus :=
  if negb (DevOpened b =? Rpc.SUCCESS) then (DevOpened b, b)
  else let '(r, b) := SetSlaveAddr (u8 addr) b in
       if negb (r =? Rpc.SUCCESS) then (r, b) else I2C_WRITE data b.
Definition read_array (addr len : Z) (b : bus) : Z * list Z * bus :=
  if negb (DevOpened b =? Rpc.SUCCESS) then (DevOpened b, [], b)
  else let '(r, b) := SetSlaveAddr (u8 addr) b in
       if negb (r =? Rpc.SUCCESS) then (r, [], b)
       else let '(all, buff, b) := I2C_READ len b in (if all : bool then Rpc.SUCCESS else Rpc.FILE_READ_ERR, buff, b).

Definition test_write_byte (dev : string) (addr data : Z) (w : W) : Z * W :=
  let '(myfd, errno, w) := open_node dev w in
  if (myfd <? 0) && (errno =? ENOENT) then (Rpc.FILE_NOT_FOUND, w)
  else if (myfd <? 0) && (errno =? ENOTDIR) then (Rpc.FAIL, w)
  else if (myfd <? 0) && (errno =? EACCES) then (Rpc.DEVNODE_ACCERR, w)
  else let '(r, w) := set_slave myfd addr w in
       if r <? 0 then (Rpc.FILE_WRITE_ERR, w)
       else let '(sz, w) := fd_write myfd [data] w in
            (if negb (sz =? 1) then Rpc.FILE_WRITE_ERR else Rpc.SUCCESS, w).
End bus.

(** ** Words *)

Ltac divmod := Z.to_euclidean_division_equations; lia.

Lemma lor_low n a b : 0 <= n -> 0 <= b < 2 ^ n -> Z.lor (a * 2 ^ n) b = a * 2 ^ n + b.
Proof.
  intros Hn Hb. rewrite <- Z.add_lor_land. replace (Z.land (a * 2 ^ n) b) with 0; [lia|]. symmetry.
  rewrite <- Z.shiftl_mul_pow2 by done. apply Z.bits_inj'. intros i Hi. rewrite Z.land_spec, Z.testbit_0_l.
  destruct (Z.ltb_spec i n); [by rewrite Z.shiftl_spec_low|]. rewrite andb_comm.
  replace (Z.testbit b i) with false; [done|]. symmetry. destruct (decide (b = 0)) as [->|]; [apply Z.testbit_0_l|].
  apply Z.bits_above_log2; [lia|]. apply Z.log2_lt_pow2; [lia|]. eapply Z.lt_le_trans; [apply Hb|]. by apply Z.pow_le_mono_r.
Qed.

Lemma low_byte d : Z.land d 255 = d mod 2 ^ 8.
Proof. change 255 with (Z.ones 8). by rewrite Z.land_ones. Qed.

Lemma shifted_byte n d : 0 <= n -> u8 (Z.shiftr d n) = (d / 2 ^ n) mod 2 ^ 8.
Proof. intros Hn. unfold wrap_u. by rewrite Z.shiftr_div_pow2. Qed.

(** A value is read from the bytes it was written as. *)
Lemma word_roundtrip d : 0 <= d < 2 ^ 16 -> word_of (word_bytes d) = d.
Proof.
  intros Hd. unfold word_of, word_bytes, at_. cbn [lookup list_lookup default]. cbn.
  rewrite low_byte, shifted_byte, Z.shiftl_mul_pow2 by lia.
  rewrite wrap_u_id by (change (2 ^ 8) with 256; change (2 ^ 16) with 65536; divmod).
  rewrite lor_low by (change (2 ^ 8) with 256; divmod). change (2 ^ 8) with 256. divmod.
Qed.

Lemma dword_roundtrip d : 0 <= d < 2 ^ 32 -> dword_of (dword_bytes d) = d.
Proof.
  intros Hd. unfold dword_of, dword_bytes, at_. cbn.
  rewrite low_byte, !shifted_byte, !Z.shiftl_mul_pow2 by lia.
  change (2 ^ 32) with 4294967296 in Hd. change (2 ^ 8) with 256. change (2 ^ 16) with 65536. change (2 ^ 24) with 16777216.
  rewrite !wrap_u_id by (change (2 ^ 32) with 4294967296; divmod).
  set (a := (d / 16777216) mod 256). set (b := (d / 65536) mod 256). set (c := (d / 256) mod 256). set (e := d mod 256).
  assert (d = a * 16777216 + b * 65536 + c * 256 + e) as Ed by (unfold a, b, c, e; clear -Hd; divmod).
  assert (0 <= a < 256 /\ 0 <= b < 256 /\ 0 <= c < 256 /\ 0 <= e < 256) as (Ha & Hb & Hc & He) by (unfold a, b, c, e; clear -Hd; divmod).
  clearbody a b c e.
  change (a * 16777216) with (a * 2 ^ 24). rewrite (lor_low 24 a (b * 65536)) by lia.
  replace (a * 2 ^ 24 + b * 65536) with ((a * 256 + b) * 2 ^ 16) by lia. rewrite (lor_low 16 _ (c * 256)) by lia.
  replace ((a * 256 + b) * 2 ^ 16 + c * 256) with ((a * 65536 + b * 256 + c) * 2 ^ 8) by lia. rewrite (lor_low 8 _ e) by lia. lia.
Qed.

(** ** Nodes of the network *)

Section nodes.
Context {W : Type} `{I2C W}.

Lemma pieces_one c t : has c t = false -> t <> EmptyString -> pieces c t = [t].
Proof.
  induction t as [|x t IH]; [done|]. cbn. intros [-> Ht]%orb_false_iff _. destruct t as [|y t]; [done|]. by rewrite IH.
Qed.

Lemma pieces_app c t r : has c t = false -> pieces c (t ++ String c r) = t :: pieces c r.
Proof.
  induction t as [|x t IH]; autorewrite with text; cbn; [by rewrite Ascii.eqb_refl|]. intros [-> Ht]%orb_false_iff. by rewrite IH.
Qed.

Lemma number_no_colon s : is_number s = true -> has ":" s = false /\ s <> EmptyString.
Proof.
  intros [Hd He]%andb_true_iff. split; [|by intros ->]. clear He. induction s as [|c s IH]; [done|]. cbn in *.
  apply andb_true_iff in Hd as [Hc Hd]. rewrite IH by done. rewrite orb_false_r.
  destruct (Ascii.eqb_spec c ":"); [by subst|done].
Qed.

(** An address and a port in either order, or a port of this machine. *)
Lemma network_node ip port : is_number port = true -> is_number ip = false -> inet_pton ip = true -> inet_pton port = false ->
  has ":" ip = false -> ip <> EmptyString ->
  is_it_network_node (ip ++ ":" ++ port) = (Rpc.SUCCESS, atoi port, ip) /\
  is_it_network_node (port ++ ":" ++ ip) = (Rpc.SUCCESS, atoi port, ip) /\
  (inet_pton "127.0.0.1" = true -> is_it_network_node port = (Rpc.SUCCESS, atoi port, "127.0.0.1")).
Proof.
  intros Hp Hi Vi Vp Hc Hne. destruct (number_no_colon port Hp) as [Pc Pne].
  change (ip ++ ":" ++ port) with (ip ++ String ":" port). change (port ++ ":" ++ ip) with (port ++ String ":" ip).
  unfold is_it_network_node, validateIpAddress. rewrite !pieces_app, !pieces_one by done. rewrite Hp, Hi, Vi, Vp.
  repeat split. by intros ->.
Qed.
End nodes.
