(* ===== verification/Lcd.v ===== *)
(** * Character displays on the bus

    I2CPcfLcd.cpp and I2CDualPcfLcd.cpp: displays of lines of 16 or 20 characters.  The
    first has one port expander, whose byte carries four bits of data and the control lines,
    so a byte goes in two halves; the second has one expander for data and one for control.
    The delays between the bytes are left out. *)
From S2P Require Import Prelude Common Text I2CBus.
Local Open Scope Z_scope.

(** ** DisplayDevice.hpp *)

Definition DISPLAY_LINE_1 : Z := 0.
Definition DISPLAY_LINE_2 : Z := 1.
Definition DISPLAY_LINE_3 : Z := 2.
Definition DISPLAY_LINE_4 : Z := 3.
Definition DISPLAY_LINE_FULL : Z := 8.
Inductive TEXT_ALIGNMENT :=
| TEXT_ALIGNMENT_LEFT | TEXT_ALIGNMENT_RIGHT | TEXT_ALIGNMENT_CENTER | TEXT_ALIGNMENT_UNKNOWN | TEXT_ALIGNMENT_NONE.
Definition ADLIB_DISPLAY_TYPE_1602_PCF : Z := 5.
Definition ADLIB_DISPLAY_TYPE_2002_PCF : Z := 6.
Definition ADLIB_DISPLAY_TYPE_2004_PCF : Z := 7.
Definition ADLIB_DISPLAY_TYPE_UNKNOWN : Z := 9.
Definition ADLIB_DISPLAY_TYPE_TABL : list string :=
  ["ssd1306_128x32"; "ssd1306_128x64"; "ssd1306_128x32_pi"; "ssd1306_128x64_pi"; "1602_dual_pcf"; "1602_pcf"; "2002_pcf";
   "2004_pcf"; "1604_pcf"; "unknown"; "none"]%string.

Definition sixteen_blanks : string := "                ".
(** A [char] as the byte it is. *)
Definition char_byte (c : ascii) : Z := Z.of_N (N_of_ascii c).
Definition strlen (s : string) : Z := Z.of_nat (String.length s).

(** [update_io_ctrl_cache()]: a bit of the byte for the control lines. *)
Definition update_io_ctrl_cache (io_ctrl_byte location : Z) (value : bool) : Z :=
  if value then Z.lor io_ctrl_byte (Z.shiftl 1 location) else Z.land io_ctrl_byte (u8 (Z.lnot (Z.shiftl 1 location))).

(** ** One expander *)

Module Pcf.
Definition LCD_LINE1 : Z := 128.
Definition LCD_LINE2 : Z := 192.
Definition LCD_LINE3 : Z := 148.
Definition LCD_LINE4 : Z := 212.
Definition LCD_BL : Z := 8.
Definition LCD_EN : Z := 4.
Definition LCD_RW : Z := 2.
Definition LCD_RS : Z := 1.
Definition LO_NIBBLE (b : Z) : Z := Z.land (Z.shiftl b 4) 240.
Definition HI_NIBBLE (b : Z) : Z := Z.land b 240.

Record I2CPcfLcd (W : Type) := {
  BkLight : bool; DISPLAY_TYPE : Z; disp_type : Z; io_ctrl_byte : Z; LCD_PCF_ADDRESS : Z; bus : I2CBusAccess W
}.
Arguments BkLight {W} _. Arguments DISPLAY_TYPE {W} _. Arguments disp_type {W} _. Arguments io_ctrl_byte {W} _.
Arguments LCD_PCF_ADDRESS {W} _. Arguments bus {W} _.

Section pcf.
Context {W : Type} `{I2C W} `{RemoteBus W}.
Abbreviation lcd := (I2CPcfLcd W).

Definition with_bus (l : lcd) (b : I2CBusAccess W) : lcd :=
  {| BkLight := BkLight l; DISPLAY_TYPE := DISPLAY_TYPE l; disp_type := disp_type l; io_ctrl_byte := io_ctrl_byte l;
     LCD_PCF_ADDRESS := LCD_PCF_ADDRESS l; bus := b |}.
Definition with_ctrl (l : lcd) (c : Z) : lcd :=
  {| BkLight := BkLight l; DISPLAY_TYPE := DISPLAY_TYPE l; disp_type := disp_type l; io_ctrl_byte := c;
     LCD_PCF_ADDRESS := LCD_PCF_ADDRESS l; bus := bus l |}.
Definition with_light (l : lcd) (sts : bool) : lcd :=
  {| BkLight := sts; DISPLAY_TYPE := DISPLAY_TYPE l; disp_type := disp_type l; io_ctrl_byte := io_ctrl_byte l;
     LCD_PCF_ADDRESS := LCD_PCF_ADDRESS l; bus := bus l |}.

(** [write_byte((uint32_t)LCD_PCF_ADDRESS, byte)]; nobody looks at the result. *)
Definition send (l : lcd) (byte : Z) : lcd := with_bus l (write_byte (LCD_PCF_ADDRESS l) (u8 byte) (bus l)).2.

Definition lit (l : lcd) (byte : Z) : Z := if BkLight l then Z.lor byte LCD_BL else byte.

(** A half byte with the enable line up and then down. *)
Definition strobe (l : lcd) (lcddata : Z) : lcd :=
  send (send l (Z.lor lcddata LCD_EN)) (Z.land lcddata (Z.lnot LCD_EN)).

Definition write_inst (l : lcd) (data cmdtype : Z) : lcd :=
  let l := strobe l (lit l (HI_NIBBLE data)) in
  if cmdtype =? 0 then l else strobe l (lit l (LO_NIBBLE data)).
Definition write_data (l : lcd) (data : Z) : lcd :=
  let l := strobe l (lit l (Z.lor (HI_NIBBLE data) LCD_RS)) in
  strobe l (lit l (Z.lor (LO_NIBBLE data) LCD_RS)).

Definition LCD_goto (l : lcd) (row column : Z) : lcd :=
  let line := if row =? 1 then LCD_LINE1 else if row =? 2 then LCD_LINE2 else if row =? 3 then LCD_LINE3
              else if row =? 4 then LCD_LINE4 else LCD_LINE1 in
  write_inst l (u8 (line + (u8 column - 1))) 1.

Definition init_lcd (l : lcd) : lcd :=
  let l := with_ctrl l 255 in
  let l := send l (io_ctrl_byte l) in
  let l := write_inst l 48 0 in
  let l := write_inst l 48 0 in
  let l := write_inst l 48 0 in
  let l := write_inst l 32 0 in
  let l := write_inst l 40 1 in
  let l := write_inst l 8 1 in
  let l := write_inst l 1 1 in
  let l := write_inst l 6 1 in
  write_inst l 12 1.

(** At most as many characters as a line has; [i] counts from 1. *)
Fixpoint print_from (l : lcd) (i : Z) (ptr : string) : lcd :=
  match ptr with
  | EmptyString => l
  | String c ptr =>
      let l := write_data l (char_byte c) in
      if DISPLAY_TYPE l <? i + 1 then l else print_from l (i + 1) ptr
  end.
Definition print_lcd (l : lcd) (ptr : string) : lcd := print_from l 1 ptr.

Definition clear_display_internal (l : lcd) (line : Z) : lcd :=
  if line =? DISPLAY_LINE_1 then print_lcd (LCD_goto l 1 1) sixteen_blanks
  else if line =? DISPLAY_LINE_2 then print_lcd (LCD_goto l 2 1) sixteen_blanks
  else if line =? DISPLAY_LINE_3 then print_lcd (LCD_goto l 3 1) sixteen_blanks
  else if line =? DISPLAY_LINE_4 then print_lcd (LCD_goto l 4 1) sixteen_blanks
  else if line =? DISPLAY_LINE_FULL then write_inst l 1 1
  else l.

Definition print_center (l : lcd) (line : Z) (s : string) : lcd :=
  let len := if DISPLAY_TYPE l <? strlen s then DISPLAY_TYPE l else strlen s in
  let indx := Z.quot (DISPLAY_TYPE l - len) 2 + 1 in
  let l := clear_display_internal l line in
  let l :=
    if line =? DISPLAY_LINE_1 then LCD_goto l 1 indx
    else if line =? DISPLAY_LINE_2 then LCD_goto l 2 indx
    else if line =? DISPLAY_LINE_3 then LCD_goto l 3 indx
    else if line =? DISPLAY_LINE_4 then LCD_goto l 4 indx
    else l in
  print_lcd l s.

Definition print_line (l : lcd) (msg : string) (line : Z) (align : TEXT_ALIGNMENT) : Z * lcd :=
  let len := if DISPLAY_TYPE l <? strlen msg then DISPLAY_TYPE l else strlen msg in
  let indx := DISPLAY_TYPE l - len in
  let myline :=
    if line =? DISPLAY_LINE_1 then 1 else if line =? DISPLAY_LINE_2 then 2 else if line =? DISPLAY_LINE_3 then 3
    else if line =? DISPLAY_LINE_4 then 4 else 1 in
  (Rpc.SUCCESS,
   match align with
   | TEXT_ALIGNMENT_LEFT => print_lcd (LCD_goto l myline 1) msg
   | TEXT_ALIGNMENT_RIGHT => print_lcd (LCD_goto l myline (indx + 1)) msg
   | _ => print_center l line msg
   end).

Definition set_back_light (l : lcd) (sts : bool) : Z * lcd :=
  let lcddata := if sts then Z.lor (HI_NIBBLE 0) LCD_BL else HI_NIBBLE 0 in
  (Rpc.SUCCESS, send (with_light l sts) lcddata).
Definition get_back_light (l : lcd) : Z * bool := (Rpc.SUCCESS, BkLight l).
Definition init_display (l : lcd) : Z * lcd := (Rpc.SUCCESS, init_lcd l).
Definition clear_display (l : lcd) : Z * lcd := (Rpc.SUCCESS, clear_display_internal l DISPLAY_LINE_FULL).

(** The constructor, on the bus of the device node.  A display that does not answer at the
    first address has the second one. *)
Definition new_I2CPcfLcd (b : I2CBusAccess W) (DevType : string) : option lcd :=
  type ← string_to_enum ADLIB_DISPLAY_TYPE_TABL DevType ADLIB_DISPLAY_TYPE_UNKNOWN;
  let disp_type := if ADLIB_DISPLAY_TYPE_UNKNOWN <=? type then ADLIB_DISPLAY_TYPE_1602_PCF else type in
  let DISPLAY_TYPE :=
    if (disp_type =? ADLIB_DISPLAY_TYPE_2002_PCF) || (disp_type =? ADLIB_DISPLAY_TYPE_2004_PCF) then 20 else 16 in
  let '(r, b) := write_byte 63 255 b in
  let addr := if negb (r =? Rpc.SUCCESS) then 39 else 63 in
  let l := {| BkLight := true; DISPLAY_TYPE := DISPLAY_TYPE; disp_type := disp_type; io_ctrl_byte := 255;
              LCD_PCF_ADDRESS := addr; bus := b |} in
  Some (LCD_goto (init_lcd l) 1 1).
End pcf.
End Pcf.

(** ** Two expanders *)

Module Dual.
Definition LCD_PCF_DATA_ADDRESS : Z := 56.
Definition LCD_PCF_CTRL_ADDRESS : Z := 39.
Definition DISPLAY_TYPE : Z := 16.

Record I2CDualPcfLcd (W : Type) := { io_ctrl_byte : Z; bus : I2CBusAccess W }.
Arguments io_ctrl_byte {W} _. Arguments bus {W} _.

Section dual.
Context {W : Type} `{I2C W} `{RemoteBus W}.
Abbreviation lcd := (I2CDualPcfLcd W).

Definition send (l : lcd) (addr byte : Z) : lcd :=
  {| io_ctrl_byte := io_ctrl_byte l; bus := (write_byte addr (u8 byte) (bus l)).2 |}.
Definition update_io_ctrl_device (l : lcd) : lcd := send l LCD_PCF_CTRL_ADDRESS (io_ctrl_byte l).
Definition cache (l : lcd) (location : Z) (value : bool) : lcd :=
  {| io_ctrl_byte := update_io_ctrl_cache (io_ctrl_byte l) location value; bus := bus l |}.

(** The control lines, the byte, and the enable line up and down. *)
Definition transfer_byte (l : lcd) (rs : bool) (byte : Z) : lcd :=
  let l := update_io_ctrl_device (cache (cache l 0 rs) 1 false) in
  let l := send l LCD_PCF_DATA_ADDRESS byte in
  let l := update_io_ctrl_device (cache (cache l 0 rs) 1 true) in
  update_io_ctrl_device (cache (cache l 0 rs) 1 false).
Definition write_inst (l : lcd) (byte : Z) : lcd := transfer_byte l false byte.
Definition write_data (l : lcd) (byte : Z) : lcd := transfer_byte l true byte.

(** Positions count from 1; those of the second line follow those of the first. *)
Definition go_to (l : lcd) (x : Z) : lcd :=
  let x := if DISPLAY_TYPE <? x then u8 (u8 (x - DISPLAY_TYPE) + 64) else x in
  write_inst l (Z.lor (u8 (x - 1)) 128).

(** The length is a [size_t] of [size_bits] bits. *)
Definition go_to_centre (size_bits : Z) (l : lcd) (ptr : string) (line : Z) : lcd :=
  let half := wrap_u size_bits (DISPLAY_TYPE - strlen ptr) / 2 in
  if line =? DISPLAY_LINE_2 then go_to l (u8 (half + 1 + DISPLAY_TYPE)) else go_to l (u8 (half + 1)).

Definition init_lcd (l : lcd) : lcd :=
  let l := send {| io_ctrl_byte := 255; bus := bus l |} LCD_PCF_CTRL_ADDRESS 255 in
  let l := write_inst l 56 in
  let l := write_inst l 56 in
  let l := write_inst l 48 in
  let l := write_inst l 48 in
  let l := write_inst l 56 in
  let l := write_inst l 20 in
  let l := write_inst l 12 in
  let l := write_inst l 6 in
  write_inst l 1.

Fixpoint print_from (l : lcd) (i : Z) (ptr : string) : lcd :=
  match ptr with
  | EmptyString => l
  | String c ptr =>
      let l := write_data l (char_byte c) in
      if 16 <? i + 1 then l else print_from l (i + 1) ptr
  end.
Definition print_lcd (l : lcd) (ptr : string) : lcd := print_from l 1 ptr.

Definition clear_display_internal (l : lcd) (line : Z) : lcd :=
  if line =? DISPLAY_LINE_1 then print_lcd (go_to l 1) sixteen_blanks
  else if line =? DISPLAY_LINE_2 then print_lcd (go_to l 17) sixteen_blanks
  else if line =? DISPLAY_LINE_FULL then write_inst l 1
  else l.
Definition print_center (size_bits : Z) (l : lcd) (line : Z) (s : string) : lcd :=
  print_lcd (go_to_centre size_bits (clear_display_internal l line) s line) s.
Definition print_line (size_bits : Z) (l : lcd) (msg : string) (line : Z) (align : TEXT_ALIGNMENT) : Z * lcd :=
  (Rpc.SUCCESS,
   match align with
   | TEXT_ALIGNMENT_LEFT | TEXT_ALIGNMENT_RIGHT => print_lcd l msg
   | _ => print_center size_bits l line msg
   end).
(** It has no light; [sts] is not written by the getter. *)
Definition set_back_light (l : lcd) (sts : bool) : Z * lcd := (Rpc.SUCCESS, l).
Definition get_back_light (l : lcd) (sts : bool) : Z * bool := (Rpc.SUCCESS, sts).
Definition init_display (l : lcd) : Z * lcd := (Rpc.SUCCESS, init_lcd l).
Definition clear_display (l : lcd) : Z * lcd := (Rpc.SUCCESS, clear_display_internal l DISPLAY_LINE_FULL).
Definition new_I2CDualPcfLcd (b : I2CBusAccess W) : lcd :=
  clear_display_internal (init_lcd {| io_ctrl_byte := 255; bus := b |}) DISPLAY_LINE_FULL.

(** A text that fits goes to the middle of its line; one that does not goes nowhere. *)
Lemma dual_centre size_bits l ptr line : 8 <= size_bits -> strlen ptr <= DISPLAY_TYPE ->
  go_to_centre size_bits l ptr line =
    write_inst l (128 + (if line =? DISPLAY_LINE_2 then 64 else 0) + (DISPLAY_TYPE - strlen ptr) / 2).
Proof.
  intros Hb Hp. assert (0 <= strlen ptr) as Hlen by (unfold strlen; lia). unfold go_to_centre. unfold DISPLAY_TYPE in *.
  assert (2 ^ 8 <= 2 ^ size_bits) by (apply Z.pow_le_mono_r; lia). change (2 ^ 8) with 256 in *. rewrite (wrap_u_id size_bits) by lia.
  set (n := (16 - strlen ptr) / 2). assert (0 <= n <= 8) as Hn by (unfold n; Z.to_euclidean_division_equations; lia).
  clearbody n. assert (n ∈ seqZ 0 9) as Hin by (apply elem_of_seqZ; lia).
  change (seqZ 0 9) with [0; 1; 2; 3; 4; 5; 6; 7; 8] in Hin. rewrite !elem_of_cons, elem_of_nil in Hin.
  case_match; by destruct_or! Hin; subst.
Qed.

Lemma dual_too_long l ptr line : strlen ptr = 17 -> line <> DISPLAY_LINE_2 -> go_to_centre 64 l ptr line = write_inst l 255.
Proof. intros Hp Hl. unfold go_to_centre. rewrite Hp, (proj2 (Z.eqb_neq _ _) Hl). done. Qed.
End dual.
End Dual.
