(* ===== verification/LcdSpec.v ===== *)
(** * What stands on the display

    The display of one expander ([Lcd.Pcf]), with the controller that most of these displays
    have.  The controller and the wiring are classes with the laws of their data sheets; the
    theorems say what is on the lines after each method of the driver, whatever the display
    did before it was started, and that the driver keeps what the system manager expects of
    a [DisplayDevice]. *)
From S2P Require Import Prelude Common Text RpcMgr SysInfo Services SysRpc SysmgrRpc I2CBus Lcd.
Local Open Scope Z_scope.

(** ** The controller *)

(** [latch rs n]: the enable line falls, with the select line [rs] and the four upper data
    lines [n].  [ddram] is the memory behind the lines, [address] where the next character
    goes; [four_bit]: bytes come in two halves and the upper one is next; [increments]: the
    address moves up and the text stays. *)
Class Controller (C : Type) := {
  latch : bool -> Z -> C -> C;
  ddram : C -> Z -> Z;
  address : C -> option Z;
  four_bit : C -> Prop;
  two_lines : C -> Prop;
  increments : C -> Prop;
}.

(** A byte in two halves. *)
Definition exec {C} `{Controller C} (rs : bool) (b : Z) (c : C) : C := latch rs (b mod 16) (latch rs (b / 16) c).

Definition blank : Z := 32.
Definition next_address (a : Z) : Z := if a =? 39 then 64 else if a =? 103 then 0 else a + 1.
Definition is_address (a : Z) : Prop := 0 <= a < 40 \/ 64 <= a < 104.

Class ControllerLaws (C : Type) `{Controller C} := {
  four_bit_set (c : C) : four_bit (latch false 2 (latch false 3 (latch false 3 (latch false 3 c))));
  four_bit_stays c rs b : four_bit c -> 0 <= b < 256 -> rs = true \/ b / 16 <> 3 -> four_bit (exec rs b c);
  two_lines_set c : four_bit c -> two_lines (exec false 40 c);
  two_lines_stay c rs b : four_bit c -> two_lines c -> 0 <= b < 256 -> rs = true \/ b / 32 <> 1 -> two_lines (exec rs b c);
  increments_set c : four_bit c -> increments (exec false 6 c);
  increments_stay c rs b : four_bit c -> increments c -> 0 <= b < 256 -> rs = true \/ b / 4 <> 1 -> increments (exec rs b c);
  cleared c : four_bit c -> (forall a, is_address a -> ddram (exec false 1 c) a = blank) /\ address (exec false 1 c) = Some 0;
  memory_stays c b : four_bit c -> 1 < b < 256 -> forall a, ddram (exec false b c) a = ddram c a;
  address_set c a : four_bit c -> two_lines c -> is_address a -> address (exec false (128 + a) c) = Some a;
  written c a d : four_bit c -> two_lines c -> increments c -> address c = Some a -> is_address a -> 0 <= d < 256 ->
    (forall x, ddram (exec true d c) x = if decide (x = a) then d else ddram c x) /\
    address (exec true d c) = Some (next_address a);
}.

(** ** The wiring *)

(** The enable line is bit 2 of the expander's port, read or write bit 1, select bit 0. *)
Definition edge {C} `{Controller C} (p q : Z) (c : C) : C :=
  if Z.testbit p 2 && negb (Z.testbit q 2) && negb (Z.testbit p 1) then latch (Z.testbit p 0) (p / 16) c else c.

(** [wired addr b]: the bus works and the display is at the address. *)
Class Wiring (W C : Type) `{I2C W} `{RemoteBus W} `{Controller C} := {
  wired : Z -> I2CBusAccess W -> Prop;
  port : I2CBusAccess W -> Z;
  chip : I2CBusAccess W -> C;
  port_written addr b q : wired addr b -> 0 <= q < 256 ->
    (write_byte addr q b).1 = Rpc.SUCCESS /\ wired addr (write_byte addr q b).2 /\
    port (write_byte addr q b).2 = q /\ chip (write_byte addr q b).2 = edge (port b) q (chip b);
  nobody_there addr b q : wired addr b -> forall other, 0 <= other < 128 -> other <> addr ->
    (write_byte other q b).1 <> Rpc.SUCCESS /\ wired addr (write_byte other q b).2 /\
    port (write_byte other q b).2 = port b /\ chip (write_byte other q b).2 = chip b;
}.

(** ** The driver *)

Section pcf.
Context {W C : Type} `{I2C W} `{RemoteBus W} `{Controller C} `{!ControllerLaws C} `{!Wiring W C}.
Import Lcd.Pcf.
Abbreviation lcd := (I2CPcfLcd W).

(** Facts about bytes by looking at all of them. *)
Lemma all_bytes (P : Z -> bool) : forallb P (seqZ 0 256) = true -> forall b, 0 <= b < 256 -> P b = true.
Proof. rewrite forallb_forall. intros Hall b Hb. apply Hall, list_elem_of_In, elem_of_seqZ. lia. Qed.

(** A display between two bytes: the enable line is down, and the port shows the light. *)
Record idle (l : lcd) (c : C) : Prop := {
  id_wired : wired (LCD_PCF_ADDRESS l) (bus l);
  id_enable : Z.testbit (port (bus l)) 2 = false;
  id_light : Z.testbit (port (bus l)) 3 = BkLight l;
  id_chip : chip (bus l) = c;
}.

(** The driver's own data. *)
Definition same_driver (l l' : lcd) : Prop :=
  BkLight l' = BkLight l /\ DISPLAY_TYPE l' = DISPLAY_TYPE l /\ LCD_PCF_ADDRESS l' = LCD_PCF_ADDRESS l /\ disp_type l' = disp_type l.

Lemma same_refl l : same_driver l l.
Proof. done. Qed.
Lemma same_trans l1 l2 l3 : same_driver l1 l2 -> same_driver l2 l3 -> same_driver l1 l3.
Proof. unfold same_driver. intuition congruence. Qed.

Lemma lcd_send l q : wired (LCD_PCF_ADDRESS l) (bus l) -> 0 <= q < 256 ->
  wired (LCD_PCF_ADDRESS l) (bus (send l q)) /\ port (bus (send l q)) = q /\
  chip (bus (send l q)) = edge (port (bus l)) q (chip (bus l)) /\ same_driver l (send l q).
Proof.
  intros Hw Hq. unfold send. replace (u8 q) with q by (symmetry; by apply wrap_u_id).
  destruct (port_written (LCD_PCF_ADDRESS l) (bus l) q Hw Hq) as (_ & Hw' & Hp & Hc). done.
Qed.

(** What [strobe()] is called with: a half byte, the light and the select line. *)
Definition frame_b (x : Z) : bool :=
  implb (negb (Z.testbit x 2) && negb (Z.testbit x 1))
    ((0 <=? Z.lor x 4) && (Z.lor x 4 <? 256) && Z.testbit (Z.lor x 4) 2 && negb (Z.testbit (Z.lor x 4) 1) &&
     bool_decide (Z.testbit (Z.lor x 4) 0 = Z.testbit x 0) && (Z.lor x 4 / 16 =? x / 16) && (Z.land x (Z.lnot 4) =? x)).

Lemma frame_bytes x : 0 <= x < 256 -> Z.testbit x 2 = false -> Z.testbit x 1 = false ->
  0 <= Z.lor x 4 < 256 /\ Z.testbit (Z.lor x 4) 2 = true /\ Z.testbit (Z.lor x 4) 1 = false /\
  Z.testbit (Z.lor x 4) 0 = Z.testbit x 0 /\ Z.lor x 4 / 16 = x / 16 /\ Z.land x (Z.lnot 4) = x.
Proof.
  intros Hx H2 H1'. pose proof (all_bytes frame_b ltac:(by vm_compute) x Hx) as Hf. unfold frame_b in Hf.
  rewrite H2, H1' in Hf. cbn [negb andb implb] in Hf.
  rewrite !andb_true_iff, bool_decide_eq_true, negb_true_iff, !Z.eqb_eq, Z.leb_le, Z.ltb_lt in Hf. naive_solver.
Qed.

Lemma strobe_spec l x c : wired (LCD_PCF_ADDRESS l) (bus l) -> chip (bus l) = c ->
  0 <= x < 256 -> Z.testbit x 2 = false -> Z.testbit x 1 = false -> Z.testbit x 3 = BkLight l ->
  idle (strobe l x) (latch (Z.testbit x 0) (x / 16) c) /\ same_driver l (strobe l x).
Proof.
  intros Hw Hc Hx B2 B1 B3. destruct (frame_bytes x Hx B2 B1) as (F1 & F2 & F3 & F4 & F5 & F6). unfold strobe.
  change LCD_EN with 4. rewrite F6.
  destruct (lcd_send l (Z.lor x 4) Hw F1) as (W1 & P1 & C1 & S1).
  set (l1 := send l (Z.lor x 4)) in *. replace (LCD_PCF_ADDRESS l) with (LCD_PCF_ADDRESS l1) in W1 by apply S1.
  destruct (lcd_send l1 x W1 Hx) as (W2 & P2 & C2 & S2). set (l2 := send l1 x) in *.
  assert (same_driver l l2) as S3 by (by eapply same_trans). split; [|done].
  destruct S3 as (E1 & _ & E3 & _). split.
  - by replace (LCD_PCF_ADDRESS l2) with (LCD_PCF_ADDRESS l1) by apply S2.
  - by rewrite P2.
  - rewrite P2, B3. by rewrite E1.
  - rewrite C2, P1, C1. unfold edge at 1. rewrite F2, B2, F3, F4, F5. cbn [negb andb].
    unfold edge. by rewrite F2, andb_false_r, Hc.
Qed.

(** The two frames of a byte. *)
Definition halves_b (light rs : bool) (d : Z) : bool :=
  let frame x n := (0 <=? x) && (x <? 256) && negb (Z.testbit x 2) && negb (Z.testbit x 1) &&
    Bool.eqb (Z.testbit x 3) light && Bool.eqb (Z.testbit x 0) rs && (x / 16 =? n) in
  let dress x := let x := if rs then Z.lor x LCD_RS else x in if light then Z.lor x LCD_BL else x in
  frame (dress (HI_NIBBLE d)) (d / 16) && frame (dress (LO_NIBBLE d)) (d mod 16).

Lemma halves light rs d : 0 <= d < 256 -> halves_b light rs d = true.
Proof.
  apply (all_bytes (halves_b light rs)). by destruct light, rs; vm_compute.
Qed.

Definition frame (light rs : bool) (x n : Z) : Prop :=
  0 <= x < 256 /\ Z.testbit x 2 = false /\ Z.testbit x 1 = false /\ Z.testbit x 3 = light /\ Z.testbit x 0 = rs /\ x / 16 = n.

Lemma byte_frames (l : lcd) rs d : 0 <= d < 256 ->
  frame (BkLight l) rs (lit l (if rs then Z.lor (HI_NIBBLE d) LCD_RS else HI_NIBBLE d)) (d / 16) /\
  frame (BkLight l) rs (lit l (if rs then Z.lor (LO_NIBBLE d) LCD_RS else LO_NIBBLE d)) (d mod 16).
Proof.
  intros Hd. pose proof (halves (BkLight l) rs d Hd) as Hh. unfold halves_b in Hh. cbv zeta in Hh.
  rewrite !andb_true_iff, !negb_true_iff, !Bool.eqb_true_iff, !Z.eqb_eq, !Z.leb_le, !Z.ltb_lt in Hh. unfold frame, lit. naive_solver.
Qed.

Lemma strobe_frame l rs x n c : wired (LCD_PCF_ADDRESS l) (bus l) -> chip (bus l) = c -> frame (BkLight l) rs x n ->
  idle (strobe l x) (latch rs n c) /\ same_driver l (strobe l x).
Proof. intros Hw Hc (Hx & B2 & B1 & B3 & <- & <-). by apply strobe_spec. Qed.

(** A byte goes to the controller in two halves. *)
Lemma inst_spec l d c : idle l c -> 0 <= d < 256 ->
  idle (write_inst l d 1) (exec false d c) /\ same_driver l (write_inst l d 1).
Proof.
  intros [Hw _ _ Hc] Hd. destruct (byte_frames l false d Hd) as [F1 F2].
  destruct (strobe_frame l false _ _ c Hw Hc F1) as [[W1 _ _ C1] S1]. unfold write_inst. cbn [Z.eqb].
  set (l1 := strobe l _) in *. assert (lit l1 = lit l) as El by (unfold lit; by rewrite (proj1 S1)). rewrite El.
  rewrite <- (proj1 S1) in F2. destruct (strobe_frame l1 false _ _ _ W1 C1 F2) as [I2 S2].
  split; [done|]. by eapply same_trans.
Qed.

Lemma data_spec l d c : idle l c -> 0 <= d < 256 ->
  idle (write_data l d) (exec true d c) /\ same_driver l (write_data l d).
Proof.
  intros [Hw _ _ Hc] Hd. destruct (byte_frames l true d Hd) as [F1 F2].
  destruct (strobe_frame l true _ _ c Hw Hc F1) as [[W1 _ _ C1] S1]. unfold write_data.
  set (l1 := strobe l _) in *. assert (lit l1 = lit l) as El by (unfold lit; by rewrite (proj1 S1)). rewrite El.
  rewrite <- (proj1 S1) in F2. destruct (strobe_frame l1 true _ _ _ W1 C1 F2) as [I2 S2].
  split; [done|]. by eapply same_trans.
Qed.

(** The four half bytes of [init_lcd()]. *)
Lemma half_spec l d c : wired (LCD_PCF_ADDRESS l) (bus l) -> chip (bus l) = c -> 0 <= d < 256 ->
  idle (write_inst l d 0) (latch false (d / 16) c) /\ same_driver l (write_inst l d 0).
Proof. intros Hw Hc Hd. apply strobe_frame; [done..|]. by destruct (byte_frames l false d Hd). Qed.

(** *** A display that is on, and what its memory holds *)

Record on (l : lcd) (m : Z -> Z) : Prop := {
  on_idle : idle l (chip (bus l));
  on_four : four_bit (chip (bus l));
  on_two : two_lines (chip (bus l));
  on_moves : increments (chip (bus l));
  on_width : DISPLAY_TYPE l = 16 \/ DISPLAY_TYPE l = 20;
  on_cells : forall a, is_address a -> ddram (chip (bus l)) a = m a;
}.
Definition cursor (l : lcd) : option Z := address (chip (bus l)).

Lemma on_ext l m m' : on l m -> (forall a, is_address a -> m a = m' a) -> on l m'.
Proof. intros [] Hm. split; [done..|]. intros a Ha. rewrite <- Hm; auto. Qed.

Lemma on_driver l l' m c : same_driver l l' -> idle l' c -> four_bit c -> two_lines c -> increments c ->
  DISPLAY_TYPE l = 16 \/ DISPLAY_TYPE l = 20 -> (forall a, is_address a -> ddram c a = m a) -> on l' m /\ cursor l' = address c.
Proof.
  intros Hs Hi H4 H2 Hinc Hw Hm. pose proof (id_chip _ _ Hi) as Hc. unfold cursor. rewrite Hc. split; [|done].
  split; rewrite ?Hc; try done. by rewrite (proj1 (proj2 Hs)).
Qed.

Definition line_start (line : Z) : Z := if line =? 0 then 0 else if line =? 1 then 64 else if line =? 2 then 20 else 84.

(** A place on the line is an address. *)
Lemma place_address line col : 0 <= line < 4 -> 0 <= col < 20 -> is_address (line_start line + col).
Proof.
  intros Hl Hc. unfold is_address, line_start. destruct (Z.eqb_spec line 0), (Z.eqb_spec line 1), (Z.eqb_spec line 2); lia.
Qed.

Definition line_code (row : Z) : Z :=
  if row =? 1 then LCD_LINE1 else if row =? 2 then LCD_LINE2 else if row =? 3 then LCD_LINE3
  else if row =? 4 then LCD_LINE4 else LCD_LINE1.

Lemma line_code_start line : 0 <= line < 4 -> line_code (line + 1) = 128 + line_start line.
Proof.
  intros Hl. assert (line = 0 \/ line = 1 \/ line = 2 \/ line = 3) as Hcases by lia. by destruct_or! Hcases; subst.
Qed.

Lemma goto_spec l m line col : on l m -> 0 <= line < 4 -> 1 <= col <= DISPLAY_TYPE l ->
  on (LCD_goto l (line + 1) col) m /\ cursor (LCD_goto l (line + 1) col) = Some (line_start line + (col - 1)) /\
  same_driver l (LCD_goto l (line + 1) col).
Proof.
  intros [Hi H4 H2' Hinc Hw Hm] Hl Hc. assert (0 <= col - 1 < 20) as Hc' by lia.
  pose proof (place_address line (col - 1) Hl Hc') as Ha. set (a := line_start line + (col - 1)) in *.
  assert (LCD_goto l (line + 1) col = write_inst l (128 + a) 1) as ->.
  { unfold LCD_goto. fold (line_code (line + 1)). cbv zeta. f_equal. rewrite line_code_start by done.
    rewrite (wrap_u_id 8 col) by (change (2 ^ 8) with 256; lia). unfold a.
    rewrite wrap_u_id by (change (2 ^ 8) with 256; unfold is_address, a in Ha; lia). lia. }
  assert (0 <= 128 + a < 256) as Hb by (unfold is_address in Ha; lia).
  destruct (inst_spec l (128 + a) _ Hi Hb) as [Hi' Hs].
  destruct (on_driver l _ m _ Hs Hi') as [Hon Hcur].
  - apply four_bit_stays; [done..|]. right. assert (8 <= (128 + a) / 16) by (apply Z.div_le_lower_bound; unfold is_address in Ha; lia). lia.
  - apply two_lines_stay; [done..|]. right. assert (4 <= (128 + a) / 32) by (apply Z.div_le_lower_bound; unfold is_address in Ha; lia). lia.
  - apply increments_stay; [done..|]. right. assert (32 <= (128 + a) / 4) by (apply Z.div_le_lower_bound; unfold is_address in Ha; lia). lia.
  - done.
  - intros x Hx. rewrite memory_stays; [by apply Hm|done|]. unfold is_address in Ha. lia.
  - split; [done|]. split; [|done]. rewrite Hcur. by apply address_set.
Qed.

(** *** Text *)

(** Text from an address on, over what was there. *)
Definition put (a : Z) (t : string) (m : Z -> Z) (x : Z) : Z :=
  if x <? a then m x else match String.get (Z.to_nat (x - a)) t with Some c => char_byte c | None => m x end.

Lemma put_empty a m x : put a EmptyString m x = m x.
Proof. unfold put. case_match; [done|]. by destruct (Z.to_nat (x - a)). Qed.

Lemma truncate_empty n : truncate n EmptyString = EmptyString.
Proof. by destruct n. Qed.

Lemma truncate_zero s : truncate 0 s = EmptyString.
Proof. by destruct s. Qed.

Lemma truncate_cons n c t : truncate (S n) (String c t) = String c (truncate n t).
Proof. done. Qed.

Lemma put_cons a c t m x : put a (String c t) m x = put (a + 1) t (fun y => if decide (y = a) then char_byte c else m y) x.
Proof.
  unfold put. destruct (Z.ltb_spec x a), (Z.ltb_spec x (a + 1)); try lia.
  - by rewrite decide_False by lia.
  - replace x with a by lia. rewrite Z.sub_diag, decide_True by done. done.
  - replace (Z.to_nat (x - a)) with (S (Z.to_nat (x - (a + 1)))) by lia. cbn. rewrite decide_False by lia. done.
Qed.

Lemma char_range c : 0 <= char_byte c < 256.
Proof. unfold char_byte. pose proof (N_ascii_bounded c). lia. Qed.

Definition room (a n : Z) : Prop := 0 <= a /\ a + n <= 40 \/ 64 <= a /\ a + n <= 104.

Lemma write_char l m a c : on l m -> cursor l = Some a -> is_address a ->
  on (write_data l (char_byte c)) (fun y => if decide (y = a) then char_byte c else m y) /\
  cursor (write_data l (char_byte c)) = Some (next_address a) /\ same_driver l (write_data l (char_byte c)).
Proof.
  intros [Hi H4 H2' Hinc Hw Hm] Hc Ha. pose proof (char_range c) as Hr. destruct (data_spec l (char_byte c) _ Hi Hr) as [Hi' Hs].
  destruct (written (chip (bus l)) a (char_byte c) H4 H2' Hinc Hc Ha Hr) as [Hmem Hadr].
  destruct (on_driver l _ (fun y => if decide (y = a) then char_byte c else m y) _ Hs Hi') as [Hon Hcur].
  - apply four_bit_stays; auto.
  - apply two_lines_stay; auto.
  - apply increments_stay; auto.
  - done.
  - intros x Hx. rewrite Hmem. case_decide; [done|]. by apply Hm.
  - split; [done|]. split; [by rewrite Hcur|done].
Qed.

Lemma print_from_spec t l i a m : on l m -> cursor l = Some a -> 1 <= i <= DISPLAY_TYPE l ->
  room a (Z.min (strlen t) (DISPLAY_TYPE l + 1 - i)) ->
  on (print_from l i t) (put a (truncate (Z.to_nat (DISPLAY_TYPE l + 1 - i)) t) m) /\ same_driver l (print_from l i t).
Proof.
  revert l i a m. induction t as [|c t IH]; intros l i a m Hon Hcur Hi Hroom.
  - split; [|done]. cbn [print_from]. rewrite truncate_empty.
    eapply on_ext; [exact Hon|]. intros x _. by rewrite put_empty.
  - unfold strlen in Hroom. cbn [String.length print_from] in *.
    destruct (write_char l m a c Hon Hcur) as (Hon' & Hcur' & Hs); [unfold is_address; unfold room in Hroom; lia|].
    set (l1 := write_data l (char_byte c)) in *. pose proof (proj1 (proj2 Hs)) as Hw. rewrite Hw.
    destruct (Z.ltb_spec (DISPLAY_TYPE l) (i + 1)).
    + split; [|done]. replace (Z.to_nat (DISPLAY_TYPE l + 1 - i)) with 1%nat by lia. rewrite truncate_cons, truncate_zero.
      eapply on_ext; [exact Hon'|]. intros x _. by rewrite put_cons, put_empty.
    + replace (Z.to_nat (DISPLAY_TYPE l + 1 - i)) with (S (Z.to_nat (DISPLAY_TYPE l1 + 1 - (i + 1)))) by lia.
      rewrite truncate_cons.
      destruct t as [|c' t].
      * split; [|done]. cbn [print_from]. rewrite truncate_empty.
        eapply on_ext; [exact Hon'|]. intros x _. by rewrite put_cons, put_empty.
      * cbn [String.length] in Hroom. destruct (IH l1 (i + 1) (a + 1) _ Hon') as [Hon2 Hs2].
        -- rewrite Hcur'. f_equal. unfold next_address, room in *. repeat case_match; lia.
        -- lia.
        -- unfold strlen. cbn [String.length]. unfold room in *. lia.
        -- split; [|by eapply same_trans]. eapply on_ext; [exact Hon2|]. intros x _. by rewrite put_cons.
Qed.

Lemma get_none t n : (String.length t <= n)%nat -> String.get n t = None.
Proof. revert n. induction t as [|c t IH]; intros n Hn; [done|]. destruct n as [|n]; cbn in *; [lia|]. apply IH. lia. Qed.

Lemma put_outside a t m x : x < a \/ a + strlen t <= x -> put a t m x = m x.
Proof.
  intros Hx. unfold put. destruct (Z.ltb_spec x a); [done|]. rewrite get_none; [done|]. unfold strlen in Hx. lia.
Qed.

Lemma put_shift s a t m x : put (s + a) t m (s + x) = put a t (fun y => m (s + y)) x.
Proof.
  unfold put. replace (s + x - (s + a)) with (x - a) by lia. by destruct (Z.ltb_spec (s + x) (s + a)), (Z.ltb_spec x a); try lia.
Qed.

Lemma put_ext a t m m' x : m x = m' x -> put a t m x = put a t m' x.
Proof. intros Hm. unfold put. by rewrite Hm. Qed.

Lemma blanks_get n : (n < 16)%nat -> String.get n sixteen_blanks = Some " "%char.
Proof. intros Hn. do 16 (destruct n as [|n]; [done|]). lia. Qed.

Lemma put_blanks m x : 0 <= x -> put 0 sixteen_blanks m x = if x <? 16 then blank else m x.
Proof.
  intros Hx. destruct (Z.ltb_spec x 16).
  - unfold put. destruct (Z.ltb_spec x 0); [lia|]. by rewrite blanks_get by lia.
  - apply put_outside. right. change (strlen sixteen_blanks) with 16. lia.
Qed.

Lemma strlen_truncate n s : strlen (truncate n s) = Z.min (Z.of_nat n) (strlen s).
Proof. unfold strlen. rewrite truncate_length. lia. Qed.

(** Text on a line, from a column on. *)
Lemma print_at l m line col msg : on l m -> 0 <= line < 4 -> 0 <= col < DISPLAY_TYPE l ->
  col + Z.min (strlen msg) (DISPLAY_TYPE l) <= DISPLAY_TYPE l ->
  on (print_lcd (LCD_goto l (line + 1) (col + 1)) msg)
    (put (line_start line + col) (truncate (Z.to_nat (DISPLAY_TYPE l)) msg) m) /\
  same_driver l (print_lcd (LCD_goto l (line + 1) (col + 1)) msg).
Proof.
  intros Hon Hl Hc Hfit. destruct (goto_spec l m line (col + 1) Hon Hl) as (Hon1 & Hcur & Hs1); [lia|].
  set (l1 := LCD_goto l (line + 1) (col + 1)) in *. destruct Hs1 as (S1 & S2 & S3 & S4).
  replace (line_start line + (col + 1 - 1)) with (line_start line + col) in Hcur by lia.
  destruct (on_width _ _ Hon1) as [E|E]; rewrite S2 in E;
    (destruct (print_from_spec msg l1 1 (line_start line + col) m Hon1 Hcur) as [Hon2 Hs2];
     [lia|rewrite S2, E in *; unfold room, line_start, strlen in *;
      destruct (Z.eqb_spec line 0), (Z.eqb_spec line 1), (Z.eqb_spec line 2); lia|]);
    rewrite S2, Z.add_simpl_r in Hon2; split; [done|by eapply same_trans|done|by eapply same_trans].
Qed.

(** ** What the methods do *)

(** Where a text starts on a line, and what was under it. *)
Definition start_of (w : Z) (align : TEXT_ALIGNMENT) (t : string) : Z :=
  match align with
  | TEXT_ALIGNMENT_LEFT => 0
  | TEXT_ALIGNMENT_RIGHT => w - strlen t
  | _ => (w - strlen t) / 2
  end.
Definition under (align : TEXT_ALIGNMENT) (old : Z -> Z) (col : Z) : Z :=
  match align with
  | TEXT_ALIGNMENT_LEFT | TEXT_ALIGNMENT_RIGHT => old col
  | _ => if col <? 16 then blank else old col
  end.
Definition line_after (w : Z) (align : TEXT_ALIGNMENT) (msg : string) (old : Z -> Z) : Z -> Z :=
  let t := truncate (Z.to_nat w) msg in put (start_of w align t) t (under align old).

(** The column [col] of a line. *)
Definition cell (m : Z -> Z) (line col : Z) : Z := m (line_start line + col).

Lemma lines_apart line n w col a t : 0 <= line < 4 -> 0 <= n < 4 -> n <> line -> w = 16 \/ w = 20 -> 0 <= col < w ->
  0 <= a -> a + strlen t <= w -> forall m, put (line_start line + a) t m (line_start n + col) = m (line_start n + col).
Proof.
  intros Hl Hn Hne Hw Hc Ha Ht m. apply put_outside. unfold line_start.
  destruct (Z.eqb_spec line 0), (Z.eqb_spec line 1), (Z.eqb_spec line 2), (Z.eqb_spec n 0), (Z.eqb_spec n 1), (Z.eqb_spec n 2); lia.
Qed.

Lemma line_number line : 0 <= line < 4 ->
  (if line =? DISPLAY_LINE_1 then 1 else if line =? DISPLAY_LINE_2 then 2 else if line =? DISPLAY_LINE_3 then 3
   else if line =? DISPLAY_LINE_4 then 4 else 1) = line + 1.
Proof.
  intros Hl. assert (line = 0 \/ line = 1 \/ line = 2 \/ line = 3) as Hcases by lia. by destruct_or! Hcases; subst.
Qed.

Lemma clear_line_is l line : 0 <= line < 4 ->
  clear_display_internal l line = print_lcd (LCD_goto l (line + 1) (0 + 1)) sixteen_blanks.
Proof.
  intros Hl. assert (line = 0 \/ line = 1 \/ line = 2 \/ line = 3) as Hcases by lia. by destruct_or! Hcases; subst.
Qed.

Lemma goto_line_is l line indx : 0 <= line < 4 ->
  (if line =? DISPLAY_LINE_1 then LCD_goto l 1 indx else if line =? DISPLAY_LINE_2 then LCD_goto l 2 indx
   else if line =? DISPLAY_LINE_3 then LCD_goto l 3 indx else if line =? DISPLAY_LINE_4 then LCD_goto l 4 indx else l) =
  LCD_goto l (line + 1) indx.
Proof.
  intros Hl. assert (line = 0 \/ line = 1 \/ line = 2 \/ line = 3) as Hcases by lia. by destruct_or! Hcases; subst.
Qed.

Lemma min_len w msg : (if w <? strlen msg then w else strlen msg) = Z.min (strlen msg) w.
Proof. destruct (Z.ltb_spec w (strlen msg)); lia. Qed.

(** One line changes, as [line_after] says; the other lines stay. *)
Definition line_shown (l l' : lcd) (m m' : Z -> Z) (line : Z) (align : TEXT_ALIGNMENT) (msg : string) : Prop :=
  on l' m' /\ same_driver l l' /\
  forall n col, 0 <= n < 4 -> 0 <= col < DISPLAY_TYPE l ->
    cell m' n col = if decide (n = line) then line_after (DISPLAY_TYPE l) align msg (cell m line) col else cell m n col.

Lemma width_bounds l m : on l m -> 16 <= DISPLAY_TYPE l <= 20.
Proof. intros Hon. destruct (on_width _ _ Hon) as [-> | ->]; lia. Qed.

Lemma text_length w msg : 0 <= w -> strlen (truncate (Z.to_nat w) msg) = Z.min (strlen msg) w.
Proof. intros Hw. rewrite strlen_truncate. lia. Qed.

(** Printing at a column shows the line, when the line held [m] with [u] under the text. *)
Lemma shown_at l l' m u line align msg : on l m -> 0 <= line < 4 ->
  let w := DISPLAY_TYPE l in let t := truncate (Z.to_nat w) msg in
  0 <= start_of w align t -> start_of w align t + strlen t <= w ->
  on l' (put (line_start line + start_of w align t) t u) -> same_driver l l' ->
  (forall n col, 0 <= n < 4 -> 0 <= col < w -> cell u n col = if decide (n = line) then under align (cell m line) col else cell m n col) ->
  line_shown l l' m (put (line_start line + start_of w align t) t u) line align msg.
Proof.
  intros Hon Hl w t Hs Hfit Hon' Hsame Hu. split; [done|]. split; [done|]. intros n col Hn Hc. unfold cell at 1.
  pose proof (Hu n col Hn Hc) as Hcell. unfold cell at 1 in Hcell. case_decide as E.
  - subst n. rewrite put_shift. unfold line_after. fold w t. by apply put_ext.
  - destruct (on_width _ _ Hon) as [Hw|Hw]; rewrite (lines_apart line n w); unfold w in *; auto; lia.
Qed.

Lemma center_shown l m msg line : on l m -> 0 <= line < 4 ->
  exists m', line_shown l (print_center l line msg) m m' line TEXT_ALIGNMENT_CENTER msg.
Proof.
  intros Hon Hl. pose proof (width_bounds _ _ Hon) as Hw. set (w := DISPLAY_TYPE l) in *.
  pose proof (text_length w msg ltac:(lia)) as Ht. assert (0 <= strlen msg) as Hlen by (unfold strlen; lia).
  unfold print_center. rewrite clear_line_is by done. cbv zeta. rewrite goto_line_is by done. fold w. rewrite min_len.
  destruct (print_at l m line 0 sixteen_blanks Hon Hl) as [Hon1 Hs1]; fold w; [lia|change (strlen sixteen_blanks) with 16; lia|].
  fold w in Hon1. rewrite truncate_ge in Hon1 by (cbn; lia). set (l1 := print_lcd _ sixteen_blanks) in *.
  pose proof (proj1 (proj2 Hs1)) as Ew. fold w in Ew. rewrite Z.quot_div_nonneg, <- Ht by lia.
  set (col := (w - strlen (truncate (Z.to_nat w) msg)) / 2).
  assert (0 <= col < w /\ col + Z.min (strlen msg) w <= w) as [Hc Hf] by (unfold col; Z.to_euclidean_division_equations; lia).
  destruct (print_at l1 _ line col msg Hon1 Hl) as [Hon2 Hs2]; rewrite ?Ew; [done|done|]. rewrite Ew in Hon2.
  eexists. eapply (shown_at l _ m (put (line_start line + 0) sixteen_blanks m) line TEXT_ALIGNMENT_CENTER msg Hon Hl);
    fold w; cbn [start_of]; fold col; [lia|lia|exact Hon2|by eapply same_trans|].
  intros n col' Hn Hc'. unfold cell, under. case_decide as E.
  - subst n. by rewrite put_shift, put_blanks by lia.
  - destruct (on_width _ _ Hon) as [Ew'|Ew']; apply (lines_apart line n w); unfold w; auto;
      change (strlen sixteen_blanks) with 16; lia.
Qed.

Lemma print_shown l m msg line align : on l m -> 0 <= line < 4 -> (align = TEXT_ALIGNMENT_RIGHT -> msg <> EmptyString) ->
  exists m', line_shown l (print_line l msg line align).2 m m' line align msg.
Proof.
  intros Hon Hl Hne. destruct (center_shown l m msg line Hon Hl) as [mc Hmc].
  pose proof (width_bounds _ _ Hon) as Hw. unfold print_line. cbn [snd]. rewrite line_number by done.
  set (w := DISPLAY_TYPE l) in *. rewrite min_len. pose proof (text_length w msg ltac:(lia)) as Ht.
  assert (0 <= strlen msg) as Hlen by (unfold strlen; lia).
  assert (forall n col, cell m n col = if decide (n = line) then cell m line col else cell m n col) as Hsame.
  { intros n col. case_decide; [by subst|done]. }
  destruct align; [| |by exists mc..].
  - destruct (print_at l m line 0 msg Hon Hl) as [Hon1 Hs1]; fold w; [lia|lia|]. eexists.
    apply (shown_at l _ m m line TEXT_ALIGNMENT_LEFT msg Hon Hl); fold w; cbn [start_of under];
      [lia|lia|exact Hon1|done|intros; apply Hsame].
  - assert (0 < strlen msg) as Hpos by (destruct msg; [by destruct Hne|unfold strlen; cbn; lia]).
    destruct (print_at l m line (w - Z.min (strlen msg) w) msg Hon Hl) as [Hon1 Hs1]; fold w; [lia|lia|].
    eexists. apply (shown_at l _ m m line TEXT_ALIGNMENT_RIGHT msg Hon Hl); fold w; cbn [start_of under]; rewrite ?Ht;
      [lia|lia|exact Hon1|done|intros; apply Hsame].
Qed.

(** *** Starting, clearing, the light *)

Lemma clear_spec l m : on l m ->
  on (clear_display_internal l DISPLAY_LINE_FULL) (fun _ => blank) /\ cursor (clear_display_internal l DISPLAY_LINE_FULL) = Some 0 /\
  same_driver l (clear_display_internal l DISPLAY_LINE_FULL).
Proof.
  intros [Hi H4 H2' Hinc Hw Hm]. change (clear_display_internal l DISPLAY_LINE_FULL) with (write_inst l 1 1).
  destruct (inst_spec l 1 _ Hi) as [Hi' Hs]; [lia|]. destruct (cleared (chip (bus l)) H4) as [Hc Ha].
  destruct (on_driver l _ (fun _ => blank) _ Hs Hi') as [Hon Hcur]; try done.
  - apply four_bit_stays; [done|lia|by right].
  - apply two_lines_stay; [done|done|lia|by right].
  - apply increments_stay; [done|done|lia|by right].
  - split; [done|]. split; [by rewrite Hcur|done].
Qed.

Lemma sync_spec l : wired (LCD_PCF_ADDRESS l) (bus l) -> exists c,
  let l' := write_inst (write_inst (write_inst (write_inst (send (with_ctrl l 255) 255) 48 0) 48 0) 48 0) 32 0 in
  idle l' c /\ four_bit c /\ same_driver l l'.
Proof.
  intros Hw. destruct (lcd_send (with_ctrl l 255) 255 Hw) as (W0 & _ & _ & S0); [lia|].
  set (l0 := send (with_ctrl l 255) 255) in *.
  replace (LCD_PCF_ADDRESS (with_ctrl l 255)) with (LCD_PCF_ADDRESS l0) in W0 by apply S0.
  destruct (half_spec l0 48 _ W0 eq_refl) as [[W1 _ _ C1] S1]; [lia|].
  destruct (half_spec _ 48 _ W1 C1) as [[W2 _ _ C2] S2]; [lia|].
  destruct (half_spec _ 48 _ W2 C2) as [[W3 _ _ C3] S3]; [lia|].
  destruct (half_spec _ 32 _ W3 C3) as [I4 S4]; [lia|].
  eexists. cbv zeta. split; [exact I4|]. split; [apply four_bit_set|].
  by eapply same_trans; [eapply same_trans; [eapply same_trans; [eapply same_trans; [exact S0|exact S1]|exact S2]|exact S3]|].
Qed.

Lemma init_spec l : wired (LCD_PCF_ADDRESS l) (bus l) -> DISPLAY_TYPE l = 16 \/ DISPLAY_TYPE l = 20 ->
  on (init_lcd l) (fun _ => blank) /\ same_driver l (init_lcd l).
Proof.
  intros Hw Ht. destruct (sync_spec l Hw) as (c & Hi & H4 & Hs). unfold init_lcd. change (io_ctrl_byte (with_ctrl l 255)) with 255.
  cbv zeta. set (l5 := write_inst (write_inst _ 48 0) 32 0) in *.
  destruct (inst_spec l5 40 c Hi) as [I1 S1]; [lia|]. assert (four_bit (exec false 40 c)) as F1 by (apply four_bit_stays; [done|lia|by right]).
  pose proof (two_lines_set c H4) as T1. destruct (inst_spec _ 8 _ I1) as [I2 S2]; [lia|].
  assert (four_bit (exec false 8 (exec false 40 c))) as F2 by (apply four_bit_stays; [done|lia|by right]).
  assert (two_lines (exec false 8 (exec false 40 c))) as T2 by (apply two_lines_stay; [done|done|lia|by right]).
  set (c2 := exec false 8 _) in *. destruct (inst_spec _ 1 _ I2) as [I3 S3]; [lia|].
  assert (four_bit (exec false 1 c2)) as F3 by (apply four_bit_stays; [done|lia|by right]).
  assert (two_lines (exec false 1 c2)) as T3 by (apply two_lines_stay; [done|done|lia|by right]).
  destruct (cleared c2 F2) as [M3 _]. set (c3 := exec false 1 c2) in *. destruct (inst_spec _ 6 _ I3) as [I4 S4]; [lia|].
  assert (four_bit (exec false 6 c3)) as F4 by (apply four_bit_stays; [done|lia|by right]).
  assert (two_lines (exec false 6 c3)) as T4 by (apply two_lines_stay; [done|done|lia|by right]).
  pose proof (increments_set c3 F3) as N4. pose proof (memory_stays c3 6 F3 ltac:(lia)) as M4.
  set (c4 := exec false 6 c3) in *. destruct (inst_spec _ 12 _ I4) as [I5 S5]; [lia|].
  set (l6 := write_inst _ 12 1) in *.
  assert (same_driver l l6) as Hsame by (eapply same_trans; [|exact S5]; eapply same_trans; [|exact S4];
    eapply same_trans; [|exact S3]; eapply same_trans; [|exact S2]; eapply same_trans; [exact Hs|exact S1]).
  split; [|done]. apply (on_driver l l6 _ _ Hsame I5).
  - apply four_bit_stays; [done|lia|by right].
  - apply two_lines_stay; [done|done|lia|by right].
  - apply increments_stay; [done|done|lia|by right].
  - done.
  - intros a Ha. rewrite memory_stays by (done || lia). rewrite M4. by apply M3.
Qed.

Lemma light_spec l m sts : on l m ->
  on (set_back_light l sts).2 m /\ BkLight (set_back_light l sts).2 = sts /\ DISPLAY_TYPE (set_back_light l sts).2 = DISPLAY_TYPE l.
Proof.
  intros [[Hw He _ Hc] H4 H2' Hinc Ht Hm]. unfold set_back_light. cbn [snd].
  set (q := if sts then Z.lor (HI_NIBBLE 0) LCD_BL else HI_NIBBLE 0).
  assert (0 <= q < 256 /\ Z.testbit q 2 = false /\ Z.testbit q 3 = sts) as (Hq & Q2 & Q3) by (by destruct sts).
  destruct (lcd_send (with_light l sts) q Hw Hq) as (W1 & P1 & C1 & S1). destruct S1 as (E1 & E2 & E3 & E4).
  set (l1 := send (with_light l sts) q) in *. change (bus (with_light l sts)) with (bus l) in C1.
  unfold edge in C1. rewrite He in C1. cbn [andb] in C1. split; [|done].
  split; rewrite ?C1, ?E2; try done. split; [by rewrite E3|by rewrite P1|by rewrite P1, Q3, E1|done].
Qed.

(** ** The screen *)

(** What a program thinks of: lines of characters, and a light. *)
Record screen := { width : Z; text : Z -> Z -> Z; light : bool }.
Inductive display_op :=
| InitDisplay | ClearDisplay | PrintLine (msg : string) (line : Z) (align : TEXT_ALIGNMENT) | SetBackLight (sts : bool).

Definition on_screen (s : screen) (o : display_op) : screen :=
  match o with
  | InitDisplay | ClearDisplay => {| width := width s; text := fun _ _ => blank; light := light s |}
  | PrintLine msg line align =>
      {| width := width s; light := light s;
         text := fun n => if decide (n = line) then line_after (width s) align msg (text s line) else text s n |}
  | SetBackLight sts => {| width := width s; text := text s; light := sts |}
  end.

Definition perform (l : lcd) (o : display_op) : Z * lcd :=
  match o with
  | InitDisplay => init_display l
  | ClearDisplay => clear_display l
  | PrintLine msg line align => print_line l msg line align
  | SetBackLight sts => set_back_light l sts
  end.

(** The lines there are; an empty text has no place at the right. *)
Definition sensible (o : display_op) : Prop :=
  match o with
  | PrintLine msg line align => 0 <= line < 4 /\ (align = TEXT_ALIGNMENT_RIGHT -> msg <> EmptyString)
  | _ => True
  end.

(** The display shows the screen. *)
Definition shows (l : lcd) (s : screen) : Prop :=
  exists m, on l m /\ DISPLAY_TYPE l = width s /\ BkLight l = light s /\
    forall n col, 0 <= n < 4 -> 0 <= col < width s -> cell m n col = text s n col.

Lemma line_after_ext w align msg old old' col : old col = old' col -> line_after w align msg old col = line_after w align msg old' col.
Proof. intros E. unfold line_after. apply put_ext. unfold under. by destruct align; rewrite E. Qed.

Lemma perform_shows l s o : shows l s -> sensible o -> (perform l o).1 = Rpc.SUCCESS /\ shows (perform l o).2 (on_screen s o).
Proof.
  intros (m & Hon & Hw & Hli & Hc) Ho. destruct o as [| |msg line align|sts]; (split; [done|]); cbn [perform on_screen].
  - destruct (init_spec l) as [Hon' (E1 & E2 & _)]; [apply Hon|apply Hon|]. cbn [init_display snd]. exists (fun _ => blank).
    cbn [width light text]. split; [done|]. split; [congruence|]. split; [congruence|done].
  - destruct (clear_spec l m Hon) as (Hon' & _ & E1 & E2 & _). cbn [clear_display snd]. exists (fun _ => blank).
    cbn [width light text]. split; [done|]. split; [congruence|]. split; [congruence|done].
  - destruct Ho as [Hl Hne]. destruct (print_shown l m msg line align Hon Hl Hne) as (m' & Hon' & (E1 & E2 & _) & Hcell).
    exists m'. cbn [width light text]. split; [done|]. split; [congruence|]. split; [congruence|]. intros n col Hn Hcol.
    rewrite Hw in Hcell. rewrite Hcell by done. case_decide as E; [|by apply Hc]. subst n.
    apply line_after_ext. by apply Hc.
  - destruct (light_spec l m sts Hon) as (Hon' & E1 & E2). exists m. cbn [width light text]. split; [done|].
    split; [congruence|]. split; [done|]. intros n col. apply Hc.
Qed.

Fixpoint perform_all (l : lcd) (ops : list display_op) : list Z * lcd :=
  match ops with
  | [] => ([], l)
  | o :: ops => let '(r, l) := perform l o in let '(rs, l) := perform_all l ops in (r :: rs, l)
  end.

Lemma perform_all_shows ops l s : shows l s -> Forall sensible ops ->
  Forall (fun r => r = Rpc.SUCCESS) (perform_all l ops).1 /\ shows (perform_all l ops).2 (foldl on_screen s ops).
Proof.
  revert l s. induction ops as [|o ops IH]; intros l s Hs Hops; [done|]. apply Forall_cons in Hops as [Ho Hops].
  cbn. destruct (perform_shows l s o Hs Ho) as [Hr Hs']. destruct (perform l o) as [r l']. cbn in Hr, Hs'.
  destruct (IH l' _ Hs' Hops) as [Hrs Hs2]. destruct (perform_all l' ops) as [rs l2]. cbn in *. split; [by constructor|done].
Qed.

Definition empty_screen (w : Z) : screen := {| width := w; text := fun _ _ => blank; light := true |}.

Lemma new_spec addr b DevType l : addr = 63 \/ addr = 39 -> wired addr b -> new_I2CPcfLcd b DevType = Some l ->
  exists w, shows l (empty_screen w) /\ (w = 16 \/ w = 20).
Proof.
  intros Ha Hw. unfold new_I2CPcfLcd. destruct (string_to_enum _ _ _) as [type|]; [|done]. cbn [mbind option_bind].
  set (dt := if _ <=? type then _ else type). set (w := if _ || _ then 20 else 16).
  assert (w = 16 \/ w = 20) as Hw' by (unfold w; case_match; auto). clearbody w dt.
  assert ((write_byte 63 255 b).1 = Rpc.SUCCESS /\ addr = 63 /\ wired 63 (write_byte 63 255 b).2 \/
    (write_byte 63 255 b).1 <> Rpc.SUCCESS /\ wired 39 (write_byte 63 255 b).2) as Hprobe.
  { destruct Ha as [-> | ->].
    - left. destruct (port_written 63 b 255 Hw) as (? & ? & _); [lia|done].
    - right. by destruct (nobody_there 39 b 255 Hw 63) as (? & ? & _); [lia|..]. }
  destruct (write_byte 63 255 b) as [r b']. cbn in Hprobe. set (addr' := if negb (r =? Rpc.SUCCESS) then 39 else 63).
  assert (wired addr' b') as Hwired.
  { unfold addr'. destruct Hprobe as [(-> & _ & Hp)|[Hr Hp]]; [done|]. by rewrite (proj2 (Z.eqb_neq _ _) Hr). }
  set (l0 := {| BkLight := true; DISPLAY_TYPE := w; disp_type := dt; io_ctrl_byte := 255; LCD_PCF_ADDRESS := addr'; bus := b' |}).
  intros [= <-]. destruct (init_spec l0 Hwired Hw') as [Hon (E1 & E2 & _)].
  assert (1 <= 1 <= DISPLAY_TYPE (init_lcd l0)) as Hcol by (rewrite E2; cbn; lia).
  destruct (goto_spec _ _ 0 1 Hon ltac:(lia) Hcol) as (Hon' & _ & E1' & E2' & _). change (0 + 1) with 1 in Hon', E1', E2'.
  exists w. split; [|done]. exists (fun _ => blank). cbn [width light text empty_screen]. split; [exact Hon'|].
  split; [by rewrite E2', E2|]. split; [by rewrite E1', E1|done].
Qed.


(** ** The display of the system manager *)

(** The driver is a display for the calls of [SysmgrRpc]; they print in the middle. *)
#[export] Instance lcd_display : DisplayDevice lcd :=
  {| SysmgrRpc.clear_display := clear_display;
     SysmgrRpc.print_line := fun msg line l => print_line l msg line TEXT_ALIGNMENT_CENTER;
     SysmgrRpc.get_back_light := get_back_light;
     SysmgrRpc.set_back_light := fun sts l => set_back_light l sts |}.

Lemma service_prints (s : SYSMGR_CMN_DATA_CACHE lcd) (r : RPC_SRV_REQ sysmgr_packet) (line : Z) (msg : string) sts sc :
  pDisplay s = true -> shows (machine s) sc -> 0 <= line < 4 ->
  rq_dataRef r = Some (ServicePacket (PRINT_PACKET line msg sts)) ->
  exists l', process_disp_print s r = (set_result r Rpc.SUCCESS, with_machine s l') /\
    shows l' (on_screen sc (PrintLine msg line TEXT_ALIGNMENT_CENTER)).
Proof.
  intros Hd Hs Hl Hr. unfold process_disp_print. rewrite Hr, Hd. cbn [SysmgrRpc.print_line lcd_display].
  destruct (perform_shows (machine s) sc (PrintLine msg line TEXT_ALIGNMENT_CENTER) Hs) as [Hc Hs']; [by split|].
  cbn [perform] in *. destruct (print_line _ msg line _) as [c l']. cbn in Hc, Hs'. subst c. by exists l'.
Qed.
End pcf.

(** ** The display when the system manager starts *)

Section start.
Context {H : Type} `{Host H}.

(** The type of the display, and whether its driver is the one of this file; [None]: there
    is none. *)
Definition chosen_display (sysconf Type_ : string) : option (Z * bool) :=
  if negb (sysconf =? "a5v11-xmpp")%string then None
  else disp_type ← string_to_enum ADLIB_DISPLAY_TYPE_TABL Type_ ADLIB_DISPLAY_TYPE_UNKNOWN;
       if ADLIB_DISPLAY_TYPE_UNKNOWN <=? disp_type then None else Some (disp_type, (4 <=? disp_type) && (disp_type <=? 8)).

(** What [low_memory_device_special_action()] prints: the address, the version and, but on
    a display of two lines, a name. *)
Definition low_memory_device_special_action (h : H) (disp_type : Z) : list display_op * H :=
  let '(r, n, _) := read_network_info h "eth0" in
  let '(msg, h) :=
    if r =? 0 then (truncate 599 (n_ip n), h)
    else let '(r, n, h) := read_network_info_ifconfig h "eth0" n in
         (if r =? 0 then truncate 599 ("ip-" ++ n_ip n)%string else "ip-not-available", h) in
  let version := (line (default EmptyString (host_file h "/etc/version.txt"))).1 in
  let version := if (String.length version =? 0)%nat then "unknown" else version in
  let version := if (250 <=? String.length version)%nat then "ver-error" else version in
  let print msg line := PrintLine msg line TEXT_ALIGNMENT_CENTER in
  (([InitDisplay; ClearDisplay; print msg DISPLAY_LINE_1; print ("Ver-" ++ version)%string DISPLAY_LINE_2] ++
    (if disp_type =? ADLIB_DISPLAY_TYPE_1602_PCF then [] else [print "a5v11-xmpp" DISPLAY_LINE_3]))%list, h).

Lemma start_sensible h disp_type : Forall sensible (low_memory_device_special_action h disp_type).1.
Proof.
  unfold low_memory_device_special_action. destruct (read_network_info h "eth0") as [[r n] ok].
  destruct (if r =? 0 then _ else _) as [msg h']. cbn [fst]. apply Forall_app. split; [|case_match]; repeat constructor; done.
Qed.
End start.

(** ** A display *)

Module Hd44780.
(** The controller after its data sheet; [half] is the upper half of a byte that has come. *)
Record hd44780 := {
  mem : Z -> Z; place : option Z; four : bool; half : option Z; lines2 : bool; up : bool
}.

Definition set_place (c : hd44780) (p : option Z) : hd44780 :=
  {| mem := mem c; place := p; four := four c; half := half c; lines2 := lines2 c; up := up c |}.
Definition set_half (c : hd44780) (h : option Z) : hd44780 :=
  {| mem := mem c; place := place c; four := four c; half := h; lines2 := lines2 c; up := up c |}.
Definition back (a : Z) : Z := if a =? 64 then 39 else if a =? 0 then 103 else a - 1.

Definition instruction (d : Z) (c : hd44780) : hd44780 :=
  if 128 <=? d then set_place c (Some (d mod 128))
  else if 64 <=? d then set_place c None
  else if 32 <=? d then
    {| mem := mem c; place := place c; four := negb (Z.testbit d 4); half := half c; lines2 := Z.testbit d 3; up := up c |}
  else if 16 <=? d then set_place c ((fun a => if Z.testbit d 2 then next_address a else back a) <$> place c)
  else if 8 <=? d then c
  else if 4 <=? d then
    {| mem := mem c; place := place c; four := four c; half := half c; lines2 := lines2 c; up := Z.testbit d 1 && negb (Z.testbit d 0) |}
  else if 2 <=? d then set_place c (Some 0)
  else if d =? 1 then
    {| mem := fun _ => blank; place := Some 0; four := four c; half := half c; lines2 := lines2 c; up := true |}
  else c.
Definition store (d : Z) (c : hd44780) : hd44780 :=
  match place c with
  | Some a => set_place {| mem := fun x => if decide (x = a) then d else mem c x; place := place c; four := four c;
                           half := half c; lines2 := lines2 c; up := up c |} (Some (if up c then next_address a else back a))
  | None => c
  end.
Definition take_byte (rs : bool) (d : Z) (c : hd44780) : hd44780 := if rs then store d c else instruction d c.
Definition clock (rs : bool) (n : Z) (c : hd44780) : hd44780 :=
  if four c then
    match half c with None => set_half c (Some n) | Some h => take_byte rs (16 * h + n) (set_half c None) end
  else take_byte rs (16 * n) (set_half c None).

#[export] Instance controller : Controller hd44780 :=
  {| latch := clock; ddram := mem; address := place;
     four_bit := fun c => four c = true /\ half c = None; two_lines := fun c => lines2 c = true; increments := fun c => up c = true |}.

Lemma exec_is rs b c : 0 <= b < 256 -> four_bit c -> exec rs b c = take_byte rs b c.
Proof.
  intros Hb [Hf Hh]. destruct c as [m p f h l u]. cbn in Hf, Hh. subst. unfold exec. cbn [latch controller]. unfold clock.
  cbn [four half set_half]. replace (16 * (b / 16) + b mod 16) with b by (pose proof (Z.div_mod b 16); lia). done.
Qed.

Lemma half_after rs d c : half c = None -> half (take_byte rs d c) = None.
Proof.
  intros Hh. unfold take_byte, store, instruction. destruct rs; [by destruct (place c)|].
  repeat case_match; done.
Qed.

Lemma sync_chip c : four_bit (clock false 2 (clock false 3 (clock false 3 (clock false 3 c)))).
Proof.
  set (c1 := clock false 3 c).
  assert (four c1 = true /\ half c1 = Some 3 \/ half c1 = None) as H1.
  { unfold c1, clock. destruct (four c) eqn:Ef; [|right; by apply half_after].
    destruct (half c) as [h|] eqn:Eh; [right; by apply half_after|left]. by cbn. }
  assert (forall d, four d = true -> half d = Some 3 -> clock false 2 (clock false 3 (clock false 3 d)) =
    clock false 2 (clock false 3 (take_byte false 51 (set_half d None)))) as Ha.
  { intros d Hf Hh. unfold clock at 3. by rewrite Hf, Hh. }
  destruct H1 as [[Hf Hh]|Hh].
  - rewrite (Ha _ Hf Hh). by split.
  - destruct (four c1) eqn:Ef.
    + unfold clock at 3. rewrite Ef, Hh. unfold clock at 2. cbn [set_half four half]. rewrite Ef. by split.
    + unfold clock at 3. rewrite Ef. by split.
Qed.

(** What an instruction leaves alone. *)
Lemma instruction_keeps d c : 0 <= d < 256 ->
  (d / 16 <> 3 -> four c = true -> four (instruction d c) = true) /\
  (d / 32 <> 1 -> lines2 (instruction d c) = lines2 c) /\
  (d / 4 <> 1 -> up c = true -> up (instruction d c) = true) /\
  (d <> 1 -> mem (instruction d c) = mem c) /\ half (instruction d c) = half c.
Proof.
  intros Hd. unfold instruction.
  destruct (Z.leb_spec 128 d); [done|]. destruct (Z.leb_spec 64 d); [done|].
  destruct (Z.leb_spec 32 d).
  { assert (d / 32 = 1) as E by (symmetry; apply (Z.div_unique d 32 1 (d - 32)); lia). repeat split; try done. intros Hn _. cbn [four].
    destruct (Z.ltb_spec d 48).
    - assert (Z.testbit d 4 = false) as ->; [|done]. rewrite Z.testbit_false by lia. change (2 ^ 4) with 16.
      by rewrite <- (Z.div_unique d 16 2 (d - 32)) by lia.
    - exfalso. apply Hn. symmetry. apply (Z.div_unique d 16 3 (d - 48)); lia. }
  destruct (Z.leb_spec 16 d); [done|]. destruct (Z.leb_spec 8 d); [done|]. destruct (Z.leb_spec 4 d).
  { assert (d / 4 = 1) as E by (symmetry; apply (Z.div_unique d 4 1 (d - 4)); lia). by repeat split. }
  destruct (Z.leb_spec 2 d); [done|]. destruct (Z.eqb_spec d 1); by repeat split.
Qed.

Lemma store_keeps d c : four (store d c) = four c /\ lines2 (store d c) = lines2 c /\ up (store d c) = up c /\ half (store d c) = half c.
Proof. unfold store. by destruct (place c). Qed.

#[export] Instance controller_laws : ControllerLaws hd44780.
Proof.
  split.
  - apply sync_chip.
  - intros c rs b H4 Hb Hrs. rewrite exec_is by done. destruct H4 as [Hf Hh], rs; cbn.
    + destruct (store_keeps b c) as (-> & _ & _ & ->). done.
    + destruct (instruction_keeps b c Hb) as (K1 & _ & _ & _ & ->). split; [|done]. apply K1; [by destruct Hrs|done].
  - intros c H4. by rewrite exec_is.
  - intros c rs b H4 H2 Hb Hrs. rewrite exec_is by done. destruct rs; cbn.
    + by destruct (store_keeps b c) as (_ & -> & _).
    + destruct (instruction_keeps b c Hb) as (_ & K & _). rewrite K; [done|]. by destruct Hrs.
  - intros c H4. by rewrite exec_is.
  - intros c rs b H4 Hi Hb Hrs. rewrite exec_is by done. destruct rs; cbn.
    + by destruct (store_keeps b c) as (_ & _ & -> & _).
    + destruct (instruction_keeps b c Hb) as (_ & _ & K & _). apply K; [by destruct Hrs|done].
  - intros c H4. by rewrite exec_is.
  - intros c b H4 Hb a. rewrite exec_is by (done || lia). destruct (instruction_keeps b c) as (_ & _ & _ & K & _); [lia|].
    cbn. by rewrite K by lia.
  - intros c a H4 _ Ha. unfold is_address in Ha. rewrite exec_is by (done || lia). cbn. unfold instruction.
    destruct (Z.leb_spec 128 (128 + a)); [|lia]. cbn. f_equal. rewrite <- (Z.mod_unique (128 + a) 128 1 a); lia.
  - intros c a d H4 _ Hi Hp Ha Hd. rewrite exec_is by done. cbn in *. unfold store. rewrite Hp. cbn. by rewrite Hi.
Qed.

(** A bus with this display at the second address. *)
Record board := { slave : Z; pins : Z; lcd_chip : hd44780 }.

#[export] Instance board_i2c : I2C board :=
  {| stat_mode := fun _ _ => Some 8192;
     open_node := fun _ w => (3, 0, w);
     close_node := fun _ w => w;
     set_slave := fun _ addr w => (0, {| slave := addr; pins := pins w; lcd_chip := lcd_chip w |});
     smbus_write := fun _ v w =>
       if slave w =? 39 then (0, {| slave := slave w; pins := v; lcd_chip := edge (pins w) v (lcd_chip w) |}) else (-1, w);
     smbus_read := fun _ w => (-1, 0, w);
     fd_write := fun _ _ w => (-1, w);
     fd_read := fun _ _ w => (-1, [], w);
     inet_pton := fun _ => false |}.
#[export] Instance board_remote : RemoteBus board :=
  {| rpc_server_connect := fun _ _ w => (-1, w); rpc_server_disconnect := fun w => w;
     set_integer_type_with_addr_para := fun _ _ _ _ _ w => (Rpc.FAIL, w);
     get_integer_type_with_addr_para := fun _ _ _ _ w => (Rpc.FAIL, EmptyString, w) |}.

#[export] Instance board_wiring : Wiring board hd44780.
Proof.
  refine {| wired := fun addr b => addr = 39 /\ DevOpened b = Rpc.SUCCESS /\ ConnType b = ADLIB_DEV_CONN_TYPE_DEVNODE;
            port := fun b => pins (world b); chip := fun b => lcd_chip (world b) |}.
  - intros addr b q (-> & Ho & Ht) _. unfold write_byte, transfer. rewrite Ho, Ht. by cbn.
  - intros addr b q (-> & Ho & Ht) other Hr Hne. unfold write_byte, transfer. rewrite Ho, Ht. cbn.
    rewrite wrap_u_id by (change (2 ^ 8) with 256; lia). unfold i2c_smbus_write_byte. cbn. by rewrite (proj2 (Z.eqb_neq other 39) Hne).
Defined.

(** The board when it is switched on: the controller is in the middle of a byte. *)
Definition switched_on : board :=
  {| slave := 0; pins := 4; lcd_chip := {| mem := fun a => a; place := None; four := true; half := Some 7; lines2 := false; up := false |} |}.
Definition node : I2CBusAccess board := open_bus 0 ADLIB_DEV_CONN_TYPE_NONE "/dev/i2c-1" switched_on.
Definition calls : list display_op := [PrintLine "hello" 1 TEXT_ALIGNMENT_CENTER; PrintLine "42" 3 TEXT_ALIGNMENT_RIGHT; SetBackLight false].

(** What is on a line. *)
Definition line_text (l : Pcf.I2CPcfLcd board) (line : Z) : list ascii :=
  (fun col => ascii_of_N (Z.to_N (mem (lcd_chip (world (Pcf.bus l))) (line_start line + col)))) <$> seqZ 0 (Pcf.DISPLAY_TYPE l).
Definition started (type : string) : option (Pcf.I2CPcfLcd board) := Pcf.new_I2CPcfLcd node type.

Example hello_ex : (fun l => line_text (perform_all l calls).2 1) <$> started "2004_pcf" =
  Some (Prelude.bytes "       hello        ").
Proof. by vm_compute. Qed.
Example corner_ex : (fun l => line_text (perform_all l calls).2 3) <$> started "2004_pcf" =
  Some (Prelude.bytes "                  42").
Proof. by vm_compute. Qed.

(** Only sixteen places are cleared before a text is printed in the middle of a line of 20. *)
Example rest_ex : (fun l => line_text (perform_all l [PrintLine "abcdefghijklmnopqrst" 0 TEXT_ALIGNMENT_LEFT;
    PrintLine "x" 0 TEXT_ALIGNMENT_CENTER]).2 0) <$> started "2004_pcf" =
  Some (Prelude.bytes "         x      qrst").
Proof. by vm_compute. Qed.

End Hd44780.
