(* ===== verification/Serial.v ===== *)
(** * A serial port (ADSerial.cpp, ADSerialProto.cpp)

    A port has three threads of class [ADThread] and two chains: what is to be sent waits in
    [tx_chain] for [tx_thread], what was read waits in [rx_chain] for the consumer, who is
    called by [rx_data_proc_thread]; [rx_thread] is woken up by SIGIO.  The steps of the
    threads are those of file [Thread], their callbacks interleave and exclude each other by
    [multi_callback_lock].  The theorems say that no byte is lost, doubled or reordered on
    either side, and how many chunks are left behind when everything is at rest. *)
From S2P Require Import Prelude GenericChain Thread.
Open Scope Z_scope.

Definition MAX_RX_TX_CHUNK_SZ : Z := 4096.
Definition DEV_NODE_NAME_MAX_SIZE : Z := 512.

Record rx_tx_data := { ident : Z; len : Z; RxTxdata : list Z }.

Inductive worker := Rx | Tx | Proc.
#[export] Instance worker_eq_dec : EqDecision worker.
Proof. solve_decision. Defined.

(** Where a callback is: in front of the lock; in the body of its thread; in front of the
    unlock; [Idle] when it does not run.  [Write] has the chunk and [writtenBytes]. *)
Inductive callback_pc :=
| Idle | Lock | Unlock
| Read | Push (buf : list Z) | WakeProc
| Take | Flush (c : rx_tx_data) | Write (c : rx_tx_data) (writtenBytes : Z)
| Notify.
#[export] Instance rx_tx_data_eq_dec : EqDecision rx_tx_data.
Proof. solve_decision. Defined.
#[export] Instance callback_pc_eq_dec : EqDecision callback_pc.
Proof. solve_decision. Defined.

(** What is left of a call of [start()] or [stop()]. *)
Inductive instr := StartThread (w : worker) | InitPort | StopThread (w : worker) | RemoveAll (w : worker) | ClosePort.

(** [class ADSerial]: [threads] are its three threads and [pcs] where their callbacks are;
    [fd] is the descriptor while it is open; [control] is what is left of the call of
    [start()] or [stop()]; [callers] counts the calls of [schedule_data_transmission()]
    between the chain and the wake-up.  Counted for the statements: what [read()] returned
    and what the consumer took, the data that were scheduled, and those the thread took out
    with what was written of them (less what [stop()] threw away). *)
Record ADSerial := {
  threads : worker -> ADThread;
  pcs : worker -> callback_pc;
  multi_callback_lock : option worker;
  rx_chain : Chain.chain rx_tx_data;
  tx_chain : Chain.chain rx_tx_data;
  timer_event_attached : Z;
  connected : Z;
  baud : Z;
  converted_baud : Z;
  us_data_time : Z;
  transmission_in_progress : Z;
  dev_node : string;
  fd : option Z;
  subscribed : bool;
  control : list instr;
  callers : nat;
  received : list Z;
  delivered : list Z;
  scheduled : list (list Z);
  sent : list (list Z * list Z);
}.

Definition upd {A} (f : worker -> A) (w : worker) (a : A) : worker -> A := fun v => if decide (v = w) then a else f v.

Section setters.
Implicit Types s : ADSerial.
Definition with_thread s (w : worker) (t : ADThread) : ADSerial :=
  {| threads := upd (threads s) w t; pcs := pcs s; multi_callback_lock := multi_callback_lock s; rx_chain := rx_chain s;
     tx_chain := tx_chain s; timer_event_attached := timer_event_attached s; connected := connected s; baud := baud s;
     converted_baud := converted_baud s; us_data_time := us_data_time s; transmission_in_progress := transmission_in_progress s;
     dev_node := dev_node s; fd := fd s; subscribed := subscribed s; control := control s; callers := callers s;
     received := received s; delivered := delivered s; scheduled := scheduled s; sent := sent s |}.
Definition at_pc s (w : worker) (pc : callback_pc) (lock : option worker) : ADSerial :=
  {| threads := threads s; pcs := upd (pcs s) w pc; multi_callback_lock := lock; rx_chain := rx_chain s;
     tx_chain := tx_chain s; timer_event_attached := timer_event_attached s; connected := connected s; baud := baud s;
     converted_baud := converted_baud s; us_data_time := us_data_time s; transmission_in_progress := transmission_in_progress s;
     dev_node := dev_node s; fd := fd s; subscribed := subscribed s; control := control s; callers := callers s;
     received := received s; delivered := delivered s; scheduled := scheduled s; sent := sent s |}.
Definition with_rx s (c : Chain.chain rx_tx_data) (got gave : list Z) : ADSerial :=
  {| threads := threads s; pcs := pcs s; multi_callback_lock := multi_callback_lock s; rx_chain := c;
     tx_chain := tx_chain s; timer_event_attached := timer_event_attached s; connected := connected s; baud := baud s;
     converted_baud := converted_baud s; us_data_time := us_data_time s; transmission_in_progress := transmission_in_progress s;
     dev_node := dev_node s; fd := fd s; subscribed := subscribed s; control := control s; callers := callers s;
     received := got; delivered := gave; scheduled := scheduled s; sent := sent s |}.
Definition with_tx s (c : Chain.chain rx_tx_data) (n : nat) (asked : list (list Z)) (done : list (list Z * list Z)) : ADSerial :=
  {| threads := threads s; pcs := pcs s; multi_callback_lock := multi_callback_lock s; rx_chain := rx_chain s;
     tx_chain := c; timer_event_attached := timer_event_attached s; connected := connected s; baud := baud s;
     converted_baud := converted_baud s; us_data_time := us_data_time s; transmission_in_progress := transmission_in_progress s;
     dev_node := dev_node s; fd := fd s; subscribed := subscribed s; control := control s; callers := n;
     received := received s; delivered := delivered s; scheduled := asked; sent := done |}.
Definition with_port s (attached conn speed conv data_time busy : Z) (node : string) (f : option Z) (sub : bool) (l : list instr) : ADSerial :=
  {| threads := threads s; pcs := pcs s; multi_callback_lock := multi_callback_lock s; rx_chain := rx_chain s;
     tx_chain := tx_chain s; timer_event_attached := attached; connected := conn; baud := speed;
     converted_baud := conv; us_data_time := data_time; transmission_in_progress := busy;
     dev_node := node; fd := f; subscribed := sub; control := l; callers := callers s;
     received := received s; delivered := delivered s; scheduled := scheduled s; sent := sent s |}.
End setters.

Definition set_connected (s : ADSerial) (conn : Z) (f : option Z) : ADSerial :=
  with_port s (timer_event_attached s) conn (baud s) (converted_baud s) (us_data_time s) (transmission_in_progress s) (dev_node s) f
    (subscribed s) (control s).
Definition set_control (s : ADSerial) (l : list instr) : ADSerial :=
  with_port s (timer_event_attached s) (connected s) (baud s) (converted_baud s) (us_data_time s) (transmission_in_progress s)
    (dev_node s) (fd s) (subscribed s) l.

(** ** The object *)

(** [initialize_helpers()]: the threads are of type monoshot, with the port as consumer. *)
Definition helper_thread : ADThread :=
  (set_thread_properties (subscribe_thread_callback (new_ADThread None) 0).2 THREAD_TYPE_MONOSHOT).2.
Definition dev_ttyS0 : string := "/dev/ttyS0".
(** The constructor with a speed and a node ([ADSerial()] is the one with 9600 and
    /dev/ttyS0); [junk] are the members it leaves as they are. *)
Definition new_ADSerial (junk : Z * Z) (baud_rate : Z) (dev_node_name : string) : ADSerial :=
  {| threads := fun _ => helper_thread; pcs := fun _ => Idle; multi_callback_lock := None; rx_chain := Chain.empty_chain;
     tx_chain := Chain.empty_chain; timer_event_attached := 0; connected := 0; baud := baud_rate; converted_baud := junk.1;
     us_data_time := junk.2; transmission_in_progress := 0;
     dev_node := if Z.of_nat (String.length dev_node_name) <? DEV_NODE_NAME_MAX_SIZE then dev_node_name else dev_ttyS0;
     fd := None; subscribed := false; control := []; callers := 0; received := []; delivered := []; scheduled := []; sent := [] |}.
(** [None]: [strcpy()] writes behind the array. *)
Definition set_serial_port_settings (s : ADSerial) (baud_rate : Z) (device : string) : option (Z * ADSerial) :=
  if Z.of_nat (String.length device) <? DEV_NODE_NAME_MAX_SIZE then
    Some (0, with_port s (timer_event_attached s) (connected s) baud_rate (converted_baud s) (us_data_time s)
               (transmission_in_progress s) device (fd s) (subscribed s) (control s))
  else None.
Definition attach_timer_and_signal_notifier (s : ADSerial) : Z * ADSerial :=
  (0, with_port s 1 (connected s) (baud s) (converted_baud s) (us_data_time s) (transmission_in_progress s) (dev_node s) (fd s)
        (subscribed s) (control s)).
(** The first consumer stays. *)
Definition subscribe_data_arrival (s : ADSerial) (id : Z) : Z * ADSerial :=
  if subscribed s then (-1, s)
  else (id, with_port s (timer_event_attached s) (connected s) (baud s) (converted_baud s) (us_data_time s)
              (transmission_in_progress s) (dev_node s) (fd s) true (control s)).

(** The speeds with the codes of the terminal driver. *)
Definition speeds : list (Z * Z) :=
  [(50, 1); (75, 2); (110, 3); (134, 4); (150, 5); (200, 6); (300, 7); (600, 8); (1200, 9); (1800, 10); (2400, 11); (4800, 12);
   (9600, 13); (19200, 14); (38400, 15); (57600, 4097); (115200, 4098); (230400, 4099); (460800, 4100); (500000, 4101);
   (576000, 4102); (921600, 4103); (1000000, 4104)].
Definition convert_baud (baudrate data_time : Z) : Z * Z :=
  match list_find (fun p => p.1 = baudrate) speeds with
  | Some (_, (_, b)) => (b, if baudrate =? 9600 then 100000 else if baudrate =? 115200 then 1000 else data_time)
  | None => (-1, data_time)
  end.

(** ** Sending and being woken up *)

(** [push_data_into_chain()], for lengths that are not negative, with its result: a chunk
    that is too long is refused. *)
Definition push_data_into_chain (c : Chain.chain rx_tx_data) (data : list Z) (n : Z) : Z * Chain.chain rx_tx_data :=
  if n >? MAX_RX_TX_CHUNK_SZ then (-1, c)
  else
    let '(id, c) := Chain.generate_ident c in
    let '(rc, c) := Chain.put c {| ident := id; len := n; RxTxdata := take (Z.to_nat n) data |} in
    (if decide (rc = 0) then 0 else -1, c).
Definition wake (s : ADSerial) (w : worker) : ADSerial := with_thread s w (wakeup_thread (threads s w)).2.
(** The first half of [schedule_data_transmission()], and [process_received_data()]. *)
Definition schedule (s : ADSerial) (data : list Z) : option Z * ADSerial :=
  let '(rc, c) := push_data_into_chain (tx_chain s) data (Z.of_nat (length data)) in
  if decide (rc = 0) then (None, with_tx s c (S (callers s)) (scheduled s ++ [data]) (sent s)) else (Some (-1), s).
Definition schedule_wakes (s : ADSerial) : option (Z * ADSerial) :=
  match callers s with
  | S n => Some (0, wake (with_tx s (tx_chain s) n (scheduled s) (sent s)) Tx)
  | O => None
  end.
Definition timer_notification (s : ADSerial) : Z := if connected s =? 0 then -1 else 0.
Definition sigio_notification (s : ADSerial) : Z * ADSerial := if connected s =? 0 then (-1, s) else (0, wake s Rx).

(** ** The callbacks *)

(** What the world answers: the bytes of [read()] ([None] for an error), the result of
    [write()], and how many chunks the consumer takes from the front. *)
Inductive answer := NoAnswer | Bytes (b : option (list Z)) | Wrote (n : Z) | Took (n : nat).

Definition goto (s : ADSerial) (w : worker) (pc : callback_pc) : option ADSerial := Some (at_pc s w pc (multi_callback_lock s)).
Fixpoint take_chunks (c : Chain.chain rx_tx_data) (n : nat) : list Z * Chain.chain rx_tx_data :=
  match n with
  | O => ([], c)
  | S n => match Chain.get c with
           | (Some d, c) => let '(r, c) := take_chunks c n in (RxTxdata d ++ r, c)
           | (None, c) => ([], c)
           end
  end.
(** A chunk is done with: [out] was written of it. *)
Definition chunk_done (s : ADSerial) (c : rx_tx_data) (out : list Z) : ADSerial :=
  with_tx s (tx_chain s) (callers s) (scheduled s) (sent s ++ [(RxTxdata c, out)]).
(** The loop of [write_serial_data()] with [n] bytes written so far: at its condition. *)
Definition write_from (s : ADSerial) (c : rx_tx_data) (n : Z) : option ADSerial :=
  if n <? len c then goto s Tx (Write c n) else goto (chunk_done s c (take (Z.to_nat n) (RxTxdata c))) Tx Unlock.

(** A step of [monoshot_callback_function()] of the thread [w]. *)
Definition callback (s : ADSerial) (w : worker) (a : answer) : option ADSerial :=
  match pcs s w, a with
  | Lock, NoAnswer =>
      match multi_callback_lock s with
      | None => Some (at_pc s w (match w with Rx => Read | Tx => Take | Proc => Notify end) (Some w))
      | Some _ => None
      end
  | Read, Bytes b =>
      match b with
      | Some ((_ :: _) as b) =>
          if Z.of_nat (length b) <=? MAX_RX_TX_CHUNK_SZ - 1
          then goto (with_rx s (rx_chain s) (received s ++ b) (delivered s)) w (Push b) else None
      | _ => goto s w Unlock
      end
  | Push buf, NoAnswer =>
      let '(rc, c) := push_data_into_chain (rx_chain s) buf (Z.of_nat (length buf)) in
      goto (with_rx s c (received s) (delivered s)) w (if decide (rc = 0) then WakeProc else Unlock)
  | WakeProc, NoAnswer => goto (wake s Proc) w Unlock
  | Take, NoAnswer =>
      match Chain.get (tx_chain s) with
      | (Some d, c) => goto (with_tx s c (callers s) (scheduled s) (sent s)) w (Flush d)
      | (None, _) => goto s w Unlock
      end
  | Flush c, NoAnswer =>
      write_from (with_port s (timer_event_attached s) (connected s) (baud s) (converted_baud s) (us_data_time s) 1 (dev_node s)
                    (fd s) (subscribed s) (control s)) c 0
  | Write c n, Wrote k =>
      if k <? 0 then goto (chunk_done s c (take (Z.to_nat n) (RxTxdata c))) w Unlock
      else if k <=? len c - n then write_from s c (n + k) else None
  | Notify, Took n =>
      let '(d, c) := if subscribed s then take_chunks (rx_chain s) n else ([], rx_chain s) in
      goto (with_rx s c (received s) (delivered s ++ d)) w Unlock
  | Unlock, NoAnswer => t ← callback_returns (threads s w); Some (with_thread (at_pc s w Idle None) w t)
  | _, _ => None
  end.
(** A step of the thread [w] itself; its callback begins in front of the lock. *)
Definition thread_step (s : ADSerial) (w : worker) (interrupted : bool) : option ADSerial :=
  t ← my_thread_func (threads s w) interrupted;
  let s := with_thread s w t in
  Some (if decide (thread t = Some TCallback) then at_pc s w Lock (multi_callback_lock s) else s).

(** ** Starting and stopping *)

(** [start()] and [stop()] up to their first thread; [opened] is the descriptor. *)
Definition start (s : ADSerial) (opened : Z) : option Z * ADSerial :=
  if connected s =? 1 then (Some (-1), s)
  else if timer_event_attached s =? 0 then (Some (-1), s)
  else
    let '(b, time) := convert_baud (baud s) (us_data_time s) in
    let port f l := with_port s (timer_event_attached s) (connected s) (baud s) b time (transmission_in_progress s) (dev_node s) f
                      (subscribed s) l in
    if b <? 0 then (Some (-1), port (fd s) (control s))
    else if opened <? 0 then (Some (-1), port (fd s) (control s))
    else (None, port (Some opened) [StartThread Rx; StartThread Tx; StartThread Proc; InitPort]).
Definition stop (s : ADSerial) : option Z * ADSerial :=
  if connected s =? 0 then (Some 0, s)
  else (None, set_control s [StopThread Proc; StopThread Rx; StopThread Tx; RemoveAll Rx; RemoveAll Tx; ClosePort]).
(** The bytes that are between [read()] and the chain, and the chunk between the other
    chain and its end. *)
Definition read_ahead (s : ADSerial) : list Z := match pcs s Rx with Push b => b | _ => [] end.
Definition on_its_way (s : ADSerial) : list (list Z) := match pcs s Tx with Flush c | Write c _ => [RxTxdata c] | _ => [] end.
(** The next step of the call; [now] and [ok] are the time and the answer of the system. *)
Definition control_step (s : ADSerial) (now : Z) (ok : bool) : option (option Z * ADSerial) :=
  let thread_call w call l :=
    '(r, t) ← Thread.step (threads s w) (if decide (ctl (threads s w) = None) then call else CtlStep now ok);
    let s := with_thread s w t in
    Some (None, match r with Some _ => set_control s l | None => s end) in
  match control s with
  | StartThread w :: l => thread_call w CallStart l
  | StopThread w :: l => thread_call w (CallStop (-1)) l
  | RemoveAll w :: l =>
      let s := set_control s l in
      Some (None, match w with
                  | Rx => with_rx s (Chain.empty (rx_chain s)).2 (delivered s ++ read_ahead s) (delivered s)
                  | _ => with_tx s (Chain.empty (tx_chain s)).2 (callers s) (map fst (sent s) ++ on_its_way s) (sent s)
                  end)
  | InitPort :: l => Some (if ok then (Some 0, set_connected (set_control s l) 1 (fd s))
                           else (Some (-1), set_connected (set_control s l) (connected s) None))
  | ClosePort :: l => Some (Some 0, set_connected (set_control s l) 0 None)
  | [] => None
  end.

(** ** All together *)

(** Calls of [start()] and [stop()] come from one thread. *)
Inductive action :=
| DoStart (opened : Z) | DoStop | DoControl (now : Z) (ok : bool)
| Schedule (data : list Z) | ScheduleWakes | Sigio
| ThreadGoes (w : worker) (interrupted : bool) | CallbackGoes (w : worker) (a : answer)
| AttachTimer | SubscribeData.

Definition step (s : ADSerial) (a : action) : option (option Z * ADSerial) :=
  match a with
  | DoStart opened => match control s with [] => Some (start s opened) | _ => None end
  | DoStop => match control s with [] => Some (stop s) | _ => None end
  | DoControl now ok => control_step s now ok
  | Schedule data => Some (schedule s data)
  | ScheduleWakes => '(r, s) ← schedule_wakes s; Some (Some r, s)
  | Sigio => let '(r, s) := sigio_notification s in Some (Some r, s)
  | ThreadGoes w i => s ← thread_step s w i; Some (None, s)
  | CallbackGoes w a => s ← callback s w a; Some (None, s)
  | AttachTimer => let '(r, s) := attach_timer_and_signal_notifier s in Some (Some r, s)
  | SubscribeData => let '(r, s) := subscribe_data_arrival s 0 in Some (Some r, s)
  end.
Inductive reachable : ADSerial -> Prop :=
| reachable_new junk b node : reachable (new_ADSerial junk b node)
| reachable_step s a r s' : reachable s -> step s a = Some (r, s') -> reachable s'.
Fixpoint run (s : ADSerial) (l : list action) : option ADSerial :=
  match l with [] => Some s | a :: l => '(_, s) ← step s a; run s l end.

(** ** ADSerialProto *)

(** [ADSerialProto]: whether it has a timer, and its port; its own
    [notify_data_arrival()] takes nothing. *)
Record ADSerialProto := { pMyTimer : bool; SerialHandler : ADSerial }.
Definition new_ADSerialProto (junk : Z * Z) : ADSerialProto :=
  {| pMyTimer := false; SerialHandler := (subscribe_data_arrival (new_ADSerial junk 9600 dev_ttyS0) 0).2 |}.
Definition proto_attach (p : ADSerialProto) : Z * ADSerialProto :=
  (0, {| pMyTimer := true; SerialHandler := (attach_timer_and_signal_notifier (SerialHandler p)).2 |}).
Definition proto_arrival : answer := Took 0.
Definition connect_uart (p : ADSerialProto) (speed : Z) (node : string) (opened : Z) : option (option Z * ADSerialProto) :=
  if negb (pMyTimer p) then Some (Some (-1), p)
  else
    '(_, s) ← set_serial_port_settings (SerialHandler p) speed node;
    let '(r, s) := start s opened in
    Some (r, {| pMyTimer := true; SerialHandler := s |}).

(** ** Invariants *)

(** A chunk holds as many bytes as it says. *)
Definition sized (c : rx_tx_data) : Prop := len c = Z.of_nat (length (RxTxdata c)).
(** The callback of a thread is in its own body, with a chunk that is sized. *)
Definition pc_fits (w : worker) (pc : callback_pc) : Prop :=
  match pc with
  | Idle | Lock | Unlock => True
  | Read | WakeProc => w = Rx
  | Push b => w = Rx /\ Z.of_nat (length b) <= MAX_RX_TX_CHUNK_SZ
  | Take => w = Tx
  | Flush c => w = Tx /\ sized c
  | Write c n => w = Tx /\ sized c /\ 0 <= n < len c
  | Notify => w = Proc
  end.
Definition inside (pc : callback_pc) : bool := match pc with Idle | Lock => false | _ => true end.

(** What holds of each thread of a port. *)
Record worker_ok (t : ADThread) (pc : callback_pc) : Prop := {
  w_reachable : Thread.reachable t;
  w_type : th_type t = THREAD_TYPE_MONOSHOT;
  w_consumer : consumer t = true;
  w_callback : pc <> Idle <-> thread t = Some TCallback;
  w_no_call : own_call t = false;
  w_begun : begun t <= woken t;
}.
Record chain_ok (c : Chain.chain rx_tx_data) : Prop := {
  c_open : Chain.open c = true;
  c_sized : Forall sized (Chain.items c);
}.
Record ok (s : ADSerial) : Prop := {
  o_workers : forall w, worker_ok (threads s w) (pcs s w);
  o_fits : forall w, pc_fits w (pcs s w);
  o_lock : forall w, multi_callback_lock s = Some w <-> inside (pcs s w) = true;
  o_rx : chain_ok (rx_chain s);
  o_tx : chain_ok (tx_chain s);
  o_received : received s = delivered s ++ concat (map RxTxdata (Chain.items (rx_chain s))) ++ read_ahead s;
  o_scheduled : scheduled s = map fst (sent s) ++ on_its_way s ++ map RxTxdata (Chain.items (tx_chain s));
  o_sent : Forall (fun p => p.2 `prefix_of` p.1) (sent s);
}.

(** *** The threads *)

Lemma upd_same {A} (f : worker -> A) w a : upd f w a w = a.
Proof. unfold upd. by rewrite decide_True. Qed.
Lemma upd_other {A} (f : worker -> A) w v a : v <> w -> upd f w a v = f v.
Proof. intros. unfold upd. by rewrite decide_False. Qed.

(** What calls from outside leave as it is. *)
Definition same_callback (t t' : ADThread) : Prop :=
  th_type t' = th_type t /\ consumer t' = consumer t /\ (thread t' = Some TCallback <-> thread t = Some TCallback) /\
  own_call t' = false /\ begun t' <= woken t'.
Lemma join_same t w start next_log now r :
  join_thread t w start next_log now = Some r ->
  match r with
  | Joined t' => thread t = Some TExit /\ t' = Thread.with_thread t None
  | Waiting _ t' => exists logs, t' = with_setup t (th_type t) (init_flag t) (consumer t) (stop_timeout_ms t) logs
  | TimedOut => True
  end.
Proof.
  unfold join_thread. intros E. assert (t = with_setup t (th_type t) (init_flag t) (consumer t) (stop_timeout_ms t) (logged t)) by by destruct t.
  destruct (finished t); [destruct (thread t) as [[]|]; by simplify_eq|].
  destruct (_ && _); [by simplify_eq|]. destruct (_ <=? 0); [simplify_eq; by eauto|]. destruct (_ >=? _); simplify_eq; by eauto.
Qed.
Ltac same := unfold same_callback, own_call in *; simpl in *; split_and!; first [done | by split | lia | congruence | tauto].
Lemma control_same t now created r t' :
  Thread.ok t -> own_call t = false -> begun t <= woken t ->
  (start_step t now created = Some (r, t') \/ stop_step t now = Some (r, t')) -> same_callback t t'.
Proof.
  intros [_ Hc _ _ _] Hno Hb [E|E]; unfold start_step, stop_step, at_ctl, Thread.unlock, ctl_ok in *.
  - destruct (ctl t) as [c|]; [|done]. destruct c; try done.
    + destruct (started t); [destruct (active t)|]; injection E as <- <-; same.
    + destruct (join_thread _ _ _ _ _) as [[t1| |nl t1]|] eqn:Ej; try discriminate E; apply join_same in Ej.
      * destruct Ej as [Et ->]. injection E as <- <-. unfold same_callback. rewrite Et. same.
      * destruct Ej as [logs ->]. injection E as <- <-. same.
    + destruct (_ >? 0); injection E as <- <-; same.
    + injection E as <- <-. same.
    + injection E as <- <-. same.
    + destruct Hc as (_ & Hth & _). unfold same_callback, own_call in *. destruct created; injection E as <- <-; simpl; rewrite ?Hth in *; same.
    + injection E as <- <-. same.
  - destruct (ctl t) as [c|]; [|done]. destruct c as [| | | | | | |w|w|w|w start nl|]; try done.
    + destruct (started t); injection E as <- <-; same.
    + injection E as <- <-. same.
    + case_decide; injection E as <- <-; same.
    + destruct (join_thread _ _ _ _ _) as [[t1| |nl' t1]|] eqn:Ej; try discriminate E; apply join_same in Ej.
      * destruct Ej as [Et ->]. injection E as <- <-. unfold same_callback. rewrite Et. same.
      * injection E as <- <-. same.
      * destruct Ej as [logs ->]. injection E as <- <-. same.
Qed.
Lemma outside_step t pc a r t' :
  worker_ok t pc -> match a with CallStart | CallStop _ | CtlStep _ _ | Wakeup => True | _ => False end ->
  Thread.step t a = Some (r, t') -> worker_ok t' pc.
Proof.
  intros [Hr Hty Hcon Hcb Hno Hb] Ha E. pose proof (thread_reachable_ok _ Hr) as Ht.
  assert (Thread.reachable t') as Hr' by (by eapply Thread.reachable_step).
  cut (same_callback t t').
  { intros (E1 & E2 & E3 & Eo & Eb). constructor; try congruence; try done. by rewrite E3. }
  destruct a as [| |now created| | | | | | | |]; try done; simpl in E.
  - destruct (negb _); [by simplify_eq|]. case_decide; [|done]. unfold at_ctl in E. by simplify_eq.
  - case_decide; [|done]. unfold at_ctl in E. by simplify_eq.
  - destruct (start_step _ _ _) as [[r1 t1]|] eqn:Es; simplify_eq; apply (control_same t now created r t' Ht Hno Hb); by auto.
  - simplify_eq. unfold wakeup_thread. rewrite Hty. simpl. split_and!; try done. simpl. lia.
Qed.
(** The thread's own step begins a callback or leaves it alone. *)
Lemma thread_step_worker t pc i t' :
  worker_ok t pc -> my_thread_func t i = Some t' ->
  pc = Idle /\ worker_ok t' (if decide (thread t' = Some TCallback) then Lock else pc).
Proof.
  intros [Hr Hty Hcon Hcb Hno Hb] E.
  assert (Thread.reachable t') as Hr' by (eapply (Thread.reachable_step t (ThreadStep i) None); [done|]; simpl; by rewrite E).
  destruct (decide (pc = Idle)) as [->|Hn]; [split; [done|]|].
  2:{ apply Hcb in Hn. unfold my_thread_func in E. by rewrite Hn in E. }
  pose proof (thread_reachable_ok _ Hr) as [Hs _ _ _ Hw]. unfold woken_ok in Hw.
  cut (th_type t' = th_type t /\ consumer t' = consumer t /\ own_call t' = false /\ begun t' <= woken t').
  { intros (E1 & E2 & E3 & E4). constructor; try congruence; try done. case_decide; by split. }
  unfold my_thread_func, call_back, Thread.goto in E. rewrite Hcon, Hty in *. destruct (thread t) as [[]|] eqn:Eth; try discriminate E.
  - destruct (negb _); injection E as <-; same.
  - destruct i; [injection E as <-; same|]. destruct (_ >? 0); [|done]. injection E as <-. same.
  - specialize (Hw eq_refl eq_refl). destruct (active t); injection E as <-; [specialize (Hw (or_introl eq_refl))|]; same.
  - injection E as <-. same.
  - injection E as <-. same.
Qed.
Lemma returns_worker t pc t' : worker_ok t pc -> callback_returns t = Some t' -> worker_ok t' Idle.
Proof.
  intros [Hr Hty Hcon Hcb Hno Hb] E.
  assert (Thread.reachable t') as Hr' by (eapply (Thread.reachable_step t CallbackReturns None); [done|]; simpl; by rewrite E).
  unfold callback_returns, Thread.goto in E. destruct (thread t) as [[]|] eqn:Eth; try discriminate E. rewrite Hty in E. injection E as <-.
  constructor; simpl; try done; by split.
Qed.
Lemma wakeup_worker t pc : worker_ok t pc -> worker_ok (wakeup_thread t).2 pc.
Proof. intros Hw. by apply (outside_step t pc Wakeup None). Qed.
Lemma helper_worker : worker_ok helper_thread Idle.
Proof.
  split; try done. set (t := (subscribe_thread_callback (new_ADThread None) 0).2).
  apply (Thread.reachable_step t (Properties THREAD_TYPE_MONOSHOT) None); [|reflexivity].
  apply (Thread.reachable_step (new_ADThread None) Subscribe None); [|reflexivity]. by apply Thread.reachable_new.
Qed.

(** *** The chains *)

Lemma push_ok c data n rc c' :
  chain_ok c -> n = Z.of_nat (length data) -> push_data_into_chain c data n = (rc, c') ->
  (n > MAX_RX_TX_CHUNK_SZ /\ rc = -1 /\ c' = c) \/
  (n <= MAX_RX_TX_CHUNK_SZ /\ rc = 0 /\ chain_ok c' /\
   exists id, Chain.items c' = Chain.items c ++ [{| ident := id; len := n; RxTxdata := data |}]).
Proof.
  intros [Ho Hs] -> E. unfold push_data_into_chain in E. destruct (Z.gtb_spec (Z.of_nat (length data)) MAX_RX_TX_CHUNK_SZ).
  - left. injection E as <- <-. split_and!; [lia|done|done].
  - right. unfold Chain.generate_ident, Chain.put in E. simpl in E. rewrite Ho in E. simpl in E. rewrite Nat2Z.id, take_ge in E by done. injection E as <- <-.
    split_and!; try done; [|by eexists]. constructor; [done|]. simpl. apply Forall_app. split; [done|]. by apply Forall_singleton.
Qed.
Lemma get_ok c d c' : chain_ok c -> Chain.get c = (d, c') ->
  chain_ok c' /\ match d with Some d => sized d /\ Chain.items c = d :: Chain.items c' | None => c' = c /\ Chain.items c = [] end.
Proof.
  intros [Ho Hs] E. unfold Chain.get in E. rewrite Ho in E. destruct (Chain.items c) as [|x l] eqn:Ei; injection E as <- <-.
  - split; [|done]. split; [done|]. by rewrite Ei.
  - apply Forall_cons in Hs as [Hx Hl]. by split.
Qed.
Lemma take_chunks_ok n c d c' : chain_ok c -> take_chunks c n = (d, c') ->
  chain_ok c' /\ concat (map RxTxdata (Chain.items c)) = d ++ concat (map RxTxdata (Chain.items c')).
Proof.
  revert c d c'. induction n as [|n IH]; intros c d c' Hc E; simpl in E; [by injection E as <- <-|].
  destruct (Chain.get c) as [[x|] c1] eqn:Eg; apply get_ok in Eg as [Hc1 Hx]; try done.
  - destruct (take_chunks c1 n) as [r c2] eqn:Er. apply IH in Er as [Hc2 Er]; [|done]. injection E as <- <-. split; [done|].
    destruct Hx as [_ ->]. simpl. by rewrite Er, (assoc_L (++)).
  - injection E as <- <-. destruct Hx as [-> Hx]. by rewrite Hx.
Qed.
Lemma empty_ok c : chain_ok c -> chain_ok (Chain.empty c).2.
Proof. intros [Ho _]. by split. Qed.

(** *** Every step keeps the invariant *)

Lemma ok_new junk b node : ok (new_ADSerial junk b node).
Proof. constructor; simpl; try done. intros _. exact helper_worker. Qed.

(** Only a thread changes, or only its callback goes on inside the lock. *)
Lemma ok_thread s w t : ok s -> worker_ok t (pcs s w) -> ok (with_thread s w t).
Proof.
  intros [Hw Hf Hl Hr Ht Er Es Hs] Hok. constructor; simpl; try done. intros v. destruct (decide (v = w)) as [->|].
  - by rewrite upd_same.
  - by rewrite upd_other.
Qed.
Lemma ok_wake s w : ok s -> ok (wake s w).
Proof. intros Hs. apply ok_thread; [done|]. by apply wakeup_worker, (o_workers s). Qed.
(** What is the same in all ways of moving a callback on. *)
Lemma moved s w pc : ok s -> inside (pcs s w) = true -> inside pc = true -> pc_fits w pc ->
  let f := upd (pcs s) w pc in
  (forall v, worker_ok (threads s v) (f v)) /\ (forall v, pc_fits v (f v)) /\
  (forall v, multi_callback_lock s = Some v <-> inside (f v) = true).
Proof.
  intros [Hw Hf Hl _ _ _ _ _] Hin Hin' Hfit f. unfold f. split_and!; intros v; (destruct (decide (v = w)) as [->|];
    [rewrite upd_same|rewrite upd_other by done]); try done.
  - destruct (Hw w) as [Hr Hty Hcon Hcb Hno Hb]. constructor; try done. rewrite <- Hcb. by destruct pc, (pcs s w).
  - rewrite Hl, Hin. by rewrite Hin'.
Qed.

Lemma ok_step_chains s c1 got gave : ok s -> chain_ok c1 -> got = gave ++ concat (map RxTxdata (Chain.items c1)) ++ read_ahead s -> ok (with_rx s c1 got gave).
Proof. intros [Hw Hf Hl Hr Ht Er Es Hs] Hc Hg. by constructor. Qed.
Lemma ok_step_sending s c n asked done : ok s -> chain_ok c -> Forall (fun p => p.2 `prefix_of` p.1) done ->
  asked = map fst done ++ on_its_way s ++ map RxTxdata (Chain.items c) -> ok (with_tx s c n asked done).
Proof. intros [Hw Hf Hl Hr Ht Er Es Hs] Hc Hd Ha. by constructor. Qed.

Lemma ok_schedule s data : ok s -> ok (schedule s data).2.
Proof.
  intros Hs. unfold schedule. destruct (push_data_into_chain _ _ _) as [rc c] eqn:Ep.
  destruct (push_ok _ _ _ _ _ (o_tx s Hs) eq_refl Ep) as [(_ & -> & _)|(_ & -> & Hc & id & Ei)]; simpl; [done|].
  apply ok_step_sending; try done; [by apply o_sent|]. by rewrite (o_scheduled s Hs), Ei, map_app, !(assoc_L (++)).
Qed.
Lemma ok_control s now b r s' : ok s -> control_step s now b = Some (r, s') -> ok s'.
Proof.
  intros Hs E. pose proof Hs as [Hw Hf Hl Hr Ht Er Es Hsent]. unfold control_step in E.
  assert (Hcall : forall w a l, match a with CallStart | CallStop _ => True | _ => False end ->
    ('(r, t) ← Thread.step (threads s w) (if decide (ctl (threads s w) = None) then a else CtlStep now b);
     Some (@None Z, match r with Some _ => set_control (with_thread s w t) l | None => with_thread s w t end)) = Some (r, s') -> ok s').
  { intros w a l Ha Ea. destruct (Thread.step _ _) as [[r' t]|] eqn:Et; [|done]. simpl in Ea.
    assert (worker_ok t (pcs s w)) as Hok.
    { eapply (outside_step _ _ _ _ _ (Hw w)); [|exact Et]. case_decide; [by destruct a|done]. }
    assert (ok (with_thread s w t)) as [] by by apply ok_thread. destruct r'; injection Ea as <- <-; by constructor. }
  destruct (control s) as [|[w| |w|w|] l]; [done| | | | |].
  - by apply (Hcall w CallStart l).
  - destruct b; injection E as <- <-; by constructor.
  - by apply (Hcall w (CallStop (-1)) l).
  - injection E as <- <-. destruct w.
    + apply ok_step_chains; [by constructor|by apply empty_ok|done].
    + apply ok_step_sending; [by constructor|by apply empty_ok|done|]. simpl. by rewrite app_nil_r.
    + apply ok_step_sending; [by constructor|by apply empty_ok|done|]. simpl. by rewrite app_nil_r.
  - injection E as <- <-. by constructor.
Qed.
(** A chunk's writing goes on, or it is done with. *)
Lemma ok_write s c n s' :
  ok s -> (pcs s Tx = Flush c \/ exists m, pcs s Tx = Write c m) -> 0 <= n <= len c -> write_from s c n = Some s' -> ok s'.
Proof.
  intros Hs Hpc Hn E. pose proof (o_fits s Hs Tx) as Hfit.
  assert (inside (pcs s Tx) = true /\ sized c) as [Hin Hc] by (destruct Hpc as [Hp|[m Hp]]; rewrite Hp in *; simpl in Hfit; tauto).
  unfold write_from, goto in E. pose proof Hs as [Hw Hf Hl Hr Ht Er Es Hsent].
  assert (on_its_way s = [RxTxdata c]) as Hway by (unfold on_its_way; destruct Hpc as [-> | [m ->]]; done).
  destruct (Z.ltb_spec n (len c)); injection E as <-.
  - destruct (moved s Tx (Write c n) Hs Hin eq_refl) as (Hw' & Hf' & Hl'); [simpl; split_and!; first [done|lia]|]. constructor; try done.
    simpl. by rewrite Es, Hway.
  - destruct (moved s Tx Unlock Hs Hin eq_refl) as (Hw' & Hf' & Hl'); [done|]. constructor; try done; simpl.
    + rewrite Es, Hway. unfold on_its_way. simpl. by rewrite map_app, <- !(assoc_L (++)).
    + apply Forall_app. split; [done|]. apply Forall_singleton. simpl. rewrite take_ge; [done|]. unfold sized in Hc. lia.
Qed.
(** The step to a place where nothing of the streams is in the callback's hands. *)
Lemma ok_goto s w pc :
  ok s -> inside (pcs s w) = true -> inside pc = true -> pc_fits w pc ->
  read_ahead (at_pc s w pc (multi_callback_lock s)) = read_ahead s ->
  on_its_way (at_pc s w pc (multi_callback_lock s)) = on_its_way s -> ok (at_pc s w pc (multi_callback_lock s)).
Proof.
  intros Hs Hin Hin' Hfit Hra Hway. pose proof Hs as [Hw Hf Hl Hr Ht Er Es Hsent].
  destruct (moved s w pc Hs Hin Hin' Hfit) as (Hw' & Hf' & Hl'). constructor; try done.
  - by rewrite Hra.
  - by rewrite Hway.
Qed.
Lemma lock_ok s w : ok s -> pcs s w = Lock -> multi_callback_lock s = None ->
  ok (at_pc s w (match w with Rx => Read | Tx => Take | Proc => Notify end) (Some w)).
Proof.
  intros [Hw Hf Hl Hr Ht Er Es Hsent] Hpc Hlock. constructor; try done; simpl.
  - intros v. destruct (decide (v = w)) as [->|]; [rewrite upd_same|by rewrite upd_other].
    destruct (Hw w) as [? ? ? Hcb ? ?]. constructor; try done. rewrite <- Hcb, Hpc. by destruct w.
  - intros v. destruct (decide (v = w)) as [->|]; [rewrite upd_same|by rewrite upd_other]. by destruct w.
  - intros v. destruct (decide (v = w)) as [->|Hne]; [rewrite upd_same|rewrite upd_other by done]; [by destruct w|].
    rewrite <- Hl, Hlock. split; [|done]. by intros [= ->].
  - rewrite Er. unfold read_ahead. simpl. destruct w; unfold upd; simpl; try done. by rewrite Hpc.
  - rewrite Es. unfold on_its_way. simpl. destruct w; unfold upd; simpl; try done. by rewrite Hpc.
Qed.
Lemma unlock_ok s w t : ok s -> pcs s w = Unlock -> callback_returns (threads s w) = Some t -> ok (with_thread (at_pc s w Idle None) w t).
Proof.
  intros [Hw Hf Hl Hr Ht Er Es Hsent] Hpc Et. constructor; try done; simpl.
  - intros v. destruct (decide (v = w)) as [->|]; [rewrite !upd_same|by rewrite !upd_other]. by eapply returns_worker.
  - intros v. destruct (decide (v = w)) as [->|]; [by rewrite upd_same|by rewrite upd_other].
  - assert (multi_callback_lock s = Some w) as Hlock by (apply Hl; by rewrite Hpc).
    intros v. destruct (decide (v = w)) as [->|Hne]; [by rewrite upd_same|rewrite upd_other by done].
    rewrite <- Hl, Hlock. split; [done|]. by intros [= ->].
  - rewrite Er. unfold read_ahead. simpl. destruct w; unfold upd; simpl; try done. by rewrite Hpc.
  - rewrite Es. unfold on_its_way. simpl. destruct w; unfold upd; simpl; try done. by rewrite Hpc.
Qed.
(** [write()] failed: the rest of the chunk is given up. *)
Lemma ok_give_up s c n : ok s -> pcs s Tx = Write c n ->
  ok (at_pc (chunk_done s c (take (Z.to_nat n) (RxTxdata c))) Tx Unlock (multi_callback_lock s)).
Proof.
  intros Hs Hpc. pose proof Hs as [Hw Hf Hl Hr Ht Er Es Hsent].
  destruct (moved s Tx Unlock Hs) as (Hw' & Hf' & Hl'); [by rewrite Hpc|done|done|]. constructor; try done; simpl.
  - rewrite Es. unfold on_its_way. rewrite Hpc. simpl. by rewrite map_app, <- !(assoc_L (++)).
  - apply Forall_app. split; [done|]. apply Forall_singleton. simpl. by apply prefix_take.
Qed.
Lemma ok_callback s w a s' : ok s -> callback s w a = Some s' -> ok s'.
Proof.
  intros Hs E. pose proof (o_fits s Hs w) as Hfit. unfold callback in E. destruct (pcs s w) as [| | | |b| | |c|c n|] eqn:Hpc, a; try discriminate E.
  - destruct (multi_callback_lock s) eqn:El; [done|]. injection E as <-. by apply lock_ok.
  - destruct (callback_returns _) as [t|] eqn:Et; [|done]. injection E as <-. by apply unlock_ok.
  - simpl in Hfit. subst w. assert (read_ahead s = []) as Hra by (unfold read_ahead; by rewrite Hpc).
    destruct b as [[|x b]|]; [|destruct (Z.leb_spec (Z.of_nat (length (x :: b))) (MAX_RX_TX_CHUNK_SZ - 1)); [|done]|]; injection E as <-.
    1, 3: apply ok_goto; by rewrite ?Hpc.
    pose proof Hs as [Hw Hf Hl Hr Ht Er Es Hsent]. destruct (moved s Rx (Push (x :: b)) Hs) as (Hw' & Hf' & Hl'); [by rewrite Hpc|done|split; [done|lia]|].
    constructor; try done. simpl. rewrite Er, Hra, app_nil_r. by rewrite (assoc_L (++)).
  - destruct Hfit as [-> Hb]. destruct (push_data_into_chain _ _ _) as [rc c] eqn:Ep.
    destruct (push_ok _ _ _ _ _ (o_rx s Hs) eq_refl Ep) as [(Hgt & _)|(_ & -> & Hc & id & Ei)]; [lia|]. injection E as <-.
    pose proof Hs as [Hw Hf Hl Hr Ht Er Es Hsent]. destruct (moved s Rx WakeProc Hs) as (Hw' & Hf' & Hl'); [by rewrite Hpc|done|done|].
    constructor; try done. simpl. rewrite Er, Ei. unfold read_ahead. rewrite Hpc. simpl.
    rewrite map_app, concat_app. simpl. by rewrite !app_nil_r.
  - simpl in Hfit. subst w. injection E as <-. apply (ok_goto (wake s Proc)); [by apply ok_wake|simpl; by rewrite Hpc|done|done|..].
    + unfold read_ahead. simpl. by rewrite Hpc.
    + done.
  - simpl in Hfit. subst w. destruct (Chain.get _) as [[d|] c] eqn:Eg; apply get_ok in Eg as [Hc Hd]; try apply (o_tx s Hs); injection E as <-.
    + pose proof Hs as [Hw Hf Hl Hr Ht Er Es Hsent]. destruct Hd as [Hd Ei].
      destruct (moved s Tx (Flush d) Hs) as (Hw' & Hf' & Hl'); [by rewrite Hpc|done|done|].
      constructor; try done. simpl. rewrite Es, Ei. unfold on_its_way. by rewrite Hpc.
    + apply ok_goto; try done; unfold on_its_way; by rewrite Hpc.
  - destruct Hfit as [-> Hc]. refine (ok_write _ c 0 _ _ (or_introl _) _ E); [by destruct Hs|exact Hpc|unfold sized in Hc; lia].
  - destruct Hfit as (-> & Hc & Hn). destruct (Z.ltb_spec n0 0); [injection E as <-; by apply ok_give_up|].
    destruct (Z.leb_spec n0 (len c - n)); [|done]. eapply (ok_write s c (n + n0)); [done|right; by eexists|lia|exact E].
  - simpl in Hfit. subst w. destruct (if subscribed s then _ else _) as [d c] eqn:Ed. injection E as <-.
    assert (chain_ok c /\ concat (map RxTxdata (Chain.items (rx_chain s))) = d ++ concat (map RxTxdata (Chain.items c))) as [Hc Ei].
    { destruct (subscribed s); [apply take_chunks_ok in Ed; [done|by apply o_rx]|]. injection Ed as <- <-. by split; [apply o_rx|]. }
    apply (ok_goto (with_rx s c _ _)); try done; [|simpl; by rewrite Hpc]. apply ok_step_chains; try done.
    by rewrite (o_received s Hs), Ei, !(assoc_L (++)).
Qed.
Lemma ok_thread_step s w i s' : ok s -> thread_step s w i = Some s' -> ok s'.
Proof.
  intros Hs E. unfold thread_step in E. destruct (my_thread_func _ _) as [t|] eqn:Et; [|done]. simpl in E. injection E as <-.
  apply thread_step_worker with (pc := pcs s w) in Et as [Hpc Hok]; [|by apply o_workers].
  case_decide; [|by apply ok_thread]. destruct Hs as [Hw Hf Hl Hr Ht Er Es Hsent]. constructor; try done; simpl.
  - intros v. destruct (decide (v = w)) as [->|]; [by rewrite !upd_same|by rewrite !upd_other].
  - intros v. destruct (decide (v = w)) as [->|]; [by rewrite !upd_same|by rewrite !upd_other].
  - intros v. rewrite Hl. destruct (decide (v = w)) as [->|]; [by rewrite upd_same, Hpc|by rewrite upd_other].
  - rewrite Er. unfold read_ahead. simpl. destruct w; unfold upd; simpl; try done. by rewrite Hpc.
  - rewrite Es. unfold on_its_way. simpl. destruct w; unfold upd; simpl; try done. by rewrite Hpc.
Qed.
Lemma ok_step s a r s' : ok s -> step s a = Some (r, s') -> ok s'.
Proof.
  intros Hs E. destruct a; simpl in E.
  - destruct (control s); [|done]. unfold start in E. repeat case_match; simplify_eq; by destruct Hs; constructor.
  - destruct (control s); [|done]. unfold stop in E. case_match; simplify_eq; [done|]. by destruct Hs; constructor.
  - by eapply ok_control.
  - injection E as E. assert (s' = (schedule s data).2) as -> by by rewrite E. by apply ok_schedule.
  - unfold schedule_wakes in E. destruct (callers s) as [|n]; simplify_eq/=. apply ok_wake. by destruct Hs; constructor.
  - unfold sigio_notification in E. destruct (connected s =? 0); injection E as <- <-; [done|by apply ok_wake].
  - destruct (thread_step _ _ _) eqn:Et; simplify_eq/=. by eapply ok_thread_step.
  - destruct (callback _ _ _) eqn:Et; simplify_eq/=. by eapply ok_callback.
  - simplify_eq/=. by destruct Hs; constructor.
  - unfold subscribe_data_arrival in E. destruct (subscribed s); injection E as <- <-; [done|]. by destruct Hs; constructor.
Qed.
Lemma serial_reachable_ok s : reachable s -> ok s.
Proof. induction 1 as [|s a r s' _ IH E]; [apply ok_new|by eapply ok_step]. Qed.

(** ** Order *)

(** In every interleaving, starts and stops among them: the bytes that were read are
    those the consumer took, then those in the chain, then those in the hands of the
    receiving thread, in this order; the chunks that were scheduled are those that were
    written, then the one that is being written, then those in the chain; of each chunk a
    prefix was written; and at most one callback is behind the lock. *)
Theorem serial_in_order s :
  reachable s ->
  received s = delivered s ++ concat (map RxTxdata (Chain.items (rx_chain s))) ++ read_ahead s /\
  scheduled s = map fst (sent s) ++ on_its_way s ++ map RxTxdata (Chain.items (tx_chain s)) /\
  Forall (fun p => p.2 `prefix_of` p.1) (sent s) /\
  (forall v w, inside (pcs s v) = true -> inside (pcs s w) = true -> v = w).
Proof.
  intros Hs%serial_reachable_ok. split_and!; [apply Hs..|]. intros v w Hv%(o_lock s Hs) Hw%(o_lock s Hs). congruence.
Qed.

(** ** Everything is sent *)

(** The threads run; no call is in between. *)
Definition working (s : ADSerial) : Prop := forall w, is_running (threads s w) = true /\ started (threads s w) = true.
(** Every thread sleeps, with no wake-up left. *)
Definition at_rest (s : ADSerial) : Prop := forall w, thread (threads s w) = Some TWait /\ one_shot_sema (threads s w) = 0.
(** The steps the three threads make by themselves, while [write()] writes. *)
Definition works (a : action) : bool :=
  match a with
  | ThreadGoes _ false => true
  | CallbackGoes _ (Wrote k) => 0 <? k
  | CallbackGoes _ _ => true
  | _ => false
  end.
(** Chunks without a wake-up: those in the chain, less the wake-ups that are not served
    and those still to come. *)
Definition before_take (pc : callback_pc) : Z := match pc with Lock | Take => 1 | _ => 0 end.
Definition lag (s : ADSerial) : Z :=
  Z.of_nat (length (Chain.items (tx_chain s))) - (woken (threads s Tx) - begun (threads s Tx)) - before_take (pcs s Tx) - Z.of_nat (callers s).

(** How many steps are left at most: of a thread for a wake-up, for its callback. *)
Definition turn (w : worker) : Z := match w with Rx => 14 | Tx => 7 | Proc => 6 end.
Definition pc_work (w : worker) (pc : callback_pc) : Z :=
  match pc with
  | Idle => 0 | Lock => turn w - 2 | Unlock => 2
  | Read => 11 | Push _ => 10 | WakeProc => 9
  | Take => 4 | Flush c => 3 + len c | Write c n => 2 + (len c - n)
  | Notify => 3
  end.
Definition thread_work (w : worker) (t : ADThread) : Z :=
  turn w * one_shot_sema t + match thread t with Some TRecheck => turn w - 1 | Some TLoop => 1 | _ => 0 end.
Definition bytes_left (s : ADSerial) : Z := foldr Z.add 0 (map len (Chain.items (tx_chain s))).
Definition worker_work (s : ADSerial) (w : worker) : Z := thread_work w (threads s w) + pc_work w (pcs s w).
Definition work (s : ADSerial) : Z := worker_work s Rx + worker_work s Tx + worker_work s Proc + bytes_left s.

(** What a step of the threads leaves as it is. *)
Definition same_run (s s' : ADSerial) : Prop := working s' /\ callers s' = callers s /\ scheduled s' = scheduled s /\
  (sent s' = sent s \/ exists d, sent s' = sent s ++ [(d, d)]).

Lemma thread_moves t i t' :
  th_type t = THREAD_TYPE_MONOSHOT -> consumer t = true -> active t = true -> own_call t = false ->
  thread_ok t -> my_thread_func t i = Some t' ->
  active t' = true /\ started t' = started t /\ woken t' = woken t /\
  begun t' = begun t + (if decide (thread t' = Some TCallback) then 1 else 0) /\
  (i = false -> forall w, thread_work w t' + (if decide (thread t' = Some TCallback) then turn w - 2 else 0) < thread_work w t).
Proof.
  intros Hty Hcon Hact Hno Ht E. unfold my_thread_func, call_back, Thread.goto in E. rewrite Hcon, Hty, Hact in E.
  unfold thread_work, own_call, thread_ok in *.
  destruct (thread t) as [[]|] eqn:Eth; try discriminate E; simpl in E.
  - injection E as <-. simpl. split_and!; try done; [lia|]. intros. lia.
  - destruct i; [injection E as <-; simpl; split_and!; try done; lia|]. destruct (Z.gtb_spec (one_shot_sema t) 0); [|done].
    injection E as <-. simpl. split_and!; try done; [lia|]. intros. lia.
  - injection E as <-. simpl. split_and!; try done. intros. lia.
  - by rewrite Hty in Ht.
  - by rewrite Hact in Ht.
Qed.

Lemma working_reachable s w : ok s -> working s ->
  active (threads s w) = true /\ th_type (threads s w) = THREAD_TYPE_MONOSHOT /\ consumer (threads s w) = true /\ own_call (threads s w) = false /\
  Thread.ok (threads s w).
Proof.
  intros Hs Hw. destruct (Hw w) as [Hr _], (o_workers s Hs w) as [Hre%thread_reachable_ok Hty Hcon _ Hno _]. unfold is_running, stop_requested in Hr.
  by rewrite negb_involutive in Hr.
Qed.
(** One thread changes, and goes on working. *)
Lemma working_thread s w t : working s -> active t = true -> started t = started (threads s w) -> working (with_thread s w t).
Proof.
  intros Hw Ha Hst v. simpl. unfold is_running, stop_requested. destruct (decide (v = w)) as [->|]; [rewrite upd_same|rewrite upd_other by done; apply Hw].
  rewrite negb_involutive, Hst. split; [done|apply Hw].
Qed.
Lemma thread_step_progress s w s' : ok s -> working s -> thread_step s w false = Some s' -> same_run s s' /\ work s' < work s.
Proof.
  intros Hs Hw E. destruct (working_reachable s w Hs Hw) as (Ha & Hty & Hcon & Hno & [_ _ _ Ht _]). unfold thread_step in E.
  destruct (my_thread_func _ _) as [t|] eqn:Et; [|done]. simpl in E.
  destruct (thread_step_worker _ _ _ _ (o_workers s Hs w) Et) as [Hpc _].
  destruct (thread_moves _ _ _ Hty Hcon Ha Hno Ht Et) as (Ha' & Hst & _ & _ & Hwork). specialize (Hwork eq_refl w).
  pose proof (working_thread s w t Hw Ha' Hst) as Hw'. injection E as <-. split.
  - case_decide; split_and!; try done; by left.
  - unfold work, worker_work, bytes_left. case_decide; destruct w; simpl in *; unfold upd; simpl; rewrite Hpc; simpl; lia.
Qed.
Lemma returns_progress s w t : ok s -> working s -> callback_returns (threads s w) = Some t ->
  active t = true /\ started t = started (threads s w) /\ thread_work w t = thread_work w (threads s w) + 1.
Proof.
  intros Hs Hw E. destruct (working_reachable s w Hs Hw) as (Ha & Hty & _). unfold callback_returns, Thread.goto in E. unfold thread_work.
  destruct (thread _) as [[]|] eqn:Eth; try discriminate E. rewrite Hty in E. injection E as <-. simpl. split_and!; try done. lia.
Qed.
Lemma wake_work s w : ok s -> thread_work w (wakeup_thread (threads s w)).2 = thread_work w (threads s w) + turn w.
Proof. intros Hs. destruct (o_workers s Hs w) as [_ Hty _ _ _ _]. unfold wakeup_thread, thread_work. rewrite Hty. simpl. lia. Qed.
Lemma working_wake s w : working s -> working (wake s w).
Proof. intros Hw. apply working_thread; [done|..]; destruct (Hw w) as [Hr _]; unfold wakeup_thread, is_running, stop_requested in *; simpl; case_decide; simpl; try done; by rewrite negb_involutive in Hr. Qed.
Lemma write_progress s c n s' : sized c -> 0 <= n <= len c -> write_from s c n = Some s' ->
  threads s' = threads s /\ callers s' = callers s /\ scheduled s' = scheduled s /\ tx_chain s' = tx_chain s /\
  (sent s' = sent s \/ exists d, sent s' = sent s ++ [(d, d)]) /\
  (exists pc, pcs s' = upd (pcs s) Tx pc /\ pc_work Tx pc = 2 + (len c - n)).
Proof.
  intros Hc Hn E. unfold write_from, goto in E. destruct (Z.ltb_spec n (len c)); injection E as <-; simpl; split_and!; try done.
  - by left.
  - by eexists.
  - right. exists (RxTxdata c). do 3 f_equal. apply take_ge. unfold sized in Hc. lia.
  - eexists. split; [done|]. simpl. lia.
Qed.
(** A callback goes on to [pc]: less is left by what its places say. *)
Lemma goes_on s s1 w pc lock :
  working s -> threads s1 = threads s -> pcs s1 = pcs s -> callers s1 = callers s -> scheduled s1 = scheduled s -> sent s1 = sent s ->
  pc_work w pc + bytes_left s1 < pc_work w (pcs s w) + bytes_left s ->
  same_run s (at_pc s1 w pc lock) /\ work (at_pc s1 w pc lock) < work s.
Proof.
  intros Hw E1 E2 E3 E4 E5 Hlt. split.
  - split_and!; simpl; try done; [|by left]. intros v. simpl. rewrite E1. apply Hw.
  - unfold work, worker_work. simpl. rewrite E1, E2. unfold bytes_left in *. destruct w; unfold upd; simpl in *; lia.
Qed.
(** The writing of a chunk goes on. *)
Lemma writes_on s s1 c n s' :
  working s -> threads s1 = threads s -> pcs s1 = pcs s -> callers s1 = callers s -> scheduled s1 = scheduled s -> sent s1 = sent s ->
  tx_chain s1 = tx_chain s -> sized c -> 0 <= n <= len c -> 2 + (len c - n) < pc_work Tx (pcs s Tx) -> write_from s1 c n = Some s' ->
  same_run s s' /\ work s' < work s.
Proof.
  intros Hw E1 E2 E3 E4 E5 E6 Hc Hn Hlt E. destruct (write_progress _ _ _ _ Hc Hn E) as (F1 & F2 & F3 & F4 & F5 & pc & F6 & F7).
  split; [split_and!; try congruence|].
  - intros v. rewrite F1, E1. apply Hw.
  - by rewrite <- E5.
  - unfold work, worker_work, bytes_left. rewrite F1, E1, F6, E2, F4, E6. unfold upd. simpl. lia.
Qed.
Lemma callback_progress s w a s' : ok s -> working s -> works (CallbackGoes w a) = true -> callback s w a = Some s' ->
  same_run s s' /\ work s' < work s.
Proof.
  intros Hs Hw Ha E. pose proof (o_fits s Hs w) as Hfit. unfold callback in E. destruct (pcs s w) as [| | | |b| | |c|c n|] eqn:Hpc, a; try discriminate E.
  - destruct (multi_callback_lock s); [done|]. injection E as <-. apply goes_on; try done. rewrite Hpc. destruct w; simpl; lia.
  - destruct (callback_returns _) as [t|] eqn:Et; [|done]. injection E as <-. destruct (returns_progress s w t Hs Hw Et) as (Hact & Hst & Hk).
    split; [split_and!; try done; [by apply (working_thread (at_pc s w Idle None))|by left]|].
    unfold work, worker_work, bytes_left. destruct w; simpl; unfold upd; simpl; rewrite Hpc; simpl; lia.
  - simpl in Hfit. subst w. destruct b as [[|x b]|]; [|destruct (_ <=? _); [|done]|]; injection E as <-; apply goes_on; try done;
      unfold bytes_left; rewrite Hpc; simpl; lia.
  - destruct Hfit as [-> Hb]. destruct (push_data_into_chain _ _ _) as [rc c]. injection E as <-. apply goes_on; try done.
    unfold bytes_left. rewrite Hpc. case_decide; simpl; lia.
  - simpl in Hfit. subst w. injection E as <-. split; [split_and!; try done; [by apply working_wake|by left]|].
    pose proof (wake_work s Proc Hs) as Hk. unfold work, worker_work, bytes_left. simpl. unfold upd. simpl. rewrite Hpc. simpl in *. lia.
  - simpl in Hfit. subst w. destruct (Chain.get _) as [[d|] c] eqn:Eg; apply get_ok in Eg as [Hc Hd]; try apply (o_tx s Hs); injection E as <-;
      apply goes_on; try done; unfold bytes_left; rewrite Hpc; simpl; [destruct Hd as [_ ->]; simpl|]; lia.
  - destruct Hfit as [-> Hc]. eapply writes_on; try exact E; try done; [unfold sized in Hc; lia|]. rewrite Hpc. simpl. lia.
  - destruct Hfit as (-> & Hc & Hn). simpl in Ha. apply Z.ltb_lt in Ha. destruct (Z.ltb_spec n0 0); [lia|].
    destruct (Z.leb_spec n0 (len c - n)); [|done]. eapply writes_on; try exact E; try done; [lia|]. rewrite Hpc. simpl. lia.
  - simpl in Hfit. subst w. destruct (if subscribed s then _ else _) as [d c]. injection E as <-. apply goes_on; try done.
    unfold bytes_left. rewrite Hpc. simpl. lia.
Qed.
Lemma work_progress s a r s' : ok s -> working s -> works a = true -> step s a = Some (r, s') -> same_run s s' /\ work s' < work s.
Proof.
  intros Hs Hw Ha E. destruct a as [| | | | | |w []|w a| |]; try discriminate Ha; simpl in E.
  - destruct (thread_step _ _ _) eqn:Et; [|done]. injection E as <- <-. by eapply thread_step_progress.
  - destruct (callback _ _ _) eqn:Et; [|done]. injection E as <- <-. by eapply callback_progress.
Qed.
Lemma work_nonneg s : ok s -> 0 <= work s.
Proof.
  intros Hs. assert (0 <= bytes_left s) as Hb.
  { unfold bytes_left. pose proof (c_sized _ (o_tx s Hs)) as Hz. induction Hz as [|c l Hc _ IH]; simpl; [lia|]. unfold sized in Hc. lia. }
  assert (forall w, 0 <= worker_work s w) as Hk.
  { intros w. unfold worker_work, thread_work. pose proof (o_fits s Hs w) as Hf.
    pose proof (o_sema _ (thread_reachable_ok _ (w_reachable _ _ (o_workers s Hs w)))).
    assert (0 < turn w) by by destruct w. assert (0 <= pc_work w (pcs s w)).
    { destruct (pcs s w); simpl in *; try lia; destruct w; simpl; unfold sized in *; destruct_and?; lia. }
    destruct (thread _) as [[]|]; nia. }
  unfold work. pose proof (Hk Rx). pose proof (Hk Tx). pose proof (Hk Proc). lia.
Qed.

(** *** Chunks without a wake-up stay as many *)

Lemma thread_begins t i t' :
  consumer t = true -> my_thread_func t i = Some t' ->
  woken t' = woken t /\ begun t' = begun t + (if decide (thread t' = Some TCallback) then 1 else 0).
Proof.
  intros Hcon E. unfold my_thread_func, call_back, Thread.goto in E. rewrite Hcon in E.
  destruct (thread t) as [[]|]; try discriminate E; repeat (case_match || case_decide); simplify_eq/=; split; lia.
Qed.
Lemma lag_callback s w a s' : ok s -> 0 <= lag s -> callback s w a = Some s' -> lag s' = lag s.
Proof.
  intros Hs Hlag E. pose proof (o_fits s Hs w) as Hfit. unfold callback in E. destruct (pcs s w) as [| | | |b| | |c|c n|] eqn:Hpc, a; try discriminate E.
  - destruct (multi_callback_lock s); [done|]. injection E as <-. unfold lag. destruct w; simpl; unfold upd; simpl; rewrite ?Hpc; simpl; lia.
  - destruct (callback_returns _) as [t|] eqn:Et; [|done]. injection E as <-. unfold callback_returns, Thread.goto in Et.
    destruct (thread (threads s w)) as [[]|]; simplify_eq. unfold lag. destruct w; simpl; unfold upd; simpl; rewrite ?Hpc; simpl; lia.
  - simpl in Hfit. subst w. destruct b as [[|x b]|]; [|destruct (_ <=? _); [|done]|]; injection E as <-; done.
  - destruct Hfit as [-> Hb]. destruct (push_data_into_chain _ _ _) as [rc c]. injection E as <-. done.
  - simpl in Hfit. subst w. injection E as <-. done.
  - simpl in Hfit. subst w. pose proof (w_begun _ _ (o_workers s Hs Tx)) as Hb. unfold lag in Hlag. rewrite Hpc in Hlag. simpl in Hlag.
    destruct (Chain.get _) as [[d|] c] eqn:Eg; apply get_ok in Eg as [Hc Hd]; try apply (o_tx s Hs); injection E as <-.
    + destruct Hd as [_ Ei]. unfold lag. simpl. unfold upd. simpl. rewrite Hpc, Ei. simpl. lia.
    + destruct Hd as [_ Ei]. rewrite Ei in Hlag. simpl in Hlag. lia.
  - destruct Hfit as [-> Hc]. unfold write_from, goto in E. destruct (0 <? len c); injection E as <-; unfold lag; simpl; unfold upd; simpl; by rewrite Hpc.
  - destruct Hfit as (-> & Hc & Hn). destruct (n0 <? 0); [injection E as <-; unfold lag; simpl; unfold upd; simpl; by rewrite Hpc|].
    destruct (_ <=? _); [|done]. unfold write_from, goto in E. destruct (_ <? len c); injection E as <-; unfold lag; simpl; unfold upd; simpl; by rewrite Hpc.
  - simpl in Hfit. subst w. destruct (if subscribed s then _ else _) as [d c]. by injection E as <-.
Qed.
(** Nobody starts or stops the port. *)
Definition keeps_running (a : action) : bool := match a with DoStart _ | DoStop | DoControl _ _ => false | _ => true end.
(** Sending, being woken up, and all that the threads do leaves as many chunks without a
    wake-up as there were: a wake-up comes with each new chunk, and each takes one out. *)
Lemma lag_step s a r s' : ok s -> 0 <= lag s -> keeps_running a = true -> step s a = Some (r, s') -> lag s' = lag s.
Proof.
  intros Hs Hlag Ha E. destruct a as [| | |data| | |w i|w a| |]; try discriminate Ha; simpl in E.
  - injection E as E. unfold schedule in E. destruct (push_data_into_chain _ _ _) as [rc c] eqn:Ep.
    destruct (push_ok _ _ _ _ _ (o_tx s Hs) eq_refl Ep) as [(_ & -> & _)|(_ & -> & Hc & id & Ei)]; injection E as <- <-; [done|].
    unfold lag. simpl. rewrite Ei, length_app. simpl. lia.
  - unfold schedule_wakes in E. destruct (callers s) as [|n] eqn:En; [done|]. injection E as <- <-.
    unfold lag. simpl. unfold upd, wakeup_thread. simpl. rewrite (w_type _ _ (o_workers s Hs Tx)), En. simpl. lia.
  - unfold sigio_notification in E. destruct (connected s =? 0); by injection E as <- <-.
  - unfold thread_step in E. destruct (my_thread_func _ _) as [t|] eqn:Et; [|done]. injection E as <- <-.
    destruct (thread_step_worker _ _ _ _ (o_workers s Hs w) Et) as [Hpc _].
    destruct (thread_begins _ _ _ (w_consumer _ _ (o_workers s Hs w)) Et) as [Hwo Hbe].
    unfold lag. case_decide; destruct w; simpl in *; unfold upd; simpl; rewrite ?Hpc; simpl; lia.
  - destruct (callback _ _ _) eqn:Et; [|done]. injection E as <- <-. by eapply lag_callback.
  - by injection E as <- <-.
  - unfold subscribe_data_arrival in E. destruct (subscribed s); by injection E as <- <-.
Qed.

(** *** The threads do not wait for each other *)

(** A callback behind the lock goes on. *)
Lemma inside_goes s w : ok s -> working s -> inside (pcs s w) = true -> exists a s', works (CallbackGoes w a) = true /\ callback s w a = Some s'.
Proof.
  intros Hs Hw Hin. pose proof (o_fits s Hs w) as Hfit. unfold callback. destruct (pcs s w) as [| | | |b| | |c|c n|] eqn:Hpc; try discriminate Hin.
  - exists NoAnswer. unfold callback_returns. destruct (o_workers s Hs w) as [_ _ _ [-> _] _ _]; [by eexists|]. by rewrite Hpc.
  - exists (Bytes None). by eexists.
  - exists NoAnswer. destruct (push_data_into_chain _ _ _). by eexists.
  - exists NoAnswer. by eexists.
  - exists NoAnswer. destruct (Chain.get _) as [[]]; by eexists.
  - exists NoAnswer. unfold write_from, goto. destruct (_ <? _); by eexists.
  - destruct Hfit as (_ & _ & Hn). exists (Wrote (len c - n)). unfold write_from, goto.
    destruct (Z.ltb_spec (len c - n) 0), (Z.leb_spec (len c - n) (len c - n)); try lia. simpl.
    destruct (Z.ltb_spec 0 (len c - n)); [|lia]. destruct (_ <? _); by eexists.
  - exists (Took 0). destruct (if subscribed s then _ else _). by eexists.
Qed.
Lemma rest_or_step s : ok s -> working s -> at_rest s \/ exists a r s', works a = true /\ step s a = Some (r, s').
Proof.
  intros Hs Hw.
  assert (forall w, (thread (threads s w) = Some TWait /\ one_shot_sema (threads s w) = 0) \/ exists a r s', works a = true /\ step s a = Some (r, s')) as H.
  { intros w. destruct (working_reachable s w Hs Hw) as (Ha & Hty & Hcon & Hno & [Hsem _ _ Ht _]).
    destruct (o_workers s Hs w) as [Hr _ _ Hcb _ _]. destruct (Hw w) as [_ Hst].
    destruct (one_thread _ Hr) as (_ & _ & _ & Hend & Hex). specialize (Hex Hst). unfold stop_requested in Hend.
    assert (forall t, my_thread_func (threads s w) false = Some t -> exists a r s', works a = true /\ step s a = Some (r, s')) as Hgo.
    { intros t Et. exists (ThreadGoes w false), None. simpl. unfold thread_step. rewrite Et. by eexists. }
    unfold my_thread_func, call_back, Thread.goto, own_call, thread_ok in *. rewrite Ha, Hcon, Hty in *.
    destruct (thread (threads s w)) as [[]|]; try done; try (right; by eapply Hgo).
    - destruct (Z.gtb_spec (one_shot_sema (threads s w)) 0); [right; by eapply Hgo|]. left. split; [done|lia].
    - right. destruct (decide (pcs s w = Lock)) as [Hl|Hl].
      + destruct (multi_callback_lock s) as [v|] eqn:Elock.
        * destruct (inside_goes s v Hs Hw) as (a & s' & Hwa & Ea); [by apply (o_lock s Hs)|].
          exists (CallbackGoes v a), None, s'. simpl. by rewrite Ea.
        * exists (CallbackGoes w NoAnswer), None. simpl. unfold callback. rewrite Hl, Elock. by eexists.
      + destruct (inside_goes s w Hs Hw) as (a & s' & Hwa & Ea).
        { assert (pcs s w <> Idle) by by apply Hcb. by destruct (pcs s w). }
        exists (CallbackGoes w a), None, s'. simpl. by rewrite Ea.
  }
  destruct (H Rx) as [HR|]; [|by right]. destruct (H Tx) as [HT|]; [|by right]. destruct (H Proc) as [HP|]; [|by right].
  left. by intros [].
Qed.

(** *** What was scheduled is sent *)

Lemma work_run l s s' : ok s -> working s -> 0 <= lag s -> forallb works l = true -> run s l = Some s' ->
  ok s' /\ working s' /\ callers s' = callers s /\ scheduled s' = scheduled s /\ lag s' = lag s /\
  Z.of_nat (length l) + work s' <= work s /\ exists rest, sent s' = sent s ++ map (fun d => (d, d)) rest.
Proof.
  revert s. induction l as [|a l IH]; intros s Hs Hw Hlag Hl E; simpl in *.
  - injection E as <-. split_and!; try done. exists []. by rewrite app_nil_r.
  - apply andb_true_iff in Hl as [Ha Hl]. destruct (step s a) as [[r s1]|] eqn:E1; [|done]. simpl in E.
    destruct (work_progress s a r s1 Hs Hw Ha E1) as [(Hw1 & Ec & Esch & Esent) Hlt].
    pose proof (ok_step s a r s1 Hs E1) as Hs1. assert (lag s1 = lag s) as Elag by (eapply lag_step; eauto; by destruct a).
    destruct (IH s1 Hs1 Hw1 ltac:(lia) Hl E) as (Hs' & Hw' & Ec' & Esch' & Elag' & Hlen & rest & Er).
    split_and!; try congruence; try done; [lia|]. destruct Esent as [Esent|[d Esent]]; rewrite Er, Esent; [by exists rest|].
    exists (d :: rest). by rewrite <- (assoc_L (++)).
Qed.
(** With nothing to do, as many chunks are left as had no wake-up. *)
Lemma rest_leaves s : ok s -> working s -> callers s = 0%nat -> at_rest s ->
  on_its_way s = [] /\ Z.of_nat (length (Chain.items (tx_chain s))) = lag s.
Proof.
  intros Hs Hw Hc Hrest. destruct (Hrest Tx) as [Eth Esem], (o_workers s Hs Tx) as [Hr Hty Hcon Hcb _ _], (Hw Tx) as [Hrun _].
  assert (pcs s Tx = Idle) as Hpc.
  { destruct (decide (pcs s Tx = Idle)) as [|Hn]; [done|]. apply Hcb in Hn. congruence. }
  destruct (wakeups_served _ _ Hr Hty Hcon Hrun Eth) as (_ & _ & Hb). unfold my_thread_func in Hb. rewrite Eth, Esem in Hb.
  specialize (Hb eq_refl eq_refl). unfold on_its_way, lag. rewrite Hpc, Hc. simpl. split; [done|lia].
Qed.

(** The port goes on running, whatever is asked of it but to stop. *)
Lemma working_step s a r s' : ok s -> working s -> keeps_running a = true -> step s a = Some (r, s') -> working s'.
Proof.
  intros Hs Hw Ha E. destruct a as [| | |data| | |w i|w a| |]; try discriminate Ha; simpl in E.
  - unfold schedule in E. destruct (push_data_into_chain _ _ _). case_decide; by injection E as <- <-.
  - unfold schedule_wakes in E. destruct (callers s); [done|]. injection E as <- <-. by apply working_wake.
  - unfold sigio_notification in E. destruct (connected s =? 0); injection E as <- <-; [done|by apply working_wake].
  - unfold thread_step in E. destruct (my_thread_func _ _) as [t|] eqn:Et; [|done]. injection E as <- <-.
    destruct (working_reachable s w Hs Hw) as (Hact & Hty & Hcon & Hno & [_ _ _ Ht _]).
    destruct (thread_moves _ _ _ Hty Hcon Hact Hno Ht Et) as (Ha' & Hst & _). pose proof (working_thread s w t Hw Ha' Hst). by case_decide.
  - destruct (callback _ _ _) as [s1|] eqn:Ec; [|done]. injection E as <- <-. unfold callback, write_from, goto in Ec.
    destruct (pcs s w), a; try discriminate Ec; try (repeat (case_match || case_decide); try done; by injection Ec as <-).
    + destruct (callback_returns _) as [t|] eqn:Et; [|done]. injection Ec as <-. destruct (returns_progress s w t Hs Hw Et) as (Hact & Hst & _).
      by apply (working_thread (at_pc s w Idle None)).
    + injection Ec as <-. by apply (working_wake s Proc).
  - by injection E as <- <-.
  - unfold subscribe_data_arrival in E. destruct (subscribed s); by injection E as <- <-.
Qed.
Lemma running_run l s s' : ok s -> working s -> 0 <= lag s -> forallb keeps_running l = true -> run s l = Some s' ->
  ok s' /\ working s' /\ lag s' = lag s.
Proof.
  revert s. induction l as [|a l IH]; intros s Hs Hw Hlag Hl E; simpl in *; [by injection E as <-|].
  apply andb_true_iff in Hl as [Ha Hl]. destruct (step s a) as [[r s1]|] eqn:E1; [|done]. simpl in E.
  pose proof (lag_step s a r s1 Hs Hlag Ha E1) as Elag. rewrite <- Elag. apply IH; try done; [by eapply ok_step|by eapply working_step|lia].
Qed.

(** C40: From a port that runs, let chunks be scheduled, signals come, and its threads go
    on, in any order and as long as it is not stopped.  Whenever no more is asked of it and
    [write()] does not fail, the three threads come to rest after a number of steps that is
    known from the start, and they do not stop before.  Then every chunk that was scheduled
    is done with, those since then were written whole, once and in order, and what is left
    in the chain are the newest chunks, as many as had no wake-up in the beginning.  Those
    are the ones scheduled before [start()], which drops the wake-ups but not the chunks. *)
Theorem scheduled_is_sent s l1 s1 l2 s2 :
  reachable s -> working s -> 0 <= lag s -> forallb keeps_running l1 = true -> run s l1 = Some s1 ->
  callers s1 = 0%nat -> forallb works l2 = true -> run s1 l2 = Some s2 ->
  Z.of_nat (length l2) <= work s1 /\
  (at_rest s2 \/ exists a r s3, works a = true /\ step s2 a = Some (r, s3)) /\
  (at_rest s2 -> exists rest,
    sent s2 = sent s1 ++ map (fun d => (d, d)) rest /\
    scheduled s1 = map fst (sent s1) ++ rest ++ map RxTxdata (Chain.items (tx_chain s2)) /\
    Z.of_nat (length (Chain.items (tx_chain s2))) = lag s).
Proof.
  intros Hs%serial_reachable_ok Hw Hlag Hl1 E1 Hc Hl2 E2.
  destruct (running_run l1 s s1 Hs Hw Hlag Hl1 E1) as (Hs1 & Hw1 & Elag1).
  destruct (work_run l2 s1 s2 Hs1 Hw1 ltac:(lia) Hl2 E2) as (Hs2 & Hw2 & Ec & Esch & Elag & Hlen & rest & Er).
  pose proof (work_nonneg s2 Hs2). split_and!; [lia|by apply rest_or_step|]. intros Hrest. exists rest.
  destruct (rest_leaves s2 Hs2 Hw2 ltac:(congruence) Hrest) as [Hway Hleft]. split_and!; [done| |lia].
  by rewrite <- Esch, (o_scheduled s2 Hs2), Hway, Er, map_app, map_map, map_id, <- (assoc_L (++)).
Qed.

(** ** Examples *)

Definition port0 : ADSerial := new_ADSerial (0, 0) 115200 "/dev/ttyUSB0".
Definition setup : list action := [AttachTimer; SubscribeData].
Definition starting : list action := DoStart 5 :: repeat (DoControl 0 true) 22.
Definition result (l : list action) : ADSerial := default port0 (run port0 l).
Definition hello : list Z := [104; 101; 108; 108; 111].
(** A turn of the sending thread, with two writes of a chunk of five bytes. *)
Definition to_write : list action := repeat (ThreadGoes Tx false) 3 ++ repeat (CallbackGoes Tx NoAnswer) 3.
Definition writing : list action :=
  to_write ++ [CallbackGoes Tx (Wrote 2); CallbackGoes Tx (Wrote 3); CallbackGoes Tx NoAnswer; ThreadGoes Tx false].
Example started_ex : control (result (setup ++ starting)) = [] /\ connected (result (setup ++ starting)) = 1.
Proof. vm_compute. done. Qed.
Definition asleep : list action := [ThreadGoes Rx false; ThreadGoes Proc false].
Definition other : list Z := [1; 2; 3; 4; 5].

Lemma port_run_reachable l s s' : reachable s -> run s l = Some s' -> reachable s'.
Proof.
  revert s. induction l as [|a l IH]; intros s Hs E; simpl in E; [by injection E as <-|].
  destruct (step s a) as [[r s1]|] eqn:E1; [|done]. simpl in E. eapply IH; [|exact E]. by eapply reachable_step.
Qed.
Lemma run_default l s : match run s l with Some _ => true | None => false end = true -> run s l = Some (default s (run s l)).
Proof. by destruct (run s l). Qed.
Lemma result_reachable l : reachable (result l).
Proof.
  unfold result. destruct (run port0 l) as [s|] eqn:E; simpl; [|by apply reachable_new].
  refine (port_run_reachable l port0 s _ E). by apply reachable_new.
Qed.

(** A chunk scheduled before [start()] stays in the chain, and from then on every chunk is
    sent when the next one is scheduled. *)
Example scheduled_early :
  let s := result (setup ++ [Schedule hello; ScheduleWakes] ++ starting) in
  let s' := default s (run s ([Schedule other; ScheduleWakes] ++ writing)) in
  lag s = 1 /\ sent s' = [(hello, hello)] /\ map RxTxdata (Chain.items (tx_chain s')) = [other] /\ step s' (ThreadGoes Tx false) = None.
Proof. vm_compute. done. Qed.
(** When the last call of [start()] fails, the threads run on, and [stop()] finds nothing
    to stop. *)
Example failed_start :
  let s := result (setup ++ [DoStart 5] ++ repeat (DoControl 0 true) 21 ++ [DoControl 0 false]) in
  control s = [] /\ fd s = None /\ started (threads s Rx) = true /\ stop s = (Some 0, s).
Proof. vm_compute. done. Qed.
(** What is read stays in the chain of an [ADSerialProto]. *)
Definition reading (b : list Z) : list action :=
  Sigio :: repeat (ThreadGoes Rx false) 3 ++ [CallbackGoes Rx NoAnswer; CallbackGoes Rx (Bytes (Some b))] ++ repeat (CallbackGoes Rx NoAnswer) 3.
Definition telling (a : answer) : list action :=
  repeat (ThreadGoes Proc false) 3 ++ [CallbackGoes Proc NoAnswer; CallbackGoes Proc a; CallbackGoes Proc NoAnswer].
Example proto_keeps :
  let s := result (setup ++ starting ++ reading hello ++ telling proto_arrival) in
  received s = hello /\ delivered s = [] /\ map RxTxdata (Chain.items (rx_chain s)) = [hello].
Proof. vm_compute. done. Qed.
Example consumer_takes :
  let s := result (setup ++ starting ++ reading hello ++ telling (Took 1)) in
  received s = hello /\ delivered s = hello /\ Chain.items (rx_chain s) = [].
Proof. vm_compute. done. Qed.

Definition ask : list action := [Schedule hello; ScheduleWakes].
Lemma scheduled_is_sent_witness :
  let s := result (setup ++ starting) in
  let s1 := default s (run s ask) in
  let s2 := default s1 (run s1 (writing ++ asleep)) in
  lag s = 0 /\ at_rest s2 /\ exists rest, sent s2 = sent s1 ++ map (fun d => (d, d)) rest /\
    scheduled s1 = map fst (sent s1) ++ rest ++ map RxTxdata (Chain.items (tx_chain s2)) /\
    Z.of_nat (length (Chain.items (tx_chain s2))) = lag s.
Proof.
  intros s s1 s2. assert (lag s = 0) as Hlag by (vm_compute; reflexivity). assert (at_rest s2) as Hrest by (intros []; vm_compute; split; reflexivity).
  split; [exact Hlag|]. split; [exact Hrest|].
  refine (proj2 (proj2 (scheduled_is_sent s ask s1 (writing ++ asleep) s2 _ _ _ _ _ _ _ _)) Hrest).
  - apply result_reachable.
  - intros []; vm_compute; split; reflexivity.
  - rewrite Hlag. reflexivity.
  - vm_compute. reflexivity.
  - apply run_default. vm_compute. reflexivity.
  - vm_compute. reflexivity.
  - vm_compute. reflexivity.
  - apply run_default. vm_compute. reflexivity.
Defined.
