(* ===== verification/Devices.v ===== *)
(** * Registers and minutes (ADFpgaMem.cpp, ADRuntimeMinCounter.cpp)

    Two small classes of the library.  [ADFpgaMem] reads and writes 16-bit registers in a
    mapped device, or in memory of its own when it emulates the device; the theorems say
    what its bits are after a write, and that a mapping that worked is taken for one that
    did not.  [ADRuntimeMinCounter] counts minutes from a heartbeat and the machine's
    uptime; the theorem says how far its count may fall behind. *)
From S2P Require Import Prelude Common.
Open Scope Z_scope.

Module Fpga.

Inductive ADFPGA_MEM_ACC := ADFPGA_MEM_ACC_OFF | ADFPGA_MEM_ACC_ON | ADFPGA_MEM_ACC_UNKNOWN | ADFPGA_MEM_ACC_NONE.
#[export] Instance ADFPGA_MEM_ACC_eq_dec : EqDecision ADFPGA_MEM_ACC.
Proof. solve_decision. Defined.

(** What [pFpga] points to: nothing, the address that [mmap()] gave, or the cells that
    the object allocated. *)
Inductive registers := Nowhere | Mapped (addr : Z) | Allocated (cells : list Z).
Record ADFpgaMem := {
  access_sts : ADFPGA_MEM_ACC;
  emulation_mode : Z;
  fpga_mem_node : option Z;
  pFpga : registers;
  fpga_memsize : Z;
  fpga_memaddr : Z;
}.
Definition new_ADFpgaMem : ADFpgaMem :=
  {| access_sts := ADFPGA_MEM_ACC_OFF; emulation_mode := 0; fpga_mem_node := None; pFpga := Nowhere; fpga_memsize := 0; fpga_memaddr := 0 |}.
Definition with_cells (m : ADFpgaMem) (cells : list Z) : ADFpgaMem :=
  {| access_sts := access_sts m; emulation_mode := emulation_mode m; fpga_mem_node := fpga_mem_node m; pFpga := Allocated cells;
     fpga_memsize := fpga_memsize m; fpga_memaddr := fpga_memaddr m |}.

(** The registers of a device are its own: [device] answers a read and notes a write. *)
Class Device := { world : Type; peek : world -> Z -> Z -> Z; poke : world -> Z -> Z -> Z -> world }.

(** The constant [MAP_FAILED], as the largest pointer. *)
Definition MAP_FAILED : Z := 2 ^ 64 - 1.

Section operations.
Context `{Device}.

(** A register is read, with its result; [None]: no memory is there. *)
Definition read_fpga_register (m : ADFpgaMem) (w : world) (addr : Z) : option (Z * Z) :=
  if decide (access_sts m = ADFPGA_MEM_ACC_OFF) then Some (Rpc.DEV_NOT_ACCESSIBLE, 0)
  else match pFpga m with
       | Nowhere => None
       | Mapped a => if a =? MAP_FAILED then None else Some (Rpc.SUCCESS, u16 (peek w a addr))
       | Allocated cells => d ← cells !! Z.to_nat addr; Some (Rpc.SUCCESS, d)
       end.
Definition write_fpga_register (m : ADFpgaMem) (w : world) (addr data : Z) : option (Z * ADFpgaMem * world) :=
  if decide (access_sts m = ADFPGA_MEM_ACC_OFF) then Some (Rpc.DEV_NOT_ACCESSIBLE, m, w)
  else match pFpga m with
       | Nowhere => None
       | Mapped a => if a =? MAP_FAILED then None else Some (Rpc.SUCCESS, m, poke w a addr (u16 data))
       | Allocated cells =>
           _ ← cells !! Z.to_nat addr;
           Some (Rpc.SUCCESS, with_cells m (<[Z.to_nat addr := u16 data]> cells), w)
       end.
(** The functions for arrays do nothing. *)
Definition read_fpga_register_array (m : ADFpgaMem) : Z := Rpc.SUCCESS.
Definition write_fpga_register_array (m : ADFpgaMem) : Z := Rpc.SUCCESS.

(** A shift by less than nothing or by more than an [int] has is not defined. *)
Definition shifted (bitpos : Z) : option Z := if (0 <=? bitpos) && (bitpos <? 31) then Some (Z.shiftl 1 bitpos) else None.
Definition write_fpga_register_bit (m : ADFpgaMem) (w : world) (addr bitpos bitval : Z) : option (Z * ADFpgaMem * world) :=
  '(rc, data) ← read_fpga_register m w addr;
  if negb (rc =? Rpc.SUCCESS) then Some (Rpc.FAIL, m, w)
  else
    mask ← shifted bitpos;
    let mask := u16 mask in
    let data := if negb (bitval =? 0) then Z.lor data mask else u16 (Z.land data (Z.lnot mask)) in
    write_fpga_register m w addr data.
Definition read_fpga_register_bit (m : ADFpgaMem) (w : world) (addr bitpos : Z) : option (Z * Z) :=
  '(rc, data) ← read_fpga_register m w addr;
  if negb (rc =? Rpc.SUCCESS) then Some (Rpc.FAIL, 0)
  else
    mask ← shifted bitpos;
    let data := u16 (Z.land data mask) in
    Some (Rpc.SUCCESS, if data =? 0 then 0 else 1).
End operations.

(** [connect()]: [opened] and [mapped] are the answers of [open()] and [mmap()], [junk] is
    what the cells hold that [new] gives.  An address is compared with [MAP_FAILED] as a
    number. *)
Definition connect (m : ADFpgaMem) (fpga_mem_addr fpga_mem_size opened mapped : Z) (junk : list Z) : Z * ADFpgaMem :=
  if decide (access_sts m = ADFPGA_MEM_ACC_ON) then (Rpc.SUCCESS, m)
  else if emulation_mode m =? 0 then
    if opened <? 0 then (Rpc.DEV_NOT_ACCESSIBLE, m)
    else if mapped <? MAP_FAILED then (Rpc.DEV_NOT_ACCESSIBLE, m)
    else (Rpc.SUCCESS,
          {| access_sts := ADFPGA_MEM_ACC_ON; emulation_mode := emulation_mode m; fpga_mem_node := Some opened; pFpga := Mapped mapped;
             fpga_memsize := fpga_mem_size; fpga_memaddr := fpga_mem_addr |})
  else (Rpc.SUCCESS,
        {| access_sts := ADFPGA_MEM_ACC_ON; emulation_mode := emulation_mode m; fpga_mem_node := fpga_mem_node m; pFpga := Allocated junk;
           fpga_memsize := fpga_memsize m; fpga_memaddr := fpga_memaddr m |}).
(** [disconnect()]: [None] when the memory is not of the kind that is released. *)
Definition disconnect (m : ADFpgaMem) : option (Z * ADFpgaMem) :=
  if decide (access_sts m = ADFPGA_MEM_ACC_OFF) then Some (Rpc.SUCCESS, m)
  else
    let off size addr node := {| access_sts := ADFPGA_MEM_ACC_OFF; emulation_mode := emulation_mode m; fpga_mem_node := node;
                                 pFpga := Nowhere; fpga_memsize := size; fpga_memaddr := addr |} in
    match pFpga m, emulation_mode m =? 0 with
    | Mapped _, true => Some (Rpc.SUCCESS, off 0 0 None)
    | Allocated _, false => Some (Rpc.SUCCESS, off (fpga_memsize m) (fpga_memaddr m) (fpga_mem_node m))
    | _, _ => None
    end.
Definition set_emulation_mode (m : ADFpgaMem) (mode : Z) : Z * ADFpgaMem :=
  (Rpc.SUCCESS,
   {| access_sts := access_sts m; emulation_mode := mode; fpga_mem_node := fpga_mem_node m; pFpga := pFpga m;
      fpga_memsize := fpga_memsize m; fpga_memaddr := fpga_memaddr m |}).
Definition get_emulation_mode (m : ADFpgaMem) : Z * Z := (Rpc.SUCCESS, emulation_mode m).
Definition get_connection_status (m : ADFpgaMem) : ADFPGA_MEM_ACC := access_sts m.

End Fpga.

Module Minutes.

Definition TEN_SECONDS : Z := 10000.

(** [attached] says that there is a heartbeat ([pMyTimer]). *)
Record ADRuntimeMinCounter := {
  Counter : Z;
  counting : bool;
  heartbeat_ms_time : Z;
  current_uptime_sec : Z;
  last_uptime_sec : Z;
  ten_sec_counter : Z;
  attached : bool;
}.
Definition new_ADRuntimeMinCounter : ADRuntimeMinCounter :=
  {| Counter := 0; counting := false; heartbeat_ms_time := 100; current_uptime_sec := 0; last_uptime_sec := 0; ten_sec_counter := 0;
     attached := false |}.
Definition with_counter (c : ADRuntimeMinCounter) (n : Z) : ADRuntimeMinCounter :=
  {| Counter := n; counting := counting c; heartbeat_ms_time := heartbeat_ms_time c; current_uptime_sec := current_uptime_sec c;
     last_uptime_sec := last_uptime_sec c; ten_sec_counter := ten_sec_counter c; attached := attached c |}.
Definition with_times (c : ADRuntimeMinCounter) (now last ten : Z) : ADRuntimeMinCounter :=
  {| Counter := Counter c; counting := counting c; heartbeat_ms_time := heartbeat_ms_time c; current_uptime_sec := now;
     last_uptime_sec := last; ten_sec_counter := ten; attached := attached c |}.
Definition with_state (c : ADRuntimeMinCounter) (on : bool) (beat : Z) (timer : bool) : ADRuntimeMinCounter :=
  {| Counter := Counter c; counting := on; heartbeat_ms_time := beat; current_uptime_sec := current_uptime_sec c;
     last_uptime_sec := last_uptime_sec c; ten_sec_counter := ten_sec_counter c; attached := timer |}.

Definition AttachHeartBeat (c : ADRuntimeMinCounter) (time_ms : Z) : Z * ADRuntimeMinCounter :=
  if attached c then (0, c) else (0, with_state c (counting c) time_ms true).
(** The uptime of the machine in seconds, [None] when it cannot be read. *)
Definition StartCounting (c : ADRuntimeMinCounter) (uptime : option Z) : Z * ADRuntimeMinCounter :=
  if negb (attached c) then (-1, c)
  else
    let c := match uptime with Some t => with_times c (current_uptime_sec c) t (ten_sec_counter c) | None => c end in
    (0, with_state c true (heartbeat_ms_time c) (attached c)).
Definition StopCounting (c : ADRuntimeMinCounter) : Z * ADRuntimeMinCounter := (0, with_state c false (heartbeat_ms_time c) (attached c)).
(** The argument is an [int], the counter an [unsigned long]. *)
Definition IncreaseMinuteCount (c : ADRuntimeMinCounter) (new_val : Z) : Z * ADRuntimeMinCounter :=
  (0, with_counter c (wrap_u 64 (Counter c + i32 new_val))).
Definition SetCounterValue (c : ADRuntimeMinCounter) (minutes : Z) : Z * ADRuntimeMinCounter := (0, with_counter c minutes).
Definition GetCounterValue (c : ADRuntimeMinCounter) : Z := Counter c.

(** A heartbeat; the uptime is asked for every ten seconds. *)
Definition timer_notification (c : ADRuntimeMinCounter) (uptime : option Z) : ADRuntimeMinCounter :=
  if negb (counting c) then c
  else
    let ten := i32 (ten_sec_counter c + heartbeat_ms_time c) in
    let c := with_times c (current_uptime_sec c) (last_uptime_sec c) ten in
    if ten <? TEN_SECONDS then c
    else
      let c := with_times c (current_uptime_sec c) (last_uptime_sec c) 0 in
      match uptime with
      | None => c
      | Some now =>
          let c := with_times c now (last_uptime_sec c) (ten_sec_counter c) in
          let diff := wrap_u 64 (now - last_uptime_sec c) in
          if diff <? 60 then c
          else
            let c := (IncreaseMinuteCount c (diff / 60)).2 in
            with_times c (current_uptime_sec c) (current_uptime_sec c) (ten_sec_counter c)
      end.
(** Heartbeats, with the uptime at each. *)
Definition beats (c : ADRuntimeMinCounter) (uptimes : list (option Z)) : ADRuntimeMinCounter := foldl timer_notification c uptimes.

(** How often the counter is increased. *)
Fixpoint increases (c : ADRuntimeMinCounter) (uptimes : list (option Z)) : Z :=
  match uptimes with
  | [] => 0
  | u :: r =>
      let c' := timer_notification c u in
      (if decide (last_uptime_sec c' = last_uptime_sec c) then 0 else 1) + increases c' r
  end.
(** The clock of the machine: it never goes back, and it fits. *)
Fixpoint clock (since : Z) (uptimes : list (option Z)) : Prop :=
  match uptimes with
  | [] => True
  | None :: r => clock since r
  | Some t :: r => since <= t < 2 ^ 31 /\ clock t r
  end.

End Minutes.

(** ** The registers *)
Section registers.
Import Fpga.
Context `{Device}.
Implicit Types m : ADFpgaMem.

(** The device is emulated and connected. *)
Definition emulates m (cells : list Z) : Prop :=
  access_sts m = ADFPGA_MEM_ACC_ON /\ pFpga m = Allocated cells /\ Forall (fun d => 0 <= d < 2 ^ 16) cells.

Lemma emulates_read m cells w addr d :
  emulates m cells -> cells !! Z.to_nat addr = Some d -> read_fpga_register m w addr = Some (Rpc.SUCCESS, d) /\ 0 <= d < 2 ^ 16.
Proof.
  intros (Hon & Hp & Hc) Hd. unfold read_fpga_register. rewrite Hon, Hp, Hd. split; [done|]. by eapply Forall_lookup in Hc.
Qed.
Lemma emulates_write m cells w addr d data :
  emulates m cells -> cells !! Z.to_nat addr = Some d ->
  write_fpga_register m w addr data = Some (Rpc.SUCCESS, with_cells m (<[Z.to_nat addr := u16 data]> cells), w) /\
  emulates (with_cells m (<[Z.to_nat addr := u16 data]> cells)) (<[Z.to_nat addr := u16 data]> cells).
Proof.
  intros (Hon & Hp & Hc) Hd. unfold write_fpga_register. rewrite Hon, Hp, Hd. simpl. split; [done|]. split_and!; try done.
  apply Forall_insert; [done|]. by apply (wrap_u_range 16).
Qed.
Lemma u16_testbit x k : 0 <= k < 16 -> Z.testbit (u16 x) k = Z.testbit x k.
Proof. intros. unfold wrap_u. by rewrite Z.mod_pow2_bits_low by lia. Qed.
Lemma bit_of (d k : Z) : 0 <= d < 2 ^ 16 -> 0 <= k < 16 ->
  (if u16 (Z.land d (Z.shiftl 1 k)) =? 0 then 0 else 1) = (if Z.testbit d k then 1 else 0).
Proof.
  intros Hd Hk. rewrite Z.shiftl_1_l.
  assert (Z.land d (2 ^ k) = if Z.testbit d k then 2 ^ k else 0) as ->.
  { apply Z.bits_inj'. intros n Hn. rewrite Z.land_spec, Z.pow2_bits_eqb by lia. destruct (Z.eqb_spec k n) as [->|Hne].
    - rewrite andb_true_r. destruct (Z.testbit d n); [by rewrite Z.pow2_bits_true by lia|by rewrite Z.bits_0].
    - rewrite andb_false_r. destruct (Z.testbit d k); [by rewrite Z.pow2_bits_false by lia|by rewrite Z.bits_0]. }
  destruct (Z.testbit d k); [|done].
  assert (0 < 2 ^ k) by (apply Z.pow_pos_nonneg; lia). assert (2 ^ k < 2 ^ 16) by (apply Z.pow_lt_mono_r; lia).
  rewrite wrap_u_id by lia. by destruct (Z.eqb_spec (2 ^ k) 0); [lia|].
Qed.
Lemma emulates_bit m cells w addr d k : emulates m cells -> cells !! Z.to_nat addr = Some d -> 0 <= k < 16 ->
  read_fpga_register_bit m w addr k = Some (Rpc.SUCCESS, if Z.testbit d k then 1 else 0).
Proof.
  intros Hm Hd Hk. destruct (emulates_read m cells w addr d Hm Hd) as [E Hr]. unfold read_fpga_register_bit. rewrite E. simpl.
  unfold shifted. destruct (Z.leb_spec 0 k); [|lia]. destruct (Z.ltb_spec k 31); [|lia]. simpl. by rewrite bit_of.
Qed.

(** A bit that was written is read again, and the other bits of the register, and the other
    registers, are what they were. *)
Theorem bit_roundtrip m cells w addr d bitpos bitval :
  emulates m cells -> cells !! Z.to_nat addr = Some d -> 0 <= bitpos < 16 ->
  exists m' cells', write_fpga_register_bit m w addr bitpos bitval = Some (Rpc.SUCCESS, m', w) /\ emulates m' cells' /\
    (forall k, 0 <= k < 16 -> read_fpga_register_bit m' w addr k =
       if decide (k = bitpos) then Some (Rpc.SUCCESS, if bitval =? 0 then 0 else 1) else read_fpga_register_bit m w addr k) /\
    (forall a, Z.to_nat a <> Z.to_nat addr -> cells' !! Z.to_nat a = cells !! Z.to_nat a).
Proof.
  intros Hm Hd Hb. destruct (emulates_read m cells w addr d Hm Hd) as [E Hr]. unfold write_fpga_register_bit. rewrite E. simpl.
  unfold shifted at 1. destruct (Z.leb_spec 0 bitpos); [|lia]. destruct (Z.ltb_spec bitpos 31); [|lia]. simpl.
  set (data := if negb (bitval =? 0) then _ else _).
  destruct (emulates_write m cells w addr d data Hm Hd) as [Ew Hm']. rewrite Ew. do 2 eexists. split_and!; [done|exact Hm'| |].
  2:{ intros a Ha. by rewrite list_lookup_insert_ne by done. }
  intros k Hk. rewrite (emulates_bit _ _ w addr (u16 data) k Hm'), u16_testbit by
    (try lia; apply list_lookup_insert_eq; by eapply lookup_lt_Some).
  rewrite (emulates_bit m cells w addr d k Hm Hd Hk).
  assert (Z.testbit data k = if decide (k = bitpos) then negb (bitval =? 0) else Z.testbit d k) as ->.
  { unfold data. rewrite Z.shiftl_1_l. destruct (bitval =? 0); simpl.
    - rewrite u16_testbit, Z.land_spec, Z.lnot_spec, u16_testbit, Z.pow2_bits_eqb by lia.
      case_decide; destruct (Z.eqb_spec bitpos k); subst; simpl; try lia; by rewrite ?andb_false_r, ?andb_true_r.
    - rewrite Z.lor_spec, u16_testbit, Z.pow2_bits_eqb by lia.
      case_decide; destruct (Z.eqb_spec bitpos k); subst; simpl; try lia; by rewrite ?orb_false_r, ?orb_true_r. }
  case_decide; [|done]. by destruct (bitval =? 0).
Qed.
End registers.

(** *** Connecting *)

(** A mapping that worked lies below [MAP_FAILED], and is refused: a device that can be
    mapped is never connected.  One that cannot be is, and none of its registers is there. *)
Theorem mapping_misjudged `{Fpga.Device} (m : Fpga.ADFpgaMem) (addr size opened mapped : Z) junk :
  Fpga.access_sts m = Fpga.ADFPGA_MEM_ACC_OFF -> Fpga.emulation_mode m = 0 -> 0 <= opened ->
  (0 <= mapped < Fpga.MAP_FAILED -> Fpga.connect m addr size opened mapped junk = (Rpc.DEV_NOT_ACCESSIBLE, m)) /\
  (mapped = Fpga.MAP_FAILED -> exists m', Fpga.connect m addr size opened mapped junk = (Rpc.SUCCESS, m') /\
     Fpga.get_connection_status m' = Fpga.ADFPGA_MEM_ACC_ON /\ forall w reg, Fpga.read_fpga_register m' w reg = None).
Proof.
  intros Hoff Hem Ho. unfold Fpga.connect. rewrite Hoff, Hem. simpl. destruct (Z.ltb_spec opened 0); [lia|].
  destruct (Z.ltb_spec mapped Fpga.MAP_FAILED); split; intros Hm; try lia; [done|]. eexists. split_and!; [done..|].
  intros w reg. unfold Fpga.read_fpga_register. simpl. by rewrite Hm.
Qed.
(** In emulation, connecting and disconnecting go together. *)
Lemma emulation_connects m addr size opened mapped junk :
  Fpga.access_sts m = Fpga.ADFPGA_MEM_ACC_OFF -> Fpga.emulation_mode m <> 0 -> Forall (fun d => 0 <= d < 2 ^ 16) junk ->
  exists m', Fpga.connect m addr size opened mapped junk = (Rpc.SUCCESS, m') /\ emulates m' junk /\
    exists m'', Fpga.disconnect m' = Some (Rpc.SUCCESS, m'') /\ Fpga.get_connection_status m'' = Fpga.ADFPGA_MEM_ACC_OFF.
Proof.
  intros Hoff Hem Hj. unfold Fpga.connect. rewrite Hoff. simpl. destruct (Z.eqb_spec (Fpga.emulation_mode m) 0); [lia|].
  eexists. split_and!; [done..|]. unfold Fpga.disconnect. simpl. destruct (Z.eqb_spec (Fpga.emulation_mode m) 0); [lia|]. by eexists.
Qed.

(** ** The minutes *)
Section minutes.
Import Minutes.
Implicit Types c : ADRuntimeMinCounter.

(** A heartbeat leaves the count as it is, or adds the whole minutes since the last time. *)
Lemma beat_counts c u since :
  counting c = true -> 0 <= last_uptime_sec c <= since -> 0 <= Counter c < 2 ^ 63 -> clock since [u] ->
  let c' := timer_notification c u in
  counting c' = true /\
  ((last_uptime_sec c' = last_uptime_sec c /\ Counter c' = Counter c) \/
   (exists now, u = Some now /\ last_uptime_sec c' = now /\ 60 <= now - last_uptime_sec c /\
      Counter c' = Counter c + (now - last_uptime_sec c) / 60)).
Proof.
  intros Hon Hlast Hcnt Hclock. unfold timer_notification. rewrite Hon. simpl. destruct (_ <? TEN_SECONDS); [by auto|].
  destruct u as [now|]; [|by auto]. simpl in Hclock. destruct Hclock as [Hnow _]. simpl. rewrite wrap_u_id by lia.
  destruct (Z.ltb_spec (now - last_uptime_sec c) 60); [by auto|]. split; [done|]. right. exists now.
  assert (0 <= (now - last_uptime_sec c) / 60 < 2 ^ 31) as Hq by (split; [apply Z.div_pos; lia|apply Z.div_lt_upper_bound; lia]).
  simpl. rewrite i32_id by (unfold int_min, int_max; lia). rewrite wrap_u_id by lia. split_and!; try done; lia.
Qed.
Lemma clock_since s s' l : s' <= s -> clock s l -> clock s' l.
Proof. revert s s'. induction l as [|[t|] l IH]; intros s s' Hs Hl; simpl in *; [done| |by eapply IH]. destruct Hl. split; [lia|done]. Qed.

(** While it counts, on a clock that does not go back: the counter never counts a minute
    that has not passed, and with each increase it falls behind by less than a minute, for
    the seconds that are left over are dropped. *)
Theorem minutes_counted c l since :
  counting c = true -> 0 <= last_uptime_sec c <= since -> since < 2 ^ 31 -> 0 <= Counter c < 2 ^ 62 -> clock since l ->
  let c' := beats c l in
  let gain := GetCounterValue c' - GetCounterValue c in
  let elapsed := last_uptime_sec c' - last_uptime_sec c in
  0 <= gain /\ 60 * gain <= elapsed <= 60 * gain + 59 * increases c l.
Proof.
  unfold GetCounterValue. revert c since. cut (forall c since,
    counting c = true -> 0 <= last_uptime_sec c <= since -> since < 2 ^ 31 ->
    0 <= Counter c /\ Counter c * 60 + 60 * (2 ^ 31 - last_uptime_sec c) < 60 * 2 ^ 63 -> clock since l ->
    0 <= Counter (beats c l) - Counter c /\
    60 * (Counter (beats c l) - Counter c) <= last_uptime_sec (beats c l) - last_uptime_sec c <=
    60 * (Counter (beats c l) - Counter c) + 59 * increases c l).
  { intros Hcut c since Hon Hl Hs Hc Hclk. eapply Hcut; eauto. lia. }
  induction l as [|u l IH]; intros c since Hon Hlast Hs Hcnt Hclk; simpl; [lia|].
  assert (clock since [u]) as Hu by (destruct u; simpl in *; tauto).
  destruct (beat_counts c u since Hon Hlast ltac:(lia) Hu) as [Hon' Hc'].
  set (c1 := timer_notification c u) in *. change (beats c (u :: l)) with (beats c1 l).
  assert (clock since l) as Hl.
  { destruct u; simpl in Hclk; [|done]. destruct Hclk. eapply clock_since; [|done]. lia. }
  destruct Hc' as [[El Ec]|(now & -> & El & Hge & Ec)].
  - rewrite decide_True by done. specialize (IH c1 since Hon' ltac:(lia) Hs ltac:(lia) Hl). lia.
  - rewrite decide_False by lia. simpl in Hclk. destruct Hclk as [Hnow Hclk].
    pose proof (Z.div_mod (now - last_uptime_sec c) 60 ltac:(lia)). pose proof (Z.mod_pos_bound (now - last_uptime_sec c) 60 ltac:(lia)).
    specialize (IH c1 now Hon' ltac:(lia) ltac:(lia) ltac:(lia) Hclk). lia.
Qed.

(** With a heartbeat of eleven seconds, eleven minutes are counted as ten. *)
Example minutes_lag :
  let c := with_state (with_counter new_ADRuntimeMinCounter 0) true 11000 true in
  let c' := beats c (map (fun i => Some (11 * Z.of_nat i)) (seq 1 60)) in
  GetCounterValue c' = 10 /\ last_uptime_sec c' = 660.
Proof. vm_compute. done. Qed.
End minutes.
